(* ===== verification/_CoqProject ===== *)
-Q . S2P
Prelude.v
Decimal.v
Json.v
PyTime.v
Models.v
Session.v
PaperBroker.v
PaperLedger.v
PaperExec.v
PaperProps.v
Fence.v
WorkerState.v
SchedulerState.v
OrderSender.v
SenderProps.v
RiskCalc.v
RiskEvents.v
Policies.v
OrderCreation.v
MarketCalendar.v
Venue.v
DecimalText.v
MarketWatch.v
WatchProps.v
Scheduling.v
PyText.v
Urls.v
Config.v
Regex.v
Watchlist.v
KiwoomWs.v
Kiwoom.v
KiwoomClient.v
Guards.v
Approvals.v
Fixtures.v
ApprovalProps.v
DecisionExecution.v
DecisionInputs.v
MockDecision.v
MockProps.v
Frames.v
Fusion.v
LlmCatalog.v
LlmTables.v
LlmPrompts.v
LlmProfiles.v
LlmRoutes.v
ProfileProps.v
EndpointProps.v
ProfileAdmin.v
AgentContracts.v
AgentQueue.v
Collectors.v
AgentRuntime.v
LlmAdapters.v
AgentRuns.v
AgentStages.v
StageFrame.v
StageProps.v
RunProps.v
AnalysisTick.v
AssignmentRuns.v
AgentProps.v
AgentSettle.v
RoutingProps.v
StopTrigger.v
StopProps.v
AccountProjection.v
ProjectionProps.v
Reconciliation.v
ReconProps.v
BrokerWorker.v
WorkerFrames.v
WorkerProps.v
AuthCrypto.v
Auth.v
AuthProps.v
LoginProps.v
AdminCommands.v
