(* ===== verification/Prelude.v ===== *)
(** * Cresta: a verification of the trading backend

    Cresta ([src/backend/app], Python) watches a list of Korean stocks, takes a
    decision on each of them in fixed slots, guards every decision, turns the
    permitted ones into approvals or orders, sends the orders to a broker and
    keeps its books reconciled with the broker's account.  This library models
    that code as executable definitions over an explicit database and proves
    what its parts promise.

    ** The parts and how they interact

    Quotes are read from the broker's websocket by [KiwoomWs]
    ([broker/kiwoom_ws.py]) and arrive at [MarketWatch] ([watch.py],
    [indicators.py]), which keeps snapshots, minute bars and indicators.  On each slot of [Scheduling] the
    process of [AnalysisTick] ([analysis_scheduler.py]) takes a deterministic
    decision per target: [DecisionInputs] ([decision_inputs.py],
    [agents/server_inputs.py]) and [MockDecision] ([mock_ai.py]).  It also starts
    a run of the agents: [AgentRuns] ([agents/runtime.py]) freezes the routes,
    the position and the market context ([market_context.py]) and stores a graph of stages, which workers take from the queue of
    [AgentQueue] ([agents/worker.py]).  [AgentStages] is what a stage computes:
    it gathers evidence ([Collectors]: [agents/dart.py], [agents/krx.py],
    [agents/naver_news.py], over [Urls]), and assesses it by rule or by a model
    ([AgentRuntime], over [LlmCatalog]: [llm/discovery.py], [llm/registry.py],
    [llm/parameter_policy.py], and an adapter, of which [LlmAdapters] are those
    of [llm/adapters/] with [llm/source_candidates.py]), whose answers are held to [AgentContracts]
    ([agents/contracts.py], [agents/reason_codes.py]).  [StageFrame] shows that
    it fits the queue.  [Fusion] ([position_agent_fusion.py]) may escalate the
    decision about a position after that advice.
    [DecisionExecution] ([decision_execution.py]) routes decisions under the
    active policies ([Policies]: [risk_policy.py], [execution_policy.py]) and
    the guards ([Guards], over [RiskCalc]: [risk_calc.py], [RiskEvents]:
    [risk_events.py], [guard.py] and [emergency_stop.py], [MarketCalendar] with
    [calendar_overrides.py], [Venue]: [venue_selection.py]).  A routed decision
    becomes a pending approval ([Approvals]: [approvals.py]) or an order
    ([OrderCreation]: [order_creation.py]).  [StopTrigger] ([stop_trigger.py])
    creates the SELL orders of crossed stops.  [PaperBroker]
    ([trading/paper.py]) is the broker of the paper environment.  For the real
    one, [OrderSender] ([broker/order_sender.py]) transmits CREATED orders
    through [KiwoomClient] and [Kiwoom] ([broker/kiwoom.py],
    [broker/result_details.py]) under the lease of [WorkerState]
    ([broker/worker_state.py]); [AccountProjection] ([account_projection.py])
    and [Reconciliation] ([reconciliation.py]) import the broker's account and
    settle the trading gate.  [BrokerWorker] ([worker.py]) is the process that
    holds that lease and runs these parts, the stops and the feed, subscribed to
    the symbols of [Watchlist] ([watchlist.py]).  People come in through
    [Auth] ([auth/service.py], [api/auth.py] and [api/dependencies.py], over
    [AuthCrypto]: [auth/crypto.py]), whose gates every route passes;
    [AdminCommands] ([cli.py]) makes their account.  They set up the models the
    agents use: providers and models ([LlmProfiles]: [llm/profiles.py]) with
    their credentials and rows ([LlmTables]: [llm/secrets.py]), prompts
    ([LlmPrompts]: [llm/prompts.py], screened by the patterns of [Regex]) and
    routes with the assignment of the five roles ([LlmRoutes]: [llm/profiles.py],
    [llm/router.py], [api/llm.py]).  [SchedulerState] ([analysis_scheduler_state.py])
    holds the lease of the scheduler; [Fence] is the contract both leases
    refine.

    ** How the code is modelled

    [Models] has the tables of [models.py], one record per row, and the record
    [DB] of all tables; a query's rows come in key order where the code leaves
    the order to the database.  [Session] is SQLAlchemy's unit of work as a
    state and error monad: a working and a durable copy, [commit], [rollback],
    exceptions as values, the clock and the identifiers as inputs.  What other
    sessions commit between a query and a flush is an explicit argument (the
    [race] parameters), and a violated unique constraint raises
    [IntegrityError].  [AccountProjection] has a finer unit of work because
    [autoflush=False] is visible in it.  [Decimal] is [decimal.Decimal] with 28
    digits, [DecimalText] and [PyText] the text of numbers, the string methods and
    the dictionaries, [Urls] and [Regex] the parts of [ipaddress],
    [urllib.parse] and [re] the code uses, [DecisionInputs] has the one use of
    binary floats, [Json] the canonical
    JSON the code hashes, [PyTime] instants in microseconds and the calendar.
    Text is ASCII, bytes for characters.  A number the broker sends may be
    infinite ([amount]), in an account snapshot as in a quote, which is then
    never stored; the projection and the reconciliation take snapshots of
    decimals.

    Code outside the repository is a parameter: [sha256], Argon2, AES-GCM and the
    generator of one-time codes (the record [CryptoLibrary]), the [holidays]
    package, the network of the broker client, of the collectors and of the
    model adapters, the readers of archives, mail dates and Unicode, what the
    file system refuses ([FileFaults]), the JSON schema of a class and pydantic's coercions (the
    class [Pydantic]), the core output as [Fusion] reads it, the redaction
    patterns of broker messages, and the audit columns of a position that the
    database fills.  The caches of the collectors are inputs of a stage.  Loops
    have a bound that is proved enough: 7 days per public holiday in the search
    for the last trading day of a year, 2 steps over a weekend; the 20
    continuation pages of a broker reply and the pages of a search for
    disclosures are the code's own bounds.  A process that polls is the list of
    its polls, a process that waits for messages the list of its turns.

    ** What is proved, by group

    - the ledger of the paper broker ([PaperLedger], [PaperExec], [PaperProps]):
      its invariant over all reachable databases, atomicity of failures,
      idempotency, bounds of the average price, late fills, covered sells;
    - leases ([WorkerState], [SchedulerState]) and transmission ([SenderProps]):
      a superseded process writes nothing, and each order is transmitted at
      most once in every interleaving, crashes included;
    - risk and policy ([RiskCalc], [RiskEvents], [Policies], [Guards]): exact
      exposure, the pause automaton, one active version, the largest affordable
      quantity;
    - calendar and venue ([MarketCalendar], [Venue]): termination of the year
      end search, overrides, soundness of the venue choice;
    - approvals and routing ([ApprovalProps], [RoutingProps]): an approval is
      settled once by whoever holds the lock of its row, and becomes exactly the
      guarded order; what a rollback that gives up the lock may overwrite;
      routing obeys the mode, the stage and the guard, and is idempotent;
    - logins ([AuthProps], [LoginProps]): the requests refine a
      step system of guarded events when they are served one after the other; a
      login takes both factors, codes and challenges serve once, a logout is
      final, guesses are bounded; examples show what two requests at once may do;
    - the administration of models ([ProfileProps], [ProfileAdmin],
      [AssignmentRuns], [EndpointProps]): any sequence of requests keeps the
      tables sound, an activation leaves exactly the selected routes, with which
      the scheduler's runs load if they declare a known schema; literals of
      addresses that are not public are no endpoints; a credential is read back
      as it was written;
    - the broker worker ([WorkerFrames], [WorkerProps]): orders follow
      reconciliations that succeeded, and a superseded worker is silent;
    - stops ([StopProps]): stop orders are guarded, a stop signal persists;
    - the broker's account ([KiwoomClient], [ProjectionProps], [ReconProps]):
      typed snapshots, one post per order call, the outcomes of a
      reconciliation and what it settles;
    - quotes and schedule ([KiwoomWs], [WatchProps], [Scheduling]): what the
      feed reads passes the checks of the watch, the watch invariant, streams
      only advance, and every trading instant has its slot;
    - decisions ([MockProps], [Fusion]): the deterministic policies decide on
      exactly the stored numbers, a reached stop always sells, and agents can
      only escalate, on complete grounds;
    - the scheduler ([AnalysisTick]): a tick survives the failure of a target,
      decides once per request and ticks once per slot, under its lease;
    - runs ([RunProps]): a created run is executable as it is, creation is
      idempotent and a decision is advised on once;
    - the queue ([AgentProps], [AgentSettle]): stages move along an automaton
      with bounded attempts and final results, claims are fenced, runs settle
      with their last stage; a recovery that overlaps a commit to the stage it
      takes for expired is left out, and an example shows what it loses;
    - stages ([StageFrame], [StageProps]): a stage writes its own row and ends
      with a result, scouts cite verified evidence only, the core abstains while
      a scout is incomplete;
    - calls of models ([LlmAdapters]): whatever a provider answers, a call ends
      with a result whose parts agree, or with a known error;
    - evidence and contracts ([Collectors], [AgentContracts]): bounded searches,
      safe links, contracts that read back what they print;
    - configuration ([Config], of [config.py] and [ids.py]): a process that starts is
      that of the first release; credentials load exactly when their status says so,
      the address of the database carries the password of the file, identifiers
      carry their fields and are ordered by the clock.

    [Fixtures] and the end of [StageProps] are a concrete trading day and run on
    which the theorems are evaluated.

    ** Not modelled

    Pure input and output and glue: the HTTP routes, the reading of the environment
    and the opening of the database, the manual test order; the cryptographic
    primitives of the authentication (parameters of [AuthCrypto]). *)

From Stdlib Require Import ZArith Lia.
From stdpp Require Import base numbers strings list gmap.

Set Default Proof Using "Type".

(** ** Notation scope and automation of the development *)

Declare Scope cresta_scope.
Delimit Scope cresta_scope with cresta.

Create HintDb cresta.

(** [lia] with quotients and remainders. *)
Ltac div_lia := Z.to_euclidean_division_equations; lia.

(** Split every conjunction and existential among the hypotheses. *)
Ltac split_hyps :=
  repeat match goal with
  | H : _ /\ _ |- _ => destruct H
  | H : exists _, _ |- _ => destruct H
  | H : (_, _) = (_, _) |- _ => injection H; clear H; intros
  | H : Some _ = Some _ |- _ => injection H; clear H; intros
  end.

(** Turn the boolean comparisons of the code into propositions for [lia]. *)
Ltac bool_to_prop :=
  repeat match goal with
  | H : _ && _ = true |- _ => apply andb_true_iff in H; destruct H
  | H : _ || _ = false |- _ => apply orb_false_iff in H; destruct H
  | H : negb _ = true |- _ => apply negb_true_iff in H
  | H : negb _ = false |- _ => apply negb_false_iff in H
  | H : bool_decide _ = true |- _ => apply bool_decide_eq_true in H
  | H : bool_decide _ = false |- _ => apply bool_decide_eq_false in H
  | H : (_ <? _)%Z = true |- _ => apply Z.ltb_lt in H
  | H : (_ <? _)%Z = false |- _ => apply Z.ltb_ge in H
  | H : (_ <=? _)%Z = true |- _ => apply Z.leb_le in H
  | H : (_ <=? _)%Z = false |- _ => apply Z.leb_gt in H
  | H : (_ =? _)%Z = true |- _ => apply Z.eqb_eq in H
  | H : (_ =? _)%Z = false |- _ => apply Z.eqb_neq in H
  end.

(** Case analysis on the innermost [match] or [if] of a hypothesis. *)
Ltac case_in H :=
  match type of H with
  | context [match ?x with _ => _ end] =>
      lazymatch x with
      | context [match _ with _ => _ end] => fail
      | _ => let E := fresh "E" in destruct x eqn:E
      end
  end.

(** Enumerate the branches of a definition unfolded in [H], discarding the
    contradictory ones. *)
Ltac branches H := repeat (case_in H; simplify_eq H || simplify_eq/=); try discriminate H.

Tactic Notation "inv" hyp(H) := inversion H; subst; clear H.

(** ** Generic lemmas on lists *)

(** [existsb_bool f l]: some row of [l] satisfies [f], the shape of the code's
    existence queries. *)
Lemma existsb_false_Forall {A} (f : A -> bool) (l : list A) :
  existsb f l = false <-> Forall (fun x => f x = false) l.
Proof.
  induction l as [|x l IH]; simpl; [split; auto|].
  rewrite orb_false_iff, IH, Forall_cons. tauto.
Qed.

(** The sum of an integer measure over a list. *)
Definition zsum {A} (f : A -> Z) (l : list A) : Z :=
  foldr (fun x acc => (f x + acc)%Z) 0%Z l.

Lemma zsum_app {A} (f : A -> Z) l1 l2 :
  zsum f (l1 ++ l2) = (zsum f l1 + zsum f l2)%Z.
Proof. induction l1; simpl; lia. Qed.

Lemma zsum_nonneg {A} (f : A -> Z) l :
  Forall (fun x => (0 <= f x)%Z) l -> (0 <= zsum f l)%Z.
Proof. induction 1; simpl; lia. Qed.

Lemma zsum_ext {A} (f g : A -> Z) l :
  (forall x, x ∈ l -> f x = g x) -> zsum f l = zsum g l.
Proof.
  induction l as [|x l IH]; intros H; simpl; [done|].
  rewrite (H x), IH; [done| |apply list_elem_of_here].
  intros y Hy. apply H. by apply list_elem_of_further.
Qed.

Lemma zsum_perm {A} (f : A -> Z) l1 l2 : l1 ≡ₚ l2 -> zsum f l1 = zsum f l2.
Proof. induction 1; simpl; lia. Qed.

#[export] Instance zsum_Proper {A} (f : A -> Z) :
  Proper ((≡ₚ) ==> eq) (zsum f).
Proof. intros l1 l2 H. by apply zsum_perm. Qed.

Lemma zsum_zero {A} (f : A -> Z) l :
  (forall x, x ∈ l -> f x = 0%Z) -> zsum f l = 0%Z.
Proof.
  intros H. rewrite (zsum_ext f (fun _ => 0%Z) l H). induction l; simpl; auto.
  rewrite IHl; [done|]. intros x Hx. apply H. by apply list_elem_of_further.
Qed.

(** ** Tables: finite maps keyed by the primary key *)

(** The rows of a table, in the order of its keys. *)
Definition rows {V} (m : gmap string V) : list V := (map_to_list m).*2.

#[export] Instance bool_filter_perm {A} (f : A -> bool) : Proper ((≡ₚ) ==> (≡ₚ)) (List.filter f).
Proof.
  intros l1 l2 H. induction H as [|x l1 l2 H IH|x y l|l1 l2 l3 H1 IH1 H2 IH2]; cbn; [done| | |by etrans].
  - destruct (f x); [by constructor|done].
  - destruct (f x), (f y); done || constructor.
Qed.

(** The sum of a measure over the rows of a table. *)
Definition msum {V} (f : V -> Z) (m : gmap string V) : Z := zsum f (rows m).

Lemma rows_empty {V} : rows (∅ : gmap string V) = [].
Proof. unfold rows. by rewrite map_to_list_empty. Qed.

Lemma elem_of_rows {V} (m : gmap string V) v :
  v ∈ rows m <-> exists k, m !! k = Some v.
Proof.
  unfold rows. rewrite list_elem_of_fmap. split.
  - intros [[k v'] [-> Hin]]. apply elem_of_map_to_list in Hin. eauto.
  - intros [k Hk]. exists (k, v). by rewrite elem_of_map_to_list.
Qed.

Lemma rows_insert_fresh {V} (m : gmap string V) k v :
  m !! k = None -> rows (<[k:=v]> m) ≡ₚ v :: rows m.
Proof. intros H. unfold rows. by rewrite map_to_list_insert. Qed.

Lemma rows_insert_old {V} (m : gmap string V) k v0 v :
  m !! k = Some v0 -> rows (<[k:=v]> m) ≡ₚ v :: rows (delete k m).
Proof.
  intros H. rewrite <- insert_delete_eq. unfold rows.
  rewrite map_to_list_insert; [done|]. apply lookup_delete_eq.
Qed.

Lemma rows_delete {V} (m : gmap string V) k v :
  m !! k = Some v -> rows m ≡ₚ v :: rows (delete k m).
Proof.
  intros H. rewrite <- (insert_id m k v H) at 1. by apply rows_insert_old with v.
Qed.

Lemma msum_empty {V} (f : V -> Z) : msum f ∅ = 0%Z.
Proof. unfold msum. by rewrite rows_empty. Qed.

Lemma msum_insert_fresh {V} (f : V -> Z) (m : gmap string V) k v :
  m !! k = None -> msum f (<[k:=v]> m) = (f v + msum f m)%Z.
Proof. intros H. unfold msum. by rewrite rows_insert_fresh. Qed.

Lemma msum_insert_old {V} (f : V -> Z) (m : gmap string V) k v0 v :
  m !! k = Some v0 -> msum f (<[k:=v]> m) = (msum f m + f v - f v0)%Z.
Proof.
  intros H. unfold msum. rewrite (rows_insert_old _ _ _ _ H).
  rewrite (rows_delete m k v0 H). simpl. lia.
Qed.

Lemma msum_ext {V} (f g : V -> Z) (m : gmap string V) :
  (forall k v, m !! k = Some v -> f v = g v) -> msum f m = msum g m.
Proof.
  intros H. apply zsum_ext. intros v Hv. apply elem_of_rows in Hv as [k Hk]. eauto.
Qed.

Lemma msum_nonneg {V} (f : V -> Z) (m : gmap string V) :
  (forall k v, m !! k = Some v -> (0 <= f v)%Z) -> (0 <= msum f m)%Z.
Proof.
  intros H. apply zsum_nonneg, Forall_forall. intros v Hv.
  apply elem_of_rows in Hv as [k Hk]. eauto.
Qed.

(** A decidable property of every row of a concrete table. *)
Lemma rows_forallb {V} (f : string * V -> bool) (m : gmap string V) :
  forallb f (map_to_list m) = true -> forall k v, m !! k = Some v -> f (k, v) = true.
Proof.
  rewrite forallb_forall. intros H k v Hk. apply H, list_elem_of_In.
  by apply elem_of_map_to_list.
Qed.

(** [find_row f m]: the code's [db.scalar(select(T).where(f))]. *)
Definition find_row {V} (f : V -> bool) (m : gmap string V) : option V :=
  List.find f (rows m).

Lemma find_row_Some {V} (f : V -> bool) (m : gmap string V) v :
  find_row f m = Some v -> f v = true /\ exists k, m !! k = Some v.
Proof.
  intros H. apply List.find_some in H as [Hin Hf]. split; [done|].
  apply elem_of_rows. by apply list_elem_of_In.
Qed.

Lemma find_row_None {V} (f : V -> bool) (m : gmap string V) k v :
  find_row f m = None -> m !! k = Some v -> f v = false.
Proof.
  intros H Hk. eapply List.find_none in H; [done|].
  apply list_elem_of_In, elem_of_rows. eauto.
Qed.

(** [order_by(key).limit(1)]: the first row in the order [before] among those
    that satisfy [f]. *)
Definition first_row {V} (before : V -> V -> bool) (f : V -> bool) (m : gmap string V) : option V :=
  foldr (fun v best => match best with
                       | None => Some v
                       | Some b => Some (if before b v then b else v)
                       end) None (List.filter f (rows m)).

Lemma first_row_Some {V} before (f : V -> bool) (m : gmap string V) v :
  first_row before f m = Some v -> f v = true /\ exists k, m !! k = Some v.
Proof.
  unfold first_row. intros H. rewrite <- elem_of_rows.
  assert (Hin : v ∈ List.filter f (rows m)).
  { revert v H. induction (List.filter f (rows m)) as [|x l IH]; simpl; intros v H; [done|].
    destruct (foldr _ None l) as [b|].
    - injection H as <-. destruct (before b x); [|apply list_elem_of_here].
      apply list_elem_of_further. by apply IH.
    - injection H as <-. apply list_elem_of_here. }
  apply list_elem_of_In, List.filter_In in Hin as [Hin Hf]. split; [done|].
  by apply list_elem_of_In.
Qed.

(** ** Sorting: [order_by] *)

(** Insertion sort by a boolean order; equal rows keep the order of the list. *)
Fixpoint insert_by {A} (le : A -> A -> bool) (x : A) (l : list A) : list A :=
  match l with
  | [] => [x]
  | y :: l' => if le x y then x :: l else y :: insert_by le x l'
  end.

Definition sort_by {A} (le : A -> A -> bool) (l : list A) : list A :=
  foldr (insert_by le) [] l.

Lemma insert_by_perm {A} (le : A -> A -> bool) x l : insert_by le x l ≡ₚ x :: l.
Proof.
  induction l as [|y l IH]; simpl; [done|]. destruct (le x y); [done|].
  rewrite IH. apply perm_swap.
Qed.

Lemma sort_by_perm {A} (le : A -> A -> bool) l : sort_by le l ≡ₚ l.
Proof. induction l as [|x l IH]; simpl; [done|]. by rewrite insert_by_perm, IH. Qed.

Lemma sort_by_elem {A} (le : A -> A -> bool) l x : x ∈ sort_by le l <-> x ∈ l.
Proof. by rewrite sort_by_perm. Qed.

#[export] Hint Resolve zsum_nonneg msum_nonneg : cresta.
