(* ===== verification/Decimal.v ===== *)
(** * Python decimals

    The trading code computes prices with Python's [decimal.Decimal] under the
    default context: 28 significant digits, ties to even.  A finite decimal is
    an integer coefficient and a decimal exponent.  The operators compute the
    exact result and round it once to the context precision; [quantize] rounds
    to a fixed exponent and raises [InvalidOperation] when the coefficient does
    not fit in the precision.  Signed zeros, infinities and NaNs, which no
    column or request of the program can hold, are left out; the exponent of an
    exact quotient is not normalised to the ideal one, which changes no value.

    [scaled k d] reads a decimal as an integer number of units [10^k]; the
    lemmas relate every operation to integer arithmetic at a common unit. *)

From Stdlib Require Import ZArith Lia.
From stdpp Require Import base numbers strings list.
From S2P Require Import Prelude.

Open Scope Z_scope.

(** ** Representation *)

Record decimal := Dec { coef : Z; expo : Z }.

#[export] Instance decimal_eq_dec : EqDecision decimal.
Proof. solve_decision. Defined.

Definition pow10 (n : Z) : Z := 10 ^ n.

(** The integer number of units [10^k] of [d], for a unit no coarser than the
    exponent of [d]. *)
Definition scaled (k : Z) (d : decimal) : Z := coef d * pow10 (expo d - k).

Definition of_int (n : Z) : decimal := Dec n 0.
Definition dzero : decimal := of_int 0.

(** ** Rounding *)

Inductive rounding := ROUND_HALF_EVEN | ROUND_HALF_UP | ROUND_DOWN.

(** Rounding of the magnitude [a / d] to an integer, [0 <= a], [0 < d]. *)
Definition round_mag (m : rounding) (a d : Z) : Z :=
  let q := a / d in
  let r := a mod d in
  match m with
  | ROUND_DOWN => q
  | ROUND_HALF_UP => if d <=? 2 * r then q + 1 else q
  | ROUND_HALF_EVEN =>
      if d <? 2 * r then q + 1
      else if (2 * r =? d) && Z.odd q then q + 1 else q
  end.

(** Rounding of the signed quotient [n / d]: the modes act on the magnitude. *)
Definition round_div (m : rounding) (n d : Z) : Z :=
  Z.sgn n * round_mag m (Z.abs n) d.

(** Number of decimal digits of a magnitude. *)
Fixpoint ndigits_fuel (fuel : nat) (n : Z) : Z :=
  match fuel with
  | O => 1
  | S f => if n <? 10 then 1 else 1 + ndigits_fuel f (n / 10)
  end.

Definition ndigits (n : Z) : Z :=
  ndigits_fuel (Z.to_nat (Z.log2 (Z.abs n))) (Z.abs n).

(** ** The default context *)

Definition prec : Z := 28.

(** Rounding of an exact result to the precision of the context. *)
Definition fix_prec (d : decimal) : decimal :=
  let excess := ndigits (coef d) - prec in
  if excess <=? 0 then d
  else Dec (round_div ROUND_HALF_EVEN (coef d) (pow10 excess)) (expo d + excess).

Definition dadd (a b : decimal) : decimal :=
  let k := Z.min (expo a) (expo b) in
  fix_prec (Dec (scaled k a + scaled k b) k).

Definition dneg (a : decimal) : decimal := fix_prec (Dec (- coef a) (expo a)).

Definition dsub (a b : decimal) : decimal :=
  let k := Z.min (expo a) (expo b) in
  fix_prec (Dec (scaled k a - scaled k b) k).

Definition dmul (a b : decimal) : decimal :=
  fix_prec (Dec (coef a * coef b) (expo a + expo b)).

Definition dabs (a : decimal) : decimal := fix_prec (Dec (Z.abs (coef a)) (expo a)).

(** The quotient of magnitudes [x / y] with [28] digits: the coefficient is the
    quotient scaled by [10^s], where [s] is the scale that leaves the quotient
    in [[10^27, 10^28)]. *)
Definition quotient_scale (x y : Z) : Z :=
  let s := prec + ndigits y - ndigits x in
  if pow10 prec * (y * pow10 (Z.max 0 (- s))) <=? x * pow10 (Z.max 0 s)
  then s - 1 else s.

(** Division raises [DivisionByZero] (or [InvalidOperation] for [0/0]): [None]. *)
Definition ddiv (a b : decimal) : option decimal :=
  if coef b =? 0 then None
  else if coef a =? 0 then Some (Dec 0 (expo a - expo b))
  else
    let x := Z.abs (coef a) in
    let y := Z.abs (coef b) in
    let s := quotient_scale x y in
    Some (Dec (Z.sgn (coef a) * Z.sgn (coef b) *
               round_mag ROUND_HALF_EVEN (x * pow10 (Z.max 0 s)) (y * pow10 (Z.max 0 (- s))))
              (expo a - expo b - s)).

(** [d.quantize(Decimal(10) ** k, rounding)] *)
Definition quantize (m : rounding) (k : Z) (d : decimal) : option decimal :=
  let c := if k <=? expo d then coef d * pow10 (expo d - k)
           else round_div m (coef d) (pow10 (k - expo d)) in
  if Z.abs c <? pow10 prec then Some (Dec c k) else None.

(** [int(d.to_integral_value(rounding))] *)
Definition to_int (m : rounding) (d : decimal) : Z :=
  if 0 <=? expo d then coef d * pow10 (expo d)
  else round_div m (coef d) (pow10 (- expo d)).

(** ** Comparison *)

Definition dcmp (a b : decimal) : comparison :=
  let k := Z.min (expo a) (expo b) in scaled k a ?= scaled k b.

Definition dleb (a b : decimal) : bool :=
  match dcmp a b with Gt => false | _ => true end.
Definition dltb (a b : decimal) : bool :=
  match dcmp a b with Lt => true | _ => false end.
Definition deqb (a b : decimal) : bool :=
  match dcmp a b with Eq => true | _ => false end.

Definition dmin (a b : decimal) : decimal := if dltb b a then b else a.
Definition dmax (a b : decimal) : decimal := if dltb a b then b else a.

Declare Scope dec_scope.
Delimit Scope dec_scope with dec.
Infix "+" := dadd : dec_scope.
Infix "-" := dsub : dec_scope.
Infix "*" := dmul : dec_scope.
Infix "<=?" := dleb : dec_scope.
Infix "<?" := dltb : dec_scope.
Infix "=?" := deqb : dec_scope.

(** ** Integer facts *)

Lemma pow10_pos n : 0 <= n -> 0 < pow10 n.
Proof. intros. unfold pow10. lia. Qed.

Lemma pow10_add a b : 0 <= a -> 0 <= b -> pow10 (a + b) = pow10 a * pow10 b.
Proof. intros. unfold pow10. by rewrite Z.pow_add_r. Qed.

Lemma pow10_0 : pow10 0 = 1.
Proof. done. Qed.

Lemma pow10_le a b : 0 <= a <= b -> pow10 a <= pow10 b.
Proof. intros. unfold pow10. apply Z.pow_le_mono_r; lia. Qed.

Lemma ndigits_fuel_spec fuel n :
  0 < n -> n < 2 ^ Z.of_nat (S fuel) ->
  0 < ndigits_fuel fuel n /\
  pow10 (ndigits_fuel fuel n - 1) <= n < pow10 (ndigits_fuel fuel n).
Proof.
  revert n. induction fuel as [|fuel IH]; intros n Hn Hb.
  - simpl. change (2 ^ Z.of_nat 1) with 2 in Hb. unfold pow10. simpl. lia.
  - simpl. destruct (Z.ltb_spec n 10) as [H|H].
    + unfold pow10. simpl. lia.
    + assert (Hd : 1 <= n / 10) by (apply Z.div_le_lower_bound; lia).
      destruct (IH (n / 10)) as [H0 [H1 H2]]; [lia| |].
      { apply Z.div_lt_upper_bound; [lia|].
        rewrite (Nat2Z.inj_succ (S fuel)), Z.pow_succ_r in Hb by lia. lia. }
      set (k := ndigits_fuel fuel (n / 10)) in *. split; [lia|].
      replace (1 + k - 1) with (1 + (k - 1)) by lia.
      rewrite !pow10_add by lia. change (pow10 1) with 10.
      pose proof (Z.div_mod n 10 ltac:(lia)). pose proof (Z.mod_pos_bound n 10 ltac:(lia)).
      nia.
Qed.

Lemma ndigits_spec n :
  n <> 0 -> 0 < ndigits n /\ pow10 (ndigits n - 1) <= Z.abs n < pow10 (ndigits n).
Proof.
  intros Hn. unfold ndigits. apply ndigits_fuel_spec; [lia|].
  pose proof (Z.log2_nonneg (Z.abs n)).
  rewrite Nat2Z.inj_succ, Z2Nat.id by done. apply Z.log2_spec. lia.
Qed.

Lemma ndigits_le n k : 0 < k -> Z.abs n < pow10 k -> ndigits n <= k.
Proof.
  intros Hk H. destruct (decide (n = 0)) as [->|Hn]; [unfold ndigits; simpl; lia|].
  destruct (ndigits_spec n Hn) as [H0 [H1 H2]].
  destruct (Z.le_gt_cases (ndigits n) k) as [?|Hgt]; [done|].
  assert (pow10 k <= pow10 (ndigits n - 1)) by (apply pow10_le; lia). lia.
Qed.

(** *** Rounding lemmas *)

Lemma round_mag_lower m a d z : 0 < d -> z * d <= a -> z <= round_mag m a d.
Proof.
  intros Hd H. assert (z <= a / d) by (apply Z.div_le_lower_bound; lia).
  unfold round_mag. destruct m; repeat case_match; lia.
Qed.

Lemma round_mag_upper m a d z : 0 < d -> a <= z * d -> round_mag m a d <= z.
Proof.
  intros Hd H. pose proof (Z.div_mod a d ltac:(lia)) as E.
  pose proof (Z.mod_pos_bound a d Hd).
  assert (a / d <= z) by (apply Z.div_le_upper_bound; lia).
  destruct (decide (a / d = z)) as [Ez|Ez].
  - assert (a mod d = 0) by nia. unfold round_mag. rewrite H2.
    destruct m; [|destruct (Z.leb_spec d (2 * 0)); lia|lia].
    destruct (Z.ltb_spec d (2 * 0)); [lia|].
    destruct (Z.eqb_spec (2 * 0) d); [lia|]. simpl. lia.
  - unfold round_mag. destruct m; repeat case_match; lia.
Qed.

Lemma round_mag_exact m z d : 0 < d -> round_mag m (z * d) d = z.
Proof.
  intros Hd. apply Z.le_antisymm;
    [apply round_mag_upper|apply round_mag_lower]; lia.
Qed.

Lemma round_mag_nonneg m a d : 0 < d -> 0 <= a -> 0 <= round_mag m a d.
Proof. intros. apply round_mag_lower; lia. Qed.

(** Rounding to nearest is off by at most half a unit. *)
Lemma round_mag_half m a d :
  m <> ROUND_DOWN -> 0 < d -> 2 * Z.abs (round_mag m a d * d - a) <= d.
Proof.
  intros Hm Hd. pose proof (Z.div_mod a d ltac:(lia)) as E.
  pose proof (Z.mod_pos_bound a d Hd). unfold round_mag.
  destruct m; [| |done].
  - destruct (Z.ltb_spec d (2 * (a mod d))); [nia|].
    destruct (Z.eqb_spec (2 * (a mod d)) d) as [Er|Er]; simpl; [|nia].
    destruct (Z.odd (a / d)); nia.
  - destruct (Z.leb_spec d (2 * (a mod d))); nia.
Qed.

Lemma round_div_nonneg_eq m n d : 0 <= n -> 0 < d -> round_div m n d = round_mag m n d.
Proof.
  intros Hn Hd. unfold round_div. rewrite Z.abs_eq by lia.
  destruct (Z.eq_dec n 0) as [->|]; [|rewrite Z.sgn_pos by lia; lia].
  simpl. symmetry. apply (round_mag_exact m 0 d Hd).
Qed.

Lemma round_div_lower m n d z : 0 < d -> z * d <= n -> z <= round_div m n d.
Proof.
  intros Hd H. destruct (Z.le_gt_cases 0 n).
  - rewrite round_div_nonneg_eq by lia. by apply round_mag_lower.
  - unfold round_div. rewrite Z.sgn_neg by lia.
    assert (round_mag m (Z.abs n) d <= - z) by (apply round_mag_upper; lia). lia.
Qed.

Lemma round_div_upper m n d z : 0 < d -> n <= z * d -> round_div m n d <= z.
Proof.
  intros Hd H. destruct (Z.le_gt_cases 0 n).
  - rewrite round_div_nonneg_eq by lia. by apply round_mag_upper.
  - unfold round_div. rewrite Z.sgn_neg by lia.
    assert (- z <= round_mag m (Z.abs n) d) by (apply round_mag_lower; lia). lia.
Qed.

Lemma round_div_exact m z d : 0 < d -> round_div m (z * d) d = z.
Proof.
  intros. apply Z.le_antisymm; [apply round_div_upper|apply round_div_lower]; lia.
Qed.

Lemma round_div_half m n d :
  m <> ROUND_DOWN -> 0 < d -> 2 * Z.abs (round_div m n d * d - n) <= d.
Proof.
  intros Hm Hd. pose proof (round_mag_half m (Z.abs n) d Hm Hd).
  unfold round_div. destruct (Z.lt_trichotomy n 0) as [|[->|]].
  - rewrite Z.sgn_neg by lia. lia.
  - simpl. lia.
  - rewrite Z.sgn_pos by lia. lia.
Qed.

(** ** Values at a common unit *)

Lemma scaled_refine k k' d :
  k' <= k -> k <= expo d -> scaled k' d = scaled k d * pow10 (k - k').
Proof.
  intros. unfold scaled. replace (expo d - k') with ((expo d - k) + (k - k')) by lia.
  rewrite pow10_add by lia. lia.
Qed.

Lemma scaled_self d : scaled (expo d) d = coef d.
Proof. unfold scaled. rewrite Z.sub_diag. unfold pow10. lia. Qed.

Lemma scaled_sign k d : k <= expo d -> (0 < scaled k d <-> 0 < coef d).
Proof. intros. unfold scaled. pose proof (pow10_pos (expo d - k) ltac:(lia)). nia. Qed.

Lemma dcmp_scaled k a b :
  k <= expo a -> k <= expo b -> dcmp a b = (scaled k a ?= scaled k b).
Proof.
  intros Ha Hb. unfold dcmp. set (m := Z.min (expo a) (expo b)).
  rewrite (scaled_refine m k a), (scaled_refine m k b) by lia.
  pose proof (pow10_pos (m - k) ltac:(lia)).
  destruct (Z.compare_spec (scaled m a) (scaled m b)) as [E|E|E]; symmetry.
  - rewrite E. apply Z.compare_refl.
  - apply Z.compare_lt_iff. nia.
  - apply Z.compare_gt_iff. nia.
Qed.

Lemma dleb_scaled k a b :
  k <= expo a -> k <= expo b -> dleb a b = (scaled k a <=? scaled k b).
Proof.
  intros Ha Hb. unfold dleb, Z.leb. by rewrite (dcmp_scaled k) by done.
Qed.

Lemma dltb_scaled k a b :
  k <= expo a -> k <= expo b -> dltb a b = (scaled k a <? scaled k b).
Proof.
  intros Ha Hb. unfold dltb, Z.ltb. by rewrite (dcmp_scaled k) by done.
Qed.

Lemma deqb_scaled k a b :
  k <= expo a -> k <= expo b -> deqb a b = (scaled k a =? scaled k b).
Proof.
  intros Ha Hb. unfold deqb. rewrite (dcmp_scaled k) by done.
  symmetry. destruct (Z.compare_spec (scaled k a) (scaled k b));
    [apply Z.eqb_eq|apply Z.eqb_neq|apply Z.eqb_neq]; lia.
Qed.

(** Comparison is a total preorder: any unit below all exponents will do. *)
Lemma dleb_refl a : dleb a a = true.
Proof. rewrite (dleb_scaled (expo a)) by lia. apply Z.leb_refl. Qed.

Lemma dleb_trans a b c : dleb a b = true -> dleb b c = true -> dleb a c = true.
Proof.
  set (k := Z.min (expo a) (Z.min (expo b) (expo c))).
  rewrite !(dleb_scaled k) by lia. rewrite !Z.leb_le. lia.
Qed.

Lemma dltb_negb_dleb a b : dltb a b = negb (dleb b a).
Proof.
  set (k := Z.min (expo a) (expo b)).
  rewrite (dltb_scaled k), (dleb_scaled k) by lia. apply Z.ltb_antisym.
Qed.

Lemma dleb_total a b : dleb a b = true \/ dleb b a = true.
Proof.
  set (k := Z.min (expo a) (expo b)).
  rewrite !(dleb_scaled k) by lia. rewrite !Z.leb_le. lia.
Qed.

(** ** Exact operations *)

Lemma fix_prec_exact d : Z.abs (coef d) < pow10 prec -> fix_prec d = d.
Proof.
  intros H. unfold fix_prec.
  assert (ndigits (coef d) <= prec) by (apply ndigits_le; [unfold prec; lia|done]).
  destruct (Z.leb_spec (ndigits (coef d) - prec) 0); [done|lia].
Qed.

Lemma dadd_exact a b k :
  k = Z.min (expo a) (expo b) ->
  Z.abs (scaled k a + scaled k b) < pow10 prec ->
  dadd a b = Dec (scaled k a + scaled k b) k.
Proof. intros -> H. unfold dadd. by apply fix_prec_exact. Qed.

Lemma dsub_exact a b k :
  k = Z.min (expo a) (expo b) ->
  Z.abs (scaled k a - scaled k b) < pow10 prec ->
  dsub a b = Dec (scaled k a - scaled k b) k.
Proof. intros -> H. unfold dsub. by apply fix_prec_exact. Qed.

Lemma dmul_exact a b :
  Z.abs (coef a * coef b) < pow10 prec ->
  dmul a b = Dec (coef a * coef b) (expo a + expo b).
Proof. intros H. unfold dmul. by apply fix_prec_exact. Qed.

(** The quotient of a non-negative decimal that fits in the context. *)
Lemma ddiv_form a b :
  0 <= coef a < pow10 prec -> 0 < coef b ->
  exists s, 0 <= s /\
    ddiv a b = Some (Dec (round_mag ROUND_HALF_EVEN (coef a * pow10 s) (coef b))
                         (expo a - expo b - s)) /\
    (coef a = 0 \/ pow10 (prec - 1) * coef b <= coef a * pow10 s).
Proof.
  intros Ha Hb. unfold ddiv. cbv zeta. destruct (Z.eqb_spec (coef b) 0); [lia|].
  destruct (Z.eqb_spec (coef a) 0) as [E0|E0].
  { exists 0. split; [lia|]. rewrite E0, Z.mul_0_l, Z.sub_0_r. split; [|auto].
    pose proof (round_mag_exact ROUND_HALF_EVEN 0 (coef b) Hb) as R.
    rewrite Z.mul_0_l in R. by rewrite R. }
  rewrite !Z.abs_eq, (Z.sgn_pos (coef a)), (Z.sgn_pos (coef b)) by lia.
  destruct (ndigits_spec (coef a)) as [X0 [X1 X2]]; [lia|].
  destruct (ndigits_spec (coef b)) as [Y0 [Y1 Y2]]; [lia|].
  rewrite Z.abs_eq in X1, X2, Y1, Y2 by lia.
  assert (Hnd : ndigits (coef a) <= prec)
    by (apply ndigits_le; unfold prec in *; lia).
  unfold quotient_scale. cbv zeta. set (s := prec + ndigits (coef b) - ndigits (coef a)).
  assert (Hs : 1 <= s) by lia.
  rewrite (Z.max_l 0 (- s)), (Z.max_r 0 s), pow10_0, (Z.mul_1_r (coef b)) by lia.
  destruct (Z.leb_spec (pow10 prec * coef b) (coef a * pow10 s)) as [L|L].
  - exists (s - 1). rewrite (Z.max_l 0 (- (s - 1))), (Z.max_r 0 (s - 1)) by lia.
    split; [lia|]. split; [rewrite pow10_0, !Z.mul_1_r, Z.mul_1_l; done|]. right.
    replace s with (s - 1 + 1) in L by lia. rewrite (pow10_add (s - 1) 1) in L by lia.
    replace prec with (prec - 1 + 1) in L by lia.
    rewrite (pow10_add (prec - 1) 1) in L by (unfold prec; lia).
    change (pow10 1) with 10 in L. lia.
  - exists s. rewrite (Z.max_l 0 (- s)), (Z.max_r 0 s) by lia.
    split; [lia|]. split; [rewrite pow10_0, !Z.mul_1_r, Z.mul_1_l; done|]. right.
    assert (E : pow10 (ndigits (coef a) - 1) * pow10 s = pow10 (prec - 1) * pow10 (ndigits (coef b))).
    { rewrite <- !pow10_add by (unfold prec in *; lia). f_equal. lia. }
    pose proof (pow10_pos s ltac:(lia)). pose proof (pow10_pos (prec - 1) ltac:(unfold prec; lia)).
    nia.
Qed.

Lemma ddiv_None a b : ddiv a b = None <-> coef b = 0.
Proof.
  unfold ddiv. destruct (Z.eqb_spec (coef b) 0); [tauto|].
  destruct (coef a =? 0); split; intros; done.
Qed.

(** ** Quantization *)

Lemma quantize_expo m k d r : quantize m k d = Some r -> expo r = k.
Proof. unfold quantize. intros H. case_match; simplify_eq/=. done. Qed.

(** [quantize] is monotone and fixes the multiples of its quantum. *)
Lemma quantize_lower m k d r k0 z :
  quantize m k d = Some r -> k0 <= k -> k0 <= expo d ->
  z * pow10 (k - k0) <= scaled k0 d -> z <= coef r.
Proof.
  unfold quantize. intros H Hk Hd Hz.
  case_match eqn:Hlt; [|done]. injection H as <-. simpl. clear Hlt.
  pose proof (pow10_pos (k - k0) ltac:(lia)).
  destruct (Z.leb_spec k (expo d)) as [L|L].
  - rewrite (scaled_refine k k0 d) in Hz by lia. unfold scaled in Hz at 1. nia.
  - apply round_div_lower; [apply pow10_pos; lia|].
    unfold scaled in Hz.
    replace (k - k0) with ((k - expo d) + (expo d - k0)) in Hz by lia.
    rewrite pow10_add in Hz by lia.
    pose proof (pow10_pos (expo d - k0) ltac:(lia)). nia.
Qed.

Lemma quantize_upper m k d r k0 z :
  quantize m k d = Some r -> k0 <= k -> k0 <= expo d ->
  scaled k0 d <= z * pow10 (k - k0) -> coef r <= z.
Proof.
  unfold quantize. intros H Hk Hd Hz.
  case_match eqn:Hlt; [|done]. injection H as <-. simpl. clear Hlt.
  pose proof (pow10_pos (k - k0) ltac:(lia)).
  destruct (Z.leb_spec k (expo d)) as [L|L].
  - rewrite (scaled_refine k k0 d) in Hz by lia. unfold scaled in Hz at 1. nia.
  - apply round_div_upper; [apply pow10_pos; lia|].
    unfold scaled in Hz.
    replace (k - k0) with ((k - expo d) + (expo d - k0)) in Hz by lia.
    rewrite pow10_add in Hz by lia.
    pose proof (pow10_pos (expo d - k0) ltac:(lia)). nia.
Qed.

(** [quantize] succeeds on every value strictly below [10^(28+k)]. *)
Lemma quantize_succeeds m k d k0 z :
  k0 <= k -> k0 <= expo d -> 0 <= z < pow10 prec ->
  0 <= scaled k0 d <= z * pow10 (k - k0) ->
  exists r, quantize m k d = Some r /\ 0 <= coef r <= z.
Proof.
  intros Hk Hd Hz [H0 Hs]. unfold quantize.
  set (c := if k <=? expo d then _ else _).
  assert (Hc : 0 <= c <= z).
  { unfold c. pose proof (pow10_pos (k - k0) ltac:(lia)).
    destruct (Z.leb_spec k (expo d)) as [L|L].
    - rewrite (scaled_refine k k0 d) in H0, Hs by lia. fold (scaled k d). nia.
    - replace (k - k0) with ((k - expo d) + (expo d - k0)) in Hs by lia.
      rewrite pow10_add in Hs by lia. unfold scaled in H0, Hs.
      pose proof (pow10_pos (expo d - k0) ltac:(lia)).
      pose proof (pow10_pos (k - expo d) ltac:(lia)).
      split; [apply round_div_lower|apply round_div_upper]; nia. }
  destruct (Z.ltb_spec (Z.abs c) (pow10 prec)); [|lia].
  exists (Dec c k). simpl. auto.
Qed.

(** A value already at the quantum is unchanged. *)
Lemma quantize_id m d :
  Z.abs (coef d) < pow10 prec -> quantize m (expo d) d = Some d.
Proof.
  intros H. unfold quantize. rewrite Z.leb_refl, Z.sub_diag, pow10_0, Z.mul_1_r.
  destruct (Z.ltb_spec (Z.abs (coef d)) (pow10 prec)); [|lia]. by destruct d.
Qed.

#[export] Hint Resolve pow10_pos dleb_refl : cresta.

(** ** Signs *)

Definition nonneg (d : decimal) : Prop := 0 <= coef d.

Lemma round_div_nonneg m n d : 0 < d -> 0 <= n -> 0 <= round_div m n d.
Proof. intros. apply round_div_lower; lia. Qed.

Lemma fix_prec_nonneg d : nonneg d -> nonneg (fix_prec d).
Proof.
  unfold nonneg, fix_prec. intros H. destruct (Z.leb_spec (ndigits (coef d) - prec) 0); [done|].
  simpl. apply round_div_nonneg; [apply pow10_pos|]; lia.
Qed.

Lemma scaled_nonneg k d : k <= expo d -> nonneg d -> 0 <= scaled k d.
Proof.
  unfold nonneg, scaled. intros. pose proof (pow10_pos (expo d - k) ltac:(lia)). nia.
Qed.

Lemma dmul_nonneg a b : nonneg a -> nonneg b -> nonneg (dmul a b).
Proof. unfold nonneg. intros. apply fix_prec_nonneg. unfold nonneg. simpl. nia. Qed.

Lemma dadd_nonneg a b : nonneg a -> nonneg b -> nonneg (dadd a b).
Proof.
  intros Ha Hb. apply fix_prec_nonneg. unfold nonneg. simpl.
  pose proof (scaled_nonneg (Z.min (expo a) (expo b)) a ltac:(lia) Ha).
  pose proof (scaled_nonneg (Z.min (expo a) (expo b)) b ltac:(lia) Hb). lia.
Qed.

Lemma ddiv_nonneg a b q : nonneg a -> nonneg b -> ddiv a b = Some q -> nonneg q.
Proof.
  unfold nonneg, ddiv. intros Ha Hb.
  destruct (Z.eqb_spec (coef b) 0); [done|].
  destruct (Z.eqb_spec (coef a) 0); [intros [= <-]; simpl; lia|].
  intros E. apply (inj Some) in E. subst q. cbn [coef]. rewrite (Z.sgn_pos (coef a)), (Z.sgn_pos (coef b)) by lia.
  set (s := quotient_scale _ _).
  pose proof (pow10_pos (Z.max 0 (- s)) ltac:(lia)).
  pose proof (pow10_pos (Z.max 0 s) ltac:(lia)).
  apply Z.mul_nonneg_nonneg; [lia|]. apply round_mag_nonneg; nia.
Qed.

Lemma quantize_nonneg m k d r : nonneg d -> quantize m k d = Some r -> nonneg r.
Proof.
  unfold nonneg, quantize. intros Hd H. case_match; simplify_eq/=.
  destruct (Z.leb_spec k (expo d)).
  - pose proof (pow10_pos (expo d - k) ltac:(lia)). nia.
  - apply round_div_nonneg; [apply pow10_pos|]; lia.
Qed.

Lemma of_int_nonneg n : 0 <= n -> nonneg (of_int n).
Proof. done. Qed.

Lemma dltb_dzero_coef d : dltb dzero d = true <-> 0 < coef d.
Proof.
  rewrite (dltb_scaled (Z.min 0 (expo d))) by (simpl; lia). rewrite Z.ltb_lt.
  unfold scaled at 1. simpl. apply scaled_sign. lia.
Qed.

Lemma dleb_dzero_coef d : dleb dzero d = true <-> 0 <= coef d.
Proof.
  rewrite (dleb_scaled (Z.min 0 (expo d))) by (simpl; lia). rewrite Z.leb_le.
  unfold scaled. simpl. pose proof (pow10_pos (expo d - Z.min 0 (expo d)) ltac:(lia)). nia.
Qed.

(** The same for non-positive values. *)
Definition nonpos (d : decimal) : Prop := coef d <= 0.

Lemma fix_prec_nonpos d : nonpos d -> nonpos (fix_prec d).
Proof.
  unfold nonpos, fix_prec. intros H. destruct (Z.leb_spec (ndigits (coef d) - prec) 0); [done|].
  simpl. apply round_div_upper; [apply pow10_pos|]; lia.
Qed.

Lemma dneg_nonpos d : nonneg d -> nonpos (dneg d).
Proof. unfold nonneg. intros. apply fix_prec_nonpos. unfold nonpos. simpl. lia. Qed.

Lemma ddiv_nonpos a b q : nonpos a -> nonneg b -> ddiv a b = Some q -> nonpos q.
Proof.
  unfold nonneg, nonpos, ddiv. intros Ha Hb.
  destruct (Z.eqb_spec (coef b) 0); [done|].
  destruct (Z.eqb_spec (coef a) 0); [intros [= <-]; simpl; lia|].
  intros E. apply (inj Some) in E. subst q. cbn [coef].
  rewrite (Z.sgn_neg (coef a)), (Z.sgn_pos (coef b)) by lia. set (s := quotient_scale _ _).
  pose proof (pow10_pos (Z.max 0 (- s)) ltac:(lia)).
  pose proof (pow10_pos (Z.max 0 s) ltac:(lia)).
  match goal with |- context [round_mag ?m ?x ?y] =>
    assert (0 <= round_mag m x y) by (apply round_mag_nonneg; nia) end.
  lia.
Qed.

Lemma dmul_nonpos a b : nonpos a -> nonneg b -> nonpos (dmul a b).
Proof. unfold nonneg, nonpos. intros. apply fix_prec_nonpos. unfold nonpos. simpl. nia. Qed.

Lemma dsub_nonpos a b : dleb a b = true -> nonpos (dsub a b).
Proof.
  intros H. rewrite (dleb_scaled (Z.min (expo a) (expo b))), Z.leb_le in H by lia.
  apply fix_prec_nonpos. unfold nonpos. cbn. lia.
Qed.

Lemma quantize_nonpos m k d r : nonpos d -> quantize m k d = Some r -> nonpos r.
Proof.
  unfold nonpos, quantize. intros Hd H. case_match; simplify_eq/=.
  destruct (Z.leb_spec k (expo d)).
  - pose proof (pow10_pos (expo d - k) ltac:(lia)). nia.
  - apply round_div_upper; [apply pow10_pos|]; lia.
Qed.

Lemma dleb_nonpos d : nonpos d -> dleb d dzero = true.
Proof.
  intros H. rewrite (dleb_scaled (Z.min (expo d) 0)) by (cbn; lia). unfold nonpos in H.
  apply Z.leb_le. unfold scaled. cbn [coef expo dzero of_int]. pose proof (pow10_pos (expo d - Z.min (expo d) 0) ltac:(lia)).
  nia.
Qed.

Lemma dltb_nonpos d : nonpos d -> dltb dzero d = false.
Proof.
  intros H. apply not_true_iff_false. intros E. apply dltb_dzero_coef in E.
  unfold nonpos in H. lia.
Qed.

(** A quotient by a count, rounded back to the scale of the dividend, stays
    between the bounds of the exact quotient. *)
Lemma mean_bounds m a n lo hi :
  0 <= coef a < pow10 prec -> 0 < n -> 0 <= hi < pow10 prec -> lo * n <= coef a <= hi * n ->
  exists q r, ddiv a (of_int n) = Some q /\ quantize m (expo a) q = Some r /\
    lo <= coef r <= hi.
Proof.
  intros Ha Hn Hhi [Hl Hh]. destruct (ddiv_form a (of_int n)) as (s & Hs & Eq & _); [done|done|].
  change (coef (of_int n)) with n in Eq. change (expo (of_int n)) with 0 in Eq.
  set (q := Dec _ _) in Eq. pose proof (pow10_pos s Hs) as Hp.
  assert (Hsc : scaled (expo a - s) q = coef q).
  { rewrite <- (scaled_self q). f_equal. unfold q. simpl. lia. }
  assert (Hdiff : expo a - (expo a - s) = s) by lia.
  assert (Hlow : lo * pow10 s <= coef q) by (apply round_mag_lower; nia).
  assert (Hup : coef q <= hi * pow10 s) by (apply round_mag_upper; nia).
  assert (H0 : 0 <= coef q) by (apply round_mag_lower; nia).
  destruct (quantize_succeeds m (expo a) q (expo a - s) hi) as (r & Er & Hr);
    [lia|unfold q; simpl; lia|done|rewrite Hsc, Hdiff; lia|].
  exists q, r. split; [done|]. split; [done|]. split; [|lia].
  eapply (quantize_lower _ _ _ _ (expo a - s)); [exact Er|lia|unfold q; simpl; lia|].
  rewrite Hsc, Hdiff. lia.
Qed.

(** ** Exact arithmetic at a common unit *)

Lemma scaled_coarser k m c : k <= m -> scaled k (Dec c m) = c * pow10 (m - k).
Proof. done. Qed.

(** A value that fits at a fine unit fits at a coarser one. *)
Lemma abs_scaled_le k d : k <= expo d -> Z.abs (coef d) <= Z.abs (scaled k d).
Proof.
  intros. unfold scaled. rewrite Z.abs_mul. pose proof (pow10_pos (expo d - k) ltac:(lia)).
  rewrite (Z.abs_eq (pow10 _)) by lia. nia.
Qed.

Lemma dadd_scaled k a b :
  k <= expo a -> k <= expo b -> Z.abs (scaled k a + scaled k b) < pow10 prec ->
  k <= expo (dadd a b) /\ scaled k (dadd a b) = scaled k a + scaled k b.
Proof.
  intros Ha Hb H. set (m := Z.min (expo a) (expo b)).
  assert (E : scaled k a + scaled k b = (scaled m a + scaled m b) * pow10 (m - k)).
  { rewrite (scaled_refine m k a), (scaled_refine m k b) by lia. lia. }
  assert (Hm : Z.abs (scaled m a + scaled m b) < pow10 prec).
  { rewrite E, Z.abs_mul in H. pose proof (pow10_pos (m - k) ltac:(lia)). nia. }
  rewrite (dadd_exact a b m eq_refl Hm). cbn [expo]. split; [lia|].
  rewrite scaled_coarser by lia. lia.
Qed.

Lemma dsub_scaled k a b :
  k <= expo a -> k <= expo b -> Z.abs (scaled k a - scaled k b) < pow10 prec ->
  k <= expo (dsub a b) /\ scaled k (dsub a b) = scaled k a - scaled k b.
Proof.
  intros Ha Hb H. set (m := Z.min (expo a) (expo b)).
  assert (E : scaled k a - scaled k b = (scaled m a - scaled m b) * pow10 (m - k)).
  { rewrite (scaled_refine m k a), (scaled_refine m k b) by lia. lia. }
  assert (Hm : Z.abs (scaled m a - scaled m b) < pow10 prec).
  { rewrite E, Z.abs_mul in H. pose proof (pow10_pos (m - k) ltac:(lia)). nia. }
  rewrite (dsub_exact a b m eq_refl Hm). cbn [expo]. split; [lia|].
  rewrite scaled_coarser by lia. lia.
Qed.

(** Multiplication by an integer. *)
Lemma dmul_int_scaled k a n :
  k <= expo a -> Z.abs (scaled k a * n) < pow10 prec ->
  k <= expo (dmul a (of_int n)) /\ scaled k (dmul a (of_int n)) = scaled k a * n.
Proof.
  intros Ha H.
  assert (E : scaled k a * n = coef a * n * pow10 (expo a - k)) by (unfold scaled; lia).
  assert (Hc : Z.abs (coef a * coef (of_int n)) < pow10 prec).
  { simpl. rewrite E, Z.abs_mul in H. pose proof (pow10_pos (expo a - k) ltac:(lia)). nia. }
  rewrite (dmul_exact a (of_int n) Hc). simpl. rewrite Z.add_0_r. split; [done|].
  unfold scaled. simpl. lia.
Qed.

Lemma scaled_of_int k n : k <= 0 -> scaled k (of_int n) = n * pow10 (- k).
Proof. intros. unfold scaled. simpl. done. Qed.

#[export] Hint Resolve dmul_nonneg dadd_nonneg of_int_nonneg : cresta.

(** ** Rounding is monotone *)

Lemma round_mag_mono m a b d : 0 < d -> a <= b -> round_mag m a d <= round_mag m b d.
Proof.
  intros Hd Hab. pose proof (Z.div_mod a d ltac:(lia)) as Ea. pose proof (Z.div_mod b d ltac:(lia)) as Eb.
  pose proof (Z.mod_pos_bound a d Hd). pose proof (Z.mod_pos_bound b d Hd).
  pose proof (Z.div_le_mono a b d Hd Hab) as Hq. unfold round_mag.
  set (q := a / d) in *. set (q' := b / d) in *. set (r := a mod d) in *. set (r' := b mod d) in *.
  destruct (Z.eq_dec q q') as [E|E].
  - rewrite <- E in *. assert (r <= r') by lia. clear Ea Eb.
    destruct m; [|destruct (Z.leb_spec d (2 * r)), (Z.leb_spec d (2 * r')); lia|lia].
    destruct (Z.ltb_spec d (2 * r)), (Z.ltb_spec d (2 * r')), (Z.eqb_spec (2 * r) d), (Z.eqb_spec (2 * r') d),
      (Z.odd q); cbn [andb]; lia.
  - assert (q + 1 <= q') by lia. destruct m; repeat case_match; lia.
Qed.

Lemma round_mag_scale m a d z : 0 < d -> 0 < z -> round_mag m (a * z) (d * z) = round_mag m a d.
Proof.
  intros Hd Hz. unfold round_mag. rewrite Z.div_mul_cancel_r, Z.mul_mod_distr_r by lia.
  set (q := a / d). set (r := a mod d). destruct m; [|destruct (Z.leb_spec (d * z) (2 * (r * z))), (Z.leb_spec d (2 * r)); nia|done].
  destruct (Z.ltb_spec (d * z) (2 * (r * z))), (Z.ltb_spec d (2 * r)), (Z.eqb_spec (2 * (r * z)) (d * z)),
    (Z.eqb_spec (2 * r) d), (Z.odd q); cbn [andb]; try nia.
Qed.

Lemma round_div_opp m n d : round_div m (- n) d = - round_div m n d.
Proof. unfold round_div. rewrite Z.sgn_opp, Z.abs_opp. lia. Qed.

Lemma round_div_mono m a b d : 0 < d -> a <= b -> round_div m a d <= round_div m b d.
Proof.
  intros Hd Hab. destruct (Z_le_gt_dec 0 a) as [Ha|Ha].
  - rewrite !round_div_nonneg_eq by lia. by apply round_mag_mono.
  - destruct (Z_le_gt_dec 0 b) as [Hb|Hb].
    + transitivity 0; [apply round_div_upper; lia|by apply round_div_nonneg].
    + pose proof (round_div_opp m (- a) d) as Ea. pose proof (round_div_opp m (- b) d) as Eb.
      rewrite Z.opp_involutive in Ea, Eb. rewrite Ea, Eb, !round_div_nonneg_eq by lia.
      pose proof (round_mag_mono m (- b) (- a) d Hd ltac:(lia)). lia.
Qed.

Lemma round_div_scale m n d z : 0 < d -> 0 < z -> round_div m (n * z) (d * z) = round_div m n d.
Proof.
  intros. unfold round_div. rewrite Z.abs_mul, (Z.abs_eq z), Z.sgn_mul, (Z.sgn_pos z) by lia.
  rewrite round_mag_scale by done. lia.
Qed.

(** The coefficient of a quantised value, from any finer scale. *)
Lemma quantize_coef m k d r j : j <= Z.min k (expo d) -> quantize m k d = Some r ->
  coef r = round_div m (scaled j d) (pow10 (k - j)).
Proof.
  intros Hj. unfold quantize. intros H. case_match; [|done]. injection H as <-. cbn [coef].
  destruct (Z.leb_spec k (expo d)) as [Hk|Hk]; unfold scaled.
  - replace (expo d - j) with ((expo d - k) + (k - j)) by lia. rewrite pow10_add by lia.
    rewrite Z.mul_assoc, round_div_exact; [done|]. apply pow10_pos; lia.
  - replace (k - j) with ((k - expo d) + (expo d - j)) by lia. rewrite pow10_add by lia.
    rewrite round_div_scale; [done|apply pow10_pos; lia|apply pow10_pos; lia].
Qed.

Lemma exists_min3 (a b c : Z) : exists j, j <= a /\ j <= b /\ j <= c.
Proof. exists (Z.min a (Z.min b c)). lia. Qed.

Lemma quantize_mono m k a b x y : dleb a b = true ->
  quantize m k a = Some x -> quantize m k b = Some y -> dleb x y = true.
Proof.
  intros Hab Hx Hy. destruct (exists_min3 k (expo a) (expo b)) as (j & J1 & J2 & J3).
  rewrite (dleb_scaled j), Z.leb_le in Hab by lia.
  pose proof (quantize_expo _ _ _ _ Hx) as Ex. pose proof (quantize_expo _ _ _ _ Hy) as Ey.
  rewrite (dleb_scaled k), Z.leb_le by lia. rewrite <- Ex at 1. rewrite scaled_self. rewrite <- Ey at 1. rewrite scaled_self.
  rewrite (quantize_coef m k a x j ltac:(lia) Hx), (quantize_coef m k b y j ltac:(lia) Hy).
  apply round_div_mono; [apply pow10_pos; lia|done].
Qed.
