(* ===== verification/Json.v ===== *)
(** * JSON values and Python text

    The values [json.dumps] and [json.loads] exchange, the canonical encoding
    the code hashes ([sort_keys=True], compact separators, [ensure_ascii=False]),
    and the text of integers and decimals ([str], [format(d, "f")]). *)

Set Warnings "-register-all".

From Stdlib Require Import ZArith Ascii String.
From stdpp Require Import base numbers strings list pretty sorting.
From S2P Require Import Prelude Decimal.

Open Scope Z_scope.

(** A finite float is known by the text [repr] prints. *)
Inductive json :=
| JNull
| JBool (b : bool)
| JInt (n : Z)
| JNum (repr : string)
| JStr (s : string)
| JList (l : list json)
| JObj (fields : list (string * json)).

(** ** Access, as [dict.get] *)

Fixpoint assoc {A} (k : string) (l : list (string * A)) : option A :=
  match l with
  | [] => None
  | (k', v) :: l => if String.eqb k k' then Some v else assoc k l
  end.

Definition jget (k : string) (v : json) : option json :=
  match v with JObj fields => assoc k fields | _ => None end.

Definition jopt_str (s : option string) : json :=
  match s with Some s => JStr s | None => JNull end.
Definition jopt_int (n : option Z) : json :=
  match n with Some n => JInt n | None => JNull end.

(** ** Encoding *)

Definition hex_digit (n : nat) : string :=
  String (nth n ["0"; "1"; "2"; "3"; "4"; "5"; "6"; "7"; "8"; "9";
                 "a"; "b"; "c"; "d"; "e"; "f"]%char "0"%char) EmptyString.

(** The escape of one byte of a string literal. *)
Definition escape_byte (c : ascii) : string :=
  let n := nat_of_ascii c in
  if Nat.eqb n 34 then String "\" (String c EmptyString)
  else if Nat.eqb n 92 then "\\"
  else if Nat.eqb n 10 then "\n"
  else if Nat.eqb n 13 then "\r"
  else if Nat.eqb n 9 then "\t"
  else if Nat.eqb n 8 then "\b"
  else if Nat.eqb n 12 then "\f"
  else if Nat.ltb n 32 then "\u00" +:+ hex_digit (n / 16) +:+ hex_digit (n mod 16)
  else String c EmptyString.

Fixpoint escape (s : string) : string :=
  match s with
  | EmptyString => EmptyString
  | String c s => escape_byte c +:+ escape s
  end.

Definition dquote : string := String (ascii_of_nat 34) EmptyString.

Definition quoted (s : string) : string := dquote +:+ escape s +:+ dquote.

Fixpoint join (sep : string) (l : list string) : string :=
  match l with
  | [] => EmptyString
  | [x] => x
  | x :: l => x +:+ sep +:+ join sep l
  end.

(** Insertion of a field at its place in key order. *)
Fixpoint insert_field {A} (f : string * A) (l : list (string * A)) : list (string * A) :=
  match l with
  | [] => [f]
  | g :: l' => match String.compare f.1 g.1 with
               | Gt => g :: insert_field f l'
               | _ => f :: l
               end
  end.

Definition sort_fields {A} (l : list (string * A)) : list (string * A) :=
  foldr insert_field [] l.

Fixpoint dumps (v : json) : string :=
  match v with
  | JNull => "null"
  | JBool true => "true"
  | JBool false => "false"
  | JInt n => pretty n
  | JNum repr => repr
  | JStr s => quoted s
  | JList l => "[" +:+ join "," (map dumps l) +:+ "]"
  | JObj fields =>
      "{" +:+ join "," (map (fun f => quoted f.1 +:+ ":" +:+ f.2)
                            (sort_fields (map (fun f => (f.1, dumps f.2)) fields))) +:+ "}"
  end.

(** ** Text of numbers *)

Fixpoint zeros (n : nat) : string :=
  match n with O => EmptyString | S n => String "0" (zeros n) end.

Definition digits_text (n : Z) : string := pretty (Z.abs n).

Definition sign_text (n : Z) : string := if n <? 0 then "-" else EmptyString.

(** [format(d, "f")] *)
Definition plain_text (d : decimal) : string :=
  let ds := digits_text (coef d) in
  let len := Z.of_nat (String.length ds) in
  sign_text (coef d) +:+
  if 0 <=? expo d then (if coef d =? 0 then "0" else ds +:+ zeros (Z.to_nat (expo d)))
  else
    let point := len + expo d in
    if point <=? 0 then "0." +:+ zeros (Z.to_nat (- point)) +:+ ds
    else substring 0 (Z.to_nat point) ds +:+ "." +:+
         substring (Z.to_nat point) (Z.to_nat (- expo d)) ds.

(** [str(d)]: plain text unless the exponent is positive or the leading digit
    is more than six places after the point. *)
Definition str_text (d : decimal) : string :=
  let ds := digits_text (coef d) in
  let len := Z.of_nat (String.length ds) in
  let left := expo d + len in
  if (expo d <=? 0) && (-6 <? left) then plain_text d
  else
    sign_text (coef d) +:+ substring 0 1 ds +:+
    (if len =? 1 then EmptyString else "." +:+ substring 1 (Z.to_nat (len - 1)) ds) +:+
    "E" +:+ (if left - 1 <? 0 then "-" else "+") +:+ digits_text (left - 1).

Definition jopt_dec (d : option decimal) : json :=
  match d with Some d => JStr (str_text d) | None => JNull end.

(** ** Character classes of identifiers *)

Definition is_digit (c : ascii) : bool :=
  let n := nat_of_ascii c in (Nat.leb 48 n) && (Nat.leb n 57).

Fixpoint all_chars (f : ascii -> bool) (s : string) : bool :=
  match s with
  | EmptyString => true
  | String c s => f c && all_chars f s
  end.

(** [s.isdigit()] on ASCII text: non-empty, digits only. *)
Definition isdigit (s : string) : bool :=
  negb (String.eqb s EmptyString) && all_chars is_digit s.

(** The check [symbol.isdigit() and len(symbol) == n]. *)
Definition digits_of_length (n : nat) (s : string) : bool :=
  isdigit s && Nat.eqb (String.length s) n.

(** [s.upper()] on ASCII text. *)
Definition upper_char (c : ascii) : ascii :=
  let n := nat_of_ascii c in
  if (Nat.leb 97 n) && (Nat.leb n 122) then ascii_of_nat (n - 32) else c.

Fixpoint upper (s : string) : string :=
  match s with
  | EmptyString => EmptyString
  | String c s => String (upper_char c) (upper s)
  end.

(** [s.strip()] on ASCII text. *)
Definition is_space (c : ascii) : bool :=
  let n := nat_of_ascii c in
  Nat.eqb n 32 || ((Nat.leb 9 n) && (Nat.leb n 13)) || ((Nat.leb 28 n) && (Nat.leb n 31)).

Fixpoint lstrip (s : string) : string :=
  match s with
  | EmptyString => EmptyString
  | String c s' => if is_space c then lstrip s' else s
  end.

Fixpoint rstrip (s : string) : string :=
  match s with
  | EmptyString => EmptyString
  | String c s' =>
      match rstrip s' with
      | EmptyString => if is_space c then EmptyString else String c EmptyString
      | r => String c r
      end
  end.

Definition strip (s : string) : string := rstrip (lstrip s).

(** ** Concrete texts *)

Example dumps_sorted :
  dumps (JObj [("to", JStr "OPEN"); ("from", JInt (-3)); ("a", JList [JNull; JBool true])])
  = "{" +:+ quoted "a" +:+ ":[null,true]," +:+ quoted "from" +:+ ":-3," +:+
    quoted "to" +:+ ":" +:+ quoted "OPEN" +:+ "}".
Proof. vm_compute. reflexivity. Qed.

Example texts :
  map str_text [Dec 1234500 (-4); Dec 0 (-4); Dec 5 (-7); Dec 12 3; Dec (-98) (-1)] =
  ["123.4500"; "0.0000"; "5E-7"; "1.2E+4"; "-9.8"].
Proof. vm_compute. reflexivity. Qed.
