(* ===== verification/PyTime.v ===== *)
(** * Instants and dates

    An aware [datetime] is its instant, in microseconds since 1970-01-01 UTC;
    naive values, which the code reads as UTC, are the same.  Asia/Seoul is the
    fixed offset +09:00 (in force without daylight saving since 1988).  A
    [date] is its day number, with the proleptic Gregorian calendar computed
    from it. *)

From Stdlib Require Import ZArith Lia.
From stdpp Require Import base numbers strings list pretty.
From S2P Require Import Prelude.

Open Scope Z_scope.

Definition second : Z := 1000000.
Definition minute : Z := 60 * second.
Definition hour : Z := 60 * minute.
Definition day : Z := 24 * hour.

(** [timedelta(seconds=n)] *)
Definition seconds (n : Z) : Z := n * second.

Definition kst_offset : Z := 9 * hour.

(** [t.astimezone(KST).date()] *)
Definition kst_date (t : Z) : Z := (t + kst_offset) / day.

(** [t.astimezone(KST).time()], in microseconds since local midnight. *)
Definition kst_time (t : Z) : Z := (t + kst_offset) mod day.

(** [datetime.combine(d, time, tzinfo=KST)] as an instant. *)
Definition kst_combine (d time : Z) : Z := d * day + time - kst_offset.

(** [time(h, m, s)] *)
Definition time_of (h m s : Z) : Z := h * hour + m * minute + s * second.

(** [date.weekday()]: Monday is 0.  Day 0 is a Thursday. *)
Definition weekday (d : Z) : Z := (d + 3) mod 7.

(** Year, month and day of a day number. *)
Definition civil (d : Z) : Z * Z * Z :=
  let z := d + 719468 in
  let era := z / 146097 in
  let doe := z mod 146097 in
  let yoe := (doe - doe / 1460 + doe / 36524 - doe / 146096) / 365 in
  let doy := doe - (365 * yoe + yoe / 4 - yoe / 100) in
  let mp := (5 * doy + 2) / 153 in
  let dd := doy - (153 * mp + 2) / 5 + 1 in
  let m := if mp <? 10 then mp + 3 else mp - 9 in
  let y := yoe + era * 400 + (if m <=? 2 then 1 else 0) in
  (y, m, dd).

(** Day number of [date(y, m, d)]. *)
Definition date_of (y m d : Z) : Z :=
  let y := if m <=? 2 then y - 1 else y in
  let era := y / 400 in
  let yoe := y mod 400 in
  let doy := (153 * (if 2 <? m then m - 3 else m + 9) + 2) / 5 + d - 1 in
  let doe := yoe * 365 + yoe / 4 - yoe / 100 + doy in
  era * 146097 + doe - 719468.

Definition pad2 (n : Z) : string := if n <? 10 then "0" +:+ pretty n else pretty n.

(** [str(date)] *)
Definition iso_date (d : Z) : string :=
  let '(y, m, dd) := civil d in pretty y +:+ "-" +:+ pad2 m +:+ "-" +:+ pad2 dd.

Fixpoint pad_to (n : nat) (s : string) : string :=
  match n with
  | O => s
  | S n => if Nat.ltb (String.length s) (S n) then "0" +:+ pad_to n s else s
  end.

(** [t.isoformat()] of a UTC instant. *)
Definition iso_datetime (t : Z) : string :=
  let tod := t mod day in
  iso_date (t / day) +:+ "T" +:+ pad2 (tod / hour) +:+ ":" +:+ pad2 (tod mod hour / minute) +:+
  ":" +:+ pad2 (tod mod minute / second) +:+
  (if tod mod second =? 0 then EmptyString else "." +:+ pad_to 6 (pretty (tod mod second))) +:+
  "+00:00".

Lemma kst_split t : t = kst_combine (kst_date t) (kst_time t).
Proof.
  unfold kst_combine, kst_date, kst_time.
  pose proof (Z.div_mod (t + kst_offset) day ltac:(done)). lia.
Qed.

Lemma kst_time_range t : 0 <= kst_time t < day.
Proof. unfold kst_time. by apply Z.mod_pos_bound. Qed.

Lemma kst_date_combine d time : 0 <= time < day -> kst_date (kst_combine d time) = d.
Proof.
  intros. unfold kst_date, kst_combine.
  replace (d * day + time - kst_offset + kst_offset) with (time + d * day) by lia.
  rewrite Z.div_add by done. rewrite Z.div_small by done. lia.
Qed.

Lemma kst_time_combine d time : 0 <= time < day -> kst_time (kst_combine d time) = time.
Proof.
  intros. unfold kst_time, kst_combine.
  replace (d * day + time - kst_offset + kst_offset) with (time + d * day) by lia.
  rewrite Z.mod_add by done. by apply Z.mod_small.
Qed.

(** ** The calendar reads back

    [civil] counts days from 1 March of the years of a 400-year era. *)

Definition year_start (y : Z) : Z := 365 * y + y / 4 - y / 100.
Definition year_of_day (n : Z) : Z := (n - n / 1460 + n / 36524 - n / 146096) / 365.

Lemma year_of_day_mono a b : 0 <= a <= b -> year_of_day a <= year_of_day b.
Proof. intros H. unfold year_of_day. apply Z.div_le_mono; [done|].
  change 146096 with (36524 * 4). rewrite <- !Z.div_div by done.
  assert (HS : forall k x y, 0 < k -> 0 <= x <= y -> x - x / k <= y - y / k).
  { intros k x y Hk Hxy. assert (y / k <= x / k + (y - x)); [|lia].
    rewrite <- (Z.div_add x (y - x) k) by lia. apply Z.div_le_mono; nia. }
  pose proof (HS 1460 a b ltac:(done) H).
  assert (a / 36524 <= b / 36524) by (apply Z.div_le_mono; lia).
  pose proof (HS 4 (a / 36524) (b / 36524) ltac:(done) ltac:(split; [apply Z.div_pos; lia|done])). lia.
Qed.

Lemma year_bounds_check :
  forallb (fun y => (year_of_day (year_start y) =? y) &&
                    ((year_of_day (year_start (y + 1) - (if y =? 399 then 0 else 1)) =? y)))
    (seqZ 0 400) = true.
Proof. vm_compute. done. Qed.

Lemma year_of_day_spec n : 0 <= n < 146097 ->
  0 <= year_of_day n < 400 /\ 0 <= n - year_start (year_of_day n) <= 365.
Proof.
  intros Hn.
  assert (HB : forall y, 0 <= y < 400 -> year_of_day (year_start y) = y /\
    year_of_day (year_start (y + 1) - (if y =? 399 then 0 else 1)) = y).
  { intros y Hy. pose proof year_bounds_check as H. rewrite forallb_forall in H.
    specialize (H y ltac:(apply list_elem_of_In, elem_of_seqZ; lia)). lia. }
  assert (HF : forall k : nat, (exists y, 0 <= y < Z.of_nat k /\ year_start y <= n <= year_start (y + 1) - 1) \/
    year_start (Z.of_nat k) <= n).
  { induction k as [|k [IH|IH]]; [right; change (year_start (Z.of_nat 0)) with 0; lia| |].
    - left. destruct IH as (y & Hy & H). exists y. split; [lia|done].
    - rewrite Nat2Z.inj_succ. unfold Z.succ.
      destruct (Z_le_gt_dec (year_start (Z.of_nat k + 1)) n); [by right|].
      left. exists (Z.of_nat k). lia. }
  assert (HE : exists y, 0 <= y < 400 /\
    year_start y <= n <= year_start (y + 1) - (if y =? 399 then 0 else 1)).
  { destruct (HF 399%nat) as [(y & Hy & H)|H].
    - exists y. destruct (Z.eqb_spec y 399); lia.
    - exists 399. change (year_start (399 + 1)) with 146096. cbn [Z.eqb Pos.eqb]. change (Z.of_nat 399) with 399 in H. lia. }
  destruct HE as (y & Hy & H1 & H2).
  destruct (HB y Hy) as [E1 E2].
  pose proof (year_of_day_mono (year_start y) n ltac:(split; [|done]; unfold year_start; clear -Hy; div_lia)).
  pose proof (year_of_day_mono n _ (conj (proj1 Hn) H2)).
  assert (year_of_day n = y) as -> by lia. split; [lia|].
  destruct (Z.eqb_spec y 399) as [->|]; [change (year_start (399+1)) with 146096 in *; change (year_start 399) with 145731 in *; lia|].
  clear -Hy H1 H2. unfold year_start in *. div_lia.
Qed.

Definition month_of_day (n : Z) : Z := (5 * n + 2) / 153.

Lemma month_check : forallb (fun n =>
  let mp := month_of_day n in
  let dd := n - (153 * mp + 2) / 5 + 1 in
  let m := if mp <? 10 then mp + 3 else mp - 9 in
  (1 <=? m) && (m <=? 12) && (1 <=? dd) && (dd <=? 31) &&
  ((153 * (if 2 <? m then m - 3 else m + 9) + 2) / 5 + dd - 1 =? n)) (seqZ 0 366) = true.
Proof. vm_compute. done. Qed.

Lemma civil_roundtrip d : let '(y, m, dd) := civil d in
  date_of y m dd = d /\ 1 <= m <= 12 /\ 1 <= dd <= 31.
Proof.
  unfold civil. set (z := d + 719468).
  pose proof (Z.mod_pos_bound z 146097 ltac:(done)) as Hz.
  pose proof (Z.div_mod z 146097 ltac:(done)) as Ez.
  set (doe := z mod 146097) in *. set (era := z / 146097) in *.
  fold (year_of_day doe). destruct (year_of_day_spec doe Hz) as [Hy Hd].
  set (yoe := year_of_day doe) in *.
  fold (year_start yoe). set (doy := doe - year_start yoe) in *. fold (month_of_day doy).
  pose proof month_check as H. rewrite forallb_forall in H.
  specialize (H doy ltac:(apply list_elem_of_In, elem_of_seqZ; lia)). cbv zeta in H.
  set (mp := month_of_day doy) in *. set (m := if mp <? 10 then mp + 3 else mp - 9) in *.
  set (dd := doy - (153 * mp + 2) / 5 + 1) in *.
  rewrite !andb_true_iff, !Z.leb_le, Z.eqb_eq in H. destruct H as ((((M1 & M2) & D1) & D2) & H).
  split; [|lia]. unfold date_of.
  assert (Ey : (if m <=? 2 then (yoe + era * 400 + (if m <=? 2 then 1 else 0)) - 1
     else yoe + era * 400 + (if m <=? 2 then 1 else 0)) = yoe + era * 400) by (destruct (m <=? 2); lia).
  rewrite Ey. rewrite Z.div_add, Z.mod_add, Z.div_small, Z.mod_small by lia.
  unfold year_start in doy. lia.
Qed.

Example civil_dates :
  map civil [0; 20676; 19782] = [(1970, 1, 1); (2026, 8, 11); (2024, 2, 29)] /\
  map (fun '(y, m, d) => date_of y m d) [(1970, 1, 1); (2026, 8, 11); (2024, 2, 29)]
  = [0; 20676; 19782] /\ iso_date 20676 = "2026-08-11" /\ weekday 20676 = 1.
Proof. vm_compute. done. Qed.

Example iso_datetimes :
  map iso_datetime [0; 1786406400000000; 1709251199000042] =
  ["1970-01-01T00:00:00+00:00"; "2026-08-11T00:00:00+00:00";
   "2024-02-29T23:59:59.000042+00:00"].
Proof. vm_compute. done. Qed.
