(* ===== verification/Models.v ===== *)
(** * The database rows

    The tables of [models.py] as records, with one field per column the code
    reads or writes, and the session database [DB] that holds them.  Columns
    constrained to an enumeration by a [CheckConstraint] are inductive types;
    a table is a finite map from its primary key, an append-only log is a list.
    A text column that holds JSON is modelled by the value it encodes.  Only
    [client_order_id], the bookkeeping timestamps, the surrogate keys of the authentication tables, the constant columns of decisions ([execution_mode], [execution_outcome],
    [validation_status]) and what no modelled code reads of the agent tables are left out.  The [_ok] predicates are the check constraints of each table. *)

From Stdlib Require Import ZArith.
From stdpp Require Import base numbers strings list gmap.
From S2P Require Import Prelude Decimal Json.

Open Scope Z_scope.

(** ** Enumerations of the check constraints *)

Inductive OrderStatus :=
| CREATED
| VALIDATING
| SUBMITTING
| ACKNOWLEDGED
| OPEN
| PARTIALLY_FILLED
| FILLED
| CANCEL_PENDING
| CANCELLED
| REPLACE_PENDING
| REPLACED
| REJECTED
| UNKNOWN
| RECONCILING.

#[export] Instance OrderStatus_eq_dec : EqDecision OrderStatus.
Proof. solve_decision. Defined.

Inductive Side :=
| BUY
| SELL.

#[export] Instance Side_eq_dec : EqDecision Side.
Proof. solve_decision. Defined.

Inductive OrderType :=
| LIMIT
| MARKET.

#[export] Instance OrderType_eq_dec : EqDecision OrderType.
Proof. solve_decision. Defined.

Inductive UnfilledPolicy :=
| POLICY_NONE
| POLICY_CANCEL.

#[export] Instance UnfilledPolicy_eq_dec : EqDecision UnfilledPolicy.
Proof. solve_decision. Defined.

Inductive GateStatus :=
| GATE_STARTING
| GATE_RECONCILING
| GATE_READY
| GATE_DEGRADED
| GATE_HALTED.

#[export] Instance GateStatus_eq_dec : EqDecision GateStatus.
Proof. solve_decision. Defined.

Inductive PositionState :=
| POS_OPEN
| POS_CLOSED.

#[export] Instance PositionState_eq_dec : EqDecision PositionState.
Proof. solve_decision. Defined.

Inductive Origin :=
| CRESTA_MANAGED
| EXTERNAL
| MIXED.

#[export] Instance Origin_eq_dec : EqDecision Origin.
Proof. solve_decision. Defined.

Inductive WorkerName :=
| W_STARTING
| W_AUTHENTICATING
| W_CONNECTING
| W_SUBSCRIBING
| W_RECONCILING
| W_READY
| W_DEGRADED
| W_STOPPED.

#[export] Instance WorkerName_eq_dec : EqDecision WorkerName.
Proof. solve_decision. Defined.

Inductive TriggerState :=
| PENDING
| SHADOW_RECORDED
| EXIT_PENDING
| SUPERSEDED
| FULFILLED.

#[export] Instance TriggerState_eq_dec : EqDecision TriggerState.
Proof. solve_decision. Defined.

Inductive ApprovalState :=
| AP_PENDING
| AP_APPROVED
| AP_REJECTED
| AP_EXPIRED
| AP_INVALIDATED.

#[export] Instance ApprovalState_eq_dec : EqDecision ApprovalState.
Proof. solve_decision. Defined.

Inductive ExecMode :=
| MODE_AUTOMATIC
| MODE_MANUAL_APPROVAL
| MODE_DISABLED.

#[export] Instance ExecMode_eq_dec : EqDecision ExecMode.
Proof. solve_decision. Defined.

Inductive ExecStage :=
| STAGE_SHADOW
| STAGE_APPROVAL_ONLY
| STAGE_MOCK_AUTOMATIC.

#[export] Instance ExecStage_eq_dec : EqDecision ExecStage.
Proof. solve_decision. Defined.

Inductive ExecState :=
| EX_ROUTING
| EX_NO_ACTION
| EX_DISABLED
| EX_GUARD_BLOCKED
| EX_SHADOW_RECORDED
| EX_APPROVAL_PENDING
| EX_ORDER_CREATED
| EX_REJECTED
| EX_EXPIRED
| EX_INVALIDATED
| EX_FAILED_SAFE.

#[export] Instance ExecState_eq_dec : EqDecision ExecState.
Proof. solve_decision. Defined.

Inductive Action :=
| ACT_BUY
| ACT_WAIT
| ACT_REJECT
| ACT_RISK_BLOCK
| ACT_HOLD
| ACT_TIGHTEN_STOP
| ACT_PARTIAL_SELL
| ACT_FULL_SELL
| ACT_EMERGENCY_EXIT.

#[export] Instance Action_eq_dec : EqDecision Action.
Proof. solve_decision. Defined.

Inductive ConfigState :=
| CFG_DRAFT
| CFG_VALIDATED
| CFG_ACTIVE
| CFG_SUPERSEDED.

#[export] Instance ConfigState_eq_dec : EqDecision ConfigState.
Proof. solve_decision. Defined.

Inductive RunState :=
| RUN_CREATED
| RUN_RUNNING
| RUN_SUCCEEDED
| RUN_PARTIAL
| RUN_FAILED
| RUN_CANCELLED.

#[export] Instance RunState_eq_dec : EqDecision RunState.
Proof. solve_decision. Defined.

Inductive StageState :=
| SG_PENDING
| SG_RUNNING
| SG_SUCCEEDED
| SG_NOT_APPLICABLE
| SG_INSUFFICIENT_DATA
| SG_CONFLICTED
| SG_TIMED_OUT
| SG_FAILED
| SG_INVALID_OUTPUT.

#[export] Instance StageState_eq_dec : EqDecision StageState.
Proof. solve_decision. Defined.

Inductive Quality :=
| Q_NORMAL
| Q_LATE
| Q_GAP_DETECTED.

#[export] Instance Quality_eq_dec : EqDecision Quality.
Proof. solve_decision. Defined.

(** ** Policies and settings *)

Inductive LossBasis := REALIZED_ONLY | REALIZED_PLUS_UNREALIZED.

#[export] Instance LossBasis_eq_dec : EqDecision LossBasis.
Proof. solve_decision. Defined.

Record RiskPolicyPayload := mkRiskPolicyPayload {
  entry_order_amount : option Z;
  max_single_order_amount : Z;
  max_position_amount_per_symbol : Z;
  max_total_position_amount : Z;
  max_open_positions : Z;
  max_daily_entries : Z;
  fixed_stop_loss_pct : decimal;
  quote_stale_seconds : Z;
  max_spread_pct : decimal;
  max_price_deviation_pct : decimal;
  daily_loss_limit_pct : decimal;
  daily_loss_basis : LossBasis;
  max_consecutive_losses : Z
}.

Definition between (lo hi x : Z) : bool := (lo <=? x) && (x <=? hi).
Definition dbetween (lo hi x : decimal) : bool := dleb lo x && dleb x hi.

(** The field ranges and [validate_amount_order]. *)
Definition risk_policy_valid (p : RiskPolicyPayload) : bool :=
  match entry_order_amount p with
  | None => true
  | Some e => between 10000 100000000 e && (e <=? max_single_order_amount p)
  end &&
  between 10000 100000000 (max_single_order_amount p) &&
  between 10000 100000000 (max_position_amount_per_symbol p) &&
  between 10000 100000000 (max_total_position_amount p) &&
  between 1 3 (max_open_positions p) &&
  between 1 20 (max_daily_entries p) &&
  dbetween (Dec (-200) (-1)) (Dec (-1) (-1)) (fixed_stop_loss_pct p) &&
  between 1 30 (quote_stale_seconds p) &&
  dbetween (Dec 1 (-2)) (Dec 500 (-2)) (max_spread_pct p) &&
  dbetween (Dec 1 (-2)) (Dec 500 (-2)) (max_price_deviation_pct p) &&
  dbetween (Dec 1 (-1)) (Dec 200 (-1)) (daily_loss_limit_pct p) &&
  between 1 10 (max_consecutive_losses p) &&
  (max_single_order_amount p <=? max_position_amount_per_symbol p) &&
  (max_position_amount_per_symbol p <=? max_total_position_amount p).

Record ExecutionPolicyPayload := mkExecutionPolicyPayload {
  xp_buy : ExecMode;
  xp_partial_sell : ExecMode;
  xp_full_sell : ExecMode;
  xp_take_profit : ExecMode;
  xp_fixed_stop_loss : ExecMode;
  xp_trailing_stop : ExecMode;
  xp_end_of_day_liquidation : ExecMode;
  xp_emergency_exit : ExecMode
}.

(** The payload of a configuration version, by category. *)
Inductive ConfigPayload :=
| RiskPayload (p : RiskPolicyPayload)
| ExecutionPayload (p : ExecutionPolicyPayload).

(** The settings the modelled code reads; the [_status] methods read the key
    files, whose outcome is part of the settings here. *)
Record Settings := mkSettings {
  environment : string;
  live_trading_enabled : bool;
  execution_stage : ExecStage;
  settings_quote_stale_seconds : Z;
  kiwoom_reconcile_interval_seconds : Z;
  dart_enabled : bool;
  dart_configuration_status : string;
  krx_enabled : bool;
  krx_configuration_status : string;
  naver_news_enabled : bool;
  naver_news_configuration_status : string
}.


(** ** Models *)

Record ModelCapabilities := mkModelCapabilities {
  cap_structured_output : bool;
  cap_tool_calling : bool;
  cap_web_search : bool;
  cap_streaming : bool;
  cap_reasoning : bool;
  cap_seed : bool;
  cap_usage_reporting : bool;
  cap_local_execution : bool
}.

#[export] Instance ModelCapabilities_eq_dec : EqDecision ModelCapabilities.
Proof. solve_decision. Defined.

(** ** Rows *)

Record OrderIntent := mkOrderIntent {
  oi_id : string;
  oi_order_group_id : string;
  oi_account_alias : string;
  oi_environment : string;
  oi_symbol : string;
  oi_market : string;
  oi_side : Side;
  oi_action : string;
  oi_requested_quantity : Z;
  oi_correlation_id : string
}.

Record TradingOrder := mkTradingOrder {
  o_id : string;
  o_intent_id : string;
  o_order_group_id : string;
  o_parent_order_id : option string;
  o_account_alias : string;
  o_environment : string;
  o_symbol : string;
  o_market : string;
  o_side : Side;
  o_order_type : OrderType;
  o_limit_price : option decimal;
  o_requested_quantity : Z;
  o_filled_quantity : Z;
  o_cancelled_quantity : Z;
  o_remaining_quantity : Z;
  o_status : OrderStatus;
  o_idempotency_key : string;
  o_request_hash : string;
  o_broker_order_id : option string;
  o_replacement_sequence : Z;
  o_unfilled_policy : UnfilledPolicy;
  o_fill_timeout_seconds : Z;
  o_max_reprice_attempts : Z;
  o_reprice_attempts : Z;
  o_next_action_at : option Z;
  o_trading_date : Z;
  o_correlation_id : string;
  o_version : Z;
  o_created_at : Z
}.

Section TradingOrderSetters.
Variable r : TradingOrder.
Definition set_o_symbol (v : string) : TradingOrder :=
    mkTradingOrder (o_id r) (o_intent_id r) (o_order_group_id r) (o_parent_order_id r) (o_account_alias r) (o_environment r) v (o_market r) (o_side r) (o_order_type r) (o_limit_price r) (o_requested_quantity r) (o_filled_quantity r) (o_cancelled_quantity r) (o_remaining_quantity r) (o_status r) (o_idempotency_key r) (o_request_hash r) (o_broker_order_id r) (o_replacement_sequence r) (o_unfilled_policy r) (o_fill_timeout_seconds r) (o_max_reprice_attempts r) (o_reprice_attempts r) (o_next_action_at r) (o_trading_date r) (o_correlation_id r) (o_version r) (o_created_at r).
Definition set_o_market (v : string) : TradingOrder :=
    mkTradingOrder (o_id r) (o_intent_id r) (o_order_group_id r) (o_parent_order_id r) (o_account_alias r) (o_environment r) (o_symbol r) v (o_side r) (o_order_type r) (o_limit_price r) (o_requested_quantity r) (o_filled_quantity r) (o_cancelled_quantity r) (o_remaining_quantity r) (o_status r) (o_idempotency_key r) (o_request_hash r) (o_broker_order_id r) (o_replacement_sequence r) (o_unfilled_policy r) (o_fill_timeout_seconds r) (o_max_reprice_attempts r) (o_reprice_attempts r) (o_next_action_at r) (o_trading_date r) (o_correlation_id r) (o_version r) (o_created_at r).
Definition set_o_side (v : Side) : TradingOrder :=
    mkTradingOrder (o_id r) (o_intent_id r) (o_order_group_id r) (o_parent_order_id r) (o_account_alias r) (o_environment r) (o_symbol r) (o_market r) v (o_order_type r) (o_limit_price r) (o_requested_quantity r) (o_filled_quantity r) (o_cancelled_quantity r) (o_remaining_quantity r) (o_status r) (o_idempotency_key r) (o_request_hash r) (o_broker_order_id r) (o_replacement_sequence r) (o_unfilled_policy r) (o_fill_timeout_seconds r) (o_max_reprice_attempts r) (o_reprice_attempts r) (o_next_action_at r) (o_trading_date r) (o_correlation_id r) (o_version r) (o_created_at r).
Definition set_o_order_type (v : OrderType) : TradingOrder :=
    mkTradingOrder (o_id r) (o_intent_id r) (o_order_group_id r) (o_parent_order_id r) (o_account_alias r) (o_environment r) (o_symbol r) (o_market r) (o_side r) v (o_limit_price r) (o_requested_quantity r) (o_filled_quantity r) (o_cancelled_quantity r) (o_remaining_quantity r) (o_status r) (o_idempotency_key r) (o_request_hash r) (o_broker_order_id r) (o_replacement_sequence r) (o_unfilled_policy r) (o_fill_timeout_seconds r) (o_max_reprice_attempts r) (o_reprice_attempts r) (o_next_action_at r) (o_trading_date r) (o_correlation_id r) (o_version r) (o_created_at r).
Definition set_o_limit_price (v : option decimal) : TradingOrder :=
    mkTradingOrder (o_id r) (o_intent_id r) (o_order_group_id r) (o_parent_order_id r) (o_account_alias r) (o_environment r) (o_symbol r) (o_market r) (o_side r) (o_order_type r) v (o_requested_quantity r) (o_filled_quantity r) (o_cancelled_quantity r) (o_remaining_quantity r) (o_status r) (o_idempotency_key r) (o_request_hash r) (o_broker_order_id r) (o_replacement_sequence r) (o_unfilled_policy r) (o_fill_timeout_seconds r) (o_max_reprice_attempts r) (o_reprice_attempts r) (o_next_action_at r) (o_trading_date r) (o_correlation_id r) (o_version r) (o_created_at r).
Definition set_o_requested_quantity (v : Z) : TradingOrder :=
    mkTradingOrder (o_id r) (o_intent_id r) (o_order_group_id r) (o_parent_order_id r) (o_account_alias r) (o_environment r) (o_symbol r) (o_market r) (o_side r) (o_order_type r) (o_limit_price r) v (o_filled_quantity r) (o_cancelled_quantity r) (o_remaining_quantity r) (o_status r) (o_idempotency_key r) (o_request_hash r) (o_broker_order_id r) (o_replacement_sequence r) (o_unfilled_policy r) (o_fill_timeout_seconds r) (o_max_reprice_attempts r) (o_reprice_attempts r) (o_next_action_at r) (o_trading_date r) (o_correlation_id r) (o_version r) (o_created_at r).
Definition set_o_filled_quantity (v : Z) : TradingOrder :=
    mkTradingOrder (o_id r) (o_intent_id r) (o_order_group_id r) (o_parent_order_id r) (o_account_alias r) (o_environment r) (o_symbol r) (o_market r) (o_side r) (o_order_type r) (o_limit_price r) (o_requested_quantity r) v (o_cancelled_quantity r) (o_remaining_quantity r) (o_status r) (o_idempotency_key r) (o_request_hash r) (o_broker_order_id r) (o_replacement_sequence r) (o_unfilled_policy r) (o_fill_timeout_seconds r) (o_max_reprice_attempts r) (o_reprice_attempts r) (o_next_action_at r) (o_trading_date r) (o_correlation_id r) (o_version r) (o_created_at r).
Definition set_o_cancelled_quantity (v : Z) : TradingOrder :=
    mkTradingOrder (o_id r) (o_intent_id r) (o_order_group_id r) (o_parent_order_id r) (o_account_alias r) (o_environment r) (o_symbol r) (o_market r) (o_side r) (o_order_type r) (o_limit_price r) (o_requested_quantity r) (o_filled_quantity r) v (o_remaining_quantity r) (o_status r) (o_idempotency_key r) (o_request_hash r) (o_broker_order_id r) (o_replacement_sequence r) (o_unfilled_policy r) (o_fill_timeout_seconds r) (o_max_reprice_attempts r) (o_reprice_attempts r) (o_next_action_at r) (o_trading_date r) (o_correlation_id r) (o_version r) (o_created_at r).
Definition set_o_remaining_quantity (v : Z) : TradingOrder :=
    mkTradingOrder (o_id r) (o_intent_id r) (o_order_group_id r) (o_parent_order_id r) (o_account_alias r) (o_environment r) (o_symbol r) (o_market r) (o_side r) (o_order_type r) (o_limit_price r) (o_requested_quantity r) (o_filled_quantity r) (o_cancelled_quantity r) v (o_status r) (o_idempotency_key r) (o_request_hash r) (o_broker_order_id r) (o_replacement_sequence r) (o_unfilled_policy r) (o_fill_timeout_seconds r) (o_max_reprice_attempts r) (o_reprice_attempts r) (o_next_action_at r) (o_trading_date r) (o_correlation_id r) (o_version r) (o_created_at r).
Definition set_o_status (v : OrderStatus) : TradingOrder :=
    mkTradingOrder (o_id r) (o_intent_id r) (o_order_group_id r) (o_parent_order_id r) (o_account_alias r) (o_environment r) (o_symbol r) (o_market r) (o_side r) (o_order_type r) (o_limit_price r) (o_requested_quantity r) (o_filled_quantity r) (o_cancelled_quantity r) (o_remaining_quantity r) v (o_idempotency_key r) (o_request_hash r) (o_broker_order_id r) (o_replacement_sequence r) (o_unfilled_policy r) (o_fill_timeout_seconds r) (o_max_reprice_attempts r) (o_reprice_attempts r) (o_next_action_at r) (o_trading_date r) (o_correlation_id r) (o_version r) (o_created_at r).
Definition set_o_broker_order_id (v : option string) : TradingOrder :=
    mkTradingOrder (o_id r) (o_intent_id r) (o_order_group_id r) (o_parent_order_id r) (o_account_alias r) (o_environment r) (o_symbol r) (o_market r) (o_side r) (o_order_type r) (o_limit_price r) (o_requested_quantity r) (o_filled_quantity r) (o_cancelled_quantity r) (o_remaining_quantity r) (o_status r) (o_idempotency_key r) (o_request_hash r) v (o_replacement_sequence r) (o_unfilled_policy r) (o_fill_timeout_seconds r) (o_max_reprice_attempts r) (o_reprice_attempts r) (o_next_action_at r) (o_trading_date r) (o_correlation_id r) (o_version r) (o_created_at r).
Definition set_o_next_action_at (v : option Z) : TradingOrder :=
    mkTradingOrder (o_id r) (o_intent_id r) (o_order_group_id r) (o_parent_order_id r) (o_account_alias r) (o_environment r) (o_symbol r) (o_market r) (o_side r) (o_order_type r) (o_limit_price r) (o_requested_quantity r) (o_filled_quantity r) (o_cancelled_quantity r) (o_remaining_quantity r) (o_status r) (o_idempotency_key r) (o_request_hash r) (o_broker_order_id r) (o_replacement_sequence r) (o_unfilled_policy r) (o_fill_timeout_seconds r) (o_max_reprice_attempts r) (o_reprice_attempts r) v (o_trading_date r) (o_correlation_id r) (o_version r) (o_created_at r).
Definition set_o_version (v : Z) : TradingOrder :=
    mkTradingOrder (o_id r) (o_intent_id r) (o_order_group_id r) (o_parent_order_id r) (o_account_alias r) (o_environment r) (o_symbol r) (o_market r) (o_side r) (o_order_type r) (o_limit_price r) (o_requested_quantity r) (o_filled_quantity r) (o_cancelled_quantity r) (o_remaining_quantity r) (o_status r) (o_idempotency_key r) (o_request_hash r) (o_broker_order_id r) (o_replacement_sequence r) (o_unfilled_policy r) (o_fill_timeout_seconds r) (o_max_reprice_attempts r) (o_reprice_attempts r) (o_next_action_at r) (o_trading_date r) (o_correlation_id r) v (o_created_at r).
End TradingOrderSetters.

Record OrderEvent := mkOrderEvent {
  oe_order_id : string;
  oe_event_type : string;
  oe_source : string;
  oe_source_key : string;
  oe_payload_hash : string;
  oe_payload : json;
  oe_correlation_id : string;
  oe_occurred_at : Z
}.

Record Fill := mkFill {
  f_id : string;
  f_order_id : string;
  f_broker_fill_key : string;
  f_quantity : Z;
  f_price : decimal;
  f_fee : decimal;
  f_tax : decimal;
  f_filled_at : Z
}.

Record Position := mkPosition {
  p_id : string;
  p_account_alias : string;
  p_symbol : string;
  p_quantity : Z;
  p_available_quantity : Z;
  p_managed_quantity : Z;
  p_average_price : decimal;
  p_managed_average_price : decimal;
  p_state : PositionState;
  p_origin : Origin;
  p_version : Z
}.

Section PositionSetters.
Variable r : Position.
Definition set_p_quantity (v : Z) : Position :=
    mkPosition (p_id r) (p_account_alias r) (p_symbol r) v (p_available_quantity r) (p_managed_quantity r) (p_average_price r) (p_managed_average_price r) (p_state r) (p_origin r) (p_version r).
Definition set_p_available_quantity (v : Z) : Position :=
    mkPosition (p_id r) (p_account_alias r) (p_symbol r) (p_quantity r) v (p_managed_quantity r) (p_average_price r) (p_managed_average_price r) (p_state r) (p_origin r) (p_version r).
Definition set_p_managed_quantity (v : Z) : Position :=
    mkPosition (p_id r) (p_account_alias r) (p_symbol r) (p_quantity r) (p_available_quantity r) v (p_average_price r) (p_managed_average_price r) (p_state r) (p_origin r) (p_version r).
Definition set_p_average_price (v : decimal) : Position :=
    mkPosition (p_id r) (p_account_alias r) (p_symbol r) (p_quantity r) (p_available_quantity r) (p_managed_quantity r) v (p_managed_average_price r) (p_state r) (p_origin r) (p_version r).
Definition set_p_managed_average_price (v : decimal) : Position :=
    mkPosition (p_id r) (p_account_alias r) (p_symbol r) (p_quantity r) (p_available_quantity r) (p_managed_quantity r) (p_average_price r) v (p_state r) (p_origin r) (p_version r).
Definition set_p_state (v : PositionState) : Position :=
    mkPosition (p_id r) (p_account_alias r) (p_symbol r) (p_quantity r) (p_available_quantity r) (p_managed_quantity r) (p_average_price r) (p_managed_average_price r) v (p_origin r) (p_version r).
Definition set_p_origin (v : Origin) : Position :=
    mkPosition (p_id r) (p_account_alias r) (p_symbol r) (p_quantity r) (p_available_quantity r) (p_managed_quantity r) (p_average_price r) (p_managed_average_price r) (p_state r) v (p_version r).
Definition set_p_version (v : Z) : Position :=
    mkPosition (p_id r) (p_account_alias r) (p_symbol r) (p_quantity r) (p_available_quantity r) (p_managed_quantity r) (p_average_price r) (p_managed_average_price r) (p_state r) (p_origin r) v.
End PositionSetters.

Record PositionEvent := mkPositionEvent {
  pe_position_id : string;
  pe_cause_type : string;
  pe_cause_id : string;
  pe_before : json;
  pe_after : json;
  pe_correlation_id : string
}.

Record TradingGate := mkTradingGate {
  g_account_alias : string;
  g_environment : string;
  g_status : GateStatus;
  g_reason : option string;
  g_version : Z
}.

Section TradingGateSetters.
Variable r : TradingGate.
Definition set_g_status (v : GateStatus) : TradingGate :=
    mkTradingGate (g_account_alias r) (g_environment r) v (g_reason r) (g_version r).
Definition set_g_reason (v : option string) : TradingGate :=
    mkTradingGate (g_account_alias r) (g_environment r) (g_status r) v (g_version r).
Definition set_g_version (v : Z) : TradingGate :=
    mkTradingGate (g_account_alias r) (g_environment r) (g_status r) (g_reason r) v.
End TradingGateSetters.

Record BrokerLease := mkBrokerLease {
  bl_key : string;
  bl_owner_id : string;
  bl_fencing_token : Z;
  bl_expires_at : Z;
  bl_version : Z;
  bl_updated_at : Z
}.

Section BrokerLeaseSetters.
Variable r : BrokerLease.
Definition set_bl_owner_id (v : string) : BrokerLease :=
    mkBrokerLease (bl_key r) v (bl_fencing_token r) (bl_expires_at r) (bl_version r) (bl_updated_at r).
Definition set_bl_fencing_token (v : Z) : BrokerLease :=
    mkBrokerLease (bl_key r) (bl_owner_id r) v (bl_expires_at r) (bl_version r) (bl_updated_at r).
Definition set_bl_expires_at (v : Z) : BrokerLease :=
    mkBrokerLease (bl_key r) (bl_owner_id r) (bl_fencing_token r) v (bl_version r) (bl_updated_at r).
Definition set_bl_version (v : Z) : BrokerLease :=
    mkBrokerLease (bl_key r) (bl_owner_id r) (bl_fencing_token r) (bl_expires_at r) v (bl_updated_at r).
Definition set_bl_updated_at (v : Z) : BrokerLease :=
    mkBrokerLease (bl_key r) (bl_owner_id r) (bl_fencing_token r) (bl_expires_at r) (bl_version r) v.
End BrokerLeaseSetters.

Record BrokerWorkerState := mkBrokerWorkerState {
  bw_account_alias : string;
  bw_environment : string;
  bw_state : WorkerName;
  bw_fencing_token : Z;
  bw_websocket_connected : bool;
  bw_subscriptions_ready : bool;
  bw_last_heartbeat_at : Z;
  bw_last_reconciliation_at : option Z;
  bw_last_reconciliation_run_id : option string;
  bw_last_error_code : option string;
  bw_started_at : Z;
  bw_updated_at : Z
}.

Section BrokerWorkerStateSetters.
Variable r : BrokerWorkerState.
Definition set_bw_state (v : WorkerName) : BrokerWorkerState :=
    mkBrokerWorkerState (bw_account_alias r) (bw_environment r) v (bw_fencing_token r) (bw_websocket_connected r) (bw_subscriptions_ready r) (bw_last_heartbeat_at r) (bw_last_reconciliation_at r) (bw_last_reconciliation_run_id r) (bw_last_error_code r) (bw_started_at r) (bw_updated_at r).
Definition set_bw_fencing_token (v : Z) : BrokerWorkerState :=
    mkBrokerWorkerState (bw_account_alias r) (bw_environment r) (bw_state r) v (bw_websocket_connected r) (bw_subscriptions_ready r) (bw_last_heartbeat_at r) (bw_last_reconciliation_at r) (bw_last_reconciliation_run_id r) (bw_last_error_code r) (bw_started_at r) (bw_updated_at r).
Definition set_bw_websocket_connected (v : bool) : BrokerWorkerState :=
    mkBrokerWorkerState (bw_account_alias r) (bw_environment r) (bw_state r) (bw_fencing_token r) v (bw_subscriptions_ready r) (bw_last_heartbeat_at r) (bw_last_reconciliation_at r) (bw_last_reconciliation_run_id r) (bw_last_error_code r) (bw_started_at r) (bw_updated_at r).
Definition set_bw_subscriptions_ready (v : bool) : BrokerWorkerState :=
    mkBrokerWorkerState (bw_account_alias r) (bw_environment r) (bw_state r) (bw_fencing_token r) (bw_websocket_connected r) v (bw_last_heartbeat_at r) (bw_last_reconciliation_at r) (bw_last_reconciliation_run_id r) (bw_last_error_code r) (bw_started_at r) (bw_updated_at r).
Definition set_bw_last_heartbeat_at (v : Z) : BrokerWorkerState :=
    mkBrokerWorkerState (bw_account_alias r) (bw_environment r) (bw_state r) (bw_fencing_token r) (bw_websocket_connected r) (bw_subscriptions_ready r) v (bw_last_reconciliation_at r) (bw_last_reconciliation_run_id r) (bw_last_error_code r) (bw_started_at r) (bw_updated_at r).
Definition set_bw_last_reconciliation_at (v : option Z) : BrokerWorkerState :=
    mkBrokerWorkerState (bw_account_alias r) (bw_environment r) (bw_state r) (bw_fencing_token r) (bw_websocket_connected r) (bw_subscriptions_ready r) (bw_last_heartbeat_at r) v (bw_last_reconciliation_run_id r) (bw_last_error_code r) (bw_started_at r) (bw_updated_at r).
Definition set_bw_last_reconciliation_run_id (v : option string) : BrokerWorkerState :=
    mkBrokerWorkerState (bw_account_alias r) (bw_environment r) (bw_state r) (bw_fencing_token r) (bw_websocket_connected r) (bw_subscriptions_ready r) (bw_last_heartbeat_at r) (bw_last_reconciliation_at r) v (bw_last_error_code r) (bw_started_at r) (bw_updated_at r).
Definition set_bw_last_error_code (v : option string) : BrokerWorkerState :=
    mkBrokerWorkerState (bw_account_alias r) (bw_environment r) (bw_state r) (bw_fencing_token r) (bw_websocket_connected r) (bw_subscriptions_ready r) (bw_last_heartbeat_at r) (bw_last_reconciliation_at r) (bw_last_reconciliation_run_id r) v (bw_started_at r) (bw_updated_at r).
Definition set_bw_updated_at (v : Z) : BrokerWorkerState :=
    mkBrokerWorkerState (bw_account_alias r) (bw_environment r) (bw_state r) (bw_fencing_token r) (bw_websocket_connected r) (bw_subscriptions_ready r) (bw_last_heartbeat_at r) (bw_last_reconciliation_at r) (bw_last_reconciliation_run_id r) (bw_last_error_code r) (bw_started_at r) v.
End BrokerWorkerStateSetters.

Record AnalysisSchedulerState := mkAnalysisSchedulerState {
  as_scheduler_name : string;
  as_state : string;
  as_fencing_token : Z;
  as_last_slot_key : option string;
  as_last_heartbeat_at : Z;
  as_last_tick_at : option Z;
  as_last_completed_at : option Z;
  as_next_due_at : option Z;
  as_processed_count : Z;
  as_decision_count : Z;
  as_skipped_count : Z;
  as_failed_count : Z;
  as_last_error_code : option string;
  as_started_at : Z;
  as_updated_at : Z
}.

Record RiskEvent := mkRiskEvent {
  re_id : string;
  re_scope : string;
  re_rule_code : string;
  re_severity : string;
  re_active : bool;
  re_account_alias : string;
  re_symbol : option string;
  re_input_snapshot_id : option string;
  re_input : json;
  re_resolution : option string;
  re_resolved_at : option Z;
  re_correlation_id : string;
  re_created_at : Z
}.

Section RiskEventSetters.
Variable r : RiskEvent.
Definition set_re_active (v : bool) : RiskEvent :=
    mkRiskEvent (re_id r) (re_scope r) (re_rule_code r) (re_severity r) v (re_account_alias r) (re_symbol r) (re_input_snapshot_id r) (re_input r) (re_resolution r) (re_resolved_at r) (re_correlation_id r) (re_created_at r).
Definition set_re_resolution (v : option string) : RiskEvent :=
    mkRiskEvent (re_id r) (re_scope r) (re_rule_code r) (re_severity r) (re_active r) (re_account_alias r) (re_symbol r) (re_input_snapshot_id r) (re_input r) v (re_resolved_at r) (re_correlation_id r) (re_created_at r).
Definition set_re_resolved_at (v : option Z) : RiskEvent :=
    mkRiskEvent (re_id r) (re_scope r) (re_rule_code r) (re_severity r) (re_active r) (re_account_alias r) (re_symbol r) (re_input_snapshot_id r) (re_input r) (re_resolution r) v (re_correlation_id r) (re_created_at r).
End RiskEventSetters.

Record StopTrigger := mkStopTrigger {
  st_id : string;
  st_account_alias : string;
  st_position_id : string;
  st_position_version : Z;
  st_symbol : string;
  st_market : string;
  st_risk_policy_version_id : option string;
  st_stop_price : decimal;
  st_trigger_price : option decimal;
  st_snapshot_id : option string;
  st_state : TriggerState;
  st_result_code : option string;
  st_guard_evaluation_id : option string;
  st_risk_event_id : option string;
  st_correlation_id : string
}.

Section StopTriggerSetters.
Variable r : StopTrigger.
Definition set_st_state (v : TriggerState) : StopTrigger :=
    mkStopTrigger (st_id r) (st_account_alias r) (st_position_id r) (st_position_version r) (st_symbol r) (st_market r) (st_risk_policy_version_id r) (st_stop_price r) (st_trigger_price r) (st_snapshot_id r) v (st_result_code r) (st_guard_evaluation_id r) (st_risk_event_id r) (st_correlation_id r).
Definition set_st_result_code (v : option string) : StopTrigger :=
    mkStopTrigger (st_id r) (st_account_alias r) (st_position_id r) (st_position_version r) (st_symbol r) (st_market r) (st_risk_policy_version_id r) (st_stop_price r) (st_trigger_price r) (st_snapshot_id r) (st_state r) v (st_guard_evaluation_id r) (st_risk_event_id r) (st_correlation_id r).
Definition set_st_guard_evaluation_id (v : option string) : StopTrigger :=
    mkStopTrigger (st_id r) (st_account_alias r) (st_position_id r) (st_position_version r) (st_symbol r) (st_market r) (st_risk_policy_version_id r) (st_stop_price r) (st_trigger_price r) (st_snapshot_id r) (st_state r) (st_result_code r) v (st_risk_event_id r) (st_correlation_id r).
Definition set_st_risk_event_id (v : option string) : StopTrigger :=
    mkStopTrigger (st_id r) (st_account_alias r) (st_position_id r) (st_position_version r) (st_symbol r) (st_market r) (st_risk_policy_version_id r) (st_stop_price r) (st_trigger_price r) (st_snapshot_id r) (st_state r) (st_result_code r) (st_guard_evaluation_id r) v (st_correlation_id r).
End StopTriggerSetters.

Record MarketSnapshot := mkMarketSnapshot {
  ms_id : string;
  ms_symbol : string;
  ms_market : string;
  ms_source : string;
  ms_sequence_or_hash : string;
  ms_source_sequence : option Z;
  ms_payload_hash : string;
  ms_last_price : decimal;
  ms_open_price : decimal;
  ms_high_price : decimal;
  ms_low_price : decimal;
  ms_cumulative_volume : Z;
  ms_best_bid_price : option decimal;
  ms_best_bid_quantity : option Z;
  ms_best_ask_price : option decimal;
  ms_best_ask_quantity : option Z;
  ms_trading_status : string;
  ms_quality : Quality;
  ms_recovery_snapshot : bool;
  ms_event_at : Z;
  ms_received_at : Z
}.

Record MarketStreamState := mkMarketStreamState {
  mss_market : string;
  mss_symbol : string;
  mss_source : string;
  mss_current_snapshot_id : option string;
  mss_last_sequence : option Z;
  mss_last_event_at : option Z;
  mss_last_received_at : option Z;
  mss_cumulative_volume : option Z;
  mss_quality : Quality;
  mss_version : Z
}.

Section MarketStreamStateSetters.
Variable r : MarketStreamState.
Definition set_mss_source (v : string) : MarketStreamState :=
    mkMarketStreamState (mss_market r) (mss_symbol r) v (mss_current_snapshot_id r) (mss_last_sequence r) (mss_last_event_at r) (mss_last_received_at r) (mss_cumulative_volume r) (mss_quality r) (mss_version r).
Definition set_mss_current_snapshot_id (v : option string) : MarketStreamState :=
    mkMarketStreamState (mss_market r) (mss_symbol r) (mss_source r) v (mss_last_sequence r) (mss_last_event_at r) (mss_last_received_at r) (mss_cumulative_volume r) (mss_quality r) (mss_version r).
Definition set_mss_last_sequence (v : option Z) : MarketStreamState :=
    mkMarketStreamState (mss_market r) (mss_symbol r) (mss_source r) (mss_current_snapshot_id r) v (mss_last_event_at r) (mss_last_received_at r) (mss_cumulative_volume r) (mss_quality r) (mss_version r).
Definition set_mss_last_event_at (v : option Z) : MarketStreamState :=
    mkMarketStreamState (mss_market r) (mss_symbol r) (mss_source r) (mss_current_snapshot_id r) (mss_last_sequence r) v (mss_last_received_at r) (mss_cumulative_volume r) (mss_quality r) (mss_version r).
Definition set_mss_last_received_at (v : option Z) : MarketStreamState :=
    mkMarketStreamState (mss_market r) (mss_symbol r) (mss_source r) (mss_current_snapshot_id r) (mss_last_sequence r) (mss_last_event_at r) v (mss_cumulative_volume r) (mss_quality r) (mss_version r).
Definition set_mss_cumulative_volume (v : option Z) : MarketStreamState :=
    mkMarketStreamState (mss_market r) (mss_symbol r) (mss_source r) (mss_current_snapshot_id r) (mss_last_sequence r) (mss_last_event_at r) (mss_last_received_at r) v (mss_quality r) (mss_version r).
Definition set_mss_quality (v : Quality) : MarketStreamState :=
    mkMarketStreamState (mss_market r) (mss_symbol r) (mss_source r) (mss_current_snapshot_id r) (mss_last_sequence r) (mss_last_event_at r) (mss_last_received_at r) (mss_cumulative_volume r) v (mss_version r).
Definition set_mss_version (v : Z) : MarketStreamState :=
    mkMarketStreamState (mss_market r) (mss_symbol r) (mss_source r) (mss_current_snapshot_id r) (mss_last_sequence r) (mss_last_event_at r) (mss_last_received_at r) (mss_cumulative_volume r) (mss_quality r) v.
End MarketStreamStateSetters.

Record User := mkUser {
  u_id : string;
  u_login_id : string;
  u_password_hash : string;
  u_status : string
}.

Record WatchlistItem := mkWatchlistItem {
  wl_id : string;
  wl_user_id : string;
  wl_symbol : string;
  wl_market : string
}.

Record ConfigurationVersion := mkConfigurationVersion {
  cv_id : string;
  cv_scope : string;
  cv_target_id : string;
  cv_category : string;
  cv_sequence : Z;
  cv_state : ConfigState;
  cv_payload : ConfigPayload;
  cv_payload_hash : string;
  cv_reason : string;
  cv_created_by : string;
  cv_base_active_version_id : option string;
  cv_validated_at : option Z;
  cv_activated_at : option Z
}.

Section ConfigurationVersionSetters.
Variable r : ConfigurationVersion.
Definition set_cv_state (v : ConfigState) : ConfigurationVersion :=
    mkConfigurationVersion (cv_id r) (cv_scope r) (cv_target_id r) (cv_category r) (cv_sequence r) v (cv_payload r) (cv_payload_hash r) (cv_reason r) (cv_created_by r) (cv_base_active_version_id r) (cv_validated_at r) (cv_activated_at r).
Definition set_cv_validated_at (v : option Z) : ConfigurationVersion :=
    mkConfigurationVersion (cv_id r) (cv_scope r) (cv_target_id r) (cv_category r) (cv_sequence r) (cv_state r) (cv_payload r) (cv_payload_hash r) (cv_reason r) (cv_created_by r) (cv_base_active_version_id r) v (cv_activated_at r).
Definition set_cv_activated_at (v : option Z) : ConfigurationVersion :=
    mkConfigurationVersion (cv_id r) (cv_scope r) (cv_target_id r) (cv_category r) (cv_sequence r) (cv_state r) (cv_payload r) (cv_payload_hash r) (cv_reason r) (cv_created_by r) (cv_base_active_version_id r) (cv_validated_at r) v.
End ConfigurationVersionSetters.

Record Decision := mkDecision {
  d_id : string;
  d_decision_input_id : option string;
  d_purpose : string;
  d_evaluation_request_id : string;
  d_input_snapshot_id : string;
  d_symbol : string;
  d_market : string;
  d_decision_kind : string;
  d_model_provider : string;
  d_model_id : string;
  d_prompt_version : string;
  d_schema_version : string;
  d_scout_output : json;
  d_core_output : json;
  d_action : Action;
  d_confidence : decimal;
  d_risk_level : string;
  d_reason_codes : json;
  d_valid_until : Z;
  d_configuration_version_id : option string;
  d_latency_ms : Z
}.

Record DecisionExecution := mkDecisionExecution {
  ex_id : string;
  ex_execution_key : string;
  ex_decision_id : string;
  ex_user_id : string;
  ex_account_alias : string;
  ex_symbol : string;
  ex_market : string;
  ex_action : string;
  ex_mode : ExecMode;
  ex_stage : ExecStage;
  ex_state : ExecState;
  ex_result_code : option string;
  ex_execution_policy_version_id : option string;
  ex_risk_policy_version_id : option string;
  ex_guard_evaluation_id : option string;
  ex_approval_id : option string;
  ex_order_intent_id : option string;
  ex_correlation_id : string
}.

Section DecisionExecutionSetters.
Variable r : DecisionExecution.
Definition set_ex_state (v : ExecState) : DecisionExecution :=
    mkDecisionExecution (ex_id r) (ex_execution_key r) (ex_decision_id r) (ex_user_id r) (ex_account_alias r) (ex_symbol r) (ex_market r) (ex_action r) (ex_mode r) (ex_stage r) v (ex_result_code r) (ex_execution_policy_version_id r) (ex_risk_policy_version_id r) (ex_guard_evaluation_id r) (ex_approval_id r) (ex_order_intent_id r) (ex_correlation_id r).
Definition set_ex_result_code (v : option string) : DecisionExecution :=
    mkDecisionExecution (ex_id r) (ex_execution_key r) (ex_decision_id r) (ex_user_id r) (ex_account_alias r) (ex_symbol r) (ex_market r) (ex_action r) (ex_mode r) (ex_stage r) (ex_state r) v (ex_execution_policy_version_id r) (ex_risk_policy_version_id r) (ex_guard_evaluation_id r) (ex_approval_id r) (ex_order_intent_id r) (ex_correlation_id r).
Definition set_ex_guard_evaluation_id (v : option string) : DecisionExecution :=
    mkDecisionExecution (ex_id r) (ex_execution_key r) (ex_decision_id r) (ex_user_id r) (ex_account_alias r) (ex_symbol r) (ex_market r) (ex_action r) (ex_mode r) (ex_stage r) (ex_state r) (ex_result_code r) (ex_execution_policy_version_id r) (ex_risk_policy_version_id r) v (ex_approval_id r) (ex_order_intent_id r) (ex_correlation_id r).
Definition set_ex_approval_id (v : option string) : DecisionExecution :=
    mkDecisionExecution (ex_id r) (ex_execution_key r) (ex_decision_id r) (ex_user_id r) (ex_account_alias r) (ex_symbol r) (ex_market r) (ex_action r) (ex_mode r) (ex_stage r) (ex_state r) (ex_result_code r) (ex_execution_policy_version_id r) (ex_risk_policy_version_id r) (ex_guard_evaluation_id r) v (ex_order_intent_id r) (ex_correlation_id r).
Definition set_ex_order_intent_id (v : option string) : DecisionExecution :=
    mkDecisionExecution (ex_id r) (ex_execution_key r) (ex_decision_id r) (ex_user_id r) (ex_account_alias r) (ex_symbol r) (ex_market r) (ex_action r) (ex_mode r) (ex_stage r) (ex_state r) (ex_result_code r) (ex_execution_policy_version_id r) (ex_risk_policy_version_id r) (ex_guard_evaluation_id r) (ex_approval_id r) v (ex_correlation_id r).
End DecisionExecutionSetters.

Record GuardEvaluation := mkGuardEvaluation {
  ge_id : string;
  ge_execution_id : string;
  ge_phase : string;
  ge_subject_type : string;
  ge_subject_id : string;
  ge_blocked : bool;
  ge_rule_results : json;
  ge_halt_scope : option string;
  ge_snapshot_id : option string;
  ge_position_version : option Z;
  ge_execution_policy_version_id : option string;
  ge_risk_policy_version_id : option string;
  ge_evaluated_at : Z;
  ge_valid_until : option Z
}.

Record Approval := mkApproval {
  ap_id : string;
  ap_execution_id : string;
  ap_decision_id : string;
  ap_user_id : string;
  ap_state : ApprovalState;
  ap_scope_snapshot : json;
  ap_expires_at : Z;
  ap_actor_id : option string;
  ap_order_id : option string;
  ap_result_code : option string;
  ap_version : Z;
  ap_created_at : Z
}.

Section ApprovalSetters.
Variable r : Approval.
Definition set_ap_state (v : ApprovalState) : Approval :=
    mkApproval (ap_id r) (ap_execution_id r) (ap_decision_id r) (ap_user_id r) v (ap_scope_snapshot r) (ap_expires_at r) (ap_actor_id r) (ap_order_id r) (ap_result_code r) (ap_version r) (ap_created_at r).
Definition set_ap_actor_id (v : option string) : Approval :=
    mkApproval (ap_id r) (ap_execution_id r) (ap_decision_id r) (ap_user_id r) (ap_state r) (ap_scope_snapshot r) (ap_expires_at r) v (ap_order_id r) (ap_result_code r) (ap_version r) (ap_created_at r).
Definition set_ap_order_id (v : option string) : Approval :=
    mkApproval (ap_id r) (ap_execution_id r) (ap_decision_id r) (ap_user_id r) (ap_state r) (ap_scope_snapshot r) (ap_expires_at r) (ap_actor_id r) v (ap_result_code r) (ap_version r) (ap_created_at r).
Definition set_ap_result_code (v : option string) : Approval :=
    mkApproval (ap_id r) (ap_execution_id r) (ap_decision_id r) (ap_user_id r) (ap_state r) (ap_scope_snapshot r) (ap_expires_at r) (ap_actor_id r) (ap_order_id r) v (ap_version r) (ap_created_at r).
Definition set_ap_version (v : Z) : Approval :=
    mkApproval (ap_id r) (ap_execution_id r) (ap_decision_id r) (ap_user_id r) (ap_state r) (ap_scope_snapshot r) (ap_expires_at r) (ap_actor_id r) (ap_order_id r) (ap_result_code r) v (ap_created_at r).
End ApprovalSetters.

Record EmergencyStop := mkEmergencyStop {
  es_id : string;
  es_account_alias : string;
  es_level : string;
  es_active : bool;
  es_reason : string;
  es_activation_key : string;
  es_release_key : option string;
  es_activated_by : string;
  es_released_by : option string;
  es_activated_at : Z;
  es_released_at : option Z;
  es_version : Z
}.

Section EmergencyStopSetters.
Variable r : EmergencyStop.
Definition set_es_active (v : bool) : EmergencyStop :=
    mkEmergencyStop (es_id r) (es_account_alias r) (es_level r) v (es_reason r) (es_activation_key r) (es_release_key r) (es_activated_by r) (es_released_by r) (es_activated_at r) (es_released_at r) (es_version r).
Definition set_es_reason (v : string) : EmergencyStop :=
    mkEmergencyStop (es_id r) (es_account_alias r) (es_level r) (es_active r) v (es_activation_key r) (es_release_key r) (es_activated_by r) (es_released_by r) (es_activated_at r) (es_released_at r) (es_version r).
Definition set_es_activation_key (v : string) : EmergencyStop :=
    mkEmergencyStop (es_id r) (es_account_alias r) (es_level r) (es_active r) (es_reason r) v (es_release_key r) (es_activated_by r) (es_released_by r) (es_activated_at r) (es_released_at r) (es_version r).
Definition set_es_release_key (v : option string) : EmergencyStop :=
    mkEmergencyStop (es_id r) (es_account_alias r) (es_level r) (es_active r) (es_reason r) (es_activation_key r) v (es_activated_by r) (es_released_by r) (es_activated_at r) (es_released_at r) (es_version r).
Definition set_es_activated_by (v : string) : EmergencyStop :=
    mkEmergencyStop (es_id r) (es_account_alias r) (es_level r) (es_active r) (es_reason r) (es_activation_key r) (es_release_key r) v (es_released_by r) (es_activated_at r) (es_released_at r) (es_version r).
Definition set_es_released_by (v : option string) : EmergencyStop :=
    mkEmergencyStop (es_id r) (es_account_alias r) (es_level r) (es_active r) (es_reason r) (es_activation_key r) (es_release_key r) (es_activated_by r) v (es_activated_at r) (es_released_at r) (es_version r).
Definition set_es_activated_at (v : Z) : EmergencyStop :=
    mkEmergencyStop (es_id r) (es_account_alias r) (es_level r) (es_active r) (es_reason r) (es_activation_key r) (es_release_key r) (es_activated_by r) (es_released_by r) v (es_released_at r) (es_version r).
Definition set_es_released_at (v : option Z) : EmergencyStop :=
    mkEmergencyStop (es_id r) (es_account_alias r) (es_level r) (es_active r) (es_reason r) (es_activation_key r) (es_release_key r) (es_activated_by r) (es_released_by r) (es_activated_at r) v (es_version r).
Definition set_es_version (v : Z) : EmergencyStop :=
    mkEmergencyStop (es_id r) (es_account_alias r) (es_level r) (es_active r) (es_reason r) (es_activation_key r) (es_release_key r) (es_activated_by r) (es_released_by r) (es_activated_at r) (es_released_at r) v.
End EmergencyStopSetters.

Record MarketCalendarOverride := mkMarketCalendarOverride {
  co_id : string;
  co_market_date : Z;
  co_override_type : string;
  co_active : bool;
  co_reason : string;
  co_source_reference : string;
  co_created_by : string;
  co_revoked_by : option string;
  co_revoked_at : option Z;
  co_created_at : Z
}.

Section MarketCalendarOverrideSetters.
Variable r : MarketCalendarOverride.
Definition set_co_active (v : bool) : MarketCalendarOverride :=
    mkMarketCalendarOverride (co_id r) (co_market_date r) (co_override_type r) v (co_reason r) (co_source_reference r) (co_created_by r) (co_revoked_by r) (co_revoked_at r) (co_created_at r).
Definition set_co_revoked_by (v : option string) : MarketCalendarOverride :=
    mkMarketCalendarOverride (co_id r) (co_market_date r) (co_override_type r) (co_active r) (co_reason r) (co_source_reference r) (co_created_by r) v (co_revoked_at r) (co_created_at r).
Definition set_co_revoked_at (v : option Z) : MarketCalendarOverride :=
    mkMarketCalendarOverride (co_id r) (co_market_date r) (co_override_type r) (co_active r) (co_reason r) (co_source_reference r) (co_created_by r) (co_revoked_by r) v (co_created_at r).
End MarketCalendarOverrideSetters.

Record VenueSelectionEvaluation := mkVenueSelectionEvaluation {
  vs_id : string;
  vs_owner_id : string;
  vs_symbol : string;
  vs_side : string;
  vs_quantity : Z;
  vs_order_type : string;
  vs_urgency : string;
  vs_environment : string;
  vs_execution_stage : string;
  vs_session : string;
  vs_trading_day_status : string;
  vs_calendar_reason : string;
  vs_calendar_policy_version : string;
  vs_calendar_override_id : option string;
  vs_nxt_eligible : bool;
  vs_nxt_eligibility_status : string;
  vs_sor_supported : bool;
  vs_selected_venue : string;
  vs_state : string;
  vs_order_creation_allowed : bool;
  vs_krx_snapshot_id : option string;
  vs_nxt_snapshot_id : option string;
  vs_input : json;
  vs_input_hash : string;
  vs_reason_codes : list string;
  vs_policy_version : string;
  vs_evaluated_at : Z
}.

Record AuditLog := mkAuditLog {
  al_actor_type : string;
  al_actor_id : option string;
  al_action : string;
  al_target : option string;
  al_result : string;
  al_request_ip : option string;
  al_user_agent : option string;
  al_correlation_id : string;
  al_metadata : json
}.

Record ReconciliationRun := mkReconciliationRun {
  rr_id : string;
  rr_account_alias : string;
  rr_trigger : string;
  rr_state : string;
  rr_started_at : Z;
  rr_completed_at : option Z;
  rr_snapshot_at : option Z;
  rr_mismatch_count : Z;
  rr_critical_mismatch_count : Z;
  rr_correlation_id : string;
  rr_result_summary : json
}.

Section ReconciliationRunSetters.
Variable r : ReconciliationRun.
Definition set_rr_state (v : string) : ReconciliationRun :=
    mkReconciliationRun (rr_id r) (rr_account_alias r) (rr_trigger r) v (rr_started_at r) (rr_completed_at r) (rr_snapshot_at r) (rr_mismatch_count r) (rr_critical_mismatch_count r) (rr_correlation_id r) (rr_result_summary r).
Definition set_rr_completed_at (v : option Z) : ReconciliationRun :=
    mkReconciliationRun (rr_id r) (rr_account_alias r) (rr_trigger r) (rr_state r) (rr_started_at r) v (rr_snapshot_at r) (rr_mismatch_count r) (rr_critical_mismatch_count r) (rr_correlation_id r) (rr_result_summary r).
Definition set_rr_snapshot_at (v : option Z) : ReconciliationRun :=
    mkReconciliationRun (rr_id r) (rr_account_alias r) (rr_trigger r) (rr_state r) (rr_started_at r) (rr_completed_at r) v (rr_mismatch_count r) (rr_critical_mismatch_count r) (rr_correlation_id r) (rr_result_summary r).
Definition set_rr_mismatch_count (v : Z) : ReconciliationRun :=
    mkReconciliationRun (rr_id r) (rr_account_alias r) (rr_trigger r) (rr_state r) (rr_started_at r) (rr_completed_at r) (rr_snapshot_at r) v (rr_critical_mismatch_count r) (rr_correlation_id r) (rr_result_summary r).
Definition set_rr_critical_mismatch_count (v : Z) : ReconciliationRun :=
    mkReconciliationRun (rr_id r) (rr_account_alias r) (rr_trigger r) (rr_state r) (rr_started_at r) (rr_completed_at r) (rr_snapshot_at r) (rr_mismatch_count r) v (rr_correlation_id r) (rr_result_summary r).
Definition set_rr_result_summary (v : json) : ReconciliationRun :=
    mkReconciliationRun (rr_id r) (rr_account_alias r) (rr_trigger r) (rr_state r) (rr_started_at r) (rr_completed_at r) (rr_snapshot_at r) (rr_mismatch_count r) (rr_critical_mismatch_count r) (rr_correlation_id r) v.
End ReconciliationRunSetters.

Record ReconciliationMismatch := mkReconciliationMismatch {
  rm_run_id : string;
  rm_code : string;
  rm_symbol : option string;
  rm_severity : string;
  rm_state : string;
  rm_broker_value : json;
  rm_internal_value : json;
  rm_resolved_at : option Z
}.

Section ReconciliationMismatchSetters.
Variable r : ReconciliationMismatch.
Definition set_rm_state (v : string) : ReconciliationMismatch :=
    mkReconciliationMismatch (rm_run_id r) (rm_code r) (rm_symbol r) (rm_severity r) v (rm_broker_value r) (rm_internal_value r) (rm_resolved_at r).
Definition set_rm_resolved_at (v : option Z) : ReconciliationMismatch :=
    mkReconciliationMismatch (rm_run_id r) (rm_code r) (rm_symbol r) (rm_severity r) (rm_state r) (rm_broker_value r) (rm_internal_value r) v.
End ReconciliationMismatchSetters.

Record MinuteBar := mkMinuteBar {
  mb_id : string;
  mb_market : string;
  mb_symbol : string;
  mb_bucket_start : Z;
  mb_open_price : decimal;
  mb_high_price : decimal;
  mb_low_price : decimal;
  mb_close_price : decimal;
  mb_volume : Z;
  mb_turnover : decimal;
  mb_event_count : Z;
  mb_first_snapshot_id : string;
  mb_last_snapshot_id : string;
  mb_version : Z
}.

Record IndicatorSnapshot := mkIndicatorSnapshot {
  is_id : string;
  is_market_snapshot_id : string;
  is_market : string;
  is_symbol : string;
  is_calculator_version : string;
  is_vwap : decimal;
  is_sma5 : option decimal;
  is_session_high : decimal;
  is_drawdown_from_high_pct : decimal;
  is_spread_pct : option decimal;
  is_price_vs_vwap_pct : option decimal;
  is_sma5_slope_pct : option decimal;
  is_relative_volume_5 : option decimal;
  is_realized_volatility_pct : option decimal;
  is_minute_bar_count : Z;
  is_input_start_at : Z;
  is_input_end_at : Z
}.

Record InstrumentVenueState := mkInstrumentVenueState {
  iv_symbol : string;
  iv_venue : string;
  iv_eligibility_status : string;
  iv_evidence_source : string;
  iv_evidence_ref : string;
  iv_observed_at : Z;
  iv_last_quote_at : option Z
}.

Record DecisionInputSnapshot := mkDecisionInputSnapshot {
  di_id : string;
  di_user_id : string;
  di_purpose : string;
  di_schema_version : string;
  di_market : string;
  di_symbol : string;
  di_market_snapshot_id : string;
  di_indicator_snapshot_id : option string;
  di_observed_at : Z;
  di_data_quality : string;
  di_session_state : string;
  di_input : json;
  di_input_hash : string
}.

Record AgentRun := mkAgentRun {
  ar_id : string;
  ar_owner_id : string;
  ar_purpose : string;
  ar_market : string;
  ar_symbol : string;
  ar_market_snapshot_id : string;
  ar_input_hash : string;
  ar_dag_version : string;
  ar_route_versions : json;
  ar_idempotency_key : string;
  ar_state : RunState;
  ar_core_action : option string;
  ar_analysis_context : option string;
  ar_position_snapshot : option json;
  ar_position_snapshot_hash : option string;
  ar_shadow_assessment : option string;
  ar_basis_decision_id : option string;
  ar_fusion_policy_version : option string;
  ar_fusion_state : option string;
  ar_fusion_reason_code : option string;
  ar_fusion_decision_id : option string;
  ar_server_input_policy_version : option string;
  ar_market_context_snapshot_id : option string;
  ar_market_context_snapshot_hash : option string;
  ar_error_code : option string;
  ar_valid_until : Z;
  ar_started_at : option Z;
  ar_completed_at : option Z;
  ar_created_at : Z
}.

Section AgentRunSetters.
Variable r : AgentRun.
Definition set_ar_state (v : RunState) : AgentRun :=
    mkAgentRun (ar_id r) (ar_owner_id r) (ar_purpose r) (ar_market r) (ar_symbol r) (ar_market_snapshot_id r) (ar_input_hash r) (ar_dag_version r) (ar_route_versions r) (ar_idempotency_key r) v (ar_core_action r) (ar_analysis_context r) (ar_position_snapshot r) (ar_position_snapshot_hash r) (ar_shadow_assessment r) (ar_basis_decision_id r) (ar_fusion_policy_version r) (ar_fusion_state r) (ar_fusion_reason_code r) (ar_fusion_decision_id r) (ar_server_input_policy_version r) (ar_market_context_snapshot_id r) (ar_market_context_snapshot_hash r) (ar_error_code r) (ar_valid_until r) (ar_started_at r) (ar_completed_at r) (ar_created_at r).
Definition set_ar_core_action (v : option string) : AgentRun :=
    mkAgentRun (ar_id r) (ar_owner_id r) (ar_purpose r) (ar_market r) (ar_symbol r) (ar_market_snapshot_id r) (ar_input_hash r) (ar_dag_version r) (ar_route_versions r) (ar_idempotency_key r) (ar_state r) v (ar_analysis_context r) (ar_position_snapshot r) (ar_position_snapshot_hash r) (ar_shadow_assessment r) (ar_basis_decision_id r) (ar_fusion_policy_version r) (ar_fusion_state r) (ar_fusion_reason_code r) (ar_fusion_decision_id r) (ar_server_input_policy_version r) (ar_market_context_snapshot_id r) (ar_market_context_snapshot_hash r) (ar_error_code r) (ar_valid_until r) (ar_started_at r) (ar_completed_at r) (ar_created_at r).
Definition set_ar_shadow_assessment (v : option string) : AgentRun :=
    mkAgentRun (ar_id r) (ar_owner_id r) (ar_purpose r) (ar_market r) (ar_symbol r) (ar_market_snapshot_id r) (ar_input_hash r) (ar_dag_version r) (ar_route_versions r) (ar_idempotency_key r) (ar_state r) (ar_core_action r) (ar_analysis_context r) (ar_position_snapshot r) (ar_position_snapshot_hash r) v (ar_basis_decision_id r) (ar_fusion_policy_version r) (ar_fusion_state r) (ar_fusion_reason_code r) (ar_fusion_decision_id r) (ar_server_input_policy_version r) (ar_market_context_snapshot_id r) (ar_market_context_snapshot_hash r) (ar_error_code r) (ar_valid_until r) (ar_started_at r) (ar_completed_at r) (ar_created_at r).
Definition set_ar_fusion_state (v : option string) : AgentRun :=
    mkAgentRun (ar_id r) (ar_owner_id r) (ar_purpose r) (ar_market r) (ar_symbol r) (ar_market_snapshot_id r) (ar_input_hash r) (ar_dag_version r) (ar_route_versions r) (ar_idempotency_key r) (ar_state r) (ar_core_action r) (ar_analysis_context r) (ar_position_snapshot r) (ar_position_snapshot_hash r) (ar_shadow_assessment r) (ar_basis_decision_id r) (ar_fusion_policy_version r) v (ar_fusion_reason_code r) (ar_fusion_decision_id r) (ar_server_input_policy_version r) (ar_market_context_snapshot_id r) (ar_market_context_snapshot_hash r) (ar_error_code r) (ar_valid_until r) (ar_started_at r) (ar_completed_at r) (ar_created_at r).
Definition set_ar_fusion_reason_code (v : option string) : AgentRun :=
    mkAgentRun (ar_id r) (ar_owner_id r) (ar_purpose r) (ar_market r) (ar_symbol r) (ar_market_snapshot_id r) (ar_input_hash r) (ar_dag_version r) (ar_route_versions r) (ar_idempotency_key r) (ar_state r) (ar_core_action r) (ar_analysis_context r) (ar_position_snapshot r) (ar_position_snapshot_hash r) (ar_shadow_assessment r) (ar_basis_decision_id r) (ar_fusion_policy_version r) (ar_fusion_state r) v (ar_fusion_decision_id r) (ar_server_input_policy_version r) (ar_market_context_snapshot_id r) (ar_market_context_snapshot_hash r) (ar_error_code r) (ar_valid_until r) (ar_started_at r) (ar_completed_at r) (ar_created_at r).
Definition set_ar_fusion_decision_id (v : option string) : AgentRun :=
    mkAgentRun (ar_id r) (ar_owner_id r) (ar_purpose r) (ar_market r) (ar_symbol r) (ar_market_snapshot_id r) (ar_input_hash r) (ar_dag_version r) (ar_route_versions r) (ar_idempotency_key r) (ar_state r) (ar_core_action r) (ar_analysis_context r) (ar_position_snapshot r) (ar_position_snapshot_hash r) (ar_shadow_assessment r) (ar_basis_decision_id r) (ar_fusion_policy_version r) (ar_fusion_state r) (ar_fusion_reason_code r) v (ar_server_input_policy_version r) (ar_market_context_snapshot_id r) (ar_market_context_snapshot_hash r) (ar_error_code r) (ar_valid_until r) (ar_started_at r) (ar_completed_at r) (ar_created_at r).
Definition set_ar_error_code (v : option string) : AgentRun :=
    mkAgentRun (ar_id r) (ar_owner_id r) (ar_purpose r) (ar_market r) (ar_symbol r) (ar_market_snapshot_id r) (ar_input_hash r) (ar_dag_version r) (ar_route_versions r) (ar_idempotency_key r) (ar_state r) (ar_core_action r) (ar_analysis_context r) (ar_position_snapshot r) (ar_position_snapshot_hash r) (ar_shadow_assessment r) (ar_basis_decision_id r) (ar_fusion_policy_version r) (ar_fusion_state r) (ar_fusion_reason_code r) (ar_fusion_decision_id r) (ar_server_input_policy_version r) (ar_market_context_snapshot_id r) (ar_market_context_snapshot_hash r) v (ar_valid_until r) (ar_started_at r) (ar_completed_at r) (ar_created_at r).
Definition set_ar_started_at (v : option Z) : AgentRun :=
    mkAgentRun (ar_id r) (ar_owner_id r) (ar_purpose r) (ar_market r) (ar_symbol r) (ar_market_snapshot_id r) (ar_input_hash r) (ar_dag_version r) (ar_route_versions r) (ar_idempotency_key r) (ar_state r) (ar_core_action r) (ar_analysis_context r) (ar_position_snapshot r) (ar_position_snapshot_hash r) (ar_shadow_assessment r) (ar_basis_decision_id r) (ar_fusion_policy_version r) (ar_fusion_state r) (ar_fusion_reason_code r) (ar_fusion_decision_id r) (ar_server_input_policy_version r) (ar_market_context_snapshot_id r) (ar_market_context_snapshot_hash r) (ar_error_code r) (ar_valid_until r) v (ar_completed_at r) (ar_created_at r).
Definition set_ar_completed_at (v : option Z) : AgentRun :=
    mkAgentRun (ar_id r) (ar_owner_id r) (ar_purpose r) (ar_market r) (ar_symbol r) (ar_market_snapshot_id r) (ar_input_hash r) (ar_dag_version r) (ar_route_versions r) (ar_idempotency_key r) (ar_state r) (ar_core_action r) (ar_analysis_context r) (ar_position_snapshot r) (ar_position_snapshot_hash r) (ar_shadow_assessment r) (ar_basis_decision_id r) (ar_fusion_policy_version r) (ar_fusion_state r) (ar_fusion_reason_code r) (ar_fusion_decision_id r) (ar_server_input_policy_version r) (ar_market_context_snapshot_id r) (ar_market_context_snapshot_hash r) (ar_error_code r) (ar_valid_until r) (ar_started_at r) v (ar_created_at r).
End AgentRunSetters.

Record AgentStageRun := mkAgentStageRun {
  ag_id : string;
  ag_run_id : string;
  ag_role : string;
  ag_sequence : Z;
  ag_dependency_roles : list string;
  ag_route_id : option string;
  ag_invocation_id : option string;
  ag_state : StageState;
  ag_input_hash : string;
  ag_output : option json;
  ag_output_hash : option string;
  ag_error_code : option string;
  ag_lease_owner_id : option string;
  ag_lease_expires_at : option Z;
  ag_fencing_token : Z;
  ag_attempt_count : Z;
  ag_max_attempts : Z;
  ag_available_at : Z;
  ag_timeout_at : option Z;
  ag_heartbeat_at : option Z;
  ag_started_at : option Z;
  ag_completed_at : option Z;
  ag_created_at : Z
}.

Section AgentStageRunSetters.
Variable r : AgentStageRun.
Definition set_ag_invocation_id (v : option string) : AgentStageRun :=
    mkAgentStageRun (ag_id r) (ag_run_id r) (ag_role r) (ag_sequence r) (ag_dependency_roles r) (ag_route_id r) v (ag_state r) (ag_input_hash r) (ag_output r) (ag_output_hash r) (ag_error_code r) (ag_lease_owner_id r) (ag_lease_expires_at r) (ag_fencing_token r) (ag_attempt_count r) (ag_max_attempts r) (ag_available_at r) (ag_timeout_at r) (ag_heartbeat_at r) (ag_started_at r) (ag_completed_at r) (ag_created_at r).
Definition set_ag_state (v : StageState) : AgentStageRun :=
    mkAgentStageRun (ag_id r) (ag_run_id r) (ag_role r) (ag_sequence r) (ag_dependency_roles r) (ag_route_id r) (ag_invocation_id r) v (ag_input_hash r) (ag_output r) (ag_output_hash r) (ag_error_code r) (ag_lease_owner_id r) (ag_lease_expires_at r) (ag_fencing_token r) (ag_attempt_count r) (ag_max_attempts r) (ag_available_at r) (ag_timeout_at r) (ag_heartbeat_at r) (ag_started_at r) (ag_completed_at r) (ag_created_at r).
Definition set_ag_output (v : option json) : AgentStageRun :=
    mkAgentStageRun (ag_id r) (ag_run_id r) (ag_role r) (ag_sequence r) (ag_dependency_roles r) (ag_route_id r) (ag_invocation_id r) (ag_state r) (ag_input_hash r) v (ag_output_hash r) (ag_error_code r) (ag_lease_owner_id r) (ag_lease_expires_at r) (ag_fencing_token r) (ag_attempt_count r) (ag_max_attempts r) (ag_available_at r) (ag_timeout_at r) (ag_heartbeat_at r) (ag_started_at r) (ag_completed_at r) (ag_created_at r).
Definition set_ag_output_hash (v : option string) : AgentStageRun :=
    mkAgentStageRun (ag_id r) (ag_run_id r) (ag_role r) (ag_sequence r) (ag_dependency_roles r) (ag_route_id r) (ag_invocation_id r) (ag_state r) (ag_input_hash r) (ag_output r) v (ag_error_code r) (ag_lease_owner_id r) (ag_lease_expires_at r) (ag_fencing_token r) (ag_attempt_count r) (ag_max_attempts r) (ag_available_at r) (ag_timeout_at r) (ag_heartbeat_at r) (ag_started_at r) (ag_completed_at r) (ag_created_at r).
Definition set_ag_error_code (v : option string) : AgentStageRun :=
    mkAgentStageRun (ag_id r) (ag_run_id r) (ag_role r) (ag_sequence r) (ag_dependency_roles r) (ag_route_id r) (ag_invocation_id r) (ag_state r) (ag_input_hash r) (ag_output r) (ag_output_hash r) v (ag_lease_owner_id r) (ag_lease_expires_at r) (ag_fencing_token r) (ag_attempt_count r) (ag_max_attempts r) (ag_available_at r) (ag_timeout_at r) (ag_heartbeat_at r) (ag_started_at r) (ag_completed_at r) (ag_created_at r).
Definition set_ag_lease_owner_id (v : option string) : AgentStageRun :=
    mkAgentStageRun (ag_id r) (ag_run_id r) (ag_role r) (ag_sequence r) (ag_dependency_roles r) (ag_route_id r) (ag_invocation_id r) (ag_state r) (ag_input_hash r) (ag_output r) (ag_output_hash r) (ag_error_code r) v (ag_lease_expires_at r) (ag_fencing_token r) (ag_attempt_count r) (ag_max_attempts r) (ag_available_at r) (ag_timeout_at r) (ag_heartbeat_at r) (ag_started_at r) (ag_completed_at r) (ag_created_at r).
Definition set_ag_lease_expires_at (v : option Z) : AgentStageRun :=
    mkAgentStageRun (ag_id r) (ag_run_id r) (ag_role r) (ag_sequence r) (ag_dependency_roles r) (ag_route_id r) (ag_invocation_id r) (ag_state r) (ag_input_hash r) (ag_output r) (ag_output_hash r) (ag_error_code r) (ag_lease_owner_id r) v (ag_fencing_token r) (ag_attempt_count r) (ag_max_attempts r) (ag_available_at r) (ag_timeout_at r) (ag_heartbeat_at r) (ag_started_at r) (ag_completed_at r) (ag_created_at r).
Definition set_ag_fencing_token (v : Z) : AgentStageRun :=
    mkAgentStageRun (ag_id r) (ag_run_id r) (ag_role r) (ag_sequence r) (ag_dependency_roles r) (ag_route_id r) (ag_invocation_id r) (ag_state r) (ag_input_hash r) (ag_output r) (ag_output_hash r) (ag_error_code r) (ag_lease_owner_id r) (ag_lease_expires_at r) v (ag_attempt_count r) (ag_max_attempts r) (ag_available_at r) (ag_timeout_at r) (ag_heartbeat_at r) (ag_started_at r) (ag_completed_at r) (ag_created_at r).
Definition set_ag_attempt_count (v : Z) : AgentStageRun :=
    mkAgentStageRun (ag_id r) (ag_run_id r) (ag_role r) (ag_sequence r) (ag_dependency_roles r) (ag_route_id r) (ag_invocation_id r) (ag_state r) (ag_input_hash r) (ag_output r) (ag_output_hash r) (ag_error_code r) (ag_lease_owner_id r) (ag_lease_expires_at r) (ag_fencing_token r) v (ag_max_attempts r) (ag_available_at r) (ag_timeout_at r) (ag_heartbeat_at r) (ag_started_at r) (ag_completed_at r) (ag_created_at r).
Definition set_ag_available_at (v : Z) : AgentStageRun :=
    mkAgentStageRun (ag_id r) (ag_run_id r) (ag_role r) (ag_sequence r) (ag_dependency_roles r) (ag_route_id r) (ag_invocation_id r) (ag_state r) (ag_input_hash r) (ag_output r) (ag_output_hash r) (ag_error_code r) (ag_lease_owner_id r) (ag_lease_expires_at r) (ag_fencing_token r) (ag_attempt_count r) (ag_max_attempts r) v (ag_timeout_at r) (ag_heartbeat_at r) (ag_started_at r) (ag_completed_at r) (ag_created_at r).
Definition set_ag_timeout_at (v : option Z) : AgentStageRun :=
    mkAgentStageRun (ag_id r) (ag_run_id r) (ag_role r) (ag_sequence r) (ag_dependency_roles r) (ag_route_id r) (ag_invocation_id r) (ag_state r) (ag_input_hash r) (ag_output r) (ag_output_hash r) (ag_error_code r) (ag_lease_owner_id r) (ag_lease_expires_at r) (ag_fencing_token r) (ag_attempt_count r) (ag_max_attempts r) (ag_available_at r) v (ag_heartbeat_at r) (ag_started_at r) (ag_completed_at r) (ag_created_at r).
Definition set_ag_heartbeat_at (v : option Z) : AgentStageRun :=
    mkAgentStageRun (ag_id r) (ag_run_id r) (ag_role r) (ag_sequence r) (ag_dependency_roles r) (ag_route_id r) (ag_invocation_id r) (ag_state r) (ag_input_hash r) (ag_output r) (ag_output_hash r) (ag_error_code r) (ag_lease_owner_id r) (ag_lease_expires_at r) (ag_fencing_token r) (ag_attempt_count r) (ag_max_attempts r) (ag_available_at r) (ag_timeout_at r) v (ag_started_at r) (ag_completed_at r) (ag_created_at r).
Definition set_ag_started_at (v : option Z) : AgentStageRun :=
    mkAgentStageRun (ag_id r) (ag_run_id r) (ag_role r) (ag_sequence r) (ag_dependency_roles r) (ag_route_id r) (ag_invocation_id r) (ag_state r) (ag_input_hash r) (ag_output r) (ag_output_hash r) (ag_error_code r) (ag_lease_owner_id r) (ag_lease_expires_at r) (ag_fencing_token r) (ag_attempt_count r) (ag_max_attempts r) (ag_available_at r) (ag_timeout_at r) (ag_heartbeat_at r) v (ag_completed_at r) (ag_created_at r).
Definition set_ag_completed_at (v : option Z) : AgentStageRun :=
    mkAgentStageRun (ag_id r) (ag_run_id r) (ag_role r) (ag_sequence r) (ag_dependency_roles r) (ag_route_id r) (ag_invocation_id r) (ag_state r) (ag_input_hash r) (ag_output r) (ag_output_hash r) (ag_error_code r) (ag_lease_owner_id r) (ag_lease_expires_at r) (ag_fencing_token r) (ag_attempt_count r) (ag_max_attempts r) (ag_available_at r) (ag_timeout_at r) (ag_heartbeat_at r) (ag_started_at r) v (ag_created_at r).
End AgentStageRunSetters.

Record LlmInvocation := mkLlmInvocation {
  li_id : string;
  li_stage_run_id : option string;
  li_requested_provider_profile_id : string;
  li_requested_model_profile_id : option string;
  li_actual_provider : option string;
  li_actual_model : option string;
  li_state : string;
  li_provider_request_id : option string;
  li_gateway_request_id : option string;
  li_input_hash : option string;
  li_runtime_context_at : option Z;
  li_web_search_enabled : bool;
  li_raw_response_hash : option string;
  li_model_output : option json;
  li_model_output_hash : option string;
  li_model_output_captured_at : option Z;
  li_usage : json;
  li_latency_ms : Z;
  li_retry_count : Z;
  li_fallback_path : list string;
  li_validation_status : string;
  li_error_code : option string;
  li_created_at : Z;
  li_completed_at : option Z
}.

Section LlmInvocationSetters.
Variable r : LlmInvocation.
Definition set_li_actual_provider (v : option string) : LlmInvocation :=
    mkLlmInvocation (li_id r) (li_stage_run_id r) (li_requested_provider_profile_id r) (li_requested_model_profile_id r) v (li_actual_model r) (li_state r) (li_provider_request_id r) (li_gateway_request_id r) (li_input_hash r) (li_runtime_context_at r) (li_web_search_enabled r) (li_raw_response_hash r) (li_model_output r) (li_model_output_hash r) (li_model_output_captured_at r) (li_usage r) (li_latency_ms r) (li_retry_count r) (li_fallback_path r) (li_validation_status r) (li_error_code r) (li_created_at r) (li_completed_at r).
Definition set_li_actual_model (v : option string) : LlmInvocation :=
    mkLlmInvocation (li_id r) (li_stage_run_id r) (li_requested_provider_profile_id r) (li_requested_model_profile_id r) (li_actual_provider r) v (li_state r) (li_provider_request_id r) (li_gateway_request_id r) (li_input_hash r) (li_runtime_context_at r) (li_web_search_enabled r) (li_raw_response_hash r) (li_model_output r) (li_model_output_hash r) (li_model_output_captured_at r) (li_usage r) (li_latency_ms r) (li_retry_count r) (li_fallback_path r) (li_validation_status r) (li_error_code r) (li_created_at r) (li_completed_at r).
Definition set_li_state (v : string) : LlmInvocation :=
    mkLlmInvocation (li_id r) (li_stage_run_id r) (li_requested_provider_profile_id r) (li_requested_model_profile_id r) (li_actual_provider r) (li_actual_model r) v (li_provider_request_id r) (li_gateway_request_id r) (li_input_hash r) (li_runtime_context_at r) (li_web_search_enabled r) (li_raw_response_hash r) (li_model_output r) (li_model_output_hash r) (li_model_output_captured_at r) (li_usage r) (li_latency_ms r) (li_retry_count r) (li_fallback_path r) (li_validation_status r) (li_error_code r) (li_created_at r) (li_completed_at r).
Definition set_li_provider_request_id (v : option string) : LlmInvocation :=
    mkLlmInvocation (li_id r) (li_stage_run_id r) (li_requested_provider_profile_id r) (li_requested_model_profile_id r) (li_actual_provider r) (li_actual_model r) (li_state r) v (li_gateway_request_id r) (li_input_hash r) (li_runtime_context_at r) (li_web_search_enabled r) (li_raw_response_hash r) (li_model_output r) (li_model_output_hash r) (li_model_output_captured_at r) (li_usage r) (li_latency_ms r) (li_retry_count r) (li_fallback_path r) (li_validation_status r) (li_error_code r) (li_created_at r) (li_completed_at r).
Definition set_li_gateway_request_id (v : option string) : LlmInvocation :=
    mkLlmInvocation (li_id r) (li_stage_run_id r) (li_requested_provider_profile_id r) (li_requested_model_profile_id r) (li_actual_provider r) (li_actual_model r) (li_state r) (li_provider_request_id r) v (li_input_hash r) (li_runtime_context_at r) (li_web_search_enabled r) (li_raw_response_hash r) (li_model_output r) (li_model_output_hash r) (li_model_output_captured_at r) (li_usage r) (li_latency_ms r) (li_retry_count r) (li_fallback_path r) (li_validation_status r) (li_error_code r) (li_created_at r) (li_completed_at r).
Definition set_li_raw_response_hash (v : option string) : LlmInvocation :=
    mkLlmInvocation (li_id r) (li_stage_run_id r) (li_requested_provider_profile_id r) (li_requested_model_profile_id r) (li_actual_provider r) (li_actual_model r) (li_state r) (li_provider_request_id r) (li_gateway_request_id r) (li_input_hash r) (li_runtime_context_at r) (li_web_search_enabled r) v (li_model_output r) (li_model_output_hash r) (li_model_output_captured_at r) (li_usage r) (li_latency_ms r) (li_retry_count r) (li_fallback_path r) (li_validation_status r) (li_error_code r) (li_created_at r) (li_completed_at r).
Definition set_li_model_output (v : option json) : LlmInvocation :=
    mkLlmInvocation (li_id r) (li_stage_run_id r) (li_requested_provider_profile_id r) (li_requested_model_profile_id r) (li_actual_provider r) (li_actual_model r) (li_state r) (li_provider_request_id r) (li_gateway_request_id r) (li_input_hash r) (li_runtime_context_at r) (li_web_search_enabled r) (li_raw_response_hash r) v (li_model_output_hash r) (li_model_output_captured_at r) (li_usage r) (li_latency_ms r) (li_retry_count r) (li_fallback_path r) (li_validation_status r) (li_error_code r) (li_created_at r) (li_completed_at r).
Definition set_li_model_output_hash (v : option string) : LlmInvocation :=
    mkLlmInvocation (li_id r) (li_stage_run_id r) (li_requested_provider_profile_id r) (li_requested_model_profile_id r) (li_actual_provider r) (li_actual_model r) (li_state r) (li_provider_request_id r) (li_gateway_request_id r) (li_input_hash r) (li_runtime_context_at r) (li_web_search_enabled r) (li_raw_response_hash r) (li_model_output r) v (li_model_output_captured_at r) (li_usage r) (li_latency_ms r) (li_retry_count r) (li_fallback_path r) (li_validation_status r) (li_error_code r) (li_created_at r) (li_completed_at r).
Definition set_li_model_output_captured_at (v : option Z) : LlmInvocation :=
    mkLlmInvocation (li_id r) (li_stage_run_id r) (li_requested_provider_profile_id r) (li_requested_model_profile_id r) (li_actual_provider r) (li_actual_model r) (li_state r) (li_provider_request_id r) (li_gateway_request_id r) (li_input_hash r) (li_runtime_context_at r) (li_web_search_enabled r) (li_raw_response_hash r) (li_model_output r) (li_model_output_hash r) v (li_usage r) (li_latency_ms r) (li_retry_count r) (li_fallback_path r) (li_validation_status r) (li_error_code r) (li_created_at r) (li_completed_at r).
Definition set_li_usage (v : json) : LlmInvocation :=
    mkLlmInvocation (li_id r) (li_stage_run_id r) (li_requested_provider_profile_id r) (li_requested_model_profile_id r) (li_actual_provider r) (li_actual_model r) (li_state r) (li_provider_request_id r) (li_gateway_request_id r) (li_input_hash r) (li_runtime_context_at r) (li_web_search_enabled r) (li_raw_response_hash r) (li_model_output r) (li_model_output_hash r) (li_model_output_captured_at r) v (li_latency_ms r) (li_retry_count r) (li_fallback_path r) (li_validation_status r) (li_error_code r) (li_created_at r) (li_completed_at r).
Definition set_li_latency_ms (v : Z) : LlmInvocation :=
    mkLlmInvocation (li_id r) (li_stage_run_id r) (li_requested_provider_profile_id r) (li_requested_model_profile_id r) (li_actual_provider r) (li_actual_model r) (li_state r) (li_provider_request_id r) (li_gateway_request_id r) (li_input_hash r) (li_runtime_context_at r) (li_web_search_enabled r) (li_raw_response_hash r) (li_model_output r) (li_model_output_hash r) (li_model_output_captured_at r) (li_usage r) v (li_retry_count r) (li_fallback_path r) (li_validation_status r) (li_error_code r) (li_created_at r) (li_completed_at r).
Definition set_li_retry_count (v : Z) : LlmInvocation :=
    mkLlmInvocation (li_id r) (li_stage_run_id r) (li_requested_provider_profile_id r) (li_requested_model_profile_id r) (li_actual_provider r) (li_actual_model r) (li_state r) (li_provider_request_id r) (li_gateway_request_id r) (li_input_hash r) (li_runtime_context_at r) (li_web_search_enabled r) (li_raw_response_hash r) (li_model_output r) (li_model_output_hash r) (li_model_output_captured_at r) (li_usage r) (li_latency_ms r) v (li_fallback_path r) (li_validation_status r) (li_error_code r) (li_created_at r) (li_completed_at r).
Definition set_li_fallback_path (v : list string) : LlmInvocation :=
    mkLlmInvocation (li_id r) (li_stage_run_id r) (li_requested_provider_profile_id r) (li_requested_model_profile_id r) (li_actual_provider r) (li_actual_model r) (li_state r) (li_provider_request_id r) (li_gateway_request_id r) (li_input_hash r) (li_runtime_context_at r) (li_web_search_enabled r) (li_raw_response_hash r) (li_model_output r) (li_model_output_hash r) (li_model_output_captured_at r) (li_usage r) (li_latency_ms r) (li_retry_count r) v (li_validation_status r) (li_error_code r) (li_created_at r) (li_completed_at r).
Definition set_li_validation_status (v : string) : LlmInvocation :=
    mkLlmInvocation (li_id r) (li_stage_run_id r) (li_requested_provider_profile_id r) (li_requested_model_profile_id r) (li_actual_provider r) (li_actual_model r) (li_state r) (li_provider_request_id r) (li_gateway_request_id r) (li_input_hash r) (li_runtime_context_at r) (li_web_search_enabled r) (li_raw_response_hash r) (li_model_output r) (li_model_output_hash r) (li_model_output_captured_at r) (li_usage r) (li_latency_ms r) (li_retry_count r) (li_fallback_path r) v (li_error_code r) (li_created_at r) (li_completed_at r).
Definition set_li_error_code (v : option string) : LlmInvocation :=
    mkLlmInvocation (li_id r) (li_stage_run_id r) (li_requested_provider_profile_id r) (li_requested_model_profile_id r) (li_actual_provider r) (li_actual_model r) (li_state r) (li_provider_request_id r) (li_gateway_request_id r) (li_input_hash r) (li_runtime_context_at r) (li_web_search_enabled r) (li_raw_response_hash r) (li_model_output r) (li_model_output_hash r) (li_model_output_captured_at r) (li_usage r) (li_latency_ms r) (li_retry_count r) (li_fallback_path r) (li_validation_status r) v (li_created_at r) (li_completed_at r).
Definition set_li_completed_at (v : option Z) : LlmInvocation :=
    mkLlmInvocation (li_id r) (li_stage_run_id r) (li_requested_provider_profile_id r) (li_requested_model_profile_id r) (li_actual_provider r) (li_actual_model r) (li_state r) (li_provider_request_id r) (li_gateway_request_id r) (li_input_hash r) (li_runtime_context_at r) (li_web_search_enabled r) (li_raw_response_hash r) (li_model_output r) (li_model_output_hash r) (li_model_output_captured_at r) (li_usage r) (li_latency_ms r) (li_retry_count r) (li_fallback_path r) (li_validation_status r) (li_error_code r) (li_created_at r) v.
End LlmInvocationSetters.

Record EvidenceItem := mkEvidenceItem {
  ei_id : string;
  ei_run_id : string;
  ei_market : string;
  ei_symbol : string;
  ei_source_type : string;
  ei_source_tier : string;
  ei_source_name : string;
  ei_source_url : option string;
  ei_title : string;
  ei_facts : json;
  ei_content_hash : string;
  ei_extraction_method : string;
  ei_published_at : option Z;
  ei_event_at : option Z;
  ei_received_at : Z;
  ei_created_at : Z
}.

Record EvidenceBundle := mkEvidenceBundle {
  eb_id : string;
  eb_owner_id : string;
  eb_run_id : string;
  eb_market : string;
  eb_symbol : string;
  eb_as_of : Z;
  eb_policy_version : string;
  eb_state : string;
  eb_evidence_ids : list string;
  eb_stale_evidence_ids : list string;
  eb_reason_codes : list string;
  eb_bundle_hash : string
}.

Record MarketContextSnapshot := mkMarketContextSnapshot {
  mc_id : string;
  mc_market : string;
  mc_symbol : string;
  mc_source : string;
  mc_source_ref : string;
  mc_source_tier : string;
  mc_quality : string;
  mc_payload : json;
  mc_payload_hash : string;
  mc_observed_at : Z;
  mc_received_at : Z;
  mc_valid_until : Z
}.

Record LlmProviderProfile := mkLlmProviderProfile {
  lp_id : string;
  lp_owner_id : string;
  lp_name : string;
  lp_provider_template_id : option string;
  lp_adapter_type : string;
  lp_endpoint : option string;
  lp_credential_secret_ref : option string;
  lp_data_policy : string;
  lp_state : string;
  lp_health_status : string;
  lp_last_tested_at : option Z;
  lp_version : Z;
  lp_created_at : Z;
  lp_deleted_at : option Z
}.

Section LlmProviderProfileSetters.
Variable r : LlmProviderProfile.
Definition set_lp_credential_secret_ref (v : option string) : LlmProviderProfile :=
    mkLlmProviderProfile (lp_id r) (lp_owner_id r) (lp_name r) (lp_provider_template_id r) (lp_adapter_type r) (lp_endpoint r) v (lp_data_policy r) (lp_state r) (lp_health_status r) (lp_last_tested_at r) (lp_version r) (lp_created_at r) (lp_deleted_at r).
Definition set_lp_state (v : string) : LlmProviderProfile :=
    mkLlmProviderProfile (lp_id r) (lp_owner_id r) (lp_name r) (lp_provider_template_id r) (lp_adapter_type r) (lp_endpoint r) (lp_credential_secret_ref r) (lp_data_policy r) v (lp_health_status r) (lp_last_tested_at r) (lp_version r) (lp_created_at r) (lp_deleted_at r).
Definition set_lp_health_status (v : string) : LlmProviderProfile :=
    mkLlmProviderProfile (lp_id r) (lp_owner_id r) (lp_name r) (lp_provider_template_id r) (lp_adapter_type r) (lp_endpoint r) (lp_credential_secret_ref r) (lp_data_policy r) (lp_state r) v (lp_last_tested_at r) (lp_version r) (lp_created_at r) (lp_deleted_at r).
Definition set_lp_last_tested_at (v : option Z) : LlmProviderProfile :=
    mkLlmProviderProfile (lp_id r) (lp_owner_id r) (lp_name r) (lp_provider_template_id r) (lp_adapter_type r) (lp_endpoint r) (lp_credential_secret_ref r) (lp_data_policy r) (lp_state r) (lp_health_status r) v (lp_version r) (lp_created_at r) (lp_deleted_at r).
Definition set_lp_version (v : Z) : LlmProviderProfile :=
    mkLlmProviderProfile (lp_id r) (lp_owner_id r) (lp_name r) (lp_provider_template_id r) (lp_adapter_type r) (lp_endpoint r) (lp_credential_secret_ref r) (lp_data_policy r) (lp_state r) (lp_health_status r) (lp_last_tested_at r) v (lp_created_at r) (lp_deleted_at r).
Definition set_lp_deleted_at (v : option Z) : LlmProviderProfile :=
    mkLlmProviderProfile (lp_id r) (lp_owner_id r) (lp_name r) (lp_provider_template_id r) (lp_adapter_type r) (lp_endpoint r) (lp_credential_secret_ref r) (lp_data_policy r) (lp_state r) (lp_health_status r) (lp_last_tested_at r) (lp_version r) (lp_created_at r) v.
End LlmProviderProfileSetters.

Record LlmModelProfile := mkLlmModelProfile {
  lm_id : string;
  lm_provider_profile_id : string;
  lm_alias : string;
  lm_provider_model_id : string;
  lm_capabilities : ModelCapabilities;
  lm_max_context_tokens : option Z;
  lm_max_output_tokens : Z;
  lm_temperature : option decimal;
  lm_top_p : option decimal;
  lm_reasoning_effort : option string;
  lm_seed : option Z;
  lm_state : string;
  lm_validated_at : option Z;
  lm_version : Z;
  lm_created_at : Z
}.

Section LlmModelProfileSetters.
Variable r : LlmModelProfile.
Definition set_lm_capabilities (v : ModelCapabilities) : LlmModelProfile :=
    mkLlmModelProfile (lm_id r) (lm_provider_profile_id r) (lm_alias r) (lm_provider_model_id r) v (lm_max_context_tokens r) (lm_max_output_tokens r) (lm_temperature r) (lm_top_p r) (lm_reasoning_effort r) (lm_seed r) (lm_state r) (lm_validated_at r) (lm_version r) (lm_created_at r).
Definition set_lm_state (v : string) : LlmModelProfile :=
    mkLlmModelProfile (lm_id r) (lm_provider_profile_id r) (lm_alias r) (lm_provider_model_id r) (lm_capabilities r) (lm_max_context_tokens r) (lm_max_output_tokens r) (lm_temperature r) (lm_top_p r) (lm_reasoning_effort r) (lm_seed r) v (lm_validated_at r) (lm_version r) (lm_created_at r).
Definition set_lm_validated_at (v : option Z) : LlmModelProfile :=
    mkLlmModelProfile (lm_id r) (lm_provider_profile_id r) (lm_alias r) (lm_provider_model_id r) (lm_capabilities r) (lm_max_context_tokens r) (lm_max_output_tokens r) (lm_temperature r) (lm_top_p r) (lm_reasoning_effort r) (lm_seed r) (lm_state r) v (lm_version r) (lm_created_at r).
Definition set_lm_version (v : Z) : LlmModelProfile :=
    mkLlmModelProfile (lm_id r) (lm_provider_profile_id r) (lm_alias r) (lm_provider_model_id r) (lm_capabilities r) (lm_max_context_tokens r) (lm_max_output_tokens r) (lm_temperature r) (lm_top_p r) (lm_reasoning_effort r) (lm_seed r) (lm_state r) (lm_validated_at r) v (lm_created_at r).
End LlmModelProfileSetters.

Record LlmPromptProfile := mkLlmPromptProfile {
  lq_id : string;
  lq_owner_id : string;
  lq_role : string;
  lq_version_number : Z;
  lq_version_label : string;
  lq_system_prompt : string;
  lq_content_hash : string;
  lq_state : string;
  lq_reason : string;
  lq_validated_at : option Z;
  lq_version : Z
}.

Section LlmPromptProfileSetters.
Variable r : LlmPromptProfile.
Definition set_lq_state (v : string) : LlmPromptProfile :=
    mkLlmPromptProfile (lq_id r) (lq_owner_id r) (lq_role r) (lq_version_number r) (lq_version_label r) (lq_system_prompt r) (lq_content_hash r) v (lq_reason r) (lq_validated_at r) (lq_version r).
Definition set_lq_validated_at (v : option Z) : LlmPromptProfile :=
    mkLlmPromptProfile (lq_id r) (lq_owner_id r) (lq_role r) (lq_version_number r) (lq_version_label r) (lq_system_prompt r) (lq_content_hash r) (lq_state r) (lq_reason r) v (lq_version r).
Definition set_lq_version (v : Z) : LlmPromptProfile :=
    mkLlmPromptProfile (lq_id r) (lq_owner_id r) (lq_role r) (lq_version_number r) (lq_version_label r) (lq_system_prompt r) (lq_content_hash r) (lq_state r) (lq_reason r) (lq_validated_at r) v.
End LlmPromptProfileSetters.

Record LlmRoleRoute := mkLlmRoleRoute {
  lr_id : string;
  lr_owner_id : string;
  lr_role : string;
  lr_primary_model_profile_id : string;
  lr_fallback_model_profile_ids : json;
  lr_fallback_policy : string;
  lr_execution_stage : string;
  lr_timeout_ms : Z;
  lr_service_tier : string;
  lr_web_search_enabled : bool;
  lr_max_attempts : Z;
  lr_daily_call_limit : Z;
  lr_daily_cost_limit_krw : decimal;
  lr_prompt_version : string;
  lr_prompt_profile_id : option string;
  lr_output_schema_version : string;
  lr_temperature_override : option decimal;
  lr_top_p_override : option decimal;
  lr_max_output_tokens_override : option Z;
  lr_reasoning_effort_override : option string;
  lr_seed_override : option Z;
  lr_state : string;
  lr_reason : string;
  lr_validated_at : option Z;
  lr_activated_at : option Z;
  lr_version : Z;
  lr_created_at : Z
}.

Section LlmRoleRouteSetters.
Variable r : LlmRoleRoute.
Definition set_lr_state (v : string) : LlmRoleRoute :=
    mkLlmRoleRoute (lr_id r) (lr_owner_id r) (lr_role r) (lr_primary_model_profile_id r) (lr_fallback_model_profile_ids r) (lr_fallback_policy r) (lr_execution_stage r) (lr_timeout_ms r) (lr_service_tier r) (lr_web_search_enabled r) (lr_max_attempts r) (lr_daily_call_limit r) (lr_daily_cost_limit_krw r) (lr_prompt_version r) (lr_prompt_profile_id r) (lr_output_schema_version r) (lr_temperature_override r) (lr_top_p_override r) (lr_max_output_tokens_override r) (lr_reasoning_effort_override r) (lr_seed_override r) v (lr_reason r) (lr_validated_at r) (lr_activated_at r) (lr_version r) (lr_created_at r).
Definition set_lr_validated_at (v : option Z) : LlmRoleRoute :=
    mkLlmRoleRoute (lr_id r) (lr_owner_id r) (lr_role r) (lr_primary_model_profile_id r) (lr_fallback_model_profile_ids r) (lr_fallback_policy r) (lr_execution_stage r) (lr_timeout_ms r) (lr_service_tier r) (lr_web_search_enabled r) (lr_max_attempts r) (lr_daily_call_limit r) (lr_daily_cost_limit_krw r) (lr_prompt_version r) (lr_prompt_profile_id r) (lr_output_schema_version r) (lr_temperature_override r) (lr_top_p_override r) (lr_max_output_tokens_override r) (lr_reasoning_effort_override r) (lr_seed_override r) (lr_state r) (lr_reason r) v (lr_activated_at r) (lr_version r) (lr_created_at r).
Definition set_lr_activated_at (v : option Z) : LlmRoleRoute :=
    mkLlmRoleRoute (lr_id r) (lr_owner_id r) (lr_role r) (lr_primary_model_profile_id r) (lr_fallback_model_profile_ids r) (lr_fallback_policy r) (lr_execution_stage r) (lr_timeout_ms r) (lr_service_tier r) (lr_web_search_enabled r) (lr_max_attempts r) (lr_daily_call_limit r) (lr_daily_cost_limit_krw r) (lr_prompt_version r) (lr_prompt_profile_id r) (lr_output_schema_version r) (lr_temperature_override r) (lr_top_p_override r) (lr_max_output_tokens_override r) (lr_reasoning_effort_override r) (lr_seed_override r) (lr_state r) (lr_reason r) (lr_validated_at r) v (lr_version r) (lr_created_at r).
Definition set_lr_version (v : Z) : LlmRoleRoute :=
    mkLlmRoleRoute (lr_id r) (lr_owner_id r) (lr_role r) (lr_primary_model_profile_id r) (lr_fallback_model_profile_ids r) (lr_fallback_policy r) (lr_execution_stage r) (lr_timeout_ms r) (lr_service_tier r) (lr_web_search_enabled r) (lr_max_attempts r) (lr_daily_call_limit r) (lr_daily_cost_limit_krw r) (lr_prompt_version r) (lr_prompt_profile_id r) (lr_output_schema_version r) (lr_temperature_override r) (lr_top_p_override r) (lr_max_output_tokens_override r) (lr_reasoning_effort_override r) (lr_seed_override r) (lr_state r) (lr_reason r) (lr_validated_at r) (lr_activated_at r) v (lr_created_at r).
End LlmRoleRouteSetters.

Record TotpCredential := mkTotpCredential {
  tc_user_id : string;
  tc_encrypted_secret : string;
  tc_key_version : Z;
  tc_last_used_step : option Z;
  tc_verified : bool
}.

Section TotpCredentialSetters.
Variable r : TotpCredential.
Definition set_tc_last_used_step (v : option Z) : TotpCredential :=
    mkTotpCredential (tc_user_id r) (tc_encrypted_secret r) (tc_key_version r) v (tc_verified r).
End TotpCredentialSetters.

Record AuthChallenge := mkAuthChallenge {
  ch_token_hash : string;
  ch_user_id : string;
  ch_challenge_type : string;
  ch_attempts : Z;
  ch_expires_at : Z;
  ch_consumed_at : option Z
}.

Section AuthChallengeSetters.
Variable r : AuthChallenge.
Definition set_ch_attempts (v : Z) : AuthChallenge :=
    mkAuthChallenge (ch_token_hash r) (ch_user_id r) (ch_challenge_type r) v (ch_expires_at r) (ch_consumed_at r).
Definition set_ch_consumed_at (v : option Z) : AuthChallenge :=
    mkAuthChallenge (ch_token_hash r) (ch_user_id r) (ch_challenge_type r) (ch_attempts r) (ch_expires_at r) v.
End AuthChallengeSetters.

Record UserSession := mkUserSession {
  us_token_hash : string;
  us_csrf_hash : string;
  us_user_id : string;
  us_created_at : Z;
  us_last_seen_at : Z;
  us_expires_at : Z;
  us_revoked_at : option Z;
  us_request_ip : option string;
  us_user_agent : option string
}.

Section UserSessionSetters.
Variable r : UserSession.
Definition set_us_csrf_hash (v : string) : UserSession :=
    mkUserSession (us_token_hash r) v (us_user_id r) (us_created_at r) (us_last_seen_at r) (us_expires_at r) (us_revoked_at r) (us_request_ip r) (us_user_agent r).
Definition set_us_last_seen_at (v : Z) : UserSession :=
    mkUserSession (us_token_hash r) (us_csrf_hash r) (us_user_id r) (us_created_at r) v (us_expires_at r) (us_revoked_at r) (us_request_ip r) (us_user_agent r).
Definition set_us_revoked_at (v : option Z) : UserSession :=
    mkUserSession (us_token_hash r) (us_csrf_hash r) (us_user_id r) (us_created_at r) (us_last_seen_at r) (us_expires_at r) v (us_request_ip r) (us_user_agent r).
End UserSessionSetters.

Record ReauthProof := mkReauthProof {
  rp_proof_hash : string;
  rp_user_id : string;
  rp_target_action : string;
  rp_target_id : string;
  rp_expires_at : Z;
  rp_consumed_at : option Z
}.

Section ReauthProofSetters.
Variable r : ReauthProof.
Definition set_rp_consumed_at (v : option Z) : ReauthProof :=
    mkReauthProof (rp_proof_hash r) (rp_user_id r) (rp_target_action r) (rp_target_id r) (rp_expires_at r) v.
End ReauthProofSetters.

Record RecoveryCode := mkRecoveryCode {
  rc_user_id : string;
  rc_code_hash : string;
  rc_used_at : option Z
}.

Record AuthRateLimit := mkAuthRateLimit {
  rl_subject_hash : string;
  rl_failure_count : Z;
  rl_lockout_level : Z;
  rl_locked_until : option Z
}.

Section AuthRateLimitSetters.
Variable r : AuthRateLimit.
Definition set_rl_failure_count (v : Z) : AuthRateLimit :=
    mkAuthRateLimit (rl_subject_hash r) v (rl_lockout_level r) (rl_locked_until r).
Definition set_rl_lockout_level (v : Z) : AuthRateLimit :=
    mkAuthRateLimit (rl_subject_hash r) (rl_failure_count r) v (rl_locked_until r).
Definition set_rl_locked_until (v : option Z) : AuthRateLimit :=
    mkAuthRateLimit (rl_subject_hash r) (rl_failure_count r) (rl_lockout_level r) v.
End AuthRateLimitSetters.

(** The tables of the authentication, each by its unique hash, the credentials by
    their user. *)
Record AuthTables := mkAuthTables {
  totp_credentials : gmap string TotpCredential;
  auth_challenges : gmap string AuthChallenge;
  sessions : gmap string UserSession;
  reauth_proofs : gmap string ReauthProof;
  auth_rate_limits : gmap string AuthRateLimit;
  recovery_codes : gmap string RecoveryCode
}.

Definition empty_auth : AuthTables := mkAuthTables ∅ ∅ ∅ ∅ ∅ ∅.

Section AuthSetters.
Variable r : AuthTables.
Definition set_totp_credentials (v : gmap string TotpCredential) : AuthTables :=
    mkAuthTables v (auth_challenges r) (sessions r) (reauth_proofs r) (auth_rate_limits r) (recovery_codes r).
Definition set_auth_challenges (v : gmap string AuthChallenge) : AuthTables :=
    mkAuthTables (totp_credentials r) v (sessions r) (reauth_proofs r) (auth_rate_limits r) (recovery_codes r).
Definition set_sessions (v : gmap string UserSession) : AuthTables :=
    mkAuthTables (totp_credentials r) (auth_challenges r) v (reauth_proofs r) (auth_rate_limits r) (recovery_codes r).
Definition set_reauth_proofs (v : gmap string ReauthProof) : AuthTables :=
    mkAuthTables (totp_credentials r) (auth_challenges r) (sessions r) v (auth_rate_limits r) (recovery_codes r).
Definition set_auth_rate_limits (v : gmap string AuthRateLimit) : AuthTables :=
    mkAuthTables (totp_credentials r) (auth_challenges r) (sessions r) (reauth_proofs r) v (recovery_codes r).
Definition set_recovery_codes (v : gmap string RecoveryCode) : AuthTables :=
    mkAuthTables (totp_credentials r) (auth_challenges r) (sessions r) (reauth_proofs r) (auth_rate_limits r) v.
End AuthSetters.

(** ** The session database *)

Record DB := mkDB {
  intents : gmap string OrderIntent;
  orders : gmap string TradingOrder;
  order_events : list OrderEvent;
  fills : gmap string Fill;
  positions : gmap string Position;
  position_events : list PositionEvent;
  gates : gmap string TradingGate;
  leases : gmap string BrokerLease;
  worker_states : gmap string BrokerWorkerState;
  scheduler_leases : gmap string BrokerLease;
  scheduler_states : gmap string AnalysisSchedulerState;
  risk_events : gmap string RiskEvent;
  stop_triggers : gmap string StopTrigger;
  snapshots : gmap string MarketSnapshot;
  streams : gmap (string * string) MarketStreamState;
  users : gmap string User;
  watchlist : gmap string WatchlistItem;
  configurations : gmap string ConfigurationVersion;
  decisions : gmap string Decision;
  executions : gmap string DecisionExecution;
  guards : gmap string GuardEvaluation;
  approvals : gmap string Approval;
  emergency_stops : gmap string EmergencyStop;
  calendar_overrides : gmap string MarketCalendarOverride;
  venue_evaluations : gmap string VenueSelectionEvaluation;
  audit_logs : list AuditLog;
  reconciliation_runs : gmap string ReconciliationRun;
  mismatches : list ReconciliationMismatch;
  minute_bars : gmap (string * string * Z) MinuteBar;
  indicators : gmap string IndicatorSnapshot;
  venue_states : gmap (string * string) InstrumentVenueState;
  decision_inputs : gmap string DecisionInputSnapshot;
  agent_runs : gmap string AgentRun;
  agent_stages : gmap string AgentStageRun;
  llm_invocations : gmap string LlmInvocation;
  evidence_bundles : gmap string EvidenceBundle;
  llm_routes : gmap string LlmRoleRoute;
  evidence_items : gmap string EvidenceItem;
  market_contexts : gmap string MarketContextSnapshot;
  llm_providers : gmap string LlmProviderProfile;
  llm_models : gmap string LlmModelProfile;
  llm_prompts : gmap string LlmPromptProfile;
  auth_tables : AuthTables
}.

Definition empty_db : DB :=
  mkDB ∅ ∅ [] ∅ ∅ [] ∅ ∅ ∅ ∅ ∅ ∅ ∅ ∅ ∅ ∅ ∅ ∅ ∅ ∅ ∅ ∅ ∅ ∅ ∅ [] ∅ [] ∅ ∅ ∅ ∅ ∅ ∅ ∅ ∅ ∅ ∅ ∅ ∅ ∅ ∅ empty_auth.

Section DBSetters.
Variable db : DB.
Definition set_intents (v : gmap string OrderIntent) : DB :=
    mkDB v (orders db) (order_events db) (fills db) (positions db) (position_events db) (gates db) (leases db) (worker_states db) (scheduler_leases db) (scheduler_states db) (risk_events db) (stop_triggers db) (snapshots db) (streams db) (users db) (watchlist db) (configurations db) (decisions db) (executions db) (guards db) (approvals db) (emergency_stops db) (calendar_overrides db) (venue_evaluations db) (audit_logs db) (reconciliation_runs db) (mismatches db) (minute_bars db) (indicators db) (venue_states db) (decision_inputs db) (agent_runs db) (agent_stages db) (llm_invocations db) (evidence_bundles db) (llm_routes db) (evidence_items db) (market_contexts db) (llm_providers db) (llm_models db) (llm_prompts db) (auth_tables db).
Definition set_orders (v : gmap string TradingOrder) : DB :=
    mkDB (intents db) v (order_events db) (fills db) (positions db) (position_events db) (gates db) (leases db) (worker_states db) (scheduler_leases db) (scheduler_states db) (risk_events db) (stop_triggers db) (snapshots db) (streams db) (users db) (watchlist db) (configurations db) (decisions db) (executions db) (guards db) (approvals db) (emergency_stops db) (calendar_overrides db) (venue_evaluations db) (audit_logs db) (reconciliation_runs db) (mismatches db) (minute_bars db) (indicators db) (venue_states db) (decision_inputs db) (agent_runs db) (agent_stages db) (llm_invocations db) (evidence_bundles db) (llm_routes db) (evidence_items db) (market_contexts db) (llm_providers db) (llm_models db) (llm_prompts db) (auth_tables db).
Definition set_order_events (v : list OrderEvent) : DB :=
    mkDB (intents db) (orders db) v (fills db) (positions db) (position_events db) (gates db) (leases db) (worker_states db) (scheduler_leases db) (scheduler_states db) (risk_events db) (stop_triggers db) (snapshots db) (streams db) (users db) (watchlist db) (configurations db) (decisions db) (executions db) (guards db) (approvals db) (emergency_stops db) (calendar_overrides db) (venue_evaluations db) (audit_logs db) (reconciliation_runs db) (mismatches db) (minute_bars db) (indicators db) (venue_states db) (decision_inputs db) (agent_runs db) (agent_stages db) (llm_invocations db) (evidence_bundles db) (llm_routes db) (evidence_items db) (market_contexts db) (llm_providers db) (llm_models db) (llm_prompts db) (auth_tables db).
Definition set_fills (v : gmap string Fill) : DB :=
    mkDB (intents db) (orders db) (order_events db) v (positions db) (position_events db) (gates db) (leases db) (worker_states db) (scheduler_leases db) (scheduler_states db) (risk_events db) (stop_triggers db) (snapshots db) (streams db) (users db) (watchlist db) (configurations db) (decisions db) (executions db) (guards db) (approvals db) (emergency_stops db) (calendar_overrides db) (venue_evaluations db) (audit_logs db) (reconciliation_runs db) (mismatches db) (minute_bars db) (indicators db) (venue_states db) (decision_inputs db) (agent_runs db) (agent_stages db) (llm_invocations db) (evidence_bundles db) (llm_routes db) (evidence_items db) (market_contexts db) (llm_providers db) (llm_models db) (llm_prompts db) (auth_tables db).
Definition set_positions (v : gmap string Position) : DB :=
    mkDB (intents db) (orders db) (order_events db) (fills db) v (position_events db) (gates db) (leases db) (worker_states db) (scheduler_leases db) (scheduler_states db) (risk_events db) (stop_triggers db) (snapshots db) (streams db) (users db) (watchlist db) (configurations db) (decisions db) (executions db) (guards db) (approvals db) (emergency_stops db) (calendar_overrides db) (venue_evaluations db) (audit_logs db) (reconciliation_runs db) (mismatches db) (minute_bars db) (indicators db) (venue_states db) (decision_inputs db) (agent_runs db) (agent_stages db) (llm_invocations db) (evidence_bundles db) (llm_routes db) (evidence_items db) (market_contexts db) (llm_providers db) (llm_models db) (llm_prompts db) (auth_tables db).
Definition set_position_events (v : list PositionEvent) : DB :=
    mkDB (intents db) (orders db) (order_events db) (fills db) (positions db) v (gates db) (leases db) (worker_states db) (scheduler_leases db) (scheduler_states db) (risk_events db) (stop_triggers db) (snapshots db) (streams db) (users db) (watchlist db) (configurations db) (decisions db) (executions db) (guards db) (approvals db) (emergency_stops db) (calendar_overrides db) (venue_evaluations db) (audit_logs db) (reconciliation_runs db) (mismatches db) (minute_bars db) (indicators db) (venue_states db) (decision_inputs db) (agent_runs db) (agent_stages db) (llm_invocations db) (evidence_bundles db) (llm_routes db) (evidence_items db) (market_contexts db) (llm_providers db) (llm_models db) (llm_prompts db) (auth_tables db).
Definition set_gates (v : gmap string TradingGate) : DB :=
    mkDB (intents db) (orders db) (order_events db) (fills db) (positions db) (position_events db) v (leases db) (worker_states db) (scheduler_leases db) (scheduler_states db) (risk_events db) (stop_triggers db) (snapshots db) (streams db) (users db) (watchlist db) (configurations db) (decisions db) (executions db) (guards db) (approvals db) (emergency_stops db) (calendar_overrides db) (venue_evaluations db) (audit_logs db) (reconciliation_runs db) (mismatches db) (minute_bars db) (indicators db) (venue_states db) (decision_inputs db) (agent_runs db) (agent_stages db) (llm_invocations db) (evidence_bundles db) (llm_routes db) (evidence_items db) (market_contexts db) (llm_providers db) (llm_models db) (llm_prompts db) (auth_tables db).
Definition set_leases (v : gmap string BrokerLease) : DB :=
    mkDB (intents db) (orders db) (order_events db) (fills db) (positions db) (position_events db) (gates db) v (worker_states db) (scheduler_leases db) (scheduler_states db) (risk_events db) (stop_triggers db) (snapshots db) (streams db) (users db) (watchlist db) (configurations db) (decisions db) (executions db) (guards db) (approvals db) (emergency_stops db) (calendar_overrides db) (venue_evaluations db) (audit_logs db) (reconciliation_runs db) (mismatches db) (minute_bars db) (indicators db) (venue_states db) (decision_inputs db) (agent_runs db) (agent_stages db) (llm_invocations db) (evidence_bundles db) (llm_routes db) (evidence_items db) (market_contexts db) (llm_providers db) (llm_models db) (llm_prompts db) (auth_tables db).
Definition set_worker_states (v : gmap string BrokerWorkerState) : DB :=
    mkDB (intents db) (orders db) (order_events db) (fills db) (positions db) (position_events db) (gates db) (leases db) v (scheduler_leases db) (scheduler_states db) (risk_events db) (stop_triggers db) (snapshots db) (streams db) (users db) (watchlist db) (configurations db) (decisions db) (executions db) (guards db) (approvals db) (emergency_stops db) (calendar_overrides db) (venue_evaluations db) (audit_logs db) (reconciliation_runs db) (mismatches db) (minute_bars db) (indicators db) (venue_states db) (decision_inputs db) (agent_runs db) (agent_stages db) (llm_invocations db) (evidence_bundles db) (llm_routes db) (evidence_items db) (market_contexts db) (llm_providers db) (llm_models db) (llm_prompts db) (auth_tables db).
Definition set_scheduler_leases (v : gmap string BrokerLease) : DB :=
    mkDB (intents db) (orders db) (order_events db) (fills db) (positions db) (position_events db) (gates db) (leases db) (worker_states db) v (scheduler_states db) (risk_events db) (stop_triggers db) (snapshots db) (streams db) (users db) (watchlist db) (configurations db) (decisions db) (executions db) (guards db) (approvals db) (emergency_stops db) (calendar_overrides db) (venue_evaluations db) (audit_logs db) (reconciliation_runs db) (mismatches db) (minute_bars db) (indicators db) (venue_states db) (decision_inputs db) (agent_runs db) (agent_stages db) (llm_invocations db) (evidence_bundles db) (llm_routes db) (evidence_items db) (market_contexts db) (llm_providers db) (llm_models db) (llm_prompts db) (auth_tables db).
Definition set_scheduler_states (v : gmap string AnalysisSchedulerState) : DB :=
    mkDB (intents db) (orders db) (order_events db) (fills db) (positions db) (position_events db) (gates db) (leases db) (worker_states db) (scheduler_leases db) v (risk_events db) (stop_triggers db) (snapshots db) (streams db) (users db) (watchlist db) (configurations db) (decisions db) (executions db) (guards db) (approvals db) (emergency_stops db) (calendar_overrides db) (venue_evaluations db) (audit_logs db) (reconciliation_runs db) (mismatches db) (minute_bars db) (indicators db) (venue_states db) (decision_inputs db) (agent_runs db) (agent_stages db) (llm_invocations db) (evidence_bundles db) (llm_routes db) (evidence_items db) (market_contexts db) (llm_providers db) (llm_models db) (llm_prompts db) (auth_tables db).
Definition set_risk_events (v : gmap string RiskEvent) : DB :=
    mkDB (intents db) (orders db) (order_events db) (fills db) (positions db) (position_events db) (gates db) (leases db) (worker_states db) (scheduler_leases db) (scheduler_states db) v (stop_triggers db) (snapshots db) (streams db) (users db) (watchlist db) (configurations db) (decisions db) (executions db) (guards db) (approvals db) (emergency_stops db) (calendar_overrides db) (venue_evaluations db) (audit_logs db) (reconciliation_runs db) (mismatches db) (minute_bars db) (indicators db) (venue_states db) (decision_inputs db) (agent_runs db) (agent_stages db) (llm_invocations db) (evidence_bundles db) (llm_routes db) (evidence_items db) (market_contexts db) (llm_providers db) (llm_models db) (llm_prompts db) (auth_tables db).
Definition set_stop_triggers (v : gmap string StopTrigger) : DB :=
    mkDB (intents db) (orders db) (order_events db) (fills db) (positions db) (position_events db) (gates db) (leases db) (worker_states db) (scheduler_leases db) (scheduler_states db) (risk_events db) v (snapshots db) (streams db) (users db) (watchlist db) (configurations db) (decisions db) (executions db) (guards db) (approvals db) (emergency_stops db) (calendar_overrides db) (venue_evaluations db) (audit_logs db) (reconciliation_runs db) (mismatches db) (minute_bars db) (indicators db) (venue_states db) (decision_inputs db) (agent_runs db) (agent_stages db) (llm_invocations db) (evidence_bundles db) (llm_routes db) (evidence_items db) (market_contexts db) (llm_providers db) (llm_models db) (llm_prompts db) (auth_tables db).
Definition set_snapshots (v : gmap string MarketSnapshot) : DB :=
    mkDB (intents db) (orders db) (order_events db) (fills db) (positions db) (position_events db) (gates db) (leases db) (worker_states db) (scheduler_leases db) (scheduler_states db) (risk_events db) (stop_triggers db) v (streams db) (users db) (watchlist db) (configurations db) (decisions db) (executions db) (guards db) (approvals db) (emergency_stops db) (calendar_overrides db) (venue_evaluations db) (audit_logs db) (reconciliation_runs db) (mismatches db) (minute_bars db) (indicators db) (venue_states db) (decision_inputs db) (agent_runs db) (agent_stages db) (llm_invocations db) (evidence_bundles db) (llm_routes db) (evidence_items db) (market_contexts db) (llm_providers db) (llm_models db) (llm_prompts db) (auth_tables db).
Definition set_streams (v : gmap (string * string) MarketStreamState) : DB :=
    mkDB (intents db) (orders db) (order_events db) (fills db) (positions db) (position_events db) (gates db) (leases db) (worker_states db) (scheduler_leases db) (scheduler_states db) (risk_events db) (stop_triggers db) (snapshots db) v (users db) (watchlist db) (configurations db) (decisions db) (executions db) (guards db) (approvals db) (emergency_stops db) (calendar_overrides db) (venue_evaluations db) (audit_logs db) (reconciliation_runs db) (mismatches db) (minute_bars db) (indicators db) (venue_states db) (decision_inputs db) (agent_runs db) (agent_stages db) (llm_invocations db) (evidence_bundles db) (llm_routes db) (evidence_items db) (market_contexts db) (llm_providers db) (llm_models db) (llm_prompts db) (auth_tables db).
Definition set_users (v : gmap string User) : DB :=
    mkDB (intents db) (orders db) (order_events db) (fills db) (positions db) (position_events db) (gates db) (leases db) (worker_states db) (scheduler_leases db) (scheduler_states db) (risk_events db) (stop_triggers db) (snapshots db) (streams db) v (watchlist db) (configurations db) (decisions db) (executions db) (guards db) (approvals db) (emergency_stops db) (calendar_overrides db) (venue_evaluations db) (audit_logs db) (reconciliation_runs db) (mismatches db) (minute_bars db) (indicators db) (venue_states db) (decision_inputs db) (agent_runs db) (agent_stages db) (llm_invocations db) (evidence_bundles db) (llm_routes db) (evidence_items db) (market_contexts db) (llm_providers db) (llm_models db) (llm_prompts db) (auth_tables db).
Definition set_watchlist (v : gmap string WatchlistItem) : DB :=
    mkDB (intents db) (orders db) (order_events db) (fills db) (positions db) (position_events db) (gates db) (leases db) (worker_states db) (scheduler_leases db) (scheduler_states db) (risk_events db) (stop_triggers db) (snapshots db) (streams db) (users db) v (configurations db) (decisions db) (executions db) (guards db) (approvals db) (emergency_stops db) (calendar_overrides db) (venue_evaluations db) (audit_logs db) (reconciliation_runs db) (mismatches db) (minute_bars db) (indicators db) (venue_states db) (decision_inputs db) (agent_runs db) (agent_stages db) (llm_invocations db) (evidence_bundles db) (llm_routes db) (evidence_items db) (market_contexts db) (llm_providers db) (llm_models db) (llm_prompts db) (auth_tables db).
Definition set_configurations (v : gmap string ConfigurationVersion) : DB :=
    mkDB (intents db) (orders db) (order_events db) (fills db) (positions db) (position_events db) (gates db) (leases db) (worker_states db) (scheduler_leases db) (scheduler_states db) (risk_events db) (stop_triggers db) (snapshots db) (streams db) (users db) (watchlist db) v (decisions db) (executions db) (guards db) (approvals db) (emergency_stops db) (calendar_overrides db) (venue_evaluations db) (audit_logs db) (reconciliation_runs db) (mismatches db) (minute_bars db) (indicators db) (venue_states db) (decision_inputs db) (agent_runs db) (agent_stages db) (llm_invocations db) (evidence_bundles db) (llm_routes db) (evidence_items db) (market_contexts db) (llm_providers db) (llm_models db) (llm_prompts db) (auth_tables db).
Definition set_decisions (v : gmap string Decision) : DB :=
    mkDB (intents db) (orders db) (order_events db) (fills db) (positions db) (position_events db) (gates db) (leases db) (worker_states db) (scheduler_leases db) (scheduler_states db) (risk_events db) (stop_triggers db) (snapshots db) (streams db) (users db) (watchlist db) (configurations db) v (executions db) (guards db) (approvals db) (emergency_stops db) (calendar_overrides db) (venue_evaluations db) (audit_logs db) (reconciliation_runs db) (mismatches db) (minute_bars db) (indicators db) (venue_states db) (decision_inputs db) (agent_runs db) (agent_stages db) (llm_invocations db) (evidence_bundles db) (llm_routes db) (evidence_items db) (market_contexts db) (llm_providers db) (llm_models db) (llm_prompts db) (auth_tables db).
Definition set_executions (v : gmap string DecisionExecution) : DB :=
    mkDB (intents db) (orders db) (order_events db) (fills db) (positions db) (position_events db) (gates db) (leases db) (worker_states db) (scheduler_leases db) (scheduler_states db) (risk_events db) (stop_triggers db) (snapshots db) (streams db) (users db) (watchlist db) (configurations db) (decisions db) v (guards db) (approvals db) (emergency_stops db) (calendar_overrides db) (venue_evaluations db) (audit_logs db) (reconciliation_runs db) (mismatches db) (minute_bars db) (indicators db) (venue_states db) (decision_inputs db) (agent_runs db) (agent_stages db) (llm_invocations db) (evidence_bundles db) (llm_routes db) (evidence_items db) (market_contexts db) (llm_providers db) (llm_models db) (llm_prompts db) (auth_tables db).
Definition set_guards (v : gmap string GuardEvaluation) : DB :=
    mkDB (intents db) (orders db) (order_events db) (fills db) (positions db) (position_events db) (gates db) (leases db) (worker_states db) (scheduler_leases db) (scheduler_states db) (risk_events db) (stop_triggers db) (snapshots db) (streams db) (users db) (watchlist db) (configurations db) (decisions db) (executions db) v (approvals db) (emergency_stops db) (calendar_overrides db) (venue_evaluations db) (audit_logs db) (reconciliation_runs db) (mismatches db) (minute_bars db) (indicators db) (venue_states db) (decision_inputs db) (agent_runs db) (agent_stages db) (llm_invocations db) (evidence_bundles db) (llm_routes db) (evidence_items db) (market_contexts db) (llm_providers db) (llm_models db) (llm_prompts db) (auth_tables db).
Definition set_approvals (v : gmap string Approval) : DB :=
    mkDB (intents db) (orders db) (order_events db) (fills db) (positions db) (position_events db) (gates db) (leases db) (worker_states db) (scheduler_leases db) (scheduler_states db) (risk_events db) (stop_triggers db) (snapshots db) (streams db) (users db) (watchlist db) (configurations db) (decisions db) (executions db) (guards db) v (emergency_stops db) (calendar_overrides db) (venue_evaluations db) (audit_logs db) (reconciliation_runs db) (mismatches db) (minute_bars db) (indicators db) (venue_states db) (decision_inputs db) (agent_runs db) (agent_stages db) (llm_invocations db) (evidence_bundles db) (llm_routes db) (evidence_items db) (market_contexts db) (llm_providers db) (llm_models db) (llm_prompts db) (auth_tables db).
Definition set_emergency_stops (v : gmap string EmergencyStop) : DB :=
    mkDB (intents db) (orders db) (order_events db) (fills db) (positions db) (position_events db) (gates db) (leases db) (worker_states db) (scheduler_leases db) (scheduler_states db) (risk_events db) (stop_triggers db) (snapshots db) (streams db) (users db) (watchlist db) (configurations db) (decisions db) (executions db) (guards db) (approvals db) v (calendar_overrides db) (venue_evaluations db) (audit_logs db) (reconciliation_runs db) (mismatches db) (minute_bars db) (indicators db) (venue_states db) (decision_inputs db) (agent_runs db) (agent_stages db) (llm_invocations db) (evidence_bundles db) (llm_routes db) (evidence_items db) (market_contexts db) (llm_providers db) (llm_models db) (llm_prompts db) (auth_tables db).
Definition set_calendar_overrides (v : gmap string MarketCalendarOverride) : DB :=
    mkDB (intents db) (orders db) (order_events db) (fills db) (positions db) (position_events db) (gates db) (leases db) (worker_states db) (scheduler_leases db) (scheduler_states db) (risk_events db) (stop_triggers db) (snapshots db) (streams db) (users db) (watchlist db) (configurations db) (decisions db) (executions db) (guards db) (approvals db) (emergency_stops db) v (venue_evaluations db) (audit_logs db) (reconciliation_runs db) (mismatches db) (minute_bars db) (indicators db) (venue_states db) (decision_inputs db) (agent_runs db) (agent_stages db) (llm_invocations db) (evidence_bundles db) (llm_routes db) (evidence_items db) (market_contexts db) (llm_providers db) (llm_models db) (llm_prompts db) (auth_tables db).
Definition set_venue_evaluations (v : gmap string VenueSelectionEvaluation) : DB :=
    mkDB (intents db) (orders db) (order_events db) (fills db) (positions db) (position_events db) (gates db) (leases db) (worker_states db) (scheduler_leases db) (scheduler_states db) (risk_events db) (stop_triggers db) (snapshots db) (streams db) (users db) (watchlist db) (configurations db) (decisions db) (executions db) (guards db) (approvals db) (emergency_stops db) (calendar_overrides db) v (audit_logs db) (reconciliation_runs db) (mismatches db) (minute_bars db) (indicators db) (venue_states db) (decision_inputs db) (agent_runs db) (agent_stages db) (llm_invocations db) (evidence_bundles db) (llm_routes db) (evidence_items db) (market_contexts db) (llm_providers db) (llm_models db) (llm_prompts db) (auth_tables db).
Definition set_audit_logs (v : list AuditLog) : DB :=
    mkDB (intents db) (orders db) (order_events db) (fills db) (positions db) (position_events db) (gates db) (leases db) (worker_states db) (scheduler_leases db) (scheduler_states db) (risk_events db) (stop_triggers db) (snapshots db) (streams db) (users db) (watchlist db) (configurations db) (decisions db) (executions db) (guards db) (approvals db) (emergency_stops db) (calendar_overrides db) (venue_evaluations db) v (reconciliation_runs db) (mismatches db) (minute_bars db) (indicators db) (venue_states db) (decision_inputs db) (agent_runs db) (agent_stages db) (llm_invocations db) (evidence_bundles db) (llm_routes db) (evidence_items db) (market_contexts db) (llm_providers db) (llm_models db) (llm_prompts db) (auth_tables db).
Definition set_reconciliation_runs (v : gmap string ReconciliationRun) : DB :=
    mkDB (intents db) (orders db) (order_events db) (fills db) (positions db) (position_events db) (gates db) (leases db) (worker_states db) (scheduler_leases db) (scheduler_states db) (risk_events db) (stop_triggers db) (snapshots db) (streams db) (users db) (watchlist db) (configurations db) (decisions db) (executions db) (guards db) (approvals db) (emergency_stops db) (calendar_overrides db) (venue_evaluations db) (audit_logs db) v (mismatches db) (minute_bars db) (indicators db) (venue_states db) (decision_inputs db) (agent_runs db) (agent_stages db) (llm_invocations db) (evidence_bundles db) (llm_routes db) (evidence_items db) (market_contexts db) (llm_providers db) (llm_models db) (llm_prompts db) (auth_tables db).
Definition set_mismatches (v : list ReconciliationMismatch) : DB :=
    mkDB (intents db) (orders db) (order_events db) (fills db) (positions db) (position_events db) (gates db) (leases db) (worker_states db) (scheduler_leases db) (scheduler_states db) (risk_events db) (stop_triggers db) (snapshots db) (streams db) (users db) (watchlist db) (configurations db) (decisions db) (executions db) (guards db) (approvals db) (emergency_stops db) (calendar_overrides db) (venue_evaluations db) (audit_logs db) (reconciliation_runs db) v (minute_bars db) (indicators db) (venue_states db) (decision_inputs db) (agent_runs db) (agent_stages db) (llm_invocations db) (evidence_bundles db) (llm_routes db) (evidence_items db) (market_contexts db) (llm_providers db) (llm_models db) (llm_prompts db) (auth_tables db).
Definition set_minute_bars (v : gmap (string * string * Z) MinuteBar) : DB :=
    mkDB (intents db) (orders db) (order_events db) (fills db) (positions db) (position_events db) (gates db) (leases db) (worker_states db) (scheduler_leases db) (scheduler_states db) (risk_events db) (stop_triggers db) (snapshots db) (streams db) (users db) (watchlist db) (configurations db) (decisions db) (executions db) (guards db) (approvals db) (emergency_stops db) (calendar_overrides db) (venue_evaluations db) (audit_logs db) (reconciliation_runs db) (mismatches db) v (indicators db) (venue_states db) (decision_inputs db) (agent_runs db) (agent_stages db) (llm_invocations db) (evidence_bundles db) (llm_routes db) (evidence_items db) (market_contexts db) (llm_providers db) (llm_models db) (llm_prompts db) (auth_tables db).
Definition set_indicators (v : gmap string IndicatorSnapshot) : DB :=
    mkDB (intents db) (orders db) (order_events db) (fills db) (positions db) (position_events db) (gates db) (leases db) (worker_states db) (scheduler_leases db) (scheduler_states db) (risk_events db) (stop_triggers db) (snapshots db) (streams db) (users db) (watchlist db) (configurations db) (decisions db) (executions db) (guards db) (approvals db) (emergency_stops db) (calendar_overrides db) (venue_evaluations db) (audit_logs db) (reconciliation_runs db) (mismatches db) (minute_bars db) v (venue_states db) (decision_inputs db) (agent_runs db) (agent_stages db) (llm_invocations db) (evidence_bundles db) (llm_routes db) (evidence_items db) (market_contexts db) (llm_providers db) (llm_models db) (llm_prompts db) (auth_tables db).
Definition set_venue_states (v : gmap (string * string) InstrumentVenueState) : DB :=
    mkDB (intents db) (orders db) (order_events db) (fills db) (positions db) (position_events db) (gates db) (leases db) (worker_states db) (scheduler_leases db) (scheduler_states db) (risk_events db) (stop_triggers db) (snapshots db) (streams db) (users db) (watchlist db) (configurations db) (decisions db) (executions db) (guards db) (approvals db) (emergency_stops db) (calendar_overrides db) (venue_evaluations db) (audit_logs db) (reconciliation_runs db) (mismatches db) (minute_bars db) (indicators db) v (decision_inputs db) (agent_runs db) (agent_stages db) (llm_invocations db) (evidence_bundles db) (llm_routes db) (evidence_items db) (market_contexts db) (llm_providers db) (llm_models db) (llm_prompts db) (auth_tables db).
Definition set_decision_inputs (v : gmap string DecisionInputSnapshot) : DB :=
    mkDB (intents db) (orders db) (order_events db) (fills db) (positions db) (position_events db) (gates db) (leases db) (worker_states db) (scheduler_leases db) (scheduler_states db) (risk_events db) (stop_triggers db) (snapshots db) (streams db) (users db) (watchlist db) (configurations db) (decisions db) (executions db) (guards db) (approvals db) (emergency_stops db) (calendar_overrides db) (venue_evaluations db) (audit_logs db) (reconciliation_runs db) (mismatches db) (minute_bars db) (indicators db) (venue_states db) v (agent_runs db) (agent_stages db) (llm_invocations db) (evidence_bundles db) (llm_routes db) (evidence_items db) (market_contexts db) (llm_providers db) (llm_models db) (llm_prompts db) (auth_tables db).
Definition set_agent_runs (v : gmap string AgentRun) : DB :=
    mkDB (intents db) (orders db) (order_events db) (fills db) (positions db) (position_events db) (gates db) (leases db) (worker_states db) (scheduler_leases db) (scheduler_states db) (risk_events db) (stop_triggers db) (snapshots db) (streams db) (users db) (watchlist db) (configurations db) (decisions db) (executions db) (guards db) (approvals db) (emergency_stops db) (calendar_overrides db) (venue_evaluations db) (audit_logs db) (reconciliation_runs db) (mismatches db) (minute_bars db) (indicators db) (venue_states db) (decision_inputs db) v (agent_stages db) (llm_invocations db) (evidence_bundles db) (llm_routes db) (evidence_items db) (market_contexts db) (llm_providers db) (llm_models db) (llm_prompts db) (auth_tables db).
Definition set_agent_stages (v : gmap string AgentStageRun) : DB :=
    mkDB (intents db) (orders db) (order_events db) (fills db) (positions db) (position_events db) (gates db) (leases db) (worker_states db) (scheduler_leases db) (scheduler_states db) (risk_events db) (stop_triggers db) (snapshots db) (streams db) (users db) (watchlist db) (configurations db) (decisions db) (executions db) (guards db) (approvals db) (emergency_stops db) (calendar_overrides db) (venue_evaluations db) (audit_logs db) (reconciliation_runs db) (mismatches db) (minute_bars db) (indicators db) (venue_states db) (decision_inputs db) (agent_runs db) v (llm_invocations db) (evidence_bundles db) (llm_routes db) (evidence_items db) (market_contexts db) (llm_providers db) (llm_models db) (llm_prompts db) (auth_tables db).
Definition set_llm_invocations (v : gmap string LlmInvocation) : DB :=
    mkDB (intents db) (orders db) (order_events db) (fills db) (positions db) (position_events db) (gates db) (leases db) (worker_states db) (scheduler_leases db) (scheduler_states db) (risk_events db) (stop_triggers db) (snapshots db) (streams db) (users db) (watchlist db) (configurations db) (decisions db) (executions db) (guards db) (approvals db) (emergency_stops db) (calendar_overrides db) (venue_evaluations db) (audit_logs db) (reconciliation_runs db) (mismatches db) (minute_bars db) (indicators db) (venue_states db) (decision_inputs db) (agent_runs db) (agent_stages db) v (evidence_bundles db) (llm_routes db) (evidence_items db) (market_contexts db) (llm_providers db) (llm_models db) (llm_prompts db) (auth_tables db).
Definition set_evidence_bundles (v : gmap string EvidenceBundle) : DB :=
    mkDB (intents db) (orders db) (order_events db) (fills db) (positions db) (position_events db) (gates db) (leases db) (worker_states db) (scheduler_leases db) (scheduler_states db) (risk_events db) (stop_triggers db) (snapshots db) (streams db) (users db) (watchlist db) (configurations db) (decisions db) (executions db) (guards db) (approvals db) (emergency_stops db) (calendar_overrides db) (venue_evaluations db) (audit_logs db) (reconciliation_runs db) (mismatches db) (minute_bars db) (indicators db) (venue_states db) (decision_inputs db) (agent_runs db) (agent_stages db) (llm_invocations db) v (llm_routes db) (evidence_items db) (market_contexts db) (llm_providers db) (llm_models db) (llm_prompts db) (auth_tables db).
Definition set_llm_routes (v : gmap string LlmRoleRoute) : DB :=
    mkDB (intents db) (orders db) (order_events db) (fills db) (positions db) (position_events db) (gates db) (leases db) (worker_states db) (scheduler_leases db) (scheduler_states db) (risk_events db) (stop_triggers db) (snapshots db) (streams db) (users db) (watchlist db) (configurations db) (decisions db) (executions db) (guards db) (approvals db) (emergency_stops db) (calendar_overrides db) (venue_evaluations db) (audit_logs db) (reconciliation_runs db) (mismatches db) (minute_bars db) (indicators db) (venue_states db) (decision_inputs db) (agent_runs db) (agent_stages db) (llm_invocations db) (evidence_bundles db) v (evidence_items db) (market_contexts db) (llm_providers db) (llm_models db) (llm_prompts db) (auth_tables db).
Definition set_evidence_items (v : gmap string EvidenceItem) : DB :=
    mkDB (intents db) (orders db) (order_events db) (fills db) (positions db) (position_events db) (gates db) (leases db) (worker_states db) (scheduler_leases db) (scheduler_states db) (risk_events db) (stop_triggers db) (snapshots db) (streams db) (users db) (watchlist db) (configurations db) (decisions db) (executions db) (guards db) (approvals db) (emergency_stops db) (calendar_overrides db) (venue_evaluations db) (audit_logs db) (reconciliation_runs db) (mismatches db) (minute_bars db) (indicators db) (venue_states db) (decision_inputs db) (agent_runs db) (agent_stages db) (llm_invocations db) (evidence_bundles db) (llm_routes db) v (market_contexts db) (llm_providers db) (llm_models db) (llm_prompts db) (auth_tables db).
Definition set_market_contexts (v : gmap string MarketContextSnapshot) : DB :=
    mkDB (intents db) (orders db) (order_events db) (fills db) (positions db) (position_events db) (gates db) (leases db) (worker_states db) (scheduler_leases db) (scheduler_states db) (risk_events db) (stop_triggers db) (snapshots db) (streams db) (users db) (watchlist db) (configurations db) (decisions db) (executions db) (guards db) (approvals db) (emergency_stops db) (calendar_overrides db) (venue_evaluations db) (audit_logs db) (reconciliation_runs db) (mismatches db) (minute_bars db) (indicators db) (venue_states db) (decision_inputs db) (agent_runs db) (agent_stages db) (llm_invocations db) (evidence_bundles db) (llm_routes db) (evidence_items db) v (llm_providers db) (llm_models db) (llm_prompts db) (auth_tables db).
Definition set_llm_providers (v : gmap string LlmProviderProfile) : DB :=
    mkDB (intents db) (orders db) (order_events db) (fills db) (positions db) (position_events db) (gates db) (leases db) (worker_states db) (scheduler_leases db) (scheduler_states db) (risk_events db) (stop_triggers db) (snapshots db) (streams db) (users db) (watchlist db) (configurations db) (decisions db) (executions db) (guards db) (approvals db) (emergency_stops db) (calendar_overrides db) (venue_evaluations db) (audit_logs db) (reconciliation_runs db) (mismatches db) (minute_bars db) (indicators db) (venue_states db) (decision_inputs db) (agent_runs db) (agent_stages db) (llm_invocations db) (evidence_bundles db) (llm_routes db) (evidence_items db) (market_contexts db) v (llm_models db) (llm_prompts db) (auth_tables db).
Definition set_llm_models (v : gmap string LlmModelProfile) : DB :=
    mkDB (intents db) (orders db) (order_events db) (fills db) (positions db) (position_events db) (gates db) (leases db) (worker_states db) (scheduler_leases db) (scheduler_states db) (risk_events db) (stop_triggers db) (snapshots db) (streams db) (users db) (watchlist db) (configurations db) (decisions db) (executions db) (guards db) (approvals db) (emergency_stops db) (calendar_overrides db) (venue_evaluations db) (audit_logs db) (reconciliation_runs db) (mismatches db) (minute_bars db) (indicators db) (venue_states db) (decision_inputs db) (agent_runs db) (agent_stages db) (llm_invocations db) (evidence_bundles db) (llm_routes db) (evidence_items db) (market_contexts db) (llm_providers db) v (llm_prompts db) (auth_tables db).
Definition set_llm_prompts (v : gmap string LlmPromptProfile) : DB :=
    mkDB (intents db) (orders db) (order_events db) (fills db) (positions db) (position_events db) (gates db) (leases db) (worker_states db) (scheduler_leases db) (scheduler_states db) (risk_events db) (stop_triggers db) (snapshots db) (streams db) (users db) (watchlist db) (configurations db) (decisions db) (executions db) (guards db) (approvals db) (emergency_stops db) (calendar_overrides db) (venue_evaluations db) (audit_logs db) (reconciliation_runs db) (mismatches db) (minute_bars db) (indicators db) (venue_states db) (decision_inputs db) (agent_runs db) (agent_stages db) (llm_invocations db) (evidence_bundles db) (llm_routes db) (evidence_items db) (market_contexts db) (llm_providers db) (llm_models db) v (auth_tables db).
Definition set_auth_tables (v : AuthTables) : DB :=
    mkDB (intents db) (orders db) (order_events db) (fills db) (positions db) (position_events db) (gates db) (leases db) (worker_states db) (scheduler_leases db) (scheduler_states db) (risk_events db) (stop_triggers db) (snapshots db) (streams db) (users db) (watchlist db) (configurations db) (decisions db) (executions db) (guards db) (approvals db) (emergency_stops db) (calendar_overrides db) (venue_evaluations db) (audit_logs db) (reconciliation_runs db) (mismatches db) (minute_bars db) (indicators db) (venue_states db) (decision_inputs db) (agent_runs db) (agent_stages db) (llm_invocations db) (evidence_bundles db) (llm_routes db) (evidence_items db) (market_contexts db) (llm_providers db) (llm_models db) (llm_prompts db) v.
End DBSetters.

(** The account of the mock broker, the same constant in every module. *)
Definition ACCOUNT_ALIAS : string := "KIWOOM_MOCK_PRIMARY".

(** ** Check constraints *)

(** [ck_orders_*]: the quantities of an order are non-negative and add up. *)
Definition order_ok (o : TradingOrder) : Prop :=
  0 < o_requested_quantity o /\ 0 <= o_filled_quantity o /\
  0 <= o_cancelled_quantity o /\ 0 <= o_remaining_quantity o /\
  o_requested_quantity o =
    o_filled_quantity o + o_cancelled_quantity o + o_remaining_quantity o.

(** [ck_positions_open_origin_matches_managed_quantity] *)
Definition origin_matches (p : Position) : Prop :=
  p_state p <> POS_OPEN \/
  match p_origin p with
  | EXTERNAL => p_managed_quantity p = 0
  | CRESTA_MANAGED => p_managed_quantity p = p_quantity p /\ 0 < p_quantity p
  | MIXED => 0 < p_managed_quantity p < p_quantity p
  end.

(** [ck_positions_*] *)
Definition position_ok (p : Position) : Prop :=
  0 <= p_quantity p /\
  0 <= p_available_quantity p <= p_quantity p /\
  0 <= p_managed_quantity p <= p_quantity p /\
  0 <= coef (p_managed_average_price p) /\
  origin_matches p.

(** [ck_fills_*] *)
Definition fill_ok (f : Fill) : Prop :=
  0 < f_quantity f /\ 0 < coef (f_price f) /\ 0 <= coef (f_fee f) /\ 0 <= coef (f_tax f).

(** ** Primary-key updates *)

Definition put_order_row (o : TradingOrder) (db : DB) : DB :=
  set_orders db (<[o_id o := o]> (orders db)).
Definition put_position_row (p : Position) (db : DB) : DB :=
  set_positions db (<[p_id p := p]> (positions db)).
Definition add_order_event (e : OrderEvent) (db : DB) : DB :=
  set_order_events db (order_events db ++ [e]).
Definition add_position_event (e : PositionEvent) (db : DB) : DB :=
  set_position_events db (position_events db ++ [e]).
Definition add_audit (e : AuditLog) (db : DB) : DB :=
  set_audit_logs db (audit_logs db ++ [e]).

(** [status in {...}] *)
Definition status_in (l : list OrderStatus) (st : OrderStatus) : bool :=
  bool_decide (st ∈ l).

(** The text of the enumerations, as the columns store it. *)
Definition status_text (st : OrderStatus) : string :=
  match st with
  | CREATED => "CREATED" | VALIDATING => "VALIDATING" | SUBMITTING => "SUBMITTING"
  | ACKNOWLEDGED => "ACKNOWLEDGED" | OPEN => "OPEN"
  | PARTIALLY_FILLED => "PARTIALLY_FILLED" | FILLED => "FILLED"
  | CANCEL_PENDING => "CANCEL_PENDING" | CANCELLED => "CANCELLED"
  | REPLACE_PENDING => "REPLACE_PENDING" | REPLACED => "REPLACED"
  | REJECTED => "REJECTED" | UNKNOWN => "UNKNOWN" | RECONCILING => "RECONCILING"
  end.

Definition side_text (sd : Side) : string :=
  match sd with BUY => "BUY" | SELL => "SELL" end.
Definition order_type_text (t : OrderType) : string :=
  match t with LIMIT => "LIMIT" | MARKET => "MARKET" end.
Definition position_state_text (st : PositionState) : string :=
  match st with POS_OPEN => "OPEN" | POS_CLOSED => "CLOSED" end.
Definition origin_text (o : Origin) : string :=
  match o with
  | CRESTA_MANAGED => "CRESTA_MANAGED" | EXTERNAL => "EXTERNAL" | MIXED => "MIXED"
  end.

Definition side_of (s : string) : option Side :=
  if String.eqb s "BUY" then Some BUY else if String.eqb s "SELL" then Some SELL else None.
Definition order_type_of (s : string) : option OrderType :=
  if String.eqb s "LIMIT" then Some LIMIT
  else if String.eqb s "MARKET" then Some MARKET else None.

(** ** Flushes that may violate a unique constraint *)

(** [uq_orders_broker_identity], the unique idempotency key and the primary key. *)
Definition orders_clash (a b : TradingOrder) : bool :=
  String.eqb (o_id a) (o_id b) ||
  String.eqb (o_idempotency_key a) (o_idempotency_key b) ||
  (bool_decide (is_Some (o_broker_order_id a)) &&
   bool_decide (o_broker_order_id a = o_broker_order_id b) &&
   String.eqb (o_environment a) (o_environment b) &&
   String.eqb (o_account_alias a) (o_account_alias b)).

Definition clashes (o : TradingOrder) (db : DB) : bool :=
  existsb (orders_clash o) (rows (orders db)).

(** Rows other sessions committed: each enters unless it clashes. *)
Definition add_concurrent_orders (race : list TradingOrder) (db : DB) : DB :=
  foldr (fun o db => if clashes o db then db else put_order_row o db) db race.
