(* ===== verification/Session.v ===== *)
(** * The database session

    SQLAlchemy's unit of work as a state and error monad.  A session sees its
    working copy of the database; [commit] makes the working copy durable,
    [rollback] discards it, and an exception leaves both as they are.  Other
    writers appear as explicit changes of the durable copy.  The clock
    ([datetime.now(UTC)], microseconds), the supply of [uuid7] identifiers, the
    requests handed to the broker client and the files of the credentials are
    part of the state; neither [commit] nor [rollback] touches these. *)

From Stdlib Require Import ZArith.
From stdpp Require Import base strings list gmap.
From S2P Require Import Prelude Decimal Json Models.

Open Scope Z_scope.

(** ** Exceptions, one constructor per class of the code

    [ConnectionFailed] stands for the classes of a broken connection
    ([WebSocketException], [OSError]), [FileError] for [OSError] at a file;
    [OtherError] is any exception that no handler of the code catches, such as
    the end of the process. *)

Inductive exn :=
| PaperBrokerError (code : string)
| PaperBrokerConflict (code : string)
| OrderCreationError (code : string) (status_code : Z)
| ApprovalError (code : string) (status_code : Z)
| EmergencyStopError (code : string) (status_code : Z)
| CalendarOverrideError (code : string) (status_code : Z)
| MockDecisionError (code : string) (status_code : Z)
| WatchError (code : string)
| WatchlistError (code : string) (status_code : Z)
| KiwoomAdapterError (code : string)
| KiwoomOrderRejectedError (result_code result_message : option string)
| KiwoomOrderOutcomeUnknownError
| KiwoomOrderSenderError (code : string)
| AccountProjectionError
| ReconciliationProjectionError
| RiskPolicyError (code : string) (status_code : Z)
| ExecutionPolicyError (code : string) (status_code : Z)
| AgentRuntimeError (code : string) (status_code : Z)
| MarketContextError (code : string)
| ModelDiscoveryError (code : string) (status_code : Z)
| DartCollectionError (code : string)
| KrxCollectionError (code : string)
| NaverNewsCollectionError (code : string)
| KiwoomWebSocketError (code : string)
| LlmProfileError (code : string) (status_code : Z)
| LlmPromptError (code : string) (status_code : Z)
| LlmSecretError (code : string)
| WorkerReconciliationError (source_code : string)
| AuthenticationError
| CsrfError (message : string)
| ReauthProofError
| RuntimeError (message : string)
| ConnectionFailed
| TimeoutError (message : string)
| IntegrityError
| StaleDataError
| InvalidRequestError
| InvalidOperation
| ZeroDivision
| ValueError
| KeyError
| IndexError
| TypeError
| AttributeError
| StopIteration
| AssertionError
| FileError
| OtherError.

(** ** Sessions and programs *)

(** The requests of [broker/kiwoom.py] that may move money. *)
Record KiwoomOrderRequest := mkKiwoomOrderRequest {
  kr_symbol : string;
  kr_side : Side;
  kr_quantity : Z;
  kr_order_type : OrderType;
  kr_limit_price : option decimal;
  kr_market : string
}.

Record KiwoomCancelRequest := mkKiwoomCancelRequest {
  kc_original_order_id : string;
  kc_symbol : string;
  kc_quantity : Z;
  kc_market : string
}.

(** What a session handed to the broker client, with the order it was for. *)
Inductive wire_call :=
| WPlace (order_id : string) (request : KiwoomOrderRequest)
| WCancel (order_id : string) (request : KiwoomCancelRequest).

Record Sess := mkSess {
  disk : DB;
  work : DB;
  clock : Z;
  uuids : nat -> string;
  uuid_ix : nat;
  wire : list wire_call;
  secret_files : gmap string string
}.

Definition prog (A : Type) : Type := Sess -> Sess * (A + exn).

#[export] Instance prog_ret : MRet prog := fun A a s => (s, inl a).

#[export] Instance prog_bind : MBind prog := fun A B f m s =>
  match m s with
  | (s', inl a) => f a s'
  | (s', inr e) => (s', inr e)
  end.

Definition raise {A} (e : exn) : prog A := fun s => (s, inr e).

(** [try m with h]: [h] selects the exceptions it handles. *)
Definition try_except {A} (m : prog A) (h : exn -> option (prog A)) : prog A := fun s =>
  match m s with
  | (s', inr e) => match h e with Some m' => m' s' | None => (s', inr e) end
  | r => r
  end.

(** A query of the working copy. *)
Definition gets {A} (f : DB -> A) : prog A := fun s => (s, inl (f (work s))).

(** A change of the working copy. *)
Definition with_work (f : DB -> DB) (s : Sess) : Sess :=
  mkSess (disk s) (f (work s)) (clock s) (uuids s) (uuid_ix s) (wire s) (secret_files s).

Definition committed (s : Sess) : Sess :=
  mkSess (work s) (work s) (clock s) (uuids s) (uuid_ix s) (wire s) (secret_files s).

Definition rolled_back (s : Sess) : Sess :=
  mkSess (disk s) (disk s) (clock s) (uuids s) (uuid_ix s) (wire s) (secret_files s).

Definition next_uuid (s : Sess) : Sess :=
  mkSess (disk s) (work s) (clock s) (uuids s) (S (uuid_ix s)) (wire s) (secret_files s).

Definition modify (f : DB -> DB) : prog unit := fun s => (with_work f s, inl tt).
Definition commit : prog unit := fun s => (committed s, inl tt).
Definition rollback : prog unit := fun s => (rolled_back s, inl tt).
Definition utcnow : prog Z := fun s => (s, inl (clock s)).
Definition uuid7 : prog string := fun s => (next_uuid s, inl (uuids s (uuid_ix s))).

(** A partial computation of the standard library, with the error it raises. *)
Definition or_raise {A} (o : option A) (e : exn) : prog A :=
  match o with Some a => mret a | None => raise e end.

(** The result of a pure computation that may raise. *)
Definition of_result {A} (r : exn + A) : prog A :=
  match r with inl e => raise e | inr a => mret a end.

(** Pure computations that may raise compose like programs. *)
#[export] Instance result_bind : MBind (sum exn) := fun A B f m =>
  match m with inl e => inl e | inr a => f a end.

(** [if c: raise e], in pure code that may raise. *)
Definition reject_if (c : bool) (e : exn) : exn + unit := if c then inl e else inr tt.
#[export] Instance result_ret : MRet (sum exn) := fun A a => inr a.

Lemma result_bind_inr {A B} (m : exn + A) (f : A -> exn + B) b :
  (x ← m; f x) = inr b -> exists a, m = inr a /\ f a = inr b.
Proof. destruct m as [e|a]; [done|]. intros H. by exists a. Qed.

Lemma reject_if_inr c e u : reject_if c e = inr u -> c = false.
Proof. by destruct c. Qed.

(** [if not c: raise e] *)
Definition guard_or (c : bool) (e : exn) : prog unit :=
  if c then mret tt else raise e.

Fixpoint for_each {A} (l : list A) (f : A -> prog unit) : prog unit :=
  match l with
  | [] => mret tt
  | x :: l => f x ;; for_each l f
  end.

(** A session opened on a database: the working copy is the durable one. *)
Definition open_session (db : DB) (now : Z) (ids : nat -> string) : Sess :=
  mkSess db db now ids 0 [] ∅.

(** ** Weakest preconditions *)

Definition wp {A} (m : prog A) (Q : Sess -> A + exn -> Prop) (s : Sess) : Prop :=
  let '(s', r) := m s in Q s' r.

(** The continuation of a bind: an exception skips the rest. *)
Definition after {A B} (k : A -> prog B) (Q : Sess -> B + exn -> Prop) :
  Sess -> A + exn -> Prop :=
  fun s r => match r with inl a => wp (k a) Q s | inr e => Q s (inr e) end.

Section Wp.
Context {A B : Type}.
Implicit Types s : Sess.

Lemma wp_bind (m : prog A) (k : A -> prog B) Q s :
  wp m (after k Q) s -> wp (mbind k m) Q s.
Proof.
  unfold wp, after, mbind, prog_bind, wp. destruct (m s) as [s' [a|e]]; auto.
Qed.

Lemma wp_ret (a : A) Q s : Q s (inl a) -> wp (mret a) Q s.
Proof. done. Qed.

Lemma wp_raise e (Q : Sess -> A + exn -> Prop) s : Q s (inr e) -> wp (raise e) Q s.
Proof. done. Qed.

Lemma wp_mono (m : prog A) (Q Q' : Sess -> A + exn -> Prop) s :
  wp m Q s -> (forall s' r, Q s' r -> Q' s' r) -> wp m Q' s.
Proof. unfold wp. destruct (m s); auto. Qed.

Lemma wp_and (m : prog A) (Q Q' : Sess -> A + exn -> Prop) s :
  wp m Q s -> wp m Q' s -> wp m (fun s' r => Q s' r /\ Q' s' r) s.
Proof. unfold wp. destruct (m s); auto. Qed.

Lemma wp_gets (f : DB -> A) Q s : Q s (inl (f (work s))) -> wp (gets f) Q s.
Proof. done. Qed.

Lemma wp_try (m : prog A) h Q s :
  wp m (fun s' r => match r with
                    | inl a => Q s' (inl a)
                    | inr e => match h e with
                               | Some m' => wp m' Q s'
                               | None => Q s' (inr e)
                               end
                    end) s ->
  wp (try_except m h) Q s.
Proof.
  unfold wp, try_except, wp. destruct (m s) as [s' [a|e]]; [done|]. destruct (h e); auto.
Qed.

Lemma wp_or_raise (o : option A) e Q s :
  (forall a, o = Some a -> Q s (inl a)) -> (o = None -> Q s (inr e)) ->
  wp (or_raise o e) Q s.
Proof. intros H1 H2. destruct o; [by apply H1|by apply H2]. Qed.

Lemma wp_of_result (r : exn + A) Q s :
  (forall a, r = inr a -> Q s (inl a)) -> (forall e, r = inl e -> Q s (inr e)) ->
  wp (of_result r) Q s.
Proof. intros H1 H2. destruct r; [by apply H2|by apply H1]. Qed.
End Wp.

Lemma wp_modify f Q s : Q (with_work f s) (inl tt) -> wp (modify f) Q s.
Proof. done. Qed.
Lemma wp_commit Q s : Q (committed s) (inl tt) -> wp commit Q s.
Proof. done. Qed.
Lemma wp_rollback Q s : Q (rolled_back s) (inl tt) -> wp rollback Q s.
Proof. done. Qed.
Lemma wp_utcnow Q s : Q s (inl (clock s)) -> wp utcnow Q s.
Proof. done. Qed.
Lemma wp_uuid7 Q s : Q (next_uuid s) (inl (uuids s (uuid_ix s))) -> wp uuid7 Q s.
Proof. done. Qed.

Lemma wp_guard_or c e Q s :
  (c = true -> Q s (inl tt)) -> (c = false -> Q s (inr e)) -> wp (guard_or c e) Q s.
Proof. intros H1 H2. destruct c; [by apply H1|by apply H2]. Qed.

Lemma wp_elim {A} (m : prog A) Q s s' r : wp m Q s -> m s = (s', r) -> Q s' r.
Proof. unfold wp. intros H E. by rewrite E in H. Qed.

(** A loop keeps an invariant that each iteration keeps, exceptions included. *)
Lemma wp_for_each {A} (I : Sess -> Prop) (l : list A) f s :
  (forall x s, x ∈ l -> I s -> wp (f x) (fun s' _ => I s') s) ->
  I s -> wp (for_each l f) (fun s' _ => I s') s.
Proof.
  revert s. induction l as [|x l IH]; intros s Hf Hs; [done|]. simpl.
  apply wp_bind. eapply wp_mono; [apply Hf; [apply list_elem_of_here|done]|].
  intros s' [u|e] Hs'; simpl; [|done].
  apply IH; [|done]. intros y s'' Hy. apply Hf. by apply list_elem_of_further.
Qed.

(** One step of symbolic execution. *)
Ltac wp_step :=
  lazymatch goal with
  | |- wp (mbind _ _) _ _ => apply wp_bind
  | |- wp (mret _) _ _ => apply wp_ret
  | |- wp (raise _) _ _ => apply wp_raise
  | |- wp (gets _) _ _ => apply wp_gets
  | |- wp (guard_or _ _) _ _ => apply wp_guard_or; intros ?
  | |- wp (or_raise _ _) _ _ => apply wp_or_raise; [intros ? ?|intros ?]
  | |- wp (of_result _) _ _ => apply wp_of_result; intros ? ?
  | |- wp (try_except _ _) _ _ => apply wp_try
  | |- wp (modify _) _ _ => apply wp_modify
  | |- wp commit _ _ => apply wp_commit
  | |- wp rollback _ _ => apply wp_rollback
  | |- wp utcnow _ _ => apply wp_utcnow
  | |- wp uuid7 _ _ => apply wp_uuid7
  | |- wp (if ?b then _ else _) _ _ => let E := fresh "E" in destruct b eqn:E
  | |- wp (match ?x with _ => _ end) _ _ => let E := fresh "E" in destruct x eqn:E
  | |- after _ _ _ (inl _) => unfold after
  | |- after _ _ _ (inr _) => unfold after
  end.

(** ** Flushing a new order *)

(** [db.add(order); db.flush()]: [race] are the rows that other sessions
    committed since the last query; a violated unique constraint raises
    [IntegrityError]. *)
Definition interleaved (race : list TradingOrder) (s : Sess) : Sess :=
  mkSess (add_concurrent_orders race (disk s)) (add_concurrent_orders race (work s))
    (clock s) (uuids s) (uuid_ix s) (wire s) (secret_files s).

Definition flush_order (race : list TradingOrder) (o : TradingOrder) : prog unit := fun s =>
  let s' := interleaved race s in
  if clashes o (work s') then (s', inr IntegrityError)
  else (with_work (put_order_row o) s', inl tt).

Lemma wp_flush_order race o Q s :
  (clashes o (work (interleaved race s)) = true -> Q (interleaved race s) (inr IntegrityError)) ->
  (clashes o (work (interleaved race s)) = false ->
   Q (with_work (put_order_row o) (interleaved race s)) (inl tt)) ->
  wp (flush_order race o) Q s.
Proof. intros H1 H2. unfold wp, flush_order. destruct (clashes _ _) eqn:E; auto. Qed.

(** The same for the other tables: [race] are the commits of other sessions
    since the last query, [violated] the unique constraint the flush checks. *)
Definition interleave (race : DB -> DB) (s : Sess) : Sess :=
  mkSess (race (disk s)) (race (work s)) (clock s) (uuids s) (uuid_ix s) (wire s) (secret_files s).

Definition flush_checked (race : DB -> DB) (violated : DB -> bool) (put : DB -> DB) : prog unit :=
  fun s =>
  let s' := interleave race s in
  if violated (work s') then (s', inr IntegrityError) else (with_work put s', inl tt).

Lemma wp_flush_checked race violated put Q s :
  (violated (work (interleave race s)) = true -> Q (interleave race s) (inr IntegrityError)) ->
  (violated (work (interleave race s)) = false ->
   Q (with_work put (interleave race s)) (inl tt)) ->
  wp (flush_checked race violated put) Q s.
Proof. intros H1 H2. unfold wp, flush_checked. destruct (violated _) eqn:E; auto. Qed.

(** [with SessionLocal() as db]: a session that starts on the durable copy and
    is closed at the end, also by an exception. *)
Definition in_session {A} (m : prog A) : prog A := fun s =>
  let '(s', r) := m (rolled_back s) in (rolled_back s', r).

(** A request arrives at a time. *)
Definition at_time (t : Z) (s : Sess) : Sess := mkSess (disk s) (work s) t (uuids s) (uuid_ix s) (wire s) (secret_files s).

(** [finally]: the clean-up runs whatever happened. *)
Definition finally {A B} (m : prog A) (cleanup : prog B) : prog A := fun s =>
  let '(s1, r) := m s in
  let '(s2, r2) := cleanup s1 in
  (s2, match r2 with inl _ => r | inr e => inr e end).

Lemma wp_in_session {A} (m : prog A) Q s :
  wp m (fun s' r => Q (rolled_back s') r) (rolled_back s) -> wp (in_session m) Q s.
Proof. unfold wp, in_session. by destruct (m (rolled_back s)). Qed.

(** Commits of other sessions between two statements. *)
Definition others_commit (race : DB -> DB) : prog unit := fun s => (interleave race s, inl tt).

Lemma wp_others_commit race Q s : Q (interleave race s) (inl tt) -> wp (others_commit race) Q s.
Proof. done. Qed.
