(* ===== verification/PaperBroker.v ===== *)
(** * The deterministic paper broker

    [trading/paper.py]: order creation with its validation and idempotency,
    fills with late-fill absorption by the replacement child, position
    accounting, cancellation and replacement.  The pure parts ([child_after],
    [order_after_fill], [position_after_fill]) are the assignments the handlers
    make; the handlers run them in a session. *)

From Stdlib Require Import ZArith Lia.
From stdpp Require Import base numbers strings list gmap.
From S2P Require Import Prelude Decimal Json PyTime Models Session.

Open Scope Z_scope.

(** ** Constants and requests *)

Definition ACTIVE_SYMBOL_LOCK_STATES : list OrderStatus := [UNKNOWN; RECONCILING].

Definition ACTIVE_SELL_STATES : list OrderStatus :=
  [CREATED; VALIDATING; SUBMITTING; ACKNOWLEDGED; OPEN; PARTIALLY_FILLED;
   CANCEL_PENDING; REPLACE_PENDING; UNKNOWN; RECONCILING].

(** The exponent of [PRICE_QUANTUM = Decimal("0.0001")]. *)
Definition PRICE_QUANTUM : Z := -4.

Record PaperOrderRequest := mkPaperOrderRequest {
  rq_symbol : string;
  rq_side : string;
  rq_quantity : Z;
  rq_order_type : string;
  rq_limit_price : option decimal;
  rq_idempotency_key : string;
  rq_correlation_id : string;
  rq_market : string;
  rq_account_alias : string;
  rq_action : string;
  rq_trading_date : option Z
}.

(** ** Pure accounting *)

(** [_price_text] *)
Definition _price_text (value : decimal) : option string :=
  str_text <$> quantize ROUND_HALF_EVEN PRICE_QUANTUM value.

(** The quantities of an order after a fill (the fill consumes the remaining
    quantity first, then the cancelled one). *)
Definition order_after_fill (o : TradingOrder) (quantity : Z) : TradingOrder :=
  let from_remaining := Z.min quantity (o_remaining_quantity o) in
  let o := set_o_remaining_quantity o (o_remaining_quantity o - from_remaining) in
  let o := set_o_cancelled_quantity o (o_cancelled_quantity o - (quantity - from_remaining)) in
  set_o_filled_quantity o (o_filled_quantity o + quantity).

(** The status of an order after a fill, from its status before the fill. *)
Definition status_after_fill (previous : OrderStatus) (o : TradingOrder) : OrderStatus :=
  if o_filled_quantity o =? o_requested_quantity o then FILLED
  else if status_in [CANCEL_PENDING; REPLACE_PENDING; CANCELLED; REPLACED] previous then previous
  else if 0 <? o_remaining_quantity o then PARTIALLY_FILLED
  else CANCELLED.

(** The replacement child after its parent filled late: the absorbed quantity,
    the row and its new status. *)
Definition child_after (child : TradingOrder) (late_fill_quantity : Z) :
  Z * TradingOrder * OrderStatus :=
  let absorbed := Z.min late_fill_quantity (o_remaining_quantity child) in
  let child := set_o_remaining_quantity child (o_remaining_quantity child - absorbed) in
  let child := set_o_cancelled_quantity child (o_cancelled_quantity child + absorbed) in
  let status :=
    if absorbed <? late_fill_quantity then RECONCILING
    else if o_filled_quantity child =? o_requested_quantity child then FILLED
    else if o_remaining_quantity child =? 0 then CANCELLED
    else if 0 <? o_filled_quantity child then PARTIALLY_FILLED
    else OPEN in
  (absorbed, child, status).

(** The quantity and average price of a position after a fill. *)
Definition average_after_buy (p : Position) (quantity : Z) (price : decimal) :
  exn + (Z * decimal) :=
  let new_quantity := p_quantity p + quantity in
  let total_cost := dadd (dmul (p_average_price p) (of_int (p_quantity p)))
                         (dmul price (of_int quantity)) in
  match ddiv total_cost (of_int new_quantity) with
  | None => inl ZeroDivision
  | Some avg => match quantize ROUND_HALF_UP PRICE_QUANTUM avg with
                | None => inl InvalidOperation
                | Some avg => inr (new_quantity, avg)
                end
  end.

Definition average_after_sell (p : Position) (quantity : Z) : exn + (Z * decimal) :=
  if p_quantity p <? quantity then inl (PaperBrokerError "INSUFFICIENT_POSITION")
  else
    let new_quantity := p_quantity p - quantity in
    inr (new_quantity, if new_quantity =? 0 then dzero else p_average_price p).

Definition position_after_fill (p : Position) (side : Side) (quantity : Z) (price : decimal) :
  exn + Position :=
  match (match side with
         | BUY => average_after_buy p quantity price
         | SELL => average_after_sell p quantity
         end) with
  | inl e => inl e
  | inr (q, avg) =>
      inr (mkPosition (p_id p) (p_account_alias p) (p_symbol p) q q q avg avg
             (if q =? 0 then POS_CLOSED else POS_OPEN) CRESTA_MANAGED (p_version p + 1))
  end.

(** A freshly flushed position row: the column defaults. *)
Definition new_position (id account symbol : string) : Position :=
  mkPosition id account symbol 0 0 0 dzero dzero POS_CLOSED CRESTA_MANAGED 1.

(** ** Queries *)

Definition order_by_key (key : string) (db : DB) : option TradingOrder :=
  find_row (fun o => String.eqb (o_idempotency_key o) key) (orders db).

Definition position_of (account symbol : string) (db : DB) : option Position :=
  find_row (fun p => String.eqb (p_account_alias p) account && String.eqb (p_symbol p) symbol)
    (positions db).

Definition fill_by_key (key : string) (db : DB) : option Fill :=
  find_row (fun f => String.eqb (f_broker_fill_key f) key) (fills db).

(** Whether an order of the symbol is in one of the given states. *)
Definition symbol_order_in (states : list OrderStatus) (account symbol : string) (db : DB) : bool :=
  existsb (fun o => String.eqb (o_account_alias o) account && String.eqb (o_symbol o) symbol &&
                    status_in states (o_status o)) (rows (orders db)).

(** The remaining quantity of the symbol's active SELL orders. *)
Definition reserved_sell_quantity (states : list OrderStatus) (account symbol : string) (db : DB) : Z :=
  msum (fun o => if String.eqb (o_account_alias o) account && String.eqb (o_symbol o) symbol &&
                    bool_decide (o_side o = SELL) && status_in states (o_status o)
                 then o_remaining_quantity o else 0) (orders db).

(** The latest replacement of an order: the child of highest sequence. *)
Definition later_child (a b : TradingOrder) : TradingOrder :=
  if o_replacement_sequence a <? o_replacement_sequence b then b else a.

Definition replacement_child (parent : string) (db : DB) : option TradingOrder :=
  foldr (fun o best =>
           if bool_decide (o_parent_order_id o = Some parent)
           then Some (match best with None => o | Some b => later_child o b end)
           else best) None (rows (orders db)).

(** ** Handlers *)

Section Paper.
Context (sha256 : string -> string).

Definition _canonical_hash (payload : json) : string := sha256 (dumps payload).

Definition _request_hash (request : PaperOrderRequest) (trading_date : Z) : option string :=
  price ← (match rq_limit_price request with
           | None => Some JNull
           | Some p => JStr <$> _price_text p
           end);
  Some (_canonical_hash (JObj
    [("account_alias", JStr (rq_account_alias request));
     ("action", JStr (rq_action request));
     ("limit_price", price);
     ("market", JStr (rq_market request));
     ("order_type", JStr (rq_order_type request));
     ("quantity", JInt (rq_quantity request));
     ("side", JStr (rq_side request));
     ("symbol", JStr (rq_symbol request));
     ("trading_date", JStr (iso_date trading_date))])).

Definition _event (order : TradingOrder) (event_type : string)
  (source_key : option string) (payload : json) (occurred_at : option Z) : prog unit :=
  key ← (match source_key with
         | Some k => if String.eqb k EmptyString then uuid7 else mret k
         | None => uuid7
         end);
  at_ ← (match occurred_at with Some t => mret t | None => utcnow end);
  modify (add_order_event
    (mkOrderEvent (o_id order) event_type "PAPER" key (_canonical_hash payload) payload
       (o_correlation_id order) at_)).

(** The order row after a status change, which every change of status in
    this module goes through. *)
Definition with_status (order : TradingOrder) (status : OrderStatus) : TradingOrder :=
  set_o_version (set_o_status order status) (o_version order + 1).

Definition _set_status (order : TradingOrder) (status : OrderStatus) : prog TradingOrder :=
  let order' := with_status order status in
  modify (put_order_row order') ;;
  _event order' "STATUS_CHANGED" None
    (JObj [("from", JStr (status_text (o_status order))); ("to", JStr (status_text status))])
    None ;;
  mret order'.

Definition set_paper_gate (status : GateStatus) (reason : string) : prog unit :=
  gate ← gets (fun db => gates db !! "PAPER");
  modify (fun db => set_gates db
    (<["PAPER" := match gate with
                  | None => mkTradingGate "PAPER" "MOCK" status (Some reason) 1
                  | Some g => set_g_version (set_g_reason (set_g_status g status) (Some reason))
                                (g_version g + 1)
                  end]> (gates db))) ;;
  commit.

Definition _validate_request (request : PaperOrderRequest) (settings : Settings) : prog unit :=
  guard_or (String.eqb (upper (environment settings)) "MOCK" &&
            negb (live_trading_enabled settings))
    (PaperBrokerError "PAPER_ENVIRONMENT_REQUIRED") ;;
  guard_or (String.eqb (rq_account_alias request) "PAPER")
    (PaperBrokerError "PAPER_ACCOUNT_REQUIRED") ;;
  guard_or (String.eqb (rq_market request) "KRX") (PaperBrokerError "UNSUPPORTED_IN_MOCK") ;;
  guard_or (bool_decide (is_Some (side_of (rq_side request))))
    (PaperBrokerError "INVALID_ORDER_SIDE") ;;
  guard_or (bool_decide (is_Some (order_type_of (rq_order_type request))))
    (PaperBrokerError "INVALID_ORDER_TYPE") ;;
  guard_or (0 <? rq_quantity request) (PaperBrokerError "INVALID_ORDER_QUANTITY") ;;
  guard_or (digits_of_length 6 (rq_symbol request)) (PaperBrokerError "INVALID_SYMBOL") ;;
  guard_or (negb (String.eqb (rq_idempotency_key request) EmptyString) &&
            Nat.leb (String.length (rq_idempotency_key request)) 128)
    (PaperBrokerError "INVALID_IDEMPOTENCY_KEY") ;;
  guard_or (negb (String.eqb (rq_order_type request) "LIMIT") ||
            match rq_limit_price request with Some p => dltb dzero p | None => false end)
    (PaperBrokerError "INVALID_LIMIT_PRICE") ;;
  guard_or (negb (String.eqb (rq_order_type request) "MARKET") ||
            match rq_limit_price request with Some _ => false | None => true end)
    (PaperBrokerError "MARKET_PRICE_NOT_ALLOWED") ;;
  gate ← gets (fun db => gates db !! rq_account_alias request);
  guard_or (match gate with Some g => bool_decide (g_status g = GATE_READY) | None => false end)
    (PaperBrokerError "TRADING_GATE_CLOSED") ;;
  locked ← gets (symbol_order_in ACTIVE_SYMBOL_LOCK_STATES
                   (rq_account_alias request) (rq_symbol request));
  guard_or (negb locked) (PaperBrokerError "SYMBOL_RECONCILIATION_REQUIRED") ;;
  if String.eqb (rq_side request) "SELL" then
    position ← gets (position_of (rq_account_alias request) (rq_symbol request));
    reserved ← gets (reserved_sell_quantity ACTIVE_SELL_STATES
                       (rq_account_alias request) (rq_symbol request));
    guard_or (match position with
              | Some p => rq_quantity request <=? p_quantity p - reserved
              | None => false
              end) (PaperBrokerError "INSUFFICIENT_POSITION")
  else mret tt.

Definition _submit (order : TradingOrder) (response_lost : bool) : prog TradingOrder :=
  order ← _set_status order VALIDATING;
  order ← _set_status order SUBMITTING;
  if (response_lost : bool) then _set_status order UNKNOWN
  else
    broker ← uuid7;
    order ← _set_status (set_o_broker_order_id order (Some ("PAPER-" +:+ broker))) ACKNOWLEDGED;
    _set_status order OPEN.

(** [race]: the order rows other sessions commit while this one runs. *)
Definition create_paper_order (request : PaperOrderRequest) (settings : Settings)
  (race : list TradingOrder) (response_lost : bool) : prog TradingOrder :=
  now ← utcnow;
  let trading_date := match rq_trading_date request with
                      | Some d => d | None => kst_date now end in
  fingerprint ← or_raise (_request_hash request trading_date) InvalidOperation;
  existing ← gets (order_by_key (rq_idempotency_key request));
  match existing with
  | Some existing =>
      guard_or (String.eqb (o_request_hash existing) fingerprint)
        (PaperBrokerConflict "IDEMPOTENCY_CONFLICT") ;;
      mret existing
  | None =>
      _validate_request request settings ;;
      side ← or_raise (side_of (rq_side request)) IntegrityError;
      order_type ← or_raise (order_type_of (rq_order_type request)) IntegrityError;
      intent_id ← uuid7;
      group_id ← uuid7;
      modify (fun db => set_intents db
        (<[intent_id := mkOrderIntent intent_id group_id (rq_account_alias request) "MOCK"
             (rq_symbol request) (rq_market request) side (rq_action request)
             (rq_quantity request) (rq_correlation_id request)]> (intents db))) ;;
      order_id ← uuid7;
      let order :=
        mkTradingOrder order_id intent_id group_id None (rq_account_alias request) "MOCK"
          (rq_symbol request) (rq_market request) side order_type (rq_limit_price request)
          (rq_quantity request) 0 0 (rq_quantity request) CREATED
          (rq_idempotency_key request) fingerprint None 0 POLICY_NONE 0 0 0 None
          trading_date (rq_correlation_id request) 1 now in
      raced ← try_except (flush_order race order ;; mret None) (fun e =>
        match e with
        | IntegrityError => Some (
            rollback ;;
            raced ← gets (order_by_key (rq_idempotency_key request));
            match raced with
            | Some raced =>
                guard_or (String.eqb (o_request_hash raced) fingerprint)
                  (PaperBrokerConflict "IDEMPOTENCY_CONFLICT") ;;
                mret (Some raced)
            | None => raise (PaperBrokerConflict "IDEMPOTENCY_CONFLICT")
            end)
        | _ => None
        end);
      match (raced : option TradingOrder) with
      | Some raced => mret raced
      | None =>
          _event order "ORDER_CREATED" None (JObj [("status", JStr "CREATED")]) None ;;
          order ← _submit order response_lost;
          commit ;;
          mret order
      end
  end.

Definition _position_snapshot (p : Position) : json :=
  JObj [("average_price", JStr (str_text (p_average_price p)));
        ("managed_average_price", JStr (str_text (p_managed_average_price p)));
        ("quantity", JInt (p_quantity p));
        ("available_quantity", JInt (p_available_quantity p));
        ("managed_quantity", JInt (p_managed_quantity p));
        ("state", JStr (position_state_text (p_state p)));
        ("origin", JStr (origin_text (p_origin p)));
        ("version", JInt (p_version p))].

Definition _apply_position (order : TradingOrder) (fill : Fill) : prog unit :=
  found ← gets (position_of (o_account_alias order) (o_symbol order));
  position ← (match found with
              | Some p => mret p
              | None =>
                  guard_or (bool_decide (o_side order <> SELL))
                    (PaperBrokerError "INSUFFICIENT_POSITION") ;;
                  id ← uuid7;
                  let p := new_position id (o_account_alias order) (o_symbol order) in
                  free ← gets (fun db => bool_decide (positions db !! id = None));
                  guard_or free IntegrityError ;;
                  modify (put_position_row p) ;;
                  mret p
              end);
  match position_after_fill position (o_side order) (f_quantity fill) (f_price fill) with
  | inl e => raise e
  | inr after_ =>
      modify (put_position_row after_) ;;
      modify (add_position_event
        (mkPositionEvent (p_id position) "FILL" (f_id fill)
           (_position_snapshot position) (_position_snapshot after_)
           (o_correlation_id order)))
  end.

Definition _adjust_replacement_child_for_late_fill (original : TradingOrder)
  (late_fill_quantity : Z) : prog unit :=
  found ← gets (replacement_child (o_id original));
  match found with
  | None => mret tt
  | Some child =>
      let '(absorbed, child, status) := child_after child late_fill_quantity in
      child ← _set_status child status;
      _event child "PARENT_LATE_FILL_ADJUSTED" None
        (JObj [("absorbed_quantity", JInt absorbed);
               ("late_fill_quantity", JInt late_fill_quantity);
               ("parent_order_id", JStr (o_id original))]) None
  end.

(** The checks of [apply_paper_fill] on a fill that is not a duplicate. *)
Definition check_fill (order : TradingOrder) (quantity : Z) (price fee tax : decimal) : prog unit :=
  guard_or ((0 <? quantity) && dltb dzero price) (PaperBrokerError "INVALID_FILL") ;;
  guard_or (dleb dzero fee && dleb dzero tax) (PaperBrokerError "INVALID_FILL_COST") ;;
  guard_or (quantity <=? o_remaining_quantity order + o_cancelled_quantity order)
    (PaperBrokerError "FILL_QUANTITY_EXCEEDED") ;;
  if bool_decide (o_side order = SELL) then
    position ← gets (position_of (o_account_alias order) (o_symbol order));
    guard_or (match position with Some p => quantity <=? p_quantity p | None => false end)
      (PaperBrokerError "INSUFFICIENT_POSITION")
  else mret tt.

Definition quantum_price (d : decimal) : prog decimal :=
  or_raise (quantize ROUND_HALF_EVEN PRICE_QUANTUM d) InvalidOperation.

(** [apply_paper_fill] from the flushed fill on: the order's quantities, the
    replacement child, the position, the status and the event. *)
Definition book_fill (order : TradingOrder) (fill : Fill) : prog (TradingOrder * bool) :=
  let previous_status := o_status order in
  let order := order_after_fill order (f_quantity fill) in
  modify (put_order_row order) ;;
  (if bool_decide (previous_status = REPLACED)
   then _adjust_replacement_child_for_late_fill order (f_quantity fill) else mret tt) ;;
  _apply_position order fill ;;
  order ← _set_status order (status_after_fill previous_status order);
  _event order "FILL_APPLIED" (Some ("fill:" +:+ f_broker_fill_key fill))
    (JObj [("fill_id", JStr (f_id fill)); ("price", JStr (str_text (f_price fill)));
           ("quantity", JInt (f_quantity fill))]) (Some (f_filled_at fill)) ;;
  commit ;;
  mret (order, true).

Definition apply_paper_fill (order_id source_key : string) (quantity : Z)
  (price fee tax : decimal) (filled_at : option Z) : prog (TradingOrder * bool) :=
  duplicate ← gets (fill_by_key source_key);
  match duplicate with
  | Some d =>
      guard_or (String.eqb (f_order_id d) order_id && (f_quantity d =? quantity))
        (PaperBrokerConflict "FILL_SOURCE_CONFLICT") ;;
      price_q ← quantum_price price;
      guard_or (deqb (f_price d) price_q) (PaperBrokerConflict "FILL_SOURCE_CONFLICT") ;;
      found ← gets (fun db => orders db !! f_order_id d);
      order ← or_raise found (PaperBrokerError "ORDER_NOT_FOUND");
      mret (order, false)
  | None =>
      found ← gets (fun db => orders db !! order_id);
      order ← or_raise found (PaperBrokerError "ORDER_NOT_FOUND");
      check_fill order quantity price fee tax ;;
      price_q ← quantum_price price;
      fee_q ← quantum_price fee;
      tax_q ← quantum_price tax;
      now ← utcnow;
      fill_id ← uuid7;
      free ← gets (fun db => bool_decide (fills db !! fill_id = None));
      let at_ := match filled_at with Some t => t | None => now end in
      let fill := mkFill fill_id (o_id order) source_key quantity price_q fee_q tax_q at_ in
      guard_or (free && dltb dzero price_q) IntegrityError ;;
      modify (fun db => set_fills db (<[fill_id := fill]> (fills db))) ;;
      book_fill order fill
  end.

Definition locked_order (order_id : string) : prog TradingOrder :=
  found ← gets (fun db => orders db !! order_id);
  or_raise found (PaperBrokerError "ORDER_NOT_FOUND").

Definition request_paper_cancel (order_id : string) : prog TradingOrder :=
  order ← locked_order order_id;
  guard_or (status_in [OPEN; PARTIALLY_FILLED] (o_status order))
    (PaperBrokerConflict "INVALID_ORDER_TRANSITION") ;;
  order ← _set_status order CANCEL_PENDING;
  commit ;;
  mret order.

Definition confirm_paper_cancel (order_id : string) : prog TradingOrder :=
  order ← locked_order order_id;
  if bool_decide (o_status order = FILLED) then mret order
  else
    guard_or (bool_decide (o_status order = CANCEL_PENDING))
      (PaperBrokerConflict "INVALID_ORDER_TRANSITION") ;;
    let order := set_o_cancelled_quantity order
                   (o_cancelled_quantity order + o_remaining_quantity order) in
    order ← _set_status (set_o_remaining_quantity order 0) CANCELLED;
    commit ;;
    mret order.

Definition request_paper_replace (order_id : string) : prog TradingOrder :=
  order ← locked_order order_id;
  guard_or (status_in [OPEN; PARTIALLY_FILLED] (o_status order))
    (PaperBrokerConflict "INVALID_ORDER_TRANSITION") ;;
  order ← _set_status order REPLACE_PENDING;
  commit ;;
  mret order.

Definition replace_hash (parent : string) (price : string) (quantity : Z) : string :=
  _canonical_hash (JObj [("parent_order_id", JStr parent); ("price", JStr price);
                         ("quantity", JInt quantity)]).

Definition replacement_of (original : TradingOrder) (id key hash : string)
  (price : decimal) (quantity now : Z) : TradingOrder :=
  mkTradingOrder id (o_intent_id original) (o_order_group_id original) (Some (o_id original))
    (o_account_alias original) (o_environment original) (o_symbol original)
    (o_market original) (o_side original) LIMIT (Some price) quantity 0 0 quantity CREATED
    key hash None (o_replacement_sequence original + 1) POLICY_NONE 0 0 0 None
    (o_trading_date original) (o_correlation_id original) 1 now.

Definition replace_paper_order (order_id : string) (new_limit_price : decimal)
  (idempotency_key : string) (race : list TradingOrder) : prog TradingOrder :=
  existing ← gets (order_by_key idempotency_key);
  match existing with
  | Some existing =>
      price ← or_raise (_price_text new_limit_price) InvalidOperation;
      guard_or (String.eqb (o_request_hash existing)
                  (replace_hash order_id price (o_requested_quantity existing)))
        (PaperBrokerConflict "IDEMPOTENCY_CONFLICT") ;;
      mret existing
  | None =>
      original ← locked_order order_id;
      price ← or_raise (_price_text new_limit_price) InvalidOperation;
      let fingerprint := replace_hash (o_id original) price (o_remaining_quantity original) in
      guard_or (bool_decide (o_status original <> FILLED))
        (PaperBrokerConflict "ORDER_ALREADY_FILLED") ;;
      guard_or (bool_decide (o_status original = REPLACE_PENDING) &&
                (0 <? o_remaining_quantity original))
        (PaperBrokerConflict "INVALID_ORDER_TRANSITION") ;;
      guard_or (dltb dzero new_limit_price) (PaperBrokerError "INVALID_LIMIT_PRICE") ;;
      let quantity := o_remaining_quantity original in
      let original := set_o_cancelled_quantity original
                        (o_cancelled_quantity original + quantity) in
      original ← _set_status (set_o_remaining_quantity original 0) REPLACED;
      id ← uuid7;
      now ← utcnow;
      let replacement := replacement_of original id idempotency_key fingerprint
                           new_limit_price quantity now in
      flush_order race replacement ;;
      _event replacement "ORDER_CREATED" None
        (JObj [("parent_order_id", JStr (o_id original))]) None ;;
      replacement ← _submit replacement false;
      commit ;;
      mret replacement
  end.
End Paper.
