(* ===== verification/PaperLedger.v ===== *)
(** * Correctness of the paper broker

    The ledger invariant (quantities add up, every order's filled quantity is
    the sum of its fills, every position is the signed sum of its fills) and
    its preservation by every operation, atomicity of failures, idempotency of
    creation and fills, bounds of the average price and late-fill absorption. *)

From Stdlib Require Import ZArith Lia.
From stdpp Require Import base numbers strings list gmap relations.
From S2P Require Import Prelude Decimal Json PyTime Models Session PaperBroker.

Open Scope Z_scope.

(** ** The invariant *)

(** The quantity filled for an order, and the signed quantity a fill moves in
    the position of an account and symbol. *)
Definition fills_of (oid : string) (fs : gmap string Fill) : Z :=
  msum (fun f => if String.eqb (f_order_id f) oid then f_quantity f else 0) fs.

Definition in_position (account symbol : string) (o : TradingOrder) : bool :=
  String.eqb (o_account_alias o) account && String.eqb (o_symbol o) symbol.

Definition signed_fill (os : gmap string TradingOrder) (account symbol : string) (f : Fill) : Z :=
  match os !! f_order_id f with
  | Some o => if in_position account symbol o
              then match o_side o with BUY => f_quantity f | SELL => - f_quantity f end
              else 0
  | None => 0
  end.

Definition is_position (account symbol : string) (p : Position) : bool :=
  String.eqb (p_account_alias p) account && String.eqb (p_symbol p) symbol.

Definition held (account symbol : string) (ps : gmap string Position) : Z :=
  msum (fun p => if is_position account symbol p then p_quantity p else 0) ps.

(** The check constraints of a position, and a non-negative average price. *)
Definition position_inv (p : Position) : Prop := position_ok p /\ nonneg (p_average_price p).

(** An order marked FILLED is filled entirely. *)
Definition done_ok (o : TradingOrder) : Prop :=
  o_status o = FILLED -> o_filled_quantity o = o_requested_quantity o.

Record ledger_inv (os : gmap string TradingOrder) (fs : gmap string Fill)
  (ps : gmap string Position) : Prop := {
  inv_order : forall k o, os !! k = Some o -> o_id o = k /\ order_ok o;
  inv_fill : forall k f, fs !! k = Some f ->
    f_id f = k /\ fill_ok f /\ is_Some (os !! f_order_id f);
  inv_filled : forall k o, os !! k = Some o -> o_filled_quantity o = fills_of k fs;
  inv_position : forall k p, ps !! k = Some p -> p_id p = k /\ position_inv p;
  inv_unique : forall k1 k2 p1 p2, ps !! k1 = Some p1 -> ps !! k2 = Some p2 ->
    p_account_alias p1 = p_account_alias p2 -> p_symbol p1 = p_symbol p2 -> k1 = k2;
  inv_held : forall a s, held a s ps = msum (signed_fill os a s) fs;
  inv_keys : forall k1 k2 o1 o2, os !! k1 = Some o1 -> os !! k2 = Some o2 ->
    o_idempotency_key o1 = o_idempotency_key o2 -> k1 = k2;
  inv_parent : forall k o, os !! k = Some o -> o_parent_order_id o <> Some k;
  inv_done : forall k o, os !! k = Some o -> done_ok o
}.

Definition db_inv (db : DB) : Prop := ledger_inv (orders db) (fills db) (positions db).

(** Two rows of one order that agree on what the ledger counts. *)
Definition same_accounting (o o' : TradingOrder) : Prop :=
  o_id o' = o_id o /\ o_account_alias o' = o_account_alias o /\ o_symbol o' = o_symbol o /\
  o_side o' = o_side o /\ o_parent_order_id o' = o_parent_order_id o /\
  o_idempotency_key o' = o_idempotency_key o /\ o_request_hash o' = o_request_hash o /\
  o_requested_quantity o' = o_requested_quantity o.

Lemma same_accounting_refl o : same_accounting o o.
Proof. by repeat split. Qed.

Lemma same_accounting_trans a b c :
  same_accounting a b -> same_accounting b c -> same_accounting a c.
Proof. unfold same_accounting. intros (-> & -> & -> & -> & -> & -> & -> & ->). tauto. Qed.

Lemma signed_fill_update os id o o' a s f :
  os !! id = Some o -> same_accounting o o' ->
  signed_fill (<[id := o']> os) a s f = signed_fill os a s f.
Proof.
  intros Ho (_ & Ha & Hs & Hd & _). unfold signed_fill.
  destruct (decide (f_order_id f = id)) as [->|Hne].
  - rewrite lookup_insert_eq, Ho. unfold in_position. by rewrite Ha, Hs, Hd.
  - by rewrite lookup_insert_ne.
Qed.

Section Updates.
Context {os : gmap string TradingOrder} {fs : gmap string Fill} {ps : gmap string Position}.
Context (Inv : ledger_inv os fs ps).

(** A fill refers to an existing order, so a fresh order has none. *)
Lemma fills_of_fresh id : os !! id = None -> fills_of id fs = 0.
Proof.
  intros Hid. unfold fills_of. apply zsum_zero. intros f Hf.
  apply elem_of_rows in Hf as [k Hk].
  destruct (String.eqb_spec (f_order_id f) id) as [E|]; [|done].
  destruct (inv_fill _ _ _ Inv k f Hk) as (_ & _ & [o Ho]). congruence.
Qed.

Lemma inv_keys_insert id o o' :
  os !! id = Some o -> o_idempotency_key o' = o_idempotency_key o ->
  forall k1 k2 o1 o2, <[id := o']> os !! k1 = Some o1 -> <[id := o']> os !! k2 = Some o2 ->
  o_idempotency_key o1 = o_idempotency_key o2 -> k1 = k2.
Proof.
  intros Ho Hk k1 k2 o1 o2 H1 H2 E.
  assert (Hback : forall k x, <[id := o']> os !! k = Some x ->
    exists y, os !! k = Some y /\ o_idempotency_key y = o_idempotency_key x).
  { intros k x. rewrite lookup_insert. case_decide; intros; simplify_eq; eauto. }
  destruct (Hback _ _ H1) as [y1 [? ?]]. destruct (Hback _ _ H2) as [y2 [? ?]].
  eapply (inv_keys _ _ _ Inv); eauto. congruence.
Qed.

Lemma inv_parent_insert id o o' :
  os !! id = Some o -> o_parent_order_id o' = o_parent_order_id o ->
  forall k x, <[id := o']> os !! k = Some x -> o_parent_order_id x <> Some k.
Proof.
  intros Ho Hp k x. rewrite lookup_insert. case_decide; [|by apply (inv_parent _ _ _ Inv)].
  intros [= <-]. subst k. rewrite Hp. by apply (inv_parent _ _ _ Inv).
Qed.

Lemma inv_done_insert id o' :
  done_ok o' -> forall k x, <[id := o']> os !! k = Some x -> done_ok x.
Proof.
  intros Ho k x. rewrite lookup_insert. case_decide; [by intros [= <-]|].
  apply (inv_done _ _ _ Inv).
Qed.

(** An update that keeps the accounting and the filled quantity. *)
Lemma ledger_put_order id o o' :
  os !! id = Some o -> same_accounting o o' -> order_ok o' -> done_ok o' ->
  o_filled_quantity o' = o_filled_quantity o ->
  ledger_inv (<[id := o']> os) fs ps.
Proof.
  intros Ho Hsame Hok Hdone Hfilled. destruct Inv as [Io If Il Ip Iu Ih Ik Ir Id]. constructor.
  - intros k x. rewrite lookup_insert. case_decide as Ek; [|auto].
    intros [= <-]. subst k. split; [|done].
    destruct Hsame as [-> _]. by destruct (Io id o Ho).
  - intros k f Hf. destruct (If k f Hf) as (? & ? & [x Hx]). repeat split; auto;
      try by apply H0. rewrite lookup_insert. case_decide; eauto.
  - intros k x. rewrite lookup_insert. case_decide as Ek; [|auto].
    intros [= <-]. subst k. rewrite Hfilled. auto.
  - done.
  - done.
  - intros a s. rewrite Ih. apply msum_ext. intros k f _.
    symmetry. by apply signed_fill_update with o.
  - apply (inv_keys_insert _ o o' Ho). by apply Hsame.
  - apply (inv_parent_insert _ o o' Ho). by apply Hsame.
  - by apply (inv_done_insert _ o').
Qed.

(** A new order with nothing filled. *)
Lemma ledger_new_order o :
  os !! o_id o = None -> order_ok o -> done_ok o -> o_filled_quantity o = 0 ->
  o_parent_order_id o <> Some (o_id o) ->
  (forall k x, os !! k = Some x -> o_idempotency_key x <> o_idempotency_key o) ->
  ledger_inv (<[o_id o := o]> os) fs ps.
Proof.
  intros Hid Hok Hdone Hfilled Hpar Hkey. pose proof (fills_of_fresh _ Hid) as Hf0.
  destruct Inv as [Io If Il Ip Iu Ih Ik Ir Id]. constructor.
  - intros k x. rewrite lookup_insert. case_decide; intros; simplify_eq; auto.
  - intros k f Hf. destruct (If k f Hf) as (? & ? & [x Hx]). repeat split; auto;
      try by apply H0. rewrite lookup_insert. case_decide; eauto.
  - intros k x. rewrite lookup_insert. case_decide; intros; simplify_eq; auto. congruence.
  - done.
  - done.
  - intros a s. rewrite Ih. apply msum_ext. intros k f Hf. unfold signed_fill.
    destruct (If k f Hf) as (_ & _ & [x Hx]).
    rewrite lookup_insert_ne; [done|]. congruence.
  - intros k1 k2 o1 o2. rewrite !lookup_insert.
    repeat case_decide; intros; simplify_eq; eauto.
    + exfalso. eapply Hkey; eauto.
    + exfalso. eapply Hkey; eauto.
  - intros k x. rewrite lookup_insert. case_decide; intros; simplify_eq; auto.
  - by apply (inv_done_insert _ o).
Qed.

(** The quantity held after a position changed. *)
Lemma held_update pid p p' a s :
  ps !! pid = Some p -> p_account_alias p' = p_account_alias p -> p_symbol p' = p_symbol p ->
  held a s (<[pid := p']> ps) =
  held a s ps + (if is_position a s p then p_quantity p' - p_quantity p else 0).
Proof.
  intros Hp Ha Hs. unfold held. rewrite (msum_insert_old _ _ _ _ _ Hp).
  unfold is_position. rewrite Ha, Hs. destruct (_ && _); lia.
Qed.

Lemma held_new pid p a s :
  ps !! pid = None ->
  held a s (<[pid := p]> ps) = held a s ps + (if is_position a s p then p_quantity p else 0).
Proof. intros Hp. unfold held. rewrite msum_insert_fresh by done. lia. Qed.

(** The signed quantity the fill of order [o] moves. *)
Definition moved (o : TradingOrder) (q : Z) : Z :=
  match o_side o with BUY => q | SELL => - q end.

(** A fill recorded on its order and applied to its position. *)
Lemma ledger_fill fid f o o' (ps' : gmap string Position) :
  fs !! fid = None -> f_id f = fid -> fill_ok f ->
  os !! f_order_id f = Some o -> same_accounting o o' -> order_ok o' -> done_ok o' ->
  o_filled_quantity o' = o_filled_quantity o + f_quantity f ->
  (forall k p, ps' !! k = Some p -> p_id p = k /\ position_inv p) ->
  (forall k1 k2 p1 p2, ps' !! k1 = Some p1 -> ps' !! k2 = Some p2 ->
     p_account_alias p1 = p_account_alias p2 -> p_symbol p1 = p_symbol p2 -> k1 = k2) ->
  (forall a s, held a s ps' =
     held a s ps + (if in_position a s o then moved o (f_quantity f) else 0)) ->
  ledger_inv (<[f_order_id f := o']> os) (<[fid := f]> fs) ps'.
Proof.
  intros Hfid Hid Hfok Ho Hsame Hok Hdone Hfilled Hpos Huniq Hheld.
  destruct Inv as [Io If Il Ip Iu Ih Ik Ir Id]. constructor.
  - intros k x. rewrite lookup_insert. case_decide as Ek; [|auto].
    intros [= <-]. subst k. split; [|done].
    destruct Hsame as [-> _]. by destruct (Io _ o Ho).
  - intros k g. rewrite lookup_insert. case_decide as Ek.
    + intros [= <-]. subst k. split; [done|]. split; [done|]. rewrite lookup_insert_eq. eauto.
    + intros Hg. destruct (If k g Hg) as (? & ? & [x Hx]). split; [done|]. split; [done|].
      rewrite lookup_insert. case_decide; eauto.
  - intros k x. unfold fills_of. rewrite msum_insert_fresh by done. fold (fills_of k fs).
    rewrite lookup_insert. case_decide as Ek.
    + intros [= <-]. subst k. rewrite String.eqb_refl, Hfilled, (Il _ o Ho). lia.
    + intros Hx. destruct (String.eqb_spec (f_order_id f) k); [done|]. by rewrite (Il k x Hx).
  - done.
  - done.
  - intros a s. rewrite Hheld, Ih, msum_insert_fresh by done.
    rewrite (msum_ext (signed_fill (<[f_order_id f:=o']> os) a s) (signed_fill os a s))
      by (intros; by apply signed_fill_update with o).
    rewrite (signed_fill_update _ _ _ _ _ _ _ Ho Hsame).
    unfold signed_fill at 2. rewrite Ho. unfold moved. destruct (in_position a s o); lia.
  - apply (inv_keys_insert _ o o' Ho). by apply Hsame.
  - apply (inv_parent_insert _ o o' Ho). by apply Hsame.
  - by apply (inv_done_insert _ o').
Qed.
End Updates.

(** ** The pure accounting *)

Lemma with_status_accounting o st :
  same_accounting o (with_status o st) /\ (order_ok o -> order_ok (with_status o st)) /\
  o_filled_quantity (with_status o st) = o_filled_quantity o.
Proof. split_and!; [by repeat split|done|done]. Qed.

Lemma order_after_fill_spec o q :
  order_ok o -> 0 < q -> q <= o_remaining_quantity o + o_cancelled_quantity o ->
  same_accounting o (order_after_fill o q) /\ order_ok (order_after_fill o q) /\
  o_filled_quantity (order_after_fill o q) = o_filled_quantity o + q.
Proof.
  unfold order_ok. intros Hok Hq Hle. split; [by repeat split|]. split; [|done].
  unfold order_after_fill. cbn [o_requested_quantity o_filled_quantity o_cancelled_quantity
    o_remaining_quantity set_o_remaining_quantity set_o_cancelled_quantity set_o_filled_quantity].
  lia.
Qed.

Lemma child_after_spec c q absorbed c' st :
  order_ok c -> 0 < q -> child_after c q = (absorbed, c', st) ->
  same_accounting c c' /\ order_ok c' /\ o_filled_quantity c' = o_filled_quantity c /\
  absorbed = Z.min q (o_remaining_quantity c) /\
  o_remaining_quantity c' = o_remaining_quantity c - absorbed /\
  (absorbed < q -> st = RECONCILING) /\ done_ok (with_status c' st).
Proof.
  unfold child_after. cbv zeta. intros Hok Hq [= <- <- <-].
  split; [by repeat split|]. unfold order_ok in *.
  cbn [o_requested_quantity o_filled_quantity o_cancelled_quantity
    o_remaining_quantity set_o_remaining_quantity set_o_cancelled_quantity].
  split_and!; try lia.
  - intros Hlt. apply Z.ltb_lt in Hlt. by rewrite Hlt.
  - unfold done_ok. simpl. repeat case_match; try done. bool_to_prop. lia.
Qed.

Lemma average_after_buy_spec p q price q' avg :
  position_inv p -> 0 < q -> 0 < coef price ->
  average_after_buy p q price = inr (q', avg) -> q' = p_quantity p + q /\ nonneg avg.
Proof.
  intros [Hp Havg] Hq Hprice. unfold average_after_buy. cbv zeta. intros H.
  destruct (ddiv _ _) as [a|] eqn:E; [|done].
  destruct (quantize _ _ _) as [b|] eqn:E'; [|done]. injection H as <- <-.
  split; [done|]. destruct Hp as [Hq0 _].
  eapply quantize_nonneg; [|exact E']. eapply ddiv_nonneg; [| |exact E].
  - apply dadd_nonneg; apply dmul_nonneg; unfold nonneg in *; simpl; lia.
  - apply of_int_nonneg. lia.
Qed.

Lemma position_after_fill_spec p side q price p' :
  position_inv p -> 0 < q -> 0 < coef price ->
  position_after_fill p side q price = inr p' ->
  p_id p' = p_id p /\ p_account_alias p' = p_account_alias p /\ p_symbol p' = p_symbol p /\
  position_inv p' /\
  p_quantity p' = p_quantity p + match side with BUY => q | SELL => - q end.
Proof.
  intros Hp Hq Hprice. unfold position_after_fill. intros H.
  assert (Hcore : exists q' avg, 0 <= q' /\ nonneg avg /\
    q' = p_quantity p + match side with BUY => q | SELL => - q end /\
    p' = mkPosition (p_id p) (p_account_alias p) (p_symbol p) q' q' q' avg avg
           (if q' =? 0 then POS_CLOSED else POS_OPEN) CRESTA_MANAGED (p_version p + 1)).
  { destruct side.
    - destruct (average_after_buy p q price) as [|[q' avg]] eqn:E; [done|].
      destruct (average_after_buy_spec _ _ _ _ _ Hp Hq Hprice E) as [-> Havg].
      destruct Hp as [[? _] _]. exists (p_quantity p + q), avg. split_and!; [lia|done|done|congruence].
    - unfold average_after_sell in H. destruct (Z.ltb_spec (p_quantity p) q); [done|].
      cbv zeta in H. injection H as <-. exists (p_quantity p - q). eexists.
      split_and!; [lia| |lia|done]. destruct Hp as [_ Havg].
      destruct (_ =? 0); [unfold nonneg; simpl; lia|done]. }
  destruct Hcore as (q' & avg & Hq' & Havg & E & ->). simpl.
  split_and!; try done. split; [|done].
  unfold position_ok, origin_matches. simpl. split_and!; try lia; [done|].
  destruct (Z.eqb_spec q' 0); [left; done|right; lia].
Qed.

(** ** Symbolic execution of the handlers *)

(** The tables of the ledger in the working copy. *)
Definition at_ledger (s : Sess) (os : gmap string TradingOrder) (fs : gmap string Fill)
  (ps : gmap string Position) : Prop :=
  orders (work s) = os /\ fills (work s) = fs /\ positions (work s) = ps.

(** What the events of a handler leave alone. *)
Definition same_frame (s s' : Sess) : Prop :=
  disk s' = disk s /\ clock s' = clock s /\ uuids s' = uuids s /\
  gates (work s') = gates (work s).

Lemma same_frame_refl s : same_frame s s.
Proof. by repeat split. Qed.

Lemma same_frame_trans s1 s2 s3 : same_frame s1 s2 -> same_frame s2 s3 -> same_frame s1 s3.
Proof. unfold same_frame. intros (-> & -> & -> & ->). done. Qed.

#[export] Hint Resolve same_frame_refl : cresta.

Section Exec.
Context (sha256 : string -> string).

Abbreviation _event := (PaperBroker._event sha256).
Abbreviation _set_status := (PaperBroker._set_status sha256).
Abbreviation _submit := (PaperBroker._submit sha256).

Lemma event_spec o ty key payload at_ Q s :
  (forall s', at_ledger s' (orders (work s)) (fills (work s)) (positions (work s)) ->
     same_frame s s' -> Q s' (inl tt)) ->
  wp (_event o ty key payload at_) Q s.
Proof.
  intros HQ. unfold PaperBroker._event.
  destruct key as [k|]; [destruct (String.eqb k EmptyString)|];
    destruct at_; repeat wp_step; apply HQ; by repeat split.
Qed.

Lemma set_status_spec o st Q s :
  (forall s', at_ledger s' (<[o_id o := with_status o st]> (orders (work s)))
                (fills (work s)) (positions (work s)) ->
     same_frame s s' -> Q s' (inl (with_status o st))) ->
  wp (_set_status o st) Q s.
Proof.
  intros HQ. unfold PaperBroker._set_status. repeat wp_step.
  apply event_spec. intros s' (Ho & Hf & Hp) Hfr. repeat wp_step.
  apply HQ; [|done]. repeat split; done.
Qed.

(** Submission rewrites one row any number of times; only the last one stays. *)
Lemma submit_spec o (lost : bool) Q s :
  (forall s' o', same_accounting o o' -> (order_ok o -> order_ok o') ->
     o_status o' = (if lost then UNKNOWN else OPEN) ->
     o_filled_quantity o' = o_filled_quantity o ->
     o_remaining_quantity o' = o_remaining_quantity o -> 
     at_ledger s' (<[o_id o := o']> (orders (work s))) (fills (work s)) (positions (work s)) ->
     same_frame s s' -> Q s' (inl o')) ->
  wp (_submit o lost) Q s.
Proof.
  intros HQ. unfold PaperBroker._submit.
  wp_step. apply set_status_spec. intros s1 (H1 & F1 & P1) R1. repeat wp_step.
  apply set_status_spec. intros s2 (H2 & F2 & P2) R2. wp_step. wp_step.
  - apply set_status_spec. intros s3 (H3 & F3 & P3) R3.
    apply HQ; try done; [|by eauto using same_frame_trans].
    split_and!; [|congruence..]. rewrite H3, H2, H1. simpl. by rewrite !insert_insert_eq.
  - repeat wp_step. apply set_status_spec. intros s3 (H3 & F3 & P3) R3. wp_step.
    apply set_status_spec. intros s4 (H4 & F4 & P4) R4.
    apply HQ; try done; [|by eauto using same_frame_trans].
    split_and!; [|simpl in *; congruence..].
    rewrite H4, H3. simpl. rewrite H2, H1. simpl. by rewrite !insert_insert_eq.
Qed.

(** The positions table before and after a fill of order [o]. *)
Definition positions_moved (ps ps' : gmap string Position) (o : TradingOrder) (q : Z) : Prop :=
  (forall k p, ps' !! k = Some p -> p_id p = k /\ position_inv p) /\
  (forall k1 k2 p1 p2, ps' !! k1 = Some p1 -> ps' !! k2 = Some p2 ->
     p_account_alias p1 = p_account_alias p2 -> p_symbol p1 = p_symbol p2 -> k1 = k2) /\
  (forall a s, held a s ps' = held a s ps + (if in_position a s o then moved o q else 0)).

Lemma position_of_Some a y db p :
  position_of a y db = Some p ->
  p_account_alias p = a /\ p_symbol p = y /\ exists k, positions db !! k = Some p.
Proof.
  intros H. apply find_row_Some in H as [Hf Hk]. bool_to_prop.
  by rewrite !String.eqb_eq in *.
Qed.

Lemma is_position_moved a s p o :
  p_account_alias p = o_account_alias o -> p_symbol p = o_symbol o ->
  is_position a s p = in_position a s o.
Proof. unfold is_position, in_position. by intros -> ->. Qed.

(** A position replaced by its image under a fill. *)
Lemma positions_moved_update ps o q price pid p p' :
  (forall k x, ps !! k = Some x -> p_id x = k /\ position_inv x) ->
  (forall k1 k2 p1 p2, ps !! k1 = Some p1 -> ps !! k2 = Some p2 ->
     p_account_alias p1 = p_account_alias p2 -> p_symbol p1 = p_symbol p2 -> k1 = k2) ->
  ps !! pid = Some p -> p_account_alias p = o_account_alias o -> p_symbol p = o_symbol o ->
  0 < q -> 0 < coef price ->
  position_after_fill p (o_side o) q price = inr p' ->
  positions_moved ps (<[p_id p' := p']> ps) o q.
Proof.
  intros Hinv Huniq Hp Ha Hy Hq Hprice E.
  destruct (Hinv _ _ Hp) as [Hid Hpi].
  destruct (position_after_fill_spec _ _ _ _ _ Hpi Hq Hprice E) as (Eid & Ea & Ey & Hpi' & Eq).
  assert (Hback : forall k x, <[p_id p' := p']> ps !! k = Some x -> exists y,
    ps !! k = Some y /\ p_account_alias y = p_account_alias x /\ p_symbol y = p_symbol x).
  { intros k x. rewrite Eid, Hid, lookup_insert. case_decide as Ek; intros; simplify_eq; eauto. }
  split_and!.
  - intros k x. rewrite lookup_insert. case_decide; intros; simplify_eq; auto.
  - intros k1 k2 p1 p2 H1 H2 E1 E2.
    destruct (Hback _ _ H1) as (y1 & ? & ? & ?). destruct (Hback _ _ H2) as (y2 & ? & ? & ?).
    eapply Huniq; eauto; congruence.
  - intros a s. rewrite Eid, Hid. rewrite (held_update _ _ _ _ _ Hp Ea Ey).
    rewrite (is_position_moved _ _ _ _ Ha Hy). rewrite Eq. unfold moved.
    destruct (in_position a s o), (o_side o); lia.
Qed.

(** The freshly flushed row holds nothing. *)
Lemma new_position_inv id a y : position_inv (new_position id a y).
Proof.
  split; [|unfold nonneg; simpl; lia].
  unfold position_ok, origin_matches. simpl. split_and!; try lia. by left.
Qed.

(** The first buy of a symbol: a new row, immediately updated. *)
Lemma positions_moved_new ps o q price pid p' :
  (forall k x, ps !! k = Some x -> p_id x = k /\ position_inv x) ->
  (forall k1 k2 p1 p2, ps !! k1 = Some p1 -> ps !! k2 = Some p2 ->
     p_account_alias p1 = p_account_alias p2 -> p_symbol p1 = p_symbol p2 -> k1 = k2) ->
  ps !! pid = None ->
  (forall k x, ps !! k = Some x ->
     is_position (o_account_alias o) (o_symbol o) x = false) ->
  0 < q -> 0 < coef price ->
  position_after_fill (new_position pid (o_account_alias o) (o_symbol o)) (o_side o) q price
    = inr p' ->
  positions_moved ps
    (<[p_id p' := p']> (<[pid := new_position pid (o_account_alias o) (o_symbol o)]> ps)) o q.
Proof.
  intros Hinv Huniq Hfree Hother Hq Hprice E.
  set (np := new_position pid (o_account_alias o) (o_symbol o)) in *.
  assert (Hne : forall k x, ps !! k = Some x -> ~ (p_account_alias np = p_account_alias x /\
    p_symbol np = p_symbol x)).
  { intros k x Hx [E1 E2]. specialize (Hother k x Hx). simpl in E1, E2.
    unfold is_position in Hother. rewrite E1, E2, !String.eqb_refl in Hother. done. }
  destruct (positions_moved_update (<[pid := np]> ps) o q price pid np p') as (H1 & H2 & H3);
    [..|done|done|done|done|done|].
  - intros k x. rewrite lookup_insert. case_decide; intros; simplify_eq; auto.
    split; [done|apply new_position_inv].
  - intros k1 k2 p1 p2. rewrite !lookup_insert. repeat case_decide; intros; simplify_eq; eauto.
    + exfalso. by eapply Hne.
    + exfalso. eapply Hne; [|split; symmetry]; eauto.
  - apply lookup_insert_eq.
  - split_and!; [exact H1|exact H2|]. intros a s. rewrite H3.
    rewrite held_new by done. simpl. destruct (is_position _ _ _); lia.
Qed.

Lemma apply_position_spec o f Q s :
  (forall k x, positions (work s) !! k = Some x -> p_id x = k /\ position_inv x) ->
  (forall k1 k2 p1 p2, positions (work s) !! k1 = Some p1 -> positions (work s) !! k2 = Some p2 ->
     p_account_alias p1 = p_account_alias p2 -> p_symbol p1 = p_symbol p2 -> k1 = k2) ->
  0 < f_quantity f -> 0 < coef (f_price f) ->
  (forall s' ps', positions_moved (positions (work s)) ps' o (f_quantity f) ->
     at_ledger s' (orders (work s)) (fills (work s)) ps' -> same_frame s s' -> Q s' (inl tt)) ->
  (forall s' e, disk s' = disk s -> Q s' (inr e)) ->
  wp (_apply_position o f) Q s.
Proof.
  intros Hinv Huniq Hq Hprice HQ He. unfold _apply_position. wp_step. wp_step.
  destruct (position_of _ _ _) as [p|] eqn:Ep; repeat wp_step; simpl; try (by apply He).
  - destruct (position_of_Some _ _ _ _ Ep) as (Ha & Hy & [pid Hp]).
    eapply HQ; [|by repeat split|by repeat split]. simpl.
    by eapply positions_moved_update.
  - bool_to_prop. eapply HQ; [|by repeat split|by repeat split]. simpl.
    eapply positions_moved_new; try done.
    intros k x Hx. by eapply find_row_None in Ep.
Qed.

Lemma replacement_child_Some parent db c :
  replacement_child parent db = Some c ->
  o_parent_order_id c = Some parent /\ exists k, orders db !! k = Some c.
Proof.
  unfold replacement_child. intros H.
  assert (Hg : forall l b, foldr (fun o best =>
     if bool_decide (o_parent_order_id o = Some parent)
     then Some (match best with None => o | Some b => later_child o b end)
     else best) None l = Some b -> o_parent_order_id b = Some parent /\ b ∈ l).
  { induction l as [|x l IH]; intros b; simpl; [done|]. case_bool_decide as Ex.
    - destruct (foldr _ _ l) as [y|].
      + destruct (IH y eq_refl). unfold later_child.
        destruct (_ <? _); intros [= <-]; split; auto using list_elem_of_here, list_elem_of_further.
      + intros [= <-]. split; [done|apply list_elem_of_here].
    - intros Hb. destruct (IH b Hb). auto using list_elem_of_further. }
  destruct (Hg _ _ H) as [? Hin]. split; [done|]. by apply elem_of_rows.
Qed.

Lemma replacement_child_None parent db k x :
  replacement_child parent db = None -> orders db !! k = Some x ->
  o_parent_order_id x <> Some parent.
Proof.
  unfold replacement_child. intros H Hx.
  assert (Hin : x ∈ rows (orders db)) by (apply elem_of_rows; eauto). revert H Hin.
  induction (rows (orders db)) as [|y l IH]; simpl; intros H Hin.
  - by apply not_elem_of_nil in Hin.
  - case_bool_decide; [done|]. apply elem_of_cons in Hin as [->|Hin]; auto.
Qed.

(** A late fill only touches the child's row, in a way the ledger ignores. *)
Definition child_adjusted (os os' : gmap string TradingOrder) (parent : string) (q : Z) : Prop :=
  exists k c absorbed c' st, os !! k = Some c /\ o_parent_order_id c = Some parent /\
    child_after c q = (absorbed, c', st) /\ os' = <[k := with_status c' st]> os.

Lemma adjust_child_spec o q Q s :
  (forall k x, orders (work s) !! k = Some x -> o_id x = k /\ order_ok x) ->
  (replacement_child (o_id o) (work s) = None -> Q s (inl tt)) ->
  (forall s' os', child_adjusted (orders (work s)) os' (o_id o) q ->
     at_ledger s' os' (fills (work s)) (positions (work s)) -> same_frame s s' -> Q s' (inl tt)) ->
  wp (_adjust_replacement_child_for_late_fill sha256 o q) Q s.
Proof.
  intros Hok Hnone HQ. unfold _adjust_replacement_child_for_late_fill. wp_step. wp_step.
  destruct (replacement_child _ _) as [c|] eqn:Ec; [|repeat wp_step; auto].
  destruct (replacement_child_Some _ _ _ Ec) as (Hpar & k & Hk).
  destruct (Hok _ _ Hk) as [Hid _]. simpl.
  destruct (child_after c q) as [[absorbed c'] st] eqn:Ea. 
  wp_step. apply set_status_spec. intros s1 (O1 & F1 & P1) R1. simpl.
  apply event_spec. intros s2 (O2 & F2 & P2) R2.
  apply (HQ s2 (orders (work s2))); [|by split_and!; congruence|by eauto using same_frame_trans].
  exists k, c, absorbed, c', st. split_and!; try done. rewrite O2, O1.
  unfold child_after in Ea. cbv zeta in Ea. injection Ea as <- <- <-. simpl. by rewrite Hid.
Qed.
End Exec.
