(* ===== verification/PaperExec.v ===== *)
(** * The paper broker run symbolically

    The operations of the broker as the steps of a transition system over the
    durable database, and for each operation the specification of every run:
    what a success stores and that a failure stores nothing. *)

From Stdlib Require Import ZArith Lia.
From stdpp Require Import base numbers strings list gmap relations.
From S2P Require Import Prelude Decimal Json PyTime Models Session PaperBroker PaperLedger.

Open Scope Z_scope.

(** ** Operations and steps *)

(** A call of the module; [race] are the orders other sessions commit while it
    runs. *)
Inductive paper_op :=
| OpGate (status : GateStatus) (reason : string)
| OpCreate (request : PaperOrderRequest) (race : list TradingOrder) (response_lost : bool)
| OpFill (order_id source_key : string) (quantity : Z) (price fee tax : decimal)
    (filled_at : option Z)
| OpRequestCancel (order_id : string)
| OpConfirmCancel (order_id : string)
| OpRequestReplace (order_id : string)
| OpReplace (order_id : string) (new_limit_price : decimal) (key : string)
    (race : list TradingOrder).

(** The rows other sessions may insert: new orders, nothing filled. *)
Definition new_row (o : TradingOrder) : Prop :=
  order_ok o /\ o_filled_quantity o = 0 /\ o_parent_order_id o <> Some (o_id o) /\
  o_status o <> FILLED.

(** The states in which a fill decides the next status. *)
Definition live (st : OrderStatus) : Prop :=
  st ∉ [FILLED; CANCEL_PENDING; REPLACE_PENDING; CANCELLED; REPLACED].

(** The status changes of an order that replaces no other one. *)
Inductive legal : OrderStatus -> OrderStatus -> Prop :=
| legal_same st : legal st st
| legal_cancel_request st : st ∈ [OPEN; PARTIALLY_FILLED] -> legal st CANCEL_PENDING
| legal_replace_request st : st ∈ [OPEN; PARTIALLY_FILLED] -> legal st REPLACE_PENDING
| legal_cancelled : legal CANCEL_PENDING CANCELLED
| legal_replaced : legal REPLACE_PENDING REPLACED
| legal_filled st : legal st FILLED
| legal_part_filled st : live st -> legal st PARTIALLY_FILLED
| legal_rest_cancelled st : live st -> legal st CANCELLED.

(** How one step may change an order: its identity and what was asked stay,
    fills are never taken back. *)
Definition evolves (o o' : TradingOrder) : Prop :=
  same_accounting o o' /\ o_filled_quantity o <= o_filled_quantity o' /\
  (o_parent_order_id o = None -> legal (o_status o) (o_status o')).

(** No order is lost and each one evolves. *)
Definition evolution (os os' : gmap string TradingOrder) : Prop :=
  forall k o, os !! k = Some o -> exists o', os' !! k = Some o' /\ evolves o o'.

Lemma evolves_refl o : evolves o o.
Proof. split; [apply same_accounting_refl|]. split; [lia|]. intros _. constructor. Qed.

Lemma evolution_refl os : evolution os os.
Proof. intros k o Ho. exists o. split; [done|apply evolves_refl]. Qed.

Lemma evolution_old os os' k o o' :
  evolution os os' -> os !! k = Some o -> evolves o o' -> evolution os (<[k := o']> os').
Proof.
  intros He Ho Ho' k' x Hx. destruct (decide (k = k')) as [->|Hne].
  - exists o'. rewrite lookup_insert_eq. split; [done|]. congruence.
  - rewrite lookup_insert_ne by done. auto.
Qed.

Lemma evolution_new os os' k o' :
  evolution os os' -> os !! k = None -> evolution os (<[k := o']> os').
Proof.
  intros He Ho k' x Hx. rewrite lookup_insert_ne; [auto|]. intros ->. congruence.
Qed.

Definition race_of (op : paper_op) : list TradingOrder :=
  match op with
  | OpCreate _ race _ | OpReplace _ _ _ race => race
  | _ => []
  end.

Definition race_ok (op : paper_op) : Prop := Forall new_row (race_of op).

(** Close the branch of an exception raised before anything was committed. *)
Ltac failed := split; [left; simpl; congruence|done].

Section Broker.
Context (sha256 : string -> string) (settings : Settings).

Definition exec_op (op : paper_op) : prog unit :=
  match op with
  | OpGate st reason => set_paper_gate st reason
  | OpCreate req race lost => create_paper_order sha256 req settings race lost ;; mret tt
  | OpFill id key q price fee tax at_ => apply_paper_fill sha256 id key q price fee tax at_ ;; mret tt
  | OpRequestCancel id => request_paper_cancel sha256 id ;; mret tt
  | OpConfirmCancel id => confirm_paper_cancel sha256 id ;; mret tt
  | OpRequestReplace id => request_paper_replace sha256 id ;; mret tt
  | OpReplace id price key race => replace_paper_order sha256 id price key race ;; mret tt
  end.

(** One request served on the durable database, successful or not. *)
Inductive paper_step (db : DB) : DB -> Prop :=
| paper_step_run op now ids s' r :
    race_ok op -> exec_op op (open_session db now ids) = (s', r) ->
    paper_step db (disk s').

(** A failed call leaves the durable database as it was, apart from the rows
    of other sessions; a successful one keeps the ledger. *)
Definition outcome {A} (db : DB) (race : list TradingOrder) (s : Sess) (r : A + exn) : Prop :=
  match r with
  | inl _ => db_inv (disk s) /\ evolution (orders db) (orders (disk s))
  | inr _ => disk s = db \/ disk s = add_concurrent_orders race db
  end.

Abbreviation _set_status := (PaperBroker._set_status sha256).

Lemma not_clashing o db :
  clashes o db = false ->
  forall k x, orders db !! k = Some x ->
    o_id x <> o_id o /\ o_idempotency_key x <> o_idempotency_key o.
Proof.
  unfold clashes. rewrite existsb_false_Forall, Forall_forall. intros H k x Hx.
  specialize (H x). unfold orders_clash in H.
  assert (Hin : x ∈ rows (orders db)) by (apply elem_of_rows; eauto).
  specialize (H Hin). bool_to_prop. rewrite !String.eqb_neq in *.
  split; congruence.
Qed.

Lemma insert_new_row o db :
  db_inv db -> new_row o -> clashes o db = false -> db_inv (put_order_row o db).
Proof.
  intros Hinv (Hok & Hf & Hp & Hs) Hc. pose proof (not_clashing _ _ Hc) as Hn.
  unfold db_inv. simpl. apply ledger_new_order; [done| |done|by intros ?|done|done|].
  - destruct (orders db !! o_id o) as [x|] eqn:E; [|done].
    destruct (Hn _ _ E) as [Hne _]. destruct (inv_order _ _ _ Hinv _ _ E). congruence.
  - intros k x Hx. by destruct (Hn k x Hx).
Qed.

Lemma race_inv race db :
  db_inv db -> Forall new_row race -> db_inv (add_concurrent_orders race db).
Proof.
  intros Hdb. induction 1 as [|o race Ho _ IH]; simpl; [done|].
  destruct (clashes _ _) eqn:E; [done|]. by apply insert_new_row.
Qed.

(** Rows of other sessions never replace an existing one. *)
Lemma race_keeps race db k x :
  db_inv db -> Forall new_row race -> orders db !! k = Some x ->
  orders (add_concurrent_orders race db) !! k = Some x.
Proof.
  intros Hdb Hrace Hx. induction Hrace as [|o race Ho Hrace IH]; simpl; [done|].
  destruct (clashes _ _) eqn:E; [done|]. simpl.
  rewrite lookup_insert_ne; [done|]. intros Ek.
  destruct (not_clashing _ _ E _ _ IH) as [Hne _].
  destruct (inv_order _ _ _ (race_inv _ _ Hdb Hrace) _ _ IH). congruence.
Qed.

Lemma db_inv_at s os fs ps : at_ledger s os fs ps -> ledger_inv os fs ps -> db_inv (work s).
Proof. unfold db_inv. by intros (-> & -> & ->). Qed.

Lemma race_evolution race db :
  db_inv db -> Forall new_row race ->
  evolution (orders db) (orders (add_concurrent_orders race db)).
Proof.
  intros Hdb Hrace k o Ho. exists o. split; [by apply race_keeps|apply evolves_refl].
Qed.

Lemma evolution_race os race db :
  db_inv db -> Forall new_row race -> evolution os (orders db) ->
  evolution os (orders (add_concurrent_orders race db)).
Proof.
  intros Hdb Hrace He k o Ho. destruct (He k o Ho) as (o' & Ho' & ?).
  exists o'. split; [by apply race_keeps|done].
Qed.

Lemma ledger_status os fs ps k o st :
  st <> FILLED -> ledger_inv os fs ps -> os !! k = Some o ->
  ledger_inv (<[o_id o := with_status o st]> os) fs ps.
Proof.
  intros Hst Hinv Ho. destruct (inv_order _ _ _ Hinv _ _ Ho) as [<- Hok].
  destruct (with_status_accounting o st) as (? & Hok' & ?).
  eapply ledger_put_order; eauto. by intros ?.
Qed.

Lemma evolves_status o st : legal (o_status o) st -> evolves o (with_status o st).
Proof. intros Hl. split; [by repeat split|]. split; [simpl; lia|done]. Qed.

(** Commit points: the working copy satisfies the ledger invariant. *)
Lemma commit_outcome {A} (a : A) db race s os fs ps :
  at_ledger s os fs ps -> ledger_inv os fs ps -> evolution (orders db) os ->
  wp (commit ;; mret a) (outcome db race) s.
Proof.
  intros Hat Hinv He. repeat wp_step. simpl. split; [by eapply db_inv_at|].
  by destruct Hat as [-> _].
Qed.

Section Outcomes.
Context (db : DB) (Inv : db_inv db) (now : Z) (ids : nat -> string).
Abbreviation s0 := (open_session db now ids).

(** Successes that commit nothing of their own. *)
Lemma outcome_unchanged {A} (a : A) race s : disk s = db -> outcome db race s (inl a).
Proof using Inv. intros E. simpl. rewrite E. split; [done|apply evolution_refl]. Qed.

Lemma outcome_raced {A} (a : A) race s :
  Forall new_row race -> disk s = add_concurrent_orders race db -> outcome db race s (inl a).
Proof using Inv.
  intros Hrace E. simpl. rewrite E. split; [by apply race_inv|by apply race_evolution].
Qed.

Lemma set_gate_outcome st reason : wp (set_paper_gate st reason) (outcome db []) s0.
Proof using Inv. unfold set_paper_gate. repeat wp_step. split; [exact Inv|apply evolution_refl]. Qed.

Lemma request_cancel_outcome id : wp (request_paper_cancel sha256 id) (outcome db []) s0.
Proof using Inv.
  unfold request_paper_cancel, locked_order. repeat wp_step; try (by left).
  unfold status_in in *. bool_to_prop. apply set_status_spec. intros s' Hat _.
  destruct (inv_order _ _ _ Inv _ _ H) as [Hid _].
  eapply commit_outcome; [exact Hat|by eapply ledger_status|].
  eapply evolution_old; [apply evolution_refl|by rewrite Hid|].
  by apply evolves_status; constructor.
Qed.

Lemma request_replace_outcome id : wp (request_paper_replace sha256 id) (outcome db []) s0.
Proof using Inv.
  unfold request_paper_replace, locked_order. repeat wp_step; try (by left).
  unfold status_in in *. bool_to_prop. apply set_status_spec. intros s' Hat _.
  destruct (inv_order _ _ _ Inv _ _ H) as [Hid _].
  eapply commit_outcome; [exact Hat|by eapply ledger_status|].
  eapply evolution_old; [apply evolution_refl|by rewrite Hid|].
  by apply evolves_status; constructor.
Qed.

(** The row of an order whose remaining quantity moved to the cancelled one. *)
Abbreviation cancel_rest o :=
  (set_o_remaining_quantity
     (set_o_cancelled_quantity o (o_cancelled_quantity o + o_remaining_quantity o)) 0).

Lemma cancelled_rest_inv os fs ps k o st :
  st <> FILLED -> ledger_inv os fs ps -> os !! k = Some o ->
  ledger_inv (<[o_id (cancel_rest o) := with_status (cancel_rest o) st]> os) fs ps.
Proof.
  intros Hst Hinv Ho. change (o_id (cancel_rest o)) with (o_id o).
  destruct (inv_order _ _ _ Hinv _ _ Ho) as [<- Hok].
  eapply ledger_put_order; [done|exact Ho|by repeat split| |by intros ?|done].
  unfold order_ok in *. simpl. lia.
Qed.

Lemma cancelled_rest_evolution os k o st :
  os !! k = Some o -> o_id o = k -> legal (o_status o) st ->
  evolution os (<[o_id (cancel_rest o) := with_status (cancel_rest o) st]> os).
Proof.
  intros Ho Hid Hl. change (o_id (cancel_rest o)) with (o_id o). rewrite Hid.
  eapply evolution_old; [apply evolution_refl|exact Ho|].
  split; [by repeat split|]. split; [simpl; lia|done].
Qed.

Lemma confirm_cancel_outcome id : wp (confirm_paper_cancel sha256 id) (outcome db []) s0.
Proof using Inv.
  unfold confirm_paper_cancel, locked_order. repeat wp_step; try (by left).
  { split; [done|apply evolution_refl]. }
  bool_to_prop. apply set_status_spec. intros s' Hat _.
  destruct (inv_order _ _ _ Inv _ _ H) as [Hid _].
  eapply commit_outcome; [exact Hat|by eapply cancelled_rest_inv|].
  eapply cancelled_rest_evolution; [exact H|done|].
  match goal with E : o_status _ = CANCEL_PENDING |- _ => rewrite E end. constructor.
Qed.

(** The parent's late fill reaches another row of the ledger. *)
Lemma late_child os fs ps o o1 os2 q :
  ledger_inv os fs ps -> os !! o_id o = Some o -> same_accounting o o1 -> 0 < q ->
  child_adjusted (<[o_id o := o1]> os) os2 (o_id o) q ->
  exists os', child_adjusted os os' (o_id o) q /\ ledger_inv os' fs ps /\
    os' !! o_id o = Some o /\ os2 = <[o_id o := o1]> os' /\ evolution os os'.
Proof.
  intros Hinv Ho Hsame Hq (k & c & absorbed & c' & st & Hc & Hpar & Ea & ->).
  assert (Hne : k <> o_id o).
  { intros ->. rewrite lookup_insert_eq in Hc. injection Hc as <-.
    destruct Hsame as (_ & _ & _ & _ & Hp & _). rewrite Hp in Hpar.
    by apply (inv_parent _ _ _ Hinv _ _ Ho). }
  rewrite lookup_insert_ne in Hc by done.
  exists (<[k := with_status c' st]> os). split; [by exists k, c, absorbed, c', st|].
  destruct (inv_order _ _ _ Hinv _ _ Hc) as [_ Hok].
  destruct (child_after_spec _ _ _ _ _ Hok Hq Ea) as (Hs & Hok' & Hf & _ & _ & _ & Hd).
  split_and!.
  - eapply ledger_put_order; eauto.
  - by rewrite lookup_insert_ne.
  - by rewrite insert_insert_ne.
  - eapply evolution_old; [apply evolution_refl|exact Hc|].
    split; [exact Hs|]. split; [simpl; lia|congruence].
Qed.

Lemma check_fill_spec o q price fee tax Q s :
  (0 < q -> q <= o_remaining_quantity o + o_cancelled_quantity o ->
   nonneg fee -> nonneg tax -> Q s (inl tt)) ->
  (forall e, Q s (inr e)) ->
  wp (check_fill o q price fee tax) Q s.
Proof.
  intros HQ He. unfold check_fill.
  repeat wp_step; auto; bool_to_prop; rewrite !dleb_dzero_coef in *; auto.
Qed.

(** What a booked fill stores: the row of its order, the fill, and the
    other orders with at most the replacement child adjusted. *)
Definition booked_order (o : TradingOrder) (f : Fill) : TradingOrder :=
  let o1 := order_after_fill o (f_quantity f) in
  with_status o1 (status_after_fill (o_status o) o1).

Lemma booked_spec o f :
  order_ok o -> done_ok o -> 0 < f_quantity f ->
  f_quantity f <= o_remaining_quantity o + o_cancelled_quantity o ->
  evolves o (booked_order o f) /\ done_ok (booked_order o f).
Proof.
  intros Hok Hdone Hq Hle.
  destruct (order_after_fill_spec _ _ Hok Hq Hle) as (Hsame & Hok' & Hfilled).
  assert (Hnot : o_status o <> FILLED).
  { intros E. apply Hdone in E. unfold order_ok in Hok. lia. }
  unfold booked_order. set (o1 := order_after_fill o (f_quantity f)) in *.
  assert (Hst : forall st, status_after_fill (o_status o) o1 = st ->
    legal (o_status o) st /\ (st = FILLED -> o_filled_quantity o1 = o_requested_quantity o1)).
  { intros st <-. unfold status_after_fill, status_in.
    destruct (Z.eqb_spec (o_filled_quantity o1) (o_requested_quantity o1)) as [Ef|Ef];
      [split; [apply legal_filled|done]|].
    case_bool_decide as Es; [split; [apply legal_same|congruence]|].
    assert (live (o_status o)) by (unfold live; rewrite elem_of_cons; tauto).
    destruct (0 <? _); (split; [by constructor|done]). }
  destruct (Hst _ eq_refl) as [Hl Hd]. split; [|exact Hd].
  split; [exact Hsame|]. split; [simpl in *; lia|done].
Qed.

Definition booked (o : TradingOrder) (f : Fill) (os : gmap string TradingOrder)
  (s : Sess) (r : TradingOrder * bool + exn) : Prop :=
  outcome db [] s r /\
  match r with
  | inl (o', applied) =>
      o' = booked_order o f /\ applied = true /\
      orders (disk s) = <[o_id o := o']> os /\
      fills (disk s) = <[f_id f := f]> (fills db)
  | inr _ => True
  end.

(** The position, the status and the events of a recorded fill. *)
Lemma fill_tail s o f os ps ev :
  disk s = db -> ledger_inv os (fills db) ps -> os !! o_id o = Some o ->
  orders db !! o_id o = Some o -> evolution (orders db) os ->
  at_ledger s (<[o_id o := order_after_fill o (f_quantity f)]> os)
    (<[f_id f := f]> (fills db)) ps ->
  f_order_id f = o_id o -> fill_ok f -> fills db !! f_id f = None ->
  f_quantity f <= o_remaining_quantity o + o_cancelled_quantity o ->
  (forall x s Q, (forall s', at_ledger s' (orders (work s)) (fills (work s))
       (positions (work s)) -> same_frame s s' -> Q s' (inl tt)) -> wp (ev x) Q s) ->
  wp (_apply_position (order_after_fill o (f_quantity f)) f ;;
      order ← _set_status (order_after_fill o (f_quantity f))
                (status_after_fill (o_status o) (order_after_fill o (f_quantity f)));
      ev order ;; commit ;; mret (order, true)) (booked o f os) s.
Proof.
  intros Hd Hinv Ho Hodb Hevo (Eo & Ef & Ep) Hof Hfok Hfree Hle Hev.
  destruct (inv_order _ _ _ Hinv _ _ Ho) as [_ Hok].
  destruct (booked_spec o f Hok (inv_done _ _ _ Hinv _ _ Ho) (proj1 Hfok) Hle) as [Hbe Hbd].
  destruct Hfok as (Hq & Hprice & Hfee & Htax).
  destruct (order_after_fill_spec _ _ Hok Hq Hle) as (Hsame & Hok' & Hfilled).
  wp_step. apply apply_position_spec; try done.
  - rewrite Ep. apply (inv_position _ _ _ Hinv).
  - rewrite Ep. apply (inv_unique _ _ _ Hinv).
  - intros s1 ps1 Hmoved (O1 & F1 & P1) R1. wp_step. wp_step.
    apply set_status_spec. intros s2 (O2 & F2 & P2) R2. wp_step. wp_step.
    apply Hev. intros s3 (O3 & F3 & P3) R3. wp_step.
    assert (Hat : at_ledger s3 (<[o_id o := booked_order o f]> os)
      (<[f_id f := f]> (fills db)) ps1).
    { split_and!; try congruence. rewrite O3, O2, O1, Eo. simpl. by rewrite insert_insert_eq. }
    apply wp_and.
    + eapply commit_outcome; [exact Hat| |by eapply evolution_old].
      rewrite <- Hof. rewrite Ep in Hmoved. destruct Hmoved as (M1 & M2 & M3).
      apply (ledger_fill Hinv _ _ o); rewrite ?Hof; auto; done.
    + repeat wp_step. simpl. by destruct Hat as (? & ? & _).
  - intros s1 e Hs1. split; [|done]. left. by rewrite Hs1.
Qed.

(** The orders a fill of [o] leaves besides [o] itself. *)
Definition siblings (o : TradingOrder) (q : Z) (os : gmap string TradingOrder) : Prop :=
  (os = orders db /\ (o_status o <> REPLACED \/
     forall k x, orders db !! k = Some x -> o_parent_order_id x <> Some (o_id o))) \/
  (o_status o = REPLACED /\ child_adjusted (orders db) os (o_id o) q).

Lemma book_fill_outcome s o f :
  disk s = db -> orders db !! o_id o = Some o ->
  at_ledger s (orders db) (<[f_id f := f]> (fills db)) (positions db) ->
  f_order_id f = o_id o -> fill_ok f -> fills db !! f_id f = None ->
  f_quantity f <= o_remaining_quantity o + o_cancelled_quantity o ->
  wp (book_fill sha256 o f) (fun s' r => exists os, siblings o (f_quantity f) os /\
    booked o f os s' r) s.
Proof using Inv.
  intros Hd Ho (Eo & Ef & Ep) Hof Hfok Hfree Hle. unfold book_fill.
  destruct (inv_order _ _ _ Inv _ _ Ho) as [_ Hok].
  pose proof (proj1 Hfok) as Hq.
  destruct (order_after_fill_spec _ _ Hok Hq Hle) as (Hsame & Hok' & Hfilled).
  assert (Hsimple : forall s1, disk s1 = db ->
    at_ledger s1 (<[o_id o := order_after_fill o (f_quantity f)]> (orders db))
      (<[f_id f := f]> (fills db)) (positions db) ->
    siblings o (f_quantity f) (orders db) ->
    wp (_apply_position (order_after_fill o (f_quantity f)) f ;;
      order ← _set_status (order_after_fill o (f_quantity f))
                (status_after_fill (o_status o) (order_after_fill o (f_quantity f)));
      PaperBroker._event sha256 order "FILL_APPLIED" (Some ("fill:" +:+ f_broker_fill_key f))
        (JObj [("fill_id", JStr (f_id f)); ("price", JStr (str_text (f_price f)));
         ("quantity", JInt (f_quantity f))]) (Some (f_filled_at f)) ;;
      commit ;; mret (order, true))
      (fun s' r => exists os, siblings o (f_quantity f) os /\ booked o f os s' r) s1).
  { intros s1 Hs1 Hat Hsib. eapply wp_mono; [|by eauto].
    apply (fill_tail _ _ _ (orders db) (positions db)); try done.
    - apply evolution_refl.
    - intros. by apply event_spec. }
  wp_step. wp_step. simpl. wp_step. wp_step; bool_to_prop.
  - apply adjust_child_spec.
    + intros k x. simpl. rewrite Eo, lookup_insert. destruct (decide (o_id o = k)).
      * intros Hx. simplify_eq. split; [done|exact Hok'].
      * apply (inv_order _ _ _ Inv).
    + intros Hnone. apply Hsimple; [done|by split_and!; simpl; rewrite ?Eo|].
      left. split; [done|]. right. intros k x Hx Hpar.
      assert (Hne : k <> o_id o).
      { intros ->. simplify_eq. by apply (inv_parent _ _ _ Inv _ _ Ho). }
      eapply replacement_child_None; [exact Hnone| |exact Hpar].
      simpl. rewrite Eo. by rewrite lookup_insert_ne by done.
    + intros s1 os2 Hadj Hat R1. simpl in Hadj. rewrite Eo in Hadj.
      destruct (late_child _ _ _ _ _ _ _ Inv Ho Hsame Hq Hadj) as
        (os' & Hca & Hinv' & Ho' & -> & Hevo).
      eapply wp_mono; [|intros; exists os'; split; [by right|eassumption]].
      apply (fill_tail _ _ _ os' (positions db)); try done.
      { destruct R1 as [-> _]. done. }
      { destruct Hat as (O1 & F1 & P1). simpl in F1, P1. split_and!; congruence. }
      intros. by apply event_spec.
  - wp_step. apply Hsimple; [done|by split_and!; simpl; rewrite ?Eo|].
    left. auto.
Qed.

Definition filled (oid key : string) (q : Z) (price : decimal)
  (s : Sess) (r : TradingOrder * bool + exn) : Prop :=
  outcome db [] s r /\
  match r with
  | inl (o', true) => exists o f os,
      fill_by_key key db = None /\ orders db !! oid = Some o /\
      f_order_id f = oid /\ f_broker_fill_key f = key /\ f_quantity f = q /\
      quantize ROUND_HALF_EVEN PRICE_QUANTUM price = Some (f_price f) /\
      fills db !! f_id f = None /\ fill_ok f /\
      siblings o q os /\ o' = booked_order o f /\
      orders (disk s) = <[oid := o']> os /\ fills (disk s) = <[f_id f := f]> (fills db)
  | _ => True
  end.

Lemma fill_outcome id key q price fee tax at_ :
  wp (apply_paper_fill sha256 id key q price fee tax at_) (filled id key q price) s0.
Proof using Inv.
  unfold apply_paper_fill, quantum_price. repeat wp_step; try failed.
  { split; [|done]. split; [done|apply evolution_refl]. }
  rename a into o.
  apply check_fill_spec; [|intros; failed]. intros Hq Hle Hfee Htax.
  repeat wp_step; try failed. bool_to_prop.
  destruct (inv_order _ _ _ Inv _ _ H) as [<- Hok].
  match goal with |- wp (book_fill _ _ ?x) _ _ => set (f := x) end.
  assert (Hfok : fill_ok f).
  { unfold fill_ok. simpl. rewrite dltb_dzero_coef in *.
    split_and!; eauto; eapply quantize_nonneg; [|eauto| |eauto]; done. }
  eapply wp_mono; [apply (book_fill_outcome _ o f); try done; simpl; auto|].
  intros s' r (os & Hsib & Hout & Hpost). split; [done|].
  destruct r as [[o' b]|e]; [|done]. destruct Hpost as (-> & -> & Ho' & Hf').
  by exists o, f, os.
Qed.

(** The trading date of a request made at [now]. *)
Definition date_of_request (request : PaperOrderRequest) (now : Z) : Z :=
  match rq_trading_date request with Some d => d | None => kst_date now end.

(** What validation establishes about an accepted request. *)
Definition admissible (db : DB) (request : PaperOrderRequest) : Prop :=
  upper (environment settings) = "MOCK" /\ live_trading_enabled settings = false /\
  rq_account_alias request = "PAPER" /\ 0 < rq_quantity request /\
  (exists g, gates db !! rq_account_alias request = Some g /\ g_status g = GATE_READY) /\
  symbol_order_in ACTIVE_SYMBOL_LOCK_STATES (rq_account_alias request)
    (rq_symbol request) db = false /\
  (rq_side request = "SELL" -> exists p,
    position_of (rq_account_alias request) (rq_symbol request) db = Some p /\
    rq_quantity request + reserved_sell_quantity ACTIVE_SELL_STATES
      (rq_account_alias request) (rq_symbol request) db <= p_quantity p).

Lemma validate_spec request Q s :
  (admissible (work s) request -> Q s (inl tt)) -> (forall e, Q s (inr e)) ->
  wp (_validate_request request settings) Q s.
Proof.
  intros HQ He. unfold _validate_request.
  do 10 (wp_step; wp_step; [|by apply He]; wp_step).
  repeat wp_step; auto; apply HQ.
  all: destruct (gates _ !! _) as [g|] eqn:Eg; [|done].
  all: bool_to_prop; rewrite !String.eqb_eq in *;
    do 4 (split; [done|]); split; [by exists g|]; split; [done|].
  - intros _. destruct (position_of _ _ _) as [p|]; [|done]. exists p.
    split; [done|]. bool_to_prop. lia.
  - intros Hs. by rewrite Hs in *.
Qed.
(** [outcome], and a successful call returns the row it stored. *)
Definition stored (race : list TradingOrder) (P : TradingOrder -> Prop)
  (s : Sess) (r : TradingOrder + exn) : Prop :=
  outcome db race s r /\
  match r with
  | inl o => orders (disk s) !! o_id o = Some o /\ P o
  | inr _ => True
  end.

(** The submission of a freshly flushed order. *)
Lemma submit_commit P race s o ty payload lost :
  db_inv (work s) -> orders (work s) !! o_id o = Some o ->
  orders db !! o_id o = None -> evolution (orders db) (orders (work s)) ->
  (forall o', same_accounting o o' -> P o') ->
  wp (_event sha256 o ty None payload None ;;
      o ← _submit sha256 o lost; commit ;; mret o) (stored race P) s.
Proof.
  intros Hinv Ho Hnew Hevo HP. wp_step. apply event_spec. intros s1 Hat1 _. wp_step. wp_step.
  apply submit_spec. intros s2 o' Hsame Hok Hst Hf _ Hat2 _. wp_step.
  destruct Hat1 as (O1 & F1 & P1). rewrite O1, F1, P1 in Hat2.
  destruct (inv_order _ _ _ Hinv _ _ Ho) as [_ Hoko].
  apply wp_and.
  - eapply commit_outcome; [exact Hat2| |by apply evolution_new].
    eapply (ledger_put_order Hinv); eauto. unfold done_ok. rewrite Hst. by destruct lost.
  - repeat wp_step. simpl. destruct Hat2 as (-> & _). split; [|by apply HP].
    destruct Hsame as [-> _]. apply lookup_insert_eq.
Qed.

(** A new order flushed into an invariant database. *)
Lemma flush_new o s :
  db_inv (work s) -> evolution (orders db) (orders (work s)) ->
  new_row o -> clashes o (work s) = false ->
  db_inv (work (with_work (put_order_row o) s)) /\
  orders (work (with_work (put_order_row o) s)) !! o_id o = Some o /\
  orders db !! o_id o = None /\
  evolution (orders db) (orders (work (with_work (put_order_row o) s))).
Proof.
  intros Hinv Hevo Hnew Hc.
  assert (Hnone : orders db !! o_id o = None).
  { destruct (orders db !! o_id o) as [x|] eqn:E; [|done].
    destruct (Hevo _ _ E) as (x' & Hx' & _).
    destruct (not_clashing _ _ Hc _ _ Hx') as [Hne _].
    destruct (inv_order _ _ _ Hinv _ _ Hx'). congruence. }
  split_and!; [by apply insert_new_row|apply lookup_insert_eq|done|by apply evolution_new].
Qed.

Lemma order_by_key_Some d key o :
  db_inv d -> order_by_key key d = Some o ->
  orders d !! o_id o = Some o /\ o_idempotency_key o = key.
Proof.
  intros Hd H. apply find_row_Some in H as [Hk [k Ho]]. rewrite String.eqb_eq in Hk.
  split; [|done]. destruct (inv_order _ _ _ Hd _ _ Ho) as [-> _]. done.
Qed.

Lemma create_outcome request race lost :
  Forall new_row race ->
  wp (create_paper_order sha256 request settings race lost)
    (stored race (fun o => o_idempotency_key o = rq_idempotency_key request /\
       Some (o_request_hash o) = _request_hash sha256 request (date_of_request request now)))
    s0.
Proof using Inv.
  intros Hrace. unfold create_paper_order.
  wp_step. wp_step. wp_step. wp_step. wp_step; [|failed]. wp_step. wp_step. wp_step. wp_step.
  change (clock s0) with now in H. fold (date_of_request request now) in H.
  wp_step.
  { repeat wp_step; [|failed]. destruct (order_by_key_Some _ _ _ Inv E) as [? ?].
    rewrite String.eqb_eq in *. split; [by apply outcome_unchanged|].
    split_and!; simpl; congruence. }
  wp_step. apply validate_spec; [|intros; failed]. intros (_ & _ & _ & Hq & _). wp_step.
  do 2 (wp_step; wp_step; [|failed]; wp_step).
  do 12 wp_step.
  match goal with |- context [flush_order race ?x] => set (o := x) end.
  assert (Hnew : new_row o) by (split; [repeat split; simpl; lia|done]).
  assert (Hk : o_idempotency_key o = rq_idempotency_key request /\
    Some (o_request_hash o) = _request_hash sha256 request (date_of_request request now))
    by (split; [done|by rewrite H]).
  do 3 wp_step.
  match goal with |- wp _ _ ?st => set (s1 := st) end.
  assert (Hd : disk s1 = db) by done. assert (Hw : db_inv (work s1)) by done.
  assert (Hw' : orders (work s1) = orders db) by done.
  clearbody s1 o.
  apply wp_flush_order; intros Hc; simpl.
  - pose proof (race_inv _ _ Inv Hrace) as Hinv. rewrite <- Hd in Hinv at 1.
    repeat wp_step; [|split; [right; simpl; by rewrite Hd|done]..].
    destruct (order_by_key_Some _ _ _ Hinv E0) as [? ?].
    rewrite String.eqb_eq in *.
    split; [apply outcome_raced; [done|simpl; by rewrite Hd]|]. split_and!; simpl; congruence.
  - wp_step.
    destruct (flush_new o (interleaved race s1)) as (Hinv & Ho & Hn & He);
      [by apply race_inv|rewrite <- Hw'; by apply race_evolution|done|done|].
    apply submit_commit; try done.
    intros o' Hsame. unfold same_accounting in Hsame. destruct Hk as [Hk1 Hk2].
    split; [|rewrite <- Hk2]; destruct_and!; congruence.
Qed.

(** What an accepted request with a new key stores, when no other session
    interferes. *)
Definition created (request : PaperOrderRequest) (s : Sess) (r : TradingOrder + exn) : Prop :=
  match r with
  | inl o => admissible db request /\
      orders (disk s) = <[o_id o := o]> (orders db) /\ orders db !! o_id o = None /\
      positions (disk s) = positions db /\ gates (disk s) = gates db /\
      o_account_alias o = rq_account_alias request /\ o_symbol o = rq_symbol request /\
      side_of (rq_side request) = Some (o_side o) /\
      o_remaining_quantity o = rq_quantity request /\
      status_in [OPEN; UNKNOWN] (o_status o) = true
  | inr _ => disk s = db
  end.

Lemma create_fresh request lost :
  order_by_key (rq_idempotency_key request) db = None ->
  wp (create_paper_order sha256 request settings [] lost) (created request) s0.
Proof using Inv.
  intros Hkey. unfold create_paper_order.
  wp_step. wp_step. wp_step. wp_step. wp_step; [|done]. wp_step. wp_step. wp_step. wp_step.
  change (work s0) with db. rewrite Hkey.
  wp_step. apply validate_spec; [|done]. intros Hadm. wp_step.
  wp_step; wp_step; [|done]; wp_step.
  wp_step; wp_step; [|done]; wp_step.
  do 12 wp_step.
  match goal with |- context [flush_order [] ?x] => set (o := x) end.
  do 3 wp_step.
  match goal with |- wp _ _ ?st => set (s1 := st) end.
  apply wp_flush_order; intros Hc; simpl.
  { repeat wp_step; simpl in *; try done; congruence. }
  assert (Hnone : orders db !! o_id o = None).
  { destruct (orders db !! o_id o) as [x|] eqn:E; [|done].
    destruct (not_clashing _ _ Hc _ _ E) as [Hne _].
    destruct (inv_order _ _ _ Inv _ _ E). congruence. }
  wp_step. wp_step. apply event_spec. intros s2 (O2 & F2 & P2) R2. wp_step. wp_step.
  apply submit_spec. intros s3 o' Hsame _ Hst _ Hrem (O3 & F3 & P3) R3. repeat wp_step.
  destruct Hsame as (Hid & Ha & Hs & Hd & _ & _ & _ & _).
  split; [exact Hadm|]. simpl. rewrite O3, O2, P3, P2, Hid.
  destruct R2 as (_ & _ & _ & G2), R3 as (_ & _ & _ & G3). rewrite G3, G2. simpl.
  rewrite insert_insert_eq. rewrite Ha, Hs, Hd, Hrem, Hst.
  split_and!; try done. by destruct lost.
Qed.

Lemma replacement_new original id key hash price quantity at_ :
  0 < quantity -> o_id original <> id ->
  new_row (replacement_of original id key hash price quantity at_).
Proof. intros Hq Hne. split; [repeat split; simpl; lia|]. split; [done|]. split; [simpl; congruence|done]. Qed.

Lemma replace_outcome id price key race :
  Forall new_row race ->
  wp (replace_paper_order sha256 id price key race)
    (stored race (fun o => o_idempotency_key o = key)) s0.
Proof using Inv.
  intros Hrace. unfold replace_paper_order, locked_order. repeat wp_step; try failed.
  { destruct (order_by_key_Some _ _ _ Inv E) as [? ?]. split; [by apply outcome_unchanged|done]. }
  apply set_status_spec. intros s1 Hat R1.
  match goal with H : orders _ !! _ = Some ?a |- _ => rename a into o, H into Ho end.
  bool_to_prop.
  assert (Hinv1 : db_inv (work s1)).
  { eapply db_inv_at; [exact Hat|]. by eapply cancelled_rest_inv. }
  assert (Hevo1 : evolution (orders db) (orders (work s1))).
  { destruct Hat as [-> _]. destruct (inv_order _ _ _ Inv _ _ Ho) as [Hid _].
    eapply cancelled_rest_evolution; [exact Ho|exact Hid|].
    match goal with E : o_status _ = REPLACE_PENDING |- _ => rewrite E end. constructor. }
  do 8 wp_step.
  match goal with |- context [flush_order race ?x] => set (r := x) end.
  destruct Hat as (O1 & _ & _). destruct R1 as [Hd _].
  set (s2 := next_uuid s1) in *.
  apply wp_flush_order; intros Hc.
  { split; [right; simpl; by rewrite Hd|done]. }
  wp_step.
  assert (Hkept : exists x, orders (work (interleaved race s2)) !! id = Some x /\ o_id x = o_id o).
  { eexists. split; [apply race_keeps; [done..|]|].
    - change (orders (work s2)) with (orders (work s1)). rewrite O1.
      destruct (inv_order _ _ _ Inv _ _ Ho) as [<- _]. apply lookup_insert_eq.
    - done. }
  destruct Hkept as (x & Hx & Hxid).
  assert (Hnew : new_row r).
  { apply replacement_new; [done|]. destruct (not_clashing _ _ Hc _ _ Hx) as [Hne _].
    intros Eid. apply Hne. rewrite Hxid. exact Eid. }
  destruct (flush_new r (interleaved race s2)) as (Hinv & Hr & Hn & He);
    [by apply race_inv|by apply evolution_race|done|done|].
  apply submit_commit; try done.
  intros o' (_ & _ & _ & _ & _ & Hk & _). by rewrite Hk.
Qed.
End Outcomes.
End Broker.

(** ** Consequences used by several properties *)

(** Every run of an operation, as one statement. *)
Lemma op_outcome sha256 settings db op now ids :
  db_inv db -> race_ok op ->
  wp (exec_op sha256 settings op) (outcome db (race_of op)) (open_session db now ids).
Proof.
  assert (Hunit : forall A (m : prog A) race s,
    wp m (outcome db race) s -> wp (m ;; mret tt) (outcome db race) s).
  { intros A m race s H. apply wp_bind. eapply wp_mono; [exact H|]. by intros s' [a|e]. }
  intros Hinv Hrace. destruct op; simpl; try apply Hunit.
  - by apply set_gate_outcome.
  - eapply wp_mono; [by apply create_outcome|]. by intros ? ? [].
  - eapply wp_mono; [by apply fill_outcome|]. by intros ? ? [].
  - by apply request_cancel_outcome.
  - by apply confirm_cancel_outcome.
  - by apply request_replace_outcome.
  - eapply wp_mono; [by apply replace_outcome|]. by intros ? ? [].
Qed.

(** Keys are unique, so a stored order is the one its key finds. *)
Lemma order_by_key_stored db o :
  db_inv db -> orders db !! o_id o = Some o ->
  order_by_key (o_idempotency_key o) db = Some o.
Proof.
  intros Hinv Ho. destruct (order_by_key (o_idempotency_key o) db) as [o'|] eqn:E.
  - destruct (order_by_key_Some _ _ _ Hinv E) as [Ho' Hk].
    assert (Hid : o_id o' = o_id o) by (eapply (inv_keys _ _ _ Hinv); eauto).
    congruence.
  - eapply find_row_None in E; [|exact Ho]. simpl in E. by rewrite String.eqb_refl in E.
Qed.

(** The fill just stored is the one its source key finds. *)
Lemma fill_by_key_stored db db' f :
  fill_by_key (f_broker_fill_key f) db = None -> fills db' = <[f_id f := f]> (fills db) ->
  fill_by_key (f_broker_fill_key f) db' = Some f.
Proof.
  intros Hnone Hf. destruct (fill_by_key _ db') as [g|] eqn:E.
  - apply find_row_Some in E as [Hk [k Hg]]. rewrite Hf, lookup_insert in Hg.
    destruct (decide (f_id f = k)); [congruence|].
    eapply find_row_None in Hnone; [|exact Hg]. simpl in Hnone. congruence.
  - eapply (find_row_None _ _ (f_id f)) in E; [|rewrite Hf; apply lookup_insert_eq].
    simpl in E. by rewrite String.eqb_refl in E.
Qed.

(** The ledger invariant along any sequence of steps. *)
Lemma steps_inv sha256 settings db db' :
  rtc (paper_step sha256 settings) db db' -> db_inv db -> db_inv db'.
Proof.
  induction 1 as [|x y z Hstep _ IH]; [done|]. intros Hx. apply IH.
  destruct Hstep as [op now ids s' r Hrace Hrun].
  pose proof (op_outcome sha256 settings x op now ids Hx Hrace) as Hout.
  eapply wp_elim in Hout; [|exact Hrun]. destruct r as [[]|e]; [exact (proj1 Hout)|].
  destruct Hout as [->| ->]; [done|]. by apply race_inv.
Qed.

Lemma empty_inv : db_inv empty_db.
Proof. constructor; simpl; try (by intros); done. Qed.
