(* ===== verification/PaperProps.v ===== *)
(** * What the paper broker guarantees

    The ledger invariant over every reachable database, atomicity of failures,
    idempotency of creation and of fills, the bounds of the average price, the
    absorption of late fills and the reservation of sell quantity. *)

From Stdlib Require Import ZArith Lia.
From stdpp Require Import base numbers strings list gmap relations.
From S2P Require Import Prelude Decimal Json PyTime Models Session PaperBroker PaperLedger.
From S2P Require Import PaperExec.

Open Scope Z_scope.

(** ** A concrete run, on which the properties are exercised *)

Definition demo_hash (text : string) : string := text.
Definition demo_settings : Settings := mkSettings "MOCK" false STAGE_SHADOW 2 60 false "DISABLED"
  false "DISABLED" false "DISABLED".
Definition demo_ids (call : string) (n : nat) : string := Nat.iter n (fun s => s +:+ ".") call.

(** [price] won, as the column stores it. *)
Definition won (price : Z) : decimal := Dec (price * 10000) (-4).

Definition demo_request (side : string) (quantity : Z) (key : string) : PaperOrderRequest :=
  mkPaperOrderRequest "005930" side quantity "LIMIT" (Some (won 70000)) key "corr" "KRX" "PAPER"
    "USER_REQUEST" (Some 20000).

Definition run (op : paper_op) (call : string) (db : DB) : Sess * (unit + exn) :=
  exec_op demo_hash demo_settings op (open_session db (seconds 1000) (demo_ids call)).

Definition demo_ready : DB := disk (fst (run (OpGate GATE_READY "test") "a" empty_db)).
Definition demo_bought : DB :=
  disk (fst (run (OpCreate (demo_request "BUY" 10 "k1") [] false) "b" demo_ready)).

(** The identifier of the order of a key. *)
Definition order_of (key : string) (db : DB) : string :=
  match order_by_key key db with Some o => o_id o | None => EmptyString end.

Definition demo_filled : DB :=
  disk (fst (run (OpFill (order_of "k1" demo_bought) "f1" 4 (won 69900) dzero dzero None) "c"
                 demo_bought)).

Example demo_quantities :
  option_map (fun o => (o_status o, o_filled_quantity o, o_remaining_quantity o))
    (order_by_key "k1" demo_filled) = Some (PARTIALLY_FILLED, 4, 6) /\
  option_map (fun p => (p_quantity p, p_average_price p)) (position_of "PAPER" "005930" demo_filled)
    = Some (4, won 69900).
Proof. vm_compute. done. Qed.

(** ** The properties *)

(** C1: in every database the broker can reach from the empty one, whatever
    calls succeed or fail and whatever orders other sessions insert, order
    quantities add up, the filled quantity of every order is the sum of its
    fills, every position holds exactly the signed sum of the fills of its
    account and symbol, there is one position row per account and symbol and
    one order per idempotency key. *)
Theorem reachable_ledger sha256 settings db :
  rtc (paper_step sha256 settings) empty_db db -> db_inv db.
Proof.
  intros Hrtc. exact (steps_inv sha256 settings _ _ Hrtc empty_inv).
Qed.

Lemma run_step op call db :
  race_ok op -> paper_step demo_hash demo_settings db (disk (fst (run op call db))).
Proof. intros Hrace. econstructor; [exact Hrace|]. apply surjective_pairing. Qed.

Lemma demo_reachable : rtc (paper_step demo_hash demo_settings) empty_db demo_filled.
Proof.
  apply rtc_l with demo_ready; [apply run_step; constructor|].
  apply rtc_l with demo_bought; [apply run_step; constructor|].
  apply rtc_once, run_step. constructor.
Qed.

Example reachable_ledger_witness :
  db_inv demo_filled /\ fills_of (order_of "k1" demo_filled) (fills demo_filled) = 4.
Proof.
  split; [exact (reachable_ledger demo_hash demo_settings demo_filled demo_reachable)|].
  vm_compute. reflexivity.
Defined.

(** C2: no step of the broker loses an order, changes whose order it is, what
    was asked or its key, or takes a fill back; and the status of an order that
    replaces no other one only moves along the transitions of [legal], so a
    FILLED order stays FILLED and a CANCELLED one can only be filled late. *)
Theorem orders_evolve sha256 settings db db' :
  db_inv db -> paper_step sha256 settings db db' -> evolution (orders db) (orders db').
Proof.
  intros Hinv [op now ids s r Hrace Hrun].
  pose proof (op_outcome sha256 settings db op now ids Hinv Hrace) as Hout.
  eapply wp_elim in Hout; [|exact Hrun]. destruct r as [[]|e]; [exact (proj2 Hout)|].
  destruct Hout as [->| ->]; [apply evolution_refl|by apply race_evolution].
Qed.

(** C3: a call that raises leaves the durable database as it found it, apart
    from the rows other sessions committed meanwhile. *)
Theorem failure_is_atomic sha256 settings db op now ids s e :
  db_inv db -> race_ok op ->
  exec_op sha256 settings op (open_session db now ids) = (s, inr e) ->
  disk s = db \/ disk s = add_concurrent_orders (race_of op) db.
Proof.
  intros Hinv Hrace Hrun.
  apply (wp_elim _ _ _ _ _ (op_outcome sha256 settings db op now ids Hinv Hrace) Hrun).
Qed.

Example failure_is_atomic_witness :
  exists s e, run (OpCreate (demo_request "SELL" 5 "k9") [] false) "b" empty_db = (s, inr e) /\
    (disk s = empty_db \/ disk s = add_concurrent_orders [] empty_db).
Proof.
  eexists _, _. split; [vm_compute; reflexivity|].
  eapply (failure_is_atomic demo_hash demo_settings empty_db
           (OpCreate (demo_request "SELL" 5 "k9") [] false) (seconds 1000) (demo_ids "b")).
  - exact empty_inv.
  - constructor.
  - vm_compute. reflexivity.
Defined.

(** Creation is idempotent in its key.  After a successful call, any later
    call with the same key returns the stored order and changes nothing when
    its content has the same fingerprint (whatever the settings and the gate
    say by then), and is refused as a conflict, changing nothing, when the
    fingerprint differs. *)
Theorem create_is_idempotent sha256 settings db now ids req race lost s o :
  db_inv db -> Forall new_row race ->
  create_paper_order sha256 req settings race lost (open_session db now ids) = (s, inl o) ->
  forall settings' now' ids' req' race' lost' h,
    rq_idempotency_key req' = rq_idempotency_key req ->
    _request_hash sha256 req' (date_of_request req' now') = Some h ->
    create_paper_order sha256 req' settings' race' lost' (open_session (disk s) now' ids') =
      (open_session (disk s) now' ids',
       if String.eqb (o_request_hash o) h then inl o
       else inr (PaperBrokerConflict "IDEMPOTENCY_CONFLICT")).
Proof.
  intros Hinv Hrace Hrun settings' now' ids' req' race' lost' h Hkey Hh.
  pose proof (create_outcome sha256 settings db Hinv now ids req race lost Hrace) as Hout.
  eapply wp_elim in Hout; [|exact Hrun]. destruct Hout as ([Hdisk _] & Ho & Hok & _).
  simpl in Hdisk. pose proof (order_by_key_stored _ _ Hdisk Ho) as Hfind.
  rewrite Hok, <- Hkey in Hfind.
  unfold create_paper_order, mbind, prog_bind, utcnow, gets, or_raise, mret, prog_ret.
  unfold date_of_request in Hh. cbn. rewrite Hh. cbn. rewrite Hfind.
  unfold guard_or, raise. by destruct (String.eqb _ _).
Qed.

Definition demo_create (lost : bool) (now : Z) (call : string) (db : DB) :
  Sess * (TradingOrder + exn) :=
  create_paper_order demo_hash (demo_request "BUY" 10 "k1") demo_settings [] lost
    (open_session db now (demo_ids call)).

Lemma demo_ready_inv : db_inv demo_ready.
Proof. vm_compute. constructor; simpl; try (by intros); done. Qed.

Example create_is_idempotent_witness :
  match demo_create false (seconds 1000) "b" demo_ready with
  | (s, inl o) =>
      demo_create true (seconds 2000) "z" (disk s) =
        (open_session (disk s) (seconds 2000) (demo_ids "z"),
         if String.eqb (o_request_hash o)
              (default EmptyString (_request_hash demo_hash (demo_request "BUY" 10 "k1") 20000))
         then inl o else inr (PaperBrokerConflict "IDEMPOTENCY_CONFLICT"))
  | (_, inr _) => False
  end.
Proof.
  destruct (demo_create false (seconds 1000) "b" demo_ready) as [s [o|e]] eqn:E.
  - unfold demo_create in E |- *.
    eapply (create_is_idempotent demo_hash demo_settings demo_ready (seconds 1000) (demo_ids "b")
              (demo_request "BUY" 10 "k1") [] false).
    + exact demo_ready_inv.
    + constructor.
    + exact E.
    + reflexivity.
    + vm_compute. reflexivity.
  - vm_compute in E. discriminate E.
Defined.

Example create_twice :
  option_map o_id (order_by_key "k1" (disk (fst (demo_create true (seconds 2000) "z" demo_bought))))
    = Some (order_of "k1" demo_bought).
Proof. vm_compute. reflexivity. Qed.

(** A fill is applied at most once per source key.  After a successful
    call, repeating it returns the order as it stands without applying
    anything, and reusing the key with another order or quantity is refused;
    neither changes the database. *)
Theorem fill_is_idempotent sha256 db now ids oid key q price fee tax at_ s o :
  db_inv db ->
  apply_paper_fill sha256 oid key q price fee tax at_ (open_session db now ids)
    = (s, inl (o, true)) ->
  forall now' ids' oid' q' fee' tax' at',
    apply_paper_fill sha256 oid' key q' price fee' tax' at' (open_session (disk s) now' ids') =
      (open_session (disk s) now' ids',
       if String.eqb oid oid' && (q =? q') then inl (o, false)
       else inr (PaperBrokerConflict "FILL_SOURCE_CONFLICT")).
Proof.
  intros Hinv Hrun now' ids' oid' q' fee' tax' at'.
  pose proof (fill_outcome sha256 db Hinv now ids oid key q price fee tax at_) as Hout.
  eapply wp_elim in Hout; [|exact Hrun].
  destruct Hout as (_ & o0 & f & os & Hnone & _ & Hfo & Hfk & Hfq & Hprice & _ & _ & _ & _ & Ho & Hf).
  subst oid key q. pose proof (fill_by_key_stored _ _ _ Hnone Hf) as Hfind.
  unfold apply_paper_fill, mbind, prog_bind, gets, mret, prog_ret. cbn. rewrite Hfind.
  unfold guard_or, raise, or_raise, mret, prog_ret. destruct (_ && _) eqn:E; [|done].
  unfold quantum_price. rewrite Hprice. cbn. unfold deqb.
  assert (Hself : dcmp (f_price f) (f_price f) = Eq) by (apply Z.compare_refl).
  rewrite Hself. change (work (open_session _ _ _)) with (disk s). rewrite Ho, lookup_insert_eq. done.
Qed.

Definition demo_fill (now : Z) (call : string) (db : DB) :
  Sess * (TradingOrder * bool + exn) :=
  apply_paper_fill demo_hash (order_of "k1" demo_bought) "f1" 4 (won 69900) dzero dzero None
    (open_session db now (demo_ids call)).

Lemma demo_bought_inv : db_inv demo_bought.
Proof.
  pose proof (op_outcome demo_hash demo_settings demo_ready
    (OpCreate (demo_request "BUY" 10 "k1") [] false) (seconds 1000) (demo_ids "b")
    demo_ready_inv ltac:(constructor)) as H.
  unfold demo_bought, run. unfold wp in H. destruct (exec_op _ _ _ _) as [s [u|e]] eqn:E;
    [exact (proj1 H)|].
  exfalso. vm_compute in E. discriminate E.
Qed.

Example fill_is_idempotent_witness :
  match demo_fill (seconds 1000) "c" demo_bought with
  | (s, inl (o, true)) =>
      demo_fill (seconds 3000) "z" (disk s) =
        (open_session (disk s) (seconds 3000) (demo_ids "z"), inl (o, false))
  | _ => False
  end.
Proof.
  destruct (demo_fill (seconds 1000) "c" demo_bought) as [s [[o []]|e]] eqn:E.
  - pose proof (fill_is_idempotent demo_hash demo_bought (seconds 1000) (demo_ids "c")
      (order_of "k1" demo_bought) "f1" 4 (won 69900) dzero dzero None s o demo_bought_inv E
      (seconds 3000) (demo_ids "z") (order_of "k1" demo_bought) 4 dzero dzero None) as H.
    rewrite String.eqb_refl in H. unfold demo_fill. exact H.
  - vm_compute in E. discriminate E.
  - vm_compute in E. discriminate E.
Defined.

Example orders_evolve_witness :
  evolution (orders demo_bought) (orders demo_filled) /\
  exists o o', orders demo_bought !! order_of "k1" demo_bought = Some o /\ o_status o = OPEN /\
    orders demo_filled !! order_of "k1" demo_bought = Some o' /\ o_status o' = PARTIALLY_FILLED.
Proof.
  split.
  - apply (orders_evolve demo_hash demo_settings); [exact demo_bought_inv|].
    apply run_step. constructor.
  - eexists _, _. split_and!; vm_compute; reflexivity.
Defined.

(** A weighted mean of two values lies between them. *)
Lemma weighted_bounds a c p q bound :
  0 <= a -> 0 < c -> 0 <= p -> 0 < q -> (p + q) * Z.max a c < bound ->
  let lo := if p =? 0 then c else Z.min a c in
  let hi := if p =? 0 then c else Z.max a c in
  0 <= a * p + c * q < bound /\ 0 <= hi < bound /\
  lo * (p + q) <= a * p + c * q <= hi * (p + q).
Proof.
  intros Ha Hc Hp Hq Hb lo hi. set (m := Z.max a c) in *. set (n := Z.min a c) in *.
  assert (a <= m /\ c <= m /\ n <= a /\ n <= c) as (? & ? & ? & ?) by lia.
  assert (a * p <= m * p /\ c * q <= m * q /\ n * p <= a * p /\ n * q <= c * q) as (? & ? & ? & ?)
    by (split_and!; apply Z.mul_le_mono_nonneg_r; lia).
  assert (m * 1 <= m * (p + q)) by (apply Z.mul_le_mono_nonneg_l; lia).
  unfold lo, hi. destruct (Z.eqb_spec p 0) as [->|]; split_and!; lia.
Qed.

(** A buy fill moves the average price to a value between the old average
    and the fill price (and to the fill price itself when nothing was held),
    for prices at the scale of their columns and as long as the total cost
    fits in the 28 digits of the arithmetic context. *)
Theorem average_price_bounds p quantity price :
  position_inv p -> 0 < quantity -> 0 < coef price ->
  expo (p_average_price p) = PRICE_QUANTUM -> expo price = PRICE_QUANTUM ->
  (p_quantity p + quantity) * Z.max (coef (p_average_price p)) (coef price) < pow10 prec ->
  exists p', position_after_fill p BUY quantity price = inr p' /\
    p_quantity p' = p_quantity p + quantity /\
    (if p_quantity p =? 0 then coef (p_average_price p') = coef price
     else Z.min (coef (p_average_price p)) (coef price) <= coef (p_average_price p') <=
          Z.max (coef (p_average_price p)) (coef price)) /\
    expo (p_average_price p') = PRICE_QUANTUM.
Proof.
  intros [Hp Ha] Hq Hc Ea Ec Hfit. destruct Hp as [Hq0 _]. unfold nonneg in Ha.
  set (a := coef (p_average_price p)) in *. set (c := coef price) in *.
  assert (E1 : dmul (p_average_price p) (of_int (p_quantity p)) = Dec (a * p_quantity p) (-4)).
  { rewrite dmul_exact; [simpl; by rewrite Ea|]. simpl. fold a.
    assert (a * p_quantity p <= Z.max a c * p_quantity p) by (apply Z.mul_le_mono_nonneg_r; lia).
    rewrite Z.abs_eq; nia. }
  assert (E2 : dmul price (of_int quantity) = Dec (c * quantity) (-4)).
  { rewrite dmul_exact; [simpl; by rewrite Ec|]. simpl. fold c.
    assert (c * quantity <= Z.max a c * quantity) by (apply Z.mul_le_mono_nonneg_r; lia).
    rewrite Z.abs_eq; nia. }
  assert (E3 : dadd (Dec (a * p_quantity p) (-4)) (Dec (c * quantity) (-4))
               = Dec (a * p_quantity p + c * quantity) (-4)).
  { destruct (weighted_bounds a c (p_quantity p) quantity (pow10 prec)) as (? & _); try done.
    rewrite (dadd_exact _ _ (-4)); unfold scaled; cbn [coef expo];
      rewrite ?Z.sub_diag, ?pow10_0, ?Z.mul_1_r; [done|done|lia]. }
  set (lo := if p_quantity p =? 0 then c else Z.min a c).
  set (hi := if p_quantity p =? 0 then c else Z.max a c).
  destruct (mean_bounds ROUND_HALF_UP (Dec (a * p_quantity p + c * quantity) (-4))
    (p_quantity p + quantity) lo hi) as (d & r & Ed & Er & Hr).
  1-4: pose proof (weighted_bounds a c (p_quantity p) quantity (pow10 prec)
         Ha Hc Hq0 Hq Hfit) as W; cbv zeta in W; fold lo hi in W; cbn [coef]; lia.
  exists (mkPosition (p_id p) (p_account_alias p) (p_symbol p) (p_quantity p + quantity)
    (p_quantity p + quantity) (p_quantity p + quantity) r r
    (if p_quantity p + quantity =? 0 then POS_CLOSED else POS_OPEN) CRESTA_MANAGED
    (p_version p + 1)).
  split; [|split; [done|split]].
  - unfold position_after_fill, average_after_buy. cbv zeta. rewrite E1, E2, E3, Ed.
    change PRICE_QUANTUM with (expo (Dec (a * p_quantity p + c * quantity) (-4))).
    by rewrite Er.
  - cbn [p_average_price]. unfold lo, hi in Hr. destruct (Z.eqb_spec (p_quantity p) 0); lia.
  - simpl. by apply quantize_expo in Er.
Qed.

Example average_price_bounds_witness :
  exists p', position_after_fill
      (mkPosition "p" "PAPER" "005930" 3 3 3 (won 100) (won 100) POS_OPEN CRESTA_MANAGED 1)
      BUY 7 (won 107) = inr p' /\
    p_quantity p' = 3 + 7 /\
    won 100 = Dec 1000000 (-4) /\ 1000000 <= coef (p_average_price p') <= 1070000.
Proof.
  destruct (average_price_bounds
    (mkPosition "p" "PAPER" "005930" 3 3 3 (won 100) (won 100) POS_OPEN CRESTA_MANAGED 1)
    7 (won 107)) as (p' & E & Eq & Hb & _).
  - split; [|unfold nonneg; simpl; lia]. unfold position_ok, origin_matches. simpl.
    split_and!; try lia; try done; right; lia.
  - lia.
  - simpl. lia.
  - reflexivity.
  - reflexivity.
  - vm_compute. reflexivity.
  - exists p'. split; [exact E|]. split; [exact Eq|]. split; [reflexivity|]. simpl in Hb. lia.
Defined.

(** A late fill of a replaced order never adds exposure unnoticed.  Either
    the replacement child gives up exactly the filled quantity, so that what
    the two orders filled or may still fill is unchanged, or the child has
    nothing left and is put in RECONCILING. *)
Theorem late_fill_absorbed sha256 db now ids o k c key q price fee tax at_ s o' :
  db_inv db -> orders db !! o_id o = Some o -> o_status o = REPLACED ->
  o_remaining_quantity o = 0 -> orders db !! k = Some c ->
  o_parent_order_id c = Some (o_id o) ->
  (forall k' x, orders db !! k' = Some x -> o_parent_order_id x = Some (o_id o) -> k' = k) ->
  apply_paper_fill sha256 (o_id o) key q price fee tax at_ (open_session db now ids)
    = (s, inl (o', true)) ->
  exists c', orders (disk s) !! k = Some c' /\
    o_filled_quantity c' = o_filled_quantity c /\
    ((o_filled_quantity o' + o_remaining_quantity o') + (o_filled_quantity c' + o_remaining_quantity c')
       = o_filled_quantity o + (o_filled_quantity c + o_remaining_quantity c) \/
     (o_status c' = RECONCILING /\ o_remaining_quantity c' = 0 /\ o_remaining_quantity c < q)).
Proof.
  intros Hinv Ho Hst Hrem Hc Hpar Huniq Hrun.
  pose proof (fill_outcome sha256 db Hinv now ids (o_id o) key q price fee tax at_) as Hout.
  eapply wp_elim in Hout; [|exact Hrun].
  destruct Hout as (_ & o1 & f & os & _ & Ho1 & Hfo & _ & Hfq & _ & _ & Hfok & Hsib & -> & Hos & _).
  rewrite Ho in Ho1. injection Ho1 as <-.
  destruct Hsib as [[_ [?|Hno]]|[_ (k' & c0 & absorbed & c' & st & Hc0 & Hpar0 & Ea & ->)]].
  { done. }
  { by destruct (Hno _ _ Hc). }
  pose proof (Huniq _ _ Hc0 Hpar0) as ->. rewrite Hc in Hc0. injection Hc0 as <-.
  assert (Hne : k <> o_id o) by (intros ->; simplify_eq; by apply (inv_parent _ _ _ Hinv _ _ Ho)).
  destruct Hfok as (Hq & _). rewrite Hfq in Hq.
  destruct (inv_order _ _ _ Hinv _ _ Hc) as [_ Hok].
  destruct (child_after_spec _ _ _ _ _ Hok Hq Ea) as (_ & _ & Hf & Habs & Hr & Hrec & _).
  exists (with_status c' st). rewrite Hos, lookup_insert_ne, lookup_insert_eq by done.
  split; [done|]. split; [exact Hf|]. unfold order_ok in Hok.
  simpl. rewrite Hrem, Hfq, Hf, Hr. destruct (Z.ltb_spec absorbed q).
  - right. split; [auto|lia].
  - left. lia.
Qed.

(** A replaced order with its child: the parent of 10 had 4 filled. *)
Definition demo_replacing : DB :=
  disk (fst (run (OpRequestReplace (order_of "k1" demo_bought)) "d" demo_filled)).
Definition demo_replaced : DB :=
  disk (fst (run (OpReplace (order_of "k1" demo_bought) (won 70100) "k2" []) "e" demo_replacing)).

Lemma demo_replaced_inv : db_inv demo_replaced.
Proof.
  apply (steps_inv demo_hash demo_settings demo_filled).
  - apply rtc_l with demo_replacing; [apply run_step; constructor|].
    apply rtc_once, run_step. constructor.
  - exact (steps_inv _ _ _ _ demo_reachable empty_inv).
Qed.

Example demo_replaced_rows :
  option_map (fun o => (o_status o, o_filled_quantity o, o_cancelled_quantity o))
    (order_by_key "k1" demo_replaced) = Some (REPLACED, 4, 6) /\
  option_map (fun o => (o_status o, o_remaining_quantity o, o_parent_order_id o))
    (order_by_key "k2" demo_replaced) = Some (OPEN, 6, Some (order_of "k1" demo_bought)).
Proof. vm_compute. done. Qed.

(** A row that no table holds. *)
Definition no_order : TradingOrder :=
  mkTradingOrder EmptyString EmptyString EmptyString None EmptyString EmptyString EmptyString
    EmptyString BUY LIMIT None 1 0 0 1 CREATED EmptyString EmptyString None 0 POLICY_NONE 0 0 0
    None 0 EmptyString 1 0.

Definition demo_late_fill : Sess * (TradingOrder * bool + exn) :=
  apply_paper_fill demo_hash (order_of "k1" demo_bought) "f2" 2 (won 69800) dzero dzero None
    (open_session demo_replaced (seconds 1000) (demo_ids "g")).

(** The rows of the replaced order and of its child. *)
Definition demo_parent : TradingOrder :=
  match order_by_key "k1" demo_replaced with Some o => o | None => no_order end.
Definition demo_child : TradingOrder :=
  match order_by_key "k2" demo_replaced with Some o => o | None => no_order end.

(** [demo_child] is the only child of [demo_parent]. *)
Definition demo_only_child (row : string * TradingOrder) : bool :=
  match o_parent_order_id (snd row) with
  | Some parent => negb (String.eqb parent (o_id demo_parent)) ||
                   String.eqb (fst row) (o_id demo_child)
  | None => true
  end.

Example late_fill_absorbed_witness :
  match demo_late_fill with
  | (s, inl (o', true)) => exists c', orders (disk s) !! o_id demo_child = Some c' /\
      o_filled_quantity c' = o_filled_quantity demo_child /\
      ((o_filled_quantity o' + o_remaining_quantity o') +
         (o_filled_quantity c' + o_remaining_quantity c')
       = o_filled_quantity demo_parent +
         (o_filled_quantity demo_child + o_remaining_quantity demo_child) \/
       (o_status c' = RECONCILING /\ o_remaining_quantity c' = 0 /\
        o_remaining_quantity demo_child < 2))
  | _ => False
  end.
Proof.
  destruct demo_late_fill as [s [[o' []]|e]] eqn:E; [|vm_compute in E; discriminate E..].
  unfold demo_late_fill in E.
  apply (late_fill_absorbed demo_hash demo_replaced (seconds 1000) (demo_ids "g")
           demo_parent (o_id demo_child) demo_child "f2" 2 (won 69800) dzero dzero
           None s o' demo_replaced_inv).
  1-5: vm_compute; reflexivity.
  - intros k' x Hx Hpar.
    pose proof (rows_forallb demo_only_child (orders demo_replaced)
      ltac:(vm_compute; reflexivity) k' x Hx) as Hall.
    unfold demo_only_child in Hall. cbn [fst snd] in Hall. rewrite Hpar, String.eqb_refl in Hall.
    by apply String.eqb_eq in Hall.
  - exact E.
Defined.

(** The run [r] refuses the transition and changes nothing. *)
Definition refused {A} (s : Sess) (r : Sess * (A + exn)) : Prop :=
  r = (s, inr (PaperBrokerConflict "INVALID_ORDER_TRANSITION")).

(** The run [r] rewrites the row of [o] to a row of status [st] that keeps the
    fills and satisfies [P], and touches no other order, fill or position. *)
Definition moved_to (db : DB) (o : TradingOrder) (st : OrderStatus) (P : TradingOrder -> Prop)
  (r : Sess * (TradingOrder + exn)) : Prop :=
  exists s o', r = (s, inl o') /\ orders (disk s) = <[o_id o := o']> (orders db) /\
    fills (disk s) = fills db /\ positions (disk s) = positions db /\
    same_accounting o o' /\ o_status o' = st /\ o_filled_quantity o' = o_filled_quantity o /\ P o'.

Lemma moved_to_wp {m : prog TradingOrder} {db o st P s} :
  wp m (fun s' r => match r with
        | inl o' => orders (disk s') = <[o_id o := o']> (orders db) /\
            fills (disk s') = fills db /\ positions (disk s') = positions db /\
            same_accounting o o' /\ o_status o' = st /\
            o_filled_quantity o' = o_filled_quantity o /\ P o'
        | inr _ => False
        end) s -> moved_to db o st P (m s).
Proof.
  unfold wp, moved_to. destruct (m s) as [s' [o'|e]]; [|done]. intros H. by exists s', o'.
Qed.

(** The cancellation protocol on a stored order.  A request moves an OPEN
    or PARTIALLY_FILLED order to CANCEL_PENDING and is refused in any other
    state; a confirmation cancels everything that remains of a CANCEL_PENDING
    order, returns an order that filled meanwhile as it is, and is refused in
    any other state. *)
Theorem cancel_protocol sha256 db now ids id o :
  db_inv db -> orders db !! id = Some o ->
  let s := open_session db now ids in
  (if status_in [OPEN; PARTIALLY_FILLED] (o_status o)
   then moved_to db o CANCEL_PENDING
          (fun o' => o_remaining_quantity o' = o_remaining_quantity o /\
                     o_cancelled_quantity o' = o_cancelled_quantity o)
          (request_paper_cancel sha256 id s)
   else refused s (request_paper_cancel sha256 id s)) /\
  match o_status o with
  | FILLED => confirm_paper_cancel sha256 id s = (s, inl o)
  | CANCEL_PENDING =>
      moved_to db o CANCELLED
        (fun o' => o_remaining_quantity o' = 0 /\
           o_cancelled_quantity o' = o_cancelled_quantity o + o_remaining_quantity o)
        (confirm_paper_cancel sha256 id s)
  | _ => refused s (confirm_paper_cancel sha256 id s)
  end.
Proof.
  intros Hinv Ho s. split.
  - destruct (status_in [OPEN; PARTIALLY_FILLED] (o_status o)) eqn:Hst.
    + apply moved_to_wp. unfold request_paper_cancel, locked_order.
      repeat wp_step; cbn [work s open_session] in *; simplify_eq; try congruence.
      apply set_status_spec. intros s' (O1 & F1 & P1) _. repeat wp_step. by split_and!.
    + unfold refused, request_paper_cancel, locked_order, mbind, prog_bind, gets, or_raise.
      cbn. rewrite Ho. cbn. by rewrite Hst.
  - assert (Hcase : o_status o <> FILLED -> o_status o <> CANCEL_PENDING ->
      refused s (confirm_paper_cancel sha256 id s)).
    { intros H1 H2. unfold refused, confirm_paper_cancel, locked_order, mbind, prog_bind, gets,
        or_raise. cbn. rewrite Ho. cbn. by rewrite !bool_decide_false by done. }
    destruct (o_status o) eqn:Hst; try (apply Hcase; done).
    + unfold confirm_paper_cancel, locked_order, mbind, prog_bind, gets, or_raise.
      cbn. rewrite Ho. cbn. by rewrite Hst.
    + apply moved_to_wp. unfold confirm_paper_cancel, locked_order.
      repeat wp_step; cbn [work s open_session] in *; simplify_eq; bool_to_prop; try congruence.
      apply set_status_spec. intros s' (O1 & F1 & P1) _. repeat wp_step. by split_and!.
Qed.

Definition demo_order (key : string) (db : DB) : TradingOrder :=
  match order_by_key key db with Some o => o | None => no_order end.

Lemma demo_filled_inv : db_inv demo_filled.
Proof. exact (steps_inv _ _ _ _ demo_reachable empty_inv). Qed.

Example cancel_protocol_witness :
  let s := open_session demo_filled (seconds 1000) (demo_ids "h") in
  let id := order_of "k1" demo_bought in
  moved_to demo_filled (demo_order "k1" demo_filled) CANCEL_PENDING
    (fun o' => o_remaining_quantity o' = o_remaining_quantity (demo_order "k1" demo_filled) /\
               o_cancelled_quantity o' = o_cancelled_quantity (demo_order "k1" demo_filled))
    (request_paper_cancel demo_hash id s) /\
  refused s (confirm_paper_cancel demo_hash id s).
Proof.
  exact (cancel_protocol demo_hash demo_filled (seconds 1000) (demo_ids "h")
    (order_of "k1" demo_bought) (demo_order "k1" demo_filled) demo_filled_inv
    ltac:(vm_compute; reflexivity)).
Defined.

(** An order is only ever created in a MOCK environment without live
    trading, for the PAPER account, with the gate READY and no order of the
    symbol awaiting reconciliation; and, no other session interfering, a new
    SELL order leaves the remaining quantity of all active SELL orders of the
    symbol within the quantity held. *)
Theorem created_order_is_covered sha256 settings db now ids req lost s o :
  db_inv db -> order_by_key (rq_idempotency_key req) db = None ->
  create_paper_order sha256 req settings [] lost (open_session db now ids) = (s, inl o) ->
  upper (environment settings) = "MOCK" /\ live_trading_enabled settings = false /\
  rq_account_alias req = "PAPER" /\
  (exists g, gates db !! "PAPER" = Some g /\ g_status g = GATE_READY) /\
  symbol_order_in ACTIVE_SYMBOL_LOCK_STATES "PAPER" (rq_symbol req) db = false /\
  (rq_side req = "SELL" -> exists p,
     position_of "PAPER" (rq_symbol req) (disk s) = Some p /\
     reserved_sell_quantity ACTIVE_SELL_STATES "PAPER" (rq_symbol req) (disk s) <= p_quantity p).
Proof.
  intros Hinv Hkey Hrun.
  pose proof (create_fresh sha256 settings db Hinv now ids req lost Hkey) as Hout.
  eapply wp_elim in Hout; [|exact Hrun].
  destruct Hout as ((Henv & Hlive & Hacc & Hq & Hgate & Hlock & Hsell) & Hos & Hnew & Hps & _ &
    Ha & Hy & Hd & Hrem & Hst).
  rewrite Hacc in *. split_and!; try done. intros Hside.
  destruct (Hsell Hside) as (p & Hp & Hle). exists p.
  split; [unfold position_of in *; by rewrite Hps|].
  rewrite Hside in Hd. injection Hd as Hd.
  unfold reserved_sell_quantity in *. rewrite Hos, msum_insert_fresh by done.
  rewrite Ha, Hy, <- Hd, !String.eqb_refl, Hrem.
  assert (Hact : status_in ACTIVE_SELL_STATES (o_status o) = true).
  { by destruct (o_status o). }
  rewrite Hact, bool_decide_true by done. cbn [andb]. lia.
Qed.

Definition demo_sell (db : DB) : Sess * (TradingOrder + exn) :=
  create_paper_order demo_hash (demo_request "SELL" 3 "k3") demo_settings [] false
    (open_session db (seconds 1000) (demo_ids "i")).

Example created_order_is_covered_witness :
  match demo_sell demo_filled with
  | (s, inl o) => rq_side (demo_request "SELL" 3 "k3") = "SELL" -> exists p,
      position_of "PAPER" "005930" (disk s) = Some p /\
      reserved_sell_quantity ACTIVE_SELL_STATES "PAPER" "005930" (disk s) <= p_quantity p
  | (_, inr _) => False
  end.
Proof.
  destruct (demo_sell demo_filled) as [s [o|e]] eqn:E; [|vm_compute in E; discriminate E].
  unfold demo_sell in E.
  exact (proj2 (proj2 (proj2 (proj2 (proj2 (created_order_is_covered demo_hash demo_settings
    demo_filled (seconds 1000) (demo_ids "i") (demo_request "SELL" 3 "k3") false s o
    demo_filled_inv ltac:(vm_compute; reflexivity) E)))))).
Defined.
