(* ===== verification/Fence.v ===== *)
(** * Fenced leases, abstractly

    The contract the broker worker and the periodic scheduler rely on: a single
    row names the current holder, every grant raises the fencing token, and a
    holder is current only while its token is the one of the row and the lease
    has not expired.  The automaton below is the specification; the two
    implementations refine it. *)

From Stdlib Require Import ZArith Lia.
From stdpp Require Import base strings option.
From S2P Require Import Prelude PyTime Models Session.

Open Scope Z_scope.

Record Identity := mkIdentity { owner_id : string; fencing_token : Z }.

#[export] Instance Identity_eq_dec : EqDecision Identity.
Proof. solve_decision. Defined.

(** The abstract lease: its holder and the end of its validity. *)
Record Fence := mkFence { holder : Identity; expires : Z }.

Definition token_of (l : option Fence) : Z :=
  match l with Some f => fencing_token (holder f) | None => 0 end.

(** [i] is the current holder at [now]. *)
Definition current (now : Z) (i : Identity) (l : option Fence) : Prop :=
  exists f, l = Some f /\ holder f = i /\ now < expires f.

(** The lease may be taken by [o] at [now]. *)
Definition free_for (now : Z) (o : string) (l : option Fence) : Prop :=
  match l with None => True | Some f => expires f <= now \/ owner_id (holder f) = o end.

(** One operation on the lease at instant [now]. *)
Inductive fence_step (now : Z) : option Fence -> option Fence -> Prop :=
| fence_idle l : fence_step now l l
| fence_take l o until :
    free_for now o l ->
    fence_step now l (Some (mkFence (mkIdentity o (token_of l + 1)) until))
| fence_extend i l until :
    current now i l -> fence_step now l (Some (mkFence i until))
| fence_drop f : fence_step now (Some f) (Some (mkFence (holder f) now)).

(** Operations at non-decreasing instants. *)
Inductive fence_run : Z -> option Fence -> Z -> option Fence -> Prop :=
| fence_done t l : fence_run t l t l
| fence_more t l t' l' t'' l'' :
    t <= t' -> fence_step t' l l' -> fence_run t' l' t'' l'' -> fence_run t l t'' l''.

Lemma current_token now i l : current now i l -> token_of l = fencing_token i.
Proof. intros (f & -> & <- & _). done. Qed.

(** A step never lowers the token, and an unchanged token means an unchanged
    holder. *)
Lemma fence_step_token now l l' :
  fence_step now l l' ->
  token_of l <= token_of l' /\
  (token_of l = token_of l' -> forall f f', l = Some f -> l' = Some f' -> holder f = holder f').
Proof.
  destruct 1 as [l|l o until Hfree|i l until Hc|f]; simpl.
  - split; [lia|]. intros _ f f' -> [= ->]. done.
  - split; [lia|]. intros E. lia.
  - rewrite (current_token _ _ _ Hc). split; [lia|].
    intros _ f f' -> [= <-]. destruct Hc as (g & [= ->] & <- & _). done.
  - split; [lia|]. intros _ g g' [= <-] [= <-]. done.
Qed.

Lemma fence_run_token t l t' l' : fence_run t l t' l' -> t <= t' /\ token_of l <= token_of l'.
Proof.
  induction 1 as [|t l t' l' t'' l'' Ht Hstep _ [IHt IH]]; [lia|].
  apply fence_step_token in Hstep as [? _]. lia.
Qed.

(** A holder superseded by a later grant is never current again. *)
Lemma fence_run_superseded t l t' l' i :
  fence_run t l t' l' -> fencing_token i < token_of l -> ~ current t' i l'.
Proof.
  intros Hrun Hlt Hc. apply fence_run_token in Hrun as [_ Hle].
  apply current_token in Hc. lia.
Qed.

(** While a lease is valid nobody else can take it. *)
Lemma current_excludes now i l o :
  current now i l -> owner_id i <> o -> ~ free_for now o l.
Proof. intros (f & -> & <- & Hlt) Hne [Hle|E]; [lia|done]. Qed.

(** Two current holders are the same. *)
Lemma current_unique now i j l : current now i l -> current now j l -> i = j.
Proof. intros (f & -> & <- & _) (g & [= ->] & <- & _). done. Qed.

(** ** The interface of an implementation *)

(** A lease kept in the database: its operations (each run in a session of its
    own, at the clock of that session), the abstract lease the database holds,
    and the two laws clients rely on: every operation is a step of the
    automaton, and an operation on behalf of an identity whose token is not
    the one of the row is refused and changes nothing. *)
Class FencedLease := {
  lease_op : Type;
  lease_exec : lease_op -> prog bool;
  lease_op_ok : lease_op -> Prop;
  acts_for : lease_op -> option Identity;
  fence_of : DB -> option Fence;
  lease_refines op db now ids s r :
    lease_op_ok op -> lease_exec op (open_session db now ids) = (s, r) ->
    fence_step now (fence_of db) (fence_of (disk s));
  lease_fenced op i db now ids :
    acts_for op = Some i -> token_of (fence_of db) <> fencing_token i ->
    lease_exec op (open_session db now ids) = (open_session db now ids, inl false)
}.

Section Client.
Context {Impl : FencedLease}.

(** Any sequence of operations, by anyone, at non-decreasing instants. *)
Inductive lease_run : Z -> DB -> Z -> DB -> Prop :=
| lease_done t db : lease_run t db t db
| lease_more t db op now ids s r t' db' :
    t <= now -> lease_op_ok op -> lease_exec op (open_session db now ids) = (s, r) ->
    lease_run now (disk s) t' db' -> lease_run t db t' db'.

(** The implementation refines the automaton. *)
Lemma lease_run_refines t db t' db' :
  lease_run t db t' db' -> fence_run t (fence_of db) t' (fence_of db').
Proof.
  induction 1 as [|t db op now ids s r t' db' Ht Hok Hrun _ IH]; [constructor|].
  eapply fence_more; [exact Ht| |exact IH]. by eapply lease_refines.
Qed.

(** Once a later grant raised the token, an identity is refused forever. *)
Lemma superseded_refused t db t' db' op i now ids :
  lease_run t db t' db' -> acts_for op = Some i ->
  fencing_token i < token_of (fence_of db) ->
  lease_exec op (open_session db' now ids) = (open_session db' now ids, inl false).
Proof.
  intros Hrun Hop Hlt. eapply lease_fenced; [exact Hop|].
  apply lease_run_refines, fence_run_token in Hrun as [_ Hle]. lia.
Qed.
End Client.
