(* ===== verification/WorkerState.v ===== *)
(** * The broker worker's lease and state

    [broker/worker_state.py]: acquisition, renewal, check and release of the
    broker lease, and the fenced writes of the worker's state and of the
    trading gate. *)

From Stdlib Require Import ZArith Lia.
From stdpp Require Import base numbers strings list gmap.
From S2P Require Import Prelude Json PyTime Models Session Fence.

Open Scope Z_scope.

Definition LeaseIdentity := Identity.

(** [now or datetime.now(UTC)] *)
Definition observed (now : option Z) : prog Z :=
  match now with Some t => mret t | None => utcnow end.

Definition worker_text (w : WorkerName) : string :=
  match w with
  | W_STARTING => "STARTING" | W_AUTHENTICATING => "AUTHENTICATING" | W_CONNECTING => "CONNECTING"
  | W_SUBSCRIBING => "SUBSCRIBING" | W_RECONCILING => "RECONCILING" | W_READY => "READY"
  | W_DEGRADED => "DEGRADED" | W_STOPPED => "STOPPED"
  end.

(** ** The lease row *)

Definition lease_row (db : DB) : option BrokerLease := leases db !! ACCOUNT_ALIAS.
Definition put_lease (l : BrokerLease) (db : DB) : DB :=
  set_leases db (<[ACCOUNT_ALIAS := l]> (leases db)).
Definition worker_row (db : DB) : option BrokerWorkerState := worker_states db !! ACCOUNT_ALIAS.
Definition put_worker (w : BrokerWorkerState) (db : DB) : DB :=
  set_worker_states db (<[ACCOUNT_ALIAS := w]> (worker_states db)).
Definition gate_row (db : DB) : option TradingGate := gates db !! ACCOUNT_ALIAS.
Definition put_gate (g : TradingGate) (db : DB) : DB :=
  set_gates db (<[ACCOUNT_ALIAS := g]> (gates db)).

(** The lease belongs to the identity. *)
Definition owned_by (i : LeaseIdentity) (l : BrokerLease) : bool :=
  String.eqb (bl_owner_id l) (owner_id i) && (bl_fencing_token l =? fencing_token i).

(** The row after a grant to [owner]. *)
Definition granted (key owner : string) (lease_seconds now : Z) (l : option BrokerLease) : BrokerLease :=
  match l with
  | None => mkBrokerLease key owner 1 (now + seconds lease_seconds) 1 now
  | Some l => mkBrokerLease (bl_key l) owner (bl_fencing_token l + 1) (now + seconds lease_seconds)
                (bl_version l + 1) now
  end.

(** The row with a new expiry. *)
Definition with_expiry (l : BrokerLease) (expires_at now : Z) : BrokerLease :=
  set_bl_updated_at (set_bl_version (set_bl_expires_at l expires_at) (bl_version l + 1)) now.

(** ** Operations *)

(** [get_broker_status] *)
Record BrokerStatus := mkBrokerStatus {
  bs_state : string;
  bs_gate_status : option GateStatus;
  bs_gate_reason : option string;
  bs_fencing_token : option Z;
  bs_lease_valid : bool;
  bs_websocket_connected : bool;
  bs_subscriptions_ready : bool;
  bs_last_heartbeat_at : option Z;
  bs_last_reconciliation_at : option Z;
  bs_last_reconciliation_run_id : option string;
  bs_last_error_code : option string
}.

Definition get_broker_status (now : option Z) : prog BrokerStatus :=
  observed_at ← observed now;
  lease ← gets lease_row;
  state ← gets worker_row;
  gate ← gets gate_row;
  let lease_valid := match lease with Some l => observed_at <? bl_expires_at l | None => false end in
  let state_name :=
    match state with
    | None => "NOT_STARTED"
    | Some w => if negb lease_valid && bool_decide (bw_state w <> W_STOPPED) then "STALE"
                else worker_text (bw_state w)
    end in
  mret (mkBrokerStatus state_name (g_status <$> gate) (gate ≫= g_reason)
    (bw_fencing_token <$> state) lease_valid
    (match state with Some w => bw_websocket_connected w && lease_valid | None => false end)
    (match state with Some w => bw_subscriptions_ready w && lease_valid | None => false end)
    (bw_last_heartbeat_at <$> state) (state ≫= bw_last_reconciliation_at)
    (state ≫= bw_last_reconciliation_run_id) (state ≫= bw_last_error_code)).

(** The commit of a new row: another session may have inserted it first. *)
Definition commit_lease (new_row : bool) (race : option BrokerLease) : prog unit := fun s =>
  match race with
  | Some l => if new_row
              then (mkSess (put_lease l (disk s)) (work s) (clock s) (uuids s) (uuid_ix s) (wire s) (secret_files s),
                    inr IntegrityError)
              else (committed s, inl tt)
  | None => (committed s, inl tt)
  end.

(** [race]: the row another worker inserts while this one runs, which the row
    lock excludes when the row exists. *)
Definition acquire_lease (owner : string) (lease_seconds : Z) (now : option Z)
  (race : option BrokerLease) : prog (option LeaseIdentity) :=
  observed_at ← observed now;
  lease ← gets lease_row;
  if match lease with
     | Some l => (observed_at <? bl_expires_at l) && negb (String.eqb (bl_owner_id l) owner)
     | None => false
     end
  then rollback ;; mret None
  else
    let l := granted ACCOUNT_ALIAS owner lease_seconds observed_at lease in
    modify (put_lease l) ;;
    try_except
      (commit_lease (bool_decide (lease = None)) race ;;
       mret (Some (mkIdentity owner (bl_fencing_token l))))
      (fun e => match e with IntegrityError => Some (rollback ;; mret None) | _ => None end).

(** The lease row of a valid holder; otherwise the session is rolled back. *)
Definition holds (identity : LeaseIdentity) (now : Z) (l : option BrokerLease) : bool :=
  match l with
  | Some l => owned_by identity l && (now <? bl_expires_at l)
  | None => false
  end.

Definition renew_lease (identity : LeaseIdentity) (lease_seconds : Z) (now : option Z) : prog bool :=
  observed_at ← observed now;
  lease ← gets lease_row;
  match lease with
  | Some l =>
      if holds identity observed_at lease then
        modify (put_lease (with_expiry l (observed_at + seconds lease_seconds) observed_at)) ;;
        state ← gets worker_row;
        (match state with
         | Some w => if bw_fencing_token w =? fencing_token identity
                     then modify (put_worker (set_bw_last_heartbeat_at w observed_at))
                     else mret tt
         | None => mret tt
         end) ;;
        commit ;; mret true
      else rollback ;; mret false
  | None => rollback ;; mret false
  end.

Definition lease_is_current (identity : LeaseIdentity) (now : option Z) : prog bool :=
  observed_at ← observed now;
  lease ← gets lease_row;
  mret (holds identity observed_at lease).

(** The arguments of [update_worker_state]. *)
Record WorkerUpdate := mkWorkerUpdate {
  wu_state : WorkerName;
  wu_websocket_connected : bool;
  wu_subscriptions_ready : bool;
  wu_gate_status : option GateStatus;
  wu_gate_reason : option string;
  wu_error_code : option string;
  wu_reconciliation_run_id : option string
}.

(** The worker row after an update. *)
Definition updated_worker (identity : LeaseIdentity) (u : WorkerUpdate) (now : Z)
  (w : option BrokerWorkerState) : BrokerWorkerState :=
  let env := match w with Some w => bw_environment w | None => "MOCK" end in
  let started := match w with Some w => bw_started_at w | None => now end in
  let run_id := match wu_reconciliation_run_id u with
                | Some r => Some r | None => w ≫= bw_last_reconciliation_run_id end in
  let run_at := match wu_reconciliation_run_id u with
                | Some _ => Some now | None => w ≫= bw_last_reconciliation_at end in
  mkBrokerWorkerState ACCOUNT_ALIAS env (wu_state u) (fencing_token identity)
    (wu_websocket_connected u) (wu_subscriptions_ready u) now run_at run_id (wu_error_code u)
    started now.

(** The gate after an update that names a gate status. *)
Definition updated_gate (u : WorkerUpdate) (st : GateStatus) (g : option TradingGate) : TradingGate :=
  match g with
  | None => mkTradingGate ACCOUNT_ALIAS "MOCK" st (wu_gate_reason u) 1
  | Some g => set_g_version (set_g_reason (set_g_status g st) (wu_gate_reason u)) (g_version g + 1)
  end.

Definition update_worker_state (identity : LeaseIdentity) (u : WorkerUpdate) (now : option Z) :
  prog bool :=
  observed_at ← observed now;
  lease ← gets lease_row;
  if holds identity observed_at lease then
    state ← gets worker_row;
    modify (put_worker (updated_worker identity u observed_at state)) ;;
    (match wu_gate_status u with
     | Some st =>
         gate ← gets gate_row;
         modify (put_gate (updated_gate u st gate))
     | None => mret tt
     end) ;;
    commit ;; mret true
  else rollback ;; mret false.

(** The worker row of a released lease. *)
Definition stopped_worker (w : BrokerWorkerState) (now : Z) : BrokerWorkerState :=
  set_bw_updated_at (set_bw_last_heartbeat_at
    (set_bw_subscriptions_ready (set_bw_websocket_connected (set_bw_state w W_STOPPED) false) false)
    now) now.

Definition release_lease (identity : LeaseIdentity) (now : option Z) : prog bool :=
  observed_at ← observed now;
  lease ← gets lease_row;
  match lease with
  | Some l =>
      if owned_by identity l then
        state ← gets worker_row;
        (match state with
         | Some w => if bw_fencing_token w =? fencing_token identity
                     then modify (put_worker (stopped_worker w observed_at))
                     else mret tt
         | None => mret tt
         end) ;;
        modify (put_lease (with_expiry l observed_at observed_at)) ;;
        commit ;; mret true
      else rollback ;; mret false
  | None => rollback ;; mret false
  end.

(** ** A lease row as an abstract lease *)

Definition fence_from (l : option BrokerLease) : option Fence :=
  (fun l => mkFence (mkIdentity (bl_owner_id l) (bl_fencing_token l)) (bl_expires_at l)) <$> l.

Lemma owned_by_holder i l :
  owned_by i l = true -> mkIdentity (bl_owner_id l) (bl_fencing_token l) = i.
Proof.
  unfold owned_by. intros H. bool_to_prop. apply String.eqb_eq in H. destruct i. simpl in *.
  congruence.
Qed.

Lemma holds_current i now l : holds i now l = true <-> current now i (fence_from l).
Proof.
  unfold holds, current. destruct l as [l|]; simpl.
  - split.
    + intros H. bool_to_prop. eexists. split; [done|]. split; [by apply owned_by_holder|done].
    + intros (f & [= <-] & <- & Hlt). unfold owned_by. simpl in *.
      rewrite String.eqb_refl, Z.eqb_refl. by apply Z.ltb_lt.
  - split; [done|]. by intros (f & ? & _).
Qed.

(** Whether the acquisition of [owner] must give way. *)
Definition held_by_other (now : Z) (owner : string) (l : option BrokerLease) : bool :=
  match l with
  | Some l => (now <? bl_expires_at l) && negb (String.eqb (bl_owner_id l) owner)
  | None => false
  end.

Lemma not_held_free now owner l :
  held_by_other now owner l = false -> free_for now owner (fence_from l).
Proof.
  unfold free_for. destruct l as [l|]; [|done]. simpl. intros E.
  apply andb_false_iff in E as [E|E]; [left; by apply Z.ltb_ge|right].
  by apply negb_false_iff, String.eqb_eq in E.
Qed.

Lemma granted_fence key owner secs now l :
  fence_from (Some (granted key owner secs now l)) =
  Some (mkFence (mkIdentity owner (token_of (fence_from l) + 1)) (now + seconds secs)).
Proof. by destruct l. Qed.

Lemma granted_token key owner secs now l :
  bl_fencing_token (granted key owner secs now l) = token_of (fence_from l) + 1.
Proof. by destruct l. Qed.

Lemma granted_step key now owner secs l :
  held_by_other now owner l = false ->
  fence_step now (fence_from l) (fence_from (Some (granted key owner secs now l))).
Proof. intros H. rewrite granted_fence. apply fence_take. by apply not_held_free. Qed.

Lemma extend_step now i l t :
  holds i now (Some l) = true ->
  token_of (fence_from (Some l)) = fencing_token i /\
  fence_step now (fence_from (Some l)) (fence_from (Some (with_expiry l t now))).
Proof.
  intros H. apply holds_current in H. split; [by apply current_token in H|].
  replace (fence_from (Some (with_expiry l t now))) with (Some (mkFence i t));
    [by apply fence_extend|].
  destruct H as (f & [= <-] & <- & _). done.
Qed.

Lemma drop_step now i l :
  owned_by i l = true ->
  token_of (fence_from (Some l)) = fencing_token i /\
  fence_step now (fence_from (Some l)) (fence_from (Some (with_expiry l now now))).
Proof.
  intros H. apply owned_by_holder in H. split; [by rewrite <- H|].
  apply (fence_drop now (mkFence (mkIdentity (bl_owner_id l) (bl_fencing_token l)) (bl_expires_at l))).
Qed.

(** The outcome of an operation that acts for [i] on the lease read by [row]:
    refused without effect, or performed by the holder as a step. *)
Definition holder_outcome (row : DB -> option BrokerLease) (db : DB) (now : Z) (i : Identity)
  (s : Sess) (r : bool + exn) : Prop :=
  match r with
  | inl true => token_of (fence_from (row db)) = fencing_token i /\
                fence_step now (fence_from (row db)) (fence_from (row (disk s)))
  | inl false => s = open_session db (clock s) (uuids s)
  | inr _ => False
  end.

(** What the two laws of the interface ask of such an operation. *)
Lemma holder_outcome_step row (m : prog bool) db now i s0 s r :
  wp m (holder_outcome row db now i) s0 -> m s0 = (s, r) ->
  fence_step now (fence_from (row db)) (fence_from (row (disk s))).
Proof.
  intros Hw Hrun. eapply wp_elim in Hw; [|exact Hrun].
  destruct r as [[]|e]; [by destruct Hw|rewrite Hw; apply fence_idle|done].
Qed.

Definition keeps_session (s0 s : Sess) : Prop := clock s = clock s0 /\ uuids s = uuids s0.

Lemma holder_outcome_fenced row (m : prog bool) db now ids i :
  wp m (fun s r => holder_outcome row db now i s r /\ keeps_session (open_session db now ids) s)
    (open_session db now ids) ->
  token_of (fence_from (row db)) <> fencing_token i ->
  m (open_session db now ids) = (open_session db now ids, inl false).
Proof.
  unfold wp. destruct (m _) as [s [[]|e]]; simpl; [tauto| |tauto].
  intros [-> [Hc Hu]] _. simpl in *. by rewrite Hc, Hu.
Qed.

(** ** The broker lease as an instance of the abstract one *)

Definition broker_fence (db : DB) : option Fence := fence_from (lease_row db).

Lemma lease_row_put l db : lease_row (put_lease l db) = Some l.
Proof. apply lookup_insert_eq. Qed.

Inductive broker_lease_op :=
| LAcquire (owner : string) (lease_seconds : Z) (race : option BrokerLease)
| LRenew (identity : LeaseIdentity) (lease_seconds : Z)
| LUpdate (identity : LeaseIdentity) (u : WorkerUpdate)
| LRelease (identity : LeaseIdentity).

Definition broker_lease_exec (op : broker_lease_op) : prog bool :=
  match op with
  | LAcquire owner secs race =>
      granted ← acquire_lease owner secs None race; mret (bool_decide (is_Some granted))
  | LRenew i secs => renew_lease i secs None
  | LUpdate i u => update_worker_state i u None
  | LRelease i => release_lease i None
  end.

(** A row inserted concurrently is a first grant. *)
Definition first_grant (race : option BrokerLease) : Prop :=
  match race with Some l => bl_fencing_token l = 1 | None => True end.

Definition broker_lease_op_ok (op : broker_lease_op) : Prop :=
  match op with LAcquire _ _ race => first_grant race | _ => True end.

Definition broker_acts_for (op : broker_lease_op) : option Identity :=
  match op with
  | LAcquire _ _ _ => None
  | LRenew i _ | LUpdate i _ | LRelease i => Some i
  end.

Lemma acquire_refines owner secs race db now ids :
  first_grant race ->
  wp (acquire_lease owner secs None race)
    (fun s _ => fence_step now (broker_fence db) (broker_fence (disk s)))
    (open_session db now ids).
Proof.
  intros Hrace. unfold acquire_lease. cbn [observed]. repeat wp_step; [apply fence_idle|].
  cbn [work clock open_session] in *. unfold broker_fence, wp, commit_lease.
  destruct race as [l'|]; [case_bool_decide as El|]; simpl;
    rewrite ?lease_row_put; [|wp_step; cbn -[granted put_lease lease_row fence_from]..].
  - rewrite El. simpl in *. rewrite Hrace. by apply (fence_take now None).
  - rewrite lease_row_put. by apply granted_step.
  - rewrite lease_row_put. by apply granted_step.
Qed.

Lemma renew_outcome i secs db now ids :
  wp (renew_lease i secs None) (fun s r => holder_outcome lease_row db now i s r /\
    keeps_session (open_session db now ids) s) (open_session db now ids).
Proof.
  unfold renew_lease. cbn [observed]. repeat wp_step; (split; [|done]); try done;
    cbn [work clock open_session holder_outcome disk committed with_work] in *;
    change (lease_row (put_worker ?w ?d)) with (lease_row d); rewrite E, ?lease_row_put;
    by apply extend_step.
Qed.

Lemma update_outcome i u db now ids :
  wp (update_worker_state i u None) (fun s r => holder_outcome lease_row db now i s r /\
    keeps_session (open_session db now ids) s) (open_session db now ids).
Proof.
  unfold update_worker_state. cbn [observed]. repeat wp_step; (split; [|done]); try done;
    cbn [work clock open_session] in *; apply holds_current in E;
    (split; [by apply current_token in E|apply fence_idle]).
Qed.

Lemma release_outcome i db now ids :
  wp (release_lease i None) (fun s r => holder_outcome lease_row db now i s r /\
    keeps_session (open_session db now ids) s) (open_session db now ids).
Proof.
  unfold release_lease. cbn [observed]. repeat wp_step; (split; [|done]); try done;
    cbn [work clock open_session holder_outcome disk committed with_work] in *;
    rewrite E, ?lease_row_put; by apply drop_step.
Qed.

Lemma broker_op_outcome op i db now ids :
  broker_acts_for op = Some i ->
  wp (broker_lease_exec op) (fun s r => holder_outcome lease_row db now i s r /\
    keeps_session (open_session db now ids) s) (open_session db now ids).
Proof.
  destruct op; intros [= <-]; [apply renew_outcome|apply update_outcome|apply release_outcome].
Qed.

#[export, refine] Instance broker_lease : FencedLease := {|
  lease_op := broker_lease_op;
  lease_exec := broker_lease_exec;
  lease_op_ok := broker_lease_op_ok;
  acts_for := broker_acts_for;
  fence_of := broker_fence
|}.
Proof.
  - intros op db now ids s r Hok Hrun. destruct (broker_acts_for op) as [i|] eqn:Ei.
    + eapply (holder_outcome_step lease_row); [|exact Hrun].
      eapply wp_mono; [by apply broker_op_outcome|]. by intros ? ? [].
    + destruct op as [owner secs race|i secs|i u|i]; [|done..].
      assert (Hw : wp (broker_lease_exec (LAcquire owner secs race))
        (fun s _ => fence_step now (broker_fence db) (broker_fence (disk s)))
        (open_session db now ids)).
      { apply wp_bind. eapply wp_mono; [by apply acquire_refines|]. by intros s' [a|e]. }
      by eapply wp_elim in Hw; [|exact Hrun].
  - intros op i db now ids Hop Hne. eapply holder_outcome_fenced; [by apply broker_op_outcome|done].
Defined.

(** ** Properties *)

(** C4: a worker whose lease was superseded is fenced off for good.  After any
    sequence of lease operations by any number of workers, an identity whose
    token is below the token the row had at the start can neither renew, nor
    write the worker state or the trading gate, nor release: each call returns
    False and leaves the session and the database exactly as they were. *)
Theorem superseded_worker_is_fenced t db t' db' i now ids secs u :
  lease_run (Impl := broker_lease) t db t' db' ->
  fencing_token i < token_of (broker_fence db) ->
  let s := open_session db' now ids in
  renew_lease i secs None s = (s, inl false) /\
  update_worker_state i u None s = (s, inl false) /\
  release_lease i None s = (s, inl false).
Proof.
  intros Hrun Hlt s. split_and!.
  - apply (superseded_refused (Impl := broker_lease) _ _ _ _ (LRenew i secs) i now ids Hrun eq_refl Hlt).
  - apply (superseded_refused (Impl := broker_lease) _ _ _ _ (LUpdate i u) i now ids Hrun eq_refl Hlt).
  - apply (superseded_refused (Impl := broker_lease) _ _ _ _ (LRelease i) i now ids Hrun eq_refl Hlt).
Qed.

(** Acquisition.  While a lease of another owner is valid it is refused and
    nothing changes; otherwise, unless another worker inserts the first row at
    the same time, it grants a token strictly above every earlier one, and the
    new holder is the current one until the lease expires. *)
Theorem acquire_lease_spec owner secs db now ids :
  0 < secs ->
  let s := open_session db now ids in
  if held_by_other now owner (lease_row db)
  then forall race, acquire_lease owner secs None race s = (s, inl None)
  else exists s' i,
    acquire_lease owner secs None None s = (s', inl (Some i)) /\
    owner_id i = owner /\ fencing_token i = token_of (broker_fence db) + 1 /\
    current now i (broker_fence (disk s')) /\
    (forall j t, current t j (broker_fence (disk s')) -> j = i).
Proof.
  intros Hsecs s. destruct (held_by_other now owner (lease_row db)) eqn:E.
  - intros race. unfold held_by_other in E. unfold acquire_lease, mbind, prog_bind.
    cbn -[lease_row]. by rewrite E.
  - pose proof E as E'. unfold held_by_other in E'. eexists _, _. split.
    { unfold acquire_lease, mbind, prog_bind. cbn -[lease_row granted put_lease]. rewrite E'.
      reflexivity. }
    cbn -[lease_row granted put_lease broker_fence]. unfold broker_fence, current.
    rewrite lease_row_put, granted_fence, granted_token. split; [done|]. split; [done|].
    split; [eexists; split; [done|]; split; [done|]; simpl; unfold seconds, second; lia|].
    intros j t (f & [= <-] & <- & _). done.
Qed.

(** A write of the worker state succeeds exactly when its author is the
    current holder; it then stores the new state stamped with the holder's
    token and, when a gate status is given, that status, and otherwise changes
    nothing. *)
Theorem update_worker_state_spec i u db now ids :
  let s := open_session db now ids in
  (current now i (broker_fence db) -> exists s',
     update_worker_state i u None s = (s', inl true) /\
     worker_row (disk s') = Some (updated_worker i u now (worker_row db)) /\
     bw_fencing_token (updated_worker i u now (worker_row db)) = token_of (broker_fence db) /\
     gate_row (disk s') = match wu_gate_status u with
                          | Some st => Some (updated_gate u st (gate_row db))
                          | None => gate_row db
                          end /\
     lease_row (disk s') = lease_row db) /\
  (~ current now i (broker_fence db) -> update_worker_state i u None s = (s, inl false)).
Proof.
  intros s. split.
  - intros Hc. pose proof (current_token _ _ _ Hc) as Ht. apply holds_current in Hc.
    unfold update_worker_state, mbind, prog_bind. cbn -[lease_row holds]. rewrite Hc.
    destruct (wu_gate_status u) as [st|] eqn:E; eexists; (split; [reflexivity|]);
      cbn; unfold worker_row, gate_row, lease_row; cbn; rewrite ?lookup_insert_eq; done.
  - intros Hn. unfold broker_fence in Hn; rewrite <- holds_current in Hn. apply not_true_is_false in Hn.
    unfold update_worker_state, mbind, prog_bind. cbn -[lease_row holds]. by rewrite Hn.
Qed.

(** A worker crashes, its lease expires and another one takes over. *)
Definition demo_lease_ids (n : nat) : string := EmptyString.
Definition demo_exec (op : broker_lease_op) (now : Z) (db : DB) : DB :=
  disk (fst (broker_lease_exec op (open_session db now demo_lease_ids))).
Definition demo_first : DB := demo_exec (LAcquire "a" 30 None) (seconds 0) empty_db.
Definition demo_second : DB := demo_exec (LAcquire "b" 30 None) (seconds 31) demo_first.
Definition demo_renewed : DB := demo_exec (LRenew (mkIdentity "b" 2) 30) (seconds 40) demo_second.

Definition demo_update : WorkerUpdate := mkWorkerUpdate W_READY true true (Some GATE_READY) None None None.

Example superseded_worker_is_fenced_witness :
  let s := open_session demo_renewed (seconds 41) demo_lease_ids in
  renew_lease (mkIdentity "a" 1) 30 None s = (s, inl false) /\
  update_worker_state (mkIdentity "a" 1) demo_update None s = (s, inl false) /\
  release_lease (mkIdentity "a" 1) None s = (s, inl false).
Proof.
  apply (superseded_worker_is_fenced (seconds 31) demo_second (seconds 40) demo_renewed).
  - eapply (lease_more (Impl := broker_lease) _ _ (LRenew (mkIdentity "b" 2) 30) (seconds 40) demo_lease_ids);
      [vm_compute; discriminate|exact I|apply surjective_pairing|apply lease_done].
  - vm_compute. reflexivity.
Defined.

Example acquire_lease_spec_witness :
  (forall race, acquire_lease "b" 30 None race (open_session demo_first (seconds 29) demo_lease_ids)
     = (open_session demo_first (seconds 29) demo_lease_ids, inl None)) /\
  exists s' i, acquire_lease "b" 30 None None (open_session demo_first (seconds 31) demo_lease_ids)
    = (s', inl (Some i)) /\ owner_id i = "b" /\ fencing_token i = 1 + 1 /\
    current (seconds 31) i (broker_fence (disk s')) /\
    (forall j t, current t j (broker_fence (disk s')) -> j = i).
Proof.
  split.
  - exact (acquire_lease_spec "b" 30 demo_first (seconds 29) demo_lease_ids ltac:(lia)).
  - exact (acquire_lease_spec "b" 30 demo_first (seconds 31) demo_lease_ids ltac:(lia)).
Defined.

Example update_worker_state_spec_witness :
  (exists s', update_worker_state (mkIdentity "b" 2) demo_update None
      (open_session demo_renewed (seconds 41) demo_lease_ids) = (s', inl true) /\
    option_map g_status (gate_row (disk s')) = Some GATE_READY) /\
  update_worker_state (mkIdentity "a" 1) demo_update None
    (open_session demo_renewed (seconds 41) demo_lease_ids)
  = (open_session demo_renewed (seconds 41) demo_lease_ids, inl false).
Proof.
  split.
  - destruct (proj1 (update_worker_state_spec (mkIdentity "b" 2) demo_update demo_renewed
      (seconds 41) demo_lease_ids)) as (s' & E & _ & _ & Hg & _).
    + eexists. split; [vm_compute; reflexivity|]. split; [reflexivity|vm_compute; reflexivity].
    + exists s'. split; [exact E|]. by rewrite Hg.
  - apply (proj2 (update_worker_state_spec (mkIdentity "a" 1) demo_update demo_renewed
      (seconds 41) demo_lease_ids)).
    intros (f & Hf & Hi & _). vm_compute in Hf. injection Hf as <-. discriminate Hi.
Defined.
