(* ===== verification/SchedulerState.v ===== *)
(** * The periodic scheduler's lease and state

    [analysis_scheduler_state.py]: the same fenced lease, in tables of its own,
    and the scheduler's progress record. *)

From Stdlib Require Import ZArith Lia.
From stdpp Require Import base numbers strings list gmap.
From S2P Require Import Prelude Json PyTime Models Session Fence WorkerState.

Open Scope Z_scope.

Definition SCHEDULER_NAME : string := "PERIODIC_AI".

Definition SchedulerIdentity := Identity.

Definition sched_lease (db : DB) : option BrokerLease := scheduler_leases db !! SCHEDULER_NAME.
Definition put_sched_lease (l : BrokerLease) (db : DB) : DB :=
  set_scheduler_leases db (<[SCHEDULER_NAME := l]> (scheduler_leases db)).
Definition sched_row (db : DB) : option AnalysisSchedulerState :=
  scheduler_states db !! SCHEDULER_NAME.
Definition put_sched (a : AnalysisSchedulerState) (db : DB) : DB :=
  set_scheduler_states db (<[SCHEDULER_NAME := a]> (scheduler_states db)).

(** ** Operations *)

Record SchedulerStatus := mkSchedulerStatus {
  ss_state : string;
  ss_lease_valid : bool;
  ss_last_heartbeat_at : option Z;
  ss_last_tick_at : option Z;
  ss_last_completed_at : option Z;
  ss_next_due_at : option Z;
  ss_processed_count : Z;
  ss_decision_count : Z;
  ss_skipped_count : Z;
  ss_failed_count : Z;
  ss_last_error_code : option string
}.

Definition get_scheduler_status (now : option Z) : prog SchedulerStatus :=
  observed_at ← observed now;
  lease ← gets sched_lease;
  state ← gets sched_row;
  let lease_valid := match lease with Some l => observed_at <? bl_expires_at l | None => false end in
  let state_name :=
    match state with
    | None => "NOT_STARTED"
    | Some a => if negb lease_valid && negb (String.eqb (as_state a) "STOPPED") then "STALE"
                else as_state a
    end in
  let count (f : AnalysisSchedulerState -> Z) := match state with Some a => f a | None => 0 end in
  mret (mkSchedulerStatus state_name lease_valid (as_last_heartbeat_at <$> state)
    (state ≫= as_last_tick_at) (state ≫= as_last_completed_at) (state ≫= as_next_due_at)
    (count as_processed_count) (count as_decision_count) (count as_skipped_count)
    (count as_failed_count) (state ≫= as_last_error_code)).

Definition commit_sched_lease (new_row : bool) (race : option BrokerLease) : prog unit := fun s =>
  match race with
  | Some l => if new_row
              then (mkSess (put_sched_lease l (disk s)) (work s) (clock s) (uuids s) (uuid_ix s) (wire s) (secret_files s),
                    inr IntegrityError)
              else (committed s, inl tt)
  | None => (committed s, inl tt)
  end.

Definition acquire_scheduler_lease (owner : string) (lease_seconds : Z) (now : option Z)
  (race : option BrokerLease) : prog (option SchedulerIdentity) :=
  observed_at ← observed now;
  lease ← gets sched_lease;
  if match lease with
     | Some l => (observed_at <? bl_expires_at l) && negb (String.eqb (bl_owner_id l) owner)
     | None => false
     end
  then rollback ;; mret None
  else
    let l := granted SCHEDULER_NAME owner lease_seconds observed_at lease in
    modify (put_sched_lease l) ;;
    try_except
      (commit_sched_lease (bool_decide (lease = None)) race ;;
       mret (Some (mkIdentity owner (bl_fencing_token l))))
      (fun e => match e with IntegrityError => Some (rollback ;; mret None) | _ => None end).

(** The state row with a heartbeat at [now]. *)
Definition beaten (a : AnalysisSchedulerState) (state_name : string) (now : Z) :
  AnalysisSchedulerState :=
  mkAnalysisSchedulerState (as_scheduler_name a) state_name (as_fencing_token a)
    (as_last_slot_key a) now (as_last_tick_at a) (as_last_completed_at a) (as_next_due_at a)
    (as_processed_count a) (as_decision_count a) (as_skipped_count a) (as_failed_count a)
    (as_last_error_code a) (as_started_at a) now.

Definition renew_scheduler_lease (identity : SchedulerIdentity) (lease_seconds : Z)
  (now : option Z) : prog bool :=
  observed_at ← observed now;
  lease ← gets sched_lease;
  match lease with
  | Some l =>
      if holds identity observed_at lease then
        modify (put_sched_lease
                  (with_expiry l (observed_at + seconds lease_seconds) observed_at)) ;;
        state ← gets sched_row;
        (match state with
         | Some a => if as_fencing_token a =? fencing_token identity
                     then modify (put_sched (beaten a (as_state a) observed_at))
                     else mret tt
         | None => mret tt
         end) ;;
        commit ;; mret true
      else rollback ;; mret false
  | None => rollback ;; mret false
  end.

Record SchedulerUpdate := mkSchedulerUpdate {
  su_state : string;
  su_slot_key : option string;
  su_next_due_at : option Z;
  su_completed : bool;
  su_processed_count : Z;
  su_decision_count : Z;
  su_skipped_count : Z;
  su_failed_count : Z;
  su_error_code : option string
}.

(** The state row after an update; a row created by it starts with the column
    defaults. *)
Definition updated_sched (identity : SchedulerIdentity) (u : SchedulerUpdate) (now : Z)
  (a : option AnalysisSchedulerState) : AnalysisSchedulerState :=
  let count (given : Z) (f : AnalysisSchedulerState -> Z) :=
    if su_completed u then given else match a with Some a => f a | None => 0 end in
  mkAnalysisSchedulerState SCHEDULER_NAME (su_state u) (fencing_token identity)
    (match su_slot_key u with Some k => Some k | None => a ≫= as_last_slot_key end)
    now
    (match su_slot_key u with Some _ => Some now | None => a ≫= as_last_tick_at end)
    (if su_completed u then Some now else a ≫= as_last_completed_at)
    (su_next_due_at u)
    (count (su_processed_count u) as_processed_count)
    (count (su_decision_count u) as_decision_count)
    (count (su_skipped_count u) as_skipped_count)
    (count (su_failed_count u) as_failed_count)
    (su_error_code u)
    (match a with Some a => as_started_at a | None => now end) now.

Definition update_scheduler_state (identity : SchedulerIdentity) (u : SchedulerUpdate)
  (now : option Z) : prog bool :=
  observed_at ← observed now;
  lease ← gets sched_lease;
  if holds identity observed_at lease then
    state ← gets sched_row;
    modify (put_sched (updated_sched identity u observed_at state)) ;;
    commit ;; mret true
  else rollback ;; mret false.

Definition release_scheduler_lease (identity : SchedulerIdentity) (now : option Z) : prog bool :=
  observed_at ← observed now;
  lease ← gets sched_lease;
  match lease with
  | Some l =>
      if owned_by identity l then
        state ← gets sched_row;
        (match state with
         | Some a => if as_fencing_token a =? fencing_token identity
                     then modify (put_sched (beaten a "STOPPED" observed_at))
                     else mret tt
         | None => mret tt
         end) ;;
        modify (put_sched_lease (with_expiry l observed_at observed_at)) ;;
        commit ;; mret true
      else rollback ;; mret false
  | None => rollback ;; mret false
  end.

(** ** The scheduler lease as an instance of the abstract one *)

Definition sched_fence (db : DB) : option Fence := fence_from (sched_lease db).

Lemma sched_lease_put l db : sched_lease (put_sched_lease l db) = Some l.
Proof. apply lookup_insert_eq. Qed.

Inductive sched_lease_op :=
| SAcquire (owner : string) (lease_seconds : Z) (race : option BrokerLease)
| SRenew (identity : SchedulerIdentity) (lease_seconds : Z)
| SUpdate (identity : SchedulerIdentity) (u : SchedulerUpdate)
| SRelease (identity : SchedulerIdentity).

Definition sched_lease_exec (op : sched_lease_op) : prog bool :=
  match op with
  | SAcquire owner secs race =>
      granted ← acquire_scheduler_lease owner secs None race; mret (bool_decide (is_Some granted))
  | SRenew i secs => renew_scheduler_lease i secs None
  | SUpdate i u => update_scheduler_state i u None
  | SRelease i => release_scheduler_lease i None
  end.

Definition sched_lease_op_ok (op : sched_lease_op) : Prop :=
  match op with SAcquire _ _ race => first_grant race | _ => True end.

Definition sched_acts_for (op : sched_lease_op) : option Identity :=
  match op with
  | SAcquire _ _ _ => None
  | SRenew i _ | SUpdate i _ | SRelease i => Some i
  end.

Lemma sched_acquire_refines owner secs race db now ids :
  first_grant race ->
  wp (acquire_scheduler_lease owner secs None race)
    (fun s _ => fence_step now (sched_fence db) (sched_fence (disk s)))
    (open_session db now ids).
Proof.
  intros Hrace. unfold acquire_scheduler_lease. cbn [observed]. repeat wp_step; [apply fence_idle|].
  cbn [work clock open_session] in *. unfold sched_fence, wp, commit_sched_lease.
  destruct race as [l'|]; [case_bool_decide as El|]; simpl;
    rewrite ?sched_lease_put;
    [|wp_step; cbn -[granted put_sched_lease sched_lease fence_from]..].
  - rewrite El. simpl in *. rewrite Hrace. by apply (fence_take now None).
  - rewrite sched_lease_put. by apply granted_step.
  - rewrite sched_lease_put. by apply granted_step.
Qed.

Lemma sched_op_outcome op i db now ids :
  sched_acts_for op = Some i ->
  wp (sched_lease_exec op) (fun s r => holder_outcome sched_lease db now i s r /\
    keeps_session (open_session db now ids) s) (open_session db now ids).
Proof.
  destruct op; intros [= <-]; simpl.
  - unfold renew_scheduler_lease. cbn [observed]. repeat wp_step; (split; [|done]); try done;
      cbn [work clock open_session holder_outcome disk committed with_work] in *;
      change (sched_lease (put_sched ?a ?d)) with (sched_lease d);
      rewrite E, ?sched_lease_put; by apply extend_step.
  - unfold update_scheduler_state. cbn [observed]. repeat wp_step; (split; [|done]); try done;
      cbn [work clock open_session] in *; apply holds_current in E;
      (split; [by apply current_token in E|apply fence_idle]).
  - unfold release_scheduler_lease. cbn [observed]. repeat wp_step; (split; [|done]); try done;
      cbn [work clock open_session holder_outcome disk committed with_work] in *;
      rewrite E, ?sched_lease_put; by apply drop_step.
Qed.

#[export, refine] Instance scheduler_lease : FencedLease := {|
  lease_op := sched_lease_op;
  lease_exec := sched_lease_exec;
  lease_op_ok := sched_lease_op_ok;
  acts_for := sched_acts_for;
  fence_of := sched_fence
|}.
Proof.
  - intros op db now ids s r Hok Hrun. destruct (sched_acts_for op) as [i|] eqn:Ei.
    + eapply (holder_outcome_step sched_lease); [|exact Hrun].
      eapply wp_mono; [by apply sched_op_outcome|]. by intros ? ? [].
    + destruct op as [owner secs race|i secs|i u|i]; [|done..].
      assert (Hw : wp (sched_lease_exec (SAcquire owner secs race))
        (fun s _ => fence_step now (sched_fence db) (sched_fence (disk s)))
        (open_session db now ids)).
      { apply wp_bind. eapply wp_mono; [by apply sched_acquire_refines|]. by intros s' [a|e]. }
      by eapply wp_elim in Hw; [|exact Hrun].
  - intros op i db now ids Hop Hne. eapply holder_outcome_fenced; [by apply sched_op_outcome|done].
Defined.

(** ** Properties *)

(** C5: the periodic scheduler refines the same lease automaton, so two
    scheduler processes never both write: along any sequence of operations the
    token never decreases, a process whose token was superseded has every
    renewal, state write and release refused without effect, and a state write
    that is accepted was made by the current holder and is stamped with its
    token. *)
Theorem superseded_scheduler_is_fenced t db t' db' i now ids secs u :
  lease_run (Impl := scheduler_lease) t db t' db' ->
  let s := open_session db' now ids in
  fence_run t (sched_fence db) t' (sched_fence db') /\
  (fencing_token i < token_of (sched_fence db) ->
     renew_scheduler_lease i secs None s = (s, inl false) /\
     update_scheduler_state i u None s = (s, inl false) /\
     release_scheduler_lease i None s = (s, inl false)) /\
  (forall s', update_scheduler_state i u None s = (s', inl true) ->
     current now i (sched_fence db') /\
     sched_row (disk s') = Some (updated_sched i u now (sched_row db'))).
Proof.
  intros Hrun s. split; [exact (lease_run_refines (Impl := scheduler_lease) _ _ _ _ Hrun)|].
  split.
  - intros Hlt. split_and!.
    + apply (superseded_refused (Impl := scheduler_lease) _ _ _ _ (SRenew i secs) i now ids
               Hrun eq_refl Hlt).
    + apply (superseded_refused (Impl := scheduler_lease) _ _ _ _ (SUpdate i u) i now ids
               Hrun eq_refl Hlt).
    + apply (superseded_refused (Impl := scheduler_lease) _ _ _ _ (SRelease i) i now ids
               Hrun eq_refl Hlt).
  - intros s'. unfold update_scheduler_state, mbind, prog_bind. cbn -[sched_lease holds].
    destruct (holds i now (sched_lease db')) eqn:E; [|done]. intros [= <-].
    split; [by apply holds_current|]. unfold sched_row. cbn. apply lookup_insert_eq.
Qed.

Definition demo_sched_exec (op : sched_lease_op) (now : Z) (db : DB) : DB :=
  disk (fst (sched_lease_exec op (open_session db now demo_lease_ids))).
Definition demo_sched_first : DB := demo_sched_exec (SAcquire "a" 30 None) (seconds 0) empty_db.
Definition demo_sched_second : DB :=
  demo_sched_exec (SAcquire "b" 30 None) (seconds 31) demo_sched_first.
Definition demo_tick : SchedulerUpdate :=
  mkSchedulerUpdate "IDLE" (Some "slot") None true 1 1 0 0 None.

Example superseded_scheduler_is_fenced_witness :
  let s := open_session demo_sched_second (seconds 32) demo_lease_ids in
  update_scheduler_state (mkIdentity "a" 1) demo_tick None s = (s, inl false) /\
  exists s', update_scheduler_state (mkIdentity "b" 2) demo_tick None s = (s', inl true) /\
    current (seconds 32) (mkIdentity "b" 2) (sched_fence demo_sched_second).
Proof.
  split.
  - apply (proj1 (proj2 (superseded_scheduler_is_fenced (seconds 31) demo_sched_second (seconds 31)
      demo_sched_second (mkIdentity "a" 1) (seconds 32) demo_lease_ids 30 demo_tick
      (lease_done _ _)))).
    vm_compute. reflexivity.
  - destruct (update_scheduler_state (mkIdentity "b" 2) demo_tick None
      (open_session demo_sched_second (seconds 32) demo_lease_ids)) as [s' r] eqn:E.
    assert (Hr : r = inl true).
    { transitivity (snd (update_scheduler_state (mkIdentity "b" 2) demo_tick None
        (open_session demo_sched_second (seconds 32) demo_lease_ids))); [by rewrite E|].
      vm_compute. reflexivity. }
    subst r. exists s'. split; [reflexivity|].
    exact (proj1 (proj2 (proj2 (superseded_scheduler_is_fenced (seconds 31) demo_sched_second
      (seconds 31) demo_sched_second (mkIdentity "b" 2) (seconds 32) demo_lease_ids 30 demo_tick
      (lease_done _ _))) s' E)).
Defined.
