(* ===== verification/OrderSender.v ===== *)
(** * Transmission of orders to the broker

    [broker/order_sender.py]: claiming one CREATED order, handing it to the
    broker client exactly once, recording the outcome, and the cancellation of
    expired entry orders.  The client is a parameter: its reply, and what
    happens to the database while the call is pending. *)

From Stdlib Require Import ZArith Lia.
From stdpp Require Import base numbers strings list gmap.
From S2P Require Import Prelude Decimal Json PyTime Models Session Fence WorkerState.

Open Scope Z_scope.

(** ** The broker client *)

(** A call to the broker: its reply, the durable database when it returns, as
    left by the other sessions, and the time it took. *)
Record Pending (A : Type) := mkPending {
  reply : A + exn;
  meanwhile : DB -> DB;
  elapsed : Z
}.
Arguments mkPending {A}.
Arguments reply {A}.
Arguments meanwhile {A}.
Arguments elapsed {A}.

(** [OrderClient]: both calls return the broker's order number. *)
Record OrderClient := mkOrderClient {
  place_order : KiwoomOrderRequest -> Pending string;
  cancel_order : KiwoomCancelRequest -> Pending string
}.

Definition call {A} (c : wire_call) (p : Pending A) : prog A := fun s =>
  (mkSess (meanwhile p (disk s)) (meanwhile p (disk s)) (clock s + elapsed p) (uuids s) (uuid_ix s)
     (wire s ++ [c]) (secret_files s), reply p).

Record KiwoomSendResult := mkKiwoomSendResult {
  sr_order_id : string;
  sr_status : OrderStatus;
  sr_broker_order_id : option string;
  sr_sent : bool
}.

Record KiwoomCancelResult := mkKiwoomCancelResult {
  cr_order_id : string;
  cr_status : OrderStatus;
  cr_requested_quantity : Z;
  cr_sent : bool
}.

(** ** Queries *)

Definition created_before (a b : TradingOrder) : bool :=
  (o_created_at a <? o_created_at b) ||
  ((o_created_at a =? o_created_at b) && String.leb (o_id a) (o_id b)).

(** [_next_created_order_statement]; [locked] are the rows other sessions hold,
    which [skip_locked] passes over. *)
Definition _next_created_order_statement (locked : string -> bool) (db : DB) : option TradingOrder :=
  first_row created_before
    (fun o => String.eqb (o_account_alias o) ACCOUNT_ALIAS &&
              String.eqb (o_environment o) "MOCK" &&
              bool_decide (o_status o = CREATED) && negb (locked (o_id o))) (orders db).

Definition due_before (a b : TradingOrder) : bool :=
  let due o := match o_next_action_at o with Some t => t | None => 0 end in
  (due a <? due b) || ((due a =? due b) && created_before a b).

Definition expired_buy (now : Z) (o : TradingOrder) : bool :=
  String.eqb (o_account_alias o) ACCOUNT_ALIAS && String.eqb (o_environment o) "MOCK" &&
  bool_decide (o_side o = BUY) && bool_decide (o_unfilled_policy o = POLICY_CANCEL) &&
  status_in [ACKNOWLEDGED; OPEN; PARTIALLY_FILLED] (o_status o) &&
  (0 <? o_remaining_quantity o) &&
  match o_next_action_at o with Some t => t <=? now | None => false end.

Definition next_expired_buy (locked : string -> bool) (now : Z) (db : DB) : option TradingOrder :=
  first_row due_before (fun o => expired_buy now o && negb (locked (o_id o))) (orders db).

(** The worker that holds the lease is ready, and so is the gate. *)
Definition worker_ready (i : LeaseIdentity) (db : DB) : bool :=
  match worker_row db, gate_row db with
  | Some w, Some g =>
      bool_decide (bw_state w = W_READY) && (bw_fencing_token w =? fencing_token i) &&
      bw_websocket_connected w && bw_subscriptions_ready w && bool_decide (g_status g = GATE_READY)
  | _, _ => false
  end.

(** [uq_orders_broker_identity]: no other order of the account has the number. *)
Definition broker_number_free (o : TradingOrder) (db : DB) : bool :=
  forallb (fun x => String.eqb (o_id x) (o_id o) ||
                    negb (bool_decide (is_Some (o_broker_order_id o)) &&
                          bool_decide (o_broker_order_id o = o_broker_order_id x) &&
                          String.eqb (o_environment o) (o_environment x) &&
                          String.eqb (o_account_alias o) (o_account_alias x)))
    (rows (orders db)).

Definition opt_field (k : string) (v : option string) : list (string * json) :=
  match v with Some v => [(k, JStr v)] | None => [] end.

Section Sender.
Context (sha256 : string -> string).

(** ** Helpers *)

Definition _event (order : TradingOrder) (event_type : string) (payload : json) (occurred_at : Z) :
  prog unit :=
  key ← uuid7;
  modify (add_order_event (mkOrderEvent (o_id order) event_type "KIWOOM" key
    (sha256 (dumps payload)) payload (o_correlation_id order) occurred_at)).

Definition with_status (order : TradingOrder) (status : OrderStatus) : TradingOrder :=
  set_o_version (set_o_status order status) (o_version order + 1).

Definition _transition (order : TradingOrder) (status : OrderStatus) (occurred_at : Z) :
  prog TradingOrder :=
  let order' := with_status order status in
  modify (put_order_row order') ;;
  _event order' "STATUS_CHANGED"
    (JObj [("from", JStr (status_text (o_status order))); ("to", JStr (status_text status))])
    occurred_at ;;
  mret order'.

Definition _require_worker_ready (identity : LeaseIdentity) (now : Z) : prog unit :=
  current ← lease_is_current identity (Some now);
  guard_or current (KiwoomOrderSenderError "WORKER_LEASE_NOT_CURRENT") ;;
  ready ← gets (worker_ready identity);
  guard_or ready (KiwoomOrderSenderError "BROKER_NOT_READY").

Definition _mark_gate_reconciling (reason : string) : prog unit :=
  gate ← gets gate_row;
  modify (put_gate match gate with
    | None => mkTradingGate ACCOUNT_ALIAS "MOCK" GATE_RECONCILING (Some reason) 1
    | Some g => set_g_version (set_g_reason (set_g_status g GATE_RECONCILING) (Some reason))
                  (g_version g + 1)
    end).

Definition _order_request (order : TradingOrder) : prog KiwoomOrderRequest :=
  guard_or (String.eqb (o_account_alias order) ACCOUNT_ALIAS &&
            String.eqb (o_environment order) "MOCK")
    (KiwoomOrderSenderError "KIWOOM_MOCK_ORDER_REQUIRED") ;;
  mret (mkKiwoomOrderRequest (o_symbol order) (o_side order) (o_remaining_quantity order)
          (o_order_type order) (o_limit_price order) (o_market order)).

(** ** Sending *)

(** The arguments of [_finish_send]. *)
Record SendOutcome := mkSendOutcome {
  so_status : OrderStatus;
  so_event_type : string;
  so_broker_order_id : option string;
  so_gate_reason : option string;
  so_result_code : option string;
  so_result_message : option string
}.

(** The row after the outcome: the broker's number and the cancellation time
    of an acknowledged entry order. *)
Definition numbered (order : TradingOrder) (broker : option string) : TradingOrder :=
  match broker with Some b => set_o_broker_order_id order (Some b) | None => order end.

Definition armed (order : TradingOrder) (occurred_at : Z) : TradingOrder :=
  if bool_decide (o_status order = ACKNOWLEDGED) &&
     bool_decide (o_unfilled_policy order = POLICY_CANCEL)
  then set_o_next_action_at order (Some (occurred_at + seconds (o_fill_timeout_seconds order)))
  else order.

Definition _finish_send (identity : LeaseIdentity) (order_id : string) (out : SendOutcome)
  (occurred_at : Z) : prog KiwoomSendResult :=
  current ← lease_is_current identity None;
  if (current : bool) then
    found ← gets (fun db => orders db !! order_id);
    match (found : option TradingOrder) with
    | Some order =>
        if bool_decide (o_status order = SUBMITTING) then
          order ← _transition (numbered order (so_broker_order_id out)) (so_status out) occurred_at;
          let order := armed order occurred_at in
          modify (put_order_row order) ;;
          _event order (so_event_type out)
            (JObj (("broker_order_id_present", JBool (bool_decide (is_Some (so_broker_order_id out))))
                   :: ("status", JStr (status_text (so_status out)))
                   :: opt_field "broker_result_code" (so_result_code out) ++
                      opt_field "broker_result_message" (so_result_message out))) occurred_at ;;
          (match so_gate_reason out with
           | Some reason => _mark_gate_reconciling reason
           | None => mret tt
           end) ;;
          free ← gets (broker_number_free order);
          guard_or free IntegrityError ;;
          commit ;;
          mret (mkKiwoomSendResult (o_id order) (o_status order) (o_broker_order_id order) true)
        else rollback ;; raise (KiwoomOrderSenderError "ORDER_STATE_CHANGED_AFTER_SEND")
    | None => rollback ;; raise (KiwoomOrderSenderError "ORDER_STATE_CHANGED_AFTER_SEND")
    end
  else rollback ;; raise (KiwoomOrderSenderError "WORKER_LEASE_LOST_AFTER_SEND").

(** How the reply of the broker is recorded; [None] is an exception that
    propagates. *)
Definition send_outcome (r : string + exn) : option SendOutcome :=
  match r with
  | inl broker =>
      Some (mkSendOutcome ACKNOWLEDGED "ORDER_ACKNOWLEDGED" (Some broker) None None None)
  | inr (KiwoomOrderRejectedError code message) =>
      Some (mkSendOutcome REJECTED "ORDER_REJECTED" None None code message)
  | inr KiwoomOrderOutcomeUnknownError =>
      Some (mkSendOutcome UNKNOWN "ORDER_OUTCOME_UNKNOWN" None (Some "ORDER_OUTCOME_UNKNOWN")
              None None)
  | inr (KiwoomAdapterError _) =>
      Some (mkSendOutcome REJECTED "ORDER_VALIDATION_REJECTED" None None None None)
  | inr _ => None
  end.

(** The first half of [_send_locked_order], up to its commit: the order is
    claimed before anything is transmitted. *)
Definition claim_order (identity : LeaseIdentity) (order : TradingOrder) (observed_at : Z) :
  prog KiwoomOrderRequest :=
  _require_worker_ready identity observed_at ;;
  request ← _order_request order;
  order ← _transition order VALIDATING observed_at;
  order ← _transition order SUBMITTING observed_at;
  commit ;;
  mret request.

Definition _send_locked_order (client : OrderClient) (identity : LeaseIdentity)
  (order : TradingOrder) (observed_at : Z) : prog KiwoomSendResult :=
  request ← claim_order identity order observed_at;
  let p := place_order client request in
  out ← try_except (broker ← call (WPlace (o_id order) request) p; mret (send_outcome (inl broker)))
          (fun e => match send_outcome (inr e) with Some o => Some (mret (Some o)) | None => None end);
  match (out : option SendOutcome) with
  | Some out => _finish_send identity (o_id order) out observed_at
  | None => raise AssertionError
  end.

Definition send_new_order_once (client : OrderClient) (identity : LeaseIdentity)
  (order_id : string) (now : option Z) : prog KiwoomSendResult :=
  observed_at ← observed now;
  found ← gets (fun db => orders db !! order_id);
  match (found : option TradingOrder) with
  | None => rollback ;; raise (KiwoomOrderSenderError "ORDER_NOT_FOUND")
  | Some order =>
      if bool_decide (o_status order = CREATED)
      then _send_locked_order client identity order observed_at
      else rollback ;;
           mret (mkKiwoomSendResult (o_id order) (o_status order) (o_broker_order_id order) false)
  end.

Definition send_next_created_order (client : OrderClient) (identity : LeaseIdentity)
  (locked : string -> bool) (now : option Z) : prog (option KiwoomSendResult) :=
  observed_at ← observed now;
  found ← gets (_next_created_order_statement locked);
  match (found : option TradingOrder) with
  | None => rollback ;; mret None
  | Some order =>
      r ← _send_locked_order client identity order observed_at;
      mret (Some r)
  end.
(** ** Cancelling expired entry orders *)

Record CancelOutcome := mkCancelOutcome {
  co_status : OrderStatus;
  co_event_type : string;
  co_gate_reason : option string;
  co_cancel_broker_order_id : option string;
  co_result_code : option string;
  co_result_message : option string
}.

Definition _finish_cancel (identity : LeaseIdentity) (order_id : string) (quantity : Z)
  (out : CancelOutcome) (occurred_at : Z) : prog KiwoomCancelResult :=
  current ← lease_is_current identity None;
  if (current : bool) then
    found ← gets (fun db => orders db !! order_id);
    match (found : option TradingOrder) with
    | None => rollback ;; raise (KiwoomOrderSenderError "ORDER_NOT_FOUND")
    | Some order =>
        if bool_decide (o_status order = CANCEL_PENDING) then
          order ← (if bool_decide (co_status out <> CANCEL_PENDING)
                   then _transition order (co_status out) occurred_at else mret order);
          _event order (co_event_type out)
            (JObj (("cancel_broker_order_id_present",
                    JBool (bool_decide (is_Some (co_cancel_broker_order_id out))))
                   :: ("requested_quantity", JInt quantity)
                   :: ("status", JStr (status_text (co_status out)))
                   :: opt_field "broker_result_code" (co_result_code out) ++
                      opt_field "broker_result_message" (co_result_message out))) occurred_at ;;
          (match co_gate_reason out with
           | Some reason => _mark_gate_reconciling reason
           | None => mret tt
           end) ;;
          commit ;;
          mret (mkKiwoomCancelResult (o_id order) (o_status order) quantity true)
        else rollback ;; mret (mkKiwoomCancelResult (o_id order) (o_status order) quantity true)
    end
  else rollback ;; raise (KiwoomOrderSenderError "WORKER_LEASE_LOST_AFTER_CANCEL").

Definition cancel_outcome (r : string + exn) : option CancelOutcome :=
  match r with
  | inl broker =>
      Some (mkCancelOutcome CANCEL_PENDING "ORDER_CANCEL_ACKNOWLEDGED" None (Some broker) None None)
  | inr KiwoomOrderOutcomeUnknownError =>
      Some (mkCancelOutcome UNKNOWN "ORDER_CANCEL_OUTCOME_UNKNOWN"
              (Some "ORDER_CANCEL_OUTCOME_UNKNOWN") None None None)
  | inr (KiwoomOrderRejectedError code message) =>
      Some (mkCancelOutcome RECONCILING "ORDER_CANCEL_REJECTED" (Some "ORDER_CANCEL_REJECTED")
              None code message)
  | inr (KiwoomAdapterError _) =>
      Some (mkCancelOutcome RECONCILING "ORDER_CANCEL_REJECTED" (Some "ORDER_CANCEL_REJECTED")
              None None None)
  | inr _ => None
  end.

(** The first half of [cancel_next_expired_buy_once], up to its commit: the
    result of an order that cannot be cancelled at the broker, or the request. *)
Definition claim_cancel (identity : LeaseIdentity) (order : TradingOrder) (observed_at : Z) :
  prog (KiwoomCancelResult + KiwoomCancelRequest) :=
  _require_worker_ready identity observed_at ;;
  match (match o_broker_order_id order with
         | Some b => if String.eqb b EmptyString then None else Some b
         | None => None
         end) with
  | None =>
      order ← _transition (set_o_next_action_at order None) RECONCILING observed_at;
      _mark_gate_reconciling "UNFILLED_ORDER_BROKER_ID_MISSING" ;;
      commit ;;
      mret (inl (mkKiwoomCancelResult (o_id order) (o_status order) 0 false))
  | Some broker =>
      let quantity := o_remaining_quantity order in
      let request := mkKiwoomCancelRequest broker (o_symbol order) quantity (o_market order) in
      order ← _transition order CANCEL_PENDING observed_at;
      let order := set_o_next_action_at order None in
      modify (put_order_row order) ;;
      _event order "UNFILLED_CANCEL_REQUESTED"
        (JObj [("remaining_quantity", JInt quantity);
               ("policy", JStr (match o_unfilled_policy order with
                                | POLICY_NONE => "NONE" | POLICY_CANCEL => "CANCEL" end))])
        observed_at ;;
      commit ;;
      mret (inr request)
  end.

Definition cancel_next_expired_buy_once (client : OrderClient) (identity : LeaseIdentity)
  (locked : string -> bool) (now : option Z) : prog (option KiwoomCancelResult) :=
  observed_at ← observed now;
  found ← gets (next_expired_buy locked observed_at);
  match (found : option TradingOrder) with
  | None => rollback ;; mret None
  | Some order =>
      claimed ← claim_cancel identity order observed_at;
      match claimed with
      | inl result => mret (Some result)
      | inr request =>
          let p := cancel_order client request in
          out ← try_except (broker ← call (WCancel (o_id order) request) p;
                            mret (cancel_outcome (inl broker)))
                  (fun e => match cancel_outcome (inr e) with
                            | Some o => Some (mret (Some o)) | None => None end);
          match (out : option CancelOutcome) with
          | Some out =>
              r ← _finish_cancel identity (o_id order) (kc_quantity request) out observed_at;
              mret (Some r)
          | None => raise AssertionError
          end
      end
  end.
End Sender.
