(* ===== verification/SenderProps.v ===== *)
(** * What the order sender guarantees

    Each order is handed to the broker at most once, and so is its
    cancellation, whatever workers run, crash or lose their lease; every
    reply of the broker leads to the status and the gate it must lead to; and
    nothing is transmitted unless the current, ready worker claimed the order
    first. *)

From Stdlib Require Import ZArith Lia.
From stdpp Require Import base numbers strings list gmap relations.
From S2P Require Import Prelude Decimal Json PyTime Models Session Fence WorkerState OrderSender.

Open Scope Z_scope.

(** ** Symbolic execution *)

(** A session that has just begun a transaction on the durable database. *)
Definition session_on (db : DB) (s : Sess) : Prop := disk s = db /\ work s = db.

(** [s'] is [s] with the orders [os], apart from events and identifiers. *)
Definition orders_now (s s' : Sess) (os : gmap string TradingOrder) : Prop :=
  orders (work s') = os /\ disk s' = disk s /\ clock s' = clock s /\ wire s' = wire s /\
  gates (work s') = gates (work s) /\ leases (work s') = leases (work s).

Lemma orders_now_trans s1 s2 s3 os1 os2 :
  orders_now s1 s2 os1 -> orders_now s2 s3 os2 -> orders_now s1 s3 os2.
Proof.
  unfold orders_now. intros (_ & H1 & H2 & H3 & H4 & H5) (E & ? & ? & ? & ? & ?).
  split_and!; congruence.
Qed.

Section Exec.
Context (sha256 : string -> string).

Abbreviation _event := (OrderSender._event sha256).
Abbreviation _transition := (OrderSender._transition sha256).

Lemma kiwoom_event_spec o ty payload t Q s :
  (forall s', orders_now s s' (orders (work s)) -> Q s' (inl tt)) ->
  wp (_event o ty payload t) Q s.
Proof. intros HQ. unfold OrderSender._event. repeat wp_step. apply HQ. by repeat split. Qed.

Lemma transition_spec o st t Q s :
  (forall s', orders_now s s' (<[o_id o := with_status o st]> (orders (work s))) ->
     Q s' (inl (with_status o st))) ->
  wp (_transition o st t) Q s.
Proof.
  intros HQ. unfold OrderSender._transition. repeat wp_step. apply kiwoom_event_spec. intros s' Hs'.
  repeat wp_step. apply HQ. unfold orders_now in *. simpl in *. by destruct_and!; split_and!.
Qed.

Lemma ready_spec i t Q s :
  (holds i t (lease_row (work s)) = true -> worker_ready i (work s) = true -> Q s (inl tt)) ->
  (forall e, Q s (inr e)) ->
  wp (_require_worker_ready i t) Q s.
Proof.
  intros HQ He. unfold _require_worker_ready, lease_is_current. cbn [observed].
  repeat wp_step; auto.
Qed.

(** The row a successful claim leaves. *)
Definition claimed (o : TradingOrder) : TradingOrder :=
  with_status (with_status o VALIDATING) SUBMITTING.

Lemma claim_order_spec i o t db s0 :
  session_on db s0 ->
  wp (claim_order sha256 i o t) (fun s r =>
    wire s = wire s0 /\ clock s = clock s0 /\
    match r with
    | inl request =>
        orders (disk s) = <[o_id o := claimed o]> (orders db) /\
        work s = disk s /\ leases (disk s) = leases db /\ gates (disk s) = gates db /\
        holds i t (lease_row db) = true /\ worker_ready i db = true /\
        request = mkKiwoomOrderRequest (o_symbol o) (o_side o) (o_remaining_quantity o)
                    (o_order_type o) (o_limit_price o) (o_market o)
    | inr _ => disk s = db
    end) s0.
Proof.
  destruct s0 as [d0 k0 c0 u0 x0 w0]. intros [Hsd Hsw]. simpl in Hsd, Hsw. subst d0 k0.
  unfold claim_order. wp_step. apply ready_spec; [|by intros e; split_and!].
  intros Hh Hr. unfold _order_request. repeat wp_step; [|by split_and!].
  apply transition_spec. intros s1 H1. repeat wp_step. apply transition_spec. intros s2 H2.
  repeat wp_step. destruct (orders_now_trans _ _ _ _ _ H1 H2) as (Ho & Hd & Hc & Hw & Hg & Hl).
  simpl in *. split_and!; try done. rewrite Ho. destruct H1 as (-> & _). simpl.
  by rewrite insert_insert_eq.
Qed.

Lemma mark_gate_spec reason Q s :
  (forall s' g, orders (work s') = orders (work s) -> disk s' = disk s -> clock s' = clock s ->
     wire s' = wire s -> gate_row (work s') = Some g -> g_status g = GATE_RECONCILING ->
     Q s' (inl tt)) ->
  wp (_mark_gate_reconciling reason) Q s.
Proof.
  intros HQ. unfold _mark_gate_reconciling. repeat wp_step.
  eapply HQ; try done; [apply lookup_insert_eq|]. by destruct (gate_row (work s)).
Qed.

(** The row [_finish_send] stores. *)
Definition sent_row (o : TradingOrder) (out : SendOutcome) (t : Z) : TradingOrder :=
  armed (with_status (numbered o (so_broker_order_id out)) (so_status out)) t.

Lemma sent_row_id o out t : o_id (sent_row o out t) = o_id o.
Proof.
  unfold sent_row, armed, numbered. destruct (so_broker_order_id out); by destruct (_ && _).
Qed.

Lemma sent_row_status o out t : o_status (sent_row o out t) = so_status out.
Proof.
  unfold sent_row, armed, numbered. destruct (so_broker_order_id out); by destruct (_ && _).
Qed.

Lemma finish_send_spec i id out t db s0 :
  session_on db s0 ->
  wp (_finish_send sha256 i id out t) (fun s r =>
    wire s = wire s0 /\
    match r with
    | inl res => exists o, orders db !! id = Some o /\ o_status o = SUBMITTING /\
        holds i (clock s0) (lease_row db) = true /\
        orders (disk s) = <[o_id o := sent_row o out t]> (orders db) /\
        res = mkKiwoomSendResult (o_id o) (so_status out)
                (o_broker_order_id (sent_row o out t)) true /\
        match so_gate_reason out with
        | Some _ => option_map g_status (gate_row (disk s)) = Some GATE_RECONCILING
        | None => gates (disk s) = gates db
        end
    | inr _ => disk s = db
    end) s0.
Proof.
  destruct s0 as [d0 k0 c0 u0 x0 w0]. intros [Hsd Hsw]. simpl in Hsd, Hsw. subst d0 k0.
  unfold _finish_send, lease_is_current. cbn [observed].
  repeat wp_step; try by split_and!.
  cbn [work clock] in *. bool_to_prop.
  match goal with H : _ !! id = Some ?x |- _ => rename x into o, H into Ho end.
  apply transition_spec. intros s1 (O1 & D1 & C1 & W1 & G1 & L1). repeat wp_step.
  apply kiwoom_event_spec. intros s2 (O2 & D2 & C2 & W2 & G2 & L2). simpl in *.
  assert (Hos : orders (work s2) = <[o_id o := sent_row o out t]> (orders db)).
  { rewrite O2. simpl. rewrite O1.
    change (armed _ t) with (sent_row o out t). rewrite sent_row_id.
    replace (o_id (numbered o (so_broker_order_id out))) with (o_id o)
      by (by unfold numbered; destruct (so_broker_order_id out)).
    apply insert_insert_eq. }
  repeat wp_step.
  - apply mark_gate_spec. intros s3 g O3 D3 C3 W3 G3 S3.
    repeat wp_step; (split; [simpl; congruence|]); [|simpl; congruence].
    exists o. change (armed _ t) with (sent_row o out t). rewrite sent_row_id, sent_row_status.
    split_and!; try done; simpl; [congruence|]. rewrite G3. simpl. by rewrite S3.
  - split; [simpl; congruence|]. exists o. change (armed _ t) with (sent_row o out t).
    rewrite sent_row_id, sent_row_status. split_and!; try done; simpl; congruence.
  - split; simpl; congruence.
Qed.

(** The row of an order whose cancellation is claimed, and of one the broker
    never numbered. *)
Definition cancelling (o : TradingOrder) : TradingOrder :=
  set_o_next_action_at (with_status o CANCEL_PENDING) None.
Definition unnumbered (o : TradingOrder) : TradingOrder :=
  with_status (set_o_next_action_at o None) RECONCILING.

Lemma claim_cancel_spec i o t db s0 :
  session_on db s0 ->
  wp (claim_cancel sha256 i o t) (fun s r =>
    wire s = wire s0 /\ clock s = clock s0 /\
    match r with
    | inl (inr request) => orders (disk s) = <[o_id o := cancelling o]> (orders db) /\
        work s = disk s /\ kc_quantity request = o_remaining_quantity o /\
        holds i t (lease_row db) = true /\ worker_ready i db = true
    | inl (inl res) => orders (disk s) = <[o_id o := unnumbered o]> (orders db) /\
        work s = disk s /\ cr_sent res = false
    | inr _ => disk s = db
    end) s0.
Proof.
  destruct s0 as [d0 k0 c0 u0 x0 w0]. intros [Hsd Hsw]. simpl in Hsd, Hsw. subst d0 k0.
  unfold claim_cancel. wp_step. apply ready_spec; [|by intros e; split_and!].
  intros Hh Hr. wp_step. destruct (match o_broker_order_id o with Some _ => _ | None => _ end).
  - wp_step. apply transition_spec. intros s1 (O1 & D1 & C1 & W1 & _). repeat wp_step.
    apply kiwoom_event_spec. intros s2 (O2 & D2 & C2 & W2 & _). repeat wp_step. simpl in *.
    split_and!; try done; try congruence. rewrite O2. simpl. rewrite O1. apply insert_insert_eq.
  - wp_step. apply transition_spec. intros s1 (O1 & D1 & C1 & W1 & _). repeat wp_step.
    apply mark_gate_spec. intros s2 g O2 D2 C2 W2 _ _. repeat wp_step. simpl in *.
    split_and!; try done; try congruence. by rewrite O2, O1.
Qed.

Lemma finish_cancel_spec i id q out t db s0 :
  session_on db s0 ->
  wp (_finish_cancel sha256 i id q out t) (fun s r =>
    wire s = wire s0 /\
    match r with
    | inl res => cr_sent res = true /\ exists o, orders db !! id = Some o /\
        (disk s = db \/
         o_status o = CANCEL_PENDING /\
         (orders (disk s) = orders db \/
          orders (disk s) = <[o_id o := with_status o (co_status out)]> (orders db)) /\
         match co_gate_reason out with
         | Some _ => option_map g_status (gate_row (disk s)) = Some GATE_RECONCILING
         | None => gates (disk s) = gates db
         end)
    | inr _ => disk s = db
    end) s0.
Proof.
  destruct s0 as [d0 k0 c0 u0 x0 w0]. intros [Hsd Hsw]. simpl in Hsd, Hsw. subst d0 k0.
  unfold _finish_cancel, lease_is_current. cbn [observed]. 
  repeat wp_step; try by split_and!.
  - cbn [work clock] in *.
    match goal with H : _ !! id = Some ?x |- _ => rename x into o, H into Ho end.
    apply transition_spec. intros s1 (O1 & D1 & C1 & W1 & G1 & L1). repeat wp_step.
    apply kiwoom_event_spec. intros s2 (O2 & D2 & C2 & W2 & G2 & L2). repeat wp_step.
    + apply mark_gate_spec. intros s3 g O3 D3 C3 W3 G3 S3. repeat wp_step.
      split; [simpl in *; congruence|]. split; [done|]. exists o. split; [done|]. right.
      bool_to_prop. split; [done|]. split; [right; simpl in *; congruence|].
      simpl. rewrite G3. simpl. by rewrite S3.
    + split; [simpl in *; congruence|]. split; [done|]. exists o. split; [done|]. right.
      bool_to_prop. split; [done|]. split; [right|]; simpl in *; congruence.
  - cbn [work clock] in *.
    match goal with H : _ !! id = Some ?x |- _ => rename x into o, H into Ho end.
    apply kiwoom_event_spec. intros s2 (O2 & D2 & C2 & W2 & G2 & L2). repeat wp_step.
    + apply mark_gate_spec. intros s3 g O3 D3 C3 W3 G3 S3. repeat wp_step.
      split; [simpl in *; congruence|]. split; [done|]. exists o. split; [done|]. right.
      bool_to_prop. split; [done|]. split; [left; simpl in *; congruence|].
      simpl. rewrite G3. simpl. by rewrite S3.
    + split; [simpl in *; congruence|]. split; [done|]. exists o. split; [done|]. right.
      bool_to_prop. split; [done|]. split; [left|]; simpl in *; congruence.
  - split; [done|]. split; [done|]. eexists. split; [done|]. by left.
Qed.
End Exec.

(** ** The sender as a transition system *)

(** How far an order has gone: not yet claimed, claimed, answered. *)
Definition stage (o : TradingOrder) : Z :=
  match o_status o with CREATED => 0 | VALIDATING | SUBMITTING => 1 | _ => 2 end.

(** What the rest of the program does to the orders while workers run: it never
    deletes a row, never moves an order back to an earlier stage, and never
    re-arms the cancellation of an answered order. *)
Definition orders_advance (db db' : DB) : Prop :=
  (forall k o, orders db !! k = Some o -> exists o', orders db' !! k = Some o' /\
     stage o <= stage o' /\
     (stage o = 2 -> o_next_action_at o = None -> o_next_action_at o' = None)) /\
  (forall k o', orders db' !! k = Some o' -> o_id o' = k).

(** The durable database and everything ever handed to the broker client.  A
    worker may stop after any step: the steps of one call are separate. *)
Definition sender_state : Type := DB * list wire_call.

Inductive sender_step (sha256 : string -> string) : sender_state -> sender_state -> Prop :=
| step_claim db w i o t s0 s request :
    session_on db s0 ->
    orders db !! o_id o = Some o -> o_status o = CREATED ->
    claim_order sha256 i o t s0 = (s, inl request) ->
    sender_step sha256 (db, w) (disk s, w ++ [WPlace (o_id o) request])
| step_finish db w i id p out t s0 s r :
    session_on db s0 ->
    send_outcome p = Some out ->
    _finish_send sha256 i id out t s0 = (s, r) ->
    sender_step sha256 (db, w) (disk s, w)
| step_claim_cancel db w i o t s0 s r :
    session_on db s0 ->
    orders db !! o_id o = Some o -> expired_buy t o = true ->
    claim_cancel sha256 i o t s0 = (s, inl r) ->
    sender_step sha256 (db, w)
      (disk s, match r with inr request => w ++ [WCancel (o_id o) request] | inl _ => w end)
| step_finish_cancel db w i id q p out t s0 s r :
    session_on db s0 ->
    cancel_outcome p = Some out ->
    _finish_cancel sha256 i id q out t s0 = (s, r) ->
    sender_step sha256 (db, w) (disk s, w)
| step_others db w db' :
    orders_advance db db' -> sender_step sha256 (db, w) (db', w).

(** How many times an order, and its cancellation, were transmitted. *)
Definition places (id : string) (w : list wire_call) : Z :=
  zsum (fun c => match c with WPlace i _ => if String.eqb i id then 1 else 0 | _ => 0 end) w.
Definition cancels (id : string) (w : list wire_call) : Z :=
  zsum (fun c => match c with WCancel i _ => if String.eqb i id then 1 else 0 | _ => 0 end) w.

(** The rows of a table carry their key. *)
Definition keyed (db : DB) : Prop := forall k o, orders db !! k = Some o -> o_id o = k.

(** A transmitted order is past its claim, and a transmitted cancellation left
    no pending one. *)
Definition wire_inv (st : sender_state) : Prop :=
  keyed st.1 /\
  forall id,
    (places id st.2 = 0 \/ places id st.2 = 1 /\
       exists o, orders st.1 !! id = Some o /\ 1 <= stage o) /\
    (cancels id st.2 = 0 \/ cancels id st.2 = 1 /\
       exists o, orders st.1 !! id = Some o /\ stage o = 2 /\ o_next_action_at o = None).

(** An update of one row that advances it keeps the invariant. *)
Lemma wire_inv_advance db db' w :
  wire_inv (db, w) -> orders_advance db db' -> wire_inv (db', w).
Proof.
  intros [Hk Hw] [Hadv Hk']. split; [exact Hk'|]. intros id. simpl in *.
  destruct (Hw id) as [Hp Hc]. split.
  - destruct Hp as [?|(Hp & o & Ho & Hs)]; [by left|right]. split; [done|].
    destruct (Hadv _ _ Ho) as (o' & Ho' & Hle & _). exists o'. split; [done|lia].
  - destruct Hc as [?|(Hc & o & Ho & Hs & Hn)]; [by left|right]. split; [done|].
    destruct (Hadv _ _ Ho) as (o' & Ho' & Hle & Hnext). exists o'. split; [done|].
    split; [|auto]. unfold stage in *. destruct (o_status o'), (o_status o); lia.
Qed.

Lemma advance_put db db' o o' :
  keyed db -> orders db !! o_id o = Some o -> o_id o' = o_id o ->
  orders db' = <[o_id o := o']> (orders db) -> stage o <= stage o' ->
  (stage o = 2 -> o_next_action_at o = None -> o_next_action_at o' = None) ->
  orders_advance db db'.
Proof.
  intros Hk Ho Hid E Hs Hn. split; intros k x; rewrite E, lookup_insert; case_decide as Ek.
  - intros Hx. subst k. simplify_eq. exists o'. by split_and!.
  - intros Hx. exists x. split_and!; auto; lia.
  - intros [= <-]. congruence.
  - apply Hk.
Qed.

Lemma advance_refl db : keyed db -> orders_advance db db.
Proof. intros Hk. split; [|exact Hk]. intros k o Ho. exists o. split_and!; auto. lia. Qed.

Lemma advance_same db db' : keyed db -> orders db' = orders db -> orders_advance db db'.
Proof.
  intros Hk E. unfold orders_advance. rewrite E. by apply advance_refl.
Qed.


Lemma wire_inv_claim db db' w o request :
  wire_inv (db, w) -> orders db !! o_id o = Some o -> o_status o = CREATED ->
  orders db' = <[o_id o := claimed o]> (orders db) ->
  wire_inv (db', w ++ [WPlace (o_id o) request]).
Proof.
  intros Hinv Ho Hst E. pose proof Hinv as [Hk Hw]. simpl in *.
  assert (Hs0 : stage o = 0) by (unfold stage; by rewrite Hst).
  assert (Hadv : orders_advance db db').
  { apply (advance_put _ _ o (claimed o)); try done; rewrite Hs0; unfold stage; simpl; lia. }
  destruct (wire_inv_advance _ _ _ Hinv Hadv) as [Hk' Hw']. split; [exact Hk'|].
  intros id. simpl. unfold places, cancels. rewrite !zsum_app. simpl.
  fold (places id w) (cancels id w). rewrite !Z.add_0_r. destruct (Hw' id) as [Hp Hc].
  split; [|exact Hc]. destruct (String.eqb_spec (o_id o) id) as [<-|Hne].
  - right. destruct (proj1 (Hw (o_id o))) as [->|(_ & x & Hx & Hsx)].
    + split; [done|]. exists (claimed o). split; [simpl; rewrite E; apply lookup_insert_eq|].
      unfold stage. simpl. lia.
    + simplify_eq. lia.
  - by rewrite Z.add_0_r.
Qed.

Lemma wire_inv_claim_cancel db db' w o request :
  wire_inv (db, w) -> orders db !! o_id o = Some o -> stage o = 2 -> o_next_action_at o <> None ->
  orders db' = <[o_id o := cancelling o]> (orders db) ->
  wire_inv (db', w ++ [WCancel (o_id o) request]).
Proof.
  intros Hinv Ho Hst Hnext E. pose proof Hinv as [Hk Hw]. simpl in *.
  assert (Hadv : orders_advance db db').
  { apply (advance_put _ _ o (cancelling o)); try done; rewrite Hst; unfold stage; simpl; lia. }
  destruct (wire_inv_advance _ _ _ Hinv Hadv) as [Hk' Hw']. split; [exact Hk'|].
  intros id. simpl. unfold places, cancels. rewrite !zsum_app. simpl.
  fold (places id w) (cancels id w). rewrite !Z.add_0_r. destruct (Hw' id) as [Hp Hc].
  split; [exact Hp|]. destruct (String.eqb_spec (o_id o) id) as [<-|Hne].
  - right. destruct (proj2 (Hw (o_id o))) as [->|(_ & x & Hx & _ & Hnx)].
    + split; [done|]. exists (cancelling o).
      split; [simpl; rewrite E; apply lookup_insert_eq|]. done.
    + simplify_eq.
  - by rewrite Z.add_0_r.
Qed.

Lemma expired_buy_stage t o :
  expired_buy t o = true -> stage o = 2 /\ o_next_action_at o <> None.
Proof.
  unfold expired_buy. intros H. bool_to_prop. unfold stage.
  split; [by destruct (o_status o)|by destruct (o_next_action_at o)].
Qed.

(** Every recorded outcome answers the order. *)
Lemma send_outcome_answered p out o :
  send_outcome p = Some out -> o_status o = so_status out -> stage o = 2.
Proof.
  destruct p as [b|e]; [|destruct e]; simpl; intros [= <-] E; unfold stage; by rewrite E.
Qed.

Lemma cancel_outcome_answered p out o :
  cancel_outcome p = Some out -> o_status o = co_status out -> stage o = 2.
Proof.
  destruct p as [b|e]; [|destruct e]; simpl; intros [= <-] E; unfold stage; by rewrite E.
Qed.

Lemma sender_step_inv sha256 st st' : sender_step sha256 st st' -> wire_inv st -> wire_inv st'.
Proof.
  destruct 1 as [db w i o t s0 s request H0 Ho Hst Hrun|db w i id p out t s0 s r H0 Hp Hrun
    |db w i o t s0 s r H0 Ho Hexp Hrun|db w i id q p out t s0 s r H0 Hp Hrun|db w db' Hadv];
    intros Hinv; pose proof (proj1 Hinv) as Hk; simpl in Hk.
  - pose proof (wp_elim _ _ _ _ _ (claim_order_spec sha256 i o t db s0 H0) Hrun)
      as (_ & _ & E & _). by eapply wire_inv_claim.
  - pose proof (wp_elim _ _ _ _ _ (finish_send_spec sha256 i id out t db s0 H0) Hrun) as [_ H].
    destruct r as [res|e]; [|by rewrite H]. destruct H as (o & Ho & Hs & _ & E & _).
    pose proof (Hk _ _ Ho) as <-. eapply wire_inv_advance; [exact Hinv|].
    assert (Hs1 : stage o = 1) by (unfold stage; by rewrite Hs).
    apply (advance_put _ _ o (sent_row o out t)); try done; [apply sent_row_id| |lia].
    rewrite Hs1, (send_outcome_answered _ _ _ Hp (sent_row_status o out t)). lia.
  - destruct (expired_buy_stage _ _ Hexp) as [Hs Hn].
    pose proof (wp_elim _ _ _ _ _ (claim_cancel_spec sha256 i o t db s0 H0) Hrun)
      as (_ & _ & H). destruct r as [res|request].
    + destruct H as [E _]. eapply wire_inv_advance; [exact Hinv|].
      by apply (advance_put _ _ o (unnumbered o)); rewrite ?Hs; unfold stage; simpl.
    + destruct H as [E _]. by eapply wire_inv_claim_cancel.
  - pose proof (wp_elim _ _ _ _ _ (finish_cancel_spec sha256 i id q out t db s0 H0) Hrun)
      as [_ H]. destruct r as [res|e]; [|by rewrite H].
    destruct H as (_ & o & Ho & [->|(Hs & [E|E] & _)]); [done| |].
    + eapply wire_inv_advance; [exact Hinv|]. by apply advance_same.
    + pose proof (Hk _ _ Ho) as <-. eapply wire_inv_advance; [exact Hinv|].
      assert (Hs2 : stage o = 2) by (unfold stage; by rewrite Hs).
      apply (advance_put _ _ o (with_status o (co_status out))); try done.
      rewrite Hs2, (cancel_outcome_answered _ _ (with_status o (co_status out)) Hp eq_refl). lia.
  - by eapply wire_inv_advance.
Qed.

(** ** The handlers as runs of the system *)

(** What other sessions do while a call is pending respects the orders. *)
Definition polite {A} (p : Pending A) : Prop :=
  forall d, keyed d -> orders_advance d (meanwhile p d).

Definition polite_client (c : OrderClient) : Prop :=
  (forall request, polite (place_order c request)) /\
  (forall request, polite (cancel_order c request)).

(** A call of the sender. *)
Inductive sender_call :=
| SendOne (order_id : string)
| SendNext (locked : string -> bool)
| CancelNext (locked : string -> bool).

Section Handlers.
Context (sha256 : string -> string) (client : OrderClient) (i : LeaseIdentity).

Definition sender_exec (c : sender_call) : prog unit :=
  match c with
  | SendOne id => send_new_order_once sha256 client i id None ;; mret tt
  | SendNext locked => send_next_created_order sha256 client i locked None ;; mret tt
  | CancelNext locked => cancel_next_expired_buy_once sha256 client i locked None ;; mret tt
  end.

(** The run transmits [new] and is a sequence of steps. *)
Definition is_run (db : DB) (w : list wire_call) (s0 s : Sess) : Prop :=
  exists new, wire s = wire s0 ++ new /\
    rtc (sender_step sha256) (db, w) (disk s, w ++ new).

Lemma is_run_idle db w s0 s : wire s = wire s0 -> disk s = db -> is_run db w s0 s.
Proof. intros Hw Hd. exists []. rewrite !app_nil_r, Hd. split; [done|]. apply rtc_refl. Qed.

(** The two halves of a transmission, with the pending call between them. *)
Lemma is_run_pending db w s0 s1 s c {A} (p : Pending A) :
  wire s1 = wire s0 -> keyed (disk s1) -> polite p ->
  sender_step sha256 (db, w) (disk s1, w ++ [c]) ->
  wire s = wire s1 ++ [c] ->
  (disk s = meanwhile p (disk s1) \/
   sender_step sha256 (meanwhile p (disk s1), w ++ [c]) (disk s, w ++ [c])) ->
  is_run db w s0 s.
Proof.
  intros Hw1 Hk Hp Hclaim Hw Hend. exists [c]. split; [congruence|].
  eapply rtc_l; [exact Hclaim|].
  assert (Hoth : sender_step sha256 (disk s1, w ++ [c]) (meanwhile p (disk s1), w ++ [c]))
    by (constructor; by apply Hp).
  eapply rtc_l; [exact Hoth|]. destruct Hend as [->|Hend]; [apply rtc_refl|by apply rtc_once].
Qed.

Lemma keyed_put db db' (o o' : TradingOrder) :
  keyed db -> o_id o' = o_id o -> orders db' = <[o_id o := o']> (orders db) -> keyed db'.
Proof.
  intros Hk Hid E k x. rewrite E, lookup_insert. case_decide as Ek; [|apply Hk].
  intros [= <-]. congruence.
Qed.

Lemma send_locked_run db w o t s0 :
  session_on db s0 -> keyed db -> polite_client client ->
  orders db !! o_id o = Some o -> o_status o = CREATED ->
  wp (_send_locked_order sha256 client i o t) (fun s _ => is_run db w s0 s) s0.
Proof.
  intros Hs0 Hk [Hpol _] Ho Hst. unfold _send_locked_order. wp_step.
  pose proof (claim_order_spec sha256 i o t db s0 Hs0) as Hclaim.
  unfold wp in Hclaim |- *. destruct (claim_order sha256 i o t s0) as [s1 r] eqn:Erun.
  destruct Hclaim as (Hw1 & _ & Hclaim). destruct r as [request|e]; simpl;
    [|by apply is_run_idle]. destruct Hclaim as (E1 & Hwd & _).
  assert (Hk1 : keyed (disk s1)) by (by apply (keyed_put db _ o (claimed o))).
  assert (Hstep : sender_step sha256 (db, w) (disk s1, w ++ [WPlace (o_id o) request]))
    by (by eapply step_claim).
  set (p := place_order client request) in *.
  apply wp_bind, wp_try, wp_bind. unfold wp at 1, call.
  set (s2 := mkSess _ _ _ _ _ _ _). assert (Hs2 : session_on (meanwhile p (disk s1)) s2) by done.
  assert (Hraised : is_run db w s0 s2)
    by (eapply (is_run_pending _ _ _ s1 s2 _ p); eauto; by left).
  assert (Hfin : forall out, send_outcome (reply p) = Some out ->
    wp (_finish_send sha256 i (o_id o) out t) (fun s _ => is_run db w s0 s) s2).
  { intros out Hout. unfold wp.
    pose proof (finish_send_spec sha256 i (o_id o) out t _ s2 Hs2) as Hf. unfold wp in Hf.
    destruct (_finish_send _ _ _ _ _ s2) as [s3 r3] eqn:Ef. destruct Hf as [Hw3 _].
    eapply (is_run_pending _ _ _ s1 s3 _ p); eauto. right. by eapply step_finish. }
  destruct (reply p) as [broker|e] eqn:Er; simpl.
  - apply wp_ret. simpl. by apply Hfin.
  - destruct e; simpl; try exact Hraised; by apply Hfin.
Qed.
Lemma cancel_run db w locked t s0 :
  session_on db s0 -> keyed db -> polite_client client ->
  wp (cancel_next_expired_buy_once sha256 client i locked (Some t))
    (fun s _ => is_run db w s0 s) s0.
Proof.
  intros Hs0 Hk [_ Hpol]. pose proof Hs0 as [Hd Hwk].
  unfold cancel_next_expired_buy_once. cbn [observed]. do 5 wp_step. rewrite Hwk.
  destruct (next_expired_buy locked t db) as [o|] eqn:Eo;
    [|repeat wp_step; by apply is_run_idle].
  apply first_row_Some in Eo as [Hexp [k Ho]]. apply andb_true_iff in Hexp as [Hexp _].
  pose proof (Hk _ _ Ho) as <-. wp_step. wp_step.
  pose proof (claim_cancel_spec sha256 i o t db s0 Hs0) as Hclaim.
  unfold wp in Hclaim |- *. destruct (claim_cancel sha256 i o t s0) as [s1 r] eqn:Erun.
  destruct Hclaim as (Hw1 & _ & Hclaim). destruct r as [[res|request]|e]; simpl;
    [| |by apply is_run_idle].
  { exists []. rewrite !app_nil_r. split; [done|]. apply rtc_once.
    by eapply (step_claim_cancel _ _ _ i o t s0 s1 (inl res)). }
  destruct Hclaim as (E1 & Hwd & _).
  assert (Hk1 : keyed (disk s1)) by (by apply (keyed_put db _ o (cancelling o))).
  assert (Hstep : sender_step sha256 (db, w) (disk s1, w ++ [WCancel (o_id o) request]))
    by (by eapply (step_claim_cancel _ _ _ i o t s0 s1 (inr request))).
  set (p := cancel_order client request) in *.
  apply wp_bind, wp_try, wp_bind. unfold wp at 1, call.
  set (s2 := mkSess _ _ _ _ _ _ _). assert (Hs2 : session_on (meanwhile p (disk s1)) s2) by done.
  assert (Hraised : is_run db w s0 s2)
    by (eapply (is_run_pending _ _ _ s1 s2 _ p); eauto; by left).
  assert (Hfin : forall out, cancel_outcome (reply p) = Some out ->
    wp (r ← _finish_cancel sha256 i (o_id o) (kc_quantity request) out t; mret (Some r))
      (fun s _ => is_run db w s0 s) s2).
  { intros out Hout. apply wp_bind. unfold wp.
    pose proof (finish_cancel_spec sha256 i (o_id o) (kc_quantity request) out t _ s2 Hs2) as Hf.
    unfold wp in Hf. destruct (_finish_cancel _ _ _ _ _ _ s2) as [s3 r3] eqn:Ef.
    destruct Hf as [Hw3 _].
    assert (is_run db w s0 s3).
    { eapply (is_run_pending _ _ _ s1 s3 _ p); eauto. right. by eapply step_finish_cancel. }
    by destruct r3. }
  destruct (reply p) as [broker|e] eqn:Er; simpl.
  - apply wp_ret. simpl. by apply Hfin.
  - destruct e; simpl; try exact Hraised; by apply Hfin.
Qed.

Lemma sender_exec_run db w c s0 :
  session_on db s0 -> keyed db -> polite_client client ->
  wp (sender_exec c) (fun s _ => is_run db w s0 s) s0.
Proof.
  intros Hs0 Hk Hpol. pose proof Hs0 as [Hd Hwk].
  assert (Hunit : forall A (m : prog A), wp m (fun s _ => is_run db w s0 s) s0 ->
    wp (m ;; mret tt) (fun s _ => is_run db w s0 s) s0).
  { intros A m Hm. apply wp_bind. eapply wp_mono; [exact Hm|]. by intros s [a|e]. }
  destruct c as [id|locked|locked]; simpl; apply Hunit.
  - unfold send_new_order_once. cbn [observed]. do 5 wp_step. rewrite Hwk.
    destruct (orders db !! id) as [o|] eqn:Eo; [|repeat wp_step; by apply is_run_idle].
    wp_step. wp_step; [|repeat wp_step; by apply is_run_idle].
    bool_to_prop. pose proof (Hk _ _ Eo) as <-. by apply send_locked_run.
  - unfold send_next_created_order. cbn [observed]. do 5 wp_step. rewrite Hwk.
    destruct (_next_created_order_statement locked db) as [o|] eqn:Eo;
      [|repeat wp_step; by apply is_run_idle].
    apply first_row_Some in Eo as [Hf [k Ho]]. bool_to_prop. pose proof (Hk _ _ Ho) as <-.
    wp_step. wp_step. eapply wp_mono; [by apply (send_locked_run db w)|]. by intros s [r|e].
  - apply (cancel_run db w locked (clock s0)) in Hs0; [|done|done].
    unfold cancel_next_expired_buy_once in *. cbn [observed] in *. exact Hs0.
Qed.
End Handlers.

(** ** Properties *)

(** C6: no order is ever handed to the broker twice, and no cancellation
    either.  Any number of workers may claim, transmit, record outcomes, crash
    between any two of these steps or lose their lease, with any replies of the
    broker, while the rest of the program never moves an order back to an
    earlier stage; in every reachable state each order has been transmitted at
    most once and its cancellation at most once. *)
Theorem transmitted_at_most_once sha256 db0 db w id :
  keyed db0 -> rtc (sender_step sha256) (db0, []) (db, w) ->
  places id w <= 1 /\ cancels id w <= 1.
Proof.
  intros Hk Hrun. assert (Hinv : wire_inv (db0, [])) by (split; [exact Hk|]; by split; left).
  assert (H : wire_inv (db, w)).
  { revert Hinv Hrun. generalize (db0, @nil wire_call) (db, w). intros x y Hx Hrun.
    induction Hrun as [|x y z Hs _ IH]; [done|]. apply IH. by eapply sender_step_inv. }
  destruct (proj2 H id) as [Hp Hc]. simpl in *. lia.
Qed.

(** C7: the handlers are runs of that system.  Whatever a call of the sender
    returns or raises, what it transmitted and what it left in the database
    are those of a sequence of steps, so C14 applies to every interleaving of
    calls; in particular a claim is committed before its transmission. *)
Theorem sender_refines_steps sha256 client i c db w now ids s r :
  keyed db -> polite_client client ->
  sender_exec sha256 client i c (open_session db now ids) = (s, r) ->
  rtc (sender_step sha256) (db, w) (disk s, w ++ wire s).
Proof.
  intros Hk Hpol Hrun.
  assert (Hs0 : session_on db (open_session db now ids)) by done.
  pose proof (sender_exec_run sha256 client i db w c _ Hs0 Hk Hpol) as H.
  eapply wp_elim in H; [|exact Hrun]. destruct H as (new & -> & Hsteps). exact Hsteps.
Qed.

(** What a reply of the broker must lead to: the status of the order, its
    broker number, when its unfilled rest is to be cancelled, and whether the
    trading gate is closed for reconciliation. *)
Definition recorded (o : TradingOrder) (t : Z) (p : string + exn) (db db' : DB) : Prop :=
  exists o', orders db' !! o_id o = Some o' /\ o_remaining_quantity o' = o_remaining_quantity o /\
  match p with
  | inl broker =>
      o_status o' = ACKNOWLEDGED /\ o_broker_order_id o' = Some broker /\
      o_next_action_at o' = (if bool_decide (o_unfilled_policy o = POLICY_CANCEL)
                             then Some (t + seconds (o_fill_timeout_seconds o))
                             else o_next_action_at o) /\ gates db' = gates db
  | inr KiwoomOrderOutcomeUnknownError =>
      o_status o' = UNKNOWN /\ option_map g_status (gate_row db') = Some GATE_RECONCILING
  | inr (KiwoomOrderRejectedError _ _) | inr (KiwoomAdapterError _) =>
      o_status o' = REJECTED /\ gates db' = gates db
  | inr _ => o_status o' = SUBMITTING /\ gates db' = gates db
  end.

Lemma recorded_sent o p out db d1 db' t :
  orders d1 !! o_id o = Some (claimed o) -> gates d1 = gates db ->
  send_outcome p = Some out ->
  orders db' = <[o_id o := sent_row (claimed o) out t]> (orders d1) ->
  match so_gate_reason out with
  | Some _ => option_map g_status (gate_row db') = Some GATE_RECONCILING
  | None => gates db' = gates d1
  end -> recorded o t p db db'.
Proof.
  intros Ho Hg Hp E Hgate. exists (sent_row (claimed o) out t).
  rewrite E, lookup_insert_eq. split; [done|].
  destruct p as [b|e]; [|destruct e]; simpl in Hp; simplify_eq; simpl in *;
    unfold sent_row, armed, claimed; simpl; rewrite ?Hg in *; try by split_and!.
  destruct (bool_decide (o_unfilled_policy o = POLICY_CANCEL)); by split_and!.
Qed.

(** Every reply of the broker to a placement is recorded as it must be:
    an acknowledgement stores the broker's number and arms the cancellation of
    an entry order, a rejection marks the order REJECTED, an unknown outcome
    marks it UNKNOWN and closes the gate for reconciliation, and an exception
    outside the broker's leaves the order SUBMITTING, for no later call will
    send it again.  A worker that lost its lease while the call was pending
    records nothing. *)
Theorem reply_is_recorded sha256 client i db now ids o s r :
  orders db !! o_id o = Some o -> o_status o = CREATED ->
  meanwhile (place_order client (mkKiwoomOrderRequest (o_symbol o) (o_side o)
    (o_remaining_quantity o) (o_order_type o) (o_limit_price o) (o_market o))) = id ->
  send_new_order_once sha256 client i (o_id o) None (open_session db now ids) = (s, r) ->
  wire s <> [] ->
  let p := place_order client (mkKiwoomOrderRequest (o_symbol o) (o_side o)
    (o_remaining_quantity o) (o_order_type o) (o_limit_price o) (o_market o)) in
  match r with
  | inl res => recorded o now (reply p) db (disk s) /\ sr_sent res = true /\
      holds i (now + elapsed p) (lease_row db) = true
  | inr e => exists o', orders (disk s) !! o_id o = Some o' /\ o_status o' = SUBMITTING
  end.
Proof.
  intros Ho Hst Hid Hrun Hwire p. revert Hrun.
  unfold send_new_order_once. unfold mbind, prog_bind. cbn -[_send_locked_order]. rewrite Ho.
  rewrite bool_decide_true by done.
  unfold _send_locked_order, mbind, prog_bind at 1.
  set (s0 := open_session db now ids).
  pose proof (claim_order_spec sha256 i o now db s0 ltac:(done)) as Hclaim. unfold wp in Hclaim.
  destruct (claim_order sha256 i o now s0) as [s1 [request|e]] eqn:Erun.
  2:{ intros [= <- <-]. by destruct Hclaim as [Hw _]. }
  destruct Hclaim as (Hw1 & Hc1 & E1 & Hwk & Hl1 & Hg1 & _ & _ & Hreq).
  subst request. fold p in Hid |- *. intros Hrun.
  set (s2 := mkSess (disk s1) (disk s1) (clock s1 + elapsed p) (uuids s1) (uuid_ix s1)
    (wire s1 ++ [WPlace (o_id o) (mkKiwoomOrderRequest (o_symbol o) (o_side o)
       (o_remaining_quantity o) (o_order_type o) (o_limit_price o) (o_market o))]) (secret_files s1)).
  assert (Hcl : orders (disk s1) !! o_id o = Some (claimed o))
    by (rewrite E1; apply lookup_insert_eq).
  assert (Hfin : forall out, send_outcome (reply p) = Some out ->
    _finish_send sha256 i (o_id o) out now s2 = (s, r) ->
    match r with
    | inl res => recorded o now (reply p) db (disk s) /\ sr_sent res = true /\
        holds i (now + elapsed p) (lease_row db) = true
    | inr e => exists o', orders (disk s) !! o_id o = Some o' /\ o_status o' = SUBMITTING
    end).
  { intros out Hout Hf.
    pose proof (wp_elim _ _ _ _ _ (finish_send_spec sha256 i (o_id o) out now (disk s1) s2
      ltac:(done)) Hf) as [_ H]. destruct r as [res|e]; [|rewrite H; by eexists].
    destruct H as (o' & Ho' & _ & Hh & E & -> & Hgate). rewrite Hcl in Ho'. injection Ho' as <-.
    split; [by eapply recorded_sent|]. split; [done|]. simpl in Hh. rewrite Hc1 in Hh.
    unfold lease_row in *. by rewrite Hl1 in Hh. }
  unfold try_except, call in Hrun. cbn in Hrun. rewrite Hid in Hrun. change (id (disk s1)) with (disk s1) in Hrun.
  fold s2 in Hrun.
  destruct (reply p) as [b|e] eqn:Er; simpl in Hrun.
  - by apply (Hfin _ eq_refl).
  - destruct e; simpl in Hrun; try (by apply (Hfin _ eq_refl));
      injection Hrun as <- <-; by eexists.
Qed.

(** A transmission made by the current, ready worker, for an order it claimed. *)
Definition sent_by_ready_worker (i : LeaseIdentity) (now : Z) (db : DB) (new : list wire_call) :
  Prop :=
  new = [] \/
  (holds i now (lease_row db) = true /\ worker_ready i db = true /\ exists o,
     orders db !! o_id o = Some o /\
     ((o_status o = CREATED /\
       new = [WPlace (o_id o) (mkKiwoomOrderRequest (o_symbol o) (o_side o)
                (o_remaining_quantity o) (o_order_type o) (o_limit_price o) (o_market o))]) \/
      (expired_buy now o = true /\ exists request,
         new = [WCancel (o_id o) request] /\ kc_quantity request = o_remaining_quantity o))).

Section Ready.
Context (sha256 : string -> string) (client : OrderClient) (i : LeaseIdentity).

Lemma finish_wire {A} (m : prog A) s0 (Q : Sess -> A + exn -> Prop) (P : list wire_call -> Prop) :
  wp m Q s0 -> (forall s r, Q s r -> wire s = wire s0) -> P (wire s0) ->
  wp m (fun s _ => P (wire s)) s0.
Proof. intros H1 H2 HP. eapply wp_mono; [exact H1|]. intros s r Hq. by rewrite (H2 _ _ Hq). Qed.

Lemma send_locked_ready db now ids o :
  orders db !! o_id o = Some o -> o_status o = CREATED ->
  wp (_send_locked_order sha256 client i o now)
    (fun s _ => sent_by_ready_worker i now db (wire s)) (open_session db now ids).
Proof.
  intros Ho Hst. unfold _send_locked_order. wp_step.
  eapply wp_mono; [apply (claim_order_spec sha256 i o now db); done|].
  intros s1 [request|e] (Hw1 & _ & H); simpl; [|rewrite Hw1; by left].
  destruct H as (_ & Hwk & _ & _ & Hh & Hr & ->).
  match goal with |- context [WPlace _ ?q] => set (request := q) end.
  set (p := place_order client request). apply wp_bind, wp_try, wp_bind. unfold wp at 1, call.
  set (s2 := mkSess _ _ _ _ _ _ _).
  assert (Hs2 : sent_by_ready_worker i now db (wire s2)).
  { right. split; [done|]. split; [done|]. exists o. split; [done|]. left. split; [done|].
    simpl. by rewrite Hw1. }
  assert (Hfin : forall out, wp (_finish_send sha256 i (o_id o) out now)
    (fun s _ => sent_by_ready_worker i now db (wire s)) s2).
  { intros out. eapply (finish_wire _ s2 _ (sent_by_ready_worker i now db));
      [apply (finish_send_spec sha256 i (o_id o) out now (disk s2)); done| |exact Hs2].
    by intros s r [? _]. }
  destruct (reply p) as [b|e]; simpl; [apply wp_ret; simpl; apply Hfin|].
  destruct e; simpl; try exact Hs2; apply Hfin.
Qed.

Lemma cancel_ready db now ids locked :
  keyed db ->
  wp (cancel_next_expired_buy_once sha256 client i locked None)
    (fun s _ => sent_by_ready_worker i now db (wire s)) (open_session db now ids).
Proof.
  intros Hk. unfold cancel_next_expired_buy_once. cbn [observed]. do 5 wp_step.
  cbn [work clock open_session].
  destruct (next_expired_buy locked now db) as [o|] eqn:Eo; [|repeat wp_step; by left].
  apply first_row_Some in Eo as [Hexp [k Ho]]. apply andb_true_iff in Hexp as [Hexp _].
  pose proof (Hk _ _ Ho) as <-. wp_step. wp_step.
  eapply wp_mono; [apply (claim_cancel_spec sha256 i o now db); done|].
  intros s1 [[res|request]|e] (Hw1 & _ & H); simpl;
    [apply wp_ret; rewrite Hw1; by left| |rewrite Hw1; by left].
  destruct H as (_ & Hwk & Hq & Hh & Hr).
  set (p := cancel_order client request). apply wp_bind, wp_try, wp_bind. unfold wp at 1, call.
  set (s2 := mkSess _ _ _ _ _ _ _).
  assert (Hs2 : sent_by_ready_worker i now db (wire s2)).
  { right. split; [done|]. split; [done|]. exists o. split; [done|]. right. split; [done|].
    exists request. simpl. by rewrite Hw1. }
  assert (Hfin : forall out, wp (r ← _finish_cancel sha256 i (o_id o) (kc_quantity request) out now;
      mret (Some r)) (fun s _ => sent_by_ready_worker i now db (wire s)) s2).
  { intros out. apply wp_bind. eapply wp_mono;
      [apply (finish_cancel_spec sha256 i (o_id o) (kc_quantity request) out now (disk s2)); done|].
    intros s [r|e] [Hw _]; simpl; [apply wp_ret|]; by rewrite Hw. }
  destruct (reply p) as [b|e]; simpl; [apply wp_ret; simpl; apply Hfin|].
  destruct e; simpl; try exact Hs2; apply Hfin.
Qed.
End Ready.

(** C8: a call of the sender transmits at most one request, and only when its
    identity holds the lease, the worker is READY and connected under that very
    token and the trading gate is READY; the request is the placement of a
    CREATED order with its remaining quantity, or the cancellation of the rest
    of an expired entry order. *)
Theorem transmits_only_when_ready sha256 client i c db now ids s r :
  keyed db -> sender_exec sha256 client i c (open_session db now ids) = (s, r) ->
  sent_by_ready_worker i now db (wire s).
Proof.
  intros Hk Hrun.
  assert (Hw : wp (sender_exec sha256 client i c)
    (fun s _ => sent_by_ready_worker i now db (wire s)) (open_session db now ids)).
  { assert (Hunit : forall A (m : prog A) s0,
      wp m (fun s _ => sent_by_ready_worker i now db (wire s)) s0 ->
      wp (m ;; mret tt) (fun s _ => sent_by_ready_worker i now db (wire s)) s0).
    { intros A m s0 Hm. apply wp_bind. eapply wp_mono; [exact Hm|]. by intros s' [a|e]. }
    destruct c as [id|locked|locked]; simpl; apply Hunit.
    - unfold send_new_order_once. cbn [observed]. do 5 wp_step. cbn [work open_session].
      destruct (orders db !! id) as [o|] eqn:Eo; [|repeat wp_step; by left].
      wp_step. wp_step; [|repeat wp_step; by left].
      bool_to_prop. pose proof (Hk _ _ Eo) as <-. by apply send_locked_ready.
    - unfold send_next_created_order. cbn [observed]. do 5 wp_step. cbn [work open_session].
      destruct (_next_created_order_statement locked db) as [o|] eqn:Eo; [|repeat wp_step; by left].
      apply first_row_Some in Eo as [Hf [k Ho]]. bool_to_prop. pose proof (Hk _ _ Ho) as <-.
      do 2 wp_step. eapply wp_mono; [by apply (send_locked_ready sha256 client i db now ids)|].
      by intros s' [a|e].
    - by apply cancel_ready. }
  eapply wp_elim in Hw; [|exact Hrun]. exact Hw.
Qed.

(** ** A worker sends an entry order *)

Definition demo_hash (text : string) : string := text.
Definition demo_uuids (n : nat) : string := Nat.iter n (fun s => s +:+ ".") "e".
Definition demo_worker : LeaseIdentity := mkIdentity "w" 1.

Definition demo_entry : TradingOrder :=
  mkTradingOrder "o1" "i1" "g1" None ACCOUNT_ALIAS "MOCK" "005930" "KRX" BUY LIMIT
    (Some (Dec 700000000 (-4))) 10 0 0 10 CREATED "key" "hash" None 0 POLICY_CANCEL 10 0 0 None
    20000 "corr" 1 (seconds 100).

Definition demo_db : DB :=
  put_order_row demo_entry
    (put_gate (mkTradingGate ACCOUNT_ALIAS "MOCK" GATE_READY None 1)
      (put_worker (mkBrokerWorkerState ACCOUNT_ALIAS "MOCK" W_READY 1 true true (seconds 100)
                     None None None (seconds 0) (seconds 100))
        (put_lease (mkBrokerLease ACCOUNT_ALIAS "w" 1 (seconds 130) 1 (seconds 100)) empty_db))).

(** The broker answers after two seconds; nothing else happens meanwhile. *)
Definition demo_client (r : string + exn) : OrderClient :=
  mkOrderClient (fun _ => mkPending r id 2000000) (fun _ => mkPending (inl "C1") id 2000000).

Definition demo_send (r : string + exn) (now : Z) (db : DB) : Sess * (unit + exn) :=
  sender_exec demo_hash (demo_client r) demo_worker (SendOne "o1") (open_session db now demo_uuids).

(** The outcome is unknown; sending again transmits nothing. *)
Definition demo_unknown : Sess := fst (demo_send (inr KiwoomOrderOutcomeUnknownError) (seconds 101) demo_db).
Definition demo_again : Sess := fst (demo_send (inl "B1") (seconds 105) (disk demo_unknown)).

Example demo_wire :
  wire demo_unknown = [WPlace "o1" (mkKiwoomOrderRequest "005930" BUY 10 LIMIT
                                      (Some (Dec 700000000 (-4))) "KRX")] /\
  wire demo_again = [].
Proof. vm_compute. done. Qed.

Lemma demo_keyed : keyed demo_db.
Proof.
  intros k o H. pose proof (rows_forallb (fun row => String.eqb (o_id (snd row)) (fst row))
    (orders demo_db) ltac:(vm_compute; reflexivity) k o H) as E. by apply String.eqb_eq in E.
Qed.

Lemma demo_polite r : polite_client (demo_client r).
Proof. split; intros request d Hd; by apply advance_refl. Qed.

Lemma demo_run r now db w :
  keyed db -> rtc (sender_step demo_hash) (db, w)
    (disk (fst (demo_send r now db)), w ++ wire (fst (demo_send r now db))).
Proof.
  intros Hk. pose proof (sender_exec_run demo_hash (demo_client r) demo_worker db w (SendOne "o1")
    (open_session db now demo_uuids) ltac:(done) Hk (demo_polite r)) as H.
  unfold wp in H. unfold demo_send. destruct (sender_exec _ _ _ _ _) as [s x].
  destruct H as (new & E & Hs). simpl in *. by rewrite E.
Qed.

Lemma demo_unknown_keyed : keyed (disk demo_unknown).
Proof.
  intros k o H. pose proof (rows_forallb (fun row => String.eqb (o_id (snd row)) (fst row))
    (orders (disk demo_unknown)) ltac:(vm_compute; reflexivity) k o H) as E.
  by apply String.eqb_eq in E.
Qed.

Example transmitted_at_most_once_witness :
  places "o1" (wire demo_unknown ++ wire demo_again) <= 1 /\
  cancels "o1" (wire demo_unknown ++ wire demo_again) <= 1.
Proof.
  apply (transmitted_at_most_once demo_hash demo_db (disk demo_again)); [exact demo_keyed|].
  transitivity (disk demo_unknown, wire demo_unknown).
  - exact (demo_run (inr KiwoomOrderOutcomeUnknownError) (seconds 101) demo_db [] demo_keyed).
  - exact (demo_run (inl "B1") (seconds 105) (disk demo_unknown) (wire demo_unknown)
             demo_unknown_keyed).
Defined.

Example sender_refines_steps_witness :
  rtc (sender_step demo_hash) (demo_db, []) (disk demo_unknown, [] ++ wire demo_unknown) /\
  places "o1" (wire demo_unknown) = 1.
Proof.
  split; [|vm_compute; reflexivity].
  apply (sender_refines_steps demo_hash (demo_client (inr KiwoomOrderOutcomeUnknownError))
    demo_worker (SendOne "o1") demo_db [] (seconds 101) demo_uuids demo_unknown
    (snd (demo_send (inr KiwoomOrderOutcomeUnknownError) (seconds 101) demo_db)) demo_keyed
    (demo_polite _)).
  unfold demo_unknown, demo_send. apply surjective_pairing.
Defined.

Example transmits_only_when_ready_witness :
  sent_by_ready_worker demo_worker (seconds 101) demo_db (wire demo_unknown) /\
  wire demo_unknown <> [].
Proof.
  split; [|vm_compute; discriminate].
  apply (transmits_only_when_ready demo_hash (demo_client (inr KiwoomOrderOutcomeUnknownError))
    demo_worker (SendOne "o1") demo_db (seconds 101) demo_uuids demo_unknown
    (snd (demo_send (inr KiwoomOrderOutcomeUnknownError) (seconds 101) demo_db)) demo_keyed).
  unfold demo_unknown, demo_send. apply surjective_pairing.
Defined.

Definition demo_direct : Sess * (KiwoomSendResult + exn) :=
  send_new_order_once demo_hash (demo_client (inl "B1")) demo_worker "o1" None
    (open_session demo_db (seconds 101) demo_uuids).

Example reply_is_recorded_witness :
  match demo_direct with
  | (s, inl res) => recorded demo_entry (seconds 101) (inl "B1") demo_db (disk s) /\
      sr_sent res = true /\ holds demo_worker (seconds 101 + 2000000) (lease_row demo_db) = true
  | (_, inr _) => False
  end.
Proof.
  destruct demo_direct as [s [res|e]] eqn:E; [|vm_compute in E; discriminate E].
  unfold demo_direct in E.
  refine (reply_is_recorded demo_hash (demo_client (inl "B1")) demo_worker demo_db (seconds 101)
    demo_uuids demo_entry s (inl res) _ eq_refl eq_refl E _).
  - vm_compute. reflexivity.
  - intros Hw. assert (Hw' : wire (fst demo_direct) = []) by (unfold demo_direct; by rewrite E).
    vm_compute in Hw'. discriminate Hw'.
Defined.
