(* ===== verification/RiskCalc.v ===== *)
(** * Risk calculations

    [risk_calc.py]: the read-side functions over the ledger the Guard uses.  A
    query's rows come in key order where the code leaves the order to the
    database.  A pure result that may raise is [exn + A]. *)

From Stdlib Require Import ZArith Lia.
From stdpp Require Import base numbers strings list gmap.
From S2P Require Import Prelude Decimal Json PyTime Models Session PaperBroker.

Open Scope Z_scope.

(** ** Prices *)

Definition _latest_price (db : DB) (symbol market : string) : option decimal :=
  stream ← streams db !! (market, symbol);
  snapshot_id ← mss_current_snapshot_id stream;
  snapshot ← snapshots db !! snapshot_id;
  if bool_decide (ms_quality snapshot = Q_NORMAL) then Some (ms_last_price snapshot) else None.

(** The quotients are by a positive midpoint, so only [quantize] can raise. *)
Definition spread_pct (snapshot : option MarketSnapshot) : exn + option decimal :=
  match snapshot with
  | None => inr None
  | Some s =>
      match ms_best_bid_price s, ms_best_ask_price s with
      | Some bid, Some ask =>
          match ddiv (dadd bid ask) (of_int 2) with
          | None => inl ZeroDivision
          | Some midpoint =>
              if dleb midpoint dzero then inr None
              else match ddiv (dsub ask bid) midpoint with
                   | None => inl ZeroDivision
                   | Some ratio =>
                       match quantize ROUND_HALF_EVEN (-4) (dmul ratio (of_int 100)) with
                       | None => inl InvalidOperation
                       | Some pct => inr (Some pct)
                       end
                   end
          end
      | _, _ => inr None
      end
  end.

(** ** Losses *)

(** The SELL fills of the account, joined with their order. *)
Definition sell_fills (db : DB) (account : string) (keep : TradingOrder -> bool) :
  list (Fill * TradingOrder) :=
  omap (fun f =>
    o ← orders db !! f_order_id f;
    if String.eqb (o_account_alias o) account && bool_decide (o_side o = SELL) && keep o
    then Some (f, o) else None) (rows (fills db)).

(** The cost basis of a fill: the current average price of the position row. *)
Definition fill_cost (db : DB) (account symbol : string) : decimal :=
  match position_of account symbol db with
  | Some p => p_average_price p
  | None => dzero
  end.

Definition daily_realized_loss (db : DB) (account_alias : string) (now : Z) : decimal :=
  fold_left (fun loss '(f, o) =>
    dadd loss (dmul (dsub (f_price f) (fill_cost db account_alias (o_symbol o)))
                    (of_int (f_quantity f))))
    (sell_fills db account_alias (fun o => o_trading_date o =? kst_date now)) dzero.

(** The open positions of the account. *)
Definition is_open (account : string) (p : Position) : bool :=
  String.eqb (p_account_alias p) account && bool_decide (p_state p = POS_OPEN) &&
  (0 <? p_quantity p).

Definition open_positions (db : DB) (account : string) : list Position :=
  List.filter (is_open account) (rows (positions db)).

Definition unrealized_loss (db : DB) (account_alias : string) : decimal :=
  fold_left (fun loss p =>
    match _latest_price db (p_symbol p) "KRX" with
    | None => loss
    | Some price => dadd loss (dmul (dsub price (p_average_price p)) (of_int (p_quantity p)))
    end) (open_positions db account_alias) dzero.

Definition daily_loss_pct (db : DB) (account_alias : string) (basis : LossBasis) (now : Z)
  (denominator : decimal) : decimal :=
  let realized := daily_realized_loss db account_alias now in
  let total_loss := match basis with
                    | REALIZED_ONLY => realized
                    | REALIZED_PLUS_UNREALIZED => dadd realized (unrealized_loss db account_alias)
                    end in
  if dleb denominator dzero then dzero
  else match ddiv (dneg total_loss) denominator with
       | None => dzero
       | Some ratio => let pct := dmul ratio (of_int 100) in
                       if dltb dzero pct then pct else dzero
       end.

(** ** Exposure and counts *)

(** [price or position.average_price]: a zero price is falsy. *)
Definition mark_price (db : DB) (p : Position) : decimal :=
  match _latest_price db (p_symbol p) "KRX" with
  | Some price => if coef price =? 0 then p_average_price p else price
  | None => p_average_price p
  end.

Definition position_value (db : DB) (p : Position) : decimal :=
  dmul (mark_price db p) (of_int (p_quantity p)).

(** [per_symbol.get(symbol, Decimal(0))] *)
Definition exposure_of (per_symbol : gmap string decimal) (symbol : string) : decimal :=
  default dzero (per_symbol !! symbol).

Definition open_position_exposure (db : DB) (account_alias : string) :
  gmap string decimal * decimal :=
  fold_left (fun '(per_symbol, total) p =>
    let value := position_value db p in
    (<[p_symbol p := dadd (exposure_of per_symbol (p_symbol p)) value]> per_symbol,
     dadd total value)) (open_positions db account_alias) (∅, dzero).

Definition open_position_count (db : DB) (account_alias : string) : Z :=
  Z.of_nat (length (open_positions db account_alias)).

Definition daily_entry_count (db : DB) (account_alias : string) (now : Z) : Z :=
  Z.of_nat (length (List.filter (fun o =>
    String.eqb (o_account_alias o) account_alias && bool_decide (o_side o = BUY) &&
    (o_trading_date o =? kst_date now)) (rows (orders db)))).

(** [order_by(filled_at.desc(), id.desc())] *)
Definition later_fill (a b : Fill * TradingOrder) : bool :=
  (f_filled_at b.1 <? f_filled_at a.1) ||
  ((f_filled_at a.1 =? f_filled_at b.1) && String.leb (f_id b.1) (f_id a.1)).

Definition recent_sells (db : DB) (account : string) : list (Fill * TradingOrder) :=
  firstn 50 (sort_by later_fill (sell_fills db account (fun _ => true))).

Definition losing (db : DB) (account : string) (r : Fill * TradingOrder) : bool :=
  dltb (f_price r.1) (fill_cost db account (o_symbol r.2)).

Fixpoint count_while {A} (f : A -> bool) (l : list A) : Z :=
  match l with
  | [] => 0
  | x :: l => if f x then 1 + count_while f l else 0
  end.

Definition consecutive_loss_count (db : DB) (account_alias : string) : Z :=
  count_while (losing db account_alias) (recent_sells db account_alias).

(** ** The broker connection *)

Definition broker_connection_ok (db : DB) (account_alias : string) (now : Z)
  (heartbeat_stale_seconds : Z) : bool * string :=
  match worker_states db !! account_alias with
  | None => (false, "BROKER_WORKER_UNKNOWN")
  | Some worker =>
      if negb (bool_decide (bw_state worker = W_READY)) then (false, "BROKER_NOT_READY")
      else if negb (bw_websocket_connected worker) then (false, "BROKER_WEBSOCKET_DISCONNECTED")
      else if negb (bw_subscriptions_ready worker) then (false, "BROKER_SUBSCRIPTIONS_NOT_READY")
      else if seconds heartbeat_stale_seconds <? now - bw_last_heartbeat_at worker
      then (false, "BROKER_HEARTBEAT_STALE")
      else match gates db !! account_alias with
           | Some gate => if bool_decide (g_status gate = GATE_READY) then (true, "OK")
                          else (false, "BROKER_GATE_NOT_READY")
           | None => (false, "BROKER_GATE_NOT_READY")
           end
  end.

(** ** The read side is exact within the column ranges *)

(** The unit of the price columns: [Numeric(18, 4)]. *)
Definition price_unit : Z := -4.

(** A non-negative price of the columns. *)
Definition column_price (d : decimal) : Prop := price_unit <= expo d /\ nonneg d.

(** The value of a position in price units. *)
Definition value_units (db : DB) (p : Position) : Z :=
  scaled price_unit (mark_price db p) * p_quantity p.

Lemma open_positions_spec db account p :
  p ∈ open_positions db account <->
  (exists k, positions db !! k = Some p) /\ p_account_alias p = account /\
  p_state p = POS_OPEN /\ 0 < p_quantity p.
Proof.
  unfold open_positions. rewrite list_elem_of_In, List.filter_In, <- list_elem_of_In, elem_of_rows.
  unfold is_open. rewrite !andb_true_iff, String.eqb_eq, bool_decide_eq_true, Z.ltb_lt. tauto.
Qed.

Lemma exposure_of_insert per s v s' :
  exposure_of (<[s := v]> per) s' = if String.eqb s s' then v else exposure_of per s'.
Proof.
  unfold exposure_of. destruct (String.eqb_spec s s') as [->|N].
  - by rewrite lookup_insert_eq.
  - by rewrite lookup_insert_ne.
Qed.

(** The accumulation of [open_position_exposure] over the rows still to come. *)
Lemma exposure_fold db l : forall per total,
  Forall (fun p => column_price (mark_price db p) /\ 0 < p_quantity p) l ->
  price_unit <= expo total ->
  (forall s, price_unit <= expo (exposure_of per s) /\
             0 <= scaled price_unit (exposure_of per s) <= scaled price_unit total) ->
  scaled price_unit total + zsum (value_units db) l < pow10 prec ->
  let r := fold_left (fun '(per_symbol, total) p =>
    let value := position_value db p in
    (<[p_symbol p := dadd (exposure_of per_symbol (p_symbol p)) value]> per_symbol,
     dadd total value)) l (per, total) in
  price_unit <= expo r.2 /\
  scaled price_unit r.2 = scaled price_unit total + zsum (value_units db) l /\
  (forall s, price_unit <= expo (exposure_of r.1 s) /\
     scaled price_unit (exposure_of r.1 s) = scaled price_unit (exposure_of per s) +
       zsum (fun p => if String.eqb (p_symbol p) s then value_units db p else 0) l).
Proof.
  induction l as [|p l IH]; intros per total Hl Ht Hper Hsum; cbn [fold_left] in *.
  { cbn -[pow10 scaled]; repeat split; [done|lia|apply Hper|lia]. }
  change (zsum (value_units db) (p :: l)) with (value_units db p + zsum (value_units db) l) in *.
  apply Forall_cons in Hl as [[[He Hn] Hq] Hl].
  pose proof (scaled_nonneg _ _ He Hn) as H0.
  assert (Hv : 0 <= value_units db p) by (unfold value_units; nia).
  assert (Hrest : 0 <= zsum (value_units db) l).
  { apply zsum_nonneg. eapply Forall_impl; [exact Hl|]. intros x [[He' Hn'] Hq'].
    pose proof (scaled_nonneg _ _ He' Hn'). unfold value_units. nia. }
  destruct (Hper (p_symbol p)) as [Ps [P0 P1]].
  destruct (dmul_int_scaled price_unit (mark_price db p) (p_quantity p)) as [V1 V2];
    [done|fold (value_units db p); lia|].
  fold (position_value db p) in V1, V2. fold (value_units db p) in V2.
  destruct (dadd_scaled price_unit total (position_value db p)) as [T1 T2]; [done|done|lia|].
  destruct (dadd_scaled price_unit (exposure_of per (p_symbol p)) (position_value db p))
    as [S1 S2]; [done|done|lia|].
  edestruct IH as (R1 & R2 & R3); [exact Hl|exact T1| | |].
  3: { split; [exact R1|]. split; [rewrite R2; lia|]. intros s.
       destruct (R3 s) as [R31 R32]. split; [exact R31|]. rewrite R32, exposure_of_insert.
       cbn [zsum foldr]. fold (zsum (fun p => if String.eqb (p_symbol p) s then value_units db p else 0) l).
       destruct (String.eqb_spec (p_symbol p) s); subst; lia. }
  - intros s. rewrite exposure_of_insert.
    destruct (String.eqb_spec (p_symbol p) s); [split; [done|lia]|].
    destruct (Hper s) as [? ?]. split; [done|lia].
  - lia.
Qed.

(** While the account's exposure fits the decimal context, the exposure the
    Guard reads is the exact sum over the open positions of the latest normal
    price (the average price where there is none) times the quantity, in total
    and for every symbol: no rounding ever understates it. *)
Theorem exposure_exact (db : DB) (account : string) :
  (forall p, p ∈ open_positions db account -> column_price (mark_price db p)) ->
  zsum (value_units db) (open_positions db account) < pow10 prec ->
  let '(per_symbol, total) := open_position_exposure db account in
  scaled price_unit total = zsum (value_units db) (open_positions db account) /\
  forall s, scaled price_unit (exposure_of per_symbol s) =
    zsum (fun p => if String.eqb (p_symbol p) s then value_units db p else 0)
      (open_positions db account).
Proof.
  intros Hp Hsum.
  pose proof (exposure_fold db (open_positions db account) ∅ dzero) as F. simpl in F.
  unfold open_position_exposure. destruct (fold_left _ _ _) as [per total]. simpl in F.
  destruct F as (_ & F1 & F2).
  - apply Forall_forall. intros p Hin. split; [by apply Hp|].
    apply open_positions_spec in Hin. tauto.
  - done.
  - intros s. unfold exposure_of. rewrite lookup_empty. vm_compute. intuition discriminate.
  - exact Hsum.
  - split; [exact F1|]. intros s. destruct (F2 s) as [_ F]. rewrite F. unfold exposure_of.
    rewrite lookup_empty. done.
Qed.

(** Two open positions, one of them marked at its latest price. *)
Definition demo_position (symbol : string) (q : Z) (avg : decimal) : Position :=
  mkPosition symbol ACCOUNT_ALIAS symbol q q q avg avg POS_OPEN CRESTA_MANAGED 1.

Definition demo_snapshot (symbol : string) (bid last ask : Z) (at_ : Z) : MarketSnapshot :=
  mkMarketSnapshot ("snap-" +:+ symbol) symbol "KRX" "KIWOOM" symbol (Some 1) symbol
    (of_int last) (of_int last) (of_int last) (of_int last) 1000
    (Some (of_int bid)) (Some 50) (Some (of_int ask)) (Some 50) "TRADING" Q_NORMAL false at_ at_.

Definition demo_stream (symbol : string) (at_ : Z) : MarketStreamState :=
  mkMarketStreamState "KRX" symbol "KIWOOM" (Some ("snap-" +:+ symbol)) (Some 1) (Some at_)
    (Some at_) (Some 1000) Q_NORMAL 1.

Definition demo_exposure_db : DB :=
  let db := set_positions empty_db
    (list_to_map [("005930", demo_position "005930" 10 (Dec 70000 0));
                  ("000660", demo_position "000660" 3 (Dec 1500005000 (-4)))]) in
  let db := set_snapshots db (<["snap-005930" := demo_snapshot "005930" 71000 71100 71200 0]> ∅) in
  set_streams db (<[("KRX", "005930") := demo_stream "005930" 0]> ∅).

Lemma exposure_exact_witness :
  let '(per_symbol, total) := open_position_exposure demo_exposure_db ACCOUNT_ALIAS in
  total = Dec 11610015000 (-4) /\
  scaled price_unit total =
    zsum (value_units demo_exposure_db) (open_positions demo_exposure_db ACCOUNT_ALIAS).
Proof.
  pose proof (exposure_exact demo_exposure_db ACCOUNT_ALIAS) as H.
  assert (E : (open_position_exposure demo_exposure_db ACCOUNT_ALIAS).2 = Dec 11610015000 (-4))
    by (vm_compute; reflexivity).
  destruct (open_position_exposure demo_exposure_db ACCOUNT_ALIAS) as [per total].
  split; [exact E|]. apply H.
  - intros p Hp. apply open_positions_spec in Hp as [[k Hk] _]. revert p k Hk.
    assert (F := rows_forallb (fun '(_, p) =>
      (price_unit <=? expo (mark_price demo_exposure_db p)) &&
      (0 <=? coef (mark_price demo_exposure_db p))) (positions demo_exposure_db)
      ltac:(vm_compute; reflexivity)).
    intros p k Hk. specialize (F k p Hk). cbn beta iota in F. apply andb_true_iff in F as [F1 F2].
    split; [by apply Z.leb_le|by apply Z.leb_le].
  - vm_compute. reflexivity.
Defined.

(** ** A finding: a loss disappears when its position is closed *)

(** The fill sold the last shares of the position, the way the ledger books it. *)
Definition sold_out (db : DB) (account : string) (r : Fill * TradingOrder) : Prop :=
  exists before after_,
    position_after_fill before SELL (f_quantity r.1) (f_price r.1) = inr after_ /\
    p_quantity after_ = 0 /\ position_of account (o_symbol r.2) db = Some after_.

Lemma sold_out_cost db account r :
  sold_out db account r -> fill_cost db account (o_symbol r.2) = dzero.
Proof.
  intros (b & a & E & Hq & Hp). unfold fill_cost. rewrite Hp. revert E.
  unfold position_after_fill, average_after_sell.
  destruct (p_quantity b <? f_quantity r.1); [discriminate|]. intros [= <-]. cbn in *.
  by rewrite Hq.
Qed.

Lemma dsub_zero_nonneg d : nonneg d -> nonneg (dsub d dzero).
Proof.
  intros H. apply fix_prec_nonneg. unfold nonneg. cbn [coef].
  pose proof (scaled_nonneg (Z.min (expo d) (expo dzero)) d ltac:(lia) H).
  unfold scaled at 2. cbn [coef dzero of_int]. lia.
Qed.

Lemma realized_gain_nonneg db account l : forall loss,
  Forall (fun r => fill_cost db account (o_symbol r.2) = dzero /\ nonneg (f_price r.1) /\
                   0 <= f_quantity r.1) l ->
  nonneg loss ->
  nonneg (fold_left (fun loss '(f, o) =>
    dadd loss (dmul (dsub (f_price f) (fill_cost db account (o_symbol o)))
                    (of_int (f_quantity f)))) l loss).
Proof.
  induction l as [|[f o] l IH]; intros loss Hl Hloss; simpl; [done|].
  apply Forall_cons in Hl as [(Hc & Hp & Hq) Hl]. simpl in *. apply IH; [done|].
  rewrite Hc. apply dadd_nonneg; [done|]. apply dmul_nonneg; [by apply dsub_zero_nonneg|].
  by apply of_int_nonneg.
Qed.

Lemma sell_fills_keep db account keep r :
  r ∈ sell_fills db account keep -> r ∈ sell_fills db account (fun _ => true).
Proof.
  unfold sell_fills. rewrite !list_elem_of_omap. intros (f & Hf & E). exists f. split; [done|].
  destruct (orders db !! f_order_id f); simpl in *; [|done].
  destruct (_ && _ && keep _) eqn:K; [|done]. apply andb_true_iff in K as [-> _]. done.
Qed.

(** The realized loss of the day and the count of consecutive losses read
    the cost of a sale from the position's current row, whose average price the
    ledger clears when the last share is sold.  So when every symbol sold was
    sold out, whatever the prices, the realized loss percentage is zero and no
    sale counts as a loss: the limits on them never fire. *)
Theorem sold_out_losses_vanish (db : DB) (account : string) (now : Z) (denominator : decimal) :
  (forall r, r ∈ sell_fills db account (fun _ => true) ->
     sold_out db account r /\ nonneg (f_price r.1) /\ 0 <= f_quantity r.1) ->
  daily_loss_pct db account REALIZED_ONLY now denominator = dzero /\
  consecutive_loss_count db account = 0.
Proof.
  intros H. split.
  - unfold daily_loss_pct. destruct (dleb denominator dzero) eqn:D; [done|].
    destruct (ddiv _ _) as [q|] eqn:Q; [|done]. rewrite dltb_nonpos; [done|].
    apply dmul_nonpos; [|done]. eapply ddiv_nonpos; [|  |exact Q].
    + apply dneg_nonpos. unfold daily_realized_loss. apply realized_gain_nonneg; [|done].
      apply Forall_forall. intros r Hr. apply sell_fills_keep in Hr.
      destruct (H r Hr) as (Hs & ? & ?). by rewrite (sold_out_cost db account r Hs).
    + unfold nonneg. destruct (dleb_total dzero denominator) as [E|E]; [|congruence].
      by apply dleb_dzero_coef.
  - unfold consecutive_loss_count.
    assert (L : Forall (fun r => losing db account r = false) (recent_sells db account)).
    { apply Forall_forall. intros r Hr. unfold recent_sells in Hr.
      apply (subseteq_take 50), sort_by_elem in Hr.
      destruct (H r Hr) as (Hs & Hn & _). unfold losing.
      rewrite (sold_out_cost db account r Hs), dltb_negb_dleb.
      apply dleb_dzero_coef in Hn. by rewrite Hn. }
    destruct L as [|r l Hr _]; simpl; [done|by rewrite Hr].
Qed.

(** Ten shares bought at 1000 and sold at 900 on the same day. *)
Definition demo_sold_position : Position :=
  mkPosition "p" ACCOUNT_ALIAS "005930" 0 0 0 dzero dzero POS_CLOSED CRESTA_MANAGED 3.

Definition demo_sell_order : TradingOrder :=
  mkTradingOrder "o" "i" "g" None ACCOUNT_ALIAS "MOCK" "005930" "KRX" SELL LIMIT
    (Some (of_int 900)) 10 10 0 0 FILLED "key" "hash" (Some "1") 0 POLICY_NONE 0 0 0 None
    20676 "c" 5 0.

Definition demo_loss_db : DB :=
  set_positions (set_orders (set_fills empty_db
    (<["f" := mkFill "f" "o" "k" 10 (of_int 900) dzero dzero 0]> ∅))
    (<["o" := demo_sell_order]> ∅)) (<["p" := demo_sold_position]> ∅).

Lemma sold_out_losses_vanish_witness :
  length (sell_fills demo_loss_db ACCOUNT_ALIAS (fun _ => true)) = 1%nat /\
  daily_loss_pct demo_loss_db ACCOUNT_ALIAS REALIZED_ONLY (kst_combine 20676 0) (of_int 3000000)
    = dzero /\ consecutive_loss_count demo_loss_db ACCOUNT_ALIAS = 0.
Proof.
  split; [vm_compute; reflexivity|].
  apply (sold_out_losses_vanish demo_loss_db ACCOUNT_ALIAS (kst_combine 20676 0)).
  intros r Hr.
  assert (E : sell_fills demo_loss_db ACCOUNT_ALIAS (fun _ => true) =
    [(mkFill "f" "o" "k" 10 (of_int 900) dzero dzero 0, demo_sell_order)])
    by (vm_compute; reflexivity).
  rewrite E in Hr. apply list_elem_of_singleton in Hr as ->. split; [|done].
  exists (mkPosition "p" ACCOUNT_ALIAS "005930" 10 10 10 (of_int 1000) (of_int 1000) POS_OPEN
            CRESTA_MANAGED 2), demo_sold_position.
  split; [reflexivity|]. split; vm_compute; reflexivity.
Defined.

(** ** The broker connection *)

Lemma broker_connection_ok_spec (db : DB) account now n r :
  broker_connection_ok db account now n = (true, r) <->
  r = "OK" /\ exists w g,
    worker_states db !! account = Some w /\ gates db !! account = Some g /\
    bw_state w = W_READY /\ bw_websocket_connected w = true /\
    bw_subscriptions_ready w = true /\ now - bw_last_heartbeat_at w <= seconds n /\
    g_status g = GATE_READY.
Proof.
  unfold broker_connection_ok. split.
  - destruct (worker_states db !! account) as [w|]; [|discriminate].
    destruct (bool_decide (bw_state w = W_READY)) eqn:E1; [|discriminate].
    destruct (bw_websocket_connected w) eqn:E2; [|discriminate].
    destruct (bw_subscriptions_ready w) eqn:E3; [|discriminate]. simpl.
    destruct (Z.ltb_spec (seconds n) (now - bw_last_heartbeat_at w)); [discriminate|].
    destruct (gates db !! account) as [g|]; [|discriminate].
    destruct (bool_decide (g_status g = GATE_READY)) eqn:E4; [|discriminate].
    intros [= <-]. bool_to_prop. split; [done|]. eauto 10.
  - intros [-> (w & g & Hw & Hg & H1 & H2 & H3 & H4 & H5)]. rewrite Hw, Hg, H2, H3.
    rewrite !bool_decide_eq_true_2 by done. simpl.
    destruct (Z.ltb_spec (seconds n) (now - bw_last_heartbeat_at w)); [lia|done].
Qed.
