(* ===== verification/RiskEvents.v ===== *)
(** * Risk events and the emergency stop

    [risk_events.py] with the shared helpers of [guard.py], then
    [emergency_stop.py] with its refinement of the pause automaton. *)

From Stdlib Require Import ZArith Lia.
From stdpp Require Import base numbers strings list gmap.
From S2P Require Import Prelude Decimal Json PyTime Models Session.

Open Scope Z_scope.

(** * Risk events and guard evaluations

    [risk_events.py]: the append-only ledger of risk signals.  [guard.py]: the
    rule results every guard of the program shares, and the row that records
    an evaluation. *)

(** [now or datetime.now(UTC)] *)
Definition now_or (now : option Z) : prog Z :=
  match now with Some t => mret t | None => utcnow end.

(** ** The ledger of risk events *)

Definition RISK_EVENT_SCOPE_FIXED_STOP : string := "FIXED_STOP".
Definition RISK_EVENT_SCOPE_DAILY_LOSS : string := "DAILY_LOSS".

Definition put_risk_event (e : RiskEvent) (db : DB) : DB :=
  set_risk_events db (<[re_id e := e]> (risk_events db)).

Definition create_risk_event (scope rule_code severity account_alias : string)
  (input_record : json) (correlation_id : string) (symbol input_snapshot_id : option string)
  (now : option Z) : prog RiskEvent :=
  evaluated_at ← now_or now;
  id ← uuid7;
  let event := mkRiskEvent id scope rule_code severity true account_alias symbol
                 input_snapshot_id input_record None None correlation_id evaluated_at in
  modify (put_risk_event event) ;;
  mret event.

Definition resolve_risk_event (risk_event_id resolution : string) (now : option Z) :
  prog (option RiskEvent) :=
  found ← gets (fun db => risk_events db !! risk_event_id);
  match found with
  | None => mret None
  | Some event =>
      if negb (re_active event) then mret (Some event)
      else
        resolved_at ← now_or now;
        let event := set_re_resolved_at (set_re_resolution (set_re_active event false)
                       (Some resolution)) (Some resolved_at) in
        modify (put_risk_event event) ;;
        mret (Some event)
  end.

(** [order_by(created_at.desc()).limit(200)] *)
Definition active_risk_events (db : DB) (scope account_alias : option string) : list RiskEvent :=
  firstn 200 (sort_by (fun a b => re_created_at b <=? re_created_at a)
    (List.filter (fun e =>
       re_active e &&
       match scope with Some s => String.eqb (re_scope e) s | None => true end &&
       match account_alias with Some a => String.eqb (re_account_alias e) a | None => true end)
     (rows (risk_events db)))).

(** ** Guard rules *)

(** A rule result: the code and whether it passed. *)
Record Rule := mkRule { rule_code : string; rule_passed : bool }.

Definition rule (code : string) (passed : bool) : Rule := mkRule code passed.

Definition blocked_rules (rules : list Rule) : list Rule :=
  List.filter (fun r => negb (rule_passed r)) rules.

(** The first blocking rule code, or [BLOCKED]. *)
Definition blocking_code (rules : list Rule) : string :=
  match blocked_rules rules with
  | r :: _ => rule_code r
  | [] => "BLOCKED"
  end.

Definition rule_json (r : Rule) : json :=
  JObj [("code", JStr (rule_code r));
        ("result", JStr (if rule_passed r then "PASSED" else "BLOCKED"))].

Definition is_cresta_managed (position : option Position) : bool :=
  match position with Some p => 0 <? p_managed_quantity p | None => false end.

Definition put_guard (g : GuardEvaluation) (db : DB) : DB :=
  set_guards db (<[ge_id g := g]> (guards db)).

Definition persist_guard_evaluation (execution_id subject_type subject_id : string)
  (rules : list Rule) (snapshot_id : option string) (position_version : option Z)
  (execution_policy_version_id risk_policy_version_id halt_scope : option string)
  (valid_until : option Z) (now : Z) (phase : string) : prog GuardEvaluation :=
  let blocked := negb (bool_decide (blocked_rules rules = [])) in
  id ← uuid7;
  let guard := mkGuardEvaluation id execution_id phase subject_type subject_id blocked
                 (JList (map rule_json rules)) (if blocked then halt_scope else None)
                 snapshot_id position_version execution_policy_version_id
                 risk_policy_version_id now valid_until in
  modify (put_guard guard) ;;
  mret guard.

(** ** Lemmas *)

Lemma active_risk_events_spec db scope account e :
  e ∈ active_risk_events db (Some scope) (Some account) ->
  re_active e = true /\ re_scope e = scope /\ re_account_alias e = account.
Proof.
  intros H. apply (subseteq_take 200), sort_by_elem, list_elem_of_In, List.filter_In in H as [_ H].
  apply andb_true_iff in H as [H H3]. apply andb_true_iff in H as [H1 H2].
  apply String.eqb_eq in H2, H3. done.
Qed.

(** An active event of the scope shows up in the query. *)
Lemma active_risk_events_nil db scope account :
  active_risk_events db (Some scope) (Some account) = [] <->
  forall k e, risk_events db !! k = Some e -> re_active e = true ->
    re_scope e = scope -> re_account_alias e = account -> False.
Proof.
  unfold active_risk_events. set (P := fun e : RiskEvent => _ && _ && _).
  split.
  - intros H k e Hk Ha Hs Hacc.
    assert (Hin : e ∈ sort_by (fun a b => re_created_at b <=? re_created_at a)
                       (List.filter P (rows (risk_events db)))).
    { apply sort_by_elem, list_elem_of_In, List.filter_In. split.
      - apply list_elem_of_In, elem_of_rows. eauto.
      - unfold P. rewrite Ha, Hs, Hacc, !String.eqb_refl. done. }
    destruct (sort_by _ _) as [|x l]; [by apply not_elem_of_nil in Hin|discriminate H].
  - intros H. destruct (List.filter P (rows (risk_events db))) as [|e l] eqn:E; [done|].
    exfalso. assert (Hin : In e (List.filter P (rows (risk_events db)))) by (rewrite E; by left).
    apply List.filter_In in Hin as [Hin HP]. apply list_elem_of_In, elem_of_rows in Hin as [k Hk].
    unfold P in HP. apply andb_true_iff in HP as [HP H3]. apply andb_true_iff in HP as [H1 H2].
    apply String.eqb_eq in H2, H3. eauto.
Qed.

Lemma blocked_rules_nil rules :
  blocked_rules rules = [] <-> Forall (fun r => rule_passed r = true) rules.
Proof.
  unfold blocked_rules. induction rules as [|r l IH]; simpl; [split; auto|].
  rewrite Forall_cons. destruct (rule_passed r); simpl; [rewrite IH; tauto|].
  split; [discriminate|intros [? _]; discriminate].
Qed.

(** * The emergency stop of new entries

    [emergency_stop.py]: one row per account that pauses new entries, activated
    and released under idempotency keys.  The handlers refine a small automaton
    on the row's state. *)

(** ** Queries *)

Definition current_emergency_stop (db : DB) (account_alias : string) : option EmergencyStop :=
  find_row (fun e => String.eqb (es_account_alias e) account_alias) (emergency_stops db).

Definition active_pause_entry (db : DB) (account_alias : string) : option EmergencyStop :=
  find_row (fun e => String.eqb (es_account_alias e) account_alias && es_active e &&
                     String.eqb (es_level e) "PAUSE_ENTRY") (emergency_stops db).

(** ** Handlers *)

Definition _validate (value : string) (minimum maximum : nat) (code : string) : prog string :=
  let normalized := strip value in
  guard_or (Nat.leb minimum (String.length normalized) &&
            Nat.leb (String.length normalized) maximum) (EmergencyStopError code 422) ;;
  mret normalized.

Definition put_stop (e : EmergencyStop) (db : DB) : DB :=
  set_emergency_stops db (<[es_id e := e]> (emergency_stops db)).

(** [uq_emergency_stops_account] and the primary key. *)
Definition stop_clash (e : EmergencyStop) (db : DB) : bool :=
  bool_decide (is_Some (emergency_stops db !! es_id e)) ||
  existsb (fun x => String.eqb (es_account_alias x) (es_account_alias e))
    (rows (emergency_stops db)).

(** The row another session may insert before the flush. *)
Definition add_concurrent_stop (race : option EmergencyStop) (db : DB) : DB :=
  match race with
  | Some e => if stop_clash e db then db else put_stop e db
  | None => db
  end.

Definition stop_audit (user : User) (action : string) (stop : EmergencyStop)
  (correlation_id : string) (metadata : json) : AuditLog :=
  mkAuditLog "USER" (Some (u_id user)) action (Some (es_id stop)) "SUCCESS" None None correlation_id
    metadata.

(** The rest of an activation, from the row it stored. *)
Definition activated (user : User) (correlation_id : string) (current : EmergencyStop) :
  prog EmergencyStop :=
  modify (add_audit (stop_audit user "PAUSE_ENTRY_ACTIVATED" current correlation_id
    (JObj [("account_alias", JStr ACCOUNT_ALIAS); ("level", JStr "PAUSE_ENTRY")]))) ;;
  commit ;;
  mret current.

Definition activate_pause_entry (user : User) (reason idempotency_key correlation_id : string)
  (now : option Z) (race : option EmergencyStop) : prog EmergencyStop :=
  normalized_reason ← _validate reason 5 500 "EMERGENCY_STOP_REASON_INVALID";
  normalized_key ← _validate idempotency_key 16 128 "IDEMPOTENCY_KEY_INVALID";
  current ← gets (fun db => current_emergency_stop db ACCOUNT_ALIAS);
  match current with
  | Some c =>
      if es_active c then
        guard_or (String.eqb (es_activation_key c) normalized_key)
          (EmergencyStopError "EMERGENCY_STOP_ALREADY_ACTIVE" 409) ;;
        mret c
      else
        activated_at ← now_or now;
        let c := mkEmergencyStop (es_id c) (es_account_alias c) (es_level c) true
                   normalized_reason normalized_key None (u_id user) None activated_at None
                   (es_version c + 1) in
        modify (put_stop c) ;;
        activated user correlation_id c
  | None =>
      activated_at ← now_or now;
      id ← uuid7;
      let c := mkEmergencyStop id ACCOUNT_ALIAS "PAUSE_ENTRY" true normalized_reason
                 normalized_key None (u_id user) None activated_at None 1 in
      flush_checked (add_concurrent_stop race) (stop_clash c) (put_stop c) ;;
      activated user correlation_id c
  end.

Definition release_pause_entry (user : User) (reason idempotency_key correlation_id : string)
  (now : option Z) : prog EmergencyStop :=
  normalized_reason ← _validate reason 5 500 "EMERGENCY_STOP_REASON_INVALID";
  normalized_key ← _validate idempotency_key 16 128 "IDEMPOTENCY_KEY_INVALID";
  current ← gets (fun db => current_emergency_stop db ACCOUNT_ALIAS);
  match current with
  | None => raise (EmergencyStopError "EMERGENCY_STOP_NOT_ACTIVE" 409)
  | Some c =>
      if negb (es_active c) then
        guard_or (bool_decide (es_release_key c = Some normalized_key))
          (EmergencyStopError "EMERGENCY_STOP_NOT_ACTIVE" 409) ;;
        mret c
      else
        released_at ← now_or now;
        let c := mkEmergencyStop (es_id c) (es_account_alias c) (es_level c) false
                   normalized_reason (es_activation_key c) (Some normalized_key)
                   (es_activated_by c) (Some (u_id user)) (es_activated_at c)
                   (Some released_at) (es_version c + 1) in
        modify (put_stop c) ;;
        modify (add_audit (stop_audit user "PAUSE_ENTRY_RELEASED" c correlation_id
          (JObj [("account_alias", JStr ACCOUNT_ALIAS); ("reason", JStr normalized_reason)]))) ;;
        commit ;;
        mret c
  end.

(** ** Specification: the pause automaton *)

(** What the account's row promises: never paused, paused under a key, or
    released under a key, with the number of transitions so far. *)
Inductive PauseState :=
| Never
| Paused (activation_key : string) (version : Z)
| Released (release_key : option string) (version : Z).

Definition state_of_row (e : EmergencyStop) : PauseState :=
  if es_active e then Paused (es_activation_key e) (es_version e)
  else Released (es_release_key e) (es_version e).

Definition pause_of (db : DB) : PauseState :=
  match current_emergency_stop db ACCOUNT_ALIAS with
  | Some e => state_of_row e
  | None => Never
  end.

Definition version_of (st : PauseState) : Z :=
  match st with Never => 0 | Paused _ v | Released _ v => v end.

(** One call: the state it leaves, and the exception it raises if any. *)
Definition spec_activate (key : string) (race : option EmergencyStop) (st : PauseState) :
  PauseState * option exn :=
  match st with
  | Never => match race with
             | None => (Paused key 1, None)
             | Some e => (state_of_row e, Some IntegrityError)
             end
  | Paused k _ => (st, if String.eqb k key then None
                       else Some (EmergencyStopError "EMERGENCY_STOP_ALREADY_ACTIVE" 409))
  | Released _ v => (Paused key (v + 1), None)
  end.

Definition spec_release (key : string) (st : PauseState) : PauseState * option exn :=
  match st with
  | Never => (st, Some (EmergencyStopError "EMERGENCY_STOP_NOT_ACTIVE" 409))
  | Paused _ v => (Released (Some key) (v + 1), None)
  | Released k _ => (st, if bool_decide (k = Some key) then None
                         else Some (EmergencyStopError "EMERGENCY_STOP_NOT_ACTIVE" 409))
  end.

Definition length_ok (value : string) (minimum maximum : nat) : bool :=
  Nat.leb minimum (String.length (strip value)) && Nat.leb (String.length (strip value)) maximum.

(** A call of the operator's interface, each in a session of its own. *)
Record StopCall := mkStopCall {
  sc_release : bool;
  sc_user : User;
  sc_reason : string;
  sc_key : string;
  sc_correlation_id : string;
  sc_clock : Z;
  sc_ids : nat -> string;
  sc_race : option EmergencyStop
}.

Definition run_stop_call (c : StopCall) : prog EmergencyStop :=
  if sc_release c
  then release_pause_entry (sc_user c) (sc_reason c) (sc_key c) (sc_correlation_id c) None
  else activate_pause_entry (sc_user c) (sc_reason c) (sc_key c) (sc_correlation_id c) None
         (sc_race c).

Definition spec_call (c : StopCall) (st : PauseState) : PauseState * option exn :=
  if negb (length_ok (sc_reason c) 5 500)
  then (st, Some (EmergencyStopError "EMERGENCY_STOP_REASON_INVALID" 422))
  else if negb (length_ok (sc_key c) 16 128)
  then (st, Some (EmergencyStopError "IDEMPOTENCY_KEY_INVALID" 422))
  else if sc_release c then spec_release (strip (sc_key c)) st
  else spec_activate (strip (sc_key c)) (sc_race c) st.

(** The database and the exception after a call. *)
Definition step_call (c : StopCall) (db : DB) : DB * option exn :=
  let '(s, r) := run_stop_call c (open_session db (sc_clock c) (sc_ids c)) in
  (disk s, match r with inl _ => None | inr e => Some e end).

(** ** Well-formed tables *)

Definition stop_row_ok (e : EmergencyStop) : Prop :=
  es_account_alias e = ACCOUNT_ALIAS /\ es_level e = "PAUSE_ENTRY".

(** The account has at most one row, stored under its key. *)
Definition stops_ok (db : DB) : Prop :=
  emergency_stops db = ∅ \/
  exists e, emergency_stops db = {[es_id e := e]} /\ stop_row_ok e.

Lemma rows_singleton {V} k (v : V) : rows {[k := v]} = [v].
Proof. unfold rows. by rewrite map_to_list_singleton. Qed.

Lemma current_empty db : emergency_stops db = ∅ -> current_emergency_stop db ACCOUNT_ALIAS = None.
Proof. intros E. unfold current_emergency_stop, find_row. by rewrite E, rows_empty. Qed.

Lemma current_row db e : emergency_stops db = {[es_id e := e]} -> stop_row_ok e ->
  current_emergency_stop db ACCOUNT_ALIAS = Some e.
Proof.
  intros E [Ha _]. unfold current_emergency_stop, find_row. rewrite E, rows_singleton. simpl.
  by rewrite Ha.
Qed.

(** The row is in force exactly when the automaton is paused. *)
Lemma active_pause_spec db : stops_ok db ->
  active_pause_entry db ACCOUNT_ALIAS =
    match pause_of db with Paused _ _ => current_emergency_stop db ACCOUNT_ALIAS | _ => None end.
Proof.
  intros [E|(e & E & Hok)]; unfold pause_of.
  - rewrite (current_empty db E). unfold active_pause_entry, find_row. by rewrite E, rows_empty.
  - rewrite (current_row db e E Hok). unfold active_pause_entry, find_row, state_of_row.
    rewrite E, rows_singleton. destruct Hok as [Ha Hl]. simpl. rewrite Ha, Hl. simpl.
    by destruct (es_active e).
Qed.

Lemma put_stop_empty db e : emergency_stops db = ∅ ->
  emergency_stops (put_stop e db) = {[es_id e := e]}.
Proof. intros E. simpl. rewrite E. by rewrite insert_empty. Qed.

Lemma put_stop_row db e e' : emergency_stops db = {[es_id e := e]} -> es_id e' = es_id e ->
  emergency_stops (put_stop e' db) = {[es_id e' := e']}.
Proof. intros E Hid. simpl. rewrite E, Hid. by rewrite insert_singleton_eq. Qed.

Lemma stop_clash_empty e db : emergency_stops db = ∅ -> stop_clash e db = false.
Proof.
  intros E. unfold stop_clash. rewrite E, rows_empty, lookup_empty. simpl.
  done.
Qed.

Lemma stop_clash_row e e' db : emergency_stops db = {[es_id e := e]} -> stop_row_ok e ->
  stop_row_ok e' -> stop_clash e' db = true.
Proof.
  intros E [Ha _] [Ha' _]. unfold stop_clash. rewrite E, rows_singleton. simpl.
  rewrite Ha, Ha'. apply orb_true_r.
Qed.

(** ** Refinement *)

(** What a call has to establish. *)
Definition implements (spec : PauseState * option exn) (s : Sess) (r : EmergencyStop + exn) : Prop :=
  stops_ok (disk s) /\ pause_of (disk s) = spec.1 /\
  (match r with inl _ => None | inr e => Some e end) = spec.2.

Lemma wp_validate value lo hi code Q s :
  (length_ok value lo hi = true -> Q s (inl (strip value))) ->
  (length_ok value lo hi = false -> Q s (inr (EmergencyStopError code 422))) ->
  wp (_validate value lo hi code) Q s.
Proof.
  intros H1 H2. unfold _validate. repeat wp_step; fold (length_ok value lo hi) in *; auto.
Qed.

(** A stored and committed row is the new state. *)
Lemma committed_row user corr e Q s :
  emergency_stops (work s) = {[es_id e := e]} -> stop_row_ok e ->
  (forall s', stops_ok (disk s') -> pause_of (disk s') = state_of_row e -> Q s' (inl e)) ->
  wp (activated user corr e) Q s.
Proof.
  intros E Hok H. unfold activated. repeat wp_step. apply H.
  - right. exists e. split; [exact E|exact Hok].
  - unfold pause_of. rewrite (current_row _ e); [done|exact E|exact Hok].
Qed.

Lemma unchanged_implements db st s r :
  stops_ok db -> disk s = db -> pause_of db = st.1 ->
  (match r with inl _ => None | inr e => Some e end) = st.2 -> implements st s r.
Proof. intros Hok Hd H1 H2. unfold implements. by rewrite Hd. Qed.

Section Refinement.
Context (user : User) (reason key corr : string) (race : option EmergencyStop).
Context (Hrace : match race with Some e => stop_row_ok e | None => True end).

Lemma activate_refines db now ids : stops_ok db ->
  length_ok reason 5 500 = true -> length_ok key 16 128 = true ->
  wp (activate_pause_entry user reason key corr None race)
    (implements (spec_activate (strip key) race (pause_of db))) (open_session db now ids).
Proof.
  intros Hok H1 H2. unfold activate_pause_entry.
  wp_step. apply wp_validate; [intros _|congruence]. wp_step.
  wp_step. apply wp_validate; [intros _|congruence]. wp_step.
  wp_step. wp_step. wp_step. cbn [work open_session].
  destruct Hok as [E|(e & E & Hok)].
  - rewrite (current_empty db E). unfold pause_of. rewrite (current_empty db E).
    repeat (wp_step || unfold now_or). apply wp_flush_checked; cbn [work interleave next_uuid open_session].
    + destruct race as [e|]; cbn [add_concurrent_stop spec_activate].
      * rewrite (stop_clash_empty e db E). intros _. wp_step. unfold implements.
        cbn [disk interleave next_uuid open_session fst snd]. cbn [add_concurrent_stop].
        rewrite (stop_clash_empty e db E). pose proof (put_stop_empty db e E) as P.
        split; [right; eauto|]. unfold pause_of. by rewrite (current_row _ e P Hrace).
      * rewrite (stop_clash_empty _ db E). discriminate.
    + intros Hno. destruct race as [e|]; cbn [add_concurrent_stop] in Hno.
      * rewrite (stop_clash_empty e db E) in Hno.
        rewrite (stop_clash_row e _ _ (put_stop_empty db e E) Hrace) in Hno; [discriminate|].
        by split.
      * repeat wp_step. eapply committed_row; [|by split|].
        { apply put_stop_empty. exact E. }
        intros s' Hs Hp. split; [exact Hs|]. by rewrite Hp.
  - rewrite (current_row db e E Hok). unfold pause_of. rewrite (current_row db e E Hok).
    unfold state_of_row. destruct (es_active e) eqn:Ha; cbn [spec_activate].
    + repeat wp_step; apply (unchanged_implements db); try done;
        try (right; exists e; by split); unfold pause_of; rewrite ?(current_row db e E Hok);
        unfold state_of_row; rewrite ?Ha; try done; cbn [snd];
        match goal with H : String.eqb _ _ = _ |- _ => by rewrite H end.
    + repeat (wp_step || unfold now_or). eapply committed_row; [|exact Hok|].
      { eapply put_stop_row; [exact E|done]. }
      intros s' Hs Hp. split; [exact Hs|]. by rewrite Hp.
Qed.

Lemma release_refines db now ids : stops_ok db ->
  length_ok reason 5 500 = true -> length_ok key 16 128 = true ->
  wp (release_pause_entry user reason key corr None)
    (implements (spec_release (strip key) (pause_of db))) (open_session db now ids).
Proof.
  intros Hok H1 H2. unfold release_pause_entry.
  wp_step. apply wp_validate; [intros _|congruence]. wp_step.
  wp_step. apply wp_validate; [intros _|congruence]. wp_step.
  wp_step. wp_step. wp_step. cbn [work open_session].
  destruct Hok as [E|(e & E & Hok)].
  - rewrite (current_empty db E). wp_step. apply (unchanged_implements db); try done.
    + by left.
    + unfold pause_of. by rewrite (current_empty db E).
    + unfold pause_of. by rewrite (current_empty db E).
  - rewrite (current_row db e E Hok). unfold pause_of at 1. rewrite (current_row db e E Hok).
    unfold state_of_row. destruct (es_active e) eqn:Ha; cbn [spec_release negb].
    + repeat (wp_step || unfold now_or). set (c := mkEmergencyStop _ _ _ _ _ _ _ _ _ _ _ _).
      assert (P : emergency_stops (put_stop c db) = {[es_id c := c]})
        by (eapply put_stop_row; [exact E|done]).
      split; [right; exists c; by split|]. split; [|done].
      unfold pause_of. rewrite (current_row _ c); [done|exact P|exact Hok].
    + repeat wp_step; apply (unchanged_implements db); try done;
        try (right; exists e; by split); unfold pause_of; rewrite ?(current_row db e E Hok);
        unfold state_of_row; rewrite ?Ha; try done; cbn [snd];
        match goal with H : bool_decide _ = _ |- _ => by rewrite H end.
Qed.
End Refinement.

Definition stop_race_ok (c : StopCall) : Prop :=
  match sc_race c with Some e => stop_row_ok e | None => True end.

Lemma step_call_refines c db : stops_ok db -> stop_race_ok c ->
  stops_ok (step_call c db).1 /\
  pause_of (step_call c db).1 = (spec_call c (pause_of db)).1 /\
  (step_call c db).2 = (spec_call c (pause_of db)).2.
Proof.
  intros Hok Hrace.
  assert (W : wp (run_stop_call c) (implements (spec_call c (pause_of db)))
                 (open_session db (sc_clock c) (sc_ids c))).
  { unfold spec_call. destruct (length_ok (sc_reason c) 5 500) eqn:L1; cbn [negb].
    - destruct (length_ok (sc_key c) 16 128) eqn:L2; cbn [negb].
      + unfold run_stop_call. destruct (sc_release c); [by apply release_refines|by apply activate_refines].
      + unfold run_stop_call, release_pause_entry, activate_pause_entry.
        destruct (sc_release c); (wp_step; apply wp_validate; [intros _|congruence]; wp_step;
          wp_step; apply wp_validate; [congruence|intros _]; wp_step; by apply (unchanged_implements db)).
    - unfold run_stop_call, release_pause_entry, activate_pause_entry.
      destruct (sc_release c); (wp_step; apply wp_validate; [congruence|intros _]; wp_step;
        by apply (unchanged_implements db)). }
  unfold wp, implements, step_call in *. destruct (run_stop_call c _) as [s r]. done.
Qed.

(** The interface as a whole: a sequence of calls, and what each one raised. *)
Fixpoint run_calls (calls : list StopCall) (db : DB) : DB * list (option exn) :=
  match calls with
  | [] => (db, [])
  | c :: calls =>
      let '(db, e) := step_call c db in
      let '(db, es) := run_calls calls db in (db, e :: es)
  end.

Fixpoint spec_calls (calls : list StopCall) (st : PauseState) : PauseState * list (option exn) :=
  match calls with
  | [] => (st, [])
  | c :: calls =>
      let '(st, e) := spec_call c st in
      let '(st, es) := spec_calls calls st in (st, e :: es)
  end.

(** C9: the emergency stop implements its automaton.  Over any sequence of
    activations and releases, racing insertions included, the stored row is in
    the automaton's state and every call raises what the automaton says: an
    activation pauses entries unless another key already does, only a release
    under a pause ends it, a repeated key changes nothing, and entries are
    blocked exactly in the paused state. *)
Theorem emergency_stop_refines (calls : list StopCall) (db : DB) :
  stops_ok db -> Forall stop_race_ok calls ->
  let '(db', raised) := run_calls calls db in
  (pause_of db', raised) = spec_calls calls (pause_of db) /\
  (active_pause_entry db' ACCOUNT_ALIAS = None <-> forall k v, pause_of db' <> Paused k v).
Proof.
  revert db. induction calls as [|c calls IH]; intros db Hok Hr; cbn [run_calls spec_calls].
  - split; [done|]. rewrite (active_pause_spec db Hok). unfold pause_of.
    destruct (current_emergency_stop db ACCOUNT_ALIAS) as [e|]; [|split; done].
    destruct (state_of_row e) as [|k v|k v]; split; try done.
    intros H. by specialize (H k v).
  - apply Forall_cons in Hr as [Hc Hr].
    destruct (step_call_refines c db Hok Hc) as (H1 & H2 & H3).
    destruct (step_call c db) as [db1 e]. cbn [fst snd] in *.
    destruct (spec_call c (pause_of db)) as [st1 e1]. cbn [fst snd] in *. subst.
    specialize (IH db1 H1 Hr). destruct (run_calls calls db1) as [db2 es].
    destruct (spec_calls calls (pause_of db1)) as [st2 es2]. destruct IH as [IH1 IH2].
    split; [congruence|exact IH2].
Qed.

(** Activation, a repetition, a conflict, and the release. *)
Definition demo_call (release : bool) (key : string) : StopCall :=
  mkStopCall release (mkUser "u" "desk" "h" "ACTIVE") "market turmoil" key "c" 0 (fun _ => "stop-1") None.

Definition demo_calls : list StopCall :=
  [demo_call false "0123456789abcdef"; demo_call false " 0123456789abcdef ";
   demo_call false "fedcba9876543210"; demo_call true "0123456789abcdef";
   demo_call true "fedcba9876543210"; demo_call false "short"].

Lemma emergency_stop_refines_witness :
  (let '(db', raised) := run_calls demo_calls empty_db in
   (pause_of db', raised) = spec_calls demo_calls (pause_of empty_db) /\
   (active_pause_entry db' ACCOUNT_ALIAS = None <-> forall k v, pause_of db' <> Paused k v)) /\
  spec_calls demo_calls Never =
    (Released (Some "0123456789abcdef") 2,
     [None; None; Some (EmergencyStopError "EMERGENCY_STOP_ALREADY_ACTIVE" 409); None;
      Some (EmergencyStopError "EMERGENCY_STOP_NOT_ACTIVE" 409);
      Some (EmergencyStopError "IDEMPOTENCY_KEY_INVALID" 422)]).
Proof.
  split; [|vm_compute; reflexivity].
  apply (emergency_stop_refines demo_calls empty_db); [by left|].
  repeat constructor.
Defined.
