(* ===== verification/Policies.v ===== *)
(** * Configuration versions: risk and execution policies

    [risk_policy.py] and [execution_policy.py] are one protocol over two kinds
    of payload: drafts are numbered, validated, and activated when the active
    version is still the one they were based on.  [PolicyKind] holds what the
    two modules differ in; the handlers are written once over a kind. *)

From Stdlib Require Import ZArith Lia.
From stdpp Require Import base numbers strings list gmap.
From S2P Require Import Prelude Decimal Json PyTime Models Session.

Open Scope Z_scope.

(** ** Payloads *)

Definition SCOPE : string := "USER_DEFAULT".
Definition RISK_CATEGORY : string := "RISK_POLICY".
Definition EXECUTION_CATEGORY : string := "EXECUTION_POLICY".

Definition SAFE_DEFAULT_RISK : RiskPolicyPayload :=
  mkRiskPolicyPayload None 1000000 1000000 3000000 3 5 (Dec (-20) (-1)) 2 (Dec 30 (-2))
    (Dec 50 (-2)) (Dec 50 (-1)) REALIZED_PLUS_UNREALIZED 3.

Definition SAFE_DEFAULT_EXECUTION : ExecutionPolicyPayload :=
  mkExecutionPolicyPayload MODE_MANUAL_APPROVAL MODE_MANUAL_APPROVAL MODE_MANUAL_APPROVAL
    MODE_MANUAL_APPROVAL MODE_AUTOMATIC MODE_AUTOMATIC MODE_AUTOMATIC MODE_AUTOMATIC.

Definition mode_text (m : ExecMode) : string :=
  match m with
  | MODE_AUTOMATIC => "AUTOMATIC" | MODE_MANUAL_APPROVAL => "MANUAL_APPROVAL"
  | MODE_DISABLED => "DISABLED"
  end.

Definition basis_text (b : LossBasis) : string :=
  match b with
  | REALIZED_ONLY => "REALIZED_ONLY" | REALIZED_PLUS_UNREALIZED => "REALIZED_PLUS_UNREALIZED"
  end.

(** [model_dump(mode="json")]: decimals as text. *)
Definition payload_json (p : ConfigPayload) : json :=
  match p with
  | RiskPayload p => JObj
      [("entry_order_amount", jopt_int (entry_order_amount p));
       ("max_single_order_amount", JInt (max_single_order_amount p));
       ("max_position_amount_per_symbol", JInt (max_position_amount_per_symbol p));
       ("max_total_position_amount", JInt (max_total_position_amount p));
       ("max_open_positions", JInt (max_open_positions p));
       ("max_daily_entries", JInt (max_daily_entries p));
       ("fixed_stop_loss_pct", JStr (str_text (fixed_stop_loss_pct p)));
       ("quote_stale_seconds", JInt (quote_stale_seconds p));
       ("max_spread_pct", JStr (str_text (max_spread_pct p)));
       ("max_price_deviation_pct", JStr (str_text (max_price_deviation_pct p)));
       ("daily_loss_limit_pct", JStr (str_text (daily_loss_limit_pct p)));
       ("daily_loss_basis", JStr (basis_text (daily_loss_basis p)));
       ("max_consecutive_losses", JInt (max_consecutive_losses p))]
  | ExecutionPayload p => JObj
      [("buy", JStr (mode_text (xp_buy p)));
       ("partial_sell", JStr (mode_text (xp_partial_sell p)));
       ("full_sell", JStr (mode_text (xp_full_sell p)));
       ("take_profit", JStr (mode_text (xp_take_profit p)));
       ("fixed_stop_loss", JStr (mode_text (xp_fixed_stop_loss p)));
       ("trailing_stop", JStr (mode_text (xp_trailing_stop p)));
       ("end_of_day_liquidation", JStr (mode_text (xp_end_of_day_liquidation p)));
       ("emergency_exit", JStr (mode_text (xp_emergency_exit p)))]
  end.

(** ** Queries *)

(** The three columns that select the versions of a user and category. *)
Definition targets (user_id category : string) (v : ConfigurationVersion) : bool :=
  String.eqb (cv_scope v) SCOPE && String.eqb (cv_target_id v) user_id &&
  String.eqb (cv_category v) category.

Definition active_version (db : DB) (user_id category : string) : option ConfigurationVersion :=
  find_row (fun v => targets user_id category v && bool_decide (cv_state v = CFG_ACTIVE))
    (configurations db).

Definition active_risk_policy (db : DB) (user_id : string) : option ConfigurationVersion :=
  active_version db user_id RISK_CATEGORY.
Definition active_policy (db : DB) (user_id : string) : option ConfigurationVersion :=
  active_version db user_id EXECUTION_CATEGORY.

(** [model_validate_json] raises on a payload of the wrong shape or range. *)
Definition risk_policy_payload (version : option ConfigurationVersion) :
  exn + RiskPolicyPayload :=
  match version with
  | None => inr SAFE_DEFAULT_RISK
  | Some v => match cv_payload v with
              | RiskPayload p => if risk_policy_valid p then inr p else inl ValueError
              | _ => inl ValueError
              end
  end.

Definition policy_payload (version : option ConfigurationVersion) :
  exn + ExecutionPolicyPayload :=
  match version with
  | None => inr SAFE_DEFAULT_EXECUTION
  | Some v => match cv_payload v with
              | ExecutionPayload p => inr p
              | _ => inl ValueError
              end
  end.

(** [func.max(sequence) or 0] over the versions of the target. *)
Definition last_sequence (db : DB) (user_id category : string) : Z :=
  foldr (fun v m => if targets user_id category v then Z.max (cv_sequence v) m else m) 0
    (rows (configurations db)).

Definition history (db : DB) (user_id category : string) : list ConfigurationVersion :=
  firstn 50 (sort_by (fun a b => cv_sequence b <=? cv_sequence a)
    (List.filter (targets user_id category) (rows (configurations db)))).

(** ** Unique constraints *)

(** [uq_configuration_sequence] and the index [uq_configuration_active_target]. *)
Definition config_clash (a b : ConfigurationVersion) : bool :=
  String.eqb (cv_scope a) (cv_scope b) && String.eqb (cv_target_id a) (cv_target_id b) &&
  String.eqb (cv_category a) (cv_category b) &&
  ((cv_sequence a =? cv_sequence b) ||
   (bool_decide (cv_state a = CFG_ACTIVE) && bool_decide (cv_state b = CFG_ACTIVE))).

(** The row would clash with another row of the table. *)
Definition config_violated (v : ConfigurationVersion) (db : DB) : bool :=
  existsb (fun x => negb (String.eqb (cv_id x) (cv_id v)) && config_clash v x)
    (rows (configurations db)).

Definition put_config (v : ConfigurationVersion) (db : DB) : DB :=
  set_configurations db (<[cv_id v := v]> (configurations db)).

(** Rows other sessions insert or update, the locked one excepted; each commits
    unless it clashes. *)
Definition add_concurrent_configs (locked : option string) (race : list ConfigurationVersion)
  (db : DB) : DB :=
  foldr (fun v db =>
    if bool_decide (locked = Some (cv_id v)) || config_violated v db then db
    else put_config v db) db race.

(** [UPDATE configuration_versions SET ... WHERE id = ...] *)
Definition update_config (id : string) (f : ConfigurationVersion -> ConfigurationVersion) :
  prog ConfigurationVersion :=
  row ← gets (fun db => configurations db !! id);
  match row with
  | None => raise StaleDataError
  | Some r =>
      violated ← gets (config_violated (f r));
      guard_or (negb violated) IntegrityError ;;
      modify (put_config (f r)) ;;
      mret (f r)
  end.

(** ** The protocol *)

(** What the two modules differ in: the category, their error class, the action
    their audit row names, and the payload they read back. *)
Record PolicyKind := mkPolicyKind {
  pk_category : string;
  pk_error : string -> Z -> exn;
  pk_action : string;
  pk_readable : ConfigurationVersion -> exn + unit
}.

Definition void_result {A} (r : exn + A) : exn + unit :=
  match r with inl e => inl e | inr _ => inr tt end.

Definition risk_kind : PolicyKind :=
  mkPolicyKind RISK_CATEGORY RiskPolicyError "RISK_POLICY_ACTIVATED"
    (fun v => void_result (risk_policy_payload (Some v))).

Definition execution_kind : PolicyKind :=
  mkPolicyKind EXECUTION_CATEGORY ExecutionPolicyError "EXECUTION_POLICY_ACTIVATED"
    (fun v => void_result (policy_payload (Some v))).

Section Protocol.
Context (sha256 : string -> string) (kind : PolicyKind).

Definition payload_hash (p : ConfigPayload) : string := sha256 (dumps (payload_json p)).

Definition create_draft (user : User) (policy : ConfigPayload) (reason : string)
  (race : list ConfigurationVersion) : prog ConfigurationVersion :=
  let normalized_reason := strip reason in
  guard_or (negb (String.eqb normalized_reason EmptyString))
    (pk_error kind "CONFIGURATION_REASON_REQUIRED" 400) ;;
  current ← gets (fun db => active_version db (u_id user) (pk_category kind));
  last ← gets (fun db => last_sequence db (u_id user) (pk_category kind));
  id ← uuid7;
  let version := mkConfigurationVersion id SCOPE (u_id user) (pk_category kind) (last + 1)
                   CFG_DRAFT policy (payload_hash policy) normalized_reason (u_id user)
                   (cv_id <$> current) None None in
  flush_checked (add_concurrent_configs None race)
    (fun db => bool_decide (is_Some (configurations db !! id)) || config_violated version db)
    (put_config version) ;;
  commit ;;
  mret version.

(** The version the user may act on. *)
Definition owned_version (user : User) (version_id : string) : prog ConfigurationVersion :=
  found ← gets (fun db => configurations db !! version_id);
  match found with
  | Some v =>
      guard_or (String.eqb (cv_target_id v) (u_id user) &&
                String.eqb (cv_category v) (pk_category kind))
        (pk_error kind "CONFIGURATION_VERSION_NOT_FOUND" 404) ;;
      mret v
  | None => raise (pk_error kind "CONFIGURATION_VERSION_NOT_FOUND" 404)
  end.

Definition validate_draft (user : User) (version_id : string)
  (race : list ConfigurationVersion) : prog ConfigurationVersion :=
  version ← owned_version user version_id;
  match cv_state version with
  | CFG_VALIDATED => mret version
  | CFG_DRAFT =>
      of_result (pk_readable kind version) ;;
      now ← utcnow;
      others_commit (add_concurrent_configs None race) ;;
      version ← update_config version_id
        (fun r => set_cv_validated_at (set_cv_state r CFG_VALIDATED) (Some now));
      commit ;;
      mret version
  | _ => raise (pk_error kind "CONFIGURATION_STATE_INVALID" 409)
  end.

Definition activate_version (user : User) (version_id correlation_id : string)
  (race : list ConfigurationVersion) : prog ConfigurationVersion :=
  version ← owned_version user version_id;
  match cv_state version with
  | CFG_ACTIVE => mret version
  | CFG_VALIDATED =>
      current ← gets (fun db => active_version db (u_id user) (pk_category kind));
      guard_or (bool_decide (cv_base_active_version_id version = cv_id <$> current))
        (pk_error kind "CONFIGURATION_VERSION_CONFLICT" 409) ;;
      others_commit (add_concurrent_configs (Some version_id) race) ;;
      match current with
      | Some c => update_config (cv_id c) (fun r => set_cv_state r CFG_SUPERSEDED) ;; mret tt
      | None => mret tt
      end ;;
      now ← utcnow;
      version ← update_config version_id
        (fun r => set_cv_activated_at (set_cv_state r CFG_ACTIVE) (Some now));
      modify (add_audit (mkAuditLog "USER" (Some (u_id user)) (pk_action kind)
        (Some (cv_id version)) "PASSED" None None correlation_id
        (JObj [("sequence", JInt (cv_sequence version));
               ("payload_hash", JStr (cv_payload_hash version))]))) ;;
      commit ;;
      mret version
  | _ => raise (pk_error kind "CONFIGURATION_NOT_VALIDATED" 409)
  end.
End Protocol.

(** The operations of the two modules. *)
Definition create_risk_draft sha256 := create_draft sha256 risk_kind.
Definition validate_risk_draft := validate_draft risk_kind.
Definition activate_risk_version := activate_version risk_kind.

(** ** Well-formed tables *)

Definition configs_ok (db : DB) : Prop :=
  (forall k v, configurations db !! k = Some v -> cv_id v = k /\ cv_scope v = SCOPE) /\
  (forall k1 k2 v1 v2, configurations db !! k1 = Some v1 -> configurations db !! k2 = Some v2 ->
     k1 <> k2 -> config_clash v1 v2 = false).

Lemma config_clash_sym a b : config_clash a b = config_clash b a.
Proof.
  unfold config_clash. rewrite (String.eqb_sym (cv_scope a)), (String.eqb_sym (cv_target_id a)),
    (String.eqb_sym (cv_category a)), (Z.eqb_sym (cv_sequence a)).
  f_equal. f_equal. apply andb_comm.
Qed.

Lemma config_violated_false v db k x :
  config_violated v db = false -> configurations db !! k = Some x -> cv_id x <> cv_id v ->
  config_clash v x = false.
Proof.
  unfold config_violated. rewrite existsb_false_Forall, Forall_forall. intros H Hk Hn.
  specialize (H x ltac:(apply elem_of_rows; eauto)). cbn beta in H.
  destruct (String.eqb_spec (cv_id x) (cv_id v)); [done|exact H].
Qed.

Lemma put_config_ok v db :
  configs_ok db -> cv_scope v = SCOPE -> config_violated v db = false -> configs_ok (put_config v db).
Proof.
  intros [H1 H2] Hs Hv. unfold put_config. split; simpl.
  - intros k x. destruct (decide (k = cv_id v)) as [->|N].
    + rewrite lookup_insert_eq. by intros [= <-].
    + rewrite lookup_insert_ne by done. apply H1.
  - intros k1 k2 v1 v2. destruct (decide (k1 = cv_id v)) as [->|N1], (decide (k2 = cv_id v)) as [->|N2].
    + done.
    + rewrite lookup_insert_eq, lookup_insert_ne by done. intros [= <-] Hk _.
      eapply config_violated_false; [exact Hv|exact Hk|]. destruct (H1 _ _ Hk). congruence.
    + rewrite lookup_insert_eq, lookup_insert_ne by done. intros Hk [= <-] _.
      rewrite config_clash_sym. eapply config_violated_false; [exact Hv|exact Hk|].
      destruct (H1 _ _ Hk). congruence.
    + rewrite !lookup_insert_ne by done. apply H2.
Qed.

Definition config_race_ok (race : list ConfigurationVersion) : Prop :=
  Forall (fun v => cv_scope v = SCOPE) race.

Lemma race_configs_ok locked race db :
  config_race_ok race -> configs_ok db -> configs_ok (add_concurrent_configs locked race db).
Proof.
  intros Hr Hok. unfold add_concurrent_configs. induction Hr as [|v race Hv Hr IH]; [done|].
  cbn [foldr]. set (db' := foldr _ db race) in *.
  destruct (bool_decide (locked = Some (cv_id v))); [exact IH|].
  destruct (config_violated v db') eqn:E; [exact IH|]. by apply put_config_ok.
Qed.

Lemma race_configs_locked id race db :
  configurations (add_concurrent_configs (Some id) race db) !! id = configurations db !! id.
Proof.
  unfold add_concurrent_configs. induction race as [|v race IH]; [done|]. cbn [foldr].
  set (db' := foldr _ db race) in *.
  destruct (bool_decide (Some id = Some (cv_id v))) eqn:E; [exact IH|]. simpl.
  destruct (config_violated v db'); [exact IH|]. simpl. rewrite lookup_insert_ne; [exact IH|].
  bool_to_prop. congruence.
Qed.

(** Under the constraints the active version of a target is unique. *)
Lemma targets_true user_id category v : targets user_id category v = true <->
  cv_scope v = SCOPE /\ cv_target_id v = user_id /\ cv_category v = category.
Proof. unfold targets. rewrite !andb_true_iff, !String.eqb_eq. tauto. Qed.

Lemma active_version_Some db u c v : active_version db u c = Some v ->
  cv_state v = CFG_ACTIVE /\ targets u c v = true /\ exists k, configurations db !! k = Some v.
Proof.
  intros H. apply find_row_Some in H as [H Hk]. apply andb_true_iff in H as [Ht Hs].
  bool_to_prop. done.
Qed.

Lemma both_active_clash u c v1 v2 :
  targets u c v1 = true -> targets u c v2 = true ->
  cv_state v1 = CFG_ACTIVE -> cv_state v2 = CFG_ACTIVE -> config_clash v1 v2 = true.
Proof.
  rewrite !targets_true. intros (S1 & T1 & C1) (S2 & T2 & C2) A1 A2. unfold config_clash.
  rewrite S1, T1, C1, S2, T2, C2, !String.eqb_refl, A1, A2.
  rewrite !bool_decide_eq_true_2 by done. apply orb_true_r.
Qed.

Lemma active_version_unique db u c v k :
  configs_ok db -> configurations db !! k = Some v -> cv_state v = CFG_ACTIVE ->
  targets u c v = true -> active_version db u c = Some v.
Proof.
  intros [H1 H2] Hk Ha Ht. destruct (active_version db u c) as [v'|] eqn:E.
  - apply active_version_Some in E as (Ha' & Ht' & k' & Hk').
    destruct (decide (k = k')) as [->|N]; [congruence|].
    specialize (H2 k k' v v' Hk Hk' N). by rewrite (both_active_clash u c) in H2.
  - eapply find_row_None in E; [|exact Hk]. cbn beta in E.
    by rewrite Ht, Ha in E.
Qed.

(** ** Symbolic execution of the protocol *)

Lemma wp_update_config id f Q s :
  (configurations (work s) !! id = None -> Q s (inr StaleDataError)) ->
  (forall r, configurations (work s) !! id = Some r -> config_violated (f r) (work s) = true ->
     Q s (inr IntegrityError)) ->
  (forall r, configurations (work s) !! id = Some r -> config_violated (f r) (work s) = false ->
     Q (with_work (put_config (f r)) s) (inl (f r))) ->
  wp (update_config id f) Q s.
Proof.
  intros H0 H1 H2. unfold update_config. wp_step. wp_step. wp_step.
  destruct (configurations (work s) !! id) as [r|] eqn:E; [|wp_step; by apply H0].
  repeat wp_step; [|bool_to_prop; by eapply H1].
  apply H2; [done|]. by bool_to_prop.
Qed.

Lemma wp_owned_version kind user id Q s :
  (forall v, configurations (work s) !! id = Some v -> cv_target_id v = u_id user ->
     cv_category v = pk_category kind -> Q s (inl v)) ->
  Q s (inr (pk_error kind "CONFIGURATION_VERSION_NOT_FOUND" 404)) ->
  wp (owned_version kind user id) Q s.
Proof.
  intros H1 H2. unfold owned_version. repeat wp_step; try exact H2.
  match goal with H : _ && _ = true |- _ => apply andb_true_iff in H as [A B] end.
  apply String.eqb_eq in A, B. by apply H1.
Qed.

(** ** Lifecycle of a version *)

Definition state_rank (st : ConfigState) : Z :=
  match st with CFG_DRAFT => 0 | CFG_VALIDATED => 1 | CFG_ACTIVE => 2 | CFG_SUPERSEDED => 3 end.

(** The same version, no earlier in its life. *)
Definition later_version (v v' : ConfigurationVersion) : Prop :=
  cv_id v' = cv_id v /\ cv_scope v' = cv_scope v /\ cv_target_id v' = cv_target_id v /\
  cv_category v' = cv_category v /\ cv_sequence v' = cv_sequence v /\
  cv_payload v' = cv_payload v /\ cv_payload_hash v' = cv_payload_hash v /\
  cv_created_by v' = cv_created_by v /\
  cv_base_active_version_id v' = cv_base_active_version_id v /\
  state_rank (cv_state v) <= state_rank (cv_state v').

Definition configs_evolve (db db' : DB) : Prop :=
  forall k v, configurations db !! k = Some v ->
    exists v', configurations db' !! k = Some v' /\ later_version v v'.

Lemma later_version_refl v : later_version v v.
Proof. repeat split; lia. Qed.

Lemma later_version_trans a b c : later_version a b -> later_version b c -> later_version a c.
Proof. unfold later_version. intuition (try congruence; try lia). Qed.

#[export] Instance configs_evolve_preorder : PreOrder configs_evolve.
Proof.
  split.
  - intros db k v Hk. exists v. split; [done|apply later_version_refl].
  - intros a b c H1 H2 k v Hk. destruct (H1 k v Hk) as (v1 & Hv1 & L1).
    destruct (H2 k v1 Hv1) as (v2 & Hv2 & L2). exists v2. split; [done|].
    by eapply later_version_trans.
Qed.

Lemma put_config_evolves v0 v db :
  configurations db !! cv_id v = Some v0 -> later_version v0 v -> configs_evolve db (put_config v db).
Proof.
  intros Hk Hl k x Hx. unfold put_config. simpl. destruct (decide (k = cv_id v)) as [->|N].
  - exists v. rewrite lookup_insert_eq. split; [done|]. congruence.
  - exists x. rewrite lookup_insert_ne by done. split; [done|apply later_version_refl].
Qed.

Lemma put_config_fresh_evolves v db :
  configurations db !! cv_id v = None -> configs_evolve db (put_config v db).
Proof.
  intros Hk k x Hx. exists x. unfold put_config. simpl.
  rewrite lookup_insert_ne by congruence. split; [done|apply later_version_refl].
Qed.

(** What every call establishes. *)
Definition keeps_versions (race : list ConfigurationVersion) (db : DB) (s : Sess)
  (_ : ConfigurationVersion + exn) : Prop :=
  configs_ok (disk s) /\ (race = [] -> configs_evolve db (disk s)).

Section Calls.
Context (sha256 : string -> string) (kind : PolicyKind) (user : User).
Context (race : list ConfigurationVersion) (Hrace : config_race_ok race).
Context (db : DB) (Hok : configs_ok db).

(** The call stopped before it committed anything of its own. *)
Lemma aborted_keeps locked r s :
  disk s = db \/ disk s = add_concurrent_configs locked race db -> keeps_versions race db s r.
Proof.
  intros [E|E]; split; rewrite E.
  - exact Hok.
  - reflexivity.
  - by apply race_configs_ok.
  - by intros ->.
Qed.

Lemma create_draft_keeps policy reason now ids :
  wp (create_draft sha256 kind user policy reason race) (keeps_versions race db)
    (open_session db now ids).
Proof.
  unfold create_draft. repeat wp_step; try (apply (aborted_keeps None); by left).
  apply wp_flush_checked; intros Hv; [apply (aborted_keeps None); by right|].
  apply orb_false_iff in Hv as [Hf Hv]. apply bool_decide_eq_false in Hf.
  repeat wp_step. split.
  - apply put_config_ok; [by apply race_configs_ok|done|exact Hv].
  - intros E. rewrite E in *. apply (put_config_fresh_evolves _ db).
    apply eq_None_not_Some. exact Hf.
Qed.

Lemma validate_draft_keeps id now ids :
  wp (validate_draft kind user id race) (keeps_versions race db) (open_session db now ids).
Proof.
  unfold validate_draft. wp_step. apply wp_owned_version; [|apply (aborted_keeps None); by left].
  intros v Hv Ht Hc. wp_step.
  wp_step; repeat wp_step; try (apply (aborted_keeps None); by left).
  apply wp_others_commit. wp_step. wp_step.
  apply wp_update_config; [intros _|intros r _ _|intros r Hr Hf];
    repeat wp_step; try (apply (aborted_keeps None); by right).
  pose proof (race_configs_ok None race db Hrace Hok) as R.
  destruct (proj1 R _ _ Hr) as [Hid Hs]. split; [by apply put_config_ok|].
  intros ->. cbn in Hr, Hv. rewrite Hr in Hv. injection Hv as ->.
  apply (put_config_evolves v); [cbn; by rewrite Hid|].
  repeat split. cbn. rewrite E. done.
Qed.

(** The writes of an activation: [db1] is the database the other sessions left,
    [db2] adds the superseded row. *)
Definition superseded (current : option ConfigurationVersion) (db1 db2 : DB) : Prop :=
  match current with
  | None => db2 = db1
  | Some c => exists r, configurations db1 !! cv_id c = Some r /\
      config_violated (set_cv_state r CFG_SUPERSEDED) db1 = false /\
      db2 = put_config (set_cv_state r CFG_SUPERSEDED) db1
  end.

Definition activation_result (id : string) (s : Sess) (r : ConfigurationVersion + exn) : Prop :=
  let db1 := add_concurrent_configs (Some id) race db in
  match r with
  | inr _ => disk s = db \/ disk s = db1
  | inl v' => exists v, configurations db !! id = Some v /\ cv_target_id v = u_id user /\
      cv_category v = pk_category kind /\
      (cv_state v = CFG_ACTIVE /\ v' = v /\ disk s = db \/
       cv_state v = CFG_VALIDATED /\
       exists db2 t, let current := active_version db (u_id user) (pk_category kind) in
         cv_base_active_version_id v = cv_id <$> current /\ superseded current db1 db2 /\
         v' = set_cv_activated_at (set_cv_state v CFG_ACTIVE) (Some t) /\
         config_violated v' db2 = false /\
         configurations (disk s) = configurations (put_config v' db2))
  end.

Lemma activate_version_run id corr now ids :
  wp (activate_version kind user id corr race) (activation_result id) (open_session db now ids).
Proof.
  unfold activate_version. wp_step. apply wp_owned_version; [|by left].
  intros v Hv Ht Hc. wp_step.
  wp_step; repeat wp_step; try (by left); [|exists v; repeat split; try done; by left].
  bool_to_prop. cbn in Hv. cbn [work open_session] in *.
  apply wp_others_commit. wp_step. wp_step.
  assert (Hlock : configurations (add_concurrent_configs (Some id) race db) !! id = Some v)
    by (by rewrite race_configs_locked).
  destruct (active_version db (u_id user) (pk_category kind)) as [c|] eqn:Ec.
  - apply active_version_Some in Ec as Hc'. destruct Hc' as (Ha & _ & kc & Hkc).
    destruct (proj1 Hok _ _ Hkc) as [Hid _].
    assert (Hn : cv_id c <> id) by congruence.
    wp_step. apply wp_update_config; [intros _|intros r _ _|intros r Hr Hf];
      repeat wp_step; try (by right).
    cbn [work interleave open_session] in *.
    apply wp_update_config; [intros _|intros r' _ _|intros r' Hr' Hf'];
      repeat wp_step; try (by right).
    cbn [work with_work interleave open_session] in Hr', Hf'.
    destruct (race_configs_ok (Some id) race db Hrace Hok) as [R1 _].
    destruct (R1 _ _ Hr) as [Hrid _].
    unfold put_config in Hr'. cbn in Hr'. rewrite Hrid, lookup_insert_ne, Hlock in Hr' by done.
    injection Hr' as <-. exists v. repeat split; try done. right. split; [done|].
    do 2 eexists. cbn zeta. rewrite Ec. split; [done|]. split; [exists r; eauto|].
    split; [done|]. split; [exact Hf'|done].
  - repeat wp_step. apply wp_update_config; [intros _|intros r' _ _|intros r' Hr' Hf'];
      repeat wp_step; try (by right).
    cbn [work interleave open_session] in Hr', Hf'. rewrite Hlock in Hr'. injection Hr' as <-.
    exists v. repeat split; try done. right. split; [done|].
    do 2 eexists. cbn zeta. rewrite Ec. split; [done|]. split; [done|].
    split; [done|]. split; [exact Hf'|done].
Qed.

Lemma superseded_ok current db1 db2 :
  superseded current db1 db2 -> configs_ok db1 -> configs_ok db2.
Proof.
  destruct current as [c|]; [intros (r & Hr & Hf & ->)|by intros ->]. intros H1.
  apply put_config_ok; [done| |done]. apply (proj1 H1 _ _ Hr).
Qed.

Lemma same_configs_ok db1 db2 : configurations db1 = configurations db2 ->
  configs_ok db2 -> configs_ok db1.
Proof. unfold configs_ok. by intros ->. Qed.

Lemma activation_result_ok id s r :
  activation_result id s r -> configs_ok (disk s).
Proof.
  pose proof (race_configs_ok (Some id) race db Hrace Hok) as R.
  destruct r as [v'|e]; cbn; [|intros [-> | ->]; done].
  intros (v & Hv & _ & _ & [(_ & _ & ->)|(_ & db2 & t & _ & Hsup & -> & Hf & E)]); [done|].
  apply (same_configs_ok _ (put_config _ db2) E).
  apply put_config_ok; [by eapply superseded_ok| |exact Hf].
  apply (proj1 Hok _ _ Hv).
Qed.

Lemma activate_version_keeps id corr now ids :
  wp (activate_version kind user id corr race) (keeps_versions race db) (open_session db now ids).
Proof.
  eapply wp_mono; [apply activate_version_run|]. intros s r H.
  split; [by eapply activation_result_ok|]. intros Er.
  destruct r as [v'|e]; cbn in H; rewrite Er in H; cbn in H.
  2: { by destruct H as [-> | ->]. }
  destruct H as (v & Hv & _ & _ & [(_ & _ & ->)|(Hst & db2 & t & _ & Hsup & -> & Hf & E)]); [done|].
  assert (E1 : configs_evolve db db2 /\ configurations db2 !! id = Some v).
  { destruct (active_version db _ _) as [c|] eqn:Ec; cbn in Hsup; [|subst; done].
    destruct Hsup as (r & Hr & _ & ->).
    apply active_version_Some in Ec as (Ha & _ & kc & Hkc). destruct (proj1 Hok _ _ Hkc) as [Hid _].
    rewrite Hid, Hkc in Hr. injection Hr as <-. split.
    - apply (put_config_evolves c); [cbn; by rewrite Hid|]. repeat split. cbn. rewrite Ha. done.
    - unfold put_config. cbn. rewrite lookup_insert_ne; [done|]. congruence. }
  destruct E1 as [E1 E2]. etransitivity; [exact E1|]. intros k x Hk.
  destruct (put_config_evolves v (set_cv_activated_at (set_cv_state v CFG_ACTIVE) (Some t)) db2)
    with k x as (x' & Hx' & L); [|repeat split; cbn; rewrite Hst; done|exact Hk|].
  - cbn. by rewrite (proj1 (proj1 Hok _ _ Hv)).
  - exists x'. by rewrite E.
Qed.
End Calls.

(** ** Properties *)

(** One call of either module, in a session of its own. *)
Inductive PolicyOp :=
| Draft (policy : ConfigPayload) (reason : string)
| Validate (version_id : string)
| Activate (version_id correlation_id : string).

Record PolicyCall := mkPolicyCall {
  pc_kind : PolicyKind;
  pc_user : User;
  pc_op : PolicyOp;
  pc_race : list ConfigurationVersion;
  pc_clock : Z;
  pc_ids : nat -> string
}.

Definition run_policy (sha256 : string -> string) (c : PolicyCall) : prog ConfigurationVersion :=
  match pc_op c with
  | Draft p reason => create_draft sha256 (pc_kind c) (pc_user c) p reason (pc_race c)
  | Validate id => validate_draft (pc_kind c) (pc_user c) id (pc_race c)
  | Activate id corr => activate_version (pc_kind c) (pc_user c) id corr (pc_race c)
  end.

Definition policy_step (sha256 : string -> string) (db : DB) (c : PolicyCall) : DB :=
  disk (run_policy sha256 c (open_session db (pc_clock c) (pc_ids c))).1.

Lemma policy_step_keeps sha256 db c : configs_ok db -> config_race_ok (pc_race c) ->
  configs_ok (policy_step sha256 db c) /\
  (pc_race c = [] -> configs_evolve db (policy_step sha256 db c)).
Proof.
  intros Hok Hr.
  assert (W : wp (run_policy sha256 c) (keeps_versions (pc_race c) db)
                 (open_session db (pc_clock c) (pc_ids c))).
  { unfold run_policy. destruct (pc_op c).
    - by apply create_draft_keeps.
    - by apply validate_draft_keeps.
    - by apply activate_version_keeps. }
  unfold wp, keeps_versions, policy_step in *. by destruct (run_policy _ _ _).
Qed.

(** C10: over any sequence of drafts, validations and activations of both
    policies by any users, a user has at most one active version of a policy and
    its versions carry distinct numbers, whatever other sessions commit; and
    without such commits every version stays, with its number, payload, hash
    and base, and only moves forward from draft to validated, active and
    superseded. *)
Theorem policy_versions (sha256 : string -> string) (calls : list PolicyCall) (db : DB) :
  configs_ok db -> Forall (fun c => config_race_ok (pc_race c)) calls ->
  let db' := fold_left (policy_step sha256) calls db in
  (forall u cat k1 k2 v1 v2,
     configurations db' !! k1 = Some v1 -> configurations db' !! k2 = Some v2 ->
     targets u cat v1 = true -> targets u cat v2 = true ->
     cv_state v1 = CFG_ACTIVE /\ cv_state v2 = CFG_ACTIVE \/ cv_sequence v1 = cv_sequence v2 ->
     k1 = k2) /\
  (Forall (fun c => pc_race c = []) calls -> configs_evolve db db').
Proof.
  revert db. induction calls as [|c calls IH]; intros db Hok Hr; cbn [fold_left].
  - split; [|reflexivity]. intros u cat k1 k2 v1 v2 H1 H2 T1 T2 H.
    destruct (decide (k1 = k2)) as [|N]; [done|]. pose proof (proj2 Hok _ _ _ _ H1 H2 N) as F.
    destruct H as [[A1 A2]|Hs]; [by rewrite (both_active_clash u cat) in F|].
    apply targets_true in T1 as (S1 & T1 & C1). apply targets_true in T2 as (S2 & T2 & C2).
    unfold config_clash in F. by rewrite S1, T1, C1, S2, T2, C2, Hs, !String.eqb_refl, Z.eqb_refl in F.
  - apply Forall_cons in Hr as [Hc Hr]. destruct (policy_step_keeps sha256 db c Hok Hc) as [K1 K2].
    destruct (IH _ K1 Hr) as [I1 I2]. split; [exact I1|].
    intros E. apply Forall_cons in E as [E1 E2]. etransitivity; [by apply K2|by apply I2].
Qed.

(** The rows after the base was superseded. *)
Lemma superseded_rows current db1 db2 :
  superseded current db1 db2 -> configs_ok db1 ->
  (forall k, Some k <> cv_id <$> current -> configurations db2 !! k = configurations db1 !! k) /\
  (forall b c, cv_id <$> current = Some b -> configurations db2 !! b = Some c ->
     cv_state c = CFG_SUPERSEDED).
Proof.
  intros H H1. destruct current as [c|]; cbn in *; [|by subst].
  destruct H as (r & Hr & _ & ->). destruct (proj1 H1 _ _ Hr) as [Hid _].
  unfold put_config. cbn. rewrite Hid. split.
  - intros k Hk. rewrite lookup_insert_ne; [done|]. congruence.
  - intros b x [= <-]. rewrite lookup_insert_eq. by intros [= <-].
Qed.

(** A version can only become active over the one it was based on. *)
Lemma activated_over_base u cat current db1 db2 v' c' :
  superseded current db1 db2 -> configs_ok db1 -> config_violated v' db2 = false ->
  targets u cat v' = true -> cv_state v' = CFG_ACTIVE ->
  active_version db1 u cat = Some c' -> cv_id c' <> cv_id v' -> cv_id <$> current = Some (cv_id c').
Proof.
  intros Hsup H1 Hf Hv Hst Hc' Hn.
  apply active_version_Some in Hc' as (Ha' & Ht' & k' & Hk').
  destruct (proj1 H1 _ _ Hk') as [Hid' _].
  destruct (decide (cv_id <$> current = Some (cv_id c'))) as [|N]; [done|exfalso].
  assert (Hk2 : configurations db2 !! k' = Some c').
  { rewrite (proj1 (superseded_rows _ _ _ Hsup H1)); [done|]. congruence. }
  pose proof (config_violated_false _ _ _ _ Hf Hk2 Hn) as F.
  by rewrite (both_active_clash u cat) in F.
Qed.

(** Activation is optimistic.  When it succeeds, the version was validated
    by its owner's category, and the version active in the database the other
    sessions left, if any, is the one it was based on: no activation discards
    a change its author did not see.  The version is then the active one with
    its payload, the base is superseded, and no other row changes.  When it
    fails nothing changes, but for what the other sessions committed. *)
Theorem activation_is_optimistic (kind : PolicyKind) (user : User) (id corr : string)
  (race : list ConfigurationVersion) (db : DB) (now : Z) (ids : nat -> string) :
  configs_ok db -> config_race_ok race ->
  let '(s, r) := activate_version kind user id corr race (open_session db now ids) in
  let db1 := add_concurrent_configs (Some id) race db in
  let active d := active_version d (u_id user) (pk_category kind) in
  match r with
  | inl v => exists v0, configurations db !! id = Some v0 /\ cv_payload v = cv_payload v0 /\
      active (disk s) = Some v /\
      (cv_state v0 = CFG_ACTIVE /\ disk s = db \/
       cv_state v0 = CFG_VALIDATED /\
       (forall c, active db1 = Some c -> cv_base_active_version_id v0 = Some (cv_id c)) /\
       (forall b c, cv_base_active_version_id v0 = Some b ->
          configurations (disk s) !! b = Some c -> cv_state c = CFG_SUPERSEDED) /\
       forall k, k <> id -> Some k <> cv_base_active_version_id v0 ->
         configurations (disk s) !! k = configurations db1 !! k)
  | inr _ => disk s = db \/ disk s = db1
  end.
Proof.
  intros Hok Hr. pose proof (activate_version_run kind user race Hr db Hok id corr now ids) as W.
  unfold wp in W. destruct (activate_version _ _ _ _ _ _) as [s r]. cbv zeta.
  pose proof (activation_result_ok kind user race Hr db Hok id s r W) as Hok'.
  destruct r as [v'|e]; cbn in W; [|exact W].
  destruct W as (v & Hv & Ht & Hc & W). exists v. split; [exact Hv|].
  destruct (proj1 Hok _ _ Hv) as [Hid Hscope].
  assert (Htv : targets (u_id user) (pk_category kind) v = true) by (by apply targets_true).
  destruct W as [(Ha & -> & E)|(Hst & db2 & t & Hb & Hsup & -> & Hf & E)].
  { split; [done|]. split; [|by left]. rewrite E in *. by eapply active_version_unique. }
  set (v' := set_cv_activated_at _ _) in *.
  split; [done|]. split.
  { eapply active_version_unique; [exact Hok'| |done|exact Htv].
    rewrite E. unfold put_config. cbn. apply lookup_insert_eq. }
  right. split; [done|].
  pose proof (race_configs_ok (Some id) race db Hr Hok) as R.
  destruct (superseded_rows _ _ _ Hsup R) as [S1 S2].
  assert (Hother : forall k, k <> id ->
    configurations (disk s) !! k = configurations db2 !! k).
  { intros k Hk. rewrite E. unfold put_config. cbn. rewrite lookup_insert_ne; [done|]. congruence. }
  rewrite Hb. split; [|split].
  - intros c Hc'. eapply activated_over_base; [exact Hsup|exact R|exact Hf|exact Htv|done|exact Hc'|].
    cbn. rewrite Hid. intros X. apply active_version_Some in Hc' as (Ha' & _ & k' & Hk').
    rewrite <- (proj1 (proj1 R _ _ Hk')), X, race_configs_locked in Hk'. congruence.
  - intros b c Eb Hx. apply (S2 b c Eb). rewrite <- Hother; [exact Hx|]. intros ->.
    destruct (active_version db _ _) as [c0|] eqn:Ec; [|discriminate Eb]. cbn in Eb.
    apply active_version_Some in Ec as (Hca & _ & kc & Hkc).
    destruct (proj1 Hok _ _ Hkc) as [Hcid _]. congruence.
  - intros k Hk Hkb. rewrite Hother by done. by apply S1.
Qed.

(** A first risk policy, and a second one based on it, by one user. *)
Definition demo_user : User := mkUser "user-1" "desk" "h" "ACTIVE".

Definition demo_risk : RiskPolicyPayload :=
  mkRiskPolicyPayload (Some 500000) 1000000 1000000 3000000 3 5 (Dec (-30) (-1)) 5 (Dec 30 (-2))
    (Dec 50 (-2)) (Dec 50 (-1)) REALIZED_ONLY 3.

Definition demo_policy_call (op : PolicyOp) (id : string) : PolicyCall :=
  mkPolicyCall risk_kind demo_user op [] 0 (fun _ => id).

Definition demo_policy_calls : list PolicyCall :=
  [demo_policy_call (Draft (RiskPayload demo_risk) "first") "v1";
   demo_policy_call (Validate "v1") "x"; demo_policy_call (Activate "v1" "c") "x";
   demo_policy_call (Draft (RiskPayload SAFE_DEFAULT_RISK) "second") "v2";
   demo_policy_call (Validate "v2") "x"].

Definition demo_policy_db : DB := fold_left (policy_step (fun s => s)) demo_policy_calls empty_db.

Lemma empty_configs_ok : configs_ok empty_db.
Proof. split; intros *; cbn; rewrite lookup_empty; discriminate. Qed.

Lemma policy_versions_witness :
  map (fun v => (cv_id v, cv_sequence v, cv_state v)) (history demo_policy_db "user-1" RISK_CATEGORY)
    = [("v2", 2, CFG_VALIDATED); ("v1", 1, CFG_ACTIVE)] /\
  configs_evolve empty_db demo_policy_db.
Proof.
  split; [vm_compute; reflexivity|].
  apply (policy_versions (fun s => s) demo_policy_calls empty_db empty_configs_ok);
    repeat constructor.
Defined.

Lemma demo_policy_db_ok : configs_ok demo_policy_db.
Proof.
  assert (H : forall calls db, configs_ok db -> Forall (fun c => config_race_ok (pc_race c)) calls ->
    configs_ok (fold_left (policy_step (fun s => s)) calls db)).
  { induction calls as [|c calls IH]; intros db Hok Hr; [done|]. cbn [fold_left].
    apply Forall_cons in Hr as [H1 H2]. apply IH; [|done]. by apply policy_step_keeps. }
  apply H; [apply empty_configs_ok|repeat constructor].
Qed.

Lemma activation_is_optimistic_witness :
  let '(s, r) := activate_version risk_kind demo_user "v2" "c" []
                   (open_session demo_policy_db 7 (fun _ => "x")) in
  exists v, r = inl v /\ cv_payload v = RiskPayload SAFE_DEFAULT_RISK /\
    active_version (disk s) "user-1" RISK_CATEGORY = Some v.
Proof.
  pose proof (activation_is_optimistic risk_kind demo_user "v2" "c" [] demo_policy_db 7
    (fun _ => "x") demo_policy_db_ok ltac:(constructor)) as H.
  assert (E : match (activate_version risk_kind demo_user "v2" "c" []
                   (open_session demo_policy_db 7 (fun _ => "x"))).2 with
              | inl v => cv_payload v = RiskPayload SAFE_DEFAULT_RISK | inr _ => False end)
    by (vm_compute; reflexivity).
  destruct (activate_version _ _ _ _ _ _) as [s [v|e]]; [|destruct E]. cbn in H, E.
  destruct H as (v0 & _ & _ & H & _). exists v. done.
Defined.
