(* ===== verification/OrderCreation.v ===== *)
(** * The shared order creation service

    [order_creation.py]: the one path on which decisions, approvals and stop
    triggers persist an intent and its [CREATED] order, idempotent on a key.
    It does not commit: the caller's transaction does. *)

From Stdlib Require Import ZArith Lia.
From stdpp Require Import base numbers strings list gmap.
From S2P Require Import Prelude Decimal Json PyTime Models Session PaperBroker RiskEvents.

Open Scope Z_scope.

Definition ENVIRONMENT : string := "MOCK".

Record OrderRequest := mkOrderRequest {
  oc_symbol : string;
  oc_market : string;
  oc_side : string;
  oc_action : string;
  oc_order_type : string;
  oc_limit_price : option decimal;
  oc_quantity : Z;
  oc_idempotency_key : string;
  oc_request_payload : json;
  oc_correlation_id : string
}.

Definition str_in (l : list string) (s : string) : bool := existsb (String.eqb s) l.

Definition _validate (request : OrderRequest) : prog unit :=
  guard_or (0 <? oc_quantity request) (OrderCreationError "ORDER_QUANTITY_INVALID" 400) ;;
  guard_or (str_in ["BUY"; "SELL"] (oc_side request))
    (OrderCreationError "ORDER_SIDE_INVALID" 400) ;;
  guard_or (str_in ["KRX"; "NXT"] (oc_market request))
    (OrderCreationError "ORDER_MARKET_INVALID" 400) ;;
  guard_or (negb (String.eqb (oc_order_type request) "LIMIT" &&
                  bool_decide (oc_limit_price request = None)))
    (OrderCreationError "LIMIT_PRICE_REQUIRED" 400) ;;
  guard_or (negb (String.eqb (oc_order_type request) "MARKET" &&
                  bool_decide (oc_limit_price request <> None)))
    (OrderCreationError "MARKET_PRICE_NOT_ALLOWED" 400).

Definition _unfilled_policy (request : OrderRequest) : UnfilledPolicy * Z * Z :=
  if String.eqb (oc_side request) "BUY" && String.eqb (oc_action request) "BUY"
  then (POLICY_CANCEL, 10, 0)
  else (POLICY_NONE, 0, 0).

Section OrderCreation.
Context (sha256 : string -> string).

Definition _request_hash (payload : json) : string := sha256 (dumps payload).

Definition _order_event (order : TradingOrder) (event_type : string) (payload : json) : prog unit :=
  occurred_at ← utcnow;
  modify (add_order_event
    (mkOrderEvent (o_id order) event_type "CRESTA" (o_id order +:+ ":" +:+ event_type)
       (sha256 (dumps payload)) payload (o_correlation_id order) occurred_at)).

(** The row of a request, with the defaults of its columns. *)
Definition created_order (request : OrderRequest) (side : Side) (order_type : OrderType)
  (id intent_id group_id : string) (trading_date created_at : Z) : TradingOrder :=
  let '(policy, timeout, reprices) := _unfilled_policy request in
  mkTradingOrder id intent_id group_id None ACCOUNT_ALIAS ENVIRONMENT
    (oc_symbol request) (oc_market request) side order_type (oc_limit_price request)
    (oc_quantity request) 0 0 (oc_quantity request) CREATED (oc_idempotency_key request)
    (_request_hash (oc_request_payload request)) None 0 policy timeout reprices 0 None
    trading_date (oc_correlation_id request) 1 created_at.

(** After a violated constraint: the transaction is rolled back, and the order
    another session created under the key answers the request if it is the
    same one. *)
Definition raced_order (request : OrderRequest) (fingerprint : string) : prog TradingOrder :=
  rollback ;;
  raced ← gets (order_by_key (oc_idempotency_key request));
  match raced with
  | Some raced =>
      guard_or (String.eqb (o_request_hash raced) fingerprint)
        (OrderCreationError "IDEMPOTENCY_CONFLICT" 409) ;;
      mret raced
  | None => raise (OrderCreationError "IDEMPOTENCY_CONFLICT" 409)
  end.

(** [race]: the order rows other sessions commit while this one runs.  The
    result says whether the row was flushed by this call. *)
Definition flush_request (request : OrderRequest) (side : Side)
  (id intent_id group_id : string) (trading_date created_at : Z) (race : list TradingOrder) :
  prog (TradingOrder * bool) :=
  try_except
    (match order_type_of (oc_order_type request) with
     | Some order_type =>
         let order := created_order request side order_type id intent_id group_id
                        trading_date created_at in
         flush_order race order ;; mret (order, true)
     | None => others_commit (add_concurrent_orders race) ;; raise IntegrityError
     end)
    (fun e => match e with
              | IntegrityError => Some (
                  raced ← raced_order request (_request_hash (oc_request_payload request));
                  mret (raced, false))
              | _ => None
              end).

Definition flush_created (request : OrderRequest) (side : Side) (now : option Z)
  (race : list TradingOrder) : prog (TradingOrder * bool) :=
  intent_id ← uuid7;
  group_id ← uuid7;
  modify (fun db => set_intents db
    (<[intent_id := mkOrderIntent intent_id group_id ACCOUNT_ALIAS ENVIRONMENT
         (oc_symbol request) (oc_market request) side (oc_action request)
         (oc_quantity request) (oc_correlation_id request)]> (intents db))) ;;
  observed ← now_or now;
  created_at ← utcnow;
  id ← uuid7;
  flush_request request side id intent_id group_id (kst_date observed) created_at race.

Definition create_order (user : User) (request : OrderRequest) (audit_action : string)
  (now : option Z) (race : list TradingOrder) : prog TradingOrder :=
  _validate request ;;
  let fingerprint := _request_hash (oc_request_payload request) in
  existing ← gets (order_by_key (oc_idempotency_key request));
  match existing with
  | Some existing =>
      guard_or (String.eqb (o_request_hash existing) fingerprint)
        (OrderCreationError "IDEMPOTENCY_CONFLICT" 409) ;;
      mret existing
  | None =>
      side ← or_raise (side_of (oc_side request)) IntegrityError;
      flushed ← flush_created request side now race;
      let '(order, is_new) := (flushed : TradingOrder * bool) in
      if (is_new : bool) then
        _order_event order "ORDER_CREATED"
          (JObj [("status", JStr "CREATED"); ("action", JStr (oc_action request))]) ;;
        modify (add_audit (mkAuditLog "USER" (Some (u_id user)) audit_action (Some (o_id order))
          "PASSED" None None (oc_correlation_id request)
          (JObj [("symbol", JStr (oc_symbol request)); ("side", JStr (oc_side request));
                 ("action", JStr (oc_action request));
                 ("order_type", JStr (oc_order_type request));
                 ("quantity", JInt (oc_quantity request))]))) ;;
        mret order
      else mret order
  end.

(** ** Outcomes *)

(** The checks of [_validate], as a predicate. *)
Definition request_ok (request : OrderRequest) : Prop :=
  0 < oc_quantity request /\ (oc_side request = "BUY" \/ oc_side request = "SELL") /\
  (oc_market request = "KRX" \/ oc_market request = "NXT") /\
  ~ (oc_order_type request = "LIMIT" /\ oc_limit_price request = None) /\
  ~ (oc_order_type request = "MARKET" /\ oc_limit_price request <> None).

(** The order rows after the other sessions' commits. *)
Definition raced_rows (race : list TradingOrder) (s : Sess) : DB :=
  add_concurrent_orders race (disk s).

(** The tables other than the ones of orders, intents and logs. *)
Definition only_orders_changed (db db' : DB) : Prop :=
  fills db' = fills db /\ positions db' = positions db /\ gates db' = gates db /\
  executions db' = executions db /\ approvals db' = approvals db /\ guards db' = guards db /\
  configurations db' = configurations db /\ snapshots db' = snapshots db /\
  streams db' = streams db /\ stop_triggers db' = stop_triggers db.

(** The three ways to succeed: the order was there, this call created it, or
    another session did while this call ran. *)
Inductive created (request : OrderRequest) (now : option Z) (race : list TradingOrder) (s s' : Sess)
  : TradingOrder -> Prop :=
| Existed o :
    order_by_key (oc_idempotency_key request) (work s) = Some o ->
    o_request_hash o = _request_hash (oc_request_payload request) -> s' = s ->
    created request now race s s' o
| Created side order_type id intent_id group_id at_ :
    request_ok request ->
    order_by_key (oc_idempotency_key request) (work s) = None ->
    side_of (oc_side request) = Some side ->
    order_type_of (oc_order_type request) = Some order_type ->
    let o := created_order request side order_type id intent_id group_id (kst_date at_) (clock s) in
    at_ = default (clock s) now ->
    clashes o (add_concurrent_orders race (work s)) = false ->
    orders (work s') = <[id := o]> (orders (add_concurrent_orders race (work s))) ->
    only_orders_changed (work s) (work s') ->
    disk s' = raced_rows race s ->
    created request now race s s' o
| Raced o :
    order_by_key (oc_idempotency_key request) (work s) = None ->
    order_by_key (oc_idempotency_key request) (raced_rows race s) = Some o ->
    o_request_hash o = _request_hash (oc_request_payload request) ->
    work s' = raced_rows race s -> disk s' = raced_rows race s ->
    created request now race s s' o.

(** A failure changes nothing of its own; after a race it has dropped the
    caller's uncommitted work. *)
Definition refused (race : list TradingOrder) (s s' : Sess) (e : exn) : Prop :=
  (exists code status, e = OrderCreationError code status) /\
  (s' = s \/ work s' = raced_rows race s /\ disk s' = raced_rows race s).

Definition outcome (request : OrderRequest) (now : option Z) (race : list TradingOrder)
  (s s' : Sess) (r : TradingOrder + exn) : Prop :=
  match r with
  | inl o => created request now race s s' o
  | inr e => refused race s s' e
  end.

Lemma str_in_true l x : str_in l x = true <-> In x l.
Proof.
  unfold str_in. rewrite existsb_exists. split.
  - intros (y & Hy & E). apply String.eqb_eq in E. by subst.
  - intros H. exists x. by rewrite String.eqb_refl.
Qed.

Lemma wp_validate_request request Q s :
  (request_ok request -> Q s (inl tt)) ->
  (forall code, Q s (inr (OrderCreationError code 400))) ->
  wp (_validate request) Q s.
Proof.
  intros H1 H2. unfold _validate. repeat wp_step; try apply H2. apply H1.
  unfold request_ok. bool_to_prop.
  repeat match goal with H : str_in _ _ = true |- _ => apply str_in_true in H; simpl in H end.
  repeat match goal with H : _ && _ = false |- _ => apply andb_false_iff in H end.
  rewrite ?String.eqb_neq, ?bool_decide_eq_false in *. intuition congruence.
Qed.

Lemma wp_raced_order request Q s :
  (forall o, order_by_key (oc_idempotency_key request) (disk s) = Some o ->
     o_request_hash o = _request_hash (oc_request_payload request) ->
     Q (rolled_back s) (inl o)) ->
  Q (rolled_back s) (inr (OrderCreationError "IDEMPOTENCY_CONFLICT" 409)) ->
  wp (raced_order request (_request_hash (oc_request_payload request))) Q s.
Proof.
  intros H1 H2. unfold raced_order. repeat wp_step; try exact H2.
  apply H1; [done|]. by apply String.eqb_eq.
Qed.

Lemma concurrent_orders_only race db : only_orders_changed db (add_concurrent_orders race db).
Proof.
  unfold add_concurrent_orders. induction race as [|o race IH]; [done|]. cbn [foldr].
  destruct (clashes o _); [done|exact IH].
Qed.

Lemma only_orders_trans a b c :
  only_orders_changed a b -> only_orders_changed b c -> only_orders_changed a c.
Proof. unfold only_orders_changed. intuition congruence. Qed.

Lemma orders_put o db : orders (put_order_row o db) = <[o_id o := o]> (orders db).
Proof. done. Qed.

Lemma clashes_ext o db db' : orders db = orders db' -> clashes o db = clashes o db'.
Proof. unfold clashes. by intros ->. Qed.

(** The intent and the logs do not disturb the order rows other sessions add. *)
Lemma concurrent_orders_orders race db db' : orders db = orders db' ->
  orders (add_concurrent_orders race db) = orders (add_concurrent_orders race db').
Proof.
  intros E. unfold add_concurrent_orders. induction race as [|o race IH]; [done|]. cbn [foldr].
  rewrite (clashes_ext o _ _ IH). destruct (clashes o _); [done|].
  rewrite !orders_put. by rewrite IH.
Qed.

Lemma side_of_valid request : request_ok request -> exists side, side_of (oc_side request) = Some side.
Proof. intros (_ & [-> | ->] & _); cbn; eauto. Qed.

Lemma created_order_id request side ty id intent_id group_id d t :
  o_id (created_order request side ty id intent_id group_id d t) = id.
Proof. unfold created_order. by destruct (_unfilled_policy request) as [[? ?] ?]. Qed.

(** What flushing the row of a request from [s] yields. *)
Definition flushed (request : OrderRequest) (side : Side) (at_ created_at : Z)
  (race : list TradingOrder) (s s' : Sess) (r : TradingOrder * bool + exn) : Prop :=
  match r with
  | inl (o, true) => exists order_type id intent_id group_id,
      order_type_of (oc_order_type request) = Some order_type /\
      o = created_order request side order_type id intent_id group_id (kst_date at_) created_at /\
      clashes o (add_concurrent_orders race (work s)) = false /\
      orders (work s') = <[id := o]> (orders (add_concurrent_orders race (work s))) /\
      only_orders_changed (work s) (work s') /\ disk s' = raced_rows race s
  | inl (o, false) =>
      order_by_key (oc_idempotency_key request) (raced_rows race s) = Some o /\
      o_request_hash o = _request_hash (oc_request_payload request) /\
      work s' = raced_rows race s /\ disk s' = raced_rows race s
  | inr e => e = OrderCreationError "IDEMPOTENCY_CONFLICT" 409 /\
      work s' = raced_rows race s /\ disk s' = raced_rows race s
  end.

Lemma flush_request_spec request side id intent_id group_id at_ created_at race s :
  wp (flush_request request side id intent_id group_id (kst_date at_) created_at race)
    (flushed request side at_ created_at race s) s.
Proof.
  unfold flush_request. wp_step.
  assert (Hraced : forall s1, disk s1 = raced_rows race s ->
    wp (raced_order request (_request_hash (oc_request_payload request)))
      (after (fun raced => mret (raced, false)) (flushed request side at_ created_at race s)) s1).
  { intros s1 E1. apply wp_raced_order; repeat wp_step; cbn; by rewrite <- E1. }
  destruct (order_type_of (oc_order_type request)) as [ty|] eqn:Ety.
  - wp_step. apply wp_flush_order; intros Hcl; repeat wp_step.
    + by apply Hraced.
    + exists ty, id, intent_id, group_id. split; [done|]. split; [done|]. split; [done|].
      split; [cbn [work with_work interleaved]; by rewrite orders_put, created_order_id|].
      split; [|done].
      eapply only_orders_trans; [apply (concurrent_orders_only race)|done].
  - wp_step. apply wp_others_commit. repeat wp_step. by apply Hraced.
Qed.

Lemma flushed_from request side at_ created_at race s0 s s' r :
  disk s = disk s0 -> orders (work s) = orders (work s0) ->
  only_orders_changed (work s0) (work s) ->
  flushed request side at_ created_at race s s' r -> flushed request side at_ created_at race s0 s' r.
Proof.
  intros Hd Ho Hk. unfold flushed, raced_rows. rewrite Hd.
  destruct r as [[o [|]]|e]; [|done|done].
  intros (ty & id & i & g & H1 & H2 & H3 & H4 & H5 & H6).
  pose proof (concurrent_orders_orders race _ _ Ho) as E.
  exists ty, id, i, g. split; [done|]. split; [done|].
  split; [by rewrite <- (clashes_ext o _ _ E)|]. split; [by rewrite <- E|].
  split; [by eapply only_orders_trans|done].
Qed.

Lemma flush_created_spec request side now race s :
  wp (flush_created request side now race)
    (flushed request side (default (clock s) now) (clock s) race s) s.
Proof.
  unfold flush_created, now_or. do 6 wp_step.
  destruct now as [t|]; repeat wp_step;
    (eapply wp_mono; [apply flush_request_spec|]; intros s' r; by apply flushed_from).
Qed.

Lemma create_order_run (user : User) (request : OrderRequest) (audit_action : string)
  (now : option Z) (race : list TradingOrder) (s : Sess) :
  wp (create_order user request audit_action now race) (outcome request now race s) s.
Proof.
  unfold create_order. wp_step. apply wp_validate_request; [intros Hok|intros code].
  2: { split; [by eexists _, _|by left]. }
  wp_step. wp_step. wp_step. wp_step.
  destruct (order_by_key (oc_idempotency_key request) (work s)) as [ex|] eqn:Hkey.
  - repeat wp_step; [|split; [by eexists _, _|by left]].
    apply Existed; [done| |done]. by apply String.eqb_eq.
  - destruct (side_of_valid request Hok) as [side Hside]. rewrite Hside.
    wp_step. apply wp_or_raise; [intros ? [= <-]|discriminate]. wp_step. wp_step.
    eapply wp_mono; [apply flush_created_spec|]. intros s1 [[o [|]]|e] H; cbn in H.
    + destruct H as (ty & id & i & g & Hty & -> & Hcl & Ho & Hk & Hd).
      repeat wp_step. unfold _order_event. repeat wp_step.
      eapply (Created request now race s _ side ty id i g (default (clock s) now)); done.
    + destruct H as (H1 & H2 & H3 & H4). repeat wp_step. by apply Raced.
    + destruct H as (-> & H). wp_step. split; [by eexists _, _|by right].
Qed.

(** Creating an order has exactly four outcomes.  The order stored under
    the key is returned untouched when the payload has the same hash; a valid
    request under a new key adds its [CREATED] row, whole, to the caller's
    transaction and changes no fill, position, gate, execution, approval or
    guard row; the order another session created meanwhile is returned after
    a rollback; anything else is an [OrderCreationError] that adds no order. *)
Theorem create_order_outcomes (user : User) (request : OrderRequest) (audit_action : string)
  (now : option Z) (race : list TradingOrder) (s : Sess) :
  let '(s', r) := create_order user request audit_action now race s in
  outcome request now race s s' r.
Proof.
  apply (create_order_run user request audit_action now race s).
Qed.

End OrderCreation.
