(* ===== verification/MarketCalendar.v ===== *)
(** * The trading calendar and its overrides

    [market_calendar.py]: the published rules of a KRX trading day, over the
    public holidays of a year that the [holidays] package supplies (a
    parameter; [None] when it raises).  [calendar_overrides.py]: operational
    closures an operator records on top of the rules. *)

From Stdlib Require Import ZArith Lia.
From stdpp Require Import base numbers strings list gmap.
From S2P Require Import Prelude Decimal Json PyTime Models Session RiskEvents.

Open Scope Z_scope.

(** ** Trading days *)

Inductive DayStatus := DAY_OPEN | DAY_CLOSED | DAY_UNKNOWN.

#[export] Instance DayStatus_eq_dec : EqDecision DayStatus.
Proof. solve_decision. Defined.

Definition day_status_text (s : DayStatus) : string :=
  match s with DAY_OPEN => "OPEN" | DAY_CLOSED => "CLOSED" | DAY_UNKNOWN => "UNKNOWN" end.

Definition KRX_CALENDAR_POLICY_VERSION : string := "krx-calendar-v2".

Record TradingDayDecision := mkTradingDayDecision {
  td_status : DayStatus;
  td_reason : string;
  td_policy_version : string;
  td_override_id : option string
}.

Definition day_decision (status : DayStatus) (reason : string) : TradingDayDecision :=
  mkTradingDayDecision status reason KRX_CALENDAR_POLICY_VERSION None.

Definition weekend (d : Z) : bool := 5 <=? weekday d.

Definition in_days (l : list Z) (d : Z) : bool := existsb (Z.eqb d) l.

(** [date.min]; subtracting a day from it raises [OverflowError]. *)
Definition date_min : Z := date_of 1 1 1.

(** The loop [while candidate is closed: candidate -= 1 day]. *)
Fixpoint closure_from (fuel : nat) (public_holidays : list Z) (candidate : Z) : option Z :=
  if weekend candidate || in_days public_holidays candidate then
    match fuel with
    | O => None
    | S fuel => if candidate <=? date_min then None
                else closure_from fuel public_holidays (candidate - 1)
    end
  else Some candidate.

(** A week for every holiday, and one more, is fuel enough: see
    [year_end_closure_found]. *)
Definition closure_fuel (public_holidays : list Z) : nat := 7 * S (length public_holidays).

Definition _year_end_closure (public_holidays : list Z) (year : Z) : option Z :=
  closure_from (closure_fuel public_holidays) public_holidays (date_of year 12 31).

Section Calendar.
Context (holidays : Z -> option (list Z)).

(** Any exception of the rules makes the day unknown. *)
Definition evaluate_krx_trading_day (d : Z) : TradingDayDecision :=
  let '(year, month, dom) := civil d in
  if weekend d then day_decision DAY_CLOSED "WEEKEND"
  else if (month =? 5) && (dom =? 1) then day_decision DAY_CLOSED "LABOR_DAY"
  else match holidays year with
       | None => day_decision DAY_UNKNOWN "CALENDAR_UNAVAILABLE"
       | Some public_holidays =>
           if in_days public_holidays d then day_decision DAY_CLOSED "PUBLIC_HOLIDAY"
           else match _year_end_closure public_holidays year with
                | None => day_decision DAY_UNKNOWN "CALENDAR_UNAVAILABLE"
                | Some closure =>
                    if d =? closure then day_decision DAY_CLOSED "YEAR_END_CLOSURE"
                    else day_decision DAY_OPEN "WEEKDAY"
                end
       end.

(** ** Overrides *)

Definition active_calendar_override (db : DB) (market_date : Z) : option MarketCalendarOverride :=
  find_row (fun o => (co_market_date o =? market_date) && co_active o) (calendar_overrides db).

Definition resolve_trading_day (db : DB) (market_date : Z) :
  TradingDayDecision * option MarketCalendarOverride :=
  match active_calendar_override db market_date with
  | Some o => (mkTradingDayDecision DAY_CLOSED "OPERATIONAL_CLOSURE" KRX_CALENDAR_POLICY_VERSION
                 (Some (co_id o)), Some o)
  | None => (evaluate_krx_trading_day market_date, None)
  end.
End Calendar.

Definition put_override (o : MarketCalendarOverride) (db : DB) : DB :=
  set_calendar_overrides db (<[co_id o := o]> (calendar_overrides db)).

(** [uq_market_calendar_override_active_date] and the primary key. *)
Definition override_clash (o : MarketCalendarOverride) (db : DB) : bool :=
  bool_decide (is_Some (calendar_overrides db !! co_id o)) ||
  existsb (fun x => co_active x && co_active o && (co_market_date x =? co_market_date o))
    (rows (calendar_overrides db)).

Definition add_concurrent_override (race : option MarketCalendarOverride) (db : DB) : DB :=
  match race with
  | Some o => if override_clash o db then db else put_override o db
  | None => db
  end.

Definition override_audit (user : User) (action : string) (o : MarketCalendarOverride)
  (correlation_id : string) (metadata : json) : AuditLog :=
  mkAuditLog "USER" (Some (u_id user)) action (Some (co_id o)) "SUCCESS" None None correlation_id
    metadata.

Definition stripped_between (value : string) (minimum maximum : nat) : bool :=
  Nat.leb minimum (String.length (strip value)) && Nat.leb (String.length (strip value)) maximum.

Definition create_calendar_override (user : User) (market_date : Z)
  (reason source_reference correlation_id : string) (now : option Z)
  (race : option MarketCalendarOverride) : prog MarketCalendarOverride :=
  observed ← now_or now;
  let current := kst_date observed in
  guard_or (negb ((market_date <? current) || (current + 730 <? market_date)))
    (CalendarOverrideError "CALENDAR_OVERRIDE_DATE_OUT_OF_RANGE" 422) ;;
  guard_or (stripped_between reason 5 200)
    (CalendarOverrideError "CALENDAR_OVERRIDE_REASON_INVALID" 422) ;;
  guard_or (stripped_between source_reference 3 200)
    (CalendarOverrideError "CALENDAR_OVERRIDE_SOURCE_INVALID" 422) ;;
  active ← gets (fun db => active_calendar_override db market_date);
  guard_or (bool_decide (active = None))
    (CalendarOverrideError "CALENDAR_OVERRIDE_ALREADY_ACTIVE" 409) ;;
  created_at ← utcnow;
  id ← uuid7;
  let item := mkMarketCalendarOverride id market_date "OPERATIONAL_CLOSURE" true (strip reason)
                (strip source_reference) (u_id user) None None created_at in
  flush_checked (add_concurrent_override race) (override_clash item) (put_override item) ;;
  modify (add_audit (override_audit user "MARKET_CALENDAR_OVERRIDE_CREATED" item correlation_id
    (JObj [("market_date", JStr (iso_date market_date));
           ("override_type", JStr "OPERATIONAL_CLOSURE")]))) ;;
  commit ;;
  mret item.

Definition revoke_calendar_override (user : User) (override_id correlation_id : string)
  (now : option Z) : prog MarketCalendarOverride :=
  found ← gets (fun db => calendar_overrides db !! override_id);
  match found with
  | Some o =>
      if co_active o then
        revoked_at ← now_or now;
        let item := mkMarketCalendarOverride (co_id o) (co_market_date o) (co_override_type o) false
                      (co_reason o) (co_source_reference o) (co_created_by o)
                      (Some (u_id user)) (Some revoked_at) (co_created_at o) in
        modify (put_override item) ;;
        modify (add_audit (override_audit user "MARKET_CALENDAR_OVERRIDE_REVOKED" item
          correlation_id (JObj [("market_date", JStr (iso_date (co_market_date item)))]))) ;;
        commit ;;
        mret item
      else raise (CalendarOverrideError "CALENDAR_OVERRIDE_NOT_FOUND" 404)
  | None => raise (CalendarOverrideError "CALENDAR_OVERRIDE_NOT_FOUND" 404)
  end.

(** ** The year-end closure *)

(** A business day by the rules of the loop. *)
Definition business_day (public_holidays : list Z) (d : Z) : bool :=
  negb (weekend d || in_days public_holidays d).

Lemma in_days_true l d : in_days l d = true <-> In d l.
Proof.
  unfold in_days. rewrite existsb_exists. split.
  - intros (x & Hx & E). apply Z.eqb_eq in E. by subst.
  - intros H. exists d. by rewrite Z.eqb_refl.
Qed.

(** The loop finds the first business day at or before its candidate. *)
Lemma closure_from_spec hs fuel : forall c j,
  0 <= j <= Z.of_nat fuel -> date_min <= c - j -> business_day hs (c - j) = true ->
  exists d, closure_from fuel hs c = Some d /\ c - j <= d <= c /\ business_day hs d = true /\
    forall x, d < x <= c -> business_day hs x = false.
Proof.
  induction fuel as [|fuel IH]; intros c j Hj Hmin Hb; cbn [closure_from].
  - replace (c - j) with c in Hb by lia. unfold business_day in Hb.
    destruct (weekend c || in_days hs c) eqn:E; [discriminate|].
    exists c. split; [done|]. split; [lia|]. split; [unfold business_day; by rewrite E|lia].
  - destruct (weekend c || in_days hs c) eqn:E.
    + assert (Hj0 : j <> 0).
      { intros ->. rewrite Z.sub_0_r in Hb. unfold business_day in Hb. by rewrite E in Hb. }
      destruct (Z.leb_spec c date_min); [lia|].
      destruct (IH (c - 1) (j - 1)) as (d & Hd & Hr & Hbd & Hl); [lia|lia| |].
      { by replace (c - 1 - (j - 1)) with (c - j) by lia. }
      exists d. split; [done|]. split; [lia|]. split; [done|]. intros x Hx.
      destruct (decide (x = c)) as [->|N]; [unfold business_day; by rewrite E|]. apply Hl. lia.
    + exists c. split; [done|]. split; [lia|]. split; [unfold business_day; by rewrite E|lia].
Qed.

(** The Monday on or before a day, and the ones before it. *)
Definition monday_before (d : Z) (i : nat) : Z := d - weekday d - 7 * Z.of_nat i.

Lemma monday_before_weekday d i : weekday (monday_before d i) = 0.
Proof.
  unfold monday_before, weekday.
  replace (d - (d + 3) mod 7 - 7 * Z.of_nat i + 3) with
    (((d + 3) / 7 - Z.of_nat i) * 7) by (pose proof (Z.div_mod (d + 3) 7 ltac:(lia)); lia).
  apply Z_mod_mult.
Qed.

(** More Mondays than holidays: one of them is a business day. *)
Lemma business_monday hs d : exists i, (i <= length hs)%nat /\ business_day hs (monday_before d i) = true.
Proof.
  destruct (existsb (fun i => business_day hs (monday_before d i)) (seq 0 (S (length hs)))) eqn:E.
  - apply existsb_exists in E as (i & Hi & Hb). apply in_seq in Hi. exists i. split; [lia|done].
  - exfalso. set (l := map (monday_before d) (seq 0 (S (length hs)))).
    assert (Hlen : length l = S (length hs)) by (unfold l; by rewrite length_map, length_seq).
    assert (Hnd : List.NoDup l).
    { apply Finite.Injective_map_NoDup; [|apply seq_NoDup].
      intros a b. unfold monday_before. lia. }
    assert (Hincl : incl l hs).
    { intros x Hx. apply in_map_iff in Hx as (i & <- & Hi).
      apply existsb_false_Forall in E. rewrite Forall_forall in E.
      specialize (E i ltac:(by apply list_elem_of_In)). unfold business_day in E.
      apply negb_false_iff, orb_true_iff in E as [E|E]; [|by apply in_days_true].
      unfold weekend in E. by rewrite monday_before_weekday in E. }
    pose proof (NoDup_incl_length Hnd Hincl). lia.
Qed.

(** C11: the search for the last business day of a year ends.  Whatever days the
    holiday calendar lists, the loop stops after at most a week per holiday and
    one more, on a business day after which the year has none. *)
Theorem year_end_closure_found (public_holidays : list Z) (year : Z) :
  date_min + Z.of_nat (closure_fuel public_holidays) <= date_of year 12 31 ->
  exists d, _year_end_closure public_holidays year = Some d /\
    business_day public_holidays d = true /\
    date_of year 12 31 - Z.of_nat (closure_fuel public_holidays) < d <= date_of year 12 31 /\
    forall x, d < x <= date_of year 12 31 -> business_day public_holidays x = false.
Proof.
  intros Hmin. set (c := date_of year 12 31) in *.
  destruct (business_monday public_holidays c) as (i & Hi & Hb).
  assert (Hw : 0 <= weekday c < 7) by (unfold weekday; apply Z.mod_pos_bound; lia).
  unfold closure_fuel in *. unfold _year_end_closure, closure_fuel. fold c.
  destruct (closure_from_spec public_holidays (7 * S (length public_holidays)) c
              (c - monday_before c i)) as (d & Hd & Hr & Hbd & Hl).
  - unfold monday_before. lia.
  - unfold monday_before. lia.
  - by replace (c - (c - monday_before c i)) with (monday_before c i) by lia.
  - exists d. split; [done|]. split; [done|]. split; [|done]. unfold monday_before in Hr. lia.
Qed.

(** The last three days of 2022 declared holidays. *)
Definition demo_holidays : list Z := [date_of 2022 12 29; date_of 2022 12 30; date_of 2022 12 26].

Lemma year_end_closure_found_witness :
  _year_end_closure demo_holidays 2022 = Some (date_of 2022 12 28) /\
  exists d, _year_end_closure demo_holidays 2022 = Some d /\ business_day demo_holidays d = true.
Proof.
  split; [vm_compute; reflexivity|].
  destruct (year_end_closure_found demo_holidays 2022) as (d & H1 & H2 & _).
  - vm_compute. discriminate.
  - exists d. split; assumption.
Defined.

(** ** Overrides in force *)

Definition overrides_ok (db : DB) : Prop :=
  (forall k o, calendar_overrides db !! k = Some o -> co_id o = k) /\
  (forall k1 k2 o1 o2, calendar_overrides db !! k1 = Some o1 ->
     calendar_overrides db !! k2 = Some o2 -> co_active o1 = true -> co_active o2 = true ->
     co_market_date o1 = co_market_date o2 -> k1 = k2).

Lemma active_override_Some db d o : active_calendar_override db d = Some o ->
  co_active o = true /\ co_market_date o = d /\ exists k, calendar_overrides db !! k = Some o.
Proof.
  intros H. apply find_row_Some in H as [H Hk]. apply andb_true_iff in H as [Hd Ha].
  apply Z.eqb_eq in Hd. done.
Qed.

Lemma active_override_unique db k o : overrides_ok db -> calendar_overrides db !! k = Some o ->
  co_active o = true -> active_calendar_override db (co_market_date o) = Some o.
Proof.
  intros [H1 H2] Hk Ha. destruct (active_calendar_override db (co_market_date o)) as [o'|] eqn:E.
  - apply active_override_Some in E as (Ha' & Hd & k' & Hk').
    assert (k = k') by (eapply H2; eauto). congruence.
  - eapply find_row_None in E; [|exact Hk]. cbn beta in E. by rewrite Z.eqb_refl, Ha in E.
Qed.

Lemma active_override_None db d : (forall k o, calendar_overrides db !! k = Some o ->
  co_active o = true -> co_market_date o <> d) -> active_calendar_override db d = None.
Proof.
  intros H. destruct (active_calendar_override db d) as [o|] eqn:E; [|done].
  apply active_override_Some in E as (Ha & Hd & k & Hk). exfalso. by eapply H.
Qed.

Lemma override_clash_false o db : override_clash o db = false ->
  calendar_overrides db !! co_id o = None /\
  (co_active o = true -> forall k x, calendar_overrides db !! k = Some x -> co_active x = true ->
     co_market_date x <> co_market_date o).
Proof.
  unfold override_clash. rewrite orb_false_iff. intros [H1 H2]. split.
  - apply bool_decide_eq_false in H1. by apply eq_None_not_Some.
  - intros Ho k x Hk Hx E. apply existsb_false_Forall in H2. rewrite Forall_forall in H2.
    specialize (H2 x ltac:(apply elem_of_rows; eauto)). cbn beta in H2.
    by rewrite Hx, Ho, E, Z.eqb_refl in H2.
Qed.

Lemma put_override_ok o db : overrides_ok db -> override_clash o db = false -> overrides_ok (put_override o db).
Proof.
  intros [H1 H2] Hc. apply override_clash_false in Hc as [Hn Hd]. unfold put_override. split; cbn.
  - intros k x. destruct (decide (k = co_id o)) as [->|N].
    + rewrite lookup_insert_eq. by intros [= <-].
    + rewrite lookup_insert_ne by done. apply H1.
  - intros k1 k2 o1 o2. destruct (decide (k1 = co_id o)) as [->|N1], (decide (k2 = co_id o)) as [->|N2];
      rewrite ?lookup_insert_eq, ?lookup_insert_ne by done; try done.
    + intros [= <-] Hk Ha1 Ha2 E. exfalso. symmetry in E. by eapply Hd.
    + intros Hk [= <-] Ha1 Ha2 E. exfalso. by eapply Hd.
    + apply H2.
Qed.

Lemma race_override_ok race db : overrides_ok db -> overrides_ok (add_concurrent_override race db).
Proof.
  intros H. destruct race as [o|]; [|done]. cbn.
  destruct (override_clash o db) eqn:E; [done|]. by apply put_override_ok.
Qed.

(** Deactivating a row keeps the table well-formed. *)
Lemma revoke_row_ok o o' db : overrides_ok db -> calendar_overrides db !! co_id o = Some o ->
  co_id o' = co_id o -> co_active o' = false -> overrides_ok (put_override o' db).
Proof.
  intros [H1 H2] Hk Hid Ha. unfold put_override. split; cbn; rewrite Hid.
  - intros k x. destruct (decide (k = co_id o)) as [->|N].
    + rewrite lookup_insert_eq. by intros [= <-].
    + rewrite lookup_insert_ne by done. apply H1.
  - intros k1 k2 o1 o2. destruct (decide (k1 = co_id o)) as [->|N1], (decide (k2 = co_id o)) as [->|N2];
      rewrite ?lookup_insert_eq, ?lookup_insert_ne by done; try congruence. apply H2.
Qed.

Section OverrideProperties.
Context (holidays : Z -> option (list Z)).

(** What [create_calendar_override] achieves from a database. *)
Definition override_created (d : Z) (race : option MarketCalendarOverride) (db : DB) (s : Sess)
  (r : MarketCalendarOverride + exn) : Prop :=
  overrides_ok (disk s) /\
  match r with
  | inl o => co_market_date o = d /\
      resolve_trading_day holidays (disk s) d =
        (mkTradingDayDecision DAY_CLOSED "OPERATIONAL_CLOSURE" KRX_CALENDAR_POLICY_VERSION
           (Some (co_id o)), Some o)
  | inr IntegrityError => disk s = add_concurrent_override race db
  | inr _ => disk s = db
  end.

Lemma create_override_spec user d reason source corr now race db t ids : overrides_ok db ->
  wp (create_calendar_override user d reason source corr now race)
    (override_created d race db) (open_session db t ids).
Proof.
  intros Hok. unfold create_calendar_override, now_or.
  assert (H0 : forall s code st, disk s = db ->
    override_created d race db s (inr (CalendarOverrideError code st))).
  { intros s code st E. split; rewrite E; done. }
  destruct now as [n|]; repeat wp_step; try (by apply H0);
    (apply wp_flush_checked; intros Hc;
     [split; [by apply race_override_ok|done]|];
     repeat wp_step; set (o := mkMarketCalendarOverride _ _ _ _ _ _ _ _ _ _) in *;
     assert (P : overrides_ok (put_override o (add_concurrent_override race db)))
       by (apply put_override_ok; [by apply race_override_ok|exact Hc]);
     split; [exact P|]; split; [done|]; unfold resolve_trading_day;
     assert (A : active_calendar_override (put_override o (add_concurrent_override race db)) d = Some o)
       by (apply (active_override_unique _ (co_id o) o P); [apply lookup_insert_eq|done]);
     match goal with |- context [active_calendar_override ?x d] =>
       change (active_calendar_override x d)
         with (active_calendar_override (put_override o (add_concurrent_override race db)) d) end;
     by rewrite A).
Qed.

(** What [revoke_calendar_override] achieves. *)
Definition override_revoked (id : string) (db : DB) (s : Sess) (r : MarketCalendarOverride + exn) :
  Prop :=
  overrides_ok (disk s) /\
  match r with
  | inl o => co_id o = id /\ co_active o = false /\
      resolve_trading_day holidays (disk s) (co_market_date o) =
        (evaluate_krx_trading_day holidays (co_market_date o), None)
  | inr _ => disk s = db
  end.

Lemma revoke_override_spec user id corr now db t ids : overrides_ok db ->
  wp (revoke_calendar_override user id corr now) (override_revoked id db) (open_session db t ids).
Proof.
  intros Hok. unfold revoke_calendar_override, now_or.
  wp_step. wp_step. wp_step. cbn [work open_session].
  destruct (calendar_overrides db !! id) as [o|] eqn:Hk; [|wp_step; by split].
  destruct (co_active o) eqn:Ha; [|wp_step; by split].
  pose proof (proj1 Hok _ _ Hk) as Hid. rewrite <- Hid in Hk.
  destruct now as [n|]; repeat wp_step;
    (set (o' := mkMarketCalendarOverride _ _ _ _ _ _ _ _ _ _);
     assert (P : overrides_ok (put_override o' db)) by (by apply (revoke_row_ok o));
     split; [exact P|]; split; [done|]; split; [done|]; unfold resolve_trading_day;
     rewrite active_override_None; [done|];
     intros k x Hx Hxa Hd; cbn in Hx; rewrite Hid in Hx;
     destruct (decide (k = id)) as [->|N];
       [rewrite lookup_insert_eq in Hx; by injection Hx as <-|];
     rewrite lookup_insert_ne in Hx by done; apply N; rewrite <- Hid;
     by eapply (proj2 Hok)).
Qed.

(** An operational closure is in force exactly while its override is.
    Once recorded, the day resolves to closed under the override's id; once
    revoked, the day resolves by the published rules again; no date ever has
    two overrides in force; and a call that fails changes nothing (a lost race
    surfaces as the database's [IntegrityError] and leaves the winner's row). *)
Theorem overrides_in_force (user : User) (market_date : Z) (reason source id corr : string)
  (now : option Z) (race : option MarketCalendarOverride) (db : DB) (t : Z) (ids : nat -> string) :
  overrides_ok db ->
  (let '(s, r) := create_calendar_override user market_date reason source corr now race
                    (open_session db t ids) in override_created market_date race db s r) /\
  (let '(s, r) := revoke_calendar_override user id corr now (open_session db t ids) in
   override_revoked id db s r).
Proof.
  intros Hok. split.
  - by apply (create_override_spec user market_date reason source corr now race db t ids).
  - by apply (revoke_override_spec user id corr now db t ids).
Qed.
End OverrideProperties.

(** One closure in force on 2026-08-11, and its revocation. *)
Definition demo_override : MarketCalendarOverride :=
  mkMarketCalendarOverride "ov-1" 20676 "OPERATIONAL_CLOSURE" true "typhoon" "KRX notice" "u" None
    None 0.

Definition demo_override_db : DB := put_override demo_override empty_db.

Lemma overrides_in_force_witness :
  (resolve_trading_day (fun _ => Some []) demo_override_db 20676).1.(td_status) = DAY_CLOSED /\
  exists o, let '(s, r) := revoke_calendar_override (mkUser "u" "desk" "h" "ACTIVE") "ov-1" "c" None
                   (open_session demo_override_db 0 (fun _ => "x")) in
    r = inl o /\ co_active o = false /\
    resolve_trading_day (fun _ => Some []) (disk s) (co_market_date o) =
      (evaluate_krx_trading_day (fun _ => Some []) (co_market_date o), None).
Proof.
  split; [vm_compute; reflexivity|].
  destruct (overrides_in_force (fun _ => Some []) (mkUser "u" "desk" "h" "ACTIVE") 20677 "typhoon" "KRX" "ov-1"
              "c" None None demo_override_db 0 (fun _ => "x")) as [_ H].
  - apply put_override_ok; [|vm_compute; reflexivity].
    split; intros *; cbn; rewrite lookup_empty; discriminate.
  - assert (E : match (revoke_calendar_override (mkUser "u" "desk" "h" "ACTIVE") "ov-1" "c" None
                   (open_session demo_override_db 0 (fun _ => "x"))).2 with
                | inl _ => True | inr _ => False end) by (vm_compute; exact I).
    destruct (revoke_calendar_override _ _ _ _ _) as [s [o|e]]; [|destruct E].
    exists o. destruct H as (_ & _ & H1 & H2). done.
Defined.
