(* ===== verification/Venue.v ===== *)
(** * Trading sessions and venue selection

    [venue_selection.py]: the session of an instant, the venues with a fresh
    executable quote, and the deterministic choice between KRX and NXT. *)

From Stdlib Require Import ZArith Lia.
From stdpp Require Import base numbers strings list gmap.
From S2P Require Import Prelude Decimal Json PyTime Models Session RiskEvents MarketCalendar.

Open Scope Z_scope.

(** ** Sessions *)

Inductive TradingSession :=
| NXT_PRE
| KRX_OPENING_AUCTION
| KRX_ONLY
| DUAL_CONTINUOUS
| KRX_CLOSING_AUCTION
| NXT_AFTER_AUCTION
| NXT_AFTER
| CLOSED.

#[export] Instance TradingSession_eq_dec : EqDecision TradingSession.
Proof. solve_decision. Defined.

Definition session_text (s : TradingSession) : string :=
  match s with
  | NXT_PRE => "NXT_PRE" | KRX_OPENING_AUCTION => "KRX_OPENING_AUCTION"
  | KRX_ONLY => "KRX_ONLY" | DUAL_CONTINUOUS => "DUAL_CONTINUOUS"
  | KRX_CLOSING_AUCTION => "KRX_CLOSING_AUCTION"
  | NXT_AFTER_AUCTION => "NXT_AFTER_AUCTION" | NXT_AFTER => "NXT_AFTER" | CLOSED => "CLOSED"
  end.

(** [a <= current < b] *)
Definition within (a b current : Z) : bool := (a <=? current) && (current <? b).

Definition classify_time (current : Z) : TradingSession :=
  if within (time_of 8 0 0) (time_of 8 50 0) current then NXT_PRE
  else if within (time_of 8 50 0) (time_of 9 0 0) current then KRX_OPENING_AUCTION
  else if within (time_of 9 0 0) (time_of 9 0 30) current then KRX_ONLY
  else if within (time_of 9 0 30) (time_of 15 20 0) current then DUAL_CONTINUOUS
  else if within (time_of 15 20 0) (time_of 15 30 0) current then KRX_CLOSING_AUCTION
  else if within (time_of 15 30 0) (time_of 15 40 0) current then NXT_AFTER_AUCTION
  else if within (time_of 15 40 0) (time_of 20 0 0) current then NXT_AFTER
  else CLOSED.

Definition classify_session (holidays : Z -> option (list Z)) (now : Z)
  (trading_day : option TradingDayDecision) : TradingSession :=
  let decision := match trading_day with
                  | Some d => d
                  | None => evaluate_krx_trading_day holidays (kst_date now)
                  end in
  if bool_decide (td_status decision <> DAY_OPEN) then CLOSED
  else classify_time (kst_time now).

(** ** Quotes *)

Record VenueQuote := mkVenueQuote {
  vq_market : string;
  vq_snapshot_id : string;
  vq_bid_price : option decimal;
  vq_bid_quantity : option Z;
  vq_ask_price : option decimal;
  vq_ask_quantity : option Z;
  vq_trading_status : string;
  vq_quality : Quality;
  vq_event_at : Z
}.

Definition quote_from_snapshot (snapshot : option MarketSnapshot) : option VenueQuote :=
  s ← snapshot;
  Some (mkVenueQuote (ms_market s) (ms_id s) (ms_best_bid_price s) (ms_best_bid_quantity s)
          (ms_best_ask_price s) (ms_best_ask_quantity s) (ms_trading_status s) (ms_quality s)
          (ms_event_at s)).

Definition is_buy (side : string) : bool := String.eqb side "BUY".

Definition _price (quote : VenueQuote) (side : string) : option decimal :=
  if is_buy side then vq_ask_price quote else vq_bid_price quote.

Definition _quantity (quote : VenueQuote) (side : string) : option Z :=
  if is_buy side then vq_ask_quantity quote else vq_bid_quantity quote.

Definition _quote_valid (quote : option VenueQuote) (side : string) (now max_age_seconds : Z) :
  bool :=
  match quote with
  | None => false
  | Some q =>
      if negb (bool_decide (vq_quality q = Q_NORMAL)) ||
         negb (String.eqb (vq_trading_status q) "TRADING") then false
      else if (now <? vq_event_at q) || (seconds max_age_seconds <? now - vq_event_at q) then false
      else match _price q side, _quantity q side with
           | Some price, Some quantity => dltb dzero price && (0 <? quantity)
           | _, _ => false
           end
  end.

(** ** The choice *)

Inductive Venue := KRX | NXT | SOR | WAIT.

#[export] Instance Venue_eq_dec : EqDecision Venue.
Proof. solve_decision. Defined.

Definition venue_text (v : Venue) : string :=
  match v with KRX => "KRX" | NXT => "NXT" | SOR => "SOR" | WAIT => "WAIT" end.

(** The assertions on the quotes raise [AssertionError]. *)
Definition _choose_dual (krx nxt : VenueQuote) (side urgency : string) : exn + (Venue * string) :=
  match _price krx side, _price nxt side, _quantity krx side, _quantity nxt side with
  | Some krx_price, Some nxt_price, Some krx_quantity, Some nxt_quantity =>
      inr (
        if String.eqb urgency "EMERGENCY" && negb (krx_quantity =? nxt_quantity) then
          if nxt_quantity <? krx_quantity then (KRX, "EMERGENCY_LIQUIDITY_KRX")
          else (NXT, "EMERGENCY_LIQUIDITY_NXT")
        else if negb (deqb krx_price nxt_price) then
          if (if is_buy side then dltb krx_price nxt_price else dltb nxt_price krx_price)
          then (KRX, "BETTER_EXECUTABLE_PRICE_KRX")
          else (NXT, "BETTER_EXECUTABLE_PRICE_NXT")
        else if negb (krx_quantity =? nxt_quantity) then
          if nxt_quantity <? krx_quantity then (KRX, "GREATER_DISPLAYED_LIQUIDITY_KRX")
          else (NXT, "GREATER_DISPLAYED_LIQUIDITY_NXT")
        else (KRX, "DETERMINISTIC_KRX_TIE_BREAK"))
  | _, _, _, _ => inl AssertionError
  end.

Record VenueSelectionResult := mkVenueSelectionResult {
  vr_session : TradingSession;
  vr_trading_day_status : DayStatus;
  vr_calendar_reason : string;
  vr_calendar_policy_version : string;
  vr_selected_venue : Venue;
  vr_state : string;
  vr_reason_codes : list string;
  vr_krx_quote_valid : bool;
  vr_nxt_quote_valid : bool
}.

(** The notes a selection of NXT carries in the mock environment. *)
Definition nxt_reasons (environment : string) (reasons : list string) : list string :=
  if String.eqb environment "MOCK" then reasons ++ ["MOCK_NXT_EXECUTION_UNAVAILABLE"] else reasons.

Section Selection.
Context (holidays : Z -> option (list Z)).

Definition select_venue (side urgency environment nxt_eligibility_status : string)
  (sor_supported : bool) (krx_quote nxt_quote : option VenueQuote) (now max_age_seconds : Z)
  (trading_day : option TradingDayDecision) : exn + VenueSelectionResult :=
  let day := match trading_day with
             | Some d => d
             | None => evaluate_krx_trading_day holidays (kst_date now)
             end in
  let session := classify_session holidays now (Some day) in
  let krx_valid := _quote_valid krx_quote side now max_age_seconds in
  let nxt_eligible := String.eqb nxt_eligibility_status "VERIFIED" in
  let nxt_valid := nxt_eligible && _quote_valid nxt_quote side now max_age_seconds in
  let result venue state reasons : exn + VenueSelectionResult :=
    inr (mkVenueSelectionResult session (td_status day) (td_reason day) (td_policy_version day)
           venue state reasons krx_valid nxt_valid) in
  let wait reason := result WAIT "WAIT" [reason] in
  if bool_decide (td_status day = DAY_UNKNOWN) then wait "CALENDAR_UNAVAILABLE"
  else match session with
  | CLOSED => wait "SESSION_CLOSED"
  | KRX_OPENING_AUCTION | KRX_CLOSING_AUCTION => wait "AUCTION_TRADING_DISABLED"
  | NXT_AFTER_AUCTION => wait "NXT_AFTER_AUCTION_DISABLED"
  | NXT_PRE | NXT_AFTER =>
      if String.eqb nxt_eligibility_status "UNKNOWN" then wait "NXT_ELIGIBILITY_UNVERIFIED"
      else if negb nxt_eligible then wait "NXT_SYMBOL_INELIGIBLE"
      else if negb nxt_valid then wait "NO_FRESH_EXECUTABLE_NXT_QUOTE"
      else result NXT "SELECTED" (nxt_reasons environment ["NXT_ONLY_SESSION"])
  | KRX_ONLY =>
      if negb krx_valid then wait "NO_FRESH_EXECUTABLE_KRX_QUOTE"
      else result KRX "SELECTED" ["KRX_ONLY_SESSION"]
  | DUAL_CONTINUOUS =>
      if krx_valid && nxt_valid then
        if sor_supported && String.eqb environment "REAL"
        then result SOR "SELECTED" ["BROKER_SOR_AVAILABLE"]
        else match krx_quote, nxt_quote with
             | Some krx, Some nxt =>
                 match _choose_dual krx nxt side urgency with
                 | inl e => inl e
                 | inr (selected, reason) => result selected "SELECTED" [reason]
                 end
             | _, _ => inl AssertionError
             end
      else if krx_valid then result KRX "SELECTED" ["SINGLE_FRESH_VENUE"; "ONLY_KRX_QUOTE_VALID"]
      else if nxt_valid then
        result NXT "SELECTED" (nxt_reasons environment ["SINGLE_FRESH_VENUE"; "ONLY_NXT_QUOTE_VALID"])
      else wait "NO_FRESH_EXECUTABLE_QUOTE"
  end.

(** ** The stored evaluation *)

Definition VENUE_SELECTION_POLICY_VERSION : string := "venue-selection-v2".

Definition _quote_record (quote : option VenueQuote) (valid : bool) : json :=
  match quote with
  | None => JNull
  | Some q => JObj
      [("market", JStr (vq_market q)); ("snapshot_id", JStr (vq_snapshot_id q));
       ("bid_price", jopt_dec (vq_bid_price q)); ("bid_quantity", jopt_int (vq_bid_quantity q));
       ("ask_price", jopt_dec (vq_ask_price q)); ("ask_quantity", jopt_int (vq_ask_quantity q));
       ("event_at", JStr (iso_datetime (vq_event_at q))); ("valid", JBool valid)]
  end.

Definition evaluate_and_store_venue_selection (sha256 : string -> string) (owner : User)
  (symbol side : string) (quantity : Z) (order_type urgency environment : string)
  (nxt_eligibility_status : string) (sor_supported : bool)
  (krx_snapshot nxt_snapshot : option MarketSnapshot) (now max_age_seconds : Z) :
  prog VenueSelectionEvaluation :=
  let krx_quote := quote_from_snapshot krx_snapshot in
  let nxt_quote := quote_from_snapshot nxt_snapshot in
  resolved ← gets (fun db => resolve_trading_day holidays db (kst_date now));
  let '(trading_day, calendar_override) :=
    (resolved : TradingDayDecision * option MarketCalendarOverride) in
  result ← of_result (select_venue side urgency environment nxt_eligibility_status sor_supported
             krx_quote nxt_quote now max_age_seconds (Some trading_day));
  let input := JObj
    [("schema_version", JStr "venue-selection-input-v1");
     ("policy_version", JStr VENUE_SELECTION_POLICY_VERSION);
     ("symbol", JStr symbol); ("side", JStr side); ("quantity", JInt quantity);
     ("order_type", JStr order_type); ("urgency", JStr urgency);
     ("environment", JStr environment); ("execution_stage", JStr "SHADOW");
     ("evaluated_at", JStr (iso_datetime now));
     ("session", JStr (session_text (vr_session result)));
     ("trading_day_status", JStr (day_status_text (vr_trading_day_status result)));
     ("calendar_reason", JStr (vr_calendar_reason result));
     ("calendar_policy_version", JStr (vr_calendar_policy_version result));
     ("calendar_override_id", jopt_str (td_override_id trading_day));
     ("nxt_eligible", JBool (String.eqb nxt_eligibility_status "VERIFIED"));
     ("nxt_eligibility_status", JStr nxt_eligibility_status);
     ("sor_supported", JBool sor_supported);
     ("quotes", JObj [("KRX", _quote_record krx_quote (vr_krx_quote_valid result));
                      ("NXT", _quote_record nxt_quote (vr_nxt_quote_valid result))])] in
  id ← uuid7;
  let evaluation := mkVenueSelectionEvaluation id (u_id owner) symbol side quantity order_type
    urgency environment "SHADOW" (session_text (vr_session result))
    (day_status_text (vr_trading_day_status result)) (vr_calendar_reason result)
    (vr_calendar_policy_version result) (co_id <$> calendar_override)
    (String.eqb nxt_eligibility_status "VERIFIED") nxt_eligibility_status sor_supported
    (venue_text (vr_selected_venue result)) (vr_state result) false
    (ms_id <$> krx_snapshot) (ms_id <$> nxt_snapshot) input (sha256 (dumps input))
    (vr_reason_codes result) VENUE_SELECTION_POLICY_VERSION now in
  modify (fun db => set_venue_evaluations db (<[id := evaluation]> (venue_evaluations db))) ;;
  mret evaluation.
End Selection.

(** ** Properties *)

(** The local times of a session, on an open day. *)
Definition session_window (s : TradingSession) : option (Z * Z) :=
  match s with
  | NXT_PRE => Some (time_of 8 0 0, time_of 8 50 0)
  | KRX_OPENING_AUCTION => Some (time_of 8 50 0, time_of 9 0 0)
  | KRX_ONLY => Some (time_of 9 0 0, time_of 9 0 30)
  | DUAL_CONTINUOUS => Some (time_of 9 0 30, time_of 15 20 0)
  | KRX_CLOSING_AUCTION => Some (time_of 15 20 0, time_of 15 30 0)
  | NXT_AFTER_AUCTION => Some (time_of 15 30 0, time_of 15 40 0)
  | NXT_AFTER => Some (time_of 15 40 0, time_of 20 0 0)
  | CLOSED => None
  end.

Definition in_window (s : TradingSession) (current : Z) : Prop :=
  match session_window s with
  | Some (a, b) => a <= current < b
  | None => current < time_of 8 0 0 \/ time_of 20 0 0 <= current
  end.

Lemma within_spec a b c : within a b c = true <-> a <= c < b.
Proof. unfold within. rewrite andb_true_iff, Z.leb_le, Z.ltb_lt. done. Qed.

(** The boundaries as microseconds, for [lia]. *)
Ltac session_times :=
  change (time_of 8 0 0) with 28800000000 in *; change (time_of 8 50 0) with 31800000000 in *;
  change (time_of 9 0 0) with 32400000000 in *; change (time_of 9 0 30) with 32430000000 in *;
  change (time_of 15 20 0) with 55200000000 in *; change (time_of 15 30 0) with 55800000000 in *;
  change (time_of 15 40 0) with 56400000000 in *; change (time_of 20 0 0) with 72000000000 in *.

Lemma within_cases a b c : (within a b c = true /\ a <= c < b) \/
  (within a b c = false /\ ~ (a <= c < b)).
Proof. pose proof (within_spec a b c). destruct (within a b c); [left|right]; intuition congruence. Qed.

Lemma classify_time_in c : in_window (classify_time c) c.
Proof.
  unfold classify_time, in_window. session_times.
  repeat match goal with |- context [if within ?a ?b c then _ else _] =>
    destruct (within_cases a b c) as [[-> ?]|[-> ?]];
      [cbn [session_window]; session_times; assumption|] end.
  cbn [session_window]. session_times. lia.
Qed.

Lemma in_window_unique c s1 s2 : in_window s1 c -> in_window s2 c -> s1 = s2.
Proof.
  unfold in_window. destruct s1, s2; cbn [session_window]; session_times; intros H1 H2;
    first [reflexivity | exfalso; lia].
Qed.

Lemma classify_time_spec c s : classify_time c = s <-> in_window s c.
Proof.
  pose proof (classify_time_in c) as A. split; [by intros <-|]. intros B. by eapply in_window_unique.
Qed.

(** The sessions partition the day.  On a day that is not open the market is
    closed; on an open day every instant is in exactly one session, the one
    whose window holds its Seoul time (from 08:00 through the auctions and the
    continuous sessions to 20:00, closed outside). *)
Theorem sessions_partition (holidays : Z -> option (list Z)) (now : Z)
  (trading_day : option TradingDayDecision) (s : TradingSession) :
  let day := default (evaluate_krx_trading_day holidays (kst_date now)) trading_day in
  classify_session holidays now trading_day = s <->
  (td_status day <> DAY_OPEN /\ s = CLOSED) \/
  (td_status day = DAY_OPEN /\ in_window s (kst_time now)).
Proof.
  unfold classify_session.
  assert (E : match trading_day with
              | Some d => d
              | None => evaluate_krx_trading_day holidays (kst_date now)
              end = default (evaluate_krx_trading_day holidays (kst_date now)) trading_day)
    by by destruct trading_day.
  rewrite E. cbn zeta. set (day := default _ trading_day).
  destruct (decide (td_status day = DAY_OPEN)) as [D|D].
  - rewrite bool_decide_eq_false_2 by tauto. rewrite classify_time_spec. tauto.
  - rewrite bool_decide_eq_true_2 by done. split.
    + intros <-. by left.
    + intros [[_ ->]|[? _]]; done.
Qed.

(** A quote that can be executed now. *)
Definition executable (quote : option VenueQuote) (side : string) (now max_age : Z)
  (price : decimal) (quantity : Z) : Prop :=
  exists q, quote = Some q /\ vq_quality q = Q_NORMAL /\ vq_trading_status q = "TRADING" /\
    vq_event_at q <= now <= vq_event_at q + seconds max_age /\
    _price q side = Some price /\ _quantity q side = Some quantity /\
    dltb dzero price = true /\ 0 < quantity.

Lemma quote_valid_spec quote side now max_age :
  _quote_valid quote side now max_age = true <->
  exists p n, executable quote side now max_age p n.
Proof.
  unfold _quote_valid, executable. destruct quote as [q|].
  2: { split; [discriminate|]. intros (p & n & q & E & _). discriminate E. }
  destruct (bool_decide (vq_quality q = Q_NORMAL)) eqn:Hq; cbn [negb orb].
  2: { split; [discriminate|]. intros (p & n & q' & [= <-] & H & _). by bool_to_prop. }
  destruct (String.eqb_spec (vq_trading_status q) "TRADING") as [Ht|Ht]; cbn [negb].
  2: { split; [discriminate|]. intros (p & n & q' & [= <-] & _ & H & _). done. }
  destruct ((now <? vq_event_at q) || (seconds max_age <? now - vq_event_at q)) eqn:Ha.
  { split; [discriminate|]. intros (p & n & q' & [= <-] & _ & _ & H & _).
    apply orb_true_iff in Ha as [Ha|Ha]; apply Z.ltb_lt in Ha; lia. }
  bool_to_prop.
  destruct (_price q side) as [p|] eqn:Hp, (_quantity q side) as [n|] eqn:Hn;
    try (split; [discriminate|]; intros (p' & n' & q' & [= <-] & _ & _ & _ & H1 & H2 & _); congruence).
  rewrite andb_true_iff, Z.ltb_lt. split.
  - intros [H1 H2]. exists p, n, q. repeat split; try done; lia.
  - intros (p' & n' & q' & [= <-] & _ & _ & _ & H1 & H2 & H3 & H4). split; congruence.
Qed.

(** [(p1, n1)] is strictly preferred to [(p2, n2)]: in an emergency the larger
    quantity comes first; otherwise the better price, then the quantity. *)
Definition better_price (side : string) (p1 p2 : decimal) : bool :=
  if is_buy side then dltb p1 p2 else dltb p2 p1.

Definition preferred (side urgency : string) (p1 : decimal) (n1 : Z) (p2 : decimal) (n2 : Z) : bool :=
  if String.eqb urgency "EMERGENCY" && negb (n1 =? n2) then n2 <? n1
  else better_price side p1 p2 || (deqb p1 p2 && (n2 <? n1)).

Lemma deqb_sym a b : deqb a b = deqb b a.
Proof.
  set (k := Z.min (expo a) (expo b)). rewrite !(deqb_scaled k) by lia. apply Z.eqb_sym.
Qed.

Lemma better_price_asym side a b : better_price side a b = true ->
  better_price side b a = false /\ deqb a b = false.
Proof.
  unfold better_price. set (k := Z.min (expo a) (expo b)).
  rewrite !(dltb_scaled k), (deqb_scaled k) by lia.
  destruct (is_buy side); rewrite Z.ltb_lt, Z.ltb_ge, Z.eqb_neq; lia.
Qed.

Lemma better_price_total side a b : deqb a b = false -> better_price side a b = false ->
  better_price side b a = true.
Proof.
  unfold better_price. set (k := Z.min (expo a) (expo b)).
  rewrite !(dltb_scaled k), (deqb_scaled k) by lia.
  destruct (is_buy side); rewrite Z.eqb_neq, Z.ltb_ge, Z.ltb_lt; lia.
Qed.

Lemma deqb_not_better side a b : deqb a b = true -> better_price side a b = false.
Proof.
  intros E. apply not_true_iff_false. intros H. apply better_price_asym in H. destruct H. congruence.
Qed.

(** The dual choice takes NXT exactly when NXT is strictly preferred. *)
Lemma choose_dual_spec krx nxt side urgency pk nk pn nn :
  _price krx side = Some pk -> _quantity krx side = Some nk ->
  _price nxt side = Some pn -> _quantity nxt side = Some nn ->
  exists reason, _choose_dual krx nxt side urgency =
    inr (if preferred side urgency pn nn pk nk then NXT else KRX, reason).
Proof.
  intros E1 E2 E3 E4. unfold _choose_dual, preferred. rewrite E1, E2, E3, E4, (Z.eqb_sym nn nk).
  destruct (String.eqb urgency "EMERGENCY" && negb (nk =? nn)) eqn:Em.
  { apply andb_true_iff in Em as [_ Em]. bool_to_prop.
    destruct (Z.ltb_spec nn nk), (Z.ltb_spec nk nn); try lia; eexists; done. }
  fold (better_price side pk pn). rewrite (deqb_sym pn pk).
  destruct (deqb pk pn) eqn:Ed; cbn [negb andb].
  - rewrite (deqb_not_better side pn pk) by (by rewrite deqb_sym). cbn [orb].
    destruct (Z.eqb_spec nk nn) as [->|N]; cbn [negb].
    + rewrite Z.ltb_irrefl. eexists. done.
    + destruct (Z.ltb_spec nn nk), (Z.ltb_spec nk nn); try lia; eexists; done.
  - rewrite orb_false_r. destruct (better_price side pk pn) eqn:Eb.
    + destruct (better_price_asym _ _ _ Eb) as [-> _]. eexists. done.
    + rewrite (better_price_total side pk pn) by done. eexists. done.
Qed.

(** What a selection promises. *)
Definition sound_selection (holidays : Z -> option (list Z)) (side urgency environment elig : string)
  (sor : bool) (krx nxt : option VenueQuote) (now max_age : Z) (day : TradingDayDecision)
  (r : VenueSelectionResult) : Prop :=
  let session := classify_session holidays now (Some day) in
  let krx_ok := exists p n, executable krx side now max_age p n in
  let nxt_ok := elig = "VERIFIED" /\ exists p n, executable nxt side now max_age p n in
  match vr_selected_venue r with
  | KRX => vr_state r = "SELECTED" /\ krx_ok /\ (session = KRX_ONLY \/ session = DUAL_CONTINUOUS)
  | NXT => vr_state r = "SELECTED" /\ nxt_ok /\
           (session = NXT_PRE \/ session = NXT_AFTER \/ session = DUAL_CONTINUOUS)
  | SOR => vr_state r = "SELECTED" /\ krx_ok /\ nxt_ok /\ sor = true /\ environment = "REAL" /\
           session = DUAL_CONTINUOUS
  | WAIT => vr_state r = "WAIT" /\
            (session = KRX_ONLY -> ~ krx_ok) /\
            (session = NXT_PRE \/ session = NXT_AFTER -> ~ nxt_ok) /\
            (session = DUAL_CONTINUOUS -> ~ krx_ok /\ ~ nxt_ok)
  end /\
  (session = DUAL_CONTINUOUS -> vr_selected_venue r <> SOR ->
   forall pk nk pn nn, executable krx side now max_age pk nk -> elig = "VERIFIED" ->
     executable nxt side now max_age pn nn ->
     vr_selected_venue r = if preferred side urgency pn nn pk nk then NXT else KRX).

Lemma open_when_trading holidays now day :
  classify_session holidays now (Some day) <> CLOSED -> td_status day = DAY_OPEN.
Proof.
  unfold classify_session. intros H. destruct (decide (td_status day = DAY_OPEN)); [done|].
  by rewrite bool_decide_eq_true_2 in H.
Qed.

Lemma quote_invalid quote side now max_age : _quote_valid quote side now max_age = false ->
  ~ exists p n, executable quote side now max_age p n.
Proof. intros H E. apply quote_valid_spec in E. congruence. Qed.

Lemma not_executable quote side now max_age : _quote_valid quote side now max_age = false ->
  forall p n, executable quote side now max_age p n -> False.
Proof. intros H p n E. apply (quote_invalid _ _ _ _ H). eauto. Qed.

(** Both quotes executable: the dual choice answers, by preference. *)
Lemma choose_executable side urgency krx nxt now max_age :
  _quote_valid krx side now max_age = true -> _quote_valid nxt side now max_age = true ->
  exists qk qn v reason, krx = Some qk /\ nxt = Some qn /\
    _choose_dual qk qn side urgency = inr (v, reason) /\ (v = KRX \/ v = NXT) /\
    forall pk nk pn nn, executable krx side now max_age pk nk ->
      executable nxt side now max_age pn nn ->
      v = if preferred side urgency pn nn pk nk then NXT else KRX.
Proof.
  intros Hk Hn. apply quote_valid_spec in Hk as (pk & nk & qk & -> & _ & _ & _ & E1 & E2 & _).
  apply quote_valid_spec in Hn as (pn & nn & qn & -> & _ & _ & _ & E3 & E4 & _).
  destruct (choose_dual_spec qk qn side urgency pk nk pn nn E1 E2 E3 E4) as [reason E].
  exists qk, qn, (if preferred side urgency pn nn pk nk then NXT else KRX), reason.
  split; [done|]. split; [done|]. split; [exact E|].
  split; [destruct (preferred _ _ _ _ _ _); auto|].
  intros pk' nk' pn' nn' (q1 & [= <-] & _ & _ & _ & F1 & F2 & _) (q2 & [= <-] & _ & _ & _ & F3 & F4 & _).
  rewrite E1 in F1. rewrite E2 in F2. rewrite E3 in F3. rewrite E4 in F4. by simplify_eq.
Qed.

(** Venue selection never fails, never picks a venue it cannot trade, and
    picks the best one.  A selected venue has a fresh executable quote and a
    session in which it trades (and NXT needs a verified symbol); waiting means
    no venue of the session has one; and with both venues executable the choice
    is NXT exactly when its quote is strictly preferred (better price then
    larger quantity, the quantity first in an emergency), KRX otherwise. *)
Theorem select_venue_sound (holidays : Z -> option (list Z))
  (side urgency environment elig : string) (sor : bool) (krx nxt : option VenueQuote)
  (now max_age : Z) (trading_day : option TradingDayDecision) :
  let day := default (evaluate_krx_trading_day holidays (kst_date now)) trading_day in
  exists r, select_venue holidays side urgency environment elig sor krx nxt now max_age trading_day
              = inr r /\
    sound_selection holidays side urgency environment elig sor krx nxt now max_age day r.
Proof.
  cbn zeta. unfold select_venue.
  assert (E : match trading_day with
              | Some d => d
              | None => evaluate_krx_trading_day holidays (kst_date now)
              end = default (evaluate_krx_trading_day holidays (kst_date now)) trading_day)
    by (destruct trading_day; reflexivity).
  rewrite E. set (day := default _ trading_day). cbn zeta. unfold sound_selection.
  pose proof (open_when_trading holidays now day) as Hopen.
  destruct (classify_session holidays now (Some day)) eqn:Hs;
    match goal with
    | |- context [bool_decide (td_status day = DAY_UNKNOWN)] =>
        first [ rewrite (bool_decide_eq_false_2 (td_status day = DAY_UNKNOWN))
                  by (rewrite Hopen by discriminate; discriminate)
              | destruct (bool_decide (td_status day = DAY_UNKNOWN)) ]
    end;
    try (eexists; split; [reflexivity|]; cbn; repeat split; intuition discriminate).
  all: destruct (_quote_valid krx side now max_age) eqn:Kv;
         [pose proof (proj1 (quote_valid_spec _ _ _ _) Kv) as K
         |pose proof (quote_invalid _ _ _ _ Kv) as K; pose proof (not_executable _ _ _ _ Kv)];
         (destruct (_quote_valid nxt side now max_age) eqn:Nv;
         [pose proof (proj1 (quote_valid_spec _ _ _ _) Nv) as N
         |pose proof (quote_invalid _ _ _ _ Nv) as N; pose proof (not_executable _ _ _ _ Nv)]);
         destruct (String.eqb_spec elig "VERIFIED") as [V|V]; cbn [negb andb];
         repeat match goal with |- context [String.eqb ?e "UNKNOWN"] =>
           destruct (String.eqb_spec e "UNKNOWN") end;
         try (eexists; split; [reflexivity|]; cbn [vr_selected_venue vr_state];
              by (intuition (first [discriminate | congruence | exfalso; eauto]))).
  destruct (choose_executable side urgency krx nxt now max_age Kv Nv)
    as (qk & qn & v & reason & -> & -> & Ec & Hv & Hbest).
  destruct (sor && String.eqb environment "REAL") eqn:Es.
  - apply andb_true_iff in Es as [-> Er]. apply String.eqb_eq in Er.
    eexists. split; [reflexivity|]. cbn [vr_selected_venue vr_state].
    split; [repeat split; assumption|]. intros _ HS. by destruct HS.
  - rewrite Ec. eexists. split; [reflexivity|]. cbn [vr_selected_venue vr_state].
    split; [destruct Hv as [-> | ->]; tauto|]. intros _ _ pk nk pn nn H1 _ H2. by apply Hbest.
Qed.
