(* ===== verification/DecimalText.v ===== *)
(** * Decimals read from text

    The constructor [Decimal(text)] of the standard library, on ASCII text:
    surrounding blanks and underscores are dropped, then a number, an infinity
    or a NaN is read.  Reading what [str] printed gives the value back. *)

Set Warnings "-register-all".

From Stdlib Require Import ZArith Lia Ascii String.
From stdpp Require Import base numbers strings list pretty.
From S2P Require Import Prelude Decimal Json.

Open Scope Z_scope.

(** ** Reading *)

Inductive parsed :=
| Finite (d : decimal)
| Infinity (negative : bool)
| NaN.

Definition digit_value (c : ascii) : Z := Z.of_nat (nat_of_ascii c) - 48.

(** The longest prefix of digits, accumulated: value, count, rest. *)
Fixpoint read_digits (acc : Z) (s : string) : Z * Z * string :=
  match s with
  | String c r =>
      if is_digit c then
        let '(v, n, rest) := read_digits (acc * 10 + digit_value c) r in (v, n + 1, rest)
      else (acc, 0, s)
  | EmptyString => (acc, 0, EmptyString)
  end.

Definition read_sign (s : string) : bool * string :=
  match s with
  | String c r =>
      if Ascii.eqb c "-" then (true, r) else if Ascii.eqb c "+" then (false, r) else (false, s)
  | EmptyString => (false, s)
  end.

Definition signed (negative : bool) (n : Z) : Z := if negative then - n else n.

(** The fraction after the integer digits. *)
Definition read_fraction (acc : Z) (s : string) : Z * Z * string :=
  match s with
  | String "." r => read_digits acc r
  | _ => (acc, 0, s)
  end.

(** The exponent and the end of the text. *)
Definition read_exponent (s : string) : option Z :=
  match s with
  | EmptyString => Some 0
  | String c r =>
      if Ascii.eqb c "E" || Ascii.eqb c "e" then
        let '(negative, r) := read_sign r in
        let '(e, n, rest) := read_digits 0 r in
        if (n =? 0) || negb (String.eqb rest EmptyString) then None else Some (signed negative e)
      else None
  end.

(** The limit the implementation sets on adjusted exponents. *)
Definition MAX_EMAX : Z := 999999999999999999.

Definition read_number (negative : bool) (s : string) : option parsed :=
  let '(ip, n, rest) := read_digits 0 s in
  let '(c, fn, rest) := read_fraction ip rest in
  if n + fn =? 0 then None
  else match read_exponent rest with
       | Some e => if Z.abs (e - fn) <=? MAX_EMAX
                   then Some (Finite (Dec (signed negative c) (e - fn))) else None
       | None => None
       end.

(** The names of the special values, after the sign, in upper case. *)
Definition read_special (negative : bool) (s : string) : option parsed :=
  let s := upper s in
  let payload_ok p := String.eqb p EmptyString || all_chars is_digit p in
  if String.eqb s "INF" || String.eqb s "INFINITY" then Some (Infinity negative)
  else if String.prefix "NAN" s && payload_ok (substring 3 (String.length s - 3) s) then Some NaN
  else if String.prefix "SNAN" s && payload_ok (substring 4 (String.length s - 4) s) then Some NaN
  else None.

(** A number of which no bound is known: a finite decimal or an infinity above
    zero, with Python's comparisons. *)
Inductive amount :=
| Exact (d : decimal)
| Unbounded.

Definition altb (a b : amount) : bool :=
  match a, b with
  | Exact x, Exact y => dltb x y
  | Exact _, Unbounded => true
  | Unbounded, _ => false
  end.
Definition aleb (a b : amount) : bool :=
  match a, b with
  | Exact x, Exact y => dleb x y
  | _, Unbounded => true
  | Unbounded, Exact _ => false
  end.

(** The finite value, if it is one. *)
Definition exact (a : amount) : option decimal :=
  match a with Exact d => Some d | Unbounded => None end.

Fixpoint drop_underscores (s : string) : string :=
  match s with
  | EmptyString => EmptyString
  | String c r => if Ascii.eqb c "_" then drop_underscores r else String c (drop_underscores r)
  end.

(** [Decimal(text)]; [None] is [InvalidOperation]. *)
Definition decimal_of_text (text : string) : option parsed :=
  let '(negative, s) := read_sign (drop_underscores (strip text)) in
  match read_number negative s with
  | Some p => Some p
  | None => read_special negative s
  end.

Example decimal_of_texts :
  map decimal_of_text ["0.5"; " 1_000 "; "-12.3400"; "1.2E+4"; "5e-7"; "None"; "True"; "-inf"; "nan"; "."]
  = [Some (Finite (Dec 5 (-1))); Some (Finite (Dec 1000 0)); Some (Finite (Dec (-123400) (-4)));
     Some (Finite (Dec 12 3)); Some (Finite (Dec 5 (-7))); None; None; Some (Infinity true); Some NaN; None].
Proof. vm_compute. reflexivity. Qed.

(** ** Digits *)

Definition strlen (s : string) : Z := Z.of_nat (String.length s).

Lemma all_chars_app f a b : all_chars f (a +:+ b) = all_chars f a && all_chars f b.
Proof. induction a as [|c a IH]; simpl; [done|]. by rewrite IH, andb_assoc. Qed.

Lemma strlen_app a b : strlen (a +:+ b) = strlen a + strlen b.
Proof. unfold strlen. induction a as [|c a IH]; simpl; [done|]. lia. Qed.

(** The value of a digit string, after [acc]. *)
Definition digits_from (acc : Z) (s : string) : Z := (read_digits acc s).1.1.

Lemma read_digits_app s rest : forall acc, all_chars is_digit s = true ->
  read_digits acc (s +:+ rest) =
  let '(v, n, r) := read_digits (digits_from acc s) rest in (v, strlen s + n, r).
Proof.
  induction s as [|c s IH]; intros acc H; simpl in *.
  - change (digits_from acc EmptyString) with acc.
    change (EmptyString +:+ rest) with rest.
    by destruct (read_digits acc rest) as [[v n] r].
  - apply andb_true_iff in H as [Hc H]. rewrite Hc, IH by done. unfold digits_from. simpl.
    rewrite Hc. destruct (read_digits (acc * 10 + digit_value c) s) as [[v1 n1] r1]. simpl.
    destruct (read_digits v1 rest) as [[v n] r]. unfold strlen. simpl. f_equal. f_equal. lia.
Qed.

Lemma read_digits_all s acc : all_chars is_digit s = true ->
  read_digits acc s = (digits_from acc s, strlen s, EmptyString).
Proof.
  revert acc. induction s as [|c s IH]; intros acc H; simpl in *; [done|].
  apply andb_true_iff in H as [Hc H]. rewrite Hc, IH by done. unfold digits_from. simpl.
  rewrite Hc, IH by done. unfold strlen. simpl. f_equal. f_equal. lia.
Qed.

Lemma digits_from_app s1 s2 acc : all_chars is_digit s1 = true -> all_chars is_digit s2 = true ->
  digits_from acc (s1 +:+ s2) = digits_from (digits_from acc s1) s2.
Proof.
  intros H1 H2. unfold digits_from at 1. rewrite read_digits_app by done.
  by rewrite read_digits_all.
Qed.

(** A digit string stops at the next character that is no digit. *)
Lemma read_digits_stop s c rest acc : all_chars is_digit s = true -> is_digit c = false ->
  read_digits acc (s +:+ String c rest) = (digits_from acc s, strlen s, String c rest).
Proof.
  intros H Hc. rewrite read_digits_app by done. simpl. rewrite Hc. by rewrite Z.add_0_r.
Qed.

Lemma digits_from_zeros n acc : digits_from acc (zeros n) = acc * pow10 (Z.of_nat n).
Proof.
  revert acc. induction n as [|n IH]; intros acc; [unfold digits_from, pow10; simpl; lia|].
  change (zeros (S n)) with (String "0" (zeros n)). unfold digits_from in *. simpl.
  specialize (IH (acc * 10 + digit_value "0")).
  destruct (read_digits _ (zeros n)) as [[v k] r]. simpl in *. rewrite IH.
  rewrite Nat2Z.inj_succ. unfold pow10. rewrite Z.pow_succ_r by lia. change (digit_value "0") with 0. lia.
Qed.

Lemma zeros_digits n : all_chars is_digit (zeros n) = true.
Proof. by induction n. Qed.

(** ** The text of a number *)

Lemma pretty_N_char_digit x : (x < 10)%N ->
  is_digit (pretty_N_char x) = true /\ digit_value (pretty_N_char x) = Z.of_N x.
Proof.
  intros H. assert (x = 0 \/ x = 1 \/ x = 2 \/ x = 3 \/ x = 4 \/ x = 5 \/ x = 6 \/ x = 7 \/
    x = 8 \/ x = 9)%N as E by lia.
  by repeat destruct E as [->|E]; [..|subst].
Qed.

Lemma pretty_go_spec x : forall s, all_chars is_digit s = true ->
  all_chars is_digit (pretty_N_go x s) = true /\
  forall acc, exists acc', digits_from acc (pretty_N_go x s) = digits_from acc' s /\
    (acc = 0 -> acc' = Z.of_N x).
Proof.
  induction (N.lt_wf_0 x) as [x _ IH]; intros s Hs.
  destruct (decide (x = 0)%N) as [->|N].
  { rewrite pretty_N_go_0. split; [done|]. intros acc. exists acc. done. }
  rewrite pretty_N_go_step by lia.
  assert (Hm : (x `mod` 10 < 10)%N) by (by apply N.mod_lt).
  destruct (pretty_N_char_digit _ Hm) as [Hd Hv].
  destruct (IH (x `div` 10)%N ltac:(by apply N.div_lt; [lia|]) (String (pretty_N_char (x `mod` 10)) s))
    as [H1 H2]; [simpl; by rewrite Hd|].
  split; [exact H1|]. intros acc. destruct (H2 acc) as (a & Ha & H0). exists (a * 10 + Z.of_N (x `mod` 10)).
  rewrite Ha. split.
  - unfold digits_from. simpl. rewrite Hd, Hv. by destruct (read_digits _ s) as [[? ?] ?].
  - intros E. rewrite (H0 E). pose proof (N.div_mod x 10 ltac:(done)). lia.
Qed.

Lemma digits_text_spec n :
  all_chars is_digit (digits_text n) = true /\ digits_from 0 (digits_text n) = Z.abs n /\
  digits_text n <> EmptyString.
Proof.
  unfold digits_text. destruct (decide (n = 0)) as [->|N]; [by vm_compute|].
  assert (E : pretty (Z.abs n) = pretty_N_go (Z.to_N (Z.abs n)) EmptyString).
  { destruct n as [|p|p]; [done|..]; change (pretty (Z.abs _)) with (pretty_N (N.pos p));
      unfold pretty_N; by rewrite decide_False by done. }
  rewrite E. destruct (pretty_go_spec (Z.to_N (Z.abs n)) EmptyString eq_refl) as [H1 H2].
  destruct (H2 0) as (a & Ha & H0). split; [done|]. split.
  - rewrite Ha, (H0 eq_refl). unfold digits_from. simpl. lia.
  - intros X. rewrite X in Ha. unfold digits_from in Ha. simpl in Ha. rewrite (H0 eq_refl) in Ha. lia.
Qed.

(** ** Cleaning a printed number changes nothing *)

Definition num_char (c : ascii) : bool :=
  is_digit c || Ascii.eqb c "." || Ascii.eqb c "-" || Ascii.eqb c "+" || Ascii.eqb c "E".

Lemma num_char_plain c : num_char c = true -> is_space c = false /\ Ascii.eqb c "_" = false.
Proof.
  unfold num_char. rewrite !orb_true_iff, !Ascii.eqb_eq.
  intros [[[[H| ->]| ->]| ->]| ->]; [|done..].
  unfold is_digit in H. apply andb_true_iff in H as [H1 H2]. apply Nat.leb_le in H1, H2.
  split.
  - unfold is_space. rewrite !orb_false_iff, !andb_false_iff, Nat.eqb_neq, !Nat.leb_gt. lia.
  - apply Ascii.eqb_neq. intros ->. change (nat_of_ascii "_") with 95%nat in *. lia.
Qed.

Lemma all_chars_mono f g s : (forall c, f c = true -> g c = true) ->
  all_chars f s = true -> all_chars g s = true.
Proof.
  intros H. induction s as [|c s IH]; simpl; [done|]. rewrite !andb_true_iff. intros [? ?]. auto.
Qed.

Lemma is_digit_num c : is_digit c = true -> num_char c = true.
Proof. unfold num_char. by intros ->. Qed.

Lemma drop_underscores_id s : all_chars num_char s = true -> drop_underscores s = s.
Proof.
  induction s as [|c s IH]; simpl; [done|]. rewrite andb_true_iff. intros [H1 H2].
  destruct (num_char_plain c H1) as [_ ->]. by rewrite IH.
Qed.

Lemma rstrip_id s : all_chars num_char s = true -> rstrip s = s.
Proof.
  induction s as [|c s IH]; simpl; [done|]. rewrite andb_true_iff. intros [H1 H2].
  rewrite (IH H2). destruct s; [|done]. by destruct (num_char_plain c H1) as [-> _].
Qed.

Lemma strip_id s : all_chars num_char s = true -> strip s = s.
Proof.
  intros H. unfold strip. rewrite <- (rstrip_id s H) at 2. f_equal.
  destruct s as [|c s]; [done|]. simpl in *. apply andb_true_iff in H as [H _].
  by destruct (num_char_plain c H) as [-> _].
Qed.

(** ** Round trip *)

(** The text after the sign. *)
Definition unsigned_text (d : decimal) : string :=
  let ds := digits_text (coef d) in
  let len := strlen ds in
  let left := expo d + len in
  if (expo d <=? 0) && (-6 <? left) then
    if 0 <=? expo d then ds
    else if left <=? 0 then "0." +:+ zeros (Z.to_nat (- left)) +:+ ds
    else substring 0 (Z.to_nat left) ds +:+ "." +:+ substring (Z.to_nat left) (Z.to_nat (- expo d)) ds
  else
    substring 0 1 ds +:+
    (if len =? 1 then EmptyString else "." +:+ substring 1 (Z.to_nat (len - 1)) ds) +:+
    "E" +:+ (if left - 1 <? 0 then "-" else "+") +:+ digits_text (left - 1).

Lemma app_empty (s : string) : s +:+ EmptyString = s.
Proof. induction s as [|c s IH]; [done|]. change (String c (s +:+ EmptyString) = String c s). by rewrite IH. Qed.

Lemma str_text_unsigned d : str_text d = sign_text (coef d) +:+ unsigned_text d.
Proof.
  unfold str_text, unsigned_text, plain_text. fold (strlen (digits_text (coef d))).
  destruct ((expo d <=? 0) && _) eqn:E; [|done]. f_equal.
  apply andb_true_iff in E as [E _]. apply Z.leb_le in E.
  destruct (Z.leb_spec 0 (expo d)) as [E0|E0].
  - assert (expo d = 0) as -> by lia. destruct (Z.eqb_spec (coef d) 0) as [->|].
    + vm_compute. done.
    + apply app_empty.
  - by rewrite (Z.add_comm _ (expo d)).
Qed.

Lemma substring_split k s : (k <= String.length s)%nat ->
  s = substring 0 k s +:+ substring k (String.length s - k) s /\
  String.length (substring 0 k s) = k.
Proof.
  revert k. induction s as [|c s IH]; intros k H; simpl in H.
  - assert (k = 0)%nat as -> by lia. done.
  - destruct k as [|k]; simpl.
    + split; [|done]. change (String c s = String c (substring 0 (String.length s) s)). f_equal.
      clear. induction s as [|c s IH]; simpl; [done|]. by rewrite <- IH.
    + destruct (IH k ltac:(lia)) as [H1 H2]. split; [|by rewrite H2].
      change (String c s = String c (substring 0 k s +:+ substring k (String.length s - k) s)).
      by rewrite <- H1.
Qed.

(** The pieces of a digit string around a point. *)
Lemma digits_pieces ds k : all_chars is_digit ds = true -> 0 <= k <= strlen ds ->
  exists a b, substring 0 (Z.to_nat k) ds = a /\
    substring (Z.to_nat k) (Z.to_nat (strlen ds - k)) ds = b /\
    all_chars is_digit a = true /\ all_chars is_digit b = true /\
    strlen a = k /\ strlen b = strlen ds - k /\
    digits_from (digits_from 0 a) b = digits_from 0 ds.
Proof.
  intros H Hk. unfold strlen in *.
  destruct (substring_split (Z.to_nat k) ds) as [E L]; [lia|].
  exists (substring 0 (Z.to_nat k) ds), (substring (Z.to_nat k) (Z.to_nat (Z.of_nat (String.length ds) - k)) ds).
  replace (Z.to_nat (Z.of_nat (String.length ds) - k)) with (String.length ds - Z.to_nat k)%nat by lia.
  set (a := substring 0 _ ds) in *. set (b := substring (Z.to_nat k) _ ds) in *.
  assert (Hab : all_chars is_digit (a +:+ b) = true) by (rewrite <- E; exact H).
  rewrite all_chars_app in Hab. apply andb_true_iff in Hab.
  destruct Hab as [Ha Hb]. split; [done|]. split; [done|]. split; [done|]. split; [done|].
  split; [lia|]. split.
  - pose proof (strlen_app a b) as S. unfold strlen in S. rewrite <- E in S. lia.
  - rewrite <- digits_from_app by done. by rewrite <- E.
Qed.

Lemma read_number_plain neg ds rest e :
  all_chars is_digit ds = true -> ds <> EmptyString ->
  read_exponent rest = Some e -> Z.abs e <= MAX_EMAX ->
  (forall c r, rest = String c r -> is_digit c = false /\ c <> "."%char) ->
  read_number neg (ds +:+ rest) = Some (Finite (Dec (signed neg (digits_from 0 ds)) e)).
Proof.
  intros H Hne Hexp Hmax Hrest. unfold read_number.
  assert (E : read_digits 0 (ds +:+ rest) = (digits_from 0 ds, strlen ds, rest)).
  { destruct rest as [|c r]; [rewrite app_empty; by apply read_digits_all|].
    apply read_digits_stop; [done|]. by eapply Hrest. }
  rewrite E.
  assert (F : read_fraction (digits_from 0 ds) rest = (digits_from 0 ds, 0, rest)).
  { destruct rest as [|c r]; [done|]. destruct (Hrest c r eq_refl) as [_ Hc].
    unfold read_fraction. destruct c as [[] [] [] [] [] [] [] []]; done. }
  rewrite F, Hexp, Z.sub_0_r, Z.add_0_r.
  destruct (Z.eqb_spec (strlen ds) 0) as [Z0|_].
  { unfold strlen in Z0. destruct ds; [done|simpl in Z0; lia]. }
  by destruct (Z.leb_spec (Z.abs e) MAX_EMAX); [|lia].
Qed.

Lemma read_number_point neg a b rest e :
  all_chars is_digit a = true -> all_chars is_digit b = true -> 0 < strlen a + strlen b ->
  read_exponent rest = Some e -> Z.abs (e - strlen b) <= MAX_EMAX ->
  (forall c r, rest = String c r -> is_digit c = false) ->
  read_number neg (a +:+ "." +:+ b +:+ rest) =
    Some (Finite (Dec (signed neg (digits_from (digits_from 0 a) b)) (e - strlen b))).
Proof.
  intros Ha Hb Hlen Hexp Hmax Hrest. unfold read_number.
  change ("." +:+ b +:+ rest) with (String "." (b +:+ rest)).
  rewrite (read_digits_stop a "." (b +:+ rest) 0) by done. unfold read_fraction.
  assert (E : read_digits (digits_from 0 a) (b +:+ rest) =
    (digits_from (digits_from 0 a) b, strlen b, rest)).
  { destruct rest as [|c r]; [rewrite app_empty; by apply read_digits_all|].
    apply read_digits_stop; [done|]. by eapply Hrest. }
  rewrite E, Hexp. destruct (Z.eqb_spec (strlen a + strlen b) 0); [lia|].
  by destruct (Z.leb_spec (Z.abs (e - strlen b)) MAX_EMAX); [|lia].
Qed.

Lemma read_exponent_text n :
  read_exponent ("E" +:+ (if n <? 0 then "-" else "+") +:+ digits_text n) = Some n.
Proof.
  destruct (digits_text_spec n) as (H1 & H2 & H3).
  assert (E : forall b, read_sign ((if b : bool then "-" else "+") +:+ digits_text n) = (b, digits_text n))
    by (by intros []).
  change (match read_sign ((if n <? 0 then "-" else "+") +:+ digits_text n) with
          | (negative, r) => let '(e, k, rest) := read_digits 0 r in
              if (k =? 0) || negb (String.eqb rest EmptyString) then None else Some (signed negative e)
          end = Some n).
  rewrite E, (read_digits_all _ 0 H1), H2. cbn [String.eqb negb].
  destruct (Z.eqb_spec (strlen (digits_text n)) 0) as [Z0|_].
  { unfold strlen in Z0. destruct (digits_text n); [done|simpl in Z0; lia]. }
  cbn [orb]. f_equal. unfold signed. destruct (Z.ltb_spec n 0); lia.
Qed.

(** Reading the text after the sign. *)
Lemma read_unsigned neg d : Z.abs (expo d) <= MAX_EMAX ->
  read_number neg (unsigned_text d) = Some (Finite (Dec (signed neg (Z.abs (coef d))) (expo d))).
Proof.
  intros Hmax. unfold unsigned_text. destruct (digits_text_spec (coef d)) as (H1 & H2 & H3).
  set (ds := digits_text (coef d)) in *. rewrite <- H2.
  assert (Hlen : 0 < strlen ds) by (unfold strlen; destruct ds; [done|simpl; lia]).
  destruct ((expo d <=? 0) && (-6 <? expo d + strlen ds)) eqn:E.
  - apply andb_true_iff in E as [E _]. apply Z.leb_le in E.
    destruct (Z.leb_spec 0 (expo d)) as [E0|E0].
    + replace (expo d) with 0 by lia. rewrite <- (app_empty ds).
      rewrite (read_number_plain neg ds EmptyString 0); try done. by rewrite app_empty.
    + destruct (Z.leb_spec (expo d + strlen ds) 0) as [L|L].
      * set (z := zeros (Z.to_nat (- (expo d + strlen ds)))).
        assert (Hz : strlen (z +:+ ds) = - expo d).
        { rewrite strlen_app. assert (strlen z = - (expo d + strlen ds)); [|lia].
          unfold z, strlen. clear -L. rewrite <- (Z2Nat.id (- (expo d + Z.of_nat (String.length ds)))) at 2
            by (unfold strlen in L; lia). f_equal. unfold strlen.
          generalize (Z.to_nat (- (expo d + Z.of_nat (String.length ds)))). clear.
          intros n. induction n as [|n IH]; simpl; [done|]. by rewrite IH. }
        assert (Hd : all_chars is_digit (z +:+ ds) = true)
          by (unfold z; by rewrite all_chars_app, H1, zeros_digits).
        change ("0." +:+ z +:+ ds) with ("0" +:+ "." +:+ (z +:+ ds)).
        rewrite <- (app_empty (z +:+ ds)).
        rewrite (read_number_point neg "0" (z +:+ ds) EmptyString 0); try done.
        -- rewrite digits_from_app by (done || apply zeros_digits). unfold z at 1.
           rewrite digits_from_zeros. replace (0 - strlen (z +:+ ds)) with (expo d) by lia. done.
        -- rewrite Hz. change (strlen "0") with 1. lia.
        -- rewrite Hz. lia.
      * destruct (digits_pieces ds (expo d + strlen ds)) as (a & b & Ea & Eb & Ha & Hb & La & Lb & V);
          [done|lia|].
        replace (Z.to_nat (- expo d)) with (Z.to_nat (strlen ds - (expo d + strlen ds))) by lia.
        rewrite Ea, Eb, <- (app_empty b), <- V.
        rewrite (read_number_point neg a b EmptyString 0); try done; [|lia|lia].
        by replace (0 - strlen b) with (expo d) by lia.
  - set (left := expo d + strlen ds).
    destruct (digits_pieces ds 1) as (a & b & Ea & Eb & Ha & Hb & La & Lb & V); [done|lia|].
    change (Z.to_nat 1) with 1%nat in Ea, Eb. rewrite Ea, Eb, <- V.
    set (rest := "E" +:+ (if left - 1 <? 0 then "-" else "+") +:+ digits_text (left - 1)).
    assert (Hexp : read_exponent rest = Some (left - 1)) by apply read_exponent_text.
    assert (Hrest : forall c r, rest = String c r -> is_digit c = false /\ c <> "."%char).
    { unfold rest. intros c r [= <- _]. done. }
    destruct (Z.eqb_spec (strlen ds) 1) as [L1|L1].
    + assert (b = EmptyString) as -> by (rewrite L1 in Lb; unfold strlen in Lb; destruct b; [done|simpl in Lb; lia]).
      change (EmptyString +:+ rest) with rest.
      rewrite (read_number_plain neg a rest (left - 1)); try done.
      * unfold left. rewrite L1. replace (expo d + 1 - 1) with (expo d) by lia. done.
      * intros ->. done.
      * unfold left. lia.
    + change (("." +:+ b) +:+ rest) with ("." +:+ b +:+ rest).
      rewrite (read_number_point neg a b rest (left - 1)); try done.
      * replace (left - 1 - strlen b) with (expo d) by (unfold left; lia). done.
      * lia.
      * unfold left. lia.
      * intros c r Hc. by eapply Hrest.
Qed.

(** A text that starts with a digit and has only the characters of numbers. *)
Definition number_text (s : string) : Prop :=
  (exists c r, s = String c r /\ is_digit c = true) /\ all_chars num_char s = true.

Lemma number_text_digits a rest : all_chars is_digit a = true -> 0 < strlen a ->
  all_chars num_char rest = true -> number_text (a +:+ rest).
Proof.
  intros Ha Hl Hr. split.
  - destruct a as [|c a]; [done|]. simpl in Ha. apply andb_true_iff in Ha as [Hc _].
    exists c, (a +:+ rest). done.
  - rewrite all_chars_app, Hr, andb_true_r. by apply (all_chars_mono is_digit), Ha; apply is_digit_num.
Qed.

Lemma digits_num s : all_chars is_digit s = true -> all_chars num_char s = true.
Proof. apply all_chars_mono, is_digit_num. Qed.

Lemma unsigned_text_shape d : number_text (unsigned_text d).
Proof.
  unfold unsigned_text. destruct (digits_text_spec (coef d)) as (H1 & _ & H3).
  set (ds := digits_text (coef d)) in *.
  assert (Hlen : 0 < strlen ds) by (unfold strlen; destruct ds; [done|simpl; lia]).
  destruct ((expo d <=? 0) && (-6 <? expo d + strlen ds)) eqn:E.
  - apply andb_true_iff in E as [E _]. apply Z.leb_le in E.
    destruct (Z.leb_spec 0 (expo d)) as [E0|E0].
    + rewrite <- (app_empty ds). by apply number_text_digits.
    + destruct (Z.leb_spec (expo d + strlen ds) 0) as [L|L].
      * change (number_text ("0" +:+ ("." +:+ (zeros (Z.to_nat (- (expo d + strlen ds))) +:+ ds)))).
        apply number_text_digits; [done..|]. rewrite !all_chars_app, (digits_num ds) by done.
        by rewrite (digits_num (zeros _)) by apply zeros_digits.
      * destruct (digits_pieces ds (expo d + strlen ds)) as (a & b & Ea & Eb & Ha & Hb & La & Lb & V);
          [done|lia|].
        replace (Z.to_nat (- expo d)) with (Z.to_nat (strlen ds - (expo d + strlen ds))) by lia.
        rewrite Ea, Eb. apply number_text_digits; [done|lia|].
        by rewrite all_chars_app, (digits_num b).
  - destruct (digits_pieces ds 1) as (a & b & Ea & Eb & Ha & Hb & La & Lb & V); [done|lia|].
    change (Z.to_nat 1) with 1%nat in Ea, Eb. rewrite Ea, Eb.
    apply number_text_digits; [done|lia|]. rewrite !all_chars_app.
    rewrite (digits_num (digits_text _)) by apply digits_text_spec.
    destruct (strlen ds =? 1); destruct (expo d + strlen ds - 1 <? 0); try done;
      by rewrite all_chars_app, (digits_num b).
Qed.

(** The text of a decimal reads back as the same decimal, with its exponent. *)
Lemma decimal_text_roundtrip (d : decimal) :
  Z.abs (expo d) <= MAX_EMAX -> decimal_of_text (str_text d) = Some (Finite d).
Proof.
  intros H. rewrite str_text_unsigned. unfold decimal_of_text.
  destruct (unsigned_text_shape d) as [(c & r & E & Hc) Hall].
  rewrite strip_id, drop_underscores_id.
  - assert (S : read_sign (sign_text (coef d) +:+ unsigned_text d) = (coef d <? 0, unsigned_text d)).
    { unfold sign_text. destruct (coef d <? 0); [done|].
      change (EmptyString +:+ unsigned_text d) with (unsigned_text d). rewrite E.
      unfold read_sign. destruct (Ascii.eqb_spec c "-") as [->|_]; [done|].
      by destruct (Ascii.eqb_spec c "+") as [->|_]. }
    rewrite S, read_unsigned by done. f_equal. f_equal. destruct d as [n e]. cbn [coef expo] in *.
    f_equal. unfold signed. destruct (Z.ltb_spec n 0); lia.
  - rewrite all_chars_app, Hall, andb_true_r. unfold sign_text. by destruct (coef d <? 0).
  - rewrite all_chars_app, Hall, andb_true_r. unfold sign_text. by destruct (coef d <? 0).
Qed.
