(* ===== verification/MarketWatch.v ===== *)
(** * Market watch

    [watch.py] and [indicators.py]: a quote event is validated, deduplicated,
    classified against its stream and stored as a snapshot; normal events also
    update the minute bars and the indicators of the day.  The quote tables have
    a single writer, the broker worker that holds the lease. *)

From Stdlib Require Import ZArith Lia.
From stdpp Require Import base numbers strings list gmap.
From S2P Require Import Prelude Decimal Json DecimalText PyTime Models Session.

Open Scope Z_scope.

Definition SUPPORTED_MARKETS : list string := ["KRX"; "NXT"].
Definition SUPPORTED_TRADING_STATUSES : list string :=
  ["PRE_MARKET"; "TRADING"; "VI"; "HALTED"; "CLOSING_AUCTION"; "CLOSED"; "NO_QUOTES"].
Definition CALCULATOR_VERSION : string := "watch-indicators-v2".

(** [PRICE_QUANTUM] and [PCT_QUANTUM], as exponents. *)
Definition PRICE_QUANTUM : Z := -4.
Definition PCT_QUANTUM : Z := -6.

(** Prices are finite; [q_aware] tells whether both times carry a timezone. *)
(** The prices are [decimal]s; those read from a feed may be infinite. *)
Record quote_event_of (M : Type) := mkQuoteEvent {
  q_symbol : string;
  q_market : string;
  q_source : string;
  q_sequence_or_hash : string;
  q_event_at : Z;
  q_received_at : Z;
  q_aware : bool;
  q_last_price : M;
  q_open_price : M;
  q_high_price : M;
  q_low_price : M;
  q_cumulative_volume : Z;
  q_trading_status : string;
  q_source_sequence : option Z;
  q_best_bid_price : option M;
  q_best_bid_quantity : option Z;
  q_best_ask_price : option M;
  q_best_ask_quantity : option Z;
  q_recovery_snapshot : bool;
  q_updates_trade : bool
}.

Arguments mkQuoteEvent {M}.
Arguments q_symbol {M}.
Arguments q_market {M}.
Arguments q_source {M}.
Arguments q_sequence_or_hash {M}.
Arguments q_event_at {M}.
Arguments q_received_at {M}.
Arguments q_aware {M}.
Arguments q_last_price {M}.
Arguments q_open_price {M}.
Arguments q_high_price {M}.
Arguments q_low_price {M}.
Arguments q_cumulative_volume {M}.
Arguments q_trading_status {M}.
Arguments q_source_sequence {M}.
Arguments q_best_bid_price {M}.
Arguments q_best_bid_quantity {M}.
Arguments q_best_ask_price {M}.
Arguments q_best_ask_quantity {M}.
Arguments q_recovery_snapshot {M}.
Arguments q_updates_trade {M}.

Definition QuoteEvent : Type := quote_event_of decimal.

Inductive IngestOutcome := DUPLICATE | LATE | GAP_DETECTED | RECOVERED | APPLIED.

Record IngestResult := mkIngestResult {
  ig_snapshot : MarketSnapshot;
  ig_outcome : IngestOutcome;
  ig_stream_quality : Quality
}.

(** ** Validation *)

(** The comparisons of prices. *)
Class Prices (M : Type) := { zero_or_less : M -> bool; below : M -> M -> bool }.
#[export] Instance decimal_prices : Prices decimal := { zero_or_less p := dleb p dzero; below := dltb }.
#[export] Instance amount_prices : Prices amount := { zero_or_less p := aleb p (Exact dzero); below := altb }.

Section Validate.
Context {M : Type} `{!Prices M}.

Definition book_side_invalid (price : option M) (quantity : option Z) : bool :=
  match price with
  | None => false
  | Some p => zero_or_less p || match quantity with None => true | Some n => n <? 0 end
  end.

Definition one_sided (price : option M) (quantity : option Z) : bool :=
  negb (Bool.eqb (negb (bool_decide (is_Some price))) (negb (bool_decide (is_Some quantity)))).

Definition _validate (event : quote_event_of M) : exn + unit :=
  reject_if (negb (digits_of_length 6 (q_symbol event))) (WatchError "INVALID_SYMBOL") ;;
  reject_if (negb (bool_decide (q_market event ∈ SUPPORTED_MARKETS))) (WatchError "UNSUPPORTED_MARKET") ;;
  reject_if (String.eqb (q_source event) EmptyString || Nat.ltb 32 (String.length (q_source event)))
    (WatchError "INVALID_SOURCE") ;;
  reject_if (String.eqb (q_sequence_or_hash event) EmptyString ||
             Nat.ltb 128 (String.length (q_sequence_or_hash event))) (WatchError "INVALID_SOURCE_KEY") ;;
  reject_if (negb (q_aware event)) (WatchError "TIMEZONE_REQUIRED") ;;
  reject_if (q_received_at event <? q_event_at event) (WatchError "INVALID_EVENT_TIME") ;;
  reject_if (match q_source_sequence event with Some n => n <? 0 | None => false end)
    (WatchError "INVALID_SEQUENCE") ;;
  reject_if (existsb zero_or_less
               [q_last_price event; q_open_price event; q_high_price event; q_low_price event] ||
             below (q_high_price event) (q_low_price event)) (WatchError "INVALID_PRICE") ;;
  reject_if (q_cumulative_volume event <? 0) (WatchError "INVALID_VOLUME") ;;
  reject_if (negb (bool_decide (q_trading_status event ∈ SUPPORTED_TRADING_STATUSES)))
    (WatchError "INVALID_TRADING_STATUS") ;;
  reject_if (one_sided (q_best_bid_price event) (q_best_bid_quantity event)) (WatchError "INVALID_ORDERBOOK") ;;
  reject_if (one_sided (q_best_ask_price event) (q_best_ask_quantity event)) (WatchError "INVALID_ORDERBOOK") ;;
  reject_if (book_side_invalid (q_best_bid_price event) (q_best_bid_quantity event))
    (WatchError "INVALID_ORDERBOOK") ;;
  reject_if (book_side_invalid (q_best_ask_price event) (q_best_ask_quantity event))
    (WatchError "INVALID_ORDERBOOK").
End Validate.

(** ** Quantised values *)

Definition quantized (k : Z) (d : decimal) : exn + decimal :=
  match quantize ROUND_HALF_EVEN k d with Some d => inr d | None => inl InvalidOperation end.

Definition quantized_opt (k : Z) (d : option decimal) : exn + option decimal :=
  match d with Some d => d ← quantized k d; mret (Some d) | None => inr None end.

Definition _price (value : option decimal) : exn + json :=
  d ← quantized_opt PRICE_QUANTUM value;
  mret (match d with Some d => JStr (str_text d) | None => JNull end).

Definition _payload (event : QuoteEvent) : exn + json :=
  ask ← _price (q_best_ask_price event);
  bid ← _price (q_best_bid_price event);
  high ← _price (Some (q_high_price event));
  last ← _price (Some (q_last_price event));
  low ← _price (Some (q_low_price event));
  open ← _price (Some (q_open_price event));
  mret (JObj [("best_ask_price", ask); ("best_ask_quantity", jopt_int (q_best_ask_quantity event));
    ("best_bid_price", bid); ("best_bid_quantity", jopt_int (q_best_bid_quantity event));
    ("cumulative_volume", JInt (q_cumulative_volume event));
    ("event_at", JStr (iso_datetime (q_event_at event))); ("high_price", high); ("last_price", last);
    ("low_price", low); ("market", JStr (q_market event)); ("open_price", open);
    ("received_at", JStr (iso_datetime (q_received_at event)));
    ("recovery_snapshot", JBool (q_recovery_snapshot event));
    ("sequence_or_hash", JStr (q_sequence_or_hash event)); ("source", JStr (q_source event));
    ("source_sequence", jopt_int (q_source_sequence event)); ("symbol", JStr (q_symbol event));
    ("trading_status", JStr (q_trading_status event));
    ("updates_trade", JBool (q_updates_trade event))]).

(** The snapshot row of an event. *)
Definition snapshot_of (event : QuoteEvent) (id payload_hash : string) (quality : Quality) :
  exn + MarketSnapshot :=
  last ← quantized PRICE_QUANTUM (q_last_price event);
  open ← quantized PRICE_QUANTUM (q_open_price event);
  high ← quantized PRICE_QUANTUM (q_high_price event);
  low ← quantized PRICE_QUANTUM (q_low_price event);
  bid ← quantized_opt PRICE_QUANTUM (q_best_bid_price event);
  ask ← quantized_opt PRICE_QUANTUM (q_best_ask_price event);
  mret (mkMarketSnapshot id (q_symbol event) (q_market event) (q_source event)
    (q_sequence_or_hash event) (q_source_sequence event) payload_hash last open high low
    (q_cumulative_volume event) bid (q_best_bid_quantity event) ask (q_best_ask_quantity event)
    (q_trading_status event) quality (q_recovery_snapshot event) (q_event_at event)
    (q_received_at event)).

(** ** Decimal operations of the indicators *)

(** [d ** 2]: the square is rounded to three more digits, then to the context. *)
Definition round_to (digits : Z) (d : decimal) : decimal :=
  let excess := ndigits (coef d) - digits in
  if excess <=? 0 then d
  else Dec (round_div ROUND_HALF_EVEN (coef d) (pow10 excess)) (expo d + excess).

Definition dsquare (d : decimal) : decimal :=
  fix_prec (round_to (prec + 3) (Dec (coef d * coef d) (2 * expo d))).

(** [d.sqrt()], correctly rounded: an integer root with more digits than the
    context, and a last digit that tells whether it is exact. *)
Definition dsqrt (d : decimal) : exn + decimal :=
  if coef d <? 0 then inl InvalidOperation
  else if coef d =? 0 then inr (Dec 0 (expo d / 2))
  else
    let s := Z.max 0 (2 * prec + 2 - ndigits (coef d)) in
    let s := if Z.even (expo d - s) then s else s + 1 in
    let n := coef d * pow10 s in
    let r := Z.sqrt n in
    inr (fix_prec (if r * r =? n then Dec r ((expo d - s) / 2)
                   else Dec (10 * r + 1) ((expo d - s) / 2 - 1))).

Definition dsum (l : list decimal) : decimal := foldl dadd dzero l.

Definition divided (a b : decimal) : exn + decimal :=
  match ddiv a b with Some d => inr d | None => inl ZeroDivision end.

Definition done_ : decimal := of_int 1.
Definition hundred : decimal := of_int 100.

(** [(a / b - 1) * 100] *)
Definition change_pct (a b : decimal) : exn + decimal :=
  r ← divided a b; mret (dmul (dsub r done_) hundred).

(** [l[-n:]] *)
Definition last_n {A} (n : nat) (l : list A) : list A := drop (length l - n) l.

(** ** Indicators *)

Definition trading_date (value : Z) : Z := kst_date value.

Definition bucket_of (t : Z) : Z := t - t mod minute.

Definition bar_key (event : QuoteEvent) : string * string * Z :=
  (q_market event, q_symbol event, bucket_of (q_event_at event)).

(** Volume traded since the previous event of the day. *)
Definition volume_delta (event : QuoteEvent) (previous_cumulative_volume previous_event_at : option Z) : Z :=
  match previous_event_at, previous_cumulative_volume with
  | Some at_, Some volume =>
      if trading_date at_ =? trading_date (q_event_at event)
      then Z.max (q_cumulative_volume event - volume) 0 else 0
  | _, _ => 0
  end.

Definition new_bar (event : QuoteEvent) (id snapshot_id : string) (price : decimal) (delta : Z)
  (turnover_delta : decimal) : MinuteBar :=
  mkMinuteBar id (q_market event) (q_symbol event) (bucket_of (q_event_at event)) price price price
    price delta turnover_delta 1 snapshot_id snapshot_id 1.

Definition extended_bar (bar : MinuteBar) (snapshot_id : string) (price : decimal) (delta : Z)
  (turnover_delta : decimal) : MinuteBar :=
  mkMinuteBar (mb_id bar) (mb_market bar) (mb_symbol bar) (mb_bucket_start bar) (mb_open_price bar)
    (dmax (mb_high_price bar) price) (dmin (mb_low_price bar) price) price (mb_volume bar + delta)
    (dadd (mb_turnover bar) turnover_delta) (mb_event_count bar + 1) (mb_first_snapshot_id bar)
    snapshot_id (mb_version bar + 1).

Definition put_bar (key : string * string * Z) (bar : MinuteBar) (db : DB) : DB :=
  set_minute_bars db (<[key := bar]> (minute_bars db)).

(** The minute bar of a trade. *)
Definition record_trade (event : QuoteEvent) (snapshot_id : string)
  (previous_cumulative_volume previous_event_at : option Z) : prog unit :=
  let delta := volume_delta event previous_cumulative_volume previous_event_at in
  bar ← gets (fun db => minute_bars db !! bar_key event);
  price ← of_result (quantized PRICE_QUANTUM (q_last_price event));
  turnover_delta ← of_result (quantized PRICE_QUANTUM (dmul price (of_int delta)));
  match bar with
  | None =>
      id ← uuid7;
      modify (put_bar (bar_key event) (new_bar event id snapshot_id price delta turnover_delta))
  | Some bar =>
      modify (put_bar (bar_key event) (extended_bar bar snapshot_id price delta turnover_delta))
  end.

(** The bars of the event's KST day, in order. *)
Definition day_start (t : Z) : Z := kst_combine (kst_date t) 0.

Definition earlier_bar (a b : MinuteBar) : bool := mb_bucket_start a <=? mb_bucket_start b.

Definition day_bars (event : QuoteEvent) (db : DB) : list MinuteBar :=
  let start := day_start (q_event_at event) in
  sort_by earlier_bar (List.filter (fun bar =>
    String.eqb (mb_market bar) (q_market event) && String.eqb (mb_symbol bar) (q_symbol event) &&
    (start <=? mb_bucket_start bar) && (mb_bucket_start bar <? start + day))
    (map_to_list (minute_bars db)).*2).

Definition total_volume (bars : list MinuteBar) : Z := foldl (fun n bar => n + mb_volume bar) 0 bars.

Definition mean5 (bars : list MinuteBar) : exn + decimal :=
  r ← divided (dsum (map mb_close_price bars)) (of_int 5); quantized PRICE_QUANTUM r.

Definition vwap_of (event : QuoteEvent) (bars : list MinuteBar) : exn + decimal :=
  r ← (if 0 <? total_volume bars
       then divided (dsum (map mb_turnover bars)) (of_int (total_volume bars))
       else inr (q_last_price event));
  quantized PRICE_QUANTUM r.

Definition sma5_of (bars : list MinuteBar) : exn + option decimal :=
  let recent := last_n 5 bars in
  if Nat.eqb (length recent) 5 then r ← mean5 recent; mret (Some r) else inr None.

Definition sma5_slope_of (bars : list MinuteBar) (sma5 : option decimal) : exn + option decimal :=
  match sma5 with
  | Some sma5 =>
      if Nat.leb 6 (length bars) then
        previous ← mean5 (take 5 (last_n 6 bars));
        if dltb dzero previous then r ← change_pct sma5 previous; mret (Some r) else inr None
      else inr None
  | None => inr None
  end.

Definition relative_volume_of (bars : list MinuteBar) : exn + option decimal :=
  if Nat.leb 10 (length bars) then
    let previous_volume := total_volume (take 5 (last_n 10 bars)) in
    let recent_volume := total_volume (last_n 5 bars) in
    if 0 <? previous_volume
    then r ← divided (of_int recent_volume) (of_int previous_volume); mret (Some r)
    else inr None
  else inr None.

(** The returns between consecutive bars. *)
Fixpoint returns_of (bars : list MinuteBar) : exn + list decimal :=
  match bars with
  | previous :: ((current :: _) as rest) =>
      tail ← returns_of rest;
      if dltb dzero (mb_close_price previous)
      then r ← divided (mb_close_price current) (mb_close_price previous);
           mret (dsub r done_ :: tail)
      else mret tail
  | _ => inr []
  end.

Definition realized_volatility_of (bars : list MinuteBar) : exn + option decimal :=
  let bars := last_n 10 bars in
  if Nat.leb 3 (length bars) then
    returns ← returns_of bars;
    if Nat.leb 2 (length returns) then
      let n := of_int (Z.of_nat (length returns)) in
      mean ← divided (dsum returns) n;
      variance ← divided (dsum (map (fun r => dsquare (dsub r mean)) returns)) n;
      root ← dsqrt variance;
      mret (Some (dmul root hundred))
    else inr None
  else inr None.

Definition spread_of (event : QuoteEvent) : exn + option decimal :=
  match q_best_bid_price event, q_best_ask_price event with
  | Some bid, Some ask =>
      midpoint ← divided (dadd bid ask) (of_int 2);
      if dltb dzero midpoint then
        r ← divided (dsub ask bid) midpoint;
        r ← quantized PCT_QUANTUM (dmul r hundred);
        mret (Some r)
      else inr None
  | _, _ => inr None
  end.

Definition indicator_of (event : QuoteEvent) (bars : list MinuteBar) (id snapshot_id : string) :
  exn + IndicatorSnapshot :=
  vwap ← vwap_of event bars;
  sma5 ← sma5_of bars;
  sma5_slope ← sma5_slope_of bars sma5;
  relative_volume ← relative_volume_of bars;
  realized_volatility ← realized_volatility_of bars;
  session_high ← quantized PRICE_QUANTUM (foldl dmax (q_high_price event) (map mb_high_price bars));
  drawdown ← change_pct (q_last_price event) session_high;
  price_vs_vwap ← (if dltb dzero vwap then r ← change_pct (q_last_price event) vwap; mret (Some r)
                   else inr None);
  spread ← spread_of event;
  drawdown ← quantized PCT_QUANTUM drawdown;
  price_vs_vwap ← quantized_opt PCT_QUANTUM price_vs_vwap;
  sma5_slope ← quantized_opt PCT_QUANTUM sma5_slope;
  relative_volume ← quantized_opt PCT_QUANTUM relative_volume;
  realized_volatility ← quantized_opt PCT_QUANTUM realized_volatility;
  mret (mkIndicatorSnapshot id snapshot_id (q_market event) (q_symbol event) CALCULATOR_VERSION vwap
    sma5 session_high drawdown spread price_vs_vwap sma5_slope relative_volume realized_volatility
    (Z.of_nat (length bars)) (day_start (q_event_at event)) (q_event_at event)).

Definition update_market_analysis (event : QuoteEvent) (snapshot_id : string)
  (previous_cumulative_volume previous_event_at : option Z) : prog unit :=
  (if q_updates_trade event
   then record_trade event snapshot_id previous_cumulative_volume previous_event_at else mret tt) ;;
  bars ← gets (day_bars event);
  id ← uuid7;
  indicator ← of_result (indicator_of event bars id snapshot_id);
  modify (fun db => set_indicators db (<[is_id indicator := indicator]> (indicators db))).

(** ** Ingestion *)

Definition stream_key (event : QuoteEvent) : string * string := (q_market event, q_symbol event).

Definition same_source_key (event : QuoteEvent) (s : MarketSnapshot) : bool :=
  String.eqb (ms_source s) (q_source event) && String.eqb (ms_market s) (q_market event) &&
  String.eqb (ms_symbol s) (q_symbol event) &&
  String.eqb (ms_sequence_or_hash s) (q_sequence_or_hash event).

(** Comparisons with the last values of the stream, false when either is missing. *)
Definition compared (f : Z -> Z -> bool) (a b : option Z) : bool :=
  match a, b with Some a, Some b => f a b | _, _ => false end.

Definition is_late (state : option MarketStreamState) (event : QuoteEvent) : bool :=
  match state with
  | None => false
  | Some state =>
      compared Z.ltb (Some (q_event_at event)) (mss_last_event_at state) ||
      compared Z.leb (q_source_sequence event) (mss_last_sequence state)
  end.

Definition sequence_gap (state : option MarketStreamState) (event : QuoteEvent) : bool :=
  match state with
  | None => false
  | Some state => compared (fun n last => last + 1 <? n) (q_source_sequence event) (mss_last_sequence state)
  end.

Definition volume_regression (state : option MarketStreamState) (event : QuoteEvent) : bool :=
  match state with
  | None => false
  | Some state =>
      compared (fun volume last => volume <? last) (Some (q_cumulative_volume event))
        (mss_cumulative_volume state) &&
      match mss_last_event_at state with
      | Some at_ => trading_date (q_event_at event) =? trading_date at_
      | None => false
      end
  end.

Definition source_changed (state : option MarketStreamState) (event : QuoteEvent) : bool :=
  match state with
  | None => false
  | Some state => negb (String.eqb (mss_source state) (q_source event)) &&
                  negb (q_recovery_snapshot event)
  end.

Definition in_gap (state : option MarketStreamState) : bool :=
  match state with Some state => bool_decide (mss_quality state = Q_GAP_DETECTED) | None => false end.

(** [late] and [gap]; a recovery snapshot is neither. *)
Definition classify (state : option MarketStreamState) (event : QuoteEvent) : bool * bool :=
  if q_recovery_snapshot event then (false, false)
  else (is_late state event,
        in_gap state || sequence_gap state event || volume_regression state event ||
        source_changed state event).

Definition quality_of (late gap : bool) : Quality :=
  if late then Q_LATE else if gap then Q_GAP_DETECTED else Q_NORMAL.

Definition outcome_of (late gap recovery : bool) : IngestOutcome :=
  if late then LATE else if gap then GAP_DETECTED else if recovery then RECOVERED else APPLIED.

Definition new_stream (event : QuoteEvent) : MarketStreamState :=
  mkMarketStreamState (q_market event) (q_symbol event) (q_source event) None None None None None
    Q_NORMAL 0.

Definition advanced_stream (state : MarketStreamState) (event : QuoteEvent) (snapshot_id : string)
  (quality : Quality) : MarketStreamState :=
  match quality with
  | Q_GAP_DETECTED => set_mss_version (set_mss_quality state Q_GAP_DETECTED) (mss_version state + 1)
  | Q_NORMAL =>
      mkMarketStreamState (mss_market state) (mss_symbol state) (q_source event) (Some snapshot_id)
        (q_source_sequence event) (Some (q_event_at event)) (Some (q_received_at event))
        (Some (q_cumulative_volume event)) Q_NORMAL (mss_version state + 1)
  | Q_LATE => state
  end.

Definition put_stream (key : string * string) (state : MarketStreamState) (db : DB) : DB :=
  set_streams db (<[key := state]> (streams db)).

Definition put_snapshot (s : MarketSnapshot) (db : DB) : DB :=
  set_snapshots db (<[ms_id s := s]> (snapshots db)).

(** A normal quote of NXT verifies that the symbol trades there. *)
Definition put_venue_state (event : QuoteEvent) (db : DB) : DB :=
  set_venue_states db (<[(q_symbol event, "NXT") := mkInstrumentVenueState (q_symbol event) "NXT"
    "VERIFIED" "QUOTE_OBSERVED" (q_sequence_or_hash event) (q_event_at event)
    (Some (q_event_at event))]> (venue_states db)).

Section Ingest.
Context (sha256 : string -> string).

Definition _payload_hash (event : QuoteEvent) : exn + string :=
  payload ← _payload event; mret (sha256 (dumps payload)).

(** A new event, from the classification to the commit. *)
Definition store_quote (event : QuoteEvent) (payload_hash : string) : prog IngestResult :=
  state ← gets (fun db => streams db !! stream_key event);
  let '(late, gap) := classify state event in
  let quality := quality_of late gap in
  id ← uuid7;
  snapshot ← of_result (snapshot_of event id payload_hash quality);
  known ← gets (fun db => bool_decide (is_Some (snapshots db !! id)));
  guard_or (negb known) IntegrityError ;;
  modify (put_snapshot snapshot) ;;
  (if bool_decide (quality = Q_NORMAL)
   then update_market_analysis event id (state ≫= mss_cumulative_volume) (state ≫= mss_last_event_at)
   else mret tt) ;;
  let stream := advanced_stream (default (new_stream event) state) event id quality in
  modify (put_stream (stream_key event) stream) ;;
  (if bool_decide (quality = Q_NORMAL) && String.eqb (q_market event) "NXT"
   then modify (put_venue_state event) else mret tt) ;;
  commit ;;
  mret (mkIngestResult snapshot (outcome_of late gap (q_recovery_snapshot event)) (mss_quality stream)).

Definition ingest_quote (event : QuoteEvent) : prog IngestResult :=
  of_result (_validate event) ;;
  payload_hash ← of_result (_payload_hash event);
  duplicate ← gets (fun db => List.find (same_source_key event) (rows (snapshots db)));
  match duplicate with
  | Some d =>
      guard_or (String.eqb (ms_payload_hash d) payload_hash) (WatchError "SOURCE_EVENT_CONFLICT") ;;
      state ← gets (fun db => streams db !! stream_key event);
      mret (mkIngestResult d DUPLICATE
              (match state with Some s => mss_quality s | None => ms_quality d end))
  | None => store_quote event payload_hash
  end.

(** The event with finite prices, if they all are. *)
Definition exact_quote (q : quote_event_of amount) : option QuoteEvent :=
  let exact_opt p := match p with Some p => p ← exact p; Some (Some p) | None => Some None end in
  last ← exact (q_last_price q);
  open ← exact (q_open_price q);
  high ← exact (q_high_price q);
  low ← exact (q_low_price q);
  bid ← exact_opt (q_best_bid_price q);
  ask ← exact_opt (q_best_ask_price q);
  Some (mkQuoteEvent (q_symbol q) (q_market q) (q_source q) (q_sequence_or_hash q) (q_event_at q)
    (q_received_at q) (q_aware q) last open high low (q_cumulative_volume q) (q_trading_status q)
    (q_source_sequence q) bid (q_best_bid_quantity q) ask (q_best_ask_quantity q)
    (q_recovery_snapshot q) (q_updates_trade q)).

(** [ingest_quote] of an event with prices as they were read: an infinite price
    passes the checks and cannot be quantised. *)
Definition ingest_event (event : quote_event_of amount) : prog unit :=
  match exact_quote event with
  | Some event => ingest_quote event ;; mret tt
  | None => of_result (_validate event) ;; raise InvalidOperation
  end.
End Ingest.

(** [quote_age_seconds]: seconds with three decimals. *)
Definition quote_age_seconds (snapshot : MarketSnapshot) (now : Z) : exn + decimal :=
  quantized (-3) (dmax dzero (Dec (now - ms_received_at snapshot) (-6))).
