(* ===== verification/WatchProps.v ===== *)
(** * Properties of the market watch

    The invariant of the quote tables over every sequence of events, accepted
    or refused, and the order on the states of a stream that events respect. *)

From Stdlib Require Import ZArith Lia Ascii String.
From stdpp Require Import base numbers strings list gmap.
From S2P Require Import Prelude Decimal Json PyTime Models Session MarketWatch.

Open Scope Z_scope.

(** ** What an ingestion writes *)

Abbreviation Bars := (gmap (string * string * Z) MinuteBar).

(** The bar table after an event: unchanged, or the event's bar traded. *)
Definition traded (event : QuoteEvent) (id : string) (volume at_ : option Z) (bars bars' : Bars) : Prop :=
  bars' = bars \/
  exists price turnover bar bar_id, let delta := volume_delta event volume at_ in
    quantized PRICE_QUANTUM (q_last_price event) = inr price /\
    quantized PRICE_QUANTUM (dmul price (of_int delta)) = inr turnover /\
    bars' = <[bar_key event := bar]> bars /\
    bar = match bars !! bar_key event with
          | None => new_bar event bar_id id price delta turnover
          | Some old => extended_bar old id price delta turnover
          end.

(** The database after a stored event. *)
Record stored (event : QuoteEvent) (hash : string) (snapshot : MarketSnapshot) (db db' : DB) : Prop := {
  sd_row : let '(late, gap) := classify (streams db !! stream_key event) event in
    snapshot_of event (ms_id snapshot) hash (quality_of late gap) = inr snapshot;
  sd_fresh : snapshots db !! ms_id snapshot = None;
  sd_snapshots : snapshots db' = <[ms_id snapshot := snapshot]> (snapshots db);
  sd_streams : streams db' = <[stream_key event := advanced_stream
    (default (new_stream event) (streams db !! stream_key event)) event (ms_id snapshot)
    (ms_quality snapshot)]> (streams db);
  sd_bars : if bool_decide (ms_quality snapshot = Q_NORMAL)
    then traded event (ms_id snapshot) (streams db !! stream_key event ≫= mss_cumulative_volume)
           (streams db !! stream_key event ≫= mss_last_event_at) (minute_bars db) (minute_bars db')
    else minute_bars db' = minute_bars db
}.

Lemma snapshot_of_fields event id hash quality s : snapshot_of event id hash quality = inr s ->
  ms_id s = id /\ ms_payload_hash s = hash /\ ms_quality s = quality /\ same_source_key event s = true /\
  ms_event_at s = q_event_at event /\ ms_cumulative_volume s = q_cumulative_volume event.
Proof.
  unfold snapshot_of. intros H. repeat (apply result_bind_inr in H as (? & _ & H)).
  injection H as <-. unfold same_source_key. cbn. by rewrite !String.eqb_refl.
Qed.

(** The tables an analysis leaves alone. *)
Definition quiet (s s' : Sess) : Prop :=
  disk s' = disk s /\ streams (work s') = streams (work s) /\ snapshots (work s') = snapshots (work s).

Lemma record_trade_run event id volume at_ s :
  wp (record_trade event id volume at_) (fun s' r => match r with
    | inl _ => quiet s s' /\ traded event id volume at_ (minute_bars (work s)) (minute_bars (work s'))
    | inr _ => disk s' = disk s end) s.
Proof.
  unfold record_trade. do 2 wp_step. unfold after at 1.
  do 2 (wp_step; apply wp_of_result; [intros ? ?|by intros]; unfold after at 1).
  destruct (minute_bars (work s) !! bar_key event) as [old|] eqn:E; repeat wp_step;
    (split; [done|right]).
  - eexists _, _, _, EmptyString. do 3 (split; [eassumption || reflexivity|]). by rewrite E.
  - eexists _, _, _, _. repeat (split; [eassumption || reflexivity|]). by rewrite E.
Qed.

Lemma analysis_run event id volume at_ s :
  wp (update_market_analysis event id volume at_) (fun s' r => match r with
    | inl _ => quiet s s' /\ traded event id volume at_ (minute_bars (work s)) (minute_bars (work s'))
    | inr _ => disk s' = disk s end) s.
Proof.
  unfold update_market_analysis. wp_step. eapply (wp_mono _ (fun s1 r => match r with
    | inl _ => quiet s s1 /\ traded event id volume at_ (minute_bars (work s)) (minute_bars (work s1))
    | inr _ => disk s1 = disk s end)).
  { destruct (q_updates_trade event); [apply record_trade_run|]. wp_step. split; [done|by left]. }
  intros s1 [[]|e] H; [|done]. destruct H as ((H1 & H2 & H3) & H4). unfold after at 1.
  do 2 wp_step. unfold after at 1. do 2 wp_step. unfold after at 1. wp_step.
  apply wp_of_result; [intros i Hi|by intros]. unfold after at 1. wp_step. done.
Qed.

Section Ingesting.
Context (sha256 : string -> string).

Lemma store_run event hash s : disk s = work s ->
  wp (store_quote event hash) (fun s' r => match r with
    | inl res => stored event hash (ig_snapshot res) (disk s) (disk s')
    | inr _ => disk s' = disk s end) s.
Proof.
  intros Hs. rewrite Hs. unfold store_quote. do 2 wp_step. unfold after at 1.
  set (state := streams (work s) !! stream_key event).
  destruct (classify state event) as [late gap] eqn:EC. do 2 wp_step. unfold after at 1. wp_step.
  apply wp_of_result; [intros snap Hsnap|by intros]. unfold after at 1. do 2 wp_step. unfold after at 1.
  wp_step. apply wp_guard_or; intros Hf; [|done]. unfold after at 1. do 2 wp_step. unfold after at 1.
  destruct (snapshot_of_fields _ _ _ _ _ Hsnap) as (Hid & _ & Hq & _).
  set (id := uuids s (uuid_ix s)) in *. set (s1 := with_work _ _).
  wp_step. eapply (wp_mono _ (fun s2 r => match r with
    | inl _ => quiet s1 s2 /\ if bool_decide (ms_quality snap = Q_NORMAL)
        then traded event (ms_id snap) (state ≫= mss_cumulative_volume) (state ≫= mss_last_event_at)
               (minute_bars (work s1)) (minute_bars (work s2))
        else minute_bars (work s2) = minute_bars (work s1)
    | inr _ => disk s2 = disk s1 end)).
  { rewrite Hq, Hid. destruct (bool_decide (quality_of late gap = Q_NORMAL)); [apply analysis_run|by wp_step]. }
  intros s2 [[]|e] H; [|by rewrite <- Hs]. destruct H as ((H1 & H2 & H3) & H4). unfold after at 1.
  do 2 wp_step. unfold after at 1. wp_step.
  set (s3 := with_work _ s2).
  eapply (wp_mono _ (fun s4 r => r = inl tt /\ streams (work s4) = streams (work s3) /\
    snapshots (work s4) = snapshots (work s3) /\ minute_bars (work s4) = minute_bars (work s3))).
  { destruct (_ && _); by wp_step. }
  intros s4 r (-> & K1 & K2 & K3). unfold after at 1. do 2 wp_step. unfold after at 1. wp_step.
  cbn [ig_snapshot disk committed]. subst s3. cbn in K1, K2, K3. split.
  - fold state. by rewrite EC, Hid.
  - rewrite Hid. apply negb_true_iff, bool_decide_eq_false, eq_None_not_Some in Hf. exact Hf.
  - rewrite K2, H3. cbn. by rewrite Hid.
  - rewrite K1, H2, Hid, Hq. done.
  - rewrite K3. exact H4.
Qed.
End Ingesting.

(** ** The tables of the watch *)

Definition price_ok (d : decimal) : Prop := nonneg d.

(** Snapshots have ordered, non-negative prices and times. *)
Record snapshot_row_ok (s : MarketSnapshot) : Prop := {
  sr_low : nonneg (ms_low_price s);
  sr_range : dleb (ms_low_price s) (ms_high_price s) = true;
  sr_last : nonneg (ms_last_price s);
  sr_volume : 0 <= ms_cumulative_volume s;
  sr_time : ms_event_at s <= ms_received_at s
}.

(** A bar lies in its minute, its prices between its low and its high. *)
Record bar_ok (key : string * string * Z) (bar : MinuteBar) : Prop := {
  br_key : (mb_market bar, mb_symbol bar, mb_bucket_start bar) = key;
  br_minute : mb_bucket_start bar mod minute = 0;
  br_low : nonneg (mb_low_price bar);
  br_open : dleb (mb_low_price bar) (mb_open_price bar) = true /\
            dleb (mb_open_price bar) (mb_high_price bar) = true;
  br_close : dleb (mb_low_price bar) (mb_close_price bar) = true /\
             dleb (mb_close_price bar) (mb_high_price bar) = true;
  br_volume : 0 <= mb_volume bar;
  br_turnover : nonneg (mb_turnover bar);
  br_events : 1 <= mb_event_count bar
}.

(** A stream shows a stored normal snapshot, with its values. *)
Definition shows_snapshot (db : DB) (state : MarketStreamState) : Prop :=
  exists id s, mss_current_snapshot_id state = Some id /\ snapshots db !! id = Some s /\
    ms_quality s = Q_NORMAL /\ ms_market s = mss_market state /\ ms_symbol s = mss_symbol state /\
    ms_source s = mss_source state /\ mss_last_event_at state = Some (ms_event_at s) /\
    mss_cumulative_volume state = Some (ms_cumulative_volume s).

Record watch_ok (db : DB) : Prop := {
  wk_id : forall k s, snapshots db !! k = Some s -> ms_id s = k;
  wk_unique : forall k1 k2 s1 s2, snapshots db !! k1 = Some s1 -> snapshots db !! k2 = Some s2 ->
    (ms_source s1, ms_market s1, ms_symbol s1, ms_sequence_or_hash s1) =
    (ms_source s2, ms_market s2, ms_symbol s2, ms_sequence_or_hash s2) -> k1 = k2;
  wk_snapshot : forall k s, snapshots db !! k = Some s -> snapshot_row_ok s;
  wk_bar : forall k bar, minute_bars db !! k = Some bar -> bar_ok k bar;
  wk_key : forall k state, streams db !! k = Some state -> (mss_market state, mss_symbol state) = k;
  wk_shows : forall k state, streams db !! k = Some state -> shows_snapshot db state
}.

(** ** One ingestion *)

Section Ingest.
Context (sha256 : string -> string).

Lemma ingest_run event s : disk s = work s ->
  wp (ingest_quote sha256 event) (fun s' r => disk s' = disk s \/
    exists hash res, r = inl res /\ _validate event = inr tt /\ stored event hash (ig_snapshot res) (disk s) (disk s') /\
      List.find (same_source_key event) (rows (snapshots (disk s))) = None) s.
Proof.
  intros Hs. unfold ingest_quote. wp_step. apply wp_of_result; [intros [] Hv|by left]. unfold after at 1.
  wp_step. apply wp_of_result; [intros hash Hh|by left]. unfold after at 1. do 2 wp_step. unfold after at 1.
  destruct (List.find _ _) as [d|] eqn:Hd.
  - wp_step. apply wp_guard_or; intros _; [|by left]. unfold after at 1. repeat wp_step. by left.
  - eapply wp_mono; [by apply store_run|]. intros s' [res|e] H; [|by left]. right. exists hash, res.
    rewrite Hs. rewrite Hs in H. done.
Qed.

Lemma not_found event (l : list MarketSnapshot) s : List.find (same_source_key event) l = None -> s ∈ l ->
  same_source_key event s = false.
Proof. intros H Hs. by apply (List.find_none _ _ H), list_elem_of_In. Qed.
End Ingest.

(** ** The invariant *)

Lemma dltb_dleb a b : dltb a b = true -> dleb a b = true.
Proof.
  rewrite dltb_negb_dleb. intros H%negb_true_iff. destruct (dleb_total a b) as [E|E]; congruence.
Qed.
Lemma dleb_dmax_l a b : dleb a (dmax a b) = true.
Proof. unfold dmax. destruct (dltb a b) eqn:E; [|apply dleb_refl]. by apply dltb_dleb. Qed.
Lemma dleb_dmax_r a b : dleb b (dmax a b) = true.
Proof.
  unfold dmax. destruct (dltb a b) eqn:E; [apply dleb_refl|].
  rewrite dltb_negb_dleb in E. by apply negb_false_iff in E.
Qed.
Lemma dmin_dleb_l a b : dleb (dmin a b) a = true.
Proof. unfold dmin. destruct (dltb b a) eqn:E; [|apply dleb_refl]. by apply dltb_dleb. Qed.
Lemma dmin_dleb_r a b : dleb (dmin a b) b = true.
Proof.
  unfold dmin. destruct (dltb b a) eqn:E; [apply dleb_refl|].
  rewrite dltb_negb_dleb in E. by apply negb_false_iff in E.
Qed.
Lemma dmin_nonneg a b : nonneg a -> nonneg b -> nonneg (dmin a b).
Proof. unfold dmin. by destruct (dltb b a). Qed.

#[local] Hint Resolve dleb_dmax_l dleb_dmax_r dmin_dleb_l dmin_dleb_r dleb_refl : core.

(** What validation guarantees. *)
Record event_ok (event : QuoteEvent) : Prop := {
  ev_last : nonneg (q_last_price event);
  ev_low : nonneg (q_low_price event);
  ev_range : dleb (q_low_price event) (q_high_price event) = true;
  ev_volume : 0 <= q_cumulative_volume event;
  ev_time : q_event_at event <= q_received_at event
}.

Lemma positive_nonneg d : dleb d dzero = false -> nonneg d.
Proof.
  intros H. destruct (dleb_total d dzero) as [E|E]; [congruence|]. by apply dleb_dzero_coef.
Qed.

Lemma validated event : _validate event = inr tt -> event_ok event.
Proof.
  unfold _validate. intros H.
  repeat (apply result_bind_inr in H as ([] & ?%reject_if_inr & H)).
  cbn [existsb zero_or_less below decimal_prices] in *. bool_to_prop.
  split; [by apply positive_nonneg|by apply positive_nonneg| |lia|lia].
  match goal with E : dltb _ _ = false |- _ => rewrite dltb_negb_dleb in E; by apply negb_false_iff in E end.
Qed.

Lemma quantized_inr k d r : quantized k d = inr r -> quantize ROUND_HALF_EVEN k d = Some r.
Proof. unfold quantized. by destruct (quantize _ k d); intros [= ->]. Qed.

Lemma quantized_nonneg k d r : nonneg d -> quantized k d = inr r -> nonneg r.
Proof. intros Hd H%quantized_inr. by eapply quantize_nonneg. Qed.

Lemma snapshot_row event id hash quality s : event_ok event ->
  snapshot_of event id hash quality = inr s -> snapshot_row_ok s.
Proof.
  intros [E1 E2 E3 E4 E5]. unfold snapshot_of. intros H.
  apply result_bind_inr in H as (last & Hl & H). apply result_bind_inr in H as (open & _ & H).
  apply result_bind_inr in H as (high & Hh & H). apply result_bind_inr in H as (low & Hw & H).
  apply result_bind_inr in H as (bid & _ & H). apply result_bind_inr in H as (ask & _ & H).
  injection H as <-. split; cbn;
    [exact (quantized_nonneg _ _ _ E2 Hw)| |exact (quantized_nonneg _ _ _ E1 Hl)|done|done].
  apply quantized_inr in Hh, Hw. by eapply quantize_mono.
Qed.

Lemma volume_delta_nonneg event volume at_ : 0 <= volume_delta event volume at_.
Proof. unfold volume_delta. destruct at_, volume; try done. destruct (_ =? _); lia. Qed.

Lemma bucket_minute t : bucket_of t mod minute = 0.
Proof. unfold bucket_of. rewrite Zminus_mod_idemp_r, Z.sub_diag. done. Qed.

Lemma traded_bars event id volume at_ bars bars' :
  event_ok event -> (forall k bar, bars !! k = Some bar -> bar_ok k bar) ->
  traded event id volume at_ bars bars' -> forall k bar, bars' !! k = Some bar -> bar_ok k bar.
Proof.
  intros HE HB [->|(price & turnover & bar & bar_id & Hp & Ht & -> & ->)] k b; [apply HB|].
  assert (Np : nonneg price) by exact (quantized_nonneg _ _ _ (ev_last _ HE) Hp).
  pose proof (volume_delta_nonneg event volume at_) as Hd.
  assert (Nt : nonneg turnover).
  { eapply quantized_nonneg; [|exact Ht]. apply dmul_nonneg; [done|by apply of_int_nonneg]. }
  intros [[<- <-]|[_ H]]%lookup_insert_Some; [|by apply HB].
  destruct (bars !! bar_key event) as [old|] eqn:E.
  - destruct (HB _ _ E) as [K M L [O1 O2] [C1 C2] V T N].
    split; cbn; [done|done|by apply dmin_nonneg| |by split| |by apply dadd_nonneg|lia].
    + split; [by eapply dleb_trans; [|exact O1]|by eapply dleb_trans; [exact O2|]].
    + lia.
  - split; cbn; [done|apply bucket_minute|done|done|done|done|done|lia].
Qed.

Lemma classify_new event : classify None event = (false, false).
Proof. unfold classify. by destruct (q_recovery_snapshot event). Qed.

(** The first event of a stream is a normal one. *)
Lemma stored_first event hash snap db db' : stored event hash snap db db' ->
  streams db !! stream_key event = None -> ms_quality snap = Q_NORMAL.
Proof.
  intros [S1 _ _ _ _] E. rewrite E, classify_new in S1. by apply snapshot_of_fields in S1 as (_ & _ & -> & _).
Qed.

Lemma shows_put db db' snap st : snapshots db !! ms_id snap = None ->
  snapshots db' = <[ms_id snap := snap]> (snapshots db) -> shows_snapshot db st -> shows_snapshot db' st.
Proof.
  intros Hf Hs (i & s & H1 & H2 & H3). exists i, s. split; [done|]. split; [|done].
  rewrite Hs, lookup_insert_ne; [done|]. intros <-. congruence.
Qed.

Lemma stored_ok event hash snap db db' : watch_ok db -> event_ok event ->
  List.find (same_source_key event) (rows (snapshots db)) = None ->
  stored event hash snap db db' -> watch_ok db'.
Proof.
  intros [W1 W2 W3 W4 W5 W6] HE Hf HS. pose proof (stored_first _ _ _ _ _ HS) as Hfirst.
  destruct HS as [S1 S2 S3 S4 S5].
  destruct (classify _ event) as [late gap]. destruct (snapshot_of_fields _ _ _ _ _ S1) as (_ & _ & Hq & Hk & Ha & Hc).
  assert (Hother : forall s, s ∈ rows (snapshots db) -> same_source_key event s = false)
    by (intros s; by apply not_found).
  unfold same_source_key in Hk. rewrite !andb_true_iff, !String.eqb_eq in Hk. destruct Hk as (((K1 & K2) & K3) & K4).
  assert (HN : forall k s, snapshots db !! k = Some s ->
    (ms_source s, ms_market s, ms_symbol s, ms_sequence_or_hash s) <>
    (ms_source snap, ms_market snap, ms_symbol snap, ms_sequence_or_hash snap)).
  { intros k s Hs [= Q1 Q2 Q3 Q4]. assert (Hin : s ∈ rows (snapshots db)) by (apply elem_of_rows; by exists k).
    specialize (Hother s Hin). unfold same_source_key in Hother.
    rewrite Q1, Q2, Q3, Q4, K1, K2, K3, K4, !String.eqb_refl in Hother. done. }
  split.
  - rewrite S3. intros k s [[<- <-]|[_ H]]%lookup_insert_Some; [done|by apply W1].
  - rewrite S3. intros k1 k2 s1 s2 H1 H2 E.
    apply lookup_insert_Some in H1 as [[<- <-]|[_ H1]], H2 as [[<- <-]|[_ H2]]; [done| | |by eapply W2].
    + by destruct (HN _ _ H2).
    + by destruct (HN _ _ H1).
  - rewrite S3. intros k s [[<- <-]|[_ H]]%lookup_insert_Some; [by eapply snapshot_row|by apply (W3 k)].
  - destruct (bool_decide _); [by eapply traded_bars|by rewrite S5].
  - rewrite S4. intros k st [[<- <-]|[_ H]]%lookup_insert_Some; [|by apply W5].
    destruct (streams db !! stream_key event) as [st|] eqn:E; cbn [default];
      destruct (ms_quality snap); cbn; try apply (W5 _ _ E); done.
  - rewrite S4. intros k st [[<- <-]|[_ H]]%lookup_insert_Some.
    + destruct (streams db !! stream_key event) as [st|] eqn:E; cbn [default].
      * pose proof (W5 _ _ E) as [= M1 M2].
        destruct (ms_quality snap) eqn:Q; cbn [advanced_stream]; [|by apply (shows_put db _ snap), (W6 _ _ E)..].
        exists (ms_id snap), snap. rewrite S3. split; [done|]. split; [apply lookup_insert_eq|].
        cbn. by rewrite Q, Ha, Hc, K1, K2, K3, M1, M2.
      * rewrite (Hfirst eq_refl). exists (ms_id snap), snap. rewrite S3. split; [done|].
        split; [apply lookup_insert_eq|]. cbn. by rewrite (Hfirst eq_refl), Ha, Hc, K1, K2, K3.
    + by apply (shows_put db _ snap), (W6 _ _ H).
Qed.

(** ** Sequences of events *)

Section Sequences.
Context (sha256 : string -> string).

(** Each event is ingested in a session of its own, whatever its outcome. *)
Inductive quotes (db : DB) : list QuoteEvent -> DB -> Prop :=
| no_quotes : quotes db [] db
| next_quote event events db' now ids :
    quotes (disk (ingest_quote sha256 event (open_session db now ids)).1) events db' ->
    quotes db (event :: events) db'.

Lemma ingest_cases event db now ids :
  let db' := disk (ingest_quote sha256 event (open_session db now ids)).1 in
  db' = db \/ exists hash snap, event_ok event /\ stored event hash snap db db' /\
    List.find (same_source_key event) (rows (snapshots db)) = None.
Proof.
  pose proof (ingest_run sha256 event (open_session db now ids) eq_refl) as H. unfold wp in H.
  destruct (ingest_quote _ _ _) as [s' r]. destruct H as [H|(hash & res & _ & Hv & H & Hf)]; [by left|].
  right. exists hash, (ig_snapshot res). split; [by apply validated|done].
Qed.

Lemma quotes_keep db events db' : quotes db events db' -> watch_ok db -> watch_ok db'.
Proof.
  induction 1 as [db|db event events db' now ids _ IH]; intros W; [done|]. apply IH.
  destruct (ingest_cases event db now ids) as [->|(hash & snap & HE & HS & Hf)]; [done|].
  by eapply stored_ok.
Qed.

(** C20: every sequence of quote events, accepted, refused or failing, keeps the
    tables of the watch consistent: an event is stored once per source key;
    snapshots have ordered, non-negative prices and were received after they
    happened; every stream shows a stored snapshot of normal quality with its
    own last time and volume; and in every minute bar the open and the close
    lie between the low and the high, with a non-negative volume and turnover.
    An event whose source key is already stored changes nothing. *)
Theorem watch_invariant db events db' : quotes db events db' -> watch_ok db ->
  watch_ok db' /\
  forall event k s now ids, snapshots db' !! k = Some s -> same_source_key event s = true ->
    disk (ingest_quote sha256 event (open_session db' now ids)).1 = db'.
Proof.
  intros H W. split; [by eapply quotes_keep|]. intros event k s now ids Hs Hk.
  destruct (ingest_cases event db' now ids) as [E|(hash & snap & _ & _ & Hf)]; [done|].
  assert (Hin : s ∈ rows (snapshots db')) by (apply elem_of_rows; by exists k).
  rewrite (not_found _ _ _ Hf Hin) in Hk. done.
Qed.

(** [b] comes after [a] on the same stream. *)
Record follows (a b : MarketStreamState) : Prop := {
  fo_source : mss_source b = mss_source a;
  fo_version : mss_version a <= mss_version b;
  fo_time : forall x, mss_last_event_at a = Some x ->
    exists y, mss_last_event_at b = Some y /\ x <= y;
  fo_volume : forall x y v, mss_last_event_at a = Some x -> mss_last_event_at b = Some y ->
    mss_cumulative_volume a = Some v -> exists w, mss_cumulative_volume b = Some w /\
      (kst_date x = kst_date y -> v <= w);
  fo_gap : mss_quality a = Q_GAP_DETECTED -> mss_quality b = Q_GAP_DETECTED /\
    mss_current_snapshot_id b = mss_current_snapshot_id a /\
    mss_last_event_at b = mss_last_event_at a
}.

Lemma follows_refl a : follows a a.
Proof. split; try done; [intros x H; by exists x|]. intros x y v H1 H2 H3. exists v. split; [done|lia]. Qed.

Lemma kst_date_mono x y : x <= y -> kst_date x <= kst_date y.
Proof. intros H. apply Z.div_le_mono; [done|lia]. Qed.

Lemma follows_trans a b c : follows a b -> follows b c -> follows a c.
Proof.
  intros [A1 A2 A3 A4 A5] [B1 B2 B3 B4 B5]. split.
  - congruence.
  - lia.
  - intros x H. destruct (A3 x H) as (y & Hy & ?). destruct (B3 y Hy) as (z & Hz & ?). exists z. split; [done|lia].
  - intros x z v Hx Hz Hv. destruct (A3 x Hx) as (y & Hy & Hxy). destruct (B3 y Hy) as (z' & Hz' & Hyz).
    assert (z' = z) as -> by congruence. destruct (A4 x y v Hx Hy Hv) as (w & Hw & Hvw).
    destruct (B4 y z w Hy Hz Hw) as (u & Hu & Hwu). exists u. split; [done|].
    pose proof (kst_date_mono _ _ Hxy). pose proof (kst_date_mono _ _ Hyz). lia.
  - intros H. destruct (A5 H) as (H1 & H2 & H3). destruct (B5 H1) as (H4 & H5 & H6).
    split; [done|]. split; congruence.
Qed.

Lemma advanced_follows a event id : q_recovery_snapshot event = false ->
  let '(late, gap) := classify (Some a) event in follows a (advanced_stream a event id (quality_of late gap)).
Proof.
  intros Hr. unfold classify. rewrite Hr. unfold quality_of.
  destruct (is_late (Some a) event) eqn:HL; [apply follows_refl|].
  destruct (_ || _) eqn:HG.
  - destruct (follows_refl a) as [_ _ A3 A4 _]. by split; cbn; try done; lia.
  - rewrite !orb_false_iff in HG. destruct HG as (((G1 & G2) & G3) & G4).
    unfold is_late in HL. apply orb_false_iff in HL as [HL _].
    split; cbn.
    + unfold source_changed in G4. rewrite Hr, andb_true_r in G4.
      apply negb_false_iff, String.eqb_eq in G4. done.
    + lia.
    + intros x Hx. rewrite Hx in HL. cbn in HL. eexists. split; [done|lia].
    + intros x y v Hx [= <-] Hv. eexists. split; [done|]. intros Hday.
      unfold volume_regression in G3. rewrite Hv, Hx in G3. cbn in G3. unfold trading_date in G3.
      rewrite <- Hday, Z.eqb_refl, andb_true_r in G3. lia.
    + intros Hq. cbn in G1. by rewrite Hq in G1.
Qed.

(** A stream only moves forward.  Without a recovery snapshot, any sequence
    of events keeps the source of a stream, never takes its last event time
    back, never lets the volume of a day decrease, and never clears a detected
    gap: from then on the stream keeps its quality, its snapshot and its time. *)
Theorem stream_only_advances db events db' k a :
  quotes db events db' -> watch_ok db -> streams db !! k = Some a ->
  (forall event, event ∈ events -> stream_key event = k -> q_recovery_snapshot event = false) ->
  exists b, streams db' !! k = Some b /\ follows a b.
Proof.
  intros H. revert a. induction H as [db|db event events db' now ids _ IH]; intros a W Ha He.
  { exists a. split; [done|apply follows_refl]. }
  assert (HE : forall e, e ∈ events -> stream_key e = k -> q_recovery_snapshot e = false)
    by (intros e Hin; apply He; by apply list_elem_of_further).
  revert IH. pose proof (ingest_cases event db now ids) as HC. revert HC. cbv zeta.
  generalize (disk (ingest_quote sha256 event (open_session db now ids)).1). intros db1 HC IH.
  destruct HC as [->|(hash & snap & Hok & HS & Hf)]; [by apply IH|].
  pose proof (stored_ok _ _ _ _ _ W Hok Hf HS) as W'. destruct HS as [S1 _ _ S4 _].
  destruct (decide (stream_key event = k)) as [<-|Hk].
  - rewrite Ha in S1, S4. cbn [default] in S4.
    pose proof (advanced_follows a event (ms_id snap) (He event (list_elem_of_here _ _) eq_refl)) as HF.
    destruct (classify (Some a) event) as [late gap].
    apply snapshot_of_fields in S1 as (_ & _ & Hq & _). rewrite <- Hq in HF.
    destruct (IH (advanced_stream a event (ms_id snap) (ms_quality snap)) W') as (b & Hb & Hab); [|done|].
    + rewrite S4. apply lookup_insert_eq.
    + exists b. split; [done|]. by eapply follows_trans.
  - apply IH; [done| |done]. by rewrite S4, lookup_insert_ne.
Qed.
End Sequences.

(** ** A concrete stream *)

Definition watch_now : Z := kst_combine (date_of 2026 3 4) (time_of 10 0 0).

(** The [n]-th second of trading, with a cumulative volume. *)
Definition demo_quote (key : string) (n volume : Z) (recovery : bool) : QuoteEvent :=
  mkQuoteEvent "005930" "KRX" "KIWOOM_WS" key (watch_now + n * second) (watch_now + (n + 1) * second) true
    (Dec 71000 0) (Dec 70800 0) (Dec 71500 0) (Dec 70500 0) volume "TRADING" None
    (Some (Dec 70900 0)) (Some 10) (Some (Dec 71000 0)) (Some 20) recovery true.

Definition demo_ids (n : Z) (i : nat) : string := String (ascii_of_nat (Z.to_nat n * 10 + i)) "-id".

Definition demo_ingest (event : QuoteEvent) (n : Z) (db : DB) : DB * option IngestOutcome :=
  let '(s, r) := ingest_quote (fun s => s) event (open_session db 0 (demo_ids n)) in
  (disk s, match r with inl res => Some (ig_outcome res) | inr _ => None end).

Definition demo_events : list QuoteEvent :=
  [demo_quote "a" 0 100 false; demo_quote "b" 1 150 false; demo_quote "c" 2 120 false;
   demo_quote "d" 3 200 false].

Fixpoint demo_feed (n : Z) (db : DB) (events : list QuoteEvent) : DB * list (option IngestOutcome) :=
  match events with
  | [] => (db, [])
  | event :: events =>
      let '(db, o) := demo_ingest event n db in
      let '(db, os) := demo_feed (n + 1) db events in (db, o :: os)
  end.

(** A volume that goes back opens a gap, which later events do not close. *)
Example demo_feed_outcomes :
  (demo_feed 1 empty_db demo_events).2 = [Some APPLIED; Some APPLIED; Some GAP_DETECTED; Some GAP_DETECTED] /\
  (demo_feed 1 empty_db (demo_events ++ [demo_quote "e" 4 210 true; demo_quote "f" 5 220 false])).2 =
    [Some APPLIED; Some APPLIED; Some GAP_DETECTED; Some GAP_DETECTED; Some RECOVERED; Some APPLIED].
Proof. vm_compute. done. Qed.

Lemma demo_feed_quotes n db events : quotes (fun s => s) db events (demo_feed n db events).1.
Proof.
  revert n db. induction events as [|e l IH]; intros n db; [apply no_quotes|].
  apply (next_quote _ _ _ _ _ 0 (demo_ids n)). cbn [demo_feed]. unfold demo_ingest.
  destruct (ingest_quote _ _ _) as [s r]. specialize (IH (n + 1) (disk s)).
  by destruct (demo_feed (n + 1) (disk s) l).
Qed.

Lemma empty_watch : watch_ok empty_db.
Proof. split; cbn; intros *; rewrite ?lookup_empty; done. Qed.

Lemma watch_invariant_witness : watch_ok (demo_feed 1 empty_db demo_events).1 /\
  disk (ingest_quote (fun s => s) (demo_quote "a" 0 100 false)
          (open_session (demo_feed 1 empty_db demo_events).1 0 (demo_ids 9))).1 =
  (demo_feed 1 empty_db demo_events).1.
Proof.
  destruct (watch_invariant (fun s => s) empty_db demo_events (demo_feed 1 empty_db demo_events).1) as [H1 H2];
    [apply demo_feed_quotes|apply empty_watch|]. split; [done|].
  destruct (snapshots (demo_feed 1 empty_db demo_events).1 !! demo_ids 1 0) as [s|] eqn:Hs;
    [|vm_compute in Hs; discriminate Hs].
  apply (H2 _ _ s _ _ Hs). vm_compute in Hs. injection Hs as <-. reflexivity.
Defined.

Lemma stream_only_advances_witness : exists a b,
  streams (demo_feed 1 empty_db (take 3 demo_events)).1 !! ("KRX", "005930") = Some a /\
  mss_quality a = Q_GAP_DETECTED /\ mss_quality b = Q_GAP_DETECTED /\ follows a b.
Proof.
  destruct (streams (demo_feed 1 empty_db (take 3 demo_events)).1 !! ("KRX", "005930")) as [a|] eqn:Ha;
    [|vm_compute in Ha; discriminate Ha].
  destruct (stream_only_advances (fun s => s) (demo_feed 1 empty_db (take 3 demo_events)).1
    [demo_quote "d" 3 200 false] (demo_feed 4 (demo_feed 1 empty_db (take 3 demo_events)).1 [demo_quote "d" 3 200 false]).1
    ("KRX", "005930") a) as (b & Hb & HF).
  - apply demo_feed_quotes.
  - apply (quotes_keep (fun s => s) empty_db (take 3 demo_events)); [apply demo_feed_quotes|apply empty_watch].
  - exact Ha.
  - intros e He _. apply list_elem_of_singleton in He as ->. reflexivity.
  - exists a, b. split; [done|]. assert (Hq : mss_quality a = Q_GAP_DETECTED).
    { vm_compute in Ha. injection Ha as <-. reflexivity. }
    split; [done|]. split; [apply (fo_gap _ _ HF Hq)|done].
Defined.
