(* ===== verification/Scheduling.v ===== *)
(** * The analysis schedule

    The slots of [analysis_scheduler.py], and the theorem that they cover the
    trading hours. *)

From Stdlib Require Import ZArith Lia Ascii String.
From stdpp Require Import base numbers strings list gmap pretty.
From S2P Require Import Prelude Json PyTime Models Session.

Open Scope Z_scope.

(** * The analysis schedule

    [analysis_scheduler.py]: the slots of the periodic analysis, every five
    minutes from 08:00 to 11:00 and every ten until 20:00 in Seoul, on weekdays;
    the request ids and the targets of a slot. *)

Record AnalysisSlot := mkAnalysisSlot {
  slot_key : string;
  start_at : Z;
  next_due_at : Z
}.

(** [candidate.weekday() >= 5]: the loop skips a weekend, two days at most. *)
Definition weekend (d : Z) : bool := 5 <=? weekday d.

Fixpoint skip_weekend (fuel : nat) (d : Z) : Z :=
  match fuel with
  | O => d
  | S fuel => if weekend d then skip_weekend fuel (d + 1) else d
  end.

Definition opening : Z := time_of 8 0 0.
Definition noon_change : Z := time_of 11 0 0.
Definition closing_time : Z := time_of 20 0 0.

Definition _next_weekday_start (now : Z) : Z :=
  let candidate := if opening <=? kst_time now then kst_date now + 1 else kst_date now in
  kst_combine (skip_weekend 2 candidate) opening.

(** [slot_local.strftime("%Y%m%dT%H%M%z")] *)
Definition slot_text (t : Z) : string :=
  let '(y, m, d) := civil (kst_date t) in
  pretty y +:+ pad2 m +:+ pad2 d +:+ "T" +:+ pad2 (kst_time t / hour) +:+
  pad2 (kst_time t mod hour / minute) +:+ "+0900".

(** The trading window, its two parts and their intervals. *)
Definition in_window (now : Z) : bool :=
  negb (weekend (kst_date now)) && (opening <=? kst_time now) && (kst_time now <? closing_time).

Definition slot_base (now : Z) : Z := if kst_time now <? noon_change then opening else noon_change.
Definition slot_interval (now : Z) : Z := if kst_time now <? noon_change then 5 else 10.

Definition slot_start (now : Z) : Z :=
  let elapsed_minutes := (kst_time now - slot_base now) / minute in
  kst_combine (kst_date now)
    (slot_base now + elapsed_minutes / slot_interval now * slot_interval now * minute).

Definition analysis_slot (now : Z) : option AnalysisSlot * Z :=
  if negb (in_window now) then (None, _next_weekday_start now)
  else
    let next := slot_start now + slot_interval now * minute in
    (Some (mkAnalysisSlot (slot_text (slot_start now)) (slot_start now) next), next).

(** ** Request ids and targets *)

Section Requests.
Context (sha256 : string -> string).

Definition MODEL_ID : string := "deterministic-mock-v2".
Definition PROMPT_VERSION : string := "mock-entry-indicators-v2".
Definition POSITION_MODEL_ID : string := "deterministic-position-v1".
Definition POSITION_PROMPT_VERSION : string := "mock-position-policy-v1".

Definition sched_digest (raw : string) : string := "sched-" +:+ substring 0 58 (sha256 raw).

Definition evaluation_request_id (user_id market symbol slot_key : string) : string :=
  sched_digest (join ":" [user_id; market; symbol; slot_key; MODEL_ID; PROMPT_VERSION]).

Definition position_evaluation_request_id (user_id market symbol slot_key : string) : string :=
  sched_digest (join ":" [user_id; market; symbol; slot_key; "POSITION"; POSITION_MODEL_ID;
                          POSITION_PROMPT_VERSION]).
End Requests.

Definition active_users (db : DB) : list User :=
  List.filter (fun u => String.eqb (u_status u) "ACTIVE") (rows (users db)).

Definition open_symbols (db : DB) : list string :=
  map p_symbol (List.filter (fun p => String.eqb (p_account_alias p) ACCOUNT_ALIAS &&
    bool_decide (p_state p = POS_OPEN) && (0 <? p_quantity p)) (rows (positions db))).

Definition watch_targets (db : DB) : list (string * string * string) :=
  omap (fun w => match users db !! wl_user_id w with
    | Some u => if String.eqb (u_status u) "ACTIVE" then Some (wl_user_id w, wl_market w, wl_symbol w)
                else None
    | None => None
    end) (rows (watchlist db)).

Definition target_le (a b : string * string * string) : bool :=
  let '(a1, a2, a3) := a in let '(b1, b2, b3) := b in
  if String.eqb a1 b1 then if String.eqb a2 b2 then String.leb a3 b3 else String.leb a2 b2
  else String.leb a1 b1.

(** The watched symbols of active users, and the open positions of the only
    active user that are not watched; a set, sorted. *)
Definition _analysis_targets (db : DB) : list (string * string * string) :=
  let watched := watch_targets db in
  let held := match active_users db with
    | [u] => map (fun symbol => (u_id u, "KRX", symbol))
               (List.filter (fun symbol => negb (bool_decide
                 ((u_id u, symbol) ∈ map (fun t => (t.1.1, t.2)) watched))) (open_symbols db))
    | _ => []
    end in
  sort_by target_le (remove_dups (watched ++ held)).

(** * The slots cover the trading hours

    The slots of [Scheduling.analysis_slot] tile the trading window: each
    instant of the window lies in one slot, which ends where the next begins,
    and outside it the next slot is at most a weekend away. *)

(** Local coordinates of an instant. *)
Lemma kst_point d tod : 0 <= tod < day ->
  kst_date (kst_combine d tod) = d /\ kst_time (kst_combine d tod) = tod.
Proof. intros. split; [by apply kst_date_combine|by apply kst_time_combine]. Qed.

Lemma kst_between d a b t : 0 <= a -> b <= day -> kst_combine d a <= t < kst_combine d b ->
  kst_date t = d /\ a <= kst_time t < b.
Proof.
  intros Ha Hb H. pose proof (kst_split t). pose proof (kst_time_range t).
  unfold kst_combine, day, hour, minute, second in *.
  assert (kst_date t = d) by nia. split; [done|]. lia.
Qed.

(** The slot of a local time of day, in microseconds. *)
Definition local_start (tod : Z) : Z :=
  let base := if tod <? noon_change then opening else noon_change in
  let interval := if tod <? noon_change then 5 else 10 in
  base + (tod - base) / minute / interval * interval * minute.

Definition local_width (tod : Z) : Z := (if tod <? noon_change then 5 else 10) * minute.

Lemma slot_start_local now : slot_start now = kst_combine (kst_date now) (local_start (kst_time now)).
Proof. done. Qed.

(** The times of day as numbers, for [lia]. *)
Ltac times :=
  change opening with 28800000000 in *; change noon_change with 39600000000 in *;
  change closing_time with 72000000000 in *; change minute with 60000000 in *.

Lemma local_slot tod : opening <= tod < closing_time ->
  opening <= local_start tod <= tod /\ tod < local_start tod + local_width tod <= closing_time /\
  (tod < noon_change -> local_start tod + local_width tod <= noon_change) /\
  (noon_change <= tod -> noon_change <= local_start tod).
Proof.
  unfold local_start, local_width. times. intros H.
  destruct (Z.ltb_spec tod 39600000000); split_and!; intros; div_lia.
Qed.

(** Minutes grouped by [i] are multiples of [i] minutes. *)
Lemma slot_grid x i : 0 < i -> x / minute / i * i * minute = x / (i * minute) * (i * minute).
Proof. intros. rewrite Z.div_div, (Z.mul_comm minute i) by done. lia. Qed.

Lemma slot_same x x' w : 0 < w -> x / w * w <= x' < x / w * w + w -> x' / w * w = x / w * w.
Proof. intros. f_equal. symmetry. apply (Z.div_unique x' w (x / w) (x' - x / w * w)); lia. Qed.

Lemma local_slot_same tod tod' : opening <= tod < closing_time ->
  local_start tod <= tod' < local_start tod + local_width tod ->
  local_start tod' = local_start tod /\ local_width tod' = local_width tod.
Proof.
  intros H H'. pose proof (local_slot tod H) as (H1 & H2 & H3 & H4).
  assert (E : (tod' <? noon_change) = (tod <? noon_change))
    by (destruct (Z.ltb_spec tod noon_change), (Z.ltb_spec tod' noon_change); lia).
  unfold local_start, local_width in *. rewrite E. split; [|done].
  destruct (tod <? noon_change); rewrite !slot_grid in * by done;
    f_equal; apply slot_same; [done|lia|done|lia].
Qed.

Lemma in_window_spec now : in_window now = true <->
  weekend (kst_date now) = false /\ opening <= kst_time now < closing_time.
Proof.
  unfold in_window. rewrite !andb_true_iff, negb_true_iff, Z.leb_le, Z.ltb_lt. tauto.
Qed.

Lemma closing_in_day : closing_time <= day.
Proof. done. Qed.

(** A slot contains the instants it is the slot of, and only them. *)
Lemma slot_of_window now : in_window now = true ->
  slot_start now <= now < slot_start now + slot_interval now * minute /\
  forall t, slot_start now <= t < slot_start now + slot_interval now * minute ->
    in_window t = true /\ slot_start t = slot_start now /\ slot_interval t = slot_interval now.
Proof.
  intros H. apply in_window_spec in H as [Hw Ht].
  pose proof (local_slot _ Ht) as (H1 & H2 & _).
  change (slot_interval now * minute) with (local_width (kst_time now)).
  rewrite slot_start_local. pose proof (kst_split now) as E.
  assert (EQ : kst_combine (kst_date now) (local_start (kst_time now)) + local_width (kst_time now)
    = kst_combine (kst_date now) (local_start (kst_time now) + local_width (kst_time now)))
    by (unfold kst_combine; lia).
  split; [rewrite EQ; clear EQ; unfold kst_combine in *; lia|].
  intros t Hs. rewrite EQ in Hs. pose proof closing_in_day.
  destruct (kst_between (kst_date now) (local_start (kst_time now))
    (local_start (kst_time now) + local_width (kst_time now)) t) as [Hd Hs'];
    [unfold opening, time_of in *; unfold hour, minute, second in *; lia|lia|done|].
  destruct (local_slot_same _ _ Ht Hs') as [E1 E2].
  split; [apply in_window_spec; rewrite Hd; split; [done|lia]|].
  rewrite slot_start_local, Hd, E1. split; [done|].
  unfold local_width in E2. unfold slot_interval, minute, second in *. lia.
Qed.

Lemma skip_weekend_spec d : weekend (skip_weekend 2 d) = false /\ d <= skip_weekend 2 d <= d + 2 /\
  (forall k, d <= k < skip_weekend 2 d -> weekend k = true).
Proof.
  unfold skip_weekend, weekend, weekday.
  destruct (Z.leb_spec 5 ((d + 3) mod 7)); [destruct (Z.leb_spec 5 ((d + 1 + 3) mod 7))|];
    (split; [apply Z.leb_gt; div_lia|split; [lia|intros k Hk; apply Z.leb_le; div_lia]]).
Qed.

(** Outside the window the next start is the first instant of the next slot. *)
Lemma next_start_spec now : in_window now = false ->
  now < _next_weekday_start now <= now + 60 * hour /\
  in_window (_next_weekday_start now) = true /\
  slot_start (_next_weekday_start now) = _next_weekday_start now /\
  (forall t, now <= t < _next_weekday_start now -> in_window t = false).
Proof.
  intros H. unfold _next_weekday_start.
  set (c := if opening <=? kst_time now then kst_date now + 1 else kst_date now).
  destruct (skip_weekend_spec c) as (Hw & Hc & Hskip). set (d := skip_weekend 2 c) in *.
  pose proof (kst_time_range now) as Hr. pose proof (kst_split now) as En.
  destruct (kst_point d opening ltac:(done)) as [Ed Et].
  assert (Hin : in_window (kst_combine d opening) = true)
    by (apply in_window_spec; rewrite Ed, Et; done).
  assert (Hfar : c <= d <= c + 2) by done.
  assert (HC : (opening <= kst_time now /\ c = kst_date now + 1) \/
               (kst_time now < opening /\ c = kst_date now))
    by (unfold c; destruct (Z.leb_spec opening (kst_time now)); [left|right]; done).
  assert (HD : kst_time now < closing_time -> opening <= kst_time now -> weekend (kst_date now) = true).
  { intros. destruct (weekend (kst_date now)) eqn:E; [done|].
    enough (in_window now = true) by congruence. by apply in_window_spec. }
  assert (Hclose : closing_time = 20 * hour) by done. assert (Hopen : opening = 8 * hour) by done.
  assert (Hday : day = 24 * hour) by done. assert (Hh : 0 < hour) by done.
  split_and!.
  - rewrite En at 1. unfold kst_combine. nia.
  - rewrite En. unfold kst_combine.
    assert (HS : opening <= kst_time now < closing_time -> d <= kst_date now + 2).
    { intros [Ho Hl]. specialize (HD Hl Ho). destruct HC as [[_ E]|[? _]]; [|lia].
      destruct (Z.le_gt_cases d (kst_date now + 2)); [done|].
      pose proof (Hskip (kst_date now + 1) ltac:(lia)) as W1.
      pose proof (Hskip (kst_date now + 2) ltac:(lia)) as W2.
      unfold weekend, weekday in *. rewrite Z.leb_le in *. div_lia. }
    destruct HC as [[Ho Ec]|[Ho Ec]]; [|nia].
    destruct (Z.lt_ge_cases (kst_time now) closing_time) as [Hl|Hl]; [|nia].
    specialize (HS (conj Ho Hl)). nia.
  - done.
  - rewrite slot_start_local, Ed, Et. done.
  - intros t [Ht1 Ht2]. destruct (in_window t) eqn:E; [|done].
    apply in_window_spec in E as [Ew Etod]. pose proof (kst_split t) as Es. pose proof (kst_time_range t).
    rewrite Es in Ht2. unfold kst_combine in Ht2.
    assert (kst_date t < d) by nia.
    destruct (Z.lt_ge_cases (kst_date t) c) as [Hlt|Hge];
      [|rewrite Hskip in Ew; [done|lia]].
    rewrite En, Es in Ht1. unfold kst_combine in Ht1.
    destruct HC as [[Ho Ec]|[Ho Ec]]; [|nia].
    assert (kst_date t = kst_date now) as Edt by nia.
    rewrite Edt in *. rewrite HD in Ew; [done|nia|done].
Qed.

(** ** Slot keys *)

Lemma length_append (a b : string) :
  String.length (a +:+ b) = (String.length a + String.length b)%nat.
Proof. induction a as [|c a IH]; [done|]. by apply (f_equal S). Qed.

Lemma append_inj_tail a b x y : String.length x = String.length y ->
  a +:+ x = b +:+ y -> a = b /\ x = y.
Proof.
  revert b. induction a as [|c a IH]; intros [|c' b] L.
  - intros E. by change (x = y) in E.
  - intros E. change (x = String c' (b +:+ y)) in E. rewrite E in L. cbn in L.
    rewrite length_append in L. lia.
  - intros E. change (String c (a +:+ x) = y) in E. rewrite <- E in L. cbn in L.
    rewrite length_append in L. lia.
  - intros E. change (String c (a +:+ x) = String c' (b +:+ y)) in E. injection E as -> E.
    destruct (IH b L E) as [-> ->]. done.
Qed.

(** Two-digit fields are two characters and determine their number. *)
Lemma pad2_check : forallb (fun n => (String.length (pad2 n) =? 2)%nat &&
  forallb (fun k => (k =? n) || negb (String.eqb (pad2 k) (pad2 n))) (seqZ 0 100)) (seqZ 0 100) = true.
Proof. vm_compute. done. Qed.

Lemma pad2_spec n k : 0 <= n < 100 -> 0 <= k < 100 ->
  String.length (pad2 n) = 2%nat /\ (pad2 k = pad2 n -> k = n).
Proof.
  intros Hn Hk. pose proof pad2_check as H. rewrite forallb_forall in H.
  specialize (H n ltac:(apply list_elem_of_In, elem_of_seqZ; lia)).
  apply andb_true_iff in H as [H1 H2]. apply Nat.eqb_eq in H1. split; [done|]. intros E.
  rewrite forallb_forall in H2. specialize (H2 k ltac:(apply list_elem_of_In, elem_of_seqZ; lia)).
  rewrite E, String.eqb_refl, orb_false_r in H2. by apply Z.eqb_eq.
Qed.

(** A slot key names the minute of its start. *)
Lemma slot_text_inj t t' : t mod minute = 0 -> t' mod minute = 0 ->
  slot_text t = slot_text t' -> t = t'.
Proof.
  intros Hm Hm'. unfold slot_text.
  pose proof (civil_roundtrip (kst_date t)) as C. pose proof (civil_roundtrip (kst_date t')) as C'.
  destruct (civil (kst_date t)) as [[y m] d], (civil (kst_date t')) as [[y' m'] d'].
  destruct C as (C & ? & ?), C' as (C' & ? & ?).
  pose proof (kst_time_range t) as R. pose proof (kst_time_range t') as R'.
  set (tod := kst_time t) in *. set (tod' := kst_time t') in *.
  assert (HR : 0 <= tod / hour < 100 /\ 0 <= tod' / hour < 100 /\
    0 <= tod mod hour / minute < 100 /\ 0 <= tod' mod hour / minute < 100).
  { change day with 86400000000 in *. change hour with 3600000000. change minute with 60000000.
    split_and!; div_lia. }
  destruct HR as (? & ? & ? & ?).
  assert (P : forall n k, 0 <= n < 100 -> 0 <= k < 100 -> String.length (pad2 n) = String.length (pad2 k)).
  { intros n k Hn Hk. rewrite (proj1 (pad2_spec n k Hn Hk)), (proj1 (pad2_spec k n Hk Hn)). done. }
  intros E.
  apply append_inj_tail in E as [Ey E]; [|rewrite !length_append, !(P m m'), !(P d d'),
    !(P (tod / hour) (tod' / hour)), !(P (tod mod hour / minute) (tod' mod hour / minute)) by lia; done].
  apply append_inj_tail in E as [Em E]; [|rewrite !length_append, !(P d d'),
    !(P (tod / hour) (tod' / hour)), !(P (tod mod hour / minute) (tod' mod hour / minute)) by lia; done].
  apply append_inj_tail in E as [Ed E]; [|rewrite !length_append,
    !(P (tod / hour) (tod' / hour)), !(P (tod mod hour / minute) (tod' mod hour / minute)) by lia; done].
  apply append_inj_tail in E as [_ E]; [|rewrite !length_append,
    !(P (tod / hour) (tod' / hour)), !(P (tod mod hour / minute) (tod' mod hour / minute)) by lia; done].
  apply append_inj_tail in E as [Eh E]; [|rewrite !length_append,
    !(P (tod mod hour / minute) (tod' mod hour / minute)) by lia; done].
  apply append_inj_tail in E as [En _]; [|done].
  apply pad2_spec in Em; [|lia..]. apply pad2_spec in Ed; [|lia..].
  apply pad2_spec in Eh; [|lia..]. apply pad2_spec in En; [|lia..].
  assert (y = y') as -> by (by apply (inj pretty)). subst m' d'.
  assert (ED : kst_date t = kst_date t') by congruence.
  rewrite (kst_split t), (kst_split t'), ED. unfold kst_combine. f_equal. f_equal.
  fold tod tod'.
  assert (Hmt : tod mod minute = 0 /\ tod' mod minute = 0).
  { unfold tod, tod', kst_time. change day with 86400000000. change kst_offset with 32400000000.
    change minute with 60000000 in *. clear -Hm Hm'. split; div_lia. }
  destruct Hmt as [M M']. change hour with 3600000000 in *. change minute with 60000000 in *.
  clear -M M' Eh En. div_lia.
Qed.

Lemma analysis_slot_open now : in_window now = true -> analysis_slot now =
  (Some (mkAnalysisSlot (slot_text (slot_start now)) (slot_start now)
     (slot_start now + slot_interval now * minute)), slot_start now + slot_interval now * minute).
Proof. unfold analysis_slot. by intros ->. Qed.

Lemma analysis_slot_closed now : in_window now = false ->
  analysis_slot now = (None, _next_weekday_start now).
Proof. unfold analysis_slot. by intros ->. Qed.

Lemma slot_start_minute now : slot_start now mod minute = 0.
Proof.
  unfold slot_start.
  generalize ((kst_time now - slot_base now) / minute / slot_interval now * slot_interval now).
  intros q. unfold slot_base, kst_combine.
  change day with (1440 * minute). change kst_offset with (540 * minute).
  change opening with (480 * minute). change noon_change with (660 * minute).
  destruct (kst_time now <? 660 * minute).
  - rewrite <- (Z.mod_mul (kst_date now * 1440 + 480 + q - 540) minute) by done. f_equal. ring.
  - rewrite <- (Z.mod_mul (kst_date now * 1440 + 660 + q - 540) minute) by done. f_equal. ring.
Qed.

(** Until the next start the closed market points at the same start. *)
Lemma next_start_stable now t : in_window now = false -> now <= t < _next_weekday_start now ->
  _next_weekday_start t = _next_weekday_start now.
Proof.
  intros H Ht. destruct (next_start_spec now H) as (_ & Hin & _ & Hout).
  destruct (next_start_spec t (Hout t Ht)) as (Hlt & Hin' & _ & Hout').
  destruct (Z.lt_trichotomy (_next_weekday_start t) (_next_weekday_start now)) as [L|[E|L]]; [|done|].
  - rewrite Hout in Hin' by lia. done.
  - rewrite Hout' in Hin by lia. done.
Qed.

(** A slot key belongs to one slot. *)
Lemma slot_key_unique t t' s s' : (analysis_slot t).1 = Some s -> (analysis_slot t').1 = Some s' ->
  slot_key s = slot_key s' -> s = s'.
Proof.
  destruct (in_window t) eqn:W, (in_window t') eqn:W';
    rewrite ?(analysis_slot_open t W), ?(analysis_slot_open t' W'), ?(analysis_slot_closed t W),
      ?(analysis_slot_closed t' W'); cbn [fst]; try done.
  intros [= <-] [= <-]; cbn [slot_key]. intros E.
  apply slot_text_inj in E; [|apply slot_start_minute..].
  destruct (slot_of_window t W) as [[L L'] HS], (slot_of_window t' W') as [[R R'] HS'].
  destruct (HS (slot_start t)) as (_ & _ & I1); [lia|].
  destruct (HS' (slot_start t')) as (_ & _ & I2); [lia|].
  rewrite E in I1. rewrite I1 in I2. rewrite E, I2. done.
Qed.

(** C21: The analysis schedule never stalls.  In the trading hours (Seoul, on
    weekdays from 08:00 to 20:00) each instant lies in exactly one slot of five
    or ten minutes, which names the same slot throughout, ends where it says the
    next is due, and has a key no other slot has; outside them the same next
    start is announced throughout, at most sixty hours ahead, and a slot begins
    at exactly that instant. *)
Theorem schedule_is_live now :
  match analysis_slot now with
  | (Some s, next) => start_at s <= now < next /\ next_due_at s = next /\
      (next - start_at s = 5 * minute \/ next - start_at s = 10 * minute) /\
      (forall t, start_at s <= t < next -> analysis_slot t = (Some s, next)) /\
      (forall t s', (analysis_slot t).1 = Some s' -> slot_key s' = slot_key s -> s' = s)
  | (None, next) => now < next <= now + 60 * hour /\
      (forall t, now <= t < next -> analysis_slot t = (None, next)) /\
      exists s, analysis_slot next = (Some s, next_due_at s) /\ start_at s = next
  end.
Proof.
  destruct (in_window now) eqn:W.
  - destruct (slot_of_window now W) as [H HS]. rewrite (analysis_slot_open now W). cbn.
    split_and!; try done; [lia|lia| | |].
    + unfold slot_interval. destruct (_ <? _); lia.
    + intros t Ht. destruct (HS t Ht) as (Wt & E1 & E2). by rewrite (analysis_slot_open t Wt), E1, E2.
    + intros t s' Es Ek. apply (slot_key_unique t now _ _ Es); [|done].
      by rewrite (analysis_slot_open now W).
  - destruct (next_start_spec now W) as (H & Hin & E & Hout). rewrite (analysis_slot_closed now W).
    split; [done|split].
    + intros t Ht. rewrite (analysis_slot_closed t (Hout t Ht)). by rewrite (next_start_stable now t W Ht).
    + pose proof (analysis_slot_open _ Hin) as O. rewrite E in O.
      eexists (mkAnalysisSlot _ _ _). split; [exact O|reflexivity].
Qed.

(** Tuesday 2026-08-11: slots around 11:00, the close, and the next Friday. *)
Example slots_of_a_day :
  let at_time d h m := kst_combine d (time_of h m 0) in
  map (fun t => let '(s, next) := analysis_slot t in (option_map slot_key s, next))
    [at_time 20676 10 59; at_time 20676 11 0; at_time 20676 19 59; at_time 20676 7 59; at_time 20679 20 0] =
  [(Some "20260811T1055+0900", at_time 20676 11 0); (Some "20260811T1100+0900", at_time 20676 11 10);
   (Some "20260811T1950+0900", at_time 20676 20 0); (None, at_time 20676 8 0); (None, at_time 20682 8 0)].
Proof. vm_compute. done. Qed.
