(* ===== verification/PyText.v ===== *)
(** * Python text and dictionaries

    The string methods the code uses and its insertion-ordered dictionaries, then
    the cutting of a text into parts, with the lemmas that nothing is lost. *)

Set Warnings "-register-all".

From Stdlib Require Import ZArith Lia Ascii String.
From stdpp Require Import base numbers strings list pretty.
From S2P Require Import Prelude Decimal Json DecimalText.

Open Scope Z_scope.

(** * Python text and dictionaries

    The string methods ([int(text)], [zfill], [replace], slices, [in]) and the
    insertion-ordered dictionaries the code reads broker replies with, on ASCII
    text. *)

(** ** Integers *)

(** Digits with single underscores between them. *)
Fixpoint int_digits (acc : Z) (after_digit : bool) (s : string) : option Z :=
  match s with
  | EmptyString => if after_digit then Some acc else None
  | String c r =>
      if is_digit c then int_digits (acc * 10 + digit_value c) true r
      else if Ascii.eqb c "_" && after_digit then int_digits acc false r
      else None
  end.

(** [int(text)]; [None] is [ValueError]. *)
Definition py_int (text : string) : option Z :=
  let '(negative, s) := read_sign (strip text) in
  signed negative <$> int_digits 0 false s.

Example py_ints :
  map py_int ["12"; " -7 "; "+1_000"; "007"; "_1"; "1__0"; "1_"; "1.0"; "None"; ""]
  = [Some 12; Some (-7); Some 1000; Some 7; None; None; None; None; None; None].
Proof. vm_compute. reflexivity. Qed.

(** ** Strings *)

(** [s.replace(c, "")] for one character. *)
Fixpoint remove_char (c : ascii) (s : string) : string :=
  match s with
  | EmptyString => EmptyString
  | String d r => if Ascii.eqb c d then remove_char c r else String d (remove_char c r)
  end.

(** [s[a:b]] for [0 <= a <= b]. *)
Definition slice (a b : nat) (s : string) : string := substring a (b - a) s.

(** [s[-n:]] *)
Definition last_chars (n : nat) (s : string) : string :=
  substring (String.length s - n) n s.

(** [s.zfill(n)]: the zeros go after a sign. *)
Definition zfill (n : nat) (s : string) : string :=
  let fill := zeros (n - String.length s) in
  match s with
  | String c r => if Ascii.eqb c "+" || Ascii.eqb c "-" then String c (fill +:+ r)
                  else fill +:+ s
  | EmptyString => fill
  end.

(** [t in s] *)
Fixpoint contains (t s : string) : bool :=
  String.prefix t s ||
  match s with EmptyString => false | String _ r => contains t r end.

Example strings_cut :
  (zfill 6 "90000", zfill 4 "-7", last_chars 6 "1090000", slice 2 4 "093015",
   remove_char "," "1,234,567", contains "bc" "abcd")
  = ("090000", "-007", "090000", "30", "1234567", true).
Proof. vm_compute. reflexivity. Qed.

(** ** Values of a reply *)

(** [bool(value)] *)
Definition truthy (v : json) : bool :=
  match v with
  | JNull => false
  | JBool b => b
  | JInt n => negb (n =? 0)
  | JNum repr => match decimal_of_text repr with
                 | Some (Finite d) => negb (coef d =? 0) | _ => true end
  | JStr s => negb (String.eqb s EmptyString)
  | JList l => match l with [] => false | _ => true end
  | JObj l => match l with [] => false | _ => true end
  end.

(** [str(value)]; a list or an object prints as text in brackets, of which only
    the brackets matter to the code. *)
Definition py_str (v : json) : string :=
  match v with
  | JNull => "None"
  | JBool b => if b then "True" else "False"
  | JInt n => pretty n
  | JNum repr => repr
  | JStr s => s
  | JList _ => "[]"
  | JObj _ => "{}"
  end.

(** [int(value)]; [None] is an exception. *)
Definition int_of_json (v : json) : option Z :=
  match v with
  | JInt n => Some n
  | JBool b => Some (if b then 1 else 0)
  | JNum repr => match decimal_of_text repr with
                 | Some (Finite d) => Some (to_int ROUND_DOWN d) | _ => None end
  | JStr s => py_int s
  | _ => None
  end.

(** [str(value or "")] *)
Definition str_or_empty (v : json) : string := if truthy v then py_str v else EmptyString.

(** [payload.get(key)] on an object *)
Definition get_or (default : json) (key : string) (payload : json) : json :=
  match jget key payload with Some v => v | None => default end.
Definition get_field (key : string) (payload : json) : json := get_or JNull key payload.

(** [isinstance(v, dict)] *)
Definition is_dict (v : json) : bool := match v with JObj _ => true | _ => false end.

(** [value == n] for a JSON value. *)
Definition is_int (n : Z) (v : json) : bool :=
  match v with
  | JInt m => n =? m
  | JBool b => n =? (if b then 1 else 0)
  | JNum repr => match decimal_of_text repr with Some (Finite d) => deqb d (of_int n) | _ => false end
  | _ => false
  end.

(** ** Dictionaries, in insertion order *)

Definition dict_get {A} (k : string) (d : list (string * A)) : option A := assoc k d.

(** [d[k] = v]: in place when the key is known, at the end otherwise. *)
Fixpoint dict_set {A} (k : string) (v : A) (d : list (string * A)) : list (string * A) :=
  match d with
  | [] => [(k, v)]
  | (k', v') :: d => if String.eqb k k' then (k', v) :: d else (k', v') :: dict_set k v d
  end.

(** [{key(x): x for x in l}] *)
Definition dict_of {A} (key : A -> string) (l : list A) : list (string * A) :=
  foldl (fun d x => dict_set (key x) x d) [] l.

(** [d[k] += n] on a [defaultdict(int)] or a [Counter]. *)
Definition dict_add (k : string) (n : Z) (d : list (string * Z)) : list (string * Z) :=
  dict_set k (default 0 (dict_get k d) + n) d.

Section Dicts.
Context {A : Type}.
Implicit Types (d : list (string * A)) (k : string).

Lemma dict_get_set k v d k' :
  dict_get k' (dict_set k v d) = if String.eqb k' k then Some v else dict_get k' d.
Proof.
  unfold dict_get. induction d as [|[a b] d IH]; simpl; [by destruct (String.eqb k' k)|].
  destruct (String.eqb_spec k a) as [->|Hne]; simpl.
  - by destruct (String.eqb k' a).
  - rewrite IH. destruct (String.eqb_spec k' a) as [->|]; [|done].
    by rewrite (proj2 (String.eqb_neq _ _)).
Qed.

Lemma dict_keys_set k v d :
  (dict_set k v d).*1 = if bool_decide (k ∈ d.*1) then d.*1 else d.*1 ++ [k].
Proof.
  induction d as [|[a b] d IH]; [done|]. cbn [dict_set].
  destruct (String.eqb_spec k a) as [->|Hne]; rewrite !fmap_cons; cbn [fst].
  - rewrite bool_decide_eq_true_2; [done|]. apply list_elem_of_here.
  - rewrite IH. destruct (decide (k ∈ d.*1)) as [Hin|Hn].
    + rewrite !bool_decide_eq_true_2; [done| |done]. by apply list_elem_of_further.
    + rewrite !bool_decide_eq_false_2; [done| |done]. by intros [|]%elem_of_cons.
Qed.

Lemma dict_set_nodup k v d : NoDup d.*1 -> NoDup (dict_set k v d).*1.
Proof.
  intros H. rewrite dict_keys_set. case_bool_decide as Hk; [done|].
  apply NoDup_app. split; [done|]. split; [|apply NoDup_singleton].
  intros x Hx ->%list_elem_of_singleton. done.
Qed.

Lemma dict_get_Some_elem k v d : dict_get k d = Some v -> (k, v) ∈ d.
Proof.
  unfold dict_get. induction d as [|[a b] d IH]; simpl; [done|].
  destruct (String.eqb_spec k a) as [->|]; [intros [= ->]; apply list_elem_of_here|].
  intros H. apply list_elem_of_further. by apply IH.
Qed.

Lemma dict_elem_get k v d : NoDup d.*1 -> (k, v) ∈ d -> dict_get k d = Some v.
Proof.
  unfold dict_get. induction d as [|[a b] d IH]; simpl; [by intros _ H%elem_of_nil|].
  intros [Hn Hd]%NoDup_cons [E|Hin]%elem_of_cons.
  { injection E as <- <-. by rewrite String.eqb_refl. }
  destruct (String.eqb_spec k a) as [->|]; [|by apply IH].
  destruct Hn. apply list_elem_of_fmap. by exists (a, v).
Qed.

Lemma dict_get_None k d : dict_get k d = None <-> k ∉ d.*1.
Proof.
  unfold dict_get. induction d as [|[a b] d IH]; simpl.
  - split; [|done]. by intros _ H%elem_of_nil.
  - destruct (String.eqb_spec k a) as [->|Hne].
    + split; [done|]. intros H. destruct H. apply list_elem_of_here.
    + rewrite IH, not_elem_of_cons. split; [intros H; by split|by intros [_ H]].
Qed.

Lemma dict_of_nodup (key : A -> string) l : NoDup (dict_of key l).*1.
Proof.
  unfold dict_of. assert (H : NoDup (@nil (string * A)).*1) by apply NoDup_nil_2.
  revert H. generalize (@nil (string * A)). induction l as [|x l IH]; intros d H; simpl; [done|].
  apply IH. by apply dict_set_nodup.
Qed.

(** Looking up a dictionary built from rows whose keys differ. *)
Lemma dict_of_get (key : A -> string) l k :
  dict_get k (dict_of key l) = last (List.filter (fun x => String.eqb (key x) k) l).
Proof.
  unfold dict_of.
  cut (forall d, dict_get k (foldl (fun d x => dict_set (key x) x d) d l) =
         match last (List.filter (fun x => String.eqb (key x) k) l) with
         | Some x => Some x | None => dict_get k d end).
  { intros ->. by destruct (last _). }
  induction l as [|x l IH]; intros d; simpl; [done|]. rewrite IH, dict_get_set.
  destruct (String.eqb_spec (key x) k) as [->|Hne].
  - rewrite String.eqb_refl.
    destruct (List.filter (fun x0 => String.eqb (key x0) k) l) as [|y l']; [done|].
    rewrite last_cons_cons. destruct (last (y :: l')) eqn:E; [done|].
    by apply last_None in E.
  - by rewrite (proj2 (String.eqb_neq k (key x))) by done.
Qed.
End Dicts.

(** The totals of a fold of [dict_add]. *)
Lemma dict_add_get k n d k' :
  default 0 (dict_get k' (dict_add k n d)) =
  default 0 (dict_get k' d) + if String.eqb k' k then n else 0.
Proof.
  unfold dict_add. rewrite dict_get_set. destruct (String.eqb_spec k' k) as [->|]; simpl; lia.
Qed.

Lemma dict_totals {B} (key : B -> string) (amount : B -> Z) l d k :
  default 0 (dict_get k (foldl (fun d x => dict_add (key x) (amount x) d) d l)) =
  default 0 (dict_get k d) + zsum (fun x => if String.eqb (key x) k then amount x else 0) l.
Proof.
  revert d. induction l as [|x l IH]; intros d; [simpl; lia|].
  cbn [foldl]. rewrite IH, dict_add_get. unfold zsum at 2. cbn [foldr].
  rewrite (String.eqb_sym k (key x)). fold (zsum (fun x => if String.eqb (key x) k then amount x else 0) l).
  lia.
Qed.

(** * Parts of a text

    [split], [partition], [rpartition], [strip] of given characters and the
    reading of hexadecimal digits, on ASCII text. *)

(** [s.split(c)] *)
Fixpoint split_on (c : ascii) (s : string) : list string :=
  match s with
  | EmptyString => [EmptyString]
  | String d r =>
      if Ascii.eqb d c then EmptyString :: split_on c r
      else match split_on c r with
           | item :: items => String d item :: items
           | [] => [String d EmptyString]
           end
  end.

(** [s.partition(c)]: before, whether it was found, after. *)
Fixpoint partition_on (c : ascii) (s : string) : string * bool * string :=
  match s with
  | EmptyString => (EmptyString, false, EmptyString)
  | String d r =>
      if Ascii.eqb d c then (EmptyString, true, r)
      else let '(before, found, after) := partition_on c r in (String d before, found, after)
  end.

(** [s.rpartition(c)]: without [c] the whole text comes last. *)
Fixpoint rpartition_on (c : ascii) (s : string) : string * bool * string :=
  match s with
  | EmptyString => (EmptyString, false, EmptyString)
  | String d r =>
      let '(before, found, after) := rpartition_on c r in
      if found then (String d before, true, after)
      else if Ascii.eqb d c then (EmptyString, true, r)
      else (EmptyString, false, s)
  end.

Definition has_char (c : ascii) (s : string) : bool := negb (all_chars (fun d => negb (Ascii.eqb d c)) s).

(** [s.rstrip(chars)], [s.lstrip(chars)] *)
Fixpoint rstrip_chars (l : list ascii) (s : string) : string :=
  match s with
  | EmptyString => EmptyString
  | String c s' =>
      match rstrip_chars l s' with
      | EmptyString => if bool_decide (c ∈ l) then EmptyString else String c EmptyString
      | r => String c r
      end
  end.

Fixpoint lstrip_chars (l : list ascii) (s : string) : string :=
  match s with
  | EmptyString => EmptyString
  | String c s' => if bool_decide (c ∈ l) then lstrip_chars l s' else s
  end.

(** [s.endswith(suffix)] *)
Definition ends_with (suffix s : string) : bool :=
  String.eqb (last_chars (String.length suffix) s) suffix && Nat.leb (String.length suffix) (String.length s).

(** The text up to the first of some characters, and the rest with it. *)
Fixpoint break_at (stop : ascii -> bool) (s : string) : string * string :=
  match s with
  | EmptyString => (EmptyString, EmptyString)
  | String c r => if stop c then (EmptyString, s)
                  else let '(before, rest) := break_at stop r in (String c before, rest)
  end.

(** [s.lower()], [s.casefold()] on ASCII text. *)
Definition lower_char (c : ascii) : ascii :=
  let n := nat_of_ascii c in
  if Nat.leb 65 n && Nat.leb n 90 then ascii_of_nat (n + 32) else c.

Fixpoint lower (s : string) : string :=
  match s with EmptyString => EmptyString | String c s => String (lower_char c) (lower s) end.

(** [s.replace(old, new)] for a non-empty [old]; the fuel is the length. *)
Fixpoint replace_from (fuel : nat) (old new s : string) : string :=
  match fuel, s with
  | S fuel, String c r =>
      if String.prefix old s
      then new +:+ replace_from fuel old new (substring (String.length old) (String.length s) s)
      else String c (replace_from fuel old new r)
  | _, _ => EmptyString
  end.

Definition replace (old new s : string) : string := replace_from (String.length s) old new s.

(** [s.removeprefix(p)] *)
Definition remove_prefix (p s : string) : string :=
  if String.prefix p s then substring (String.length p) (String.length s) s else s.

Example texts_edited :
  (replace "{id}" "x" "/a/{id}/{id}", remove_prefix "models/" "models/gemini", lower "Z.ai GLM")
  = ("/a/x/x", "gemini", "z.ai glm").
Proof. vm_compute. reflexivity. Qed.

(** [int(text, 16)] of hexadecimal digits, [int(text)] of decimal ones. *)
Definition hex_value (c : ascii) : option Z :=
  let n := Z.of_nat (nat_of_ascii c) in
  if is_digit c then Some (n - 48)
  else if (97 <=? n) && (n <=? 102) then Some (n - 87)
  else if (65 <=? n) && (n <=? 70) then Some (n - 55)
  else None.

Fixpoint read_base (base : Z) (digit : ascii -> option Z) (acc : Z) (s : string) : option Z :=
  match s with
  | EmptyString => Some acc
  | String c r => d ← digit c; read_base base digit (acc * base + d) r
  end.

Definition read_hex (s : string) : option Z :=
  if String.eqb s EmptyString then None else read_base 16 hex_value 0 s.
Definition read_decimal (s : string) : option Z :=
  if String.eqb s EmptyString then None
  else read_base 10 (fun c => if is_digit c then Some (digit_value c) else None) 0 s.

Example parts :
  (split_on ":" "a::b", partition_on ":" "u:p:q", rpartition_on "@" "a@b@c", rpartition_on "@" "abc",
   rstrip_chars ["/"%char] "/a//", read_hex "fF", read_decimal "250", ends_with ".local" "printer.local")
  = (["a"; ""; "b"], ("u", true, "p:q"), ("a@b", true, "c"), ("", false, "abc"),
     "/a", Some 255, Some 250, true).
Proof. vm_compute. reflexivity. Qed.

(** ** Cutting loses nothing *)

Lemma string_cons_app c s t : String c s +:+ t = String c (s +:+ t).
Proof. done. Qed.

Lemma split_on_cons c s : exists item items, split_on c s = item :: items.
Proof.
  destruct s as [|d r]; cbn; [eauto|]. destruct (Ascii.eqb d c); [eauto|].
  destruct (split_on c r); eauto.
Qed.

Lemma join_split c s : join (String c EmptyString) (split_on c s) = s.
Proof.
  induction s as [|d r IH]; [done|]. cbn [split_on]. destruct (split_on_cons c r) as (item & items & E).
  destruct (Ascii.eqb_spec d c) as [->|Hd]; rewrite E in *.
  - change (String c EmptyString +:+ join (String c EmptyString) (item :: items) = String c r). by rewrite IH.
  - destruct items; cbn [join] in *; by rewrite <- IH.
Qed.

Lemma partition_on_spec c s before found after :
  partition_on c s = (before, found, after) ->
  s = before +:+ (if found then String c after else EmptyString) /\ has_char c before = false /\
  (found = false -> after = EmptyString).
Proof.
  revert before found after. induction s as [|d r IH]; intros before found after; cbn.
  - by intros [= <- <- <-].
  - destruct (Ascii.eqb_spec d c) as [->|Hd]; [by intros [= <- <- <-]|].
    destruct (partition_on c r) as [[b f] a] eqn:E. intros [= <- <- <-].
    destruct (IH _ _ _ eq_refl) as (-> & Hb & Ha). split_and!; [done| |done].
    unfold has_char in *. cbn. apply Ascii.eqb_neq in Hd. by rewrite Hd.
Qed.

Lemma break_at_spec stop s before rest :
  break_at stop s = (before, rest) -> s = before +:+ rest /\ all_chars (fun c => negb (stop c)) before = true.
Proof.
  revert before rest. induction s as [|c r IH]; intros before rest; cbn; [by intros [= <- <-]|].
  destruct (stop c) eqn:E; [by intros [= <- <-]|]. destruct (break_at stop r) as [b a] eqn:Eb.
  intros [= <- <-]. destruct (IH _ _ eq_refl) as [-> Hb]. split; [done|]. cbn. by rewrite E, Hb.
Qed.

Lemma split_on_whole c s : has_char c s = false -> split_on c s = [s].
Proof.
  unfold has_char. rewrite negb_false_iff. induction s as [|d r IH]; [done|]. cbn.
  rewrite andb_true_iff, negb_true_iff. intros [-> Hr]. by rewrite IH.
Qed.

Lemma split_on_app c s t : has_char c s = false -> split_on c (s +:+ String c t) = s :: split_on c t.
Proof.
  unfold has_char. rewrite negb_false_iff. induction s as [|d r IH]; intros H.
  - change (split_on c (String c t) = EmptyString :: split_on c t). cbn. by rewrite Ascii.eqb_refl.
  - cbn in H. rewrite andb_true_iff, negb_true_iff in H. destruct H as [Hd Hr].
    change (String d r +:+ String c t) with (String d (r +:+ String c t)). cbn [split_on]. by rewrite Hd, IH.
Qed.

Lemma substring_all t n : (String.length t <= n)%nat -> substring 0 n t = t.
Proof.
  revert n. induction t as [|c t IH]; intros [|n] H; cbn in *; try done; [lia|].
  by rewrite IH by lia.
Qed.
