(* ===== verification/Urls.v ===== *)
(** * Internet addresses and URLs

    [ipaddress] and [urllib.parse] of the Python standard library, as far as the
    code reads addresses and URLs. *)

Set Warnings "-register-all".

From Stdlib Require Import ZArith Lia Ascii String.
From stdpp Require Import base numbers strings list pretty.
From S2P Require Import Prelude Decimal Json DecimalText PyText.

Open Scope Z_scope.

(** * Internet addresses

    [ipaddress.ip_address] of the standard library (Python 3.12) and the
    properties of an address the code asks for: the text of an address of
    either version, and the special-purpose networks. *)

Inductive ip :=
| IPv4 (n : Z)
| IPv6 (n : Z).

(** ** Reading *)

Fixpoint all_some {A} (l : list (option A)) : option (list A) :=
  match l with
  | [] => Some []
  | Some a :: l => rest ← all_some l; Some (a :: rest)
  | None :: _ => None
  end.

Definition in_base (base : Z) (digits : list Z) : Z := foldl (fun n d => n * base + d) 0 digits.

(** No more than three digits, no leading zero, at most 255. *)
Definition _parse_octet (s : string) : option Z :=
  n ← read_decimal s;
  if Nat.ltb 3 (String.length s) || (String.prefix "0" s && negb (String.eqb s "0")) || (255 <? n)
  then None else Some n.

Definition ipv4_of (s : string) : option Z :=
  octets ← all_some (map _parse_octet (split_on "." s));
  if Nat.eqb (length octets) 4 then Some (in_base 256 octets) else None.

Definition _parse_hextet (s : string) : option Z :=
  if Nat.ltb 4 (String.length s) then None else read_hex s.

(** The hextets, with those of a suffix in the notation of version 4. *)
Definition hextet_of (s : string) : option (list Z) := h ← _parse_hextet s; Some [h].

Definition last_part (s : string) : option (list Z) :=
  if has_char "." s then n ← ipv4_of s; Some [n / 65536; n mod 65536] else hextet_of s.

(** The hextets of one side of [::], of which the last part of the text may
    have the other notation; no part at all is no hextet. *)
Definition hextets (parts : list string) (ends : bool) : option (list Z) :=
  match rev parts with
  | [] => Some []
  | s :: init =>
      front ← all_some (map hextet_of (rev init));
      back ← (if ends then last_part s else hextet_of s);
      Some (concat front ++ back)
  end.

(** The empty parts between the first and the last: [::] without its ends. *)
Fixpoint inner_gaps (i : nat) (parts : list string) : list nat :=
  match parts with
  | [] | [_] => []
  | s :: parts => (if String.eqb s EmptyString then [i] else []) ++ inner_gaps (S i) parts
  end.

Definition is_empty (s : string) : bool := String.eqb s EmptyString.

(** The parts before [::]: none when the text begins with it, and an empty
    first part only then; the parts after it alike. *)
Definition before_gap (parts : list string) : option (list string) :=
  match parts with
  | [EmptyString] => Some []
  | EmptyString :: _ => None
  | _ => Some parts
  end.

Definition after_gap (parts : list string) : option (list string) :=
  match rev parts with
  | [EmptyString] => Some []
  | EmptyString :: _ => None
  | _ => Some parts
  end.

(** [_ip_int_from_string] of version 6, without the zone. *)
Definition ipv6_int (s : string) : option Z :=
  let parts := split_on ":" s in
  if Nat.ltb (length parts) 3 then None
  else
    match inner_gaps 1 (drop 1 parts) with
    | [] =>
        hs ← hextets parts true;
        if Nat.eqb (length hs) 8 then Some (in_base 65536 hs) else None
    | [i] =>
        above ← before_gap (take i parts);
        below ← after_gap (drop (S i) parts);
        hi ← hextets above false;
        lo ← hextets below true;
        let skipped := 8 - Z.of_nat (length hi) - Z.of_nat (length lo) in
        if skipped <? 1 then None
        else Some (in_base 65536 hi * 65536 ^ (skipped + Z.of_nat (length lo)) + in_base 65536 lo)
    | _ => None
    end.

Definition ipv6_of (s : string) : option Z :=
  let '(address, zoned, zone) := partition_on "%" s in
  if zoned && (is_empty zone || has_char "%" zone) then None else ipv6_int address.

(** [None] raises [ValueError]. *)
Definition ip_address (s : string) : option ip :=
  if has_char "/" s then None
  else match ipv4_of s with
       | Some n => Some (IPv4 n)
       | None => n ← ipv6_of s; Some (IPv6 n)
       end.

(** ** Networks *)

Definition v4 (a b c d : Z) : Z := in_base 256 [a; b; c; d].
Definition v6 (hs : list Z) : Z := in_base 65536 (hs ++ repeat 0 (8 - length hs)).

(** The base address and the length of the prefix. *)
Definition in_network (width : Z) (n : Z) (network : Z * Z) : bool :=
  Z.shiftr n (width - network.2) =? Z.shiftr network.1 (width - network.2).
Definition in4 (n : Z) (networks : list (Z * Z)) : bool := existsb (in_network 32 n) networks.
Definition in6 (n : Z) (networks : list (Z * Z)) : bool := existsb (in_network 128 n) networks.

Definition private4 : list (Z * Z) :=
  [(v4 0 0 0 0, 8); (v4 10 0 0 0, 8); (v4 127 0 0 0, 8); (v4 169 254 0 0, 16); (v4 172 16 0 0, 12);
   (v4 192 0 0 0, 24); (v4 192 0 0 170, 31); (v4 192 0 2 0, 24); (v4 192 168 0 0, 16); (v4 198 18 0 0, 15);
   (v4 198 51 100 0, 24); (v4 203 0 113 0, 24); (v4 240 0 0 0, 4); (v4 255 255 255 255, 32)].
Definition private4_exceptions : list (Z * Z) := [(v4 192 0 0 9, 32); (v4 192 0 0 10, 32)].
Definition shared4 : Z * Z := (v4 100 64 0 0, 10).

Definition private6 : list (Z * Z) :=
  [(v6 [0; 0; 0; 0; 0; 0; 0; 1], 128); (v6 [], 128); (v6 [0; 0; 0; 0; 0; 65535], 96);
   (v6 [100; 65435; 1], 48); (v6 [256], 64); (v6 [8193], 23); (v6 [8193; 3512], 32); (v6 [8194], 16);
   (v6 [64512], 7); (v6 [65152], 10)].
Definition private6_exceptions : list (Z * Z) :=
  [(v6 [8193; 1; 0; 0; 0; 0; 0; 1], 128); (v6 [8193; 1; 0; 0; 0; 0; 0; 2], 128); (v6 [8193; 3], 32);
   (v6 [8193; 4; 274], 48); (v6 [8193; 32], 28); (v6 [8193; 48], 28)].
Definition reserved6 : list (Z * Z) :=
  [(v6 [], 8); (v6 [256], 8); (v6 [512], 7); (v6 [1024], 6); (v6 [2048], 5); (v6 [4096], 4);
   (v6 [16384], 3); (v6 [24576], 3); (v6 [32768], 3); (v6 [40960], 3); (v6 [49152], 3); (v6 [57344], 4);
   (v6 [61440], 5); (v6 [63488], 6); (v6 [65024], 9)].

Definition is_private4 (n : Z) : bool := in4 n private4 && negb (in4 n private4_exceptions).

(** [ipv4_mapped] *)
Definition mapped (n : Z) : option Z :=
  if Z.shiftr n 32 =? 65535 then Some (Z.land n 4294967295) else None.

Definition is_private (a : ip) : bool :=
  match a with
  | IPv4 n => is_private4 n
  | IPv6 n => match mapped n with
              | Some n4 => is_private4 n4
              | None => in6 n private6 && negb (in6 n private6_exceptions)
              end
  end.

Definition is_global (a : ip) : bool :=
  match a with
  | IPv4 n => negb (in_network 32 n shared4) && negb (is_private4 n)
  | IPv6 _ => negb (is_private a)
  end.

Definition is_loopback (a : ip) : bool :=
  match a with IPv4 n => in_network 32 n (v4 127 0 0 0, 8) | IPv6 n => n =? 1 end.
Definition is_link_local (a : ip) : bool :=
  match a with
  | IPv4 n => in_network 32 n (v4 169 254 0 0, 16)
  | IPv6 n => in_network 128 n (v6 [65152], 10)
  end.
Definition is_unspecified (a : ip) : bool := match a with IPv4 n | IPv6 n => n =? 0 end.
Definition is_reserved (a : ip) : bool :=
  match a with
  | IPv4 n => in_network 32 n (v4 240 0 0 0, 4)
  | IPv6 n => in6 n reserved6
  end.

Example addresses_read :
  map (fun s => match ip_address s with
                | Some a => [is_private a; is_global a; is_loopback a]
                | None => []
                end)
    ["127.0.0.1"; "8.8.8.8"; "100.64.0.1"; "::1"; "fe80::1%eth0"; "::ffff:10.0.0.1"; "2606:4700::1111";
     "127.1"; "2130706433"; "localhost"]
  = [[true; false; true]; [false; true; false]; [false; false; false]; [true; false; true];
     [true; false; false]; [true; false; false]; [false; true; false]; []; []; []].
Proof. vm_compute. reflexivity. Qed.

Lemma has_char_app c s t : has_char c (s +:+ t) = has_char c s || has_char c t.
Proof.
  unfold has_char. rewrite <- negb_andb. f_equal. induction s as [|d s IH]; [done|].
  change (String d s +:+ t) with (String d (s +:+ t)). cbn. by rewrite IH, andb_assoc.
Qed.

(** * URLs

    [urlsplit], [urlparse] and [urlunsplit] of [urllib.parse] (Python 3.12) with
    the attributes of a result the code reads, on ASCII text. *)

Record SplitUrl := mkSplitUrl {
  url_scheme : string;
  url_netloc : string;
  url_path : string;
  url_query : string;
  url_fragment : string
}.

Definition is_alpha (c : ascii) : bool :=
  let n := nat_of_ascii (lower_char c) in Nat.leb 97 n && Nat.leb n 122.
Definition scheme_char (c : ascii) : bool :=
  is_alpha c || is_digit c || bool_decide (c ∈ ["+"; "-"; "."]%char).

(** [_WHATWG_C0_CONTROL_OR_SPACE], [_UNSAFE_URL_BYTES_TO_REMOVE] *)
Fixpoint lstrip_controls (s : string) : string :=
  match s with
  | EmptyString => EmptyString
  | String c r => if Nat.leb (nat_of_ascii c) 32 then lstrip_controls r else s
  end.
Definition drop_unsafe (s : string) : string :=
  remove_char (ascii_of_nat 10) (remove_char (ascii_of_nat 13) (remove_char (ascii_of_nat 9) s)).

Definition split_scheme (url : string) : string * string :=
  let '(scheme, found, rest) := partition_on ":" url in
  match scheme with
  | String c _ => if found && is_alpha c && all_chars scheme_char scheme then (lower scheme, rest)
                  else (EmptyString, url)
  | EmptyString => (EmptyString, url)
  end.

Definition netloc_end (c : ascii) : bool := bool_decide (c ∈ ["/"; "?"; "#"]%char).

(** [_check_bracketed_host]: version 6, or the notation of a later version. *)
Definition is_hex (c : ascii) : bool := bool_decide (is_Some (hex_value c)).

Definition bracketed_host_ok (host : string) : bool :=
  match host with
  | String "v" r =>
      let '(digits, rest) := break_at (fun c => negb (is_hex c)) r in
      negb (is_empty digits) && match rest with String "." (String _ _) => true | _ => false end
  | _ => match ip_address host with Some (IPv6 _) => true | _ => false end
  end.

(** [_check_bracketed_netloc] *)
Definition bracketed_netloc_ok (netloc : string) : bool :=
  let '(_, _, hostinfo) := rpartition_on "@" netloc in
  let '(before, bracketed, inside) := partition_on "[" hostinfo in
  if bracketed then
    let '(host, _, port) := partition_on "]" inside in
    is_empty before && (is_empty port || String.prefix ":" port) && bracketed_host_ok host
  else let '(host, _, _) := partition_on ":" hostinfo in bracketed_host_ok host.

Definition netloc_ok (netloc : string) : bool :=
  let opened := has_char "[" netloc in
  let closed := has_char "]" netloc in
  Bool.eqb opened closed && (negb opened || bracketed_netloc_ok netloc).

(** [None] raises [ValueError]. *)
Definition urlsplit (text : string) : option SplitUrl :=
  let '(scheme, url) := split_scheme (drop_unsafe (lstrip_controls text)) in
  let '(netloc, url) := if String.prefix "//" url
                        then break_at netloc_end (substring 2 (String.length url) url)
                        else (EmptyString, url) in
  if negb (netloc_ok netloc) then None
  else
    let '(url, _, fragment) := partition_on "#" url in
    let '(path, _, query) := partition_on "?" url in
    Some (mkSplitUrl scheme netloc path query fragment).

(** [_userinfo], [_hostinfo] *)
Definition url_userinfo (u : SplitUrl) : option string * option string :=
  let '(userinfo, found, _) := rpartition_on "@" (url_netloc u) in
  if found then
    let '(username, has_password, password) := partition_on ":" userinfo in
    (Some username, if has_password then Some password else None)
  else (None, None).

Definition url_username (u : SplitUrl) : option string := (url_userinfo u).1.
Definition url_password (u : SplitUrl) : option string := (url_userinfo u).2.

Definition url_hostinfo (u : SplitUrl) : string * string :=
  let '(_, _, hostinfo) := rpartition_on "@" (url_netloc u) in
  let '(_, bracketed, inside) := partition_on "[" hostinfo in
  if bracketed then
    let '(host, _, rest) := partition_on "]" inside in
    let '(_, _, port) := partition_on ":" rest in (host, port)
  else let '(host, _, port) := partition_on ":" hostinfo in (host, port).

(** A zone keeps its case. *)
Definition url_hostname (u : SplitUrl) : option string :=
  let host := (url_hostinfo u).1 in
  if is_empty host then None
  else let '(name, zoned, zone) := partition_on "%" host in
       Some (lower name +:+ (if zoned then String "%" zone else EmptyString)).

(** [None] raises [ValueError], [Some None] is no port. *)
Definition url_port (u : SplitUrl) : option (option Z) :=
  let port := (url_hostinfo u).2 in
  if is_empty port then Some None
  else p ← read_decimal port; if p <=? 65535 then Some (Some p) else None.

(** The path of [urlparse], without the parameters of the last segment. *)
Definition uses_params : list string :=
  [""; "ftp"; "hdl"; "prospero"; "http"; "imap"; "https"; "shttp"; "rtsp"; "rtspu"; "sip"; "sips"; "mms";
   "sftp"; "tel"].

Definition before_params (path : string) : string :=
  let '(before, found, segment) := rpartition_on "/" path in
  let '(name, _, _) := partition_on ";" segment in
  if found then before +:+ String "/" name else name.

Definition parsed_path (u : SplitUrl) : string :=
  if bool_decide (url_scheme u ∈ uses_params) then before_params (url_path u) else url_path u.

(** [urlunsplit((scheme, netloc, path, query, ""))] for a URL with a host. *)
Definition url_text (scheme netloc path query : string) : string :=
  scheme +:+ "://" +:+ netloc +:+
  (if is_empty path || String.prefix "/" path then path else String "/" path) +:+
  (if is_empty query then EmptyString else String "?" query).

(** [quote(text, safe=)] of [urllib.parse], where no slash is safe: letters, digits and
    [-._~] stay, every other byte is written with its two digits. *)
Definition upper_hex (n : nat) : string :=
  String (nth n ["0"; "1"; "2"; "3"; "4"; "5"; "6"; "7"; "8"; "9"; "A"; "B"; "C"; "D"; "E"; "F"]%char "0"%char)
    EmptyString.
Definition quote_char (c : ascii) : string :=
  let n := nat_of_ascii c in
  if is_alpha c || is_digit c || bool_decide (c ∈ ["-"; "."; "_"; "~"]%char) then String c EmptyString
  else "%" +:+ upper_hex (n / 16) +:+ upper_hex (n mod 16).
Definition quote (s : string) : string := join EmptyString (map quote_char (String.list_ascii_of_string s)).

(** [unquote]: what reads the text back. *)
Fixpoint unquote (s : string) : string :=
  match s with
  | String "%" (String high (String low rest) as tail) =>
      match hex_value high, hex_value low with
      | Some h, Some l => String (ascii_of_nat (Z.to_nat (16 * h + l))) (unquote rest)
      | _, _ => String "%" (unquote tail)
      end
  | String c rest => String c (unquote rest)
  | EmptyString => EmptyString
  end.

(** ** Texts without a character *)

Lemma all_chars_no P c s : all_chars P s = true -> P c = false -> has_char c s = false.
Proof.
  intros Hs Hc. unfold has_char. rewrite negb_false_iff. revert Hs. apply all_chars_mono. intros d Hd.
  rewrite negb_true_iff. apply Ascii.eqb_neq. congruence.
Qed.

Lemma has_char_cons c d s : has_char c (String d s) = Ascii.eqb d c || has_char c s.
Proof. unfold has_char. cbn. by rewrite negb_andb, negb_involutive. Qed.

Lemma partition_on_none c s : has_char c s = false -> partition_on c s = (s, false, EmptyString).
Proof.
  induction s as [|d s IH]; [done|]. rewrite has_char_cons, orb_false_iff. intros [Hd Hs]. cbn. by rewrite Hd, IH.
Qed.

Lemma rpartition_on_none c s : has_char c s = false -> rpartition_on c s = (EmptyString, false, s).
Proof.
  induction s as [|d s IH]; [done|]. rewrite has_char_cons, orb_false_iff. intros [Hd Hs]. cbn. by rewrite IH, Hd.
Qed.

Lemma partition_on_app c s t : has_char c s = false -> partition_on c (s +:+ String c t) = (s, true, t).
Proof.
  induction s as [|d s IH]; intros H.
  - change (partition_on c (String c t) = (EmptyString, true, t)). cbn. by rewrite Ascii.eqb_refl.
  - rewrite has_char_cons, orb_false_iff in H. destruct H as [Hd Hs].
    rewrite string_cons_app. cbn [partition_on]. by rewrite Hd, IH.
Qed.

Lemma remove_char_app c s t : has_char c s = false -> remove_char c (s +:+ t) = s +:+ remove_char c t.
Proof.
  induction s as [|d s IH]; [done|]. rewrite has_char_cons, orb_false_iff, Ascii.eqb_sym. intros [Hd Hs].
  rewrite !string_cons_app. cbn [remove_char]. by rewrite Hd, IH.
Qed.

(** A text that ends the authority of a URL. *)
Definition authority_end (s : string) : Prop :=
  match s with EmptyString => True | String c _ => netloc_end c = true end.

Lemma break_at_app stop s t :
  all_chars (fun c => negb (stop c)) s = true -> match t with EmptyString => True | String c _ => stop c = true end ->
  break_at stop (s +:+ t) = (s, t).
Proof.
  intros Hs Ht. induction s as [|c s IH].
  - change (break_at stop t = (EmptyString, t)). destruct t as [|d t]; [done|]. cbn. by rewrite Ht.
  - cbn in Hs. apply andb_true_iff in Hs as [Hc Hs]. apply negb_true_iff in Hc.
    rewrite string_cons_app. cbn [break_at]. by rewrite Hc, IH.
Qed.

(** ** A URL that is put together again *)

Lemma has_char_app_false c s t : has_char c (s +:+ t) = false <-> has_char c s = false /\ has_char c t = false.
Proof. by rewrite has_char_app, orb_false_iff. Qed.

Lemma remove_char_none c s : has_char c s = false -> remove_char c s = s.
Proof. intros H. rewrite <- (app_empty s) at 1. rewrite remove_char_app by done. apply app_empty. Qed.

Lemma has_char_removed c s : has_char c (remove_char c s) = false.
Proof.
  induction s as [|d s IH]; [done|]. cbn [remove_char]. destruct (Ascii.eqb c d) eqn:E; [done|].
  by rewrite has_char_cons, Ascii.eqb_sym, E, IH.
Qed.

Lemma has_char_kept c d s : has_char c s = false -> has_char c (remove_char d s) = false.
Proof.
  induction s as [|e s IH]; [done|]. rewrite has_char_cons, orb_false_iff. intros [He Hs]. cbn [remove_char].
  destruct (Ascii.eqb d e); [by apply IH|]. rewrite has_char_cons, He. by apply IH.
Qed.

(** No tab, newline or carriage return. *)
Definition plain_line (s : string) : Prop :=
  has_char (ascii_of_nat 9) s = false /\ has_char (ascii_of_nat 10) s = false /\ has_char (ascii_of_nat 13) s = false.

Lemma plain_line_app s t : plain_line (s +:+ t) <-> plain_line s /\ plain_line t.
Proof. unfold plain_line. rewrite !has_char_app_false. tauto. Qed.

Lemma plain_line_cons c s : plain_line (String c s) -> plain_line s.
Proof. unfold plain_line. rewrite !has_char_cons, !orb_false_iff. tauto. Qed.

Lemma plain_line_dropped s : plain_line (drop_unsafe s).
Proof.
  unfold drop_unsafe. split_and!; [apply has_char_kept, has_char_kept, has_char_removed|apply has_char_removed|].
  apply has_char_kept, has_char_removed.
Qed.

Lemma drop_unsafe_plain s : plain_line s -> drop_unsafe s = s.
Proof.
  intros (H1 & H2 & H3). unfold drop_unsafe. rewrite (remove_char_none _ _ H1), (remove_char_none _ _ H3).
  by apply remove_char_none.
Qed.

Lemma prefix_empty s : String.prefix EmptyString s = true.
Proof. by destruct s. Qed.

Lemma prefix_rest s : String.prefix "//" s = true -> s = "//" +:+ substring 2 (String.length s) s.
Proof.
  destruct s as [|c s]; [done|]. cbn [String.prefix]. destruct (Ascii.ascii_dec "/" c) as [<-|]; [|done].
  destruct s as [|c s]; [done|]. cbn [String.prefix]. destruct (Ascii.ascii_dec "/" c) as [<-|]; [|done]. intros _.
  change ("//" +:+ substring 2 (String.length (String "/" (String "/" s))) (String "/" (String "/" s)))
    with (String "/" (String "/" (substring 0 (S (S (String.length s))) s))).
  by rewrite substring_all by lia.
Qed.

(** The parts of what follows the authority. *)
Definition tail_parts (rest : string) : string * string * string :=
  let '(url, _, fragment) := partition_on "#" rest in
  let '(path, _, query) := partition_on "?" url in
  (path, query, fragment).

Lemma urlsplit_https netloc rest :
  netloc_ok netloc = true -> all_chars (fun c => negb (netloc_end c)) netloc = true -> authority_end rest ->
  plain_line netloc -> plain_line rest ->
  urlsplit ("https://" +:+ (netloc +:+ rest)) =
  Some (let '(path, query, fragment) := tail_parts rest in mkSplitUrl "https" netloc path query fragment).
Proof.
  intros Hok Hn Hr Hpn Hpr. unfold urlsplit.
  change (lstrip_controls ("https://" +:+ (netloc +:+ rest))) with ("https://" +:+ (netloc +:+ rest)).
  rewrite drop_unsafe_plain by (rewrite !plain_line_app; split_and!; [split_and!; reflexivity|done|done]).
  change (split_scheme ("https://" +:+ (netloc +:+ rest))) with ("https", "//" +:+ (netloc +:+ rest)).
  cbv beta iota.
  change (String.prefix "//" ("//" +:+ (netloc +:+ rest))) with (String.prefix EmptyString (netloc +:+ rest)).
  rewrite prefix_empty.
  change (substring 2 (String.length ("//" +:+ (netloc +:+ rest))) ("//" +:+ (netloc +:+ rest)))
    with (substring 0 (S (S (String.length (netloc +:+ rest)))) (netloc +:+ rest)).
  rewrite substring_all by lia. rewrite break_at_app by done. rewrite Hok. cbn. unfold tail_parts.
  destruct (partition_on "#" rest) as [[url ?] fragment]. by destruct (partition_on "?" url) as [[path ?] query].
Qed.

(** What a URL with an authority is split into. *)
Record split_sound (u : SplitUrl) : Prop := mkSplitSound {
  su_netloc_ok : netloc_ok (url_netloc u) = true;
  su_netloc : all_chars (fun c => negb (netloc_end c)) (url_netloc u) = true;
  su_path : authority_end (url_path u) /\ has_char "?" (url_path u) = false /\ has_char "#" (url_path u) = false;
  su_query : has_char "#" (url_query u) = false;
  su_plain : plain_line (url_netloc u) /\ plain_line (url_path u) /\ plain_line (url_query u)
}.

Lemma tail_parts_spec rest path query fragment :
  authority_end rest -> plain_line rest -> tail_parts rest = (path, query, fragment) ->
  (authority_end path /\ has_char "?" path = false /\ has_char "#" path = false) /\ has_char "#" query = false /\
  plain_line path /\ plain_line query.
Proof.
  unfold tail_parts. intros Hr Hp. destruct (partition_on "#" rest) as [[url f] after] eqn:E1.
  destruct (partition_on "?" url) as [[p q] r] eqn:E2. intros [= <- <- <-].
  apply partition_on_spec in E1 as (-> & Hu & _). apply partition_on_spec in E2 as (-> & Hq & Hn).
  apply has_char_app_false in Hu as [Hup Hur]. rewrite !plain_line_app in Hp. destruct Hp as [[Hpp Hpr] _].
  split_and!; try done.
  - by destruct p.
  - destruct q; [|by rewrite Hn]. rewrite has_char_cons in Hur. by apply orb_false_iff in Hur as [_ ?].
  - destruct q; [by apply plain_line_cons in Hpr|by rewrite Hn].
Qed.

Lemma text_app_assoc (s t r : string) : (s +:+ t) +:+ r = s +:+ (t +:+ r).
Proof. induction s as [|c s IH]; [done|]. exact (f_equal (String c) IH). Qed.

Lemma split_scheme_suffix s : exists before, s = before +:+ (split_scheme s).2.
Proof.
  unfold split_scheme. destruct (partition_on ":" s) as [[scheme found] rest] eqn:E.
  assert (Hself : exists before, s = before +:+ s) by (by exists EmptyString).
  destruct scheme as [|c scheme]; [done|]. destruct (found && _ && _) eqn:Ec; [|done].
  assert (found = true) as -> by (destruct found; done).
  apply partition_on_spec in E as (-> & _). cbn [snd]. exists (String c scheme +:+ ":").
  by rewrite text_app_assoc.
Qed.

Lemma break_at_stops stop s before rest :
  break_at stop s = (before, rest) -> match rest with EmptyString => True | String c _ => stop c = true end.
Proof.
  revert before. induction s as [|c s IH]; intros before; cbn; [by intros [= <- <-]|].
  destruct (stop c) eqn:E; [by intros [= <- <-]|]. destruct (break_at stop s) as [b r]. intros [= <- <-]. by eapply IH.
Qed.

(** The authority and what follows it. *)
Definition authority_parts (url : string) : string * string :=
  if String.prefix "//" url then break_at netloc_end (substring 2 (String.length url) url) else (EmptyString, url).

Lemma urlsplit_inv text u : urlsplit text = Some u ->
  exists url netloc rest, plain_line url /\ authority_parts url = (netloc, rest) /\ netloc_ok netloc = true /\
    url_netloc u = netloc /\ tail_parts rest = (url_path u, url_query u, url_fragment u).
Proof.
  unfold urlsplit. pose proof (plain_line_dropped (lstrip_controls text)) as Hl.
  destruct (split_scheme_suffix (drop_unsafe (lstrip_controls text))) as [before Hb].
  rewrite Hb in Hl. apply plain_line_app in Hl as [_ Hl].
  destruct (split_scheme _) as [scheme url]. cbn [snd] in *. clear Hb before. fold (authority_parts url).
  destruct (authority_parts url) as [netloc rest] eqn:Ea. destruct (netloc_ok netloc) eqn:Eo; [|done].
  cbn [negb]. intros H. exists url, netloc, rest. unfold tail_parts.
  destruct (partition_on "#" rest) as [[x ?] f]. destruct (partition_on "?" x) as [[p ?] q].
  injection H as <-. done.
Qed.

Lemma urlsplit_sound text u : urlsplit text = Some u -> url_netloc u <> EmptyString -> split_sound u.
Proof.
  intros (url & netloc & rest & Hl & Ha & Hok & <- & Ht)%urlsplit_inv Hne. unfold authority_parts in Ha.
  destruct (String.prefix "//" url) eqn:Hp; [|destruct Hne; congruence].
  apply prefix_rest in Hp. rewrite Hp in Hl. apply plain_line_app in Hl as [_ Hl].
  pose proof (break_at_stops _ _ _ _ Ha) as Hend. apply break_at_spec in Ha as [Er Hn]. rewrite Er in Hl.
  apply plain_line_app in Hl as [Hpn Hpr]. destruct (tail_parts_spec _ _ _ _ Hend Hpr Ht) as (H1 & H2 & H3 & H4).
  by split.
Qed.

Lemma urlunsplit_split u :
  split_sound u -> urlsplit (url_text "https" (url_netloc u) (url_path u) (url_query u)) =
  Some (mkSplitUrl "https" (url_netloc u) (url_path u) (url_query u) EmptyString).
Proof.
  intros [Hok Hn (Hend & Hq & Hf) Hqf (Hpn & Hpp & Hpq)]. unfold url_text.
  set (path := if is_empty (url_path u) || _ then _ else _).
  assert (Epath : path = url_path u).
  { unfold path. destruct (url_path u) as [|c p]; [done|]. cbn in Hend, Hq, Hf |- *.
    destruct (Ascii.ascii_dec "/" c) as [<-|Hc]; [by destruct p|]. exfalso.
    unfold netloc_end in Hend. apply bool_decide_eq_true in Hend. rewrite has_char_cons in Hq, Hf.
    apply orb_false_iff in Hq as [Hq _], Hf as [Hf _]. apply Ascii.eqb_neq in Hq, Hf.
    rewrite !elem_of_cons in Hend. destruct Hend as [->|[->|[->|Hin]]]; try done. by apply not_elem_of_nil in Hin. }
  rewrite Epath. clearbody path. clear path Epath.
  set (tail := if is_empty (url_query u) then EmptyString else _).
  change ("https" +:+ "://" +:+ url_netloc u +:+ url_path u +:+ tail) with
    ("https://" +:+ (url_netloc u +:+ (url_path u +:+ tail))).
  assert (Htail : plain_line tail /\ authority_end (url_path u +:+ tail)).
  { unfold tail. destruct (url_query u) as [|c q]; cbn [is_empty String.eqb].
    - rewrite app_empty. done.
    - split; [|by destruct (url_path u)]. unfold plain_line in *. rewrite !(has_char_cons _ "?"). done. }
  rewrite urlsplit_https; [|done|done|apply Htail|done|apply plain_line_app; by split; [|apply Htail]].
  unfold tail_parts. rewrite partition_on_none.
  - assert (E : exists f, partition_on "?" (url_path u +:+ tail) = (url_path u, f, url_query u)).
    { unfold tail. destruct (url_query u) as [|c q]; cbn [is_empty String.eqb].
      - exists false. rewrite app_empty. by apply partition_on_none.
      - exists true. by apply partition_on_app. }
    destruct E as [f ->]. done.
  - apply has_char_app_false. split; [done|]. unfold tail. destruct (url_query u) as [|c q]; [done|].
    cbn [is_empty String.eqb]. rewrite has_char_cons. by rewrite Hqf.
Qed.

(** ** Quoted texts *)

Lemma quote_char_read c rest : unquote (quote_char c +:+ rest) = String c (unquote rest).
Proof. destruct c as [[] [] [] [] [] [] [] []]; reflexivity. Qed.

Lemma quote_cons c s : quote (String c s) = quote_char c +:+ quote s.
Proof.
  unfold quote. cbn. destruct (map quote_char (String.list_ascii_of_string s)); [|reflexivity].
  cbn. by rewrite app_empty.
Qed.

Lemma unquote_quote s : unquote (quote s) = s.
Proof. induction s as [|c s IH]; [done|]. by rewrite quote_cons, quote_char_read, IH. Qed.

Definition unreserved (c : ascii) : bool :=
  is_alpha c || is_digit c || bool_decide (c ∈ ["-"; "."; "_"; "~"; "%"]%char).

Lemma quote_unreserved s : all_chars unreserved (quote s) = true.
Proof.
  induction s as [|c s IH]; [done|]. rewrite quote_cons, all_chars_app, IH, andb_true_r.
  by destruct c as [[] [] [] [] [] [] [] []].
Qed.
