(* ===== verification/Config.v ===== *)
(** * The settings of the process

    [config.py]: the checks before anything starts, the status and the loading
    of the credentials of each outside service, and the address of the database
    with its password; [ids.py]: the bits of an identifier.  A file is read by
    [read_text], where [None] is an [OSError]. *)

Set Warnings "-register-all".

From Stdlib Require Import ZArith Lia Ascii String.
From stdpp Require Import base numbers strings list gmap.
From S2P Require Import Prelude Decimal Json Models Session DecimalText PyText Urls.

Open Scope Z_scope.

(** The settings the methods read. *)
Record AppSettings := mkAppSettings {
  as_environment : string;
  as_live_trading_enabled : bool;
  as_execution_stage : string;
  as_analysis_scheduler_poll_seconds : Z;
  as_analysis_scheduler_lease_seconds : Z;
  as_agent_worker_poll_seconds : Z;
  as_agent_worker_lease_seconds : Z;
  as_dart_enabled : bool;
  as_dart_api_key_file : option string;
  as_dart_base_url : string;
  as_krx_enabled : bool;
  as_krx_api_key_file : option string;
  as_krx_base_url : string;
  as_naver_news_enabled : bool;
  as_naver_news_client_id_file : option string;
  as_naver_news_client_secret_file : option string;
  as_naver_news_base_url : string;
  as_database_url : string;
  as_database_password_file : option string;
  as_kiwoom_enabled : bool;
  as_kiwoom_rest_base_url : string;
  as_kiwoom_ws_base_url : string;
  as_kiwoom_app_key_file : option string;
  as_kiwoom_app_secret_file : option string;
  as_kiwoom_account_id_file : option string;
  as_kiwoom_worker_lease_seconds : Z;
  as_kiwoom_worker_heartbeat_seconds : Z
}.

(** The settings of an empty environment. *)
Definition default_settings : AppSettings :=
  mkAppSettings "MOCK" false "SHADOW" 5 30 1 30 false None "https://opendart.fss.or.kr" false None
    "https://data-dbg.krx.co.kr" false None None "https://naverapihub.apigw.ntruss.com" "sqlite:///./cresta.db" None
    false "https://mockapi.kiwoom.com" "wss://mockapi.kiwoom.com:10000" None None None 60 10.

Definition bounded (lo hi n : Z) : bool := (lo <=? n) && (n <=? hi).

(** The bounds of the fields ([Field(ge=..., le=...)]). *)
Definition fields_valid (s : AppSettings) : bool :=
  bounded 1 30 (as_analysis_scheduler_poll_seconds s) && bounded 15 120 (as_analysis_scheduler_lease_seconds s) &&
  bounded 1 10 (as_agent_worker_poll_seconds s) && bounded 10 120 (as_agent_worker_lease_seconds s) &&
  bounded 30 300 (as_kiwoom_worker_lease_seconds s) && bounded 5 60 (as_kiwoom_worker_heartbeat_seconds s).

Definition base_url_is (official url : string) : bool := String.eqb (rstrip_chars ["/"%char] url) official.

Definition validate_safety (s : AppSettings) : exn + unit :=
  _ ← reject_if (negb (String.eqb (upper (as_environment s)) "MOCK"))
        (RuntimeError "Only MOCK broker environment is allowed in the first release");
  _ ← reject_if (as_live_trading_enabled s) (RuntimeError "Live trading must remain disabled in the first release");
  _ ← reject_if (negb (bool_decide (as_execution_stage s ∈ ["SHADOW"; "APPROVAL_ONLY"])))
        (RuntimeError "Only the SHADOW and APPROVAL_ONLY decision execution stages are currently implemented");
  _ ← reject_if (as_analysis_scheduler_lease_seconds s <=? as_analysis_scheduler_poll_seconds s * 2)
        (RuntimeError "Analysis scheduler poll must be less than half the lease duration");
  _ ← reject_if (as_agent_worker_lease_seconds s <=? as_agent_worker_poll_seconds s * 2)
        (RuntimeError "Agent worker poll must be less than half the lease duration");
  _ ← reject_if (negb (base_url_is "https://opendart.fss.or.kr" (as_dart_base_url s)))
        (RuntimeError "Only the official OpenDART endpoint is allowed");
  _ ← reject_if (negb (base_url_is "https://data-dbg.krx.co.kr" (as_krx_base_url s)))
        (RuntimeError "Only the official KRX OPEN API endpoint is allowed");
  _ ← reject_if (negb (base_url_is "https://naverapihub.apigw.ntruss.com" (as_naver_news_base_url s)))
        (RuntimeError "Only the official NAVER API HUB endpoint is allowed");
  _ ← reject_if (negb (base_url_is "https://mockapi.kiwoom.com" (as_kiwoom_rest_base_url s)))
        (RuntimeError "Only the Kiwoom MOCK REST endpoint is allowed in the first release");
  _ ← reject_if (negb (base_url_is "wss://mockapi.kiwoom.com:10000" (as_kiwoom_ws_base_url s)))
        (RuntimeError "Only the Kiwoom MOCK WebSocket endpoint is allowed in the first release");
  reject_if (as_kiwoom_worker_lease_seconds s <=? as_kiwoom_worker_heartbeat_seconds s * 2)
    (RuntimeError "Kiwoom worker heartbeat must be less than half the lease duration").

(** [get_settings]: the environment as pydantic reads it, then the checks. *)
Definition get_settings (environment : AppSettings) : exn + AppSettings :=
  _ ← reject_if (negb (fields_valid environment)) ValueError;
  _ ← validate_safety environment;
  inr environment.

(** A path that is set. *)
Definition set_path (path : option string) : option string :=
  match path with Some (String _ _ as p) => Some p | _ => None end.

Definition no_space (s : string) : bool := all_chars (fun c => negb (is_space c)) s.
Definition hex_digit (c : ascii) : bool :=
  bool_decide (c ∈ String.list_ascii_of_string "0123456789abcdefABCDEF").
Definition nonempty_value (s : string) : bool := negb (is_empty s).

Section Files.
Context (read_text : string -> option string).

Definition stripped_file (path : string) : option string := strip <$> read_text path.

(** [Path(path).read_text().strip()], which raises. *)
Definition read_stripped (path : string) : exn + string :=
  match stripped_file path with Some value => inr value | None => inl FileError end.

(** The values of the files, if all are set and readable. *)
Definition file_values (paths : list (option string)) : option (list string) :=
  paths ← mapM set_path paths; mapM stripped_file paths.

(** ** The broker *)

Definition kiwoom_paths (s : AppSettings) : list (option string) :=
  [as_kiwoom_app_key_file s; as_kiwoom_app_secret_file s; as_kiwoom_account_id_file s].

Definition kiwoom_configuration_status (s : AppSettings) : string :=
  if negb (as_kiwoom_enabled s) then "NOT_CONFIGURED"
  else match file_values (kiwoom_paths s) with
       | Some values => if forallb nonempty_value values then "CONFIGURED" else "NOT_CONFIGURED"
       | None => "NOT_CONFIGURED"
       end.

(** The files are read again. *)
Definition load_files (status message : string) (paths : list (option string)) : exn + list string :=
  _ ← reject_if (negb (String.eqb status "CONFIGURED")) (RuntimeError message);
  match mapM set_path paths with
  | None => inl AssertionError
  | Some paths => match mapM stripped_file paths with Some values => inr values | None => inl FileError end
  end.

Definition load_kiwoom_credentials (s : AppSettings) : exn + list string :=
  load_files (kiwoom_configuration_status s) "Kiwoom MOCK credentials are not configured" (kiwoom_paths s).

(** ** The sources of evidence *)

(** The status of a service with its files and what a value must look like. *)
Definition source_status (enabled : bool) (paths : list (option string)) (valid : string -> bool) : string :=
  if negb enabled then "DISABLED"
  else match file_values paths with
       | Some values => if forallb valid values then "CONFIGURED" else "INVALID"
       | None => "NOT_CONFIGURED"
       end.

Definition dart_key_valid (key : string) : bool := Nat.eqb (String.length key) 40 && no_space key.
Definition krx_key_valid (key : string) : bool := Nat.eqb (String.length key) 40 && all_chars hex_digit key.
Definition naver_value_valid (value : string) : bool :=
  Nat.leb 8 (String.length value) && Nat.leb (String.length value) 128 && no_space value.

Definition dart_configuration_status (s : AppSettings) : string :=
  source_status (as_dart_enabled s) [as_dart_api_key_file s] dart_key_valid.
Definition krx_configuration_status (s : AppSettings) : string :=
  source_status (as_krx_enabled s) [as_krx_api_key_file s] krx_key_valid.
Definition naver_news_configuration_status (s : AppSettings) : string :=
  source_status (as_naver_news_enabled s) [as_naver_news_client_id_file s; as_naver_news_client_secret_file s]
    naver_value_valid.

Definition load_dart_api_key (s : AppSettings) : exn + list string :=
  load_files (dart_configuration_status s) "OpenDART API key is not configured" [as_dart_api_key_file s].
Definition load_krx_api_key (s : AppSettings) : exn + list string :=
  load_files (krx_configuration_status s) "KRX OPEN API key is not configured" [as_krx_api_key_file s].
Definition load_naver_news_credentials (s : AppSettings) : exn + list string :=
  load_files (naver_news_configuration_status s) "NAVER API HUB credentials are not configured"
    [as_naver_news_client_id_file s; as_naver_news_client_secret_file s].

(** ** The database *)

Definition database_marker : string := "postgresql+psycopg://".

Definition resolved_database_url (s : AppSettings) : exn + string :=
  match set_path (as_database_password_file s) with
  | None => inr (as_database_url s)
  | Some path =>
      password ← read_stripped path;
      _ ← reject_if (negb (String.prefix database_marker (as_database_url s)))
            (RuntimeError "Database password files require a PostgreSQL URL");
      let '(authority, separator, remainder) := partition_on "@" (remove_prefix database_marker (as_database_url s)) in
      _ ← reject_if (negb separator || has_char ":" authority)
            (RuntimeError "Database URL must contain a username without an embedded password");
      inr (database_marker +:+ authority +:+ ":" +:+ quote password +:+ "@" +:+ remainder)
  end.

Definition alembic_database_url (s : AppSettings) : exn + string :=
  url ← resolved_database_url s; inr (replace "%" "%%" url).
End Files.

(** ** Identifiers *)

(** [uuid7]: the clock in milliseconds and the random bits, put together. *)
Definition uuid7_value (milliseconds random_a random_b : Z) : Z :=
  let timestamp_ms := Z.land milliseconds (Z.shiftl 1 48 - 1) in
  let value := Z.shiftl timestamp_ms 80 in
  let value := Z.lor value (Z.shiftl 7 76) in
  let value := Z.lor value (Z.shiftl random_a 64) in
  let value := Z.lor value (Z.shiftl 2 62) in
  Z.lor value random_b.

Definition hex_digits : string := "0123456789abcdef".

(** [n] digits, the first the highest. *)
Fixpoint hex_text (n : nat) (value : Z) : string :=
  match n with
  | O => EmptyString
  | S n => substring (Z.to_nat (Z.land (Z.shiftr value (4 * Z.of_nat n)) 15)) 1 hex_digits +:+ hex_text n value
  end.

(** [str(uuid.UUID(int=value))]: 32 digits in five groups. *)
Definition uuid_text (value : Z) : string :=
  join "-" [hex_text 8 (Z.shiftr value 96); hex_text 4 (Z.shiftr value 80); hex_text 4 (Z.shiftr value 64);
            hex_text 4 (Z.shiftr value 48); hex_text 12 value].

Definition uuid7_text (milliseconds random_a random_b : Z) : string :=
  uuid_text (uuid7_value milliseconds random_a random_b).

(** The example of RFC 9562. *)
Example uuid7_of_rfc : uuid7_text 1645557742000 0xCC3 0x18C4DC0C0C07398F = "017f22e2-79b0-7cc3-98c4-dc0c0c07398f".
Proof. vm_compute. reflexivity. Qed.

(** * What the checks let through *)

Fixpoint slashes (n : nat) : string := match n with O => EmptyString | S n => String "/" (slashes n) end.

Lemma rstrip_slashes url : exists n, url = rstrip_chars ["/"%char] url +:+ slashes n.
Proof.
  induction url as [|c url (n & IH)]; [by exists O|]. cbn [rstrip_chars].
  destruct (rstrip_chars ["/"%char] url) as [|d r] eqn:E.
  - case_bool_decide as Hc.
    + apply list_elem_of_singleton in Hc as ->. exists (S n). by rewrite IH.
    + exists n. by rewrite IH.
  - exists n. rewrite IH. reflexivity.
Qed.

Lemma base_url_official official url : base_url_is official url = true -> exists n, url = official +:+ slashes n.
Proof. intros <-%String.eqb_eq. apply rstrip_slashes. Qed.

Definition leases (lease period : Z) : Prop := period * 2 < lease.

(** The first release: the mock environment, no live trading, the addresses of
    the mock broker and of the official sources, and leases that outlive two
    renewals. *)
Record mock_only (s : AppSettings) : Prop := {
  mo_environment : upper (as_environment s) = "MOCK";
  mo_live : as_live_trading_enabled s = false;
  mo_stage : as_execution_stage s ∈ ["SHADOW"; "APPROVAL_ONLY"];
  mo_scheduler : leases (as_analysis_scheduler_lease_seconds s) (as_analysis_scheduler_poll_seconds s);
  mo_agents : leases (as_agent_worker_lease_seconds s) (as_agent_worker_poll_seconds s);
  mo_dart : exists n, as_dart_base_url s = "https://opendart.fss.or.kr" +:+ slashes n;
  mo_krx : exists n, as_krx_base_url s = "https://data-dbg.krx.co.kr" +:+ slashes n;
  mo_naver : exists n, as_naver_news_base_url s = "https://naverapihub.apigw.ntruss.com" +:+ slashes n;
  mo_rest : exists n, as_kiwoom_rest_base_url s = "https://mockapi.kiwoom.com" +:+ slashes n;
  mo_ws : exists n, as_kiwoom_ws_base_url s = "wss://mockapi.kiwoom.com:10000" +:+ slashes n;
  mo_worker : leases (as_kiwoom_worker_lease_seconds s) (as_kiwoom_worker_heartbeat_seconds s)
}.

Lemma reject_bind {A} c e (k : unit -> exn + A) a :
  mbind k (reject_if c e) = inr a -> c = false /\ k tt = inr a.
Proof. destruct c; [discriminate|]. by split. Qed.

Lemma validated_settings s : validate_safety s = inr tt -> mock_only s.
Proof.
  unfold validate_safety. intros H.
  repeat match type of H with mbind _ (reject_if _ _) = _ => apply reject_bind in H as [? H] end.
  apply reject_if_inr in H.
  repeat match goal with
    | [ H : negb _ = false |- _ ] => apply negb_false_iff in H
    | [ H : (_ <=? _) = false |- _ ] => apply Z.leb_gt in H
    | [ H : bool_decide _ = true |- _ ] => apply bool_decide_eq_true_1 in H
    | [ H : base_url_is _ _ = true |- _ ] => apply base_url_official in H
    | [ H : String.eqb _ _ = true |- _ ] => apply String.eqb_eq in H
  end.
  by constructor.
Qed.

(** A process that starts has the settings of its environment, in their
    bounds, and they are those of the first release. *)
Lemma started_process_is_mock environment s : get_settings environment = inr s ->
  s = environment /\ fields_valid s = true /\ mock_only s.
Proof.
  unfold get_settings. intros (Hf & H)%reject_bind. apply negb_false_iff in Hf.
  destruct (validate_safety environment) as [?|[]] eqn:Hv; [discriminate|]. injection H as <-.
  split_and!; [done..|]. by apply validated_settings.
Qed.

Example default_process_starts : get_settings default_settings = inr default_settings.
Proof. vm_compute. reflexivity. Qed.

(** * Credentials *)

Section FileLemmas.
Context (read_text : string -> option string).

(** Credentials can be loaded exactly when the status is [CONFIGURED], and then
    they are the stripped texts of the files, of the shape the status asks for:
    the assertions and the second reading never fail. *)
Definition loads_if_configured (status : string) (valid : string -> bool) (loaded : exn + list string)
    (paths : list (option string)) : Prop :=
  match loaded with
  | inr values => status = "CONFIGURED" /\ file_values read_text paths = Some values /\ Forall (fun v => valid v = true) values
  | inl e => status <> "CONFIGURED" /\ exists message, e = RuntimeError message
  end.

Lemma load_files_configured status message paths valid :
  (status = "CONFIGURED" ->
   exists values, file_values read_text paths = Some values /\ forallb valid values = true) ->
  loads_if_configured status valid (load_files read_text status message paths) paths.
Proof.
  intros Hs. unfold loads_if_configured, load_files.
  destruct (String.eqb_spec status "CONFIGURED") as [Hc|Hn]; cbn; [|by split; [|eexists]].
  destruct (Hs Hc) as (values & Hv & Hok). pose proof Hv as Hv'. unfold file_values in Hv'. cbn in Hv'.
  destruct (mapM set_path paths) as [l|]; [|discriminate]. cbn in Hv'. rewrite Hv'.
  split_and!; [done..|]. apply Forall_forall. intros v Hin. rewrite forallb_forall in Hok. by apply Hok, list_elem_of_In.
Qed.

Lemma source_status_configured enabled paths valid :
  source_status read_text enabled paths valid = "CONFIGURED" ->
  exists values, file_values read_text paths = Some values /\ forallb valid values = true.
Proof.
  unfold source_status. destruct enabled; cbn [negb]; [|done].
  destruct (file_values read_text paths) as [values|]; [|done].
  destruct (forallb valid values) eqn:Hv; [|done]. by exists values.
Qed.

Lemma kiwoom_credentials_loaded s :
  loads_if_configured (kiwoom_configuration_status read_text s) nonempty_value
    (load_kiwoom_credentials read_text s) (kiwoom_paths s).
Proof.
  apply load_files_configured. unfold kiwoom_configuration_status.
  destruct (as_kiwoom_enabled s); cbn [negb]; [|done].
  destruct (file_values read_text (kiwoom_paths s)) as [values|]; [|done].
  destruct (forallb nonempty_value values) eqn:Hv; [|done]. by exists values.
Qed.

Lemma source_credentials_loaded s :
  loads_if_configured (dart_configuration_status read_text s) dart_key_valid
    (load_dart_api_key read_text s) [as_dart_api_key_file s] /\
  loads_if_configured (krx_configuration_status read_text s) krx_key_valid
    (load_krx_api_key read_text s) [as_krx_api_key_file s] /\
  loads_if_configured (naver_news_configuration_status read_text s) naver_value_valid
    (load_naver_news_credentials read_text s) [as_naver_news_client_id_file s; as_naver_news_client_secret_file s].
Proof. split_and!; apply load_files_configured, source_status_configured. Qed.

(** * The address of the database *)

Lemma prefix_dropped p n s : (String.length s <= n)%nat -> String.prefix p s = true ->
  s = p +:+ substring (String.length p) n s.
Proof.
  revert s. induction p as [|c p IH]; intros s Hn H; [cbn; by rewrite substring_all|].
  destruct s as [|d s]; [discriminate|]. cbn in H, Hn. destruct (ascii_dec c d) as [->|]; [|discriminate].
  rewrite string_cons_app. cbn. f_equal. apply IH; [lia|done].
Qed.

Lemma prefix_removed p s : String.prefix p s = true -> s = p +:+ remove_prefix p s.
Proof. intros H. unfold remove_prefix. rewrite H. by apply prefix_dropped. Qed.

Lemma remove_prefix_app p s : remove_prefix p (p +:+ s) = s.
Proof.
  unfold remove_prefix.
  assert (Hp : forall q, String.prefix q (q +:+ s) = true).
  { induction q as [|c q IH]; [apply prefix_empty|]. rewrite string_cons_app. cbn. by destruct (ascii_dec c c). }
  assert (Hs : forall q n, (String.length (q +:+ s) <= n)%nat -> substring (String.length q) n (q +:+ s) = s).
  { induction q as [|c q IH]; intros n Hn; [by apply substring_all|]. rewrite string_cons_app in *. cbn in *.
    apply IH. lia. }
  by rewrite Hp, Hs.
Qed.

(** The parts a client reads: up to the first at sign, the user up to the
    first colon and the decoded password. *)
Definition url_login (url : string) : option (string * string * string) :=
  let '(login, found, remainder) := partition_on "@" (remove_prefix database_marker url) in
  let '(user, has_password, password) := partition_on ":" login in
  if found && has_password then Some (user, unquote password, remainder) else None.

(** With a password file the address reads back as the configured user, host
    and database with exactly the password of the file, whatever its bytes. *)
Lemma resolved_url_login s path url :
  set_path (as_database_password_file s) = Some path -> resolved_database_url read_text s = inr url ->
  exists text user remainder,
    read_text path = Some text /\ as_database_url s = database_marker +:+ (user +:+ String "@" remainder) /\
    url_login url = Some (user, strip text, remainder).
Proof.
  unfold resolved_database_url. intros -> H.
  apply result_bind_inr in H as (password & Hp & H). unfold read_stripped, stripped_file in Hp.
  destruct (read_text path) as [text|] eqn:Ht; [|discriminate]. injection Hp as <-.
  apply reject_bind in H as [Hm%negb_false_iff H].
  destruct (partition_on "@" _) as [[user found] remainder] eqn:Hpart.
  apply reject_bind in H as [[Hf%negb_false_iff Hu]%orb_false_iff [= <-]].
  exists text, user, remainder. split; [done|].
  apply partition_on_spec in Hpart as (Hr & Hat & Ha). destruct found; [|discriminate].
  split; [rewrite <- Hr; by apply prefix_removed|].
  set (login := user +:+ String ":" (quote (strip text))).
  assert (Hl : has_char "@" login = false).
  { unfold login. rewrite has_char_app, has_char_cons, Hat. by apply (all_chars_no unreserved), eq_refl; apply quote_unreserved. }
  assert (Hurl : database_marker +:+ user +:+ ":" +:+ quote (strip text) +:+ "@" +:+ remainder
                 = database_marker +:+ (login +:+ String "@" remainder)).
  { unfold login. by rewrite !text_app_assoc. }
  rewrite Hurl. unfold url_login. rewrite remove_prefix_app, (partition_on_app _ _ _ Hl). unfold login.
  rewrite (partition_on_app _ _ _ Hu). by rewrite unquote_quote.
Qed.
Fixpoint escaped (s : string) : string :=
  match s with
  | EmptyString => EmptyString
  | String c s => (if Ascii.eqb c "%" then "%%" else String c EmptyString) +:+ escaped s
  end.

Lemma prefix_char d p c s :
  String.prefix (String d p) (String c s) = Ascii.eqb d c && String.prefix p s.
Proof. cbn [String.prefix]. destruct (ascii_dec d c) as [->|Hn%Ascii.eqb_neq]; [by rewrite Ascii.eqb_refl|by rewrite Hn]. Qed.

Lemma escape_percent n s : (String.length s <= n)%nat -> replace_from n "%" "%%" s = escaped s.
Proof.
  revert s. induction n as [|n IH]; intros [|c s] Hn; cbn in Hn; [done|lia|done|].
  cbn [replace_from escaped]. rewrite prefix_char, prefix_empty, andb_true_r, Ascii.eqb_sym.
  destruct (Ascii.eqb c "%").
  - f_equal. cbn. rewrite substring_all by lia. apply IH. lia.
  - cbn. f_equal. apply IH. lia.
Qed.

Lemma escaped_other c s : c <> "%"%char -> escaped (String c s) = String c (escaped s).
Proof. intros Hc%Ascii.eqb_neq. cbn [escaped]. by rewrite Hc. Qed.

Lemma unescape_percent n s : (String.length (escaped s) <= n)%nat -> replace_from n "%%" "%" (escaped s) = s.
Proof.
  revert n. induction s as [|c s IH]; intros n; [by destruct n|].
  destruct (decide (c = "%"%char)) as [->|Hc].
  - change (escaped (String "%" s)) with (String "%" (String "%" (escaped s))).
    destruct n as [|n]; intros Hn; cbn [String.length] in Hn; [lia|]. cbn [replace_from].
    rewrite !prefix_char, prefix_empty. cbn. f_equal. rewrite substring_all by lia. apply IH. lia.
  - rewrite escaped_other by done. destruct n as [|n]; intros Hn; cbn [String.length] in Hn; [lia|]. cbn [replace_from].
    rewrite prefix_char. replace (Ascii.eqb "%" c) with false by (symmetry; apply Ascii.eqb_neq; congruence).
    cbn [andb]. f_equal. apply IH. lia.
Qed.

(** Undoing the escape of [ConfigParser] gives the address. *)
Lemma escaped_url_read s url : alembic_database_url read_text s = inr url ->
  resolved_database_url read_text s = inr (replace "%%" "%" url).
Proof.
  unfold alembic_database_url. intros H. apply result_bind_inr in H as (plain & -> & [= <-]). f_equal.
  unfold replace. by rewrite escape_percent, unescape_percent.
Qed.
End FileLemmas.

(** * The bits of an identifier *)

Lemma lor_disjoint k x y : 0 <= k -> 0 <= y < 2 ^ k -> Z.lor (x * 2 ^ k) y = x * 2 ^ k + y.
Proof.
  intros Hk Hy. assert (Hd : Z.land (x * 2 ^ k) y = 0).
  { rewrite <- Z.shiftl_mul_pow2 by done. apply Z.bits_inj'. intros i Hi.
    rewrite Z.land_spec, Z.bits_0, Z.shiftl_spec by done. destruct (decide (i < k)).
    - by rewrite Z.testbit_neg_r by lia.
    - rewrite <- (Z.mod_small y (2 ^ k)), Z.mod_pow2_bits_high by lia. apply andb_false_r. }
  by rewrite Z.add_nocarry_lxor, Z.lxor_lor.
Qed.

(** The fields of RFC 9562 are where they belong: the clock, the version, the
    variant and the random bits. *)
Lemma uuid7_fields ms a b : 0 <= a < 2 ^ 12 -> 0 <= b < 2 ^ 62 ->
  uuid7_value ms a b = (ms mod 2 ^ 48) * 2 ^ 80 + 7 * 2 ^ 76 + a * 2 ^ 64 + 2 * 2 ^ 62 + b.
Proof.
  intros Ha Hb. unfold uuid7_value. change (Z.shiftl 1 48 - 1) with (Z.ones 48).
  rewrite Z.land_ones by lia. rewrite !Z.shiftl_mul_pow2 by lia.
  set (t := ms mod 2 ^ 48).
  replace (Z.lor (t * 2 ^ 80) (7 * 2 ^ 76)) with ((t * 2 ^ 4 + 7) * 2 ^ 76) by (rewrite (lor_disjoint 80); lia).
  replace (Z.lor ((t * 2 ^ 4 + 7) * 2 ^ 76) (a * 2 ^ 64)) with (((t * 2 ^ 4 + 7) * 2 ^ 12 + a) * 2 ^ 64)
    by (rewrite (lor_disjoint 76); lia).
  replace (Z.lor (((t * 2 ^ 4 + 7) * 2 ^ 12 + a) * 2 ^ 64) (2 * 2 ^ 62))
    with ((((t * 2 ^ 4 + 7) * 2 ^ 12 + a) * 2 ^ 2 + 2) * 2 ^ 62) by (rewrite (lor_disjoint 64); lia).
  rewrite lor_disjoint by lia. lia.
Qed.

(** Until the clock leaves 48 bits, an identifier of a later millisecond is greater. *)
Lemma uuid7_ordered ms a b ms' a' b' : 0 <= ms < ms' -> ms' < 2 ^ 48 ->
  0 <= a < 2 ^ 12 -> 0 <= b < 2 ^ 62 -> 0 <= a' < 2 ^ 12 -> 0 <= b' < 2 ^ 62 ->
  uuid7_value ms a b < uuid7_value ms' a' b'.
Proof. intros. rewrite !uuid7_fields, !Z.mod_small by lia. lia. Qed.

Lemma uuid7_width ms a b : 0 <= a < 2 ^ 12 -> 0 <= b < 2 ^ 62 -> 0 <= uuid7_value ms a b < 2 ^ 128.
Proof. intros. rewrite uuid7_fields by done. pose proof (Z.mod_pos_bound ms (2 ^ 48)). lia. Qed.

Lemma hex_digit_read d : 0 <= d < 16 -> exists c, substring (Z.to_nat d) 1 hex_digits = String c EmptyString /\
  hex_value c = Some d /\ Ascii.eqb c "-" = false.
Proof.
  intros H. assert (Hd : d ∈ seqZ 0 16) by (apply elem_of_seqZ; lia). clear H. revert d Hd.
  apply Forall_forall. repeat constructor; eexists; split_and!; reflexivity.
Qed.

(** Reading the digits back, after any others. *)
Lemma hex_text_read n value acc rest :
  read_base 16 hex_value acc (hex_text n value +:+ rest) =
  read_base 16 hex_value (acc * 2 ^ (4 * Z.of_nat n) + value mod 2 ^ (4 * Z.of_nat n)) rest.
Proof.
  revert acc. induction n as [|n IH]; intros acc.
  - cbn [hex_text]. f_equal. change (2 ^ (4 * Z.of_nat 0)) with 1. rewrite Z.mod_1_r. lia.
  - cbn [hex_text]. change 15 with (Z.ones 4). rewrite Z.land_ones, Z.shiftr_div_pow2 by lia.
    set (p := 2 ^ (4 * Z.of_nat n)). assert (0 < p) by (unfold p; apply Z.pow_pos_nonneg; lia).
    destruct (hex_digit_read ((value / p) mod 2 ^ 4)) as (c & -> & Hc & _); [apply Z.mod_pos_bound; lia|].
    change ((String c EmptyString +:+ hex_text n value) +:+ rest) with (String c (hex_text n value +:+ rest)).
    cbn [read_base]. rewrite Hc. cbn. rewrite IH. f_equal. fold p.
    replace (2 ^ (4 * Z.of_nat (S n))) with (p * 2 ^ 4) by (unfold p; rewrite <- Z.pow_add_r by lia; f_equal; lia).
    rewrite (Z.rem_mul_r value p) by lia. lia.
Qed.

Lemma hex_text_plain n value : has_char "-" (hex_text n value) = false.
Proof.
  induction n as [|n IH]; [done|]. cbn [hex_text].
  destruct (hex_digit_read (Z.land (Z.shiftr value (4 * Z.of_nat n)) 15)) as (c & -> & _ & Hc).
  { change 15 with (Z.ones 4). rewrite Z.land_ones by lia. apply Z.mod_pos_bound. lia. }
  change (String c EmptyString +:+ hex_text n value) with (String c (hex_text n value)).
  by rewrite has_char_cons, Hc, IH.
Qed.

Lemma hex_split v k m : 0 <= k -> 0 <= m ->
  (v / 2 ^ k) mod 2 ^ m * 2 ^ k + v mod 2 ^ k = v mod 2 ^ (m + k).
Proof.
  intros Hk Hm. rewrite Z.pow_add_r, (Z.mul_comm (2 ^ m)), Z.rem_mul_r by lia. lia.
Qed.

Lemma dash_removed n value rest :
  remove_char "-" (hex_text n value +:+ "-" +:+ rest) = hex_text n value +:+ remove_char "-" rest.
Proof. rewrite remove_char_app by apply hex_text_plain. by rewrite string_cons_app. Qed.

(** The text of an identifier is the identifier: [uuid.UUID(text).int]. *)
Lemma uuid_text_read v : 0 <= v < 2 ^ 128 -> read_hex (remove_char "-" (uuid_text v)) = Some v.
Proof.
  intros Hv. unfold uuid_text. cbn [join]. rewrite !dash_removed, (remove_char_none _ _ (hex_text_plain _ _)).
  set (digits := _ +:+ _). assert (Hne : String.eqb digits EmptyString = false).
  { unfold digits. cbn [hex_text].
    destruct (hex_digit_read (Z.land (Z.shiftr (Z.shiftr v 96) (4 * Z.of_nat 7)) 15)) as (c & -> & _); [|done].
    change 15 with (Z.ones 4). rewrite Z.land_ones by lia. apply Z.mod_pos_bound. lia. }
  unfold read_hex. rewrite Hne. unfold digits. rewrite <- (app_empty (hex_text 12 v)), !hex_text_read.
  cbn [read_base]. f_equal. rewrite !Z.shiftr_div_pow2 by lia.
  change (4 * Z.of_nat 8) with 32. change (4 * Z.of_nat 4) with 16. change (4 * Z.of_nat 12) with 48.
  pose proof (hex_split v 48 16 ltac:(done) ltac:(done)) as H1.
  pose proof (hex_split v 64 16 ltac:(done) ltac:(done)) as H2.
  pose proof (hex_split v 80 16 ltac:(done) ltac:(done)) as H3.
  pose proof (hex_split v 96 32 ltac:(done) ltac:(done)) as H4.
  change (16 + 48) with 64 in H1. change (16 + 64) with 80 in H2. change (16 + 80) with 96 in H3.
  change (32 + 96) with 128 in H4. rewrite (Z.mod_small v (2 ^ 128)) in H4 by lia. lia.
Qed.

Example database_address :
  let s := mkAppSettings "mock" false "SHADOW" 5 30 1 30 false None "https://opendart.fss.or.kr" false None
    "https://data-dbg.krx.co.kr" false None None "https://naverapihub.apigw.ntruss.com"
    "postgresql+psycopg://cresta@db:5432/cresta" (Some "/run/secrets/db")
    false "https://mockapi.kiwoom.com/" "wss://mockapi.kiwoom.com:10000" None None None 60 10 in
  let read_text := fun path : string => if String.eqb path "/run/secrets/db" then Some " p@s:%/ " else None in
  (resolved_database_url read_text s, alembic_database_url read_text s, get_settings s) =
  (inr "postgresql+psycopg://cresta:p%40s%3A%25%2F@db:5432/cresta",
   inr "postgresql+psycopg://cresta:p%%40s%%3A%%25%%2F@db:5432/cresta", inr s).
Proof. vm_compute. reflexivity. Qed.
