(* ===== verification/Regex.v ===== *)
(** * Regular expressions

    The patterns of [re] the code searches texts for: literals, classes,
    repetition of a class, alternatives, anchors and word boundaries, on ASCII
    text.  A backtracking search decides a declarative relation, the meaning of
    the patterns. *)

Set Warnings "-register-all".

From Stdlib Require Import ZArith Lia Ascii String.
From stdpp Require Import base numbers strings list.
From S2P Require Import Prelude Decimal Json DecimalText PyText.

Inductive regex :=
| REmpty
| RClass (p : ascii -> bool)
| RStar (p : ascii -> bool)
| RSeq (r1 r2 : regex)
| RAlt (r1 r2 : regex)
| RStart                     (** [^] *)
| REnd                       (** [$] *)
| RWord.                     (** [\b] *)

(** ** Classes *)

Definition char_in (cs : list ascii) (c : ascii) : bool := bool_decide (c ∈ cs).

(** [\w]; [\s] is [is_space]. *)
Definition is_word (c : ascii) : bool :=
  let n := nat_of_ascii c in
  is_digit c || (Nat.leb 65 n && Nat.leb n 90) || (Nat.leb 97 n && Nat.leb n 122) || Nat.eqb n 95.

Fixpoint lit (s : string) : regex :=
  match s with
  | EmptyString => REmpty
  | String c s => RSeq (RClass (Ascii.eqb c)) (lit s)
  end.

Definition seqs (l : list regex) : regex := foldr RSeq REmpty l.
Definition plus (p : ascii -> bool) : regex := RSeq (RClass p) (RStar p).
Definition times (n : nat) (r : regex) : regex := seqs (repeat r n).
Definition optional (r : regex) : regex := RAlt r REmpty.

(** ** A place in a text: the character before, if any, and the rest *)

Definition before_word (prev : option ascii) : bool :=
  match prev with Some c => is_word c | None => false end.
Definition after_word (s : string) : bool :=
  match s with String c _ => is_word c | EmptyString => false end.
Definition at_boundary (prev : option ascii) (s : string) : bool :=
  xorb (before_word prev) (after_word s).
Definition at_start (prev : option ascii) : bool := match prev with None => true | Some _ => false end.

(** [$] also matches before a newline at the end. *)
Definition at_end (s : string) : bool :=
  match s with
  | EmptyString => true
  | String c EmptyString => Ascii.eqb c (ascii_of_nat 10)
  | _ => false
  end.

(** ** Meaning *)

Definition place : Type := option ascii * string.

Inductive matches : regex -> place -> place -> Prop :=
| m_empty x : matches REmpty x x
| m_class p prev c s : p c = true -> matches (RClass p) (prev, String c s) (Some c, s)
| m_star_end p x : matches (RStar p) x x
| m_star_more p prev c s y :
    p c = true -> matches (RStar p) (Some c, s) y -> matches (RStar p) (prev, String c s) y
| m_seq r1 r2 x y z : matches r1 x y -> matches r2 y z -> matches (RSeq r1 r2) x z
| m_alt_left r1 r2 x y : matches r1 x y -> matches (RAlt r1 r2) x y
| m_alt_right r1 r2 x y : matches r2 x y -> matches (RAlt r1 r2) x y
| m_start s : matches RStart (None, s) (None, s)
| m_end prev s : at_end s = true -> matches REnd (prev, s) (prev, s)
| m_word prev s : at_boundary prev s = true -> matches RWord (prev, s) (prev, s).

(** The places of a text from a place on, from left to right. *)
Inductive reaches_place : place -> place -> Prop :=
| place_here x : reaches_place x x
| place_later prev c s y : reaches_place (Some c, s) y -> reaches_place (prev, String c s) y.

(** The pattern occurs in the text. *)
Definition occurs (r : regex) (text : string) : Prop :=
  exists x y, reaches_place (None, text) x /\ matches r x y.

(** ** Search *)

Definition continuation : Type := option ascii -> string -> bool.

Fixpoint star (p : ascii -> bool) (k : continuation) (prev : option ascii) (s : string) : bool :=
  k prev s || match s with String c s => p c && star p k (Some c) s | EmptyString => false end.

Fixpoint run (r : regex) (k : continuation) (prev : option ascii) (s : string) : bool :=
  match r with
  | REmpty => k prev s
  | RClass p => match s with String c s => p c && k (Some c) s | EmptyString => false end
  | RStar p => star p k prev s
  | RSeq r1 r2 => run r1 (run r2 k) prev s
  | RAlt r1 r2 => run r1 k prev s || run r2 k prev s
  | RStart => at_start prev && k prev s
  | REnd => at_end s && k prev s
  | RWord => at_boundary prev s && k prev s
  end.

Fixpoint search_from (r : regex) (prev : option ascii) (s : string) : bool :=
  run r (fun _ _ => true) prev s ||
  match s with String c s => search_from r (Some c) s | EmptyString => false end.

(** [re.search(pattern, text) is not None] *)
Definition re_search (r : regex) (text : string) : bool := search_from r None text.

(** [re.fullmatch(pattern, text) is not None] *)
Definition re_fullmatch (r : regex) (text : string) : bool := run r (fun _ s => String.eqb s EmptyString) None text.

Example searches :
  let api_key := seqs [RWord; lit "api"; optional (RClass (char_in [" "; "_"; "-"]%char)); lit "key"; RWord] in
  map (re_search api_key) ["an api-key, please"; "apikey"; "the api  key"; "rapikey"; "api_keys"]
  = [true; true; false; false; false].
Proof. vm_compute. reflexivity. Qed.

(** ** The search decides the meaning *)

Lemma star_matches p k prev s :
  star p k prev s = true <-> exists y, matches (RStar p) (prev, s) y /\ k y.1 y.2 = true.
Proof.
  revert prev. induction s as [|c s IH]; intros prev; cbn [star]; rewrite orb_true_iff; split.
  - intros [H|H]; [|done]. exists (prev, EmptyString). by split; [constructor|].
  - intros (y & H & Hk). inversion H; subst. by left.
  - rewrite andb_true_iff, IH. intros [H|[Hp (y & Hm & Hk)]].
    + exists (prev, String c s). by split; [constructor|].
    + exists y. by split; [constructor|].
  - rewrite andb_true_iff, IH. intros (y & H & Hk). inversion H; subst; [by left|right; eauto].
Qed.

Lemma run_matches r k prev s :
  run r k prev s = true <-> exists y, matches r (prev, s) y /\ k y.1 y.2 = true.
Proof.
  revert k prev s. induction r as [|p|p|r1 IH1 r2 IH2|r1 IH1 r2 IH2| | |]; intros k prev s; cbn [run].
  - split; [intros H; exists (prev, s); by split; [constructor|]|].
    intros (y & H & Hk). by inversion H; subst.
  - destruct s as [|c s]; [split; [done|intros (y & H & _); inversion H]|]. rewrite andb_true_iff. split.
    + intros [Hp Hk]. exists (Some c, s). by split; [constructor|].
    + intros (y & H & Hk). by inversion H; subst.
  - apply star_matches.
  - rewrite IH1. split.
    + intros ([prev' s'] & H1 & Hk). apply IH2 in Hk as (z & H2 & Hk). exists z. by split; [econstructor|].
    + intros (z & H & Hk). inversion H as [| | | |? ? ? [prev' s'] ? H1 H2| | | | |]; subst.
      exists (prev', s'). split; [done|]. apply IH2. eauto.
  - rewrite orb_true_iff, IH1, IH2. split.
    + intros [(y & H & Hk)|(y & H & Hk)]; exists y; (split; [|done]); by constructor.
    + intros (y & H & Hk). inversion H; subst; eauto.
  - rewrite andb_true_iff. split.
    + intros [Ha Hk]. destruct prev; [done|]. exists (None, s). by split; [constructor|].
    + intros (y & H & Hk). by inversion H; subst.
  - rewrite andb_true_iff. split; [intros [Ha Hk]; exists (prev, s); by split; [constructor|]|].
    intros (y & H & Hk). by inversion H; subst.
  - rewrite andb_true_iff. split; [intros [Ha Hk]; exists (prev, s); by split; [constructor|]|].
    intros (y & H & Hk). by inversion H; subst.
Qed.

Lemma search_from_occurs r prev s :
  search_from r prev s = true <-> exists x y, reaches_place (prev, s) x /\ matches r x y.
Proof.
  revert prev. induction s as [|c s IH]; intros prev; cbn [search_from];
    rewrite orb_true_iff, run_matches; split.
  - intros [(y & H & _)|H]; [|done]. exists (prev, EmptyString), y. by split; [constructor|].
  - intros (x & y & Hx & Hm). inversion Hx; subst. left. eauto.
  - rewrite IH. intros [(y & H & _)|(x & y & Hx & Hm)].
    + exists (prev, String c s), y. by split; [constructor|].
    + exists x, y. by split; [constructor|].
  - rewrite IH. intros (x & y & Hx & Hm). inversion Hx; subst; [left|right]; eauto.
Qed.

(** A search succeeds exactly when the pattern occurs in the text. *)
Theorem search_decides_occurrence r text : re_search r text = true <-> occurs r text.
Proof. apply search_from_occurs. Qed.

(** The search for a literal is [in]. *)
Lemma run_lit t prev s : run (lit t) (fun _ _ => true) prev s = String.prefix t s.
Proof.
  revert prev s. induction t as [|c t IH]; intros prev s; [by destruct s|].
  destruct s as [|d s]; cbn; [done|]. rewrite IH.
  destruct (ascii_dec c d) as [->|Hd]; [by rewrite Ascii.eqb_refl|].
  by apply Ascii.eqb_neq in Hd as ->.
Qed.

Lemma search_literal t s : re_search (lit t) s = contains t s.
Proof.
  unfold re_search. generalize (@None ascii). induction s as [|c s IH]; intros prev; cbn [search_from contains];
    rewrite run_lit; [done|]. by rewrite IH.
Qed.

Lemma fullmatch_matches r text :
  re_fullmatch r text = true <-> exists prev, matches r (None, text) (prev, EmptyString).
Proof.
  unfold re_fullmatch. rewrite run_matches. split.
  - intros ([prev s] & H & Hs). apply String.eqb_eq in Hs. cbn in Hs. subst. eauto.
  - intros [prev H]. exists (prev, EmptyString). done.
Qed.
