(* ===== verification/Watchlist.v ===== *)
(** * The watchlist of a user

    [watchlist.py]: at most three symbols per user, each of them once. *)

Set Warnings "-register-all".

From Stdlib Require Import ZArith Lia Ascii String.
From stdpp Require Import base numbers strings list gmap.
From S2P Require Import Prelude Json PyTime Models Session PyText.

Open Scope Z_scope.

Definition MAX_WATCHLIST_ITEMS : nat := 3.

Definition items_of_user (user_id : string) (db : DB) : list WatchlistItem :=
  List.filter (fun w => String.eqb (wl_user_id w) user_id) (rows (watchlist db)).

(** [created_at]: the audit column of the row. *)
Definition list_items (created_at : WatchlistItem -> Z) (db : DB) (user_id : string) : list WatchlistItem :=
  sort_by (fun a b => (created_at a <? created_at b) ||
                      ((created_at a =? created_at b) && String.leb (wl_id a) (wl_id b)))
    (items_of_user user_id db).

Definition active_kiwoom_symbols (db : DB) : list string :=
  sort_by String.leb (remove_dups (map wl_symbol
    (List.filter (fun w => String.eqb (wl_market w) "KRX") (rows (watchlist db))))).

Definition same_item (user_id market symbol : string) (w : WatchlistItem) : bool :=
  String.eqb (wl_user_id w) user_id && String.eqb (wl_market w) market && String.eqb (wl_symbol w) symbol.

(** [uq_watchlist_items_user_market_symbol] and the primary key. *)
Definition item_clash (item : WatchlistItem) (db : DB) : bool :=
  bool_decide (is_Some (watchlist db !! wl_id item)) ||
  existsb (same_item (wl_user_id item) (wl_market item) (wl_symbol item)) (rows (watchlist db)).

Definition put_item (item : WatchlistItem) (db : DB) : DB :=
  set_watchlist db (<[wl_id item := item]> (watchlist db)).

Definition item_audit (user : User) (action : string) (item : WatchlistItem) (correlation_id : string) :
  AuditLog :=
  mkAuditLog "USER" (Some (u_id user)) action (Some (wl_id item)) "SUCCESS" None None correlation_id
    (JObj [("market", JStr (wl_market item)); ("symbol", JStr (wl_symbol item))]).

(** [waiting]: what the others commit while the row of the user is locked;
    [race]: what they commit before the flush. *)
Definition create_item (user : User) (symbol market correlation_id : string) (waiting race : DB -> DB) :
  prog WatchlistItem :=
  guard_or (String.eqb market "KRX") (WatchlistError "WATCHLIST_MARKET_UNSUPPORTED_IN_MOCK" 422) ;;
  guard_or (digits_of_length 6 symbol) (WatchlistError "WATCHLIST_SYMBOL_INVALID" 422) ;;
  others_commit waiting ;;
  duplicate ← gets (fun db => find_row (same_item (u_id user) market symbol) (watchlist db));
  guard_or (bool_decide (duplicate = None)) (WatchlistError "WATCHLIST_ITEM_EXISTS" 409) ;;
  count ← gets (fun db => length (items_of_user (u_id user) db));
  guard_or (Nat.ltb count MAX_WATCHLIST_ITEMS) (WatchlistError "WATCHLIST_LIMIT_REACHED" 422) ;;
  id ← uuid7;
  let item := mkWatchlistItem id (u_id user) symbol market in
  flush_checked race (item_clash item) (put_item item) ;;
  modify (add_audit (item_audit user "WATCHLIST_ITEM_CREATED" item correlation_id)) ;;
  commit ;;
  mret item.

Definition delete_item (user : User) (item_id correlation_id : string) : prog unit :=
  item ← gets (fun db => watchlist db !! item_id);
  match item with
  | Some item =>
      if String.eqb (wl_user_id item) (u_id user) then
        modify (fun db => set_watchlist db (delete item_id (watchlist db))) ;;
        modify (add_audit (item_audit user "WATCHLIST_ITEM_DELETED" item correlation_id)) ;;
        commit
      else raise (WatchlistError "WATCHLIST_ITEM_NOT_FOUND" 404)
  | None => raise (WatchlistError "WATCHLIST_ITEM_NOT_FOUND" 404)
  end.

(** ** The watchlists of all users *)

Record watchlists_ok (db : DB) : Prop := mkWatchlistsOk {
  wo_keyed : forall k w, watchlist db !! k = Some w -> wl_id w = k;
  wo_bounded : forall user_id, (length (items_of_user user_id db) <= MAX_WATCHLIST_ITEMS)%nat;
  wo_once : forall k k' w w', watchlist db !! k = Some w -> watchlist db !! k' = Some w' ->
    same_item (wl_user_id w) (wl_market w) (wl_symbol w) w' = true -> k = k';
  wo_subscribable : forall k w, watchlist db !! k = Some w ->
    wl_market w = "KRX" /\ digits_of_length 6 (wl_symbol w) = true
}.

(** Commits of the others; the row of the user is locked. *)
Record others_watch (user_id : string) (race : DB -> DB) : Prop := mkOthersWatch {
  ow_ok : forall db, watchlists_ok db -> watchlists_ok (race db);
  ow_locked : forall db, items_of_user user_id (race db) = items_of_user user_id db
}.

Lemma items_of_put user_id item db :
  watchlist db !! wl_id item = None ->
  length (items_of_user user_id (put_item item db)) =
  ((if String.eqb (wl_user_id item) user_id then 1 else 0) + length (items_of_user user_id db))%nat.
Proof.
  intros H. unfold items_of_user, put_item. cbn [watchlist set_watchlist].
  rewrite (rows_insert_fresh _ _ _ H). cbn. by destruct (String.eqb _ _).
Qed.

Lemma items_of_delete user_id id db :
  (length (items_of_user user_id (set_watchlist db (delete id (watchlist db)))) <= length (items_of_user user_id db))%nat.
Proof.
  unfold items_of_user. cbn [watchlist set_watchlist]. destruct (watchlist db !! id) as [w|] eqn:E.
  - rewrite (rows_delete _ _ _ E). cbn. destruct (String.eqb _ _); cbn; lia.
  - by rewrite delete_id.
Qed.

Lemma put_item_ok item db :
  watchlists_ok db -> item_clash item db = false ->
  (length (items_of_user (wl_user_id item) db) < MAX_WATCHLIST_ITEMS)%nat ->
  wl_market item = "KRX" -> digits_of_length 6 (wl_symbol item) = true -> watchlists_ok (put_item item db).
Proof.
  intros [H1 H2 H3 H4] Hc Hn Hm Hs. unfold item_clash in Hc. bool_to_prop.
  assert (Hf : watchlist db !! wl_id item = None) by (by apply eq_None_not_Some).
  assert (Hnew : forall k w, watchlist db !! k = Some w ->
            same_item (wl_user_id item) (wl_market item) (wl_symbol item) w = false).
  { intros k w Hk. apply (existsb_false_Forall _ (rows (watchlist db))) in H0.
    rewrite Forall_forall in H0. apply H0, elem_of_rows. eauto. }
  split; cbn [put_item watchlist set_watchlist].
  - intros k w. rewrite lookup_insert_Some. intros [[<- <-]|[_ Hk]]; eauto.
  - intros u. rewrite (items_of_put u item db Hf). destruct (String.eqb_spec (wl_user_id item) u); [subst; lia|].
    specialize (H2 u). lia.
  - intros k k' w w'. rewrite !lookup_insert_Some. intros [[<- <-]|[_ Hk]] [[<- <-]|[_ Hk']] He; eauto.
    + by rewrite (Hnew _ _ Hk') in He.
    + assert (Hsym : same_item (wl_user_id item) (wl_market item) (wl_symbol item) w = true).
      { unfold same_item in *. bool_to_prop. rewrite !andb_true_iff, !String.eqb_eq in *. split_and!; congruence. }
      by rewrite (Hnew _ _ Hk) in Hsym.
  - intros k w. rewrite lookup_insert_Some. intros [[_ <-]|[_ Hk]]; eauto.
Qed.

Lemma delete_item_ok id db :
  watchlists_ok db -> watchlists_ok (set_watchlist db (delete id (watchlist db))).
Proof.
  intros [H1 H2 H3 H4]. split; cbn [watchlist set_watchlist].
  - intros k w. rewrite lookup_delete_Some. intros [_ Hk]. eauto.
  - intros u. pose proof (items_of_delete u id db). specialize (H2 u). lia.
  - intros k k' w w'. rewrite !lookup_delete_Some. intros [_ Hk] [_ Hk']. eauto.
  - intros k w. rewrite lookup_delete_Some. intros [_ Hk]. eauto.
Qed.

Lemma others_item_clash user_id market symbol race db :
  others_watch user_id race -> find_row (same_item user_id market symbol) (watchlist db) = None ->
  existsb (same_item user_id market symbol) (rows (watchlist (race db))) = false.
Proof.
  intros [_ Hl] Hn. apply existsb_false_Forall, Forall_forall. intros w Hw.
  destruct (same_item user_id market symbol w) eqn:E; [|done].
  assert (Hu : String.eqb (wl_user_id w) user_id = true) by (unfold same_item in E; by bool_to_prop).
  assert (Hin : w ∈ items_of_user user_id db).
  { rewrite <- Hl. unfold items_of_user. apply list_elem_of_In, filter_In. split; [|done]. by apply list_elem_of_In. }
  unfold items_of_user in Hin. apply list_elem_of_In, filter_In in Hin as [Hin _].
  apply list_elem_of_In, elem_of_rows in Hin as [k Hk].
  by rewrite (find_row_None _ _ _ _ Hn Hk) in E.
Qed.

(** Adding a symbol, in all interleavings with the other users: the watchlists
    stay within their bounds, the item is stored or the call is refused without
    a change of its own, and the flush fails only on a taken identifier. *)
Theorem create_item_keeps_bounds user symbol market corr waiting race db now ids s r :
  watchlists_ok db -> others_watch (u_id user) waiting -> others_watch (u_id user) race ->
  create_item user symbol market corr waiting race (open_session db now ids) = (s, r) ->
  watchlists_ok (disk s) /\
  match r with
  | inl item => item = mkWatchlistItem (ids 0%nat) (u_id user) symbol market /\
      watchlist (disk s) !! wl_id item = Some item
  | inr (WatchlistError _ _) => disk s = db \/ disk s = waiting db
  | inr e => e = IntegrityError /\ is_Some (watchlist (disk s) !! ids 0%nat)
  end.
Proof.
  intros Hok Hw Hr Hrun. refine (wp_elim _ (fun s r => watchlists_ok (disk s) /\ match r with
    | inl item => item = mkWatchlistItem (ids 0%nat) (u_id user) symbol market /\
        watchlist (disk s) !! wl_id item = Some item
    | inr (WatchlistError _ _) => disk s = db \/ disk s = waiting db
    | inr e => e = IntegrityError /\ is_Some (watchlist (disk s) !! ids 0%nat) end) _ _ _ _ Hrun).
  pose proof (ow_ok _ _ Hw db Hok) as Hok1. unfold create_item.
  wp_step. apply wp_guard_or; intros Hm; [|by wp_step; auto]. wp_step.
  wp_step. apply wp_guard_or; intros Hs; [|by wp_step; auto]. wp_step.
  wp_step. apply wp_others_commit. wp_step. do 2 wp_step. wp_step.
  wp_step. apply wp_guard_or; intros Hd; [|by wp_step; cbn; auto]. wp_step. do 2 wp_step. wp_step.
  wp_step. apply wp_guard_or; intros Hn; [|by wp_step; cbn; auto]. wp_step. do 2 wp_step. wp_step.
  cbv zeta. wp_step. apply bool_decide_eq_true in Hd. cbn [work interleave] in Hd.
  pose proof (ow_ok _ _ Hr _ Hok1) as Hok2.
  pose proof (others_item_clash _ _ _ _ _ Hr Hd) as Hclash. cbn [work open_session] in Hclash.
  apply wp_flush_checked; cbn [work interleave open_session next_uuid uuids uuid_ix]; intros Hc; unfold after at 1.
  - split; [exact Hok2|]. split; [done|]. unfold item_clash in Hc.
    apply orb_true_iff in Hc as [Hc|Hc]; [by apply bool_decide_eq_true in Hc|].
    cbn [wl_user_id wl_market wl_symbol] in Hc. by rewrite Hclash in Hc.
  - do 4 wp_step. cbn.
    assert (Hl : (length (items_of_user (u_id user) (race (waiting db))) < MAX_WATCHLIST_ITEMS)%nat).
    { rewrite (ow_locked _ _ Hr). by apply Nat.ltb_lt. }
    apply String.eqb_eq in Hm.
    pose proof (put_item_ok _ _ Hok2 Hc Hl Hm Hs) as [Ho1 Ho2 Ho3 Ho4].
    split; [by split|]. split; [done|]. apply lookup_insert_eq.
Qed.
