(* ===== verification/KiwoomWs.v ===== *)
(** * The market feed

    [broker/kiwoom_ws.py], and the theorem about what it hands on. *)

Set Warnings "-register-all".

From Stdlib Require Import ZArith Lia Ascii String.
From stdpp Require Import base numbers strings list.
From S2P Require Import Prelude Decimal Json PyTime Models Session MarketWatch DecimalText PyText.

Open Scope Z_scope.

(** * The market feed

    [broker/kiwoom_ws.py]: the connection to the broker's websocket, the
    subscription to the watched symbols and the events read from it.

    The wire is what the broker sends, in order ([fd_incoming]); a connection
    that was closed shows at the next use.  A price may be infinite, as the code
    accepts the text of an infinity. *)

Definition ORDER_EVENT_TYPE : string := "00".
Definition BALANCE_EVENT_TYPE : string := "04".
Definition ACCOUNT_EVENT_TYPES : list string := [ORDER_EVENT_TYPE; BALANCE_EVENT_TYPE].
Definition TRADE_EVENT_TYPE : string := "0B".
Definition ORDERBOOK_EVENT_TYPE : string := "0D".
Definition WATCH_EVENT_TYPES : list string := [TRADE_EVENT_TYPE; ORDERBOOK_EVENT_TYPE].
Definition NXT_SUFFIX : string := "_NX".

(** ** The state of the client *)

Record Trade := mkTrade {
  tr_last_price : amount;
  tr_open_price : amount;
  tr_high_price : amount;
  tr_low_price : amount;
  tr_cumulative_volume : Z;
  tr_event_at : Z
}.

Record Book := mkBook {
  bk_best_ask_price : amount;
  bk_best_ask_quantity : Z;
  bk_best_bid_price : amount;
  bk_best_bid_quantity : Z;
  bk_event_at : Z
}.

Inductive FeedEvent := ACCOUNT_EVENT | Quote (event : quote_event_of amount).

(** What [recv] gives: text, with its JSON if it parses; nothing in time; or
    the end of the connection. *)
Inductive Incoming := Message (payload : option json) | Silence | Closed.

Record Feed := mkFeed {
  fd_connected : bool;
  fd_quote_symbols : list string;
  fd_quote_items : list string;
  fd_pending_events : list FeedEvent;
  fd_trade_cache : list (string * Trade);
  fd_orderbook_cache : list (string * Book);
  fd_incoming : list Incoming;
  fd_sent : list json
}.

Definition new_feed : Feed := mkFeed false [] [] [] [] [] [] [].

Definition ws (A : Type) : Type := Feed -> Feed * (A + exn).

#[export] Instance ws_ret : MRet ws := fun A a f => (f, inl a).
#[export] Instance ws_bind : MBind ws := fun A B k m f =>
  match m f with
  | (f', inl a) => k a f'
  | (f', inr e) => (f', inr e)
  end.

Definition ws_raise {A} (e : exn) : ws A := fun f => (f, inr e).
Definition ws_get {A} (g : Feed -> A) : ws A := fun f => (f, inl (g f)).
Definition ws_set (g : Feed -> Feed) : ws unit := fun f => (g f, inl tt).

Definition set_subscription (symbols items : list string) (f : Feed) : Feed :=
  mkFeed (fd_connected f) symbols items (fd_pending_events f) (fd_trade_cache f) (fd_orderbook_cache f)
    (fd_incoming f) (fd_sent f).
Definition set_connected (connected : bool) (f : Feed) : Feed :=
  mkFeed connected (fd_quote_symbols f) (fd_quote_items f) (fd_pending_events f) (fd_trade_cache f)
    (fd_orderbook_cache f) (fd_incoming f) (fd_sent f).
Definition set_pending (events : list FeedEvent) (f : Feed) : Feed :=
  mkFeed (fd_connected f) (fd_quote_symbols f) (fd_quote_items f) events (fd_trade_cache f)
    (fd_orderbook_cache f) (fd_incoming f) (fd_sent f).
Definition set_caches (trades : list (string * Trade)) (books : list (string * Book)) (f : Feed) : Feed :=
  mkFeed (fd_connected f) (fd_quote_symbols f) (fd_quote_items f) (fd_pending_events f) trades books
    (fd_incoming f) (fd_sent f).
Definition set_wire (incoming : list Incoming) (sent : list json) (f : Feed) : Feed :=
  mkFeed (fd_connected f) (fd_quote_symbols f) (fd_quote_items f) (fd_pending_events f) (fd_trade_cache f)
    (fd_orderbook_cache f) incoming sent.

(** ** The wire *)

Definition ws_error {A} (code : string) : ws A := ws_raise (KiwoomWebSocketError code).

Definition _send (payload : json) : ws unit := fun f =>
  if negb (fd_connected f) then ws_error "KIWOOM_WS_NOT_CONNECTED" f
  else match fd_incoming f with
       | Closed :: _ => ws_raise ConnectionFailed f
       | _ => ws_set (set_wire (fd_incoming f) (fd_sent f ++ [payload])) f
       end.

(** Nothing more to read is silence. *)
Definition _receive_json : ws json := fun f =>
  if negb (fd_connected f) then ws_error "KIWOOM_WS_NOT_CONNECTED" f
  else match fd_incoming f with
       | [] => ws_error "KIWOOM_WS_TIMEOUT" f
       | Silence :: rest => ws_error "KIWOOM_WS_TIMEOUT" (set_wire rest (fd_sent f) f)
       | Closed :: _ => ws_raise ConnectionFailed f
       | Message payload :: rest =>
           let f := set_wire rest (fd_sent f) f in
           match payload with
           | Some (JObj fields) => (f, inl (JObj fields))
           | _ => ws_error "KIWOOM_WS_INVALID_RESPONSE" f
           end
       end.

Definition is_trnm (name : string) (payload : json) : bool :=
  match get_field "trnm" payload with JStr s => String.eqb s name | _ => false end.

(** [for _ in range(attempts)] *)
Fixpoint wait_for_ack (attempts : nat) (expected error_code : string) : ws unit :=
  match attempts with
  | O => ws_error "KIWOOM_WS_PROTOCOL_ERROR"
  | S attempts =>
      payload ← _receive_json;
      if is_trnm "PING" payload then _send payload ;; wait_for_ack attempts expected error_code
      else if negb (is_trnm expected payload) then ws_error "KIWOOM_WS_PROTOCOL_ERROR"
      else if negb (is_int 0 (get_field "return_code" payload)) then ws_error error_code
      else mret tt
  end.

Definition _wait_for_ack (expected error_code : string) : ws unit := wait_for_ack 10 expected error_code.

(** ** Connecting and subscribing *)

Definition registration (group refresh : string) (items types : list string) : json :=
  JObj [("trnm", JStr "REG"); ("grp_no", JStr group); ("refresh", JStr refresh);
        ("data", JList [JObj [("item", JList (map JStr items)); ("type", JList (map JStr types))]])].

(** [connection]: what the new connection will send, or no connection. *)
Definition open_ (access_token : string) (connection : option (list Incoming)) : ws unit :=
  ws_set (fun f => mkFeed (fd_connected f) [] [] [] [] [] (fd_incoming f) (fd_sent f)) ;;
  (match connection with
   | None => ws_raise ConnectionFailed
   | Some incoming => ws_set (fun f => set_connected true (set_wire incoming [] f))
   end) ;;
  _send (JObj [("trnm", JStr "LOGIN"); ("token", JStr access_token)]) ;;
  _wait_for_ack "LOGIN" "KIWOOM_WS_LOGIN_FAILED" ;;
  _send (registration "1" "1" [EmptyString] [ORDER_EVENT_TYPE; BALANCE_EVENT_TYPE]) ;;
  _wait_for_ack "REG" "KIWOOM_WS_SUBSCRIBE_FAILED".

Definition drop_keys {A} (keys : list string) (d : list (string * A)) : list (string * A) :=
  List.filter (fun e => negb (bool_decide (e.1 ∈ keys))) d.

(** Both venues of a symbol. *)
Definition items_of (symbols : list string) : list string :=
  concat (map (fun symbol => [symbol; symbol +:+ NXT_SUFFIX]) symbols).

Definition sync_quotes (symbols : list string) : ws unit :=
  let normalized := sort_by String.leb (remove_dups symbols) in
  if negb (forallb (digits_of_length 6) normalized) then ws_error "KIWOOM_WS_INVALID_WATCHLIST"
  else
    let items := items_of normalized in
    current ← ws_get (fun f => (fd_quote_symbols f, fd_quote_items f));
    if bool_decide (current = (normalized, items)) then mret tt
    else
      (match normalized with
       | [] => if bool_decide (current.1 = []) then mret tt
               else _send (JObj [("trnm", JStr "REMOVE"); ("grp_no", JStr "2")]) ;;
                    _wait_for_ack "REMOVE" "KIWOOM_WS_UNSUBSCRIBE_FAILED"
       | _ => _send (registration "2" "0" items WATCH_EVENT_TYPES) ;;
              _wait_for_ack "REG" "KIWOOM_WS_QUOTE_SUBSCRIBE_FAILED"
       end) ;;
      ws_set (fun f =>
        let removed := List.filter (fun i => negb (bool_decide (i ∈ items))) (fd_quote_items f) in
        set_subscription normalized items
          (set_caches (drop_keys removed (fd_trade_cache f)) (drop_keys removed (fd_orderbook_cache f)) f)).

Definition close : ws unit :=
  ws_set (fun f => set_connected false (set_subscription [] [] f)).

(** ** Reading a quote *)

(** [str(value).strip().replace(",", "")] *)
Definition number_text_of (value : json) : string := remove_char "," (strip (py_str value)).

Definition _absolute_decimal (value : json) : option amount :=
  match decimal_of_text (number_text_of value) with
  | Some (Finite d) => let result := dabs d in if dleb result dzero then None else Some (Exact result)
  | Some (Infinity _) => Some Unbounded
  | _ => None
  end.

Definition _nonnegative_int (value : json) : option Z :=
  n ← py_int (number_text_of value);
  if n <? 0 then None else Some n.

Definition _normalize_quote_item (item : string) : option (string * string) :=
  let n := (String.length item - 3)%nat in
  let nxt := Nat.leb 3 (String.length item) && String.eqb (substring n 3 item) NXT_SUFFIX in
  let symbol := if nxt then substring 0 n item else item in
  if digits_of_length 6 symbol then Some (symbol, if nxt then "NXT" else "KRX") else None.

(** [datetime.time(h, m, s)]; [None] is [ValueError]. *)
Definition time_of_day (h m s : Z) : option Z :=
  if (h <? 24) && (m <? 60) && (s <? 60) then Some (time_of h m s) else None.

Definition digits_at (n : nat) (s : string) : Z := digits_from 0 (substring n 2 s).

Definition _event_time (value : json) (received_at : Z) : option Z :=
  let normalized := strip (py_str value) in
  if negb (digits_of_length 6 normalized) then None
  else
    parsed ← time_of_day (digits_at 0 normalized) (digits_at 2 normalized) (digits_at 4 normalized);
    let local_event := kst_combine (kst_date received_at) parsed in
    Some (if received_at + 5 * minute <? local_event then local_event - day else local_event).

(** [values[key]]; [None] is [KeyError]. *)
Definition field {A} (read : json -> option A) (key : string) (values : json) : option A :=
  jget key values ≫= read.

Definition read_trade (values : json) (received_at : Z) : option Trade :=
  last ← field _absolute_decimal "10" values;
  open ← field _absolute_decimal "16" values;
  high ← field _absolute_decimal "17" values;
  low ← field _absolute_decimal "18" values;
  volume ← field _nonnegative_int "13" values;
  event_at ← field (fun v => _event_time v received_at) "20" values;
  Some (mkTrade last open high low volume event_at).

Definition read_book (values : json) (received_at : Z) : option Book :=
  ask ← field _absolute_decimal "41" values;
  ask_quantity ← field _nonnegative_int "61" values;
  bid ← field _absolute_decimal "51" values;
  bid_quantity ← field _nonnegative_int "71" values;
  event_at ← field (fun v => _event_time v received_at) "21" values;
  Some (mkBook ask ask_quantity bid bid_quantity event_at).

Section Feed.
Context (sha256 : string -> string).

Definition quote_identity (event_type item : string) (values : json) : string :=
  sha256 (dumps (JObj [("type", JStr event_type); ("item", JStr item); ("values", values)])).

Definition merged_quote (symbol market identity : string) (received_at : Z) (trade : Trade)
  (book : option Book) (updates_trade : bool) : quote_event_of amount :=
  mkQuoteEvent symbol market "KIWOOM_WS" identity (tr_event_at trade) received_at true
    (tr_last_price trade) (tr_open_price trade) (tr_high_price trade) (tr_low_price trade)
    (tr_cumulative_volume trade) "TRADING" None (bk_best_bid_price <$> book) (bk_best_bid_quantity <$> book)
    (bk_best_ask_price <$> book) (bk_best_ask_quantity <$> book) false updates_trade.

(** The caches after the values of an item were read; [None] leaves them. *)
Definition cached_values (event_type item : string) (values : json) (received_at : Z) (f : Feed) :
  option Feed :=
  if String.eqb event_type TRADE_EVENT_TYPE then
    trade ← read_trade values received_at;
    Some (set_caches (dict_set item trade (fd_trade_cache f)) (fd_orderbook_cache f) f)
  else
    book ← read_book values received_at;
    Some (set_caches (fd_trade_cache f) (dict_set item book (fd_orderbook_cache f)) f).

(** A quote of a subscribed item; [received_at] is the clock. *)
Definition quote_of (event_type item : string) (values : json) (received_at : Z) (f : Feed) :
  Feed * option (quote_event_of amount) :=
  match _normalize_quote_item item with
  | None => (f, None)
  | Some (symbol, market) =>
      match cached_values event_type item values received_at f with
      | None => (f, None)
      | Some f =>
          (f, (fun trade => merged_quote symbol market (quote_identity event_type item values) received_at
                 trade (dict_get item (fd_orderbook_cache f)) (String.eqb event_type TRADE_EVENT_TYPE))
              <$> dict_get item (fd_trade_cache f))
      end
  end.

Definition _parse_quote_item (event_type : string) (entry : json) (received_at : Z) (f : Feed) :
  Feed * option (quote_event_of amount) :=
  match get_field "item" entry, get_field "values" entry with
  | JStr item, JObj values =>
      if bool_decide (item ∈ fd_quote_items f) then quote_of event_type item (JObj values) received_at f
      else (f, None)
  | _, _ => (f, None)
  end.

(** One entry of a message; a list or an object as its type is not hashable. *)
Definition take_entry (received_at : Z) (entry : json) : ws unit := fun f =>
  if negb (is_dict entry) then (f, inl tt)
  else match get_field "type" entry with
       | JStr event_type =>
           if bool_decide (event_type ∈ ACCOUNT_EVENT_TYPES)
           then (set_pending (fd_pending_events f ++ [ACCOUNT_EVENT]) f, inl tt)
           else if bool_decide (event_type ∈ WATCH_EVENT_TYPES) then
             let '(f, quote) := _parse_quote_item event_type entry received_at f in
             (match quote with
              | Some q => set_pending (fd_pending_events f ++ [Quote q]) f
              | None => f
              end, inl tt)
           else (f, inl tt)
       | JList _ | JObj _ => (f, inr OtherError)
       | _ => (f, inl tt)
       end.

Fixpoint take_entries (received_at : Z) (data : list json) : ws unit :=
  match data with
  | [] => mret tt
  | entry :: data => take_entry received_at entry ;; take_entries received_at data
  end.

Inductive Received := PING | OTHER | Event (event : FeedEvent).

(** [pending_events.popleft()], or ["OTHER"]. *)
Definition next_event : ws Received := fun f =>
  match fd_pending_events f with
  | event :: events => (set_pending events f, inl (Event event))
  | [] => (f, inl OTHER)
  end.

Definition receive (received_at : Z) : ws Received :=
  pending ← ws_get fd_pending_events;
  match pending with
  | _ :: _ => next_event
  | [] =>
      payload ← _receive_json;
      if is_trnm "PING" payload then _send payload ;; mret PING
      else if negb (is_trnm "REAL" payload) then mret OTHER
      else match get_field "data" payload with
           | JList data => take_entries received_at data ;; next_event
           | _ => ws_error "KIWOOM_WS_INVALID_RESPONSE"
           end
  end.
End Feed.

(** * What the market feed hands on

    Whatever the broker sends, an event of the feed is one the watch accepts,
    up to its time and the order of its prices. *)

(** ** Values read from the wire *)

Definition positive (d : amount) : Prop := zero_or_less d = false.

Record trade_ok (t : Trade) : Prop := mkTradeOk {
  to_prices : Forall positive [tr_last_price t; tr_open_price t; tr_high_price t; tr_low_price t];
  to_volume : 0 <= tr_cumulative_volume t
}.

Record book_ok (b : Book) : Prop := mkBookOk {
  bo_prices : Forall positive [bk_best_ask_price b; bk_best_bid_price b];
  bo_quantities : 0 <= bk_best_ask_quantity b /\ 0 <= bk_best_bid_quantity b
}.

(** What the watch checks of an event, but for its time and the order of its
    prices. *)
Record quote_ok (q : quote_event_of amount) : Prop := mkQuoteOk {
  qo_symbol : digits_of_length 6 (q_symbol q) = true;
  qo_market : q_market q ∈ SUPPORTED_MARKETS;
  qo_source : q_source q = "KIWOOM_WS";
  qo_trade : exists t, trade_ok t /\ q_last_price q = tr_last_price t /\ q_open_price q = tr_open_price t /\
    q_high_price q = tr_high_price t /\ q_low_price q = tr_low_price t /\
    q_cumulative_volume q = tr_cumulative_volume t;
  qo_book : exists b : option Book, (match b with Some b => book_ok b | None => True end) /\
    q_best_bid_price q = bk_best_bid_price <$> b /\ q_best_bid_quantity q = bk_best_bid_quantity <$> b /\
    q_best_ask_price q = bk_best_ask_price <$> b /\ q_best_ask_quantity q = bk_best_ask_quantity <$> b;
  qo_rest : q_aware q = true /\ q_source_sequence q = None /\ q_trading_status q = "TRADING"
}.

Definition event_ok (e : FeedEvent) : Prop := match e with ACCOUNT_EVENT => True | Quote q => quote_ok q end.

Record feed_ok (f : Feed) : Prop := mkFeedOk {
  fo_trades : Forall (fun e => trade_ok e.2) (fd_trade_cache f);
  fo_books : Forall (fun e => book_ok e.2) (fd_orderbook_cache f);
  fo_pending : Forall event_ok (fd_pending_events f)
}.

Lemma absolute_positive v d : _absolute_decimal v = Some d -> positive d.
Proof.
  unfold _absolute_decimal, positive. destruct (decimal_of_text _) as [[x| |]|]; try done; [cbv zeta|by intros [= <-]].
  destruct (dleb (dabs x) dzero) eqn:E; [done|]. by intros [= <-].
Qed.

Lemma nonnegative_nonneg v n : _nonnegative_int v = Some n -> 0 <= n.
Proof.
  unfold _nonnegative_int. destruct (py_int _) as [m|]; [|done]. cbn.
  destruct (Z.ltb_spec m 0); [done|]. intros [= <-]. lia.
Qed.

Lemma field_Some {A} (read : json -> option A) key values a :
  field read key values = Some a -> exists v, read v = Some a.
Proof. unfold field. destruct (jget key values) as [v|]; [|done]. cbn. eauto. Qed.

(** The next field of an entry that was read. *)
Ltac next_field H :=
  match type of H with
  | (field ?r ?k ?v ≫= _) = Some _ =>
      let x := fresh "x" in let E := fresh "E" in
      destruct (field r k v) as [x|] eqn:E; [|discriminate H]; cbn in H;
      apply field_Some in E as [? E]
  end.

Lemma read_trade_ok values t trade : read_trade values t = Some trade -> trade_ok trade.
Proof.
  unfold read_trade. intros H. repeat next_field H. injection H as <-.
  split; cbn; [|eauto using nonnegative_nonneg].
  repeat constructor; eauto using absolute_positive.
Qed.

Lemma read_book_ok values t book : read_book values t = Some book -> book_ok book.
Proof.
  unfold read_book. intros H. repeat next_field H. injection H as <-.
  split; cbn; [repeat constructor; eauto using absolute_positive|].
  split; eauto using nonnegative_nonneg.
Qed.

Lemma dict_set_Forall {A} (P : A -> Prop) k v (d : list (string * A)) :
  P v -> Forall (fun e => P e.2) d -> Forall (fun e => P e.2) (dict_set k v d).
Proof.
  intros Hv. induction 1 as [|[k' v'] d Hh Hd IH]; cbn; [auto|].
  destruct (String.eqb _ _); auto.
Qed.

Lemma dict_get_Forall {A} (P : A -> Prop) k v (d : list (string * A)) :
  dict_get k d = Some v -> Forall (fun e => P e.2) d -> P v.
Proof.
  unfold dict_get. intros H Hd. induction Hd as [|[k' v'] d Hh _ IH]; [done|]. cbn in H.
  destruct (String.eqb _ _); [by injection H as <-|auto].
Qed.

Lemma drop_keys_Forall {A} (P : A -> Prop) keys (d : list (string * A)) :
  Forall (fun e => P e.2) d -> Forall (fun e => P e.2) (drop_keys keys d).
Proof.
  unfold drop_keys. induction 1 as [|e d Hh _ IH]; cbn; [constructor|]. case_match; auto.
Qed.

Lemma normalized_item item symbol market :
  _normalize_quote_item item = Some (symbol, market) ->
  digits_of_length 6 symbol = true /\ market ∈ SUPPORTED_MARKETS.
Proof.
  unfold _normalize_quote_item. cbv zeta.
  destruct (_ && _); destruct (digits_of_length _ _) eqn:E; try done; intros [= <- <-]; (split; [done|]);
    [apply list_elem_of_further|]; apply list_elem_of_here.
Qed.

(** ** Every operation keeps the feed *)

Definition ws_keeps {A} (m : ws A) : Prop := forall f, feed_ok f -> feed_ok (m f).1.

Lemma ws_keeps_bind {A B} (m : ws A) (k : A -> ws B) :
  ws_keeps m -> (forall a, ws_keeps (k a)) -> ws_keeps (mbind k m).
Proof.
  intros Hm Hk f Hf. unfold mbind, ws_bind. specialize (Hm f Hf). destruct (m f) as [f' [a|e]]; [by apply Hk|done].
Qed.

Lemma ws_keeps_set g : (forall f, feed_ok f -> feed_ok (g f)) -> ws_keeps (ws_set g).
Proof. intros Hg f Hf. by apply Hg. Qed.

Lemma ws_keeps_ret {A} (a : A) : ws_keeps (mret a).
Proof. by intros f Hf. Qed.
Lemma ws_keeps_raise {A} e : ws_keeps (ws_raise e : ws A).
Proof. by intros f Hf. Qed.
Lemma ws_keeps_error {A} code : ws_keeps (ws_error code : ws A).
Proof. by intros f Hf. Qed.
Lemma ws_keeps_get {A} (g : Feed -> A) : ws_keeps (ws_get g).
Proof. by intros f Hf. Qed.

Lemma ws_keeps_send payload : ws_keeps (_send payload).
Proof.
  intros f [H1 H2 H3]. unfold _send. destruct (negb _); [done|].
  destruct (fd_incoming f) as [|[] l]; by split.
Qed.

Lemma ws_keeps_receive_json : ws_keeps _receive_json.
Proof.
  intros f [H1 H2 H3]. unfold _receive_json. destruct (negb _); [done|].
  destruct (fd_incoming f) as [|[[[]|]| |] l]; by split.
Qed.

Create HintDb feed.
#[export] Hint Resolve ws_keeps_bind ws_keeps_ret ws_keeps_raise ws_keeps_error ws_keeps_get
  ws_keeps_send ws_keeps_receive_json : feed.

Lemma ws_keeps_ack expected error_code : ws_keeps (_wait_for_ack expected error_code).
Proof.
  unfold _wait_for_ack. generalize 10%nat. intros n. induction n as [|n IH]; cbn; [auto with feed|].
  apply ws_keeps_bind; [auto with feed|]. intros payload.
  destruct (is_trnm "PING" payload); [auto with feed|].
  destruct (negb _); [auto with feed|]. destruct (negb _); auto with feed.
Qed.

#[export] Hint Resolve ws_keeps_ack : feed.

Lemma open_keeps token connection : ws_keeps (open_ token connection).
Proof.
  unfold open_. repeat (apply ws_keeps_bind; [|intros _]); auto with feed.
  - apply ws_keeps_set. intros f _. by split.
  - destruct connection; [|auto with feed]. apply ws_keeps_set. intros f [H1 H2 H3]. by split.
Qed.

Lemma sync_keeps symbols : ws_keeps (sync_quotes symbols).
Proof.
  unfold sync_quotes. cbv zeta. destruct (negb _); [auto with feed|].
  apply ws_keeps_bind; [auto with feed|]. intros current. destruct (bool_decide _); [auto with feed|].
  apply ws_keeps_bind; [|intros _; apply ws_keeps_set].
  - destruct (sort_by _ _); [destruct (bool_decide _)|]; auto with feed.
  - intros f [H1 H2 H3]. split; [by apply drop_keys_Forall|by apply drop_keys_Forall|done].
Qed.

Lemma close_keeps : ws_keeps close.
Proof. apply ws_keeps_set. intros f [H1 H2 H3]. by split. Qed.

Section Receive.
Context (sha256 : string -> string).

Lemma quote_of_ok event_type item values t f :
  feed_ok f -> let '(f', q) := quote_of sha256 event_type item values t f in
  feed_ok f' /\ match q with Some q => quote_ok q | None => True end.
Proof.
  intros Hf. unfold quote_of. destruct (_normalize_quote_item item) as [[symbol market]|] eqn:En; [|done].
  apply normalized_item in En as [Hs Hm].
  destruct (cached_values event_type item values t f) as [f'|] eqn:Ec; [|done].
  assert (Hf' : feed_ok f').
  { destruct Hf as [H1 H2 H3]. unfold cached_values in Ec. destruct (String.eqb _ _).
    - destruct (read_trade values t) as [trade|] eqn:Er; [|done]. injection Ec as <-.
      split; [|exact H2|exact H3]. apply (dict_set_Forall trade_ok); [by eapply read_trade_ok|done].
    - destruct (read_book values t) as [book|] eqn:Er; [|done]. injection Ec as <-.
      split; [exact H1| |exact H3]. apply (dict_set_Forall book_ok); [by eapply read_book_ok|done]. }
  split; [done|]. destruct (dict_get item (fd_trade_cache f')) as [trade|] eqn:Et; [|done]. cbn.
  destruct Hf' as [H1 H2 _]. apply (dict_get_Forall trade_ok) in Et; [|done].
  split; cbn; try done.
  - by exists trade.
  - exists (dict_get item (fd_orderbook_cache f')). split; [|done].
    destruct (dict_get item (fd_orderbook_cache f')) as [book|] eqn:Eb; [|done].
    by apply (dict_get_Forall book_ok) in Eb.
Qed.

Lemma pending_added f e : feed_ok f -> event_ok e -> feed_ok (set_pending (fd_pending_events f ++ [e]) f).
Proof. intros [H1 H2 H3] He. split; [done..|]. apply Forall_app. auto. Qed.

Lemma entry_keeps t entry : ws_keeps (take_entry sha256 t entry).
Proof.
  intros f Hf. unfold take_entry. destruct (negb _); [done|].
  destruct (get_field "type" entry); try done.
  destruct (bool_decide _); [by apply pending_added|]. destruct (bool_decide _); [|done].
  unfold _parse_quote_item. destruct (get_field "item" entry); try done.
  destruct (get_field "values" entry); try done. destruct (bool_decide _); [|done].
  pose proof (quote_of_ok s s0 (JObj fields) t f Hf) as H.
  destruct (quote_of _ _ _ _ _ _) as [f' [q|]]; [|by destruct H]. destruct H. by apply pending_added.
Qed.

Lemma next_event_keeps f : feed_ok f ->
  let '(f', r) := next_event f in
  feed_ok f' /\ match r with inl (Event e) => event_ok e | _ => True end.
Proof.
  intros Hf. pose proof Hf as [H1 H2 H3]. unfold next_event. destruct (fd_pending_events f) as [|e events] eqn:E; [done|].
  inversion H3; subst. by split.
Qed.

Lemma receive_keeps t f : feed_ok f ->
  let '(f', r) := receive sha256 t f in
  feed_ok f' /\ match r with inl (Event e) => event_ok e | _ => True end.
Proof.
  intros Hf. unfold receive, mbind, ws_bind, ws_get. destruct (fd_pending_events f) eqn:Ep.
  2: by apply next_event_keeps.
  pose proof (ws_keeps_receive_json f Hf) as H1. destruct (_receive_json f) as [f1 [payload|e]]; [|done].
  cbn in H1. destruct (is_trnm "PING" payload).
  { pose proof (ws_keeps_send payload f1 H1) as H2. by destruct (_send payload f1) as [f2 [u|e]]. }
  destruct (negb _); [done|]. destruct (get_field "data" payload) as [| | | | |data|]; try done.
  assert (H2 : ws_keeps (take_entries sha256 t data)).
  { induction data as [|x data IH]; cbn; [apply ws_keeps_ret|]. apply ws_keeps_bind; [apply entry_keeps|done]. }
  specialize (H2 f1 H1). destruct (take_entries sha256 t data f1) as [f2 [u|e]]; [by apply next_event_keeps|done].
Qed.
End Receive.

(** ** The events of a feed *)

(** The feeds a worker can have, with whatever the broker sent. *)
Inductive feed_reachable (sha256 : string -> string) : Feed -> Prop :=
| feed_new : feed_reachable sha256 new_feed
| feed_open f token connection :
    feed_reachable sha256 f -> feed_reachable sha256 (open_ token connection f).1
| feed_sync f symbols : feed_reachable sha256 f -> feed_reachable sha256 (sync_quotes symbols f).1
| feed_receive f t : feed_reachable sha256 f -> feed_reachable sha256 (receive sha256 t f).1
| feed_close f : feed_reachable sha256 f -> feed_reachable sha256 (close f).1.

Lemma reachable_ok sha256 f : feed_reachable sha256 f -> feed_ok f.
Proof.
  induction 1 as [|f token connection _ IH|f symbols _ IH|f t _ IH|f _ IH].
  - by split.
  - by apply open_keeps.
  - by apply sync_keeps.
  - pose proof (receive_keeps sha256 t f IH) as H. destruct (receive sha256 t f) as [f' r]. by destruct H.
  - by apply close_keeps.
Qed.

Lemma positive_prices t : trade_ok t ->
  existsb zero_or_less [tr_last_price t; tr_open_price t; tr_high_price t; tr_low_price t] = false.
Proof. intros [H _]. apply existsb_false_Forall. exact H. Qed.

(** What the watch answers to an event that is [quote_ok]. *)
Definition watch_answer (q : quote_event_of amount) : exn + unit :=
  if String.eqb (q_sequence_or_hash q) EmptyString || Nat.ltb 128 (String.length (q_sequence_or_hash q))
  then inl (WatchError "INVALID_SOURCE_KEY")
  else if q_received_at q <? q_event_at q then inl (WatchError "INVALID_EVENT_TIME")
  else if below (q_high_price q) (q_low_price q) then inl (WatchError "INVALID_PRICE")
  else inr tt.

Lemma watch_answers q : quote_ok q -> _validate q = watch_answer q.
Proof.
  intros [Hs Hm Hsrc (t & Ht & Hl & Ho & Hh & Hlo & Hv) (b & Hb & Hbp & Hbq & Hap & Haq) (Ha & Hseq & Hst)].
  unfold _validate, watch_answer, reject_if, mbind, result_bind.
  rewrite Hs, Hsrc, Ha, Hseq, Hst, (bool_decide_eq_true_2 _ Hm). cbn [negb].
  change (String.eqb "KIWOOM_WS" EmptyString || Nat.ltb 32 (String.length "KIWOOM_WS")) with false.
  cbv iota. destruct (_ || _); [done|]. destruct (q_received_at q <? q_event_at q); [done|].
  rewrite Hl, Ho, Hh, Hlo, Hv, (positive_prices t Ht). cbn [orb].
  destruct (below _ _); [done|].
  destruct (Z.ltb_spec (tr_cumulative_volume t) 0) as [Hn|_]; [destruct Ht; lia|].
  change (negb (bool_decide ("TRADING" ∈ SUPPORTED_TRADING_STATUSES))) with false. cbv iota.
  rewrite Hbp, Hbq, Hap, Haq. destruct b as [b|]; [|done]. cbn.
  destruct Hb as [Hpr [Hq1 Hq2]]. unfold positive in Hpr.
  pose proof (Forall_inv Hpr) as Hp1. pose proof (Forall_inv (Forall_inv_tail Hpr)) as Hp2. cbn in Hp1, Hp2.
  rewrite Hp1, Hp2. destruct (Z.ltb_spec (bk_best_bid_quantity b) 0); [lia|].
  destruct (Z.ltb_spec (bk_best_ask_quantity b) 0); [lia|]. done.
Qed.

(** An event with an infinite price is not stored: what passes the checks cannot
    be quantised. *)
Lemma infinite_not_stored sha256 q s : exact_quote q = None ->
  wp (ingest_event sha256 q) (fun s' r => s' = s /\ r = inr match _validate q with inl e => e | inr _ => InvalidOperation end) s.
Proof.
  intros H. unfold ingest_event. rewrite H. wp_step.
  apply wp_of_result; [intros [] Hv|intros e Hv]; rewrite Hv; [by wp_step|done].
Qed.

(** C30: whatever the broker sends, connection after connection, a quote of the
    feed satisfies every check of the watch that depends on the wire: it can
    only be refused for a time after its reception or for a high price below the
    low one (and for its key, if the hash is not 1 to 128 characters long).  A
    price may be infinite; such a quote is never stored, and if no check refuses
    it its quantisation raises. *)
Theorem feed_quotes_are_valid sha256 t f f' q :
  feed_reachable sha256 f -> receive sha256 t f = (f', inl (Event (Quote q))) ->
  _validate q = watch_answer q /\
  (exact_quote q = None -> forall s, wp (ingest_event sha256 q) (fun s' r => s' = s /\
     r = inr match watch_answer q with inl e => e | inr _ => InvalidOperation end) s).
Proof.
  intros Hf H. apply reachable_ok in Hf. pose proof (receive_keeps sha256 t f Hf) as Hr. rewrite H in Hr.
  destruct Hr as [_ Hq%watch_answers]. split; [done|]. intros Hx s. rewrite <- Hq. by apply infinite_not_stored.
Qed.

(** ** A concrete session *)

Definition wire_text (fields : list (string * json)) : Incoming := Message (Some (JObj fields)).
Definition ack (name : string) : Incoming := wire_text [("trnm", JStr name); ("return_code", JInt 0)].

Definition wire_trade : json :=
  JObj [("10", JStr "-71,200"); ("16", JStr "+71000"); ("17", JStr "+71500"); ("18", JStr "-70900");
        ("13", JStr "1000000"); ("20", JStr "095959")].

(** Subscribed to one symbol; a trade of it and one of another arrive. *)
Definition demo_wire : list Incoming :=
  [ack "LOGIN"; wire_text [("trnm", JStr "PING")]; ack "REG"; ack "REG";
   wire_text [("trnm", JStr "REAL");
              ("data", JList [JObj [("type", JStr "0B"); ("item", JStr "000660"); ("values", wire_trade)];
                              JObj [("type", JStr "0B"); ("item", JStr "005930_NX"); ("values", wire_trade)]])]].

Definition demo_received_at : Z := kst_combine (date_of 2026 3 4) (time_of 10 0 0).

Definition subscribed_feed : Feed := (sync_quotes ["005930"] (open_ "token" (Some demo_wire) new_feed).1).1.

(** The symbol, venue, price and time of a quote, and the answer of the watch. *)
Definition quote_summary (r : Feed * (Received + exn)) : option (string * string * amount * Z * (exn + unit)) :=
  match r.2 with
  | inl (Event (Quote q)) => Some (q_symbol q, q_market q, q_last_price q, q_event_at q, _validate q)
  | _ => None
  end.

Definition text_hash (text : string) : string := "0f".

(** The trade of the subscribed item is read, at its price without the sign;
    that of the other item is dropped. *)
Example demo_received :
  quote_summary (receive text_hash demo_received_at subscribed_feed) =
  Some ("005930", "NXT", Exact (Dec 71200 0), demo_received_at - second, inr tt).
Proof. vm_compute. reflexivity. Qed.

Lemma subscribed_reachable : feed_reachable text_hash subscribed_feed.
Proof. apply feed_sync, feed_open, feed_new. Qed.

Lemma feed_quotes_are_valid_witness : exists f q,
  receive text_hash demo_received_at subscribed_feed = (f, inl (Event (Quote q))) /\
  _validate q = watch_answer q.
Proof.
  eexists _, _. split; [reflexivity|].
  eapply (feed_quotes_are_valid text_hash demo_received_at); [exact subscribed_reachable|reflexivity].
Defined.

(** The text of an infinity is a price: the quote passes every check, and
    storing it raises an error that the worker does not expect. *)
Definition infinite_trade : json :=
  JObj [("10", JStr "inf"); ("16", JStr "+71000"); ("17", JStr "+Infinity"); ("18", JStr "-70900");
        ("13", JStr "1000000"); ("20", JStr "095959")].

Example infinite_price_read :
  let values := infinite_trade in
  match (quote_of text_hash TRADE_EVENT_TYPE "005930" values demo_received_at subscribed_feed).2 with
  | Some q => (q_last_price q, _validate q, exact_quote q) = (Unbounded, inr tt, None)
  | None => False
  end.
Proof. vm_compute. reflexivity. Qed.

(** A message of the stream that comes before the answer to a registration ends
    the connection. *)
Example stream_interrupts_registration :
  (sync_quotes ["000660"] (set_wire [wire_text [("trnm", JStr "REAL"); ("data", JList [])]; ack "REG"] []
     subscribed_feed)).2 = inr (KiwoomWebSocketError "KIWOOM_WS_PROTOCOL_ERROR").
Proof. vm_compute. reflexivity. Qed.
