(* ===== verification/Kiwoom.v ===== *)
(** * Broker messages

    [broker/kiwoom.py], its pure half: the account facts a reply is normalised
    to, the bodies of order requests and the acknowledgements read back.  A
    reply is the [json] value of its body.  An amount may be infinite, as the
    code accepts the text of an infinity; no column can hold it. *)

Set Warnings "-register-all".

From Stdlib Require Import ZArith Lia Ascii String.
From stdpp Require Import base numbers strings list pretty.
From S2P Require Import Prelude Decimal Json PyTime Models Session DecimalText PyText.

Open Scope Z_scope.

(** ** Account facts *)

(** The facts of a reply have an [amount] for each [Decimal]; those an account
    is reconciled with are stored in numeric columns and have a finite
    [decimal].  The side is the one of the two [_order_side] reads. *)
Record open_order_of (N : Type) := mkBrokerOpenOrder {
  bo_broker_order_id : string;
  bo_symbol : string;
  bo_side : Side;
  bo_requested_quantity : Z;
  bo_filled_quantity : Z;
  bo_remaining_quantity : Z;
  bo_limit_price : option N;
  bo_order_time : string;
  bo_market : string
}.

Record fill_summary_of (N : Type) := mkBrokerFillSummary {
  bf_broker_order_id : string;
  bf_symbol : string;
  bf_side : Side;
  bf_quantity : Z;
  bf_price : N;
  bf_fee : N;
  bf_tax : N;
  bf_order_time : string;
  bf_market : string
}.

Record position_of (N : Type) := mkBrokerPosition {
  bp_symbol : string;
  bp_quantity : Z;
  bp_available_quantity : Z;
  bp_average_price : N;
  bp_market : string
}.

Record account_snapshot_of (N : Type) := mkBrokerAccountSnapshot {
  sn_open_orders : list (open_order_of N);
  sn_fills : list (fill_summary_of N);
  sn_positions : list (position_of N);
  sn_observed_at : Z
}.

Arguments mkBrokerOpenOrder {N}.
Arguments bo_broker_order_id {N}.
Arguments bo_symbol {N}.
Arguments bo_side {N}.
Arguments bo_requested_quantity {N}.
Arguments bo_filled_quantity {N}.
Arguments bo_remaining_quantity {N}.
Arguments bo_limit_price {N}.
Arguments bo_order_time {N}.
Arguments bo_market {N}.
Arguments mkBrokerFillSummary {N}.
Arguments bf_broker_order_id {N}.
Arguments bf_symbol {N}.
Arguments bf_side {N}.
Arguments bf_quantity {N}.
Arguments bf_price {N}.
Arguments bf_fee {N}.
Arguments bf_tax {N}.
Arguments bf_order_time {N}.
Arguments bf_market {N}.
Arguments mkBrokerPosition {N}.
Arguments bp_symbol {N}.
Arguments bp_quantity {N}.
Arguments bp_available_quantity {N}.
Arguments bp_average_price {N}.
Arguments bp_market {N}.
Arguments mkBrokerAccountSnapshot {N}.
Arguments sn_open_orders {N}.
Arguments sn_fills {N}.
Arguments sn_positions {N}.
Arguments sn_observed_at {N}.

Definition BrokerOpenOrder : Type := open_order_of decimal.
Definition BrokerFillSummary : Type := fill_summary_of decimal.
Definition BrokerPosition : Type := position_of decimal.
Definition BrokerAccountSnapshot : Type := account_snapshot_of decimal.

Definition INVALID_RESPONSE : exn := KiwoomAdapterError "KIWOOM_INVALID_RESPONSE".

(** ** Fields *)

Definition _numeric_text (value : json) : string := remove_char "," (strip (py_str value)).

Definition _non_negative_int (value : json) : exn + Z :=
  match py_int (_numeric_text value) with
  | None => inl INVALID_RESPONSE
  | Some n => if n <? 0 then inl INVALID_RESPONSE else inr n
  end.

Definition _positive_int (value : json) : exn + Z :=
  result ← _non_negative_int value;
  reject_if (result =? 0) INVALID_RESPONSE ;;
  mret result.

(** Comparing a NaN raises outside the handler. *)
Definition _non_negative_decimal (value : json) : exn + amount :=
  match decimal_of_text (_numeric_text value) with
  | None => inl INVALID_RESPONSE
  | Some NaN => inl InvalidOperation
  | Some (Infinity negative) => if (negative : bool) then inl INVALID_RESPONSE else inr Unbounded
  | Some (Finite d) => if dltb d dzero then inl INVALID_RESPONSE else inr (Exact d)
  end.

Definition amount_is_zero (a : amount) : bool :=
  match a with Exact d => deqb d dzero | Unbounded => false end.

Definition _positive_decimal (value : json) : exn + amount :=
  result ← _non_negative_decimal value;
  reject_if (amount_is_zero result) INVALID_RESPONSE ;;
  mret result.

(** [abs] of a finite number rounds it to the context, of an infinity it is the
    positive one. *)
Definition _absolute_decimal (value : json) : exn + amount :=
  match decimal_of_text (_numeric_text value) with
  | None => inl INVALID_RESPONSE
  | Some NaN => inl InvalidOperation
  | Some (Infinity _) => inr Unbounded
  | Some (Finite d) => if dleb (dabs d) dzero then inl INVALID_RESPONSE else inr (Exact (dabs d))
  end.

Definition between_chars (lo hi : nat) (s : string) : bool :=
  Nat.leb lo (String.length s) && Nat.leb (String.length s) hi.

Definition _broker_order_id (value : json) : exn + string :=
  let normalized := strip (str_or_empty value) in
  reject_if (negb (isdigit normalized) || negb (between_chars 1 10 normalized)) INVALID_RESPONSE ;;
  mret normalized.

Definition _domestic_symbol (value : json) (allow_stock_prefix : bool) : exn + string :=
  let normalized := strip (str_or_empty value) in
  let normalized :=
    if allow_stock_prefix && Nat.eqb (String.length normalized) 7 && String.prefix "A" normalized
    then substring 1 6 normalized else normalized in
  reject_if (negb (digits_of_length 6 normalized)) INVALID_RESPONSE ;;
  mret normalized.

Definition _order_side (payload : json) : exn + Side :=
  let raw_code := strip (py_str (get_or (JStr EmptyString) "trde_tp" payload)) in
  let raw_name := strip (py_str (get_or (JStr EmptyString) "io_tp_nm" payload)) in
  let combined := raw_code +:+ " " +:+ raw_name in
  if String.eqb raw_code "1" || contains "매도" combined then inr SELL
  else if String.eqb raw_code "2" || contains "매수" combined then inr BUY
  else inl (KiwoomAdapterError "KIWOOM_UNSUPPORTED_RESPONSE").

(** [time(h, m, s)] accepts these. *)
Definition clock_fields (s : string) : option (Z * Z * Z) :=
  h ← py_int (slice 0 2 s);
  m ← py_int (slice 2 4 s);
  sec ← py_int (slice 4 6 s);
  if between 0 23 h && between 0 59 m && between 0 59 sec then Some (h, m, sec) else None.

Definition _hhmmss (value : json) : exn + string :=
  let normalized := strip (str_or_empty value) in
  reject_if (negb (digits_of_length 6 normalized)) INVALID_RESPONSE ;;
  reject_if (negb (bool_decide (is_Some (clock_fields normalized)))) INVALID_RESPONSE ;;
  mret normalized.

(** ** Rows of the account replies *)

Definition normalize_open_order (payload : json) : exn + open_order_of amount :=
  requested ← _positive_int (get_field "ord_qty" payload);
  remaining ← _positive_int (get_field "oso_qty" payload);
  reject_if (requested <? remaining) INVALID_RESPONSE ;;
  raw_price ← _non_negative_decimal (get_field "ord_pric" payload);
  id ← _broker_order_id (get_field "ord_no" payload);
  symbol ← _domestic_symbol (get_field "stk_cd" payload) false;
  side ← _order_side payload;
  time ← _hhmmss (get_field "tm" payload);
  mret (mkBrokerOpenOrder id symbol side requested (requested - remaining) remaining
          (if altb (Exact dzero) raw_price then Some raw_price else None) time "KRX").

Definition normalize_fill (payload : json) : exn + fill_summary_of amount :=
  id ← _broker_order_id (get_field "ord_no" payload);
  symbol ← _domestic_symbol (get_field "stk_cd" payload) false;
  side ← _order_side payload;
  quantity ← _positive_int (get_field "cntr_qty" payload);
  price ← _positive_decimal (get_field "cntr_pric" payload);
  fee ← _non_negative_decimal (get_or (JInt 0) "tdy_trde_cmsn" payload);
  tax ← _non_negative_decimal (get_or (JInt 0) "tdy_trde_tax" payload);
  time ← _hhmmss (get_field "ord_tm" payload);
  mret (mkBrokerFillSummary id symbol side quantity price fee tax time "KRX").

Definition normalize_position (payload : json) : exn + option (position_of amount) :=
  quantity ← _non_negative_int (get_field "rmnd_qty" payload);
  available ← _non_negative_int (get_field "trde_able_qty" payload);
  reject_if (quantity <? available) INVALID_RESPONSE ;;
  if quantity =? 0 then mret None
  else
    symbol ← _domestic_symbol (get_field "stk_cd" payload) true;
    average ← _positive_decimal (get_field "pur_pric" payload);
    mret (Some (mkBrokerPosition symbol quantity available average "KRX")).

(** ** The account snapshot *)

Definition is_object (v : json) : bool := match v with JObj _ => true | _ => false end.

Fixpoint _page_items (pages : list json) (field : string) : exn + list json :=
  match pages with
  | [] => mret []
  | page :: pages =>
      items ← (match get_or (JList []) field page with
               | JNull => mret []
               | JList l => if forallb is_object l then mret l else inl INVALID_RESPONSE
               | _ => inl INVALID_RESPONSE
               end : exn + list json);
      rest ← _page_items pages field;
      mret (items ++ rest)
  end.

Fixpoint map_result {A B} (f : A -> exn + B) (l : list A) : exn + list B :=
  match l with
  | [] => mret []
  | x :: l => y ← f x; ys ← map_result f l; mret (y :: ys)
  end.

Definition _require_unique {A} (items : list A) (attribute : A -> string) : exn + unit :=
  reject_if (negb (bool_decide (NoDup (map attribute items)))) INVALID_RESPONSE.

(** [get_account_snapshot] from the pages of its three requests on. *)
Definition account_snapshot (open_order_pages fill_pages position_pages : list json)
  (observed_at : Z) : exn + account_snapshot_of amount :=
  items ← _page_items open_order_pages "oso";
  open_orders ← map_result normalize_open_order items;
  items ← _page_items fill_pages "cntr";
  fills ← map_result normalize_fill items;
  items ← _page_items position_pages "acnt_evlt_remn_indv_tot";
  held ← map_result normalize_position items;
  let positions := omap id held in
  _require_unique open_orders bo_broker_order_id ;;
  _require_unique positions bp_symbol ;;
  mret (mkBrokerAccountSnapshot open_orders fills positions observed_at).

(** ** What the client promises of a snapshot *)

Definition six_digits (s : string) : Prop := digits_of_length 6 s = true.
Definition clock_text (s : string) : Prop := six_digits s /\ is_Some (clock_fields s).
Definition broker_number (s : string) : Prop := isdigit s = true /\ between_chars 1 10 s = true.

(** The numbers of a reply and of a reconciliation. *)
Class Numbers (N : Type) := { above_zero : N -> Prop; not_below_zero : N -> Prop }.
#[export] Instance decimal_numbers : Numbers decimal := { above_zero d := 0 < coef d; not_below_zero d := 0 <= coef d }.
#[export] Instance amount_numbers : Numbers amount := {
  above_zero a := match a with Exact d => 0 < coef d | Unbounded => True end;
  not_below_zero a := match a with Exact d => 0 <= coef d | Unbounded => True end
}.

Record open_order_ok {M} `{!Numbers M} (o : open_order_of M) : Prop := {
  oo_number : broker_number (bo_broker_order_id o);
  oo_symbol : six_digits (bo_symbol o);
  oo_filled : 0 <= bo_filled_quantity o;
  oo_remaining : 0 < bo_remaining_quantity o;
  oo_total : bo_requested_quantity o = bo_filled_quantity o + bo_remaining_quantity o;
  oo_price : forall d, bo_limit_price o = Some d -> above_zero d;
  oo_time : clock_text (bo_order_time o)
}.

Record fill_summary_ok {M} `{!Numbers M} (f : fill_summary_of M) : Prop := {
  fs_number : broker_number (bf_broker_order_id f);
  fs_symbol : six_digits (bf_symbol f);
  fs_quantity : 0 < bf_quantity f;
  fs_price : above_zero (bf_price f);
  fs_fee : not_below_zero (bf_fee f);
  fs_tax : not_below_zero (bf_tax f);
  fs_time : clock_text (bf_order_time f)
}.

Record broker_position_ok {M} `{!Numbers M} (p : position_of M) : Prop := {
  bk_symbol : six_digits (bp_symbol p);
  bk_quantity : 0 < bp_quantity p;
  bk_available : 0 <= bp_available_quantity p <= bp_quantity p;
  bk_price : above_zero (bp_average_price p)
}.

(** [BrokerAccountSnapshot] as the code relies on it. *)
Record snapshot_ok {M} `{!Numbers M} (s : account_snapshot_of M) : Prop := {
  sk_orders : Forall open_order_ok (sn_open_orders s);
  sk_fills : Forall fill_summary_ok (sn_fills s);
  sk_positions : Forall broker_position_ok (sn_positions s);
  sk_order_ids : NoDup (map bo_broker_order_id (sn_open_orders s));
  sk_symbols : NoDup (map bp_symbol (sn_positions s))
}.

Lemma map_result_Forall {A B} (f : A -> exn + B) (P : B -> Prop) l r :
  (forall x y, f x = inr y -> P y) -> map_result f l = inr r -> Forall P r.
Proof.
  intros Hf. revert r. induction l as [|x l IH]; intros r H.
  - injection H as <-. constructor.
  - cbn [map_result] in H. apply result_bind_inr in H as (y & Hy & H). apply result_bind_inr in H as (ys & Hys & H).
    injection H as <-. constructor; [by eapply Hf|]. by apply IH.
Qed.

(** Take a computation that did not raise apart. *)
Ltac result_inv H :=
  lazymatch type of H with
  | mbind _ _ = inr _ =>
      let a := fresh "v" in let Ha := fresh "Hv" in
      apply result_bind_inr in H as (a & Ha & H);
      try (apply reject_if_inr in Ha); result_inv H
  | mret _ = inr _ => injection H as H; subst
  | inr _ = inr _ => injection H as H; subst
  | _ => idtac
  end.

Lemma non_negative_int_ok v n : _non_negative_int v = inr n -> 0 <= n.
Proof.
  unfold _non_negative_int. destruct (py_int _); [|done]. destruct (Z.ltb_spec z 0); [done|].
  by intros [= <-].
Qed.

Lemma positive_int_ok v n : _positive_int v = inr n -> 0 < n.
Proof.
  unfold _positive_int. intros H. result_inv H. apply non_negative_int_ok in Hv.
  apply Z.eqb_neq in Hv0. lia.
Qed.

Lemma non_negative_decimal_ok v d : _non_negative_decimal v = inr d -> not_below_zero d.
Proof.
  unfold _non_negative_decimal. destruct (decimal_of_text _) as [[d'|[]|]|]; try done; [|by intros [= <-]].
  destruct (dltb d' dzero) eqn:E; [done|]. intros [= <-]. apply dleb_dzero_coef.
  rewrite dltb_negb_dleb in E. by apply negb_false_iff in E.
Qed.

Lemma positive_decimal_ok v d : _positive_decimal v = inr d -> above_zero d.
Proof.
  unfold _positive_decimal. intros H. result_inv H. apply non_negative_decimal_ok in Hv.
  destruct d as [d|]; [|done]. cbn in *.
  destruct (decide (coef d = 0)) as [E|]; [|lia].
  rewrite (deqb_scaled (Z.min 0 (expo d))) in Hv0 by (cbn; lia).
  unfold scaled in Hv0. rewrite E in Hv0. by rewrite Z.mul_0_l in Hv0.
Qed.

Lemma broker_order_id_ok v s : _broker_order_id v = inr s -> broker_number s.
Proof.
  unfold _broker_order_id. intros H. result_inv H. apply orb_false_iff in Hv as [H1 H2].
  split; by apply negb_false_iff.
Qed.

Lemma domestic_symbol_ok v b s : _domestic_symbol v b = inr s -> six_digits s.
Proof.
  unfold _domestic_symbol. intros H. result_inv H. by apply negb_false_iff in Hv.
Qed.

Lemma hhmmss_ok v s : _hhmmss v = inr s -> clock_text s.
Proof.
  unfold _hhmmss. intros H. result_inv H. apply negb_false_iff in Hv, Hv0.
  split; [done|]. by apply bool_decide_eq_true in Hv0.
Qed.

Lemma normalize_open_order_ok v o : normalize_open_order v = inr o -> open_order_ok o.
Proof.
  unfold normalize_open_order. intros H. result_inv H.
  apply positive_int_ok in Hv, Hv0. apply Z.ltb_ge in Hv1.
  split; cbn -[above_zero not_below_zero]; try lia; eauto using broker_order_id_ok, domestic_symbol_ok, hhmmss_ok.
  intros d. destruct v3 as [y|]; [|by intros [= <-]]. destruct (dltb dzero y) eqn:E; [|done].
  intros [= <-]. by apply dltb_dzero_coef.
Qed.

Lemma normalize_fill_ok v f : normalize_fill v = inr f -> fill_summary_ok f.
Proof.
  unfold normalize_fill. intros H. result_inv H.
  split; cbn -[above_zero not_below_zero]; eauto using broker_order_id_ok, domestic_symbol_ok, hhmmss_ok, positive_int_ok,
    positive_decimal_ok, non_negative_decimal_ok.
Qed.

Lemma normalize_position_ok v p : normalize_position v = inr (Some p) -> broker_position_ok p.
Proof.
  unfold normalize_position. intros H. result_inv H.
  apply non_negative_int_ok in Hv, Hv0. apply Z.ltb_ge in Hv1.
  destruct (Z.eqb_spec v0 0); [discriminate H|]. result_inv H.
  split; cbn -[above_zero not_below_zero]; try lia; eauto using domestic_symbol_ok, positive_decimal_ok.
Qed.

Lemma omap_id_elem {A} (l : list (option A)) x : x ∈ omap id l -> Some x ∈ l.
Proof. intros (y & Hy & E)%list_elem_of_omap. cbn in E. by subst. Qed.

Lemma account_snapshot_spec orders fills positions at_ s :
  account_snapshot orders fills positions at_ = inr s -> snapshot_ok s.
Proof.
  unfold account_snapshot. intros H. result_inv H.
  apply negb_false_iff, bool_decide_eq_true in Hv5, Hv6.
  split; cbn; [| | |done|done].
  - eapply map_result_Forall; [apply normalize_open_order_ok|done].
  - eapply map_result_Forall; [apply normalize_fill_ok|done].
  - apply Forall_forall. intros p Hp%omap_id_elem.
    assert (Hf : Forall (fun o => forall p, o = Some p -> broker_position_ok p) v4).
    { eapply map_result_Forall; [|done]. intros x y Hy p' ->. by eapply normalize_position_ok. }
    rewrite Forall_forall in Hf. by apply (Hf _ Hp).
Qed.

(** ** Order requests *)

Record KiwoomReplaceRequest := mkKiwoomReplaceRequest {
  kp_original_order_id : string;
  kp_symbol : string;
  kp_quantity : Z;
  kp_limit_price : decimal;
  kp_market : string
}.

Record KiwoomOrderAcknowledgement := mkKiwoomOrderAcknowledgement {
  ka_broker_order_id : string;
  ka_market : string;
  ka_original_order_id : option string;
  ka_affected_quantity : option Z
}.

Definition _validate_market_symbol (market symbol : string) : exn + unit :=
  reject_if (negb (String.eqb market "KRX")) (KiwoomAdapterError "UNSUPPORTED_IN_MOCK") ;;
  reject_if (negb (digits_of_length 6 symbol)) (KiwoomAdapterError "KIWOOM_INVALID_SYMBOL").

Definition _validate_broker_order_id (value : string) : exn + unit :=
  reject_if (negb (digits_of_length 7 value)) (KiwoomAdapterError "KIWOOM_INVALID_ORDER_ID").

(** [value.to_integral_value()] rounds to even. *)
Definition is_integral (d : decimal) : bool := deqb d (of_int (to_int ROUND_HALF_EVEN d)).

Definition INVALID_ORDER_PRICE : exn := KiwoomAdapterError "KIWOOM_INVALID_ORDER_PRICE".

Definition _positive_integer_price (value : decimal) : exn + string :=
  reject_if (dleb value dzero || negb (is_integral value)) INVALID_ORDER_PRICE ;;
  mret (plain_text value).

Definition order_price_fields (request : KiwoomOrderRequest) : exn + (string * string) :=
  match kr_order_type request with
  | LIMIT =>
      match kr_limit_price request with
      | None => inl INVALID_ORDER_PRICE
      | Some p => price ← _positive_integer_price p; mret (price, "0")
      end
  | MARKET =>
      reject_if (bool_decide (is_Some (kr_limit_price request))) INVALID_ORDER_PRICE ;;
      mret (EmptyString, "3")
  end.

Definition _new_order_body (request : KiwoomOrderRequest) : exn + json :=
  _validate_market_symbol (kr_market request) (kr_symbol request) ;;
  reject_if (kr_quantity request <=? 0) (KiwoomAdapterError "KIWOOM_INVALID_ORDER_QUANTITY") ;;
  fields ← order_price_fields request;
  let '(price, trade_type) := (fields : string * string) in
  mret (JObj [("dmst_stex_tp", JStr "KRX"); ("stk_cd", JStr (kr_symbol request));
              ("ord_qty", JStr (pretty (kr_quantity request))); ("ord_uv", JStr price);
              ("trde_tp", JStr trade_type); ("cond_uv", JStr EmptyString)]).

Definition replace_body (request : KiwoomReplaceRequest) : exn + json :=
  _validate_market_symbol (kp_market request) (kp_symbol request) ;;
  _validate_broker_order_id (kp_original_order_id request) ;;
  reject_if (kp_quantity request <? 0) (KiwoomAdapterError "KIWOOM_INVALID_ORDER_QUANTITY") ;;
  price ← _positive_integer_price (kp_limit_price request);
  mret (JObj [("dmst_stex_tp", JStr "KRX"); ("orig_ord_no", JStr (kp_original_order_id request));
              ("stk_cd", JStr (kp_symbol request)); ("mdfy_qty", JStr (pretty (kp_quantity request)));
              ("mdfy_uv", JStr price); ("mdfy_cond_uv", JStr EmptyString)]).

Definition cancel_body (request : KiwoomCancelRequest) : exn + json :=
  _validate_market_symbol (kc_market request) (kc_symbol request) ;;
  _validate_broker_order_id (kc_original_order_id request) ;;
  reject_if (kc_quantity request <? 0) (KiwoomAdapterError "KIWOOM_INVALID_ORDER_QUANTITY") ;;
  mret (JObj [("dmst_stex_tp", JStr "KRX"); ("orig_ord_no", JStr (kc_original_order_id request));
              ("stk_cd", JStr (kc_symbol request)); ("cncl_qty", JStr (pretty (kc_quantity request)))]).

(** ** Acknowledgements *)

(** An acknowledgement that cannot be trusted leaves the outcome unknown. *)
Definition unknown_unless (c : bool) : exn + unit :=
  reject_if (negb c) KiwoomOrderOutcomeUnknownError.

Definition _normalize_order_ack (payload : json) : exn + KiwoomOrderAcknowledgement :=
  match get_field "ord_no" payload, get_field "dmst_stex_tp" payload with
  | JStr number, JStr market =>
      unknown_unless (digits_of_length 7 number) ;;
      unknown_unless (String.eqb market "KRX") ;;
      mret (mkKiwoomOrderAcknowledgement number market None None)
  | _, _ => inl KiwoomOrderOutcomeUnknownError
  end.

Definition _normalize_child_order_ack (payload : json) (original_order_id quantity_field : string)
  (require_market : bool) : exn + KiwoomOrderAcknowledgement :=
  match get_field "ord_no" payload with
  | JStr number =>
      unknown_unless (digits_of_length 7 number) ;;
      let krx := match get_field "dmst_stex_tp" payload with
                 | JStr m => String.eqb m "KRX" | _ => false end in
      let absent := match get_field "dmst_stex_tp" payload with JNull => true | _ => false end in
      unknown_unless (negb require_market || krx) ;;
      unknown_unless (absent || krx) ;;
      unknown_unless (match get_field "base_orig_ord_no" payload with
                      | JStr original => String.eqb original original_order_id | _ => false end) ;;
      match _non_negative_int (get_field quantity_field payload) with
      | inl (KiwoomAdapterError _) => inl KiwoomOrderOutcomeUnknownError
      | inl e => inl e
      | inr affected =>
          mret (mkKiwoomOrderAcknowledgement number "KRX" (Some original_order_id) (Some affected))
      end
  | _ => inl KiwoomOrderOutcomeUnknownError
  end.
