(* ===== verification/KiwoomClient.v ===== *)
(** * The broker's REST client

    [broker/kiwoom.py], its stateful half: the access token in memory, the rate
    limiter of order requests, pages of account requests, and orders that are
    transmitted at most once.  The network answers as a function of the
    requests posted so far. *)

From Stdlib Require Import ZArith Lia Ascii String.
From stdpp Require Import base numbers strings list pretty.
From S2P Require Import Prelude Decimal Json PyTime Models Session DecimalText PyText Kiwoom.

Open Scope Z_scope.

(** ** The network and the client's state *)

Record AccessToken := mkAccessToken { at_value : string; at_expires_at : Z }.

Record KiwoomPage := mkKiwoomPage {
  pg_payload : json;
  pg_continuation : bool;
  pg_next_key : option string
}.

(** A request: its path, the headers that vary, its body. *)
Record Post := mkPost {
  po_path : string;
  po_api_id : option string;
  po_authorization : option string;
  po_next_key : option string;
  po_body : json
}.

(** What the HTTP library answers: it raises, or a status, headers and the body
    if it is JSON. *)
Inductive Reply :=
| TimedOut
| ConnectionFailed
| Response (status_code : Z) (headers : list (string * string)) (body : option json).

(** [rs_started] are the limiter's last starts; [rs_time] is the monotonic
    clock, in microseconds. *)
Record Rest := mkRest {
  rs_token : option AccessToken;
  rs_started : list (string * Z);
  rs_posts : list Post;
  rs_time : Z
}.

Definition rest (A : Type) : Type := Rest -> Rest * (A + exn).

#[export] Instance rest_ret : MRet rest := fun A a s => (s, inl a).
#[export] Instance rest_bind : MBind rest := fun A B f m s =>
  match m s with
  | (s', inl a) => f a s'
  | (s', inr e) => (s', inr e)
  end.

Definition fails {A} (e : exn) : rest A := fun s => (s, inr e).
Definition lift {A} (r : exn + A) : rest A :=
  match r with inl e => fails e | inr a => mret a end.
Definition reads {A} (f : Rest -> A) : rest A := fun s => (s, inl (f s)).
Definition set_token (t : option AccessToken) : rest unit := fun s =>
  (mkRest t (rs_started s) (rs_posts s) (rs_time s), inl tt).

(** [except KiwoomAdapterError: raise e'], which the errors derived from it
    satisfy too. *)
Definition is_adapter_error (e : exn) : bool :=
  match e with
  | KiwoomAdapterError _ | KiwoomOrderRejectedError _ _ | KiwoomOrderOutcomeUnknownError => true
  | _ => false
  end.
Definition adapter_error_becomes {A} (e' : exn) (m : rest A) : rest A := fun s =>
  match m s with
  | (s', inr e) => (s', inr (if is_adapter_error e then e' else e))
  | r => r
  end.

(** ** Constants *)

Definition TOKEN_PATH : string := "/oauth2/token".
Definition ACCOUNT_PATH : string := "/api/dostk/acnt".
Definition ACCOUNT_API_ID : string := "ka00001".
Definition OPEN_ORDERS_API_ID : string := "ka10075".
Definition FILLS_API_ID : string := "ka10076".
Definition POSITIONS_API_ID : string := "kt00018".
Definition ORDER_PATH : string := "/api/dostk/ordr".
Definition BUY_ORDER_API_ID : string := "kt10000".
Definition SELL_ORDER_API_ID : string := "kt10001".
Definition REPLACE_ORDER_API_ID : string := "kt10002".
Definition CANCEL_ORDER_API_ID : string := "kt10003".
Definition MAX_CONTINUATION_PAGES : nat := 20.

(** The default interval of the rate limiter. *)
Definition order_interval : Z := seconds 1.

(** ** Reading a reply *)

Definition _json_object (body : option json) : exn + json :=
  match body with
  | Some (JObj fields) => inr (JObj fields)
  | _ => inl INVALID_RESPONSE
  end.

Definition _require_success (payload : json) : exn + unit :=
  match get_field "return_code" payload with
  | JNull => inr tt
  | code => match int_of_json code with
            | None => inl INVALID_RESPONSE
            | Some n => reject_if (negb (n =? 0)) (KiwoomAdapterError "KIWOOM_API_ERROR")
            end
  end.

(** [payload.get("return_code") != 0] *)
Definition code_is_zero (payload : json) : bool :=
  match get_field "return_code" payload with
  | JInt n => n =? 0
  | JBool b => negb b
  | JNum repr => match decimal_of_text repr with Some (Finite d) => coef d =? 0 | _ => false end
  | _ => false
  end.

(** [casefold] on ASCII header names. *)
Fixpoint _response_header (headers : list (string * string)) (name : string) : string :=
  match headers with
  | [] => EmptyString
  | (key, value) :: headers =>
      if String.eqb (upper key) (upper name) then value else _response_header headers name
  end.

Definition safe_code_char (c : ascii) : bool :=
  let n := nat_of_ascii c in
  (Nat.leb 65 n && Nat.leb n 90) || (Nat.leb 97 n && Nat.leb n 122) || is_digit c ||
  existsb (Ascii.eqb c) ["_"; "."; ":"; "-"]%char.

Definition MAX_BROKER_RESULT_CODE_LENGTH : nat := 32.

Definition normalize_broker_result_code (value : json) : option string :=
  match value with
  | JNull | JBool _ => None
  | _ =>
      let text := strip (py_str value) in
      if String.eqb text EmptyString ||
         Nat.ltb MAX_BROKER_RESULT_CODE_LENGTH (String.length text) ||
         negb (all_chars safe_code_char text)
      then None else Some text
  end.

(** Days in a month of a year. *)
Definition month_days (y m : Z) : Z :=
  date_of (if m =? 12 then y + 1 else y) (if m =? 12 then 1 else m + 1) 1 - date_of y m 1.

(** [datetime.strptime(text, "%Y%m%d%H%M%S")] in Asia/Seoul, on fourteen
    digits; the shorter texts it also reads are taken as invalid. *)
Definition parse_expiry (text : string) : option Z :=
  if digits_of_length 14 text then
    let field a b := digits_from 0 (slice a b text) in
    let '(y, m, d) := (field 0 4, field 4 6, field 6 8)%nat in
    let '(h, mi, s) := (field 8 10, field 10 12, field 12 14)%nat in
    if (1 <=? y) && between 1 12 m && between 1 (month_days y m) d && between 0 23 h &&
       between 0 59 mi && between 0 59 s
    then Some (kst_combine (date_of y m d) (time_of h mi s)) else None
  else None.

(** ** The client

    [http posts] answers the last of [posts]; [elapsed] is the time it takes,
    [oversleep] what a sleep adds to its delay; [wall] reads the UTC clock. *)

Section Client.
Context (http : list Post -> Reply) (elapsed : list Post -> Z) (oversleep : Rest -> Z)
  (wall : Rest -> Z).
(** The settings: [load_kiwoom_credentials] and the minutes before expiry at
    which a token is renewed. *)
Context (credentials : exn + (string * string * string)) (kiwoom_token_refresh_minutes : Z).
(** The redaction of the broker's message, free text kept as a diagnosis. *)
Context (sanitize_broker_result_message : json -> option string).

Definition _post (p : Post) : rest (Z * list (string * string) * option json) := fun s =>
  let posts := rs_posts s ++ [p] in
  (mkRest (rs_token s) (rs_started s) posts (rs_time s + elapsed posts),
   match http posts with
   | TimedOut => inr (KiwoomAdapterError "KIWOOM_TIMEOUT")
   | ConnectionFailed => inr (KiwoomAdapterError "KIWOOM_CONNECTION_ERROR")
   | Response status headers body => inl (status, headers, body)
   end).

(** *** The access token *)

Definition _issue_token : rest AccessToken :=
  keys ← lift credentials;
  let '(app_key, app_secret, _) := (keys : string * string * string) in
  response ← _post (mkPost TOKEN_PATH None None None
    (JObj [("grant_type", JStr "client_credentials"); ("appkey", JStr app_key);
           ("secretkey", JStr app_secret)]));
  let '(status, _, body) := (response : Z * list (string * string) * option json) in
  payload ← lift (_json_object body);
  lift (reject_if (400 <=? status) (KiwoomAdapterError "KIWOOM_AUTH_FAILED")) ;;
  lift (_require_success payload) ;;
  match get_field "token" payload, get_field "expires_dt" payload with
  | JStr token, JStr expires =>
      lift (reject_if (String.eqb token EmptyString) INVALID_RESPONSE) ;;
      match parse_expiry expires with
      | None => fails INVALID_RESPONSE
      | Some at_ => mret (mkAccessToken token at_)
      end
  | _, _ => fails INVALID_RESPONSE
  end.

Definition get_access_token (force_refresh : bool) : rest string :=
  now ← reads wall;
  known ← reads rs_token;
  match (if force_refresh then None
         else token ← known;
              if now <? at_expires_at token - kiwoom_token_refresh_minutes * minute
              then Some (at_value token) else None) with
  | Some value => mret value
  | None =>
      token ← _issue_token;
      set_token (Some token) ;;
      mret (at_value token)
  end.

Definition invalidate_token : rest unit := set_token None.

(** *** Account requests *)

(** One of the two attempts; [None] asks for the second. *)
Definition page_attempt (api_id path : string) (body : json) (next_key : option string)
  (second : bool) : rest (option KiwoomPage) :=
  token ← get_access_token second;
  response ← _post (mkPost path (Some api_id) (Some ("Bearer " +:+ token)) next_key body);
  let '(status, headers, reply) := (response : Z * list (string * string) * option json) in
  if status =? 401 then
    invalidate_token ;;
    if second then fails (KiwoomAdapterError "KIWOOM_AUTH_FAILED") else mret None
  else
    payload ← lift (_json_object reply);
    lift (reject_if (400 <=? status) (KiwoomAdapterError "KIWOOM_HTTP_ERROR")) ;;
    lift (_require_success payload) ;;
    let key := strip (_response_header headers "next-key") in
    mret (Some (mkKiwoomPage payload
      (String.eqb (upper (_response_header headers "cont-yn")) "Y")
      (if String.eqb key EmptyString then None else Some key))).

Definition _request_page (api_id path : string) (body : json) (next_key : option string) :
  rest KiwoomPage :=
  lift (reject_if (negb (String.prefix "/" path)) ValueError) ;;
  first ← page_attempt api_id path body next_key false;
  match (first : option KiwoomPage) with
  | Some page => mret page
  | None =>
      second ← page_attempt api_id path body next_key true;
      match (second : option KiwoomPage) with
      | Some page => mret page
      | None => fails (KiwoomAdapterError "KIWOOM_AUTH_FAILED")
      end
  end.

Definition request (api_id path : string) (body : json) : rest json :=
  page ← _request_page api_id path body None; mret (pg_payload page).

Definition INVALID_PAGINATION : exn := KiwoomAdapterError "KIWOOM_INVALID_PAGINATION".

(** The loop over [range(MAX_CONTINUATION_PAGES)], with the pages still allowed. *)
Fixpoint continue_pages (allowed : nat) (api_id path : string) (body : json)
  (next_key : option string) (seen_keys : list string) : rest (list json) :=
  match allowed with
  | O => fails INVALID_PAGINATION
  | S allowed =>
      page ← _request_page api_id path body next_key;
      if pg_continuation page then
        match pg_next_key page with
        | None => fails INVALID_PAGINATION
        | Some key =>
            if bool_decide (key ∈ seen_keys) then fails INVALID_PAGINATION
            else
              pages ← continue_pages allowed api_id path body (Some key) (key :: seen_keys);
              mret (pg_payload page :: pages)
        end
      else mret [pg_payload page]
  end.

Definition request_all_pages (api_id path : string) (body : json) : rest (list json) :=
  continue_pages MAX_CONTINUATION_PAGES api_id path body None [].

Definition get_account_number : rest string :=
  payload ← request ACCOUNT_API_ID ACCOUNT_PATH (JObj []);
  match get_field "acctNo" payload with
  | JStr number =>
      let normalized := strip number in
      lift (reject_if (negb (digits_of_length 10 normalized)) INVALID_RESPONSE) ;;
      mret normalized
  | _ => fails INVALID_RESPONSE
  end.

(** The verification's masked number: the last two digits. *)
Definition verify_account : rest string :=
  keys ← lift credentials;
  let '(_, _, expected) := (keys : string * string * string) in
  lift (reject_if (negb (digits_of_length 10 expected))
          (KiwoomAdapterError "KIWOOM_ACCOUNT_ID_INVALID")) ;;
  actual ← get_account_number;
  lift (reject_if (negb (String.eqb expected actual)) (KiwoomAdapterError "KIWOOM_ACCOUNT_MISMATCH")) ;;
  mret ("********" +:+ last_chars 2 actual).

Definition get_account_snapshot : rest (account_snapshot_of amount) :=
  orders ← request_all_pages OPEN_ORDERS_API_ID ACCOUNT_PATH
    (JObj [("all_stk_tp", JStr "0"); ("trde_tp", JStr "0"); ("stk_cd", JStr EmptyString);
           ("stex_tp", JStr "1")]);
  fills ← request_all_pages FILLS_API_ID ACCOUNT_PATH
    (JObj [("stk_cd", JStr EmptyString); ("qry_tp", JStr "0"); ("sell_tp", JStr "0");
           ("ord_no", JStr EmptyString); ("stex_tp", JStr "1")]);
  positions ← request_all_pages POSITIONS_API_ID ACCOUNT_PATH
    (JObj [("qry_tp", JStr "1"); ("dmst_stex_tp", JStr "KRX")]);
  now ← reads wall;
  lift (account_snapshot orders fills positions now).

(** *** Orders *)

(** [KiwoomOrderRateLimiter.wait] *)
Definition limiter_wait (api_id : string) : rest unit := fun s =>
  let now := match dict_get api_id (rs_started s) with
    | Some previous =>
        let delay := order_interval - (rs_time s - previous) in
        if 0 <? delay then rs_time s + delay + oversleep s else rs_time s
    | None => rs_time s
    end in
  (mkRest (rs_token s) (dict_set api_id now (rs_started s)) (rs_posts s) now, inl tt).

(** The outcome of an order request, from the reply on. *)
Definition order_reply (status : Z) (body : option json) : exn + json :=
  if 400 <=? status then inl KiwoomOrderOutcomeUnknownError
  else match _json_object body with
       | inl _ => inl KiwoomOrderOutcomeUnknownError
       | inr payload =>
           if code_is_zero payload then inr payload
           else inl (KiwoomOrderRejectedError
                       (normalize_broker_result_code (get_field "return_code" payload))
                       (sanitize_broker_result_message (get_field "return_msg" payload)))
       end.

Definition _request_order_once (api_id : string) (body : json) : rest json :=
  token ← get_access_token false;
  limiter_wait api_id ;;
  response ← adapter_error_becomes KiwoomOrderOutcomeUnknownError
    (_post (mkPost ORDER_PATH (Some api_id) (Some ("Bearer " +:+ token)) None body));
  let '(status, _, reply) := (response : Z * list (string * string) * option json) in
  (if status =? 401 then invalidate_token else mret tt) ;;
  lift (order_reply status reply).

Definition place_order (request : KiwoomOrderRequest) : rest KiwoomOrderAcknowledgement :=
  body ← lift (_new_order_body request);
  payload ← _request_order_once
    (match kr_side request with BUY => BUY_ORDER_API_ID | SELL => SELL_ORDER_API_ID end) body;
  lift (_normalize_order_ack payload).

Definition replace_order (request : KiwoomReplaceRequest) : rest KiwoomOrderAcknowledgement :=
  body ← lift (replace_body request);
  payload ← _request_order_once REPLACE_ORDER_API_ID body;
  lift (_normalize_child_order_ack payload (kp_original_order_id request) "mdfy_qty" true).

Definition cancel_order (request : KiwoomCancelRequest) : rest KiwoomOrderAcknowledgement :=
  body ← lift (cancel_body request);
  payload ← _request_order_once CANCEL_ORDER_API_ID body;
  lift (_normalize_child_order_ack payload (kc_original_order_id request) "cncl_qty" false).
End Client.

(** ** Running the client *)

Definition rwp {A} (m : rest A) (Q : Rest -> A + exn -> Prop) (s : Rest) : Prop :=
  let '(s', r) := m s in Q s' r.

Section Rwp.
Context {A B : Type}.
Implicit Types s : Rest.

Lemma rwp_bind (m : rest A) (k : A -> rest B) Q s :
  rwp m (fun s' r => match r with inl a => rwp (k a) Q s' | inr e => Q s' (inr e) end) s ->
  rwp (mbind k m) Q s.
Proof. unfold rwp, mbind, rest_bind. destruct (m s) as [s' [a|e]]; auto. Qed.

Lemma rwp_ret (a : A) Q s : Q s (inl a) -> rwp (mret a) Q s.
Proof. done. Qed.

Lemma rwp_fails e (Q : Rest -> A + exn -> Prop) s : Q s (inr e) -> rwp (fails e) Q s.
Proof. done. Qed.

Lemma rwp_lift (r : exn + A) Q s :
  (forall a, r = inr a -> Q s (inl a)) -> (forall e, r = inl e -> Q s (inr e)) ->
  rwp (lift r) Q s.
Proof. destruct r; intros H1 H2; [by apply H2|by apply H1]. Qed.

Lemma rwp_reads (f : Rest -> A) Q s : Q s (inl (f s)) -> rwp (reads f) Q s.
Proof. done. Qed.

Lemma rwp_mono (m : rest A) (Q Q' : Rest -> A + exn -> Prop) s :
  rwp m Q s -> (forall s' r, Q s' r -> Q' s' r) -> rwp m Q' s.
Proof. unfold rwp. destruct (m s); auto. Qed.
End Rwp.

Lemma rwp_set_token t Q s :
  Q (mkRest t (rs_started s) (rs_posts s) (rs_time s)) (inl tt) -> rwp (set_token t) Q s.
Proof. done. Qed.

(** One step of a client program. *)
Ltac rwp_step :=
  lazymatch goal with
  | |- rwp (mbind _ _) _ _ => apply rwp_bind
  | |- rwp (mret _) _ _ => apply rwp_ret
  | |- rwp (fails _) _ _ => apply rwp_fails
  | |- rwp (lift _) _ _ => apply rwp_lift; intros ? ?
  | |- rwp (reads _) _ _ => apply rwp_reads
  | |- rwp (set_token _) _ _ => apply rwp_set_token
  | |- rwp (if ?b then _ else _) _ _ => let E := fresh "E" in destruct b eqn:E
  | |- rwp (match ?x with _ => _ end) _ _ => let E := fresh "E" in destruct x eqn:E
  end.

(** ** Orders are transmitted at most once *)

(** The outcomes that say something about the broker: the order may exist, or
    was refused. *)
Definition reported (e : exn) : bool :=
  match e with
  | KiwoomOrderRejectedError _ _ | KiwoomOrderOutcomeUnknownError => true
  | _ => false
  end.

(** The three order calls of the client. *)
Inductive OrderCall :=
| CallPlace (request : KiwoomOrderRequest)
| CallReplace (request : KiwoomReplaceRequest)
| CallCancel (request : KiwoomCancelRequest).

Definition call_api (c : OrderCall) : string :=
  match c with
  | CallPlace request => match kr_side request with BUY => BUY_ORDER_API_ID | SELL => SELL_ORDER_API_ID end
  | CallReplace _ => REPLACE_ORDER_API_ID
  | CallCancel _ => CANCEL_ORDER_API_ID
  end.

Definition call_body (c : OrderCall) : exn + json :=
  match c with
  | CallPlace request => _new_order_body request
  | CallReplace request => replace_body request
  | CallCancel request => cancel_body request
  end.

Definition call_ack (c : OrderCall) (payload : json) : exn + KiwoomOrderAcknowledgement :=
  match c with
  | CallPlace _ => _normalize_order_ack payload
  | CallReplace request =>
      _normalize_child_order_ack payload (kp_original_order_id request) "mdfy_qty" true
  | CallCancel request =>
      _normalize_child_order_ack payload (kc_original_order_id request) "cncl_qty" false
  end.

(** What a reply to an order request means: acknowledged when the status is a
    success, the body an object whose return code is zero and the
    acknowledgement well formed; refused when it carries a return code, an
    integer other than zero; in every other case the order may or may not exist.
    A body whose return code is missing or no number raises an error, of which
    nothing is claimed here ([missing_return_code_refuses]). *)
Inductive order_verdict (c : OrderCall) : Reply -> KiwoomOrderAcknowledgement + exn -> Prop :=
| VerdictAcknowledged status headers fields ack :
    status < 400 -> code_is_zero (JObj fields) = true ->
    call_ack c (JObj fields) = inr ack -> digits_of_length 7 (ka_broker_order_id ack) = true ->
    order_verdict c (Response status headers (Some (JObj fields))) (inl ack)
| VerdictRejected status headers fields n code message :
    status < 400 -> get_field "return_code" (JObj fields) = JInt n -> n <> 0 ->
    order_verdict c (Response status headers (Some (JObj fields)))
      (inr (KiwoomOrderRejectedError code message))
| VerdictUncoded status headers fields e :
    status < 400 -> (forall n, get_field "return_code" (JObj fields) <> JInt n) ->
    code_is_zero (JObj fields) = false ->
    order_verdict c (Response status headers (Some (JObj fields))) (inr e)
| VerdictUnknown reply :
    (forall status headers fields, reply = Response status headers (Some (JObj fields)) ->
       400 <= status \/ code_is_zero (JObj fields) = true) ->
    order_verdict c reply (inr KiwoomOrderOutcomeUnknownError).

Definition token_post (p : Post) : Prop := po_path p = TOKEN_PATH.

(** The effect of an order call: nothing but a token request reaches the
    broker, or exactly one order request with the validated body does. *)
Inductive sent_once (http : list Post -> Reply) (c : OrderCall) (s s' : Rest) :
  KiwoomOrderAcknowledgement + exn -> Prop :=
| NotSent tokens e :
    Forall token_post tokens -> rs_posts s' = rs_posts s ++ tokens -> reported e = false ->
    sent_once http c s s' (inr e)
| SentOnce tokens auth body r :
    Forall token_post tokens -> call_body c = inr body ->
    rs_posts s' = rs_posts s ++ tokens ++ [mkPost ORDER_PATH (Some (call_api c)) auth None body] ->
    order_verdict c (http (rs_posts s')) r ->
    sent_once http c s s' r.

Lemma reject_if_inl c e e' : reject_if c e = inl e' -> e' = e.
Proof. destruct c; [by intros [= <-]|done]. Qed.

Lemma result_bind_inl {A B} (m : exn + A) (f : A -> exn + B) e :
  (x ← m; f x) = inl e -> m = inl e \/ exists a, m = inr a /\ f a = inl e.
Proof. destruct m as [e'|a]; cbn; [by intros [= ->]; left|]. intros H. right. by exists a. Qed.

(** The exceptions of a computation that raises. *)
Ltac raised H :=
  lazymatch type of H with
  | mbind _ _ = inl _ =>
      let a := fresh "v" in let Ha := fresh "Hv" in
      apply result_bind_inl in H as [H|(a & Ha & H)]; raised H
  | reject_if _ _ = inl _ => apply reject_if_inl in H
  | mret _ = inl _ => discriminate H
  | inr _ = inl _ => discriminate H
  | _ => idtac
  end.

Lemma positive_integer_price_inl d e : _positive_integer_price d = inl e -> reported e = false.
Proof. unfold _positive_integer_price. intros H. raised H; by subst. Qed.

Lemma call_body_inl c e : call_body c = inl e -> reported e = false.
Proof.
  destruct c as [q|q|q]; cbn; unfold _new_order_body, order_price_fields, replace_body, cancel_body,
    _validate_market_symbol, _validate_broker_order_id; intros H; raised H;
    try (by subst); try (by eapply positive_integer_price_inl).
  - destruct (kr_order_type q); [|raised H; by subst].
    destruct (kr_limit_price q); [|by injection H as <-].
    raised H. by eapply positive_integer_price_inl.
  - by destruct v1.
Qed.

Lemma unknown_unless_inl c e : unknown_unless c = inl e -> e = KiwoomOrderOutcomeUnknownError.
Proof. apply reject_if_inl. Qed.

Lemma unknown_unless_inr c u : unknown_unless c = inr u -> c = true.
Proof. unfold unknown_unless. intros H%reject_if_inr. by apply negb_false_iff. Qed.

Lemma child_ack_spec payload original field market :
  match _normalize_child_order_ack payload original field market with
  | inl e => e = KiwoomOrderOutcomeUnknownError
  | inr a => digits_of_length 7 (ka_broker_order_id a) = true
  end.
Proof.
  unfold _normalize_child_order_ack. destruct (get_field "ord_no" payload); try done.
  unfold unknown_unless, _non_negative_int. 
  repeat (match goal with |- context [reject_if ?b _] => destruct b eqn:?; cbn; [done|] end).
  destruct (py_int _) as [n|]; cbn; [|done]. destruct (n <? 0); [done|]. by apply negb_false_iff.
Qed.

Lemma call_ack_spec c payload :
  match call_ack c payload with
  | inl e => e = KiwoomOrderOutcomeUnknownError
  | inr a => digits_of_length 7 (ka_broker_order_id a) = true
  end.
Proof.
  destruct c; [|apply child_ack_spec..]. cbn. unfold _normalize_order_ack.
  destruct (get_field "ord_no" payload); try done. destruct (get_field "dmst_stex_tp" payload); try done.
  unfold unknown_unless. destruct (digits_of_length 7 s) eqn:E; cbn; [|done].
  by destruct (String.eqb s0 "KRX").
Qed.

Section Orders.
Context (http : list Post -> Reply) (elapsed : list Post -> Z) (oversleep : Rest -> Z)
  (wall : Rest -> Z) (credentials : exn + (string * string * string))
  (kiwoom_token_refresh_minutes : Z) (sanitize_broker_result_message : json -> option string).
(** Reading the credentials fails with an error of the file system. *)
Hypothesis credentials_error : forall e, credentials = inl e -> reported e = false.

Definition run_call (c : OrderCall) : rest KiwoomOrderAcknowledgement :=
  match c with
  | CallPlace q => place_order http elapsed oversleep wall credentials
      kiwoom_token_refresh_minutes sanitize_broker_result_message q
  | CallReplace q => replace_order http elapsed oversleep wall credentials
      kiwoom_token_refresh_minutes sanitize_broker_result_message q
  | CallCancel q => cancel_order http elapsed oversleep wall credentials
      kiwoom_token_refresh_minutes sanitize_broker_result_message q
  end.

(** Only token requests were posted, and an error reports nothing. *)
Definition only_tokens {A} (s s' : Rest) (r : A + exn) : Prop :=
  (exists tokens, Forall token_post tokens /\ rs_posts s' = rs_posts s ++ tokens) /\
  rs_started s' = rs_started s /\ forall e, r = inr e -> reported e = false.

Lemma only_tokens_none {A} s t (r : A + exn) :
  (forall e, r = inr e -> reported e = false) ->
  only_tokens s (mkRest t (rs_started s) (rs_posts s) (rs_time s)) r.
Proof.
  intros H. split; [|done]. exists []. split; [constructor|]. cbn. by rewrite app_nil_r.
Qed.

Lemma json_object_inl b e : _json_object b = inl e -> reported e = false.
Proof. destruct b as [[]|]; by intros [= <-]. Qed.

Lemma require_success_inl p e : _require_success p = inl e -> reported e = false.
Proof.
  unfold _require_success. destruct (get_field _ p); cbn; try by (intros [= <-] || done).
  - unfold reject_if. destruct (negb _); by intros [= <-].
  - unfold reject_if. destruct (negb _); by intros [= <-].
  - destruct (decimal_of_text _) as [[| |]|]; try by intros [= <-].
    unfold reject_if. destruct (negb _); by intros [= <-].
  - destruct (py_int s); [|by intros [= <-]]. intros H. by apply reject_if_inl in H as ->.
Qed.

Lemma issue_token_posts s :
  rwp (_issue_token http elapsed credentials) (only_tokens s) s.
Proof.
  unfold _issue_token. apply rwp_bind, rwp_lift; [intros [[k1 k2] k3] _|intros e He].
  2: { destruct s. apply only_tokens_none. intros e' [= <-]. by apply credentials_error. }
  apply rwp_bind. unfold rwp at 1, _post at 1. cbn beta iota.
  set (p := mkPost TOKEN_PATH None None None _). set (s1 := mkRest _ _ _ _).
  assert (Hs1 : forall e, reported e = false -> @only_tokens AccessToken s s1 (inr e)).
  { intros e He. split; [|split; [done|by intros ? [= <-]]]. exists [p]. split; [|done].
    by constructor; [|constructor]. }
  assert (Ht : forall t, only_tokens s s1 (inl t : AccessToken + exn)).
  { intros t. split; [|done]. exists [p]. split; [|done]. by constructor; [|constructor]. }
  destruct (http _) as [| |status headers body]; [by apply Hs1|by apply Hs1|]. cbn beta iota.
  apply rwp_bind, rwp_lift; [intros payload _|intros e He%json_object_inl; by apply Hs1].
  apply rwp_bind, rwp_lift; [intros _ _|intros e ->%reject_if_inl; by apply Hs1].
  apply rwp_bind, rwp_lift; [intros _ _|intros e He%require_success_inl; by apply Hs1].
  destruct (get_field "token" payload); try (by apply rwp_fails, Hs1).
  destruct (get_field "expires_dt" payload); try (by apply rwp_fails, Hs1).
  apply rwp_bind, rwp_lift; [intros _ _|intros e ->%reject_if_inl; by apply Hs1].
  destruct (parse_expiry _); [by apply rwp_ret|by apply rwp_fails, Hs1].
Qed.

Lemma get_access_token_posts force s :
  rwp (get_access_token http elapsed wall credentials kiwoom_token_refresh_minutes force)
    (only_tokens s) s.
Proof.
  unfold get_access_token. apply rwp_bind, rwp_reads, rwp_bind, rwp_reads.
  destruct (if force then None else _) as [v|].
  - apply rwp_ret. destruct s. by apply only_tokens_none.
  - apply rwp_bind. eapply rwp_mono; [apply issue_token_posts|].
    intros s' [t|e] (H1 & H2 & H3).
    + apply rwp_bind, rwp_set_token, rwp_ret. by split.
    + split; [done|]. split; [done|]. intros e' [= <-]. by apply H3.
Qed.

Lemma order_reply_verdict c status headers body :
  match order_reply sanitize_broker_result_message status body with
  | inr payload =>
      order_verdict c (Response status headers body)
        (match call_ack c payload with inr a => inl a | inl e => inr e end)
  | inl e => order_verdict c (Response status headers body) (inr e)
  end.
Proof.
  unfold order_reply. destruct (Z.leb_spec 400 status).
  { apply VerdictUnknown. intros st h f [= -> -> ->]. by left. }
  destruct body as [[| | | | | |fields]|]; cbn; try (by apply VerdictUnknown).
  destruct (code_is_zero (JObj fields)) eqn:E.
  2: { destruct (get_field "return_code" (JObj fields)) eqn:Ef; try (by apply VerdictUncoded; rewrite ?Ef).
       unfold code_is_zero in E. rewrite Ef in E. apply Z.eqb_neq in E. by eapply VerdictRejected. }
  pose proof (call_ack_spec c (JObj fields)) as Ha.
  destruct (call_ack c (JObj fields)) as [e|a] eqn:Ea.
  - subst e. apply VerdictUnknown. intros st h f [= -> -> ->]. by right.
  - by eapply VerdictAcknowledged.
Qed.

Lemma request_order_once_spec c body s :
  call_body c = inr body ->
  rwp (payload ← _request_order_once http elapsed oversleep wall credentials
         kiwoom_token_refresh_minutes sanitize_broker_result_message (call_api c) body;
       lift (call_ack c payload)) (sent_once http c s) s.
Proof.
  intros Hb. unfold _request_order_once. apply rwp_bind, rwp_bind.
  eapply rwp_mono; [apply get_access_token_posts|].
  intros s1 [token|e] ((tokens & Ht & Hp) & _ & He).
  2: { eapply NotSent; eauto. }
  apply rwp_bind. unfold rwp at 1, limiter_wait at 1. cbn beta iota.
  apply rwp_bind. unfold rwp at 1, adapter_error_becomes, _post. cbn [rs_posts rs_token rs_started rs_time].
  set (posts := rs_posts s1 ++ _).
  assert (Hposts : posts = rs_posts s ++ tokens ++
    [mkPost ORDER_PATH (Some (call_api c)) (Some ("Bearer " +:+ token)) None body])
    by (unfold posts; by rewrite Hp, <- app_assoc).
  assert (Hsent : forall s' r, rs_posts s' = posts -> order_verdict c (http posts) r ->
                    sent_once http c s s' r).
  { intros s' r Hs' Hv. eapply SentOnce; [done|done| |by rewrite Hs']. by rewrite Hs', Hposts. }
  destruct (http posts) as [| |status headers reply] eqn:Eh; cbn beta iota;
    [by apply Hsent, VerdictUnknown|by apply Hsent, VerdictUnknown|].
  apply rwp_bind.
  assert (Hlast : forall s2, rs_posts s2 = posts ->
    rwp (lift (order_reply sanitize_broker_result_message status reply))
      (fun s' r => match r with inl a => rwp (lift (call_ack c a)) (sent_once http c s) s'
                              | inr e => sent_once http c s s' (inr e) end) s2).
  { intros s2 Hs2. pose proof (order_reply_verdict c status headers reply) as Hv.
    destruct (order_reply _ status reply) as [e|payload]; cbn.
    - by apply Hsent.
    - unfold rwp. destruct (call_ack c payload); by apply Hsent. }
  destruct (status =? 401).
  - unfold invalidate_token. apply rwp_set_token. by apply Hlast.
  - apply rwp_ret. by apply Hlast.
Qed.

End Orders.

(** ** Reading the account *)

(** At most [n] more requests, none of which is an order. *)
Definition reads_at_most (n : nat) (s s' : Rest) : Prop :=
  exists posts, rs_posts s' = rs_posts s ++ posts /\ (length posts <= n)%nat /\
    Forall (fun p => po_path p <> ORDER_PATH) posts.

Lemma reads_none n s s' : rs_posts s' = rs_posts s -> reads_at_most n s s'.
Proof. intros H. exists []. rewrite app_nil_r. split; [done|]. split; [cbn; lia|constructor]. Qed.

Lemma reads_trans n m k s s1 s2 :
  reads_at_most n s s1 -> reads_at_most m s1 s2 -> (n + m <= k)%nat -> reads_at_most k s s2.
Proof.
  intros (l1 & H1 & L1 & F1) (l2 & H2 & L2 & F2) Hk. exists (l1 ++ l2).
  rewrite H2, H1, app_assoc, length_app. split; [done|]. split; [lia|]. by apply Forall_app.
Qed.

Lemma reads_weaken n m s s' : reads_at_most n s s' -> (n <= m)%nat -> reads_at_most m s s'.
Proof. intros (l & H & L & F) Hm. exists l. split; [done|]. split; [lia|done]. Qed.

Section Reading.
Context (http : list Post -> Reply) (elapsed : list Post -> Z) (wall : Rest -> Z)
  (credentials : exn + (string * string * string)) (kiwoom_token_refresh_minutes : Z).

Lemma post_reads p s :
  po_path p <> ORDER_PATH -> rwp (_post http elapsed p) (fun s' _ => reads_at_most 1 s s') s.
Proof.
  intros Hp. unfold rwp, _post. exists [p]. split; [done|]. split; [done|].
  by constructor; [|constructor].
Qed.

Lemma issue_token_reads s :
  rwp (_issue_token http elapsed credentials) (fun s' _ => reads_at_most 1 s s') s.
Proof.
  unfold _issue_token. apply rwp_bind, rwp_lift; [intros [[k1 k2] k3] _|by intros; apply reads_none].
  apply rwp_bind. eapply rwp_mono; [by apply post_reads|].
  intros s1 [[[status h] b]|e] H; [|done]. repeat (rwp_step; try exact H).
Qed.

Lemma get_access_token_reads force s :
  rwp (get_access_token http elapsed wall credentials kiwoom_token_refresh_minutes force)
    (fun s' _ => reads_at_most 1 s s') s.
Proof.
  unfold get_access_token. apply rwp_bind, rwp_reads, rwp_bind, rwp_reads.
  destruct (if force then None else _) as [v|]; [by apply rwp_ret, reads_none|].
  apply rwp_bind. eapply rwp_mono; [apply issue_token_reads|].
  intros s1 [t|e] H; [|done]. by apply rwp_bind, rwp_set_token, rwp_ret.
Qed.

Lemma page_attempt_reads api path body key again s :
  path <> ORDER_PATH ->
  rwp (page_attempt http elapsed wall credentials kiwoom_token_refresh_minutes api path body key again)
    (fun s' _ => reads_at_most 2 s s') s.
Proof.
  intros Hp. unfold page_attempt. apply rwp_bind.
  eapply rwp_mono; [apply get_access_token_reads|].
  intros s1 [token|e] H1; [|eapply reads_weaken; [exact H1|lia]].
  apply rwp_bind. eapply rwp_mono; [by apply post_reads|]. intros s2 r H2.
  assert (H : reads_at_most 2 s s2) by (eapply reads_trans; [exact H1|exact H2|lia]).
  destruct r as [[[status h] b]|e]; [|done]. unfold invalidate_token.
  repeat (rwp_step; try exact H).
Qed.

Lemma request_page_reads api path body key s :
  path <> ORDER_PATH ->
  rwp (_request_page http elapsed wall credentials kiwoom_token_refresh_minutes api path body key)
    (fun s' _ => reads_at_most 4 s s') s.
Proof.
  intros Hp. unfold _request_page. apply rwp_bind, rwp_lift; [intros _ _|by intros; apply reads_none].
  apply rwp_bind. eapply rwp_mono; [by apply page_attempt_reads|]. intros s1 r H1.
  assert (H : reads_at_most 4 s s1) by (eapply reads_weaken; [exact H1|lia]).
  destruct r as [[page|]|e]; [by apply rwp_ret| |done].
  apply rwp_bind. eapply rwp_mono; [by apply page_attempt_reads|]. intros s2 r H2.
  assert (H' : reads_at_most 4 s s2) by (eapply reads_trans; [exact H1|exact H2|lia]).
  destruct r as [[page|]|e]; [by apply rwp_ret|by apply rwp_fails|done].
Qed.

Lemma continue_pages_reads allowed api path body key seen s :
  path <> ORDER_PATH ->
  rwp (continue_pages http elapsed wall credentials kiwoom_token_refresh_minutes allowed api path
         body key seen) (fun s' _ => reads_at_most (4 * allowed) s s') s.
Proof.
  intros Hp. revert key seen s. induction allowed as [|n IH]; intros key seen s; cbn [continue_pages].
  { by apply rwp_fails, reads_none. }
  apply rwp_bind. eapply rwp_mono; [by apply request_page_reads|]. intros s1 r H1.
  assert (H : reads_at_most (4 * S n) s s1) by (eapply reads_weaken; [exact H1|lia]).
  destruct r as [page|e]; [|done]. repeat (rwp_step; try exact H).
  eapply rwp_mono; [apply IH|]. intros s2 r H2.
  assert (H' : reads_at_most (4 * S n) s s2) by (eapply reads_trans; [exact H1|exact H2|lia]).
  destruct r; [by apply rwp_ret|done].
Qed.

(** The requests one reading of the account may post: three times twenty pages,
    each tried twice with a fresh token. *)
Definition account_requests : nat := 3 * (4 * MAX_CONTINUATION_PAGES).

(** C17: what the client reports of an account is well formed.  A reading ends
    after a bounded number of requests, none of which is an order, and a
    snapshot it returns has unique order numbers and symbols, positive
    quantities that add up, non-negative amounts and valid times. *)
Theorem account_snapshot_typed s :
  rwp (get_account_snapshot http elapsed wall credentials kiwoom_token_refresh_minutes)
    (fun s' r => reads_at_most account_requests s s' /\
       match r with inl snapshot => snapshot_ok snapshot | inr _ => True end) s.
Proof.
  unfold get_account_snapshot, request_all_pages, account_requests. set (n := (4 * MAX_CONTINUATION_PAGES)%nat).

  apply rwp_bind. eapply rwp_mono; [by apply continue_pages_reads|]. intros s1 r1 H1. fold n in H1.
  destruct r1 as [orders|e]; [|split; [eapply reads_weaken; [exact H1|lia]|done]].
  apply rwp_bind. eapply rwp_mono; [by apply continue_pages_reads|]. intros s2 r2 H2. fold n in H2.
  assert (H12 : reads_at_most (2 * n) s s2) by (eapply reads_trans; [exact H1|exact H2|lia]).
  destruct r2 as [fills|e]; [|split; [eapply reads_weaken; [eassumption|lia]|done]].
  apply rwp_bind. eapply rwp_mono; [by apply continue_pages_reads|]. intros s3 r3 H3. fold n in H3.
  assert (H : reads_at_most (3 * n) s s3) by (eapply reads_trans; [exact H12|exact H3|lia]).
  destruct r3 as [positions|e]; [|done].
  apply rwp_bind, rwp_reads, rwp_lift; [|done]. intros snapshot Hs.
  split; [done|]. by eapply account_snapshot_spec.
Qed.
End Reading.

(** ** Spacing of order requests *)

(** Two starts of one kind of order request are a whole interval apart. *)
Lemma order_requests_spaced oversleep api previous s :
  0 <= oversleep s -> dict_get api (rs_started s) = Some previous ->
  rwp (limiter_wait oversleep api) (fun s' _ =>
    exists started, dict_get api (rs_started s') = Some started /\ rs_time s' = started /\
      previous + order_interval <= started /\ rs_time s <= started) s.
Proof.
  intros Ho Hp. unfold rwp, limiter_wait. rewrite Hp. cbn.
  eexists. rewrite dict_get_set, String.eqb_refl. split; [done|]. split; [done|].
  destruct (Z.ltb_spec 0 (order_interval - (rs_time s - previous))); lia.
Qed.

(** ** What replies are taken for *)

(** A price read back from its [Numeric(18, 4)] column is sent with its four
    zero decimals. *)
Lemma column_price_sent_with_decimals :
  _positive_integer_price (Dec 740000000 (-4)) = inr "74000.0000" /\
  _positive_integer_price (Dec 74000 0) = inr "74000".
Proof. split; vm_compute; reflexivity. Qed.

(** A reply without a return code, and one whose code is the text of zero, count
    as an explicit refusal of an order, and as a success of any other request. *)
Lemma missing_return_code_refuses sanitize status fields :
  status < 400 ->
  get_field "return_code" (JObj fields) = JNull \/ get_field "return_code" (JObj fields) = JStr "0" ->
  (exists code message, order_reply sanitize status (Some (JObj fields)) =
                        inl (KiwoomOrderRejectedError code message)) /\
  _require_success (JObj fields) = inr tt.
Proof.
  intros Hs Hc. unfold order_reply, code_is_zero, _require_success, _json_object.
  destruct (Z.leb_spec 400 status); [lia|]. destruct Hc as [->| ->]; split; eauto.
Qed.

(** ** Witness: a token, then an acknowledged limit order *)

Definition demo_http (posts : list Post) : Reply :=
  match last posts with
  | Some p =>
      if String.eqb (po_path p) TOKEN_PATH
      then Response 200 [] (Some (JObj [("return_code", JInt 0); ("token", JStr "t");
                                        ("expires_dt", JStr "20260105090000")]))
      else Response 200 [] (Some (JObj [("return_code", JInt 0); ("ord_no", JStr "0000139");
                                        ("dmst_stex_tp", JStr "KRX")]))
  | None => TimedOut
  end.

Definition demo_order : KiwoomOrderRequest :=
  mkKiwoomOrderRequest "005930" BUY 3 LIMIT (Some (Dec 74000 0)) "KRX".

Definition demo_run : Rest * (KiwoomOrderAcknowledgement + exn) :=
  run_call demo_http (fun _ => second) (fun _ => 0) (fun _ => 0) (inr ("key", "secret", "1234567890")) 5
    (fun _ => None) (CallPlace demo_order) (mkRest None [] [] 0).


(** The sender's client: the broker's number of an acknowledgement. *)
Definition sender_reply (r : KiwoomOrderAcknowledgement + exn) : string + exn :=
  match r with inl ack => inl (ka_broker_order_id ack) | inr e => inr e end.
