(* ===== verification/Guards.v ===== *)
(** * The order guards of decisions

    The rule lists of [decision_execution.py] that every decision-driven BUY
    and SELL must pass, at routing and again at approval, with the sell plan
    they read. *)

From Stdlib Require Import ZArith Lia.
From stdpp Require Import base numbers strings list gmap.
From S2P Require Import Prelude Decimal Json DecimalText PyTime Models Session PaperBroker.
From S2P Require Import RiskCalc RiskEvents MarketCalendar Venue.

Open Scope Z_scope.

(** ** Constants *)

Definition ACTIVE_ORDER_STATES : list OrderStatus :=
  [CREATED; VALIDATING; SUBMITTING; ACKNOWLEDGED; OPEN; PARTIALLY_FILLED; CANCEL_PENDING;
   REPLACE_PENDING; UNKNOWN; RECONCILING].

Definition TRADABLE_SESSIONS_BY_MARKET (market : string) : list TradingSession :=
  if String.eqb market "KRX" then [KRX_ONLY; DUAL_CONTINUOUS]
  else if String.eqb market "NXT" then [NXT_PRE; DUAL_CONTINUOUS; NXT_AFTER]
  else [].

Definition action_text (a : Action) : string :=
  match a with
  | ACT_BUY => "BUY" | ACT_WAIT => "WAIT" | ACT_REJECT => "REJECT"
  | ACT_RISK_BLOCK => "RISK_BLOCK" | ACT_HOLD => "HOLD" | ACT_TIGHTEN_STOP => "TIGHTEN_STOP"
  | ACT_PARTIAL_SELL => "PARTIAL_SELL" | ACT_FULL_SELL => "FULL_SELL"
  | ACT_EMERGENCY_EXIT => "EMERGENCY_EXIT"
  end.

(** ** The BUY guard *)

Definition watched (db : DB) (user : User) (decision : Decision) : bool :=
  bool_decide (is_Some (find_row (fun w => String.eqb (wl_user_id w) (u_id user) &&
    String.eqb (wl_market w) (d_market decision) &&
    String.eqb (wl_symbol w) (d_symbol decision)) (watchlist db))).

Definition gate_ready (db : DB) : bool :=
  match gates db !! ACCOUNT_ALIAS with
  | Some g => bool_decide (g_status g = GATE_READY)
  | None => false
  end.

(** The snapshot is the stream's current one, both are normal, and it is recent. *)
Definition head_fresh (db : DB) (decision : Decision) (snapshot : option MarketSnapshot)
  (quote_stale_seconds now : Z) : bool :=
  match snapshot, streams db !! (d_market decision, d_symbol decision) with
  | Some s, Some stream =>
      bool_decide (mss_current_snapshot_id stream = Some (ms_id s)) &&
      bool_decide (ms_quality s = Q_NORMAL) && bool_decide (mss_quality stream = Q_NORMAL) &&
      (now - ms_received_at s <=? seconds quote_stale_seconds)
  | _, _ => false
  end.

Definition _buy_guard_rules (db : DB) (decision : Decision) (user : User) (settings : Settings)
  (risk_policy : RiskPolicyPayload) (now : Z) (snapshot : option MarketSnapshot) :
  exn + list Rule :=
  let entry_amount := match entry_order_amount risk_policy with
                      | Some n => of_int n | None => dzero end in
  let '(per_symbol, total_exposure) := open_position_exposure db ACCOUNT_ALIAS in
  let symbol_exposure := exposure_of per_symbol (d_symbol decision) in
  let loss_pct := daily_loss_pct db ACCOUNT_ALIAS (daily_loss_basis risk_policy) now
                    (of_int (max_total_position_amount risk_policy)) in
  match spread_pct snapshot with
  | inl e => inl e
  | inr snapshot_spread =>
      inr [rule "ENVIRONMENT_NOT_MOCK" (String.eqb (upper (environment settings)) "MOCK");
           rule "DECISION_EXPIRED" (now <=? d_valid_until decision);
           rule "SNAPSHOT_MISSING" (bool_decide (is_Some snapshot));
           rule "MARKET_DATA_STALE"
             (head_fresh db decision snapshot (quote_stale_seconds risk_policy) now);
           rule "SYMBOL_NOT_WATCHED" (watched db user decision);
           rule "BROKER_NOT_READY" (gate_ready db);
           rule "EMERGENCY_STOP_ACTIVE"
             (bool_decide (active_pause_entry db ACCOUNT_ALIAS = None));
           rule "ORDER_SIZE_NOT_CONFIGURED"
             (bool_decide (is_Some (entry_order_amount risk_policy)));
           rule "TOTAL_EXPOSURE_LIMIT"
             (dleb (dadd total_exposure entry_amount)
                (of_int (max_total_position_amount risk_policy)));
           rule "SYMBOL_EXPOSURE_LIMIT"
             (dleb (dadd symbol_exposure entry_amount)
                (of_int (max_position_amount_per_symbol risk_policy)));
           rule "OPEN_POSITIONS_LIMIT"
             (open_position_count db ACCOUNT_ALIAS <? max_open_positions risk_policy);
           rule "DAILY_ENTRIES_LIMIT"
             (daily_entry_count db ACCOUNT_ALIAS now <? max_daily_entries risk_policy);
           rule "DAILY_LOSS_LIMIT" (dltb loss_pct (daily_loss_limit_pct risk_policy));
           rule "CONSECUTIVE_LOSS_LIMIT"
             (consecutive_loss_count db ACCOUNT_ALIAS <? max_consecutive_losses risk_policy);
           rule "SPREAD_LIMIT" (match snapshot_spread with
                                | Some s => dleb s (max_spread_pct risk_policy)
                                | None => false
                                end);
           rule "BROKER_CONNECTION_OK" (broker_connection_ok db ACCOUNT_ALIAS now 30).1;
           rule "NO_ACTIVE_DAILY_LOSS_EVENT"
             (bool_decide (active_risk_events db (Some RISK_EVENT_SCOPE_DAILY_LOSS)
                             (Some ACCOUNT_ALIAS) = []))]
  end.

(** ** The sell plan *)

Record SellPlan := mkSellPlan {
  sp_position : option Position;
  sp_snapshot : option MarketSnapshot;
  sp_sellable_quantity : Z;
  sp_quantity : Z;
  sp_price : option decimal;
  sp_sell_ratio : option decimal
}.

(** [Decimal(str(value))] of a JSON value: a null is none. *)
Definition decimal_of_json (v : option json) : option parsed :=
  match v with
  | Some (JStr s) => decimal_of_text s
  | Some (JInt n) => Some (Finite (of_int n))
  | Some (JNum repr) => decimal_of_text repr
  | _ => None
  end.

(** The comparisons lie outside the [try]: a NaN raises. *)
Definition _sell_ratio (decision : Decision) : exn + option decimal :=
  if bool_decide (d_action decision <> ACT_PARTIAL_SELL) then inr None
  else match decimal_of_json (jget "sell_ratio" (d_core_output decision)) with
       | None | Some (Infinity _) => inr None
       | Some NaN => inl InvalidOperation
       | Some (Finite ratio) =>
           inr (if dbetween (Dec 1 (-2)) (Dec 10 (-1)) ratio then Some ratio else None)
       end.

Definition _sellable_managed_quantity (db : DB) (position : option Position) : Z :=
  match position with
  | None => 0
  | Some p =>
      let reserved := reserved_sell_quantity ACTIVE_ORDER_STATES (p_account_alias p)
                        (p_symbol p) db in
      let broker_sellable_managed :=
        Z.min (Z.max 0 (p_managed_quantity p)) (Z.max 0 (p_available_quantity p)) in
      Z.max 0 (broker_sellable_managed - reserved)
  end.

Definition _has_active_symbol_order (db : DB) (decision : Decision) : bool :=
  symbol_order_in ACTIVE_ORDER_STATES ACCOUNT_ALIAS (d_symbol decision) db.

Definition _position_for_sell (db : DB) (decision : Decision) : option Position :=
  position_of ACCOUNT_ALIAS (d_symbol decision) db.

Definition _sell_plan (db : DB) (decision : Decision) (snapshot : option MarketSnapshot) :
  exn + SellPlan :=
  let position := _position_for_sell db decision in
  let sellable := _sellable_managed_quantity db position in
  match _sell_ratio decision with
  | inl e => inl e
  | inr ratio =>
      let quantity :=
        if bool_decide (d_action decision = ACT_FULL_SELL) then sellable
        else match ratio with
             | Some r => to_int ROUND_DOWN (dmul (of_int sellable) r)
             | None => 0
             end in
      inr (mkSellPlan position snapshot sellable quantity
             (s ← snapshot; ms_best_bid_price s) ratio)
  end.

(** ** The SELL guard *)

Section SellGuard.
Context (holidays : Z -> option (list Z)).

Definition _sell_guard_rules (db : DB) (decision : Decision) (settings : Settings)
  (risk_policy : RiskPolicyPayload) (now : Z) (plan : SellPlan)
  (expected_position_id : option string) (expected_position_version requested_quantity : option Z) :
  list Rule :=
  let position := sp_position plan in
  let holds (P : Position -> bool) := match position with Some p => P p | None => false end in
  let gate := gates db !! ACCOUNT_ALIAS in
  let quantity := default (sp_quantity plan) requested_quantity in
  let fresh := match sp_snapshot plan with
    | Some s => head_fresh db decision (Some s) (quote_stale_seconds risk_policy) now &&
                String.eqb (ms_trading_status s) "TRADING" && (ms_received_at s <=? now)
    | None => false
    end in
  let session := classify_session holidays now None in
  [rule "ENVIRONMENT_NOT_MOCK" (String.eqb (upper (environment settings)) "MOCK");
   rule "DECISION_EXPIRED" (now <=? d_valid_until decision);
   rule "POSITION_FOUND" (holds (fun p => bool_decide (p_state p = POS_OPEN) && (0 <? p_quantity p)));
   rule "POSITION_ID_MATCH" (match expected_position_id with
                             | None => true
                             | Some id => holds (fun p => String.eqb (p_id p) id)
                             end);
   rule "POSITION_VERSION_MATCH" (match expected_position_version with
                                  | None => true
                                  | Some v => holds (fun p => p_version p =? v)
                                  end);
   rule "POSITION_MANAGED_QUANTITY_POSITIVE" (holds (fun p => 0 <? p_managed_quantity p));
   rule "SELL_RATIO_VALID" (bool_decide (d_action decision <> ACT_PARTIAL_SELL) ||
                            bool_decide (is_Some (sp_sell_ratio plan)));
   rule "NO_ACTIVE_OR_UNKNOWN_ORDER" (negb (_has_active_symbol_order db decision));
   rule "QUANTITY_BELOW_ONE" (1 <=? quantity);
   rule "SELL_QUANTITY_AVAILABLE" ((1 <=? quantity) && (quantity <=? sp_sellable_quantity plan));
   rule "BROKER_READY" (gate_ready db);
   rule "NOT_RECONCILING" (match gate with
                           | Some g => bool_decide (g_status g <> GATE_RECONCILING)
                           | None => false
                           end);
   rule "MARKET_DATA_FRESH" fresh;
   rule "MARKETABLE_SELL_PRICE_AVAILABLE" (match sp_price plan with
                                           | Some p => dltb dzero p
                                           | None => false
                                           end);
   rule "MARKET_SESSION_TRADABLE"
     (bool_decide (session ∈ TRADABLE_SESSIONS_BY_MARKET (d_market decision)))].
End SellGuard.

(** ** Order sizes *)

Definition _marketable_buy_price (snapshot : option MarketSnapshot) : option decimal :=
  s ← snapshot; ms_best_ask_price s.

Definition _marketable_sell_price (snapshot : option MarketSnapshot) : option decimal :=
  s ← snapshot; ms_best_bid_price s.

(** The price is positive, so the division cannot raise; [quantize] can. *)
Definition _buy_quantity (entry_order_amount : option Z) (price : option decimal) : exn + Z :=
  match entry_order_amount, price with
  | Some amount, Some p =>
      if dleb p dzero then inr 0
      else match ddiv (of_int amount) p with
           | None => inl ZeroDivision
           | Some q => match quantize ROUND_DOWN 0 q with
                       | None => inl InvalidOperation
                       | Some r => inr (to_int ROUND_DOWN r)
                       end
           end
  | _, _ => inr 0
  end.

(** ** What a passed guard means *)

(** The conditions of a new entry, in the terms of the ledger. *)
Definition buy_permitted (db : DB) (decision : Decision) (user : User) (settings : Settings)
  (policy : RiskPolicyPayload) (now : Z) (snapshot : option MarketSnapshot) : Prop :=
  let '(per_symbol, total) := open_position_exposure db ACCOUNT_ALIAS in
  upper (environment settings) = "MOCK" /\
  now <= d_valid_until decision /\
  (exists s stream, snapshot = Some s /\
     streams db !! (d_market decision, d_symbol decision) = Some stream /\
     mss_current_snapshot_id stream = Some (ms_id s) /\ ms_quality s = Q_NORMAL /\
     mss_quality stream = Q_NORMAL /\ now - ms_received_at s <= seconds (quote_stale_seconds policy)) /\
  watched db user decision = true /\
  (exists g w, gates db !! ACCOUNT_ALIAS = Some g /\ g_status g = GATE_READY /\
     worker_states db !! ACCOUNT_ALIAS = Some w /\ bw_state w = W_READY /\
     bw_websocket_connected w = true /\ bw_subscriptions_ready w = true /\
     now - bw_last_heartbeat_at w <= seconds 30) /\
  active_pause_entry db ACCOUNT_ALIAS = None /\
  (exists entry, entry_order_amount policy = Some entry /\
     dleb (dadd total (of_int entry)) (of_int (max_total_position_amount policy)) = true /\
     dleb (dadd (exposure_of per_symbol (d_symbol decision)) (of_int entry))
       (of_int (max_position_amount_per_symbol policy)) = true) /\
  open_position_count db ACCOUNT_ALIAS < max_open_positions policy /\
  daily_entry_count db ACCOUNT_ALIAS now < max_daily_entries policy /\
  dltb (daily_loss_pct db ACCOUNT_ALIAS (daily_loss_basis policy) now
          (of_int (max_total_position_amount policy))) (daily_loss_limit_pct policy) = true /\
  consecutive_loss_count db ACCOUNT_ALIAS < max_consecutive_losses policy /\
  (exists spread, spread_pct snapshot = inr (Some spread) /\ dleb spread (max_spread_pct policy) = true) /\
  (forall k e, risk_events db !! k = Some e -> re_active e = true ->
     re_scope e = RISK_EVENT_SCOPE_DAILY_LOSS -> re_account_alias e = ACCOUNT_ALIAS -> False).

Lemma all_passed_cons c b rs : Forall (fun r => rule_passed r = true) (rule c b :: rs) <->
  b = true /\ Forall (fun r => rule_passed r = true) rs.
Proof. by rewrite Forall_cons. Qed.

Lemma gate_ready_spec db : gate_ready db = true <->
  exists g, gates db !! ACCOUNT_ALIAS = Some g /\ g_status g = GATE_READY.
Proof.
  unfold gate_ready. destruct (gates db !! ACCOUNT_ALIAS) as [g|]; [|split; [done|by intros (? & ? & _)]].
  rewrite bool_decide_eq_true. split; [eauto|by intros (g' & [= <-] & ?)].
Qed.

Lemma head_fresh_spec db decision snapshot n now : head_fresh db decision snapshot n now = true <->
  exists s stream, snapshot = Some s /\
    streams db !! (d_market decision, d_symbol decision) = Some stream /\
    mss_current_snapshot_id stream = Some (ms_id s) /\ ms_quality s = Q_NORMAL /\
    mss_quality stream = Q_NORMAL /\ now - ms_received_at s <= seconds n.
Proof.
  unfold head_fresh. destruct snapshot as [s|]; [|split; [done|by intros (? & ? & ? & _)]].
  destruct (streams db !! _) as [m|]; [|split; [done|by intros (? & ? & _ & ? & _)]].
  rewrite !andb_true_iff, !bool_decide_eq_true, Z.leb_le.
  split; [intros [[[? ?] ?] ?]; eauto 10|].
  intros (s' & m' & [= <-] & [= <-] & H). tauto.
Qed.

Lemma buy_guard_passed db decision user settings policy now snapshot rules :
  _buy_guard_rules db decision user settings policy now snapshot = inr rules ->
  blocked_rules rules = [] -> buy_permitted db decision user settings policy now snapshot.
Proof.
  unfold _buy_guard_rules, buy_permitted.
  destruct (open_position_exposure db ACCOUNT_ALIAS) as [per total].
  destruct (spread_pct snapshot) as [e|spread] eqn:Es; [discriminate|].
  intros H. apply (inj inr) in H. subst rules. rewrite blocked_rules_nil.
  repeat rewrite all_passed_cons. rewrite !bool_decide_eq_true, !Z.ltb_lt, !Z.leb_le, String.eqb_eq.
  rewrite head_fresh_spec, gate_ready_spec, active_risk_events_nil.
  intros (H1 & H2 & _ & H4 & H5 & H6 & H7 & (entry & H8) & H9 & H10 & H11 & H12 & H13 & H14 & H15 &
          H16 & H17 & _).
  rewrite H8 in *. repeat (split; [done|]). split; [|].
  { destruct (broker_connection_ok db ACCOUNT_ALIAS now 30) as [ok r] eqn:Eb. simpl in H16. subst ok.
    apply broker_connection_ok_spec in Eb as [_ (w & g & ? & ? & ? & ? & ? & ? & ?)].
    exists g, w. tauto. }
  split; [done|]. split; [eauto|]. repeat (split; [done|]). split; [|done].
  destruct spread as [s|]; [eauto|done].
Qed.

(** ** The BUY quantity *)

(** The quotient of an integer by a price, rounded to the context, has the same
    whole part as the exact quotient. *)
Lemma quotient_floor amount price :
  0 < amount < pow10 20 -> price_unit <= expo price -> 0 < coef price ->
  let n := amount * pow10 4 / scaled price_unit price in
  exists c k, ddiv (of_int amount) price = Some (Dec c (- k)) /\ 0 < k /\
    n * pow10 k <= c <= (n + 1) * pow10 k - 1.
Proof.
  intros Ha He Hm n. unfold price_unit in *. set (m := coef price) in *. set (e := expo price) in *.
  destruct (ddiv_form (of_int amount) price) as (s & Hs & E & Hbig).
  { split; [simpl; lia|]. change (coef (of_int amount)) with amount.
    pose proof (pow10_le 20 prec ltac:(unfold prec; lia)). lia. }
  { exact Hm. }
  fold m e in E, Hbig. change (coef (of_int amount)) with amount in E, Hbig.
  change (expo (of_int amount)) with 0 in E. change (prec - 1) with 27 in Hbig.
  destruct Hbig as [Hbig|Hbig]; [lia|].
  assert (H27 : pow10 27 = pow10 20 * pow10 7) by (rewrite <- pow10_add by lia; done).
  pose proof (pow10_pos 20 ltac:(lia)). pose proof (pow10_pos s Hs).
  assert (Hsm : pow10 7 * m < pow10 s) by nia.
  assert (Hs8 : 7 < s).
  { destruct (Z.le_gt_cases s 7) as [L|L]; [|done]. pose proof (pow10_le s 7 ltac:(lia)). nia. }
  set (r := pow10 (s - 4)).
  assert (Er : pow10 s = r * pow10 4).
  { unfold r. rewrite <- pow10_add by lia. f_equal. lia. }
  assert (Hmr : m <= r).
  { change (pow10 7) with (1000 * 10000) in Hsm. change (pow10 4) with 10000 in Er. nia. }
  set (P := scaled (-4) price) in *. set (A := amount * pow10 4) in *.
  assert (HP : P * r = m * pow10 (e + s)).
  { unfold P, scaled. fold m e. unfold r. rewrite <- Z.mul_assoc, <- pow10_add by lia.
    do 2 f_equal. lia. }
  assert (HA : amount * pow10 s = A * r) by (unfold A; rewrite Er; lia).
  assert (HPpos : 0 < P) by (apply scaled_sign; [exact He|exact Hm]).
  pose proof (Z.div_mod A P ltac:(lia)). pose proof (Z.mod_pos_bound A P HPpos). fold n in H1.
  exists (round_mag ROUND_HALF_EVEN (amount * pow10 s) m), (e + s).
  split; [rewrite E; do 2 f_equal; lia|]. split; [lia|]. rewrite HA.
  split; [apply round_mag_lower; [done|]|apply round_mag_upper; [done|]].
  - replace (n * pow10 (e + s) * m) with (n * P * r) by (rewrite <- Z.mul_assoc, HP; lia). nia.
  - replace (((n + 1) * pow10 (e + s) - 1) * m) with ((n + 1) * P * r - m)
      by (rewrite <- Z.mul_assoc, HP; lia). nia.
Qed.

(** The BUY quantity is the largest whole number of shares the entry amount
    pays for: its cost at the price does not exceed the amount, and one more
    share would.  The division rounded to 28 digits never tips it over. *)
Theorem buy_quantity_maximal (amount : Z) (price : decimal) :
  0 < amount < pow10 20 -> price_unit <= expo price -> 0 < coef price ->
  exists n, _buy_quantity (Some amount) (Some price) = inr n /\ 0 <= n /\
    n * scaled price_unit price <= amount * pow10 4 < (n + 1) * scaled price_unit price.
Proof.
  intros Ha He Hm. set (n := amount * pow10 4 / scaled price_unit price).
  assert (HP : 0 < scaled price_unit price) by (by apply scaled_sign).
  assert (Hn : 0 <= n) by (apply Z.div_pos; [unfold pow10; lia|exact HP]).
  assert (Hb : n * scaled price_unit price <= amount * pow10 4 < (n + 1) * scaled price_unit price).
  { pose proof (Z.div_mod (amount * pow10 4) (scaled price_unit price) ltac:(lia)) as D.
    pose proof (Z.mod_pos_bound (amount * pow10 4) _ HP). fold n in D. lia. }
  exists n. split; [|done]. unfold _buy_quantity.
  assert (E0 : dleb price dzero = false).
  { apply not_true_iff_false. intros X. rewrite (dleb_scaled (Z.min 0 (expo price))) in X by (simpl; lia).
    apply Z.leb_le in X. pose proof (proj2 (scaled_sign (Z.min 0 (expo price)) price ltac:(lia)) Hm).
    unfold scaled at 2 in X. simpl in X. lia. }
  rewrite E0. destruct (quotient_floor amount price Ha He Hm) as (c & k & E & Hk & Hc). fold n in Hc.
  rewrite E. pose proof (pow10_pos k ltac:(lia)) as Hp.
  assert (Ec : round_div ROUND_DOWN c (pow10 k) = n).
  { rewrite round_div_nonneg_eq by nia. unfold round_mag. symmetry.
    apply (Z.div_unique_pos c (pow10 k) n (c - n * pow10 k)); lia. }
  unfold quantize. cbn [expo coef]. destruct (Z.leb_spec 0 (- k)) as [L|_]; [lia|].
  replace (0 - - k) with k by lia. rewrite Ec.
  assert (Hsmall : Z.abs n < pow10 prec).
  { rewrite Z.abs_eq by done. assert (n <= amount * pow10 4) by nia.
    assert (pow10 20 * pow10 4 = pow10 24) by (rewrite <- pow10_add by lia; done).
    pose proof (pow10_le 24 prec ltac:(unfold prec; lia)). pose proof (pow10_pos 4 ltac:(lia)). nia. }
  destruct (Z.ltb_spec (Z.abs n) (pow10 prec)); [|lia]. unfold to_int. cbn [expo coef].
  rewrite Z.leb_refl. change (pow10 0) with 1. by rewrite Z.mul_1_r.
Qed.

(** 500,000 won at 71,200: seven shares. *)
Lemma buy_quantity_maximal_witness :
  _buy_quantity (Some 500000) (Some (Dec 712000000 (-4))) = inr 7 /\
  7 * scaled price_unit (Dec 712000000 (-4)) <= 500000 * pow10 4
    < (7 + 1) * scaled price_unit (Dec 712000000 (-4)).
Proof.
  destruct (buy_quantity_maximal 500000 (Dec 712000000 (-4))) as (n & E & _ & H);
    [vm_compute; split; reflexivity|vm_compute; discriminate|reflexivity|].
  assert (V : _buy_quantity (Some 500000) (Some (Dec 712000000 (-4))) = inr 7)
    by (vm_compute; reflexivity).
  rewrite V in E. injection E as <-. split; [exact V|exact H].
Defined.

(** ** The SELL quantity *)

(** The plan's quantity for a ratio text of ordinary length is exact. *)
Lemma partial_quantity_floor sellable ratio :
  0 <= sellable -> 0 <= coef ratio -> expo ratio <= 0 -> dleb ratio (of_int 1) = true ->
  Z.abs (sellable * coef ratio) < pow10 prec ->
  let q := to_int ROUND_DOWN (dmul (of_int sellable) ratio) in
  0 <= q <= sellable /\
  q * pow10 (- expo ratio) <= sellable * coef ratio < (q + 1) * pow10 (- expo ratio).
Proof.
  intros Hs Hr He H1 Hfit. cbn zeta. rewrite dmul_exact by exact Hfit. cbn [coef expo of_int].
  unfold to_int. cbn [coef expo]. rewrite Z.add_0_l.
  set (D := pow10 (- expo ratio)). assert (HD : 0 < D) by (apply pow10_pos; lia).
  assert (H1' : coef ratio <= D).
  { rewrite (dleb_scaled (expo ratio)) in H1 by (simpl; lia). apply Z.leb_le in H1.
    rewrite scaled_self in H1. unfold scaled in H1. simpl in H1. unfold D.
    replace (- expo ratio) with (0 - expo ratio) by lia.
    lia. }
  assert (E : (if 0 <=? expo ratio then sellable * coef ratio * pow10 (expo ratio)
               else round_div ROUND_DOWN (sellable * coef ratio) D) = sellable * coef ratio / D).
  { destruct (Z.leb_spec 0 (expo ratio)).
    - assert (expo ratio = 0) as E0 by lia. unfold D. rewrite E0. change (pow10 (- 0)) with 1.
      change (pow10 0) with 1. by rewrite Z.div_1_r, Z.mul_1_r.
    - rewrite round_div_nonneg_eq by nia. done. }
  fold D. rewrite E. pose proof (Z.div_mod (sellable * coef ratio) D ltac:(lia)).
  pose proof (Z.mod_pos_bound (sellable * coef ratio) D HD). split; [|lia]. split.
  - apply Z.div_pos; nia.
  - apply Z.div_le_upper_bound; nia.
Qed.

(** No active order of the symbol means nothing is reserved. *)
Lemma nothing_reserved states account symbol db :
  symbol_order_in states account symbol db = false ->
  reserved_sell_quantity states account symbol db = 0.
Proof.
  unfold symbol_order_in, reserved_sell_quantity, msum. rewrite existsb_false_Forall, Forall_forall.
  intros H. apply zsum_zero. intros o Ho. specialize (H o Ho). cbn beta in H.
  destruct (String.eqb (o_account_alias o) account), (String.eqb (o_symbol o) symbol); try done.
  cbn [andb] in *. rewrite H. by destruct (bool_decide _).
Qed.

(** The conditions of a SELL of [quantity] shares, in the terms of the ledger. *)
Definition sell_permitted (holidays : Z -> option (list Z)) (db : DB) (decision : Decision)
  (settings : Settings) (policy : RiskPolicyPayload) (now : Z) (snapshot : option MarketSnapshot)
  (expected_position_id : option string) (expected_position_version : option Z) (quantity : Z) :
  Prop :=
  upper (environment settings) = "MOCK" /\
  now <= d_valid_until decision /\
  (exists p, position_of ACCOUNT_ALIAS (d_symbol decision) db = Some p /\
     p_state p = POS_OPEN /\ 1 <= quantity <= p_managed_quantity p /\
     quantity <= p_available_quantity p /\
     (forall id, expected_position_id = Some id -> p_id p = id) /\
     (forall v, expected_position_version = Some v -> p_version p = v)) /\
  _has_active_symbol_order db decision = false /\
  (exists g, gates db !! ACCOUNT_ALIAS = Some g /\ g_status g = GATE_READY) /\
  (exists s stream price, snapshot = Some s /\
     streams db !! (d_market decision, d_symbol decision) = Some stream /\
     mss_current_snapshot_id stream = Some (ms_id s) /\ ms_quality s = Q_NORMAL /\
     mss_quality stream = Q_NORMAL /\ ms_trading_status s = "TRADING" /\
     ms_received_at s <= now <= ms_received_at s + seconds (quote_stale_seconds policy) /\
     ms_best_bid_price s = Some price /\ dltb dzero price = true) /\
  In (classify_session holidays now None) (TRADABLE_SESSIONS_BY_MARKET (d_market decision)).

Lemma sell_plan_inv db decision snapshot plan : _sell_plan db decision snapshot = inr plan ->
  sp_position plan = position_of ACCOUNT_ALIAS (d_symbol decision) db /\
  sp_snapshot plan = snapshot /\
  sp_sellable_quantity plan = _sellable_managed_quantity db (sp_position plan) /\
  sp_price plan = (s ← snapshot; ms_best_bid_price s).
Proof.
  unfold _sell_plan. destruct (_sell_ratio decision) as [e|r]; [discriminate|].
  intros H. apply (inj inr) in H. by subst plan.
Qed.

Lemma position_of_found account symbol db p : position_of account symbol db = Some p ->
  p_account_alias p = account /\ p_symbol p = symbol.
Proof.
  intros H. apply find_row_Some in H as [H _]. apply andb_true_iff in H as [H1 H2].
  by apply String.eqb_eq in H1, H2.
Qed.

Lemma sell_guard_passed holidays db decision settings policy now snapshot plan eid ever req :
  _sell_plan db decision snapshot = inr plan ->
  blocked_rules (_sell_guard_rules holidays db decision settings policy now plan eid ever req) = [] ->
  sell_permitted holidays db decision settings policy now snapshot eid ever
    (default (sp_quantity plan) req).
Proof.
  intros Hplan. apply sell_plan_inv in Hplan as (Hpos & Hsnap & Hsell & Hprice).
  unfold _sell_guard_rules, sell_permitted. rewrite blocked_rules_nil.
  repeat rewrite all_passed_cons. set (q := default (sp_quantity plan) req).
  intros (H1 & H2 & H3 & H4 & H5 & H6 & _ & H8 & _ & H10 & H11 & _ & H13 & H14 & H15 & _).
  apply String.eqb_eq in H1. apply Z.leb_le in H2. apply negb_true_iff in H8.
  apply gate_ready_spec in H11. apply bool_decide_eq_true in H15.
  apply andb_true_iff in H10 as [Hq1 Hq2]. apply Z.leb_le in Hq1, Hq2.
  split; [done|]. split; [done|]. split; [|split; [done|split; [done|split]]].
  - destruct (sp_position plan) as [p|] eqn:Ep; [|done]. exists p. split; [done|].
    apply andb_true_iff in H3 as [H3 _]. apply bool_decide_eq_true in H3. apply Z.ltb_lt in H6.
    rewrite Hsell in Hq2. cbn [_sellable_managed_quantity] in Hq2.
    destruct (position_of_found _ _ _ _ (eq_sym Hpos)) as [Ha Hs].
    rewrite Ha, Hs, nothing_reserved in Hq2 by done.
    split; [done|]. split; [lia|]. split; [lia|]. split.
    + intros id ->. by apply String.eqb_eq.
    + intros v ->. by apply Z.eqb_eq.
  - rewrite Hsnap in H13. destruct snapshot as [s|]; [|done].
    apply andb_true_iff in H13 as [H13 Hr]. apply andb_true_iff in H13 as [Hf Ht].
    apply head_fresh_spec in Hf as (s' & m & [= <-] & ? & ? & ? & ? & ?).
    apply String.eqb_eq in Ht. apply Z.leb_le in Hr. rewrite Hprice in H14. cbn in H14.
    destruct (ms_best_bid_price s) as [price|] eqn:Eb; [|done].
    exists s, m, price. repeat (split; [done|]). split; [lia|done].
  - by apply list_elem_of_In.
Qed.
