(* ===== verification/Approvals.v ===== *)
(** * Approvals of decision orders

    [approvals.py]: the pending approval a decision in manual mode creates, its
    approval (the guard re-run on the latest snapshot, the price deviation
    gate, the order), its rejection and its expiry. *)

From Stdlib Require Import ZArith Lia.
From stdpp Require Import base numbers strings list gmap.
From S2P Require Import Prelude Decimal Json DecimalText PyTime Models Session PaperBroker.
From S2P Require Import RiskEvents Policies OrderCreation MarketCalendar Venue Guards.

Open Scope Z_scope.

(** ** Rows *)

Definition put_approval (a : Approval) (db : DB) : DB :=
  set_approvals db (<[ap_id a := a]> (approvals db)).
Definition put_execution (e : DecisionExecution) (db : DB) : DB :=
  set_executions db (<[ex_id e := e]> (executions db)).

(** A change of an object the session holds: the row it maps to, if it is in
    the session's database. *)
Definition change_execution (id : string) (f : DecisionExecution -> DecisionExecution) (db : DB) : DB :=
  match executions db !! id with Some e => put_execution (f e) db | None => db end.

(** [state, result_code, version += 1] *)
Definition close_approval (state : ApprovalState) (code : option string) (a : Approval) : Approval :=
  set_ap_version (set_ap_result_code (set_ap_state a state) code) (ap_version a + 1).

Definition close_execution (state : ExecState) (code : string) (e : DecisionExecution) :
  DecisionExecution := set_ex_result_code (set_ex_state e state) (Some code).

(** ** The scope snapshot *)

Definition _scope_snapshot (decision : Decision) (reference_price : option decimal) (quantity now : Z)
  (position_id : option string) (position_version : option Z) : json :=
  JObj [("schema_version", JStr "approval-scope-v1"); ("decision_id", JStr (d_id decision));
        ("reference_snapshot_id", JStr (d_input_snapshot_id decision));
        ("symbol", JStr (d_symbol decision)); ("market", JStr (d_market decision));
        ("action", JStr (action_text (d_action decision)));
        ("reference_price", jopt_dec reference_price); ("quantity", JInt quantity);
        ("position_id", jopt_str position_id); ("position_version", jopt_int position_version);
        ("valid_until", JStr (iso_datetime (d_valid_until decision)));
        ("captured_at", JStr (iso_datetime now))].

(** Reading the scope back; [_scope_snapshot] writes no other shapes. *)
Definition scope_quantity (scope : json) : exn + Z :=
  match jget "quantity" scope with
  | Some (JInt n) => inr n
  | Some JNull | None => inr 0
  | Some _ => inl ValueError
  end.

Definition scope_text (key : string) (scope : json) : exn + option string :=
  match jget key scope with
  | Some (JStr s) => inr (if String.eqb s EmptyString then None else Some s)
  | Some JNull | None => inr None
  | Some _ => inl ValueError
  end.

Definition scope_int (key : string) (scope : json) : exn + option Z :=
  match jget key scope with
  | Some (JInt n) => inr (Some n)
  | Some JNull | None => inr None
  | Some _ => inl ValueError
  end.

Definition scope_price (scope : json) : exn + option decimal :=
  match scope_text "reference_price" scope with
  | inl e => inl e
  | inr None => inr None
  | inr (Some text) => match decimal_of_text text with
                       | Some (Finite d) => inr (Some d)
                       | _ => inl InvalidOperation
                       end
  end.

Definition _price_deviation_ok (reference current : option decimal) (max_deviation_pct : decimal) :
  bool :=
  match reference, current with
  | Some r, Some c =>
      if dleb r dzero then false
      else match ddiv (dabs (dsub c r)) r with
           | Some ratio => dleb (dmul ratio (of_int 100)) max_deviation_pct
           | None => false
           end
  | _, _ => false
  end.

(** ** Creation *)

(** [uq_approvals_execution] and the primary key. *)
Definition approval_clash (a : Approval) (db : DB) : bool :=
  bool_decide (is_Some (approvals db !! ap_id a)) ||
  existsb (fun x => String.eqb (ap_execution_id x) (ap_execution_id a)) (rows (approvals db)).

Definition is_sell (a : Action) : bool :=
  match a with ACT_PARTIAL_SELL | ACT_FULL_SELL => true | _ => false end.

(** The reference price, quantity and position an approval is bound to. *)
Definition approval_terms (db : DB) (decision : Decision) (risk_policy : RiskPolicyPayload)
  (snapshot : option MarketSnapshot) :
  exn + (option decimal * Z * option string * option Z) :=
  match d_action decision with
  | ACT_BUY =>
      let reference_price := _marketable_buy_price snapshot in
      quantity ← _buy_quantity (entry_order_amount risk_policy) reference_price;
      inr (reference_price, quantity, None, None)
  | ACT_PARTIAL_SELL | ACT_FULL_SELL =>
      plan ← _sell_plan db decision snapshot;
      inr (_marketable_sell_price snapshot, sp_quantity plan,
           p_id <$> sp_position plan, p_version <$> sp_position plan)
  | _ => inl (ApprovalError "ACTION_NOT_IMPLEMENTED" 409)
  end.

Definition create_approval (execution : DecisionExecution) (decision : Decision) (user : User)
  (now : option Z) : prog Approval :=
  current ← now_or now;
  snapshot ← gets (fun db => snapshots db !! d_input_snapshot_id decision);
  risk_config ← gets (fun db => active_risk_policy db (u_id user));
  risk_policy ← of_result (risk_policy_payload risk_config);
  terms ← gets (fun db => approval_terms db decision risk_policy snapshot);
  terms ← of_result terms;
  let '(reference_price, quantity, position_id, position_version) :=
    (terms : option decimal * Z * option string * option Z) in
  guard_or (negb (quantity <=? 0)) (ApprovalError "APPROVAL_QUANTITY_INVALID" 409) ;;
  created_at ← utcnow;
  id ← uuid7;
  let approval := mkApproval id (ex_id execution) (d_id decision) (u_id user) AP_PENDING
    (_scope_snapshot decision reference_price quantity current position_id position_version)
    (d_valid_until decision) None None None 1 created_at in
  flush_checked (fun db => db) (approval_clash approval) (put_approval approval) ;;
  modify (change_execution (ex_id execution)
    (fun e => set_ex_approval_id (set_ex_state e EX_APPROVAL_PENDING) (Some id))) ;;
  modify (add_audit (mkAuditLog "SYSTEM" (Some (u_id user)) "APPROVAL_PENDING" (Some id) "PENDING"
    None None (ex_correlation_id execution)
    (JObj [("execution_id", JStr (ex_id execution)); ("decision_id", JStr (d_id decision))]))) ;;
  commit ;;
  mret approval.

(** ** Approval *)

(** The latest snapshot of the decision's stream, whose head is locked. *)
Definition _latest_snapshot_for_approval (db : DB) (decision : Decision) : option MarketSnapshot :=
  stream ← streams db !! (d_market decision, d_symbol decision);
  snapshot_id ← mss_current_snapshot_id stream;
  snapshots db !! snapshot_id.

Record Evaluation := mkEvaluation {
  ev_rules : list Rule;
  ev_blocked : option string;
  ev_price : option decimal;
  ev_quantity : Z;
  ev_snapshot : option MarketSnapshot
}.

Section Approve.
Context (sha256 : string -> string) (holidays : Z -> option (list Z)).

(** The guard of the action on the latest snapshot, with the executable price. *)
Definition approval_guard (db : DB) (decision : Decision) (user : User) (settings : Settings)
  (risk_policy : RiskPolicyPayload) (now : Z) (snapshot : option MarketSnapshot)
  (position_id : option string) (position_version : option Z) (quantity : Z) :
  exn + (list Rule * option decimal) :=
  match d_action decision with
  | ACT_BUY =>
      rules ← _buy_guard_rules db decision user settings risk_policy now snapshot;
      inr (rules, _marketable_buy_price snapshot)
  | ACT_PARTIAL_SELL | ACT_FULL_SELL =>
      plan ← _sell_plan db decision snapshot;
      inr (_sell_guard_rules holidays db decision settings risk_policy now plan position_id
             position_version (Some quantity), _marketable_sell_price snapshot)
  | _ => inr ([rule "ACTION_NOT_IMPLEMENTED" false], None)
  end.

Definition _evaluate_approval (db : DB) (approval : Approval) (decision : Decision) (user : User)
  (settings : Settings) (now : Z) : exn + Evaluation :=
  let scope := ap_scope_snapshot approval in
  risk_policy ← risk_policy_payload (active_risk_policy db (u_id user));
  let snapshot := _latest_snapshot_for_approval db decision in
  quantity ← scope_quantity scope;
  position_id ← scope_text "position_id" scope;
  position_version ← scope_int "position_version" scope;
  guarded ← approval_guard db decision user settings risk_policy now snapshot position_id
              position_version quantity;
  let '(rules, current_price) := (guarded : list Rule * option decimal) in
  reference_price ← scope_price scope;
  let rules := rules ++
    (if _price_deviation_ok reference_price current_price (max_price_deviation_pct risk_policy)
     then [] else [rule "PRICE_DEVIATION_EXCEEDED" false]) ++
    (if quantity <=? 0 then [rule "ORDER_SIZE_NOT_CONFIGURED" false] else []) in
  inr (mkEvaluation rules
         (if bool_decide (blocked_rules rules = []) then None else Some (blocking_code rules))
         current_price quantity snapshot).

Definition approval_order_request (approval : Approval) (decision : Decision) (ev : Evaluation)
  (correlation_id idempotency_key : string) : OrderRequest :=
  let side := match d_action decision with ACT_BUY => "BUY" | _ => "SELL" end in
  let scope := ap_scope_snapshot approval in
  mkOrderRequest (d_symbol decision) (d_market decision) side (action_text (d_action decision))
    "LIMIT" (ev_price ev) (ev_quantity ev) idempotency_key
    (JObj [("environment", JStr "MOCK"); ("symbol", JStr (d_symbol decision));
           ("market", JStr (d_market decision)); ("side", JStr side);
           ("action", JStr (action_text (d_action decision))); ("order_type", JStr "LIMIT");
           ("limit_price", jopt_dec (ev_price ev)); ("quantity", JInt (ev_quantity ev));
           ("approval_id", JStr (ap_id approval)); ("decision_id", JStr (d_id decision));
           ("reference_snapshot_id", JStr (d_input_snapshot_id decision));
           ("approval_snapshot_id", jopt_str (ms_id <$> ev_snapshot ev));
           ("position_id", default JNull (jget "position_id" scope));
           ("position_version", default JNull (jget "position_version" scope));
           ("idempotency_key", JStr idempotency_key)])
    correlation_id.

Definition approval_audit (user : User) (action : string) (approval_id result correlation_id : string)
  (metadata : json) : DB -> DB :=
  add_audit (mkAuditLog "USER" (Some (u_id user)) action (Some approval_id) result None None correlation_id
    metadata).

(** The locked row of the approval. *)
Definition locked_approval (approval_id : string) : prog Approval :=
  found ← gets (fun db => approvals db !! approval_id);
  or_raise found (ApprovalError "APPROVAL_NOT_FOUND" 404).

(** Rows of approvals other sessions commit meanwhile. *)
Definition add_concurrent_approvals (race : list Approval) (db : DB) : DB :=
  foldr put_approval db race.

(** The lock of the row lasts as long as the transaction.  Once it was rolled
    back, which also undoes the guard evaluation it had stored, other sessions
    may settle the approval before it is written. *)
Definition after_rollback (guard_id : string) (settled : list Approval) : prog unit :=
  holds ← gets (fun db => bool_decide (is_Some (guards db !! guard_id)));
  if (holds : bool) then mret tt else others_commit (add_concurrent_approvals settled).

(** The end of an approval once its guard passed: the order, and the rows that
    record it.  After a lost race the transaction was rolled back, and the rows
    are the durable ones again; [settled] are the approvals other sessions
    settle then. *)
Definition approve_order (approval : Approval) (execution : DecisionExecution) (decision : Decision)
  (user : User) (ev : Evaluation) (guard_id correlation_id idempotency_key : string) (current : Z)
  (race : list TradingOrder) (settled : list Approval) : prog Approval :=
  placed ← try_except
    (order ← create_order sha256 user
       (approval_order_request approval decision ev correlation_id idempotency_key)
       "APPROVAL_ORDER_CREATED" (Some current) race;
     mret (inl order))
    (fun e => match e with
              | OrderCreationError code status => Some (mret (inr (code, status)))
              | _ => None
              end);
  after_rollback guard_id settled ;;
  approval ← locked_approval (ap_id approval);
  match (placed : TradingOrder + string * Z) with
  | inr (code, status) =>
      modify (put_approval (close_approval AP_INVALIDATED (Some code) approval)) ;;
      modify (change_execution (ex_id execution) (close_execution EX_FAILED_SAFE code)) ;;
      commit ;;
      raise (ApprovalError code status)
  | inl order =>
      let approved := set_ap_version (set_ap_order_id (set_ap_actor_id
        (set_ap_state approval AP_APPROVED) (Some (u_id user))) (Some (o_id order)))
        (ap_version approval + 1) in
      modify (put_approval approved) ;;
      modify (change_execution (ex_id execution) (fun e =>
        set_ex_order_intent_id (set_ex_guard_evaluation_id
          (close_execution EX_ORDER_CREATED "ORDER_CREATED" e) (Some guard_id))
          (Some (o_intent_id order)))) ;;
      modify (approval_audit user "APPROVAL_APPROVED" (ap_id approval) "ORDER_CREATED" correlation_id
        (JObj [("order_id", JStr (o_id order)); ("execution_id", JStr (ex_id execution));
               ("reference_snapshot_id", JStr (d_input_snapshot_id decision));
               ("approval_snapshot_id", jopt_str (ms_id <$> ev_snapshot ev))])) ;;
      commit ;;
      mret approved
  end.

Definition approve (approval_id : string) (user : User) (settings : Settings)
  (correlation_id idempotency_key : string) (now : option Z) (race : list TradingOrder)
  (settled : list Approval) : prog Approval :=
  current ← now_or now;
  approval ← locked_approval approval_id;
  match ap_state approval with
  | AP_APPROVED => mret approval
  | AP_PENDING =>
      if ap_expires_at approval <=? current then
        modify (put_approval (close_approval AP_EXPIRED (Some "APPROVAL_EXPIRED") approval)) ;;
        commit ;;
        raise (ApprovalError "APPROVAL_EXPIRED" 409)
      else
        decision ← gets (fun db => decisions db !! ap_decision_id approval);
        decision ← or_raise decision (ApprovalError "DECISION_NOT_FOUND" 404);
        execution ← gets (fun db => executions db !! ap_execution_id approval);
        execution ← or_raise execution (ApprovalError "EXECUTION_NOT_FOUND" 404);
        ev ← gets (fun db => _evaluate_approval db approval decision user settings current);
        ev ← of_result ev;
        position_version ← of_result (scope_int "position_version" (ap_scope_snapshot approval));
        guard ← persist_guard_evaluation (ex_id execution) "APPROVAL" (ap_id approval) (ev_rules ev)
          (ms_id <$> ev_snapshot ev) position_version (ex_execution_policy_version_id execution)
          (ex_risk_policy_version_id execution)
          (if bool_decide (is_Some (ev_blocked ev) /\ d_action decision = ACT_BUY)
           then Some "ENTRY_HALT" else None)
          (Some (d_valid_until decision)) current "PRE_ORDER";
        match ev_blocked ev with
        | Some code =>
            modify (put_approval (close_approval AP_INVALIDATED (Some code) approval)) ;;
            modify (change_execution (ex_id execution) (fun e =>
              set_ex_guard_evaluation_id (close_execution EX_INVALIDATED code e)
                (Some (ge_id guard)))) ;;
            modify (approval_audit user "APPROVAL_INVALIDATED" (ap_id approval) code correlation_id
              (JObj [("execution_id", JStr (ex_id execution));
                     ("reference_snapshot_id", JStr (d_input_snapshot_id decision));
                     ("approval_snapshot_id", jopt_str (ms_id <$> ev_snapshot ev))])) ;;
            commit ;;
            raise (ApprovalError code 409)
        | None =>
            approve_order approval execution decision user ev (ge_id guard) correlation_id
              idempotency_key current race settled
        end
  | _ => raise (ApprovalError "APPROVAL_NOT_PENDING" 409)
  end.

(** ** Rejection and expiry *)

Definition reject (approval_id : string) (user : User) (correlation_id : string) : prog Approval :=
  approval ← locked_approval approval_id;
  match ap_state approval with
  | AP_REJECTED => mret approval
  | AP_PENDING =>
      let rejected := set_ap_actor_id
        (close_approval AP_REJECTED (Some "USER_REJECTED") approval) (Some (u_id user)) in
      modify (put_approval rejected) ;;
      modify (change_execution (ap_execution_id approval)
        (close_execution EX_REJECTED "USER_REJECTED")) ;;
      modify (approval_audit user "APPROVAL_REJECTED" (ap_id approval) "REJECTED" correlation_id
        (JObj [])) ;;
      commit ;;
      mret rejected
  | _ => raise (ApprovalError "APPROVAL_NOT_PENDING" 409)
  end.

(** The update of one stale row compares the version it read. *)
Definition expire_one (a : Approval) : prog unit :=
  row ← gets (fun db => approvals db !! ap_id a);
  match row with
  | Some r =>
      guard_or (ap_version r =? ap_version a) StaleDataError ;;
      modify (put_approval (close_approval AP_EXPIRED (Some "APPROVAL_EXPIRED") a)) ;;
      execution ← gets (fun db => executions db !! ap_execution_id a);
      match execution with
      | Some e => if bool_decide (ex_state e = EX_APPROVAL_PENDING)
                  then modify (put_execution (close_execution EX_EXPIRED "APPROVAL_EXPIRED" e))
                  else mret tt
      | None => mret tt
      end
  | None => raise StaleDataError
  end.

Definition stale (current : Z) (a : Approval) : bool :=
  bool_decide (ap_state a = AP_PENDING) && (ap_expires_at a <=? current).

Definition expire_stale (now : option Z) (race : list Approval) : prog Z :=
  current ← now_or now;
  expired ← gets (fun db => List.filter (stale current) (rows (approvals db)));
  others_commit (add_concurrent_approvals race) ;;
  for_each expired expire_one ;;
  if bool_decide (expired = []) then mret 0
  else commit ;; mret (Z.of_nat (length expired)).

(** [order_by(created_at.desc()).limit(50)] *)
Definition newest (l : list Approval) : list Approval :=
  firstn 50 (sort_by (fun a b => ap_created_at b <=? ap_created_at a) l).

Definition list_recent (db : DB) (user_id : string) : list Approval :=
  newest (List.filter (fun a => String.eqb (ap_user_id a) user_id) (rows (approvals db))).

Definition list_pending (db : DB) (user_id : string) : list Approval :=
  newest (List.filter (fun a => String.eqb (ap_user_id a) user_id &&
                                bool_decide (ap_state a = AP_PENDING)) (rows (approvals db))).
End Approve.
