(* ===== verification/Fixtures.v ===== *)
(** * A concrete trading day

    One watched symbol with a fresh quote, a ready broker, an active risk
    policy, a BUY decision and its pending approval: the inputs on which the
    theorems about approvals and routing are evaluated. *)

From Stdlib Require Import ZArith Lia.
From stdpp Require Import base numbers strings list gmap.
From S2P Require Import Prelude Decimal Json PyTime Models Session PaperBroker.
From S2P Require Import Policies Guards Approvals.

Open Scope Z_scope.

(** Wednesday 4 March 2026, 10:00 in Seoul. *)
Definition day_now : Z := kst_combine (date_of 2026 3 4) (time_of 10 0 0).

Definition no_holidays : Z -> option (list Z) := fun _ => Some [].

Definition day_settings (stage : ExecStage) : Settings := mkSettings "mock" false stage 2 60 false "DISABLED" false "DISABLED" false
    "DISABLED".

Definition day_snapshot : MarketSnapshot :=
  mkMarketSnapshot "snap" "005930" "KRX" "KIWOOM" "1" (Some 1) "h" (Dec 712000000 (-4))
    (Dec 710000000 (-4)) (Dec 715000000 (-4)) (Dec 709000000 (-4)) 1000000
    (Some (Dec 711000000 (-4))) (Some 10) (Some (Dec 712000000 (-4))) (Some 10) "TRADING" Q_NORMAL
    false (day_now - second) (day_now - second).

Definition day_stream : MarketStreamState :=
  mkMarketStreamState "KRX" "005930" "KIWOOM" (Some "snap") (Some 1) None None None Q_NORMAL 1.

Definition day_config (id category : string) (payload : ConfigPayload) : ConfigurationVersion :=
  mkConfigurationVersion id SCOPE "user-1" category 1 CFG_ACTIVE payload "h" "r" "user-1" None None
    None.

(** Every mode of the policy is [mode]. *)
Definition day_policy (mode : ExecMode) : ExecutionPolicyPayload :=
  mkExecutionPolicyPayload mode mode mode mode mode mode mode mode.

Definition day_decision (action : Action) : Decision :=
  mkDecision "dec" None "TRADING" "req" "snap" "005930" "KRX" "ENTRY" "CRESTA"
    "deterministic-mock-v2" "mock-entry-indicators-v2" "1.0" (JObj []) (JObj []) action
    (Dec 8 (-1)) "LOW" (JList []) (day_now + seconds 30) None 0.

Definition day_position : Position :=
  mkPosition "pos" ACCOUNT_ALIAS "005930" 10 10 10 (Dec 700000000 (-4)) (Dec 700000000 (-4))
    POS_OPEN CRESTA_MANAGED 3.

(** The market, the broker and the policies; [positions] as given. *)
Definition day_db (mode : ExecMode) (held : gmap string Position) : DB :=
  mkDB ∅ ∅ [] ∅ held []
    {[ ACCOUNT_ALIAS := mkTradingGate ACCOUNT_ALIAS "MOCK" GATE_READY None 1 ]} ∅
    {[ ACCOUNT_ALIAS := mkBrokerWorkerState ACCOUNT_ALIAS "MOCK" W_READY 1 true true
         (day_now - second) None None None 0 0 ]} ∅ ∅ ∅ ∅
    {[ "snap" := day_snapshot ]} {[ ("KRX", "005930") := day_stream ]}
    {[ "user-1" := demo_user ]}
    {[ "w" := mkWatchlistItem "w" "user-1" "005930" "KRX" ]}
    {[ "rp" := day_config "rp" RISK_CATEGORY (RiskPayload demo_risk);
       "xp" := day_config "xp" EXECUTION_CATEGORY (ExecutionPayload (day_policy mode)) ]}
    ∅ ∅ ∅ ∅ ∅ ∅ ∅ [] ∅ [] ∅ ∅ ∅ ∅ ∅ ∅ ∅ ∅ ∅ ∅ ∅ ∅ ∅ ∅ empty_auth.

Definition day_execution : DecisionExecution :=
  mkDecisionExecution "exec" "key" "dec" "user-1" ACCOUNT_ALIAS "005930" "KRX" "BUY"
    MODE_MANUAL_APPROVAL STAGE_APPROVAL_ONLY EX_APPROVAL_PENDING None None None None (Some "ap")
    None "corr".

Definition day_approval : Approval :=
  mkApproval "ap" "exec" "dec" "user-1" AP_PENDING
    (_scope_snapshot (day_decision ACT_BUY) (Some (Dec 711500000 (-4))) 7 (day_now - seconds 2) None
       None) (day_now + seconds 30) None None None 1 (day_now - seconds 2).

(** The day with the decision's approval waiting. *)
Definition pending_db : DB :=
  let db := day_db MODE_MANUAL_APPROVAL ∅ in
  set_approvals (set_executions (set_decisions db {[ "dec" := day_decision ACT_BUY ]})
    {[ "exec" := day_execution ]}) {[ "ap" := day_approval ]}.

(** Identifiers a session draws. *)
Definition day_ids (i : nat) : string :=
  match i with O => "id0" | S O => "id1" | S (S O) => "id2" | S (S (S O)) => "id3" | _ => "id4" end.

Definition day_hash (s : string) : string := s.
