(* ===== verification/ApprovalProps.v ===== *)
(** * Properties of approvals

    What [Approvals] guarantees: an approval is settled once by whoever holds
    the lock of its row, an order exists only for an approval whose conditions
    held when it was approved, and the expiry sweep never overwrites a
    concurrent settlement; and what a rollback that gives up the lock may
    overwrite. *)

From Stdlib Require Import ZArith Lia.
From stdpp Require Import base numbers strings list gmap.
From S2P Require Import Prelude Decimal Json DecimalText PyTime Models Session PaperBroker.
From S2P Require Import RiskCalc RiskEvents Policies OrderCreation MarketCalendar Venue.
From S2P Require Import Guards Approvals Fixtures.

Open Scope Z_scope.

(** ** Tables *)

Definition approvals_ok (db : DB) : Prop :=
  forall k a, approvals db !! k = Some a -> ap_id a = k.

(** The pending row [a] settled as [a']: everything it was bound to stays. *)
Definition settles (a a' : Approval) : Prop :=
  ap_state a = AP_PENDING /\ ap_state a' <> AP_PENDING /\ ap_version a' = ap_version a + 1 /\
  ap_id a' = ap_id a /\ ap_execution_id a' = ap_execution_id a /\
  ap_decision_id a' = ap_decision_id a /\ ap_user_id a' = ap_user_id a /\
  ap_scope_snapshot a' = ap_scope_snapshot a /\ ap_expires_at a' = ap_expires_at a.

Definition approvals_evolve (db db' : DB) : Prop :=
  forall k a, approvals db !! k = Some a ->
    exists a', approvals db' !! k = Some a' /\ (a' = a \/ settles a a').

Lemma approvals_evolve_refl db : approvals_evolve db db.
Proof. intros k a Hk. eauto. Qed.

Lemma settle_evolves db db' id a a' :
  approvals db !! id = Some a -> settles a a' -> approvals db' = <[id := a']> (approvals db) ->
  approvals_evolve db db'.
Proof.
  intros Ha Hs E k x Hk. rewrite E. destruct (decide (k = id)) as [->|N].
  - exists a'. rewrite lookup_insert_eq. split; [done|]. right. congruence.
  - exists x. rewrite lookup_insert_ne by done. auto.
Qed.

Lemma close_settles a st code : ap_state a = AP_PENDING -> st <> AP_PENDING ->
  settles a (close_approval st code a).
Proof. intros H1 H2. by repeat split. Qed.

Lemma change_execution_approvals id f db : approvals (change_execution id f db) = approvals db.
Proof. unfold change_execution. by destruct (executions db !! id). Qed.

Lemma change_execution_orders id f db : orders (change_execution id f db) = orders db.
Proof. unfold change_execution. by destruct (executions db !! id). Qed.

Lemma order_by_key_found key db o : order_by_key key db = Some o ->
  o_idempotency_key o = key /\ exists k, orders db !! k = Some o.
Proof.
  intros H. apply find_row_Some in H as [H Hk]. apply String.eqb_eq in H. done.
Qed.

Lemma raced_only race (s : Sess) : only_orders_changed (disk s) (raced_rows race s).
Proof. apply concurrent_orders_only. Qed.

Lemma wp_locked_approval id Q s :
  (forall a, approvals (work s) !! id = Some a -> Q s (inl a)) ->
  (approvals (work s) !! id = None -> Q s (inr (ApprovalError "APPROVAL_NOT_FOUND" 404))) ->
  wp (locked_approval id) Q s.
Proof. intros H1 H2. unfold locked_approval. repeat wp_step; auto. Qed.

(** The rows after a settlement was written. *)
Lemma written_approvals x f a audit db : approvals (add_audit audit (change_execution x f (put_approval a db))) =
  <[ap_id a := a]> (approvals db).
Proof. cbn. by rewrite change_execution_approvals. Qed.

Lemma written_orders x f a audit db :
  orders (add_audit audit (change_execution x f (put_approval a db))) = orders db.
Proof. cbn. by rewrite change_execution_orders. Qed.

(** ** Approvals of other sessions *)

Lemma raced_row race db k r : approvals (add_concurrent_approvals race db) !! k = Some r ->
  (r ∈ race /\ ap_id r = k) \/ approvals db !! k = Some r.
Proof.
  unfold add_concurrent_approvals. induction race as [|x race IH]; [by right|].
  cbn [foldr]. cbn [approvals put_approval set_approvals]. destruct (decide (k = ap_id x)) as [->|N].
  - rewrite lookup_insert_eq. intros [= <-]. left. split; [apply list_elem_of_here|done].
  - rewrite lookup_insert_ne by done. intros H. destruct (IH H) as [[H1 H2]|H1]; [|by right].
    left. split; [by apply list_elem_of_further|done].
Qed.

Lemma raced_kept race db k a : approvals db !! k = Some a ->
  is_Some (approvals (add_concurrent_approvals race db) !! k).
Proof.
  intros H. unfold add_concurrent_approvals. induction race as [|x race IH]; [by eexists|].
  cbn [foldr]. cbn [approvals put_approval set_approvals]. destruct (decide (k = ap_id x)) as [->|N].
  - rewrite lookup_insert_eq. by eexists.
  - by rewrite lookup_insert_ne.
Qed.

Lemma raced_ok race db : approvals_ok db -> approvals_ok (add_concurrent_approvals race db).
Proof. intros Hok k a H. destruct (raced_row _ _ _ _ H) as [[_ E]|E]; [done|by apply Hok]. Qed.

Lemma raced_tables race db :
  orders (add_concurrent_approvals race db) = orders db /\ guards (add_concurrent_approvals race db) = guards db.
Proof. unfold add_concurrent_approvals. by induction race. Qed.

Lemma raced_approvals race db db' : approvals db = approvals db' ->
  approvals (add_concurrent_approvals race db) = approvals (add_concurrent_approvals race db').
Proof. intros E. unfold add_concurrent_approvals. induction race as [|x race IH]; [done|]. cbn in *. by rewrite IH. Qed.

Lemma change_execution_guards id f db : guards (change_execution id f db) = guards db.
Proof. unfold change_execution. by destruct (executions db !! id). Qed.

Section ApproveProps.
Context (sha256 : string -> string) (holidays : Z -> option (list Z)).
Context (id : string) (user : User) (settings : Settings) (corr key : string) (now : option Z).
Context (race : list TradingOrder) (settled : list Approval) (db : DB) (t : Z) (ids : nat -> string).

Abbreviation current := (default t now).

(** The orders are the ones there were, or that other sessions added. *)
Definition no_new_order (db' : DB) : Prop :=
  orders db' = orders db \/ orders db' = orders (add_concurrent_orders race db).

(** The order an approval is answered with: stored under the caller's key for
    the approval's own request, and new unless the request was known. *)
Definition answers (request : OrderRequest) (o : TradingOrder) (db' : DB) : Prop :=
  o_idempotency_key o = key /\ o_request_hash o = _request_hash sha256 (oc_request_payload request) /\
  (no_new_order db' /\ (exists k, orders db' !! k = Some o) \/
   exists side ty i g, side_of (oc_side request) = Some side /\
     o = created_order sha256 request side ty (o_id o) i g (kst_date current) t /\
     orders db' = <[o_id o := o]> (orders (add_concurrent_orders race db))).

(** How the row is written: over the pending one under its lock, or, once the
    transaction was rolled back, over whatever other sessions made of it. *)
Inductive written (a a' : Approval) (db' : DB) : Prop :=
| Locked : settles a a' -> approvals db' = <[id := a']> (approvals db) -> written a a' db'
| Unlocked : settled <> [] -> guards db' = guards db ->
    approvals db' = <[id := a']> (approvals (add_concurrent_approvals settled db)) ->
    written a a' db'.

(** The ways [approve] ends. *)
Inductive approve_outcome : DB -> Approval + exn -> Prop :=
| Already a :
    approvals db !! id = Some a -> ap_state a = AP_APPROVED -> approve_outcome db (inl a)
| Approved a a' decision execution ev order db' :
    approvals db !! id = Some a -> ap_state a = AP_PENDING -> current < ap_expires_at a ->
    decisions db !! ap_decision_id a = Some decision ->
    executions db !! ap_execution_id a = Some execution ->
    _evaluate_approval holidays db a decision user settings current = inr ev ->
    ev_blocked ev = None ->
    answers (approval_order_request a decision ev corr key) order db' ->
    ap_state a' = AP_APPROVED -> ap_order_id a' = Some (o_id order) ->
    ap_actor_id a' = Some (u_id user) -> written a a' db' ->
    approve_outcome db' (inl a')
| Lapsed a e :
    approvals db !! id = Some a -> ap_state a = AP_PENDING -> ap_expires_at a <= current ->
    approve_outcome (put_approval (close_approval AP_EXPIRED (Some "APPROVAL_EXPIRED") a) db) (inr e)
| Invalidated a a' e db' :
    approvals db !! id = Some a -> ap_state a = AP_PENDING -> written a a' db' ->
    no_new_order db' -> approve_outcome db' (inr e)
| Refused e : approve_outcome db (inr e).

(** An order that [create_order] returned answers its request. *)
Lemma created_answers request s s1 o :
  oc_idempotency_key request = key -> orders (disk s) = orders db -> clock s = t ->
  orders (work s) = orders db -> created sha256 request (Some current) race s s1 o ->
  answers request o (work s1).
Proof.
  intros Hkey Hdisk Hclock Ho H. unfold answers. rewrite <- Hkey.
  destruct H as [o Hk Hh ->|side ty oid i g at_ _ _ Hsd _ o0 Hat _ Hor _ Hdk|o _ Hk Hh Hw _].
  - apply order_by_key_found in Hk as [Hk Hin]. split; [exact Hk|].
    split; [exact Hh|]. left. split; [left; exact Ho|exact Hin].
  - pose proof (created_order_id sha256 request side ty oid i g (kst_date at_) (clock s)) as Ei.
    fold o0 in Ei. assert (Eat : at_ = current) by exact Hat. split; [|split; [|right]].
    + unfold o0, created_order. by destruct (_unfilled_policy request) as [[? ?] ?].
    + unfold o0, created_order. by destruct (_unfilled_policy request) as [[? ?] ?].
    + exists side, ty, i, g. split; [exact Hsd|]. rewrite Ei. split.
      * unfold o0. by rewrite Eat, Hclock.
      * rewrite Hor. by rewrite (concurrent_orders_orders race (work s) db Ho).
  - apply order_by_key_found in Hk as [Hk Hin]. split; [exact Hk|]. split; [exact Hh|].
    left. rewrite Hw. split; [right; by apply concurrent_orders_orders|exact Hin].
Qed.

(** The rows [create_order] leaves when it returns or raises. *)
Lemma outcome_orders request s s1 r :
  orders (disk s) = orders db -> orders (work s) = orders db ->
  approvals (disk s) = approvals db -> approvals (work s) = approvals db ->
  outcome sha256 request (Some current) race s s1 r ->
  approvals (work s1) = approvals db /\
  (guards (work s1) = guards (work s) \/ guards (work s1) = guards (disk s)) /\
  match r with inl _ => True | inr _ => no_new_order (work s1) end.
Proof.
  intros Hd Ho Ha Haw H.
  assert (Hrg : guards (raced_rows race s) = guards (disk s)) by apply concurrent_orders_only.
  assert (Hr : approvals (raced_rows race s) = approvals db)
    by (unfold raced_rows; rewrite <- Ha; apply concurrent_orders_only).
  assert (Hro : orders (raced_rows race s) = orders (add_concurrent_orders race db))
    by (unfold raced_rows; by apply concurrent_orders_orders).
  destruct r as [o|e].
  - destruct H as [o Hk Hh ->|side ty oid i g at_ _ _ _ _ o0 _ _ _ Hk _|o _ _ _ Hw _].
    + split; [exact Haw|]. split; [by left|done].
    + destruct Hk as (_ & _ & _ & _ & Hk & Hg & _). split; [congruence|]. split; [by left|done].
    + rewrite Hw. split; [done|]. split; [by right|done].
  - destruct H as [_ [-> | [Hw _]]]; [split; [done|]; split; by left|]. rewrite Hw.
    split; [done|]. split; by right.
Qed.

(** The row, once settled and committed. *)
Lemma row_written a a1 a' db1 db2 :
  approvals db !! id = Some a -> approvals db1 !! id = Some a1 ->
  approvals db1 = approvals db \/
    guards db1 = guards db /\ approvals db1 = approvals (add_concurrent_approvals settled db) ->
  (a1 = a -> settles a a') ->
  approvals db2 = <[id := a']> (approvals db1) -> guards db2 = guards db1 -> written a a' db2.
Proof.
  intros Ha Ha1 [Hw|[Hg Hw]] Hs E Eg.
  - apply Locked; [apply Hs; congruence|congruence].
  - destruct (decide (settled = [])) as [->|Hn]; [|apply Unlocked; congruence].
    apply Locked; [apply Hs; cbn in Hw; congruence|cbn in Hw; congruence].
Qed.

(** The row as it is read again: the pending one while the guard evaluation
    stands, else what other sessions made of it. *)
Lemma wp_reread {B} a guard_id (k : Approval -> prog B) Q s :
  approvals db !! id = Some a -> approvals (work s) = approvals db ->
  is_Some (guards (work s) !! guard_id) \/ guards (work s) = guards db ->
  (forall s1 a1, approvals (work s1) !! id = Some a1 -> orders (work s1) = orders (work s) ->
     approvals (work s1) = approvals db \/
     guards (work s1) = guards db /\ approvals (work s1) = approvals (add_concurrent_approvals settled db) ->
     wp (k a1) Q s1) ->
  wp (after_rollback guard_id settled ;; approval ← locked_approval id; k approval) Q s.
Proof.
  intros Ha Hw Hg HQ. unfold after_rollback. wp_step. wp_step. wp_step.
  case_bool_decide as Hb.
  - wp_step. wp_step. wp_step. apply wp_locked_approval; rewrite Hw, Ha; [intros ? [= <-]|discriminate].
    apply HQ; [by rewrite Hw|done|by left].
  - destruct Hg as [Hg|Hg]; [done|]. apply wp_others_commit. cbn [interleave work].
    destruct (raced_tables settled (work s)) as [Ho' Hg'].
    pose proof (raced_approvals settled _ _ Hw) as E.
    wp_step. wp_step. apply wp_locked_approval; cbn [interleave work]; rewrite E; destruct (raced_kept settled db id a Ha) as [a1 Ha1].
    + intros a2 Ha2. apply HQ; cbn [interleave work]; [by rewrite E|done|]. right. split; [congruence|done].
    + by rewrite Ha1.
Qed.

Context (Hok : approvals_ok db).

Lemma reread_id db1 a1 : approvals db1 !! id = Some a1 ->
  approvals db1 = approvals db \/
    guards db1 = guards db /\ approvals db1 = approvals (add_concurrent_approvals settled db) -> ap_id a1 = id.
Proof. intros H [E|[_ E]]; rewrite E in H; [by apply Hok|by apply (raced_ok settled db Hok)]. Qed.

(** The order part, from a session that has only added a guard row. *)
Lemma approve_order_run a decision execution ev guard_id s :
  approvals db !! id = Some a -> ap_state a = AP_PENDING -> current < ap_expires_at a ->
  decisions db !! ap_decision_id a = Some decision ->
  executions db !! ap_execution_id a = Some execution ->
  _evaluate_approval holidays db a decision user settings current = inr ev ->
  ev_blocked ev = None ->
  disk s = db -> clock s = t -> orders (work s) = orders db -> approvals (work s) = approvals db ->
  is_Some (guards (work s) !! guard_id) ->
  wp (approve_order sha256 a execution decision user ev guard_id corr key current race settled)
    (fun s' r => approve_outcome (disk s') r) s.
Proof.
  intros Ha Hst Hexp Hd Hx Hev Hb Hdisk Hclock Ho Hap Hg. unfold approve_order.
  set (request := approval_order_request a decision ev corr key).
  pose proof (Hok _ _ Ha) as Hid. wp_step. wp_step. wp_step.
  eapply wp_mono; [apply create_order_run|]. intros s1 r H.
  pose proof (outcome_orders request s s1 r) as A. rewrite Hdisk in A.
  destruct (A eq_refl Ho eq_refl Hap H) as (A1 & Ag & A2).
  assert (Ag' : is_Some (guards (work s1) !! guard_id) \/ guards (work s1) = guards db).
  { destruct Ag as [Ag|Ag]; [left; by rewrite Ag|by right]. }
  destruct r as [o|e].
  - (* an order was returned *)
    assert (A3 : answers request o (work s1))
      by (apply (created_answers request s); [done|by rewrite Hdisk|done|done|exact H]).
    wp_step. wp_step. rewrite Hid. apply (wp_reread a); [done..|]. intros s2 a2 Ha2 Ho2 Hw2.
    assert (Hid2 : ap_id a2 = id) by (by apply (reread_id (work s2))).
    repeat wp_step.
    eapply (Approved a _ decision execution ev o); try done.
    + unfold answers, no_new_order in *. cbn [disk committed work with_work] in *.
      unfold approval_audit. rewrite written_orders, Ho2. exact A3.
    + eapply (row_written a a2 _ (work s2)); [done..| |cbn [disk committed work with_work]; unfold approval_audit|].
      * intros ->. by repeat split.
      * rewrite written_approvals. cbn. by rewrite Hid2.
      * cbn [disk committed work with_work]. unfold approval_audit. cbn. by rewrite change_execution_guards.
  - destruct H as [(code & status & ->) _].
    repeat (lazymatch goal with |- wp (mbind _ (after_rollback _ _)) _ _ => fail | _ => wp_step end). rewrite Hid.
    apply (wp_reread a); [done..|]. intros s2 a2 Ha2 Ho2 Hw2.
    assert (Hid2 : ap_id a2 = id) by (by apply (reread_id (work s2))).
    repeat wp_step. eapply (Invalidated a (close_approval AP_INVALIDATED (Some code) a2)); [done..| |].
    + eapply (row_written a a2 _ (work s2)); [done..| | |].
      * intros ->. by apply close_settles.
      * cbn [disk committed work with_work]. rewrite change_execution_approvals. cbn. by rewrite Hid2.
      * cbn [disk committed work with_work]. by rewrite change_execution_guards.
    + unfold no_new_order in *. cbn [disk committed work with_work].
      rewrite change_execution_orders. cbn. by rewrite Ho2.
Qed.

Lemma approve_run :
  wp (approve sha256 holidays id user settings corr key now race settled)
    (fun s r => approve_outcome (disk s) r) (open_session db t ids).
Proof.
  unfold approve, now_or. wp_step.
  assert (Hnow : forall Q, Q (open_session db t ids) (inl current) ->
    wp (match now with Some u => mret u | None => utcnow end) Q (open_session db t ids))
    by (intros Q HQ; by destruct now).
  apply Hnow. wp_step. wp_step.
  apply wp_locked_approval; cbn [work open_session]; [intros a Ha|intros _; wp_step; apply Refused].
  pose proof (Hok _ _ Ha) as Hid. wp_step. destruct (ap_state a) eqn:Hst; try (wp_step; apply Refused).
  2: { wp_step. by apply (Already a). }
  destruct (Z.leb_spec (ap_expires_at a) current) as [Hexp|Hexp].
  { repeat wp_step. by apply Lapsed. }
  wp_step. wp_step. wp_step. cbn [work open_session]. wp_step. apply wp_or_raise;
    [intros decision Hd|intros _; wp_step; apply Refused].
  wp_step. wp_step. wp_step. wp_step. cbn [work open_session]. wp_step. apply wp_or_raise;
    [intros execution Hx|intros _; wp_step; apply Refused].
  wp_step. wp_step. wp_step. wp_step. wp_step.
  apply wp_of_result; cbn [work open_session];
    [intros ev Hev|intros e _; wp_step; apply Refused].
  wp_step. wp_step. apply wp_of_result; [intros pv Hpv|intros e _; wp_step; apply Refused].
  wp_step. unfold persist_guard_evaluation. repeat (lazymatch goal with
    | |- wp (match ev_blocked ev with _ => _ end) _ _ => fail
    | _ => wp_step end).
  destruct (ev_blocked ev) as [code|] eqn:Hb.
  - repeat wp_step. eapply (Invalidated a (close_approval AP_INVALIDATED (Some code) a)); [done..| |].
    + apply Locked; [by apply close_settles|]. cbn [disk committed work with_work]. unfold approval_audit.
      rewrite written_approvals. cbn. by rewrite Hid.
    + left. cbn [disk committed work with_work]. unfold approval_audit. by rewrite written_orders.
  - apply (approve_order_run a); try done. cbn. rewrite lookup_insert_eq. by eexists.
Qed.
End ApproveProps.

(** ** Rejection and expiry *)

Lemma reject_run id user corr db t ids : approvals_ok db ->
  wp (reject id user corr) (fun s _ => approvals_evolve db (disk s) /\ orders (disk s) = orders db)
    (open_session db t ids).
Proof.
  intros Hok. unfold reject. pose proof (approvals_evolve_refl db) as R.
  wp_step. apply wp_locked_approval; cbn [work open_session]; [intros a Ha|intros _; wp_step; by split].
  wp_step. destruct (ap_state a) eqn:Hst; try (wp_step; by split).
  repeat wp_step. cbn [disk committed work with_work open_session]. unfold approval_audit.
  rewrite written_orders. split; [|done].
  eapply (settle_evolves db _ id a); [exact Ha| |].
  2: { rewrite written_approvals. cbn. by rewrite (Hok _ _ Ha). }
  by repeat split.
Qed.

(** Another session's change of a row it shares with us comes with a new version. *)
Definition versions_grow (race : list Approval) (db : DB) : Prop :=
  forall r a, r ∈ race -> approvals db !! ap_id r = Some a -> ap_version a < ap_version r.

Section Sweep.
Context (race : list Approval) (db : DB) (Hok : approvals_ok db) (Hrace : versions_grow race db).

Abbreviation db1 := (add_concurrent_approvals race db).

(** One update of the sweep settles the row it read, or raises. *)
Lemma expire_one_run a s :
  approvals db !! ap_id a = Some a -> ap_state a = AP_PENDING ->
  disk s = db1 -> approvals_evolve db1 (work s) ->
  wp (expire_one a) (fun s' _ => disk s' = db1 /\ approvals_evolve db1 (work s')) s.
Proof.
  intros Ha Hst Hd Hev. unfold expire_one. wp_step. wp_step. wp_step.
  destruct (approvals (work s) !! ap_id a) as [r|] eqn:Hr; [|by wp_step].
  wp_step. wp_step; [|done]. wp_step. wp_step. wp_step. wp_step.
  match goal with H : (_ =? _) = true |- _ => apply Z.eqb_eq in H; rename H into Hv end.
  assert (E : approvals_evolve db1 (put_approval (close_approval AP_EXPIRED (Some "APPROVAL_EXPIRED") a) (work s))).
  { intros k x Hx. destruct (decide (k = ap_id a)) as [->|N].
    - destruct (Hev _ _ Hx) as (x' & Hx' & Hrel). rewrite Hr in Hx'. injection Hx' as <-.
      assert (Hlt : ap_version x <= ap_version r) by (destruct Hrel as [->|Hs]; [lia|destruct Hs as (_ & _ & ? & _); lia]).
      assert (x = a) as ->.
      { destruct (raced_row _ _ _ _ Hx) as [[Hin Hid]|H0]; [|congruence]. exfalso.
        rewrite <- Hid in Ha. pose proof (Hrace x a Hin Ha). lia. }
      eexists. cbn. rewrite lookup_insert_eq. split; [done|]. right.
      by apply close_settles.
    - destruct (Hev _ _ Hx) as (x' & Hx' & Hrel). exists x'. cbn.
      rewrite lookup_insert_ne by done. done. }
  repeat wp_step; by split.
Qed.

Lemma expire_stale_run now t ids :
  wp (expire_stale now race) (fun s _ => approvals_evolve db1 (disk s)) (open_session db t ids).
Proof.
  unfold expire_stale, now_or. wp_step.
  assert (Hnow : forall Q, Q (open_session db t ids) (inl (default t now)) ->
    wp (match now with Some u => mret u | None => utcnow end) Q (open_session db t ids))
    by (intros Q HQ; by destruct now).
  apply Hnow. wp_step. wp_step. wp_step. wp_step. cbn [work open_session].
  set (l := List.filter _ _).
  assert (Hl : forall a, a ∈ l -> approvals db !! ap_id a = Some a /\ ap_state a = AP_PENDING).
  { intros a Hin. apply list_elem_of_In, List.filter_In in Hin as [Hin Hs].
    apply list_elem_of_In, elem_of_rows in Hin as [k Hk]. split; [by rewrite (Hok _ _ Hk)|].
    apply andb_true_iff in Hs as [Hs _]. by apply bool_decide_eq_true in Hs. }
  wp_step. apply wp_others_commit. wp_step. wp_step.
  eapply wp_mono; [apply (wp_for_each (fun s => disk s = db1 /\ approvals_evolve db1 (work s)))|].
  - intros a s Hin [Hd He]. destruct (Hl a Hin). by apply expire_one_run.
  - split; [done|apply approvals_evolve_refl].
  - intros s' [u|e] [Hd He]; wp_step; [|rewrite Hd; apply approvals_evolve_refl].
    repeat wp_step; [rewrite Hd; apply approvals_evolve_refl|exact He].
Qed.
End Sweep.

(** ** The stored scope *)

(** The scope an approval stores as JSON text fields reads back as what it
    was created with: the reference price with its exponent, the quantity, and
    the position's identifier and version. *)
Theorem scope_roundtrip (decision : Decision) (price : option decimal) (quantity now : Z)
  (position_id : option string) (position_version : option Z) :
  match price with Some p => Z.abs (expo p) <= MAX_EMAX | None => True end ->
  position_id <> Some EmptyString ->
  let scope := _scope_snapshot decision price quantity now position_id position_version in
  scope_price scope = inr price /\ scope_quantity scope = inr quantity /\
  scope_text "position_id" scope = inr position_id /\
  scope_int "position_version" scope = inr position_version.
Proof.
  intros Hp Hid. cbn zeta. split; [|split; [done|split]].
  - destruct price as [p|]; [|done]. unfold scope_price, scope_text.
    change (jget "reference_price" _) with (Some (JStr (str_text p))). cbv iota beta.
    pose proof (decimal_text_roundtrip p Hp) as R.
    destruct (String.eqb_spec (str_text p) EmptyString) as [E|_]; [|by rewrite R].
    rewrite E in R. discriminate R.
  - destruct position_id as [s|]; [|done]. unfold scope_text.
    change (jget "position_id" _) with (Some (JStr s)). cbv iota beta.
    destruct (String.eqb_spec s EmptyString) as [->|_]; [by destruct Hid|done].
  - by destruct position_version.
Qed.

(** ** What an approval's passed guard means *)

(** The conditions under which an approval may become an order of [quantity]
    shares at [price]: on the newest snapshot of the stream, not on the one the
    decision saw. *)
Definition approval_permitted (holidays : Z -> option (list Z)) (db : DB) (a : Approval)
  (decision : Decision) (user : User) (settings : Settings) (now : Z) (price : decimal)
  (quantity : Z) : Prop :=
  let snapshot := _latest_snapshot_for_approval db decision in
  exists policy reference position_id position_version,
    risk_policy_payload (active_risk_policy db (u_id user)) = inr policy /\
    scope_quantity (ap_scope_snapshot a) = inr quantity /\ 0 < quantity /\
    scope_price (ap_scope_snapshot a) = inr (Some reference) /\
    _price_deviation_ok (Some reference) (Some price) (max_price_deviation_pct policy) = true /\
    scope_text "position_id" (ap_scope_snapshot a) = inr position_id /\
    scope_int "position_version" (ap_scope_snapshot a) = inr position_version /\
    match d_action decision with
    | ACT_BUY => _marketable_buy_price snapshot = Some price /\
        buy_permitted db decision user settings policy now snapshot
    | ACT_PARTIAL_SELL | ACT_FULL_SELL => _marketable_sell_price snapshot = Some price /\
        sell_permitted holidays db decision settings policy now snapshot position_id
          position_version quantity
    | _ => False
    end.

Lemma blocked_none rules :
  (if bool_decide (blocked_rules rules = []) then None else Some (blocking_code rules)) = None ->
  blocked_rules rules = [].
Proof. by case_bool_decide. Qed.

Lemma blocked_rules_app rs rs' :
  blocked_rules (rs ++ rs') = [] <-> blocked_rules rs = [] /\ blocked_rules rs' = [].
Proof. rewrite !blocked_rules_nil. apply Forall_app. Qed.

Lemma evaluation_permits holidays db a decision user settings now ev :
  _evaluate_approval holidays db a decision user settings now = inr ev -> ev_blocked ev = None ->
  exists price, ev_price ev = Some price /\
    approval_permitted holidays db a decision user settings now price (ev_quantity ev).
Proof.
  unfold _evaluate_approval.
  destruct (risk_policy_payload _) as [e|policy] eqn:Hp; [discriminate|]. cbn [mbind result_bind].
  destruct (scope_quantity _) as [e|n] eqn:Hn; [discriminate|]. cbn [mbind result_bind].
  destruct (scope_text _ _) as [e|pid] eqn:Hpid; [discriminate|]. cbn [mbind result_bind].
  destruct (scope_int _ _) as [e|pv] eqn:Hpv; [discriminate|]. cbn [mbind result_bind].
  destruct (approval_guard _ _ _ _ _ _ _ _ _ _ _) as [e|[rs current]] eqn:Hg; [discriminate|].
  cbn [mbind result_bind].
  destruct (scope_price _) as [e|ref] eqn:Href; [discriminate|]. cbn [mbind result_bind].
  intros E. apply (inj inr) in E. subst ev. cbn [ev_blocked ev_price ev_quantity].
  intros B. apply blocked_none in B. apply blocked_rules_app in B as [B1 B2].
  apply blocked_rules_app in B2 as [B2 B3].
  destruct (_price_deviation_ok ref current _) eqn:Hdev; [|discriminate].
  destruct (Z.leb_spec n 0) as [|Hpos]; [discriminate|].
  destruct ref as [ref|]; [|discriminate]. destruct current as [price|]; [|discriminate].
  exists price. split; [done|]. unfold approval_permitted.
  exists policy, ref, pid, pv. repeat (split; [done|]).
  unfold approval_guard in Hg.
  destruct (d_action decision); cbn [mbind result_bind] in Hg; try discriminate Hg.
  2,3: destruct (_sell_plan _ _ _) as [e|plan] eqn:Hr; [discriminate|];
    injection Hg as <- Hc; split; [done|];
    by apply (sell_guard_passed _ _ _ _ _ _ _ plan _ _ (Some n)).
  destruct (_buy_guard_rules _ _ _ _ _ _ _) as [e|rules] eqn:Hr; [discriminate|].
  injection Hg as <- Hc. split; [done|]. by apply (buy_guard_passed _ _ _ _ _ _ _ rules).
Qed.

Lemma approve_outcome_evolves sha256 holidays id user settings corr key now race settled db t db' r :
  approvals_ok db ->
  approve_outcome sha256 holidays id user settings corr key now race settled db t db' r ->
  approvals_evolve db db' \/ settled <> [] /\ guards db' = guards db.
Proof.
  intros Hok [a Ha Hst|a a' d x ev o db1 Ha Hst _ _ _ _ _ _ _ _ _ [Hs E|Hn Hg _]|a e Ha Hst _
             |a a' e db1 Ha Hst [Hs E|Hn Hg _] _|e].
  - left. apply approvals_evolve_refl.
  - left. by eapply settle_evolves.
  - by right.
  - left. eapply (settle_evolves _ _ id a); [done|by apply (close_settles a AP_EXPIRED)|].
    cbn. by rewrite (Hok _ _ Ha).
  - left. by eapply settle_evolves.
  - by right.
  - left. apply approvals_evolve_refl.
Qed.

(** C12: an approval is settled once.  Approving, rejecting or sweeping, whatever
    the outcome, moves an approval only from PENDING to a settled state, with its
    version advanced by one and everything it was bound to unchanged; a settled
    approval is never touched again, not even when another session settles it
    between the sweep's query and its update.  Approving and rejecting hold the
    lock of the row; the one exception is an approving session that another
    session's order made roll back, which undoes its stored guard evaluation and
    ends its lock, when a third session settles the approval just then
    ([settlement_overwritten]). *)
Theorem approvals_settle_once sha256 holidays id user settings corr key now race settled raced db t ids :
  approvals_ok db -> versions_grow raced db ->
  wp (approve sha256 holidays id user settings corr key now race settled)
    (fun s _ => approvals_evolve db (disk s) \/ settled <> [] /\ guards (disk s) = guards db)
    (open_session db t ids) /\
  wp (reject id user corr) (fun s _ => approvals_evolve db (disk s)) (open_session db t ids) /\
  wp (expire_stale now raced)
    (fun s _ => approvals_evolve (add_concurrent_approvals raced db) (disk s))
    (open_session db t ids).
Proof.
  intros Hok Hr. split; [|split].
  - eapply wp_mono; [by apply approve_run|]. intros s r H.
    by apply (approve_outcome_evolves _ _ _ _ _ _ _ _ _ _ _ _ _ _ Hok H).
  - eapply wp_mono; [by apply reject_run|]. by intros s r [H _].
  - by apply expire_stale_run.
Qed.

(** C13: an approval becomes an order only while it is unexpired and its guard,
    re-run on the newest snapshot, passes: the price within the allowed
    deviation from the one the user saw, the quantity the one of the approval's
    scope, the position the same version.  The order stored is a LIMIT order of
    exactly that symbol, side, price and quantity, and it carries the
    approval's request.  A refused approval adds no order. *)
Theorem approve_is_guarded sha256 holidays id user settings corr key now race settled db t ids :
  approvals_ok db ->
  wp (approve sha256 holidays id user settings corr key now race settled)
    (fun s r => match r with
     | inl a' =>
         (disk s = db /\ approvals db !! id = Some a' /\ ap_state a' = AP_APPROVED) \/
         exists a decision price quantity order request,
           approvals db !! id = Some a /\ ap_state a = AP_PENDING /\
           default t now < ap_expires_at a /\
           decisions db !! ap_decision_id a = Some decision /\
           approval_permitted holidays db a decision user settings (default t now) price quantity /\
           oc_symbol request = d_symbol decision /\ oc_market request = d_market decision /\
           oc_side request = (match d_action decision with ACT_BUY => "BUY" | _ => "SELL" end) /\
           oc_order_type request = "LIMIT" /\ oc_limit_price request = Some price /\
           oc_quantity request = quantity /\
           answers sha256 key now race db t request order (disk s) /\
           approvals (disk s) !! id = Some a' /\ ap_order_id a' = Some (o_id order)
     | inr e => no_new_order race db (disk s)
     end) (open_session db t ids).
Proof.
  intros Hok. eapply wp_mono; [by apply approve_run|]. intros s r H.
  destruct H as [a Ha Hst|a a' d x ev o db1 Ha Hst Hexp Hd _ Hev Hb Hans _ Ho _ Hw|a e Ha Hst _
                |a a' e db1 Ha Hst _ Hno|e].
  - left. done.
  - right. destruct (evaluation_permits _ _ _ _ _ _ _ _ Hev Hb) as (price & Hp & Hperm).
    exists a, d, price, (ev_quantity ev), o, (approval_order_request a d ev corr key).
    repeat (split; [done|]). split; [|exact Ho].
    destruct Hw as [_ E|_ _ E]; rewrite E; apply lookup_insert_eq.
  - by left.
  - exact Hno.
  - by left.
Qed.

(** ** Stranded executions *)

Lemma expire_one_keeps a x s : ap_execution_id a <> x ->
  (forall k e, executions (work s) !! k = Some e -> ex_id e = k) ->
  wp (expire_one a) (fun s' _ => disk s' = disk s /\ executions (work s') !! x = executions (work s) !! x /\
    forall k e, executions (work s') !! k = Some e -> ex_id e = k) s.
Proof.
  intros N Hok. unfold expire_one. wp_step. wp_step. wp_step.
  destruct (approvals (work s) !! ap_id a) as [r|]; [|by wp_step].
  wp_step. wp_step; [|done]. wp_step. wp_step. wp_step. wp_step. wp_step. wp_step. wp_step.
  cbn [work with_work executions put_approval set_approvals].
  destruct (executions (work s) !! ap_execution_id a) as [e|] eqn:He; [|by wp_step].
  case_bool_decide; [|by wp_step]. wp_step. split; [done|]. cbn. rewrite (Hok _ _ He). split.
  - by rewrite lookup_insert_ne.
  - intros k e0. destruct (decide (k = ap_execution_id a)) as [->|Nk].
    + rewrite lookup_insert_eq. intros [= <-]. cbn. apply (Hok _ _ He).
    + rewrite lookup_insert_ne by done. apply Hok.
Qed.

Lemma expire_stale_keeps now db t ids x :
  (forall k e, executions db !! k = Some e -> ex_id e = k) ->
  (forall k a, approvals db !! k = Some a -> ap_execution_id a = x -> ap_state a <> AP_PENDING) ->
  wp (expire_stale now []) (fun s _ => executions (disk s) !! x = executions db !! x)
    (open_session db t ids).
Proof.
  intros Hok Hx. unfold expire_stale, now_or. wp_step.
  assert (Hnow : forall Q, Q (open_session db t ids) (inl (default t now)) ->
    wp (match now with Some u => mret u | None => utcnow end) Q (open_session db t ids))
    by (intros Q HQ; by destruct now).
  apply Hnow. wp_step. wp_step. wp_step. wp_step. cbn [work open_session].
  set (l := List.filter _ _). wp_step. apply wp_others_commit. wp_step. wp_step.
  eapply wp_mono; [apply (wp_for_each (fun s => disk s = db /\ executions (work s) !! x = executions db !! x /\
    forall k e, executions (work s) !! k = Some e -> ex_id e = k))|].
  - intros a s Hin (Hd & He & Hk).
    apply list_elem_of_In, List.filter_In in Hin as [Hin Hs].
    apply list_elem_of_In, elem_of_rows in Hin as [k Hka].
    apply andb_true_iff in Hs as [Hs _]. apply bool_decide_eq_true in Hs.
    eapply wp_mono; [apply (expire_one_keeps a x); [|done]|].
    + intros E. by apply (Hx k a Hka).
    + intros s' r (H1 & H2 & H3). by rewrite H1, H2.
  - done.
  - intros s' [u|e] (Hd & He & Hk); wp_step; [|by rewrite Hd].
    repeat wp_step; [by rewrite Hd|exact He].
Qed.

(** A user who approves after the deadline is refused with
    APPROVAL_EXPIRED and the approval becomes EXPIRED, but its execution is left
    in APPROVAL_PENDING, and no later sweep moves it: the sweep only reads
    pending approvals. *)
Theorem lapsed_approval_strands_execution sha256 holidays id user settings corr key now race settled
  db t ids a x :
  approvals_ok db -> (forall k e, executions db !! k = Some e -> ex_id e = k) ->
  approvals db !! id = Some a -> ap_state a = AP_PENDING -> ap_expires_at a <= default t now ->
  executions db !! ap_execution_id a = Some x -> ex_state x = EX_APPROVAL_PENDING ->
  (forall k b, approvals db !! k = Some b -> ap_execution_id b = ap_execution_id a -> k = id) ->
  wp (approve sha256 holidays id user settings corr key now race settled) (fun s r =>
    r = inr (ApprovalError "APPROVAL_EXPIRED" 409) /\
    ap_state <$> approvals (disk s) !! id = Some AP_EXPIRED /\
    executions (disk s) !! ap_execution_id a = Some x /\
    forall later t' ids', wp (expire_stale later []) (fun s' _ =>
      ex_state <$> executions (disk s') !! ap_execution_id a = Some EX_APPROVAL_PENDING)
      (open_session (disk s) t' ids')) (open_session db t ids).
Proof.
  intros Hok Hxok Ha Hst Hexp Hx Hxs Huniq. pose proof (Hok _ _ Ha) as Hid.
  unfold approve, now_or. wp_step.
  assert (Hnow : forall Q, Q (open_session db t ids) (inl (default t now)) ->
    wp (match now with Some u => mret u | None => utcnow end) Q (open_session db t ids))
    by (intros Q HQ; by destruct now).
  apply Hnow. wp_step. wp_step.
  apply wp_locked_approval; cbn [work open_session]; rewrite Ha; [intros ? [= <-]|discriminate].
  wp_step. rewrite Hst, (proj2 (Z.leb_le _ _) Hexp). repeat wp_step.
  cbn [disk committed work with_work open_session]. split; [done|]. split.
  { cbn. by rewrite Hid, lookup_insert_eq. }
  split; [exact Hx|]. intros later t' ids'. eapply wp_mono; [apply (expire_stale_keeps later)|].
  - exact Hxok.
  - intros k b. cbn. rewrite Hid. destruct (decide (k = id)) as [->|N].
    + by rewrite lookup_insert_eq; intros [= <-].
    + rewrite lookup_insert_ne by done. intros Hk E. by destruct (N (Huniq k b Hk E)).
  - intros s' r E. rewrite E. cbn. by rewrite Hx, <- Hxs.
Qed.

(** ** Witnesses on a concrete day *)

Lemma pending_db_ok : approvals_ok pending_db.
Proof. intros k a H. cbn in H. apply lookup_singleton_Some in H as [<- <-]. done. Qed.

Lemma pending_db_execution k e : executions pending_db !! k = Some e -> ex_id e = k.
Proof. intros H. cbn in H. apply lookup_singleton_Some in H as [<- <-]. done. Qed.

Definition day_approve (now : Z) : Sess * (Approval + exn) :=
  approve day_hash no_holidays "ap" demo_user (day_settings STAGE_APPROVAL_ONLY) "c" "k" (Some now)
    [] [] (open_session pending_db now day_ids).

Lemma scope_roundtrip_witness :
  jget "reference_price" (ap_scope_snapshot day_approval) = Some (JStr "71150.0000") /\
  scope_price (ap_scope_snapshot day_approval) = inr (Some (Dec 711500000 (-4))).
Proof.
  split; [vm_compute; reflexivity|].
  apply (scope_roundtrip (day_decision ACT_BUY) (Some (Dec 711500000 (-4))) 7
    (day_now - seconds 2) None None); [vm_compute; discriminate|discriminate].
Defined.

(** Approved; and rejected by another session while the sweep runs. *)
Lemma approvals_settle_once_witness :
  let raced := [close_approval AP_REJECTED None day_approval] in
  approvals_evolve pending_db (disk (day_approve day_now).1) /\
  ap_state <$> approvals (disk (day_approve day_now).1) !! "ap" = Some AP_APPROVED /\
  ap_state <$> approvals (disk (expire_stale (Some (day_now + seconds 60)) raced
    (open_session pending_db day_now day_ids)).1) !! "ap" = Some AP_REJECTED.
Proof.
  cbn zeta.
  destruct (approvals_settle_once day_hash no_holidays "ap" demo_user
    (day_settings STAGE_APPROVAL_ONLY) "c" "k" (Some day_now) [] []
    [close_approval AP_REJECTED None day_approval] pending_db day_now day_ids pending_db_ok)
    as (H & _ & _).
  - intros r a Hr Ha. apply list_elem_of_singleton in Hr. subst r. cbn in Ha.
    injection Ha as <-. reflexivity.
  - split; [|split; vm_compute; reflexivity].
    unfold wp in H. fold (day_approve day_now) in H. destruct (day_approve day_now) as [s r].
    destruct H as [H|[H _]]; [exact H|done].
Defined.

Lemma approve_is_guarded_witness :
  exists a' price, (day_approve day_now).2 = inl a' /\ ap_state a' = AP_APPROVED /\
    approval_permitted no_holidays pending_db day_approval (day_decision ACT_BUY) demo_user
      (day_settings STAGE_APPROVAL_ONLY) day_now price 7.
Proof.
  pose proof (approve_is_guarded day_hash no_holidays "ap" demo_user
    (day_settings STAGE_APPROVAL_ONLY) "c" "k" (Some day_now) [] [] pending_db day_now day_ids
    pending_db_ok) as H.
  unfold wp in H. fold (day_approve day_now) in H.
  assert (E : match (day_approve day_now).2 with
              | inl a => ap_state a = AP_APPROVED /\
                  oi_requested_quantity <$> intents (disk (day_approve day_now).1) !! "id1" = Some 7
              | inr _ => False end) by (vm_compute; split; reflexivity).
  assert (D : match (day_approve day_now) with (s, _) => approvals (disk s) !! "ap" end <> Some day_approval)
    by (vm_compute; discriminate).
  destruct (day_approve day_now) as [s [a'|e]]; [|destruct E]. cbn in E, D.
  destruct H as [(Hd & _ & _)|(a & d & price & q & o & rq & Ha & _ & _ & Hdec & Hp & _)].
  - exfalso. apply D. rewrite Hd. reflexivity.
  - exists a', price. cbn in Ha, Hdec. injection Ha as <-. injection Hdec as <-.
    split; [reflexivity|]. split; [apply E|].
    assert (q = 7) as ->; [|exact Hp]. destruct Hp as (? & ? & ? & ? & _ & Hq & _).
    cbn in Hq. by injection Hq as <-.
Defined.

Lemma lapsed_approval_strands_execution_witness :
  let s := (day_approve (day_now + seconds 60)).1 in
  ap_state <$> approvals (disk s) !! "ap" = Some AP_EXPIRED /\
  ex_state <$> executions (disk s) !! "exec" = Some EX_APPROVAL_PENDING /\
  ex_state <$> executions (disk (expire_stale (Some (day_now + seconds 90)) []
    (open_session (disk s) day_now day_ids)).1) !! "exec" = Some EX_APPROVAL_PENDING.
Proof.
  cbn zeta.
  pose proof (lapsed_approval_strands_execution day_hash no_holidays "ap" demo_user
    (day_settings STAGE_APPROVAL_ONLY) "c" "k" (Some (day_now + seconds 60)) [] [] pending_db
    (day_now + seconds 60) day_ids day_approval day_execution pending_db_ok pending_db_execution
    eq_refl eq_refl ltac:(vm_compute; discriminate) eq_refl eq_refl) as H.
  unfold wp in H at 1. fold (day_approve (day_now + seconds 60)) in H.
  destruct (day_approve (day_now + seconds 60)) as [s r]. cbn [fst] in H |- *.
  destruct H as (_ & H1 & H2 & H3).
  { intros k b Hb _. cbn in Hb. by apply lookup_singleton_Some in Hb as [<- _]. }
  change (ap_execution_id day_approval) with "exec" in H2, H3.
  split; [exact H1|]. split; [rewrite H2; reflexivity|].
  specialize (H3 (Some (day_now + seconds 90)) day_now day_ids). unfold wp in H3.
  destruct (expire_stale _ _ _) as [s' r']. exact H3.
Defined.

(** Another session's order under the key of the approval makes the approving
    one roll back; a third rejects the approval then, and the approving session
    writes over the rejection. *)
Example settlement_overwritten :
  let rejected := close_approval AP_REJECTED (Some "USER_REJECTED") day_approval in
  let order := match (day_approve day_now).2 with
               | inl a => default "" (ap_order_id a) | inr _ => "" end in
  let race := match orders (disk (day_approve day_now).1) !! order with Some o => [o] | None => [] end in
  let r := approve day_hash no_holidays "ap" demo_user (day_settings STAGE_APPROVAL_ONLY) "c" "k" (Some day_now)
             race [rejected] (open_session pending_db day_now day_ids) in
  ap_state <$> approvals (disk r.1) !! "ap" = Some AP_APPROVED /\
  ap_version <$> approvals (disk r.1) !! "ap" = Some (ap_version rejected + 1).
Proof. vm_compute. split; reflexivity. Qed.
