(* ===== verification/DecisionExecution.v ===== *)
(** * Routing of trading decisions

    [decision_execution.py]: a decision with purpose TRADING becomes one
    execution row, and, when the policy's mode, the execution stage and the
    order guard allow it, a pending approval or an order. *)

From Stdlib Require Import ZArith Lia.
From stdpp Require Import base numbers strings list gmap.
From S2P Require Import Prelude Decimal Json DecimalText PyTime Models Session PaperBroker.
From S2P Require Import RiskCalc RiskEvents Policies OrderCreation MarketCalendar Venue.
From S2P Require Import Guards Approvals ApprovalProps.

Open Scope Z_scope.

(** ** Modes, stages and keys *)

Definition NO_ACTIONS (a : Action) : bool :=
  match a with ACT_WAIT | ACT_REJECT | ACT_RISK_BLOCK | ACT_HOLD => true | _ => false end.

Definition SUPPORTED_ACTIONS (a : Action) : bool :=
  match a with ACT_BUY | ACT_PARTIAL_SELL | ACT_FULL_SELL => true | _ => false end.

Definition ORDER_ENABLED_STAGES (st : ExecStage) : bool :=
  match st with STAGE_APPROVAL_ONLY | STAGE_MOCK_AUTOMATIC => true | STAGE_SHADOW => false end.

Definition _mode_for (action : Action) (policy : ExecutionPolicyPayload) : ExecMode :=
  match action with
  | ACT_BUY => xp_buy policy
  | ACT_PARTIAL_SELL => xp_partial_sell policy
  | ACT_FULL_SELL => xp_full_sell policy
  | _ => MODE_DISABLED
  end.

Definition stage_text (st : ExecStage) : string :=
  match st with
  | STAGE_SHADOW => "SHADOW" | STAGE_APPROVAL_ONLY => "APPROVAL_ONLY"
  | STAGE_MOCK_AUTOMATIC => "MOCK_AUTOMATIC"
  end.

Definition exec_state_text (st : ExecState) : string :=
  match st with
  | EX_ROUTING => "ROUTING" | EX_NO_ACTION => "NO_ACTION" | EX_DISABLED => "DISABLED"
  | EX_GUARD_BLOCKED => "GUARD_BLOCKED" | EX_SHADOW_RECORDED => "SHADOW_RECORDED"
  | EX_APPROVAL_PENDING => "APPROVAL_PENDING" | EX_ORDER_CREATED => "ORDER_CREATED"
  | EX_REJECTED => "REJECTED" | EX_EXPIRED => "EXPIRED" | EX_INVALIDATED => "INVALIDATED"
  | EX_FAILED_SAFE => "FAILED_SAFE"
  end.

Definition normalized_action (a : Action) : string :=
  if NO_ACTIONS a then "NO_ACTION" else action_text a.

(** ** Rows *)

Definition execution_by_key (key : string) (db : DB) : option DecisionExecution :=
  find_row (fun e => String.eqb (ex_execution_key e) key) (executions db).

(** The unique [execution_key] and the primary key. *)
Definition execution_clash (e : DecisionExecution) (db : DB) : bool :=
  bool_decide (is_Some (executions db !! ex_id e)) ||
  bool_decide (is_Some (execution_by_key (ex_execution_key e) db)).

(** Executions other sessions commit between the query and the flush. *)
Definition add_concurrent_executions (race : list DecisionExecution) (db : DB) : DB :=
  foldr (fun e db => if execution_clash e db then db else put_execution e db) db race.

(** Attribute assignments on the object the call holds, written through to its
    row as long as the session still has it. *)
Definition assign (f : DecisionExecution -> DecisionExecution) (e : DecisionExecution) :
  prog DecisionExecution :=
  let e := f e in
  modify (change_execution (ex_id e) (fun _ => e)) ;;
  mret e.

Section Routing.
Context (sha256 : string -> string) (holidays : Z -> option (list Z)).

Definition _key (decision : Decision) (action : string)
  (policy_version_id risk_policy_version_id : option string) : string :=
  sha256 (d_id decision +:+ ":" +:+ action +:+ ":" +:+
          default "SAFE_DEFAULT" policy_version_id +:+ ":" +:+
          default "SAFE_RISK_DEFAULT" risk_policy_version_id).

(** ** Direct orders *)

(** [create_order] with its domain errors caught, and their record. *)
Definition place (user : User) (request : OrderRequest) (audit_action : string) (current : Z)
  (race : list TradingOrder) (execution : DecisionExecution) : prog DecisionExecution :=
  placed ← try_except
    (order ← create_order sha256 user request audit_action (Some current) race; mret (inl order))
    (fun e => match e with
              | OrderCreationError code _ => Some (mret (inr code))
              | _ => None
              end);
  match (placed : TradingOrder + string) with
  | inr code => assign (close_execution EX_FAILED_SAFE code) execution
  | inl order =>
      assign (fun e => set_ex_order_intent_id (close_execution EX_ORDER_CREATED "ORDER_CREATED" e)
                         (Some (o_intent_id order))) execution
  end.

Definition buy_request (decision : Decision) (price : decimal) (quantity : Z)
  (correlation_id : string) : OrderRequest :=
  let key := "auto-buy:" +:+ d_id decision in
  mkOrderRequest (d_symbol decision) (d_market decision) "BUY" "BUY" "LIMIT" (Some price) quantity
    key
    (JObj [("environment", JStr "MOCK"); ("symbol", JStr (d_symbol decision));
           ("market", JStr (d_market decision)); ("side", JStr "BUY"); ("action", JStr "BUY");
           ("order_type", JStr "LIMIT"); ("limit_price", jopt_dec (Some price));
           ("quantity", JInt quantity); ("decision_id", JStr (d_id decision));
           ("idempotency_key", JStr key)])
    correlation_id.

Definition _create_buy_order (execution : DecisionExecution) (decision : Decision) (user : User)
  (risk_policy : RiskPolicyPayload) (correlation_id : string) (current : Z)
  (race : list TradingOrder) : prog DecisionExecution :=
  snapshot ← gets (fun db => snapshots db !! d_input_snapshot_id decision);
  quantity ← of_result (_buy_quantity (entry_order_amount risk_policy)
                          (_marketable_buy_price snapshot));
  match _marketable_buy_price snapshot with
  | Some price =>
      if quantity <=? 0
      then assign (close_execution EX_GUARD_BLOCKED "ORDER_SIZE_NOT_CONFIGURED") execution
      else place user (buy_request decision price quantity correlation_id)
             "AUTOMATIC_BUY_ORDER_CREATED" current race execution
  | None => assign (close_execution EX_GUARD_BLOCKED "ORDER_SIZE_NOT_CONFIGURED") execution
  end.

Definition sell_request (decision : Decision) (position : Position) (price : decimal) (quantity : Z)
  (correlation_id : string) : OrderRequest :=
  let action := action_text (d_action decision) in
  let key := "auto-sell:" +:+ d_id decision +:+ ":" +:+ action in
  mkOrderRequest (d_symbol decision) (d_market decision) "SELL" action "LIMIT" (Some price)
    quantity key
    (JObj [("environment", JStr "MOCK"); ("symbol", JStr (d_symbol decision));
           ("market", JStr (d_market decision)); ("side", JStr "SELL"); ("action", JStr action);
           ("order_type", JStr "LIMIT"); ("limit_price", jopt_dec (Some price));
           ("quantity", JInt quantity); ("decision_id", JStr (d_id decision));
           ("position_id", JStr (p_id position)); ("position_version", JInt (p_version position));
           ("reference_snapshot_id", JStr (d_input_snapshot_id decision));
           ("idempotency_key", JStr key)])
    correlation_id.

Definition _create_sell_order (execution : DecisionExecution) (decision : Decision) (user : User)
  (plan : SellPlan) (correlation_id : string) (current : Z) (race : list TradingOrder) :
  prog DecisionExecution :=
  match sp_position plan, sp_price plan with
  | Some position, Some price =>
      if sp_quantity plan <=? 0
      then assign (close_execution EX_GUARD_BLOCKED "SELL_QUANTITY_AVAILABLE") execution
      else place user (sell_request decision position price (sp_quantity plan) correlation_id)
             "AUTOMATIC_DECISION_SELL_ORDER_CREATED" current race execution
  | _, _ => assign (close_execution EX_GUARD_BLOCKED "SELL_QUANTITY_AVAILABLE") execution
  end.

(** ** Routing *)

Definition route_rules (db : DB) (decision : Decision) (user : User) (settings : Settings)
  (risk_policy : RiskPolicyPayload) (current : Z) : exn + (list Rule * option SellPlan) :=
  let snapshot := snapshots db !! d_input_snapshot_id decision in
  match d_action decision with
  | ACT_BUY =>
      rules ← _buy_guard_rules db decision user settings risk_policy current snapshot;
      inr (rules, None)
  | ACT_PARTIAL_SELL | ACT_FULL_SELL =>
      plan ← _sell_plan db decision snapshot;
      inr (_sell_guard_rules holidays db decision settings risk_policy current plan None None None,
           Some plan)
  | _ => inr ([rule "ACTION_NOT_IMPLEMENTED" false], None)
  end.

(** The guard passed: what the stage and the mode make of it. *)
Definition route_passed (execution : DecisionExecution) (decision : Decision) (user : User)
  (settings : Settings) (risk_policy : RiskPolicyPayload) (plan : option SellPlan)
  (correlation_id : string) (current : Z) (race : list TradingOrder) : prog DecisionExecution :=
  if SUPPORTED_ACTIONS (d_action decision) && ORDER_ENABLED_STAGES (execution_stage settings) then
    match ex_mode execution, d_action decision, plan with
    | MODE_MANUAL_APPROVAL, _, _ =>
        approval ← create_approval execution decision user (Some current);
        assign (fun e => set_ex_approval_id (set_ex_state e EX_APPROVAL_PENDING)
                           (Some (ap_id approval))) execution
    | MODE_AUTOMATIC, ACT_BUY, _ =>
        _create_buy_order execution decision user risk_policy correlation_id current race
    | MODE_AUTOMATIC, _, Some plan =>
        _create_sell_order execution decision user plan correlation_id current race
    | _, _, _ => assign (close_execution EX_SHADOW_RECORDED "SHADOW_ONLY") execution
    end
  else assign (close_execution EX_SHADOW_RECORDED "SHADOW_ONLY") execution.

(** The guard, its record, and the branch it selects. *)
Definition route_guarded (execution : DecisionExecution) (decision : Decision) (user : User)
  (settings : Settings) (risk_policy : RiskPolicyPayload) (correlation_id : string) (current : Z)
  (race : list TradingOrder) : prog DecisionExecution :=
  guarded ← gets (fun db => route_rules db decision user settings risk_policy current);
  guarded ← of_result guarded;
  let '(rules, plan) := (guarded : list Rule * option SellPlan) in
  guard ← persist_guard_evaluation (ex_id execution) "DECISION_EXECUTION" (ex_id execution) rules
    (Some (d_input_snapshot_id decision)) (plan ← plan; p_version <$> sp_position plan)
    (ex_execution_policy_version_id execution) (ex_risk_policy_version_id execution)
    (if bool_decide (d_action decision = ACT_BUY) then Some "ENTRY_HALT" else None)
    (Some (d_valid_until decision)) current "PRE_ORDER";
  execution ← assign (fun e => set_ex_guard_evaluation_id e (Some (ge_id guard))) execution;
  match blocked_rules rules with
  | r :: _ => assign (close_execution EX_GUARD_BLOCKED (rule_code r)) execution
  | [] => route_passed execution decision user settings risk_policy plan correlation_id current race
  end.

(** The branches on the action and the mode. *)
Definition route_execution (execution : DecisionExecution) (decision : Decision) (user : User)
  (settings : Settings) (risk_policy : RiskPolicyPayload) (correlation_id : string) (current : Z)
  (race : list TradingOrder) : prog DecisionExecution :=
  if NO_ACTIONS (d_action decision)
  then assign (close_execution EX_NO_ACTION (action_text (d_action decision))) execution
  else if bool_decide (ex_mode execution = MODE_DISABLED)
  then assign (close_execution EX_DISABLED "ACTION_DISABLED") execution
  else route_guarded execution decision user settings risk_policy correlation_id current race.

(** The audit record, the commit and the reload: [refresh] fails on an object
    that a rollback removed from the session. *)
Definition finish_routing (execution : DecisionExecution) (decision : Decision) (user : User)
  (settings : Settings) (correlation_id : string) : prog (option DecisionExecution) :=
  modify (add_audit (mkAuditLog "SYSTEM" (Some (u_id user)) "DECISION_EXECUTION_ROUTED"
    (Some (ex_id execution)) (exec_state_text (ex_state execution)) None None correlation_id
    (JObj [("decision_id", JStr (d_id decision));
           ("stage", JStr (stage_text (execution_stage settings)));
           ("action", JStr (normalized_action (d_action decision)));
           ("result_code", jopt_str (ex_result_code execution))]))) ;;
  commit ;;
  found ← gets (fun db => executions db !! ex_id execution);
  found ← or_raise found InvalidRequestError;
  mret (Some found).

(** [xrace] and [race]: the executions and orders other sessions commit
    meanwhile. *)
Definition route_trading_decision (decision : Decision) (user : User) (correlation_id : string)
  (settings : Settings) (now : option Z) (xrace : list DecisionExecution)
  (race : list TradingOrder) : prog (option DecisionExecution) :=
  if negb (String.eqb (d_purpose decision) "TRADING") then mret None
  else
    current ← now_or now;
    config ← gets (fun db => active_policy db (u_id user));
    policy ← of_result (policy_payload config);
    risk_config ← gets (fun db => active_risk_policy db (u_id user));
    risk_policy ← of_result (risk_policy_payload risk_config);
    let mode := _mode_for (d_action decision) policy in
    let execution_key := _key decision (normalized_action (d_action decision))
                           (cv_id <$> config) (cv_id <$> risk_config) in
    existing ← gets (execution_by_key execution_key);
    match existing with
    | Some existing => mret (Some existing)
    | None =>
        id ← uuid7;
        let execution := mkDecisionExecution id execution_key (d_id decision) (u_id user)
          ACCOUNT_ALIAS (d_symbol decision) (d_market decision)
          (normalized_action (d_action decision)) mode (execution_stage settings) EX_ROUTING None
          (cv_id <$> config) (cv_id <$> risk_config) None None None correlation_id in
        flush_checked (add_concurrent_executions xrace) (execution_clash execution)
          (put_execution execution) ;;
        execution ← route_execution execution decision user settings risk_policy correlation_id
                      current race;
        finish_routing execution decision user settings correlation_id
    end.
End Routing.
