(* ===== verification/DecisionInputs.v ===== *)
(** * Decision inputs

    The inputs of a decision from the stored rows, with the one use of binary
    floats, the seconds of a time difference. *)

Set Warnings "-register-all".

From Stdlib Require Import ZArith Lia Ascii String.
From stdpp Require Import base numbers strings list pretty gmap.
From S2P Require Import Prelude Decimal Json PyTime Models Session Policies MarketWatch DecimalText.

Open Scope Z_scope.

(** * The seconds of a time difference

    [timedelta.total_seconds()] is a float: the quotient of the microseconds by
    10^6, rounded to 53 bits.  The code truncates it to whole seconds or prints
    it with three decimals. *)

(** A binary number [mantissa * 2 ^ exponent]. *)
Record float := Flt { mant : Z; bexp : Z }.

(** [n / d] with 53 bits, half to even, for positive operands in range. *)
Definition float_exp (n d : Z) : Z :=
  let e := Z.log2 n - Z.log2 d - 52 in
  let fits := if 0 <=? e then 2 ^ 52 * (d * 2 ^ e) <=? n else 2 ^ 52 * d <=? n * 2 ^ (- e) in
  if fits then e else e - 1.

Definition float_div (n d : Z) : float :=
  let e := float_exp n d in
  Flt (if 0 <=? e then round_div ROUND_HALF_EVEN n (d * 2 ^ e)
       else round_div ROUND_HALF_EVEN (n * 2 ^ (- e)) d) e.

(** [max(delta.total_seconds(), 0)] for a difference in microseconds. *)
Definition total_seconds (delta : Z) : float :=
  if delta <=? 0 then Flt 0 0 else float_div delta second.

(** [int(x)] of a non-negative float. *)
Definition float_int (x : float) : Z :=
  if 0 <=? bexp x then mant x * 2 ^ bexp x else mant x / 2 ^ (- bexp x).

(** [f"{x:.3f}"] as a decimal: the exact value rounded half to even. *)
Definition float_fixed3 (x : float) : decimal :=
  Dec (if 0 <=? bexp x then mant x * 2 ^ bexp x * 1000
       else round_div ROUND_HALF_EVEN (mant x * 1000) (2 ^ (- bexp x))) (-3).

Example seconds_printed :
  map (fun t => plain_text (float_fixed3 (total_seconds t)))
    [-5; 0; 1; 500; 1500; 2500; 1000000; 2000499; 2000500; 2001500; 1999999; 86400000000]
  = ["0.000"; "0.000"; "0.000"; "0.001"; "0.002"; "0.003"; "1.000"; "2.000"; "2.001"; "2.002";
     "2.000"; "86400.000"].
Proof. vm_compute. reflexivity. Qed.

Example seconds_truncated :
  map (fun t => float_int (total_seconds t)) [-5; 0; 999999; 1000000; 59999999; 86400000000] =
  [0; 0; 0; 1; 59; 86400].
Proof. vm_compute. reflexivity. Qed.

(** ** The printed age against a limit in whole seconds

    Below 2^52 microseconds (142 years) the printed seconds of an age exceed a
    whole number of seconds only if the age does, and do so from half a
    millisecond on. *)

Lemma float_exp_fine n : 0 < n < 2 ^ 52 -> float_exp n second <= -20.
Proof.
  intros [Hn Hb]. assert (Z.log2 n < 52) by (by apply Z.log2_lt_pow2).
  unfold float_exp. change (Z.log2 second) with 19.
  match goal with |- (if ?c then _ else _) <= _ => destruct c end; lia.
Qed.

(** The age as a binary fraction, and its printed milliseconds. *)
Lemma float_parts delta : 0 < delta < 2 ^ 52 -> exists k m, 20 <= k /\
  m = round_div ROUND_HALF_EVEN (delta * 2 ^ k) second /\
  coef (float_fixed3 (total_seconds delta)) = round_div ROUND_HALF_EVEN (m * 1000) (2 ^ k).
Proof.
  intros H. pose proof (float_exp_fine delta H) as He.
  exists (- float_exp delta second), (mant (float_div delta second)).
  unfold total_seconds. destruct (Z.leb_spec delta 0); [lia|].
  unfold float_fixed3, float_div. cbn [mant bexp coef].
  destruct (Z.leb_spec 0 (float_exp delta second)); [lia|]. split; [lia|done].
Qed.

Lemma age_fresh delta s : 0 <= s -> delta < 2 ^ 52 -> delta <= s * second ->
  coef (float_fixed3 (total_seconds delta)) <= 1000 * s.
Proof.
  intros Hs Hb Hd. destruct (Z.le_gt_cases delta 0) as [Hn|Hn].
  { unfold total_seconds. destruct (Z.leb_spec delta 0); [cbn; lia|lia]. }
  destruct (float_parts delta (conj (Z.gt_lt _ _ (Z.lt_gt _ _ Hn)) Hb)) as (k & m & Hk & -> & ->).
  pose proof (Z.pow_pos_nonneg 2 k ltac:(lia) ltac:(lia)) as Hp.
  apply round_div_upper; [done|].
  assert (round_div ROUND_HALF_EVEN (delta * 2 ^ k) second <= s * 2 ^ k); [|lia].
  apply round_div_upper; [done|]. nia.
Qed.

Lemma age_stale delta s : 0 <= s -> delta < 2 ^ 52 -> s * second + 501 <= delta ->
  1000 * s < coef (float_fixed3 (total_seconds delta)).
Proof.
  intros Hs Hb Hd. unfold second in Hd.
  destruct (float_parts delta ltac:(lia)) as (k & m & Hk & Em & ->).
  assert (Hp : 2 ^ 20 <= 2 ^ k) by (apply Z.pow_le_mono_r; lia). change (2 ^ 20) with 1048576 in Hp.
  set (p := 2 ^ k) in *.
  pose proof (round_div_half ROUND_HALF_EVEN (delta * p) second ltac:(done) ltac:(done)) as H1.
  rewrite <- Em in H1.
  pose proof (round_div_half ROUND_HALF_EVEN (m * 1000) p ltac:(done) ltac:(lia)) as H2.
  set (r := round_div ROUND_HALF_EVEN (m * 1000) p) in *. unfold second in H1. nia.
Qed.

(** * Decision inputs

    [decision_inputs.py] and [agents/server_inputs.py]: the record of everything
    a decision is taken on, as JSON with its hash, and the risk figures of an
    open position in it.  The audit columns of a position, which the database
    fills, are the parameters [created_at] and [updated_at]. *)

Definition SERVER_INPUT_POLICY_VERSION : string := "agent-server-input-v1".
Definition POSITION_CALCULATION_VERSION : string := "position-risk-input-v1".
Definition INPUT_SCHEMA_VERSION : string := "scout-input-v1".

(** [_FOUR_DP] and [_SIX_DP], as exponents. *)
Definition _FOUR_DP : Z := -4.
Definition _SIX_DP : Z := -6.

Definition quality_text (q : Quality) : string :=
  match q with Q_NORMAL => "NORMAL" | Q_LATE => "LATE" | Q_GAP_DETECTED => "GAP_DETECTED" end.

(** ** The risk figures of a position *)

(** [format(value.quantize(places, rounding=ROUND_HALF_UP), "f")] *)
Definition fixed (places : Z) (value : decimal) : exn + json :=
  match quantize ROUND_HALF_UP places value with
  | Some d => inr (JStr (plain_text d))
  | None => inl InvalidOperation
  end.

(** [a / b * 100] *)
Definition ratio_pct (a b : decimal) : exn + decimal := r ← divided a b; mret (dmul r hundred).

Definition unrealized_return_pct (cost_basis unrealized_pnl : decimal) : exn + decimal :=
  if dltb dzero cost_basis then ratio_pct unrealized_pnl cost_basis else inr dzero.

Definition drawdown_pct (last_price session_high : decimal) : exn + decimal :=
  if dltb dzero session_high then change_pct last_price session_high else inr dzero.

Definition fixed_stop_price (average_price stop_loss_pct : decimal) : exn + decimal :=
  r ← divided stop_loss_pct hundred; mret (dmul average_price (dadd done_ r)).

Definition distance_to_stop_pct (last_price stop_price : decimal) : exn + decimal :=
  if dltb dzero last_price then ratio_pct (dsub last_price stop_price) last_price else inr dzero.

Section Inputs.
Context (sha256 : string -> string) (created_at updated_at : Position -> Z).

(** [max(0, int((b - a).total_seconds()))] *)
Definition whole_seconds (a b : Z) : Z := float_int (total_seconds (b - a)).

Definition stale_threshold_seconds (settings : Settings) : Z :=
  Z.max 120 (kiwoom_reconcile_interval_seconds settings * 2).

Definition freshness (position : Position) (market_snapshot : MarketSnapshot) (settings : Settings) :
  json :=
  let age_seconds := whole_seconds (updated_at position) (ms_event_at market_snapshot) in
  JObj [("status", JStr (if stale_threshold_seconds settings <? age_seconds then "STALE" else "FRESH"));
        ("age_seconds", JInt age_seconds);
        ("stale_threshold_seconds", JInt (stale_threshold_seconds settings))].

Definition build_position_snapshot (db : DB) (user : User) (position : Position)
  (market_snapshot : MarketSnapshot) (settings : Settings) : exn + json :=
  let policy_version := active_risk_policy db (u_id user) in
  policy ← risk_policy_payload policy_version;
  let policy_hash := match policy_version with
    | Some v => cv_payload_hash v
    | None => payload_hash sha256 (RiskPayload policy)
    end in
  let quantity := of_int (p_quantity position) in
  let average_price := p_average_price position in
  let last_price := ms_last_price market_snapshot in
  let session_high := ms_high_price market_snapshot in
  let cost_basis := dmul average_price quantity in
  let market_value := dmul last_price quantity in
  let unrealized_pnl := dsub market_value cost_basis in
  return_pct ← unrealized_return_pct cost_basis unrealized_pnl;
  drawdown ← drawdown_pct last_price session_high;
  stop_price ← fixed_stop_price average_price (fixed_stop_loss_pct policy);
  distance ← distance_to_stop_pct last_price stop_price;
  average_price ← fixed _FOUR_DP average_price;
  current_price ← fixed _FOUR_DP last_price;
  cost_basis ← fixed _FOUR_DP cost_basis;
  market_value ← fixed _FOUR_DP market_value;
  unrealized_pnl ← fixed _FOUR_DP unrealized_pnl;
  return_pct ← fixed _SIX_DP return_pct;
  session_high ← fixed _FOUR_DP session_high;
  drawdown ← fixed _SIX_DP drawdown;
  stop_loss_pct ← fixed _SIX_DP (fixed_stop_loss_pct policy);
  stop_price ← fixed _FOUR_DP stop_price;
  distance ← fixed _SIX_DP distance;
  mret (JObj
    [("marker", JStr "OPEN_POSITION"); ("calculation_version", JStr POSITION_CALCULATION_VERSION);
     ("position_id", JStr (p_id position)); ("account_alias", JStr (p_account_alias position));
     ("symbol", JStr (p_symbol position)); ("quantity", JInt (p_quantity position));
     ("remaining_quantity", JInt (p_quantity position)); ("average_price", average_price);
     ("current_price", current_price); ("cost_basis_amount", cost_basis);
     ("market_value_amount", market_value); ("unrealized_pnl_amount", unrealized_pnl);
     ("unrealized_return_pct", return_pct); ("session_high_price", session_high);
     ("drawdown_from_session_high_pct", drawdown); ("fixed_stop_loss_pct", stop_loss_pct);
     ("fixed_stop_price", stop_price); ("distance_to_fixed_stop_pct", distance);
     ("tracked_since_at", JStr (iso_datetime (created_at position)));
     ("tracked_duration_seconds",
        JInt (whole_seconds (created_at position) (ms_event_at market_snapshot)));
     ("position_observed_at", JStr (iso_datetime (updated_at position)));
     ("market_observed_at", JStr (iso_datetime (ms_event_at market_snapshot)));
     ("freshness", freshness position market_snapshot settings);
     ("risk_policy", JObj [("source", JStr (match policy_version with
                                            | Some _ => "ACTIVE" | None => "SAFE_DEFAULT" end));
                           ("version_id", jopt_str (cv_id <$> policy_version));
                           ("payload_hash", JStr policy_hash)]);
     ("source_refs", JList [JStr (ms_id market_snapshot); JStr (p_id position)]);
     ("state", JStr (position_state_text (p_state position))); ("version", JInt (p_version position))]).

(** ** The input of a decision *)

(** [_decimal] of this module: no rounding. *)
Definition _decimal (value : option decimal) : json :=
  match value with Some d => JStr (plain_text d) | None => JNull end.

Definition canonical_input_json (payload : json) : string := dumps payload.
Definition input_digest (input_json : string) : string := sha256 input_json.

Definition indicator_of_snapshot (db : DB) (snapshot_id : string) : option IndicatorSnapshot :=
  find_row (fun i => String.eqb (is_market_snapshot_id i) snapshot_id) (indicators db).

Definition indicator_status (indicator : option IndicatorSnapshot) : string :=
  match indicator with
  | None => "MISSING"
  | Some i => if String.eqb (is_calculator_version i) CALCULATOR_VERSION then "READY"
              else "VERSION_MISMATCH"
  end.

Definition indicator_metrics (i : IndicatorSnapshot) : list (string * json) :=
  [("vwap", _decimal (Some (is_vwap i))); ("sma5", _decimal (is_sma5 i));
   ("session_high", _decimal (Some (is_session_high i)));
   ("drawdown_from_high_pct", _decimal (Some (is_drawdown_from_high_pct i)));
   ("spread_pct", _decimal (is_spread_pct i)); ("price_vs_vwap_pct", _decimal (is_price_vs_vwap_pct i));
   ("sma5_slope_pct", _decimal (is_sma5_slope_pct i));
   ("relative_volume_5", _decimal (is_relative_volume_5 i));
   ("realized_volatility_pct", _decimal (is_realized_volatility_pct i));
   ("minute_bar_count", JInt (is_minute_bar_count i));
   ("input_start_at", JStr (iso_datetime (is_input_start_at i)));
   ("input_end_at", JStr (iso_datetime (is_input_end_at i)))].

Definition indicators_json (indicator : option IndicatorSnapshot) : json :=
  JObj ([("status", JStr (indicator_status indicator)); ("snapshot_id", jopt_str (is_id <$> indicator));
         ("calculator_version", jopt_str (is_calculator_version <$> indicator))] ++
        match indicator with
        | Some i => if String.eqb (indicator_status indicator) "READY" then indicator_metrics i else []
        | None => []
        end).

Definition quote_json (s : MarketSnapshot) : json :=
  JObj [("last_price", _decimal (Some (ms_last_price s))); ("open_price", _decimal (Some (ms_open_price s)));
        ("high_price", _decimal (Some (ms_high_price s))); ("low_price", _decimal (Some (ms_low_price s)));
        ("cumulative_volume", JInt (ms_cumulative_volume s));
        ("best_bid_price", _decimal (ms_best_bid_price s));
        ("best_bid_quantity", jopt_int (ms_best_bid_quantity s));
        ("best_ask_price", _decimal (ms_best_ask_price s));
        ("best_ask_quantity", jopt_int (ms_best_ask_quantity s));
        ("event_at", JStr (iso_datetime (ms_event_at s)));
        ("received_at", JStr (iso_datetime (ms_received_at s)))].

(** [f"{max(age, 0):.3f}"] *)
Definition age_text (observed_at received_at : Z) : string :=
  plain_text (float_fixed3 (total_seconds (observed_at - received_at))).

Definition data_quality_json (state : MarketStreamState) (snapshot : MarketSnapshot) (observed_at : Z) :
  json :=
  JObj [("stream", JStr (quality_text (mss_quality state)));
        ("snapshot", JStr (quality_text (ms_quality snapshot)));
        ("age_seconds", JStr (age_text observed_at (ms_received_at snapshot)))].

Definition input_payload (purpose : string) (snapshot : MarketSnapshot) (state : MarketStreamState)
  (observed_at quote_stale_seconds : Z) (position_snapshot : json)
  (indicator : option IndicatorSnapshot) : json :=
  JObj [("schema_version", JStr INPUT_SCHEMA_VERSION); ("purpose", JStr purpose);
        ("snapshot_id", JStr (ms_id snapshot)); ("symbol", JStr (ms_symbol snapshot));
        ("market", JStr (ms_market snapshot)); ("observed_at", JStr (iso_datetime observed_at));
        ("data_quality", data_quality_json state snapshot observed_at);
        ("session_state", JStr (ms_trading_status snapshot)); ("quote", quote_json snapshot);
        ("indicators", indicators_json indicator); ("position", position_snapshot);
        ("open_orders", JList []); ("account_risk_summary", JNull); ("market_context", JNull);
        ("strategy", JObj [("score_policy_version", JStr "mock-score-v2");
                           ("quote_stale_seconds", JInt quote_stale_seconds)]);
        ("configuration_version", JNull); ("prior_decision_summary", JNull)].

Definition same_input (user_id purpose snapshot_id digest : string) (r : DecisionInputSnapshot) : bool :=
  String.eqb (di_user_id r) user_id && String.eqb (di_purpose r) purpose &&
  String.eqb (di_market_snapshot_id r) snapshot_id && String.eqb (di_input_hash r) digest.

Definition put_decision_input (r : DecisionInputSnapshot) (db : DB) : DB :=
  set_decision_inputs db (<[di_id r := r]> (decision_inputs db)).

Definition build_decision_input (user_id purpose : string) (snapshot : MarketSnapshot)
  (state : MarketStreamState) (observed_at quote_stale_seconds : Z) (position_snapshot : json) :
  prog (DecisionInputSnapshot * json) :=
  indicator ← gets (fun db => indicator_of_snapshot db (ms_id snapshot));
  let payload := input_payload purpose snapshot state observed_at quote_stale_seconds
                   position_snapshot indicator in
  let encoded := canonical_input_json payload in
  let digest := input_digest encoded in
  existing ← gets (fun db => find_row (same_input user_id purpose (ms_id snapshot) digest)
                               (decision_inputs db));
  match existing with
  | Some r =>
      guard_or (String.eqb (canonical_input_json (di_input r)) encoded) ValueError ;;
      mret (r, payload)
  | None =>
      id ← uuid7;
      let r := mkDecisionInputSnapshot id user_id purpose INPUT_SCHEMA_VERSION (ms_market snapshot)
        (ms_symbol snapshot) (ms_id snapshot) (is_id <$> indicator) observed_at
        (if bool_decide (mss_quality state = Q_NORMAL) && bool_decide (ms_quality snapshot = Q_NORMAL)
         then "NORMAL" else "DEGRADED") (ms_trading_status snapshot) payload digest in
      known ← gets (fun db => bool_decide (is_Some (decision_inputs db !! id)));
      guard_or (negb known) IntegrityError ;;
      modify (put_decision_input r) ;;
      mret (r, payload)
  end.
End Inputs.
