(* ===== verification/MockDecision.v ===== *)
(** * The deterministic decision provider

    [mock_ai.py]: the entry and the position policy, which score the decision
    input and choose an action, and the creation of the decision row.  The
    policies read the JSON input back; a text that is no finite number, which
    no input holds, counts as an invalid decimal. *)

From Stdlib Require Import ZArith Lia Ascii String.
From stdpp Require Import base numbers strings list gmap.
From S2P Require Import Prelude Decimal Json PyTime Models Session DecimalText PyText.
From S2P Require Import Guards Scheduling DecisionInputs.

Open Scope Z_scope.

Definition TRADING_STATES : list string := ["TRADING"; "OPEN"; "NORMAL"; "CONTINUOUS"].

(** The two outputs of a decision; [so_reason_codes] and [co_reason_codes] are
    one list in the code. *)
Record ScoutOutput := mkScoutOutput {
  so_trend_state : string;
  so_volume_state : string;
  so_volatility_state : string;
  so_entry_score : Z;
  so_exit_risk_score : Z;
  so_core_review_required : bool;
  so_suggested_review : string;
  so_reason_codes : list string
}.

Record CoreOutput := mkCoreOutput {
  co_action : Action;
  co_confidence : decimal;
  co_risk_level : string;
  co_sell_ratio : option decimal;
  co_reason_codes : list string
}.

Definition codes_json (codes : list string) : json := JList (map JStr codes).

Definition scout_json (s : ScoutOutput) : json :=
  JObj [("trend_state", JStr (so_trend_state s)); ("volume_state", JStr (so_volume_state s));
        ("volatility_state", JStr (so_volatility_state s)); ("entry_score", JInt (so_entry_score s));
        ("exit_risk_score", JInt (so_exit_risk_score s));
        ("core_review_required", JBool (so_core_review_required s));
        ("suggested_review", JStr (so_suggested_review s));
        ("reason_codes", codes_json (so_reason_codes s))].

Definition core_json (c : CoreOutput) : json :=
  JObj [("action", JStr (action_text (co_action c))); ("confidence", JStr (str_text (co_confidence c)));
        ("risk_level", JStr (co_risk_level c)); ("sell_ratio", jopt_dec (co_sell_ratio c));
        ("reason_codes", codes_json (co_reason_codes c))].

(** ** Reading the input *)

(** [d[key]] *)
Definition item (key : string) (d : json) : exn + json :=
  match jget key d with Some v => inr v | None => inl KeyError end.

(** [Decimal(str(value))] *)
Definition number (v : json) : exn + decimal :=
  match decimal_of_text (py_str v) with Some (Finite d) => inr d | _ => inl InvalidOperation end.

Definition is_text (text : string) (v : json) : bool :=
  match v with JStr s => String.eqb s text | _ => false end.


(** [metric(name)] *)
Definition metric (indicators : json) (name : string) : exn + option decimal :=
  match get_field name indicators with
  | JNull => inr None
  | v => d ← number v; mret (Some d)
  end.

Record Metrics := mkMetrics {
  price_vs_vwap : option decimal;
  sma5_slope : option decimal;
  relative_volume : option decimal;
  volatility : option decimal;
  drawdown : option decimal;
  spread : option decimal
}.

Definition read_metrics (indicators : json) : exn + Metrics :=
  price_vs_vwap ← metric indicators "price_vs_vwap_pct";
  sma5_slope ← metric indicators "sma5_slope_pct";
  relative_volume ← metric indicators "relative_volume_5";
  volatility ← metric indicators "realized_volatility_pct";
  drawdown ← metric indicators "drawdown_from_high_pct";
  spread ← metric indicators "spread_pct";
  mret (mkMetrics price_vs_vwap sma5_slope relative_volume volatility drawdown spread).

(** A metric compared with a threshold; false when it is missing. *)
Definition at_least (k : decimal) (m : option decimal) : bool :=
  match m with Some d => dleb k d | None => false end.
Definition above (k : decimal) (m : option decimal) : bool :=
  match m with Some d => dltb k d | None => false end.
Definition at_most (k : decimal) (m : option decimal) : bool :=
  match m with Some d => dleb d k | None => false end.
Definition below (k : decimal) (m : option decimal) : bool :=
  match m with Some d => dltb d k | None => false end.

(** The score and the reasons collected so far. *)
Definition Tally : Type := Z * list string.
Definition tally (points : Z) (code : string) (t : Tally) : Tally := (t.1 + points, t.2 ++ [code]).
Definition points (n : Z) (t : Tally) : Tally := (t.1 + n, t.2).
Definition reason (code : string) (t : Tally) : Tally := (t.1, t.2 ++ [code]).

Definition VOLUME_HIGH : decimal := Dec 12 (-1).
Definition VOLUME_LOW : decimal := Dec 8 (-1).
Definition VOLATILITY_EXTREME : decimal := Dec 30 (-1).
Definition VOLATILITY_EXPANDING : decimal := Dec 15 (-1).
Definition SLOPE_UP : decimal := Dec 5 (-2).
Definition SLOPE_DOWN : decimal := Dec (-5) (-2).
Definition SPREAD_LIMIT : decimal := Dec 5 (-1).

Definition clamp (n : Z) : Z := Z.min (Z.max n 0) 100.

Definition volatility_state (m : Metrics) : string :=
  match volatility m with
  | None => "UNKNOWN"
  | Some _ => if at_least VOLATILITY_EXTREME (volatility m) then "EXTREME"
              else if at_least VOLATILITY_EXPANDING (volatility m) then "EXPANDING" else "NORMAL"
  end.

(** The data is ready for either policy: normal and fresh quotes in a trading
    state, with current indicators. *)
Definition market_ready (decision_input quality indicators strategy : json) : exn + bool :=
  stream ← item "stream" quality;
  if negb (is_text "NORMAL" stream) then inr false else
  snapshot ← item "snapshot" quality;
  if negb (is_text "NORMAL" snapshot) then inr false else
  age ← item "age_seconds" quality;
  age ← number age;
  stale ← item "quote_stale_seconds" strategy;
  stale ← number stale;
  if negb (dleb age stale) then inr false else
  session_state ← item "session_state" decision_input;
  if negb (existsb (fun st => is_text st session_state) TRADING_STATES) then inr false else
  status ← item "status" indicators;
  inr (is_text "READY" status).

(** ** The entry policy *)

Definition blocked_entry : ScoutOutput * CoreOutput :=
  (mkScoutOutput "UNKNOWN" "UNKNOWN" "UNKNOWN" 0 100 true "ENTRY" ["DATA_INSUFFICIENT"],
   mkCoreOutput ACT_RISK_BLOCK (Dec 10 (-1)) "HIGH" None ["DATA_INSUFFICIENT"]).

Definition entry_tally (m : Metrics) : Tally :=
  let t := (50, []) in
  let t := if at_least dzero (price_vs_vwap m) then tally 15 "ABOVE_VWAP" t
           else tally (-15) "BELOW_VWAP" t in
  let t := if above SLOPE_UP (sma5_slope m) then tally 10 "BREAKOUT_CONFIRMED" t
           else if below SLOPE_DOWN (sma5_slope m) then tally (-10) "BREAKDOWN_DETECTED" t else t in
  let t := if at_least VOLUME_HIGH (relative_volume m) then tally 10 "VOLUME_STRENGTHENING" t
           else if at_most VOLUME_LOW (relative_volume m) then tally (-10) "VOLUME_WEAKENING" t
           else t in
  let t := if at_most (Dec (-10) (-1)) (drawdown m) then tally (-15) "DRAWDOWN_FROM_HIGH" t else t in
  let t := if at_least VOLATILITY_EXTREME (volatility m) then reason "VOLATILITY_EXPANDING" t
           else if at_least VOLATILITY_EXPANDING (volatility m)
           then tally (-10) "VOLATILITY_EXPANDING" t else t in
  if above SPREAD_LIMIT (spread m) then reason "SPREAD_WIDE" t else t.

Definition volume_state (m : Metrics) : string :=
  if at_least VOLUME_HIGH (relative_volume m) then "STRENGTHENING"
  else if at_most VOLUME_LOW (relative_volume m) then "WEAKENING"
  else match relative_volume m with Some _ => "NORMAL" | None => "UNKNOWN" end.

Definition hard_block (m : Metrics) : bool :=
  above SPREAD_LIMIT (spread m) || String.eqb (volatility_state m) "EXTREME".

Definition entry_action (m : Metrics) (score : Z) : Action * decimal :=
  if hard_block m then (ACT_RISK_BLOCK, Dec 10 (-1))
  else if 70 <=? score then (ACT_BUY, Dec 75 (-2))
  else if 45 <=? score then (ACT_WAIT, Dec 60 (-2))
  else (ACT_REJECT, Dec 70 (-2)).

Definition entry_trend (m : Metrics) : string :=
  if at_least dzero (price_vs_vwap m) &&
     match sma5_slope m with None => true | Some d => dleb dzero d end then "UPTREND"
  else if at_least dzero (price_vs_vwap m) then "UPTREND_WEAKENING"
  else if below dzero (sma5_slope m) then "DOWNTREND" else "RANGE".

Definition entry_risk_level (a : Action) : string :=
  match a with ACT_RISK_BLOCK => "HIGH" | ACT_BUY | ACT_REJECT => "MEDIUM" | _ => "LOW" end.

Definition entry_outputs (m : Metrics) : ScoutOutput * CoreOutput :=
  let '(score, reasons) := entry_tally m in
  let score := clamp score in
  let '(action, confidence) := entry_action m score in
  (mkScoutOutput (entry_trend m) (volume_state m) (volatility_state m) score (Z.max 0 (100 - score))
     true "ENTRY" reasons,
   mkCoreOutput action confidence (entry_risk_level action) None reasons).

Definition _outputs (decision_input : json) : exn + (ScoutOutput * CoreOutput) :=
  quality ← item "data_quality" decision_input;
  indicators ← item "indicators" decision_input;
  strategy ← item "strategy" decision_input;
  reject_if (negb (is_dict quality && is_dict indicators && is_dict strategy)) AssertionError ;;
  age ← item "age_seconds" quality;
  number age ;;
  data_ready ← market_ready decision_input quality indicators strategy;
  if negb data_ready then inr blocked_entry
  else m ← read_metrics indicators; mret (entry_outputs m).

(** ** The position policy *)

Record PositionMetrics := mkPositionMetrics {
  unrealized_return : decimal;
  distance_to_stop : decimal;
  session_drawdown : decimal;
  pm_market : Metrics
}.

(** The figures of the position are current and positive. *)
Definition position_ready (position : json) : exn + bool :=
  if negb (is_dict position && is_text "OPEN_POSITION" (get_field "marker" position) &&
           is_text "OPEN" (get_field "state" position) &&
           is_dict (get_field "freshness" position) &&
           is_text "FRESH" (get_field "status" (get_field "freshness" position))) then inr false
  else
    average_price ← number (get_or (JInt 0) "average_price" position);
    if negb (dltb dzero average_price) then inr false else
    current_price ← number (get_or (JInt 0) "current_price" position);
    inr (dltb dzero current_price).

Definition held_without_data : ScoutOutput * CoreOutput :=
  (mkScoutOutput "UNKNOWN" "UNKNOWN" "UNKNOWN" 0 100 true "HOLDING" ["DATA_INSUFFICIENT"],
   mkCoreOutput ACT_HOLD (Dec 10 (-1)) "HIGH" None ["DATA_INSUFFICIENT"]).

Definition position_tally (p : PositionMetrics) : Tally :=
  let m := pm_market p in
  let t := (15, []) in
  let t := if dltb (unrealized_return p) dzero then tally 10 "POSITION_LOSING" t
           else reason "POSITION_PROFITABLE" t in
  let t := if dleb (distance_to_stop p) dzero then (100, t.2 ++ ["FIXED_STOP_TRIGGERED"])
           else if dleb (distance_to_stop p) (Dec 5 (-1)) then tally 35 "FIXED_STOP_NEAR" t else t in
  let t := if below dzero (price_vs_vwap m) then tally 15 "BELOW_VWAP" t else t in
  let t := if below SLOPE_DOWN (sma5_slope m) then tally 15 "BREAKDOWN_DETECTED" t else t in
  let t := if dleb (session_drawdown p) (Dec (-20) (-1)) then tally 25 "DRAWDOWN_HIGH" t
           else if dleb (session_drawdown p) (Dec (-10) (-1)) then tally 15 "DRAWDOWN_MODERATE" t
           else reason "DRAWDOWN_LOW" t in
  let t := if at_most VOLUME_LOW (relative_volume m) then tally 5 "VOLUME_WEAKENING" t else t in
  if at_least VOLATILITY_EXTREME (volatility m) then tally 20 "VOLATILITY_EXPANDING" t
  else if at_least VOLATILITY_EXPANDING (volatility m) then tally 10 "VOLATILITY_EXPANDING" t
  else t.

Definition position_trend (m : Metrics) : string :=
  if below SLOPE_DOWN (sma5_slope m) then "DOWNTREND"
  else if at_least dzero (price_vs_vwap m) then "UPTREND" else "RANGE".

(** [relative_volume] is tested for weakness first here. *)
Definition position_volume_state (m : Metrics) : string :=
  if at_most VOLUME_LOW (relative_volume m) then "WEAKENING"
  else if at_least VOLUME_HIGH (relative_volume m) then "STRENGTHENING"
  else match relative_volume m with Some _ => "NORMAL" | None => "UNKNOWN" end.

(** The decision at a score, with its last reason code, over the reasons. *)
Definition position_verdict (score : Z) : (list string -> CoreOutput) * string :=
  if 90 <=? score
  then (mkCoreOutput ACT_FULL_SELL (Dec 85 (-2)) "HIGH" None, "POSITION_RISK_CRITICAL")
  else if 70 <=? score
  then (mkCoreOutput ACT_PARTIAL_SELL (Dec 75 (-2)) "HIGH" (Some (Dec 5 (-1))),
        "POSITION_RISK_ELEVATED")
  else (mkCoreOutput ACT_HOLD (Dec 70 (-2)) (if score <? 45 then "LOW" else "MEDIUM") None,
        "POSITION_RISK_NORMAL").

Definition position_outputs (p : PositionMetrics) : ScoutOutput * CoreOutput :=
  let m := pm_market p in
  let '(score, reasons) := position_tally p in
  let score := clamp score in
  let reasons := reasons ++ [(position_verdict score).2] in
  let core := (position_verdict score).1 reasons in
  (mkScoutOutput (position_trend m) (position_volume_state m) (volatility_state m) 0 score
     (negb (bool_decide (co_action core = ACT_HOLD))) "HOLDING" reasons, core).

Definition read_position_metrics (position indicators : json) : exn + PositionMetrics :=
  unrealized_return ← item "unrealized_return_pct" position;
  unrealized_return ← number unrealized_return;
  distance ← item "distance_to_fixed_stop_pct" position;
  distance ← number distance;
  session_drawdown ← item "drawdown_from_session_high_pct" position;
  session_drawdown ← number session_drawdown;
  price_vs_vwap ← metric indicators "price_vs_vwap_pct";
  sma5_slope ← metric indicators "sma5_slope_pct";
  relative_volume ← metric indicators "relative_volume_5";
  volatility ← metric indicators "realized_volatility_pct";
  mret (mkPositionMetrics unrealized_return distance session_drawdown
          (mkMetrics price_vs_vwap sma5_slope relative_volume volatility None None)).

Definition _position_outputs (decision_input : json) : exn + (ScoutOutput * CoreOutput) :=
  quality ← item "data_quality" decision_input;
  indicators ← item "indicators" decision_input;
  strategy ← item "strategy" decision_input;
  let position := get_field "position" decision_input in
  reject_if (negb (is_dict quality && is_dict indicators && is_dict strategy)) AssertionError ;;
  held ← position_ready position;
  data_ready ← (if held : bool then market_ready decision_input quality indicators strategy else inr false);
  if negb data_ready then inr held_without_data
  else p ← read_position_metrics position indicators; mret (position_outputs p).

(** ** The decision row *)

Section Create.
Context (sha256 : string -> string) (created_at updated_at : Position -> Z).

Definition decision_by_request (db : DB) (evaluation_request_id : string) : option Decision :=
  find_row (fun d => String.eqb (d_evaluation_request_id d) evaluation_request_id) (decisions db).

(** The stream of the instrument and its current snapshot. *)
Definition current_quote (symbol market : string) : prog (MarketStreamState * MarketSnapshot) :=
  state ← gets (fun db => streams db !! (market, symbol));
  match state with
  | Some state =>
      match mss_current_snapshot_id state with
      | Some snapshot_id =>
          snapshot ← gets (fun db => snapshots db !! snapshot_id);
          match snapshot with
          | Some snapshot => mret (state, snapshot)
          | None => raise (MockDecisionError "DECISION_SNAPSHOT_NOT_FOUND" 404)
          end
      | None => raise (MockDecisionError "DECISION_SNAPSHOT_NOT_FOUND" 404)
      end
  | None => raise (MockDecisionError "DECISION_SNAPSHOT_NOT_FOUND" 404)
  end.

Definition position_input (user_id decision_kind : string) (position : option Position)
  (snapshot : MarketSnapshot) (settings : Settings) : prog json :=
  match position with
  | Some position =>
      if String.eqb decision_kind "POSITION" then
        user ← gets (fun db => users db !! user_id);
        match user with
        | None => raise (MockDecisionError "DECISION_USER_NOT_FOUND" 404)
        | Some user =>
            input ← gets (fun db => build_position_snapshot sha256 created_at updated_at db user
                                      position snapshot settings);
            of_result input
        end
      else mret JNull
  | None => mret JNull
  end.

Definition new_decision (id input_id purpose evaluation_request_id symbol market decision_kind : string)
  (snapshot : MarketSnapshot) (scout : ScoutOutput) (core : CoreOutput) (current : Z) : Decision :=
  let of_position := String.eqb decision_kind "POSITION" in
  mkDecision id (Some input_id) purpose evaluation_request_id (ms_id snapshot) symbol market
    decision_kind "CRESTA" (if of_position then POSITION_MODEL_ID else MODEL_ID)
    (if of_position then POSITION_PROMPT_VERSION else PROMPT_VERSION) "1.0" (scout_json scout)
    (core_json core) (co_action core) (co_confidence core) (co_risk_level core)
    (codes_json (co_reason_codes core)) (current + (if of_position then 5 else 1) * minute) None 0.

Definition put_decision (d : Decision) (db : DB) : DB :=
  set_decisions db (<[d_id d := d]> (decisions db)).

Definition create_mock_decision (user_id evaluation_request_id symbol market : string)
  (settings : Settings) (purpose decision_kind : string) (position : option Position)
  (now : option Z) : prog (Decision * bool) :=
  existing ← gets (fun db => decision_by_request db evaluation_request_id);
  match existing with
  | Some d =>
      guard_or (String.eqb (d_symbol d) symbol && String.eqb (d_market d) market &&
                String.eqb (d_purpose d) purpose && String.eqb (d_decision_kind d) decision_kind)
        (MockDecisionError "DECISION_IDEMPOTENCY_CONFLICT" 409) ;;
      mret (d, false)
  | None =>
      quote ← current_quote symbol market;
      let '(state, snapshot) := quote in
      current ← (match now with Some t => mret t | None => utcnow end);
      position_input ← position_input user_id decision_kind position snapshot settings;
      input ← build_decision_input sha256 user_id purpose snapshot state current
                (settings_quote_stale_seconds settings) position_input;
      let '(decision_input, payload) := input in
      outputs ← of_result (if String.eqb decision_kind "POSITION" then _position_outputs payload
                           else _outputs payload);
      let '(scout, core) := outputs in
      id ← uuid7;
      known ← gets (fun db => bool_decide (is_Some (decisions db !! id)));
      guard_or (negb known) IntegrityError ;;
      let d := new_decision id (di_id decision_input) purpose evaluation_request_id symbol market
                 decision_kind snapshot scout core current in
      modify (put_decision d) ;;
      mret (d, true)
  end.

Definition create_mock_trading_decision (user : User) (evaluation_request_id symbol market : string)
  (settings : Settings) (now : option Z) : prog (Decision * bool) :=
  create_mock_decision (u_id user) evaluation_request_id symbol market settings "TRADING" "ENTRY" None now.

Definition create_mock_position_trading_decision (user : User) (position : Position)
  (evaluation_request_id symbol market : string) (settings : Settings) (now : option Z) :
  prog (Decision * bool) :=
  create_mock_decision (u_id user) evaluation_request_id symbol market settings "TRADING" "POSITION"
    (Some position) now.

(** A diagnostic decision is committed at once. *)
Definition evaluate_mock_decision (user : User) (evaluation_request_id symbol market : string)
  (settings : Settings) (now : option Z) : prog Decision :=
  result ← create_mock_decision (u_id user) evaluation_request_id symbol market settings "DIAGNOSTIC"
             "ENTRY" None now;
  let '(d, created) := result in
  (if created : bool then commit else mret tt) ;;
  mret d.
End Create.
