(* ===== verification/MockProps.v ===== *)
(** * What the deterministic provider decides

    The policies read from the JSON input exactly the numbers that were stored
    in it, so their decisions are functions of the rows; a price at the fixed
    stop always sells, and a decision without current data never trades. *)

Set Warnings "-register-all".

From Stdlib Require Import ZArith Lia Ascii String.
From stdpp Require Import base numbers strings list gmap pretty.
From S2P Require Import Prelude Decimal Json PyTime Models Session DecimalText PyText DecisionInputs.
From S2P Require Import Policies MarketWatch Guards Scheduling DecisionInputs MockDecision Fixtures.

Open Scope Z_scope.

(** ** Numbers survive the JSON text *)

(** The scale of a numeric column: at most six decimals. *)
Definition column_scale (d : decimal) : Prop := -6 <= expo d <= 0.
Definition column_scales (d : option decimal) : Prop :=
  match d with Some d => column_scale d | None => True end.

Lemma plain_text_str d : column_scale d -> plain_text d = str_text d.
Proof.
  intros [H1 H2]. unfold str_text. pose proof (digits_text_spec (coef d)) as (_ & _ & Hl).
  set (ds := digits_text (coef d)) in *.
  assert (0 < Z.of_nat (String.length ds)) by (destruct ds; [done|cbn [String.length]; lia]).
  destruct (Z.leb_spec (expo d) 0); [|lia].
  destruct (Z.ltb_spec (-6) (expo d + Z.of_nat (String.length ds))); [done|lia].
Qed.

Lemma number_plain d : column_scale d -> number (JStr (plain_text d)) = inr d.
Proof.
  intros H. unfold number. cbn [py_str]. rewrite plain_text_str by done.
  rewrite decimal_text_roundtrip; [done|]. unfold column_scale in H. unfold MAX_EMAX. lia.
Qed.

Lemma number_int n : 0 <= n -> number (JInt n) = inr (of_int n).
Proof.
  intros Hn. rewrite <- (number_plain (of_int n)) by (unfold column_scale; cbn; lia).
  unfold number. cbn [py_str]. f_equal. f_equal. unfold plain_text, of_int. cbn [coef expo Z.leb Z.compare].
  unfold sign_text. destruct (Z.ltb_spec n 0); [lia|].
  destruct (Z.eqb_spec n 0) as [->|]; [done|].
  unfold digits_text. rewrite Z.abs_eq by done. by rewrite app_empty.
Qed.

Lemma metric_decimal fields name d : column_scales d ->
  jget name (JObj fields) = Some (_decimal d) -> metric (JObj fields) name = inr d.
Proof.
  intros H E. unfold metric, get_field, get_or. rewrite E.
  destruct d as [d|]; [|done]. unfold _decimal.
  transitivity (d' ← number (JStr (plain_text d)); (mret (Some d') : exn + option decimal)); [done|].
  by rewrite (number_plain d H).
Qed.

(** ** The rows a policy decides on *)

Record indicator_scaled (i : IndicatorSnapshot) : Prop := mkIndicatorScaled {
  sc_price : column_scales (is_price_vs_vwap_pct i);
  sc_slope : column_scales (is_sma5_slope_pct i);
  sc_volume : column_scales (is_relative_volume_5 i);
  sc_volatility : column_scales (is_realized_volatility_pct i);
  sc_drawdown : column_scale (is_drawdown_from_high_pct i);
  sc_spread : column_scales (is_spread_pct i)
}.

Definition indicators_scaled (i : option IndicatorSnapshot) : Prop :=
  match i with Some i => indicator_scaled i | None => True end.

Definition metrics_of (i : IndicatorSnapshot) : Metrics :=
  mkMetrics (is_price_vs_vwap_pct i) (is_sma5_slope_pct i) (is_relative_volume_5 i)
    (is_realized_volatility_pct i) (Some (is_drawdown_from_high_pct i)) (is_spread_pct i).

(** The printed age of a quote, in milliseconds. *)
Definition age_ms (observed_at received_at : Z) : Z :=
  coef (float_fixed3 (total_seconds (observed_at - received_at))).

(** The current indicators of a market that is ready, if it is. *)
Definition ready_indicator (state : MarketStreamState) (snapshot : MarketSnapshot)
  (observed_at stale : Z) (indicator : option IndicatorSnapshot) : option IndicatorSnapshot :=
  if bool_decide (mss_quality state = Q_NORMAL) && bool_decide (ms_quality snapshot = Q_NORMAL) &&
     (age_ms observed_at (ms_received_at snapshot) <=? 1000 * stale) &&
     existsb (fun st => String.eqb (ms_trading_status snapshot) st) TRADING_STATES &&
     String.eqb (indicator_status indicator) "READY"
  then indicator else None.

Lemma quality_is_normal q : is_text "NORMAL" (JStr (quality_text q)) = bool_decide (q = Q_NORMAL).
Proof. by destruct q. Qed.

Lemma age_number a b : number (JStr (age_text a b)) = inr (Dec (age_ms a b) (-3)).
Proof. unfold age_text. rewrite number_plain by (unfold column_scale; cbn; lia). done. Qed.

Lemma age_compared n stale : dleb (Dec n (-3)) (of_int stale) = (n <=? 1000 * stale).
Proof.
  rewrite (dleb_scaled (-3)) by (cbn; lia). unfold scaled, of_int. cbn [coef expo].
  change (pow10 (-3 - -3)) with 1. change (pow10 (0 - -3)) with 1000.
  by rewrite Z.mul_1_r, Z.mul_comm.
Qed.

Lemma indicators_json_ready indicator i : indicator = Some i -> indicator_status (Some i) = "READY" ->
  indicators_json indicator = JObj (("status", JStr "READY") :: ("snapshot_id", JStr (is_id i)) ::
    ("calculator_version", JStr (is_calculator_version i)) :: indicator_metrics i).
Proof. intros -> E. unfold indicators_json. rewrite E. done. Qed.

Lemma ready_indicator_Some state snapshot observed_at stale indicator i :
  ready_indicator state snapshot observed_at stale indicator = Some i ->
  indicator = Some i /\ indicator_status (Some i) = "READY".
Proof.
  unfold ready_indicator. intros H. case_match eqn:E; [|done]. subst indicator.
  apply andb_true_iff in E as [_ E]. by apply String.eqb_eq in E.
Qed.

Section Reading.
Context (purpose : string) (snapshot : MarketSnapshot) (state : MarketStreamState)
  (observed_at stale : Z) (position : json) (indicator : option IndicatorSnapshot).
Hypothesis Hstale : 0 <= stale.
Hypothesis Hscale : indicators_scaled indicator.

Let payload : json := input_payload purpose snapshot state observed_at stale position indicator.

Lemma market_ready_spec : market_ready payload (data_quality_json state snapshot observed_at)
    (indicators_json indicator)
    (JObj [("score_policy_version", JStr "mock-score-v2"); ("quote_stale_seconds", JInt stale)]) =
  inr (bool_decide (is_Some (ready_indicator state snapshot observed_at stale indicator))).
Proof.
  unfold market_ready, ready_indicator.
  change (item "stream" (data_quality_json state snapshot observed_at))
    with (inr (JStr (quality_text (mss_quality state))) : exn + json).
  change (item "snapshot" (data_quality_json state snapshot observed_at))
    with (inr (JStr (quality_text (ms_quality snapshot))) : exn + json).
  change (item "age_seconds" (data_quality_json state snapshot observed_at))
    with (inr (JStr (age_text observed_at (ms_received_at snapshot))) : exn + json).
  change (item "session_state" payload) with (inr (JStr (ms_trading_status snapshot)) : exn + json).
  change (item "status" (indicators_json indicator))
    with (inr (JStr (indicator_status indicator)) : exn + json).
  match goal with |- context [item "quote_stale_seconds" ?d] =>
    change (item "quote_stale_seconds" d) with (inr (JInt stale) : exn + json) end.
  cbv [mbind result_bind]. rewrite !quality_is_normal, age_number, number_int, age_compared by done.
  change (is_text "READY" (JStr (indicator_status indicator)))
    with (String.eqb (indicator_status indicator) "READY").
  destruct (bool_decide (mss_quality state = Q_NORMAL)); [|done].
  destruct (bool_decide (ms_quality snapshot = Q_NORMAL)); [|done].
  destruct (_ <=? _); [|done].
  change (existsb (fun st => is_text st (JStr (ms_trading_status snapshot))) TRADING_STATES)
    with (existsb (fun st => String.eqb (ms_trading_status snapshot) st) TRADING_STATES).
  destruct (existsb _ _); [|done]. cbn [andb negb].
  destruct (String.eqb_spec (indicator_status indicator) "READY") as [E|E]; [|done].
  by destruct indicator.
Qed.

Lemma read_metrics_ready i : indicator = Some i -> indicator_status (Some i) = "READY" ->
  read_metrics (indicators_json indicator) = inr (metrics_of i).
Proof.
  intros E Hr. rewrite (indicators_json_ready _ i E Hr). rewrite E in Hscale.
  destruct Hscale as [H1 H2 H3 H4 H5 H6]. unfold read_metrics.
  rewrite (metric_decimal _ "price_vs_vwap_pct" (is_price_vs_vwap_pct i)) by done.
  rewrite (metric_decimal _ "sma5_slope_pct" (is_sma5_slope_pct i)) by done.
  rewrite (metric_decimal _ "relative_volume_5" (is_relative_volume_5 i)) by done.
  rewrite (metric_decimal _ "realized_volatility_pct" (is_realized_volatility_pct i)) by done.
  rewrite (metric_decimal _ "drawdown_from_high_pct" (Some (is_drawdown_from_high_pct i))) by done.
  rewrite (metric_decimal _ "spread_pct" (is_spread_pct i)) by done.
  done.
Qed.

(** The entry policy decides on the rows. *)
Lemma outputs_spec : _outputs payload =
  inr (match ready_indicator state snapshot observed_at stale indicator with
       | Some i => entry_outputs (metrics_of i)
       | None => blocked_entry
       end).
Proof.
  unfold _outputs.
  change (item "data_quality" payload) with (inr (data_quality_json state snapshot observed_at) : exn + json).
  change (item "indicators" payload) with (inr (indicators_json indicator) : exn + json).
  match goal with |- context [item "strategy" payload] =>
    change (item "strategy" payload) with (inr (JObj [("score_policy_version", JStr "mock-score-v2");
      ("quote_stale_seconds", JInt stale)]) : exn + json) end.
  cbv [mbind result_bind]. change (reject_if _ AssertionError) with (inr tt : exn + unit).
  change (item "age_seconds" (data_quality_json state snapshot observed_at))
    with (inr (JStr (age_text observed_at (ms_received_at snapshot))) : exn + json).
  cbv beta iota. rewrite age_number, market_ready_spec.
  destruct (ready_indicator state snapshot observed_at stale indicator) as [i|] eqn:E; [|done].
  apply ready_indicator_Some in E as [Ei Hr]. 
  rewrite bool_decide_true by done. cbn [negb]. by rewrite (read_metrics_ready i Ei Hr).
Qed.
End Reading.

(** ** The figures of a position *)

Lemma fixed_inv k v j : fixed k v = inr j ->
  exists d, quantize ROUND_HALF_UP k v = Some d /\ j = JStr (plain_text d) /\ expo d = k.
Proof.
  unfold fixed. destruct (quantize ROUND_HALF_UP k v) as [d|] eqn:E; [|done]. intros [= <-].
  exists d. split; [done|split; [done|by eapply quantize_expo]].
Qed.

(** What [build_position_snapshot] computed: the policy, the stop price, and the
    printed figures the policy reads. *)
Record Figures := mkFigures {
  fg_policy : RiskPolicyPayload;
  fg_stop_price : decimal;
  fg_distance : decimal;
  fg_average : decimal;
  fg_price : decimal;
  fg_return_printed : decimal;
  fg_drawdown_printed : decimal;
  fg_distance_printed : decimal
}.

Section Position.
Context (sha256 : string -> string) (created_at updated_at : Position -> Z).
Context (db : DB) (user : User) (position : Position) (snapshot : MarketSnapshot) (settings : Settings).

Record figures_of (pj : json) (f : Figures) : Prop := mkFiguresOf {
  fo_policy : risk_policy_payload (active_risk_policy db (u_id user)) = inr (fg_policy f);
  fo_stop : fixed_stop_price (p_average_price position) (fixed_stop_loss_pct (fg_policy f)) =
            inr (fg_stop_price f);
  fo_distance : distance_to_stop_pct (ms_last_price snapshot) (fg_stop_price f) = inr (fg_distance f);
  fo_average : quantize ROUND_HALF_UP (-4) (p_average_price position) = Some (fg_average f);
  fo_price : quantize ROUND_HALF_UP (-4) (ms_last_price snapshot) = Some (fg_price f);
  fo_printed : quantize ROUND_HALF_UP (-6) (fg_distance f) = Some (fg_distance_printed f);
  fo_return_expo : expo (fg_return_printed f) = -6;
  fo_drawdown_expo : expo (fg_drawdown_printed f) = -6;
  fo_return_read : item "unrealized_return_pct" pj = inr (JStr (plain_text (fg_return_printed f)));
  fo_distance_read : item "distance_to_fixed_stop_pct" pj = inr (JStr (plain_text (fg_distance_printed f)));
  fo_drawdown_read : item "drawdown_from_session_high_pct" pj =
                     inr (JStr (plain_text (fg_drawdown_printed f)));
  fo_average_read : jget "average_price" pj = Some (JStr (plain_text (fg_average f)));
  fo_price_read : jget "current_price" pj = Some (JStr (plain_text (fg_price f)));
  fo_state_read : get_field "state" pj = JStr (position_state_text (p_state position));
  fo_marker_read : get_field "marker" pj = JStr "OPEN_POSITION";
  fo_fresh_read : get_field "freshness" pj = freshness updated_at position snapshot settings;
  fo_dict : is_dict pj = true
}.

Lemma build_position_figures pj :
  build_position_snapshot sha256 created_at updated_at db user position snapshot settings = inr pj ->
  exists f, figures_of pj f.
Proof.
  unfold build_position_snapshot. cbv zeta. intros H.
  apply result_bind_inr in H as (rp & Hrp & H).
  apply result_bind_inr in H as (ret & Hret & H).
  apply result_bind_inr in H as (dd & Hdd & H).
  apply result_bind_inr in H as (stop & Hstop & H).
  apply result_bind_inr in H as (dist & Hdist & H).
  apply result_bind_inr in H as (? & (avg & Havg & -> & _)%fixed_inv & H).
  apply result_bind_inr in H as (? & (price & Hprice & -> & _)%fixed_inv & H).
  apply result_bind_inr in H as (? & _ & H).
  apply result_bind_inr in H as (? & _ & H).
  apply result_bind_inr in H as (? & _ & H).
  apply result_bind_inr in H as (? & (ret' & _ & -> & Eret)%fixed_inv & H).
  apply result_bind_inr in H as (? & _ & H).
  apply result_bind_inr in H as (? & (dd' & _ & -> & Edd)%fixed_inv & H).
  apply result_bind_inr in H as (? & _ & H).
  apply result_bind_inr in H as (? & _ & H).
  apply result_bind_inr in H as (? & (dist' & Hdist' & -> & _)%fixed_inv & H).
  injection H as <-.
  exists (mkFigures rp stop dist avg price ret' dd' dist').
  constructor; done.
Qed.

Lemma freshness_fresh : is_text "FRESH" (get_field "status" (freshness updated_at position snapshot settings)) =
  (whole_seconds (updated_at position) (ms_event_at snapshot) <=? stale_threshold_seconds settings).
Proof.
  unfold freshness. cbv zeta.
  destruct (Z.ltb_spec (stale_threshold_seconds settings)
    (whole_seconds (updated_at position) (ms_event_at snapshot)));
    destruct (Z.leb_spec (whole_seconds (updated_at position) (ms_event_at snapshot))
      (stale_threshold_seconds settings)); try done; lia.
Qed.

(** The position is open, recently booked, and its prices are positive. *)
Definition held (f : Figures) : bool :=
  bool_decide (p_state position = POS_OPEN) &&
  (whole_seconds (updated_at position) (ms_event_at snapshot) <=? stale_threshold_seconds settings) &&
  dltb dzero (fg_average f) && dltb dzero (fg_price f).

Lemma position_ready_spec pj f : figures_of pj f -> position_ready pj = inr (held f).
Proof.
  intros F. destruct F. unfold position_ready.
  rewrite fo_dict0, fo_marker_read0, fo_state_read0, fo_fresh_read0, freshness_fresh.
  change (is_text "OPEN_POSITION" (JStr "OPEN_POSITION")) with true.
  change (is_dict (freshness updated_at position snapshot settings)) with true. unfold held.
  assert (is_text "OPEN" (JStr (position_state_text (p_state position))) =
          bool_decide (p_state position = POS_OPEN)) as -> by (by destruct (p_state position)).
  destruct (bool_decide (p_state position = POS_OPEN)); [|done].
  destruct (_ <=? _); [|done]. cbn [andb negb].
  unfold get_or. rewrite fo_average_read0, fo_price_read0.
  rewrite (number_plain (fg_average f)) by (pose proof (quantize_expo _ _ _ _ fo_average0); unfold column_scale; lia).
  cbv [mbind result_bind]. destruct (dltb dzero (fg_average f)); [|done]. cbn [negb andb].
  rewrite (number_plain (fg_price f)) by (pose proof (quantize_expo _ _ _ _ fo_price0); unfold column_scale; lia).
  done.
Qed.
End Position.

(** ** The position policy on the rows *)

Definition position_metrics (f : Figures) (i : IndicatorSnapshot) : PositionMetrics :=
  mkPositionMetrics (fg_return_printed f) (fg_distance_printed f) (fg_drawdown_printed f)
    (mkMetrics (is_price_vs_vwap_pct i) (is_sma5_slope_pct i) (is_relative_volume_5 i)
       (is_realized_volatility_pct i) None None).

Lemma read_position_metrics_ready updated_at db user position snapshot settings pj f indicator i :
  figures_of updated_at db user position snapshot settings pj f ->
  indicators_scaled indicator -> indicator = Some i -> indicator_status (Some i) = "READY" ->
  read_position_metrics pj (indicators_json indicator) = inr (position_metrics f i).
Proof.
  intros F Hscale E Hr. rewrite (indicators_json_ready _ i E Hr). rewrite E in Hscale.
  destruct Hscale as [H1 H2 H3 H4 _ _]. destruct F. unfold read_position_metrics.
  rewrite fo_return_read0, fo_distance_read0, fo_drawdown_read0. cbv [mbind result_bind].
  rewrite (number_plain (fg_return_printed f)) by (unfold column_scale; lia).
  rewrite (number_plain (fg_distance_printed f))
    by (pose proof (quantize_expo _ _ _ _ fo_printed0); unfold column_scale; lia).
  rewrite (number_plain (fg_drawdown_printed f)) by (unfold column_scale; lia).
  rewrite (metric_decimal _ "price_vs_vwap_pct" (is_price_vs_vwap_pct i)) by done.
  rewrite (metric_decimal _ "sma5_slope_pct" (is_sma5_slope_pct i)) by done.
  rewrite (metric_decimal _ "relative_volume_5" (is_relative_volume_5 i)) by done.
  rewrite (metric_decimal _ "realized_volatility_pct" (is_realized_volatility_pct i)) by done.
  done.
Qed.

Lemma position_outputs_spec updated_at db user position purpose snapshot state observed_at settings pj f
  indicator stale :
  0 <= stale -> indicators_scaled indicator ->
  figures_of updated_at db user position snapshot settings pj f ->
  _position_outputs (input_payload purpose snapshot state observed_at stale pj indicator) =
  inr (if held updated_at position snapshot settings f then
         match ready_indicator state snapshot observed_at stale indicator with
         | Some i => position_outputs (position_metrics f i)
         | None => held_without_data
         end
       else held_without_data).
Proof.
  intros Hst Hsc F. unfold _position_outputs.
  set (payload := input_payload purpose snapshot state observed_at stale pj indicator).
  change (item "data_quality" payload) with (inr (data_quality_json state snapshot observed_at) : exn + json).
  change (item "indicators" payload) with (inr (indicators_json indicator) : exn + json).
  change (item "strategy" payload) with (inr (JObj [("score_policy_version", JStr "mock-score-v2");
      ("quote_stale_seconds", JInt stale)]) : exn + json).
  change (get_field "position" payload) with pj.
  cbv [mbind result_bind]. change (reject_if _ AssertionError) with (inr tt : exn + unit).
  cbv beta iota zeta. rewrite (position_ready_spec _ _ _ _ _ _ _ _ F).
  destruct (held updated_at position snapshot settings f); [|done].
  unfold payload. rewrite (market_ready_spec purpose snapshot state observed_at stale pj indicator) by done.
  destruct (ready_indicator state snapshot observed_at stale indicator) as [i|] eqn:E; [|done].
  apply ready_indicator_Some in E as [Ei Hr]. rewrite bool_decide_true by done. cbn [negb].
  by rewrite (read_position_metrics_ready _ _ _ _ _ _ _ _ _ i F Hsc Ei Hr).
Qed.

(** ** The stop always sells *)

(** Once the stop has set the score, later reasons only add to it. *)
Lemma stopped_tally p : dleb (distance_to_stop p) dzero = true -> 100 <= (position_tally p).1.
Proof.
  intros H. unfold position_tally. cbv zeta. rewrite H.
  repeat match goal with |- context [if ?c then _ else _] => destruct c end; cbn; lia.
Qed.

Lemma stopped_sells p : dleb (distance_to_stop p) dzero = true ->
  co_action (position_outputs p).2 = ACT_FULL_SELL.
Proof.
  intros H. apply stopped_tally in H. unfold position_outputs.
  destruct (position_tally p) as [score reasons]. cbn [fst] in H. cbv zeta. cbn [snd].
  unfold position_verdict, clamp.
  destruct (Z.leb_spec 90 (Z.min (Z.max score 0) 100)); [done|lia].
Qed.

(** The three verdicts. *)
Lemma position_verdicts p : let core := (position_outputs p).2 in
  co_action core ∈ [ACT_HOLD; ACT_PARTIAL_SELL; ACT_FULL_SELL] /\
  (co_action core = ACT_PARTIAL_SELL -> co_sell_ratio core = Some (Dec 5 (-1))).
Proof.
  unfold position_outputs. destruct (position_tally p) as [score reasons]. cbv zeta. cbn [snd].
  unfold position_verdict. destruct (90 <=? clamp score); [by split; [set_solver|]|].
  destruct (70 <=? clamp score); by split; [set_solver|].
Qed.

Lemma stop_reached updated_at db user position snapshot settings pj f :
  figures_of updated_at db user position snapshot settings pj f ->
  dleb (ms_last_price snapshot) (fg_stop_price f) = true ->
  dleb (fg_distance_printed f) dzero = true.
Proof.
  intros F H. destruct F. apply dleb_nonpos. eapply quantize_nonpos; [|exact fo_printed0].
  unfold distance_to_stop_pct in fo_distance0.
  destruct (dltb dzero (ms_last_price snapshot)) eqn:Hp.
  - unfold ratio_pct in fo_distance0. apply result_bind_inr in fo_distance0 as (r & Hr & E).
    injection E as <-. unfold divided in Hr. destruct (ddiv _ _) as [q|] eqn:Q; [|done].
    injection Hr as <-. apply dmul_nonpos; [|done].
    eapply ddiv_nonpos; [| |exact Q]; [by apply dsub_nonpos|].
    apply dltb_dzero_coef in Hp. unfold nonneg. lia.
  - by injection fo_distance0 as <-.
Qed.

(** ** Buying *)

(** What the entry policy asks of a market it buys into. *)
Definition favourable (m : Metrics) : bool :=
  at_least dzero (price_vs_vwap m) && negb (above SPREAD_LIMIT (spread m)) &&
  negb (at_least VOLATILITY_EXTREME (volatility m)) &&
  (above SLOPE_UP (sma5_slope m) || at_least VOLUME_HIGH (relative_volume m)).

Lemma entry_buys_favourable m : co_action (entry_outputs m).2 = ACT_BUY -> favourable m = true.
Proof.
  unfold entry_outputs. destruct (entry_tally m) as [score reasons] eqn:ET. cbv zeta.
  unfold entry_action. destruct (hard_block m) eqn:HB; [done|].
  destruct (Z.leb_spec 70 (clamp score)) as [Hs|Hs]; [|by destruct (45 <=? clamp score)].
  intros _. unfold hard_block in HB. apply orb_false_iff in HB as [HB1 HB2].
  assert (Hv : at_least VOLATILITY_EXTREME (volatility m) = false).
  { destruct (at_least VOLATILITY_EXTREME (volatility m)) eqn:E; [|done].
    unfold volatility_state in HB2. destruct (volatility m); [|done]. by rewrite E in HB2. }
  unfold favourable. rewrite HB1, Hv. cbn [negb andb]. rewrite !andb_true_r.
  assert (70 <= score) by (unfold clamp in Hs; lia).
  unfold entry_tally in ET. cbv zeta in ET. rewrite HB1, Hv in ET.
  repeat match type of ET with context [if ?c then _ else _] => destruct c eqn:? end;
    cbn in ET; injection ET as <- _; try done; lia.
Qed.

(** ** Creation *)

Section Creation.
Context (sha256 : string -> string) (created_at updated_at : Position -> Z).
Context (user_id request symbol market : string) (settings : Settings) (purpose kind : string)
  (position : option Position) (now : Z) (s : Sess).

(** The stream of the instrument and its current snapshot. *)
Definition quoted (db : DB) (state : MarketStreamState) (snapshot : MarketSnapshot) : Prop :=
  streams db !! (market, symbol) = Some state /\
  exists key, mss_current_snapshot_id state = Some key /\ snapshots db !! key = Some snapshot.

(** The position part of the input. *)
Definition position_part (db : DB) (snapshot : MarketSnapshot) (pj : json) : Prop :=
  match position with
  | Some p => if String.eqb kind "POSITION"
              then exists user, users db !! user_id = Some user /\
                build_position_snapshot sha256 created_at updated_at db user p snapshot settings = inr pj
              else pj = JNull
  | None => pj = JNull
  end.

(** The new decision row and what the session wrote for it. *)
Definition decided (db : DB) (d : Decision) (db' : DB) : Prop :=
  decision_by_request db request = None /\
  exists state snapshot pj scout core input_id inputs,
    quoted db state snapshot /\ position_part db snapshot pj /\
    (if String.eqb kind "POSITION" then _position_outputs else _outputs)
      (input_payload purpose snapshot state now (settings_quote_stale_seconds settings) pj
         (indicator_of_snapshot db (ms_id snapshot))) = inr (scout, core) /\
    decisions db !! d_id d = None /\
    d = new_decision (d_id d) input_id purpose request symbol market kind snapshot scout core now /\
    db' = put_decision d (set_decision_inputs db inputs).

(** The ways a creation ends; nothing is committed. *)
Definition creation (s' : Sess) (r : Decision * bool + exn) : Prop :=
  disk s' = disk s /\
  match r with
  | inl (d, false) => work s' = work s /\ decision_by_request (work s) request = Some d /\
      d_symbol d = symbol /\ d_market d = market /\ d_purpose d = purpose /\ d_decision_kind d = kind
  | inl (d, true) => decided (work s) d (work s')
  | inr _ => exists inputs, work s' = set_decision_inputs (work s) inputs
  end.

Lemma same_inputs (db : DB) : db = set_decision_inputs db (decision_inputs db).
Proof. by destruct db. Qed.

Lemma build_decision_input_run (Q : Sess -> DecisionInputSnapshot * json + exn -> Prop) snapshot state pj s0 :
  (forall s' r, disk s' = disk s0 -> (exists inputs, work s' = set_decision_inputs (work s0) inputs) ->
     match r with
     | inl (_, payload) => payload = input_payload purpose snapshot state now
         (settings_quote_stale_seconds settings) pj (indicator_of_snapshot (work s0) (ms_id snapshot))
     | inr _ => True
     end -> Q s' r) ->
  wp (build_decision_input sha256 user_id purpose snapshot state now
        (settings_quote_stale_seconds settings) pj) Q s0.
Proof.
  intros H. unfold build_decision_input.
  repeat wp_step; apply H; cbn [disk work with_work next_uuid]; try done;
    try (exists (decision_inputs (work s0)); apply same_inputs).
  by eexists.
Qed.

Lemma create_mock_decision_run :
  wp (create_mock_decision sha256 created_at updated_at user_id request symbol market settings purpose
        kind position (Some now)) creation s.
Proof.
  assert (HE : forall s' (e : exn), disk s' = disk s -> work s' = work s -> creation s' (inr e)).
  { intros s' e Hd Hw. split; [done|]. exists (decision_inputs (work s)). rewrite Hw. apply same_inputs. }
  unfold create_mock_decision. wp_step. wp_step. unfold after at 1.
  destruct (decision_by_request (work s) request) as [d|] eqn:Hreq.
  { wp_step. wp_step; unfold after.
    - apply wp_ret. rewrite !andb_true_iff, !String.eqb_eq in H. destruct H as (((H1 & H2) & H3) & H4).
      done.
    - by apply HE. }
  unfold current_quote. repeat (wp_step; []). wp_step; [|by apply HE].
  wp_step; [|by apply HE]. repeat (wp_step; []).
  wp_step; [|by apply HE]. repeat (wp_step; []).
  rename m into state, s0 into key. rename m0 into snapshot.
  apply (wp_mono _ (fun s' r => s' = s /\ match r with inl pj => position_part (work s) snapshot pj
                                          | inr _ => True end)).
  { unfold position_input, position_part. destruct position as [p|]; [|by apply wp_ret].
    destruct (String.eqb kind "POSITION"); [|by apply wp_ret].
    repeat (wp_step; []). wp_step; [|by apply wp_raise]. repeat (wp_step; []).
    apply wp_of_result; [|done]. intros pj Hpj. split; [done|]. by exists u. }
  intros s1 [pj|e] [-> Hpj]; unfold after at 1; [|by apply HE].
  wp_step. apply build_decision_input_run. intros s2 [[di payload]|e] Hd [inputs Hw] Hp;
    unfold after at 1; [|split; [done|by exists inputs]].
  repeat (wp_step; []). apply wp_of_result; [|intros e _; split; [done|by exists inputs]].
  intros [scout core] Ho. unfold after at 1. repeat (wp_step; []).
  wp_step; unfold after at 1; [|split; [done|by exists inputs]].
  repeat (wp_step; []). split; [done|]. cbn [work with_work next_uuid]. split; [done|].
  exists state, snapshot, pj, scout, core, (di_id di), inputs. split_and!; try done.
  - split; [done|]. by exists key.
  - rewrite Hp in Ho. by destruct (String.eqb kind "POSITION").
  - match goal with Hk : negb _ = true |- _ => apply negb_true_iff, bool_decide_eq_false in Hk;
      cbn [work next_uuid] in Hk; rewrite Hw in Hk; by apply eq_None_not_Some end.
  - by rewrite Hw.
Qed.
End Creation.

(** ** The decisions of a session *)

Definition database_scaled (db : DB) : Prop :=
  forall k i, indicators db !! k = Some i -> indicator_scaled i.

Lemma indicator_scaled_of db id : database_scaled db -> indicators_scaled (indicator_of_snapshot db id).
Proof.
  intros H. unfold indicator_of_snapshot.
  destruct (find_row _ _) as [i|] eqn:E; [|done]. apply find_row_Some in E as (_ & k & Hk). by eapply H.
Qed.

Section Decisions.
Context (sha256 : string -> string) (created_at updated_at : Position -> Z).
Context (user : User) (request symbol market : string) (settings : Settings) (now : Z) (s : Sess).

Definition stale_limit : Z := settings_quote_stale_seconds settings.

(** The indicators a decision of now is taken on, when the market is ready. *)
Definition current_indicator (state : MarketStreamState) (snapshot : MarketSnapshot) :
  option IndicatorSnapshot :=
  ready_indicator state snapshot now stale_limit (indicator_of_snapshot (work s) (ms_id snapshot)).

(** C22: The deterministic entry decision is a function of the stored rows.
    Although the policy reads a JSON text, the decision it writes is the one
    computed from the indicators of the current snapshot with their exact
    decimals; without normal, fresh, trading quotes and current indicators it is
    a RISK_BLOCK; and it buys only above the VWAP, with an acceptable spread and
    volatility, on rising prices or volume.  A known request id changes
    nothing, and nothing is committed. *)
Theorem entry_decision_of_rows s' d made : 0 <= stale_limit -> database_scaled (work s) ->
  create_mock_trading_decision sha256 created_at updated_at user request symbol market settings
    (Some now) s = (s', inl (d, made)) ->
  disk s' = disk s /\
  if made : bool then
    exists state snapshot, quoted symbol market (work s) state snapshot /\
      let outputs := match current_indicator state snapshot with
                     | Some i => entry_outputs (metrics_of i) | None => blocked_entry end in
      d_action d = co_action outputs.2 /\ d_confidence d = co_confidence outputs.2 /\
      d_scout_output d = scout_json outputs.1 /\ d_core_output d = core_json outputs.2 /\
      d_valid_until d = now + minute /\ d_evaluation_request_id d = request /\
      (d_action d = ACT_BUY -> exists i, current_indicator state snapshot = Some i /\
        favourable (metrics_of i) = true)
  else work s' = work s /\ decision_by_request (work s) request = Some d.
Proof.
  intros Hst Hsc E.
  pose proof (create_mock_decision_run sha256 created_at updated_at (u_id user) request symbol market
    settings "TRADING" "ENTRY" None now s) as R.
  apply (wp_elim _ _ _ _ _ R) in E as [Hd HC]. split; [done|].
  destruct made; [|by destruct HC as (? & ? & _)].
  destruct HC as (_ & state & snapshot & pj & scout & core & input_id & inputs & Hq & Hp & Ho & _ & E & _).
  exists state, snapshot. split; [done|].
  cbn in Hp. subst pj. change (String.eqb "ENTRY" "POSITION") with false in Ho. cbv iota in Ho.
  rewrite (outputs_spec _ _ _ _ _ _ _ Hst (indicator_scaled_of _ _ Hsc)) in Ho.
  unfold current_indicator, stale_limit. injection Ho as Ho.
  destruct (ready_indicator _ _ _ _ _) as [i|]; cbv zeta; rewrite Ho; cbn [fst snd]; rewrite E;
    split_and!; try done; intros Hb; [|by injection Ho as _ <-].
  exists i. split; [done|]. apply entry_buys_favourable. by rewrite Ho.
Qed.

(** The stop always sells.  When the data of an open position is current
    and the last price has reached the fixed stop price of the user's risk
    policy, the position decision is a FULL_SELL, whatever the indicators say;
    without current data it is a HOLD; it is never anything but HOLD,
    PARTIAL_SELL and FULL_SELL; and the sell plan reads the half of a
    PARTIAL_SELL back from it. *)
Theorem stop_price_sells position s' d : 0 <= stale_limit -> database_scaled (work s) ->
  create_mock_position_trading_decision sha256 created_at updated_at user position request symbol market
    settings (Some now) s = (s', inl (d, true)) ->
  exists row state snapshot pj f, users (work s) !! u_id user = Some row /\
    quoted symbol market (work s) state snapshot /\
    figures_of updated_at (work s) row position snapshot settings pj f /\
    d_action d ∈ [ACT_HOLD; ACT_PARTIAL_SELL; ACT_FULL_SELL] /\
    (d_action d = ACT_PARTIAL_SELL -> _sell_ratio d = inr (Some (Dec 5 (-1)))) /\
    (if held updated_at position snapshot settings f && bool_decide (is_Some (current_indicator state snapshot))
     then dleb (ms_last_price snapshot) (fg_stop_price f) = true -> d_action d = ACT_FULL_SELL
     else d_action d = ACT_HOLD).
Proof.
  intros Hst Hsc E.
  pose proof (create_mock_decision_run sha256 created_at updated_at (u_id user) request symbol market
    settings "TRADING" "POSITION" (Some position) now s) as R.
  apply (wp_elim _ _ _ _ _ R) in E as [_ HC].
  destruct HC as (_ & state & snapshot & pj & scout & core & input_id & inputs & Hq & Hp & Ho & _ & E & _).
  change (String.eqb "POSITION" "POSITION") with true in Ho. cbv iota in Ho.
  unfold position_part in Hp. change (String.eqb "POSITION" "POSITION") with true in Hp. cbv iota in Hp.
  destruct Hp as (row & Hrow & Hb). destruct (build_position_figures _ _ _ _ _ _ _ _ _ Hb) as [f F].
  exists row, state, snapshot, pj, f. split; [done|]. split; [done|]. split; [done|].
  rewrite (position_outputs_spec _ _ _ _ _ _ _ _ _ _ f _ _ Hst (indicator_scaled_of _ _ Hsc) F) in Ho.
  injection Ho as Ho. fold stale_limit in Ho. fold (current_indicator state snapshot) in Ho.
  assert (Ed : d_action d = co_action core) by (by rewrite E).
  assert (Hr : d_action d = ACT_PARTIAL_SELL -> co_sell_ratio core = Some (Dec 5 (-1)) ->
    _sell_ratio d = inr (Some (Dec 5 (-1)))).
  { intros Ha Hc. unfold _sell_ratio. rewrite Ha. cbn [bool_decide decide]. rewrite E.
    destruct core as [a c l r codes]. cbn in Hc. subst r. reflexivity. }
  rewrite Ed in *. destruct (held _ _ _ _ f); cbn [andb].
  2: { injection Ho as _ <-. split_and!; [set_solver|done|done]. }
  destruct (current_indicator state snapshot) as [i|].
  2: { injection Ho as _ <-. split_and!; [set_solver|done|done]. }
  rewrite bool_decide_true by done. set (p := position_metrics f i) in *.
  assert (Ec : core = (position_outputs p).2) by (by rewrite Ho).
  rewrite Ec in *. split_and!.
  - apply position_verdicts.
  - intros Ha. apply Hr; [done|]. by apply position_verdicts.
  - intros Hl. apply stopped_sells. by eapply stop_reached.
Qed.
End Decisions.

(** ** Concrete decisions *)

Definition day_indicator : IndicatorSnapshot :=
  mkIndicatorSnapshot "ind" "snap" "KRX" "005930" CALCULATOR_VERSION (Dec 710000000 (-4))
    (Some (Dec 711000000 (-4))) (Dec 715000000 (-4)) (Dec (-419580) (-6)) (Some (Dec 140548 (-6)))
    (Some (Dec 281690 (-6))) (Some (Dec 60000 (-6))) (Some (Dec 1300000 (-6))) (Some (Dec 500000 (-6)))
    12 0 day_now.

(** The quote of the day with another last price. *)
Definition day_quote (last : decimal) : MarketSnapshot :=
  let q := day_snapshot in
  mkMarketSnapshot (ms_id q) (ms_symbol q) (ms_market q) (ms_source q) (ms_sequence_or_hash q)
    (ms_source_sequence q) (ms_payload_hash q) last (ms_open_price q) (ms_high_price q) (ms_low_price q)
    (ms_cumulative_volume q) (ms_best_bid_price q) (ms_best_bid_quantity q) (ms_best_ask_price q)
    (ms_best_ask_quantity q) (ms_trading_status q) (ms_quality q) (ms_recovery_snapshot q)
    (ms_event_at q) (ms_received_at q).

Definition deciding_session (last : decimal) : Sess :=
  open_session (set_snapshots (set_indicators (day_db MODE_AUTOMATIC {[ "pos" := day_position ]})
      {[ "ind" := day_indicator ]}) {[ "snap" := day_quote last ]}) day_now day_ids.

Lemma deciding_scaled last : database_scaled (work (deciding_session last)).
Proof.
  intros k i H. change (({[ "ind" := day_indicator ]} : gmap string IndicatorSnapshot) !! k = Some i) in H.
  apply lookup_singleton_Some in H as [_ <-]. split; unfold column_scales, column_scale; cbn; lia.
Qed.

Definition demo_entry : Sess * (Decision * bool + exn) :=
  create_mock_trading_decision (fun s => s) (fun _ => 0) (fun _ => 0) demo_user "req-1" "005930" "KRX"
    (day_settings STAGE_SHADOW) (Some day_now) (deciding_session (Dec 712000000 (-4))).

Definition demo_position_decision (last : decimal) : Sess * (Decision * bool + exn) :=
  create_mock_position_trading_decision (fun s => s) (fun _ => 0) (fun _ => day_now) demo_user
    day_position "req-2" "005930" "KRX" (day_settings STAGE_SHADOW) (Some day_now) (deciding_session last).

(** A new decision with this action. *)
Definition decides (action : Action) (r : Sess * (Decision * bool + exn)) : bool :=
  match r with (_, inl (d, true)) => bool_decide (d_action d = action) | _ => false end.

Lemma decides_inv action r : decides action r = true ->
  exists s' d, r = (s', inl (d, true)) /\ d_action d = action.
Proof.
  destruct r as [s' [[d []]|e]]; cbn; try done. intros H. apply bool_decide_eq_true in H. by exists s', d.
Qed.

Lemma entry_decision_of_rows_witness : exists s' d,
  demo_entry = (s', inl (d, true)) /\ d_action d = ACT_BUY /\
  disk s' = disk (deciding_session (Dec 712000000 (-4))).
Proof.
  assert (H : decides ACT_BUY demo_entry = true) by (vm_compute; reflexivity).
  apply decides_inv in H as (s' & d & E & Ha). exists s', d. split; [exact E|]. split; [exact Ha|].
  apply (entry_decision_of_rows (fun s => s) (fun _ => 0) (fun _ => 0) demo_user "req-1" "005930" "KRX"
    (day_settings STAGE_SHADOW) day_now (deciding_session (Dec 712000000 (-4))) s' d true);
    [vm_compute; discriminate|apply deciding_scaled|exact E].
Defined.

Lemma stop_price_sells_witness : exists s' d,
  demo_position_decision (Dec 670000000 (-4)) = (s', inl (d, true)) /\ d_action d = ACT_FULL_SELL /\
  d_action d ∈ [ACT_HOLD; ACT_PARTIAL_SELL; ACT_FULL_SELL].
Proof.
  assert (H : decides ACT_FULL_SELL (demo_position_decision (Dec 670000000 (-4))) = true)
    by (vm_compute; reflexivity).
  apply decides_inv in H as (s' & d & E & Ha). exists s', d. split; [exact E|]. split; [exact Ha|].
  destruct (stop_price_sells (fun s => s) (fun _ => 0) (fun _ => day_now) demo_user "req-2" "005930" "KRX"
    (day_settings STAGE_SHADOW) day_now (deciding_session (Dec 670000000 (-4))) day_position s' d)
    as (_ & _ & _ & _ & _ & _ & _ & _ & H & _);
    [vm_compute; discriminate|apply deciding_scaled|exact E|exact H].
Defined.
