(* ===== verification/Frames.v ===== *)
(** * Frames of programs

    [keeps tab m]: whatever [m] does, exceptions, commits and rollbacks
    included, the table [tab] of the working and of the durable copy is one
    that held before.  The routing of a decision touches none of the tables of
    the agents. *)

From Stdlib Require Import ZArith Lia.
From stdpp Require Import base numbers strings list gmap.
From S2P Require Import Prelude Decimal Json PyTime Models Session Policies Guards Approvals.
From S2P Require Import RiskEvents OrderCreation DecisionExecution.

Open Scope Z_scope.

Create HintDb frames.

Section Keeps.
Context {T : Type} (tab : DB -> T).

Definition both (P : T -> Prop) (s : Sess) : Prop := P (tab (work s)) /\ P (tab (disk s)).

Definition keeps {A} (m : prog A) : Prop :=
  forall (P : T -> Prop) s, both P s -> wp m (fun s' _ => both P s') s.

(** A change of the database that leaves the table alone. *)
Definition leaves (f : DB -> DB) : Prop := forall db, tab (f db) = tab db.

Section Rules.
Context {A B : Type}.

Lemma frame_bind (m : prog A) (k : A -> prog B) :
  keeps m -> (forall a, keeps (k a)) -> keeps (mbind k m).
Proof.
  intros Hm Hk P s HP. apply wp_bind. eapply wp_mono; [by apply Hm|].
  intros s' [a|e] H; unfold after; [by apply Hk|done].
Qed.

Lemma frame_ret (a : A) : keeps (mret a).
Proof. by intros P s HP. Qed.

Lemma frame_raise e : keeps (raise e : prog A).
Proof. by intros P s HP. Qed.

Lemma frame_gets (f : DB -> A) : keeps (gets f).
Proof. by intros P s HP. Qed.

Lemma keeps_of_result (r : exn + A) : keeps (of_result r).
Proof. destruct r; by intros P s HP. Qed.

Lemma keeps_or_raise (o : option A) e : keeps (or_raise o e).
Proof. destruct o; by intros P s HP. Qed.

Lemma keeps_try (m : prog A) h :
  keeps m -> (forall e m', h e = Some m' -> keeps m') -> keeps (try_except m h).
Proof.
  intros Hm Hh P s HP. apply wp_try. eapply wp_mono; [by apply Hm|].
  intros s' [a|e] H; [done|]. destruct (h e) as [m'|] eqn:E; [|done]. by eapply Hh.
Qed.
End Rules.

Lemma frame_modify f : leaves f -> keeps (modify f).
Proof. intros Hf P s [Hw Hd]. split; [|done]. simpl. by rewrite Hf. Qed.

Lemma keeps_commit : keeps commit.
Proof. by intros P s [Hw Hd]. Qed.

Lemma keeps_rollback : keeps rollback.
Proof. by intros P s [Hw Hd]. Qed.

Lemma keeps_utcnow : keeps utcnow.
Proof. by intros P s HP. Qed.

Lemma keeps_uuid7 : keeps uuid7.
Proof. by intros P s HP. Qed.

Lemma keeps_guard_or c e : keeps (guard_or c e).
Proof. destruct c; by intros P s HP. Qed.

Lemma keeps_others_commit race : leaves race -> keeps (others_commit race).
Proof. intros Hr P s [Hw Hd]. by split; simpl; rewrite Hr. Qed.

Lemma keeps_flush_checked race violated put :
  leaves race -> leaves put -> keeps (flush_checked race violated put).
Proof.
  intros Hr Hp P s [Hw Hd]. apply wp_flush_checked; intros _; split; simpl; by rewrite ?Hp, ?Hr.
Qed.

Lemma leaves_folded {X} (f : X -> DB -> DB) l : (forall x, leaves (f x)) -> leaves (fun db => foldr f db l).
Proof. intros Hf db. induction l as [|x l IH]; [done|]. simpl. by rewrite Hf. Qed.

Lemma leaves_id : leaves (fun db => db).
Proof. done. Qed.
End Keeps.

(** Symbolic execution for frames: unfold nothing, split every bind, choice and
    match. *)
Ltac keeps_step :=
  lazymatch goal with
  | |- keeps _ (mbind _ _) => apply frame_bind; [|intros ?]
  | |- keeps _ (mret _) => apply frame_ret
  | |- keeps _ (raise _) => apply frame_raise
  | |- keeps _ (gets _) => apply frame_gets
  | |- keeps _ (of_result _) => apply keeps_of_result
  | |- keeps _ (or_raise _ _) => apply keeps_or_raise
  | |- keeps _ (guard_or _ _) => apply keeps_guard_or
  | |- keeps _ commit => apply keeps_commit
  | |- keeps _ rollback => apply keeps_rollback
  | |- keeps _ utcnow => apply keeps_utcnow
  | |- keeps _ uuid7 => apply keeps_uuid7
  | |- keeps _ (modify _) => apply frame_modify
  | |- keeps _ (others_commit _) => apply keeps_others_commit
  | |- keeps _ (flush_checked _ _ _) => apply keeps_flush_checked
  | |- keeps _ (try_except _ _) => apply keeps_try; [|intros [] ? ?; simplify_eq/=]
  | |- keeps _ (match ?x with _ => _ end) => destruct x
  | |- keeps _ (let _ := _ in _) => cbv zeta
  | |- leaves _ _ => intros ?; reflexivity
  end.
Ltac keeps := repeat first [keeps_step | solve [eauto with frames]].

(** The tables of the agents, together. *)
Definition agent_tables (db : DB) :=
  (agent_stages db, llm_invocations db, evidence_bundles db, evidence_items db).

(** The tables of the scheduler. *)
Definition sched_tables (db : DB) := (scheduler_leases db, scheduler_states db).

(** The tables of the broker worker. *)
Definition worker_tables (db : DB) :=
  (gates db, worker_states db, leases db, reconciliation_runs db).

(** What the routing of a decision leaves alone: the decisions, the users, the
    scheduler, the broker worker and the agents. *)
Definition agent_data (db : DB) :=
  ((decisions db, users db, agent_runs db, (sched_tables db, worker_tables db)), agent_tables db).

Lemma keeps_map {T U} (tab : DB -> T) (g : T -> U) {A} (m : prog A) :
  keeps tab m -> keeps (fun db => g (tab db)) m.
Proof. intros Hm P s HP. exact (Hm (fun t => P (g t)) s HP). Qed.

Lemma leaves_change_execution id f : leaves agent_data (change_execution id f).
Proof. intros db. unfold change_execution. by destruct (executions db !! id). Qed.

Lemma leaves_concurrent_orders race : leaves agent_data (add_concurrent_orders race).
Proof. apply leaves_folded. intros o db. by destruct (clashes o db). Qed.

Lemma leaves_concurrent_executions race : leaves agent_data (add_concurrent_executions race).
Proof. apply leaves_folded. intros e db. by destruct (execution_clash e db). Qed.

Lemma keeps_flush_order race o : keeps agent_data (flush_order race o).
Proof.
  intros P s [Hw Hd].
  assert (Hi : both agent_data P (interleaved race s)).
  { split; cbn [work disk interleaved]; by rewrite (leaves_concurrent_orders race _). }
  apply wp_flush_order; intros _; exact Hi.
Qed.

Lemma keeps_now_or now : keeps agent_data (now_or now).
Proof. destruct now; [apply frame_ret|apply keeps_utcnow]. Qed.

Lemma keeps_assign f e : keeps agent_data (assign f e).
Proof. unfold assign. keeps. apply leaves_change_execution. Qed.

#[export] Hint Resolve leaves_change_execution leaves_concurrent_orders leaves_concurrent_executions
  leaves_id keeps_flush_order keeps_now_or keeps_assign : frames.

Lemma keeps_validate request : keeps agent_data (OrderCreation._validate request).
Proof. unfold OrderCreation._validate. keeps. Qed.

Lemma keeps_create_order sha256 user request audit now race :
  keeps agent_data (create_order sha256 user request audit now race).
Proof.
  unfold create_order, flush_created, flush_request, raced_order, _order_event.
  apply frame_bind; [apply keeps_validate|intros _]. keeps.
Qed.

Lemma keeps_create_approval execution decision user now :
  keeps agent_data (create_approval execution decision user now).
Proof. unfold create_approval. keeps. Qed.

Lemma keeps_place sha256 user request audit current race execution :
  keeps agent_data (place sha256 user request audit current race execution).
Proof. unfold place. keeps. apply keeps_create_order. Qed.

#[export] Hint Resolve keeps_create_approval keeps_place : frames.

Lemma keeps_route_passed sha256 execution decision user settings policy plan corr current race :
  keeps agent_data (route_passed sha256 execution decision user settings policy plan corr current race).
Proof. unfold route_passed, _create_buy_order, _create_sell_order. keeps. Qed.

#[export] Hint Resolve keeps_route_passed : frames.

Lemma keeps_route sha256 holidays decision user corr settings now xrace race :
  keeps agent_data (route_trading_decision sha256 holidays decision user corr settings now xrace race).
Proof.
  unfold route_trading_decision, route_execution, route_guarded, finish_routing,
    persist_guard_evaluation. keeps.
Qed.

#[export] Hint Resolve keeps_route : frames.

(** ** Programs that call no broker *)

(** They take no time either. *)
Definition silent {A} (m : prog A) : Prop :=
  forall s, wp m (fun s' _ => wire s' = wire s /\ clock s' = clock s) s.

Lemma silent_trans {A} (m : prog A) s1 s2 : silent m -> wire s2 = wire s1 -> clock s2 = clock s1 ->
  wp m (fun s' _ => wire s' = wire s1 /\ clock s' = clock s1) s2.
Proof. intros H <- <-. apply H. Qed.

Section Silent.
Context {A B : Type}.

Lemma silent_bind (m : prog A) (k : A -> prog B) : silent m -> (forall a, silent (k a)) -> silent (mbind k m).
Proof.
  intros Hm Hk s. apply wp_bind. eapply wp_mono; [by apply Hm|].
  intros s' [a|e] [H1 H2]; unfold after; [|done]. by apply silent_trans.
Qed.

Lemma silent_try (m : prog A) h :
  silent m -> (forall e m', h e = Some m' -> silent m') -> silent (try_except m h).
Proof.
  intros Hm Hh s. apply wp_try. eapply wp_mono; [by apply Hm|].
  intros s' [a|e] [H1 H2]; [done|]. destruct (h e) as [m'|] eqn:E; [|done].
  apply silent_trans; [by apply (Hh _ _ E)|done..].
Qed.

Lemma silent_of_result (r : exn + A) : silent (of_result r).
Proof. by destruct r. Qed.
Lemma silent_or_raise (o : option A) e : silent (or_raise o e).
Proof. by destruct o. Qed.
End Silent.

Lemma silent_guard_or c e : silent (guard_or c e).
Proof. by destruct c. Qed.

Lemma silent_flush_checked race violated put : silent (flush_checked race violated put).
Proof. intros s. by apply wp_flush_checked. Qed.

Lemma silent_flush_order race o : silent (flush_order race o).
Proof. intros s. by apply wp_flush_order. Qed.

Lemma silent_in_session {A} (m : prog A) : silent m -> silent (in_session m).
Proof. intros Hm s. apply wp_in_session. eapply wp_mono; [by apply Hm|]. intros s' r H. exact H. Qed.

Lemma silent_for_each {A} (f : A -> prog unit) l : (forall x, silent (f x)) -> silent (for_each l f).
Proof. intros Hf. induction l as [|x l IH]; [done|]. simpl. by apply silent_bind. Qed.

Lemma keeps_for_each {T A} (tab : DB -> T) (f : A -> prog unit) l :
  (forall x, keeps tab (f x)) -> keeps tab (for_each l f).
Proof. intros Hf. induction l as [|x l IH]; [apply frame_ret|]. simpl. apply frame_bind; [done|by intros []]. Qed.

Create HintDb silent.
Ltac silent_step :=
  lazymatch goal with
  | |- silent (mbind _ _) => apply silent_bind; [|intros ?]
  | |- silent (of_result _) => apply silent_of_result
  | |- silent (or_raise _ _) => apply silent_or_raise
  | |- silent (guard_or _ _) => apply silent_guard_or
  | |- silent (flush_checked _ _ _) => apply silent_flush_checked
  | |- silent (flush_order _ _) => apply silent_flush_order
  | |- silent (try_except _ _) => apply silent_try; [|intros [] ? ?; simplify_eq/=]
  | |- silent (match ?x with _ => _ end) => destruct x
  | |- silent (let _ := _ in _) => cbv zeta
  | |- silent _ => by intros ?
  end.
Ltac silent := repeat first [solve [eauto with silent] | silent_step].
