(* ===== verification/Fusion.v ===== *)
(** * Fusion of a position advisory

    [position_agent_fusion.py]: the verified advice of the agents about an open
    position may create a stronger decision than the deterministic one it was
    based on, never a weaker one.  [parse_core] is pydantic's validation of the
    stored output of the CORE stage. *)

Set Warnings "-register-all".

From Stdlib Require Import ZArith Lia Ascii String.
From stdpp Require Import base numbers strings list gmap.
From S2P Require Import Prelude Decimal Json PyTime Models Session DecimalText PyText.
From S2P Require Import Guards DecisionExecution MockDecision Fixtures.

Open Scope Z_scope.

Definition FUSION_POLICY_VERSION : string := "position-agent-fusion-v1".
Definition FUSION_MODEL_ID : string := "position-agent-fusion-v1".
Definition FUSION_PROMPT_VERSION : string := "position-agent-fusion-policy-v1".
Definition MINIMUM_CONFIDENCE : decimal := Dec 70 (-2).

Definition REQUIRED_STAGES : list string :=
  ["TECHNICAL_SCOUT"; "NEWS_DISCLOSURE_SCOUT"; "MARKET_SECTOR_SCOUT"; "POSITION_RISK_SCOUT"; "CORE"].

(** [ACTION_SEVERITY] *)
Definition action_severity (a : Action) : option Z :=
  match a with
  | ACT_HOLD => Some 0 | ACT_PARTIAL_SELL => Some 1 | ACT_FULL_SELL => Some 2
  | _ => None
  end.

(** [ASSESSMENT_ACTION] *)
Definition assessment_action (assessment : string) : option Action :=
  assoc assessment [("HOLD_SUPPORTIVE", ACT_HOLD); ("NEUTRAL", ACT_HOLD);
                    ("EXIT_RISK_ELEVATED", ACT_PARTIAL_SELL); ("EXIT_RISK_HIGH", ACT_FULL_SELL)].

(** The fields of [AgentCoreOutputV2] the fusion reads; the confidence is the
    decimal that [str] prints of the float. *)
Record AgentCoreOutputV2 := mkAgentCoreOutputV2 {
  cv_shadow_assessment : string;
  cv_confidence : decimal;
  cv_reason_codes : list string;
  cv_incomplete_roles : list string
}.

(** [list(dict.fromkeys(codes))]: the first occurrence of each. *)
Fixpoint unique_codes (codes : list string) : list string :=
  match codes with
  | [] => []
  | c :: codes => c :: List.filter (fun x => negb (String.eqb c x)) (unique_codes codes)
  end.

(** [db.get(Model, key)] of an optional key. *)
Definition row_of {V} (m : gmap string V) (key : option string) : option V := key ≫= (m !!.).

Section Fusion.
Context (sha256 : string -> string) (holidays : Z -> option (list Z)).
Context (parse_core : json -> option AgentCoreOutputV2).

Definition _canonical (value : json) : string := dumps value.
Definition _hash (value : json) : string := sha256 (_canonical value).

Definition put_run (run : AgentRun) (db : DB) : DB :=
  set_agent_runs db (<[ar_id run := run]> (agent_runs db)).

Definition _finish (run : AgentRun) (state code : string) : prog unit :=
  modify (put_run (set_ar_fusion_reason_code (set_ar_fusion_state run (Some state)) (Some code))).

Definition _request_id (run : AgentRun) (basis : Decision) : string :=
  "fusion-" +:+ substring 0 57 (_hash (JObj
    [("agent_run_id", JStr (ar_id run)); ("basis_decision_id", JStr (d_id basis));
     ("policy_version", JStr FUSION_POLICY_VERSION)])).

(** The input the advice was given on is the basis decision's, unchanged. *)
Definition _validate_frozen_input (db : DB) (run : AgentRun) (basis : Decision) :
  option (json * DecisionInputSnapshot) :=
  match row_of (decision_inputs db) (d_decision_input_id basis) with
  | None => None
  | Some input =>
      if negb (String.eqb (di_user_id input) (ar_owner_id run) &&
               String.eqb (di_market_snapshot_id input) (ar_market_snapshot_id run) &&
               String.eqb (d_input_snapshot_id basis) (ar_market_snapshot_id run) &&
               String.eqb (d_symbol basis) (ar_symbol run) && String.eqb (d_market basis) (ar_market run) &&
               String.eqb (d_decision_kind basis) "POSITION" && String.eqb (d_purpose basis) "TRADING" &&
               bool_decide (ar_analysis_context run = Some "POSITION")) then None
      else
        let position := get_field "position" (di_input input) in
        if negb (is_dict position && bool_decide (Some (_hash position) = ar_position_snapshot_hash run))
        then None
        else if negb (bool_decide (Some (_hash (default (JObj []) (ar_position_snapshot run))) =
                                   ar_position_snapshot_hash run))
        then None else Some (position, input)
  end.

Definition stages_of (run : AgentRun) (db : DB) : list AgentStageRun :=
  List.filter (fun st => String.eqb (ag_run_id st) (ar_id run)) (rows (agent_stages db)).

(** [by_role.get(role)]: one stage per role of a run. *)
Definition stage_of (role : string) (stages : list AgentStageRun) : option AgentStageRun :=
  List.find (fun st => String.eqb (ag_role st) role) stages.

Definition stage_succeeded (stages : list AgentStageRun) (role : string) : bool :=
  match stage_of role stages with
  | Some st => bool_decide (ag_state st = SG_SUCCEEDED)
  | None => false
  end.

(** The position is open and has not changed since the input was frozen. *)
Definition position_unchanged (db : DB) (payload : json) : exn + bool :=
  position_id ← item "position_id" payload;
  match positions db !! py_str position_id with
  | None => inr false
  | Some p =>
      if negb (bool_decide (p_state p = POS_OPEN)) then inr false else
      version ← item "version" payload;
      match int_of_json version with
      | Some v => inr ((p_version p =? v) && (0 <? p_quantity p))
      | None => inl (match version with JStr _ | JNum _ => ValueError | _ => TypeError end)
      end
  end.

Definition fused_core (action : Action) (confidence : decimal) (reason_codes : list string) : json :=
  JObj [("action", JStr (action_text action)); ("confidence", JStr (str_text confidence));
        ("risk_level", JStr (if bool_decide (action = ACT_FULL_SELL) then "HIGH" else "MEDIUM"));
        ("sell_ratio", if bool_decide (action = ACT_PARTIAL_SELL) then JStr "0.5" else JNull);
        ("reason_codes", codes_json reason_codes)].

Definition escalation_code (action : Action) : string :=
  if bool_decide (action = ACT_FULL_SELL) then "LLM_EXIT_RISK_HIGH" else "LLM_EXIT_RISK_ELEVATED".

Definition fused_decision (id request_id : string) (basis : Decision) (input : DecisionInputSnapshot)
  (core : AgentCoreOutputV2) (action : Action) : Decision :=
  let reason_codes := unique_codes (cv_reason_codes core ++ [escalation_code action]) in
  mkDecision id (Some (di_id input)) "TRADING" request_id (d_input_snapshot_id basis) (d_symbol basis)
    (d_market basis) "POSITION" "CRESTA_FUSION" FUSION_MODEL_ID FUSION_PROMPT_VERSION
    (d_schema_version basis) (d_scout_output basis)
    (fused_core action (cv_confidence core) reason_codes) action (cv_confidence core)
    (if bool_decide (action = ACT_FULL_SELL) then "HIGH" else "MEDIUM") (codes_json reason_codes)
    (d_valid_until basis) (d_configuration_version_id basis) (d_latency_ms basis).

(** The checks of [finalize_position_advisory] before anything is written: the
    state and code the run is finished with, or a stronger action. *)
Inductive advice :=
| Refused (state code : string)
| Escalates (basis : Decision) (input : DecisionInputSnapshot) (core : AgentCoreOutputV2)
    (action : Action).

Definition core_advice (basis : Decision) (input : DecisionInputSnapshot) (core : AgentCoreOutputV2) :
  advice :=
  if negb (bool_decide (cv_incomplete_roles core = [])) ||
     String.eqb (cv_shadow_assessment core) "UNKNOWN"
  then Refused "FAILED_SAFE" "FUSION_CORE_INCOMPLETE"
  else if dltb (cv_confidence core) MINIMUM_CONFIDENCE
  then Refused "NO_ESCALATION" "FUSION_CONFIDENCE_BELOW_THRESHOLD"
  else
    let advisory_action := assessment_action (cv_shadow_assessment core) in
    match action_severity (d_action basis), advisory_action ≫= action_severity, advisory_action with
    | Some basis_severity, Some advisory_severity, Some action =>
        if advisory_severity <=? basis_severity
        then Refused "NO_ESCALATION" "FUSION_NO_STRONGER_ACTION"
        else Escalates basis input core action
    | _, _, _ => Refused "FAILED_SAFE" "FUSION_ACTION_NOT_SUPPORTED"
    end.

Definition stage_advice (run : AgentRun) (basis : Decision) (input : DecisionInputSnapshot) (db : DB) :
  advice :=
  let stages := stages_of run db in
  if negb (forallb (stage_succeeded stages) REQUIRED_STAGES)
  then Refused "FAILED_SAFE" "FUSION_REQUIRED_STAGE_INCOMPLETE"
  else match stage_of "CORE" stages ≫= ag_output with
       | None => Refused "FAILED_SAFE" "FUSION_CORE_OUTPUT_MISSING"
       | Some output => match parse_core output with
                        | None => Refused "FAILED_SAFE" "FUSION_CORE_OUTPUT_INVALID"
                        | Some core => core_advice basis input core
                        end
       end.

Definition advise (run : AgentRun) (now : Z) (db : DB) : exn + advice :=
  match row_of (decisions db) (ar_basis_decision_id run) with
  | None => inr (Refused "FAILED_SAFE" "FUSION_BASIS_NOT_FOUND")
  | Some basis =>
      if negb (bool_decide (ar_fusion_policy_version run = Some FUSION_POLICY_VERSION))
      then inr (Refused "FAILED_SAFE" "FUSION_BASIS_NOT_FOUND")
      else if d_valid_until basis <=? now then inr (Refused "EXPIRED" "FUSION_BASIS_EXPIRED")
      else match _validate_frozen_input db run basis with
           | None => inr (Refused "FAILED_SAFE" "FUSION_INPUT_MISMATCH")
           | Some (payload, input) =>
               unchanged ← position_unchanged db payload;
               if negb unchanged then inr (Refused "FAILED_SAFE" "FUSION_POSITION_CHANGED")
               else inr (stage_advice run basis input db)
           end
  end.

(** A decision is routed like any other; [xrace] and [race] are what other
    sessions commit meanwhile. *)
Definition route_fused (decision : Decision) (user : User) (settings : Settings) (now : Z)
  (xrace : list DecisionExecution) (race : list TradingOrder) : prog unit :=
  correlation_id ← uuid7;
  route_trading_decision sha256 holidays decision user correlation_id settings (Some now) xrace race ;;
  mret tt.

Definition escalate (run : AgentRun) (user : User) (basis : Decision) (input : DecisionInputSnapshot)
  (core : AgentCoreOutputV2) (action : Action) (settings : Settings) (now : Z)
  (xrace : list DecisionExecution) (race : list TradingOrder) : prog (option Decision) :=
  let request_id := _request_id run basis in
  existing ← gets (fun db => decision_by_request db request_id);
  match existing with
  | Some existing =>
      route_fused existing user settings now xrace race ;;
      _finish (set_ar_fusion_decision_id run (Some (d_id existing))) "ESCALATED"
        "FUSION_DECISION_REUSED" ;;
      mret (Some existing)
  | None =>
      guard_or (bool_decide (action = ACT_PARTIAL_SELL) || bool_decide (action = ACT_FULL_SELL))
        AssertionError ;;
      id ← uuid7;
      let decision := fused_decision id request_id basis input core action in
      known ← gets (fun db => bool_decide (is_Some (decisions db !! id)));
      guard_or (negb known) IntegrityError ;;
      modify (put_decision decision) ;;
      route_fused decision user settings now xrace race ;;
      _finish (set_ar_fusion_decision_id run (Some (d_id decision))) "ESCALATED"
        (escalation_code action) ;;
      mret (Some decision)
  end.

Definition finalize_position_advisory (run : AgentRun) (settings : Settings) (now : Z)
  (xrace : list DecisionExecution) (race : list TradingOrder) : prog (option Decision) :=
  if negb (String.eqb (ar_purpose run) "TRADING_ADVISORY") then mret None
  else if negb (bool_decide (ar_fusion_state run = Some "PENDING"))
  then gets (fun db => row_of (decisions db) (ar_fusion_decision_id run))
  else
    advice ← gets (advise run now);
    advice ← of_result advice;
    match advice with
    | Refused state code => _finish run state code ;; mret None
    | Escalates basis input core action =>
        user ← gets (fun db => users db !! ar_owner_id run);
        match user with
        | Some user =>
            if String.eqb (u_status user) "ACTIVE"
            then escalate run user basis input core action settings now xrace race
            else _finish run "FAILED_SAFE" "FUSION_USER_NOT_ACTIVE" ;; mret None
        | None => _finish run "FAILED_SAFE" "FUSION_USER_NOT_ACTIVE" ;; mret None
        end
    end.
End Fusion.

(** ** What the fusion may do *)

Section FusionProps.
Context (sha256 : string -> string) (holidays : Z -> option (list Z)).
Context (parse_core : json -> option AgentCoreOutputV2).

(** The run as [_finish] leaves it. *)
Definition finished_run (run : AgentRun) (state code : string) : AgentRun :=
  set_ar_fusion_reason_code (set_ar_fusion_state run (Some state)) (Some code).

(** The position of the frozen input, still open in the same version. *)
Definition frozen_position (db : DB) (input : DecisionInputSnapshot) : Prop :=
  exists payload p v, get_field "position" (di_input input) = payload /\
     (exists id, item "position_id" payload = inr id /\ positions db !! py_str id = Some p) /\
     p_state p = POS_OPEN /\ 0 < p_quantity p /\ item "version" payload = inr v /\
     int_of_json v = Some (p_version p).

(** The evidence for an escalation of [basis] to [action]. *)
Record grounds (db : DB) (run : AgentRun) (now : Z) (basis : Decision) (input : DecisionInputSnapshot)
  (core : AgentCoreOutputV2) (action : Action) : Prop := mkGrounds {
  gr_basis : row_of (decisions db) (ar_basis_decision_id run) = Some basis;
  gr_valid : now < d_valid_until basis;
  gr_same : d_symbol basis = ar_symbol run /\ d_market basis = ar_market run /\
             d_purpose basis = "TRADING" /\ d_decision_kind basis = "POSITION" /\
             d_input_snapshot_id basis = ar_market_snapshot_id run;
  gr_input : row_of (decision_inputs db) (d_decision_input_id basis) = Some input;
  gr_owner : di_user_id input = ar_owner_id run /\
             di_market_snapshot_id input = ar_market_snapshot_id run;
  gr_frozen : frozen_position db input;
  gr_hash : ar_position_snapshot_hash run = Some (_hash sha256 (get_field "position" (di_input input)));
  gr_stages : forall role, role ∈ REQUIRED_STAGES -> exists st,
    st ∈ rows (agent_stages db) /\ ag_run_id st = ar_id run /\ ag_role st = role /\
     ag_state st = SG_SUCCEEDED;
  gr_core : exists st output, st ∈ rows (agent_stages db) /\ ag_run_id st = ar_id run /\
     ag_role st = "CORE" /\ ag_output st = Some output /\ parse_core output = Some core;
  gr_complete : cv_incomplete_roles core = [];
  gr_confidence : dleb MINIMUM_CONFIDENCE (cv_confidence core) = true;
  gr_action : assessment_action (cv_shadow_assessment core) = Some action;
  gr_stronger : exists a b, action_severity (d_action basis) = Some a /\
     action_severity action = Some b /\ a < b
}.

Lemma stage_of_Some role run db st : stage_of role (stages_of run db) = Some st ->
  st ∈ rows (agent_stages db) /\ ag_run_id st = ar_id run /\ ag_role st = role.
Proof.
  unfold stage_of, stages_of. intros H. apply List.find_some in H as [Hin Hr].
  apply List.filter_In in Hin as [Hin Hid]. apply String.eqb_eq in Hr, Hid.
  by apply list_elem_of_In in Hin.
Qed.

Lemma core_advice_inv basis input core basis' input' core' action :
  core_advice basis input core = Escalates basis' input' core' action ->
  basis' = basis /\ input' = input /\ core' = core /\ cv_incomplete_roles core = [] /\
  dleb MINIMUM_CONFIDENCE (cv_confidence core) = true /\
  assessment_action (cv_shadow_assessment core) = Some action /\
  exists a b, action_severity (d_action basis) = Some a /\ action_severity action = Some b /\ a < b.
Proof.
  unfold core_advice. destruct (bool_decide (cv_incomplete_roles core = [])) eqn:Ei; [|done].
  destruct (String.eqb _ "UNKNOWN"); [done|]. cbn [negb orb].
  destruct (dltb (cv_confidence core) MINIMUM_CONFIDENCE) eqn:Ec; [done|].
  destruct (action_severity (d_action basis)) as [a|]; [|done].
  destruct (assessment_action (cv_shadow_assessment core)) as [act|] eqn:Ea; cbn; [|done].
  destruct (action_severity act) as [b|] eqn:Eb; [|done].
  destruct (Z.leb_spec b a); [done|]. intros [= <- <- <- <-].
  apply bool_decide_eq_true in Ei. split_and!; try done; [|by exists a, b].
  rewrite <- (negb_involutive (dleb _ _)), <- dltb_negb_dleb, Ec. done.
Qed.

Lemma position_unchanged_inv db input payload : get_field "position" (di_input input) = payload ->
  position_unchanged db payload = inr true -> frozen_position db input.
Proof.
  intros Hp H. unfold position_unchanged in H. apply result_bind_inr in H as (id & Hid & H).
  destruct (positions db !! py_str id) as [p|] eqn:Hpos; [|done].
  destruct (bool_decide (p_state p = POS_OPEN)) eqn:Hs; [|done]. cbn [negb] in H.
  apply bool_decide_eq_true in Hs.
  apply result_bind_inr in H as (v & Hv & H). destruct (int_of_json v) as [n|] eqn:Hn; [|done].
  injection H as H. apply andb_true_iff in H as [H1 H2]. apply Z.eqb_eq in H1. apply Z.ltb_lt in H2.
  exists payload, p, v. split_and!; try done; [by exists id|congruence].
Qed.

Lemma advise_inv run now db basis input core action :
  advise sha256 parse_core run now db = inr (Escalates basis input core action) ->
  grounds db run now basis input core action.
Proof.
  unfold advise. destruct (row_of _ (ar_basis_decision_id run)) as [b|] eqn:Hb; [|done].
  destruct (bool_decide _); [|done]. cbn [negb].
  destruct (Z.leb_spec (d_valid_until b) now) as [|Hv]; [done|].
  unfold _validate_frozen_input. destruct (row_of _ (d_decision_input_id b)) as [di|] eqn:Hd; [|done].
  match goal with |- context [negb (?c && _ && _ && _ && _ && _ && _ && _)] => destruct (negb _) eqn:Hc; [done|] end.
  rewrite negb_false_iff, !andb_true_iff, !String.eqb_eq in Hc.
  destruct Hc as (((((((Hown & Hsnap) & Hbas) & Hsym) & Hmkt) & Hkind) & Hpur) & _).
  destruct (is_dict _); [|done]. cbn [andb].
  destruct (bool_decide (Some (_hash sha256 _) = ar_position_snapshot_hash run)) eqn:Hh; [|done].
  cbn [negb]. destruct (bool_decide (Some (_hash sha256 (default _ _)) = _)); [|done]. cbn [negb]. intros H.
  apply result_bind_inr in H as (u & Hu & H). destruct u; [|done]. cbn [negb] in H. injection H as H.
  unfold stage_advice in H. destruct (forallb _ REQUIRED_STAGES) eqn:Hst; [|done]. cbn [negb] in H.
  destruct (stage_of "CORE" (stages_of run db)) as [core_stage|] eqn:Hcs; [|done]. cbn [mbind option_bind] in H.
  destruct (ag_output core_stage) as [output|] eqn:Ho; [|done].
  destruct (parse_core output) as [c|] eqn:Hpc; [|done].
  apply core_advice_inv in H as (-> & -> & -> & ? & ? & ? & ?).
  apply bool_decide_eq_true in Hh.
  constructor; try done.
  - by eapply position_unchanged_inv.
  - intros role Hr. rewrite forallb_forall in Hst.
    specialize (Hst role ltac:(by apply list_elem_of_In)). unfold stage_succeeded in Hst.
    destruct (stage_of role _) as [st|] eqn:E; [|done]. apply stage_of_Some in E as (? & ? & ?).
    apply bool_decide_eq_true in Hst. by exists st.
  - apply stage_of_Some in Hcs as (? & ? & ?). by exists core_stage, output.
Qed.

Lemma refused_states run now db state code :
  advise sha256 parse_core run now db = inr (Refused state code) ->
  state ∈ ["NO_ESCALATION"; "EXPIRED"; "FAILED_SAFE"].
Proof.
  unfold advise. destruct (row_of _ _); [|intros [= <- _]; set_solver].
  destruct (negb _); [intros [= <- _]; set_solver|].
  destruct (_ <=? _); [intros [= <- _]; set_solver|].
  destruct (_validate_frozen_input _ _ _ _) as [[payload input]|]; [|intros [= <- _]; set_solver].
  intros H. apply result_bind_inr in H as (u & _ & H). destruct u; [|injection H as <- _; set_solver].
  injection H as H. unfold stage_advice in H. destruct (negb _); [injection H as <- _; set_solver|].
  destruct (_ ≫= ag_output); [|injection H as <- _; set_solver].
  destruct (parse_core _) as [core|]; [|injection H as <- _; set_solver].
  unfold core_advice in H. destruct (_ || _); [injection H as <- _; set_solver|].
  destruct (dltb _ _); [injection H as <- _; set_solver|].
  repeat case_match; simplify_eq; set_solver.
Qed.

(** The decision an escalation returns: the one already recorded for the run
    and its basis, or the fused one. *)
Definition escalated (db : DB) (run : AgentRun) (basis : Decision) (input : DecisionInputSnapshot)
  (core : AgentCoreOutputV2) (action : Action) (d : Decision) : Prop :=
  decision_by_request db (_request_id sha256 run basis) = Some d \/
  decision_by_request db (_request_id sha256 run basis) = None /\
  d = fused_decision (d_id d) (_request_id sha256 run basis) basis input core action.

Lemma wp_any {A} (m : prog A) (Q : Sess -> A + exn -> Prop) s : (forall s' r, Q s' r) -> wp m Q s.
Proof. unfold wp. destruct (m s). auto. Qed.

Lemma escalate_run run user basis input core action settings now xrace race s :
  wp (escalate sha256 holidays run user basis input core action settings now xrace race)
    (fun s' r => match r with
       | inl None => False
       | inl (Some d) => escalated (work s) run basis input core action d /\
           exists code, agent_runs (work s') !! ar_id run =
             Some (finished_run (set_ar_fusion_decision_id run (Some (d_id d))) "ESCALATED" code)
       | inr _ => True
       end) s.
Proof.
  unfold escalate. wp_step. wp_step. unfold after at 1.
  destruct (decision_by_request (work s) (_request_id sha256 run basis)) as [d|] eqn:Hreq.
  - wp_step. apply wp_any. intros s1 [u|e]; unfold after at 1; [|done].
    unfold _finish. repeat wp_step. split; [by left|]. eexists. cbn. by rewrite lookup_insert_eq.
  - wp_step. wp_step; unfold after at 1; [|done]. repeat (wp_step; []).
    wp_step; unfold after at 1; [|done]. repeat (wp_step; []).
    apply wp_any. intros s1 [u|e]; unfold after at 1; [|done].
    unfold _finish. repeat wp_step. split; [by right|]. eexists. cbn. by rewrite lookup_insert_eq.
Qed.

(** C26: The fusion of an advisory only escalates.  A pending advisory either
    writes nothing but its own refused state, or rests on complete grounds: the
    basis decision is still valid, for the same instrument, snapshot and owner,
    and its input unchanged, the position is open in the very version it was
    assessed in, all five stages of the run succeeded, and the stored output of
    its core, as the contract reads it, is complete, confident (0.70) and names
    an action strictly more severe than the basis; the fused decision is then a
    new one that sells that action's share of the same instrument within the
    validity of its basis, or the one recorded before for this run and basis,
    and the run names it.  When the fusion raises, it wrote nothing or had these
    grounds. *)
Theorem fusion_only_escalates run settings now xrace race s :
  ar_purpose run = "TRADING_ADVISORY" -> ar_fusion_state run = Some "PENDING" ->
  let '(s', r) := finalize_position_advisory sha256 holidays parse_core run settings now xrace race s in
  match r with
  | inl None => exists state code, state ∈ ["NO_ESCALATION"; "EXPIRED"; "FAILED_SAFE"] /\
      work s' = put_run (finished_run run state code) (work s) /\ disk s' = disk s
  | inl (Some d) => exists basis input core action,
      grounds (work s) run now basis input core action /\
      escalated (work s) run basis input core action d /\
      (exists user, users (work s) !! ar_owner_id run = Some user /\ u_status user = "ACTIVE") /\
      exists code, agent_runs (work s') !! ar_id run =
        Some (finished_run (set_ar_fusion_decision_id run (Some (d_id d))) "ESCALATED" code)
  | inr _ => s' = s \/ exists basis input core action, grounds (work s) run now basis input core action
  end.
Proof.
  intros Hp Hs. change (wp (finalize_position_advisory sha256 holidays parse_core run settings now xrace race)
    (fun s' r => match r with
     | inl None => exists state code, state ∈ ["NO_ESCALATION"; "EXPIRED"; "FAILED_SAFE"] /\
         work s' = put_run (finished_run run state code) (work s) /\ disk s' = disk s
     | inl (Some d) => exists basis input core action,
         grounds (work s) run now basis input core action /\
         escalated (work s) run basis input core action d /\
         (exists user, users (work s) !! ar_owner_id run = Some user /\ u_status user = "ACTIVE") /\
         exists code, agent_runs (work s') !! ar_id run =
           Some (finished_run (set_ar_fusion_decision_id run (Some (d_id d))) "ESCALATED" code)
     | inr _ => s' = s \/ exists basis input core action, grounds (work s) run now basis input core action
     end) s).
  unfold finalize_position_advisory. rewrite Hp, Hs, String.eqb_refl. cbn [negb].
  rewrite bool_decide_true by done. cbn [negb]. wp_step. wp_step. unfold after at 1.
  wp_step. apply wp_of_result; [|by left].
  intros [state code|basis input core action] Ha; unfold after at 1.
  - unfold _finish. repeat wp_step. exists state, code. split; [|done]. by eapply refused_states.
  - apply advise_inv in Ha as G. wp_step. wp_step. unfold after at 1.
    destruct (users (work s) !! ar_owner_id run) as [user|] eqn:Hu.
    2: { unfold _finish. repeat wp_step. do 2 eexists. split; [|done]. set_solver. }
    destruct (String.eqb_spec (u_status user) "ACTIVE") as [Hst|Hst].
    2: { unfold _finish. repeat wp_step. do 2 eexists. split; [|done]. set_solver. }
    eapply wp_mono; [apply escalate_run|]. intros s' [[d|]|e]; [|done|right; by exists basis, input, core, action].
    intros [He Hr]. exists basis, input, core, action. split; [done|]. split; [done|]. split; [by exists user|done].
Qed.
End FusionProps.

(** ** A concrete escalation *)

Definition demo_payload : json :=
  JObj [("position_id", JStr "pos"); ("version", JInt 3); ("state", JStr "OPEN")].

Definition demo_input : DecisionInputSnapshot :=
  mkDecisionInputSnapshot "in" "user-1" "TRADING" "scout-input-v1" "KRX" "005930" "snap" None day_now
    "NORMAL" "TRADING" (JObj [("position", demo_payload)]) "h".

Definition demo_basis : Decision :=
  mkDecision "basis" (Some "in") "TRADING" "req" "snap" "005930" "KRX" "POSITION" "CRESTA"
    "deterministic-position-v1" "mock-position-policy-v1" "1.0" (JObj []) (JObj []) ACT_HOLD
    (Dec 70 (-2)) "LOW" (JList []) (day_now + 5 * minute) None 0.

Definition demo_run : AgentRun :=
  mkAgentRun "run" "user-1" "TRADING_ADVISORY" "KRX" "005930" "snap" "h" "agent-dag-v6" (JObj []) "k"
    RUN_RUNNING None (Some "POSITION") (Some demo_payload) (Some (dumps demo_payload)) None
    (Some "basis") (Some FUSION_POLICY_VERSION) (Some "PENDING") None None None None None None
    (day_now + 5 * minute) (Some day_now) None day_now.

Definition demo_stage (role : string) : AgentStageRun :=
  mkAgentStageRun role "run" role 0 [] None None SG_SUCCEEDED "h" (Some (JObj [])) None None None None 1 1 1
    day_now None None None None day_now.

Definition demo_core (output : json) : option AgentCoreOutputV2 :=
  Some (mkAgentCoreOutputV2 "EXIT_RISK_HIGH" (Dec 85 (-2)) ["SUPPORT_LOST"] []).

Definition fusion_session : Sess :=
  let db := day_db MODE_AUTOMATIC {[ "pos" := day_position ]} in
  let db := set_decisions db {[ "basis" := demo_basis ]} in
  let db := set_decision_inputs db {[ "in" := demo_input ]} in
  let db := set_agent_runs db {[ "run" := demo_run ]} in
  let db := set_agent_stages db (list_to_map (map (fun role => (role, demo_stage role)) REQUIRED_STAGES)) in
  open_session db day_now day_ids.

Definition demo_fusion : Sess * (option Decision + exn) :=
  finalize_position_advisory (fun s => s) no_holidays demo_core demo_run (day_settings STAGE_SHADOW)
    day_now [] [] fusion_session.

(** The fused decision sells everything, and its execution is recorded. *)
Definition fused_full_sell (r : Sess * (option Decision + exn)) : bool :=
  match r with
  | (s', inl (Some d)) => bool_decide (d_action d = ACT_FULL_SELL) &&
      bool_decide (length (rows (executions (work s'))) = 1%nat)
  | _ => false
  end.

Lemma fusion_only_escalates_witness : exists s' d,
  demo_fusion = (s', inl (Some d)) /\ d_action d = ACT_FULL_SELL /\
  exists basis input core action,
    grounds (fun s => s) demo_core (work fusion_session) demo_run day_now basis input core action.
Proof.
  assert (H : fused_full_sell demo_fusion = true) by (vm_compute; reflexivity).
  destruct demo_fusion as [s' [[d|]|e]] eqn:E; try discriminate H.
  pose proof (fusion_only_escalates (fun s => s) no_holidays demo_core demo_run (day_settings STAGE_SHADOW)
    day_now [] [] fusion_session eq_refl eq_refl) as T.
  unfold demo_fusion in E. rewrite E in T.
  destruct T as (basis & input & core & action & G & _).
  exists s', d. split; [reflexivity|]. split; [|by exists basis, input, core, action].
  apply andb_true_iff in H as [H _]. by apply bool_decide_eq_true in H.
Defined.
