(* ===== verification/LlmCatalog.v ===== *)
(** * The catalogue of model providers

    [llm/discovery.py], [llm/registry.py] and [llm/parameter_policy.py]: the
    known providers, the endpoint of a registered one, the adapter that talks to
    it and the models it lists.  The reply of the provider to the listing is a
    parameter. *)

Set Warnings "-register-all".

From Stdlib Require Import ZArith Lia Ascii String.
From stdpp Require Import base numbers strings list.
From S2P Require Import Prelude Json Models Session PyText Regex.

Open Scope Z_scope.

Definition MAX_RESPONSE_BYTES : Z := 5 * 1024 * 1024.
Definition MAX_MODELS : nat := N.to_nat 10000.

Record ProviderConfigurationField := mkProviderConfigurationField {
  cf_key : string;
  cf_label : string;
  cf_minimum_length : nat;
  cf_maximum_length : nat
}.

Inductive AuthType := AUTH_BEARER | AUTH_BEARER_OPTIONAL | AUTH_X_API_KEY | AUTH_GOOGLE_API_KEY.

Record ProviderCatalogItem := mkProviderCatalogItem {
  pc_template_id : string;
  pc_label : string;
  pc_adapter_type : string;
  pc_endpoint : option string;
  pc_model_list_path : option string;
  pc_chat_path : option string;
  pc_auth_type : AuthType;
  pc_response_type : string;
  pc_parameter_profile : string;
  pc_can_register : bool;
  pc_support_level : string;
  pc_static_models : list string;
  pc_configuration_fields : list ProviderConfigurationField;
  pc_data_policy : string
}.

Record DiscoveredModel := mkDiscoveredModel {
  dm_provider_model_id : string;
  dm_display_name : string;
  dm_max_context_tokens : option Z;
  dm_max_output_tokens : option Z
}.

Definition _openai (template_id label endpoint : string) (models : option string) (chat : string)
  (auth : AuthType) (static : list string) (fields : list ProviderConfigurationField)
  (data_policy : string) : ProviderCatalogItem :=
  mkProviderCatalogItem template_id label "OPENAI_COMPATIBLE" (Some endpoint) models (Some chat) auth
    "generic" "openai" true "compatible" static fields data_policy.

Definition _ITEMS : list ProviderCatalogItem :=
  [mkProviderCatalogItem "openai" "OpenAI" "OPENAI_RESPONSES"
       (Some "https://api.openai.com/v1") (Some "/models")
       (Some "/responses") AUTH_BEARER "openai" "openai" true "compatible" [] [] "EXTERNAL_CLOUD";
   mkProviderCatalogItem "anthropic" "Anthropic" "ANTHROPIC_MESSAGES"
       (Some "https://api.anthropic.com/v1") (Some "/models")
       (Some "/messages") AUTH_X_API_KEY "openai" "anthropic" true "compatible" [] [] "EXTERNAL_CLOUD";
   mkProviderCatalogItem "google" "Google AI Studio" "GEMINI_GENERATE_CONTENT"
       (Some "https://generativelanguage.googleapis.com") (Some "/v1beta/models")
       (Some "/v1beta/models/{model}:generateContent") AUTH_GOOGLE_API_KEY "google" "gemini" true "compatible" [] [] "EXTERNAL_CLOUD";
   _openai "ai-novelist" "AI Novelist"
       "https://api.tringpt.com/v1" None "/chat/completions" AUTH_BEARER ["spiko_ultra"] [] "EXTERNAL_CLOUD";
   _openai "arliai" "ArliAI"
       "https://api.arliai.com" (Some "/model/all") "/v1/chat/completions" AUTH_BEARER [] [] "EXTERNAL_CLOUD";
   mkProviderCatalogItem "bedrock" "AWS Bedrock" "OPENAI_COMPATIBLE"
       None None
       None AUTH_BEARER "generic" "routed" false "coming_soon" [] [] "EXTERNAL_CLOUD";
   _openai "cerebras" "Cerebras"
       "https://api.cerebras.ai" (Some "/public/v1/models?format=openrouter") "/v1/chat/completions" AUTH_BEARER_OPTIONAL [] [] "EXTERNAL_CLOUD";
   _openai "cloudflare-ai-gateway" "Cloudflare AI Gateway"
       "https://api.cloudflare.com/client/v4/accounts/{accountId}/ai" None "/v1/chat/completions" AUTH_BEARER ["openai/gpt-5.4-mini"; "anthropic/claude-sonnet-4.6"; "google/gemini-3.5-flash"] [mkProviderConfigurationField "accountId" "Cloudflare Account ID" 1 64] "GATEWAY";
   _openai "crof-ai" "CrofAI"
       "https://crof.ai" (Some "/v1/models") "/v1/chat/completions" AUTH_BEARER [] [] "EXTERNAL_CLOUD";
   _openai "deepseek" "DeepSeek"
       "https://api.deepseek.com" (Some "/models") "/chat/completions" AUTH_BEARER ["deepseek-v4-flash"; "deepseek-v4-pro"] [] "EXTERNAL_CLOUD";
   _openai "digitalocean" "DigitalOcean"
       "https://inference.do-ai.run" (Some "/v1/models") "/v1/chat/completions" AUTH_BEARER [] [] "EXTERNAL_CLOUD";
   _openai "featherless" "Featherless"
       "https://api.featherless.ai/v1" (Some "/models") "/chat/completions" AUTH_BEARER [] [] "EXTERNAL_CLOUD";
   _openai "fireworks" "Fireworks AI"
       "https://api.fireworks.ai/inference" (Some "/v1/models") "/v1/chat/completions" AUTH_BEARER ["accounts/fireworks/routers/kimi-k2p5-turbo"] [] "EXTERNAL_CLOUD";
   mkProviderCatalogItem "gemini-express" "Gemini Express Mode" "GEMINI_GENERATE_CONTENT"
       None None
       None AUTH_BEARER "generic" "gemini" false "experimental" [] [] "EXTERNAL_CLOUD";
   mkProviderCatalogItem "copilot" "GitHub Copilot" "OPENAI_COMPATIBLE"
       None None
       None AUTH_BEARER "generic" "routed" false "coming_soon" [] [] "EXTERNAL_CLOUD";
   _openai "heroku-eu" "Heroku (EU)"
       "https://eu.inference.heroku.com" None "/v1/chat/completions" AUTH_BEARER ["claude-sonnet-4-6"; "kimi-k2-5"; "glm-4-7"] [] "EXTERNAL_CLOUD";
   _openai "heroku-us" "Heroku (US)"
       "https://us.inference.heroku.com" None "/v1/chat/completions" AUTH_BEARER ["claude-sonnet-4-6"; "kimi-k2-5"; "glm-4-7"] [] "EXTERNAL_CLOUD";
   _openai "lightning-ai" "Lightning AI"
       "https://lightning.ai" (Some "/api/v1/models") "/api/v1/chat/completions" AUTH_BEARER_OPTIONAL [] [] "EXTERNAL_CLOUD";
   _openai "llm-gateway" "LLM Gateway"
       "https://api.llmgateway.io/v1" (Some "/models?exclude_deprecated=true") "/chat/completions" AUTH_BEARER [] [] "GATEWAY";
   _openai "xiaomi-mimo-token-plan-ams" "MiMo Token Plan (Europe)"
       "https://token-plan-ams.xiaomimimo.com" None "/v1/chat/completions" AUTH_BEARER ["mimo-v2.5-pro"; "mimo-v2.5"] [] "EXTERNAL_CLOUD";
   _openai "xiaomi-mimo-token-plan-sgp" "MiMo Token Plan (Singapore)"
       "https://token-plan-sgp.xiaomimimo.com" None "/v1/chat/completions" AUTH_BEARER ["mimo-v2.5-pro"; "mimo-v2.5"] [] "EXTERNAL_CLOUD";
   _openai "nano-gpt" "NanoGPT"
       "https://nano-gpt.com/api" (Some "/v1/models?detailed=true") "/v1/chat/completions" AUTH_BEARER_OPTIONAL [] [] "EXTERNAL_CLOUD";
   _openai "nano-gpt-subscription" "NanoGPT Subscription"
       "https://nano-gpt.com/api/subscription/v1" (Some "/models?detailed=true") "/chat/completions" AUTH_BEARER_OPTIONAL [] [] "EXTERNAL_CLOUD";
   _openai "neuralwatt" "Neuralwatt Cloud"
       "https://api.neuralwatt.com/v1" (Some "/models") "/chat/completions" AUTH_BEARER_OPTIONAL [] [] "EXTERNAL_CLOUD";
   mkProviderCatalogItem "novelai" "NovelAI" "OPENAI_COMPATIBLE"
       None None
       None AUTH_BEARER "generic" "novelai" false "coming_soon" [] [] "EXTERNAL_CLOUD";
   _openai "novita" "Novita AI"
       "https://api.novita.ai/openai" (Some "/v1/models") "/v1/chat/completions" AUTH_BEARER [] [] "EXTERNAL_CLOUD";
   _openai "novita-coding" "Novita Coding"
       "https://api.novita.ai/openai" None "/v1/chat/completions" AUTH_BEARER ["glm-5"; "kimi-k2.5"; "deepseek-v3.2"] [] "EXTERNAL_CLOUD";
   _openai "ollama-cloud" "Ollama Cloud"
       "https://ollama.com" (Some "/v1/models") "/v1/chat/completions" AUTH_BEARER [] [] "EXTERNAL_CLOUD";
   _openai "opencode-go" "OpenCode Go"
       "https://opencode.ai/zen/go" (Some "/v1/models") "/v1/chat/completions" AUTH_BEARER_OPTIONAL [] [] "EXTERNAL_CLOUD";
   _openai "openrouter" "OpenRouter"
       "https://openrouter.ai/api" (Some "/v1/models") "/v1/chat/completions" AUTH_BEARER [] [] "GATEWAY";
   _openai "siliconflow" "SiliconFlow"
       "https://api.siliconflow.com/v1" (Some "/models?sub_type=chat") "/chat/completions" AUTH_BEARER [] [] "EXTERNAL_CLOUD";
   _openai "synthetic" "Synthetic"
       "https://api.synthetic.new" (Some "/v1/models") "/v1/chat/completions" AUTH_BEARER [] [] "EXTERNAL_CLOUD";
   _openai "together" "Together AI"
       "https://api.together.xyz/v1" (Some "/models") "/chat/completions" AUTH_BEARER [] [] "EXTERNAL_CLOUD";
   _openai "venice-ai" "Venice AI"
       "https://api.venice.ai/api/v1" (Some "/models?type=text") "/chat/completions" AUTH_BEARER [] [] "EXTERNAL_CLOUD";
   _openai "vercel-ai" "Vercel AI Gateway"
       "https://ai-gateway.vercel.sh" (Some "/v1/models") "/v1/chat/completions" AUTH_BEARER [] [] "GATEWAY";
   mkProviderCatalogItem "vertex" "Vertex AI" "GEMINI_GENERATE_CONTENT"
       None None
       None AUTH_BEARER "generic" "routed" false "coming_soon" [] [] "EXTERNAL_CLOUD";
   _openai "wellspring" "Wellspring"
       "https://wellspring.encrypt.gay/v1" (Some "/models") "/chat/completions" AUTH_BEARER [] [] "EXTERNAL_CLOUD";
   _openai "xiaomi-mimo" "Xiaomi MiMo"
       "https://api.xiaomimimo.com" None "/v1/chat/completions" AUTH_BEARER ["mimo-v2.5-pro"; "mimo-v2.5"] [] "EXTERNAL_CLOUD";
   _openai "z-ai" "Z.ai"
       "https://api.z.ai/api/paas/v4" None "/chat/completions" AUTH_BEARER ["glm-5.2"; "glm-5"; "glm-4.7"] [] "EXTERNAL_CLOUD";
   _openai "z-ai-coding" "Z.ai GLM Coding Plan"
       "https://api.z.ai/api/coding/paas/v4" None "/chat/completions" AUTH_BEARER ["glm-5.2"; "glm-5-turbo"; "glm-4.7"] [] "EXTERNAL_CLOUD"].

Definition FEATURED : list string := ["openai"; "anthropic"; "google"].
Definition CATALOG : list (string * ProviderCatalogItem) := dict_of pc_template_id _ITEMS.
Definition LEGACY_TEMPLATE_IDS : list (string * string) :=
  [("OPENAI_RESPONSES", "openai"); ("ANTHROPIC_MESSAGES", "anthropic");
   ("GEMINI_GENERATE_CONTENT", "google")].

(** Python's order of two sort keys. *)
Definition label_before (a b : ProviderCatalogItem) : bool :=
  match String.compare (lower (pc_label a)) (lower (pc_label b)) with
  | Lt => true
  | Eq => String.leb (pc_template_id a) (pc_template_id b)
  | Gt => false
  end.

Definition catalog_items : list ProviderCatalogItem :=
  omap (fun id => dict_get id CATALOG) FEATURED ++
  sort_by label_before
    (List.filter (fun item => negb (bool_decide (pc_template_id item ∈ FEATURED))) _ITEMS).

Definition get_template (template_or_adapter : string) : exn + ProviderCatalogItem :=
  let key := default template_or_adapter (assoc template_or_adapter LEGACY_TEMPLATE_IDS) in
  match dict_get key CATALOG with
  | Some item => inr item
  | None => inl (ModelDiscoveryError "PROVIDER_DISCOVERY_UNSUPPORTED" 422)
  end.

(** [char.isalnum() or char in "_-"] on ASCII text. *)
Definition word_char (c : ascii) : bool :=
  let n := nat_of_ascii (lower_char c) in
  is_digit c || (Nat.leb 97 n && Nat.leb n 122) || Nat.eqb n 95 || Nat.eqb n 45.

Definition configuration_valid (config : ProviderConfigurationField) (value : string) : bool :=
  Nat.leb (cf_minimum_length config) (String.length value) &&
  Nat.leb (String.length value) (cf_maximum_length config) && all_chars word_char value.

Fixpoint fill_endpoint (endpoint : string) (supplied : list (string * string))
  (fields : list ProviderConfigurationField) : exn + string :=
  match fields with
  | [] => inr endpoint
  | config :: fields =>
      let value := strip (default EmptyString (assoc (cf_key config) supplied)) in
      if negb (configuration_valid config value)
      then inl (ModelDiscoveryError "PROVIDER_CONFIGURATION_INVALID" 422)
      else fill_endpoint (replace ("{" +:+ cf_key config +:+ "}") value endpoint) supplied fields
  end.

Definition resolve_endpoint (template : ProviderCatalogItem) (configuration : option (list (string * string))) :
  exn + string :=
  match pc_endpoint template with
  | Some endpoint =>
      if negb (pc_can_register template) || String.eqb endpoint EmptyString
      then inl (ModelDiscoveryError "PROVIDER_REGISTRATION_UNAVAILABLE" 422)
      else
        endpoint ← fill_endpoint endpoint (default [] configuration) (pc_configuration_fields template);
        if contains "{" endpoint then inl (ModelDiscoveryError "PROVIDER_CONFIGURATION_INVALID" 422)
        else inr endpoint
  | None => inl (ModelDiscoveryError "PROVIDER_REGISTRATION_UNAVAILABLE" 422)
  end.

Definition _headers (template : ProviderCatalogItem) (credential : string) : list (string * string) :=
  match pc_auth_type template with
  | AUTH_X_API_KEY => [("x-api-key", credential); ("anthropic-version", "2023-06-01")]
  | AUTH_GOOGLE_API_KEY => [("x-goog-api-key", credential)]
  | _ => [("Authorization", "Bearer " +:+ credential)]
  end.

(** ** The models a provider lists *)

(** A boolean is an int in Python. *)
Definition _positive_int (value : json) : option Z :=
  match value with
  | JInt n => if 0 <? n then Some n else None
  | JBool true => Some 1
  | _ => None
  end.

(** [x or y] *)
Definition json_or (x y : json) : json := if truthy x then x else y.

Definition text_of_json (v : json) : string := match v with JStr s => s | _ => EmptyString end.

(** The id, name and limits an entry of the list announces; [None] is an entry
    that is passed over. *)
Definition model_entry (google : bool) (item : json) : option (string * json * option Z * option Z) :=
  match item with
  | JStr s => Some (s, JStr s, None, None)
  | JObj _ =>
      if google then
        let methods := get_field "supportedGenerationMethods" item in
        let excluded := match methods with
                        | JList l => negb (existsb (fun v => match v with
                                             | JStr s => String.eqb s "generateContent"
                                             | _ => false end) l)
                        | _ => false
                        end in
        if excluded then None
        else
          let model_id := match get_field "name" item with
                          | JStr s => remove_prefix "models/" s | _ => EmptyString end in
          Some (model_id, json_or (get_field "displayName" item) (JStr model_id),
                _positive_int (get_field "inputTokenLimit" item),
                _positive_int (get_field "outputTokenLimit" item))
      else
        let model_id := text_of_json (json_or (json_or (get_field "id" item) (get_field "model" item))
                                        (get_field "name" item)) in
        Some (model_id,
              json_or (json_or (get_field "display_name" item) (get_field "displayName" item))
                (JStr model_id),
              _positive_int (get_field "context_window" item),
              _positive_int (get_field "max_output_tokens" item))
  | _ => None
  end.

Definition OTHER_MODALITIES : list string :=
  ["dall-e"; "embedding"; "moderation"; "realtime"; "transcribe"; "tts"; "whisper"; "image"; "audio"].

Definition model_refused (template : ProviderCatalogItem) (model_id : string) : bool :=
  (String.eqb (pc_template_id template) "openai" &&
   existsb (fun marker => contains marker (lower model_id)) OTHER_MODALITIES) ||
  String.eqb model_id EmptyString || Nat.ltb 128 (String.length model_id).

Fixpoint parse_entries (template : ProviderCatalogItem) (seen : list string) (source : list json) :
  list DiscoveredModel :=
  match source with
  | [] => []
  | item :: source =>
      match model_entry (String.eqb (pc_response_type template) "google") item with
      | None => parse_entries template seen source
      | Some (raw_id, display, context, output) =>
          let model_id := strip raw_id in
          if model_refused template model_id || bool_decide (model_id ∈ seen)
          then parse_entries template seen source
          else mkDiscoveredModel model_id (slice 0 128 (py_str display)) context output ::
               parse_entries template (model_id :: seen) source
      end
  end.

Definition json_list (v : json) : option (list json) := match v with JList l => Some l | _ => None end.

Definition _parse_models (template : ProviderCatalogItem) (payload : json) :
  exn + list DiscoveredModel :=
  match payload with
  | JObj _ =>
      let key := if String.eqb (pc_response_type template) "google" then "models" else "data" in
      let source := match json_list (get_field key payload) with
                    | Some l => Some l
                    | None => json_list (get_field "models" payload)
                    end in
      match source with
      | None => inl (ModelDiscoveryError "PROVIDER_RESPONSE_INVALID" 502)
      | Some l => if Nat.ltb MAX_MODELS (length l)
                  then inl (ModelDiscoveryError "PROVIDER_MODEL_LIMIT_EXCEEDED" 502)
                  else inr (parse_entries template [] l)
      end
  | _ => inl (ModelDiscoveryError "PROVIDER_RESPONSE_INVALID" 502)
  end.

(** The reply to the listing: the status, the declared length, the length of
    the body and its JSON, which may not parse; or no reply. *)
Inductive listing :=
| ListTimeout
| ListNetworkError
| ListReply (status : Z) (declared : option Z) (size : Z) (body : option json).

Definition listed_models (template : ProviderCatalogItem) (reply : listing) :
  exn + list DiscoveredModel :=
  match reply with
  | ListTimeout => inl (ModelDiscoveryError "PROVIDER_TIMEOUT" 504)
  | ListNetworkError => inl (ModelDiscoveryError "PROVIDER_NETWORK_FAILED" 502)
  | ListReply status declared size body =>
      if (300 <=? status) && (status <? 400) then inl (ModelDiscoveryError "PROVIDER_REDIRECT_REJECTED" 502)
      else if (status =? 401) || (status =? 403) then inl (ModelDiscoveryError "PROVIDER_AUTH_FAILED" 422)
      else if status =? 429 then inl (ModelDiscoveryError "PROVIDER_RATE_LIMITED" 429)
      else if 400 <=? status then inl (ModelDiscoveryError "PROVIDER_UPSTREAM_FAILED" 502)
      else if (match declared with Some n => MAX_RESPONSE_BYTES <? n | None => false end) ||
              (MAX_RESPONSE_BYTES <? size)
      then inl (ModelDiscoveryError "PROVIDER_RESPONSE_TOO_LARGE" 502)
      else match body with
           | None => inl (ModelDiscoveryError "PROVIDER_NETWORK_FAILED" 502)
           | Some payload => _parse_models template payload
           end
  end.

Definition add_models (models : list (string * DiscoveredModel)) (l : list DiscoveredModel) :
  list (string * DiscoveredModel) :=
  foldl (fun d item => dict_set (dm_provider_model_id item) item d) models l.

Definition discover_models (template_or_adapter : string) (configuration : option (list (string * string)))
  (endpoint_override : option string) (reply : listing) : exn + list DiscoveredModel :=
  template ← get_template template_or_adapter;
  _ ← (match endpoint_override with
       | Some e => if String.eqb e EmptyString then resolve_endpoint template configuration else inr e
       | None => resolve_endpoint template configuration
       end);
  let static := add_models [] (map (fun id => mkDiscoveredModel id id None None) (pc_static_models template)) in
  models ← (match pc_model_list_path template with
            | Some path => listed ← listed_models template reply; inr (add_models static listed)
            | None => inr static
            end);
  match models with
  | [] => inl (ModelDiscoveryError "PROVIDER_MODELS_EMPTY" 502)
  | _ => inr (take MAX_MODELS models.*2)
  end.

(** ** Adapters *)

(** [ProviderRegistry.resolve]: which adapter serves a provider. *)
Inductive LlmProviderAdapter :=
| MockProviderAdapter
| HttpAdapter (adapter_type endpoint credential : string) (chat_path : option string).

Definition HTTP_ADAPTERS : list string :=
  ["OPENAI_RESPONSES"; "ANTHROPIC_MESSAGES"; "GEMINI_GENERATE_CONTENT"; "OPENAI_COMPATIBLE"].

(** [None] raises [AdapterNotImplementedError]. *)
Definition resolve (adapter_type : string) (endpoint credential chat_path : option string) :
  option LlmProviderAdapter :=
  if String.eqb adapter_type "MOCK" then Some MockProviderAdapter
  else if bool_decide (adapter_type ∈ HTTP_ADAPTERS) then
    match endpoint, credential with
    | Some e, Some c =>
        if String.eqb e EmptyString || String.eqb c EmptyString then None
        else Some (HttpAdapter adapter_type e c
                     (if String.eqb adapter_type "OPENAI_COMPATIBLE" then chat_path else None))
    | _, _ => None
    end
  else None.

Definition _SERVICE_TIER_TEMPLATES : list string := ["openai"; "llm-gateway"; "vercel-ai"].

Definition supports_service_tier (provider_template_id : option string) : bool :=
  match provider_template_id with Some id => bool_decide (id ∈ _SERVICE_TIER_TEMPLATES) | None => false end.

(** ** What a model id tells of its parameters *)

(** [re.IGNORECASE] on a text in lower case. *)
Definition _OPENAI_REASONING_MODEL : regex :=
  seqs [RStart; optional (lit "openai/");
        RAlt (lit "gpt-5") (seqs [lit "o"; RClass (fun c => bool_decide (c ∈ ["1"; "3"; "4"]%char));
                                  RAlt (lit "-") REnd])].
Definition _GEMINI_3_MODEL : regex :=
  seqs [RAlt RStart (lit "/"); lit "gemini-3"; RAlt (RClass (fun c => bool_decide (c ∈ ["."; "-"]%char))) REnd].

Definition is_openai_reasoning_model (model_id : string) : bool :=
  re_search _OPENAI_REASONING_MODEL (lower (strip model_id)).
Definition uses_completion_token_parameter (model_id : string) : bool := is_openai_reasoning_model model_id.
Definition is_gemini_3_model (model_id : string) : bool := re_search _GEMINI_3_MODEL (lower (strip model_id)).

Example model_ids_read :
  (map is_openai_reasoning_model ["gpt-5.4-mini"; " OpenAI/o3"; "o1-mini"; "o1x"; "gpt-4o"; "azure/gpt-5"],
   map is_gemini_3_model ["gemini-3-pro"; "google/Gemini-3.5-flash"; "gemini-30"; "models/gemini-3"])
  = ([true; true; true; false; false; false], [true; true; false; true]).
Proof. vm_compute. reflexivity. Qed.
