(* ===== verification/LlmTables.v ===== *)
(** * The store of credentials and the tables of the model profiles

    [llm/secrets.py] over the files of its directory, and the versioned rows of
    providers, models, prompts and routes. *)

Set Warnings "-register-all".

From Stdlib Require Import ZArith Lia Ascii String.
From stdpp Require Import base numbers strings list gmap.
From S2P Require Import Prelude Decimal Json Models Session DecimalText PyText Regex.

Open Scope Z_scope.

(** * The files of the credentials

    [llm/secrets.py]: one file per provider in one directory.  The directory is
    the part of the session that neither a commit nor a rollback touches; what
    the file system refuses is a parameter. *)

Definition with_secrets (f : gmap string string -> gmap string string) (s : Sess) : Sess :=
  mkSess (disk s) (work s) (clock s) (uuids s) (uuid_ix s) (wire s) (f (secret_files s)).

Definition files_of {A} (f : gmap string string -> A) : prog A := fun s => (s, inl (f (secret_files s))).
Definition change_files (f : gmap string string -> gmap string string) : prog unit :=
  fun s => (with_secrets f s, inl tt).

Lemma wp_files_of {A} (f : gmap string string -> A) Q s : Q s (inl (f (secret_files s))) -> wp (files_of f) Q s.
Proof. done. Qed.
Lemma wp_change_files f Q s : Q (with_secrets f s) (inl tt) -> wp (change_files f) Q s.
Proof. done. Qed.

(** What the operating system refuses: the directory, a file of it. *)
Record FileFaults := mkFileFaults {
  ff_directory : bool;
  ff_file : string -> bool
}.

Definition no_faults : FileFaults := mkFileFaults false (fun _ => false).

Definition ref_char (c : ascii) : bool :=
  let n := nat_of_ascii c in is_digit c || (Nat.leb 97 n && Nat.leb n 102) || Nat.eqb n 45.

Definition SECRET_REF_PATTERN : regex :=
  seqs [RStart; lit "provider-"; times 36 (RClass ref_char); lit ".key"; REnd].

Definition secret_ref_ok (ref : string) : bool := re_fullmatch SECRET_REF_PATTERN ref.

Definition ref_for_provider (provider_id : string) : exn + string :=
  let secret_ref := "provider-" +:+ provider_id +:+ ".key" in
  if secret_ref_ok secret_ref then inr secret_ref else inl (LlmSecretError "LLM_SECRET_REF_INVALID").

Definition nul : string := String (ascii_of_nat 0) EmptyString.

Definition credential_invalid (value : string) : bool :=
  String.eqb value EmptyString || Nat.ltb (N.to_nat 8192) (String.length value) || contains nul value.

Definition line_feed : string := String (ascii_of_nat 10) EmptyString.

Section Store.
Context (faults : FileFaults).

(** The file is written aside and then replaces the old one. *)
Definition write_provider_credential (provider_id credential : string) : prog string :=
  let value := strip credential in
  guard_or (negb (credential_invalid value)) (LlmSecretError "LLM_CREDENTIAL_INVALID") ;;
  guard_or (negb (ff_directory faults)) FileError ;;
  secret_ref ← of_result (ref_for_provider provider_id);
  guard_or (negb (ff_file faults secret_ref)) FileError ;;
  change_files (insert secret_ref (value +:+ line_feed)) ;;
  mret secret_ref.

(** [_path] *)
Definition _path (secret_ref : string) : prog unit :=
  guard_or (secret_ref_ok secret_ref) (LlmSecretError "LLM_SECRET_REF_INVALID").

Definition read (secret_ref : string) : prog string :=
  _path secret_ref ;;
  text ← files_of (lookup secret_ref);
  match text with
  | Some text =>
      let value := strip text in
      guard_or (negb (ff_file faults secret_ref) && negb (String.eqb value EmptyString))
        (LlmSecretError "LLM_CREDENTIAL_UNREADABLE") ;;
      mret value
  | None => raise (LlmSecretError "LLM_CREDENTIAL_UNREADABLE")
  end.

Definition delete_secret (secret_ref : string) : prog unit :=
  _path secret_ref ;;
  guard_or (negb (ff_file faults secret_ref)) (LlmSecretError "LLM_CREDENTIAL_DELETE_FAILED") ;;
  change_files (delete secret_ref).
End Store.

(** ** What is written is read *)

Lemma rstrip_space s c : is_space c = true -> rstrip (s +:+ String c EmptyString) = rstrip s.
Proof.
  intros Hc. induction s as [|d s IH].
  - change (rstrip (String c EmptyString) = EmptyString). cbn. by rewrite Hc.
  - rewrite string_cons_app. cbn [rstrip]. by rewrite IH.
Qed.

Lemma lstrip_app s t : lstrip s <> EmptyString -> lstrip (s +:+ t) = lstrip s +:+ t.
Proof.
  induction s as [|c s IH]; [done|]. rewrite string_cons_app. cbn [lstrip]. by destruct (is_space c).
Qed.

Lemma lstrip_idem s : lstrip (lstrip s) = lstrip s.
Proof. induction s as [|c s IH]; cbn; [done|]. destruct (is_space c) eqn:E; [done|]. cbn. by rewrite E. Qed.

Lemma rstrip_idem s : rstrip (rstrip s) = rstrip s.
Proof.
  induction s as [|c s IH]; cbn; [done|]. destruct (rstrip s) as [|d r] eqn:E.
  - destruct (is_space c) eqn:Ec; cbn; [done|by rewrite Ec].
  - cbn in *. by rewrite IH.
Qed.

Lemma lstrip_rstrip s : lstrip s = s -> lstrip (rstrip s) = rstrip s.
Proof.
  destruct s as [|c s]; [done|]. cbn. destruct (is_space c) eqn:E; intros H.
  - exfalso. assert (Hl : forall t, (String.length (lstrip t) <= String.length t)%nat).
    { induction t as [|d t IH]; cbn; [lia|]. destruct (is_space d); cbn; lia. }
    specialize (Hl s). rewrite H in Hl. cbn in Hl. lia.
  - destruct (rstrip s); cbn; by rewrite E.
Qed.

Lemma strip_idem s : strip (strip s) = strip s.
Proof.
  unfold strip. rewrite (lstrip_rstrip (lstrip s)) by apply lstrip_idem. apply rstrip_idem.
Qed.

Lemma strip_line s : strip s <> EmptyString -> strip (strip s +:+ line_feed) = strip s.
Proof.
  intros H. unfold strip at 1, line_feed. rewrite lstrip_app.
  - rewrite rstrip_space by done. change (strip (strip s) = strip s). apply strip_idem.
  - unfold strip. by rewrite (lstrip_rstrip (lstrip s)) by apply lstrip_idem.
Qed.

Lemma ref_for_provider_ok id ref : ref_for_provider id = inr ref -> secret_ref_ok ref = true.
Proof. unfold ref_for_provider. destruct (secret_ref_ok _) eqn:E; [|done]. by intros [= <-]. Qed.

(** A credential that was stored is read back, up to the blanks around it,
    and the files of the other providers are as they were. *)
Theorem credential_roundtrip faults id credential s s' ref :
  write_provider_credential faults id credential s = (s', inl ref) ->
  read faults ref s' = (s', inl (strip credential)) /\
  (forall other, other <> ref -> secret_files s' !! other = secret_files s !! other) /\
  disk s' = disk s /\ work s' = work s.
Proof.
  intros E.
  refine (wp_elim _ (fun s' r => forall ref, r = inl ref -> read faults ref s' = (s', inl (strip credential)) /\
    (forall other, other <> ref -> secret_files s' !! other = secret_files s !! other) /\
    disk s' = disk s /\ work s' = work s) s s' _ _ E ref eq_refl).
  unfold write_provider_credential. repeat wp_step; try done.
  match goal with H : ref_for_provider _ = inr _ |- _ => apply ref_for_provider_ok in H; rename H into Hr end.
  apply wp_change_files. repeat wp_step. intros ? [= <-]. unfold credential_invalid in *. bool_to_prop.
  split_and!; try done; [|intros other Ho; cbn; by rewrite lookup_insert_ne].
  unfold read, _path, guard_or, files_of, mbind, prog_bind, mret, prog_ret. rewrite Hr. cbn.
  rewrite lookup_insert_eq, strip_line by (by apply String.eqb_neq). by rewrite H2, H.
Qed.

(** * The tables of the model profiles

    Providers, models, prompts and routes: the rows, their audit and the update
    of a row that carries a version.  SQLAlchemy adds the version that was read
    to the condition of the update ([version_id_col]); a row that changed or
    vanished since raises [StaleDataError]. *)

Definition put_provider (p : LlmProviderProfile) (db : DB) : DB :=
  set_llm_providers db (<[lp_id p := p]> (llm_providers db)).
Definition put_model (m : LlmModelProfile) (db : DB) : DB :=
  set_llm_models db (<[lm_id m := m]> (llm_models db)).
Definition put_prompt (q : LlmPromptProfile) (db : DB) : DB :=
  set_llm_prompts db (<[lq_id q := q]> (llm_prompts db)).
Definition put_route (r : LlmRoleRoute) (db : DB) : DB :=
  set_llm_routes db (<[lr_id r := r]> (llm_routes db)).

(** A table whose rows carry a version. *)
Class Versioned (A : Type) := {
  rows_by_id : DB -> gmap string A;
  set_rows : DB -> gmap string A -> DB;
  row_version : A -> Z
}.

#[export] Instance providers_versioned : Versioned LlmProviderProfile :=
  {| rows_by_id := llm_providers; set_rows := set_llm_providers; row_version := lp_version |}.
#[export] Instance models_versioned : Versioned LlmModelProfile :=
  {| rows_by_id := llm_models; set_rows := set_llm_models; row_version := lm_version |}.
#[export] Instance prompts_versioned : Versioned LlmPromptProfile :=
  {| rows_by_id := llm_prompts; set_rows := set_llm_prompts; row_version := lq_version |}.
#[export] Instance routes_versioned : Versioned LlmRoleRoute :=
  {| rows_by_id := llm_routes; set_rows := set_llm_routes; row_version := lr_version |}.

Section Update.
Context {A : Type} `{Versioned A}.

(** [UPDATE … WHERE id = … AND version = …] *)
Definition update_row (id : string) (version : Z) (f : A -> A) : prog unit :=
  found ← gets (fun db => rows_by_id db !! id);
  match found with
  | Some row =>
      guard_or (row_version row =? version) StaleDataError ;;
      modify (fun db => set_rows db (<[id := f row]> (rows_by_id db)))
  | None => raise StaleDataError
  end.

Lemma wp_update_row id version f Q s :
  (forall row, rows_by_id (work s) !! id = Some row -> row_version row = version ->
     Q (with_work (fun db => set_rows db (<[id := f row]> (rows_by_id db))) s) (inl tt)) ->
  ((rows_by_id (work s) !! id = None \/
    exists row, rows_by_id (work s) !! id = Some row /\ row_version row <> version) ->
   Q s (inr StaleDataError)) ->
  wp (update_row id version f) Q s.
Proof.
  intros H1 H2. unfold update_row. repeat wp_step.
  - apply H1; [done|]. by apply Z.eqb_eq.
  - apply H2. right. eexists. split; [done|]. by apply Z.eqb_neq.
  - apply H2. by left.
Qed.
End Update.

Definition llm_audit (user : User) (action target correlation_id : string) (metadata : list (string * json)) :
  DB -> DB :=
  add_audit (mkAuditLog "USER" (Some (u_id user)) action (Some target) "SUCCESS" None None correlation_id
               (JObj metadata)).
