(* ===== verification/LlmPrompts.v ===== *)
(** * Prompts

    [llm/prompts.py]: the system prompts of an owner, numbered per role; one is
    usable once its text was searched for instructions a model must not get. *)

Set Warnings "-register-all".

From Stdlib Require Import ZArith Lia Ascii String.
From stdpp Require Import base numbers strings list gmap pretty.
From S2P Require Import Prelude Decimal Json DecimalText Models Session PyText Regex LlmCatalog LlmTables.

Open Scope Z_scope.

Definition PROMPT_ROLES : list string :=
  ["TECHNICAL_SCOUT"; "NEWS_DISCLOSURE_SCOUT"; "MARKET_SECTOR_SCOUT"; "POSITION_RISK_SCOUT"; "CORE"].

Definition spaces : regex := RStar is_space.
Definition spaces1 : regex := plus is_space.
Definition whole (l : list regex) : regex := seqs (RWord :: l ++ [RWord]).
Definition alternatives (l : list string) : regex :=
  match l with [] => REmpty | t :: l => foldl (fun r t => RAlt r (lit t)) (lit t) l end.

(** [re.IGNORECASE] on a text in lower case. *)
Definition FORBIDDEN_PATTERNS : list regex :=
  [whole [lit "api"; optional (RClass (fun c => bool_decide (c ∈ [" "; "_"; "-"]%char))); lit "key"];
   whole [lit "credential"; optional (lit "s")];
   whole [lit "totp"];
   whole [lit "authorization"; spaces1; lit "header"];
   lit "/run/secrets";
   whole [lit "shell"; spaces1; lit "command"];
   whole [lit "subprocess"];
   whole [lit "broker"; spaces1; lit "api"];
   whole [alternatives ["place"; "execute"; "submit"]; spaces1;
          optional (seqs [lit "a"; optional (lit "n"); spaces1]); lit "order"];
   seqs [lit "주문"; spaces; alternatives ["실행"; "전송"; "제출"]];
   seqs [lit "증권사"; spaces; lit "api"; spaces; alternatives ["호출"; "사용"]]].

Definition prompt_error (code : string) : exn := LlmPromptError code 422.

Definition carriage_return : string := String (ascii_of_nat 13) EmptyString.
Definition new_line : string := String (ascii_of_nat 10) EmptyString.

(** A control character other than a newline or a tab. *)
Definition control_char (c : ascii) : bool :=
  let n := nat_of_ascii c in Nat.ltb n 32 && negb (Nat.eqb n 10) && negb (Nat.eqb n 9).

Definition _content (value : string) : exn + string :=
  let normalized := replace carriage_return new_line (replace (carriage_return +:+ new_line) new_line (strip value)) in
  _ ← reject_if (negb (Nat.leb 20 (String.length normalized) && (Z.of_nat (String.length normalized) <=? 12000)))
        (prompt_error "PROMPT_LENGTH_INVALID");
  _ ← reject_if (negb (all_chars (fun c => negb (control_char c)) normalized))
        (prompt_error "PROMPT_CONTROL_CHARACTER_FORBIDDEN");
  mret normalized.

Section Prompts.
Context (sha256 : string -> string).

Definition prompts_of (owner_id role : string) (db : DB) : list LlmPromptProfile :=
  List.filter (fun q => String.eqb (lq_owner_id q) owner_id && String.eqb (lq_role q) role)
    (rows (llm_prompts db)).

(** By role, the latest version first. *)
Definition prompt_before (a b : LlmPromptProfile) : bool :=
  match String.compare (lq_role a) (lq_role b) with
  | Lt => true
  | Eq => lq_version_number b <=? lq_version_number a
  | Gt => false
  end.

Definition list_prompts (db : DB) (owner_id : string) (role : option string) : exn + list LlmPromptProfile :=
  let owned := List.filter (fun q => String.eqb (lq_owner_id q) owner_id) (rows (llm_prompts db)) in
  match role with
  | Some (String _ _ as role) =>
      if bool_decide (role ∈ PROMPT_ROLES)
      then inr (sort_by prompt_before (List.filter (fun q => String.eqb (lq_role q) role) owned))
      else inl (prompt_error "PROMPT_ROLE_UNSUPPORTED")
  | _ => inr (sort_by prompt_before owned)
  end.

Definition get_prompt (owner_id prompt_id : string) (db : DB) : exn + LlmPromptProfile :=
  match llm_prompts db !! prompt_id with
  | Some q => if String.eqb (lq_owner_id q) owner_id then inr q else inl (LlmPromptError "PROMPT_NOT_FOUND" 404)
  | None => inl (LlmPromptError "PROMPT_NOT_FOUND" 404)
  end.

(** [func.max(version_number)]; [None or 0] is zero. *)
Definition highest_number (owner_id role : string) (db : DB) : Z :=
  foldr (fun q n => Z.max (lq_version_number q) n) 0 (prompts_of owner_id role db).

(** The primary key and the two unique constraints. *)
Definition prompt_clash (q : LlmPromptProfile) (db : DB) : bool :=
  bool_decide (is_Some (llm_prompts db !! lq_id q)) ||
  existsb (fun other => (lq_version_number other =? lq_version_number q) ||
                        String.eqb (lq_version_label other) (lq_version_label q))
    (prompts_of (lq_owner_id q) (lq_role q) db).

Definition create_prompt (user : User) (role system_prompt reason correlation_id : string) (race : DB -> DB) :
  prog LlmPromptProfile :=
  guard_or (bool_decide (role ∈ PROMPT_ROLES)) (prompt_error "PROMPT_ROLE_UNSUPPORTED") ;;
  content ← of_result (_content system_prompt);
  highest ← gets (highest_number (u_id user) role);
  let number := highest + 1 in
  id ← uuid7;
  let q := mkLlmPromptProfile id (u_id user) role number (lower role +:+ "-prompt-v" +:+ pretty number) content
             (sha256 content) "DRAFT" (strip reason) None 1 in
  try_except (flush_checked race (prompt_clash q) (put_prompt q))
    (fun e => match e with
              | IntegrityError => Some (rollback ;; raise (LlmPromptError "PROMPT_VERSION_CONFLICT" 409))
              | _ => None
              end) ;;
  modify (llm_audit user "LLM_PROMPT_CREATED" id correlation_id
            [("role", JStr role); ("version_number", JInt number); ("content_hash", JStr (lq_content_hash q))]) ;;
  commit ;;
  mret q.

Definition unsafe_instruction (system_prompt : string) : bool :=
  existsb (fun pattern => re_search pattern (lower system_prompt)) FORBIDDEN_PATTERNS.

Definition prompt_validated (now : Z) (q : LlmPromptProfile) : LlmPromptProfile :=
  set_lq_version (set_lq_validated_at (set_lq_state q "VALIDATED") (Some now)) (lq_version q + 1).

Definition validate_prompt (user : User) (prompt_id correlation_id : string) (race : DB -> DB) :
  prog LlmPromptProfile :=
  found ← gets (get_prompt (u_id user) prompt_id);
  q ← of_result found;
  guard_or (String.eqb (lq_state q) "DRAFT") (LlmPromptError "PROMPT_STATE_CONFLICT" 409) ;;
  guard_or (negb (unsafe_instruction (lq_system_prompt q))) (prompt_error "PROMPT_UNSAFE_INSTRUCTION") ;;
  now ← utcnow;
  others_commit race ;;
  update_row prompt_id (lq_version q) (prompt_validated now) ;;
  modify (llm_audit user "LLM_PROMPT_VALIDATED" prompt_id correlation_id
            [("role", JStr (lq_role q)); ("content_hash", JStr (lq_content_hash q))]) ;;
  commit ;;
  mret (prompt_validated now q).
End Prompts.

Example instructions_searched :
  map unsafe_instruction
    ["Never reveal the API_KEY."; "Submit an  order when sure."; "Read the apikeys file."; "reorder the list";
     "주문  실행"; "Weigh the evidence, then answer."]
  = [true; true; false; false; true; false].
Proof. vm_compute. reflexivity. Qed.
