(* ===== verification/LlmProfiles.v ===== *)
(** * Providers and models

    The first half of [llm/profiles.py]: the providers of an owner with their
    credentials, and the models of a provider.  A commit of another session
    between the reads of an operation and its writes is an argument, [race];
    the answer of a provider that lists its models is another. *)

Set Warnings "-register-all".

From Stdlib Require Import ZArith Lia Ascii String.
From stdpp Require Import base numbers strings list gmap pretty.
From S2P Require Import Prelude Decimal Json DecimalText Models Session PyText Urls.
From S2P Require Import Regex LlmCatalog LlmTables.

Open Scope Z_scope.

Definition ADAPTER_TYPES : list string :=
  ["MOCK"; "OPENAI_RESPONSES"; "ANTHROPIC_MESSAGES"; "GEMINI_GENERATE_CONTENT"; "VERCEL_AI_GATEWAY";
   "OPENAI_COMPATIBLE"; "OLLAMA_NATIVE"; "OLLAMA_OPENAI_COMPATIBLE"].

Definition profile_error (code : string) : exn := LlmProfileError code 422.

(** [except ModelDiscoveryError as exc: raise LlmProfileError(...)] *)
Definition as_profile_error {A} (r : exn + A) : exn + A :=
  match r with
  | inl (ModelDiscoveryError code status) => inl (LlmProfileError code status)
  | r => r
  end.

(** [except LlmSecretError as exc: raise LlmProfileError(exc.args[0])] *)
Definition secret_error {A} (status : Z) (e : exn) : option (prog A) :=
  match e with LlmSecretError code => Some (raise (LlmProfileError code status)) | _ => None end.

(** ** Endpoints *)

Definition starts_with (p s : string) : bool := String.prefix p s.
Definition nonempty_text (s : option string) : bool :=
  match s with Some (String _ _) => true | _ => false end.

Definition host_is_local (hostname : string) : bool :=
  String.eqb hostname "localhost" || ends_with ".localhost" hostname.

Definition address_is_private (address : option ip) : bool :=
  match address with
  | Some a => is_private a || is_link_local a || is_unspecified a || is_reserved a
  | None => false
  end.

Definition normalized_endpoint (endpoint : option string) : string :=
  match endpoint with
  | Some (String _ _ as e) => rstrip_chars ["/"%char] (strip e)
  | _ => EmptyString
  end.

(** [urlparse] raises [ValueError] on some texts. *)
Definition _safe_endpoint (adapter_type : string) (endpoint : option string) : exn + option string :=
  let normalized := normalized_endpoint endpoint in
  let refused := profile_error "PROVIDER_ENDPOINT_NOT_ALLOWED" in
  if String.eqb adapter_type "MOCK" then
    if is_empty normalized then inr None else inl (profile_error "MOCK_ENDPOINT_FORBIDDEN")
  else if is_empty normalized then inl (profile_error "PROVIDER_ENDPOINT_REQUIRED")
  else
    match urlsplit normalized with
    | None => inl ValueError
    | Some parsed =>
        match url_hostname parsed with
        | None => inl refused
        | Some host =>
            _ ← reject_if (nonempty_text (url_username parsed) || nonempty_text (url_password parsed) ||
                           negb (is_empty (url_query parsed)) || negb (is_empty (url_fragment parsed))) refused;
            _ ← reject_if (existsb (fun segment => bool_decide (segment ∈ ["."; ".."]))
                             (split_on "/" (parsed_path parsed))) refused;
            let hostname := lower host in
            let address := ip_address hostname in
            let local_host := host_is_local hostname in
            let local_address := match address with Some a => is_loopback a | None => false end in
            if starts_with "OLLAMA_" adapter_type then
              _ ← reject_if (negb (bool_decide (url_scheme parsed ∈ ["http"; "https"])) ||
                             negb (local_host || local_address)) refused;
              inr (Some normalized)
            else
              _ ← reject_if (negb (String.eqb (url_scheme parsed) "https") || local_host ||
                             address_is_private address || ends_with ".local" hostname) refused;
              inr (Some normalized)
        end
    end.

Definition allowed_policies (adapter_type : string) : list string :=
  if String.eqb adapter_type "MOCK" then ["NONE"]
  else if bool_decide (adapter_type ∈ ["OPENAI_RESPONSES"; "ANTHROPIC_MESSAGES"; "GEMINI_GENERATE_CONTENT"])
  then ["EXTERNAL_CLOUD"]
  else if String.eqb adapter_type "VERCEL_AI_GATEWAY" then ["GATEWAY"]
  else if String.eqb adapter_type "OPENAI_COMPATIBLE" then ["EXTERNAL_CLOUD"; "GATEWAY"]
  else ["LOCAL"].

Definition _validate_data_policy (adapter_type data_policy : string) : exn + unit :=
  reject_if (negb (bool_decide (data_policy ∈ allowed_policies adapter_type)))
    (profile_error "PROVIDER_DATA_POLICY_MISMATCH").

(** ** Reading *)

Definition live_provider (owner_id : string) (p : LlmProviderProfile) : bool :=
  String.eqb (lp_owner_id p) owner_id && bool_decide (lp_deleted_at p = None).

Definition list_providers (db : DB) (owner_id : string) : list LlmProviderProfile :=
  sort_by (fun a b => lp_created_at a <=? lp_created_at b)
    (List.filter (live_provider owner_id) (rows (llm_providers db))).

Definition get_provider (owner_id provider_id : string) (db : DB) : exn + LlmProviderProfile :=
  match llm_providers db !! provider_id with
  | Some p => if live_provider owner_id p then inr p else inl (LlmProfileError "PROVIDER_NOT_FOUND" 404)
  | None => inl (LlmProfileError "PROVIDER_NOT_FOUND" 404)
  end.

Definition models_of (provider_id : string) (db : DB) : list LlmModelProfile :=
  List.filter (fun m => String.eqb (lm_provider_profile_id m) provider_id) (rows (llm_models db)).

Definition list_models (db : DB) (owner_id : string) : list LlmModelProfile :=
  sort_by (fun a b => lm_created_at a <=? lm_created_at b)
    (List.filter (fun m => match llm_providers db !! lm_provider_profile_id m with
                           | Some p => live_provider owner_id p
                           | None => false
                           end) (rows (llm_models db))).

Definition get_model (owner_id model_id : string) (db : DB) : exn + LlmModelProfile :=
  match llm_models db !! model_id with
  | None => inl (LlmProfileError "MODEL_NOT_FOUND" 404)
  | Some m =>
      provider ← get_provider owner_id (lm_provider_profile_id m) db;
      if String.eqb (lp_id provider) (lm_provider_profile_id m) then inr m
      else inl (LlmProfileError "MODEL_NOT_FOUND" 404)
  end.

Definition get_model_for_history (owner_id model_id : string) (db : DB) : exn + LlmModelProfile :=
  match llm_models db !! model_id with
  | None => inl (LlmProfileError "MODEL_NOT_FOUND" 404)
  | Some m =>
      match llm_providers db !! lm_provider_profile_id m with
      | Some p => if String.eqb (lp_owner_id p) owner_id then inr m
                  else inl (LlmProfileError "MODEL_NOT_FOUND" 404)
      | None => inl (LlmProfileError "MODEL_NOT_FOUND" 404)
      end
  end.

(** The ids a route names; the column holds the list that was written. *)
Definition _route_uses_models (route : LlmRoleRoute) (model_ids : list string) : bool :=
  bool_decide (lr_primary_model_profile_id route ∈ model_ids) ||
  match lr_fallback_model_profile_ids route with
  | JList items => existsb (fun item => match item with
                                        | JStr id => bool_decide (id ∈ model_ids)
                                        | _ => false
                                        end) items
  | _ => false
  end.

Definition owner_routes (owner_id : string) (states : list string) (db : DB) : list LlmRoleRoute :=
  List.filter (fun r => String.eqb (lr_owner_id r) owner_id && bool_decide (lr_state r ∈ states))
    (rows (llm_routes db)).

Definition in_active_route (owner_id : string) (model_ids : list string) (db : DB) : bool :=
  existsb (fun route => _route_uses_models route model_ids) (owner_routes owner_id ["ACTIVE"] db).

(** ** Capabilities *)

Definition MOCK_CAPABILITIES : ModelCapabilities := mkModelCapabilities true false false false false true true true.

(** [capabilities] of the adapters. *)
Definition adapter_capabilities (adapter : LlmProviderAdapter) : ModelCapabilities :=
  match adapter with
  | MockProviderAdapter => MOCK_CAPABILITIES
  | HttpAdapter adapter_type _ _ _ =>
      if String.eqb adapter_type "OPENAI_RESPONSES" then mkModelCapabilities true false true false true false true false
      else if String.eqb adapter_type "GEMINI_GENERATE_CONTENT"
      then mkModelCapabilities true false true false true true true false
      else mkModelCapabilities true false true false false false true false
  end.

Record ProviderHealth := mkProviderHealth {
  ph_status : string;
  ph_adapter_type : string;
  ph_external_network_used : bool;
  ph_capabilities : ModelCapabilities;
  ph_message_code : string
}.

Definition healthcheck (adapter : LlmProviderAdapter) : ProviderHealth :=
  match adapter with
  | MockProviderAdapter => mkProviderHealth "READY" "MOCK" false MOCK_CAPABILITIES "MOCK_CONTRACT_READY"
  | HttpAdapter adapter_type _ _ _ =>
      mkProviderHealth "READY" adapter_type false (adapter_capabilities adapter) "ADAPTER_CONTRACT_READY"
  end.

(** The flags in the order of the class. *)
Definition capability_flags (c : ModelCapabilities) : list bool :=
  [cap_structured_output c; cap_tool_calling c; cap_web_search c; cap_streaming c; cap_reasoning c; cap_seed c;
   cap_usage_reporting c; cap_local_execution c].

Definition unsupported (declared available : ModelCapabilities) : bool :=
  existsb (fun x : bool * bool => x.1 && negb x.2)
    (combine (capability_flags declared) (capability_flags available)).

Definition _discovered_capabilities (adapter_type : string) (provider_template_id : option string)
  (model_id : string) : ModelCapabilities :=
  mkModelCapabilities true false
    (bool_decide (adapter_type ∈ ["OPENAI_RESPONSES"; "ANTHROPIC_MESSAGES"; "GEMINI_GENERATE_CONTENT"]) ||
     bool_decide (provider_template_id = Some "llm-gateway"))
    false
    (bool_decide (adapter_type ∈ ["OPENAI_RESPONSES"; "GEMINI_GENERATE_CONTENT"]) ||
     (String.eqb adapter_type "OPENAI_COMPATIBLE" &&
      (is_openai_reasoning_model model_id || is_gemini_3_model model_id)))
    (String.eqb adapter_type "GEMINI_GENERATE_CONTENT") true false.

(** A reasoning model of a compatible provider is discovered with a capability
    its adapter does not have, so that it can never be validated. *)
Example reasoning_never_verified :
  unsupported (_discovered_capabilities "OPENAI_COMPATIBLE" (Some "vercel-ai") "openai/gpt-5")
    (adapter_capabilities (HttpAdapter "OPENAI_COMPATIBLE" "https://ai-gateway.vercel.sh" "key" None)) = true.
Proof. vm_compute. reflexivity. Qed.

(** The capabilities that were discovered since are added, none is taken away. *)
Definition upgraded (declared found : ModelCapabilities) : ModelCapabilities :=
  mkModelCapabilities (cap_structured_output declared) (cap_tool_calling declared)
    (cap_web_search declared || cap_web_search found) (cap_streaming declared)
    (cap_reasoning declared || cap_reasoning found) (cap_seed declared || cap_seed found)
    (cap_usage_reporting declared) (cap_local_execution declared).

(** ** Aliases *)

Definition alias_separators : list ascii := ["."; "-"; "_"]%char.

(** [char.isalnum() or char in "_.-"] *)
Definition alias_char (c : ascii) : bool :=
  is_digit c || (let n := nat_of_ascii (lower_char c) in Nat.leb 97 n && Nat.leb n 122) ||
  bool_decide (c ∈ alias_separators).

Fixpoint alias_text (s : string) : string :=
  match s with
  | EmptyString => EmptyString
  | String c s => String (if alias_char c then c else "-"%char) (alias_text s)
  end.

Definition alias_base (model_id : string) : string :=
  let base := substring 0 64 (rstrip_chars alias_separators (lstrip_chars alias_separators (alias_text model_id))) in
  if is_empty base then "model" else base.

Definition numbered_alias (base : string) (suffix : Z) : string :=
  let tail := String "-" (pretty suffix) in
  substring 0 (64 - String.length tail) base +:+ tail.

(** The loop over the suffixes; [used] cannot hold more aliases than it has. *)
Fixpoint free_alias (fuel : nat) (base : string) (suffix : Z) (used : list string) : string :=
  let alias := numbered_alias base suffix in
  match fuel with
  | O => alias
  | S fuel => if bool_decide (alias ∈ used) then free_alias fuel base (suffix + 1) used else alias
  end.

Definition _discovered_alias (model_id : string) (used : list string) : string :=
  let base := alias_base model_id in
  if bool_decide (base ∈ used) then free_alias (length used) base 2 used else base.

Example aliases_given :
  (_discovered_alias "openai/gpt 5" [], _discovered_alias "--" [], _discovered_alias "m" ["m"; "m-2"; "m-4"])
  = ("openai-gpt-5", "model", "m-3").
Proof. vm_compute. reflexivity. Qed.

(** ** Discovered models *)

(** The unique constraint, the primary key and the check constraints. *)
Definition within (lo hi : decimal) (d : option decimal) : bool :=
  match d with Some d => dleb lo d && dleb d hi | None => true end.
Definition effort_ok (e : option string) : bool :=
  match e with Some e => bool_decide (e ∈ ["LOW"; "MEDIUM"; "HIGH"]) | None => true end.

Definition model_checks (m : LlmModelProfile) : bool :=
  (0 <? lm_max_output_tokens m) && within dzero (of_int 2) (lm_temperature m) &&
  within dzero (of_int 1) (lm_top_p m) && effort_ok (lm_reasoning_effort m).

Definition model_clash (m : LlmModelProfile) (db : DB) : bool :=
  bool_decide (is_Some (llm_models db !! lm_id m)) || negb (model_checks m) ||
  bool_decide (lm_alias m ∈ map lm_alias (models_of (lm_provider_profile_id m) db)).

(** A change of a model that is there, or a new one. *)
Inductive model_change :=
| Upgrade (model : LlmModelProfile) (capabilities : ModelCapabilities)
| NewModel (model : LlmModelProfile).

Definition discovered_model (id alias : string) (now : Z) (provider : LlmProviderProfile) (item : DiscoveredModel) :
  LlmModelProfile :=
  mkLlmModelProfile id (lp_id provider) alias (dm_provider_model_id item)
    (_discovered_capabilities (lp_adapter_type provider) (lp_provider_template_id provider) (dm_provider_model_id item))
    (dm_max_context_tokens item)
    (Z.min (match dm_max_output_tokens item with Some n => if n =? 0 then 8192 else n | None => 8192 end) 32768)
    None None None None "DRAFT" None 1 now.

Section Discovery.
Context (provider : LlmProviderProfile) (existing : list LlmModelProfile).

(** [{item.provider_model_id: item for item in existing}] *)
Definition by_provider_id : list (string * LlmModelProfile) := dict_of lm_provider_model_id existing.

Fixpoint add_discovered (used : list string) (discovered : list DiscoveredModel) : prog (list model_change) :=
  match discovered with
  | [] => mret []
  | item :: discovered =>
      let found := _discovered_capabilities (lp_adapter_type provider) (lp_provider_template_id provider)
                     (dm_provider_model_id item) in
      match dict_get (dm_provider_model_id item) by_provider_id with
      | Some model =>
          rest ← add_discovered used discovered;
          let better := upgraded (lm_capabilities model) found in
          mret (if bool_decide (better = lm_capabilities model) then rest else Upgrade model better :: rest)
      | None =>
          id ← uuid7;
          now ← utcnow;
          let alias := _discovered_alias (dm_provider_model_id item) used in
          rest ← add_discovered (alias :: used) discovered;
          mret (NewModel (discovered_model id alias now provider item) :: rest)
      end
  end.
End Discovery.

Definition _add_discovered_models (provider : LlmProviderProfile) (discovered : list DiscoveredModel) :
  prog (list model_change) :=
  existing ← gets (models_of (lp_id provider));
  add_discovered provider existing (map lm_alias existing) discovered.

Definition created_models (changes : list model_change) : list LlmModelProfile :=
  omap (fun c => match c with NewModel m => Some m | Upgrade _ _ => None end) changes.

(** What the flush writes. *)
Definition flush_model (c : model_change) : prog unit :=
  match c with
  | Upgrade m better =>
      update_row (A := LlmModelProfile) (lm_id m) (lm_version m)
        (fun row => set_lm_version (set_lm_capabilities row better) (lm_version row + 1))
  | NewModel m => flush_checked id (model_clash m) (put_model m)
  end.

(** ** The operations on providers *)

(** The partial unique index and the primary key. *)
Definition provider_clash (p : LlmProviderProfile) (db : DB) : bool :=
  bool_decide (is_Some (llm_providers db !! lp_id p)) ||
  existsb (fun other => live_provider (lp_owner_id p) other && String.eqb (lp_name other) (lp_name p))
    (rows (llm_providers db)).

Definition provider_tested (status : string) (now : Z) (p : LlmProviderProfile) : LlmProviderProfile :=
  set_lp_version (set_lp_state (set_lp_last_tested_at (set_lp_health_status p status) (Some now)) "VALIDATED")
    (lp_version p + 1).

Definition provider_deleted (now : Z) (p : LlmProviderProfile) : LlmProviderProfile :=
  set_lp_version (set_lp_deleted_at (set_lp_health_status (set_lp_state (set_lp_credential_secret_ref p None)
    "DISABLED") "DISABLED") (Some now)) (lp_version p + 1).

Definition provider_rekeyed (secret_ref : string) (p : LlmProviderProfile) : LlmProviderProfile :=
  set_lp_version (set_lp_last_tested_at (set_lp_health_status (set_lp_state (set_lp_credential_secret_ref p
    (Some secret_ref)) "DRAFT") "UNKNOWN") None) (lp_version p + 1).

Definition model_disabled (m : LlmModelProfile) : LlmModelProfile :=
  set_lm_version (set_lm_state m "DISABLED") (lm_version m + 1).

Definition model_validated (now : Z) (m : LlmModelProfile) : LlmModelProfile :=
  set_lm_version (set_lm_validated_at (set_lm_state m "VALIDATED") (Some now)) (lm_version m + 1).

Definition route_superseded (r : LlmRoleRoute) : LlmRoleRoute :=
  set_lr_version (set_lr_state r "SUPERSEDED") (lr_version r + 1).

Section Providers.
Context (sha256 : string -> string) (faults : FileFaults).

Definition registration_target_id (owner_id name template_id : string) : string :=
  sha256 (owner_id +:+ ":" +:+ strip name +:+ ":" +:+ template_id).

Definition preview_provider_registration (owner_id name template_id : string) (db : DB) : exn + string :=
  template ← as_profile_error (get_template template_id);
  _ ← reject_if (negb (pc_can_register template)) (profile_error "PROVIDER_REGISTRATION_UNAVAILABLE");
  let normalized_name := strip name in
  _ ← reject_if (existsb (fun p => live_provider owner_id p && String.eqb (lp_name p) normalized_name)
                   (rows (llm_providers db))) (LlmProfileError "PROVIDER_NAME_CONFLICT" 409);
  mret (registration_target_id owner_id normalized_name (pc_template_id template)).

(** The handler around the writes of a registration: whatever the database or
    the store refuses, the credential that was written is deleted again. *)
Definition registration_failed {A} (secret_ref : option string) (e : exn) : option (prog A) :=
  let clean_up := match secret_ref with
                  | Some secret_ref =>
                      try_except (delete_secret faults secret_ref)
                        (fun e => match e with LlmSecretError _ => Some (mret tt) | _ => None end)
                  | None => mret tt
                  end in
  match e with
  | IntegrityError => Some (rollback ;; clean_up ;; raise (LlmProfileError "PROVIDER_NAME_CONFLICT" 409))
  | StaleDataError => Some (rollback ;; clean_up ;; raise (LlmProfileError "PROVIDER_PERSISTENCE_FAILED" 500))
  | LlmSecretError code => Some (rollback ;; clean_up ;; raise (profile_error code))
  | _ => None
  end.

Definition store_models (user : User) (provider : LlmProviderProfile) (discovered : list DiscoveredModel)
  (template : ProviderCatalogItem) (correlation_id : string) : prog (list LlmModelProfile) :=
  changes ← _add_discovered_models provider discovered;
  for_each changes flush_model ;;
  modify (llm_audit user "LLM_PROVIDER_REGISTERED" (lp_id provider) correlation_id
            [("template_id", JStr (pc_template_id template)); ("adapter_type", JStr (pc_adapter_type template));
             ("discovered_model_count", JInt (Z.of_nat (length (created_models changes))))]) ;;
  commit ;;
  mret (created_models changes).

Definition register_provider_with_discovery (user : User) (name template_id : string)
  (configuration : list (string * string)) (credential correlation_id : string) (reply : listing)
  (discovering race : DB -> DB) : prog (LlmProviderProfile * list LlmModelProfile) :=
  let normalized_name := strip name in
  target ← gets (preview_provider_registration (u_id user) normalized_name template_id);
  of_result target ;;
  commit ;;
  template ← of_result (as_profile_error (get_template template_id));
  endpoint ← of_result (as_profile_error (resolve_endpoint template (Some configuration)));
  discovered ← of_result (as_profile_error (discover_models (pc_template_id template)
                 (match configuration with [] => None | _ => Some configuration end) None reply));
  others_commit discovering ;;
  now ← utcnow;
  id ← uuid7;
  let provider := mkLlmProviderProfile id (u_id user) normalized_name (Some (pc_template_id template))
                    (pc_adapter_type template) (Some endpoint) None (pc_data_policy template) "VALIDATED" "READY"
                    (Some now) 1 now None in
  try_except (flush_checked race (provider_clash provider) (put_provider provider)) (registration_failed None) ;;
  secret_ref ← try_except (write_provider_credential faults id credential) (registration_failed None);
  let provider := set_lp_credential_secret_ref provider (Some secret_ref) in
  modify (put_provider provider) ;;
  models ← try_except (store_models user provider discovered template correlation_id)
             (registration_failed (Some secret_ref));
  mret (provider, models).

Definition sync_provider_models (user : User) (provider_id correlation_id : string) (reply : listing)
  (race : DB -> DB) : prog (LlmProviderProfile * list LlmModelProfile) :=
  found ← gets (get_provider (u_id user) provider_id);
  provider ← of_result found;
  match lp_provider_template_id provider, lp_credential_secret_ref provider with
  | Some (String _ _ as template_id), Some (String _ _ as secret_ref) =>
      _ ← try_except (read faults secret_ref) (secret_error 422);
      discovered ← of_result (as_profile_error
                     (discover_models template_id None (lp_endpoint provider) reply));
      changes ← _add_discovered_models provider discovered;
      now ← utcnow;
      others_commit race ;;
      for_each changes flush_model ;;
      update_row provider_id (lp_version provider) (provider_tested "READY" now) ;;
      modify (llm_audit user "LLM_PROVIDER_MODELS_SYNCED" provider_id correlation_id
                [("discovered_model_count", JInt (Z.of_nat (length discovered)));
                 ("new_model_count", JInt (Z.of_nat (length (created_models changes))))]) ;;
      commit ;;
      mret (provider_tested "READY" now provider, created_models changes)
  | _, _ => raise (profile_error "PROVIDER_CREDENTIAL_REQUIRED")
  end.

Definition create_provider (user : User) (name adapter_type : string)
  (endpoint credential_secret_ref : option string) (data_policy correlation_id : string) (race : DB -> DB) :
  prog LlmProviderProfile :=
  guard_or (bool_decide (adapter_type ∈ ADAPTER_TYPES)) (profile_error "PROVIDER_ADAPTER_UNSUPPORTED") ;;
  guard_or (negb (String.eqb adapter_type "MOCK" && nonempty_text credential_secret_ref))
    (profile_error "MOCK_CREDENTIAL_FORBIDDEN") ;;
  guard_or (negb (nonempty_text credential_secret_ref)) (profile_error "FOUNDATION_CREDENTIAL_FORBIDDEN") ;;
  of_result (_validate_data_policy adapter_type data_policy) ;;
  endpoint ← of_result (_safe_endpoint adapter_type endpoint);
  id ← uuid7;
  now ← utcnow;
  let profile := mkLlmProviderProfile id (u_id user) (strip name) None adapter_type endpoint None data_policy
                   "DRAFT" "UNKNOWN" None 1 now None in
  try_except (flush_checked race (provider_clash profile) (put_provider profile))
    (fun e => match e with
              | IntegrityError => Some (rollback ;; raise (LlmProfileError "PROVIDER_NAME_CONFLICT" 409))
              | _ => None
              end) ;;
  modify (llm_audit user "LLM_PROVIDER_CREATED" id correlation_id
            [("adapter_type", JStr adapter_type); ("has_secret_ref", JBool (nonempty_text credential_secret_ref))]) ;;
  commit ;;
  mret profile.

Definition provider_deletion_target (p : LlmProviderProfile) : string :=
  sha256 (lp_id p +:+ ":" +:+ pretty (lp_version p)).

Definition preview_provider_deletion (owner_id provider_id : string) (db : DB) :
  exn + (LlmProviderProfile * string) :=
  provider ← get_provider owner_id provider_id db;
  _ ← reject_if (in_active_route owner_id (map lm_id (models_of (lp_id provider) db)) db)
        (LlmProfileError "PROVIDER_IN_ACTIVE_ROUTE" 409);
  mret (provider, provider_deletion_target provider).

(** The rows of a deletion. *)
Definition delete_rows (user : User) (provider : LlmProviderProfile) (models : list LlmModelProfile)
  (routes : list LlmRoleRoute) (correlation_id : string) (race : DB -> DB) : prog unit :=
  now ← utcnow;
  others_commit race ;;
  update_row (lp_id provider) (lp_version provider) (provider_deleted now) ;;
  for_each models (fun m => update_row (lm_id m) (lm_version m) model_disabled) ;;
  for_each routes (fun r => update_row (lr_id r) (lr_version r) route_superseded) ;;
  modify (llm_audit user "LLM_PROVIDER_DELETED" (lp_id provider) correlation_id
            [("template_id", jopt_str (lp_provider_template_id provider))]) ;;
  commit.

(** The file is deleted before the rows are written. *)
Definition delete_provider (user : User) (provider_id correlation_id : string) (race : DB -> DB) : prog unit :=
  found ← gets (preview_provider_deletion (u_id user) provider_id);
  found ← of_result found;
  let provider := found.1 in
  models ← gets (models_of (lp_id provider));
  routes ← gets (fun db => List.filter (fun r => _route_uses_models r (map lm_id models))
                             (owner_routes (u_id user) ["DRAFT"; "VALIDATED"] db));
  match lp_credential_secret_ref provider with
  | Some (String _ _ as secret_ref) => try_except (delete_secret faults secret_ref) (secret_error 500)
  | _ => mret tt
  end ;;
  delete_rows user provider models routes correlation_id race.

Definition provider_credential (p : LlmProviderProfile) : prog (option string) :=
  if String.eqb (lp_adapter_type p) "MOCK" then mret None
  else match lp_credential_secret_ref p with
       | None => raise (profile_error "PROVIDER_CREDENTIAL_REQUIRED")
       | Some secret_ref => credential ← try_except (read faults secret_ref) (secret_error 422);
                            mret (Some credential)
       end.

Definition test_provider (user : User) (provider_id correlation_id : string) (race : DB -> DB) :
  prog (LlmProviderProfile * ProviderHealth) :=
  found ← gets (get_provider (u_id user) provider_id);
  profile ← of_result found;
  credential ← provider_credential profile;
  adapter ← or_raise (resolve (lp_adapter_type profile) (lp_endpoint profile) credential None)
              (LlmProfileError "ADAPTER_NOT_IMPLEMENTED" 422);
  let health := healthcheck adapter in
  now ← utcnow;
  others_commit race ;;
  update_row provider_id (lp_version profile) (provider_tested (ph_status health) now) ;;
  modify (llm_audit user "LLM_PROVIDER_TESTED" provider_id correlation_id
            [("adapter_type", JStr (lp_adapter_type profile)); ("status", JStr (ph_status health))]) ;;
  commit ;;
  mret (provider_tested (ph_status health) now profile, health).

Definition credential_target_id (p : LlmProviderProfile) : string :=
  sha256 (lp_id p +:+ ":" +:+ pretty (lp_version p) +:+ ":" +:+ lp_adapter_type p).

Definition preview_provider_credential (owner_id provider_id : string) (db : DB) :
  exn + (LlmProviderProfile * string) :=
  profile ← get_provider owner_id provider_id db;
  _ ← reject_if (String.eqb (lp_adapter_type profile) "MOCK") (profile_error "MOCK_CREDENTIAL_FORBIDDEN");
  _ ← reject_if (negb (bool_decide (lp_adapter_type profile ∈ HTTP_ADAPTERS)))
        (profile_error "ADAPTER_NOT_IMPLEMENTED");
  mret (profile, credential_target_id profile).

(** The file is written before the row. *)
Definition set_provider_credential (user : User) (provider_id credential correlation_id : string)
  (race : DB -> DB) : prog LlmProviderProfile :=
  found ← gets (preview_provider_credential (u_id user) provider_id);
  found ← of_result found;
  let profile := found.1 in
  secret_ref ← try_except (write_provider_credential faults (lp_id profile) credential)
                 (fun e => match e with
                           | LlmSecretError code => Some (rollback ;; raise (profile_error code))
                           | _ => None
                           end);
  others_commit race ;;
  update_row provider_id (lp_version profile) (provider_rekeyed secret_ref) ;;
  modify (llm_audit user "LLM_PROVIDER_CREDENTIAL_SET" provider_id correlation_id
            [("adapter_type", JStr (lp_adapter_type profile)); ("credential_configured", JBool true)]) ;;
  commit ;;
  mret (provider_rekeyed secret_ref profile).

(** ** The operations on models *)

Definition create_model (user : User) (provider_id alias provider_model_id : string)
  (capabilities : ModelCapabilities) (max_context_tokens : option Z) (max_output_tokens : Z)
  (temperature top_p : option decimal) (reasoning_effort : option string) (seed : option Z)
  (correlation_id : string) (race : DB -> DB) : prog LlmModelProfile :=
  found ← gets (get_provider (u_id user) provider_id);
  provider ← of_result found;
  id ← uuid7;
  now ← utcnow;
  let model := mkLlmModelProfile id (lp_id provider) (strip alias) (strip provider_model_id) capabilities
                 max_context_tokens max_output_tokens temperature top_p reasoning_effort seed "DRAFT" None 1 now in
  try_except (flush_checked race (model_clash model) (put_model model))
    (fun e => match e with
              | IntegrityError => Some (rollback ;; raise (LlmProfileError "MODEL_ALIAS_CONFLICT" 409))
              | _ => None
              end) ;;
  modify (llm_audit user "LLM_MODEL_CREATED" id correlation_id
            [("provider_id", JStr (lp_id provider)); ("alias", JStr (lm_alias model))]) ;;
  commit ;;
  mret model.

(** What a model must be to be validated, with the row of its provider. *)
Definition validatable (owner_id model_id : string) (db : DB) : exn + (LlmModelProfile * LlmProviderProfile) :=
  model ← get_model owner_id model_id db;
  provider ← get_provider owner_id (lm_provider_profile_id model) db;
  _ ← reject_if (negb (String.eqb (lp_state provider) "VALIDATED")) (profile_error "PROVIDER_NOT_VALIDATED");
  let declared := lm_capabilities model in
  _ ← reject_if (bool_decide (is_Some (lm_reasoning_effort model)) && negb (cap_reasoning declared))
        (profile_error "MODEL_PARAMETER_UNSUPPORTED_REASONING");
  _ ← reject_if (bool_decide (is_Some (lm_seed model)) && negb (cap_seed declared))
        (profile_error "MODEL_PARAMETER_UNSUPPORTED_SEED");
  available ← (if String.eqb (lp_adapter_type provider) "MOCK" then mret MOCK_CAPABILITIES
               else match resolve (lp_adapter_type provider) (lp_endpoint provider)
                            (Some "capability-check-only") None with
                    | Some adapter => mret (ph_capabilities (healthcheck adapter))
                    | None => inl (profile_error "ADAPTER_NOT_IMPLEMENTED")
                    end);
  _ ← reject_if (unsupported declared available) (profile_error "MODEL_CAPABILITY_UNVERIFIED");
  mret (model, provider).

Definition validate_model (user : User) (model_id correlation_id : string) (race : DB -> DB) :
  prog LlmModelProfile :=
  found ← gets (validatable (u_id user) model_id);
  found ← of_result found;
  let '(model, provider) := found in
  now ← utcnow;
  others_commit race ;;
  update_row model_id (lm_version model) (model_validated now) ;;
  modify (llm_audit user "LLM_MODEL_VALIDATED" model_id correlation_id
            [("provider_id", JStr (lp_id provider))]) ;;
  commit ;;
  mret (model_validated now model).

Definition disable_model (user : User) (model_id correlation_id : string) (race : DB -> DB) :
  prog LlmModelProfile :=
  found ← gets (get_model (u_id user) model_id);
  model ← of_result found;
  used ← gets (in_active_route (u_id user) [lm_id model]);
  guard_or (negb used) (LlmProfileError "MODEL_IN_ACTIVE_ROUTE" 409) ;;
  others_commit race ;;
  update_row model_id (lm_version model) model_disabled ;;
  modify (llm_audit user "LLM_MODEL_DISABLED" model_id correlation_id
            [("provider_id", JStr (lm_provider_profile_id model))]) ;;
  commit ;;
  mret (model_disabled model).
End Providers.
