(* ===== verification/LlmRoutes.v ===== *)
(** * Routes and assignments

    The second half of [llm/profiles.py] with [llm/router.py]: a route binds a
    role to a model with its parameters; a validated route of each of the five
    roles is activated together with the others. *)

Set Warnings "-register-all".

From Stdlib Require Import ZArith Lia Ascii String.
From stdpp Require Import base numbers strings list gmap pretty.
From S2P Require Import Prelude Decimal Json DecimalText Models Session PyText.
From S2P Require Import LlmCatalog LlmTables LlmPrompts LlmProfiles.

Open Scope Z_scope.

Definition ROLES : list string :=
  ["INTEL_COLLECTOR"; "EVIDENCE_VERIFIER"; "TECHNICAL_SCOUT"; "NEWS_DISCLOSURE_SCOUT"; "MARKET_SECTOR_SCOUT";
   "POSITION_RISK_SCOUT"; "CORE"].
Definition ASSIGNMENT_ROLES : list string :=
  ["TECHNICAL_SCOUT"; "NEWS_DISCLOSURE_SCOUT"; "MARKET_SECTOR_SCOUT"; "POSITION_RISK_SCOUT"; "CORE"].

(** [LlmPromptError] becomes [LlmProfileError]. *)
Definition prompt_as_profile_error {A} (r : exn + A) : exn + A :=
  match r with inl (LlmPromptError code status) => inl (LlmProfileError code status) | r => r end.

(** A list of computations that may raise, in order. *)
Fixpoint each_result {A B} (f : A -> exn + B) (l : list A) : exn + list B :=
  match l with
  | [] => inr []
  | x :: l => y ← f x; ys ← each_result f l; inr (y :: ys)
  end.

(** All items are texts. *)
Fixpoint all_texts (l : list json) : option (list string) :=
  match l with
  | [] => Some []
  | JStr s :: l => rest ← all_texts l; Some (s :: rest)
  | _ :: _ => None
  end.

Definition _fallback_model_ids (route : LlmRoleRoute) : exn + list string :=
  match lr_fallback_model_profile_ids route with
  | JList items => match all_texts items with
                   | Some ids => inr ids
                   | None => inl (profile_error "ROUTE_FALLBACK_INVALID")
                   end
  | _ => inl (profile_error "ROUTE_FALLBACK_INVALID")
  end.

(** Whether the models of a route and their providers can be used. *)
Definition dependency_available (owner_id : string) (db : DB) (model_id : string) : bool :=
  match llm_models db !! model_id with
  | Some m =>
      String.eqb (lm_state m) "VALIDATED" &&
      match llm_providers db !! lm_provider_profile_id m with
      | Some p => live_provider owner_id p && String.eqb (lp_state p) "VALIDATED"
      | None => false
      end
  | None => false
  end.

Definition route_dependencies_available (owner_id : string) (route : LlmRoleRoute) (db : DB) : bool :=
  match _fallback_model_ids route with
  | inr ids => forallb (dependency_available owner_id db) (lr_primary_model_profile_id route :: ids)
  | inl _ => false
  end.

Definition list_routes (db : DB) (owner_id : string) : list LlmRoleRoute :=
  sort_by (fun a b => lr_created_at a <=? lr_created_at b)
    (List.filter (fun r => String.eqb (lr_owner_id r) owner_id) (rows (llm_routes db))).

Definition get_route (owner_id route_id : string) (db : DB) : exn + LlmRoleRoute :=
  match llm_routes db !! route_id with
  | Some r => if String.eqb (lr_owner_id r) owner_id then inr r else inl (LlmProfileError "ROUTE_NOT_FOUND" 404)
  | None => inl (LlmProfileError "ROUTE_NOT_FOUND" 404)
  end.

(** The check constraints and the partial unique index of the active routes. *)
Definition route_checks (r : LlmRoleRoute) : bool :=
  bool_decide (lr_role r ∈ ROLES) && String.eqb (lr_execution_stage r) "SHADOW" &&
  bool_decide (lr_fallback_policy r ∈ ["FAIL_STOP"; "FAILOVER"]) &&
  (1000 <=? lr_timeout_ms r) && (lr_timeout_ms r <=? 600000) &&
  bool_decide (lr_service_tier r ∈ ["DEFAULT"; "PRIORITY"; "FLEX"]) && (lr_max_attempts r =? 1) &&
  within dzero (of_int 2) (lr_temperature_override r) && within dzero (of_int 1) (lr_top_p_override r) &&
  match lr_max_output_tokens_override r with Some n => 0 <? n | None => true end &&
  effort_ok (lr_reasoning_effort_override r).

Definition route_clash (r : LlmRoleRoute) (db : DB) : bool :=
  bool_decide (is_Some (llm_routes db !! lr_id r)) || negb (route_checks r).

Definition other_active (r : LlmRoleRoute) (db : DB) : bool :=
  existsb (fun other => String.eqb (lr_owner_id other) (lr_owner_id r) && String.eqb (lr_role other) (lr_role r) &&
                        String.eqb (lr_state other) "ACTIVE" && negb (String.eqb (lr_id other) (lr_id r)))
    (rows (llm_routes db)).

(** The parameters of a new route. *)
Record RouteParameters := mkRouteParameters {
  pa_timeout_ms : Z;
  pa_service_tier : string;
  pa_web_search_enabled : bool;
  pa_daily_call_limit : Z;
  pa_daily_cost_limit_krw : decimal;
  pa_output_schema_version : string;
  pa_temperature_override : option decimal;
  pa_top_p_override : option decimal;
  pa_max_output_tokens_override : option Z;
  pa_reasoning_effort_override : option string;
  pa_seed_override : option Z;
  pa_reason : string
}.

Definition stripped_text (s : option string) : option string :=
  match s with Some (String _ _ as s) => Some (strip s) | _ => None end.

(** The version of the prompt a new route names. *)
Definition resolved_prompt (owner_id role : string) (prompt_version prompt_profile_id : option string) (db : DB) :
  exn + string :=
  version ← (match prompt_profile_id with
             | Some (String _ _ as prompt_id) =>
                 prompt ← prompt_as_profile_error (get_prompt owner_id prompt_id db);
                 _ ← reject_if (negb (String.eqb (lq_role prompt) role)) (profile_error "PROMPT_ROLE_MISMATCH");
                 _ ← reject_if (negb (String.eqb (lq_state prompt) "VALIDATED")) (profile_error "PROMPT_NOT_VALIDATED");
                 mret (Some (lq_version_label prompt))
             | _ => mret (stripped_text prompt_version)
             end);
  match version with
  | Some (String _ _ as version) => mret version
  | _ => inl (profile_error "PROMPT_REQUIRED")
  end.

Definition is_none {A} (o : option A) : bool := match o with None => true | Some _ => false end.

(** What a new route must satisfy, with the version of its prompt. *)
Definition route_creatable (owner_id role primary_model_profile_id failure_policy : string)
  (fallback_model_profile_id prompt_version prompt_profile_id : option string) (db : DB) : exn + string :=
  _ ← reject_if (negb (bool_decide (role ∈ ROLES))) (profile_error "ROLE_UNSUPPORTED");
  _ ← get_model owner_id primary_model_profile_id db;
  _ ← reject_if (negb (bool_decide (failure_policy ∈ ["FAIL_STOP"; "FAILOVER"])))
        (profile_error "ROUTE_FAILURE_POLICY_INVALID");
  _ ← reject_if (String.eqb failure_policy "FAIL_STOP" && negb (is_none fallback_model_profile_id))
        (profile_error "ROUTE_FALLBACK_NOT_ALLOWED");
  _ ← reject_if (String.eqb failure_policy "FAILOVER" && is_none fallback_model_profile_id)
        (profile_error "ROUTE_FALLBACK_REQUIRED");
  _ ← reject_if (bool_decide (fallback_model_profile_id = Some primary_model_profile_id))
        (profile_error "ROUTE_FALLBACK_EQUALS_PRIMARY");
  _ ← (match fallback_model_profile_id with
       | Some id => _ ← get_model owner_id id db; mret tt
       | None => mret tt
       end);
  resolved_prompt owner_id role prompt_version prompt_profile_id db.

Definition fallback_list (fallback_model_profile_id : option string) : json :=
  JList (match fallback_model_profile_id with Some (String _ _ as id) => [JStr id] | _ => [] end).

Definition create_route (user : User) (role primary_model_profile_id failure_policy : string)
  (fallback_model_profile_id prompt_version prompt_profile_id : option string) (pa : RouteParameters)
  (correlation_id : string) (race : DB -> DB) : prog LlmRoleRoute :=
  found ← gets (route_creatable (u_id user) role primary_model_profile_id failure_policy
                  fallback_model_profile_id prompt_version prompt_profile_id);
  resolved_prompt_version ← of_result found;
  id ← uuid7;
  now ← utcnow;
  let route := mkLlmRoleRoute id (u_id user) role primary_model_profile_id (fallback_list fallback_model_profile_id)
                 failure_policy "SHADOW" (pa_timeout_ms pa) (pa_service_tier pa) (pa_web_search_enabled pa) 1
                 (pa_daily_call_limit pa) (pa_daily_cost_limit_krw pa) resolved_prompt_version prompt_profile_id
                 (strip (pa_output_schema_version pa)) (pa_temperature_override pa) (pa_top_p_override pa)
                 (pa_max_output_tokens_override pa) (pa_reasoning_effort_override pa) (pa_seed_override pa)
                 "DRAFT" (strip (pa_reason pa)) None None 1 now in
  flush_checked race (route_clash route) (put_route route) ;;
  modify (llm_audit user "LLM_ROUTE_CREATED" id correlation_id
            [("role", JStr role); ("execution_stage", JStr "SHADOW"); ("failure_policy", JStr failure_policy);
             ("fallback_configured", JBool (negb (is_none fallback_model_profile_id)));
             ("service_tier", JStr (pa_service_tier pa)); ("web_search_enabled", JBool (pa_web_search_enabled pa))]) ;;
  commit ;;
  mret route.

(** ** Validation *)

Definition boundary_error : exn := profile_error "ROUTE_FOUNDATION_BOUNDARY_VIOLATION".

(** [validate_foundation_route], which raises [RouteBoundaryError]; the caller
    turns it into [LlmProfileError]. *)
Definition validate_foundation_route (route : LlmRoleRoute) (model : LlmModelProfile) : exn + unit :=
  _ ← reject_if (negb (String.eqb (lm_state model) "VALIDATED")) (profile_error "ROUTE_MODEL_NOT_VALIDATED");
  _ ← reject_if (negb (String.eqb (lr_execution_stage route) "SHADOW") ||
                 negb (bool_decide (lr_fallback_policy route ∈ ["FAIL_STOP"; "FAILOVER"]))) boundary_error;
  match lr_fallback_model_profile_ids route with
  | JList ids =>
      reject_if (negb (lr_max_attempts route =? 1) || Nat.ltb 1 (length ids) ||
                 (String.eqb (lr_fallback_policy route) "FAIL_STOP" && Nat.ltb 0 (length ids)) ||
                 (String.eqb (lr_fallback_policy route) "FAILOVER" && negb (Nat.eqb (length ids) 1))) boundary_error
  | _ => inl boundary_error
  end.

Definition is_mock (p : LlmProviderProfile) : bool := String.eqb (lp_adapter_type p) "MOCK".

(** A provider that is asked with a credential has one. *)
Definition lacks_credential (p : LlmProviderProfile) : bool :=
  negb (is_mock p) && negb (nonempty_text (lp_credential_secret_ref p)).

Definition adapter_resolves (p : LlmProviderProfile) : bool :=
  bool_decide (is_Some (resolve (lp_adapter_type p) (lp_endpoint p)
    (if is_mock p then None else Some "route-validation") None)).

Definition prompt_fits (owner_id : string) (route : LlmRoleRoute) (db : DB) : exn + unit :=
  match lr_prompt_profile_id route with
  | Some (String _ _ as prompt_id) =>
      prompt ← prompt_as_profile_error (get_prompt owner_id prompt_id db);
      reject_if (negb (String.eqb (lq_role prompt) (lr_role route)) ||
                 negb (String.eqb (lq_state prompt) "VALIDATED")) (profile_error "PROMPT_ROUTE_NOT_READY")
  | _ => mret tt
  end.

Definition state_unready (m : LlmModelProfile) (p : LlmProviderProfile) : bool :=
  negb (String.eqb (lp_state p) "VALIDATED") || negb (String.eqb (lm_state m) "VALIDATED").

Definition fallback_ready (owner_id : string) (db : DB) (m : LlmModelProfile) : exn + LlmProviderProfile :=
  provider ← get_provider owner_id (lm_provider_profile_id m) db;
  _ ← reject_if (state_unready m provider) (profile_error "ROUTE_DEPENDENCY_NOT_VALIDATED");
  _ ← reject_if (lacks_credential provider) (profile_error "PROVIDER_CREDENTIAL_REQUIRED");
  _ ← reject_if (negb (adapter_resolves provider)) (profile_error "ADAPTER_NOT_IMPLEMENTED");
  mret provider.

Definition above_one (d : option decimal) : bool := match d with Some d => dltb (of_int 1) d | None => false end.

Definition or_default {A} (override own : option A) : option A :=
  match override with Some x => Some x | None => own end.

Definition WEB_SEARCH_ROLES : list string := ["NEWS_DISCLOSURE_SCOUT"; "MARKET_SECTOR_SCOUT"].

(** The parameters of a route against its models, each with its provider. *)
Definition parameters_fit (route : LlmRoleRoute) (pairs : list (LlmProviderProfile * LlmModelProfile)) :
  exn + unit :=
  _ ← reject_if (existsb (fun x : LlmProviderProfile * LlmModelProfile =>
          String.eqb (lp_adapter_type x.1) "ANTHROPIC_MESSAGES" &&
          above_one (or_default (lr_temperature_override route) (lm_temperature x.2))) pairs)
        (profile_error "MODEL_PARAMETER_UNSUPPORTED_TEMPERATURE");
  _ ← reject_if (negb (is_none (lr_temperature_override route) && is_none (lr_top_p_override route)) &&
        existsb (fun x : LlmProviderProfile * LlmModelProfile =>
          String.eqb (lp_adapter_type x.1) "GEMINI_GENERATE_CONTENT" &&
          is_gemini_3_model (lm_provider_model_id x.2)) pairs)
        (profile_error "MODEL_PARAMETER_USE_ADAPTER_DEFAULT");
  _ ← reject_if (negb (is_none (lr_reasoning_effort_override route)) &&
        existsb (fun x : LlmProviderProfile * LlmModelProfile => negb (cap_reasoning (lm_capabilities x.2))) pairs)
        (profile_error "MODEL_PARAMETER_UNSUPPORTED_REASONING");
  _ ← reject_if (negb (is_none (lr_seed_override route)) &&
        existsb (fun x : LlmProviderProfile * LlmModelProfile => negb (cap_seed (lm_capabilities x.2))) pairs)
        (profile_error "MODEL_PARAMETER_UNSUPPORTED_SEED");
  if lr_web_search_enabled route then
    _ ← reject_if (negb (bool_decide (lr_role route ∈ WEB_SEARCH_ROLES)))
          (profile_error "WEB_SEARCH_ROLE_UNSUPPORTED");
    reject_if (existsb (fun x : LlmProviderProfile * LlmModelProfile => negb (cap_web_search (lm_capabilities x.2))) pairs)
      (profile_error "MODEL_CAPABILITY_UNSUPPORTED_WEB_SEARCH")
  else mret tt.

(** The checks of [validate_route], in its order. *)
Definition route_validatable (owner_id route_id : string) (db : DB) : exn + LlmRoleRoute :=
  route ← get_route owner_id route_id db;
  _ ← reject_if (negb (String.eqb (lr_state route) "DRAFT")) (LlmProfileError "ROUTE_STATE_CONFLICT" 409);
  model ← get_model owner_id (lr_primary_model_profile_id route) db;
  provider ← get_provider owner_id (lm_provider_profile_id model) db;
  fallback_ids ← _fallback_model_ids route;
  fallback_models ← each_result (fun id => get_model owner_id id db) fallback_ids;
  _ ← prompt_fits owner_id route db;
  _ ← reject_if (state_unready model provider) (profile_error "ROUTE_DEPENDENCY_NOT_VALIDATED");
  fallback_providers ← each_result (fallback_ready owner_id db) fallback_models;
  _ ← reject_if (lacks_credential provider) (profile_error "PROVIDER_CREDENTIAL_REQUIRED");
  let tier_providers := provider :: fallback_providers in
  _ ← reject_if (negb (String.eqb (lr_service_tier route) "DEFAULT") &&
                 existsb (fun p => negb (supports_service_tier (lp_provider_template_id p))) tier_providers)
        (profile_error "SERVICE_TIER_UNSUPPORTED");
  _ ← reject_if (dltb dzero (lr_daily_cost_limit_krw route)) (profile_error "DAILY_COST_LIMIT_UNAVAILABLE");
  _ ← reject_if (negb (adapter_resolves provider)) (profile_error "ADAPTER_NOT_IMPLEMENTED");
  _ ← parameters_fit route (combine tier_providers (model :: fallback_models));
  _ ← validate_foundation_route route model;
  mret route.

Definition route_validated (now : Z) (r : LlmRoleRoute) : LlmRoleRoute :=
  set_lr_version (set_lr_validated_at (set_lr_state r "VALIDATED") (Some now)) (lr_version r + 1).

Definition validate_route (user : User) (route_id correlation_id : string) (race : DB -> DB) : prog LlmRoleRoute :=
  found ← gets (route_validatable (u_id user) route_id);
  route ← of_result found;
  now ← utcnow;
  others_commit race ;;
  update_row route_id (lr_version route) (route_validated now) ;;
  modify (llm_audit user "LLM_ROUTE_VALIDATED" route_id correlation_id
            [("role", JStr (lr_role route)); ("execution_stage", JStr (lr_execution_stage route))]) ;;
  commit ;;
  mret (route_validated now route).

(** ** The parameters that take effect *)

Record EffectiveParameters := mkEffectiveParameters {
  ep_temperature : option decimal * string;
  ep_top_p : option decimal * string;
  ep_max_output_tokens : Z * string;
  ep_reasoning_effort : option string * string;
  ep_seed : option Z * string
}.

(** A value with where it comes from. *)
Definition sourced {A} (override own : option A) : option A * string :=
  match override with
  | Some x => (Some x, "ROLE_OVERRIDE")
  | None => (own, if is_none own then "ADAPTER_DEFAULT" else "MODEL_DEFAULT")
  end.

Definition effective_generation_parameters (route : LlmRoleRoute) (model : LlmModelProfile) : EffectiveParameters :=
  mkEffectiveParameters (sourced (lr_temperature_override route) (lm_temperature model))
    (sourced (lr_top_p_override route) (lm_top_p model))
    (match lr_max_output_tokens_override route with
     | Some n => (n, "ROLE_OVERRIDE") | None => (lm_max_output_tokens model, "MODEL_DEFAULT") end)
    (sourced (lr_reasoning_effort_override route) (lm_reasoning_effort model))
    (sourced (lr_seed_override route) (lm_seed model)).

(** ** Assignments *)

Definition same_roles (route_ids : list (string * string)) : bool :=
  forallb (fun role => bool_decide (role ∈ ASSIGNMENT_ROLES)) route_ids.*1 &&
  forallb (fun role => bool_decide (role ∈ route_ids.*1)) ASSIGNMENT_ROLES.

Definition route_assignable (owner_id role : string) (route : LlmRoleRoute) : bool :=
  String.eqb (lr_owner_id route) owner_id && String.eqb (lr_role route) role &&
  bool_decide (lr_state route ∈ ["VALIDATED"; "ACTIVE"]) && String.eqb (lr_execution_stage route) "SHADOW".

Definition assigned_route (owner_id : string) (route_ids : list (string * string)) (db : DB) (role : string) :
  exn + LlmRoleRoute :=
  let not_ready := profile_error "ROLE_ASSIGNMENT_NOT_READY" in
  match llm_routes db !! default EmptyString (dict_get role route_ids) with
  | Some route =>
      _ ← reject_if (negb (route_assignable owner_id role route)) not_ready;
      model ← get_model owner_id (lr_primary_model_profile_id route) db;
      _ ← reject_if (negb (String.eqb (lm_state model) "VALIDATED") ||
                     negb (route_dependencies_available owner_id route db)) not_ready;
      mret route
  | None => inl not_ready
  end.

Definition _assignment_routes (owner_id : string) (route_ids : list (string * string)) (db : DB) :
  exn + list LlmRoleRoute :=
  _ ← reject_if (negb (same_roles route_ids)) (profile_error "ROLE_ASSIGNMENT_SET_INCOMPLETE");
  each_result (assigned_route owner_id route_ids db) ASSIGNMENT_ROLES.

Definition route_activated (now : Z) (r : LlmRoleRoute) : LlmRoleRoute :=
  set_lr_version (set_lr_activated_at (set_lr_state r "ACTIVE") (Some now)) (lr_version r + 1).

Section Assignments.
Context (sha256 : string -> string).

Definition assignment_target_id (route_ids : list (string * string)) : string :=
  sha256 (dumps (JObj (map (fun x : string * string => (x.1, JStr x.2)) route_ids))).

Definition preview_assignment_activation (owner_id : string) (route_ids : list (string * string)) (db : DB) :
  exn + (string * list LlmRoleRoute) :=
  routes ← _assignment_routes owner_id route_ids db;
  mret (assignment_target_id route_ids, routes).

(** The unique index of the active routes is checked as each row is written. *)
Definition activate_route (now : Z) (r : LlmRoleRoute) : prog unit :=
  if String.eqb (lr_state r) "ACTIVE" then mret tt
  else
    taken ← gets (other_active r);
    guard_or (negb taken) IntegrityError ;;
    update_row (lr_id r) (lr_version r) (route_activated now).

Definition supersede_route (selected_ids : list string) (r : LlmRoleRoute) : prog unit :=
  if bool_decide (lr_id r ∈ selected_ids) then mret tt
  else update_row (lr_id r) (lr_version r) route_superseded.

(** [race]: commits of others while the routes are locked. *)
Definition activate_assignments (user : User) (route_ids : list (string * string)) (correlation_id : string)
  (race : DB -> DB) : prog (list LlmRoleRoute) :=
  found ← gets (_assignment_routes (u_id user) route_ids);
  selected ← of_result found;
  current ← gets (fun db => List.filter (fun r => bool_decide (lr_role r ∈ ASSIGNMENT_ROLES))
                              (owner_routes (u_id user) ["ACTIVE"] db));
  now ← utcnow;
  others_commit race ;;
  for_each current (supersede_route (map lr_id selected)) ;;
  for_each selected (activate_route now) ;;
  modify (llm_audit user "LLM_ROLE_ASSIGNMENTS_ACTIVATED" (assignment_target_id route_ids) correlation_id
            [("route_ids", JObj (map (fun x : string * string => (x.1, JStr x.2)) route_ids));
             ("roles", JList (map JStr ASSIGNMENT_ROLES))]) ;;
  commit ;;
  mret (map (fun r => if String.eqb (lr_state r) "ACTIVE" then r else route_activated now r) selected).
End Assignments.

(** ** The assignments as they are shown ([api/llm.py]) *)

(** [ASSIGNED] is shown as [ACTIVE]. *)
Inductive assignment_status := UNASSIGNED | CANDIDATE | AMBIGUOUS | ASSIGNED.

Record RoleAssignmentItem := mkRoleAssignmentItem {
  ra_role : string;
  ra_current : option LlmRoleRoute;
  ra_candidates : list LlmRoleRoute;
  ra_history_count : Z;
  ra_status : assignment_status
}.

Definition role_assignment (db : DB) (owner_id : string) (routes : list LlmRoleRoute) (role : string) :
  RoleAssignmentItem :=
  let role_routes := List.filter (fun r => String.eqb (lr_role r) role) routes in
  let active := List.find (fun r => String.eqb (lr_state r) "ACTIVE") role_routes in
  let candidates := List.filter (fun r => String.eqb (lr_state r) "VALIDATED" &&
                                          route_dependencies_available owner_id r db) role_routes in
  mkRoleAssignmentItem role active candidates (Z.of_nat (length role_routes))
    (match active, candidates with
     | Some _, _ => ASSIGNED
     | None, [] => UNASSIGNED
     | None, [_] => CANDIDATE
     | None, _ => AMBIGUOUS
     end).

Definition get_role_assignments (db : DB) (owner_id : string) : list RoleAssignmentItem :=
  map (role_assignment db owner_id (list_routes db owner_id)) ASSIGNMENT_ROLES.
