(* ===== verification/ProfileProps.v ===== *)
(** * The administration of models keeps its tables sound

    What the rows of providers, models, prompts and routes always satisfy, and
    that every operation keeps it, in any sequence of operations. *)

Set Warnings "-register-all".

From Stdlib Require Import ZArith Lia Ascii String.
From stdpp Require Import base numbers strings list gmap.
From S2P Require Import Prelude Decimal Json DecimalText Models Session PyText.
From S2P Require Import LlmCatalog LlmTables LlmPrompts LlmProfiles LlmRoutes.

Open Scope Z_scope.

(** ** The models of a route *)

Definition route_model_ids (r : LlmRoleRoute) : list string :=
  lr_primary_model_profile_id r :: match _fallback_model_ids r with inr ids => ids | inl _ => [] end.

(** A model of a route with its provider, which belongs to the same owner and
    has an adapter. *)
Definition names_model (db : DB) (r : LlmRoleRoute) (id : string) : Prop :=
  exists m p, llm_models db !! id = Some m /\ llm_providers db !! lm_provider_profile_id m = Some p /\
    lp_owner_id p = lr_owner_id r /\ adapter_resolves p = true.

Definition fallback_shape (policy : string) (ids : list string) : Prop :=
  policy = "FAIL_STOP" /\ ids = [] \/ policy = "FAILOVER" /\ length ids = 1%nat.

Record route_sound (db : DB) (r : LlmRoleRoute) : Prop := mkRouteSound {
  rs_stage : lr_execution_stage r = "SHADOW";
  rs_attempts : lr_max_attempts r = 1;
  rs_fallback : exists ids, _fallback_model_ids r = inr ids /\ fallback_shape (lr_fallback_policy r) ids;
  rs_prompt : prompt_fits (lr_owner_id r) r db = inr tt;
  rs_models : forall id, id ∈ route_model_ids r -> names_model db r id
}.

(** A provider that can be asked: not deleted, with a credential if it needs one,
    and validated, unless its credential was replaced and not tested since, which
    the code allows under an active route. *)
Definition provider_live (p : LlmProviderProfile) : Prop :=
  lp_deleted_at p = None /\ lacks_credential p = false /\
  (lp_state p = "VALIDATED" \/ lp_state p = "DRAFT" /\ lp_health_status p = "UNKNOWN").

(** The models can be asked. *)
Definition route_live (db : DB) (r : LlmRoleRoute) : Prop :=
  forall id, id ∈ route_model_ids r -> exists m p, llm_models db !! id = Some m /\ lm_state m = "VALIDATED" /\
    llm_providers db !! lm_provider_profile_id m = Some p /\ provider_live p.

Record profiles_ok (db : DB) : Prop := mkProfilesOk {
  po_providers : forall k p, llm_providers db !! k = Some p -> lp_id p = k;
  po_models : forall k m, llm_models db !! k = Some m -> lm_id m = k;
  po_prompts : forall k q, llm_prompts db !! k = Some q -> lq_id q = k;
  po_routes : forall k r, llm_routes db !! k = Some r -> lr_id r = k;
  po_credential : forall k p, llm_providers db !! k = Some p -> lp_state p = "VALIDATED" ->
    lp_deleted_at p = None -> lacks_credential p = false;
  po_sound : forall k r, llm_routes db !! k = Some r -> lr_state r ∈ ["VALIDATED"; "ACTIVE"] -> route_sound db r;
  po_live : forall k r, llm_routes db !! k = Some r -> lr_state r = "ACTIVE" ->
    lr_role r ∈ ASSIGNMENT_ROLES /\ route_live db r;
  po_single : forall k k' r r', llm_routes db !! k = Some r -> llm_routes db !! k' = Some r' ->
    lr_state r = "ACTIVE" -> lr_state r' = "ACTIVE" -> lr_owner_id r = lr_owner_id r' ->
    lr_role r = lr_role r' -> k = k'
}.

(** ** How the rows may change *)

Definition provider_kept (p p' : LlmProviderProfile) : Prop :=
  lp_id p' = lp_id p /\ lp_owner_id p' = lp_owner_id p /\ lp_adapter_type p' = lp_adapter_type p /\
  lp_endpoint p' = lp_endpoint p.
Definition model_kept (m m' : LlmModelProfile) : Prop :=
  lm_id m' = lm_id m /\ lm_provider_profile_id m' = lm_provider_profile_id m.
Definition prompt_kept (q q' : LlmPromptProfile) : Prop :=
  lq_id q' = lq_id q /\ lq_owner_id q' = lq_owner_id q /\ lq_role q' = lq_role q /\
  (lq_state q = "VALIDATED" -> lq_state q' = "VALIDATED").

Definition rows_kept {A} (kept : A -> A -> Prop) (t t' : gmap string A) : Prop :=
  forall k a, t !! k = Some a -> exists a', t' !! k = Some a' /\ kept a a'.

Record tables_kept (db db' : DB) : Prop := mkTablesKept {
  tk_providers : rows_kept provider_kept (llm_providers db) (llm_providers db');
  tk_models : rows_kept model_kept (llm_models db) (llm_models db');
  tk_prompts : rows_kept prompt_kept (llm_prompts db) (llm_prompts db')
}.

Lemma rows_kept_refl {A} (kept : A -> A -> Prop) t : (forall a, kept a a) -> rows_kept kept t t.
Proof. intros H k a Hk. eauto. Qed.

Lemma rows_kept_insert {A} (kept : A -> A -> Prop) t k b :
  (forall a, kept a a) -> (forall a, t !! k = Some a -> kept a b) -> rows_kept kept t (<[k := b]> t).
Proof.
  intros Hr Hb k' a Hk. destruct (decide (k' = k)) as [->|Hn].
  - exists b. rewrite lookup_insert_eq. auto.
  - exists a. rewrite lookup_insert_ne by done. auto.
Qed.

Lemma provider_kept_refl p : provider_kept p p.
Proof. done. Qed.
Lemma model_kept_refl m : model_kept m m.
Proof. done. Qed.
Lemma prompt_kept_refl q : prompt_kept q q.
Proof. done. Qed.
#[export] Hint Resolve provider_kept_refl model_kept_refl prompt_kept_refl rows_kept_refl rows_kept_insert : core.

Lemma adapter_resolves_kept p p' : provider_kept p p' -> adapter_resolves p' = adapter_resolves p.
Proof. intros (_ & _ & Ha & He). unfold adapter_resolves, is_mock. by rewrite Ha, He. Qed.

Lemma names_model_kept db db' r id : tables_kept db db' -> names_model db r id -> names_model db' r id.
Proof.
  intros [Hp Hm _] (m & p & H1 & H2 & H3 & H4).
  destruct (Hm _ _ H1) as (m' & H1' & _ & Em). destruct (Hp _ _ H2) as (p' & H2' & Hk).
  exists m', p'. rewrite Em. split_and!; try done; [|by rewrite (adapter_resolves_kept p)].
  destruct Hk as (_ & -> & _). done.
Qed.

Lemma prompt_fits_kept db db' owner r :
  tables_kept db db' -> prompt_fits owner r db = inr tt -> prompt_fits owner r db' = inr tt.
Proof.
  intros [_ _ Hq]. unfold prompt_fits, get_prompt. destruct (lr_prompt_profile_id r) as [[|c id]|]; try done.
  destruct (llm_prompts db !! String c id) as [q|] eqn:E; [|done].
  destruct (Hq _ _ E) as (q' & -> & _ & Ho & Hr & Hs). rewrite Ho.
  destruct (String.eqb (lq_owner_id q) owner); [|done]. cbn. rewrite Hr.
  destruct (String.eqb_spec (lq_state q) "VALIDATED") as [Ev|Ev].
  - by rewrite (Hs Ev).
  - by rewrite orb_true_r.
Qed.

Lemma route_sound_kept db db' r : tables_kept db db' -> route_sound db r -> route_sound db' r.
Proof.
  intros Hk [H1 H2 H3 H4 H5]. split; auto.
  - by eapply prompt_fits_kept.
  - intros id Hid. by eapply names_model_kept, H5.
Qed.

(** ** One row at a time *)

(** No active route names the model, or a model of the provider. *)
Definition unused (db : DB) (model_id : string) : Prop :=
  forall k r, llm_routes db !! k = Some r -> lr_state r = "ACTIVE" -> model_id ∉ route_model_ids r.
Definition provider_unused (db : DB) (provider_id : string) : Prop :=
  forall id m, llm_models db !! id = Some m -> lm_provider_profile_id m = provider_id -> unused db id.

Definition same_profiles (db db' : DB) : Prop :=
  llm_providers db' = llm_providers db /\ llm_models db' = llm_models db /\ llm_prompts db' = llm_prompts db /\
  llm_routes db' = llm_routes db.

Lemma profiles_ok_same db db' : same_profiles db db' -> profiles_ok db -> profiles_ok db'.
Proof.
  intros (E1 & E2 & E3 & E4) [H1 H2 H3 H4 H5 H6 H7 H8].
  assert (Hk : tables_kept db db') by (split; rewrite ?E1, ?E2, ?E3; auto).
  split; rewrite ?E1, ?E2, ?E3, ?E4; try done.
  - intros k r Hr Hs. eapply route_sound_kept; eauto.
  - intros k r Hr Hs. destruct (H7 k r Hr Hs) as [Hrole Hl]. split; [done|].
    unfold route_live. by rewrite E1, E2.
Qed.

Lemma ok_put_provider db k p' :
  profiles_ok db -> lp_id p' = k ->
  (forall p, llm_providers db !! k = Some p -> provider_kept p p') ->
  (lp_state p' = "VALIDATED" -> lp_deleted_at p' = None -> lacks_credential p' = false) ->
  (forall p, llm_providers db !! k = Some p -> provider_live p -> provider_live p') \/ provider_unused db k ->
  profiles_ok (set_llm_providers db (<[k := p']> (llm_providers db))).
Proof.
  intros [H1 H2 H3 H4 H5 H6 H7 H8] Hid Hkept Hcred Hdel. set (db' := set_llm_providers _ _).
  assert (Hk : tables_kept db db') by (split; cbn; auto).
  split; try done.
  - intros k' p. cbn. rewrite lookup_insert_Some. intros [[<- <-]|[_ Hp]]; eauto.
  - intros k' p. cbn. rewrite lookup_insert_Some. intros [[_ <-]|[_ Hp]]; eauto.
  - intros k' r Hr Hs. eapply route_sound_kept; eauto.
  - intros k' r Hr Hs. destruct (H7 k' r Hr Hs) as [Hrole Hl]. split; [done|]. intros id Hin.
    destruct (Hl id Hin) as (m & p & Hm & Hv & Hp & Hd). cbn.
    destruct (decide (lm_provider_profile_id m = k)) as [E|E].
    + exists m, p'. rewrite E in *. rewrite lookup_insert_eq. split_and!; try done.
      destruct Hdel as [Hl'|Hu]; [by apply (Hl' p)|]. by destruct (Hu id m Hm E k' r Hr Hs).
    + exists m, p. by rewrite lookup_insert_ne.
Qed.

Lemma ok_put_model db k m' :
  profiles_ok db -> lm_id m' = k ->
  (forall m, llm_models db !! k = Some m -> model_kept m m') ->
  (forall m, llm_models db !! k = Some m -> lm_state m = "VALIDATED" -> lm_state m' = "VALIDATED" \/ unused db k) ->
  profiles_ok (set_llm_models db (<[k := m']> (llm_models db))).
Proof.
  intros [H1 H2 H3 H4 H5 H6 H7 H8] Hid Hkept Hst. set (db' := set_llm_models _ _).
  assert (Hk : tables_kept db db') by (split; cbn; auto).
  split; try done.
  - intros k' m. cbn. rewrite lookup_insert_Some. intros [[<- <-]|[_ Hp]]; eauto.
  - intros k' r Hr Hs. eapply route_sound_kept; eauto.
  - intros k' r Hr Hs. destruct (H7 k' r Hr Hs) as [Hrole Hl]. split; [done|]. intros id Hin.
    destruct (Hl id Hin) as (m & p & Hm & Hv & Hp & Hd). cbn.
    destruct (decide (id = k)) as [->|E].
    + exists m', p. rewrite lookup_insert_eq. destruct (Hkept m Hm) as (_ & ->). split_and!; try done.
      destruct (Hst m Hm Hv) as [|Hu]; [done|]. by destruct (Hu k' r Hr Hs).
    + exists m, p. by rewrite lookup_insert_ne.
Qed.

Lemma ok_put_prompt db k q' :
  profiles_ok db -> lq_id q' = k -> (forall q, llm_prompts db !! k = Some q -> prompt_kept q q') ->
  profiles_ok (set_llm_prompts db (<[k := q']> (llm_prompts db))).
Proof.
  intros [H1 H2 H3 H4 H5 H6 H7 H8] Hid Hkept. set (db' := set_llm_prompts _ _).
  assert (Hk : tables_kept db db') by (split; cbn; auto).
  split; try done.
  - intros k' q. cbn. rewrite lookup_insert_Some. intros [[<- <-]|[_ Hp]]; eauto.
  - intros k' r Hr Hs. eapply route_sound_kept; eauto.
Qed.

Lemma ok_put_route db k r' :
  profiles_ok db -> lr_id r' = k ->
  (lr_state r' ∈ ["VALIDATED"; "ACTIVE"] -> route_sound db r') ->
  (lr_state r' = "ACTIVE" -> lr_role r' ∈ ASSIGNMENT_ROLES /\ route_live db r' /\
     forall k2 r2, llm_routes db !! k2 = Some r2 -> lr_state r2 = "ACTIVE" -> lr_owner_id r2 = lr_owner_id r' ->
       lr_role r2 = lr_role r' -> k2 = k) ->
  profiles_ok (set_llm_routes db (<[k := r']> (llm_routes db))).
Proof.
  intros [H1 H2 H3 H4 H5 H6 H7 H8] Hid Hs Ha. set (db' := set_llm_routes _ _).
  assert (Hk : tables_kept db db') by (split; cbn; auto).
  split; try done.
  - intros k' r. cbn. rewrite lookup_insert_Some. intros [[<- <-]|[_ Hp]]; eauto.
  - intros k' r. cbn. rewrite lookup_insert_Some. intros [[_ <-]|[_ Hp]] Hst;
      (eapply route_sound_kept; [done|eauto]).
  - intros k' r. cbn. rewrite lookup_insert_Some. intros [[_ <-]|[_ Hp]] Hst; [|by apply (H7 k')].
    destruct (Ha Hst) as (? & ? & _). done.
  - intros k1 k2 r1 r2. cbn. rewrite !lookup_insert_Some.
    intros [[<- <-]|[Hn1 G1]] [[<- <-]|[Hn2 G2]] S1 S2 Ho Hr; try done.
    + destruct (Ha S1) as (_ & _ & Hu). symmetry. by apply (Hu k2 r2).
    + destruct (Ha S2) as (_ & _ & Hu). by apply (Hu k1 r1).
    + by apply (H8 k1 k2 r1 r2).
Qed.

Lemma ok_audit user action target correlation_id metadata db :
  profiles_ok db -> profiles_ok (llm_audit user action target correlation_id metadata db).
Proof. by apply profiles_ok_same. Qed.

(** ** What the queries tell *)

Lemma get_provider_inr owner id db p :
  get_provider owner id db = inr p ->
  llm_providers db !! id = Some p /\ lp_owner_id p = owner /\ lp_deleted_at p = None.
Proof.
  unfold get_provider. destruct (llm_providers db !! id) as [p'|]; [|done].
  destruct (live_provider owner p') eqn:E; [|done]. intros [= <-]. unfold live_provider in E. bool_to_prop.
  split_and!; [done| |done]. by apply String.eqb_eq.
Qed.

Lemma get_model_inr owner id db m :
  get_model owner id db = inr m ->
  llm_models db !! id = Some m /\ exists p, get_provider owner (lm_provider_profile_id m) db = inr p.
Proof.
  unfold get_model. destruct (llm_models db !! id) as [m'|]; [|done]. intros H.
  apply result_bind_inr in H as (p & Hp & H). destruct (String.eqb _ _); [|done]. injection H as <-. eauto.
Qed.

Lemma fallback_ids_uses r ids l :
  _fallback_model_ids r = inr ids ->
  _route_uses_models r l = true <-> exists id, id ∈ lr_primary_model_profile_id r :: ids /\ id ∈ l.
Proof.
  unfold _fallback_model_ids, _route_uses_models. destruct (lr_fallback_model_profile_ids r) as [| | | | |items|]; try done.
  destruct (all_texts items) as [ids'|] eqn:E; [|done]. intros [= <-].
  assert (Hi : forall items ids, all_texts items = Some ids -> existsb (fun item => match item with
      | JStr id => bool_decide (id ∈ l) | _ => false end) items = true <-> exists id, id ∈ ids /\ id ∈ l).
  { clear. induction items as [|x items IH]; intros ids H; cbn in *.
    - injection H as <-. split; [done|]. intros (id & Hid & _). by apply elem_of_nil in Hid.
    - destruct x as [| | | |s| |]; try done. apply bind_Some in H as (rest & Hr & [= <-]). cbn.
      rewrite orb_true_iff, (IH _ Hr), bool_decide_eq_true. split.
      + intros [Hs|(id & H1 & H2)]; [exists s|exists id]; (split; [|done]); by constructor.
      + intros (id & [->|H1]%elem_of_cons & H2); eauto. }
  rewrite orb_true_iff, (Hi _ _ E), bool_decide_eq_true. split.
  - intros [Hs|(id & H1 & H2)]; [exists (lr_primary_model_profile_id r)|exists id]; (split; [|done]); by constructor.
  - intros (id & [->|H1]%elem_of_cons & H2); eauto.
Qed.

Lemma owner_routes_elem owner states db r :
  r ∈ owner_routes owner states db <->
  lr_owner_id r = owner /\ lr_state r ∈ states /\ exists k, llm_routes db !! k = Some r.
Proof.
  unfold owner_routes. rewrite list_elem_of_In, filter_In, <- list_elem_of_In, elem_of_rows,
    andb_true_iff, String.eqb_eq, bool_decide_eq_true. tauto.
Qed.

Lemma active_in : "ACTIVE" ∈ ["VALIDATED"; "ACTIVE"].
Proof. apply list_elem_of_further, list_elem_of_here. Qed.

(** A model that no active route of its owner uses is used by none. *)
Lemma not_in_active_route owner ids db id m p :
  profiles_ok db -> in_active_route owner ids db = false -> id ∈ ids ->
  llm_models db !! id = Some m -> llm_providers db !! lm_provider_profile_id m = Some p -> lp_owner_id p = owner ->
  unused db id.
Proof.
  intros Hok Hn Hid Hm Hp Ho k r Hr Hs Hin.
  assert (Hsound : route_sound db r) by (eapply po_sound; [done..|]; rewrite Hs; apply active_in).
  destruct (rs_models _ _ Hsound id Hin) as (m' & p' & Hm' & Hp' & Ho' & _). simplify_eq.
  destruct (rs_fallback _ _ Hsound) as (fb & Hfb & _).
  unfold in_active_route in Hn. apply (existsb_false_Forall _ _) in Hn. rewrite Forall_forall in Hn.
  specialize (Hn r). cbn in Hn. rewrite (proj2 (fallback_ids_uses r fb ids Hfb)) in Hn.
  - assert (true = false); [|done]. apply Hn, owner_routes_elem. split_and!; eauto. rewrite Hs. by left.
  - exists id. unfold route_model_ids in Hin. by rewrite Hfb in Hin.
Qed.

(** ** Every operation *)

(** A session that has written nothing yet. *)
Definition opened (s : Sess) : Prop := work s = disk s.

Ltac profile_steps :=
  repeat lazymatch goal with
  | |- wp (others_commit _) _ _ => apply wp_others_commit
  | |- wp (update_row _ _ _) _ _ => apply wp_update_row; [intros ? ? ?|intros ?]
  | |- wp (flush_checked _ _ _) _ _ => apply wp_flush_checked; intros ?
  | |- wp (files_of _) _ _ => apply wp_files_of
  | |- wp (change_files _) _ _ => apply wp_change_files
  | |- _ => wp_step
  end.

(** ** The files do not touch the tables *)

(** The tables, durable and working, are as they were. *)
Definition same_tables (s s' : Sess) : Prop := disk s' = disk s /\ work s' = work s.

Lemma ref_nonempty ref : secret_ref_ok ref = true -> nonempty_text (Some ref) = true.
Proof. by destruct ref. Qed.

Section Files.
Context (faults : FileFaults).

Lemma wp_write_credential id credential s :
  wp (write_provider_credential faults id credential)
    (fun s' r => same_tables s s' /\ match r with inl ref => nonempty_text (Some ref) = true | inr _ => True end) s.
Proof.
  unfold write_provider_credential. profile_steps; try done. split; [done|].
  rename select (ref_for_provider _ = _) into Hr. by apply ref_for_provider_ok, ref_nonempty in Hr.
Qed.

Lemma wp_read_secret ref s :
  wp (read faults ref) (fun s' r => same_tables s s' /\
    match r with inl _ => nonempty_text (Some ref) = true | inr _ => True end) s.
Proof. unfold read, _path. profile_steps; try done; (split; [done|by apply ref_nonempty]). Qed.

Lemma wp_delete_secret ref s : wp (delete_secret faults ref) (fun s' _ => same_tables s s') s.
Proof. unfold delete_secret, _path. by profile_steps. Qed.

Lemma wp_secret_error {A} status e s (Q : Sess -> A + exn -> Prop) :
  (forall e, Q s (inr e)) ->
  match secret_error (A := A) status e with Some m => wp m Q s | None => Q s (inr e) end.
Proof. intros H. unfold secret_error. destruct e; apply H. Qed.

Lemma wp_provider_credential p s :
  wp (provider_credential faults p) (fun s' r => same_tables s s' /\
    match r with inl _ => lacks_credential p = false | inr _ => True end) s.
Proof.
  unfold provider_credential, lacks_credential, is_mock.
  destruct (String.eqb (lp_adapter_type p) "MOCK"); [by apply wp_ret|].
  destruct (lp_credential_secret_ref p) as [ref|] eqn:E; [|by apply wp_raise].
  apply wp_bind, wp_try. eapply wp_mono; [apply wp_read_secret|].
  intros s' [text|e] [Hs Hr]; [|by apply wp_secret_error]. split; [done|]. by destruct ref.
Qed.
End Files.

Section Operations.
Context (sha256 : string -> string) (faults : FileFaults).

Definition keeps_ok {A} (m : prog A) : Prop :=
  forall s, opened s -> profiles_ok (disk s) -> wp m (fun s' _ => profiles_ok (disk s')) s.

Lemma create_prompt_ok user role text reason cid : keeps_ok (create_prompt sha256 user role text reason cid id).
Proof.
  intros s Hw Hok. unfold create_prompt. profile_steps; try done. cbn in *. rewrite Hw in *.
  unfold prompt_clash in *. bool_to_prop. apply ok_audit, ok_put_prompt; [done..|].
  intros q Hq. rename select (~ is_Some _) into Hn. destruct Hn. by exists q.
Qed.

Lemma validate_prompt_ok user prompt_id cid : keeps_ok (validate_prompt user prompt_id cid id).
Proof.
  intros s Hw Hok. unfold validate_prompt. profile_steps; try done. cbn in *. rewrite Hw in *.
  apply ok_audit, ok_put_prompt; [done| |].
  - cbn. by eapply po_prompts.
  - intros q Hq. simplify_eq. done.
Qed.

Lemma create_provider_ok user name adapter endpoint ref policy cid :
  keeps_ok (create_provider user name adapter endpoint ref policy cid id).
Proof.
  intros s Hw Hok. unfold create_provider. profile_steps; try done. cbn in *. rewrite Hw in *.
  unfold provider_clash in *. bool_to_prop. apply ok_audit, ok_put_provider; [done..| | |left]; [|done|];
  intros p Hp; rename select (~ is_Some _) into Hn; destruct Hn; by exists p.
Qed.

Lemma create_model_ok user pid alias mid caps ctx out t p e seed cid :
  keeps_ok (create_model user pid alias mid caps ctx out t p e seed cid id).
Proof.
  intros s Hw Hok. unfold create_model. profile_steps; try done. cbn in *. rewrite Hw in *.
  unfold model_clash in *. bool_to_prop. rename select (~ is_Some _) into Hn.
  apply ok_audit, ok_put_model; [done..| |]; intros m Hm; destruct Hn; by exists m.
Qed.

Lemma validatable_inr owner model_id db m p :
  validatable owner model_id db = inr (m, p) -> llm_models db !! model_id = Some m.
Proof.
  unfold validatable. intros H. apply result_bind_inr in H as (m' & Hm & H).
  apply get_model_inr in Hm as [Hm _].
  repeat (apply result_bind_inr in H as (? & _ & H)). by injection H as <- <-.
Qed.

Lemma validate_model_ok user model_id cid : keeps_ok (validate_model user model_id cid id).
Proof.
  intros s Hw Hok. unfold validate_model. profile_steps; try done. cbn in *. rewrite Hw in *.
  apply ok_audit, ok_put_model; [done|cbn; by eapply po_models| |]; intros m Hm; simplify_eq; [done|by left].
Qed.

Lemma disable_model_ok user model_id cid : keeps_ok (disable_model user model_id cid id).
Proof.
  intros s Hw Hok. unfold disable_model. profile_steps; try done. cbn in *. rewrite Hw in *.
  rename select (get_model _ _ _ = inr _) into Hg. apply get_model_inr in Hg as (Hm & p & Hp).
  apply get_provider_inr in Hp as (Hp & Ho & _). rename select (negb _ = true) into Hu. apply negb_true_iff in Hu.
  match type of Hm with _ = Some ?m => assert (Hid : lm_id m = model_id) by by eapply po_models end.
  simplify_eq.
  apply ok_audit, ok_put_model; [done..| |]; intros m' Hm'; simplify_eq; [done|right].
  eapply not_in_active_route; [done|done|by left|done..].
Qed.

Lemma test_provider_ok user pid cid : keeps_ok (test_provider faults user pid cid id).
Proof.
  intros s Hw Hok. unfold test_provider. profile_steps; try done.
  rename select (get_provider _ _ _ = _) into Hp. rewrite Hw in Hp. apply get_provider_inr in Hp as (Hp & _ & Hlive).
  eapply wp_mono; [apply wp_provider_credential|]. intros s' [c|e] [[Hd Hw'] Hc]; cbn; [|by rewrite Hd].
  profile_steps; cbn; rewrite ?Hd; try done. cbn in *. rewrite Hw', Hw in *. simplify_eq.
  apply ok_audit, ok_put_provider; [done|cbn; by eapply po_providers|..].
  - intros p Hp'. by simplify_eq.
  - done.
  - left. intros p Hp' (? & ? & _). simplify_eq. split_and!; [done..|by left].
Qed.

Lemma set_provider_credential_ok user pid credential cid :
  keeps_ok (set_provider_credential sha256 faults user pid credential cid id).
Proof.
  intros s Hw Hok. unfold set_provider_credential. profile_steps; try done.
  rename select (preview_provider_credential _ _ _ _ = _) into Hp. rewrite Hw in Hp.
  apply result_bind_inr in Hp as (p & Hp & H).
  repeat (apply result_bind_inr in H as (? & _ & H)). injection H as <-.
  apply get_provider_inr in Hp as (Hp & _ & Hlive). cbn in *.
  eapply wp_mono; [apply wp_write_credential|]. intros s' [ref|e] [[Hd Hw'] Hr].
  - profile_steps; cbn; rewrite ?Hd; try done. cbn in *. rewrite Hw', Hw in *. simplify_eq.
    apply ok_audit, ok_put_provider; [done|cbn; by eapply po_providers| |done|left];
      intros p' Hp'; simplify_eq; [done|]. intros _. split_and!; [done| |by right].
    unfold lacks_credential. cbn. destruct ref; [done|]. by rewrite andb_false_r.
  - destruct e; cbn; profile_steps; cbn; by rewrite Hd.
Qed.

(** Writing the discovered models. *)
Lemma wp_add_discovered provider existing used l s :
  wp (add_discovered provider existing used l) (fun s' _ => same_tables s s') s.
Proof.
  revert used s. induction l as [|item l IH]; intros used s; cbn [add_discovered]; [done|].
  destruct (dict_get _ _) as [m|]; profile_steps.
  - eapply wp_mono; [apply IH|]. by intros s' [r|e] Hs; cbn; profile_steps.
  - eapply wp_mono; [apply IH|]. by intros s' [r|e] Hs; cbn; profile_steps.
Qed.

(** The loop over the changes keeps the tables sound and the providers as they are. *)
Definition models_flushed (s0 s : Sess) : Prop :=
  disk s = disk s0 /\ profiles_ok (work s) /\ llm_providers (work s) = llm_providers (work s0).

Lemma flush_models_ok changes s :
  profiles_ok (work s) -> wp (for_each changes flush_model) (fun s' _ => models_flushed s s') s.
Proof.
  intros Hok. apply (wp_for_each (models_flushed s)); [|done].
  intros c s1 _ (Hd & Hok1 & Hp). destruct c as [m caps|m]; cbn; profile_steps; try done; cbn in *.
  - split_and!; [done| |done]. apply ok_put_model; [done|cbn; by eapply po_models|..]; intros m' Hm'; simplify_eq;
      [done|by left].
  - split_and!; [done| |done]. rename select (model_clash _ _ = false) into Hc. unfold model_clash in Hc. bool_to_prop.
    rename select (~ is_Some _) into Hn.
    apply ok_put_model; [done..| |]; intros m' Hm; destruct Hn; by exists m'.
Qed.

Lemma sync_provider_models_ok user pid cid reply : keeps_ok (sync_provider_models faults user pid cid reply id).
Proof.
  intros s Hw Hok. unfold sync_provider_models. profile_steps; try done.
  rename select (get_provider _ _ _ = _) into Hp. rewrite Hw in Hp. apply get_provider_inr in Hp as (Hp & _ & Hlive).
  eapply wp_mono; [apply wp_read_secret|]. intros t1 [text|e] [[Hd1 Hw1] _];
    [|apply wp_secret_error; intros; cbn; by rewrite Hd1]. cbn. unfold _add_discovered_models.
  profile_steps; cbn; rewrite ?Hd1; try done.
  eapply wp_mono; [apply wp_add_discovered|]. intros t2 [changes|e] [Hd2 Hw2]; cbn; [|by rewrite Hd2, Hd1].
  profile_steps. eapply wp_mono; [apply flush_models_ok; cbn; by rewrite Hw2, Hw1, Hw|].
  intros t3 [[]|e] (Hd3 & Hok3 & Hp3); cbn in *; [|by rewrite Hd3, Hd2, Hd1].
  profile_steps; cbn in *; rewrite ?Hd3, ?Hd2, ?Hd1; try done.
  rename select (llm_providers (work t3) !! _ = _) into Hrow. rewrite Hp3, Hw2, Hw1, Hw in Hrow. simplify_eq.
  apply ok_audit, ok_put_provider; [done|cbn; by apply (po_providers _ Hok)| | |left].
  - rewrite Hp3, Hw2, Hw1, Hw. intros p Hp'. by simplify_eq.
  - intros _ _. unfold lacks_credential. cbn. rename select (lp_credential_secret_ref _ = _) into Hc. rewrite Hc.
    by rewrite andb_false_r.
  - rewrite Hp3, Hw2, Hw1, Hw. intros p Hp' (? & ? & _). simplify_eq. split_and!; [done..|by left].
Qed.

Lemma wp_registration_failed {A} ref e s (Q : Sess -> A + exn -> Prop) :
  (forall s' e', disk s' = disk s -> Q s' (inr e')) ->
  match registration_failed (A := A) faults ref e with Some m => wp m Q s | None => Q s (inr e) end.
Proof.
  intros HQ.
  assert (Hclean : forall e', wp (A := A) (rollback ;; match ref with
            | Some secret_ref => try_except (delete_secret faults secret_ref)
                (fun e => match e with LlmSecretError _ => Some (mret tt) | _ => None end)
            | None => mret tt end ;; raise e') Q s).
  { intros e'. profile_steps; [|by apply HQ].
    eapply wp_mono; [apply wp_delete_secret|]. intros s' [[]|e2] [Hd _]; cbn.
    - profile_steps. by apply HQ.
    - destruct e2; cbn; profile_steps; by apply HQ. }
  destruct e; cbn; try apply Hclean; by apply HQ.
Qed.

Lemma put_provider_twice p p' db : lp_id p' = lp_id p -> put_provider p' (put_provider p db) = put_provider p' db.
Proof. intros E. unfold put_provider. cbn. by rewrite E, insert_insert_eq. Qed.

Lemma register_ok user name tid config credential cid reply :
  keeps_ok (register_provider_with_discovery sha256 faults user name tid config credential cid reply id id).
Proof.
  intros s Hw Hok. unfold register_provider_with_discovery.
  profile_steps; try done; try (cbn; by rewrite Hw).
  { apply wp_registration_failed. intros s' e' Hd. cbn in *. by rewrite Hd, Hw. }
  rename select (provider_clash _ _ = false) into Hc. unfold provider_clash in Hc. bool_to_prop.
  rename select (~ is_Some _) into Hn. cbn in Hn. rewrite Hw in Hn.
  eapply wp_mono; [apply wp_write_credential|]. intros t1 [ref|e] [[Hd1 Hw1] Href]; cbn in *;
    [|apply wp_registration_failed; intros s' e' Hd; cbn; by rewrite Hd, Hd1, Hw].
  rewrite Hw in Hw1, Hd1. profile_steps. unfold store_models. profile_steps. unfold _add_discovered_models.
  profile_steps. eapply wp_mono; [apply wp_add_discovered|]. intros t2 [changes|e] [Hd2 Hw2]; cbn in *;
    [|apply wp_registration_failed; intros s' e' Hd; cbn; by rewrite Hd, Hd2, Hd1].
  profile_steps. eapply wp_mono; [apply flush_models_ok|].
  - rewrite Hw2, Hw1, put_provider_twice by done. apply ok_put_provider; [done..| | |left].
    + intros p Hp. destruct Hn. by exists p.
    + intros _ _. unfold lacks_credential. cbn. destruct ref; [done|]. by rewrite andb_false_r.
    + intros p Hp. destruct Hn. by exists p.
  - intros t3 [[]|e] (Hd3 & Hok3 & _); cbn;
      [|apply wp_registration_failed; intros s' e' Hd; cbn; by rewrite Hd, Hd3, Hd2, Hd1].
    profile_steps. by apply ok_audit.
Qed.

(** ** Deleting a provider *)

Lemma _route_uses_some r ids l id :
  _fallback_model_ids r = inr ids -> id ∈ lr_primary_model_profile_id r :: ids -> id ∈ l ->
  _route_uses_models r l = true.
Proof. intros Hf H1 H2. apply (fallback_ids_uses r ids l Hf). eauto. Qed.

Lemma models_of_elem pid db m :
  m ∈ models_of pid db <-> lm_provider_profile_id m = pid /\ exists k, llm_models db !! k = Some m.
Proof.
  unfold models_of. rewrite list_elem_of_In, filter_In, <- list_elem_of_In, elem_of_rows, String.eqb_eq. tauto.
Qed.

(** The rows of a provider that no active route uses. *)
Definition retired (models : list string) (s0 s : Sess) : Prop :=
  disk s = disk s0 /\ profiles_ok (work s) /\ (forall id, id ∈ models -> unused (work s) id).

Lemma unused_routes db t id :
  (forall k r, t !! k = Some r -> lr_state r = "ACTIVE" -> llm_routes db !! k = Some r) ->
  unused db id -> unused (set_llm_routes db t) id.
Proof. intros Ht Hu k r Hr Hs. eapply Hu; [by apply Ht|done]. Qed.

Lemma disable_models_ok models s0 s (l : list LlmModelProfile) :
  retired models s0 s -> (forall m, m ∈ l -> lm_id m ∈ models) ->
  wp (for_each l (fun m => update_row (lm_id m) (lm_version m) model_disabled)) (fun s' _ => retired models s0 s') s.
Proof.
  intros Hs Hl. apply (wp_for_each (retired models s0)); [|done]. intros m s1 Hm (Hd & Hok & Hu).
  profile_steps; try done. split_and!; [done| |exact Hu]. cbn in *.
  apply ok_put_model; [done|cbn; by eapply po_models|..]; intros m' Hm'; simplify_eq; [done|].
  right. by apply Hu, Hl.
Qed.

Lemma supersede_ok models s0 s (l : list LlmRoleRoute) :
  retired models s0 s ->
  wp (for_each l (fun r => update_row (lr_id r) (lr_version r) route_superseded)) (fun s' _ => retired models s0 s') s.
Proof.
  intros Hs. apply (wp_for_each (retired models s0)); [|done]. intros r s1 _ (Hd & Hok & Hu).
  profile_steps; try done. cbn in *. split_and!; [done| |].
  - apply ok_put_route; [done|cbn; by eapply po_routes| |]; cbn; intros Hst; [|done].
    exfalso. by apply list_elem_of_In in Hst; cbn in Hst; intuition.
  - intros id Hid. apply unused_routes; [|by apply Hu]. intros k r'. rewrite lookup_insert_Some.
    intros [[_ <-]|[_ ?]] Hst; [discriminate Hst|done].
Qed.

(** What the preview of a deletion tells. *)
Lemma deletable_inr owner pid db x :
  profiles_ok db -> preview_provider_deletion sha256 owner pid db = inr x ->
  llm_providers db !! lp_id x.1 = Some x.1 /\ lp_id x.1 = pid /\ lp_owner_id x.1 = owner /\
  lp_deleted_at x.1 = None /\
  forall id, id ∈ map lm_id (models_of (lp_id x.1) db) -> unused db id.
Proof.
  intros Hok H. apply result_bind_inr in H as (p & Hp & H). apply result_bind_inr in H as (u & Hu & H).
  injection H as <-. apply reject_if_inr in Hu. apply get_provider_inr in Hp as (Hp & Ho & Hlive). cbn in *.
  pose proof (po_providers _ Hok _ _ Hp) as Hid. split_and!; try done; [by rewrite Hid|].
  intros id (m & -> & Hm)%list_elem_of_fmap. pose proof Hm as (Hpm & k & Hk)%models_of_elem.
  pose proof (po_models _ Hok _ _ Hk) as Hmk. eapply (not_in_active_route owner); [done|exact Hu| | | |done].
  - by apply list_elem_of_fmap_2.
  - by rewrite Hmk.
  - by rewrite Hpm, Hid.
Qed.

Lemma delete_rows_ok user p models routes cid s :
  opened s -> profiles_ok (disk s) -> llm_providers (disk s) !! lp_id p = Some p ->
  models = models_of (lp_id p) (disk s) -> (forall id, id ∈ map lm_id models -> unused (disk s) id) ->
  wp (delete_rows user p models routes cid id) (fun s' _ => profiles_ok (disk s')) s.
Proof.
  intros Hw Hok Hp -> Hun. unfold delete_rows. profile_steps; try done.
  set (ids := map lm_id _) in *. cbn in *. rewrite Hw in *. simplify_eq.
  eapply wp_mono; [apply (disable_models_ok ids s)|].
  - split_and!; [done| |intros id Hid k r; cbn; rewrite Hw; by apply Hun]. cbn. rewrite Hw.
    apply ok_put_provider; [done|done| |done|].
    + intros p' Hp'. by simplify_eq.
    + right. intros id m Hm Hpm. apply Hun. rewrite <- (po_models _ Hok _ _ Hm). apply list_elem_of_fmap_2.
      apply models_of_elem. eauto.
  - intros m Hm. by apply list_elem_of_fmap_2.
  - intros t1 [[]|e] H1; cbn; [|by destruct H1 as (-> & _)].
    profile_steps. eapply wp_mono; [by apply (supersede_ok ids s)|].
    intros t2 [[]|e] (Hd & Hok2 & _); cbn; [|by rewrite Hd].
    profile_steps. by apply ok_audit.
Qed.

Lemma delete_provider_ok user pid cid : keeps_ok (delete_provider sha256 faults user pid cid id).
Proof.
  intros s Hw Hok. unfold delete_provider. repeat wp_step; try done.
  all: rename select (preview_provider_deletion _ _ _ _ = _) into Hp; rewrite Hw in *.
  all: apply (deletable_inr _ _ _ _ Hok) in Hp as (Hp & _ & _ & _ & Hun).
  1, 3: by apply delete_rows_ok.
  eapply wp_mono; [apply wp_delete_secret|]. intros t [[]|e] [Hd1 Hw1];
    [|apply wp_secret_error; intros; cbn; by rewrite Hd1]. cbn.
  apply delete_rows_ok; rewrite ?Hd1; try done. unfold opened. by rewrite Hw1, Hd1.
Qed.

(** ** Routes *)

Lemma create_route_ok user role primary policy fallback pv pp pa cid :
  keeps_ok (create_route user role primary policy fallback pv pp pa cid id).
Proof.
  intros s Hw Hok. unfold create_route. profile_steps; try done. cbn in *. rewrite Hw in *.
  apply ok_audit, ok_put_route; [done..| |]; cbn; intros Hst; [|done].
  exfalso. apply list_elem_of_In in Hst. cbn in Hst. intuition done.
Qed.

Lemma each_result_inr {A B} (f : A -> exn + B) l ys :
  each_result f l = inr ys -> Forall2 (fun x y => f x = inr y) l ys.
Proof.
  revert ys. induction l as [|x l IH]; intros ys H; [injection H as <-; constructor|]. cbn in H.
  apply result_bind_inr in H as (y & Hy & H). apply result_bind_inr in H as (ys' & Hys & H). injection H as <-.
  constructor; auto.
Qed.

Lemma all_texts_length items ids : all_texts items = Some ids -> length ids = length items.
Proof.
  revert ids. induction items as [|x items IH]; intros ids H; cbn in H; [by injection H as <-|].
  destruct x; try done. apply bind_Some in H as (rest & Hr & [= <-]). cbn. by rewrite (IH _ Hr).
Qed.

Lemma foundation_inr r m u ids :
  validate_foundation_route r m = inr u -> _fallback_model_ids r = inr ids ->
  lr_execution_stage r = "SHADOW" /\ lr_max_attempts r = 1 /\ fallback_shape (lr_fallback_policy r) ids.
Proof.
  unfold validate_foundation_route. intros H Hids.
  apply result_bind_inr in H as (u1 & _ & H). apply result_bind_inr in H as (u2 & Hs & H).
  apply reject_if_inr in Hs. bool_to_prop. unfold _fallback_model_ids in Hids.
  destruct (lr_fallback_model_profile_ids r) as [| | | | |items|]; try done.
  destruct (all_texts items) as [ids'|] eqn:E; [|done]. injection Hids as <-. apply all_texts_length in E.
  apply reject_if_inr in H. bool_to_prop.
  repeat match goal with
  | Heq : String.eqb _ _ = true |- _ => apply String.eqb_eq in Heq
  | Hin : _ ∈ _ |- _ => apply list_elem_of_In in Hin; cbn in Hin
  end.
  split_and!; [done..|]. unfold fallback_shape.
  rename select (_ \/ _) into Hpol. destruct Hpol as [Hpol|[Hpol|[]]]; rewrite <- Hpol in *; cbn in *;
    [left|right]; (split; [done|]).
  - destruct ids'; [done|]. destruct items; [discriminate E|done].
  - rewrite E. apply Nat.eqb_eq. by destruct (Nat.eqb _ _).
Qed.

Lemma route_model_ids_eq r ids :
  _fallback_model_ids r = inr ids -> route_model_ids r = lr_primary_model_profile_id r :: ids.
Proof. intros H. unfold route_model_ids. by rewrite H. Qed.

Lemma fallback_ready_inr owner db m p :
  fallback_ready owner db m = inr p ->
  get_provider owner (lm_provider_profile_id m) db = inr p /\ adapter_resolves p = true.
Proof.
  unfold fallback_ready. intros H. apply result_bind_inr in H as (p' & Hp & H).
  apply result_bind_inr in H as (u1 & _ & H). apply result_bind_inr in H as (u2 & _ & H).
  apply result_bind_inr in H as (u3 & Ha & H). injection H as <-. by apply reject_if_inr, negb_false_iff in Ha.
Qed.

(** What the validation of a route tells. *)
Lemma route_validatable_inr owner rid db r :
  route_validatable owner rid db = inr r ->
  llm_routes db !! rid = Some r /\ lr_owner_id r = owner /\ lr_state r = "DRAFT" /\ route_sound db r.
Proof.
  unfold route_validatable. intros H. apply result_bind_inr in H as (r' & Hr & H).
  assert (Hr' : llm_routes db !! rid = Some r' /\ lr_owner_id r' = owner).
  { unfold get_route in Hr. destruct (llm_routes db !! rid) as [r0|]; [|done].
    destruct (String.eqb_spec (lr_owner_id r0) owner); [|done]. by injection Hr as <-. }
  destruct Hr' as [Hrow Howner]. apply result_bind_inr in H as (u1 & Hdraft & H).
  apply reject_if_inr, negb_false_iff, String.eqb_eq in Hdraft.
  apply result_bind_inr in H as (m & Hm & H). apply result_bind_inr in H as (p & Hp & H).
  apply result_bind_inr in H as (ids & Hids & H). apply result_bind_inr in H as (ms & Hms & H).
  apply result_bind_inr in H as ([] & Hprompt & H). apply result_bind_inr in H as (u2 & _ & H).
  apply result_bind_inr in H as (ps & Hps & H).
  do 3 apply result_bind_inr in H as (? & _ & H). apply result_bind_inr in H as (u3 & Hres & H).
  apply reject_if_inr, negb_false_iff in Hres.
  apply result_bind_inr in H as (u4 & _ & H). apply result_bind_inr in H as (u5 & Hfound & H). injection H as <-.
  destruct (foundation_inr _ _ _ _ Hfound Hids) as (Hstage & Hatt & Hshape).
  split_and!; [done..|]. split; [done|done|by exists ids|by rewrite Howner|].
  intros id. rewrite (route_model_ids_eq _ _ Hids), elem_of_cons. unfold names_model. rewrite Howner. intros [->|Hid].
  - apply get_model_inr in Hm as [Hm _]. apply get_provider_inr in Hp as (Hp & Ho & _). by exists m, p.
  - apply each_result_inr in Hms. apply each_result_inr in Hps.
    apply list_elem_of_lookup in Hid as [i Hi]. destruct (Forall2_lookup_l _ _ _ _ _ Hms Hi) as (m1 & Hi1 & Hm1).
    destruct (Forall2_lookup_l _ _ _ _ _ Hps Hi1) as (p1 & _ & Hp1). cbn in *.
    apply fallback_ready_inr in Hp1 as [Hp1 Ha]. apply get_provider_inr in Hp1 as (Hp1 & Ho & _).
    apply get_model_inr in Hm1 as [Hm1 _]. by exists m1, p1.
Qed.

Lemma route_sound_same db r r' :
  lr_execution_stage r' = lr_execution_stage r -> lr_max_attempts r' = lr_max_attempts r ->
  lr_fallback_model_profile_ids r' = lr_fallback_model_profile_ids r -> lr_fallback_policy r' = lr_fallback_policy r ->
  lr_owner_id r' = lr_owner_id r -> lr_role r' = lr_role r -> lr_prompt_profile_id r' = lr_prompt_profile_id r ->
  lr_primary_model_profile_id r' = lr_primary_model_profile_id r -> route_sound db r -> route_sound db r'.
Proof.
  intros E1 E2 E3 E4 E5 E6 E7 E8 [H1 H2 H3 H4 H5].
  assert (Ef : _fallback_model_ids r' = _fallback_model_ids r) by (unfold _fallback_model_ids; by rewrite E3).
  split; rewrite ?E1, ?E2, ?E4, ?E5; try done.
  - by rewrite Ef.
  - unfold prompt_fits in *. by rewrite E7, E6.
  - unfold route_model_ids, names_model. rewrite Ef, E8, E5. exact H5.
Qed.

Lemma validate_route_ok user rid cid : keeps_ok (validate_route user rid cid id).
Proof.
  intros s Hw Hok. unfold validate_route. profile_steps; try done. cbn in *. rewrite Hw in *.
  rename select (route_validatable _ _ _ = _) into Hr. apply route_validatable_inr in Hr as (Hr & _ & _ & Hs).
  simplify_eq. apply ok_audit, ok_put_route; [done|cbn; by eapply po_routes| |done].
  intros _. match goal with H : route_sound _ ?r |- _ => by apply (route_sound_same _ r) end.
Qed.

(** What is assigned can be asked. *)
Lemma dependency_available_live owner db id :
  dependency_available owner db id = true ->
  exists m p, llm_models db !! id = Some m /\ lm_state m = "VALIDATED" /\
    llm_providers db !! lm_provider_profile_id m = Some p /\ lp_deleted_at p = None /\
    lp_owner_id p = owner /\ lp_state p = "VALIDATED".
Proof.
  unfold dependency_available. destruct (llm_models db !! id) as [m|]; [|done].
  rewrite andb_true_iff. intros [Hm H].
  destruct (llm_providers db !! lm_provider_profile_id m) as [p|] eqn:Hp; [|done]. unfold live_provider in H.
  bool_to_prop. repeat match goal with Heq : String.eqb _ _ = true |- _ => apply String.eqb_eq in Heq end.
  by exists m, p.
Qed.

Lemma assigned_route_inr owner ids db role r :
  assigned_route owner ids db role = inr r ->
  llm_routes db !! default EmptyString (dict_get role ids) = Some r /\ lr_owner_id r = owner /\
  lr_role r = role /\ lr_state r ∈ ["VALIDATED"; "ACTIVE"] /\
  forall id, id ∈ route_model_ids r -> dependency_available owner db id = true.
Proof.
  unfold assigned_route. destruct (llm_routes db !! _) as [r'|]; [|done]. intros H.
  apply result_bind_inr in H as (u1 & Ha & H). apply reject_if_inr, negb_false_iff in Ha.
  apply result_bind_inr in H as (m & Hm & H). apply result_bind_inr in H as (u2 & Hd & H). injection H as <-.
  apply reject_if_inr, orb_false_iff in Hd as [_ Hd]. apply negb_false_iff in Hd.
  unfold route_assignable in Ha. bool_to_prop.
  repeat match goal with Heq : String.eqb _ _ = true |- _ => apply String.eqb_eq in Heq end.
  split_and!; try done. unfold route_dependencies_available in Hd.
  destruct (_fallback_model_ids r') as [|fb] eqn:E; [done|]. rewrite (route_model_ids_eq _ _ E).
  intros id Hid. rewrite forallb_forall in Hd. apply Hd. by apply list_elem_of_In.
Qed.

Lemma assignment_routes_inr owner ids db l :
  _assignment_routes owner ids db = inr l ->
  Forall2 (fun role r => assigned_route owner ids db role = inr r) ASSIGNMENT_ROLES l.
Proof.
  unfold _assignment_routes. intros H. apply result_bind_inr in H as (u & _ & H). by apply each_result_inr.
Qed.
End Operations.
