(* ===== verification/EndpointProps.v ===== *)
(** * The endpoints a provider may have

    [_safe_endpoint] of [llm/profiles.py] on addresses written as literals, with
    any port, path, query and fragment. *)

Set Warnings "-register-all".

From Stdlib Require Import ZArith Lia Ascii String.
From stdpp Require Import base numbers strings list pretty.
From S2P Require Import Prelude Decimal Json DecimalText Models Session PyText Urls.
From S2P Require Import LlmTables LlmProfiles.

Open Scope Z_scope.

(** ** What is stripped at the end *)

Lemma rstrip_app s t : rstrip s = s -> s <> EmptyString -> rstrip (s +:+ t) = s +:+ rstrip t.
Proof.
  induction s as [|c s IH]; [done|]. intros H _. rewrite !string_cons_app. cbn [rstrip] in *.
  destruct s as [|d s].
  - change (EmptyString +:+ t) with t. change (EmptyString +:+ rstrip t) with (rstrip t). cbn in H.
    destruct (is_space c); [done|]. by destruct (rstrip t).
  - assert (Hs : rstrip (String d s) = String d s).
    { destruct (rstrip (String d s)) as [|e r]; [by destruct (is_space c)|]. by injection H as <- <-. }
    rewrite IH by done. by destruct (_ +:+ _).
Qed.

Lemma rstrip_chars_app l s t : rstrip_chars l s = s -> s <> EmptyString -> rstrip_chars l (s +:+ t) = s +:+ rstrip_chars l t.
Proof.
  induction s as [|c s IH]; [done|]. intros H _. rewrite !string_cons_app. cbn [rstrip_chars] in *.
  destruct s as [|d s].
  - change (EmptyString +:+ t) with t. change (EmptyString +:+ rstrip_chars l t) with (rstrip_chars l t). cbn in H.
    destruct (bool_decide (c ∈ l)); [done|]. by destruct (rstrip_chars l t).
  - assert (Hs : rstrip_chars l (String d s) = String d s).
    { destruct (rstrip_chars l (String d s)) as [|e r]; [by destruct (bool_decide (c ∈ l))|]. by injection H as <- <-. }
    rewrite IH by done. by destruct (_ +:+ _).
Qed.

Lemma rstrip_end s : authority_end s -> authority_end (rstrip s).
Proof. destruct s as [|c s]; [done|]. cbn. intros H. destruct (rstrip s); [by destruct (is_space c)|done]. Qed.
Lemma rstrip_chars_end l s : authority_end s -> authority_end (rstrip_chars l s).
Proof. destruct s as [|c s]; [done|]. cbn. intros H. destruct (rstrip_chars l s); [by destruct (bool_decide _)|done]. Qed.
Lemma remove_char_end c s : netloc_end c = false -> authority_end s -> authority_end (remove_char c s).
Proof.
  destruct s as [|d s]; [done|]. cbn. intros Hc H. destruct (Ascii.eqb_spec c d) as [->|_]; [congruence|done].
Qed.

Lemma plain_rstrip f s : all_chars f s = true -> (forall c, f c = true -> is_space c = false) -> rstrip s = s.
Proof.
  intros Hs Hf. induction s as [|c s IH]; [done|]. cbn in Hs. apply andb_true_iff in Hs as [Hc Hs].
  cbn. rewrite (IH Hs), (Hf c Hc). by destruct s.
Qed.
Lemma plain_rstrip_chars f l s :
  all_chars f s = true -> (forall c, f c = true -> c ∉ l) -> rstrip_chars l s = s.
Proof.
  intros Hs Hf. induction s as [|c s IH]; [done|]. cbn in Hs. apply andb_true_iff in Hs as [Hc Hs].
  cbn. rewrite (IH Hs), bool_decide_eq_false_2 by by apply Hf. by destruct s.
Qed.

Lemma rstrip_under s t : rstrip t <> EmptyString -> rstrip (s +:+ t) = s +:+ rstrip t.
Proof.
  intros H. induction s as [|c s IH]; [done|]. rewrite !string_cons_app. cbn [rstrip]. rewrite IH.
  destruct (s +:+ rstrip t) eqn:E; [|done]. by destruct s; [|discriminate E].
Qed.
Lemma rstrip_chars_under l s t : rstrip_chars l t <> EmptyString -> rstrip_chars l (s +:+ t) = s +:+ rstrip_chars l t.
Proof.
  intros H. induction s as [|c s IH]; [done|]. rewrite !string_cons_app. cbn [rstrip_chars]. rewrite IH.
  destruct (s +:+ rstrip_chars l t) eqn:E; [|done]. by destruct s; [|discriminate E].
Qed.

(** ** The authority of a literal with a port *)

(** The characters of an address, its zone included: visible ones, without
    those that end the host in a URL. *)
Definition plain_char (c : ascii) : bool :=
  Nat.leb 33 (nat_of_ascii c) && Nat.leb (nat_of_ascii c) 126 &&
  negb (bool_decide (c ∈ ["/"; "?"; "#"; "@"; "["; "]"]%char)).

Definition authority_char (c : ascii) : bool := plain_char c || Ascii.eqb c "[" || Ascii.eqb c "]".

(** No port, or a colon with digits. *)
Definition port_part (s : string) : Prop :=
  match s with EmptyString => True | String c s => c = ":"%char /\ all_chars is_digit s = true end.

(** How a host is written: as it is, or in brackets. *)
Definition written_host (host written : string) : Prop :=
  written = host /\ has_char ":" host = false \/ written = "[" +:+ (host +:+ "]").

Lemma by_codes (P : ascii -> bool) : forallb (fun n => P (ascii_of_nat n)) (seq 0 256) = true -> forall c, P c = true.
Proof.
  intros H c. rewrite forallb_forall in H. rewrite <- (ascii_nat_embedding c). apply H, in_seq.
  pose proof (nat_ascii_bounded c). lia.
Qed.

Lemma authority_char_plain c : authority_char c = true ->
  is_space c = false /\ (c ∉ ["/"%char]) /\ netloc_end c = false /\ c <> "@"%char /\
  Nat.leb (nat_of_ascii c) 32 = false.
Proof.
  assert (H : forall c, negb (authority_char c) ||
    (negb (is_space c) && negb (bool_decide (c ∈ ["/"%char])) && negb (netloc_end c) && negb (Ascii.eqb c "@") &&
     negb (Nat.leb (nat_of_ascii c) 32)) = true) by (apply by_codes; vm_compute; reflexivity).
  intros Hc. specialize (H c). rewrite Hc in H. cbn [negb orb] in H. rewrite !andb_true_iff, !negb_true_iff, bool_decide_eq_false, Ascii.eqb_neq in H.
  tauto.
Qed.

Lemma digit_plain c : is_digit c = true -> plain_char c = true.
Proof.
  assert (H : forall c, negb (is_digit c) || plain_char c = true) by (apply by_codes; vm_compute; reflexivity).
  intros Hc. specialize (H c). by rewrite Hc in H.
Qed.

Lemma lower_app s t : lower (s +:+ t) = lower s +:+ lower t.
Proof. induction s as [|c s IH]; [done|]. rewrite !string_cons_app. cbn. by rewrite IH. Qed.

Lemma lower_lower s : lower (lower s) = lower s.
Proof.
  induction s as [|c s IH]; [done|]. cbn. rewrite IH. f_equal.
  assert (H : forall c, Ascii.eqb (lower_char (lower_char c)) (lower_char c) = true)
    by (apply by_codes; vm_compute; reflexivity).
  by apply Ascii.eqb_eq.
Qed.

Lemma host_no host c : all_chars plain_char host = true -> plain_char c = false -> has_char c host = false.
Proof. apply all_chars_no. Qed.

Lemma port_no port c : port_part port -> is_digit c = false -> c <> ":"%char -> has_char c port = false.
Proof.
  intros Hport Hd Hc. destruct port as [|d s]; [done|]. destruct Hport as [-> Hs]. rewrite has_char_cons, orb_false_iff.
  split; [by apply Ascii.eqb_neq|]. by apply (all_chars_no is_digit).
Qed.

Section Literal.
Context (scheme host written port : string).
Context (Hscheme : scheme = "http" \/ scheme = "https") (Hhost : all_chars plain_char host = true).
Context (Hne : host <> EmptyString) (Hwritten : written_host host written) (Hport : port_part port).

Let authority := written +:+ port.

Lemma authority_chars : all_chars authority_char authority = true.
Proof.
  assert (Hh : all_chars authority_char host = true).
  { revert Hhost. apply all_chars_mono. intros c Hc. unfold authority_char. by rewrite Hc. }
  unfold authority. rewrite all_chars_app, andb_true_iff. split.
  - destruct Hwritten as [[-> _]| ->]; [done|]. rewrite !all_chars_app, Hh. done.
  - destruct port as [|c s]; [done|]. destruct Hport as [-> Hs]. cbn. revert Hs. apply all_chars_mono.
    intros c Hc. unfold authority_char. by rewrite digit_plain.
Qed.

Lemma authority_no c : authority_char c = false -> has_char c authority = false.
Proof. apply all_chars_no, authority_chars. Qed.

Lemma authority_nonempty : authority <> EmptyString.
Proof. unfold authority. destruct Hwritten as [[-> _]| ->]; [by destruct host|done]. Qed.

(** What is left of such a URL after the strips, and what it is split into. *)
Lemma literal_normalized rest : authority_end rest ->
  exists rest', authority_end rest' /\
    rstrip_chars ["/"%char] (strip (scheme +:+ "://" +:+ authority +:+ rest)) = scheme +:+ "://" +:+ authority +:+ rest'.
Proof.
  intros Hr. exists (rstrip_chars ["/"%char] (rstrip rest)). split; [by apply rstrip_chars_end, rstrip_end|].
  assert (H1 : rstrip (authority +:+ rest) = authority +:+ rstrip rest).
  { apply rstrip_app; [|exact authority_nonempty]. eapply plain_rstrip; [exact authority_chars|].
    intros c Hc. by apply authority_char_plain. }
  assert (H2 : forall t, rstrip_chars ["/"%char] (authority +:+ t) = authority +:+ rstrip_chars ["/"%char] t).
  { intros t. apply rstrip_chars_app; [|exact authority_nonempty]. eapply plain_rstrip_chars; [exact authority_chars|].
    intros c Hc. by apply authority_char_plain. }
  assert (Hn : forall t, authority +:+ t <> EmptyString).
  { intros t. pose proof authority_nonempty. by destruct authority. }
  assert (Hl : forall s, s = "http" \/ s = "https" -> lstrip (s +:+ "://" +:+ authority +:+ rest) = s +:+ "://" +:+ authority +:+ rest)
    by (intros s [->| ->]; done).
  unfold strip. rewrite Hl by exact Hscheme.
  assert (E : rstrip ("://" +:+ authority +:+ rest) = "://" +:+ authority +:+ rstrip rest)
    by (by rewrite rstrip_under; rewrite H1; [|apply Hn]).
  rewrite rstrip_under by (by rewrite E). rewrite E.
  assert (E2 : rstrip_chars ["/"%char] ("://" +:+ authority +:+ rstrip rest) =
            "://" +:+ authority +:+ rstrip_chars ["/"%char] (rstrip rest))
    by (by rewrite rstrip_chars_under; rewrite H2; [|apply Hn]).
  by rewrite rstrip_chars_under; rewrite E2.
Qed.

Lemma literal_split rest : authority_end rest ->
  urlsplit (scheme +:+ "://" +:+ authority +:+ rest) = None \/ exists path query fragment,
  urlsplit (scheme +:+ "://" +:+ authority +:+ rest) = Some (mkSplitUrl scheme authority path query fragment).
Proof.
  intros Hr.
  assert (Hd : exists rest', authority_end rest' /\
            drop_unsafe (authority +:+ rest) = authority +:+ rest').
  { unfold drop_unsafe. repeat (rewrite remove_char_app by by apply authority_no).
    eexists. split; [|done]. by repeat apply remove_char_end. }
  destruct Hd as (rest' & Hr' & Hd).
  assert (Hs : split_scheme (drop_unsafe (lstrip_controls (scheme +:+ "://" +:+ authority +:+ rest))) =
            (scheme, "//" +:+ (authority +:+ rest'))).
  { destruct Hscheme as [->| ->].
    - change (split_scheme ("http://" +:+ drop_unsafe (authority +:+ rest)) = ("http", "//" +:+ (authority +:+ rest'))).
      by rewrite Hd.
    - change (split_scheme ("https://" +:+ drop_unsafe (authority +:+ rest)) = ("https", "//" +:+ (authority +:+ rest'))).
      by rewrite Hd. }
  unfold urlsplit. rewrite Hs. cbv beta iota.
  change (String.prefix "//" ("//" +:+ (authority +:+ rest'))) with (String.prefix EmptyString (authority +:+ rest')).
  assert (Hp : forall s, String.prefix EmptyString s = true) by by intros [].
  rewrite Hp.
  change (substring 2 (String.length ("//" +:+ (authority +:+ rest'))) ("//" +:+ (authority +:+ rest')))
    with (substring 0 (S (S (String.length (authority +:+ rest')))) (authority +:+ rest')).
  rewrite substring_all by lia. rewrite break_at_app; [| |done].
  - destruct (negb (netloc_ok authority)); [by left|right].
    destruct (partition_on "#" rest') as [[u ?] f]. destruct (partition_on "?" u) as [[p ?] q]. eauto.
  - generalize authority_chars. apply all_chars_mono. intros c Hc. apply negb_true_iff. by apply authority_char_plain.
Qed.

(** The name of the host, up to case. *)
Lemma literal_host path query fragment : exists name,
  url_hostname (mkSplitUrl scheme authority path query fragment) = Some name /\ lower name = lower host.
Proof.
  assert (Hi : exists p, url_hostinfo (mkSplitUrl scheme authority path query fragment) = (host, p)).
  { unfold url_hostinfo. cbn [url_netloc]. rewrite rpartition_on_none by by apply authority_no.
    unfold authority. destruct Hwritten as [[-> Hc]| ->].
    - assert (Hb : has_char "[" (host +:+ port) = false)
        by (rewrite has_char_app, host_no, port_no by done; done).
      rewrite (partition_on_none _ _ Hb). destruct port as [|c s].
      + rewrite app_empty, partition_on_none by done. eauto.
      + destruct Hport as [-> _]. rewrite partition_on_app by done. eauto.
    - assert (E : "[" +:+ (host +:+ "]") +:+ port = EmptyString +:+ String "[" (host +:+ String "]" port)).
      { change ("[" +:+ (host +:+ "]") +:+ port) with (String "[" ((host +:+ "]") +:+ port)). by rewrite text_app_assoc. }
      assert (E2 : ("[" +:+ (host +:+ "]")) +:+ port = "[" +:+ (host +:+ "]") +:+ port) by done.
      rewrite E2, E, partition_on_app by done. cbv beta iota. rewrite partition_on_app by by apply host_no.
      destruct (partition_on ":" port) as [[? ?] p]. eauto. }
  destruct Hi as [p Hi]. unfold url_hostname. rewrite Hi. cbn [fst].
  assert (Hem : is_empty host = false) by by destruct host. rewrite Hem.
  destruct (partition_on "%" host) as [[name zoned] zone] eqn:Hz. apply partition_on_spec in Hz as (Hz & _).
  eexists. split; [done|]. rewrite Hz, !lower_app, lower_lower. by destruct zoned.
Qed.
End Literal.

(** ** The addresses an endpoint may have *)

(** No address of a special network of [ipaddress]. *)
Definition public (a : ip) : Prop :=
  is_private a = false /\ is_loopback a = false /\ is_link_local a = false /\ is_unspecified a = false /\
  is_reserved a = false.

Lemma loopback_private a : is_loopback a = true -> is_private a = true.
Proof.
  destruct a as [n|n]; cbn [is_loopback is_private]; [|by intros ->%Z.eqb_eq].
  unfold is_private4, in4, in_network. cbn -[Z.shiftr v4]. rewrite Z.eqb_eq. intros H. apply andb_true_iff. split.
  - change (v4 127 0 0 0) with 2130706432 in *. rewrite H. by rewrite !orb_true_r.
  - apply negb_true_iff. rewrite orb_false_r, orb_false_iff, !Z.eqb_neq, !Z.shiftr_0_r.
    split; intros E; rewrite E in H; vm_compute in H; discriminate H.
Qed.

Lemma not_private_public a : address_is_private (Some a) = false -> public a.
Proof.
  cbn [address_is_private]. rewrite !orb_false_iff. intros [[[H1 H2] H3] H4]. split_and!; try done.
  destruct (is_loopback a) eqn:E; [|done]. apply loopback_private in E. congruence.
Qed.



(** The zone of an address may end like the name of a local host, which makes
    any address of version 6 one for a provider of local models. *)
Example zone_like_local_host :
  _safe_endpoint "OLLAMA_NATIVE" (Some "http://[2606:4700::1111%.localhost]:11434") =
    inr (Some "http://[2606:4700::1111%.localhost]:11434") /\
  is_loopback <$> ip_address "2606:4700::1111%.localhost" = Some false.
Proof. split; vm_compute; reflexivity. Qed.

(** Other spellings of private hosts are accepted: the shorthand and the
    decimal notation of an address and the absolute name of the local host
    are no literals to [ip_address]; a text that cannot be split raises. *)
Example spellings_accepted :
  map (_safe_endpoint "OPENAI_COMPATIBLE")
    [Some "https://127.1"; Some "https://2130706433"; Some "https://localhost."; Some "https://["]
  = [inr (Some "https://127.1"); inr (Some "https://2130706433"); inr (Some "https://localhost."); inl ValueError].
Proof. vm_compute. reflexivity. Qed.
