(* ===== verification/ProfileAdmin.v ===== *)
(** * Activations and sequences of administration requests

    What an activation of the five roles does to the table of routes, and that
    any sequence of administration requests keeps the tables sound. *)

Set Warnings "-register-all".

From Stdlib Require Import ZArith Lia Ascii String.
From stdpp Require Import base numbers strings list gmap pretty.
From S2P Require Import Prelude Decimal Json Models Session Policies DecimalText PyText LlmCatalog LlmTables.
From S2P Require Import LlmPrompts LlmProfiles LlmRoutes ProfileProps.

Open Scope Z_scope.

(** * The activation of the five roles

    What an activation writes, exactly; that the administration of models keeps
    its tables sound in any sequence of operations; and that the routes it
    leaves active are the ones the runs of the agents accept. *)

(** ** Rows written one after the other *)

Section UpdateAll.
Context (c : LlmRoleRoute -> bool) (f : LlmRoleRoute -> LlmRoleRoute).
Context (f_id : forall r, lr_id (f r) = lr_id r).

Definition update_all (l : list LlmRoleRoute) (t : gmap string LlmRoleRoute) : gmap string LlmRoleRoute :=
  foldl (fun t r => if c r then <[lr_id r := f r]> t else t) t l.

Definition keyed_routes (t : gmap string LlmRoleRoute) : Prop := forall k r, t !! k = Some r -> lr_id r = k.
Definition rows_in (l : list LlmRoleRoute) (t : gmap string LlmRoleRoute) : Prop :=
  forall r, r ∈ l -> t !! lr_id r = Some r.

Lemma rows_in_tail r l t v :
  NoDup (map lr_id (r :: l)) -> rows_in (r :: l) t -> rows_in l (<[lr_id r := v]> t).
Proof.
  cbn. intros [Hn _]%NoDup_cons Hl r' Hr'. rewrite lookup_insert_ne.
  - apply Hl. by right.
  - intros E. apply Hn. rewrite E. by apply list_elem_of_fmap_2.
Qed.

Lemma lookup_update_all l t k :
  NoDup (map lr_id l) -> rows_in l t -> keyed_routes t ->
  update_all l t !! k = (fun r => if bool_decide (lr_id r ∈ map lr_id l) && c r then f r else r) <$> t !! k.
Proof.
  revert t. induction l as [|r l IH]; intros t Hn Hl Hk.
  - cbn. by destruct (t !! k).
  - pose proof Hn as [Hr Hn']%NoDup_cons. 
    change (update_all (r :: l) t) with (update_all l (if c r then <[lr_id r := f r]> t else t)).
    assert (Hrow : t !! lr_id r = Some r) by (apply Hl; by left).
    destruct (c r) eqn:Ec.
    + rewrite IH; [|done|by apply rows_in_tail|].
      2: { intros k' r'. rewrite lookup_insert_Some. intros [[<- <-]|[_ H]]; auto. }
      destruct (decide (k = lr_id r)) as [->|Hkr].
      * rewrite lookup_insert_eq, Hrow. cbn. rewrite f_id, (bool_decide_eq_false_2 (lr_id r ∈ map lr_id l)) by done.
        rewrite bool_decide_eq_true_2, Ec by (cbn; by left). done.
      * rewrite lookup_insert_ne by done. destruct (t !! k) as [r'|] eqn:E; [|done]. cbn. f_equal.
        assert (lr_id r' = k) by auto. subst. by rewrite !(bool_decide_ext (lr_id r' ∈ map lr_id l)
          (lr_id r' ∈ lr_id r :: map lr_id l)) by (rewrite elem_of_cons; tauto).
    + rewrite IH; [|done| |done]; [|intros r' Hr'; apply Hl; by right].
      destruct (t !! k) as [r'|] eqn:E; [|done]. cbn. f_equal.
      destruct (decide (lr_id r' = lr_id r)) as [Ei|Ei].
      * assert (lr_id r' = k) by auto. assert (r' = r) as -> by congruence. by rewrite Ec, !andb_false_r.
      * by rewrite !(bool_decide_ext (lr_id r' ∈ map lr_id l) (lr_id r' ∈ lr_id r :: map lr_id l))
          by (rewrite elem_of_cons; tauto).
Qed.
End UpdateAll.

(** ** The writes of an activation *)

Definition with_routes (t : gmap string LlmRoleRoute) (s : Sess) : Sess :=
  with_work (fun db => set_llm_routes db t) s.

Lemma with_routes_same s : with_routes (llm_routes (work s)) s = s.
Proof. unfold with_routes, with_work. destruct s as [d w ? ? ? ? ?]. cbn. f_equal. by destruct w. Qed.

Lemma wp_update_route r f Q s :
  llm_routes (work s) !! lr_id r = Some r ->
  Q (with_routes (<[lr_id r := f r]> (llm_routes (work s))) s) (inl tt) ->
  wp (update_row (lr_id r) (lr_version r) f) Q s.
Proof.
  intros Hr HQ. apply wp_update_row.
  - intros row Hrow _. cbn in Hrow. rewrite Hr in Hrow. injection Hrow as <-. exact HQ.
  - intros [H|(row & H & Hv)]; cbn in *; by simplify_eq.
Qed.

Definition unselected (ids : list string) (r : LlmRoleRoute) : bool := negb (bool_decide (lr_id r ∈ ids)).
Definition inactive (r : LlmRoleRoute) : bool := negb (String.eqb (lr_state r) "ACTIVE").

Lemma wp_supersede_all ids l Q s :
  NoDup (map lr_id l) -> rows_in l (llm_routes (work s)) ->
  Q (with_routes (update_all (unselected ids) route_superseded l (llm_routes (work s))) s) (inl tt) ->
  wp (for_each l (supersede_route ids)) Q s.
Proof.
  revert s. induction l as [|r l IH]; intros s Hn Hl HQ; cbn [for_each].
  - apply wp_ret. cbn in HQ. by rewrite with_routes_same in HQ.
  - apply wp_bind. cbn in HQ. unfold supersede_route, unselected in *. case_bool_decide as Ei; cbn in HQ.
    + apply wp_ret. cbn. apply IH; [by apply NoDup_cons in Hn as [_ ?]| |exact HQ].
      intros r' Hr'. apply Hl. by right.
    + apply wp_update_route; [apply Hl; by left|]. cbn.
      apply IH; [by apply NoDup_cons in Hn as [_ ?]|cbn; by apply rows_in_tail|exact HQ].
Qed.

(** No other route of the owner is active for the role. *)
Definition slot_free (t : gmap string LlmRoleRoute) (r : LlmRoleRoute) : Prop :=
  forall k r2, t !! k = Some r2 -> lr_state r2 = "ACTIVE" -> lr_owner_id r2 = lr_owner_id r ->
    lr_role r2 = lr_role r -> k = lr_id r.

Lemma slot_free_other r db :
  keyed_routes (llm_routes db) -> slot_free (llm_routes db) r -> other_active r db = false.
Proof.
  intros Hk Hf. apply existsb_false_Forall, Forall_forall. intros r2 Hr2. apply elem_of_rows in Hr2 as [k Hr2].
  destruct (_ && _ && _ && _) eqn:E; [|done]. bool_to_prop.
  repeat match goal with Heq : String.eqb _ _ = true |- _ => apply String.eqb_eq in Heq end.
  rename select (String.eqb _ _ = false) into Hn. apply String.eqb_neq in Hn. destruct Hn.
  rewrite (Hk _ _ Hr2). by eapply Hf.
Qed.

Lemma wp_activate_all now l Q s :
  NoDup (map lr_id l) -> NoDup (map lr_role l) -> rows_in l (llm_routes (work s)) ->
  keyed_routes (llm_routes (work s)) -> (forall r, r ∈ l -> slot_free (llm_routes (work s)) r) ->
  Q (with_routes (update_all inactive (route_activated now) l (llm_routes (work s))) s) (inl tt) ->
  wp (for_each l (activate_route now)) Q s.
Proof.
  revert s. induction l as [|r l IH]; intros s Hn Hr Hl Hk Hf HQ; cbn [for_each].
  - apply wp_ret. cbn in HQ. by rewrite with_routes_same in HQ.
  - apply wp_bind. cbn in HQ. pose proof Hn as [_ Hn']%NoDup_cons. pose proof Hr as [Hrole Hr']%NoDup_cons.
    unfold activate_route, inactive in *. destruct (String.eqb (lr_state r) "ACTIVE"); cbn in HQ.
    + apply wp_ret. cbn. apply IH; try done; intros r' H'; [apply Hl|apply Hf]; by right.
    + apply wp_bind, wp_gets. cbn. rewrite slot_free_other by (try done; apply Hf; by left).
      apply wp_bind, wp_ret. cbn. apply wp_update_route; [apply Hl; by left|]. cbn.
      apply IH; cbn; try done; [by apply rows_in_tail| |].
      * intros k' r'. rewrite lookup_insert_Some. intros [[<- <-]|[_ H]]; auto.
      * intros r1 H1 k r2. rewrite lookup_insert_Some. intros [[<- <-]|[_ H2]] Hs Ho Hro.
        -- destruct Hrole. cbn in Hro. rewrite Hro. by apply list_elem_of_fmap_2.
        -- eapply Hf; [by right|done..].
Qed.

(** ** The switch *)

(** What becomes of a route: the selected ones are active, the others of the
    owner that were active for one of the roles are superseded. *)
Definition assigned_before (owner : string) (r : LlmRoleRoute) : bool :=
  String.eqb (lr_owner_id r) owner && bool_decide (lr_state r ∈ ["ACTIVE"]) &&
  bool_decide (lr_role r ∈ ASSIGNMENT_ROLES).

Definition switched (now : Z) (owner : string) (ids : list string) (r : LlmRoleRoute) : LlmRoleRoute :=
  if bool_decide (lr_id r ∈ ids) then (if inactive r then route_activated now r else r)
  else if assigned_before owner r then route_superseded r else r.

Lemma route_rows_nodup t : keyed_routes t -> NoDup (map lr_id (rows t)).
Proof.
  intros Hk. unfold rows. assert (H : map lr_id (map_to_list t).*2 = (map_to_list t).*1).
  { assert (Hall : forall x, x ∈ map_to_list t -> lr_id x.2 = x.1).
    { intros [k r] Hx. apply elem_of_map_to_list in Hx. by apply Hk. }
    revert Hall. induction (map_to_list t) as [|x l IH]; intros Hall; [done|]. cbn. f_equal.
    - apply Hall. by left.
    - apply IH. intros y Hy. apply Hall. by right. }
  rewrite H. apply NoDup_fst_map_to_list.
Qed.

Lemma filter_ids_nodup p l : NoDup (map lr_id l) -> NoDup (map lr_id (List.filter p l)).
Proof.
  induction l as [|r l IH]; [done|]. cbn. intros [Hr Hn]%NoDup_cons. destruct (p r); [|auto]. cbn. constructor; [|auto].
  intros Hin. apply Hr. apply list_elem_of_fmap in Hin as (r' & E & Hr'). rewrite E.
  apply list_elem_of_fmap_2. apply list_elem_of_In, filter_In in Hr' as [Hr' _]. by apply list_elem_of_In.
Qed.

(** The routes an activation reads as current. *)
Definition current_routes (owner : string) (db : DB) : list LlmRoleRoute :=
  List.filter (fun r => bool_decide (lr_role r ∈ ASSIGNMENT_ROLES)) (owner_routes owner ["ACTIVE"] db).

Lemma current_routes_nodup owner db : profiles_ok db -> NoDup (map lr_id (current_routes owner db)).
Proof. intros Hok. apply filter_ids_nodup, filter_ids_nodup, route_rows_nodup. exact (po_routes _ Hok). Qed.

Lemma current_routes_elem owner db r :
  r ∈ current_routes owner db <-> assigned_before owner r = true /\ exists k, llm_routes db !! k = Some r.
Proof.
  unfold current_routes, assigned_before.
  rewrite list_elem_of_In, filter_In, <- list_elem_of_In, owner_routes_elem, !andb_true_iff, String.eqb_eq,
    !bool_decide_eq_true. tauto.
Qed.

Lemma current_routes_in owner db : profiles_ok db -> rows_in (current_routes owner db) (llm_routes db).
Proof.
  intros Hok r Hr. apply current_routes_elem in Hr as [_ [k Hk]]. by rewrite (po_routes _ Hok _ _ Hk).
Qed.

Lemma current_routes_id owner db k r :
  profiles_ok db -> llm_routes db !! k = Some r ->
  bool_decide (lr_id r ∈ map lr_id (current_routes owner db)) = assigned_before owner r.
Proof.
  intros Hok Hk. apply eq_true_iff_eq. rewrite bool_decide_eq_true. split.
  - intros (r' & E & Hr')%list_elem_of_fmap. pose proof (current_routes_in owner db Hok r' Hr') as Hl.
    rewrite <- E, (po_routes _ Hok _ _ Hk), Hk in Hl. injection Hl as <-.
    by apply current_routes_elem in Hr' as [? _].
  - intros H. apply list_elem_of_fmap_2, current_routes_elem. eauto.
Qed.

(** The selected routes: one for each role, each of them a row. *)
Section Selected.
Context (owner : string) (route_ids : list (string * string)) (db : DB) (selected : list LlmRoleRoute).
Context (Hok : profiles_ok db) (Hsel : _assignment_routes owner route_ids db = inr selected).

Lemma selected_elem r : r ∈ selected ->
  llm_routes db !! lr_id r = Some r /\ lr_owner_id r = owner /\ lr_role r ∈ ASSIGNMENT_ROLES /\
  lr_state r ∈ ["VALIDATED"; "ACTIVE"] /\
  forall id, id ∈ route_model_ids r -> dependency_available owner db id = true.
Proof.
  intros Hr. apply assignment_routes_inr in Hsel. apply list_elem_of_lookup in Hr as [i Hi].
  destruct (Forall2_lookup_r _ _ _ _ _ Hsel Hi) as (role & Hrole & H).
  apply assigned_route_inr in H as (H1 & H2 & H3 & H4 & H5).
  rewrite (po_routes _ Hok _ _ H1). split_and!; try done. rewrite H3. by apply list_elem_of_lookup_2 in Hrole.
Qed.

Lemma selected_roles : map lr_role selected = ASSIGNMENT_ROLES.
Proof.
  apply assignment_routes_inr in Hsel. revert Hsel. generalize ASSIGNMENT_ROLES.
  induction 1 as [|role r roles l H _ IH]; [done|]. cbn. rewrite IH. f_equal.
  by apply assigned_route_inr in H as (_ & _ & <- & _).
Qed.

Lemma selected_roles_nodup : NoDup (map lr_role selected).
Proof. rewrite selected_roles. apply (bool_decide_unpack _). vm_compute. exact I. Qed.

Lemma selected_ids_nodup : NoDup (map lr_id selected).
Proof.
  pose proof selected_roles_nodup as Hn.
  assert (H : forall r, r ∈ selected -> llm_routes db !! lr_id r = Some r) by (intros r Hr; by apply selected_elem).
  clear Hsel. revert H Hn. induction selected as [|r l IH]; intros H Hn; cbn in *; [constructor|].
  apply NoDup_cons in Hn as [Hr Hn]. constructor; [|apply IH; auto; intros r' Hr'; apply H; by right].
  intros (r' & E & Hr')%list_elem_of_fmap. apply Hr.
  assert (r' = r) as <-.
  { pose proof (H r' ltac:(by right)) as H1. pose proof (H r ltac:(by left)) as H2. congruence. }
  by apply list_elem_of_fmap_2.
Qed.
End Selected.

(** ** The whole activation *)

Definition switched_routes (now : Z) (owner : string) (ids : list string) (db : DB) : DB :=
  set_llm_routes db (switched now owner ids <$> llm_routes db).

Section Activation.
Context (sha256 : string -> string) (user : User) (route_ids : list (string * string)) (cid : string).
Context (s : Sess) (selected : list LlmRoleRoute).
Context (Hw : opened s) (Hok : profiles_ok (disk s)).
Context (Hsel : _assignment_routes (u_id user) route_ids (disk s) = inr selected).

Let ids := map lr_id selected.
Let current := current_routes (u_id user) (disk s).
Let superseded := update_all (unselected ids) route_superseded current (llm_routes (disk s)).

Lemma superseded_lookup k :
  superseded !! k = (fun r => if assigned_before (u_id user) r && unselected ids r then route_superseded r else r)
    <$> llm_routes (disk s) !! k.
Proof.
  unfold superseded. rewrite lookup_update_all; [|done|by apply current_routes_nodup|by apply current_routes_in|
    exact (po_routes _ Hok)].
  destruct (llm_routes (disk s) !! k) as [r|] eqn:E; [|done]. cbn.
  unfold current. by rewrite (current_routes_id _ _ k r Hok E).
Qed.

Lemma selected_kept r : r ∈ selected -> superseded !! lr_id r = Some r.
Proof.
  intros Hr. rewrite superseded_lookup. destruct (selected_elem _ _ _ _ Hok Hsel r Hr) as (-> & _).
  cbn. unfold unselected. rewrite bool_decide_eq_true_2 by by apply list_elem_of_fmap_2. by rewrite andb_false_r.
Qed.

Lemma superseded_keyed : keyed_routes superseded.
Proof.
  intros k r. rewrite superseded_lookup. intros (r' & H & ->)%fmap_Some.
  destruct (_ && _); cbn; by apply (po_routes _ Hok).
Qed.

Lemma selected_slot_free r : r ∈ selected -> slot_free superseded r.
Proof.
  intros Hr k r2 Hk Hs Ho Hro. destruct (selected_elem _ _ _ _ Hok Hsel r Hr) as (_ & Howner & Hrole & _).
  rewrite superseded_lookup in Hk. apply fmap_Some in Hk as (r' & Hk & E).
  assert (Ha : assigned_before (u_id user) r' = true).
  { assert (r2 = r' \/ r2 = route_superseded r') as [->| ->] by (destruct (_ && _); auto); [|done].
    unfold assigned_before. rewrite !andb_true_iff, !bool_decide_eq_true, String.eqb_eq, Hro, Ho, Hs.
    split_and!; [done|by left|done]. }
  rewrite Ha in E. unfold unselected in E. cbn in E. case_bool_decide as Hin; cbn in E; [|by subst].
  subst r2. apply list_elem_of_fmap in Hin as (r1 & E1 & Hr1).
  assert (lr_role r1 = lr_role r').
  { destruct (selected_elem _ _ _ _ Hok Hsel r1 Hr1) as (H1 & _). rewrite <- E1, (po_routes _ Hok _ _ Hk), Hk in H1.
    by injection H1 as <-. }
  rewrite <- (po_routes _ Hok _ _ Hk), E1. assert (r1 = r) as ->; [|done].
  apply list_elem_of_lookup in Hr1 as [i Hi]. apply list_elem_of_lookup in Hr as [j Hj].
  assert (i = j) as ->; [|congruence].
  eapply (NoDup_lookup (map lr_role selected)); [by eapply selected_roles_nodup| |];
    rewrite list_lookup_fmap; [by rewrite Hi|]. rewrite Hj. cbn. congruence.
Qed.

Lemma activated_table now :
  update_all inactive (route_activated now) selected superseded =
  switched now (u_id user) ids <$> llm_routes (disk s).
Proof.
  apply map_eq. intros k. rewrite lookup_update_all; [|done|by eapply selected_ids_nodup|
    intros r Hr; by apply selected_kept|exact superseded_keyed].
  rewrite superseded_lookup, lookup_fmap. destruct (llm_routes (disk s) !! k) as [r|] eqn:E; [|done]. cbn. f_equal.
  unfold switched, unselected. fold ids. destruct (decide (lr_id r ∈ ids)) as [Hin|Hin].
  - by rewrite !(bool_decide_eq_true_2 _ Hin), andb_false_r, (bool_decide_eq_true_2 _ Hin).
  - rewrite !(bool_decide_eq_false_2 _ Hin), andb_true_r.
    destruct (assigned_before _ r); cbn; by rewrite (bool_decide_eq_false_2 _ Hin).
Qed.

(** The activation of a complete set of assignable routes always succeeds, and
    writes just the switch. *)
Lemma wp_activation :
  wp (activate_assignments sha256 user route_ids cid id)
    (fun s' r => (exists l, r = inl l) /\ work s' = disk s' /\
       same_profiles (switched_routes (clock s) (u_id user) ids (disk s)) (disk s')) s.
Proof.
  unfold activate_assignments. wp_step. wp_step. cbn [after]. rewrite Hw, Hsel. repeat wp_step.
  2: { rename select (inr _ = inl _) into Hx. discriminate Hx. }
  match goal with H : inr _ = inr _ |- _ => injection H as <- end.
  apply wp_others_commit. cbn [after]. wp_step.
  apply wp_supersede_all; cbn; rewrite Hw; [by apply current_routes_nodup|by apply current_routes_in|].
  wp_step. apply wp_activate_all; cbn; [by eapply selected_ids_nodup|by eapply selected_roles_nodup|
    intros r Hr; by apply selected_kept|exact superseded_keyed|intros r Hr; by apply selected_slot_free|].
  cbn [after]. repeat wp_step. cbn. split; [eauto|]. split; [done|].
  split_and!; cbn; rewrite ?Hw; try done. apply activated_table.
Qed.
End Activation.

(** ** The switch keeps the tables sound *)

Lemma switched_fixed now owner ids r :
  let r' := switched now owner ids r in
  lr_id r' = lr_id r /\ lr_owner_id r' = lr_owner_id r /\ lr_role r' = lr_role r /\
  route_model_ids r' = route_model_ids r /\ (forall db, route_sound db r -> route_sound db r').
Proof.
  unfold switched. repeat case_match; cbn; split_and!; try done; intros db ?; by apply (route_sound_same _ r).
Qed.

Lemma switched_active now owner ids r :
  lr_state (switched now owner ids r) = "ACTIVE" ->
  (lr_id r ∈ ids) \/ (lr_id r ∉ ids) /\ lr_state r = "ACTIVE" /\ assigned_before owner r = false.
Proof.
  unfold switched. case_bool_decide as Hin; [by left|]. destruct (assigned_before owner r); [done|]. by right.
Qed.

Lemma switched_states now owner ids r :
  lr_id r ∉ ids -> lr_state (switched now owner ids r) ∈ ["VALIDATED"; "ACTIVE"] -> lr_state r ∈ ["VALIDATED"; "ACTIVE"].
Proof.
  intros Hn. unfold switched. rewrite bool_decide_eq_false_2 by done. destruct (assigned_before owner r); [|done].
  cbn. intros H. apply list_elem_of_In in H. cbn in H. intuition done.
Qed.

Lemma assigned_before_active owner r :
  lr_state r = "ACTIVE" -> lr_owner_id r = owner -> lr_role r ∈ ASSIGNMENT_ROLES -> assigned_before owner r = true.
Proof.
  intros Hs Ho Hr. unfold assigned_before.
  rewrite !andb_true_iff, !bool_decide_eq_true, String.eqb_eq, Hs. split_and!; [done|by left|done].
Qed.

Section SwitchOk.
Context (owner : string) (route_ids : list (string * string)) (db : DB) (selected : list LlmRoleRoute).
Context (Hok : profiles_ok db) (Hsel : _assignment_routes owner route_ids db = inr selected).

Let ids := map lr_id selected.

Lemma selected_row k r : llm_routes db !! k = Some r -> lr_id r ∈ ids -> r ∈ selected.
Proof.
  intros Hk (r' & E & Hr')%list_elem_of_fmap. destruct (selected_elem _ _ _ _ Hok Hsel r' Hr') as (H & _).
  rewrite <- E, (po_routes _ Hok _ _ Hk), Hk in H. by injection H as ->.
Qed.

Lemma selected_live r : r ∈ selected -> route_live db r.
Proof.
  intros Hr id Hid. destruct (selected_elem _ _ _ _ Hok Hsel r Hr) as (_ & _ & _ & _ & Hd).
  destruct (dependency_available_live _ _ _ (Hd id Hid)) as (m & p & ? & ? & ? & ? & _ & ?).
  exists m, p. split_and!; [done..|]. split_and!; [done|by eapply (po_credential _ Hok)|by left].
Qed.

Lemma selected_same r r' : r ∈ selected -> r' ∈ selected -> lr_role r = lr_role r' -> r = r'.
Proof.
  intros [i Hi]%list_elem_of_lookup [j Hj]%list_elem_of_lookup E. assert (i = j) as ->; [|congruence].
  eapply (NoDup_lookup (map lr_role selected)); [by eapply selected_roles_nodup| |];
    rewrite list_lookup_fmap; [by rewrite Hi|]. rewrite Hj. cbn. congruence.
Qed.

Lemma switched_ok now : profiles_ok (switched_routes now owner ids db).
Proof.
  assert (Hlook : forall k r', (switched now owner ids <$> llm_routes db) !! k = Some r' ->
            exists r, llm_routes db !! k = Some r /\ r' = switched now owner ids r).
  { intros k r'. rewrite lookup_fmap. by intros (r & H & ->)%fmap_Some; eauto. }
  pose proof Hok as [H1 H2 H3 H4 H5 H6 H7 H8]. unfold switched_routes. split; cbn; try done.
  - intros k r' (r & Hr & ->)%Hlook. destruct (switched_fixed now owner ids r) as (-> & _). eauto.
  - intros k r' (r & Hr & ->)%Hlook Hs. destruct (switched_fixed now owner ids r) as (_ & _ & _ & _ & Hf).
    assert (Hkept : tables_kept db (switched_routes now owner ids db)) by (split; cbn; auto).
    eapply route_sound_kept; [exact Hkept|]. apply Hf. apply (H6 k); [done|].
    destruct (decide (lr_id r ∈ ids)) as [Hin|Hin]; [|by eapply switched_states].
    by apply (selected_elem _ _ _ _ Hok Hsel), (selected_row k).
  - intros k r' (r & Hr & ->)%Hlook Hs. destruct (switched_fixed now owner ids r) as (_ & _ & -> & Hm & _).
    unfold route_live. rewrite Hm. apply switched_active in Hs as [Hin|(_ & Hs & _)]; [|by apply (H7 k)].
    apply (selected_row k) in Hin; [|done]. split; [by apply (selected_elem _ _ _ _ Hok Hsel)|by apply selected_live].
  - intros k k' r0 r0' (r & Hr & ->)%Hlook (r' & Hr' & ->)%Hlook.
    destruct (switched_fixed now owner ids r) as (_ & -> & -> & _).
    destruct (switched_fixed now owner ids r') as (_ & -> & -> & _).
    assert (Hmixed : forall k k' r r', llm_routes db !! k = Some r -> llm_routes db !! k' = Some r' ->
      lr_id r ∈ ids -> lr_state r' = "ACTIVE" -> assigned_before owner r' = false -> lr_owner_id r = lr_owner_id r' ->
      lr_role r = lr_role r' -> False).
    { intros k1 k2 r1 r2 Hk1 Hk2 Hin Hs2 Hb Ho Hro. apply (selected_row k1) in Hin; [|done].
      destruct (selected_elem _ _ _ _ Hok Hsel r1 Hin) as (_ & Ho1 & Hro1 & _).
      rewrite assigned_before_active in Hb; [done|done| |]; congruence. }
    intros [Hin|(Hin & Hs & Hb)]%switched_active [Hin'|(Hin' & Hs' & Hb')]%switched_active Ho Hro.
    + apply (selected_row k) in Hin; [|done]. apply (selected_row k') in Hin'; [|done].
      rewrite <- (H4 _ _ Hr), <- (H4 _ _ Hr'). f_equal. by apply selected_same.
    + destruct (Hmixed k k' r r'); congruence.
    + destruct (Hmixed k' k r' r); congruence.
    + by apply (H8 k k' r r').
Qed.
End SwitchOk.

Lemma activation_refused sha256 user route_ids cid s e :
  opened s -> _assignment_routes (u_id user) route_ids (disk s) = inl e ->
  wp (activate_assignments sha256 user route_ids cid id) (fun s' r => disk s' = disk s /\ r = inr e) s.
Proof. intros Hw E. unfold activate_assignments. wp_step. wp_step. cbn [after]. rewrite Hw, E. wp_step. done. Qed.

Lemma activate_assignments_ok sha256 user route_ids cid :
  keeps_ok (activate_assignments sha256 user route_ids cid id).
Proof.
  intros s Hw Hok. destruct (_assignment_routes (u_id user) route_ids (disk s)) as [e|selected] eqn:E.
  - eapply wp_mono; [by apply activation_refused|]. by intros s' r [-> _].
  - eapply wp_mono; [by eapply wp_activation|]. intros s' r (_ & _ & Hs).
    eapply profiles_ok_same; [exact Hs|]. by eapply switched_ok.
Qed.

(** * Sequences of administration requests

    Each request of the administration of models runs in a session of its own,
    one after the other; the tables stay sound through all of them. *)

(** The requests that change the tables, with what they carry. *)
Inductive admin_call :=
| CreatePrompt (role system_prompt reason : string)
| ValidatePrompt (prompt_id : string)
| RegisterProvider (name template_id : string) (configuration : list (string * string)) (credential : string)
    (reply : listing)
| SyncModels (provider_id : string) (reply : listing)
| CreateProvider (name adapter_type : string) (endpoint credential_secret_ref : option string) (data_policy : string)
| DeleteProvider (provider_id : string)
| TestProvider (provider_id : string)
| SetCredential (provider_id credential : string)
| CreateModel (provider_id alias provider_model_id : string) (capabilities : ModelCapabilities)
    (max_context_tokens : option Z) (max_output_tokens : Z) (temperature top_p : option decimal)
    (reasoning_effort : option string) (seed : option Z)
| ValidateModel (model_id : string)
| DisableModel (model_id : string)
| CreateRoute (role primary_model_profile_id failure_policy : string)
    (fallback_model_profile_id prompt_version prompt_profile_id : option string) (parameters : RouteParameters)
| ValidateRoute (route_id : string)
| ActivateAssignments (route_ids : list (string * string)).

(** The id of the row a request leaves. *)
Definition row_id {A} (id : A -> string) (m : prog A) : prog string := a ← m; mret (id a).

Section Administration.
Context (sha256 : string -> string) (faults : FileFaults) (user : User) (cid : string).

Definition perform (call : admin_call) : prog string :=
  match call with
  | CreatePrompt role text reason => row_id lq_id (create_prompt sha256 user role text reason cid id)
  | ValidatePrompt prompt => row_id lq_id (validate_prompt user prompt cid id)
  | RegisterProvider name template configuration credential reply =>
      row_id (fun x => lp_id x.1)
        (register_provider_with_discovery sha256 faults user name template configuration credential cid reply id id)
  | SyncModels provider reply => row_id (fun x => lp_id x.1) (sync_provider_models faults user provider cid reply id)
  | CreateProvider name adapter endpoint ref policy =>
      row_id lp_id (create_provider user name adapter endpoint ref policy cid id)
  | DeleteProvider provider => row_id (fun _ => provider) (delete_provider sha256 faults user provider cid id)
  | TestProvider provider => row_id (fun x => lp_id x.1) (test_provider faults user provider cid id)
  | SetCredential provider credential =>
      row_id lp_id (set_provider_credential sha256 faults user provider credential cid id)
  | CreateModel provider alias model caps context output t p effort seed =>
      row_id lm_id (create_model user provider alias model caps context output t p effort seed cid id)
  | ValidateModel model => row_id lm_id (validate_model user model cid id)
  | DisableModel model => row_id lm_id (disable_model user model cid id)
  | CreateRoute role primary policy fallback version prompt parameters =>
      row_id lr_id (create_route user role primary policy fallback version prompt parameters cid id)
  | ValidateRoute route => row_id lr_id (validate_route user route cid id)
  | ActivateAssignments routes => row_id (fun _ => EmptyString) (activate_assignments sha256 user routes cid id)
  end.
End Administration.

(** The requests of any users, with their times. *)
Record admin_request := mkAdminRequest {
  ar_now : Z;
  ar_user : User;
  ar_correlation_id : string;
  ar_call : admin_call
}.

Section Serving.
Context (sha256 : string -> string) (faults : FileFaults).

Definition serve_request (q : admin_request) (s : Sess) : Sess * (string + exn) :=
  in_session (perform sha256 faults (ar_user q) (ar_correlation_id q) (ar_call q)) (at_time (ar_now q) s).

Fixpoint administer (requests : list admin_request) (s : Sess) : Sess * list (string + exn) :=
  match requests with
  | [] => (s, [])
  | q :: requests =>
      let '(s1, r) := serve_request q s in
      let '(s2, rs) := administer requests s1 in
      (s2, r :: rs)
  end.

Lemma keeps_ok_row_id {A} (f : A -> string) (m : prog A) : keeps_ok m -> keeps_ok (row_id f m).
Proof.
  intros H s Hw Hok. unfold row_id. apply wp_bind. eapply wp_mono; [by apply H|]. intros s' [a|e] Hs; [by wp_step|done].
Qed.

Lemma perform_ok user cid call : keeps_ok (perform sha256 faults user cid call).
Proof.
  destruct call; apply keeps_ok_row_id;
    [apply create_prompt_ok|apply validate_prompt_ok|apply register_ok|apply sync_provider_models_ok
    |apply create_provider_ok|apply delete_provider_ok|apply test_provider_ok|apply set_provider_credential_ok
    |apply create_model_ok|apply validate_model_ok|apply disable_model_ok|apply (create_route_ok sha256)|apply validate_route_ok
    |apply activate_assignments_ok].
Qed.

Lemma serve_request_ok q s : profiles_ok (disk s) -> profiles_ok (disk (serve_request q s).1).
Proof.
  intros Hok. pose proof (perform_ok (ar_user q) (ar_correlation_id q) (ar_call q)
    (rolled_back (at_time (ar_now q) s)) eq_refl Hok) as H.
  unfold wp in H. unfold serve_request, in_session. by destruct (perform _ _ _ _ _ _).
Qed.

Lemma administer_ok requests s : profiles_ok (disk s) -> profiles_ok (disk (administer requests s).1).
Proof.
  revert s. induction requests as [|q requests IH]; intros s Hok; [done|].
  cbn [administer]. pose proof (serve_request_ok q s Hok) as H1.
  destruct (serve_request q s) as [s1 r]. specialize (IH s1 H1). by destruct (administer requests s1).
Qed.

Lemma administer_length requests s : length (administer requests s).2 = length requests.
Proof.
  revert s. induction requests as [|q requests IH]; intros s; [done|].
  cbn [administer]. destruct (serve_request q s) as [s1 r]. specialize (IH s1).
  destruct (administer requests s1). cbn in *. by rewrite IH.
Qed.

(** C37: Any sequence of requests to the administration of models, of any
    users, answered one after the other in sessions of their own, keeps the
    tables sound: every route that is validated or active is a shadow route with
    one attempt, a prompt of its role, and one or two models of its owner whose
    adapters exist; the models of an active route stay validated, and their
    providers undeleted, with the credential they need, and validated, unless
    the credential was replaced after its last test, which makes the provider a
    draft of unknown health; validated providers keep a credential, and each
    role of a user has at most one active route. *)
Theorem profiles_stay_sound requests s :
  profiles_ok (disk s) ->
  let '(s', replies) := administer requests s in profiles_ok (disk s') /\ length replies = length requests.
Proof.
  intros Hok. pose proof (administer_ok requests s Hok). pose proof (administer_length requests s).
  by destruct (administer requests s).
Qed.
End Serving.

(** ** An administration *)

Definition two_digits (n : nat) : string := zfill 2 (pretty (Z.of_nat n)).
Definition demo_row_id (n : nat) : string := "00000000-0000-7000-8000-0000000000" +:+ two_digits n.

Definition plain_capabilities : ModelCapabilities :=
  mkModelCapabilities true false false false false false false false.

(** The schema the output of a role is declared to have. *)
Definition demo_schema (role : string) : string :=
  if String.eqb role "CORE" then "agent-core-v2" else "agent-assessment-v2".

Definition demo_parameters (schema : string) : RouteParameters :=
  mkRouteParameters 60000 "DEFAULT" false 100 dzero schema None None None None None "first assignment".

Definition demo_route (model : nat) (role schema : string) : admin_call :=
  CreateRoute role (demo_row_id model) "FAIL_STOP" None (Some "v1") None (demo_parameters schema).

(** Which route each role gets: those with the ids from 2 on. *)
Definition demo_assignment : list (string * string) :=
  combine ASSIGNMENT_ROLES (map demo_row_id [2; 3; 4; 5; 6]%nat).

(** A mock provider with a model, a route of every role, all activated; then
    the provider can no longer be deleted, nor its model disabled.  A second
    provider is registered with its models. *)
Definition demo_assigning (schema : string -> string) : list admin_call :=
  [CreateProvider "local" "MOCK" None None "NONE"; TestProvider (demo_row_id 0);
   CreateModel (demo_row_id 0) "mock" "mock-1" plain_capabilities None 1000 None None None None;
   ValidateModel (demo_row_id 1)] ++
  map (fun role => demo_route 1 role (schema role)) ASSIGNMENT_ROLES ++
  map (fun n => ValidateRoute (demo_row_id n)) [2; 3; 4; 5; 6]%nat.

Definition demo_administration : list admin_call :=
  demo_assigning demo_schema ++
  [ActivateAssignments demo_assignment; DisableModel (demo_row_id 1); DeleteProvider (demo_row_id 0);
   RegisterProvider "novelist" "ai-novelist" [] "key" ListTimeout;
   SyncModels (demo_row_id 7) ListTimeout; SetCredential (demo_row_id 7) "other-key"; DeleteProvider (demo_row_id 7)].

Definition demo_hash (s : string) : string := s.
Definition demo_request (now : Z) (call : admin_call) : admin_request := mkAdminRequest now demo_user "c" call.
Definition demo_profiles_sess : Sess := open_session (set_users empty_db {[ "user-1" := demo_user ]}) 0 demo_row_id.
Definition demo_administer (calls : list admin_call) : Sess * list (string + exn) :=
  administer demo_hash no_faults (map (demo_request 5) calls) demo_profiles_sess.

Lemma no_profiles_ok db :
  llm_providers db = ∅ -> llm_models db = ∅ -> llm_prompts db = ∅ -> llm_routes db = ∅ -> profiles_ok db.
Proof. intros Hp Hm Hq Hr. split; rewrite ?Hp, ?Hm, ?Hq, ?Hr; intros *; by rewrite lookup_empty. Qed.

Definition refused_with (r : string + exn) : option string :=
  match r with inr (LlmProfileError code _) => Some code | _ => None end.

Lemma profiles_stay_sound_witness :
  profiles_ok (disk demo_profiles_sess) /\ profiles_ok (disk (demo_administer demo_administration).1) /\
  map lr_state (rows (llm_routes (disk (demo_administer demo_administration).1))) = replicate 5 "ACTIVE" /\
  omap refused_with (demo_administer demo_administration).2 = ["MODEL_IN_ACTIVE_ROUTE"; "PROVIDER_IN_ACTIVE_ROUTE"].
Proof.
  assert (H : profiles_ok (disk demo_profiles_sess)) by by apply no_profiles_ok.
  split; [exact H|]. split; [|split; vm_compute; reflexivity].
  pose proof (profiles_stay_sound demo_hash no_faults (map (demo_request 5) demo_administration) _ H) as Hs.
  unfold demo_administer. destruct (administer _ _ _ _) as [s' rs]. exact (proj1 Hs).
Defined.

(** A model that is disabled while the routes that name it are activated: the
    disabling read the routes before, and nothing it writes conflicts with the
    activation, so that active routes are left with a disabled model. *)
Definition activated_meanwhile (db : DB) : DB :=
  disk (activate_assignments demo_hash demo_user demo_assignment "c" id (open_session db 6 demo_row_id)).1.

Definition demo_assigned : Sess := (demo_administer (demo_assigning demo_schema)).1.

Example disabled_under_active_routes :
  let s := (in_session (disable_model demo_user (demo_row_id 1) "c" activated_meanwhile) demo_assigned).1 in
  map lr_state (rows (llm_routes (disk s))) = replicate 5 "ACTIVE" /\
  map lm_state (rows (llm_models (disk s))) = ["DISABLED"].
Proof. split; vm_compute; reflexivity. Qed.
