(* ===== verification/AgentContracts.v ===== *)
(** * The contracts between the agents

    [agents/contracts.py] and [agents/reason_codes.py]: what a scout or the core
    may say, as validated records.  pydantic's coercion of one JSON value to an
    int, a float or an instant is a parameter ([Pydantic]); fields, literals,
    bounds and the validators of the classes are modelled.  A float is known by
    the text [repr] prints. *)

Set Warnings "-register-all".

From Stdlib Require Import ZArith Lia Ascii String.
From stdpp Require Import base numbers strings list gmap.
From S2P Require Import Prelude Decimal Json PyTime Models Session MarketWatch DecimalText PyText.
From S2P Require Import DecisionInputs MockDecision.

Open Scope Z_scope.

(** ** Reason codes *)

Definition REASON_CODE_POLICY_VERSION : string := "reason-code-policy-v1".

Definition COMMON_SCOUT_REASON_CODES : list string :=
  ["DATA_SUFFICIENT"; "INPUT_DATA_MISSING"; "INPUT_DATA_STALE"; "INPUT_DATA_CONFLICTED";
   "NO_VERIFIED_EVIDENCE"; "VERIFIED_EVIDENCE_AVAILABLE"].

(** [ROLE_REASON_CODES] *)
Definition ROLE_REASON_CODES : list (string * list string) :=
  [("TECHNICAL_SCOUT",
    COMMON_SCOUT_REASON_CODES ++
    ["PRICE_ABOVE_VWAP"; "PRICE_AT_VWAP"; "PRICE_BELOW_VWAP"; "SMA5_RISING"; "SMA5_FLAT";
     "SMA5_FALLING"; "RELATIVE_VOLUME_HIGH"; "RELATIVE_VOLUME_NORMAL"; "RELATIVE_VOLUME_LOW";
     "VOLATILITY_ELEVATED"; "VOLATILITY_NORMAL"; "DRAWDOWN_FROM_RECENT_HIGH"; "SPREAD_ACCEPTABLE";
     "SPREAD_WIDE"; "MARKET_DATA_QUALITY_DEGRADED"; "INDICATOR_DATA_MISSING";
     "TECHNICAL_SIGNALS_MIXED"; "MOMENTUM_SUPPORTIVE"; "MOMENTUM_WEAKENING"]);
   ("NEWS_DISCLOSURE_SCOUT",
    COMMON_SCOUT_REASON_CODES ++
    ["MATERIAL_POSITIVE_DISCLOSURE"; "MATERIAL_NEGATIVE_DISCLOSURE";
     "MATERIAL_NEUTRAL_DISCLOSURE"; "RECENT_POSITIVE_NEWS"; "RECENT_NEGATIVE_NEWS";
     "NEWS_IMPACT_NEUTRAL"; "DISCLOSURE_AND_NEWS_CONFLICT"; "EVIDENCE_STALE";
     "EVIDENCE_NOT_SYMBOL_RELEVANT"; "NEWS_DATA_INSUFFICIENT"]);
   ("MARKET_SECTOR_SCOUT",
    COMMON_SCOUT_REASON_CODES ++
    ["MARKET_TREND_SUPPORTIVE"; "MARKET_TREND_NEUTRAL"; "MARKET_TREND_WEAK";
     "SECTOR_MOMENTUM_SUPPORTIVE"; "SECTOR_MOMENTUM_NEUTRAL"; "SECTOR_MOMENTUM_WEAK";
     "MARKET_BREADTH_POSITIVE"; "MARKET_BREADTH_NEUTRAL"; "MARKET_BREADTH_NEGATIVE";
     "MARKET_RISK_OFF"; "MARKET_VOLATILITY_ELEVATED"; "MARKET_SECTOR_SIGNALS_MIXED";
     "MARKET_DATA_INSUFFICIENT"; "MARKET_DATA_QUALITY_DEGRADED"]);
   ("POSITION_RISK_SCOUT",
    COMMON_SCOUT_REASON_CODES ++
    ["OPEN_POSITION_NOT_FOUND"; "POSITION_DATA_STALE"; "POSITION_DATA_CONFLICTED";
     "POSITION_PROFITABLE"; "POSITION_LOSING"; "DRAWDOWN_LOW"; "DRAWDOWN_MODERATE";
     "DRAWDOWN_HIGH"; "FIXED_STOP_NEAR"; "FIXED_STOP_TRIGGERED"; "TRAILING_STOP_NEAR";
     "TRAILING_STOP_TRIGGERED"; "BREAK_EVEN_STOP_ACTIVE"; "TIME_STOP_NEAR"; "TIME_STOP_TRIGGERED";
     "LIQUIDITY_EXIT_RISK"; "POSITION_RISK_NORMAL"; "POSITION_RISK_ELEVATED";
     "POSITION_RISK_CRITICAL"]);
   ("CORE",
    ["AGENT_RUNTIME_SHADOW_ONLY"; "DIAGNOSTIC_WAIT_ONLY"; "REQUIRED_SCOUT_INCOMPLETE";
     "SCOUT_SIGNALS_SUPPORTIVE"; "SCOUT_SIGNALS_NEUTRAL"; "SCOUT_SIGNALS_CAUTION";
     "SCOUT_SIGNALS_CONFLICTED"; "NO_VERIFIED_EVIDENCE"; "MATERIAL_EVENT_RISK";
     "MARKET_RISK_ELEVATED"; "POSITION_RISK_ELEVATED"; "POSITION_RISK_CRITICAL";
     "DATA_QUALITY_INSUFFICIENT"; "HIGH_UNCERTAINTY"; "ENTRY_CONDITIONS_INCOMPLETE";
     "RISK_REWARD_UNFAVORABLE"])].

(** An unknown role raises [ValueError]. *)
Definition allowed_reason_codes (role : string) : exn + list string :=
  match assoc role ROLE_REASON_CODES with Some codes => inr codes | None => inl ValueError end.

Definition reason_code_context (role : string) : exn + list (string * json) :=
  codes ← allowed_reason_codes role;
  mret [("reason_code_policy_version", JStr REASON_CODE_POLICY_VERSION);
        ("allowed_reason_codes", JList (map JStr codes))].

Definition invalid_reason_codes (role : string) (values : list string) : exn + list string :=
  allowed ← allowed_reason_codes role;
  mret (List.filter (fun v => negb (bool_decide (v ∈ allowed))) values).

(** ** Floats and enumerations *)

Definition pyfloat : Type := string.

(** [Field(ge=0, le=1)] *)
Definition in_unit (f : pyfloat) : bool :=
  match decimal_of_text f with Some (Finite d) => dleb dzero d && dleb d done_ | _ => false end.

(** [Field(ge=0, le=100)] on an optional score. *)
Definition score_in_range (score : option Z) : bool :=
  match score with Some n => (0 <=? n) && (n <=? 100) | None => true end.

Definition score_band (score : Z) : exn + string :=
  if negb ((0 <=? score) && (score <=? 100)) then inl ValueError
  else if score <=? 24 then inr "STRONGLY_ADVERSE"
  else if score <=? 44 then inr "ADVERSE"
  else if score <=? 55 then inr "MIXED"
  else if score <=? 74 then inr "SUPPORTIVE"
  else inr "STRONGLY_SUPPORTIVE".

Inductive Stance := ST_SUPPORTIVE | ST_NEUTRAL | ST_CAUTION | ST_RISK | ST_UNKNOWN.

#[export] Instance Stance_eq_dec : EqDecision Stance.
Proof. solve_decision. Defined.

Definition stance_text (st : Stance) : string :=
  match st with
  | ST_SUPPORTIVE => "SUPPORTIVE" | ST_NEUTRAL => "NEUTRAL" | ST_CAUTION => "CAUTION"
  | ST_RISK => "RISK" | ST_UNKNOWN => "UNKNOWN"
  end.

Definition stance_of (s : string) : option Stance :=
  assoc s (map (fun st => (stance_text st, st)) [ST_SUPPORTIVE; ST_NEUTRAL; ST_CAUTION; ST_RISK; ST_UNKNOWN]).

Definition stage_state_text (st : StageState) : string :=
  match st with
  | SG_PENDING => "PENDING" | SG_RUNNING => "RUNNING" | SG_SUCCEEDED => "SUCCEEDED"
  | SG_NOT_APPLICABLE => "NOT_APPLICABLE" | SG_INSUFFICIENT_DATA => "INSUFFICIENT_DATA"
  | SG_CONFLICTED => "CONFLICTED" | SG_TIMED_OUT => "TIMED_OUT" | SG_FAILED => "FAILED"
  | SG_INVALID_OUTPUT => "INVALID_OUTPUT"
  end.

(** A [Literal] of states. *)
Definition state_of (allowed : list StageState) (s : string) : option StageState :=
  assoc s (map (fun st => (stage_state_text st, st)) allowed).

Definition SCOUT_ROLES : list string :=
  ["TECHNICAL_SCOUT"; "NEWS_DISCLOSURE_SCOUT"; "MARKET_SECTOR_SCOUT"; "POSITION_RISK_SCOUT"].

Definition ASSESSMENT_STATUS_V1 : list StageState :=
  [SG_SUCCEEDED; SG_INSUFFICIENT_DATA; SG_CONFLICTED; SG_TIMED_OUT; SG_FAILED; SG_INVALID_OUTPUT].
Definition ASSESSMENT_STATUS_V2 : list StageState :=
  [SG_SUCCEEDED; SG_NOT_APPLICABLE; SG_INSUFFICIENT_DATA; SG_CONFLICTED; SG_TIMED_OUT; SG_FAILED;
   SG_INVALID_OUTPUT].
Definition SCOUT_STATUS : list StageState := [SG_SUCCEEDED; SG_INSUFFICIENT_DATA; SG_CONFLICTED].

(** ** Reading JSON with pydantic *)

(** The coercions of one value; what they accept beyond its own type is
    pydantic's. *)
Class Pydantic := {
  lax_int : json -> option Z;
  lax_float : json -> option pyfloat;
  lax_datetime : json -> option Z
}.

Definition read_str (v : json) : option string := match v with JStr s => Some s | _ => None end.

Definition read_strs (v : json) : option (list string) :=
  match v with JList l => mapM read_str l | _ => None end.

(** [T | None] *)
Definition read_opt {A} (read : json -> option A) (v : json) : option (option A) :=
  match v with JNull => Some None | v => Some <$> read v end.

(** A literal with a default, which the payload may leave out. *)
Definition read_tag (key tag : string) (payload : list (string * json)) : option unit :=
  match assoc key payload with
  | None => Some tt
  | Some v => s ← read_str v; if String.eqb s tag then Some tt else None
  end.

(** [extra="forbid"] *)
Definition only_fields (fields : list string) (payload : list (string * json)) : bool :=
  forallb (fun f => existsb (String.eqb f.1) fields) payload.

Definition check (c : bool) : option unit := if c then Some tt else None.

(** A field without a default, and one with. *)
Definition field {A} (read : json -> option A) (key : string) (payload : list (string * json)) : option A :=
  assoc key payload ≫= read.
Definition field_or {A} (fallback : A) (read : json -> option A) (key : string)
  (payload : list (string * json)) : option A :=
  match assoc key payload with None => Some fallback | Some v => read v end.

Definition as_dict (v : json) : option (list (string * json)) :=
  match v with JObj fields => Some fields | _ => None end.

(** ** Assessments of the scouts *)

(** [AgentAssessment] and [AgentAssessmentV2] have the same fields; the second
    knows NOT_APPLICABLE and one more constant. *)
Record AgentAssessment := mkAgentAssessment {
  as_stage_run_id : string;
  as_role : string;
  as_symbol : string;
  as_input_refs : list string;
  as_status : StageState;
  as_stance : Stance;
  as_entry_score : option Z;
  as_exit_risk_score : option Z;
  as_confidence : pyfloat;
  as_uncertainty : pyfloat;
  as_reason_codes : list string;
  as_evidence_refs : list string;
  as_observed_at : Z;
  as_valid_until : Z
}.

Definition assessment_statuses (v2 : bool) : list StageState :=
  if v2 then ASSESSMENT_STATUS_V2 else ASSESSMENT_STATUS_V1.

(** [validate_score_state] of the second version. *)
Definition validate_score_state (a : AgentAssessment) : bool :=
  (bool_decide (as_status a = SG_SUCCEEDED) ||
   (bool_decide (as_entry_score a = None) && bool_decide (as_exit_risk_score a = None))) &&
  (negb (bool_decide (as_status a = SG_NOT_APPLICABLE)) || bool_decide (as_stance a = ST_UNKNOWN)).

(** What the class checks when an assessment is made. *)
Definition assessment_valid (v2 : bool) (a : AgentAssessment) : bool :=
  bool_decide (as_role a ∈ SCOUT_ROLES) && bool_decide (as_status a ∈ assessment_statuses v2) &&
  score_in_range (as_entry_score a) && score_in_range (as_exit_risk_score a) &&
  in_unit (as_confidence a) && in_unit (as_uncertainty a) && (negb v2 || validate_score_state a).

(** The constructor; [ValidationError] is a [ValueError]. *)
Definition make_assessment (v2 : bool) (a : AgentAssessment) : exn + AgentAssessment :=
  if assessment_valid v2 a then inr a else inl ValueError.

(** An instant as pydantic prints it: UTC is [Z]. *)
Definition json_datetime (t : Z) : string :=
  let s := iso_datetime t in substring 0 (String.length s - 6) s +:+ "Z".

Definition assessment_schema (v2 : bool) : string :=
  if v2 then "agent-assessment-v2" else "agent-assessment-v1".

(** [model_dump(mode="json")] *)
Definition assessment_dump (v2 : bool) (a : AgentAssessment) : json :=
  JObj ([("schema_version", JStr (assessment_schema v2))] ++
        (if v2 then [("score_policy_version", JStr "score-policy-v1")] else []) ++
        [("stage_run_id", JStr (as_stage_run_id a)); ("role", JStr (as_role a));
         ("symbol", JStr (as_symbol a)); ("input_refs", JList (map JStr (as_input_refs a)));
         ("status", JStr (stage_state_text (as_status a))); ("stance", JStr (stance_text (as_stance a)));
         ("entry_score", jopt_int (as_entry_score a));
         ("exit_risk_score", jopt_int (as_exit_risk_score a));
         ("confidence", JNum (as_confidence a)); ("uncertainty", JNum (as_uncertainty a));
         ("reason_codes", JList (map JStr (as_reason_codes a)));
         ("evidence_refs", JList (map JStr (as_evidence_refs a)));
         ("observed_at", JStr (json_datetime (as_observed_at a)));
         ("valid_until", JStr (json_datetime (as_valid_until a)))]).

Definition assessment_fields (v2 : bool) : list string :=
  ["schema_version"] ++ (if v2 then ["score_policy_version"] else []) ++
  ["stage_run_id"; "role"; "symbol"; "input_refs"; "status"; "stance"; "entry_score";
   "exit_risk_score"; "confidence"; "uncertainty"; "reason_codes"; "evidence_refs"; "observed_at";
   "valid_until"].

Section Reading.
Context {Lax : Pydantic}.

(** [model_validate] of the two versions. *)
Definition assessment_load (v2 : bool) (v : json) : option AgentAssessment :=
  d ← as_dict v;
  _ ← check (only_fields (assessment_fields v2) d);
  _ ← read_tag "schema_version" (assessment_schema v2) d;
  _ ← (if v2 then read_tag "score_policy_version" "score-policy-v1" d else Some tt);
  stage_run_id ← field read_str "stage_run_id" d;
  role ← field read_str "role" d;
  symbol ← field read_str "symbol" d;
  input_refs ← field read_strs "input_refs" d;
  status ← field (fun v => read_str v ≫= state_of (assessment_statuses v2)) "status" d;
  stance ← field (fun v => read_str v ≫= stance_of) "stance" d;
  entry_score ← field_or None (read_opt lax_int) "entry_score" d;
  exit_risk_score ← field_or None (read_opt lax_int) "exit_risk_score" d;
  confidence ← field lax_float "confidence" d;
  uncertainty ← field lax_float "uncertainty" d;
  reason_codes ← field read_strs "reason_codes" d;
  evidence_refs ← field read_strs "evidence_refs" d;
  observed_at ← field lax_datetime "observed_at" d;
  valid_until ← field lax_datetime "valid_until" d;
  let a := mkAgentAssessment stage_run_id role symbol input_refs status stance entry_score
             exit_risk_score confidence uncertainty reason_codes evidence_refs observed_at valid_until in
  _ ← check (assessment_valid v2 a);
  mret a.

(** ** What a scout's model returns *)

Record AgentScoutModelOutput := mkAgentScoutModelOutput {
  so_status : StageState;
  so_stance : Stance;
  so_entry_score : option Z;
  so_exit_risk_score : option Z;
  so_confidence : pyfloat;
  so_uncertainty : pyfloat;
  so_reason_codes : list string;
  so_evidence_refs : list string
}.

Definition length_between (lo hi : nat) {A} (l : list A) : bool :=
  Nat.leb lo (length l) && Nat.leb (length l) hi.

Definition scout_output_valid (o : AgentScoutModelOutput) : bool :=
  score_in_range (so_entry_score o) && score_in_range (so_exit_risk_score o) &&
  in_unit (so_confidence o) && in_unit (so_uncertainty o) &&
  length_between 1 20 (so_reason_codes o) && length_between 0 50 (so_evidence_refs o) &&
  (bool_decide (so_status o = SG_SUCCEEDED) ||
   (bool_decide (so_entry_score o = None) && bool_decide (so_exit_risk_score o = None))).

Definition scout_output_load (v : json) : option AgentScoutModelOutput :=
  d ← as_dict v;
  _ ← check (only_fields ["status"; "stance"; "entry_score"; "exit_risk_score"; "confidence";
               "uncertainty"; "reason_codes"; "evidence_refs"] d);
  status ← field (fun v => read_str v ≫= state_of SCOUT_STATUS) "status" d;
  stance ← field (fun v => read_str v ≫= stance_of) "stance" d;
  entry_score ← field (read_opt lax_int) "entry_score" d;
  exit_risk_score ← field (read_opt lax_int) "exit_risk_score" d;
  confidence ← field lax_float "confidence" d;
  uncertainty ← field lax_float "uncertainty" d;
  reason_codes ← field read_strs "reason_codes" d;
  evidence_refs ← field read_strs "evidence_refs" d;
  let o := mkAgentScoutModelOutput status stance entry_score exit_risk_score confidence uncertainty
             reason_codes evidence_refs in
  _ ← check (scout_output_valid o);
  mret o.

(** ** What the core returns, and what is stored of it *)

(** [AgentCoreModelOutput] and [AgentCoreOutput] leave the assessment out. *)
Record AgentCore := mkAgentCore {
  ac_shadow_assessment : option string;
  ac_confidence : pyfloat;
  ac_risk_level : string;
  ac_reason_codes : list string;
  ac_incomplete_roles : list string
}.

Definition SHADOW_ASSESSMENTS : list string :=
  ["ENTRY_STRONG"; "ENTRY_SUPPORTIVE"; "NEUTRAL"; "ENTRY_ADVERSE"; "HOLD_SUPPORTIVE";
   "EXIT_RISK_ELEVATED"; "EXIT_RISK_HIGH"; "UNKNOWN"].

Definition core_valid (v2 : bool) (c : AgentCore) : bool :=
  in_unit (ac_confidence c) && bool_decide (ac_risk_level c ∈ ["LOW"; "MEDIUM"; "HIGH"]) &&
  match ac_shadow_assessment c with
  | Some s => v2 && bool_decide (s ∈ SHADOW_ASSESSMENTS)
  | None => negb v2
  end.

Definition make_core (v2 : bool) (c : AgentCore) : exn + AgentCore :=
  if core_valid v2 c then inr c else inl ValueError.

Definition core_schema (v2 : bool) : string := if v2 then "agent-core-v2" else "agent-core-v1".

(** [model_dump(mode="json")] of the stored output. *)
Definition core_dump (v2 : bool) (c : AgentCore) : json :=
  JObj ([("schema_version", JStr (core_schema v2))] ++
        (if v2 then [("score_policy_version", JStr "score-policy-v1")] else []) ++
        [("action", JStr "WAIT")] ++
        match ac_shadow_assessment c with Some s => [("shadow_assessment", JStr s)] | None => [] end ++
        [("confidence", JNum (ac_confidence c)); ("risk_level", JStr (ac_risk_level c));
         ("reason_codes", JList (map JStr (ac_reason_codes c)));
         ("incomplete_roles", JList (map JStr (ac_incomplete_roles c)))]).

Definition core_fields (v2 : bool) (d : list (string * json)) : option AgentCore :=
  shadow_assessment ← (if v2 then Some <$> field read_str "shadow_assessment" d else Some None);
  confidence ← field lax_float "confidence" d;
  risk_level ← field read_str "risk_level" d;
  reason_codes ← field read_strs "reason_codes" d;
  incomplete_roles ← field read_strs "incomplete_roles" d;
  let c := mkAgentCore shadow_assessment confidence risk_level reason_codes incomplete_roles in
  _ ← check (core_valid v2 c);
  mret c.

Definition shadow_field (v2 : bool) : list string := if v2 then ["shadow_assessment"] else [].

(** [AgentCoreModelOutput], [AgentCoreModelOutputV2]: the action has no
    default. *)
Definition core_model_load (v2 : bool) (v : json) : option AgentCore :=
  d ← as_dict v;
  _ ← check (only_fields (["action"; "confidence"; "risk_level"; "reason_codes"; "incomplete_roles"] ++
                          shadow_field v2) d);
  _ ← field read_str "action" d;
  _ ← read_tag "action" "WAIT" d;
  c ← core_fields v2 d;
  _ ← check (length_between 1 20 (ac_reason_codes c) && length_between 0 4 (ac_incomplete_roles c));
  mret c.

(** [AgentCoreOutput], [AgentCoreOutputV2], as the fusion reads the stored
    output. *)
Definition core_load (v2 : bool) (v : json) : option AgentCore :=
  d ← as_dict v;
  _ ← check (only_fields (["schema_version"; "action"; "confidence"; "risk_level"; "reason_codes";
                           "incomplete_roles"] ++ (if v2 then ["score_policy_version"] else []) ++
                          shadow_field v2) d);
  _ ← read_tag "schema_version" (core_schema v2) d;
  _ ← (if v2 then read_tag "score_policy_version" "score-policy-v1" d else Some tt);
  _ ← read_tag "action" "WAIT" d;
  core_fields v2 d.
End Reading.

(** ** Printing and reading *)

Lemma read_strs_print l : read_strs (JList (map JStr l)) = Some l.
Proof. simpl. induction l as [|x l IH]; [done|]. simpl in *. by rewrite IH. Qed.

Lemma state_of_text v2 st : st ∈ assessment_statuses v2 ->
  state_of (assessment_statuses v2) (stage_state_text st) = Some st.
Proof.
  intros H. apply (bool_decide_eq_true _) in H.
  destruct v2, st; try reflexivity; vm_compute in H; discriminate H.
Qed.

Lemma stance_of_text st : stance_of (stance_text st) = Some st.
Proof. by destruct st. Qed.

(** Evaluation that stops at what the lemmas above rewrite. *)
Ltac calc := cbn -[read_strs assessment_valid json_datetime state_of stance_of assessment_statuses
  stage_state_text stance_text read_opt jopt_int].

Section Roundtrip.
Context {Lax : Pydantic}.
(** A JSON number of the right type is read as it is. *)
Hypothesis lax_int_same : forall n, lax_int (JInt n) = Some n.
Hypothesis lax_float_same : forall f, lax_float (JNum f) = Some f.

Lemma read_score_print n : read_opt lax_int (jopt_int n) = Some n.
Proof. destruct n; simpl; [by rewrite lax_int_same|done]. Qed.

(** What an agent stores reads back: every valid assessment and every
    valid core output, in either version of the contract, is the value that
    pydantic reads from its JSON, when the instants of the assessment do. *)
Theorem contracts_roundtrip (v2 : bool) (a : AgentAssessment) (c : AgentCore) :
  assessment_valid v2 a = true -> core_valid v2 c = true ->
  (forall t, t ∈ [as_observed_at a; as_valid_until a] ->
     lax_datetime (JStr (json_datetime t)) = Some t) ->
  assessment_load v2 (assessment_dump v2 a) = Some a /\ core_load v2 (core_dump v2 c) = Some c.
Proof.
  intros Ha Hc Ht.
  assert (Hst : state_of (assessment_statuses v2) (stage_state_text (as_status a)) = Some (as_status a)).
  { unfold assessment_valid in Ha. bool_to_prop. by apply state_of_text. }
  assert (H1 := Ht (as_observed_at a) ltac:(apply list_elem_of_here)).
  assert (H2 := Ht (as_valid_until a) ltac:(apply list_elem_of_further, list_elem_of_here)).
  split.
  - destruct a as [id role sym refs status stance en ex conf unc codes evs obs val]; cbn in *.
    unfold assessment_load, assessment_dump, field, field_or, read_tag.
    destruct v2; calc; rewrite !read_strs_print; calc; rewrite Hst; calc; rewrite stance_of_text; calc;
      rewrite !read_score_print; calc; rewrite !lax_float_same; calc; rewrite H1; calc; rewrite H2; calc;
      by rewrite Ha.
  - destruct c as [shadow conf risk codes roles]. unfold core_load, core_dump, core_fields, field, read_tag.
    destruct v2, shadow as [s|]; try (unfold core_valid in Hc; bool_to_prop; done);
      cbn -[read_strs core_valid]; rewrite ?read_strs_print, ?lax_float_same; cbn -[core_valid];
      by rewrite Hc.
Qed.
End Roundtrip.

(** ** Concrete contracts *)

Definition demo_observed : Z := 1772586000000000.

(** Coercions that accept the JSON type itself, and one instant. *)
Definition demo_lax : Pydantic :=
  Build_Pydantic (fun v => match v with JInt n => Some n | _ => None end)
    (fun v => match v with JNum f => Some f | _ => None end)
    (fun v => match v with
              | JStr s => if String.eqb s (json_datetime demo_observed) then Some demo_observed else None
              | _ => None
              end).

Definition demo_assessment : AgentAssessment :=
  mkAgentAssessment "stage" "TECHNICAL_SCOUT" "005930" ["snap"] SG_SUCCEEDED ST_CAUTION (Some 40) (Some 60)
    "0.7" "0.3" ["PRICE_BELOW_VWAP"] [] demo_observed demo_observed.

Definition demo_core_output : AgentCore :=
  mkAgentCore (Some "EXIT_RISK_HIGH") "0.85" "HIGH" ["POSITION_RISK_CRITICAL"] [].

Lemma contracts_roundtrip_witness :
  @assessment_load demo_lax true (assessment_dump true demo_assessment) = Some demo_assessment /\
  @core_load demo_lax true (core_dump true demo_core_output) = Some demo_core_output.
Proof.
  apply (@contracts_roundtrip demo_lax (fun _ => eq_refl) (fun _ => eq_refl) true); [by vm_compute..|].
  intros t Ht. assert (t = demo_observed) as ->.
  { cbn in Ht. apply elem_of_cons in Ht as [->|Ht]; [done|]. by apply list_elem_of_singleton in Ht. }
  vm_compute. reflexivity.
Defined.
