(* ===== verification/AgentQueue.v ===== *)
(** * The queue of agent stages

    [agents/worker.py]: a run of the agents is a graph of stages; workers claim
    a stage whose dependencies are done, under a lease with a fencing token,
    execute it and settle the run when no stage is left.  What a stage computes
    is the interface [StageBody]: its laws are all the queue relies on.

    [xrace] and [orace] are the executions and orders that other sessions commit
    while the fusion of an advisory is routed; [exc_text] is [str] of an
    exception. *)

From Stdlib Require Import ZArith Lia Ascii String.
From stdpp Require Import base numbers strings list gmap.
From S2P Require Import Prelude Decimal Json PyTime Models Session PyText Fusion.

Open Scope Z_scope.

Definition DEPENDENCY_OK : list StageState :=
  [SG_SUCCEEDED; SG_NOT_APPLICABLE; SG_INSUFFICIENT_DATA; SG_CONFLICTED].
Definition FAILURES : list StageState := [SG_FAILED; SG_TIMED_OUT; SG_INVALID_OUTPUT].
Definition TERMINAL : list StageState := DEPENDENCY_OK ++ FAILURES.

Definition state_in (l : list StageState) (st : AgentStageRun) : bool := bool_decide (ag_state st ∈ l).

(** [DEFAULT_TIMEOUT_SECONDS.get(role, 10)] *)
Definition default_timeout_seconds (role : string) : Z :=
  default 10 (assoc role [("INTEL_COLLECTOR", 20); ("EVIDENCE_VERIFIER", 15);
                          ("EVIDENCE_CANDIDATE_AUDITOR", 15); ("CORE", 15)]).

Record StageClaim := mkStageClaim { sc_stage_id : string; sc_fencing_token : Z }.

Definition V2_DAG_VERSIONS : list string := ["agent-dag-v4"; "agent-dag-v5"; "agent-dag-v6"].
Definition uses_v2_contract (dag_version : string) : bool := bool_decide (dag_version ∈ V2_DAG_VERSIONS).

Definition put_stage (st : AgentStageRun) (db : DB) : DB :=
  set_agent_stages db (<[ag_id st := st]> (agent_stages db)).

(** [_complete_stage] of [agents/runtime.py] *)
Definition _complete_stage (sha256 : string -> string) (state : StageState) (output : json) (now : Z)
  (st : AgentStageRun) : AgentStageRun :=
  set_ag_completed_at (set_ag_output_hash (set_ag_output (set_ag_state st state) (Some output))
    (Some (_hash sha256 output))) (Some now).

(** ** The code of an exception *)

(** [getattr(exc, "code", None)] *)
Definition exn_code (e : exn) : option string :=
  match e with
  | PaperBrokerError code | PaperBrokerConflict code | WatchError code | KiwoomAdapterError code
  | KiwoomOrderSenderError code | MarketContextError code | DartCollectionError code
  | KiwoomWebSocketError code => Some code
  | WorkerReconciliationError _ => Some "WORKER_RECONCILIATION_FAILED"
  | OrderCreationError code _ | ApprovalError code _ | EmergencyStopError code _
  | CalendarOverrideError code _ | MockDecisionError code _ | RiskPolicyError code _
  | ExecutionPolicyError code _ | AgentRuntimeError code _ | ModelDiscoveryError code _
  | WatchlistError code _ => Some code
  | _ => None
  end.

(** A flush that failed leaves the session to be rolled back: whatever the
    handler does next raises. *)
Definition failed_flush (e : exn) : bool :=
  match e with IntegrityError | StaleDataError => true | _ => false end.

(** [x or y] on text *)
Definition text_or (x y : string) : string := if String.eqb x EmptyString then y else x.

(** ** What a stage computes *)

(** The columns of its own row a stage body may write, by what it writes them
    from: it ends with a result, or it raises with the row still RUNNING. *)
Record body_wrote (st st' : AgentStageRun) : Prop := mkBodyWrote {
  bw_row : st' = set_ag_completed_at (set_ag_started_at (set_ag_output_hash (set_ag_output
             (set_ag_invocation_id (set_ag_state st (ag_state st')) (ag_invocation_id st'))
             (ag_output st')) (ag_output_hash st')) (ag_started_at st')) (ag_completed_at st');
  bw_invocation : ag_invocation_id st <> None -> ag_invocation_id st' = ag_invocation_id st
}.

Definition body_result (st' : AgentStageRun) (r : unit + exn) : Prop :=
  match r with
  | inl _ => ag_state st' ∈ DEPENDENCY_OK /\ is_Some (ag_output st') /\ is_Some (ag_completed_at st')
  | inr _ => ag_state st' = SG_RUNNING
  end.

(** [_execute_stage]: it writes no run and no stage but its own, and commits
    nothing. *)
Class StageBody := {
  execute_stage : AgentStageRun -> AgentRun -> Z -> prog unit;
  execute_stage_frame st run now s :
    agent_stages (work s) !! ag_id st = Some st -> ag_state st = SG_RUNNING ->
    wp (execute_stage st run now) (fun s' r =>
      agent_stages (disk s') = agent_stages (disk s) /\ agent_runs (work s') = agent_runs (work s) /\
      exists st', agent_stages (work s') = <[ag_id st := st']> (agent_stages (work s)) /\
        body_wrote st st' /\ body_result st' r) s
}.

Section AgentQueue.
Context (sha256 : string -> string) (holidays : Z -> option (list Z)).
Context (parse_core : json -> option AgentCoreOutputV2) (exc_text : exn -> string).
Context (settings : Settings) (xrace : list DecisionExecution) (orace : list TradingOrder).

(** ** Settling a run *)

(** The stages of a run; an object the session already holds is returned as the
    session has it. *)
Definition session_stages (loaded : gmap string AgentStageRun) (run : AgentRun) (db : DB) :
  list AgentStageRun :=
  sort_by (fun a b => ag_sequence a <=? ag_sequence b)
    (map (fun st => default st (loaded !! ag_id st)) (stages_of run db)).

Definition bundle_of (run : AgentRun) (db : DB) : option EvidenceBundle :=
  find_row (fun b => String.eqb (eb_run_id b) (ar_id run)) (evidence_bundles db).

Definition bundle_verified (bundle : option EvidenceBundle) : bool :=
  match bundle with Some b => String.eqb (eb_state b) "VERIFIED" | None => false end.

(** The state of a run whose stages are all terminal. *)
Definition run_outcome (stages : list AgentStageRun) (core : AgentStageRun)
  (bundle : option EvidenceBundle) : RunState :=
  if negb (bool_decide (ag_state core = SG_SUCCEEDED)) || existsb (state_in FAILURES) stages
  then RUN_FAILED
  else if existsb (fun st => negb (state_in [SG_SUCCEEDED; SG_NOT_APPLICABLE] st)) stages ||
          negb (bundle_verified bundle)
  then RUN_PARTIAL else RUN_SUCCEEDED.

(** [core_output.get("shadow_assessment")] *)
Definition json_text (v : json) : option string := match v with JStr s => Some s | _ => None end.

Definition settled_run (run : AgentRun) (stages : list AgentStageRun) (core : AgentStageRun)
  (bundle : option EvidenceBundle) (now : Z) : AgentRun :=
  let succeeded := bool_decide (ag_state core = SG_SUCCEEDED) in
  let run := set_ar_core_action run (if succeeded then Some "WAIT" else None) in
  let run := match ag_output core with
             | Some output => if succeeded
                              then set_ar_shadow_assessment run
                                     (json_text (get_field "shadow_assessment" output))
                              else run
             | None => run
             end in
  let outcome := run_outcome stages core bundle in
  let run := set_ar_state run outcome in
  let run := if bool_decide (outcome = RUN_FAILED)
             then set_ar_error_code run (Some (text_or (default EmptyString (ag_error_code core))
                                                 "AGENT_STAGE_FAILED"))
             else run in
  set_ar_completed_at run (Some now).

(** The [except Exception] of the fusion: it changes the run as the session
    has it. *)
Definition fusion_failed (run_id : string) (e : exn) : prog unit :=
  if failed_flush e then rollback ;; raise InvalidRequestError
  else
    run ← gets (fun db => agent_runs db !! run_id);
    match run with
    | Some run => _finish run "FAILED_SAFE" "FUSION_INTERNAL_ERROR"
    | None => raise InvalidRequestError
    end.

Definition _finalize_run (loaded : gmap string AgentStageRun) (run : AgentRun) (now : Z) : prog unit :=
  stages ← gets (session_stages loaded run);
  if bool_decide (stages = []) || negb (forallb (state_in TERMINAL) stages) then mret tt
  else
    core ← or_raise (stage_of "CORE" stages) OtherError;
    bundle ← gets (bundle_of run);
    let run := settled_run run stages core bundle now in
    modify (put_run run) ;;
    if String.eqb (ar_purpose run) "TRADING_ADVISORY"
    then try_except (finalize_position_advisory sha256 holidays parse_core run settings now xrace orace ;;
                     mret tt)
           (fun e => Some (fusion_failed (ar_id run) e))
    else mret tt.

(** ** Recovery of expired leases *)

Definition stage_expired (now : Z) (st : AgentStageRun) : bool :=
  bool_decide (ag_state st = SG_RUNNING) &&
  match ag_lease_expires_at st with Some t => t <=? now | None => false end.

Definition released (st : AgentStageRun) (heartbeat_at : option Z) : AgentStageRun :=
  set_ag_heartbeat_at (set_ag_lease_expires_at (set_ag_lease_owner_id st None) None) heartbeat_at.

Definition retried (now : Z) (st : AgentStageRun) : AgentStageRun :=
  set_ag_timeout_at (set_ag_started_at (set_ag_available_at (set_ag_error_code
    (set_ag_state st SG_PENDING) (Some "AGENT_LEASE_EXPIRED_RETRY")) now) None) None.

(** A stage that ends without a result. *)
Definition ended (state : StageState) (code : string) (now : Z) (st : AgentStageRun) : AgentStageRun :=
  set_ag_completed_at (set_ag_error_code (set_ag_state st state) (Some code)) (Some now).

Definition may_retry (st : AgentStageRun) : bool :=
  bool_decide (ag_invocation_id st = None) && (ag_attempt_count st <? ag_max_attempts st).

Definition recovered (now : Z) (st : AgentStageRun) : AgentStageRun :=
  released
    (if may_retry st then retried now st
     else ended SG_TIMED_OUT
            (match ag_invocation_id st with
             | Some _ => "AGENT_INVOCATION_OUTCOME_UNKNOWN"
             | None => "AGENT_STAGE_ATTEMPTS_EXHAUSTED"
             end) now st) None.

(** The UPDATE of an object: the columns whose value changed since it was
    read, on the row as it is now. *)
Section Columns.
Context (read new row : AgentStageRun).
Definition column {A} `{EqDecision A} (f : AgentStageRun -> A) : A :=
  if decide (f read = f new) then f row else f new.

Definition update_columns : AgentStageRun :=
  set_ag_heartbeat_at (set_ag_lease_expires_at (set_ag_lease_owner_id (set_ag_completed_at
  (set_ag_timeout_at (set_ag_started_at (set_ag_available_at (set_ag_error_code (set_ag_state row
    (column ag_state)) (column ag_error_code)) (column ag_available_at)) (column ag_started_at))
    (column ag_timeout_at)) (column ag_completed_at)) (column ag_lease_owner_id))
    (column ag_lease_expires_at)) (column ag_heartbeat_at).
End Columns.

Definition write_stage (read new : AgentStageRun) (db : DB) : DB :=
  match agent_stages db !! ag_id read with
  | Some row => put_stage (update_columns read new row) db
  | None => db
  end.

(** Invocations of a stage whose outcome nobody will learn. *)
Definition ambiguous (now : Z) (li : LlmInvocation) : LlmInvocation :=
  set_li_completed_at (set_li_error_code (set_li_state li "AMBIGUOUS")
    (Some "AGENT_INVOCATION_OUTCOME_UNKNOWN")) (Some now).

Definition mark_ambiguous (stage_id : string) (pending : LlmInvocation -> bool) (now : Z) (db : DB) : DB :=
  set_llm_invocations db
    ((fun li => if bool_decide (li_stage_run_id li = Some stage_id) && pending li
                then ambiguous now li else li) <$> llm_invocations db).

Definition invocation_running (li : LlmInvocation) : bool := String.eqb (li_state li) "RUNNING".

(** The run of a stage, settled when it exists. *)
Definition finalize_run_of (loaded : gmap string AgentStageRun) (st : AgentStageRun) (now : Z) : prog unit :=
  run ← gets (fun db => agent_runs db !! ag_run_id st);
  match run with Some run => _finalize_run loaded run now | None => mret tt end.

Definition recover_one (loaded : gmap string AgentStageRun) (st : AgentStageRun) (now : Z) :
  prog (gmap string AgentStageRun) :=
  let st' := recovered now st in
  let loaded := <[ag_id st := st']> loaded in
  modify (write_stage st st') ;;
  (if negb (may_retry st) && bool_decide (is_Some (ag_invocation_id st))
   then modify (mark_ambiguous (ag_id st) invocation_running now) else mret tt) ;;
  finalize_run_of loaded st' now ;;
  mret loaded.

Fixpoint recover_each (loaded : gmap string AgentStageRun) (expired : list AgentStageRun) (now : Z) :
  prog unit :=
  match expired with
  | [] => mret tt
  | st :: expired => loaded ← recover_one loaded st now; recover_each loaded expired now
  end.

(** [race]: what other sessions commit after the expired stages were read; the
    UPDATEs wait for the row locks of those sessions. *)
Definition recover_expired_stages (now : Z) (race : DB -> DB) : prog Z :=
  expired ← gets (fun db => List.filter (stage_expired now) (rows (agent_stages db)));
  others_commit race ;;
  recover_each (list_to_map (map (fun st => (ag_id st, st)) expired)) expired now ;;
  let recovered := Z.of_nat (length expired) in
  if 0 <? recovered then commit ;; mret recovered else mret recovered.

(** ** Claiming a stage *)

Definition _dependencies (st : AgentStageRun) (db : DB) : list AgentStageRun :=
  match ag_dependency_roles st with
  | [] => []
  | roles => List.filter (fun d => String.eqb (ag_run_id d) (ag_run_id st) &&
                                   bool_decide (ag_role d ∈ roles)) (rows (agent_stages db))
  end.

Definition run_closed (run : AgentRun) : bool :=
  bool_decide (ar_state run ∈ [RUN_SUCCEEDED; RUN_PARTIAL; RUN_FAILED; RUN_CANCELLED]).

(** What a worker does with a stage it could claim: go on to the next one,
    close the stage without running it, or take it for some seconds. *)
Inductive claim_action :=
| Later
| Close (state : StageState) (code : string)
| Take (timeout_seconds : Z).

Definition stage_timeout_seconds (st : AgentStageRun) (db : DB) : Z :=
  match ag_route_id st with
  | None => default_timeout_seconds (ag_role st)
  | Some route_id => match llm_routes db !! route_id with
                     | Some route => Z.max 1 ((lr_timeout_ms route + 999) / 1000)
                     | None => 10
                     end
  end.

(** The stages of the newer graphs that run on incomplete dependencies. *)
Definition may_reduce_result (run : AgentRun) (st : AgentStageRun) : bool :=
  uses_v2_contract (ar_dag_version run) &&
  bool_decide (ag_role st ∈ ["EVIDENCE_CANDIDATE_AUDITOR"; "CORE"]).

Definition claim_action_of (now : Z) (run : AgentRun) (st : AgentStageRun) (db : DB) : claim_action :=
  let dependencies := _dependencies st db in
  let start := if ar_valid_until run <=? now then Close SG_TIMED_OUT "STALE_BEFORE_START"
               else Take (stage_timeout_seconds st db) in
  if existsb (state_in FAILURES) dependencies then
    if negb (may_reduce_result run st) then Close SG_FAILED "AGENT_DEPENDENCY_FAILED"
    else if existsb (fun d => negb (state_in TERMINAL d)) dependencies then Later else start
  else if existsb (fun d => negb (state_in DEPENDENCY_OK d)) dependencies then Later else start.

Definition claimed_stage (worker_id : string) (lease_seconds timeout_seconds now : Z)
  (st : AgentStageRun) : AgentStageRun :=
  set_ag_heartbeat_at (set_ag_timeout_at (set_ag_started_at (set_ag_attempt_count
    (set_ag_fencing_token (set_ag_lease_expires_at (set_ag_lease_owner_id (set_ag_state st SG_RUNNING)
      (Some worker_id)) (Some (now + seconds lease_seconds))) (ag_fencing_token st + 1))
    (ag_attempt_count st + 1)) (Some now)) (Some (now + seconds timeout_seconds))) (Some now).

Definition started_run (run : AgentRun) (now : Z) : AgentRun :=
  if bool_decide (ar_state run = RUN_CREATED)
  then set_ar_started_at (set_ar_state run RUN_RUNNING) (Some now) else run.

(** The pending stages in the order they are offered; the rows other workers
    have locked are skipped. *)
Definition claimable (locked : string -> bool) (now : Z) (db : DB) : list AgentStageRun :=
  sort_by (fun a b => if ag_created_at a =? ag_created_at b
                      then ag_sequence a <=? ag_sequence b
                      else ag_created_at a <? ag_created_at b)
    (List.filter (fun st => bool_decide (ag_state st = SG_PENDING) && (ag_available_at st <=? now) &&
                            negb (locked (ag_id st))) (rows (agent_stages db))).

Fixpoint claim_first (worker_id : string) (lease_seconds now : Z) (offered : list AgentStageRun) :
  prog (option StageClaim) :=
  match offered with
  | [] => commit ;; mret None
  | st :: offered =>
      run ← gets (fun db => agent_runs db !! ag_run_id st);
      match run with
      | None => claim_first worker_id lease_seconds now offered
      | Some run =>
          if run_closed run then claim_first worker_id lease_seconds now offered
          else
            action ← gets (claim_action_of now run st);
            match action with
            | Later => claim_first worker_id lease_seconds now offered
            | Close state code =>
                modify (put_stage (ended state code now st)) ;;
                _finalize_run ∅ run now ;;
                commit ;;
                mret None
            | Take timeout_seconds =>
                let st' := claimed_stage worker_id lease_seconds timeout_seconds now st in
                modify (put_stage st') ;;
                modify (put_run (started_run run now)) ;;
                commit ;;
                mret (Some (mkStageClaim (ag_id st') (ag_fencing_token st')))
            end
      end
  end.

Definition claim_next_stage (worker_id : string) (lease_seconds now : Z) (race : DB -> DB)
  (locked : string -> bool) : prog (option StageClaim) :=
  recover_expired_stages now race ;;
  offered ← gets (claimable locked now);
  claim_first worker_id lease_seconds now offered.

(** ** Executing a claimed stage *)

(** [getattr(exc, "code", None) or str(exc)[:64] or "AGENT_STAGE_FAILED"] *)
Definition failure_code (e : exn) : string :=
  let text := match e with
              | TimeoutError message | KrxCollectionError message | NaverNewsCollectionError message => message
              | _ => exc_text e
              end in
  text_or (default EmptyString (exn_code e)) (text_or (slice 0 64 text) "AGENT_STAGE_FAILED").

Definition failure_state (e : exn) : StageState :=
  match e with TimeoutError _ => SG_TIMED_OUT | _ => SG_FAILED end.

Definition is_runtime_error (e : exn) : bool :=
  match e with AgentRuntimeError _ _ => true | _ => false end.

Definition invocation_open (li : LlmInvocation) : bool :=
  invocation_running li && bool_decide (li_completed_at li = None).

(** A change of the stage as the session has it. *)
Definition update_stage (id : string) (f : AgentStageRun -> AgentStageRun) : prog AgentStageRun :=
  st ← gets (fun db => agent_stages db !! id);
  st ← or_raise st InvalidRequestError;
  modify (put_stage (f st)) ;;
  mret (f st).

(** The [except Exception] around the body. *)
Definition stage_failed (id : string) (now : Z) (e : exn) : prog unit :=
  if failed_flush e then rollback ;; raise InvalidRequestError
  else
    st ← gets (fun db => agent_stages db !! id);
    st ← or_raise st InvalidRequestError;
    (if bool_decide (is_Some (ag_invocation_id st)) && negb (is_runtime_error e)
     then modify (mark_ambiguous id invocation_open now) else mret tt) ;;
    update_stage id (ended (failure_state e) (failure_code e) now) ;;
    mret tt.

(** The row is still the one that was claimed. *)
Definition claim_holds (claim : StageClaim) (worker_id : string) (st : AgentStageRun) : bool :=
  bool_decide (ag_state st = SG_RUNNING) && bool_decide (ag_lease_owner_id st = Some worker_id) &&
  (ag_fencing_token st =? sc_fencing_token claim).

Definition stage_timed_out (now : Z) (st : AgentStageRun) : bool :=
  match ag_timeout_at st with Some t => t <=? now | None => false end.

Context {Body : StageBody}.

Definition execute_claimed_stage (claim : StageClaim) (worker_id : string) (now : Z) : prog bool :=
  st ← gets (fun db => agent_stages db !! sc_stage_id claim);
  match st with
  | None => rollback ;; mret false
  | Some st =>
      if negb (claim_holds claim worker_id st) then rollback ;; mret false
      else
        run ← gets (fun db => agent_runs db !! ag_run_id st);
        match run with
        | None => rollback ;; mret false
        | Some run =>
            try_except
              (guard_or (negb (stage_timed_out now st)) (TimeoutError "AGENT_STAGE_TIMEOUT") ;;
               execute_stage st run now)
              (fun e => Some (stage_failed (ag_id st) now e)) ;;
            st ← update_stage (ag_id st) (fun st => released st (Some now));
            finalize_run_of ∅ st now ;;
            commit ;;
            mret true
        end
  end.

(** [executed_at] is the clock when the claim is executed. *)
Definition process_agent_work_once (worker_id : string) (lease_seconds now executed_at : Z)
  (race : DB -> DB) (locked : string -> bool) : prog bool :=
  claim ← claim_next_stage worker_id lease_seconds now race locked;
  match claim with
  | None => mret false
  | Some claim => execute_claimed_stage claim worker_id executed_at
  end.
End AgentQueue.
