(* ===== verification/Collectors.v ===== *)
(** * Collecting external evidence

    [agents/dart.py] (disclosures), [agents/krx.py] (daily market data) and
    [agents/naver_news.py] (news): what is asked of each provider, how its reply
    is checked, and the caches of the process.

    Parameters: the answers of the providers, the reader of the archive of
    corporation codes ([zipfile], [ElementTree]), and of the standard library
    the functions whose tables are Unicode's or the mail grammar's:
    [html.unescape], [unicodedata.normalize] with [casefold] and [isalnum],
    [parsedate_to_datetime]. *)

Set Warnings "-register-all".

From Stdlib Require Import ZArith Lia Ascii String.
From stdpp Require Import base numbers strings list pretty sorting.
From S2P Require Import Prelude Decimal Json PyTime Models Session DecimalText PyText.
From S2P Require Import Kiwoom KiwoomClient PyText Urls LlmCatalog.

Open Scope Z_scope.

(** ** Configuration *)

Record CollectorSettings := mkCollectorSettings {
  dart_api_key : string;
  dart_max_pages : Z;
  dart_lookback_days : Z;
  krx_api_key : string;
  krx_lookback_days : Z;
  naver_client_id : string;
  naver_client_secret : string;
  naver_news_lookback_hours : Z;
  naver_news_cache_seconds : Z
}.

(** ** Collections over a cache

    A collector reads and fills a cache of the process; an error leaves what it
    has filled. *)

Definition cached (C A : Type) : Type := C -> C * (exn + A).
#[export] Instance cached_ret {C} : MRet (cached C) := fun A a c => (c, inr a).
#[export] Instance cached_bind {C} : MBind (cached C) := fun A B f m c =>
  match m c with
  | (c', inr a) => f a c'
  | (c', inl e) => (c', inl e)
  end.
Definition fails {C A} (e : exn) : cached C A := fun c => (c, inl e).
Definition pure_result {C A} (r : exn + A) : cached C A := fun c => (c, r).
Definition ensure {C} (ok : bool) (e : exn) : cached C unit := if ok then mret tt else fails e.

(** The reply of a provider: [payload] is [response.json()], [None] when that
    raises, [size] the bytes of the content. *)
Inductive answer :=
| NoAnswer (timed_out : bool)
| Answered (status size : Z) (payload : option json).

(** [response.raise_for_status()] *)
Definition http_ok (status : Z) : bool := (200 <=? status) && (status <? 300).

(** [(str(item.get(key)) or "")] stripped. *)
Definition text_of (v : json) : string := strip (py_str v).

(** [row.get(key, "")] as stripped text. *)
Definition row_text (key : string) (row : json) : string := text_of (get_or (JStr EmptyString) key row).

(** [date.strftime("%Y%m%d")] *)
Definition compact_date (d : Z) : string := remove_char "-" (iso_date d).

(** [datetime.strptime(value, "%Y%m%d")] at midnight in Seoul; [None] is
    [ValueError].  The code gives it eight digits. *)
Definition base_date_as_utc (value : string) : option Z :=
  if digits_of_length 8 value then
    let field a b := digits_from 0 (slice a b value) in
    let '(y, m, d) := (field 0 4, field 4 6, field 6 8)%nat in
    if (1 <=? y) && between 1 12 m && between 1 (month_days y m) d
    then Some (kst_combine (date_of y m d) 0) else None
  else None.
Definition receipt_date_as_utc : string -> option Z := base_date_as_utc.

(** ** DART: disclosures *)

Module Dart.

Definition SOURCE_POLICY_VERSION : string := "opendart-list-v1".
Definition VIEWER_BASE_URL : string := "https://dart.fss.or.kr/dsaf001/main.do?rcpNo=".
Definition MAX_CORP_CODE_ZIP_BYTES : Z := 10 * 1024 * 1024.
Definition MAX_CORP_CODE_XML_BYTES : Z := 30 * 1024 * 1024.

Record DartDisclosure := mkDartDisclosure {
  receipt_number : string;
  corporation_code : string;
  stock_code : string;
  corporation_name : string;
  report_name : string;
  submitter_name : string;
  corporation_class : string;
  receipt_date : string;
  correction_flag : string
}.

Definition source_url (d : DartDisclosure) : string := VIEWER_BASE_URL +:+ receipt_number d.

Definition fact (name value : string) : json := JObj [("name", JStr name); ("value", JStr value)].

Definition facts (d : DartDisclosure) : json :=
  JList [fact "receipt_number" (receipt_number d); fact "corporation_code" (corporation_code d);
         fact "stock_code" (stock_code d); fact "corporation_name" (corporation_name d);
         fact "report_name" (report_name d); fact "submitter_name" (submitter_name d);
         fact "corporation_class" (corporation_class d); fact "receipt_date" (receipt_date d);
         fact "receipt_date_precision" "DAY"; fact "correction_flag" (correction_flag d)].

Record DartCollection := mkDartCollection {
  disclosures : list DartDisclosure;
  start_date : string;
  end_date : string;
  pages_fetched : Z
}.

Definition INVALID : exn := DartCollectionError "DART_RESPONSE_INVALID".
Definition CORP_INVALID : exn := DartCollectionError "DART_CORP_CODE_RESPONSE_INVALID".
Definition PROVIDER_ERROR : exn := DartCollectionError "DART_PROVIDER_ERROR".

Definition _text (item : json) (key : string) (max_length : nat) : string :=
  match get_field key item with JNull => EmptyString | v => slice 0 max_length (text_of v) end.

Definition _parse_disclosure (item : json) (expected_symbol : string) : exn + option DartDisclosure :=
  if negb (is_dict item) then inl INVALID
  else
    let stock_code := _text item "stock_code" 6 in
    if negb (String.eqb stock_code expected_symbol) then inr None
    else
      let receipt_number := _text item "rcept_no" 14 in
      let corporation_code := _text item "corp_code" 8 in
      let receipt_date := _text item "rcept_dt" 8 in
      if negb (digits_of_length 14 receipt_number) || negb (digits_of_length 8 corporation_code) ||
         negb (digits_of_length 6 stock_code) || negb (digits_of_length 8 receipt_date)
      then inl (DartCollectionError "DART_DISCLOSURE_INVALID")
      else inr (Some (mkDartDisclosure receipt_number corporation_code stock_code
                        (_text item "corp_name" 200) (_text item "report_nm" 500)
                        (_text item "flr_nm" 200) (_text item "corp_cls" 1) receipt_date
                        (_text item "rm" 100))).

(** An archive: the names and sizes of its entries; [None] is [BadZipFile]. *)
Section Corporations.
Context (namelist : string -> option (list (string * Z))).
(** The texts [stock_code] and [corp_code] of the elements [list] of the only
    entry; [None] when the entry cannot be read. *)
Context (read_list : string -> option (list (string * string))).
(** [json.loads] and the text of the element [status]. *)
Context (json_loads : string -> option json) (xml_status : string -> option string).

Definition refusal_status (content : string) : string :=
  if String.prefix "{" (lstrip content) then
    match json_loads content with
    | Some payload => if is_dict payload then py_str (get_or (JStr EmptyString) "status" payload)
                      else EmptyString
    | None => EmptyString
    end
  else strip (default EmptyString (xml_status content)).

Fixpoint corp_entries (l : list (string * string)) (mapping : list (string * string)) :
  list (string * string) :=
  match l with
  | [] => mapping
  | (stock, corp) :: l =>
      let '(stock, corp) := (strip stock, strip corp) in
      corp_entries l (if digits_of_length 6 stock && digits_of_length 8 corp
                      then dict_set stock corp mapping else mapping)
  end.

Definition archive_map (content : string) : exn + list (string * string) :=
  match namelist content with
  | Some [(name, size)] =>
      if negb (String.eqb (upper name) "CORPCODE.XML") || (MAX_CORP_CODE_XML_BYTES <? size)
      then inl CORP_INVALID
      else match read_list content with
           | None => inl CORP_INVALID
           | Some l => match corp_entries l [] with [] => inl CORP_INVALID | mapping => inr mapping end
           end
  | _ => inl CORP_INVALID
  end.

Definition _corp_code_map (content : string) : exn + list (string * string) :=
  if String.eqb content EmptyString || (MAX_CORP_CODE_ZIP_BYTES <? strlen content) then inl CORP_INVALID
  else if negb (String.prefix "PK" content) then
    let status := refusal_status content in
    if digits_of_length 3 status && negb (String.eqb status "000")
    then inl (DartCollectionError ("DART_STATUS_" +:+ status)) else inl CORP_INVALID
  else archive_map content.

(** The codes known for an API key, until an instant. *)
Definition cache : Type := list (string * (Z * list (string * string))).

Context (sha256 : string -> string).
(** The answer to the request of the archive: the content with its status. *)
Context (corp_codes : bool + (Z * string)).
(** The answer to the request of page [n] of the disclosures. *)
Context (page_answer : string -> Z -> answer).

Definition transport_error (timed_out : bool) : exn :=
  if timed_out then DartCollectionError "DART_TIMED_OUT" else PROVIDER_ERROR.

Definition cached_code (c : cache) (key symbol : string) (now : Z) : option string :=
  match dict_get key c with
  | Some (until, mapping) =>
      if now <? until then
        match dict_get symbol mapping with
        | Some code => if String.eqb code EmptyString then None else Some code
        | None => None
        end
      else None
  | None => None
  end.

Definition _resolve_corporation_code (api_key symbol : string) (now : Z) : cached cache string := fun c =>
  let key := sha256 api_key in
  match cached_code c key symbol now with
  | Some code => (c, inr code)
  | None =>
      match corp_codes with
      | inl timed_out => (c, inl (transport_error timed_out))
      | inr (status, content) =>
          if negb (http_ok status) then (c, inl PROVIDER_ERROR)
          else match _corp_code_map content with
               | inl e => (c, inl e)
               | inr mapping =>
                   (dict_set key (now + 24 * hour, mapping) c,
                    match dict_get symbol mapping with
                    | Some code => inr code
                    | None => inl (DartCollectionError "DART_CORP_CODE_NOT_FOUND")
                    end)
               end
      end
  end.

(** The disclosures of a page, added to those of the pages before. *)
Fixpoint add_rows (symbol : string) (rows : list json) (d : list (string * DartDisclosure)) :
  exn + list (string * DartDisclosure) :=
  match rows with
  | [] => inr d
  | row :: rows =>
      match _parse_disclosure row symbol with
      | inl e => inl e
      | inr (Some x) => add_rows symbol rows (dict_set (receipt_number x) x d)
      | inr None => add_rows symbol rows d
      end
  end.

(** [int(payload.get("total_page", 1))]: an infinite float raises
    [OverflowError], which nobody catches. *)
Definition total_pages (payload : json) : exn + Z :=
  let v := get_or (JInt 1) "total_page" payload in
  match v with
  | JNum repr => match decimal_of_text repr with
                 | Some (Finite d) => inr (to_int ROUND_DOWN d)
                 | Some (Infinity _) => inl OtherError
                 | _ => inl INVALID
                 end
  | _ => match int_of_json v with Some n => inr n | None => inl INVALID end
  end.

(** One page: [inl] ends the collection where it stands (nothing found),
    [inr] has the disclosures so far and the number of pages there are. *)
Definition read_page (symbol : string) (max_pages : Z) (d : list (string * DartDisclosure))
  (reply : answer) : exn + (unit + list (string * DartDisclosure) * Z) :=
  match reply with
  | NoAnswer timed_out => inl (transport_error timed_out)
  | Answered status _ payload =>
      if negb (http_ok status) then inl PROVIDER_ERROR
      else match payload with
           | None => inl PROVIDER_ERROR
           | Some payload =>
               if negb (is_dict payload) then inl INVALID
               else
                 let status := py_str (get_or (JStr EmptyString) "status" payload) in
                 if String.eqb status "013" then inr (inl tt)
                 else if negb (digits_of_length 3 status) then inl INVALID
                 else if negb (String.eqb status "000")
                 then inl (DartCollectionError ("DART_STATUS_" +:+ status))
                 else match get_or (JList []) "list" payload with
                      | JList rows =>
                          d ← add_rows symbol rows d;
                          total ← total_pages payload;
                          if total <? 1 then inl INVALID
                          else if max_pages <? total
                          then inl (DartCollectionError "DART_PAGE_LIMIT_EXCEEDED")
                          else inr (inr (d, total))
                      | _ => inl INVALID
                      end
           end
  end.

(** The pages from [page] on; [fuel] bounds them. *)
Fixpoint read_pages (fuel : nat) (symbol corporation_code : string) (max_pages page : Z)
  (d : list (string * DartDisclosure)) : exn + (list DartDisclosure * Z) :=
  match fuel with
  | O => inl OtherError
  | S fuel =>
      match read_page symbol max_pages d (page_answer corporation_code page) with
      | inl e => inl e
      | inr (inl _) => inr (d.*2, page - 1)
      | inr (inr (d, total)) =>
          if total <=? page
          then inr (sort_by (fun a b => String.leb (receipt_number a) (receipt_number b)) d.*2, page)
          else read_pages fuel symbol corporation_code max_pages (page + 1) d
      end
  end.

Definition collect_dart_disclosures (settings : Settings) (cs : CollectorSettings) (symbol : string)
  (now : Z) : cached cache DartCollection :=
  ensure (String.eqb (dart_configuration_status settings) "CONFIGURED")
    (DartCollectionError "DART_NOT_CONFIGURED") ;;
  ensure (digits_of_length 6 symbol) (DartCollectionError "DART_SYMBOL_INVALID") ;;
  let end_day := kst_date now in
  code ← _resolve_corporation_code (dart_api_key cs) symbol now;
  pages ← pure_result (read_pages (Z.to_nat (dart_max_pages cs)) symbol code (dart_max_pages cs) 1 []);
  mret (mkDartCollection pages.1 (compact_date (end_day - (dart_lookback_days cs - 1)))
          (compact_date end_day) pages.2).
End Corporations.
End Dart.

(** ** KRX: the last trading day's market data *)

Module Krx.

Definition SOURCE_POLICY_VERSION : string := "krx-stock-daily-v1".
Definition MARKET_PATHS : list (string * string) :=
  [("KOSPI", "/svc/apis/sto/stk_bydd_trd"); ("KOSDAQ", "/svc/apis/sto/ksq_bydd_trd")].
Definition MAX_RESPONSE_BYTES : Z := 8 * 1024 * 1024.

Record KrxDailyMarket := mkKrxDailyMarket {
  base_date : string;
  symbol : string;
  name : string;
  market_name : string;
  sector_type_name : string;
  close_price : string;
  change_price : string;
  change_rate : string;
  open_price : string;
  high_price : string;
  low_price : string;
  trading_volume : string;
  trading_value : string;
  market_cap : string;
  listed_shares : string;
  endpoint_path : string
}.

Definition source_url (m : KrxDailyMarket) : string :=
  "https://data-dbg.krx.co.kr" +:+ endpoint_path m +:+ "?basDd=" +:+ base_date m.

Definition facts (m : KrxDailyMarket) : json :=
  JObj [("base_date", JStr (base_date m)); ("symbol", JStr (symbol m)); ("name", JStr (name m));
        ("market_name", JStr (market_name m)); ("sector_type_name", JStr (sector_type_name m));
        ("close_price", JStr (close_price m)); ("change_price", JStr (change_price m));
        ("change_rate", JStr (change_rate m)); ("open_price", JStr (open_price m));
        ("high_price", JStr (high_price m)); ("low_price", JStr (low_price m));
        ("trading_volume", JStr (trading_volume m)); ("trading_value", JStr (trading_value m));
        ("market_cap", JStr (market_cap m)); ("listed_shares", JStr (listed_shares m))].

Record KrxCollection := mkKrxCollection {
  item : option KrxDailyMarket;
  dates_queried : list string;
  requests_made : Z
}.

Definition INVALID : exn := KrxCollectionError "KRX_RESPONSE_INVALID".

Definition _safe_decimal_text (value : json) (integer : bool) : exn + string :=
  match decimal_of_text (remove_char "," (text_of value)) with
  | Some (Finite d) =>
      if integer then
        if deqb d (of_int (to_int ROUND_HALF_EVEN d)) then inr (pretty (to_int ROUND_DOWN d))
        else inl INVALID
      else inr (plain_text d)
  | _ => inl INVALID
  end.

Definition _parse_row (row : json) (endpoint_path symbol : string) : exn + KrxDailyMarket :=
  if negb (is_dict row) then inl INVALID
  else
    let base_date := row_text "BAS_DD" row in
    let issue_code := row_text "ISU_CD" row in
    let market_name := row_text "MKT_NM" row in
    let whole key := _safe_decimal_text (get_field key row) true in
    if negb (digits_of_length 8 base_date) then inl INVALID
    else if negb (String.eqb issue_code symbol) ||
            negb (bool_decide (market_name ∈ ["KOSPI"; "KOSDAQ"])) then inl INVALID
    else
      close_price ← whole "TDD_CLSPRC";
      change_price ← whole "CMPPREVDD_PRC";
      change_rate ← _safe_decimal_text (get_field "FLUC_RT" row) false;
      open_price ← whole "TDD_OPNPRC";
      high_price ← whole "TDD_HGPRC";
      low_price ← whole "TDD_LWPRC";
      trading_volume ← whole "ACC_TRDVOL";
      trading_value ← whole "ACC_TRDVAL";
      market_cap ← whole "MKTCAP";
      listed_shares ← whole "LIST_SHRS";
      inr (mkKrxDailyMarket base_date issue_code (row_text "ISU_NM" row) market_name
             (row_text "SECT_TP_NM" row) close_price change_price change_rate open_price high_price
             low_price trading_volume trading_value market_cap listed_shares endpoint_path).

(** The rows read, by path, day and fingerprint of the key. *)
Definition cache : Type := list (string * list json).

Section Collect.
Context (sha256 : string -> string).
Context (rows_answer : string -> string -> answer).

(** The three parts of a key have no separator in them. *)
Definition cache_key (endpoint_path base_date fingerprint : string) : string :=
  endpoint_path +:+ "|" +:+ base_date +:+ "|" +:+ fingerprint.

Definition market_rows (reply : answer) : exn + list json :=
  match reply with
  | NoAnswer timed_out =>
      inl (KrxCollectionError (if timed_out then "KRX_TIMED_OUT" else "KRX_PROVIDER_ERROR"))
  | Answered status size payload =>
      if negb (http_ok status) then inl (KrxCollectionError "KRX_PROVIDER_ERROR")
      else if MAX_RESPONSE_BYTES <? size then inl (KrxCollectionError "KRX_RESPONSE_TOO_LARGE")
      else match payload with
           | None => inl INVALID
           | Some payload =>
               match get_field "OutBlock_1" payload with
               | JList rows => if is_dict payload && forallb is_dict rows then inr rows else inl INVALID
               | _ => inl INVALID
               end
           end
  end.

Definition _load_market_rows (api_key endpoint_path base_date : string) :
  cached cache (list json * bool) := fun c =>
  let key := cache_key endpoint_path base_date (sha256 api_key) in
  match dict_get key c with
  | Some rows => (c, inr (rows, false))
  | None => match market_rows (rows_answer endpoint_path base_date) with
            | inl e => (c, inl e)
            | inr rows => (dict_set key rows c, inr (rows, true))
            end
  end.

Definition matches (symbol : string) (rows : list json) : list json :=
  List.filter (fun row => String.eqb (row_text "ISU_CD" row) symbol) rows.

(** The item of a symbol in the rows of a market, if it is there. *)
Definition market_item (symbol expected_market endpoint_path : string) (rows : list json) :
  exn + option KrxDailyMarket :=
  match matches symbol rows with
  | [] => inr None
  | [row] =>
      item ← _parse_row row endpoint_path symbol;
      if String.eqb (market_name item) expected_market then inr (Some item) else inl INVALID
  | _ => inl (KrxCollectionError "KRX_DUPLICATE_SYMBOL")
  end.

Fixpoint search_markets (api_key symbol base_date : string) (paths : list (string * string))
  (requests : Z) : cached cache (option KrxDailyMarket * Z) :=
  match paths with
  | [] => mret (None, requests)
  | (expected_market, endpoint_path) :: paths =>
      loaded ← _load_market_rows api_key endpoint_path base_date;
      let requests := requests + (if loaded.2 : bool then 1 else 0) in
      found ← pure_result (market_item symbol expected_market endpoint_path loaded.1);
      match found with
      | Some item => mret (Some item, requests)
      | None => search_markets api_key symbol base_date paths requests
      end
  end.

(** The days before [kst_day], the nearest first. *)
Fixpoint search_days (api_key symbol : string) (kst_day : Z) (days : list Z) (dates : list string)
  (requests : Z) : cached cache KrxCollection :=
  match days with
  | [] => mret (mkKrxCollection None dates requests)
  | days_ago :: days =>
      let base_date := compact_date (kst_day - days_ago) in
      let dates := dates ++ [base_date] in
      found ← search_markets api_key symbol base_date MARKET_PATHS requests;
      match found.1 with
      | Some item => mret (mkKrxCollection (Some item) dates found.2)
      | None => search_days api_key symbol kst_day days dates found.2
      end
  end.

Definition collect_krx_daily_market (settings : Settings) (cs : CollectorSettings) (symbol : string)
  (now : Z) : cached cache KrxCollection :=
  ensure (String.eqb (krx_configuration_status settings) "CONFIGURED")
    (KrxCollectionError "KRX_NOT_CONFIGURED") ;;
  ensure (digits_of_length 6 symbol) (KrxCollectionError "KRX_SYMBOL_INVALID") ;;
  search_days (krx_api_key cs) symbol (kst_date now) (seqZ 1 (krx_lookback_days cs)) [] 0.
End Collect.
End Krx.

(** ** NAVER: news *)

Module Naver.

Definition SOURCE_POLICY_VERSION : string := "naver-api-hub-news-v1".
Definition MAX_RESPONSE_BYTES : Z := 2 * 1024 * 1024.

Record NaverNewsItem := mkNaverNewsItem {
  title : string;
  source_url : string;
  source_host : string;
  published_at : Z;
  matched_identity : string;
  stale : bool
}.

Definition facts (i : NaverNewsItem) : json :=
  JObj [("source_host", JStr (source_host i)); ("published_at", JStr (iso_datetime (published_at i)));
        ("matched_identity", JStr (matched_identity i));
        ("freshness", JStr (if stale i then "STALE" else "FRESH"))].

Record NaverNewsCollection := mkNaverNewsCollection {
  items : list NaverNewsItem;
  query_identity : string;
  returned_count : Z;
  irrelevant_count : Z;
  unsafe_url_count : Z;
  cache_hit : bool
}.

Definition INVALID : exn := NaverNewsCollectionError "NAVER_NEWS_RESPONSE_INVALID".

(** [re.sub("<[^>]*>", "", s)]: the text up to a closing bracket goes; an
    opening one without it stays. *)
Fixpoint after_tag (s : string) : option string :=
  match s with
  | EmptyString => None
  | String c r => if Ascii.eqb c ">" then Some r else after_tag r
  end.

Fixpoint strip_tags (fuel : nat) (s : string) : string :=
  match fuel, s with
  | S fuel, String c r =>
      if Ascii.eqb c "<" then
        match after_tag r with
        | Some rest => strip_tags fuel rest
        | None => String c (strip_tags fuel r)
        end
      else String c (strip_tags fuel r)
  | _, _ => EmptyString
  end.

(** [" ".join(s.split())] *)
Fixpoint squeeze (pending : bool) (s : string) : string :=
  match s with
  | EmptyString => EmptyString
  | String c r =>
      if is_space c then squeeze true r
      else if pending then String " " (String c (squeeze false r)) else String c (squeeze false r)
  end.

Definition brackets : list ascii := ["["; "]"]%char.

Definition nonempty (s : option string) : bool :=
  match s with Some s => negb (String.eqb s EmptyString) | None => false end.

(** [urlunsplit(("https", host, path, query, ""))] *)
Definition https_url (host path query : string) : string :=
  "https://" +:+ host +:+ (if String.prefix "/" path then path else "/" +:+ path) +:+
  (if String.eqb query EmptyString then EmptyString else "?" +:+ query).

(** [ipaddress.ip_address(host).is_global]; [None] when it is no address. *)
Definition ip_global (host : string) : option bool := is_global <$> ip_address host.

Section News.
Context (unescape identity_key : string -> string).
(** [None] raises, [Some None] has no time zone, and otherwise the instant. *)
Context (parsedate : string -> option (option Z)).

Definition _plain_text (value : json) (limit : nat) : string :=
  let text := str_or_empty value in
  slice 0 limit (squeeze false (lstrip (unescape (strip_tags (S (String.length text)) text)))).

(** [port in (None, 443)]; reading a bad port raises [ValueError]. *)
Definition port_ok (port : option (option Z)) : bool :=
  match port with Some None => true | Some (Some p) => p =? 443 | None => false end.

(** The host a URL may be kept with. *)
Definition safe_host (parsed : SplitUrl) : option string :=
  let host := lower (rstrip_chars ["."%char] (default EmptyString (url_hostname parsed))) in
  if negb (String.eqb (lower (url_scheme parsed)) "https") || String.eqb host EmptyString ||
     nonempty (url_username parsed) || nonempty (url_password parsed) then None
  else if String.eqb host "localhost" || ends_with ".local" host then None
  else match ip_global (lstrip_chars brackets (rstrip_chars brackets host)) with
       | Some false => None
       | _ => if port_ok (url_port parsed) then Some host else None
       end.

Definition _safe_https_url (value : json) : option string :=
  parsed ← urlsplit (strip (str_or_empty value));
  host ← safe_host parsed;
  Some (https_url host (if String.eqb (url_path parsed) EmptyString then "/" else url_path parsed)
          (url_query parsed)).

Definition _published_at (value : json) : exn + Z :=
  match parsedate (str_or_empty value) with
  | Some (Some t) => inr t
  | _ => inl INVALID
  end.

(** What becomes of a row. *)
Inductive sighting :=
| Irrelevant
| Unsafe
| Skipped
| Kept (i : NaverNewsItem).

Definition source_url_of (row : json) : option string :=
  match _safe_https_url (get_field "originallink" row) with
  | Some url => Some url
  | None => _safe_https_url (get_field "link" row)
  end.

Definition read_row (query_identity : string) (now lookback_hours : Z) (seen : list string) (row : json) :
  exn + sighting :=
  let title := _plain_text (get_field "title" row) 500 in
  let description := _plain_text (get_field "description" row) 2000 in
  if negb (contains (identity_key query_identity) (identity_key (title +:+ " " +:+ description)))
  then inr Irrelevant
  else match source_url_of row with
       | None => inr Unsafe
       | Some url =>
           published_at ← _published_at (get_field "pubDate" row);
           if now + 5 * minute <? published_at then inl INVALID
           else if String.eqb title EmptyString || bool_decide (url ∈ seen) then inr Skipped
           else inr (Kept (mkNaverNewsItem title url
                             (default EmptyString (urlsplit url ≫= url_hostname)) published_at
                             query_identity (published_at <? now - lookback_hours * hour)))
       end.

Fixpoint read_rows (query_identity : string) (now lookback_hours : Z) (rows : list json)
  (items : list NaverNewsItem) (irrelevant unsafe : Z) : exn + (list NaverNewsItem * Z * Z) :=
  match rows with
  | [] => inr (items, irrelevant, unsafe)
  | row :: rows =>
      seen ← read_row query_identity now lookback_hours (map source_url items) row;
      match seen with
      | Irrelevant => read_rows query_identity now lookback_hours rows items (irrelevant + 1) unsafe
      | Unsafe => read_rows query_identity now lookback_hours rows items irrelevant (unsafe + 1)
      | Skipped => read_rows query_identity now lookback_hours rows items irrelevant unsafe
      | Kept i => read_rows query_identity now lookback_hours rows (items ++ [i]) irrelevant unsafe
      end
  end.

Definition _parse_items (rows : list json) (query_identity : string) (now lookback_hours : Z) :
  exn + (list NaverNewsItem * Z * Z) :=
  if String.eqb (identity_key query_identity) EmptyString
  then inl (NaverNewsCollectionError "NAVER_NEWS_QUERY_INVALID")
  else read_rows query_identity now lookback_hours rows [] 0 0.

(** The replies kept, by the fingerprint of the credentials and the query. *)
Definition cache : Type := list (string * (Z * list json * Z)).

Context (sha256 : string -> string) (news_answer : string -> answer).

Definition news_rows (reply : answer) : exn + list json :=
  match reply with
  | NoAnswer timed_out =>
      inl (NaverNewsCollectionError (if timed_out then "NAVER_NEWS_TIMED_OUT" else "NAVER_NEWS_PROVIDER_ERROR"))
  | Answered status size payload =>
      if (status =? 401) || (status =? 403) then inl (NaverNewsCollectionError "NAVER_NEWS_AUTH_FAILED")
      else if status =? 429 then inl (NaverNewsCollectionError "NAVER_NEWS_QUOTA_EXCEEDED")
      else if negb (http_ok status) then inl (NaverNewsCollectionError "NAVER_NEWS_PROVIDER_ERROR")
      else if MAX_RESPONSE_BYTES <? size
      then inl (NaverNewsCollectionError "NAVER_NEWS_RESPONSE_TOO_LARGE")
      else match payload with
           | None => inl INVALID
           | Some payload =>
               match get_field "items" payload with
               | JList rows => if is_dict payload && forallb is_dict rows then inr rows else inl INVALID
               | _ => inl INVALID
               end
           end
  end.

Definition nul : string := String (ascii_of_nat 0) EmptyString.

Definition query_of (symbol : string) (company_name : option string) : string :=
  let identity := match company_name with
                  | Some name => if String.eqb name EmptyString then symbol else _plain_text (JStr name) 200
                  | None => symbol
                  end in
  if String.eqb identity EmptyString then symbol else identity.

Definition load_news (cs : CollectorSettings) (query_identity : string) (now : Z) :
  cached cache (list json * Z * bool) := fun c =>
  let key := sha256 (naver_client_id cs +:+ nul +:+ naver_client_secret cs) +:+ "|" +:+ query_identity in
  let fetch := match news_rows (news_answer query_identity) with
               | inl e => (c, inl e)
               | inr rows =>
                   let n := Z.of_nat (length rows) in
                   (dict_set key (now + seconds (naver_news_cache_seconds cs), rows, n) c,
                    inr (rows, n, false))
               end in
  match dict_get key c with
  | Some (until, rows, returned) => if now <? until then (c, inr (rows, returned, true)) else fetch
  | None => fetch
  end.

Definition collect_naver_news (settings : Settings) (cs : CollectorSettings) (symbol : string)
  (company_name : option string) (now : Z) : cached cache NaverNewsCollection :=
  ensure (String.eqb (naver_news_configuration_status settings) "CONFIGURED")
    (NaverNewsCollectionError "NAVER_NEWS_NOT_CONFIGURED") ;;
  ensure (digits_of_length 6 symbol) (NaverNewsCollectionError "NAVER_NEWS_SYMBOL_INVALID") ;;
  let query_identity := query_of symbol company_name in
  loaded ← load_news cs query_identity now;
  let '(rows, returned_count, cache_hit) := loaded in
  parsed ← pure_result (_parse_items rows query_identity now (naver_news_lookback_hours cs));
  let '(items, irrelevant_count, unsafe_url_count) := parsed in
  mret (mkNaverNewsCollection items query_identity returned_count irrelevant_count unsafe_url_count
          cache_hit).
End News.
End Naver.

(** ** What is collected *)

Section DartCollected.
Import Dart.

Lemma parse_disclosure_ok item symbol d :
  _parse_disclosure item symbol = inr (Some d) ->
  stock_code d = symbol /\ digits_of_length 14 (receipt_number d) = true /\
  digits_of_length 8 (receipt_date d) = true.
Proof.
  unfold _parse_disclosure. destruct (negb (is_dict item)); [done|].
  destruct (String.eqb_spec (_text item "stock_code" 6) symbol) as [Hs|]; [|done]. cbn [negb].
  destruct (negb _ || negb _ || negb _ || negb _) eqn:E; [done|]. intros [= <-]. bool_to_prop. done.
Qed.

(** The disclosures gathered so far: one per receipt, all of the symbol. *)
Definition gathered (symbol : string) (d : list (string * DartDisclosure)) : Prop :=
  NoDup d.*1 /\ Forall (fun f => f.1 = receipt_number f.2 /\ stock_code f.2 = symbol) d.

Lemma gathered_set symbol x d :
  stock_code x = symbol -> gathered symbol d -> gathered symbol (dict_set (receipt_number x) x d).
Proof.
  intros Hx [Hn Hf]. split.
  - rewrite dict_keys_set. case_bool_decide as Hk; [done|]. apply NoDup_app. repeat split.
    + done.
    + intros k Hin ->%list_elem_of_singleton. done.
    + apply NoDup_singleton.
  - clear Hn. induction Hf as [|[k y] d [Hk Hy] Hf IH]; cbn [dict_set]; [by repeat constructor|].
    cbn in Hk, Hy. destruct (String.eqb_spec (receipt_number x) k); by constructor.
Qed.

Lemma add_rows_gathered symbol rows d d' :
  add_rows symbol rows d = inr d' -> gathered symbol d -> gathered symbol d'.
Proof.
  revert d. induction rows as [|row rows IH]; intros d; cbn [add_rows]; [by intros [= ->]|].
  destruct (_parse_disclosure row symbol) as [|[x|]] eqn:E; [done| |by apply IH].
  intros H Hd. eapply IH; [done|]. apply gathered_set; [|done].
  by apply parse_disclosure_ok in E as [? _].
Qed.

Lemma read_page_ok symbol max_pages d reply d' total :
  read_page symbol max_pages d reply = inr (inr (d', total)) -> gathered symbol d ->
  gathered symbol d' /\ 1 <= total <= max_pages.
Proof.
  unfold read_page. intros H Hd.
  destruct reply as [|status size [payload|]]; [done| |by branches H].
  destruct (negb (http_ok status)), (negb (is_dict payload)); try discriminate H.
  do 3 (case_match; try discriminate H).
  destruct (get_or (JList []) "list" payload); try discriminate H.
  apply result_bind_inr in H as (d1 & Hrows & H).
  apply result_bind_inr in H as (n & Hn & H).
  do 2 (case_match; try discriminate H). injection H as <- <-. bool_to_prop.
  split; [by eapply add_rows_gathered|lia].
Qed.

Context (page_answer : string -> Z -> answer).

Lemma read_page_total symbol max_pages d reply d' total :
  read_page symbol max_pages d reply = inr (inr (d', total)) -> 1 <= total <= max_pages.
Proof.
  unfold read_page. intros H.
  destruct reply as [|status size [payload|]]; [done| |by branches H].
  destruct (negb (http_ok status)), (negb (is_dict payload)); try discriminate H.
  do 3 (case_match; try discriminate H).
  destruct (get_or (JList []) "list" payload); try discriminate H.
  apply result_bind_inr in H as (d1 & Hrows & H).
  apply result_bind_inr in H as (n & Hn & H).
  do 2 (case_match; try discriminate H). injection H as <- <-. bool_to_prop. lia.
Qed.

(** The code stops at the last page there is, and never reads beyond the pages
    it allows: more fuel changes nothing. *)
Lemma read_pages_fuel fuel symbol code max_pages page d k :
  1 <= max_pages -> page <= max_pages -> max_pages <= Z.of_nat fuel + page - 1 ->
  read_pages page_answer (fuel + k) symbol code max_pages page d =
  read_pages page_answer fuel symbol code max_pages page d.
Proof.
  intros Hm. revert page d. induction fuel as [|fuel IH]; intros page d Hp Hf; [lia|].
  cbn [Nat.add read_pages].
  destruct (read_page _ _ _ _) as [|[|[d' total]]] eqn:E; [done|done|].
  apply read_page_total in E. destruct (Z.leb_spec total page); [done|]. apply IH; lia.
Qed.

Lemma gathered_values symbol d l :
  gathered symbol d -> l ≡ₚ d.*2 ->
  NoDup (map receipt_number l) /\ Forall (fun x => stock_code x = symbol) l.
Proof.
  intros [Hn Hf] ->. split.
  - assert (map receipt_number d.*2 = d.*1) as ->; [|done].
    clear Hn. induction Hf as [|x d [Hx _] Hf IH]; [done|]. cbn. by rewrite IH, Hx.
  - clear Hn. induction Hf as [|x d [_ Hx] Hf IH]; by constructor.
Qed.

Lemma read_pages_ok fuel symbol code max_pages page d l n :
  read_pages page_answer fuel symbol code max_pages page d = inr (l, n) ->
  gathered symbol d -> page <= max_pages ->
  NoDup (map receipt_number l) /\ Forall (fun x => stock_code x = symbol) l /\
  page - 1 <= n <= max_pages.
Proof.
  revert page d. induction fuel as [|fuel IH]; intros page d H Hd Hp; [done|].
  cbn [read_pages] in H. destruct (read_page _ _ _ _) as [|[|[d' total]]] eqn:E; [done| |].
  - injection H as Hl Hn. subst l n. destruct (gathered_values _ _ d.*2 Hd) as [? ?]; [done|]. split_and!; auto; lia.
  - apply read_page_ok in E as [Hd' Ht]; [|done]. destruct (Z.leb_spec total page) as [Hle|Hlt].
    + injection H as Hl Hn. subst l n. set (le := fun a b => String.leb (receipt_number a) (receipt_number b)).
      destruct (gathered_values _ _ _ Hd' (sort_by_perm le d'.*2)) as [Hnd Hall].
      split_and!; [apply Hnd|apply Hall|lia|lia].
    + apply IH in H; [|done|lia]. destruct H as (? & ? & ?). split_and!; auto; lia.
Qed.

(** The search for disclosures reads at most the pages it is allowed,
    needs no more steps than that, and what it returns is one disclosure per
    receipt, all of the symbol asked for. *)
Theorem disclosure_pages_terminate symbol code max_pages :
  1 <= max_pages ->
  (forall k, read_pages page_answer (Z.to_nat max_pages + k) symbol code max_pages 1 [] =
             read_pages page_answer (Z.to_nat max_pages) symbol code max_pages 1 []) /\
  forall l n, read_pages page_answer (Z.to_nat max_pages) symbol code max_pages 1 [] = inr (l, n) ->
    NoDup (map receipt_number l) /\ Forall (fun x => stock_code x = symbol) l /\ 0 <= n <= max_pages.
Proof.
  intros Hm. split; [intros k; apply read_pages_fuel; lia|].
  intros l n H. apply read_pages_ok in H; [done| |lia]. split; constructor.
Qed.
End DartCollected.

Section NewsCollected.
Import Naver.
Context (unescape identity_key : string -> string) (parsedate : string -> option (option Z)).

(** A link that may be kept: over TLS on its own port, without credentials, to
    a host that is neither this machine nor a private address. *)
Definition public_https (url : string) : Prop :=
  exists text u host, urlsplit text = Some u /\
    host = lower (rstrip_chars ["."%char] (default EmptyString (url_hostname u))) /\
    url = https_url host (if String.eqb (url_path u) EmptyString then "/" else url_path u) (url_query u) /\
    lower (url_scheme u) = "https" /\ nonempty (url_username u) = false /\ nonempty (url_password u) = false /\
    host <> EmptyString /\ host <> "localhost" /\ ends_with ".local" host = false /\
    ip_global (lstrip_chars brackets (rstrip_chars brackets host)) <> Some false /\
    (url_port u = Some None \/ url_port u = Some (Some 443)).

Definition news_ok (query : string) (now lookback_hours : Z) (i : NaverNewsItem) : Prop :=
  public_https (source_url i) /\ title i <> EmptyString /\ matched_identity i = query /\
  published_at i <= now + 5 * minute /\
  stale i = (published_at i <? now - lookback_hours * hour).

Lemma safe_url_public value url :
  _safe_https_url value = Some url -> public_https url.
Proof.
  unfold _safe_https_url. intros H.
  apply bind_Some in H as (u & Hu & H). apply bind_Some in H as (host & Hh & [= <-]).
  exists (strip (str_or_empty value)), u, host. unfold safe_host in Hh.
  set (h := lower (rstrip_chars _ _)) in *. destruct (negb _ || _ || _ || _) eqn:E1; [done|].
  destruct (String.eqb h "localhost" || ends_with ".local" h) eqn:E2; [done|].
  assert (ip_global (lstrip_chars brackets (rstrip_chars brackets h)) <> Some false /\
          host = h /\ port_ok (url_port u) = true) as (Hip & -> & Hp).
  { destruct (ip_global _) as [[]|]; [|done|]; destruct (port_ok _); by simplify_eq. }
  bool_to_prop.
  repeat match goal with
  | Heq : String.eqb _ _ = false |- _ => apply String.eqb_neq in Heq
  | Heq : String.eqb _ _ = true |- _ => apply String.eqb_eq in Heq
  end.
  split_and!; auto. destruct (url_port u) as [[p|]|]; [|by left|done]. right.
  by apply Z.eqb_eq in Hp as ->.
Qed.

Lemma source_url_public row url : source_url_of row = Some url -> public_https url.
Proof.
  unfold source_url_of. destruct (_safe_https_url (get_field "originallink" row)) eqn:E.
  - intros [= <-]. by apply safe_url_public in E.
  - apply safe_url_public.
Qed.

Lemma read_row_kept query now lookback_hours seen row i :
  read_row unescape identity_key parsedate query now lookback_hours seen row
  = inr (Kept i) ->
  news_ok query now lookback_hours i /\ source_url i ∉ seen.
Proof.
  unfold read_row. destruct (negb (contains _ _)); [done|].
  destruct (source_url_of row) as [url|] eqn:Hu; [|done]. intros H.
  apply result_bind_inr in H as (t & Ht & H). destruct (Z.ltb_spec (now + 5 * minute) t); [done|].
  destruct (String.eqb _ _ || _) eqn:E; [done|]. injection H as <-. bool_to_prop.
  split; [|done]. split_and!; cbn; try done.
  - by apply source_url_public in Hu.
  - by apply String.eqb_neq.
Qed.

Lemma read_rows_kept query now lookback_hours rows items irrelevant unsafe items' i' u' :
  read_rows unescape identity_key parsedate query now lookback_hours rows items
    irrelevant unsafe = inr (items', i', u') ->
  NoDup (map source_url items) -> Forall (news_ok query now lookback_hours) items ->
  NoDup (map source_url items') /\ Forall (news_ok query now lookback_hours) items' /\
  Z.of_nat (length items') + i' + u' <=
    Z.of_nat (length rows) + Z.of_nat (length items) + irrelevant + unsafe.
Proof.
  revert items irrelevant unsafe. induction rows as [|row rows IH]; intros items irr uns H Hn Hf.
  - injection H as <- <- <-. cbn. split_and!; auto. lia.
  - cbn [read_rows] in H. apply result_bind_inr in H as (x & Hx & H). cbn [length].
    destruct x as [| | |i].
    1-3: apply IH in H; [|done..]; destruct H as (? & ? & ?); split_and!; auto; lia.
    apply read_row_kept in Hx as [Hi Hs]. apply IH in H.
    + destruct H as (? & ? & Hl). rewrite length_app in Hl. cbn in Hl. split_and!; auto; lia.
    + rewrite map_app. apply NoDup_app. split_and!; [done| |apply NoDup_singleton].
      intros url Hin ->%list_elem_of_singleton. done.
    + apply Forall_app. split; [done|by constructor].
Qed.

(** Whatever the provider answers, the news that are kept have distinct
    links to public hosts over TLS, none is dated in the future, staleness is
    what the age says, and no row counts twice. *)
Theorem kept_news_are_safe rows query now lookback_hours items irrelevant unsafe :
  _parse_items unescape identity_key parsedate rows query now lookback_hours
  = inr (items, irrelevant, unsafe) ->
  NoDup (map source_url items) /\ Forall (news_ok query now lookback_hours) items /\
  Z.of_nat (length items) + irrelevant + unsafe <= Z.of_nat (length rows).
Proof.
  unfold _parse_items. destruct (String.eqb _ _); [done|]. intros Hr.
  apply read_rows_kept in Hr as (? & ? & ?); [|constructor..].
  split_and!; auto. cbn in *. lia.
Qed.
End NewsCollected.

(** ** Concrete replies *)

Section Concrete.
Import Dart.

Definition demo_disclosure (number : string) : json :=
  JObj [("stock_code", JStr "005930"); ("rcept_no", JStr number); ("corp_code", JStr "00126380");
        ("rcept_dt", JStr "20260304"); ("corp_name", JStr "Samsung")].

(** Two pages; the second one repeats a disclosure of the first. *)
Definition demo_pages (code : string) (page : Z) : answer :=
  Answered 200 100 (Some (JObj [("status", JStr "000"); ("total_page", JStr "2");
    ("list", JList (if page =? 1 then [demo_disclosure "20260304000002"]
                    else [demo_disclosure "20260304000002"; demo_disclosure "20260304000001"]))])).

Lemma disclosure_pages_terminate_witness :
  exists l n, read_pages demo_pages (Z.to_nat 10) "005930" "00126380" 10 1 [] = inr (l, n) /\
    map receipt_number l = ["20260304000001"; "20260304000002"] /\ n = 2 /\
    Forall (fun x => stock_code x = "005930") l /\ 0 <= n <= 10.
Proof.
  destruct (disclosure_pages_terminate demo_pages "005930" "00126380" 10 ltac:(lia)) as [_ H].
  eexists _, _. split; [vm_compute; reflexivity|].
  split; [reflexivity|]. split; [reflexivity|].
  refine (proj2 (H _ _ _)). vm_compute. reflexivity.
Defined.
End Concrete.

Section ConcreteNews.
Import Naver.

Definition demo_now : Z := 1772586000000000.

Definition demo_news : json :=
  JObj [("title", JStr "<b>Samsung</b> rises"); ("description", JStr "");
        ("originallink", JStr "ftp://x"); ("link", JStr "HTTPS://News.Example.com./a?id=1#top"); ("pubDate", JStr "now")].

Lemma kept_news_are_safe_witness :
  exists items, _parse_items (fun s => s) lower
      (fun _ => Some (Some demo_now)) [demo_news; demo_news; JObj []] "Samsung" demo_now 72
    = inr (items, 1, 0) /\
    map source_url items = ["https://news.example.com/a?id=1"] /\
    Forall (news_ok "Samsung" demo_now 72) items.
Proof.
  eexists. split; [vm_compute; reflexivity|]. split; [reflexivity|].
  refine (proj1 (proj2 (kept_news_are_safe (fun s => s) lower
    (fun _ => Some (Some demo_now)) [demo_news; demo_news; JObj []] "Samsung" demo_now 72 _ 1 0 _))).
  vm_compute. reflexivity.
Defined.
End ConcreteNews.
