(* ===== verification/AgentRuntime.v ===== *)
(** * Assessments of a stage, by rule and by a model

    The half of [agents/runtime.py] that a stage uses: what a model is asked, what
    is taken from it and what is assessed without one, and every path of an
    invocation. *)

Set Warnings "-register-all".

From Stdlib Require Import ZArith Lia Ascii String.
From stdpp Require Import base numbers strings list gmap.
From S2P Require Import Prelude Decimal Json PyTime Models Session MarketWatch DecimalText PyText DecisionInputs.
From S2P Require Import MockDecision Fusion LlmCatalog AgentContracts AgentQueue.

Open Scope Z_scope.

(** * Calling a language model for a stage

    [agents/runtime.py]: the assessments of the scouts by rule, and the
    invocation of a model, whose reply is recorded, vetted against the contract
    of its role and only then used.

    Parameters: the network behind an adapter ([http_adapter]), the file store
    of credentials ([read_secret]), [datetime.fromisoformat] and the JSON schema
    pydantic derives from a class ([model_json_schema]). *)

Definition DAG_VERSION : string := "agent-dag-v6".
Definition SERVER_INPUT_DAG_VERSIONS : list string := ["agent-dag-v5"; DAG_VERSION].
Definition ASSESSMENT_SCHEMA_VERSION : string := "agent-assessment-v2".
Definition CORE_SCHEMA_VERSION : string := "agent-core-v2".
Definition SCORE_POLICY_VERSION : string := "score-policy-v1".
Definition EVIDENCE_POLICY_VERSION : string := "official-primary-secondary-v3".
Definition ROUTE_ROLES : list string := SCOUT_ROLES ++ ["CORE"].
Definition MAX_MODEL_OUTPUT_BYTES : nat := N.to_nat (64 * 1024).
Definition SENSITIVE_MODEL_OUTPUT_KEY_PARTS : list string :=
  ["api_key"; "authorization"; "credential"; "password"; "secret"; "totp"; "access_token";
   "refresh_token"].

Definition uses_server_inputs (dag_version : string) : bool :=
  bool_decide (dag_version ∈ SERVER_INPUT_DAG_VERSIONS).

Record RouteBinding := mkRouteBinding {
  rb_route : LlmRoleRoute;
  rb_model : LlmModelProfile;
  rb_provider : LlmProviderProfile;
  rb_fallback_model : option LlmModelProfile;
  rb_fallback_provider : option LlmProviderProfile
}.

Record InvocationOutcome := mkInvocationOutcome {
  io_model : LlmModelProfile;
  io_provider : LlmProviderProfile;
  io_output_json : option json
}.

(** ** Keys a model must not return *)

Definition sensitive_key (key : string) : bool :=
  existsb (fun part => contains part (replace "-" "_" (lower key))) SENSITIVE_MODEL_OUTPUT_KEY_PARTS.

Fixpoint _contains_sensitive_output_key (value : json) : bool :=
  match value with
  | JObj fields => existsb (fun f => sensitive_key f.1 || _contains_sensitive_output_key f.2) fields
  | JList l => existsb _contains_sensitive_output_key l
  | _ => false
  end.

(** ** Assessments by rule *)

Section Rules.
Context (stage_run_id symbol : string) (input_refs : list string) (observed_at valid_until : Z).

Definition rule_assessment (role : string) (status : StageState) (stance : Stance)
  (entry_score exit_risk_score : option Z) (confidence uncertainty : pyfloat)
  (reason_codes : list string) : AgentAssessment :=
  mkAgentAssessment stage_run_id role symbol input_refs status stance entry_score exit_risk_score
    confidence uncertainty reason_codes [] observed_at valid_until.

(** An assessment without a result. *)
Definition no_assessment (role : string) (status : StageState) (reason_codes : list string) :
  AgentAssessment :=
  rule_assessment role status ST_UNKNOWN None None "0.0" "1.0" reason_codes.

Definition price_supportive (indicator : IndicatorSnapshot) : bool :=
  match is_price_vs_vwap_pct indicator with Some d => dleb dzero d | None => false end.

(** [_assessment]; of the position only its presence matters. *)
Definition _assessment (role : string) (indicator : option IndicatorSnapshot)
  (snapshot : MarketSnapshot) (has_position : bool) : AgentAssessment :=
  if String.eqb role "TECHNICAL_SCOUT" then
    match indicator with
    | None => no_assessment role SG_INSUFFICIENT_DATA ["INDICATOR_DATA_MISSING"]
    | Some indicator =>
        if price_supportive indicator
        then rule_assessment role SG_SUCCEEDED ST_SUPPORTIVE (Some 60) (Some 30) "0.7" "0.3" ["PRICE_ABOVE_VWAP"]
        else rule_assessment role SG_SUCCEEDED ST_CAUTION (Some 40) (Some 60) "0.7" "0.3" ["PRICE_BELOW_VWAP"]
    end
  else if String.eqb role "NEWS_DISCLOSURE_SCOUT" then
    no_assessment role SG_INSUFFICIENT_DATA ["NO_VERIFIED_EVIDENCE"]
  else if String.eqb role "MARKET_SECTOR_SCOUT" then
    if bool_decide (ms_quality snapshot = Q_NORMAL)
    then rule_assessment role SG_SUCCEEDED ST_NEUTRAL (Some 50) (Some 50) "0.5" "0.5" ["MARKET_TREND_NEUTRAL"]
    else no_assessment role SG_INSUFFICIENT_DATA ["MARKET_DATA_QUALITY_DEGRADED"]
  else if negb has_position then
    no_assessment role SG_INSUFFICIENT_DATA ["OPEN_POSITION_NOT_FOUND"]
  else rule_assessment role SG_SUCCEEDED ST_NEUTRAL None (Some 50) "0.5" "0.5" ["POSITION_RISK_NORMAL"].

(** [Decimal(str(part.get(key)))] when the part is an object with the key. *)
Definition optional_number (part : json) (key : string) : exn + option decimal :=
  if is_dict part then
    match get_field key part with
    | JNull => inr None
    | v => d ← number v; inr (Some d)
    end
  else inr None.

Definition market_assessment (role : string) (market_context : json) : exn + AgentAssessment :=
  index_change ← optional_number (get_field "index" market_context) "change_pct";
  sector_change ← optional_number (get_field "sector" market_context) "change_pct";
  breadth_ratio ← optional_number (get_field "breadth" market_context) "advancer_ratio_pct";
  match index_change, sector_change, breadth_ratio with
  | Some index_change, Some sector_change, Some breadth_ratio =>
      if dleb dzero index_change && dleb dzero sector_change && dleb (of_int 50) breadth_ratio
      then inr (rule_assessment role SG_SUCCEEDED ST_SUPPORTIVE (Some 65) (Some 30) "0.75" "0.25"
                  ["MARKET_TREND_SUPPORTIVE"])
      else if dltb index_change dzero && dltb sector_change dzero && dltb breadth_ratio (of_int 40)
      then inr (rule_assessment role SG_SUCCEEDED ST_CAUTION (Some 35) (Some 70) "0.75" "0.25"
                  ["MARKET_TREND_WEAK"])
      else inr (rule_assessment role SG_SUCCEEDED ST_NEUTRAL (Some 50) (Some 50) "0.75" "0.25"
                  ["MARKET_SECTOR_SIGNALS_MIXED"])
  | _, _, _ => inr (no_assessment role SG_INSUFFICIENT_DATA ["MARKET_DATA_INSUFFICIENT"])
  end.

Definition position_fresh (position : json) : bool :=
  is_dict (get_field "freshness" position) &&
  is_text "FRESH" (get_field "status" (get_field "freshness" position)).

Definition position_assessment (role : string) (position : json) : exn + AgentAssessment :=
  if negb (position_fresh position)
  then inr (no_assessment role SG_INSUFFICIENT_DATA ["POSITION_DATA_STALE"])
  else
    stop_distance ← (item "distance_to_fixed_stop_pct" position ≫= number);
    unrealized_return ← (item "unrealized_return_pct" position ≫= number);
    let scored stance score code :=
      rule_assessment role SG_SUCCEEDED stance None (Some score) "0.85" "0.15" [code] in
    inr (if dleb stop_distance dzero then scored ST_RISK 90 "FIXED_STOP_TRIGGERED"
         else if dleb stop_distance (Dec 5 (-1)) then scored ST_RISK 75 "FIXED_STOP_NEAR"
         else if dltb unrealized_return dzero then scored ST_CAUTION 60 "POSITION_LOSING"
         else scored ST_NEUTRAL 35 "POSITION_RISK_NORMAL").

(** [_assessment_v2]; the position is the one frozen in the run. *)
Definition _assessment_v2 (role : string) (indicator : option IndicatorSnapshot)
  (snapshot : MarketSnapshot) (position market_context : option json)
  (server_input_policy_version : option string) (analysis_context : string) : exn + AgentAssessment :=
  let server := bool_decide (server_input_policy_version = Some SERVER_INPUT_POLICY_VERSION) in
  a ← (if String.eqb role "POSITION_RISK_SCOUT" && String.eqb analysis_context "ENTRY"
       then inr (no_assessment role SG_NOT_APPLICABLE ["OPEN_POSITION_NOT_FOUND"])
       else if String.eqb role "MARKET_SECTOR_SCOUT" && server then
         match market_context with
         | None => inr (no_assessment role SG_INSUFFICIENT_DATA ["MARKET_DATA_INSUFFICIENT"])
         | Some context => market_assessment role context
         end
       else
         match position with
         | Some p => if String.eqb role "POSITION_RISK_SCOUT" && is_dict p && server
                     then position_assessment role p
                     else make_assessment false (_assessment role indicator snapshot true)
         | None => make_assessment false (_assessment role indicator snapshot false)
         end);
  make_assessment true a.
End Rules.

(** ** The request and the reply *)

Record LlmRequest := mkLlmRequest {
  rq_invocation_id : string;
  rq_role : string;
  rq_model_profile_id : string;
  rq_prompt_version : string;
  rq_input_hash : string;
  rq_messages : list (string * string);
  rq_output_json_schema : json;
  rq_timeout_ms : Z;
  rq_service_tier : string;
  rq_max_output_tokens : Z;
  rq_temperature : option decimal;
  rq_top_p : option decimal;
  rq_reasoning_effort : option string;
  rq_seed : option Z;
  rq_web_search : bool
}.

Definition hex_char (c : ascii) : bool :=
  let n := nat_of_ascii c in is_digit c || (Nat.leb 97 n && Nat.leb n 102).

Definition between (lo hi : decimal) (d : option decimal) : bool :=
  match d with Some d => dleb lo d && dleb d hi | None => true end.

(** The bounds of [LlmRequest]. *)
Definition request_valid (r : LlmRequest) : bool :=
  Nat.eqb (String.length (rq_input_hash r)) 64 && all_chars hex_char (rq_input_hash r) &&
  (1000 <=? rq_timeout_ms r) && (rq_timeout_ms r <=? 600000) &&
  bool_decide (rq_service_tier r ∈ ["DEFAULT"; "PRIORITY"; "FLEX"]) &&
  (0 <? rq_max_output_tokens r) && (rq_max_output_tokens r <=? 32768) &&
  between dzero (of_int 2) (rq_temperature r) && between dzero done_ (rq_top_p r) &&
  match rq_reasoning_effort r with
  | Some e => bool_decide (e ∈ ["LOW"; "MEDIUM"; "HIGH"]) | None => true
  end.

Record EvidenceSourceCandidate := mkEvidenceSourceCandidate {
  sc_url : string;
  sc_title : string;
  sc_published_at : option string
}.

Record LlmResult := mkLlmResult {
  lt_status : string;
  lt_actual_provider : option string;
  lt_actual_model : option string;
  lt_provider_request_id : option string;
  lt_gateway_request_id : option string;
  lt_output_json : option json;
  lt_raw_response_hash : option string;
  lt_latency_ms : Z;
  lt_input_tokens : option Z;
  lt_output_tokens : option Z;
  lt_retry_count : Z;
  lt_fallback_path : list string;
  lt_schema_validation : string;
  lt_source_candidates : list EvidenceSourceCandidate
}.

(** [x or y] and [x if x is not None else y] on columns. *)
Definition opt_text (s : option string) : option string :=
  match s with Some x => if String.eqb x EmptyString then None else Some x | None => None end.

Definition or_else {A} (x y : option A) : option A := match x with Some a => Some a | None => y end.

(** [{**base, **more}] *)
Definition merged (base more : list (string * json)) : list (string * json) :=
  foldl (fun d f => dict_set f.1 f.2 d) base more.

(** A key whose value is replaced in place; [None] is [KeyError]. *)
Definition at_key (key : string) (f : json -> option json) (v : json) : option json :=
  match v with
  | JObj d => old ← assoc key d; new ← f old; Some (JObj (dict_set key new d))
  | _ => None
  end.

Section Invocation.
Context (sha256 : string -> string) (fromisoformat : string -> option Z).
Context (read_secret : string -> option string) (model_json_schema : string -> json).
Context (http_adapter : LlmProviderAdapter -> LlmRequest -> string -> exn + LlmResult).
Context {Lax : Pydantic}.

(** The class of a role's model output. *)
Definition output_class (role : string) (v2 : bool) : string :=
  if String.eqb role "CORE" then if v2 then "AgentCoreModelOutputV2" else "AgentCoreModelOutput"
  else "AgentScoutModelOutput".

Definition output_schema_for_role (role : string) (v2 : bool) : exn + json :=
  codes ← allowed_reason_codes role;
  let items := JObj [("type", JStr "string"); ("enum", JList (map JStr codes))] in
  match at_key "properties" (at_key "reason_codes" (fun v => match v with
          | JObj d => Some (JObj (dict_set "items" items d)) | _ => None end))
          (model_json_schema (output_class role v2)) with
  | Some schema => inr schema
  | None => inl KeyError
  end.

(** The texts of the request. *)
Definition newline : string := String (ascii_of_nat 10) EmptyString.

(** [isoformat()] of an instant in Seoul. *)
Definition iso_kst (t : Z) : string :=
  let s := iso_datetime (t + kst_offset) in substring 0 (String.length s - 6) s +:+ "+09:00".

Definition runtime_context (role : string) (web_search_enabled : bool) (now : Z) : string :=
  join newline
    ["[Cresta runtime context v1]";
     "Current time: " +:+ iso_datetime now +:+ " (UTC).";
     "Current time: " +:+ iso_kst now +:+ " (Asia/Seoul).";
     "Use these timestamps as the current date and time for this request.";
     "Do not treat model memory as current market, news, or disclosure evidence.";
     (if web_search_enabled
      then "Web search is enabled. Prefer recent sources, check each source date, and never use information published after the current timestamp."
      else "Web search is disabled. Report missing current evidence instead of guessing.");
     (if negb (String.eqb role "CORE")
      then "Only copy evidence IDs from allowed_evidence_refs into evidence_refs. Provider citations and URLs are unverified source candidates, not evidence IDs. If allowed_evidence_refs is empty, return evidence_refs as an empty array."
      else "Use only the supplied Scout results and verified evidence references.");
     "Use only reason codes listed in allowed_reason_codes."].

Definition messages_of (prompt : option LlmPromptProfile) (role : string) (web_search_enabled : bool)
  (now : Z) (role_input : list (string * json)) : list (string * string) :=
  match prompt with Some p => [("system", lq_system_prompt p)] | None => [] end ++
  [("system", runtime_context role web_search_enabled now); ("user", dumps (JObj role_input))].

Definition max_output_tokens_of (route : LlmRoleRoute) (model : LlmModelProfile) : Z :=
  match lr_max_output_tokens_override route with
  | Some n => if n =? 0 then lm_max_output_tokens model else n
  | None => lm_max_output_tokens model
  end.

Definition reasoning_effort_of (route : LlmRoleRoute) (model : LlmModelProfile) : option string :=
  or_else (opt_text (lr_reasoning_effort_override route)) (lm_reasoning_effort model).

Definition request_of (invocation_id : string) (st : AgentStageRun) (route : LlmRoleRoute)
  (model : LlmModelProfile) (prompt : option LlmPromptProfile) (schema : json) (now : Z)
  (role_input : list (string * json)) : LlmRequest :=
  mkLlmRequest invocation_id (ag_role st) (lm_id model) (lr_prompt_version route) (ag_input_hash st)
    (messages_of prompt (ag_role st) (lr_web_search_enabled route) now role_input) schema
    (lr_timeout_ms route) (lr_service_tier route) (max_output_tokens_of route model)
    (or_else (lr_temperature_override route) (lm_temperature model))
    (or_else (lr_top_p_override route) (lm_top_p model)) (reasoning_effort_of route model)
    (or_else (lr_seed_override route) (lm_seed model)) (lr_web_search_enabled route).

(** The mock adapter answers by rule, the others over the network. *)
Definition mock_reply (request : LlmRequest) (model_id : string) : LlmResult :=
  let output := JObj [("status", JStr "SHADOW_ONLY"); ("role", JStr (rq_role request));
                      ("input_hash", JStr (rq_input_hash request)); ("model_id", JStr model_id)] in
  mkLlmResult "SUCCEEDED" (Some "CRESTA_MOCK") (Some model_id) None None (Some output)
    (Some (sha256 (dumps output))) 0 (Some 0) (Some 0) 0 [] "PASSED" [].

Definition generate_structured (adapter : LlmProviderAdapter) (request : LlmRequest) (model_id : string) :
  exn + LlmResult :=
  match adapter with
  | MockProviderAdapter => inr (mock_reply request model_id)
  | adapter => http_adapter adapter request model_id
  end.

(** ** Evidence a provider cites *)

Definition _candidate_timestamp (value : option string) : option Z := value ≫= fromisoformat.

Definition candidate_item (run : AgentRun) (provider_name : string) (id url title : string)
  (published_at : option Z) (now created_at : Z) : EvidenceItem :=
  let record := JObj [("url", JStr url); ("title", JStr title);
                      ("published_at", jopt_str (iso_datetime <$> published_at));
                      ("provider", JStr provider_name)] in
  mkEvidenceItem id (ar_id run) (ar_market run) (ar_symbol run) "WEB" "UNRATED"
    (slice 0 128 provider_name) (Some url) title (JList []) (_hash sha256 record) "RULE" published_at
    published_at now created_at.

Definition put_evidence (e : EvidenceItem) (db : DB) : DB :=
  set_evidence_items db (<[ei_id e := e]> (evidence_items db)).

Fixpoint persist_each (run : AgentRun) (provider_name : string) (existing_urls : list string)
  (candidates : list EvidenceSourceCandidate) (now : Z) : prog unit :=
  match candidates with
  | [] => mret tt
  | candidate :: candidates =>
      let url := sc_url candidate in
      if String.eqb url EmptyString || bool_decide (url ∈ existing_urls)
      then persist_each run provider_name existing_urls candidates now
      else
        id ← uuid7;
        created_at ← utcnow;
        modify (put_evidence (candidate_item run provider_name id url (slice 0 500 (sc_title candidate))
                                (_candidate_timestamp (sc_published_at candidate)) now created_at)) ;;
        persist_each run provider_name (url :: existing_urls) candidates now
  end.

Definition urls_of_run (run_id : string) (db : DB) : list string :=
  omap (fun e => if String.eqb (ei_run_id e) run_id then ei_source_url e else None)
    (rows (evidence_items db)).

Definition _persist_source_candidates (st : AgentStageRun) (provider_name : string)
  (candidates : list EvidenceSourceCandidate) (now : Z) : prog unit :=
  run ← gets (fun db => agent_runs db !! ag_run_id st);
  match run, candidates with
  | Some run, _ :: _ =>
      urls ← gets (urls_of_run (ar_id run));
      persist_each run provider_name urls candidates now
  | _, _ => mret tt
  end.

(** ** Vetting a reply *)

(** [[str(item) for item in role_input.get(key, [])]] *)
Definition role_input_texts (key : string) (role_input : list (string * json)) : list string :=
  match assoc key role_input with Some (JList l) => map py_str l | _ => [] end.

Definition sorted_texts (l : list string) : list string := sort_by String.leb l.

Definition ENTRY_ASSESSMENTS : list string :=
  ["ENTRY_STRONG"; "ENTRY_SUPPORTIVE"; "NEUTRAL"; "ENTRY_ADVERSE"; "UNKNOWN"].
Definition POSITION_ASSESSMENTS : list string :=
  ["HOLD_SUPPORTIVE"; "NEUTRAL"; "EXIT_RISK_ELEVATED"; "EXIT_RISK_HIGH"; "UNKNOWN"].

Definition analysis_context_of (role_input : list (string * json)) : string :=
  py_str (default JNull (assoc "analysis_context" role_input)).

(** The assessment a core may give in its context. *)
Definition assessment_allowed (role_input : list (string * json)) (incomplete : list string)
  (shadow_assessment : option string) : bool :=
  let allowed := if String.eqb (analysis_context_of role_input) "ENTRY" then ENTRY_ASSESSMENTS
                 else POSITION_ASSESSMENTS in
  match shadow_assessment with
  | Some s => bool_decide (s ∈ allowed) && (bool_decide (incomplete = []) || String.eqb s "UNKNOWN")
  | None => false
  end.

(** The error code of an output that breaks the contract of its role. *)
Definition vet_core (v2 : bool) (role_input : list (string * json)) (output : json) :
  exn + option string :=
  match core_model_load v2 output with
  | None => inr (Some "LLM_SCHEMA_VALIDATION_FAILED")
  | Some core =>
      invalid ← invalid_reason_codes "CORE" (ac_reason_codes core);
      let expected := sorted_texts (role_input_texts "required_incomplete_roles" role_input) in
      inr (if negb (bool_decide (invalid = [])) then Some "LLM_REASON_CODE_NOT_ALLOWED"
           else if negb (bool_decide (sorted_texts (ac_incomplete_roles core) = expected))
           then Some "LLM_CORE_INCOMPLETE_ROLES_MISMATCH"
           else if v2 && negb (assessment_allowed role_input expected (ac_shadow_assessment core))
           then Some "LLM_CORE_SHADOW_ASSESSMENT_MISMATCH"
           else None)
  end.

Definition vet_scout (role : string) (role_input : list (string * json)) (output : json) :
  exn + option string :=
  match scout_output_load output with
  | None => inr (Some "LLM_SCHEMA_VALIDATION_FAILED")
  | Some o =>
      invalid ← invalid_reason_codes role (so_reason_codes o);
      let allowed_refs := role_input_texts "allowed_evidence_refs" role_input in
      inr (if negb (bool_decide (invalid = [])) then Some "LLM_REASON_CODE_NOT_ALLOWED"
           else if negb (forallb (fun r => bool_decide (r ∈ allowed_refs)) (so_evidence_refs o))
           then Some "LLM_EVIDENCE_REF_NOT_ALLOWED"
           else None)
  end.

Definition vet_output (role : string) (v2 : bool) (role_input : list (string * json))
  (output : option json) : exn + option string :=
  let output := default JNull output in
  if String.eqb role "CORE" then vet_core v2 role_input output else vet_scout role role_input output.
End Invocation.

(** * Invoking a model for a stage

    [_invoke_once] and [_invoke_model] of [agents/runtime.py]: every call leaves
    a row with what was asked and answered; a reply counts only once it is
    vetted; a route has a number of calls per day and may have a fallback. *)

Section Invoke.
Context (sha256 : string -> string) (fromisoformat : string -> option Z).
Context (read_secret : string -> option string) (model_json_schema : string -> json).
Context (http_adapter : LlmProviderAdapter -> LlmRequest -> string -> exn + LlmResult).
Context {Lax : Pydantic}.

(** ** The row of a call *)

Definition put_invocation (li : LlmInvocation) (db : DB) : DB :=
  set_llm_invocations db (<[li_id li := li]> (llm_invocations db)).

(** The session holds the row it inserted; a change of it is an UPDATE. *)
Definition change_invocation (id : string) (f : LlmInvocation -> LlmInvocation) (db : DB) : DB :=
  set_llm_invocations db (alter f id (llm_invocations db)).

Definition new_invocation (id : string) (st : AgentStageRun) (provider : LlmProviderProfile)
  (model : LlmModelProfile) (route : LlmRoleRoute) (state : string) (error_code : option string)
  (now : Z) (created_at : Z) (completed_at : option Z) : LlmInvocation :=
  mkLlmInvocation id (Some (ag_id st)) (lp_id provider) (Some (lm_id model)) None None state None None
    (Some (ag_input_hash st)) (Some now) (lr_web_search_enabled route) None None None None (JObj []) 0 0
    [] "NOT_RUN" error_code created_at completed_at.

(** The stage runs, the row is inserted, and the first invocation of a stage
    is the one the stage names. *)
Definition start_invocation (st : AgentStageRun) (provider : LlmProviderProfile) (model : LlmModelProfile)
  (route : LlmRoleRoute) (state : string) (error_code : option string) (now : Z) (completed_at : option Z) :
  prog string :=
  update_stage (ag_id st) (fun st => set_ag_started_at (set_ag_state st SG_RUNNING) (Some now)) ;;
  id ← uuid7;
  created_at ← utcnow;
  flush_checked (fun db => db) (fun db => bool_decide (is_Some (llm_invocations db !! id)))
    (put_invocation (new_invocation id st provider model route state error_code now created_at
                       completed_at)) ;;
  update_stage (ag_id st) (fun st => match ag_invocation_id st with
                                     | None => set_ag_invocation_id st (Some id)
                                     | Some _ => st
                                     end) ;;
  mret id.

Definition no_outcome (id : string) (f : LlmInvocation -> LlmInvocation) : prog (option InvocationOutcome) :=
  modify (change_invocation id f) ;; mret None.

Definition provider_error (code : string) (now : Z) (li : LlmInvocation) : LlmInvocation :=
  set_li_completed_at (set_li_error_code (set_li_state li "PROVIDER_ERROR") (Some code)) (Some now).

Definition invalid_output (code : string) (li : LlmInvocation) : LlmInvocation :=
  set_li_error_code (set_li_validation_status (set_li_state li "INVALID_OUTPUT") "FAILED") (Some code).

(** What the reply says of itself. *)
Definition answered (result : LlmResult) (fallback_path : list string) (completed_at : Z)
  (li : LlmInvocation) : LlmInvocation :=
  set_li_completed_at (set_li_validation_status (set_li_fallback_path (set_li_retry_count (set_li_usage
  (set_li_latency_ms (set_li_raw_response_hash (set_li_gateway_request_id (set_li_provider_request_id
  (set_li_actual_model (set_li_actual_provider (set_li_state li (lt_status result))
    (lt_actual_provider result)) (lt_actual_model result)) (lt_provider_request_id result))
    (lt_gateway_request_id result)) (lt_raw_response_hash result)) (lt_latency_ms result))
    (JObj [("input_tokens", jopt_int (lt_input_tokens result));
           ("output_tokens", jopt_int (lt_output_tokens result))])) (lt_retry_count result)) fallback_path)
    (lt_schema_validation result)) (Some completed_at).

Definition captured (output : json) (at_ : Z) (li : LlmInvocation) : LlmInvocation :=
  set_li_model_output_captured_at (set_li_model_output_hash (set_li_model_output li (Some output))
    (Some (sha256 (dumps output)))) (Some at_).

(** ** What may be asked *)

Definition prompt_mismatch (route : LlmRoleRoute) (role : string) (prompt : LlmPromptProfile) : bool :=
  negb (String.eqb (lq_owner_id prompt) (lr_owner_id route)) || negb (String.eqb (lq_role prompt) role) ||
  negb (String.eqb (lq_state prompt) "VALIDATED") ||
  negb (String.eqb (sha256 (lq_system_prompt prompt)) (lq_content_hash prompt)).

Definition prompt_of (route : LlmRoleRoute) (db : DB) : option LlmPromptProfile :=
  opt_text (lr_prompt_profile_id route) ≫= fun id => llm_prompts db !! id.

(** The key of a provider, or the code of its absence. *)
Definition credential_of (provider : LlmProviderProfile) : string + option string :=
  if String.eqb (lp_adapter_type provider) "MOCK" then inr None
  else match opt_text (lp_credential_secret_ref provider) with
       | None => inl "AGENT_PROVIDER_CREDENTIAL_REQUIRED"
       | Some ref => match read_secret ref with
                     | Some credential => inr (Some credential)
                     | None => inl "AGENT_PROVIDER_CREDENTIAL_UNREADABLE"
                     end
       end.

Definition chat_path_of (provider : LlmProviderProfile) : exn + option string :=
  match opt_text (lp_provider_template_id provider) with
  | Some id => match get_template id with inr t => inr (pc_chat_path t) | inl e => inl e end
  | None => inr None
  end.

(** ** What the reply is worth *)

(** The rest of [_invoke_once], from the reply on. *)
Definition capture (id : string) (output : option json) (completed_at : Z) : prog (option string) :=
  match output with
  | None => mret None
  | Some output =>
      if _contains_sensitive_output_key output then mret (Some "LLM_MODEL_OUTPUT_SENSITIVE_FIELD")
      else if Nat.ltb MAX_MODEL_OUTPUT_BYTES (String.length (dumps output))
      then mret (Some "LLM_MODEL_OUTPUT_TOO_LARGE")
      else modify (change_invocation id (captured output completed_at)) ;; mret None
  end.

Definition reply_failed (result : LlmResult) : bool :=
  negb (String.eqb (lt_status result) "SUCCEEDED") || negb (String.eqb (lt_schema_validation result) "PASSED").

Definition take_reply (id : string) (st : AgentStageRun) (binding : RouteBinding) (model : LlmModelProfile)
  (provider : LlmProviderProfile) (v2 : bool) (role_input : list (string * json)) (result : LlmResult) :
  prog (option InvocationOutcome) :=
  completed_at ← utcnow;
  let primary := lm_id (rb_model binding) in
  modify (change_invocation id (answered result
    (if String.eqb (lm_id model) primary then lt_fallback_path result else [primary; lm_id model])
    completed_at)) ;;
  refused ← capture id (lt_output_json result) completed_at;
  match refused with
  | Some code => no_outcome id (invalid_output code)
  | None =>
      (if lr_web_search_enabled (rb_route binding)
       then _persist_source_candidates sha256 fromisoformat st
              (default (lp_name provider) (opt_text (lt_actual_provider result)))
              (lt_source_candidates result) completed_at
       else mret tt) ;;
      if reply_failed result
      then no_outcome id (fun li => set_li_error_code li (Some ("LLM_" +:+ lt_status result)))
      else
        broken ← (if String.eqb (lp_adapter_type provider) "MOCK" then mret None
                  else of_result (vet_output (ag_role st) v2 role_input (lt_output_json result)));
        match broken with
        | Some code => no_outcome id (invalid_output code)
        | None =>
            modify (change_invocation id (fun li => set_li_validation_status li "PASSED")) ;;
            mret (Some (mkInvocationOutcome model provider (lt_output_json result)))
        end
  end.

(** ** One call *)

Definition _invoke_once (st : AgentStageRun) (binding : RouteBinding) (model : LlmModelProfile)
  (provider : LlmProviderProfile) (role_input : list (string * json)) (now : Z) :
  prog (option InvocationOutcome) :=
  let route := rb_route binding in
  run ← gets (fun db => agent_runs db !! ag_run_id st);
  run ← or_raise run (AgentRuntimeError "AGENT_RUN_NOT_FOUND" 422);
  let v2 := uses_v2_contract (ar_dag_version run) in
  codes ← of_result (reason_code_context (ag_role st));
  id ← start_invocation st provider model route "RUNNING" None now None;
  if negb (String.eqb (lr_service_tier route) "DEFAULT") &&
     negb (supports_service_tier (lp_provider_template_id provider))
  then no_outcome id (provider_error "AGENT_SERVICE_TIER_UNSUPPORTED" now)
  else
    prompt ← gets (prompt_of route);
    guard_or (match prompt with Some p => negb (prompt_mismatch route (ag_role st) p) | None => true end)
      (AgentRuntimeError "AGENT_PROMPT_SNAPSHOT_MISMATCH" 422) ;;
    schema ← of_result (output_schema_for_role model_json_schema (ag_role st) v2);
    let request := request_of id st route model prompt schema now (merged role_input codes) in
    guard_or (request_valid request) ValueError ;;
    match credential_of provider with
    | inl code => no_outcome id (provider_error code now)
    | inr credential =>
        chat_path ← of_result (chat_path_of provider);
        match resolve (lp_adapter_type provider) (lp_endpoint provider) credential chat_path with
        | None => no_outcome id (provider_error "AGENT_ADAPTER_NOT_ALLOWED" now)
        | Some adapter =>
            result ← of_result (generate_structured sha256 http_adapter adapter request
                                  (lm_provider_model_id model));
            take_reply id st binding model provider v2 role_input result
        end
    end.

(** ** The calls of a day *)

Definition day_start (now : Z) : Z := kst_combine (kst_date now) 0.

Definition counted (since : Z) (li : LlmInvocation) : bool :=
  (since <=? li_created_at li) && negb (bool_decide (li_error_code li = Some "LOCAL_DAILY_CALL_LIMIT")).

Definition on_route (route_id : string) (db : DB) (li : LlmInvocation) : bool :=
  match li_stage_run_id li ≫= fun id => agent_stages db !! id with
  | Some st => bool_decide (ag_route_id st = Some route_id)
  | None => false
  end.

Definition daily_calls (route_id : string) (since : Z) (db : DB) : Z :=
  Z.of_nat (length (List.filter (fun li => on_route route_id db li && counted since li)
                      (rows (llm_invocations db)))).

Definition _invoke_model (st : AgentStageRun) (binding : RouteBinding) (role_input : list (string * json))
  (now : Z) : prog InvocationOutcome :=
  let route := rb_route binding in
  calls ← gets (daily_calls (lr_id route) (day_start now));
  if lr_daily_call_limit route <=? calls then
    start_invocation st (rb_provider binding) (rb_model binding) route "RATE_LIMITED"
      (Some "LOCAL_DAILY_CALL_LIMIT") now (Some now) ;;
    raise (AgentRuntimeError "AGENT_DAILY_CALL_LIMIT" 422)
  else
    outcome ← _invoke_once st binding (rb_model binding) (rb_provider binding) role_input now;
    match outcome with
    | Some outcome => mret outcome
    | None =>
        if String.eqb (lr_fallback_policy route) "FAILOVER" then
          match rb_fallback_model binding, rb_fallback_provider binding with
          | Some model, Some provider =>
              outcome ← _invoke_once st binding model provider role_input now;
              or_raise outcome (AgentRuntimeError "AGENT_LLM_FAIL_STOP" 422)
          | _, _ => raise (AgentRuntimeError "AGENT_ROUTE_SNAPSHOT_MISMATCH" 422)
          end
        else raise (AgentRuntimeError "AGENT_LLM_FAIL_STOP" 422)
    end.
End Invoke.
