(* ===== verification/LlmAdapters.v ===== *)
(** * The adapters of language models

    [llm/adapters/]: what is sent to a provider, how its reply is read, and the
    links a reply cites ([llm/source_candidates.py]).  The network is the
    function [post]; a provider may answer anything. *)

Set Warnings "-register-all".

From Stdlib Require Import ZArith Lia Ascii String.
From stdpp Require Import base numbers strings list gmap pretty.
From S2P Require Import Prelude Decimal Json PyTime Models Session DecimalText PyText Urls LlmCatalog.
From S2P Require Import AgentContracts AgentRuntime.

Open Scope Z_scope.

(** ** Values of a reply, as Python reads them *)

(** [value.get(key, default)] *)
Definition py_get (key : string) (default : json) (v : json) : exn + json :=
  match v with JObj _ => inr (get_or default key v) | _ => inl AttributeError end.

(** [value[key]] *)
Definition py_item (key : string) (v : json) : exn + json :=
  match v with
  | JObj fields => match assoc key fields with Some x => inr x | None => inl KeyError end
  | _ => inl TypeError
  end.

(** [value[0]] *)
Definition py_first (v : json) : exn + json :=
  match v with
  | JList (x :: _) => inr x
  | JStr (String c _) => inr (JStr (String c EmptyString))
  | JList [] | JStr EmptyString => inl IndexError
  | JObj _ => inl KeyError
  | _ => inl TypeError
  end.

(** [for item in value] *)
Definition py_iter (v : json) : exn + list json :=
  match v with
  | JList l => inr l
  | JObj fields => inr (map (fun f => JStr f.1) fields)
  | JStr s => inr (map (fun c => JStr (String c EmptyString)) (String.list_ascii_of_string s))
  | _ => inl TypeError
  end.

(** [x or y] *)
Definition first_true (l : list json) : json :=
  match l with [] => JNull | x :: l => foldl json_or x l end.

Definition is_text (text : string) (v : json) : bool :=
  match v with JStr s => String.eqb s text | _ => false end.

(** [repr(value)] and [str(value)] of a list or an object. *)
Definition quote_mark (s : string) : ascii :=
  if contains "'" s && negb (contains (String (ascii_of_nat 34) EmptyString) s) then ascii_of_nat 34 else "'"%char.

Definition repr_char (mark c : ascii) : string :=
  let n := nat_of_ascii c in
  if Ascii.eqb c mark || Nat.eqb n 92 then String "\" (String c EmptyString)
  else if Nat.eqb n 10 then "\n"
  else if Nat.eqb n 13 then "\r"
  else if Nat.eqb n 9 then "\t"
  else if Nat.ltb n 32 || Nat.eqb n 127 then "\x" +:+ hex_digit (n / 16) +:+ hex_digit (n mod 16)
  else String c EmptyString.

Definition repr_text (s : string) : string :=
  let mark := quote_mark s in
  String mark (join EmptyString (map (repr_char mark) (String.list_ascii_of_string s)) +:+ String mark EmptyString).

Fixpoint py_repr (v : json) : string :=
  match v with
  | JStr s => repr_text s
  | JList l => "[" +:+ join ", " (map py_repr l) +:+ "]"
  | JObj fields => "{" +:+ join ", " (map (fun f => repr_text f.1 +:+ ": " +:+ py_repr f.2) fields) +:+ "}"
  | v => py_str v
  end.

Definition text_of (v : json) : string := match v with JStr s => s | v => py_repr v end.

Example values_printed :
  map text_of [JStr "it's"; JList [JStr "its"; JInt 2; JNull]; JObj [("a", JStr "x\y"); ("b", JBool true)]]
  = ["it's"; "['its', 2, None]"; "{'a': 'x\\y', 'b': True}"].
Proof. vm_compute. reflexivity. Qed.

(** ** The links a reply cites *)

Definition present {A} (x : option A) : bool := match x with Some _ => true | None => false end.

Definition unsafe_url (parsed : SplitUrl) (hostname : string) : bool :=
  negb (String.eqb (lower (url_scheme parsed)) "https") || is_empty hostname ||
  present (url_username parsed) || present (url_password parsed) || String.eqb (lower hostname) "localhost".

Definition _safe_https_url (value : json) : option string :=
  match value with
  | JStr text =>
      if 1000 <? Z.of_nat (String.length text) then None
      else
        parsed ← urlsplit (strip text);
        let hostname := default EmptyString (url_hostname parsed) in
        if unsafe_url parsed hostname then None
        else match is_global <$> ip_address hostname with
             | Some false => None
             | _ => Some (url_text "https" (url_netloc parsed) (url_path parsed) (url_query parsed))
             end
  | _ => None
  end.

Definition fields_of (value nested : json) : json :=
  match value, nested with
  | JObj v, JObj n => JObj (merged v n)
  | _, _ => value
  end.

Definition _candidate (value : json) : option EvidenceSourceCandidate :=
  match value with
  | JStr _ => url ← _safe_https_url value; Some (mkEvidenceSourceCandidate url EmptyString None)
  | JObj _ =>
      let value := fields_of value (get_field "url_citation" value) in
      let get key := get_field key value in
      url ← _safe_https_url (first_true [get "url"; get "uri"; get "link"]);
      let title := slice 0 500 (strip (text_of (first_true [get "title"; get "name"; JStr EmptyString]))) in
      let published := first_true [get "published_at"; get "publishedAt"; get "date"] in
      Some (mkEvidenceSourceCandidate url title
              (match published with JNull => None | v => Some (slice 0 64 (text_of v)) end))
  | _ => None
  end.

(** [seen] and [kept] so far; the list ends at twenty. *)
Fixpoint keep_candidates (seen : list string) (values : list json) (room : nat) : list EvidenceSourceCandidate :=
  match values, room with
  | [], _ | _, O => []
  | value :: values, S room' =>
      match _candidate value with
      | None => keep_candidates seen values room
      | Some item => if bool_decide (sc_url item ∈ seen) then keep_candidates seen values room
                     else item :: keep_candidates (sc_url item :: seen) values room'
      end
  end.

Definition candidates_from_values (values : list json) : list EvidenceSourceCandidate :=
  keep_candidates [] values 20.

Example links_kept :
  map sc_url (candidates_from_values
    [JStr "https://News.example.com/a#top"; JStr "http://news.example.com/a"; JStr "https://10.0.0.1/";
     JObj [("title", JStr "T"); ("url_citation", JObj [("url", JStr "https://news.example.com/a")])];
     JObj [("uri", JStr "https://u@example.com/")]; JStr "https://News.example.com/a"])
  = ["https://News.example.com/a"; "https://news.example.com/a"].
Proof. vm_compute. reflexivity. Qed.

(** ** What is sent *)

Definition safe_model_id (model_id : string) : exn + string :=
  if is_empty model_id || existsb (fun item => contains item model_id) [".."; "?"; "#"; "\"]
  then inl ValueError else inr model_id.

(** A request: the address, the headers and the body. *)
Definition request_parts : Type := string * list (string * string) * json.

(** The members of a body that are set only if they have a value. *)
Definition if_some {A} (key : string) (f : A -> json) (x : option A) : list (string * json) :=
  match x with Some x => [(key, f x)] | None => [] end.
Definition if_true (c : bool) (fields : list (string * json)) : list (string * json) := if c then fields else [].

Definition message_json (m : string * string) : json := JObj [("role", JStr m.1); ("content", JStr m.2)].
Definition contents_of (roles : list string) (messages : list (string * string)) : list string :=
  map snd (List.filter (fun m : string * string => bool_decide (m.1 ∈ roles)) messages).
Definition blank_line : string := newline +:+ newline.
Definition text_part (text : string) : json := JObj [("text", JStr text)].

(** [json.dumps] without [sort_keys]. *)
Fixpoint dumps_in_order (v : json) : string :=
  match v with
  | JList l => "[" +:+ join "," (map dumps_in_order l) +:+ "]"
  | JObj fields => "{" +:+ join "," (map (fun f => quoted f.1 +:+ ":" +:+ dumps_in_order f.2) fields) +:+ "}"
  | v => dumps v
  end.

Definition schema_instruction (schema : json) : string :=
  "Return exactly one JSON object matching this JSON Schema. " +:+
  "Do not use Markdown or add fields outside the schema: " +:+ dumps_in_order schema.

Section Requests.
(** How a number of the request is written: the float nearest to it. *)
Context (float_json : decimal -> json).

Definition json_type : string * string := ("Content-Type", "application/json").
Definition lowered (s : string) : json := JStr (lower s).
Definition tier_field (r : LlmRequest) : list (string * json) :=
  if_true (negb (String.eqb (rq_service_tier r) "DEFAULT")) [("service_tier", lowered (rq_service_tier r))].

(** [OpenAIResponsesAdapter] *)
Definition openai_parts (endpoint api_key : string) (r : LlmRequest) (model_id : string) : exn + request_parts :=
  model ← safe_model_id model_id;
  let tuned := negb (is_openai_reasoning_model model) in
  let format := JObj [("type", JStr "json_schema"); ("name", JStr "cresta_agent_output");
                      ("schema", rq_output_json_schema r); ("strict", JBool true)] in
  inr (endpoint +:+ "/responses", [("Authorization", "Bearer " +:+ api_key); json_type],
       JObj ([("model", JStr model); ("input", JList (map message_json (rq_messages r)));
              ("max_output_tokens", JInt (rq_max_output_tokens r)); ("text", JObj [("format", format)]);
              ("store", JBool false)] ++
             if_true tuned (if_some "temperature" float_json (rq_temperature r) ++
                            if_some "top_p" float_json (rq_top_p r)) ++
             if_some "reasoning" (fun e => JObj [("effort", lowered e)]) (rq_reasoning_effort r) ++
             tier_field r ++
             if_true (rq_web_search r) [("tools", JList [JObj [("type", JStr "web_search")]]);
                                        ("include", JList [JStr "web_search_call.action.sources"])])).

(** [OpenAICompatibleAdapter] *)
Definition chat_url (endpoint : string) (chat_path : option string) : string :=
  let path := match chat_path with Some (String _ _ as p) => p | _ => "/v1/chat/completions" end in
  endpoint +:+ "/" +:+ lstrip_chars ["/"%char] path.

Definition compatible_parts (endpoint api_key : string) (chat_path : option string) (r : LlmRequest)
  (model_id : string) : exn + request_parts :=
  model ← safe_model_id model_id;
  let tuned := negb (is_openai_reasoning_model model || is_gemini_3_model model) && present (rq_temperature r) in
  let schema := JObj [("name", JStr "cresta_agent_output"); ("strict", JBool true);
                      ("schema", rq_output_json_schema r)] in
  inr (chat_url endpoint chat_path, [("Authorization", "Bearer " +:+ api_key); json_type],
       JObj ([("model", JStr model);
              ("messages", JList (map message_json (("system", schema_instruction (rq_output_json_schema r)) ::
                                                    rq_messages r)));
              ("response_format", JObj [("type", JStr "json_schema"); ("json_schema", schema)]);
              ((if uses_completion_token_parameter model then "max_completion_tokens" else "max_tokens"),
               JInt (rq_max_output_tokens r))] ++
             if_true tuned (if_some "temperature" float_json (rq_temperature r) ++
                            if_some "top_p" float_json (rq_top_p r)) ++
             if_some "reasoning_effort" lowered (rq_reasoning_effort r) ++
             if_some "seed" JInt (rq_seed r) ++ tier_field r ++
             if_true (rq_web_search r) [("web_search", JBool true)])).

(** [GeminiGenerateContentAdapter] *)
Definition gemini_contents (messages : list (string * string)) : list json :=
  omap (fun m : string * string =>
    if bool_decide (m.1 ∈ ["user"; "assistant"; "model"])
    then Some (JObj [("role", JStr (if String.eqb m.1 "user" then "user" else "model"));
                     ("parts", JList [text_part m.2])])
    else None) messages.

Definition gemini_parts (endpoint api_key : string) (r : LlmRequest) (model_id : string) : exn + request_parts :=
  model_id ← safe_model_id model_id;
  let model := quote (remove_prefix "models/" model_id) in
  let tuned := negb (is_gemini_3_model model) in
  let generation := JObj ([("maxOutputTokens", JInt (rq_max_output_tokens r));
                           ("responseMimeType", JStr "application/json");
                           ("responseJsonSchema", rq_output_json_schema r)] ++
                          if_true tuned (if_some "temperature" float_json (rq_temperature r) ++
                                         if_some "topP" float_json (rq_top_p r)) ++
                          if_some "seed" JInt (rq_seed r) ++
                          if_some "thinkingConfig" (fun e => JObj [("thinkingLevel", lowered e)])
                            (rq_reasoning_effort r)) in
  let system := contents_of ["system"] (rq_messages r) in
  inr (endpoint +:+ "/models/" +:+ model +:+ ":generateContent", [("x-goog-api-key", api_key); json_type],
       JObj ([("contents", JList (gemini_contents (rq_messages r))); ("generationConfig", generation)] ++
             if_true (negb (bool_decide (system = [])))
               [("systemInstruction", JObj [("parts", JList [text_part (join blank_line system)])])] ++
             if_true (rq_web_search r) [("tools", JList [JObj [("google_search", JObj [])]])])).

(** [AnthropicMessagesAdapter] *)
Definition anthropic_parts (endpoint api_key : string) (r : LlmRequest) (model_id : string) : exn + request_parts :=
  model ← safe_model_id model_id;
  _ ← reject_if (match rq_temperature r with Some t => dltb (of_int 1) t | None => false end) ValueError;
  let system := contents_of ["system"] (rq_messages r) in
  let messages := List.filter (fun m : string * string => bool_decide (m.1 ∈ ["user"; "assistant"])) (rq_messages r) in
  let format := JObj [("type", JStr "json_schema"); ("schema", rq_output_json_schema r)] in
  inr (endpoint +:+ "/messages", [("x-api-key", api_key); ("anthropic-version", "2023-06-01"); json_type],
       JObj ([("model", JStr model); ("max_tokens", JInt (rq_max_output_tokens r));
              ("messages", JList (map message_json messages)); ("output_config", JObj [("format", format)])] ++
             if_some "temperature" float_json (rq_temperature r) ++
             if_true (negb (bool_decide (system = []))) [("system", JStr (join blank_line system))] ++
             if_some "top_p" float_json (rq_top_p r) ++
             if_true (rq_web_search r) [("tools", JList [JObj [("type", JStr "web_search_20250305");
                                          ("name", JStr "web_search"); ("max_uses", JInt 5)]])])).

Definition _request_parts (adapter_type endpoint api_key : string) (chat_path : option string) (r : LlmRequest)
  (model_id : string) : exn + request_parts :=
  let endpoint := rstrip_chars ["/"%char] endpoint in
  if String.eqb adapter_type "OPENAI_RESPONSES" then openai_parts endpoint api_key r model_id
  else if String.eqb adapter_type "ANTHROPIC_MESSAGES" then anthropic_parts endpoint api_key r model_id
  else if String.eqb adapter_type "GEMINI_GENERATE_CONTENT" then gemini_parts endpoint api_key r model_id
  else compatible_parts endpoint api_key chat_path r model_id.
End Requests.

Definition provider_name (adapter_type : string) : string :=
  if String.eqb adapter_type "OPENAI_RESPONSES" then "OPENAI"
  else if String.eqb adapter_type "ANTHROPIC_MESSAGES" then "ANTHROPIC"
  else if String.eqb adapter_type "GEMINI_GENERATE_CONTENT" then "GOOGLE_GEMINI"
  else "OPENAI_COMPATIBLE".

(** ** How a reply is read *)

(** The output, the model, and the tokens of the input and the output. *)
Definition parsed_reply : Type := json * json * json * json.

Section Replies.
Context (json_loads : string -> option json) (sha256 : string -> string).
Context {Lax : Pydantic}.

Definition parse_json_text (value : json) : exn + json :=
  match value with
  | JStr text => match json_loads text with
                 | Some (JObj fields) => inr (JObj fields)
                 | Some _ => inl TypeError
                 | None => inl ValueError
                 end
  | _ => inl TypeError
  end.

(** The end of every [_parse_success], with the names of the counts. *)
Definition with_usage (payload text usage : json) (model_key input_key output_key : string) : exn + parsed_reply :=
  output ← parse_json_text text;
  model ← py_get model_key JNull payload;
  input_tokens ← py_get input_key JNull usage;
  output_tokens ← py_get output_key JNull usage;
  inr (output, model, input_tokens, output_tokens).

Definition usage_of (key : string) (payload : json) : exn + json :=
  usage ← py_get key JNull payload; inr (json_or usage (JObj [])).

(** The contents of one message, then the other items. *)
Fixpoint openai_content (payload : json) (contents : list json) : exn + option parsed_reply :=
  match contents with
  | [] => inr None
  | content :: contents =>
      kind ← py_get "type" JNull content;
      if is_text "refusal" kind then inl ValueError
      else if is_text "output_text" kind then
        usage ← usage_of "usage" payload;
        text ← py_item "text" content;
        reply ← with_usage payload text usage "model" "input_tokens" "output_tokens";
        inr (Some reply)
      else openai_content payload contents
  end.

Fixpoint openai_items (payload : json) (items : list json) : exn + parsed_reply :=
  match items with
  | [] => inl ValueError
  | item :: items =>
      kind ← py_get "type" JNull item;
      if is_text "message" kind then
        content ← py_get "content" (JList []) item;
        contents ← py_iter content;
        found ← openai_content payload contents;
        match found with Some reply => inr reply | None => openai_items payload items end
      else openai_items payload items
  end.

Definition openai_success (payload : json) : exn + parsed_reply :=
  output ← py_item "output" payload; items ← py_iter output; openai_items payload items.

Definition compatible_success (payload : json) : exn + parsed_reply :=
  choices ← py_item "choices" payload;
  choice ← py_first choices;
  message ← py_item "message" choice;
  usage ← usage_of "usage" payload;
  text ← py_item "content" message;
  with_usage payload text usage "model" "prompt_tokens" "completion_tokens".

Definition gemini_success (payload : json) : exn + parsed_reply :=
  candidates ← py_item "candidates" payload;
  candidate ← py_first candidates;
  content ← py_item "content" candidate;
  parts ← py_item "parts" content;
  part ← py_first parts;
  text ← py_item "text" part;
  usage ← usage_of "usageMetadata" payload;
  with_usage payload text usage "modelVersion" "promptTokenCount" "candidatesTokenCount".

(** [next(item["text"] for item in ... if item.get("type") == "text")] *)
Fixpoint first_text (items : list json) : exn + json :=
  match items with
  | [] => inl StopIteration
  | item :: items =>
      kind ← py_get "type" JNull item;
      if is_text "text" kind then py_item "text" item else first_text items
  end.

Definition anthropic_success (payload : json) : exn + parsed_reply :=
  content ← py_item "content" payload;
  items ← py_iter content;
  text ← first_text items;
  usage ← usage_of "usage" payload;
  with_usage payload text usage "model" "input_tokens" "output_tokens".

Definition _parse_success (adapter_type : string) (payload : json) : exn + parsed_reply :=
  if String.eqb adapter_type "OPENAI_RESPONSES" then openai_success payload
  else if String.eqb adapter_type "ANTHROPIC_MESSAGES" then anthropic_success payload
  else if String.eqb adapter_type "GEMINI_GENERATE_CONTENT" then gemini_success payload
  else compatible_success payload.

(** ** The links of a reply *)

(** [values.extend(value or [])] *)
Definition extended (values : list json) (value : json) : exn + list json :=
  items ← py_iter (json_or value (JList [])); inr (values ++ items).

(** A loop over items that may raise. *)
Fixpoint extend_each {A} (f : list json -> A -> exn + list json) (values : list json) (items : list A) :
  exn + list json :=
  match items with
  | [] => inr values
  | item :: items => values ← f values item; extend_each f values items
  end.

Definition each_of (f : list json -> json -> exn + list json) (values : list json) (value : json) : exn + list json :=
  items ← py_iter value; extend_each f values items.

(** [f] on objects only. *)
Definition on_dict (f : list json -> json -> exn + list json) (values : list json) (item : json) :
  exn + list json := if is_dict item then f values item else inr values.

Definition openai_links (payload : json) : exn + list json :=
  output ← py_get "output" (JList []) payload;
  each_of (on_dict (fun values item =>
    let action := get_field "action" item in
    values ← (if is_dict action then extended values (get_field "sources" action) else inr values);
    each_of (on_dict (fun values content => extended values (get_field "annotations" content)))
      values (get_or (JList []) "content" item))) [] output.

Definition extend_keys (keys : list string) (values : list json) (value : json) : exn + list json :=
  extend_each (fun values key => extended values (get_field key value)) values keys.

Definition compatible_links (payload : json) : exn + list json :=
  choices ← py_get "choices" (JList [JObj []]) payload;
  choice ← py_first choices;
  message ← py_get "message" (JObj []) choice;
  values ← on_dict (extend_keys ["annotations"; "citations"; "sources"]) [] message;
  extend_keys ["citations"; "sources"] values payload.

Definition gemini_links (payload : json) : exn + list json :=
  candidates ← py_get "candidates" (JList []) payload;
  each_of (on_dict (fun values candidate =>
    on_dict (fun values grounding =>
      each_of (on_dict (fun values chunk => inr (values ++ [json_or (get_field "web" chunk) chunk])))
        values (get_or (JList []) "groundingChunks" grounding))
      values (json_or (get_field "groundingMetadata" candidate) (JObj [])))) [] candidates.

Definition anthropic_links (payload : json) : exn + list json :=
  content ← py_get "content" (JList []) payload;
  each_of (on_dict (fun values item =>
    values ← extended values (get_field "citations" item);
    if is_text "web_search_tool_result" (get_field "type" item)
    then extended values (get_field "content" item) else inr values)) [] content.

Definition _extract_source_candidates (adapter_type : string) (payload : json) :
  exn + list EvidenceSourceCandidate :=
  values ← (if String.eqb adapter_type "OPENAI_RESPONSES" then openai_links payload
            else if String.eqb adapter_type "ANTHROPIC_MESSAGES" then anthropic_links payload
            else if String.eqb adapter_type "GEMINI_GENERATE_CONTENT" then gemini_links payload
            else compatible_links payload);
  inr (candidates_from_values values).

(** ** One request *)

(** What comes back from the network, and when: the microseconds since the
    request when the reply was there and when it had been read. *)
Inductive post_outcome :=
| PostTimeout (finished : Z)
| PostRequestError (finished : Z)
| PostReply (status : Z) (headers : list (string * string)) (content : string) (body : option json)
    (answered_after finished : Z).

Definition latency_ms (finished : Z) : Z := Z.max 0 (finished / 1000).

(** [headers.get(a) or headers.get(b) or ...] *)
Definition first_header (names : list string) (headers : list (string * string)) : option string :=
  match names with
  | [] => None
  | name :: names => foldl (fun found name => match found with Some (String _ _) => found | _ => assoc name headers end)
                       (assoc name headers) names
  end.

(** What a result says of its provider. *)
Record Traced := mkTraced {
  tr_provider : string;
  tr_request_id : option string;
  tr_gateway_id : option string
}.

Definition _failure (tr : Traced) (status : string) (finished : Z) (content : option string)
  (candidates : list EvidenceSourceCandidate) : LlmResult :=
  mkLlmResult status (Some (tr_provider tr)) None (tr_request_id tr) (tr_gateway_id tr) None (sha256 <$> content)
    (latency_ms finished) None None 0 [] "NOT_RUN" candidates.

(** A text or nothing, a count or nothing, as the class [LlmResult] reads them;
    another value raises a validation error. *)
Definition result_text (v : json) : exn + option string :=
  match v with JNull => inr None | JStr s => inr (Some s) | _ => inl ValueError end.
Definition result_count (v : json) : exn + option Z :=
  match v with
  | JNull => inr None
  | v => match lax_int v with Some n => if 0 <=? n then inr (Some n) else inl ValueError | None => inl ValueError end
  end.

Definition _success (tr : Traced) (model_id content : string) (reply : parsed_reply) (finished : Z)
  (candidates : list EvidenceSourceCandidate) : exn + LlmResult :=
  let '(output, actual_model, input_tokens, output_tokens) := reply in
  actual_model ← result_text (json_or actual_model (JStr model_id));
  input_tokens ← result_count input_tokens;
  output_tokens ← result_count output_tokens;
  inr (mkLlmResult "SUCCEEDED" (Some (tr_provider tr)) actual_model (tr_request_id tr) (tr_gateway_id tr)
         (Some output) (Some (sha256 content)) (latency_ms finished) input_tokens output_tokens 0 [] "PASSED" candidates).

(** [except (IndexError, KeyError, TypeError, ValueError, JSONDecodeError)] *)
Definition read_error (e : exn) : bool :=
  match e with IndexError | KeyError | TypeError | ValueError => true | _ => false end.

(** The reply of a provider that did not refuse. *)
Definition read_reply (tr : Traced) (adapter_type model_id content : string) (payload : json) (finished : Z) :
  exn + LlmResult :=
  let candidates := match _extract_source_candidates adapter_type payload with inr l => l | inl _ => [] end in
  match _parse_success adapter_type payload with
  | inr reply => _success tr model_id content reply finished candidates
  | inl e => if read_error e then inr (_failure tr "INVALID_OUTPUT" finished (Some content) candidates) else inl e
  end.

Definition take_outcome (adapter_type model_id : string) (timeout_ms : Z) (outcome : post_outcome) :
  exn + LlmResult :=
  let unknown := mkTraced (provider_name adapter_type) None None in
  match outcome with
  | PostTimeout finished => inr (_failure unknown "TIMED_OUT" finished None [])
  | PostRequestError finished => inr (_failure unknown "AMBIGUOUS" finished None [])
  | PostReply status headers content body answered_after finished =>
      let tr := mkTraced (provider_name adapter_type)
                  (first_header ["x-request-id"; "request-id"; "x-goog-request-id"] headers)
                  (assoc "x-vercel-id" headers) in
      if timeout_ms * 1000 <? answered_after then inr (_failure unknown "TIMED_OUT" finished None [])
      else if status =? 429 then inr (_failure tr "RATE_LIMITED" finished None [])
      else if 400 <=? status then inr (_failure tr "PROVIDER_ERROR" finished None [])
      else match body with
           | None => inr (_failure tr "INVALID_OUTPUT" finished (Some content) [])
           | Some payload => read_reply tr adapter_type model_id content payload finished
           end
  end.

Context (float_json : decimal -> json) (post : request_parts -> post_outcome).

(** [ExternalHttpAdapter.generate_structured] *)
Definition generate_over_http (adapter : LlmProviderAdapter) (request : LlmRequest) (model_id : string) :
  exn + LlmResult :=
  match adapter with
  | MockProviderAdapter => inr (mock_reply sha256 request model_id)
  | HttpAdapter adapter_type endpoint api_key chat_path =>
      parts ← _request_parts float_json adapter_type endpoint api_key chat_path request model_id;
      take_outcome adapter_type model_id (rq_timeout_ms request) (post parts)
  end.
End Replies.

(** ** The links that are kept *)

(** A link over TLS without credentials, whose host is not called localhost and
    is no literal of an address that is not global.  Names are not resolved, nor
    other spellings of an address read ([spelled_links_kept]). *)
Definition vetted_link (url : string) : Prop :=
  exists u host, urlsplit url = Some u /\ url_scheme u = "https" /\ url_hostname u = Some host /\
    url_username u = None /\ url_password u = None /\ lower host <> "localhost" /\ url_fragment u = EmptyString /\
    forall a, ip_address host = Some a -> is_global a = true.

Definition link_ok (c : EvidenceSourceCandidate) : Prop :=
  vetted_link (sc_url c) /\ (String.length (sc_title c) <= 500)%nat /\
  match sc_published_at c with Some p => (String.length p <= 64)%nat | None => True end.

Definition links_ok (l : list EvidenceSourceCandidate) : Prop :=
  NoDup (map sc_url l) /\ Forall link_ok l /\ (length l <= 20)%nat.

Lemma netloc_of_host u host : url_hostname u = Some host -> url_netloc u <> EmptyString.
Proof. unfold url_hostname, url_hostinfo. intros H E. by rewrite E in H. Qed.

Lemma safe_link_public value url : _safe_https_url value = Some url -> vetted_link url.
Proof.
  unfold _safe_https_url. destruct value as [| | | |text| |]; try done. destruct (1000 <? _); [done|]. intros H.
  apply bind_Some in H as (u & Hu & H). destruct (unsafe_url u _) eqn:Es; [done|].
  unfold unsafe_url in Es. rewrite !orb_false_iff in Es. destruct Es as [[[[_ Hh] Hun] Hup] Hl].
  destruct (url_hostname u) as [host|] eqn:Eh; [|done].
  assert (Ed : default EmptyString (Some host) = host) by done. rewrite Ed in *. clear Ed.
  destruct (url_username u) eqn:Eu; [done|]. destruct (url_password u) eqn:Ep; [done|].
  pose proof (urlsplit_sound _ _ Hu (netloc_of_host _ _ Eh)) as Hsound.
  exists (mkSplitUrl "https" (url_netloc u) (url_path u) (url_query u) EmptyString), host.
  assert (url = url_text "https" (url_netloc u) (url_path u) (url_query u) /\
          forall a, ip_address host = Some a -> is_global a = true) as [-> Hip].
  { destruct (ip_address host) as [a|]; cbn in H.
    - destruct (is_global a) eqn:Eg; [|done]. injection H as <-. split; [reflexivity|]. by intros a' [= <-].
    - injection H as <-. split; [reflexivity|]. intros a' Ha'. discriminate Ha'. }
  apply String.eqb_neq in Hl. split_and!; try done. by apply urlunsplit_split.
Qed.

Lemma slice_length n s : (String.length (slice 0 n s) <= n)%nat.
Proof.
  unfold slice. rewrite Nat.sub_0_r. revert n. induction s as [|c s IH]; intros [|n]; cbn; try lia.
  specialize (IH n). lia.
Qed.

Lemma published_short (v : json) :
  match (match v with JNull => None | v => Some (slice 0 64 (text_of v)) end) with
  | Some p => (String.length p <= 64)%nat | None => True end.
Proof. destruct v; first [exact I | apply slice_length]. Qed.

Lemma candidate_link value item : _candidate value = Some item -> link_ok item.
Proof.
  unfold _candidate. intros H. destruct value as [| | | |text| |fields]; try done.
  - apply bind_Some in H as (url & Hu & [= <-]). split_and!; cbn; [by eapply safe_link_public|lia|done].
  - apply bind_Some in H as (url & Hu & [= <-]). split_and!; cbn [sc_url sc_title sc_published_at];
      [by eapply safe_link_public|apply slice_length|apply published_short].
Qed.

Lemma keep_candidates_ok values seen room :
  let l := keep_candidates seen values room in
  NoDup (map sc_url l) /\ Forall link_ok l /\ (length l <= room)%nat /\ forall c, c ∈ l -> sc_url c ∉ seen.
Proof.
  revert seen room. induction values as [|value values IH]; intros seen room.
  - cbn. split_and!; [constructor|constructor|lia|intros c Hc; by apply not_elem_of_nil in Hc].
  - destruct room as [|room]; cbn [keep_candidates].
    { cbn. split_and!; [constructor|constructor|lia|intros c Hc; by apply not_elem_of_nil in Hc]. }
    destruct (_candidate value) as [item|] eqn:E; [|by apply IH].
    case_bool_decide as Hs; [by apply IH|]. destruct (IH (sc_url item :: seen) room) as (H1 & H2 & H3 & H4).
    cbn [map length]. split_and!.
    + constructor; [|done]. intros (c & Ec & Hc)%list_elem_of_fmap. destruct (H4 c Hc). rewrite <- Ec. by left.
    + constructor; [by eapply candidate_link|done].
    + lia.
    + intros c [->|Hc]%elem_of_cons; [done|]. intros Hin. destruct (H4 c Hc). by right.
Qed.

Lemma candidates_ok values : links_ok (candidates_from_values values).
Proof. destruct (keep_candidates_ok values [] 20) as (? & ? & ? & _). by split_and!. Qed.

Lemma no_links_ok : links_ok [].
Proof. split_and!; [constructor|constructor|cbn; lia]. Qed.

(** ** What a result says *)

Record result_ok (r : LlmResult) : Prop := mkResultOk {
  ro_retry : lt_retry_count r = 0;
  ro_latency : 0 <= lt_latency_ms r;
  ro_counts : forall n, lt_input_tokens r = Some n \/ lt_output_tokens r = Some n -> 0 <= n;
  ro_links : links_ok (lt_source_candidates r);
  ro_output : (lt_status r = "SUCCEEDED" /\ lt_schema_validation r = "PASSED" /\
               (exists fields, lt_output_json r = Some (JObj fields)) /\ is_Some (lt_raw_response_hash r)) \/
              (lt_status r ∈ ["TIMED_OUT"; "AMBIGUOUS"; "RATE_LIMITED"; "PROVIDER_ERROR"; "INVALID_OUTPUT"] /\
               lt_schema_validation r = "NOT_RUN" /\ lt_output_json r = None)
}.

Section Results.
Context (json_loads : string -> option json) (sha256 : string -> string).
Context {Lax : Pydantic}.

Lemma failure_ok tr status finished content candidates :
  status ∈ ["TIMED_OUT"; "AMBIGUOUS"; "RATE_LIMITED"; "PROVIDER_ERROR"; "INVALID_OUTPUT"] -> links_ok candidates ->
  result_ok (_failure sha256 tr status finished content candidates).
Proof.
  intros Hs Hl. split; cbn; [done|unfold latency_ms; lia|by intros n [|]|done|]. right. done.
Qed.

Lemma parse_json_object value output : parse_json_text json_loads value = inr output -> exists fields, output = JObj fields.
Proof.
  destruct value as [| | | |text| |]; try done. cbn. destruct (json_loads text) as [[]|]; try done. intros [= <-]. eauto.
Qed.

Lemma with_usage_object payload text usage mk ik ok reply :
  with_usage json_loads payload text usage mk ik ok = inr reply -> exists fields, reply.1.1.1 = JObj fields.
Proof.
  unfold with_usage. intros H. apply result_bind_inr in H as (output & Ho & H).
  do 3 apply result_bind_inr in H as (? & _ & H). injection H as <-. by eapply parse_json_object.
Qed.

Definition object_read (r : exn + parsed_reply) : Prop :=
  match r with inr reply => exists fields, reply.1.1.1 = JObj fields | inl _ => True end.

Lemma object_read_bind {A} (r : exn + A) (f : A -> exn + parsed_reply) :
  (forall a, r = inr a -> object_read (f a)) -> object_read (a ← r; f a).
Proof. destruct r as [e|a]; intros H; [exact I|]. by apply H. Qed.

Lemma usage_read payload text usage mk ik ok : object_read (with_usage json_loads payload text usage mk ik ok).
Proof. destruct (with_usage _ _ _ _ _ _ _) eqn:E; [exact I|]. by eapply with_usage_object. Qed.

Lemma openai_content_object payload contents reply :
  openai_content json_loads payload contents = inr (Some reply) -> exists fields, reply.1.1.1 = JObj fields.
Proof.
  induction contents as [|content contents IH]; [done|]. cbn [openai_content]. intros H.
  apply result_bind_inr in H as (kind & _ & H). destruct (is_text "refusal" kind); [done|].
  destruct (is_text "output_text" kind); [|by apply IH].
  do 2 apply result_bind_inr in H as (? & _ & H). apply result_bind_inr in H as (reply' & Hr & H).
  injection H as <-. by eapply with_usage_object.
Qed.

Lemma openai_items_object payload items : object_read (openai_items json_loads payload items).
Proof.
  induction items as [|item items IH]; [exact I|]. cbn [openai_items]. apply object_read_bind. intros kind _.
  destruct (is_text "message" kind); [|exact IH]. do 2 (apply object_read_bind; intros ? _).
  apply object_read_bind. intros [reply|] H; [by eapply openai_content_object|exact IH].
Qed.

Lemma parse_success_object adapter_type payload : object_read (_parse_success json_loads adapter_type payload).
Proof.
  unfold _parse_success, openai_success, anthropic_success, gemini_success, compatible_success.
  repeat case_match;
    repeat first [apply openai_items_object|apply usage_read|apply object_read_bind; intros ? _].
Qed.

Lemma extracted_ok adapter_type payload :
  links_ok (match _extract_source_candidates adapter_type payload with inr l => l | inl _ => [] end).
Proof.
  unfold _extract_source_candidates. destruct (if String.eqb adapter_type "OPENAI_RESPONSES" then _ else _) as [e|values].
  - apply no_links_ok.
  - apply candidates_ok.
Qed.

Lemma success_ok tr model_id content reply finished candidates r :
  (exists fields, reply.1.1.1 = JObj fields) -> links_ok candidates ->
  _success sha256 tr model_id content reply finished candidates = inr r -> result_ok r.
Proof.
  destruct reply as [[[output model] input] out]. intros [fields Hf] Hl H. unfold _success in H. cbn in Hf. subst output.
  apply result_bind_inr in H as (actual & _ & H). apply result_bind_inr in H as (i & Hi & H).
  apply result_bind_inr in H as (o & Ho & H). injection H as <-.
  assert (Hcount : forall v n, result_count v = inr (Some n) -> 0 <= n).
  { intros v n. unfold result_count. destruct v; try done; destruct (lax_int _) as [m|]; try done;
      destruct (Z.leb_spec 0 m); try done; by intros [= <-]. }
  split; cbn; [done|unfold latency_ms; lia| |done|].
  - intros n [->| ->]; by eapply Hcount.
  - left. split_and!; eauto.
Qed.

(** [r] raises only such errors. *)
Definition raises_in {A} (allowed : exn -> bool) (r : exn + A) : Prop :=
  match r with inl e => allowed e = true | inr _ => True end.

Lemma raises_bind {A B} allowed (r : exn + A) (f : A -> exn + B) :
  raises_in allowed r -> (forall a, raises_in allowed (f a)) -> raises_in allowed (a ← r; f a).
Proof. destruct r as [e|a]; intros H1 H2; [exact H1|apply H2]. Qed.

Lemma raises_mono {A} (p q : exn -> bool) (r : exn + A) :
  (forall e, p e = true -> q e = true) -> raises_in p r -> raises_in q r.
Proof. destruct r; cbn; auto. Qed.

(** What reading a reply may raise, and what of it escapes: a model id or a
    temperature that cannot be sent, and replies of a shape [_parse_success] or
    the class of the result does not expect. *)
Definition reading (e : exn) : bool :=
  match e with IndexError | KeyError | TypeError | ValueError | AttributeError | StopIteration => true | _ => false end.
Definition escaping (e : exn) : bool :=
  match e with ValueError | AttributeError | StopIteration => true | _ => false end.

Ltac raises := repeat first
  [ apply raises_bind; [|intros ?]
  | match goal with |- raises_in _ (match ?x with _ => _ end) => destruct x end
  | exact I
  | reflexivity ].

Lemma get_raises key default v : raises_in reading (py_get key default v).
Proof. unfold py_get. raises. Qed.
Lemma item_raises key v : raises_in reading (py_item key v).
Proof. unfold py_item. raises. Qed.
Lemma first_raises v : raises_in reading (py_first v).
Proof. unfold py_first. raises. Qed.
Lemma iter_raises v : raises_in reading (py_iter v).
Proof. unfold py_iter. raises. Qed.
Lemma text_raises v : raises_in reading (parse_json_text json_loads v).
Proof. unfold parse_json_text. raises. Qed.

#[local] Hint Resolve get_raises item_raises first_raises iter_raises text_raises : core.

Lemma usage_raises key payload : raises_in reading (usage_of key payload).
Proof. unfold usage_of. apply raises_bind; [auto|]. intros ?. exact I. Qed.
Lemma with_usage_raises payload text usage mk ik ok : raises_in reading (with_usage json_loads payload text usage mk ik ok).
Proof. unfold with_usage. repeat (apply raises_bind; [auto|intros ?]). exact I. Qed.
#[local] Hint Resolve usage_raises with_usage_raises : core.

Lemma content_raises payload contents : raises_in reading (openai_content json_loads payload contents).
Proof.
  induction contents as [|content contents IH]; [exact I|]. cbn [openai_content]. apply raises_bind; [auto|intros kind].
  destruct (is_text "refusal" kind); [reflexivity|]. destruct (is_text "output_text" kind); [|exact IH].
  repeat (apply raises_bind; [auto|intros ?]). exact I.
Qed.
#[local] Hint Resolve content_raises : core.

Lemma items_raises payload items : raises_in reading (openai_items json_loads payload items).
Proof.
  induction items as [|item items IH]; [reflexivity|]. cbn [openai_items]. apply raises_bind; [auto|intros kind].
  destruct (is_text "message" kind); [|exact IH]. do 2 (apply raises_bind; [auto|intros ?]).
  apply raises_bind; [auto|]. by intros [].
Qed.

Lemma first_text_raises items : raises_in reading (first_text items).
Proof.
  induction items as [|item items IH]; [reflexivity|]. cbn [first_text]. apply raises_bind; [auto|intros kind].
  destruct (is_text "text" kind); auto.
Qed.
#[local] Hint Resolve items_raises first_text_raises : core.

Lemma parse_raises adapter_type payload : raises_in reading (_parse_success json_loads adapter_type payload).
Proof.
  unfold _parse_success, openai_success, anthropic_success, gemini_success, compatible_success.
  repeat case_match; repeat first [solve [auto] | apply raises_bind; [auto|intros ?]].
Qed.

Lemma success_raises tr model_id content reply finished candidates :
  raises_in escaping (_success sha256 tr model_id content reply finished candidates).
Proof.
  destruct reply as [[[output model] input] out]. unfold _success.
  assert (Ht : forall v, raises_in escaping (result_text v)) by (intros v; destruct v; first [exact I|reflexivity]).
  assert (Hc : forall v, raises_in escaping (result_count v)).
  { intros v. unfold result_count. destruct v; try exact I; (destruct (lax_int _) as [k|]; [destruct (0 <=? k)|]);
      first [exact I|reflexivity]. }
  repeat (apply raises_bind; [auto|intros ?]). exact I.
Qed.

Lemma read_reply_sound tr adapter_type model_id content payload finished :
  match read_reply json_loads sha256 tr adapter_type model_id content payload finished with
  | inr r => result_ok r
  | inl e => escaping e = true
  end.
Proof.
  unfold read_reply. set (links := match _extract_source_candidates _ _ with inr l => l | inl _ => [] end).
  pose proof (extracted_ok adapter_type payload : links_ok links) as Hl. clearbody links.
  pose proof (parse_raises adapter_type payload) as Hr. pose proof (parse_success_object adapter_type payload) as Ho.
  destruct (_parse_success _ _ _) as [e|reply]; cbn in Hr, Ho.
  - destruct (read_error e) eqn:E; [|by destruct e]. apply failure_ok; [|done]. do 4 right. by left.
  - pose proof (success_raises tr model_id content reply finished links) as Hs.
    destruct (_success _ _ _ _ _ _ _) as [e|r] eqn:E; [exact Hs|]. by eapply success_ok.
Qed.

Lemma request_parts_raises float_json adapter_type endpoint key path r model_id :
  raises_in escaping (_request_parts float_json adapter_type endpoint key path r model_id).
Proof.
  assert (Hm : forall id, raises_in escaping (safe_model_id id)).
  { intros id. unfold safe_model_id. destruct (_ || _); [reflexivity|exact I]. }
  assert (Hr : forall c, raises_in escaping (reject_if c ValueError)) by (intros []; [reflexivity|exact I]).
  unfold _request_parts, openai_parts, anthropic_parts, gemini_parts, compatible_parts.
  destruct (String.eqb _ _); [|destruct (String.eqb _ _); [|destruct (String.eqb _ _)]];
    repeat first [apply Hm | apply Hr | apply raises_bind; [|intros ?]]; exact I.
Qed.

Definition failure_status (s : string) : Prop :=
  s ∈ ["TIMED_OUT"; "AMBIGUOUS"; "RATE_LIMITED"; "PROVIDER_ERROR"; "INVALID_OUTPUT"].

Lemma take_outcome_sound adapter_type model_id timeout_ms outcome :
  match take_outcome json_loads sha256 adapter_type model_id timeout_ms outcome with
  | inr r => result_ok r
  | inl e => escaping e = true
  end.
Proof.
  assert (Hf : forall tr status finished content, failure_status status ->
            result_ok (_failure sha256 tr status finished content [])) by (intros; by apply failure_ok, no_links_ok).
  assert (Hs : forall s, existsb (String.eqb s) ["TIMED_OUT"; "AMBIGUOUS"; "RATE_LIMITED"; "PROVIDER_ERROR"; "INVALID_OUTPUT"]
            = true -> failure_status s).
  { intros s (x & Hx & ->%String.eqb_eq)%existsb_exists. by apply list_elem_of_In. }
  unfold take_outcome. destruct outcome as [finished|finished|status headers content body after finished];
    [by apply Hf, Hs|by apply Hf, Hs|].
  destruct (timeout_ms * 1000 <? after); [by apply Hf, Hs|]. destruct (status =? 429); [by apply Hf, Hs|].
  destruct (400 <=? status); [by apply Hf, Hs|]. destruct body as [payload|]; [|by apply Hf, Hs].
  apply read_reply_sound.
Qed.

(** C40: Whatever a provider or the network answers, short of a body nested too
    deeply for the parser, a call of a model ends with a result or with one of
    the errors that a request that cannot be sent or a reply of an unexpected
    shape raises.  A result that succeeded carries an object, every other one
    carries no output; counts and latency are not negative; and the links it
    cites are at most twenty, distinct, over TLS, without credentials or
    fragment, and their host is neither called localhost nor a literal of an
    address that is not global.  (Names are not resolved: other spellings of
    private hosts pass, as [spelled_links_kept] shows.) *)
Theorem results_are_sound float_json post adapter request model_id :
  match generate_over_http json_loads sha256 float_json post adapter request model_id with
  | inr r => result_ok r
  | inl e => escaping e = true
  end.
Proof.
  destruct adapter as [|adapter_type endpoint api_key chat_path].
  - cbn. split; cbn; [done|lia|by intros n [[= <-]|[= <-]]|apply no_links_ok|]. left. eauto.
  - cbn [generate_over_http]. pose proof (request_parts_raises float_json adapter_type endpoint api_key chat_path
      request model_id) as Hr.
    destruct (_request_parts _ _ _ _ _ _ _) as [e|parts]; [exact Hr|]. apply take_outcome_sound.
Qed.
End Results.

(** ** A reply *)

Definition demo_request : LlmRequest :=
  mkLlmRequest "call" "CORE" "model" "v1" "h" [("system", "rules"); ("user", "input")] (JObj []) 60000 "DEFAULT" 1000
    None None (Some "HIGH") None true.

Definition demo_answer (content : json) : post_outcome :=
  PostReply 200 [("x-request-id", "r-1")] "body"
    (Some (JObj [("model", JStr "gpt"); ("usage", JObj [("input_tokens", JInt 3); ("output_tokens", JInt 5)]);
                 ("output", JList [JObj [("type", JStr "message"); ("content", JList [content])]])])) 1000 2500.

Definition demo_text : json :=
  JObj [("type", JStr "output_text"); ("text", JStr "{}");
        ("annotations", JList [JObj [("url", JStr "https://example.com/a"); ("title", JStr " A ")];
                               JObj [("url", JStr "https://127.0.0.1/b")]])].

Definition plain_ints : Pydantic :=
  {| lax_int := fun v => match v with JInt n => Some n | _ => None end; lax_float := fun _ => None;
     lax_datetime := fun _ => None |}.

Definition demo_generate (post : request_parts -> post_outcome) : exn + LlmResult :=
  generate_over_http (Lax := plain_ints) (fun s => if String.eqb s "{}" then Some (JObj []) else None) (fun s => s)
    (fun d => JNum (str_text d)) post (HttpAdapter "OPENAI_RESPONSES" "https://api.openai.com/v1/" "key" None)
    demo_request "gpt-5".

(** Links that reach private hosts under other spellings are kept. *)
Example spelled_links_kept :
  map (fun url => _safe_https_url (JStr url))
    ["https://127.1/"; "https://2130706433/"; "https://localhost./"; "https://x.local/"; "https://127.0.0.1/"; "https://localhost/"]
  = [Some "https://127.1/"; Some "https://2130706433/"; Some "https://localhost./"; Some "https://x.local/"; None; None].
Proof. vm_compute. reflexivity. Qed.

Example reply_read :
  demo_generate (fun parts => if String.eqb parts.1.1 "https://api.openai.com/v1/responses"
                              then demo_answer demo_text else PostTimeout 0)
  = inr (mkLlmResult "SUCCEEDED" (Some "OPENAI") (Some "gpt") (Some "r-1") None (Some (JObj [])) (Some "body") 2
           (Some 3) (Some 5) 0 [] "PASSED" [mkEvidenceSourceCandidate "https://example.com/a" "A" None]).
Proof. vm_compute. reflexivity. Qed.

(** A refusal is an invalid output; an item that is no object raises. *)
Example replies_refused :
  (match demo_generate (fun _ => demo_answer (JObj [("type", JStr "refusal")])) with
   | inr r => lt_status r | inl _ => EmptyString end,
   demo_generate (fun _ => demo_answer (JStr "text"))) = ("INVALID_OUTPUT", inl AttributeError).
Proof. vm_compute. reflexivity. Qed.

(** The catalogue's endpoint of Gemini has no version, and neither has the
    address the adapter asks; a quoted slash hides a model of the third
    generation, whose temperature is then sent. *)
Example gemini_address :
  match get_template "google" with
  | inr template =>
      match gemini_parts (fun d => JNum (str_text d)) (default EmptyString (pc_endpoint template)) "key"
              demo_request "models/gemini-3-pro" with
      | inr parts => parts.1.1 | inl _ => EmptyString end
  | inl _ => EmptyString
  end = "https://generativelanguage.googleapis.com/models/gemini-3-pro:generateContent" /\
  is_gemini_3_model (quote "google/gemini-3-pro") = false /\ is_gemini_3_model "google/gemini-3-pro" = true.
Proof. split_and!; vm_compute; reflexivity. Qed.
