(* ===== verification/AgentRuns.v ===== *)
(** * Market context and the creation of agent runs

    [market_context.py], and the half of [agents/runtime.py] that creates runs. *)

From Stdlib Require Import ZArith Lia Ascii String.
From stdpp Require Import base numbers strings list gmap.
From S2P Require Import Prelude Decimal Json PyTime Models Session MarketWatch DecimalText PyText DecisionInputs.
From S2P Require Import Fusion LlmCatalog AgentContracts AgentQueue AgentRuntime.

Open Scope Z_scope.

(** * Market context snapshots

    [market_context.py]: what a contracted source says about the index, the
    sector and the breadth of the market around a symbol; a snapshot is stored
    once per identity of its source and selected by its age. *)

Definition MARKET_CONTEXT_SCHEMA_VERSION : string := "market-context-v1".

Record MarketContextInput := mkMarketContextInput {
  ci_market : string;
  ci_symbol : string;
  ci_source : string;
  ci_source_ref : string;
  ci_source_tier : string;
  ci_quality : string;
  ci_index_code : option string;
  ci_index_change_pct : option decimal;
  ci_sector_code : option string;
  ci_sector_change_pct : option decimal;
  ci_advancers : option Z;
  ci_decliners : option Z;
  ci_unchanged : option Z;
  ci_observed_at : Z;
  ci_received_at : Z;
  ci_valid_until : Z
}.

(** ** Validation of an input *)

Definition length_within (low high : nat) (s : string) : bool :=
  Nat.leb low (String.length s) && Nat.leb (String.length s) high.

Definition opt_all {A} (f : A -> bool) (v : option A) : bool :=
  match v with Some a => f a | None => true end.

Definition percent_within (d : decimal) : bool := dleb (of_int (-100)) d && dleb d (of_int 100).

(** The constraints of the fields. *)
Definition fields_valid (event : MarketContextInput) : bool :=
  bool_decide (ci_market event ∈ ["KRX"; "NXT"]) &&
  length_within 1 64 (ci_source event) && length_within 1 128 (ci_source_ref event) &&
  bool_decide (ci_source_tier event ∈ ["PRIMARY"; "CONTRACTED"]) &&
  bool_decide (ci_quality event ∈ ["NORMAL"; "INCOMPLETE"]) &&
  opt_all (length_within 0 32) (ci_index_code event) && opt_all percent_within (ci_index_change_pct event) &&
  opt_all (length_within 0 64) (ci_sector_code event) && opt_all percent_within (ci_sector_change_pct event) &&
  opt_all (Z.leb 0) (ci_advancers event) && opt_all (Z.leb 0) (ci_decliners event) &&
  opt_all (Z.leb 0) (ci_unchanged event).

Definition validate_contract (event : MarketContextInput) : bool :=
  let counts := [ci_advancers event; ci_decliners event; ci_unchanged event] in
  let given c := bool_decide (is_Some c) in
  digits_of_length 6 (ci_symbol event) && (ci_observed_at event <=? ci_received_at event) &&
  (ci_observed_at event <? ci_valid_until event) &&
  (negb (existsb given counts) || forallb given counts).

(** The validated input; [ValueError] stands for [ValidationError]. *)
Definition market_context_input (event : MarketContextInput) : exn + MarketContextInput :=
  if fields_valid event && validate_contract event then inr event else inl ValueError.

(** ** The stored payload *)

Definition _decimal (value : option decimal) : exn + json :=
  match value with Some d => fixed _SIX_DP d | None => inr JNull end.

Definition breadth_total (event : MarketContextInput) : option Z :=
  match ci_advancers event, ci_decliners event, ci_unchanged event with
  | Some a, Some d, Some u => Some (a + d + u)
  | _, _, _ => None
  end.

Definition breadth_ratio (event : MarketContextInput) : exn + option decimal :=
  match breadth_total event, ci_advancers event with
  | Some total, Some advancers =>
      if total =? 0 then inr None
      else r ← divided (dmul (of_int advancers) hundred) (of_int total); inr (Some r)
  | _, _ => inr None
  end.

Definition normalized_payload (event : MarketContextInput) : exn + json :=
  ratio ← breadth_ratio event;
  index_change ← _decimal (ci_index_change_pct event);
  sector_change ← _decimal (ci_sector_change_pct event);
  ratio ← _decimal ratio;
  inr (JObj
    [("schema_version", JStr MARKET_CONTEXT_SCHEMA_VERSION); ("market", JStr (ci_market event));
     ("symbol", JStr (ci_symbol event));
     ("source", JObj [("name", JStr (ci_source event)); ("ref", JStr (ci_source_ref event));
                      ("tier", JStr (ci_source_tier event))]);
     ("quality", JStr (ci_quality event));
     ("index", JObj [("code", jopt_str (ci_index_code event)); ("change_pct", index_change)]);
     ("sector", JObj [("code", jopt_str (ci_sector_code event)); ("change_pct", sector_change)]);
     ("breadth", JObj [("advancers", jopt_int (ci_advancers event));
                       ("decliners", jopt_int (ci_decliners event));
                       ("unchanged", jopt_int (ci_unchanged event)); ("advancer_ratio_pct", ratio)]);
     ("observed_at", JStr (iso_datetime (ci_observed_at event)));
     ("received_at", JStr (iso_datetime (ci_received_at event)));
     ("valid_until", JStr (iso_datetime (ci_valid_until event)))]).

(** ** Storing and selecting *)

Definition put_market_context (mc : MarketContextSnapshot) (db : DB) : DB :=
  set_market_contexts db (<[mc_id mc := mc]> (market_contexts db)).

(** The unique constraint [uq_market_context_source_identity]. *)
Definition same_identity (event : MarketContextInput) (mc : MarketContextSnapshot) : bool :=
  String.eqb (mc_source mc) (ci_source event) && String.eqb (mc_market mc) (ci_market event) &&
  String.eqb (mc_symbol mc) (ci_symbol event) && String.eqb (mc_source_ref mc) (ci_source_ref event).

Definition context_clash (id : string) (event : MarketContextInput) (db : DB) : bool :=
  bool_decide (is_Some (market_contexts db !! id)) ||
  existsb (same_identity event) (rows (market_contexts db)).

Definition stored_context (id payload_hash : string) (payload : json) (event : MarketContextInput) :
  MarketContextSnapshot :=
  mkMarketContextSnapshot id (ci_market event) (ci_symbol event) (ci_source event) (ci_source_ref event)
    (ci_source_tier event) (ci_quality event) payload payload_hash (ci_observed_at event)
    (ci_received_at event) (ci_valid_until event).

Section Ingest.
Context (sha256 : string -> string).

(** [race]: what other sessions commit between the query and the flush. *)
Definition ingest_market_context (event : MarketContextInput) (race : DB -> DB) :
  prog (MarketContextSnapshot * bool) :=
  payload ← of_result (normalized_payload event);
  let payload_hash := sha256 (dumps payload) in
  existing ← gets (fun db => find_row (same_identity event) (market_contexts db));
  match existing with
  | Some mc =>
      guard_or (String.eqb (mc_payload_hash mc) payload_hash)
        (MarketContextError "MARKET_CONTEXT_IDENTITY_CONFLICT") ;;
      mret (mc, false)
  | None =>
      id ← uuid7;
      let mc := stored_context id payload_hash payload event in
      flush_checked race (context_clash id event) (put_market_context mc) ;;
      mret (mc, true)
  end.
End Ingest.

(** The latest observation first, then the smallest id. *)
Definition observed_before (a b : MarketContextSnapshot) : bool :=
  (mc_observed_at b <? mc_observed_at a) ||
  ((mc_observed_at a =? mc_observed_at b) && String.leb (mc_id a) (mc_id b)).

Definition context_usable (market symbol : string) (now : Z) (mc : MarketContextSnapshot) : bool :=
  String.eqb (mc_market mc) market && String.eqb (mc_symbol mc) symbol &&
  String.eqb (mc_quality mc) "NORMAL" && (mc_observed_at mc <=? now) && (now <? mc_valid_until mc).

Definition select_market_context (db : DB) (market symbol : string) (now : Z) :
  option MarketContextSnapshot :=
  first_row observed_before (context_usable market symbol now)
    (market_contexts db).

(** * Creating agent runs

    [agents/runtime.py]: the routes of an owner are checked and frozen in a new
    run, with the market snapshot, the position and the market context it is
    about; the run and the stages of its graph are stored once per input.

    [updated_at] and [created_at] are the audit columns of a position. *)

(** The roles of the graph, their order and the roles each waits for. *)
Definition STAGES : list (string * Z * list string) :=
  [("INTEL_COLLECTOR", 10, []);
   ("EVIDENCE_VERIFIER", 20, ["INTEL_COLLECTOR"]);
   ("TECHNICAL_SCOUT", 30, ["EVIDENCE_VERIFIER"]);
   ("NEWS_DISCLOSURE_SCOUT", 40, ["EVIDENCE_VERIFIER"]);
   ("MARKET_SECTOR_SCOUT", 50, ["EVIDENCE_VERIFIER"]);
   ("POSITION_RISK_SCOUT", 60, ["EVIDENCE_VERIFIER"]);
   ("EVIDENCE_CANDIDATE_AUDITOR", 65, SCOUT_ROLES);
   ("CORE", 70, SCOUT_ROLES ++ ["EVIDENCE_CANDIDATE_AUDITOR"])].

Definition runtime_error (code : string) (status : Z) : exn := AgentRuntimeError code status.

(** ** The routes of an owner *)

Section Routes.
Context (db : DB) (owner_id : string).

Definition SCHEMA_VERSIONS (role : string) : list string :=
  if String.eqb role "CORE" then ["agent-core-v1"; "agent-core-v2"]
  else ["agent-assessment-v1"; "agent-assessment-v2"].

Definition route_unready (role : string) (route : LlmRoleRoute) (fallback_ids : list json) : bool :=
  negb (String.eqb (lr_owner_id route) owner_id) || negb (String.eqb (lr_role route) role) ||
  negb (bool_decide (lr_state route ∈ ["VALIDATED"; "ACTIVE"])) ||
  negb (String.eqb (lr_execution_stage route) "SHADOW") ||
  negb (bool_decide (lr_fallback_policy route ∈ ["FAIL_STOP"; "FAILOVER"])) ||
  negb (lr_max_attempts route =? 1) || Nat.ltb 1 (length fallback_ids) ||
  (String.eqb (lr_fallback_policy route) "FAIL_STOP" && negb (bool_decide (fallback_ids = []))) ||
  (String.eqb (lr_fallback_policy route) "FAILOVER" && negb (Nat.eqb (length fallback_ids) 1)) ||
  negb (bool_decide (lr_output_schema_version route ∈ SCHEMA_VERSIONS role)).

Definition provider_unready (p : LlmProviderProfile) : bool :=
  negb (String.eqb (lp_owner_id p) owner_id) || negb (String.eqb (lp_state p) "VALIDATED") ||
  bool_decide (is_Some (lp_deleted_at p)) ||
  (negb (String.eqb (lp_adapter_type p) "MOCK") &&
   negb (bool_decide (is_Some (opt_text (lp_credential_secret_ref p))))).

(** A model with its provider, both validated. *)
Definition ready_model (id : option string) : option (LlmModelProfile * LlmProviderProfile) :=
  m ← row_of (llm_models db) id;
  p ← llm_providers db !! lm_provider_profile_id m;
  if negb (String.eqb (lm_state m) "VALIDATED") || provider_unready p then None else Some (m, p).

Definition prompt_ready (role : string) (route : LlmRoleRoute) : bool :=
  match lr_prompt_profile_id route with
  | None => true
  | Some id => match opt_text (Some id) ≫= fun id => llm_prompts db !! id with
               | Some q => String.eqb (lq_owner_id q) owner_id && String.eqb (lq_role q) role &&
                           String.eqb (lq_state q) "VALIDATED"
               | None => false
               end
  end.

(** [provider_registry.resolve] with the credential of the check. *)
Definition adapter_allowed (p : LlmProviderProfile) : bool :=
  bool_decide (is_Some (resolve (lp_adapter_type p) (lp_endpoint p)
    (if String.eqb (lp_adapter_type p) "MOCK" then None else Some "route-check") None)).

Definition json_id (v : json) : option string := match v with JStr s => Some s | _ => None end.

Definition load_route (role route_id : string) : exn + RouteBinding :=
  let not_ready := inl (runtime_error "AGENT_ROUTE_NOT_READY" 422) in
  match llm_routes db !! route_id with
  | None => not_ready
  | Some route =>
      match lr_fallback_model_profile_ids route with
      | JList ids =>
          if route_unready role route ids then not_ready
          else
            match ready_model (Some (lr_primary_model_profile_id route)) with
            | None => not_ready
            | Some (model, provider) =>
                let fallback := match ids with [] => None | id :: _ => ready_model (json_id id) end in
                if negb (bool_decide (ids = [])) && negb (bool_decide (is_Some fallback)) ||
                   negb (prompt_ready role route) then not_ready
                else if forallb adapter_allowed (provider :: option_list (snd <$> fallback))
                then inr (mkRouteBinding route model provider (fst <$> fallback) (snd <$> fallback))
                else inl (runtime_error "AGENT_ADAPTER_NOT_ALLOWED" 422)
            end
      | _ => not_ready
      end
  end.

Fixpoint load_each (route_ids : list (string * string)) (roles : list string) :
  exn + list (string * RouteBinding) :=
  match roles with
  | [] => inr []
  | role :: roles =>
      binding ← load_route role (default EmptyString (assoc role route_ids));
      rest ← load_each route_ids roles;
      inr ((role, binding) :: rest)
  end.

Definition same_set (a b : list string) : bool :=
  forallb (fun x => bool_decide (x ∈ b)) a && forallb (fun x => bool_decide (x ∈ a)) b.

Definition _load_routes (route_ids : list (string * string)) : exn + list (string * RouteBinding) :=
  if negb (same_set (map fst route_ids) ROUTE_ROLES)
  then inl (runtime_error "AGENT_ROUTE_SET_INCOMPLETE" 422)
  else load_each route_ids ROUTE_ROLES.

(** ** What a run is about *)

Definition _snapshot (market symbol : string) : exn + MarketSnapshot :=
  let snapshot :=
    stream ← streams db !! (market, symbol);
    id ← opt_text (mss_current_snapshot_id stream);
    snapshots db !! id in
  match snapshot with
  | Some s => inr s
  | None => inl (runtime_error "AGENT_MARKET_SNAPSHOT_NOT_FOUND" 409)
  end.

(** [x or y] of an optional number. *)
Definition int_or (x : option Z) (y : Z) : Z :=
  match x with Some n => if n =? 0 then y else n | None => y end.
Definition opt_text_or (x y : option string) : option string :=
  match opt_text x with Some s => Some s | None => y end.

Definition route_version (role : string) (b : RouteBinding) : json :=
  let route := rb_route b in let model := rb_model b in
  JObj [("route_id", JStr (lr_id route)); ("route_version", JInt (lr_version route));
        ("declared_output_schema_version", JStr (lr_output_schema_version route));
        ("effective_output_schema_version",
           JStr (if String.eqb role "CORE" then CORE_SCHEMA_VERSION else ASSESSMENT_SCHEMA_VERSION));
        ("model_id", JStr (lm_id model)); ("model_version", JInt (lm_version model));
        ("failure_policy", JStr (lr_fallback_policy route));
        ("fallback_model_id", jopt_str (lm_id <$> rb_fallback_model b));
        ("fallback_model_version", jopt_int (lm_version <$> rb_fallback_model b));
        ("prompt_profile_id", jopt_str (lr_prompt_profile_id route));
        ("prompt_content_hash",
           jopt_str (lq_content_hash <$> row_of (llm_prompts db) (opt_text (lr_prompt_profile_id route))));
        ("generation_parameters", JObj
           [("temperature", jopt_dec (or_else (lr_temperature_override route) (lm_temperature model)));
            ("top_p", jopt_dec (or_else (lr_top_p_override route) (lm_top_p model)));
            ("max_output_tokens",
               JInt (int_or (lr_max_output_tokens_override route) (lm_max_output_tokens model)));
            ("reasoning_effort",
               jopt_str (opt_text_or (lr_reasoning_effort_override route) (lm_reasoning_effort model)));
            ("seed", jopt_int (or_else (lr_seed_override route) (lm_seed model)));
            ("timeout_ms", JInt (lr_timeout_ms route)); ("service_tier", JStr (lr_service_tier route))])].

Definition role_before (a b : string * RouteBinding) : bool := String.leb a.1 b.1.

Definition route_versions_of (bindings : list (string * RouteBinding)) : json :=
  JObj (map (fun b => (b.1, route_version b.1 b.2)) (sort_by role_before bindings)).
End Routes.

(** ** Creating a run *)

Section Create.
Context (sha256 : string -> string) (created_at updated_at : Position -> Z) (settings : Settings).

Record RunRequest := mkRunRequest {
  rr_user : User;
  rr_market : string;
  rr_symbol : string;
  rr_route_ids : list (string * string);
  rr_purpose : string;
  rr_basis_decision : option Decision
}.

Definition advisory (r : RunRequest) : bool := String.eqb (rr_purpose r) "TRADING_ADVISORY".

Definition basis_fits (r : RunRequest) : bool :=
  match rr_basis_decision r with
  | Some d => String.eqb (d_purpose d) "TRADING" && String.eqb (d_decision_kind d) "POSITION" &&
              String.eqb (d_symbol d) (rr_symbol r) && String.eqb (d_market d) (rr_market r)
  | None => false
  end.

Definition unconfigured (enabled : bool) (status : string) : bool :=
  enabled && negb (String.eqb status "CONFIGURED").

Definition check_request (r : RunRequest) : exn + unit :=
  reject_if (negb (bool_decide (rr_purpose r ∈ ["DIAGNOSTIC"; "TRADING_ADVISORY"])))
    (runtime_error "AGENT_PURPOSE_NOT_ALLOWED" 409) ;;
  reject_if (String.eqb (rr_purpose r) "DIAGNOSTIC" && bool_decide (is_Some (rr_basis_decision r)))
    (runtime_error "AGENT_DIAGNOSTIC_BASIS_NOT_ALLOWED" 409) ;;
  reject_if (advisory r && negb (basis_fits r)) (runtime_error "AGENT_ADVISORY_BASIS_INVALID" 409) ;;
  reject_if (unconfigured (dart_enabled settings) (dart_configuration_status settings))
    (runtime_error "AGENT_DART_NOT_CONFIGURED" 409) ;;
  reject_if (unconfigured (krx_enabled settings) (krx_configuration_status settings))
    (runtime_error "AGENT_KRX_NOT_CONFIGURED" 409) ;;
  reject_if (unconfigured (naver_news_enabled settings) (naver_news_configuration_status settings))
    (runtime_error "AGENT_NAVER_NEWS_NOT_CONFIGURED" 409).

(** The open position of a symbol that changed last. *)
Definition updated_before (a b : Position) : bool :=
  (updated_at b <? updated_at a) || ((updated_at a =? updated_at b) && String.leb (p_id a) (p_id b)).

Definition open_position_of (symbol : string) (db : DB) : option Position :=
  first_row updated_before (fun p => String.eqb (p_symbol p) symbol && bool_decide (p_state p = POS_OPEN) &&
                                     (0 <? p_quantity p)) (positions db).

(** What the run is frozen on. *)
Record RunInput := mkRunInput {
  ri_snapshot : MarketSnapshot;
  ri_analysis_context : string;
  ri_position : json;
  ri_market_context : option MarketContextSnapshot;
  ri_bindings : list (string * RouteBinding)
}.

Definition no_open_position (symbol : string) (snapshot : MarketSnapshot) : json :=
  JObj [("marker", JStr "NO_OPEN_POSITION"); ("calculation_version", JStr "position-risk-input-v1");
        ("symbol", JStr symbol); ("market_observed_at", JStr (iso_datetime (ms_event_at snapshot)));
        ("source_refs", JList [JStr (ms_id snapshot)])].

Definition run_input (r : RunRequest) (observed : Z) (db : DB) : exn + RunInput :=
  snapshot ← _snapshot db (rr_market r) (rr_symbol r);
  let position := open_position_of (rr_symbol r) db in
  let analysis_context := match position with Some _ => "POSITION" | None => "ENTRY" end in
  reject_if (advisory r && negb (String.eqb analysis_context "POSITION"))
    (runtime_error "AGENT_ADVISORY_POSITION_NOT_FOUND" 409) ;;
  position_snapshot ← (match position with
    | Some p => build_position_snapshot sha256 created_at updated_at db (rr_user r) p snapshot settings
    | None => inr (no_open_position (rr_symbol r) snapshot)
    end);
  let market_context := select_market_context db (rr_market r) (rr_symbol r) observed in
  bindings ← _load_routes db (u_id (rr_user r)) (rr_route_ids r);
  inr (mkRunInput snapshot analysis_context position_snapshot market_context bindings).

Definition input_record (r : RunRequest) (i : RunInput) (route_versions : json) : json :=
  JObj [("purpose", JStr (rr_purpose r)); ("basis_decision_id", jopt_str (d_id <$> rr_basis_decision r));
        ("market", JStr (rr_market r)); ("symbol", JStr (rr_symbol r));
        ("market_snapshot_id", JStr (ms_id (ri_snapshot i)));
        ("payload_hash", JStr (ms_payload_hash (ri_snapshot i))); ("dag_version", JStr DAG_VERSION);
        ("analysis_context", JStr (ri_analysis_context i));
        ("position_snapshot_hash", JStr (_hash sha256 (ri_position i)));
        ("server_input_policy_version", JStr SERVER_INPUT_POLICY_VERSION);
        ("market_context_snapshot_id", jopt_str (mc_id <$> ri_market_context i));
        ("market_context_snapshot_hash", jopt_str (mc_payload_hash <$> ri_market_context i));
        ("assessment_schema_version", JStr ASSESSMENT_SCHEMA_VERSION);
        ("core_schema_version", JStr CORE_SCHEMA_VERSION);
        ("score_policy_version", JStr SCORE_POLICY_VERSION);
        ("reason_code_policy_version", JStr REASON_CODE_POLICY_VERSION);
        ("evidence_source_policy", JObj
           [("version", JStr EVIDENCE_POLICY_VERSION);
            ("dart_status", JStr (dart_configuration_status settings));
            ("krx_status", JStr (krx_configuration_status settings));
            ("naver_news_status", JStr (naver_news_configuration_status settings))]);
        ("route_versions", route_versions)].

Definition run_key (r : RunRequest) (input_hash : string) : string :=
  _hash sha256 (JObj [("owner_id", JStr (u_id (rr_user r))); ("purpose", JStr (rr_purpose r));
                      ("input_hash", JStr input_hash)]).

(** [max(60000, sum(timeouts) + 30000)] milliseconds. *)
Definition run_lifetime (bindings : list (string * RouteBinding)) : Z :=
  Z.max 60000 (zsum (fun b => lr_timeout_ms (rb_route b.2)) bindings + 30000) * 1000.

Definition new_run (r : RunRequest) (i : RunInput) (route_versions : json) (input_hash id : string)
  (observed now : Z) : AgentRun :=
  mkAgentRun id (u_id (rr_user r)) (rr_purpose r) (rr_market r) (rr_symbol r) (ms_id (ri_snapshot i))
    input_hash DAG_VERSION route_versions (run_key r input_hash) RUN_CREATED None
    (Some (ri_analysis_context i)) (Some (ri_position i)) (Some (_hash sha256 (ri_position i))) None
    (d_id <$> rr_basis_decision r) (if advisory r then Some FUSION_POLICY_VERSION else None)
    (if advisory r then Some "PENDING" else None) None None (Some SERVER_INPUT_POLICY_VERSION)
    (mc_id <$> ri_market_context i) (mc_payload_hash <$> ri_market_context i) None
    (observed + run_lifetime (ri_bindings i)) None None now.

(** The unique and check constraints of a run that a new row may violate. *)
Definition run_clash (run : AgentRun) (db : DB) : bool :=
  bool_decide (is_Some (agent_runs db !! ar_id run)) ||
  negb (bool_decide (ar_market run ∈ ["KRX"; "NXT"])) ||
  existsb (fun other => String.eqb (ar_idempotency_key other) (ar_idempotency_key run) ||
                        (bool_decide (is_Some (ar_basis_decision_id run)) &&
                         bool_decide (ar_basis_decision_id other = ar_basis_decision_id run)))
    (rows (agent_runs db)).

Definition new_stage (run : AgentRun) (bindings : list (string * RouteBinding)) (input_hash id : string)
  (available_at now : Z) (s : string * Z * list string) : AgentStageRun :=
  let '(role, sequence, dependencies) := s in
  let route := rb_route <$> assoc role bindings in
  mkAgentStageRun id (ar_id run) role sequence dependencies (lr_id <$> route) None SG_PENDING
    (_hash sha256 (JObj [("run_input_hash", JStr input_hash); ("role", JStr role)])) None None None None None
    0 0 (default 2 (lr_max_attempts <$> route)) available_at None None None None now.

(** The unique constraints of a stage and the check of its attempts. *)
Definition stage_clash (st : AgentStageRun) (db : DB) : bool :=
  bool_decide (is_Some (agent_stages db !! ag_id st)) || (ag_max_attempts st <? 1) ||
  existsb (fun other => String.eqb (ag_run_id other) (ag_run_id st) && String.eqb (ag_role other) (ag_role st))
    (rows (agent_stages db)).

Definition _stage (run : AgentRun) (bindings : list (string * RouteBinding)) (input_hash : string)
  (available_at : Z) (s : string * Z * list string) : prog unit :=
  id ← uuid7;
  now ← utcnow;
  let st := new_stage run bindings input_hash id available_at now s in
  flush_checked (fun db => db) (stage_clash st) (put_stage st).

Definition run_of_key (key : string) (db : DB) : option AgentRun :=
  find_row (fun run => String.eqb (ar_idempotency_key run) key) (agent_runs db).

(** The run another session stored first, if it is the owner's. *)
Definition adopt_run (owner_id : string) (existing : option AgentRun) : prog (AgentRun * bool) :=
  match existing with
  | Some run => if String.eqb (ar_owner_id run) owner_id then mret (run, false)
                else raise (runtime_error "AGENT_IDEMPOTENCY_CONFLICT" 409)
  | None => raise (runtime_error "AGENT_IDEMPOTENCY_CONFLICT" 409)
  end.

(** [race]: what other sessions commit between the queries and the flush. *)
Definition insert_run (r : RunRequest) (i : RunInput) (route_versions : json) (input_hash : string)
  (observed : Z) (race : DB -> DB) : prog (AgentRun * bool) :=
  id ← uuid7;
  created ← utcnow;
  let run := new_run r i route_versions input_hash id observed created in
  stored ← (try_except (flush_checked race (run_clash run) (put_run run) ;; mret true)
              (fun e => match e with
                        | IntegrityError => Some (rollback ;; mret false)
                        | _ => None
                        end) : prog bool);
  if stored : bool then
    for_each STAGES (_stage run (ri_bindings i) input_hash observed) ;;
    commit ;;
    row ← gets (fun db => agent_runs db !! ar_id run);
    row ← or_raise row InvalidRequestError;
    mret (row, true)
  else
    existing ← gets (run_of_key (ar_idempotency_key run));
    adopt_run (u_id (rr_user r)) existing.

Definition _create_run (r : RunRequest) (now : option Z) (race : DB -> DB) : prog (AgentRun * bool) :=
  of_result (check_request r) ;;
  observed ← (match now with Some t => mret t | None => utcnow end);
  input ← gets (run_input r observed);
  i ← of_result input;
  route_versions ← gets (fun db => route_versions_of db (ri_bindings i));
  let input_hash := _hash sha256 (input_record r i route_versions) in
  existing ← gets (run_of_key (run_key r input_hash));
  match existing with
  | Some run => adopt_run (u_id (rr_user r)) (Some run)
  | None => insert_run r i route_versions input_hash observed race
  end.

Definition create_diagnostic_run (user : User) (market symbol : string) (route_ids : list (string * string))
  (now : option Z) (race : DB -> DB) : prog (AgentRun * bool) :=
  _create_run (mkRunRequest user market symbol route_ids "DIAGNOSTIC" None) now race.

Definition create_position_advisory_run (user : User) (basis_decision : Decision)
  (route_ids : list (string * string)) (now : option Z) (race : DB -> DB) : prog (AgentRun * bool) :=
  _create_run (mkRunRequest user (d_market basis_decision) (d_symbol basis_decision) route_ids
                 "TRADING_ADVISORY" (Some basis_decision)) now race.
End Create.

(** ** Reading runs *)

Definition newest_first (a b : AgentRun) : bool := ar_created_at b <=? ar_created_at a.

Definition list_agent_runs (owner_id : string) (limit : nat) (db : DB) : list AgentRun :=
  take limit (sort_by newest_first
    (List.filter (fun run => String.eqb (ar_owner_id run) owner_id) (rows (agent_runs db)))).

Definition get_agent_run (owner_id run_id : string) (db : DB) : exn + AgentRun :=
  match agent_runs db !! run_id with
  | Some run => if String.eqb (ar_owner_id run) owner_id then inr run
                else inl (runtime_error "AGENT_RUN_NOT_FOUND" 404)
  | None => inl (runtime_error "AGENT_RUN_NOT_FOUND" 404)
  end.
