(* ===== verification/AgentStages.v ===== *)
(** * What the stages of an agent run compute

    [_execute_stage] of [agents/worker.py]: the collector of evidence, its
    verifier, the four scouts, the auditor of candidate sources and the core.
    Every stage ends with a result of its contract or raises.

    The parameters are those of [Collectors] (record [Sources], with the caches
    of the process as the stage finds them) and of [AgentRuntime]. *)

Set Warnings "-register-all".

From Stdlib Require Import ZArith Lia Ascii String.
From stdpp Require Import base numbers strings list gmap.
From S2P Require Import Prelude Decimal Json PyTime Models Session DecimalText PyText.
From S2P Require Import DecisionInputs MockDecision Fusion PyText LlmCatalog KiwoomClient Collectors.
From S2P Require Import AgentContracts AgentQueue AgentRuntime.

Open Scope Z_scope.

(** The world of the collectors. *)
Record Sources := mkSources {
  so_settings : CollectorSettings;
  so_namelist : string -> option (list (string * Z));
  so_read_list : string -> option (list (string * string));
  so_json_loads : string -> option json;
  so_xml_status : string -> option string;
  so_corp_codes : bool + (Z * string);
  so_disclosure_pages : string -> Z -> answer;
  so_market_rows : string -> string -> answer;
  so_unescape : string -> string;
  so_identity_key : string -> string;
  so_parsedate : string -> option (option Z);
  so_news : string -> answer;
  so_dart_cache : Dart.cache;
  so_krx_cache : Krx.cache;
  so_naver_cache : Naver.cache
}.

(** ** Reading a stored JSON object *)

(** [key in value] on an object. *)
Definition has_key (key : string) (v : json) : bool :=
  match v with JObj d => bool_decide (is_Some (assoc key d)) | _ => false end.

Definition json_texts (v : json) : list string := match v with JList l => map py_str l | _ => [] end.

Definition is_opt (f : json -> bool) (present : bool) (v : json) : bool :=
  if present then f v else match v with JNull => true | _ => false end.
Definition is_opt_text (s : option string) (v : json) : bool :=
  is_opt (is_text (default EmptyString s)) (bool_decide (is_Some s)) v.
Definition is_opt_int (n : option Z) (v : json) : bool :=
  is_opt (is_int (default 0 n)) (bool_decide (is_Some n)) v.

(** ** Route bindings *)

Section Binding.
Context (db : DB) (run : AgentRun).

Definition lost_credential (p : LlmProviderProfile) : bool :=
  negb (String.eqb (lp_adapter_type p) "MOCK") && negb (bool_decide (is_Some (opt_text (lp_credential_secret_ref p)))).

Definition provider_unusable (p : LlmProviderProfile) : bool :=
  negb (String.eqb (lp_state p) "VALIDATED") || bool_decide (is_Some (lp_deleted_at p)) ||
  lost_credential p.

Definition model_of (id : option string) : option LlmModelProfile := row_of (llm_models db) id.
Definition provider_of (m : option LlmModelProfile) : option LlmProviderProfile :=
  row_of (llm_providers db) (lm_provider_profile_id <$> m).

Definition fallback_unusable (m : LlmModelProfile) (p : option LlmProviderProfile) : bool :=
  match p with
  | None => true
  | Some p => negb (String.eqb (lp_owner_id p) (ar_owner_id run)) || provider_unusable p ||
              negb (String.eqb (lm_state m) "VALIDATED")
  end.

Definition prompt_changed (route : LlmRoleRoute) (versions : json) : bool :=
  negb (is_opt_text (lr_prompt_profile_id route) (get_field "prompt_profile_id" versions)) ||
  match lr_prompt_profile_id route with
  | None => false
  | Some id => match opt_text (Some id) ≫= fun id => llm_prompts db !! id with
               | None => true
               | Some p => negb (String.eqb (lq_state p) "VALIDATED") ||
                           negb (is_text (lq_content_hash p) (get_field "prompt_content_hash" versions))
               end
  end.

(** The id of the fallback the run was created with. *)
Definition frozen_fallback (versions : json) : option string :=
  let id := get_field "fallback_model_id" versions in if truthy id then Some (py_str id) else None.

(** [_binding]: the routes, models and prompts the run was created with, or
    nothing. *)
Definition binding_of (versions : json) (route : LlmRoleRoute) (model : LlmModelProfile)
  (provider : LlmProviderProfile) : exn + RouteBinding :=
  let fallback_model := model_of (frozen_fallback versions) in
  let fallback_provider := provider_of fallback_model in
  if negb (is_text (lr_id route) (get_field "route_id" versions)) ||
     negb (is_int (lr_version route) (get_field "route_version" versions)) ||
     negb (is_text (lm_id model) (get_field "model_id" versions)) ||
     negb (is_int (lm_version model) (get_field "model_version" versions)) ||
     negb (is_text (lr_fallback_policy route) (get_field "failure_policy" versions)) ||
     negb (is_opt_text (lm_id <$> fallback_model) (get_field "fallback_model_id" versions)) ||
     negb (is_opt_int (lm_version <$> fallback_model) (get_field "fallback_model_version" versions)) ||
     provider_unusable provider ||
     match fallback_model with Some m => fallback_unusable m fallback_provider | None => false end ||
     prompt_changed route versions
  then inl (AgentRuntimeError "AGENT_ROUTE_SNAPSHOT_MISMATCH" 422)
  else inr (mkRouteBinding route model provider fallback_model fallback_provider).

Definition _binding (st : AgentStageRun) : exn + RouteBinding :=
  match ag_route_id st with
  | None => inl (AgentRuntimeError "AGENT_ROUTE_NOT_READY" 422)
  | Some route_id =>
      let route := llm_routes db !! route_id in
      let model := model_of (lr_primary_model_profile_id <$> route) in
      match route, model, provider_of model with
      | Some route, Some model, Some provider =>
          binding_of (get_or (JObj []) (ag_role st) (ar_route_versions run)) route model provider
      | _, _, _ => inl (AgentRuntimeError "AGENT_ROUTE_SNAPSHOT_MISMATCH" 422)
      end
  end.
End Binding.

(** ** The input of a scout *)

(** The position of a run: frozen in it, or the row as it is now. *)
Inductive scout_position :=
| NoPosition
| FrozenPosition (p : json)
| CurrentPosition (p : Position).

Definition position_ref (p : scout_position) : option string :=
  match p with
  | NoPosition => None
  | FrozenPosition p => let id := get_field "position_id" p in
                        if truthy id then Some (py_str id) else None
  | CurrentPosition p => Some (p_id p)
  end.

Definition position_json (p : scout_position) : json :=
  let fields quantity average_price state version :=
    JObj [("ref", jopt_str (position_ref p)); ("quantity", quantity); ("average_price", average_price);
          ("state", state); ("version", version)] in
  match p with
  | NoPosition => JNull
  | FrozenPosition v => fields (get_field "quantity" v) (get_field "average_price" v)
                          (get_field "state" v) (get_field "version" v)
  | CurrentPosition p => fields (JInt (p_quantity p)) (jopt_dec (Some (p_average_price p)))
                           (JStr (position_state_text (p_state p))) (JInt (p_version p))
  end.

Definition indicator_input (i : IndicatorSnapshot) : json :=
  JObj [("ref", JStr (is_id i)); ("calculator_version", JStr (is_calculator_version i));
        ("vwap", jopt_dec (Some (is_vwap i))); ("sma5", jopt_dec (is_sma5 i));
        ("drawdown_from_high_pct", jopt_dec (Some (is_drawdown_from_high_pct i)));
        ("spread_pct", jopt_dec (is_spread_pct i)); ("price_vs_vwap_pct", jopt_dec (is_price_vs_vwap_pct i));
        ("sma5_slope_pct", jopt_dec (is_sma5_slope_pct i));
        ("relative_volume_5", jopt_dec (is_relative_volume_5 i));
        ("realized_volatility_pct", jopt_dec (is_realized_volatility_pct i));
        ("minute_bar_count", JInt (is_minute_bar_count i))].

Definition snapshot_input (s : MarketSnapshot) : json :=
  JObj [("ref", JStr (ms_id s)); ("last_price", jopt_dec (Some (ms_last_price s)));
        ("open_price", jopt_dec (Some (ms_open_price s))); ("high_price", jopt_dec (Some (ms_high_price s)));
        ("low_price", jopt_dec (Some (ms_low_price s)));
        ("cumulative_volume", JInt (ms_cumulative_volume s));
        ("best_bid_price", jopt_dec (ms_best_bid_price s)); ("best_ask_price", jopt_dec (ms_best_ask_price s));
        ("trading_status", JStr (ms_trading_status s)); ("quality", JStr (quality_text (ms_quality s)))].

Definition opt_list (s : option string) : list string := match s with Some x => [x] | None => [] end.

Definition scout_refs (snapshot : MarketSnapshot) (bundle : EvidenceBundle)
  (indicator : option IndicatorSnapshot) (position : scout_position)
  (market_context : option MarketContextSnapshot) : list string :=
  [ms_id snapshot; eb_id bundle] ++ opt_list (is_id <$> indicator) ++ opt_list (position_ref position) ++
  opt_list (mc_id <$> market_context).

Definition texts_json (l : list string) : json := JList (map JStr l).

(** [_scout_role_input] *)
Definition scout_role_input (run : AgentRun) (snapshot : MarketSnapshot) (bundle : EvidenceBundle)
  (indicator : option IndicatorSnapshot) (position : scout_position)
  (market_context : option MarketContextSnapshot) : list (string * json) :=
  [("market", JStr (ar_market run)); ("symbol", JStr (ar_symbol run));
   ("analysis_context", jopt_str (ar_analysis_context run));
   ("observed_at", JStr (iso_datetime (ms_event_at snapshot)));
   ("valid_until", JStr (iso_datetime (ar_valid_until run)));
   ("market_snapshot", snapshot_input snapshot);
   ("evidence_bundle", JObj [("ref", JStr (eb_id bundle)); ("state", JStr (eb_state bundle));
                             ("evidence_refs", texts_json (eb_evidence_ids bundle));
                             ("reason_codes", texts_json (eb_reason_codes bundle))]);
   ("indicator_snapshot", match indicator with Some i => indicator_input i | None => JNull end);
   ("position", position_json position);
   ("server_input_policy_version", jopt_str (ar_server_input_policy_version run));
   ("market_context_snapshot", match market_context with Some c => mc_payload c | None => JNull end);
   ("allowed_input_refs", texts_json (scout_refs snapshot bundle indicator position market_context));
   ("allowed_evidence_refs", texts_json (eb_evidence_ids bundle))].

(** ** Frozen inputs of a run *)

Section Frozen.
Context (sha256 : string -> string).

(** The market context a run was created with; a change of its row is a
    conflict. *)
Inductive context_reading :=
| NoContext
| ContextConflicted
| Context_ (mc : MarketContextSnapshot).

Definition frozen_context (run : AgentRun) (db : DB) : context_reading :=
  match opt_text (ar_market_context_snapshot_id run) with
  | None => NoContext
  | Some id =>
      if negb (uses_server_inputs (ar_dag_version run)) then NoContext
      else match market_contexts db !! id with
           | None => ContextConflicted
           | Some mc =>
               if negb (is_dict (mc_payload mc)) ||
                  negb (bool_decide (Some (mc_payload_hash mc) = ar_market_context_snapshot_hash run)) ||
                  negb (bool_decide (Some (_hash sha256 (mc_payload mc)) =
                                     ar_market_context_snapshot_hash run))
               then ContextConflicted else Context_ mc
           end
  end.

Definition context_row (c : context_reading) : option MarketContextSnapshot :=
  match c with Context_ mc => Some mc | _ => None end.

(** The position frozen in a run. *)
Inductive position_reading :=
| PositionMissing
| PositionConflicted
| PositionFrozen (p : scout_position).

Definition frozen_position (run : AgentRun) : exn + position_reading :=
  match ar_position_snapshot run, opt_text (ar_position_snapshot_hash run) with
  | Some position, Some hash =>
      if negb (String.eqb (_hash sha256 position) hash) then inr PositionConflicted
      else if negb (is_dict position) then inl OtherError
      else inr (PositionFrozen (if is_text "OPEN_POSITION" (get_field "marker" position)
                                then FrozenPosition position else NoPosition))
  | _, _ => inr PositionMissing
  end.

Definition open_position (symbol : string) (db : DB) : scout_position :=
  match find_row (fun p => String.eqb (p_symbol p) symbol && bool_decide (p_state p = POS_OPEN) &&
                           (0 <? p_quantity p)) (positions db) with
  | Some p => CurrentPosition p
  | None => NoPosition
  end.

Definition frozen_json (p : scout_position) : option json :=
  match p with FrozenPosition v => Some v | _ => None end.
End Frozen.

(** ** The bodies *)

Section Stages.
Context (sha256 : string -> string) (fromisoformat : string -> option Z).
Context (read_secret : string -> option string) (model_json_schema : string -> json).
Context (http_adapter : LlmProviderAdapter -> LlmRequest -> string -> exn + LlmResult).
Context {Lax : Pydantic}.
Context (settings : Settings) (so : Sources).

Definition complete (st : AgentStageRun) (state : StageState) (output : json) (now : Z) : prog unit :=
  update_stage (ag_id st) (_complete_stage sha256 state output now) ;;
  mret tt.

(** *** INTEL_COLLECTOR *)

Definition new_evidence (run : AgentRun) (source_type source_tier source_name source_url title : string)
  (facts record : json) (published_at now : Z) : prog string :=
  id ← uuid7;
  created_at ← utcnow;
  flush_checked (fun db => db) (fun db => bool_decide (is_Some (evidence_items db !! id)))
    (put_evidence (mkEvidenceItem id (ar_id run) (ar_market run) (ar_symbol run) source_type source_tier
       source_name (Some source_url) title facts (_hash sha256 record) "RULE" (Some published_at)
       (Some published_at) now created_at)) ;;
  mret id.

Definition dart_collection (symbol : string) (now : Z) : exn + Dart.DartCollection :=
  (Dart.collect_dart_disclosures (so_namelist so) (so_read_list so) (so_json_loads so) (so_xml_status so)
     sha256 (so_corp_codes so) (so_disclosure_pages so) settings (so_settings so) symbol now
     (so_dart_cache so)).2.

Definition krx_collection (symbol : string) (now : Z) : exn + Krx.KrxCollection :=
  (Krx.collect_krx_daily_market sha256 (so_market_rows so) settings (so_settings so) symbol now
     (so_krx_cache so)).2.

Definition news_collection (symbol : string) (company_name : option string) (now : Z) :
  exn + Naver.NaverNewsCollection :=
  (Naver.collect_naver_news (so_unescape so) (so_identity_key so)
     (so_parsedate so) sha256 (so_news so) settings (so_settings so) symbol company_name now
     (so_naver_cache so)).2.

(** What has been collected so far: the ids of the evidence, the results by
    source in the order they came, the name of the company. *)
Record intel := mkIntel {
  in_evidence_ids : list string;
  in_source_results : list (string * json);
  in_company_name : option string
}.

Definition stored_disclosure (run : AgentRun) (d : Dart.DartDisclosure) (now : Z) : prog string :=
  published_at ← or_raise (receipt_date_as_utc (Dart.receipt_date d)) ValueError;
  new_evidence run "DART_DISCLOSURE" "PRIMARY" "OPENDART" (Dart.source_url d)
    (text_or (Dart.report_name d) (Dart.corporation_name d)) (Dart.facts d)
    (JObj [("source_policy_version", JStr Dart.SOURCE_POLICY_VERSION);
           ("receipt_number", JStr (Dart.receipt_number d)); ("facts", Dart.facts d)]) published_at now.

Fixpoint store_disclosures (run : AgentRun) (l : list Dart.DartDisclosure) (i : intel) (now : Z) :
  prog intel :=
  match l with
  | [] => mret i
  | d :: l =>
      id ← stored_disclosure run d now;
      store_disclosures run l
        (mkIntel (in_evidence_ids i ++ [id]) (in_source_results i)
           (if String.eqb (Dart.corporation_name d) EmptyString then in_company_name i
            else Some (Dart.corporation_name d))) now
  end.

Definition add_result (source : string) (result : json) (i : intel) : intel :=
  mkIntel (in_evidence_ids i) (dict_set source result (in_source_results i)) (in_company_name i).

Definition count {A} (l : list A) : json := JInt (Z.of_nat (length l)).

Definition collect_dart (run : AgentRun) (i : intel) (now : Z) : prog intel :=
  if dart_enabled settings then
    collection ← of_result (dart_collection (ar_symbol run) now);
    i ← store_disclosures run (Dart.disclosures collection) i now;
    mret (add_result "OPENDART"
      (JObj [("source_policy_version", JStr Dart.SOURCE_POLICY_VERSION);
             ("query_start_date", JStr (Dart.start_date collection));
             ("query_end_date", JStr (Dart.end_date collection));
             ("pages_fetched", JInt (Dart.pages_fetched collection));
             ("evidence_count", count (Dart.disclosures collection))]) i)
  else mret i.

Definition stored_market (run : AgentRun) (m : Krx.KrxDailyMarket) (now : Z) : prog string :=
  published_at ← or_raise (base_date_as_utc (Krx.base_date m)) ValueError;
  new_evidence run "KRX_DAILY_MARKET" "PRIMARY" "KRX_OPEN_API" (Krx.source_url m)
    (Krx.name m +:+ " " +:+ Krx.market_name m +:+ " " +:+ Krx.base_date m +:+ " 일별매매정보")
    (Krx.facts m)
    (JObj [("source_policy_version", JStr Krx.SOURCE_POLICY_VERSION);
           ("base_date", JStr (Krx.base_date m)); ("symbol", JStr (Krx.symbol m));
           ("facts", Krx.facts m)]) published_at now.

Definition collect_krx (run : AgentRun) (i : intel) (now : Z) : prog intel :=
  if krx_enabled settings then
    collection ← of_result (krx_collection (ar_symbol run) now);
    i ← match Krx.item collection with
        | None => mret i
        | Some m =>
            id ← stored_market run m now;
            mret (mkIntel (in_evidence_ids i ++ [id]) (in_source_results i)
                    (if String.eqb (Krx.name m) EmptyString then in_company_name i
                     else Some (Krx.name m)))
        end;
    mret (add_result "KRX"
      (JObj [("source_policy_version", JStr Krx.SOURCE_POLICY_VERSION);
             ("dates_queried", texts_json (Krx.dates_queried collection));
             ("requests_made", JInt (Krx.requests_made collection));
             ("evidence_count", JInt (match Krx.item collection with Some _ => 1 | None => 0 end))]) i)
  else mret i.

(** The ids of the stored news: all of them, the fresh and the stale. *)
Fixpoint store_news (run : AgentRun) (l : list Naver.NaverNewsItem) (ids fresh stale : list string)
  (now : Z) : prog (list string * list string * list string) :=
  match l with
  | [] => mret (ids, fresh, stale)
  | n :: l =>
      id ← new_evidence run "NEWS" "SECONDARY" "NAVER_API_HUB_NEWS" (Naver.source_url n) (Naver.title n)
             (Naver.facts n)
             (JObj [("source_policy_version", JStr Naver.SOURCE_POLICY_VERSION);
                    ("source_url", JStr (Naver.source_url n));
                    ("published_at", JStr (iso_datetime (Naver.published_at n)));
                    ("facts", Naver.facts n)]) (Naver.published_at n) now;
      if Naver.stale n then store_news run l (ids ++ [id]) fresh (stale ++ [id]) now
      else store_news run l (ids ++ [id]) (fresh ++ [id]) stale now
  end.

Definition collect_news (run : AgentRun) (i : intel) (now : Z) : prog intel :=
  if naver_news_enabled settings then
    collection ← of_result (news_collection (ar_symbol run) (in_company_name i) now);
    stored ← store_news run (Naver.items collection) (in_evidence_ids i) [] [] now;
    let '(ids, fresh_ids, stale_ids) := stored in
    mret (add_result "NAVER_NEWS"
      (JObj [("source_policy_version", JStr Naver.SOURCE_POLICY_VERSION);
             ("query_identity", JStr (Naver.query_identity collection));
             ("returned_count", JInt (Naver.returned_count collection));
             ("evidence_count", count fresh_ids); ("stale_count", count stale_ids);
             ("irrelevant_count", JInt (Naver.irrelevant_count collection));
             ("unsafe_url_count", JInt (Naver.unsafe_url_count collection));
             ("cache_hit", JBool (Naver.cache_hit collection));
             ("fresh_evidence_ids", texts_json fresh_ids); ("stale_evidence_ids", texts_json stale_ids)])
      (mkIntel ids (in_source_results i) (in_company_name i)))
  else mret i.

Definition source_mode (results : list (string * json)) : string :=
  match results with
  | _ :: _ :: _ => "MULTI_OFFICIAL"
  | _ => if bool_decide (is_Some (dict_get "OPENDART" results)) then "OPENDART_PRIMARY"
         else if bool_decide (is_Some (dict_get "KRX" results)) then "KRX_DAILY_PRIMARY"
         else "NAVER_NEWS_SECONDARY"
  end.

Definition intel_output (i : intel) : json :=
  match in_source_results i with
  | [] => JObj [("schema_version", JStr "intel-fixture-v1"); ("status", JStr "SUCCEEDED");
                ("source_mode", JStr "FIXTURE_NONE"); ("evidence_count", JInt 0)]
  | (_, first) :: rest =>
      JObj [("schema_version", JStr "intel-official-primary-v2"); ("status", JStr "SUCCEEDED");
            ("source_mode", JStr (source_mode (in_source_results i)));
            ("source_policy_version", match rest with
                                      | [] => get_field "source_policy_version" first
                                      | _ => JStr EVIDENCE_POLICY_VERSION
                                      end);
            ("source_results", JObj (in_source_results i));
            ("evidence_count", count (in_evidence_ids i));
            ("evidence_ids", texts_json (in_evidence_ids i))]
  end.

Definition run_intel (st : AgentStageRun) (run : AgentRun) (now : Z) : prog unit :=
  i ← collect_dart run (mkIntel [] [] None) now;
  i ← collect_krx run i now;
  i ← collect_news run i now;
  complete st SG_SUCCEEDED (intel_output i) now.

(** *** EVIDENCE_VERIFIER *)

Definition first_stage (run : AgentRun) (role : string) (db : DB) : option AgentStageRun :=
  find_row (fun st => String.eqb (ag_run_id st) (ar_id run) && String.eqb (ag_role st) role)
    (agent_stages db).

(** [order_by(created_at, id)] *)
Definition evidence_order (a b : EvidenceItem) : bool :=
  if ei_created_at a =? ei_created_at b then String.leb (ei_id a) (ei_id b)
  else ei_created_at a <? ei_created_at b.

Definition evidence_of (run : AgentRun) (f : EvidenceItem -> bool) (db : DB) : list EvidenceItem :=
  sort_by evidence_order
    (List.filter (fun e => String.eqb (ei_run_id e) (ar_id run) && f e) (rows (evidence_items db))).

Definition verifiable (e : EvidenceItem) : bool :=
  bool_decide (ei_source_type e ∈ ["DART_DISCLOSURE"; "KRX_DAILY_MARKET"; "NEWS"]) &&
  bool_decide (ei_source_tier e ∈ ["PRIMARY"; "SECONDARY"]).

Definition of_type (source_type : string) (e : EvidenceItem) : bool :=
  String.eqb (ei_source_type e) source_type.

(** [int(news_result.get(key, 0))] *)
Definition stored_count (key : string) (v : json) : Z := default 0 (int_of_json (get_or (JInt 0) key v)).

(** What the verifier concludes of the sources queried and the items kept. *)
Definition verifier_codes (intel source_results news_result : json) (verified : list EvidenceItem) :
  list string :=
  let code source_type present absent :=
    if existsb (of_type source_type) verified then [present] else absent in
  let codes :=
    code "DART_DISCLOSURE" "DART_PRIMARY_EVIDENCE_VERIFIED"
      (if has_key "OPENDART" source_results || is_text "OPENDART_PRIMARY" (get_field "source_mode" intel)
       then ["DART_QUERY_COMPLETE_NO_MATCHES"] else []) ++
    code "KRX_DAILY_MARKET" "KRX_PRIMARY_EVIDENCE_VERIFIED"
      (if has_key "KRX" source_results then ["KRX_QUERY_COMPLETE_NO_MATCH"] else []) ++
    code "NEWS" "NAVER_NEWS_SECONDARY_EVIDENCE_VERIFIED"
      (if has_key "NAVER_NEWS" source_results
       then [if 0 <? stored_count "stale_count" news_result then "NAVER_NEWS_STALE_ONLY"
             else if stored_count "returned_count" news_result =? 0
             then "NAVER_NEWS_QUERY_COMPLETE_NO_MATCHES" else "NAVER_NEWS_NO_RELEVANT_RESULTS"]
       else []) in
  match codes with [] => ["NO_EXTERNAL_EVIDENCE_FIXTURE"] | _ => codes end.

Definition full_coverage (source_results : json) (verified : list EvidenceItem) : bool :=
  has_key "OPENDART" source_results && has_key "KRX" source_results &&
  has_key "NAVER_NEWS" source_results && existsb (of_type "KRX_DAILY_MARKET") verified.

(** The bundle without its hash, its owner and its time. *)
Definition bundle_record (run : AgentRun) (snapshot : MarketSnapshot) (state : string)
  (ids stale codes : list string) : list (string * json) :=
  [("schema_version", JStr "evidence-bundle-v1"); ("market", JStr (ar_market run));
   ("symbol", JStr (ar_symbol run)); ("market_snapshot_id", JStr (ms_id snapshot));
   ("policy_version", JStr EVIDENCE_POLICY_VERSION); ("state", JStr state);
   ("evidence_ids", texts_json ids); ("stale_evidence_ids", texts_json stale);
   ("reason_codes", texts_json codes)].

Definition put_bundle (b : EvidenceBundle) (db : DB) : DB :=
  set_evidence_bundles db (<[eb_id b := b]> (evidence_bundles db)).

(** A run has one bundle. *)
Definition bundle_clash (b : EvidenceBundle) (db : DB) : bool :=
  bool_decide (is_Some (evidence_bundles db !! eb_id b)) ||
  bool_decide (is_Some (find_row (fun b' => String.eqb (eb_run_id b') (eb_run_id b)) (evidence_bundles db))).

Definition verified_bundle (run : AgentRun) (snapshot : MarketSnapshot) (id : string) (now : Z) (db : DB) :
  EvidenceBundle :=
  let intel := default (JObj []) (first_stage run "INTEL_COLLECTOR" db ≫= ag_output) in
  let source_results := get_or (JObj []) "source_results" intel in
  let news_result := get_or (JObj []) "NAVER_NEWS" source_results in
  let stale_ids := json_texts (get_or (JList []) "stale_evidence_ids" news_result) in
  let candidates := evidence_of run verifiable db in
  let is_stale e := bool_decide (ei_id e ∈ stale_ids) in
  let verified := List.filter (fun e => negb (is_stale e)) candidates in
  let ids := map ei_id verified in
  let stale := map ei_id (List.filter is_stale candidates) in
  let codes := verifier_codes intel source_results news_result verified in
  let state := if full_coverage source_results verified then "VERIFIED" else "PARTIAL" in
  mkEvidenceBundle id (ar_owner_id run) (ar_id run) (ar_market run) (ar_symbol run) now
    EVIDENCE_POLICY_VERSION state ids stale codes
    (_hash sha256 (JObj (bundle_record run snapshot state ids stale codes))).

Definition bundle_output (run : AgentRun) (snapshot : MarketSnapshot) (b : EvidenceBundle) : json :=
  JObj (bundle_record run snapshot (eb_state b) (eb_evidence_ids b) (eb_stale_evidence_ids b)
          (eb_reason_codes b) ++ [("bundle_id", JStr (eb_id b)); ("bundle_hash", JStr (eb_bundle_hash b))]).

Definition run_verifier (st : AgentStageRun) (run : AgentRun) (snapshot : MarketSnapshot) (now : Z) :
  prog unit :=
  id ← uuid7;
  bundle ← gets (verified_bundle run snapshot id now);
  flush_checked (fun db => db) (bundle_clash bundle) (put_bundle bundle) ;;
  complete st SG_SUCCEEDED (bundle_output run snapshot bundle) now.

(** *** EVIDENCE_CANDIDATE_AUDITOR *)

Definition unrated (e : EvidenceItem) : bool := String.eqb (ei_source_tier e) "UNRATED".

Definition provider_counts (candidates : list EvidenceItem) : list (string * Z) :=
  foldl (fun d e => dict_add (ei_source_name e) 1 d) [] candidates.

Definition audit_output (candidates : list EvidenceItem) (bundle : EvidenceBundle) : json :=
  JObj [("schema_version", JStr "evidence-candidate-audit-v1"); ("status", JStr "SUCCEEDED");
        ("candidate_count", count candidates); ("candidate_ids", texts_json (map ei_id candidates));
        ("provider_counts", JObj (map (fun f => (f.1, JInt f.2))
           (sort_by (fun a b => String.leb a.1 b.1) (provider_counts candidates))));
        ("reason_codes", texts_json [match candidates with
                                     | [] => "NO_PROVIDER_SOURCE_CANDIDATES"
                                     | _ => "UNRATED_SOURCE_CANDIDATES_PRESENT"
                                     end]);
        ("evidence_bundle_ref", JStr (eb_id bundle)); ("evidence_bundle_hash", JStr (eb_bundle_hash bundle));
        ("bundle_mutated", JBool false)].

Definition run_auditor (st : AgentStageRun) (run : AgentRun) (bundle : EvidenceBundle) (now : Z) :
  prog unit :=
  candidates ← gets (evidence_of run unrated);
  complete st SG_SUCCEEDED (audit_output candidates bundle) now.

(** *** The scouts *)

Definition finish_assessment (st : AgentStageRun) (v2 : bool) (made : exn + AgentAssessment) (now : Z) :
  prog unit :=
  a ← of_result made;
  complete st (as_status a) (assessment_dump v2 a) now.

(** The stage has its own result, or a model is asked. *)
Inductive scout_plan :=
| Answer_ (a : exn + AgentAssessment)
| Ask (role_input : list (string * json)) (by_rule : exn + AgentAssessment)
    (by_model : AgentScoutModelOutput -> AgentAssessment).

Definition of_model_output (st : AgentStageRun) (run : AgentRun) (refs : list string) (now : Z)
  (o : AgentScoutModelOutput) : AgentAssessment :=
  mkAgentAssessment (ag_id st) (ag_role st) (ar_symbol run) refs (so_status o) (so_stance o)
    (so_entry_score o) (so_exit_risk_score o) (so_confidence o) (so_uncertainty o) (so_reason_codes o)
    (so_evidence_refs o) now (ar_valid_until run).

Section Scout.
Context (st : AgentStageRun) (run : AgentRun) (snapshot : MarketSnapshot) (bundle : EvidenceBundle).
Context (indicator : option IndicatorSnapshot) (context : context_reading) (now : Z).

Let role := ag_role st.
Let v2 := uses_v2_contract (ar_dag_version run).
Let server := uses_server_inputs (ar_dag_version run).

(** An assessment of the second version without a result. *)
Definition unusable (refs : list string) (status : StageState) (codes : list string) :
  exn + AgentAssessment :=
  make_assessment true
    (no_assessment (ag_id st) (ar_symbol run) refs now (ar_valid_until run) role status codes).

Definition context_or (fallback : string) : string := default fallback (opt_text (ar_analysis_context run)).

Definition assess_v2 (refs : list string) (position : option json) (market_context : option json)
  (analysis_context : string) : exn + AgentAssessment :=
  _assessment_v2 (ag_id st) (ar_symbol run) refs now (ar_valid_until run) role indicator snapshot position
    market_context (ar_server_input_policy_version run) analysis_context.

Definition stale_position (position : scout_position) : bool :=
  match position with FrozenPosition p => negb (position_fresh p) | _ => false end.

(** What a scout does with a position that could be read. *)
Definition plan_with (position : scout_position) : scout_plan :=
  let row := if String.eqb role "MARKET_SECTOR_SCOUT" then context_row context else None in
  let refs := scout_refs snapshot bundle indicator position row in
  let payload := mc_payload <$> context_row context in
  if server && String.eqb role "MARKET_SECTOR_SCOUT" && bool_decide (context_row context = None) then
    match context with
    | ContextConflicted => Answer_ (unusable refs SG_CONFLICTED ["INPUT_DATA_CONFLICTED"])
    | _ => Answer_ (assess_v2 refs (frozen_json position) None (context_or "ENTRY"))
    end
  else if v2 && String.eqb role "POSITION_RISK_SCOUT" && bool_decide (ar_analysis_context run = Some "ENTRY")
  then Answer_ (assess_v2 refs None payload "ENTRY")
  else if server && String.eqb role "POSITION_RISK_SCOUT" && stale_position position
  then Answer_ (assess_v2 refs (frozen_json position) payload (context_or "POSITION"))
  else
    Ask (scout_role_input run snapshot bundle indicator position row)
      (if v2 then assess_v2 refs (frozen_json position) payload (context_or "ENTRY")
       else make_assessment false
              (_assessment (ag_id st) (ar_symbol run) refs now (ar_valid_until run) role indicator snapshot
                 match position with CurrentPosition _ => true | _ => false end))
      (of_model_output st run refs now).

Definition scout_plan_of (db : DB) : exn + scout_plan :=
  let refs := scout_refs snapshot bundle indicator NoPosition None in
  if v2 then
    reading ← frozen_position sha256 run;
    inr match reading with
        | PositionMissing => Answer_ (unusable refs SG_INSUFFICIENT_DATA ["INPUT_DATA_MISSING"])
        | PositionConflicted =>
            Answer_ (unusable refs SG_CONFLICTED
              ("INPUT_DATA_CONFLICTED" :: (if String.eqb role "POSITION_RISK_SCOUT"
                                           then ["POSITION_DATA_CONFLICTED"] else [])))
        | PositionFrozen position => plan_with position
        end
  else inr (plan_with (open_position (ar_symbol run) db)).
End Scout.

Definition invoke (st : AgentStageRun) (binding : RouteBinding) (role_input : list (string * json)) (now : Z) :
  prog InvocationOutcome :=
  _invoke_model sha256 fromisoformat read_secret model_json_schema http_adapter st binding role_input now.

Definition mock_outcome (o : InvocationOutcome) : bool :=
  String.eqb (lp_adapter_type (io_provider o)) "MOCK".

Definition run_scout (st : AgentStageRun) (run : AgentRun) (snapshot : MarketSnapshot)
  (bundle : EvidenceBundle) (binding : RouteBinding) (now : Z) : prog unit :=
  let v2 := uses_v2_contract (ar_dag_version run) in
  indicator ← gets (fun db => indicator_of_snapshot db (ms_id snapshot));
  context ← gets (frozen_context sha256 run);
  plan ← gets (scout_plan_of st run snapshot bundle indicator context now);
  plan ← of_result plan;
  match plan with
  | Answer_ made => finish_assessment st v2 made now
  | Ask role_input by_rule by_model =>
      outcome ← invoke st binding role_input now;
      if mock_outcome outcome then finish_assessment st v2 by_rule now
      else
        o ← or_raise (scout_output_load (default JNull (io_output_json outcome))) ValueError;
        finish_assessment st v2 (make_assessment v2 (by_model o)) now
  end.

(** *** CORE *)

Definition scout_stages (run : AgentRun) (db : DB) : list AgentStageRun :=
  List.filter (fun st => String.eqb (ag_run_id st) (ar_id run) && bool_decide (ag_role st ∈ SCOUT_ROLES))
    (rows (agent_stages db)).

Definition stored_assessment (v2 : bool) (st : AgentStageRun) : option AgentAssessment :=
  match ag_output st with
  | Some payload => if is_dict payload then assessment_load v2 payload else None
  | None => None
  end.

(** What the core is told of a scout. *)
Definition assessment_payload (v2 : bool) (st : AgentStageRun) : json :=
  match stored_assessment v2 st with
  | Some _ => default JNull (ag_output st)
  | None => JObj [("status", JStr (stage_state_text (ag_state st)));
                  ("error_code", JStr (text_or (default EmptyString (ag_error_code st))
                                         "AGENT_ASSESSMENT_OUTPUT_UNAVAILABLE"))]
  end.

Definition assessments (v2 : bool) (scouts : list AgentStageRun) : list (string * AgentAssessment) :=
  foldl (fun d st => match stored_assessment v2 st with
                     | Some a => dict_set (ag_role st) a d
                     | None => d
                     end) [] scouts.

Definition invalid_roles (v2 : bool) (scouts : list AgentStageRun) : list string :=
  map ag_role (List.filter (fun st => bool_decide (stored_assessment v2 st = None)) scouts).

Definition complete_statuses (run : AgentRun) : list StageState :=
  if uses_v2_contract (ar_dag_version run) && bool_decide (ar_analysis_context run = Some "ENTRY")
  then [SG_SUCCEEDED; SG_NOT_APPLICABLE] else [SG_SUCCEEDED].

(** The roles the core must report as incomplete. *)
Definition incomplete_roles_of (run : AgentRun) (scouts : list AgentStageRun) : list string :=
  let v2 := uses_v2_contract (ar_dag_version run) in
  sorted_texts (remove_dups (invalid_roles v2 scouts ++
    map fst (List.filter (fun f => negb (bool_decide (as_status f.2 ∈ complete_statuses run)))
               (assessments v2 scouts)))).

Definition fallback_core (incomplete : list string) : AgentCore :=
  mkAgentCore (Some "UNKNOWN") "0.0" "HIGH" ["AGENT_RUNTIME_SHADOW_ONLY"; "REQUIRED_SCOUT_INCOMPLETE"]
    incomplete.

(** The core by rule, for a mock provider. *)
Definition rule_core (v2 : bool) (incomplete : list string) : AgentCore :=
  let partial := negb (bool_decide (incomplete = [])) in
  mkAgentCore (if v2 then Some (if partial then "UNKNOWN" else "NEUTRAL") else None)
    (if partial then "0.0" else "0.5") (if partial then "HIGH" else "MEDIUM")
    ["AGENT_RUNTIME_SHADOW_ONLY"; if partial then "REQUIRED_SCOUT_INCOMPLETE" else "DIAGNOSTIC_WAIT_ONLY"]
    incomplete.

Definition finish_core (st : AgentStageRun) (v2 : bool) (c : AgentCore) (now : Z) : prog unit :=
  c ← of_result (make_core v2 c);
  complete st SG_SUCCEEDED (core_dump v2 c) now.

Definition LEGACY_AUDIT : json :=
  JObj [("candidate_count", JInt 0); ("reason_codes", texts_json ["LEGACY_DAG_NO_CANDIDATE_AUDIT"])].

(** The audit of the candidate sources and the stage it is from. *)
Definition candidate_audit (run : AgentRun) (db : DB) : exn + (json * option string) :=
  let missing := inl (AgentRuntimeError "AGENT_EVIDENCE_CANDIDATE_AUDIT_NOT_FOUND" 422) in
  match first_stage run "EVIDENCE_CANDIDATE_AUDITOR" db with
  | None => if String.eqb (ar_dag_version run) "agent-dag-v1" then inr (LEGACY_AUDIT, None) else missing
  | Some audit => match ag_output audit with
                  | None => missing
                  | Some output => inr (output, Some (ag_id audit))
                  end
  end.

Definition core_role_input (run : AgentRun) (snapshot : MarketSnapshot) (bundle : EvidenceBundle)
  (scouts : list AgentStageRun) (incomplete : list string) (audit : json) (audit_ref : option string) :
  exn + list (string * json) :=
  let v2 := uses_v2_contract (ar_dag_version run) in
  candidate_count ← item "candidate_count" audit;
  reason_codes ← item "reason_codes" audit;
  inr [("market", JStr (ar_market run)); ("symbol", JStr (ar_symbol run));
       ("analysis_context", jopt_str (ar_analysis_context run));
       ("assessment_schema_version", JStr (assessment_schema v2));
       ("core_schema_version", JStr (core_schema v2));
       ("score_policy_version", if v2 then JStr SCORE_POLICY_VERSION else JNull);
       ("market_snapshot_ref", JStr (ms_id snapshot)); ("evidence_bundle_ref", JStr (eb_id bundle));
       ("assessments", JObj (foldl (fun d st => dict_set (ag_role st) (assessment_payload v2 st) d) [] scouts));
       ("assessment_hashes", JObj (foldl (fun d st => dict_set (ag_role st) (jopt_str (ag_output_hash st)) d)
                                     [] scouts));
       ("required_incomplete_roles", texts_json incomplete);
       ("evidence_candidate_audit",
          JObj [("ref", jopt_str audit_ref); ("candidate_count", candidate_count);
                ("reason_codes", reason_codes);
                ("verified_evidence_count", count (eb_evidence_ids bundle))])].

(** The core, given the stages of the scouts. *)
Definition core_on (scouts : list AgentStageRun) (st : AgentStageRun) (run : AgentRun)
  (snapshot : MarketSnapshot) (bundle : EvidenceBundle) (binding : RouteBinding) (now : Z) : prog unit :=
  let v2 := uses_v2_contract (ar_dag_version run) in
  let invalid := invalid_roles v2 scouts in
  guard_or (v2 || bool_decide (invalid = [])) ValueError ;;
  let incomplete := incomplete_roles_of run scouts in
  audit ← gets (candidate_audit run);
  audit ← of_result audit;
  if v2 && (negb (bool_decide (invalid = [])) ||
            (String.eqb (ar_dag_version run) DAG_VERSION && negb (bool_decide (incomplete = []))))
  then finish_core st v2 (fallback_core incomplete) now
  else
    role_input ← of_result (core_role_input run snapshot bundle scouts incomplete audit.1 audit.2);
    outcome ← invoke st binding role_input now;
    if mock_outcome outcome then finish_core st v2 (rule_core v2 incomplete) now
    else
      c ← or_raise (core_model_load v2 (default JNull (io_output_json outcome))) ValueError;
      finish_core st v2 c now.

Definition run_core (st : AgentStageRun) (run : AgentRun) (snapshot : MarketSnapshot)
  (bundle : EvidenceBundle) (binding : RouteBinding) (now : Z) : prog unit :=
  scouts ← gets (scout_stages run);
  core_on scouts st run snapshot bundle binding now.

(** *** The stage *)

Definition _execute_stage (st : AgentStageRun) (run : AgentRun) (now : Z) : prog unit :=
  snapshot ← gets (fun db => snapshots db !! ar_market_snapshot_id run);
  snapshot ← or_raise snapshot (AgentRuntimeError "AGENT_MARKET_SNAPSHOT_NOT_FOUND" 422);
  if String.eqb (ag_role st) "INTEL_COLLECTOR" then run_intel st run now
  else if String.eqb (ag_role st) "EVIDENCE_VERIFIER" then run_verifier st run snapshot now
  else
    bundle ← gets (bundle_of run);
    match bundle with
    | None =>
        if uses_v2_contract (ar_dag_version run) && String.eqb (ag_role st) "CORE"
        then finish_core st true (fallback_core SCOUT_ROLES) now
        else raise (AgentRuntimeError "AGENT_EVIDENCE_BUNDLE_NOT_FOUND" 422)
    | Some bundle =>
        if String.eqb (ag_role st) "EVIDENCE_CANDIDATE_AUDITOR" then run_auditor st run bundle now
        else
          binding ← gets (fun db => _binding db run st);
          binding ← of_result binding;
          if bool_decide (ag_role st ∈ SCOUT_ROLES) then run_scout st run snapshot bundle binding now
          else run_core st run snapshot bundle binding now
    end.
End Stages.
