(* ===== verification/StageFrame.v ===== *)
(** * The body of a stage keeps its promise to the queue

    [_execute_stage] of [AgentStages] implements the interface [StageBody] of
    [AgentQueue]: it commits nothing, writes no run, and of the stages only its
    own row, which ends with a result or is left RUNNING. *)

Set Warnings "-register-all".

From Stdlib Require Import ZArith Lia Ascii String.
From stdpp Require Import base numbers strings list gmap.
From S2P Require Import Prelude Decimal Json PyTime Models Session DecimalText PyText.
From S2P Require Import DecisionInputs MockDecision Fusion PyText LlmCatalog KiwoomClient Collectors.
From S2P Require Import AgentContracts AgentQueue AgentRuntime AgentStages.

Open Scope Z_scope.

(** ** Invariants of programs *)

Section Preserves.
Context (I : Sess -> Prop).

(** Whatever [m] does, an exception included, [I] still holds. *)
Definition preserves {A} (m : prog A) : Prop := forall s, I s -> wp m (fun s' _ => I s') s.

Context {A B : Type}.

Lemma preserves_bind (m : prog A) (k : A -> prog B) :
  preserves m -> (forall a, preserves (k a)) -> preserves (mbind k m).
Proof.
  intros Hm Hk s Hs. apply wp_bind. eapply wp_mono; [by apply Hm|].
  intros s' [a|e] H; unfold after; [by apply Hk|done].
Qed.

Lemma preserves_ret (a : A) : preserves (mret a).
Proof. by intros s Hs. Qed.

Lemma preserves_raise e : preserves (raise e : prog A).
Proof. by intros s Hs. Qed.

Lemma preserves_gets (f : DB -> A) : preserves (gets f).
Proof. by intros s Hs. Qed.

Lemma preserves_of_result (r : exn + A) : preserves (of_result r).
Proof. destruct r; by intros s Hs. Qed.

Lemma preserves_or_raise (o : option A) e : preserves (or_raise o e).
Proof. destruct o; by intros s Hs. Qed.

Lemma preserves_guard_or c e : preserves (guard_or c e).
Proof. destruct c; by intros s Hs. Qed.

Lemma preserves_utcnow : preserves utcnow.
Proof. by intros s Hs. Qed.

Lemma preserves_modify f : (forall s, I s -> I (with_work f s)) -> preserves (modify f).
Proof. intros Hf s Hs. by apply Hf. Qed.

Lemma preserves_uuid7 : (forall s, I s -> I (next_uuid s)) -> preserves uuid7.
Proof. intros Hf s Hs. by apply Hf. Qed.

Lemma preserves_flush violated put :
  (forall s, I s -> I (with_work put s)) -> preserves (flush_checked (fun db => db) violated put).
Proof.
  intros Hf s Hs. assert (Hi : interleave (fun db => db) s = s) by by destruct s.
  apply wp_flush_checked; rewrite Hi; intros _; [done|by apply Hf].
Qed.
End Preserves.

(** ** The invariant of a body *)

Section Body.
Context (st0 : AgentStageRun) (stages0 durable0 : gmap string AgentStageRun).
Context (runs0 : gmap string AgentRun).

Definition own_row (P : AgentStageRun -> Prop) (s : Sess) : Prop :=
  agent_stages (disk s) = durable0 /\ agent_runs (work s) = runs0 /\
  exists st', agent_stages (work s) = <[ag_id st0 := st']> stages0 /\ body_wrote st0 st' /\ P st'.

Definition running : Sess -> Prop := own_row (fun st' => ag_state st' = SG_RUNNING).

(** A stage that has its result. *)
Definition has_result (st' : AgentStageRun) : Prop :=
  ag_state st' ∈ DEPENDENCY_OK /\ is_Some (ag_output st') /\ is_Some (ag_completed_at st').

(** A program that ends the stage or raises with the stage running. *)
Definition ends_stage (m : prog unit) : Prop :=
  forall s, running s ->
  wp m (fun s' r => match r with inl _ => own_row has_result s' | inr _ => running s' end) s.

Lemma ends_bind {A} (m : prog A) (k : A -> prog unit) :
  preserves running m -> (forall a, ends_stage (k a)) -> ends_stage (mbind k m).
Proof.
  intros Hm Hk s Hs. apply wp_bind. eapply wp_mono; [by apply Hm|].
  intros s' [a|e] H; unfold after; [by apply Hk|done].
Qed.

Lemma ends_raise e : ends_stage (raise e).
Proof. by intros s Hs. Qed.

Lemma ends_of_result {A} (r : exn + A) k :
  (forall a, r = inr a -> ends_stage (k a)) -> ends_stage (mbind k (of_result r)).
Proof. intros H s Hs. destruct r as [e|a]; [done|]. by apply (H a). Qed.

Lemma ends_gets {A} (f : DB -> A) k : (forall db, ends_stage (k (f db))) -> ends_stage (mbind k (gets f)).
Proof. intros H s Hs. by apply (H (work s)). Qed.

Lemma ends_or_raise {A} (o : option A) e k :
  (forall a, o = Some a -> ends_stage (k a)) -> ends_stage (mbind k (or_raise o e)).
Proof. intros H s Hs. destruct o as [a|]; [|done]. by apply (H a). Qed.

(** A change that leaves the two tables of the agents alone. *)
Definition aside (f : DB -> DB) : Prop :=
  forall db, agent_stages (f db) = agent_stages db /\ agent_runs (f db) = agent_runs db.

Lemma running_aside f s : aside f -> running s -> running (with_work f s).
Proof.
  intros Hf (Hd & Hr & st' & Hw & Hb). destruct (Hf (work s)) as [H1 H2].
  split; [done|]. split; [by rewrite <- Hr|]. exists st'. split; [|done]. cbn. by rewrite H1.
Qed.

Lemma preserves_aside f : aside f -> preserves running (modify f).
Proof. intros Hf. apply preserves_modify. intros s. by apply running_aside. Qed.

Lemma preserves_flush_aside violated put :
  aside put -> preserves running (flush_checked (fun db => db) violated put).
Proof. intros Hf. apply preserves_flush. intros s. by apply running_aside. Qed.

Lemma preserves_uuid_running : preserves running uuid7.
Proof. apply preserves_uuid7. by intros s. Qed.

Lemma wrote_id st' : body_wrote st0 st' -> ag_id st' = ag_id st0.
Proof. intros [H _]. by rewrite H. Qed.

(** Changes of the own row. *)
Lemma wp_update_own f (P Q : AgentStageRun -> Prop) s :
  own_row P s ->
  (forall st', body_wrote st0 st' -> P st' -> body_wrote st0 (f st') /\ Q (f st')) ->
  wp (update_stage (ag_id st0) f) (fun s' r => own_row Q s' /\ exists st', r = inl st') s.
Proof.
  intros (Hd & Hr & st' & Hw & Hb & HP) Hf. destruct (Hf st' Hb HP) as [Hb' HQ].
  assert (Hl : agent_stages (work s) !! ag_id st0 = Some st') by by rewrite Hw, lookup_insert_eq.
  unfold wp, update_stage, gets, mbind, prog_bind, or_raise, modify. rewrite Hl. cbn.
  split; [|by eexists]. split; [done|]. split; [done|]. exists (f st'). split; [|done].
  cbn. by rewrite Hw, (wrote_id _ Hb'), insert_insert_eq.
Qed.

(** What a body writes of its row, step by step. *)
Lemma wrote_refl : body_wrote st0 st0.
Proof. split; [|done]. by destruct st0. Qed.

Lemma wrote_started now st' :
  body_wrote st0 st' -> ag_state st' = SG_RUNNING ->
  body_wrote st0 (set_ag_started_at (set_ag_state st' SG_RUNNING) (Some now)) /\
  ag_state (set_ag_started_at (set_ag_state st' SG_RUNNING) (Some now)) = SG_RUNNING.
Proof.
  intros [Hrow Hinv] HP. split; [split|done].
  - rewrite Hrow at 1. destruct st0, st'. reflexivity.
  - intros Hn. rewrite <- (Hinv Hn). destruct st'. reflexivity.
Qed.

Lemma wrote_invocation id st' :
  body_wrote st0 st' -> ag_state st' = SG_RUNNING ->
  let st'' := match ag_invocation_id st' with
              | None => set_ag_invocation_id st' (Some id) | Some _ => st' end in
  body_wrote st0 st'' /\ ag_state st'' = SG_RUNNING.
Proof.
  intros Hb HP. destruct (ag_invocation_id st') as [i|] eqn:E; [done|]. destruct Hb as [Hrow Hinv].
  split; [split|done].
  - rewrite Hrow at 1. destruct st0, st'. reflexivity.
  - intros Hn. by rewrite (Hinv Hn) in E.
Qed.

Lemma wrote_result sha256 state output now st' :
  state ∈ DEPENDENCY_OK -> body_wrote st0 st' -> ag_state st' = SG_RUNNING ->
  body_wrote st0 (_complete_stage sha256 state output now st') /\
  has_result (_complete_stage sha256 state output now st').
Proof.
  intros Hs Hb _. destruct Hb as [Hrow Hinv]. split; [split|].
  - rewrite Hrow at 1. destruct st0, st'. reflexivity.
  - intros Hn. rewrite <- (Hinv Hn). destruct st'. reflexivity.
  - unfold has_result. destruct st'. cbn. split; [done|]. by split; eexists.
Qed.

Lemma ends_complete sha256 state output now :
  state ∈ DEPENDENCY_OK -> ends_stage (complete sha256 st0 state output now).
Proof.
  intros Hs s Hr. unfold complete. apply wp_bind. eapply wp_mono.
  - eapply wp_update_own; [exact Hr|]. intros st' Hb HP. by apply wrote_result.
  - intros s' r [Ho [st' ->]]. exact Ho.
Qed.

Lemma running_update f :
  (forall st', body_wrote st0 st' -> ag_state st' = SG_RUNNING ->
     body_wrote st0 (f st') /\ ag_state (f st') = SG_RUNNING) ->
  preserves running (update_stage (ag_id st0) f).
Proof.
  intros Hf s Hr. eapply wp_mono.
  - exact (wp_update_own f _ (fun st' => ag_state st' = SG_RUNNING) s Hr Hf).
  - by intros s' r [H _].
Qed.
End Body.

(** One step of the search for what a body preserves. *)
Ltac preserves_step :=
  lazymatch goal with
  | |- preserves _ (mbind _ _) => apply preserves_bind; [|intros ?]
  | |- preserves _ (mret _) => apply preserves_ret
  | |- preserves _ (raise _) => apply preserves_raise
  | |- preserves _ (gets _) => apply preserves_gets
  | |- preserves _ (of_result _) => apply preserves_of_result
  | |- preserves _ (or_raise _ _) => apply preserves_or_raise
  | |- preserves _ (guard_or _ _) => apply preserves_guard_or
  | |- preserves _ utcnow => apply preserves_utcnow
  | |- preserves _ uuid7 => apply preserves_uuid_running
  | |- preserves _ (modify _) => apply preserves_aside
  | |- preserves _ (flush_checked _ _ _) => apply preserves_flush_aside
  | |- preserves _ (match ?x with _ => _ end) => destruct x
  | |- preserves _ (let _ := _ in _) => cbv zeta
  | |- aside _ => by intros ?
  end.
Ltac preserved := repeat first [preserves_step | solve [eauto with stage]].

Create HintDb stage.

Section Invocations.
Context (sha256 : string -> string) (fromisoformat : string -> option Z).
Context (read_secret : string -> option string) (model_json_schema : string -> json).
Context (http_adapter : LlmProviderAdapter -> LlmRequest -> string -> exn + LlmResult).
Context {Lax : Pydantic}.
Context (st0 : AgentStageRun) (stages0 durable0 : gmap string AgentStageRun).
Context (runs0 : gmap string AgentRun).

Abbreviation kept := (preserves (running st0 stages0 durable0 runs0)).

Lemma kept_start provider model route state code now completed :
  kept (start_invocation st0 provider model route state code now completed).
Proof.
  unfold start_invocation. preserved.
  - apply running_update. intros st'. apply wrote_started.
  - apply running_update. intros st'. apply wrote_invocation.
Qed.

Lemma kept_no_outcome id f : kept (no_outcome id f).
Proof. unfold no_outcome. preserved. Qed.

Lemma kept_capture id output at_ : kept (capture sha256 id output at_).
Proof. unfold capture. preserved. Qed.

Lemma kept_persist_each run name urls l now : kept (persist_each sha256 fromisoformat run name urls l now).
Proof. revert urls. induction l as [|c l IH]; intros urls; cbn [persist_each]; preserved. Qed.

Lemma kept_candidates st name l now : kept (_persist_source_candidates sha256 fromisoformat st name l now).
Proof. unfold _persist_source_candidates. preserved. apply kept_persist_each. Qed.

#[local] Hint Resolve kept_start kept_no_outcome kept_capture kept_candidates : stage.

Lemma kept_reply id binding model provider v2 role_input result :
  kept (take_reply sha256 fromisoformat id st0 binding model provider v2 role_input result).
Proof. unfold take_reply. preserved. Qed.

#[local] Hint Resolve kept_reply : stage.

Lemma kept_once binding model provider role_input now :
  kept (_invoke_once sha256 fromisoformat read_secret model_json_schema http_adapter st0 binding model
          provider role_input now).
Proof. unfold _invoke_once. preserved. Qed.

#[local] Hint Resolve kept_once : stage.

Lemma kept_model binding role_input now :
  kept (_invoke_model sha256 fromisoformat read_secret model_json_schema http_adapter st0 binding
          role_input now).
Proof. unfold _invoke_model. preserved. Qed.
End Invocations.

(** ** The states a stage may end in *)

(** Every code is one the role may use. *)
Definition in_vocabulary (role : string) (codes : list string) : Prop :=
  invalid_reason_codes role codes = inr [].

(** An assessment by rule: it ends its stage, cites nothing and speaks the
    vocabulary of its role. *)
Definition rule_ok (role : string) (a : AgentAssessment) : Prop :=
  as_status a ∈ DEPENDENCY_OK /\ as_evidence_refs a = [] /\ in_vocabulary role (as_reason_codes a).

Definition made_ok (role : string) (r : exn + AgentAssessment) : Prop :=
  forall a, r = inr a -> rule_ok role a.

Lemma made_assessment role v2 a : rule_ok role a -> made_ok role (make_assessment v2 a).
Proof. intros Ha b. unfold make_assessment. destruct (assessment_valid v2 a); [by intros [= <-]|done]. Qed.

Lemma made_bind role r v2 : made_ok role r -> made_ok role (a ← r; make_assessment v2 a).
Proof.
  intros Hr b H. apply result_bind_inr in H as (a & Ha & H). revert H. apply made_assessment. by apply Hr.
Qed.

Lemma scout_role_cases (P : string -> Prop) :
  P "TECHNICAL_SCOUT" -> P "NEWS_DISCLOSURE_SCOUT" -> P "MARKET_SECTOR_SCOUT" -> P "POSITION_RISK_SCOUT" ->
  forall role, role ∈ SCOUT_ROLES -> P role.
Proof.
  intros H1 H2 H3 H4 role Hr. unfold SCOUT_ROLES in Hr.
  repeat (apply elem_of_cons in Hr as [->|Hr]; [done|]). by apply not_elem_of_nil in Hr.
Qed.

Ltac rule_done := split; [by apply (bool_decide_eq_true _)|]; split; [reflexivity|]; vm_compute; reflexivity.

Ltac rule_cases :=
  repeat match goal with
  | |- made_ok _ (inr _) => let H := fresh in intros ? H; injection H as <-
  | |- made_ok _ (if ?b then _ else _) => destruct b
  | |- made_ok _ (match ?c with _ => _ end) => destruct c
  | |- rule_ok _ (if ?b then _ else _) => destruct b
  | |- rule_ok _ (match ?c with _ => _ end) => destruct c
  end; try rule_done.

Section Rules.
Context (id symbol : string) (refs : list string) (now until : Z).

Lemma rule_assessment_ok role indicator snapshot held :
  role ∈ SCOUT_ROLES -> rule_ok role (_assessment id symbol refs now until role indicator snapshot held).
Proof.
  revert role. apply scout_role_cases; unfold _assessment; cbn [String.eqb Ascii.eqb Bool.eqb]; rule_cases.
Qed.

Lemma market_ok context :
  made_ok "MARKET_SECTOR_SCOUT"
    (market_assessment id symbol refs now until "MARKET_SECTOR_SCOUT" context).
Proof.
  unfold market_assessment. intros a H. repeat (apply result_bind_inr in H as (? & _ & H)).
  repeat (case_match; try (injection H as <-)); rule_done.
Qed.

Lemma position_ok position :
  made_ok "POSITION_RISK_SCOUT"
    (position_assessment id symbol refs now until "POSITION_RISK_SCOUT" position).
Proof.
  unfold position_assessment. destruct (negb _); [rule_cases|].
  intros a H. repeat (apply result_bind_inr in H as (? & _ & H)). injection H as <-. rule_cases.
Qed.

Lemma made_v2 role indicator snapshot position context policy ctx :
  role ∈ SCOUT_ROLES ->
  made_ok role
    (_assessment_v2 id symbol refs now until role indicator snapshot position context policy ctx).
Proof.
  intros Hr. unfold _assessment_v2. apply made_bind.
  pose proof (fun held => rule_assessment_ok role indicator snapshot held Hr) as Hrule.
  destruct (String.eqb_spec role "POSITION_RISK_SCOUT") as [->|].
  - cbn [andb]. destruct (String.eqb ctx "ENTRY"); [rule_cases|]. change (String.eqb _ "MARKET_SECTOR_SCOUT") with false.
    cbn [andb]. destruct position; [destruct (_ && _); [apply position_ok|]|]; by apply made_assessment.
  - cbn [andb]. destruct (String.eqb_spec role "MARKET_SECTOR_SCOUT") as [->|]; cbn [andb].
    + destruct (bool_decide _); [destruct context; [apply market_ok|rule_cases]|].
      destruct position; by apply made_assessment.
    + destruct position; by apply made_assessment.
Qed.
End Rules.

Lemma scout_output_status `{Pydantic} v o : scout_output_load v = Some o -> so_status o ∈ DEPENDENCY_OK.
Proof.
  intros Hl. assert (Hin : so_status o ∈ SCOUT_STATUS).
  { unfold scout_output_load in Hl. repeat (apply bind_Some in Hl as (? & ? & Hl)).
    injection Hl as <-. cbn.
    match goal with Hs : field _ "status" _ = Some _ |- _ => rename Hs into Hst end.
    unfold field in Hst. destruct (assoc _ _); [|done]. cbn in Hst.
    apply bind_Some in Hst as (t & _ & Ht). unfold state_of in Ht. cbn in Ht.
    apply (bool_decide_eq_true _). repeat (case_match; simplify_eq); reflexivity. }
  apply (bool_decide_eq_true _). apply (bool_decide_eq_true _) in Hin.
  destruct (so_status o); try reflexivity; vm_compute in Hin; discriminate Hin.
Qed.

(** A plan answers by rule; a model's output is stored as it is. *)
Definition plan_ok (role : string) (bundle : EvidenceBundle) (p : scout_plan) : Prop :=
  match p with
  | Answer_ made => made_ok role made
  | Ask role_input by_rule by_model =>
      made_ok role by_rule /\
      role_input_texts "allowed_evidence_refs" role_input = eb_evidence_ids bundle /\
      forall o, as_status (by_model o) = so_status o /\ as_evidence_refs (by_model o) = so_evidence_refs o /\
                as_reason_codes (by_model o) = so_reason_codes o
  end.

Lemma texts_back l : map py_str (map JStr l) = l.
Proof. rewrite map_map. apply map_id. Qed.

Lemma unusable_ok st run now refs status codes :
  status ∈ DEPENDENCY_OK -> in_vocabulary (ag_role st) codes ->
  made_ok (ag_role st) (unusable st run now refs status codes).
Proof. intros Hs Hc. by apply made_assessment. Qed.

Lemma conflicted_codes role :
  role ∈ SCOUT_ROLES ->
  in_vocabulary role ("INPUT_DATA_CONFLICTED" :: (if String.eqb role "POSITION_RISK_SCOUT"
                                                  then ["POSITION_DATA_CONFLICTED"] else [])) /\
  in_vocabulary role ["INPUT_DATA_CONFLICTED"] /\ in_vocabulary role ["INPUT_DATA_MISSING"].
Proof. revert role. apply scout_role_cases; split_and!; vm_compute; reflexivity. Qed.

Lemma plan_with_ok st run snapshot bundle indicator context now position :
  ag_role st ∈ SCOUT_ROLES ->
  plan_ok (ag_role st) bundle (plan_with st run snapshot bundle indicator context now position).
Proof.
  intros Hr. destruct (conflicted_codes _ Hr) as (_ & Hc & _). unfold plan_with. cbv zeta.
  repeat match goal with
  | |- plan_ok _ _ (if ?b then _ else _) => destruct b
  | |- plan_ok _ _ (match ?c with _ => _ end) => destruct c
  end; cbn [plan_ok]; try by apply made_v2.
  1: apply unusable_ok; [by apply (bool_decide_eq_true _)|done].
  all: split; [|split; [apply texts_back|done]].
  all: destruct (uses_v2_contract _); [by apply made_v2|by apply made_assessment, rule_assessment_ok].
Qed.

Lemma scout_plan_ok sha256 st run snapshot bundle indicator context now db p :
  ag_role st ∈ SCOUT_ROLES ->
  scout_plan_of sha256 st run snapshot bundle indicator context now db = inr p ->
  plan_ok (ag_role st) bundle p.
Proof.
  intros Hr. destruct (conflicted_codes _ Hr) as (Hp & _ & Hm).
  unfold scout_plan_of. destruct (uses_v2_contract _); [|intros [= <-]; by apply plan_with_ok].
  intros H. apply result_bind_inr in H as (r & _ & [= <-]).
  destruct r; [..|by apply plan_with_ok]; apply unusable_ok; try done; by apply (bool_decide_eq_true _).
Qed.

(** ** The stage bodies *)

Section Bodies.
Context (sha256 : string -> string) (fromisoformat : string -> option Z).
Context (read_secret : string -> option string) (model_json_schema : string -> json).
Context (http_adapter : LlmProviderAdapter -> LlmRequest -> string -> exn + LlmResult).
Context {Lax : Pydantic}.
Context (settings : Settings) (so : Sources).
Context (st0 : AgentStageRun) (stages0 durable0 : gmap string AgentStageRun).
Context (runs0 : gmap string AgentRun).

Abbreviation kept := (preserves (running st0 stages0 durable0 runs0)).
Abbreviation ends := (ends_stage st0 stages0 durable0 runs0).

Lemma kept_evidence run type tier name url title facts record published now :
  kept (new_evidence sha256 run type tier name url title facts record published now).
Proof. unfold new_evidence. preserved. Qed.

#[local] Hint Resolve kept_evidence : stage.

Lemma kept_disclosures run l i now : kept (store_disclosures sha256 run l i now).
Proof.
  revert i. induction l as [|d l IH]; intros i; cbn [store_disclosures]; unfold stored_disclosure; preserved.
Qed.

Lemma kept_news run l ids fresh stale now : kept (store_news sha256 run l ids fresh stale now).
Proof.
  revert ids fresh stale. induction l as [|n l IH]; intros ids fresh stale; cbn [store_news]; preserved.
Qed.

#[local] Hint Resolve kept_disclosures kept_news : stage.

Lemma kept_dart run i now : kept (collect_dart sha256 settings so run i now).
Proof. unfold collect_dart. preserved. Qed.

Lemma kept_krx run i now : kept (collect_krx sha256 settings so run i now).
Proof. unfold collect_krx, stored_market. preserved. Qed.

Lemma kept_collect_news run i now : kept (collect_news sha256 settings so run i now).
Proof. unfold collect_news. preserved. Qed.

Lemma ends_intel run now : ends (run_intel sha256 settings so st0 run now).
Proof.
  unfold run_intel. apply ends_bind; [apply kept_dart|intros i1].
  apply ends_bind; [apply kept_krx|intros i2]. apply ends_bind; [apply kept_collect_news|intros i3].
  apply ends_complete. apply list_elem_of_here.
Qed.

Lemma ends_succeeded output now : ends (complete sha256 st0 SG_SUCCEEDED output now).
Proof. apply ends_complete, list_elem_of_here. Qed.

Lemma ends_verifier run snapshot now : ends (run_verifier sha256 st0 run snapshot now).
Proof.
  unfold run_verifier. apply ends_bind; [preserved|intros id]. apply ends_bind; [preserved|intros b].
  apply ends_bind; [preserved|intros _]. apply ends_succeeded.
Qed.

Lemma ends_auditor run bundle now : ends (run_auditor sha256 st0 run bundle now).
Proof. unfold run_auditor. apply ends_bind; [preserved|intros l]. apply ends_succeeded. Qed.

Lemma ends_assessment v2 made now :
  (forall a, made = inr a -> as_status a ∈ DEPENDENCY_OK) ->
  ends (finish_assessment sha256 st0 v2 made now).
Proof. intros Hm. unfold finish_assessment. apply ends_of_result. intros a Ha. by apply ends_complete, Hm. Qed.

Lemma ends_rule v2 role made now : made_ok role made -> ends (finish_assessment sha256 st0 v2 made now).
Proof. intros Hm. apply ends_assessment. intros a Ha. by destruct (Hm a Ha). Qed.

Lemma ends_scout run snapshot bundle binding now :
  ag_role st0 ∈ SCOUT_ROLES ->
  ends (run_scout sha256 fromisoformat read_secret model_json_schema http_adapter st0 run snapshot bundle
          binding now).
Proof.
  intros Hr. unfold run_scout. apply ends_bind; [preserved|intros i]. apply ends_bind; [preserved|intros c].
  apply ends_gets. intros db. apply ends_of_result. intros p Hp. apply scout_plan_ok in Hp; [|done].
  destruct p as [made|input rule model]; [by eapply ends_rule|]. destruct Hp as (Hrule & _ & Hm).
  apply ends_bind; [apply kept_model|intros o].
  destruct (mock_outcome o); [by eapply ends_rule|]. apply ends_or_raise. intros out Ho.
  apply ends_assessment. intros a Ha. unfold make_assessment in Ha. destruct (assessment_valid _ _); [|done].
  injection Ha as <-. destruct (Hm out) as [-> _]. by eapply scout_output_status.
Qed.

Lemma ends_core v2 c now : ends (finish_core sha256 st0 v2 c now).
Proof. unfold finish_core. apply ends_bind; [preserved|intros c']. apply ends_succeeded. Qed.

Lemma ends_run_core run snapshot bundle binding now :
  ends (run_core sha256 fromisoformat read_secret model_json_schema http_adapter st0 run snapshot bundle
          binding now).
Proof.
  unfold run_core. apply ends_bind; [preserved|intros scouts]. unfold core_on. apply ends_bind; [preserved|intros _].
  apply ends_bind; [preserved|intros r]. apply ends_bind; [preserved|intros audit].
  destruct (_ && _); [apply ends_core|]. apply ends_bind; [preserved|intros input].
  apply ends_bind; [apply kept_model|intros o]. destruct (mock_outcome o); [apply ends_core|].
  apply ends_bind; [preserved|intros c]. apply ends_core.
Qed.

Lemma ends_stage_body run now :
  ends (_execute_stage sha256 fromisoformat read_secret model_json_schema http_adapter settings so st0
          run now).
Proof.
  unfold _execute_stage. apply ends_bind; [preserved|intros o]. apply ends_bind; [preserved|intros snapshot].
  destruct (String.eqb _ "INTEL_COLLECTOR"); [apply ends_intel|].
  destruct (String.eqb _ "EVIDENCE_VERIFIER"); [apply ends_verifier|].
  apply ends_bind; [preserved|intros [bundle|]].
  - destruct (String.eqb _ "EVIDENCE_CANDIDATE_AUDITOR"); [apply ends_auditor|].
    apply ends_bind; [preserved|intros b]. apply ends_bind; [preserved|intros binding].
    destruct (decide (ag_role st0 ∈ SCOUT_ROLES)) as [Hr|Hr].
    + rewrite bool_decide_eq_true_2 by done. by apply ends_scout.
    + rewrite bool_decide_eq_false_2 by done. apply ends_run_core.
  - destruct (_ && _); [apply ends_core|apply ends_raise].
Qed.
End Bodies.

(** ** The interface *)

Section Interface.
Context (sha256 : string -> string) (fromisoformat : string -> option Z).
Context (read_secret : string -> option string) (model_json_schema : string -> json).
Context (http_adapter : LlmProviderAdapter -> LlmRequest -> string -> exn + LlmResult).
Context {Lax : Pydantic}.
Context (settings : Settings) (so : Sources).

Lemma stage_body_frame st run now s :
  agent_stages (work s) !! ag_id st = Some st -> ag_state st = SG_RUNNING ->
  wp (_execute_stage sha256 fromisoformat read_secret model_json_schema http_adapter settings so st run now)
    (fun s' r => agent_stages (disk s') = agent_stages (disk s) /\ agent_runs (work s') = agent_runs (work s) /\
       exists st', agent_stages (work s') = <[ag_id st := st']> (agent_stages (work s)) /\
         body_wrote st st' /\ body_result st' r) s.
Proof.
  intros Hl Hs.
  assert (Hr : running st (agent_stages (work s)) (agent_stages (disk s)) (agent_runs (work s)) s).
  { split; [done|]. split; [done|]. exists st. split; [by rewrite insert_id|]. split; [apply wrote_refl|done]. }
  eapply wp_mono; [by eapply ends_stage_body|].
  intros s' [[]|e] (Hd & Hru & st' & Hw & Hb & HP); (split; [done|]); (split; [done|]); by exists st'.
Qed.

#[export] Instance agent_stage_body : StageBody := {
  execute_stage := _execute_stage sha256 fromisoformat read_secret model_json_schema http_adapter settings so;
  execute_stage_frame := stage_body_frame
}.
End Interface.
