(* ===== verification/StageProps.v ===== *)
(** * What the stages may store, on a concrete run

    The contract of the stages of an agent run, and a concrete run on which the
    theorems about agents are evaluated. *)

Set Warnings "-register-all".

From Stdlib Require Import ZArith Lia Ascii String.
From stdpp Require Import base numbers strings list gmap.
From S2P Require Import Prelude Decimal Json PyTime Models Session Policies DecimalText PyText DecisionInputs.
From S2P Require Import KiwoomClient Fixtures MockDecision Fusion LlmCatalog AgentContracts AgentQueue Collectors.
From S2P Require Import AgentRuntime AgentStages StageFrame.

Open Scope Z_scope.

(** * What the stages of an agent run may store

    A scout stores evidence only from the verified bundle and speaks the
    vocabulary of its role; the core stores no assessment while a scout is
    incomplete, reports exactly the incomplete ones and stays in the context of
    the run, whatever the models answer. *)

(** ** What a vetted reply is *)

Section Vetting.
Context {Lax : Pydantic}.

Lemma vetted_scout role role_input output :
  vet_scout role role_input output = inr None ->
  exists o, scout_output_load output = Some o /\ in_vocabulary role (so_reason_codes o) /\
    Forall (fun r => r ∈ role_input_texts "allowed_evidence_refs" role_input) (so_evidence_refs o).
Proof.
  unfold vet_scout. destruct (scout_output_load output) as [o|]; [|done]. intros H.
  apply result_bind_inr in H as (invalid & Hi & H). exists o. split; [done|].
  destruct (decide (invalid = [])) as [->|Hn].
  - rewrite bool_decide_eq_true_2 in H by done. cbn [negb] in H.
    destruct (forallb _ _) eqn:E; [|done]. split; [done|]. apply Forall_forall. intros r Hr.
    rewrite forallb_forall in E. apply (bool_decide_eq_true _), E. by apply list_elem_of_In.
  - by rewrite bool_decide_eq_false_2 in H.
Qed.

(** An output of the core agrees with the run: it names exactly the incomplete
    roles, and its assessment belongs to the context, UNKNOWN when a role is
    incomplete. *)
Definition core_agrees (analysis_context : option string) (incomplete : list string) (c : AgentCore) : Prop :=
  ac_incomplete_roles c ≡ₚ incomplete /\
  (incomplete <> [] -> ac_shadow_assessment c = Some "UNKNOWN") /\
  exists s, ac_shadow_assessment c = Some s /\
    s ∈ (if bool_decide (analysis_context = Some "ENTRY") then ENTRY_ASSESSMENTS else POSITION_ASSESSMENTS).

Lemma sorted_texts_perm l : sorted_texts l ≡ₚ l.
Proof. apply sort_by_perm. Qed.

Lemma vetted_core role_input output :
  vet_core true role_input output = inr None ->
  exists c, core_model_load true output = Some c /\ in_vocabulary "CORE" (ac_reason_codes c) /\
    ac_incomplete_roles c ≡ₚ role_input_texts "required_incomplete_roles" role_input /\
    assessment_allowed role_input (sorted_texts (role_input_texts "required_incomplete_roles" role_input))
      (ac_shadow_assessment c) = true.
Proof.
  unfold vet_core. destruct (core_model_load true output) as [c|]; [|done]. intros H.
  apply result_bind_inr in H as (invalid & Hi & H). exists c. split; [done|].
  destruct (decide (invalid = [])) as [->|Hn]; [|by rewrite bool_decide_eq_false_2 in H].
  rewrite bool_decide_eq_true_2 in H by done. cbn [negb] in H.
  destruct (bool_decide (sorted_texts (ac_incomplete_roles c) = _)) eqn:E; [|done]. cbn [negb andb] in H.
  destruct (assessment_allowed _ _ _) eqn:Ea; [|done]. split; [done|]. split; [|done].
  apply bool_decide_eq_true in E. rewrite <- (sorted_texts_perm (ac_incomplete_roles c)), E.
  apply sorted_texts_perm.
Qed.
End Vetting.

(** ** What an invocation returns *)

Section Vetted.
Context (sha256 : string -> string) (fromisoformat : string -> option Z).
Context (read_secret : string -> option string) (model_json_schema : string -> json).
Context (http_adapter : LlmProviderAdapter -> LlmRequest -> string -> exn + LlmResult).
Context {Lax : Pydantic}.
Context (st0 : AgentStageRun) (stages0 durable0 : gmap string AgentStageRun).
Context (runs0 : gmap string AgentRun).

Abbreviation kept := (preserves (running st0 stages0 durable0 runs0)).

(** Only a mock provider's output goes unvetted. *)
Definition vetted (v2 : bool) (role_input : list (string * json)) (o : InvocationOutcome) : Prop :=
  mock_outcome o = false -> vet_output (ag_role st0) v2 role_input (io_output_json o) = inr None.

Definition result_is {A} (P : A -> Prop) (r : A + exn) : Prop :=
  match r with inl a => P a | inr _ => True end.

Definition maybe {A} (P : A -> Prop) (o : option A) : Prop := match o with Some a => P a | None => True end.

Lemma wp_result_bind {A B} (m : prog A) (k : A -> prog B) (P : B -> Prop) s :
  (forall a s', wp (k a) (fun _ => result_is P) s') -> wp (mbind k m) (fun _ => result_is P) s.
Proof.
  intros Hk. apply wp_bind. unfold wp at 1. destruct (m s) as [s' [a|e]]; unfold after; [apply Hk|done].
Qed.

Lemma reply_vetted id binding model provider v2 role_input result s :
  wp (take_reply sha256 fromisoformat id st0 binding model provider v2 role_input result)
    (fun _ => result_is (maybe (vetted v2 role_input))) s.
Proof.
  unfold take_reply, no_outcome. do 3 (apply wp_result_bind; intros ? ?).
  destruct a1; [by apply wp_result_bind; intros ? ?|].
  apply wp_result_bind. intros _ ?. destruct (reply_failed result); [by apply wp_result_bind; intros ? ?|].
  destruct (String.eqb (lp_adapter_type provider) "MOCK") eqn:Em.
  - do 2 wp_step. unfold after. apply wp_result_bind. intros _ ?. wp_step. unfold result_is, maybe, vetted, mock_outcome.
    cbn. by rewrite Em.
  - apply wp_bind. apply wp_of_result; [|done]. intros [code|] Hv; unfold after.
    + by apply wp_result_bind; intros ? ?.
    + apply wp_result_bind. intros _ ?. wp_step. intros _. exact Hv.
Qed.

Context (run : AgentRun) (run_known : runs0 !! ag_run_id st0 = Some run).
Let v2 := uses_v2_contract (ar_dag_version run).

Lemma once_vetted binding model provider role_input now s :
  running st0 stages0 durable0 runs0 s ->
  wp (_invoke_once sha256 fromisoformat read_secret model_json_schema http_adapter st0 binding model provider
        role_input now) (fun _ => result_is (maybe (vetted v2 role_input))) s.
Proof.
  intros (_ & Hruns & _). unfold _invoke_once. do 2 wp_step. unfold after at 1.
  rewrite Hruns, run_known. do 2 wp_step; [|done]. unfold after at 1. simplify_eq. fold v2.
  do 2 (apply wp_result_bind; intros ? ?). destruct (_ && _).
  { unfold no_outcome. by apply wp_result_bind; intros ? ?. }
  do 4 (apply wp_result_bind; intros ? ?). unfold no_outcome.
  destruct (credential_of _ _) as [code|credential]; [by apply wp_result_bind; intros ? ?|].
  apply wp_result_bind; intros ? ?. destruct (resolve _ _ _ _); [|by apply wp_result_bind; intros ? ?].
  apply wp_result_bind; intros ? ?. apply reply_vetted.
Qed.

(** Every outcome of a stage's invocation is vetted, a fallback's too. *)
Lemma model_vetted binding role_input now s :
  running st0 stages0 durable0 runs0 s ->
  wp (_invoke_model sha256 fromisoformat read_secret model_json_schema http_adapter st0 binding role_input now)
    (fun _ => result_is (vetted v2 role_input)) s.
Proof.
  intros Hs. unfold _invoke_model. do 2 wp_step. unfold after at 1.
  destruct (_ <=? _); [by apply wp_result_bind; intros ? ?|].
  apply wp_bind. eapply wp_mono.
  { apply wp_and; [by apply once_vetted|]. by apply (kept_once _ _ _ _ _ st0 stages0 durable0 runs0). }
  intros s' [[o|]|e] [Hv Hs']; unfold after; [exact Hv| |done].
  destruct (String.eqb _ "FAILOVER"); [|done].
  destruct (rb_fallback_model binding), (rb_fallback_provider binding); try done.
  apply wp_bind. eapply wp_mono; [by apply once_vetted|].
  intros s'' [[o|]|e] Ho; unfold after; done.
Qed.

(** ** What is stored *)

Definition stored (P : json -> Prop) (s : Sess) : Prop :=
  own_row st0 stages0 durable0 runs0 (fun st' => exists output, ag_output st' = Some output /\ P output) s.

Definition stores (P : json -> Prop) (m : prog unit) : Prop :=
  forall s, running st0 stages0 durable0 runs0 s ->
  wp m (fun s' r => match r with inl _ => stored P s' | inr _ => True end) s.

Lemma stores_complete (P : json -> Prop) state output now :
  state ∈ DEPENDENCY_OK -> P output -> stores P (complete sha256 st0 state output now).
Proof.
  intros Hst HP s Hs. unfold complete. apply wp_bind. eapply wp_mono.
  - apply (wp_update_own _ _ _ _ _ _ (fun st' => exists output, ag_output st' = Some output /\ P output) s Hs).
    intros st' Hb Hr. split; [by apply wrote_result|]. exists output. split; [by destruct st'|done].
  - intros s' r [Ho [st' ->]]. exact Ho.
Qed.

Lemma stores_bind {A} P (m : prog A) k : kept m -> (forall a, stores P (k a)) -> stores P (mbind k m).
Proof.
  intros Hm Hk s Hs. apply wp_bind. eapply wp_mono; [by apply Hm|].
  intros s' [a|e] H; unfold after; [by apply Hk|done].
Qed.

Lemma stores_gets {A} P (f : DB -> A) k : (forall db, stores P (k (f db))) -> stores P (mbind k (gets f)).
Proof. intros H s Hs. by apply (H (work s)). Qed.

Lemma stores_of_result {A} P (r : exn + A) k :
  (forall a, r = inr a -> stores P (k a)) -> stores P (mbind k (of_result r)).
Proof. intros H s Hs. destruct r as [e|a]; [done|]. by apply (H a). Qed.

Lemma stores_or_raise {A} P (o : option A) e k :
  (forall a, o = Some a -> stores P (k a)) -> stores P (mbind k (or_raise o e)).
Proof. intros H s Hs. destruct o as [a|]; [|done]. by apply (H a). Qed.

Lemma stores_invoke P binding role_input now k :
  (forall o, vetted v2 role_input o -> stores P (k o)) ->
  stores P (mbind k (invoke sha256 fromisoformat read_secret model_json_schema http_adapter st0 binding
                       role_input now)).
Proof.
  intros Hk s Hs. apply wp_bind. eapply wp_mono.
  { apply wp_and; [by apply model_vetted|].
    by apply (kept_model _ _ _ _ _ st0 stages0 durable0 runs0). }
  intros s' [o|e] [Hv Hs']; unfold after; [by apply Hk|done].
Qed.
End Vetted.

(** ** The theorems *)

Section Theorems.
Context (sha256 : string -> string) (fromisoformat : string -> option Z).
Context (read_secret : string -> option string) (model_json_schema : string -> json).
Context (http_adapter : LlmProviderAdapter -> LlmRequest -> string -> exn + LlmResult).
Context {Lax : Pydantic}.
Context (settings : Settings) (so : Sources).
Context (st : AgentStageRun) (run : AgentRun) (now : Z).

Let v2 := uses_v2_contract (ar_dag_version run).
Abbreviation execute :=
  (_execute_stage sha256 fromisoformat read_secret model_json_schema http_adapter settings so st run now).

(** A worker has claimed the stage of the run. *)
Definition claimed (s : Sess) : Prop :=
  agent_stages (work s) !! ag_id st = Some st /\ ag_state st = SG_RUNNING /\
  agent_runs (work s) !! ag_run_id st = Some run.

Lemma claimed_running s :
  claimed s -> running st (agent_stages (work s)) (agent_stages (disk s)) (agent_runs (work s)) s.
Proof.
  intros (Hl & Hs & _). split; [done|]. split; [done|]. exists st. split; [by rewrite insert_id|].
  split; [apply wrote_refl|done].
Qed.

(** What a scout may store. *)
Definition scout_output_ok (bundle : EvidenceBundle) (output : json) : Prop :=
  exists a, output = assessment_dump v2 a /\ as_status a ∈ DEPENDENCY_OK /\
    Forall (fun r => r ∈ eb_evidence_ids bundle) (as_evidence_refs a) /\
    in_vocabulary (ag_role st) (as_reason_codes a).

Section Stored.
Context (stages0 durable0 : gmap string AgentStageRun) (runs0 : gmap string AgentRun).
Hypothesis run_known : runs0 !! ag_run_id st = Some run.
Abbreviation stores := (stores st stages0 durable0 runs0).

Lemma stores_assessment bundle made at_ :
  (forall a, made = inr a -> scout_output_ok bundle (assessment_dump v2 a) /\ as_status a ∈ DEPENDENCY_OK) ->
  stores (scout_output_ok bundle) (finish_assessment sha256 st v2 made at_).
Proof.
  intros Hm. unfold finish_assessment. apply stores_of_result. intros a Ha. destruct (Hm a Ha).
  by apply stores_complete.
Qed.

Lemma stores_rule bundle made at_ :
  made_ok (ag_role st) made -> stores (scout_output_ok bundle) (finish_assessment sha256 st v2 made at_).
Proof.
  intros Hm. apply stores_assessment. intros a Ha. destruct (Hm a Ha) as (Hs & Hr & Hc).
  split; [|done]. exists a. split; [done|]. split; [done|]. rewrite Hr. by split.
Qed.

Lemma stores_scout snapshot bundle binding :
  ag_role st ∈ SCOUT_ROLES ->
  stores (scout_output_ok bundle)
    (run_scout sha256 fromisoformat read_secret model_json_schema http_adapter st run snapshot bundle binding
       now).
Proof.
  intros Hr. unfold run_scout. fold v2. apply stores_bind; [apply preserves_gets|intros i].
  apply stores_bind; [apply preserves_gets|intros c]. apply stores_gets. intros db.
  apply stores_of_result. intros p Hp. apply scout_plan_ok in Hp; [|done].
  destruct p as [made|input rule model]; [by apply stores_rule|]. destruct Hp as (Hrule & Hrefs & Hm).
  eapply stores_invoke; [exact run_known|]. intros o Ho. destruct (mock_outcome o) eqn:Emock; [by apply stores_rule|].
  apply stores_or_raise. intros out Hout. apply stores_assessment. intros a Ha.
  unfold make_assessment in Ha. destruct (assessment_valid v2 (model out)); [|done]. injection Ha as <-.
  destruct (Hm out) as (Hs & He & Hc). specialize (Ho Emock). unfold vet_output in Ho.
  assert (String.eqb (ag_role st) "CORE" = false) as Hcore.
  { revert Hr. clear. generalize (ag_role st). apply scout_role_cases; done. }
  rewrite Hcore in Ho. apply vetted_scout in Ho as (o' & Hload & Hv & Hf).
  rewrite Hout in Hload. injection Hload as <-. rewrite Hrefs in Hf.
  assert (as_status (model out) ∈ DEPENDENCY_OK) by (rewrite Hs; by eapply scout_output_status).
  split; [|done]. exists (model out). split; [done|]. split; [done|]. rewrite He, Hc. by split.
Qed.

Definition core_output_ok (incomplete : list string) (output : json) : Prop :=
  exists c, output = core_dump true c /\ core_agrees (ar_analysis_context run) incomplete c.

Lemma stores_core incomplete c at_ :
  core_agrees (ar_analysis_context run) incomplete c ->
  stores (core_output_ok incomplete) (finish_core sha256 st true c at_).
Proof.
  intros Hc. unfold finish_core. apply stores_of_result. intros c' Hc'.
  unfold make_core in Hc'. destruct (core_valid true c); [|done]. injection Hc' as <-.
  apply stores_complete; [apply list_elem_of_here|]. by exists c.
Qed.

Lemma unknown_agrees incomplete : core_agrees (ar_analysis_context run) incomplete (fallback_core incomplete).
Proof.
  split; [done|]. split; [done|]. exists "UNKNOWN". split; [done|].
  destruct (bool_decide _); by apply (bool_decide_eq_true _).
Qed.

Lemma rule_core_agrees incomplete :
  core_agrees (ar_analysis_context run) incomplete (rule_core true incomplete).
Proof.
  split; [done|]. unfold rule_core. cbn.
  destruct (decide (incomplete = [])) as [->|Hn].
  - split; [done|]. exists "NEUTRAL". split; [done|].
    destruct (bool_decide _); by apply (bool_decide_eq_true _).
  - rewrite bool_decide_eq_false_2 by done. split; [done|]. exists "UNKNOWN". split; [done|].
    destruct (bool_decide _); by apply (bool_decide_eq_true _).
Qed.

(** The input of the core names the incomplete roles and the context. *)
Lemma core_input_names snapshot bundle scouts incomplete audit ref input :
  core_role_input run snapshot bundle scouts incomplete audit ref = inr input ->
  role_input_texts "required_incomplete_roles" input = incomplete /\
  analysis_context_of input = py_str (jopt_str (ar_analysis_context run)).
Proof.
  unfold core_role_input. intros H. apply result_bind_inr in H as (n & _ & H).
  apply result_bind_inr in H as (codes & _ & [= <-]). split; [apply texts_back|done].
Qed.

Lemma allowed_agrees input incomplete c :
  role_input_texts "required_incomplete_roles" input = incomplete ->
  analysis_context_of input = py_str (jopt_str (ar_analysis_context run)) ->
  ac_incomplete_roles c ≡ₚ incomplete ->
  assessment_allowed input (sorted_texts incomplete) (ac_shadow_assessment c) = true ->
  core_agrees (ar_analysis_context run) incomplete c.
Proof.
  intros Hin Hctx Hperm Ha. unfold assessment_allowed in Ha.
  destruct (ac_shadow_assessment c) as [a|] eqn:Es; [|done]. rewrite Hctx in Ha. bool_to_prop.
  split; [done|]. split.
  - intros Hn. apply orb_true_iff in H0 as [He|He].
    + apply bool_decide_eq_true in He. destruct Hn. apply Permutation_nil. by rewrite <- He, sorted_texts_perm.
    + apply String.eqb_eq in He as ->. done.
  - exists a. split; [done|]. destruct (ar_analysis_context run) as [ctx|]; [|exact H].
    cbn in H. destruct (String.eqb_spec ctx "ENTRY") as [->|Hne]; [exact H|].
    rewrite bool_decide_eq_false_2; [exact H|congruence].
Qed.

Lemma stores_run_core snapshot bundle binding scouts :
  v2 = true -> ag_role st = "CORE" ->
  stores (core_output_ok (incomplete_roles_of run scouts))
    (core_on sha256 fromisoformat read_secret model_json_schema http_adapter scouts st run snapshot bundle
       binding now).
Proof.
  intros Hv Hcore. unfold core_on. fold v2. cbv zeta. rewrite Hv. apply stores_bind; [apply preserves_guard_or|intros _].
  apply stores_bind; [apply preserves_gets|intros r]. apply stores_of_result. intros audit _.
  destruct (_ && _); [apply stores_core, unknown_agrees|].
  apply stores_of_result. intros input Hin. apply core_input_names in Hin as [Hinc Hctx].
  eapply stores_invoke; [exact run_known|]. intros o Ho.
  destruct (mock_outcome o) eqn:Emock; [apply stores_core, rule_core_agrees|].
  apply stores_or_raise. intros c Hc. apply stores_core.
  specialize (Ho Emock). unfold vet_output in Ho. rewrite Hcore in Ho. cbn [String.eqb] in Ho.
  fold v2 in Ho. rewrite Hv in Ho. apply vetted_core in Ho as (c' & Hload & _ & Hperm & Ha).
  rewrite Hc in Hload. injection Hload as <-. rewrite Hinc in Hperm, Ha. by eapply allowed_agrees.
Qed.
End Stored.

(** The snapshot a body starts with changes nothing. *)
Lemma stored_row stages0 durable0 runs0 P s :
  stored st stages0 durable0 runs0 P s ->
  exists st' output, agent_stages (work s) !! ag_id st = Some st' /\ ag_output st' = Some output /\ P output.
Proof.
  intros (_ & _ & st' & Hw & _ & output & Ho & HP). exists st', output.
  by rewrite Hw, lookup_insert_eq.
Qed.

(** C25: a scout stores an assessment that cites only evidence of the run's
    verified bundle and uses only the reason codes of its role, whatever a model
    answers, refuses or invents. *)
Theorem scouts_cite_verified_evidence bundle s s' :
  ag_role st ∈ SCOUT_ROLES -> claimed s -> bundle_of run (work s) = Some bundle ->
  execute s = (s', inl tt) ->
  exists st' a, agent_stages (work s') !! ag_id st = Some st' /\
    ag_output st' = Some (assessment_dump v2 a) /\ as_status a ∈ DEPENDENCY_OK /\
    Forall (fun r => r ∈ eb_evidence_ids bundle) (as_evidence_refs a) /\
    in_vocabulary (ag_role st) (as_reason_codes a).
Proof.
  intros Hr Hc Hb He. pose proof (claimed_running _ Hc) as Hrun. destruct Hc as (_ & _ & Hknown).
  assert (Hwp : wp execute (fun s' r => match r with
    | inl _ => stored st (agent_stages (work s)) (agent_stages (disk s)) (agent_runs (work s))
                 (scout_output_ok bundle) s' | inr _ => True end) s).
  { unfold _execute_stage. do 2 wp_step. unfold after at 1. do 2 wp_step; [|done]. unfold after at 1.
    assert (String.eqb (ag_role st) "INTEL_COLLECTOR" = false /\
            String.eqb (ag_role st) "EVIDENCE_VERIFIER" = false /\
            String.eqb (ag_role st) "EVIDENCE_CANDIDATE_AUDITOR" = false) as (-> & -> & Hnot).
    { revert Hr. clear. generalize (ag_role st). by apply scout_role_cases. }
    do 2 wp_step. unfold after at 1. rewrite Hb, Hnot. do 2 wp_step. unfold after at 1. do 2 wp_step; [|done].
    unfold after at 1. rewrite bool_decide_eq_true_2 by done. by apply stores_scout. }
  pose proof (wp_elim _ _ _ _ _ Hwp He) as Hs. apply stored_row in Hs as (st' & output & Hl & Ho & a & -> & Ha).
  exists st', a. by split_and!; try apply Ha.
Qed.

(** The roles the core has to report. *)
Definition missing_roles (s : Sess) : list string :=
  match bundle_of run (work s) with
  | Some _ => incomplete_roles_of run (scout_stages run (work s))
  | None => SCOUT_ROLES
  end.

(** The core of a run of the second contract reports exactly the scouts
    that are incomplete, stores no assessment but UNKNOWN while one is, and
    otherwise an assessment of the run's context. *)
Theorem core_abstains_when_incomplete s s' :
  ag_role st = "CORE" -> v2 = true -> claimed s -> execute s = (s', inl tt) ->
  exists st' c, agent_stages (work s') !! ag_id st = Some st' /\ ag_output st' = Some (core_dump true c) /\
    core_agrees (ar_analysis_context run) (missing_roles s) c.
Proof.
  intros Hr Hv Hc He. pose proof (claimed_running _ Hc) as Hrun. destruct Hc as (_ & _ & Hknown).
  assert (Hwp : wp execute (fun s' r => match r with
    | inl _ => stored st (agent_stages (work s)) (agent_stages (disk s)) (agent_runs (work s))
                 (core_output_ok (missing_roles s)) s' | inr _ => True end) s).
  { unfold _execute_stage, missing_roles. do 2 wp_step. unfold after at 1. do 2 wp_step; [|done].
    unfold after at 1. rewrite Hr. cbn [String.eqb Ascii.eqb Bool.eqb]. do 2 wp_step. unfold after at 1.
    destruct (bundle_of run (work s)) as [bundle|].
    - do 2 wp_step. unfold after at 1. do 2 wp_step; [|done]. unfold after at 1.
      change (bool_decide ("CORE" ∈ SCOUT_ROLES)) with false. cbv iota.
      unfold run_core. do 2 wp_step. unfold after at 1. by apply stores_run_core.
    - fold v2. rewrite Hv. cbn [andb]. by apply stores_core, Hrun; apply unknown_agrees. }
  pose proof (wp_elim _ _ _ _ _ Hwp He) as Hs. apply stored_row in Hs as (st' & output & Hl & Ho & c & -> & Ha).
  by exists st', c.
Qed.
End Theorems.

(** * A concrete agent run

    A run about a held position whose four scouts have answered, routed to a
    model that answers over the network: the inputs on which the theorems about
    stages are evaluated. *)

Definition zeros64 : string := "0000000000000000000000000000000000000000000000000000000000000000".

Definition demo_provider : LlmProviderProfile :=
  mkLlmProviderProfile "prov" "user-1" "Local" None "OPENAI_COMPATIBLE" (Some "http://localhost:1")
    (Some "secret") "EXTERNAL_CLOUD" "VALIDATED" "READY" (Some 0) 1 0 None.

Definition demo_model : LlmModelProfile :=
  mkLlmModelProfile "model" "prov" "m" "m" (mkModelCapabilities true false false false false false true false) None
    1000 (Some (Dec 1 (-1))) None None None "VALIDATED" (Some 0) 1 0.

Definition demo_route (id role : string) : LlmRoleRoute :=
  mkLlmRoleRoute id "user-1" role "model" (JList []) "FAIL_STOP" "SHADOW" 5000 "DEFAULT" false 1 10 dzero "v1"
    None "agent-assessment-v2" None None None None None "VALIDATED" "demo" (Some 0) None 1 0.

Definition demo_versions (route_id : string) : json :=
  JObj [("route_id", JStr route_id); ("route_version", JInt 1); ("model_id", JStr "model");
        ("model_version", JInt 1); ("failure_policy", JStr "FAIL_STOP"); ("fallback_model_id", JNull);
        ("fallback_model_version", JNull); ("prompt_profile_id", JNull); ("prompt_content_hash", JNull)].

Definition demo_frozen : json :=
  JObj [("marker", JStr "OPEN_POSITION"); ("position_id", JStr "pos"); ("quantity", JInt 10)].

Definition advised_run : AgentRun :=
  mkAgentRun "run" "user-1" "DIAGNOSTIC" "KRX" "005930" "snap" zeros64 "agent-dag-v6"
    (JObj [("TECHNICAL_SCOUT", demo_versions "r1"); ("CORE", demo_versions "r5")]) "k"
    RUN_RUNNING None (Some "POSITION") (Some demo_frozen) (Some (day_hash (dumps demo_frozen))) None None
    None None None None None None None None (day_now + 5 * minute) None None day_now.

Definition demo_bundle : EvidenceBundle :=
  mkEvidenceBundle "b" "user-1" "run" "KRX" "005930" day_now EVIDENCE_POLICY_VERSION "VERIFIED" ["e1"; "e2"]
    [] [] "h".

Definition running_stage (id role : string) (route_id : option string) (output : option json)
  (state : StageState) : AgentStageRun :=
  mkAgentStageRun id "run" role 30 [] route_id None state zeros64 output None None (Some "w1") None 1 1 1
    day_now None None None None day_now.

Definition scout_stage : AgentStageRun := running_stage "s3" "TECHNICAL_SCOUT" (Some "r1") None SG_RUNNING.
Definition core_stage : AgentStageRun := running_stage "s8" "CORE" (Some "r5") None SG_RUNNING.

Definition scout_answer (role : string) : json :=
  assessment_dump true
    (mkAgentAssessment "s" role "005930" ["snap"] SG_SUCCEEDED ST_CAUTION (Some 40) (Some 60) "0.7" "0.3"
       ["DATA_SUFFICIENT"] [] demo_observed demo_observed).

(** The scouts' stages, when their answers are in. *)
Definition answered_stages (technical : StageState * option json) : gmap string AgentStageRun :=
  let done_ id role := running_stage id role None (Some (scout_answer role)) SG_SUCCEEDED in
  {[ "t" := running_stage "t" "TECHNICAL_SCOUT" None technical.2 technical.1;
     "n" := done_ "n" "NEWS_DISCLOSURE_SCOUT"; "m" := done_ "m" "MARKET_SECTOR_SCOUT";
     "p" := done_ "p" "POSITION_RISK_SCOUT";
     "a" := running_stage "a" "EVIDENCE_CANDIDATE_AUDITOR" None
              (Some (JObj [("candidate_count", JInt 0); ("reason_codes", JList [])])) SG_SUCCEEDED;
     "s8" := core_stage ]}.

Definition stage_db (stages : gmap string AgentStageRun) : DB :=
  set_llm_providers (set_llm_models (set_llm_routes (set_evidence_bundles
    (set_agent_stages (set_agent_runs (day_db MODE_AUTOMATIC ∅) {[ "run" := advised_run ]}) stages)
    {[ "b" := demo_bundle ]}) {[ "r1" := demo_route "r1" "TECHNICAL_SCOUT"; "r5" := demo_route "r5" "CORE" ]})
    {[ "model" := demo_model ]}) {[ "prov" := demo_provider ]}.

(** What the model answers, as a scout and as the core. *)
Definition scout_reply (refs : list string) : json :=
  JObj [("status", JStr "SUCCEEDED"); ("stance", JStr "CAUTION"); ("entry_score", JInt 40);
        ("exit_risk_score", JInt 60); ("confidence", JNum "0.7"); ("uncertainty", JNum "0.3");
        ("reason_codes", JList [JStr "PRICE_BELOW_VWAP"]); ("evidence_refs", JList (map JStr refs))].

Definition core_reply : json :=
  JObj [("action", JStr "WAIT"); ("shadow_assessment", JStr "EXIT_RISK_HIGH"); ("confidence", JNum "0.85");
        ("risk_level", JStr "HIGH"); ("reason_codes", JList [JStr "POSITION_RISK_CRITICAL"]);
        ("incomplete_roles", JList [])].

Definition demo_result (output : json) : LlmResult :=
  mkLlmResult "SUCCEEDED" (Some "p") (Some "m") None None (Some output) None 10 None None 0 [] "PASSED" [].

Definition demo_adapter (refs : list string) (a : LlmProviderAdapter) (request : LlmRequest) (model : string) :
  exn + LlmResult :=
  inr (demo_result (if String.eqb (rq_role request) "CORE" then core_reply else scout_reply refs)).

Definition demo_schema (class : string) : json := JObj [("properties", JObj [("reason_codes", JObj [])])].

Definition demo_sources : Sources :=
  mkSources (mkCollectorSettings "" 1 1 "" 1 "" "" 72 300) (fun _ => None) (fun _ => None) (fun _ => None)
    (fun _ => None) (inl true) (fun _ _ => NoAnswer true) (fun _ _ => NoAnswer true) (fun s => s) lower
    (fun _ => None) (fun _ => NoAnswer true) [] [] [].

Abbreviation run_demo refs st s :=
  (@_execute_stage day_hash (fun _ => None) (fun _ => Some "key") demo_schema (demo_adapter refs) demo_lax
    (day_settings STAGE_SHADOW) demo_sources st advised_run day_now s).

Definition scout_session : Sess := open_session (stage_db {[ "s3" := scout_stage ]}) day_now day_ids.
Definition core_session (technical : StageState * option json) : Sess :=
  open_session (stage_db (answered_stages technical)) day_now day_ids.

(** A model that cites evidence of the bundle is heard, one that invents some
    is not. *)
Example scouts_heard :
  ((run_demo ["e1"] scout_stage scout_session).2, (run_demo ["e9"] scout_stage scout_session).2)
  = (inl tt, inr (AgentRuntimeError "AGENT_LLM_FAIL_STOP" 422)).
Proof. vm_compute. reflexivity. Qed.

Lemma scouts_cite_verified_evidence_witness :
  exists s' st' a, run_demo ["e1"] scout_stage scout_session = (s', inl tt) /\
    agent_stages (work s') !! "s3" = Some st' /\ ag_output st' = Some (assessment_dump true a) /\
    Forall (fun r => r ∈ ["e1"; "e2"]) (as_evidence_refs a).
Proof.
  assert (Hr : (run_demo ["e1"] scout_stage scout_session).2 = inl tt) by (vm_compute; reflexivity).
  destruct (run_demo ["e1"] scout_stage scout_session) as [s' r] eqn:E. cbn in Hr. subst r.
  destruct (@scouts_cite_verified_evidence day_hash (fun _ => None) (fun _ => Some "key") demo_schema
    (demo_adapter ["e1"]) demo_lax (day_settings STAGE_SHADOW) demo_sources scout_stage advised_run day_now
    demo_bundle scout_session s') as (st' & a & Hl & Ho & _ & Hf & _).
  - by apply (bool_decide_eq_true _).
  - split_and!; vm_compute; reflexivity.
  - vm_compute. reflexivity.
  - exact E.
  - exists s', st', a. split; [reflexivity|]. split; [exact Hl|]. split; [exact Ho|exact Hf].
Defined.

(** With every scout in, the core's model is heard; with one missing, nobody
    is asked and the core abstains. *)
Lemma core_abstains_when_incomplete_witness :
  exists s' st' c, run_demo [] core_stage (core_session (SG_FAILED, None)) = (s', inl tt) /\
    agent_stages (work s') !! "s8" = Some st' /\ ag_output st' = Some (core_dump true c) /\
    ac_shadow_assessment c = Some "UNKNOWN" /\ ac_incomplete_roles c ≡ₚ ["TECHNICAL_SCOUT"].
Proof.
  assert (Hr : (run_demo [] core_stage (core_session (SG_FAILED, None))).2 = inl tt)
    by (vm_compute; reflexivity).
  destruct (run_demo [] core_stage (core_session (SG_FAILED, None))) as [s' r] eqn:E. cbn in Hr. subst r.
  destruct (@core_abstains_when_incomplete day_hash (fun _ => None) (fun _ => Some "key") demo_schema
    (demo_adapter []) demo_lax (day_settings STAGE_SHADOW) demo_sources core_stage advised_run day_now
    (core_session (SG_FAILED, None)) s') as (st' & c & Hl & Ho & Hroles & Hunknown & _).
  - reflexivity.
  - reflexivity.
  - split_and!; vm_compute; reflexivity.
  - exact E.
  - assert (Hm : @missing_roles demo_lax advised_run (core_session (SG_FAILED, None)) = ["TECHNICAL_SCOUT"])
      by (vm_compute; reflexivity).
    rewrite Hm in Hroles, Hunknown. exists s', st', c. split_and!; auto.
Defined.

Example core_heard :
  (agent_stages (work (run_demo [] core_stage
     (core_session (SG_SUCCEEDED, Some (scout_answer "TECHNICAL_SCOUT")))).1) !! "s8" ≫= ag_output)
  = Some (core_dump true demo_core_output).
Proof. vm_compute. reflexivity. Qed.
