(* ===== verification/RunProps.v ===== *)
(** * Runs are created ready

    A run that was just created can be executed as it is: its stages are the
    graph, the routes they are bound to resolve to what was checked, and the
    position and the market context it froze are read back unchanged.  Creating
    it again returns it, and a decision is advised on by one run at most. *)

Set Warnings "-register-all".

From Stdlib Require Import ZArith Lia Ascii String.
From stdpp Require Import base numbers strings list gmap pretty.
From S2P Require Import Prelude Decimal Json PyTime Models Session Policies Fixtures PyText Frames.
From S2P Require Import AgentRuns DecisionInputs MockDecision Fusion PyText LlmCatalog Collectors AgentContracts.
From S2P Require Import AgentQueue AgentRuntime AgentRuns AgentStages.
From S2P Require Import StageFrame StageProps.

Open Scope Z_scope.

(** ** Generic lemmas *)

Lemma assoc_None_fresh {A} k (l : list (string * A)) : k ∉ map fst l -> assoc k l = None.
Proof.
  induction l as [|[k' v] l IH]; simpl; [done|]. intros H. apply not_elem_of_cons in H as [H1 H2].
  case_match eqn:E; [apply String.eqb_eq in E; congruence|auto].
Qed.

Lemma assoc_perm {A} k (l l' : list (string * A)) :
  l ≡ₚ l' -> NoDup (map fst l) -> assoc k l = assoc k l'.
Proof.
  induction 1 as [|[k1 v1] l l' _ IH|[k1 v1] [k2 v2] l|l1 l2 l3 H12 IH1 _ IH2]; simpl; intros Hnd.
  - done.
  - apply NoDup_cons in Hnd as [_ Hnd]. case_match; auto.
  - apply NoDup_cons in Hnd as [Hn _]. destruct (String.eqb k k1) eqn:E1, (String.eqb k k2) eqn:E2; try done.
    apply String.eqb_eq in E1, E2. subst. exfalso. apply Hn. apply list_elem_of_here.
  - rewrite IH1 by done. apply IH2. by rewrite <- H12.
Qed.

Lemma assoc_map {A B} (f : string * A -> B) k (l : list (string * A)) :
  assoc k (map (fun b => (b.1, f b)) l) = (fun v => f (k, v)) <$> assoc k l.
Proof.
  induction l as [|[k' v] l IH]; simpl; [done|]. case_match eqn:E; [|done].
  apply String.eqb_eq in E. by subst.
Qed.

Lemma assoc_elem {A} k (l : list (string * A)) v : assoc k l = Some v -> (k, v) ∈ l.
Proof.
  induction l as [|[k' v'] l IH]; simpl; [done|]. case_match eqn:E.
  - apply String.eqb_eq in E. intros [= ->]. subst. apply list_elem_of_here.
  - intros H. apply list_elem_of_further. auto.
Qed.

(** ** Tables a run is created from *)

Definition input_tables (db : DB) :=
  (streams db, snapshots db, positions db, configurations db, market_contexts db,
   (llm_routes db, llm_providers db, llm_models db, llm_prompts db)).

(** Rows are stored under their keys, and a market context is what its hash
    says. *)
Record inputs_sealed (sha256 : string -> string) (db : DB) : Prop := mkInputsSealed {
  is_route k r : llm_routes db !! k = Some r -> lr_id r = k;
  is_model k m : llm_models db !! k = Some m -> lm_id m = k /\ k <> EmptyString;
  is_context k c : market_contexts db !! k = Some c ->
    mc_id c = k /\ k <> EmptyString /\ is_dict (mc_payload c) = true /\
    mc_payload_hash c = _hash sha256 (mc_payload c)
}.

Lemma sealed_ext sha256 db db' :
  input_tables db = input_tables db' -> inputs_sealed sha256 db -> inputs_sealed sha256 db'.
Proof.
  unfold input_tables. intros [= Hst Hsn Hp Hc Hm Hr Hpr Hmo Hpm] [H1 H2 H3].
  split; rewrite <- ?Hr, <- ?Hmo, <- ?Hm; auto.
Qed.

(** ** A checked route is bound again as it was checked *)

(** What [load_route] checked of a binding. *)
Record usable (db : DB) (owner_id role : string) (b : RouteBinding) : Prop := mkUsable {
  us_route : llm_routes db !! lr_id (rb_route b) = Some (rb_route b);
  us_model : ready_model db owner_id (Some (lr_primary_model_profile_id (rb_route b))) =
             Some (rb_model b, rb_provider b);
  us_fallback : match rb_fallback_model b, rb_fallback_provider b with
                | Some m, Some p => ready_model db owner_id (Some (lm_id m)) = Some (m, p) /\
                                    lm_id m <> EmptyString
                | None, None => True
                | _, _ => False
                end;
  us_prompt : prompt_ready db owner_id role (rb_route b) = true
}.

Lemma ready_model_Some db owner_id id m p :
  ready_model db owner_id id = Some (m, p) ->
  row_of (llm_models db) id = Some m /\ llm_providers db !! lm_provider_profile_id m = Some p /\
  lm_state m = "VALIDATED" /\ provider_unready owner_id p = false.
Proof.
  unfold ready_model. destruct (row_of _ _) as [m'|]; [|done]. cbn.
  destruct (llm_providers db !! _) as [p'|] eqn:Ep; [|done]. cbn.
  destruct (_ || _) eqn:E; [done|]. intros [= <- <-].
  apply orb_false_iff in E as [E1 E2]. apply negb_false_iff, String.eqb_eq in E1. auto.
Qed.

Lemma load_route_usable sha256 db owner_id role route_id b :
  inputs_sealed sha256 db -> load_route db owner_id role route_id = inr b -> usable db owner_id role b.
Proof.
  intros Hs. unfold load_route. destruct (llm_routes db !! route_id) as [route|] eqn:Er; [|done].
  destruct (lr_fallback_model_profile_ids route) as [| | | | |ids|]; try done.
  destruct (route_unready _ _ _ _); [done|].
  destruct (ready_model _ _ (Some _)) as [[model provider]|] eqn:Em; [|done].
  set (fallback := match ids with [] => None | id :: _ => ready_model db owner_id (json_id id) end).
  destruct (_ || _) eqn:E; [done|]. destruct (forallb _ _); [|done]. intros [= <-].
  apply orb_false_iff in E as [_ Hp]. apply negb_false_iff in Hp.
  pose proof (is_route _ _ Hs _ _ Er) as <-. split; cbn [rb_route rb_model rb_provider rb_fallback_model
    rb_fallback_provider]; try done.
  destruct fallback as [[m p]|] eqn:Ef; cbn; [|done]. unfold fallback in Ef.
  destruct ids as [|id ids]; [done|]. pose proof Ef as Hr. apply ready_model_Some in Hr as (Hr & _).
  destruct (json_id id) as [k|]; [|done]. cbn in Hr.
  destruct (is_model _ _ Hs _ _ Hr) as [<- Hk]. done.
Qed.

Lemma load_each_usable sha256 db owner_id ids roles bindings :
  inputs_sealed sha256 db -> load_each db owner_id ids roles = inr bindings ->
  map fst bindings = roles /\ Forall (fun b => usable db owner_id b.1 b.2) bindings.
Proof.
  intros Hs. revert bindings. induction roles as [|role roles IH]; cbn [load_each]; intros bindings H.
  { injection H as <-. done. }
  apply result_bind_inr in H as (b & Hb & H). apply result_bind_inr in H as (rest & Hrest & [= <-]).
  apply IH in Hrest as [Hmap Hf]. apply (load_route_usable sha256) in Hb; [|done].
  split; [cbn; by rewrite Hmap|]. by constructor.
Qed.

Lemma unready_unusable owner_id p :
  provider_unready owner_id p = false -> lp_owner_id p = owner_id /\ provider_unusable p = false.
Proof.
  unfold provider_unready, provider_unusable, lost_credential. intros H.
  apply orb_false_iff in H as [H H4]. apply orb_false_iff in H as [H H3].
  apply orb_false_iff in H as [H1 H2]. apply negb_false_iff, String.eqb_eq in H1.
  split; [done|]. by rewrite H2, H3, H4.
Qed.

Lemma is_opt_text_self o : is_opt_text o (jopt_str o) = true.
Proof. destruct o; cbn; [apply String.eqb_refl|done]. Qed.

Lemma is_opt_int_self o : is_opt_int o (jopt_int o) = true.
Proof. destruct o; cbn; [apply Z.eqb_refl|done]. Qed.

(** The versions of a route name its prompt as it is. *)
Lemma prompt_unchanged db owner_id role b :
  usable db owner_id role b -> prompt_changed db (rb_route b) (route_version db role b) = false.
Proof.
  intros [_ _ _ Hp]. unfold prompt_changed, prompt_ready in *.
  change (get_field "prompt_profile_id" (route_version db role b))
    with (jopt_str (lr_prompt_profile_id (rb_route b))).
  rewrite is_opt_text_self. destruct (lr_prompt_profile_id (rb_route b)) as [id|] eqn:Eid; [|done].
  cbn [negb orb].
  change (get_field "prompt_content_hash" (route_version db role b))
    with (jopt_str (lq_content_hash <$>
            (opt_text (lr_prompt_profile_id (rb_route b)) ≫= fun id => llm_prompts db !! id))).
  rewrite Eid. destruct (opt_text (Some id) ≫= fun id => llm_prompts db !! id) as [q|] eqn:Eq; [|done].
  bool_to_prop. apply String.eqb_eq in H0. rewrite H0. cbn. by rewrite String.eqb_refl.
Qed.

Lemma frozen_fallback_self db owner_id role b :
  usable db owner_id role b ->
  frozen_fallback (route_version db role b) = lm_id <$> rb_fallback_model b.
Proof.
  intros [_ _ Hf _]. unfold frozen_fallback.
  change (get_field "fallback_model_id" (route_version db role b))
    with (jopt_str (lm_id <$> rb_fallback_model b)).
  destruct (rb_fallback_model b) as [m|]; [|done]. destruct (rb_fallback_provider b); [|done].
  destruct Hf as [_ Hne]. cbn. destruct (String.eqb_spec (lm_id m) EmptyString); [done|done].
Qed.

Lemma binding_ready sha256 db run st b :
  inputs_sealed sha256 db -> usable db (ar_owner_id run) (ag_role st) b ->
  get_or (JObj []) (ag_role st) (ar_route_versions run) = route_version db (ag_role st) b ->
  ag_route_id st = Some (lr_id (rb_route b)) ->
  _binding db run st = inr b.
Proof.
  intros Hs Hu Hv Hid. unfold _binding. rewrite Hid, Hv.
  destruct (ready_model_Some _ _ _ _ _ (us_model _ _ _ _ Hu)) as (Hm & Hp & Hms & Hpu).
  rewrite (us_route _ _ _ _ Hu). cbv zeta. unfold model_of.
  change (lr_primary_model_profile_id <$> Some (rb_route b))
    with (Some (lr_primary_model_profile_id (rb_route b))).
  rewrite Hm. unfold provider_of at 1.
  change (row_of (llm_providers db) (lm_provider_profile_id <$> Some (rb_model b)))
    with (llm_providers db !! lm_provider_profile_id (rb_model b)). rewrite Hp.
  unfold binding_of. rewrite (frozen_fallback_self _ _ _ _ Hu), (prompt_unchanged _ _ _ _ Hu).
  destruct (unready_unusable _ _ Hpu) as [_ ->].
  assert (Hf : model_of db (lm_id <$> rb_fallback_model b) = rb_fallback_model b /\
               provider_of db (rb_fallback_model b) = rb_fallback_provider b /\
               match rb_fallback_model b with
               | Some m => fallback_unusable run m (rb_fallback_provider b) | None => false end = false).
  { pose proof (us_fallback _ _ _ _ Hu) as Hf.
    destruct (rb_fallback_model b) as [m|], (rb_fallback_provider b) as [p|]; try done.
    destruct Hf as [Hf _]. apply ready_model_Some in Hf as (Hfm & Hfp & Hfs & Hfu).
    destruct (unready_unusable _ _ Hfu) as [Ho Hun]. split; [exact Hfm|]. split; [exact Hfp|].
    unfold fallback_unusable. by rewrite Ho, Hun, Hfs, String.eqb_refl. }
  destruct Hf as (-> & -> & ->). cbn.
  rewrite !String.eqb_refl, !Z.eqb_refl. cbn. rewrite is_opt_text_self, is_opt_int_self.
  by destruct b.
Qed.

Section RunProps.
Context (sha256 : string -> string) (created_at updated_at : Position -> Z) (settings : Settings).

Lemma run_input_ext r observed db db' :
  input_tables db = input_tables db' ->
  run_input sha256 created_at updated_at settings r observed db =
  run_input sha256 created_at updated_at settings r observed db'.
Proof.
  unfold input_tables. intros [= Hst Hsn Hp Hc Hm Hr Hpr Hmo Hpm].
  assert (Hload : forall owner ids, _load_routes db owner ids = _load_routes db' owner ids).
  { intros owner ids. unfold _load_routes. destruct (negb _); [done|].
    induction ROUTE_ROLES as [|role roles IH]; [done|]. cbn [load_each]. rewrite IH.
    replace (load_route db owner role) with (load_route db' owner role); [done|].
    unfold load_route, ready_model, prompt_ready. by rewrite Hr, Hmo, Hpr, Hpm. }
  unfold run_input, _snapshot, open_position_of, select_market_context, build_position_snapshot,
    active_risk_policy, active_version.
  by rewrite Hst, Hsn, Hp, Hc, Hm, Hload.
Qed.

Lemma route_versions_ext db db' bindings :
  input_tables db = input_tables db' -> route_versions_of db bindings = route_versions_of db' bindings.
Proof.
  unfold input_tables, route_versions_of, route_version. intros [= _ _ _ _ _ _ _ _ Hpm]. by rewrite Hpm.
Qed.

(** ** The stages of a new run *)

Lemma stages_stored run bindings input_hash at_ l s :
  wp (for_each l (_stage sha256 run bindings input_hash at_)) (fun s' r =>
    match r with
    | inr _ => True
    | inl _ => exists sts,
        Forall2 (fun x st => exists id t, st = new_stage sha256 run bindings input_hash id at_ t x) l sts /\
        rows (agent_stages (work s')) ≡ₚ sts ++ rows (agent_stages (work s)) /\
        input_tables (work s') = input_tables (work s) /\ agent_runs (work s') = agent_runs (work s)
    end) s.
Proof.
  revert s. induction l as [|x l IH]; intros s.
  { apply wp_ret. exists []. by split_and!. }
  cbn [for_each]. apply wp_bind. unfold _stage at 1. repeat (wp_step; cbv beta zeta).
  apply wp_flush_checked; [by intros _|]. intros Hc. unfold after.
  set (st := new_stage sha256 run bindings input_hash (uuids s (uuid_ix s)) at_ (clock (next_uuid s)) x) in *.
  eapply wp_mono; [apply IH|]. intros s' [u|e]; [|done]. intros (sts & Hsts & Hrows & Hin & Hruns).
  exists (st :: sts). split; [constructor; [by eexists _, _|done]|].
  split; [|by rewrite Hin, Hruns]. rewrite Hrows. cbn [agent_stages work with_work put_stage set_agent_stages interleave].
  unfold stage_clash in Hc. apply orb_false_iff in Hc as [Hc _]. apply orb_false_iff in Hc as [Hc _].
  apply bool_decide_eq_false in Hc. cbn.
  rewrite rows_insert_fresh; [apply Permutation_sym, Permutation_middle|].
  by apply eq_None_not_Some.
Qed.

(** A run was stored, with its stages, and nothing else. *)
Record run_stored (r : RunRequest) (i : RunInput) (route_versions : json) (input_hash : string)
  (observed : Z) (before : DB) (run : AgentRun) (s' : Sess) : Prop := mkRunStored {
  rs_run : exists id t, run = new_run sha256 r i route_versions input_hash id observed t;
  rs_durable : disk s' = work s';
  rs_inputs : input_tables (work s') = input_tables before;
  rs_runs : agent_runs (work s') = <[ar_id run := run]> (agent_runs before);
  rs_unique : run_clash run before = false;
  rs_stages : exists sts,
    Forall2 (fun x st => exists id t,
               st = new_stage sha256 run (ri_bindings i) input_hash id observed t x) STAGES sts /\
    rows (agent_stages (work s')) ≡ₚ sts ++ rows (agent_stages before)
}.

Lemma run_inserted r i route_versions input_hash observed race s :
  wp (insert_run sha256 r i route_versions input_hash observed race) (fun s' res =>
    forall run, res = inl (run, true) ->
      run_stored r i route_versions input_hash observed (race (work s)) run s') s.
Proof.
  unfold insert_run. generalize (eq_refl STAGES). generalize STAGES at 1 3 as l. intros l Hl.
  repeat (wp_step; cbv beta zeta).
  set (run := new_run _ _ _ _ _ _ _ _).
  apply wp_flush_checked; intros Hc; repeat wp_step.
  { unfold adopt_run. repeat wp_step; by intros ? [=]. }
  eapply wp_mono; [apply stages_stored|].
  intros s1 [u|e] H; [|by unfold after; repeat wp_step; intros ? [=]].
  destruct H as (sts & Hsts & Hrows & Hin & Hruns). unfold after. repeat wp_step.
  - intros run' [= ->]. rewrite Hl in Hsts. cbn [disk work committed] in *.
    rewrite Hruns in H. cbn in H. rewrite lookup_insert_eq in H. injection H as <-.
    split; cbn [disk work committed]; try done.
    + by eexists _, _.
    + exists sts. by rewrite Hrows.
  - by intros ? [=].
Qed.

(** ** What a run is created on *)

Lemma position_marked db user p snapshot v :
  build_position_snapshot sha256 created_at updated_at db user p snapshot settings = inr v ->
  is_dict v = true /\ is_text "OPEN_POSITION" (get_field "marker" v) = true.
Proof.
  unfold build_position_snapshot. intros H.
  repeat (apply result_bind_inr in H as (? & _ & H); cbv beta zeta in H). by injection H as <-.
Qed.

Lemma run_input_facts r observed db i :
  inputs_sealed sha256 db ->
  run_input sha256 created_at updated_at settings r observed db = inr i ->
  map fst (ri_bindings i) = ROUTE_ROLES /\
  Forall (fun b => usable db (u_id (rr_user r)) b.1 b.2) (ri_bindings i) /\
  ri_market_context i = select_market_context db (rr_market r) (rr_symbol r) observed /\
  is_dict (ri_position i) = true /\
  is_text "OPEN_POSITION" (get_field "marker" (ri_position i)) =
    bool_decide (is_Some (open_position_of updated_at (rr_symbol r) db)).
Proof.
  intros Hs H. unfold run_input in H.
  apply result_bind_inr in H as (snapshot & _ & H). cbv zeta in H.
  apply result_bind_inr in H as (? & _ & H). apply result_bind_inr in H as (position & Hp & H).
  apply result_bind_inr in H as (bindings & Hb & [= <-]). cbn [ri_bindings ri_market_context ri_position].
  unfold _load_routes in Hb. destruct (negb _); [done|].
  apply (load_each_usable sha256) in Hb as [Hm Hu]; [|done]. split; [done|]. split; [done|].
  split; [done|]. destruct (open_position_of _ _ _) as [p|].
  - apply position_marked in Hp as [Hd Ht]. by rewrite Hd, Ht.
  - injection Hp as <-. done.
Qed.

Lemma context_frozen db run (c : option MarketContextSnapshot) :
  inputs_sealed sha256 db -> ar_dag_version run = DAG_VERSION ->
  (forall mc, c = Some mc -> exists k, market_contexts db !! k = Some mc) ->
  ar_market_context_snapshot_id run = mc_id <$> c ->
  ar_market_context_snapshot_hash run = mc_payload_hash <$> c ->
  frozen_context sha256 run db = match c with Some mc => Context_ mc | None => NoContext end.
Proof.
  intros Hs Hd Hc Hi Hh. unfold frozen_context. rewrite Hi, Hh, Hd. destruct c as [mc|]; [|done].
  destruct (Hc mc eq_refl) as [k Hk]. destruct (is_context _ _ Hs _ _ Hk) as (<- & Hne & Hdict & Hhash).
  cbn. destruct (String.eqb_spec (mc_id mc) EmptyString); [done|]. cbn. rewrite Hk, Hdict. cbn.
  rewrite <- Hhash, bool_decide_eq_true_2 by done. done.
Qed.

(** What a successful creation did: [observed] is the time it was given or
    took from the clock. *)
Definition created_on (r : RunRequest) (observed : Z) (race : DB -> DB) (s : Sess) (run : AgentRun)
  (s' : Sess) : Prop :=
  exists i, run_input sha256 created_at updated_at settings r observed (work s) = inr i /\
    let route_versions := route_versions_of (work s) (ri_bindings i) in
    let input_hash := _hash sha256 (input_record sha256 settings r i route_versions) in
    run_of_key (run_key sha256 r input_hash) (work s) = None /\
    run_stored r i route_versions input_hash observed (race (work s)) run s'.

Lemma create_spec r now race s :
  wp (_create_run sha256 created_at updated_at settings r now race) (fun s' res =>
    forall run, res = inl (run, true) -> created_on r (default (clock s) now) race s run s') s.
Proof.
  unfold _create_run. apply wp_bind, wp_of_result; [intros ? _|by intros ? _ ? [=]]. unfold after at 1.
  apply wp_bind. assert (Hnow : (match now with Some t => mret t | None => utcnow end : prog Z) s
    = (s, inl (default (clock s) now))) by by destruct now.
  unfold wp at 1. rewrite Hnow. unfold after at 1. apply wp_bind, wp_gets. unfold after at 1.
  apply wp_bind, wp_of_result; [|by intros ? _ ? [=]]. intros i Hi. unfold after at 1.
  apply wp_bind, wp_gets. unfold after at 1. cbv zeta. apply wp_bind, wp_gets. unfold after at 1.
  destruct (run_of_key _ _) as [run|] eqn:Ek.
  { unfold adopt_run. repeat wp_step; by intros ? [=]. }
  eapply wp_mono; [apply run_inserted|]. intros s' res H run Hr. exists i. by auto.
Qed.

Lemma created_run r now race s s' run :
  _create_run sha256 created_at updated_at settings r now race s = (s', inl (run, true)) ->
  created_on r (default (clock s) now) race s run s'.
Proof. intros H. exact (wp_elim _ _ _ _ _ (create_spec r now race s) H run eq_refl). Qed.

(** ** The theorems *)

(** Stages belong to runs. *)
Definition stages_owned (db : DB) : Prop :=
  forall k st, agent_stages db !! k = Some st -> is_Some (agent_runs db !! ag_run_id st).

(** A stage of the graph that waits to be claimed; bound, if it has a route,
    to what was checked. *)
Definition stage_ready (db : DB) (run : AgentRun) (i : RunInput) (observed : Z)
  (planned : string * Z * list string) (st : AgentStageRun) : Prop :=
  (ag_role st, ag_sequence st, ag_dependency_roles st) = planned /\
  ag_state st = SG_PENDING /\ ag_available_at st = observed /\ ag_attempt_count st = 0 /\
  match assoc (ag_role st) (ri_bindings i) with
  | Some b => _binding db run st = inr b /\ ag_max_attempts st = lr_max_attempts (rb_route b)
  | None => ag_route_id st = None /\ ag_max_attempts st = 2
  end.

Lemma new_stage_ready db r i input_hash id0 observed t0 run x id t at_ :
  inputs_sealed sha256 db -> map fst (ri_bindings i) = ROUTE_ROLES ->
  Forall (fun b => usable db (u_id (rr_user r)) b.1 b.2) (ri_bindings i) ->
  run = new_run sha256 r i (route_versions_of db (ri_bindings i)) input_hash id0 observed t0 ->
  stage_ready db run i at_ x (new_stage sha256 run (ri_bindings i) input_hash id at_ t x).
Proof.
  intros Hs Hm Hu Hrun. destruct x as [[role sequence] dependencies]. unfold stage_ready, new_stage.
  cbn [ag_role ag_sequence ag_dependency_roles ag_state ag_available_at ag_attempt_count ag_route_id
       ag_max_attempts].
  split_and!; try done. destruct (assoc role (ri_bindings i)) as [b|] eqn:Eb; [|done]. split; [|done].
  apply (binding_ready sha256); cbn.
  - done.
  - apply assoc_elem in Eb. rewrite Forall_forall in Hu. specialize (Hu _ Eb). subst run. exact Hu.
  - subst run. cbn. unfold get_or, jget, route_versions_of.
    rewrite assoc_map, (assoc_perm role (sort_by role_before (ri_bindings i)) (ri_bindings i)), Eb.
    + done.
    + apply sort_by_perm.
    + rewrite sort_by_perm, Hm. apply (bool_decide_eq_true _). vm_compute. done.
  - done.
Qed.

Lemma new_stages_only db db' run sts :
  run_clash run db = false -> stages_owned db -> rows (agent_stages db') ≡ₚ sts ++ rows (agent_stages db) ->
  Forall (fun st => ag_run_id st = ar_id run) sts -> stages_of run db' ≡ₚ sts.
Proof.
  intros Hc Ho Hr Hs. unfold stages_of.
  assert (Hf : forall l l' : list AgentStageRun, l ≡ₚ l' ->
    List.filter (fun st => String.eqb (ag_run_id st) (ar_id run)) l ≡ₚ
    List.filter (fun st => String.eqb (ag_run_id st) (ar_id run)) l').
  { intros l l'. induction 1 as [| |x y l|]; cbn; repeat case_match; auto using perm_swap.
    by etransitivity. }
  rewrite (Hf _ _ Hr), List.filter_app.
  replace (List.filter _ (rows (agent_stages db))) with (@nil AgentStageRun).
  - rewrite app_nil_r. clear Hr. induction Hs as [|st sts Hst _ IH]; [done|]. cbn.
    rewrite Hst, String.eqb_refl. by constructor.
  - assert (Hn : forall st, st ∈ rows (agent_stages db) -> String.eqb (ag_run_id st) (ar_id run) = false).
    { intros st Hst. apply elem_of_rows in Hst as [k Hk]. apply Ho in Hk.
      apply String.eqb_neq. intros E. rewrite E in Hk. unfold run_clash in Hc.
      rewrite bool_decide_eq_true_2 in Hc by done. done. }
    clear Hr. induction (rows (agent_stages db)) as [|st l IH]; [done|]. cbn.
    rewrite Hn by apply list_elem_of_here. apply IH. intros st' Hst'. apply Hn.
    by apply list_elem_of_further.
Qed.

(** C27: a run that was just created is durable and can be executed as it is. Its
    stages are exactly the graph, each waiting to be claimed; each stage of a
    model is bound, on the stored rows, to the route, the models and the prompt
    that were checked; the frozen position and market context are read back as
    those of the creation. *)
Theorem created_run_is_ready r now race s s' run :
  (forall v, sha256 (dumps v) <> EmptyString) -> inputs_sealed sha256 (work s) ->
  leaves input_tables race -> stages_owned (race (work s)) ->
  _create_run sha256 created_at updated_at settings r now race s = (s', inl (run, true)) ->
  exists i sts,
    let observed := default (clock s) now in
    run_input sha256 created_at updated_at settings r observed (work s) = inr i /\
    agent_runs (disk s') !! ar_id run = Some run /\ stages_of run (disk s') ≡ₚ sts /\
    Forall2 (stage_ready (disk s') run i observed) STAGES sts /\
    frozen_position sha256 run = inr (PositionFrozen
      match open_position_of updated_at (rr_symbol r) (work s) with
      | Some _ => FrozenPosition (ri_position i)
      | None => NoPosition
      end) /\
    frozen_context sha256 run (disk s') =
      match select_market_context (work s) (rr_market r) (rr_symbol r) observed with
      | Some mc => Context_ mc
      | None => NoContext
      end.
Proof.
  intros Hsha Hs Hrace Ho H.
  apply created_run in H as (i & Hi & _ & [(id & t & Hrun) Hd Hin Hruns Hc (sts & Hsts & Hrows)]).
  rewrite (Hrace (work s)) in Hin. pose proof Hi as Hi'.
  destruct (run_input_facts _ _ _ _ Hs Hi) as (_ & _ & Hmc & Hdict & Hmark).
  rewrite <- (run_input_ext _ _ _ _ Hin) in Hi'. rewrite <- (route_versions_ext _ _ _ Hin) in Hrun, Hsts.
  apply (sealed_ext _ _ _ (eq_sym Hin)) in Hs.
  destruct (run_input_facts _ _ _ _ Hs Hi') as (Hm & Hu & _).
  exists i, sts. rewrite Hd, Hruns. split_and!; [done|by rewrite lookup_insert_eq|..].
  - eapply new_stages_only; [done..|]. eapply Forall2_Forall_r; [exact Hsts|].
    apply Forall_true. intros x st (id' & t' & ->). by destruct x as [[? ?] ?].
  - eapply Forall2_impl; [exact Hsts|]. intros x st (id' & t' & ->). by eapply new_stage_ready.
  - subst run. unfold frozen_position. cbn.
    destruct (String.eqb_spec (_hash sha256 (ri_position i)) EmptyString) as [E|_]; [by destruct (Hsha _ E)|].
    rewrite String.eqb_refl, Hdict, Hmark. by destruct (open_position_of _ _ _).
  - rewrite <- Hmc. apply context_frozen; [done|by subst run| |by subst run|by subst run].
    intros mc Hsel. rewrite Hmc in Hsel. apply first_row_Some in Hsel as [_ Hk].
    unfold input_tables in Hin. injection Hin as _ _ _ _ -> _. exact Hk.
Qed.

Lemma find_row_unique {V} (f : V -> bool) (m : gmap string V) k v :
  m !! k = Some v -> f v = true -> (forall k' v', m !! k' = Some v' -> f v' = true -> v' = v) ->
  find_row f m = Some v.
Proof.
  intros Hk Hf Hu. destruct (find_row f m) as [v'|] eqn:E.
  - apply find_row_Some in E as [Hf' [k' Hk']]. by rewrite (Hu _ _ Hk' Hf').
  - rewrite (find_row_None _ _ _ _ E Hk) in Hf. done.
Qed.

Lemma stored_key run db key :
  run_clash run db = false -> ar_idempotency_key run = key ->
  find_row (fun r => String.eqb (ar_idempotency_key r) key) (<[ar_id run := run]> (agent_runs db)) = Some run.
Proof.
  intros Hc <-. apply orb_false_iff in Hc as [_ Hc]. rewrite existsb_false_Forall, Forall_forall in Hc.
  eapply find_row_unique; [apply lookup_insert_eq|apply String.eqb_refl|].
  intros k' v' Hk' Hf. apply lookup_insert_Some in Hk' as [[_ ->]|[_ Hk']]; [done|].
  specialize (Hc v' ltac:(apply elem_of_rows; eauto)). by rewrite Hf in Hc.
Qed.

(** Creating a run a second time, on the same input, stores nothing: the run
    of the first creation is returned, as not created. *)
Theorem creation_is_idempotent r now race race' s s' run :
  leaves input_tables race ->
  _create_run sha256 created_at updated_at settings r (Some now) race s = (s', inl (run, true)) ->
  _create_run sha256 created_at updated_at settings r (Some now) race' s' = (s', inl (run, false)).
Proof.
  intros Hrace H. pose proof H as H0.
  apply created_run in H as (i & Hi & _ & [(id & t & Hrun) Hd Hin Hruns Hc _]).
  rewrite (Hrace (work s)) in Hin. change (default (clock s) (Some now)) with now in *.
  rewrite (run_input_ext _ _ _ _ (eq_sym Hin)) in Hi.
  unfold _create_run in *. destruct (check_request settings r) as [e|u]; [done|].
  unfold mbind, prog_bind, of_result, mret, prog_ret, gets in *. rewrite Hi.
  rewrite (route_versions_ext _ _ _ Hin). unfold run_of_key. rewrite Hruns.
  rewrite (stored_key run _ _ Hc) by by subst run.
  unfold adopt_run. replace (ar_owner_id run) with (u_id (rr_user r)) by by subst run.
  by rewrite String.eqb_refl.
Qed.

(** A decision is advised on once: while a run about it exists, or appears
    before the flush, no other is created. *)
Theorem one_advisory_per_decision user d route_ids now race s k other :
  agent_runs (race (work s)) !! k = Some other -> ar_basis_decision_id other = Some (d_id d) ->
  wp (create_position_advisory_run sha256 created_at updated_at settings user d route_ids now race)
    (fun _ res => forall run created, res = inl (run, created) -> created = false) s.
Proof.
  intros Hk Hb. eapply wp_mono; [apply create_spec|]. intros s' res H run [] ->; [|done].
  destruct (H run eq_refl) as (i & _ & _ & [(id & t & Hrun) _ _ _ Hc _]).
  apply orb_false_iff in Hc as [_ Hc]. rewrite existsb_false_Forall, Forall_forall in Hc.
  specialize (Hc other ltac:(apply elem_of_rows; eauto)). subst run. cbn in Hc. rewrite Hb in Hc.
  rewrite !bool_decide_eq_true_2, orb_true_r in Hc by done. done.
Qed.
End RunProps.

(** ** Market contexts stay sealed *)

Lemma payload_is_dict event v : normalized_payload event = inr v -> is_dict v = true.
Proof.
  unfold normalized_payload. intros H.
  repeat (apply result_bind_inr in H as (? & _ & H); cbv beta zeta in H). by injection H as <-.
Qed.

(** Ingesting a market context keeps the stored contexts sealed: each is
    stored under its identifier with the hash of its own payload, whatever other
    sessions commit meanwhile. *)
Lemma ingest_keeps_sealed sha256 event race s :
  (forall n, uuids s n <> EmptyString) -> inputs_sealed sha256 (work s) ->
  (forall db, inputs_sealed sha256 db -> inputs_sealed sha256 (race db)) ->
  wp (ingest_market_context sha256 event race) (fun s' _ => inputs_sealed sha256 (work s')) s.
Proof.
  intros Hid Hs Hrace. unfold ingest_market_context.
  apply wp_bind, wp_of_result; [|by intros e _]. intros payload Hp. unfold after at 1.
  cbv zeta. repeat wp_step; try done.
  apply wp_flush_checked; intros Hc; repeat wp_step; [exact (Hrace _ Hs)|].
  destruct (Hrace _ Hs) as [H1 H2 H3]. split; cbn.
  - exact H1.
  - exact H2.
  - intros k c Hk. apply lookup_insert_Some in Hk as [[<- <-]|[_ Hk]]; [|by apply H3].
    cbn. split_and!; [done|apply Hid|by eapply payload_is_dict|done].
Qed.

(** ** A concrete creation *)

Definition run_hash (text : string) : string := "h" +:+ text.

Definition role_route (role : string) : LlmRoleRoute :=
  mkLlmRoleRoute ("r-" +:+ role) "user-1" role "model" (JList []) "FAIL_STOP" "SHADOW" 20000 "DEFAULT" false
    1 10 dzero "v1" None (if String.eqb role "CORE" then "agent-core-v2" else "agent-assessment-v2") None None None
    None None "ACTIVE" "day" (Some 0) (Some 0) 3 0.

Definition role_routes : gmap string LlmRoleRoute :=
  list_to_map (map (fun role => ("r-" +:+ role, role_route role)) ROUTE_ROLES).

Definition day_context : MarketContextInput :=
  mkMarketContextInput "KRX" "005930" "KRX_OPEN" "2026-03-04" "PRIMARY" "NORMAL" (Some "KOSPI")
    (Some (Dec (-125) (-2))) None None (Some 300) (Some 500) (Some 100) (day_now - minute)
    (day_now - second) (day_now + hour).

(** The day with an open position and the routes of the owner. *)
Definition routed_db : DB :=
  set_llm_providers (set_llm_models (set_llm_routes (day_db MODE_AUTOMATIC {[ "pos" := day_position ]})
    role_routes) {[ "model" := demo_model ]}) {[ "prov" := demo_provider ]}.

Definition routed_ids : list (string * string) := map (fun role => (role, "r-" +:+ role)) ROUTE_ROLES.

Definition numbered (n : nat) : string := "id" +:+ pretty (Z.of_nat n).

Definition basis : Decision :=
  mkDecision "basis" None "TRADING" "req" "snap" "005930" "KRX" "POSITION" "CRESTA"
    "deterministic-position-v1" "mock-position-policy-v1" "1.0" (JObj []) (JObj []) ACT_HOLD
    (Dec 8 (-1)) "LOW" (JList []) (day_now + seconds 30) None 0.

(** The market context is ingested, then the run is created. *)
Definition after_ingest : Sess :=
  (ingest_market_context run_hash day_context (fun db => db) (open_session routed_db day_now numbered)).1.

Definition create_demo (ids : list (string * string)) (s : Sess) : Sess * (AgentRun * bool + exn) :=
  create_position_advisory_run run_hash (fun _ => day_now - hour) (fun _ => day_now - minute)
    (day_settings STAGE_SHADOW) demo_user basis ids (Some day_now) (fun db => db) s.

Example creation_demo :
  match create_demo routed_ids after_ingest with
  | (s', inl (run, created)) =>
      (created, length (rows (agent_stages (disk s'))), ar_market_context_snapshot_id run,
       ar_analysis_context run, (ar_valid_until run - day_now) / 1000)
      = (true, 8%nat, Some "id0", Some "POSITION", 130000)
  | _ => False
  end.
Proof. vm_compute. reflexivity. Qed.

Lemma routed_sealed : inputs_sealed run_hash routed_db.
Proof.
  split; cbn [llm_routes llm_models market_contexts routed_db set_llm_providers set_llm_models set_llm_routes].
  - intros k r Hk. apply (rows_forallb (fun p => bool_decide (lr_id p.2 = p.1))) in Hk; [|by vm_compute].
    by apply bool_decide_eq_true in Hk.
  - intros k m Hk. apply lookup_singleton_Some in Hk as [<- <-]. done.
  - intros k c Hk. change (market_contexts _) with (∅ : gmap string MarketContextSnapshot) in Hk.
    by apply lookup_empty_Some in Hk.
Qed.

Lemma numbered_named n : numbered n <> EmptyString.
Proof. done. Qed.

Lemma after_ingest_sealed : inputs_sealed run_hash (work after_ingest).
Proof.
  unfold after_ingest.
  pose proof (ingest_keeps_sealed run_hash day_context (fun db => db) (open_session routed_db day_now numbered)
    numbered_named routed_sealed (fun db H => H)) as H.
  unfold wp in H. destruct (ingest_market_context _ _ _ _) as [s' r]. exact H.
Qed.

Definition basis_request : RunRequest :=
  mkRunRequest demo_user "KRX" "005930" routed_ids "TRADING_ADVISORY" (Some basis).

Lemma created_run_is_ready_witness :
  exists s' run i sts, create_demo routed_ids after_ingest = (s', inl (run, true)) /\
    agent_runs (disk s') !! "id1" = Some run /\ stages_of run (disk s') ≡ₚ sts /\
    Forall2 (stage_ready (disk s') run i day_now) STAGES sts /\
    frozen_position run_hash run = inr (PositionFrozen (FrozenPosition (ri_position i))) /\
    exists mc, frozen_context run_hash run (disk s') = Context_ mc.
Proof.
  destruct (create_demo routed_ids after_ingest) as [s' [[run created]|e]] eqn:E.
  2: { exfalso. assert (H : match create_demo routed_ids after_ingest with (_, inl _) => True | _ => False end)
         by (vm_compute; exact I). by rewrite E in H. }
  assert (H : match create_demo routed_ids after_ingest with
              | (_, inl (run, created)) => created = true /\ ar_id run = "id1" | _ => False end)
    by (vm_compute; split; reflexivity).
  rewrite E in H. destruct H as [-> Hid].
  destruct (created_run_is_ready run_hash (fun _ => day_now - hour) (fun _ => day_now - minute)
    (day_settings STAGE_SHADOW) basis_request (Some day_now) (fun db => db) after_ingest s' run) as
    (i & sts & _ & Hrun & Hst & Hready & Hpos & Hctx).
  - intros v. discriminate.
  - exact after_ingest_sealed.
  - by intros db.
  - intros k st Hk. assert (He : agent_stages (work after_ingest) = ∅) by (vm_compute; reflexivity).
    rewrite He in Hk. destruct (lookup_empty_Some _ _ Hk).
  - exact E.
  - assert (Ho : open_position_of (fun _ => day_now - minute) "005930" (work after_ingest) = Some day_position)
      by (vm_compute; reflexivity).
    assert (Hm : exists mc, select_market_context (work after_ingest) "KRX" "005930" day_now = Some mc)
      by (eexists; vm_compute; reflexivity).
    destruct Hm as [mc Hm]. change (rr_symbol basis_request) with "005930" in *.
    change (rr_market basis_request) with "KRX" in *.
    change (default (clock after_ingest) (Some day_now)) with day_now in *.
    rewrite Ho in Hpos. rewrite Hm in Hctx. rewrite Hid in Hrun.
    exists s', run, i, sts. repeat (split; [first [exact Hrun|exact Hst|exact Hready|exact Hpos|reflexivity]|]).
    exists mc. exact Hctx.
Defined.

Lemma creation_is_idempotent_witness :
  exists s' run, create_demo routed_ids after_ingest = (s', inl (run, true)) /\
    create_demo routed_ids s' = (s', inl (run, false)).
Proof.
  destruct (create_demo routed_ids after_ingest) as [s' [[run []]|e]] eqn:E.
  - exists s', run. split; [done|].
    exact (creation_is_idempotent run_hash (fun _ => day_now - hour) (fun _ => day_now - minute)
      (day_settings STAGE_SHADOW) basis_request day_now (fun db => db) (fun db => db) after_ingest s' run
      (fun db => eq_refl) E).
  - exfalso. assert (H : match create_demo routed_ids after_ingest with
                         | (_, inl (_, created)) => created = true | _ => False end)
      by (vm_compute; reflexivity). by rewrite E in H.
  - exfalso. assert (H : match create_demo routed_ids after_ingest with (_, inl _) => True | _ => False end)
      by (vm_compute; exact I). by rewrite E in H.
Defined.

(** Another session's run about the decision, on another input. *)
Definition other_run : AgentRun :=
  mkAgentRun "other" "user-1" "TRADING_ADVISORY" "KRX" "005930" "snap" zeros64 DAG_VERSION (JObj []) "other-key"
    RUN_CREATED None (Some "POSITION") None None None (Some "basis") (Some FUSION_POLICY_VERSION)
    (Some "PENDING") None None None None None None (day_now + minute) None None day_now.

Lemma one_advisory_per_decision_witness :
  wp (create_position_advisory_run run_hash (fun _ => day_now - hour) (fun _ => day_now - minute)
        (day_settings STAGE_SHADOW) demo_user basis routed_ids (Some day_now) (put_run other_run))
    (fun _ res => forall run created, res = inl (run, created) -> created = false) after_ingest.
Proof. eapply (one_advisory_per_decision _ _ _ _ _ basis); [apply lookup_insert_eq|reflexivity]. Defined.
