(* ===== verification/AnalysisTick.v ===== *)
(** * The tick of the analysis scheduler

    The process of [analysis_scheduler.py], and what it does to the decisions. *)

Set Warnings "-register-all".

From Stdlib Require Import ZArith Lia Ascii String.
From stdpp Require Import base numbers strings list gmap pretty.
From S2P Require Import Prelude Decimal Json PyTime Models Session Fence WorkerState SchedulerState Policies.
From S2P Require Import Scheduling PyText DecisionInputs Fixtures DecisionExecution MockDecision MockProps Frames.
From S2P Require Import LlmCatalog AgentContracts AgentRuns AgentRuntime RunProps.

Open Scope Z_scope.

(** * The tick of the analysis scheduler

    [run_analysis_tick] and [AnalysisSchedulerWorker.run] of
    [analysis_scheduler.py]: every target of a slot is decided, routed and
    handed to the agents on its own; a target that fails is rolled back and
    counted.

    A [TickWorld] has, per target, what other sessions commit meanwhile. *)

Record TickResult := mkTickResult {
  processed_count : Z;
  decision_count : Z;
  skipped_count : Z;
  failed_count : Z
}.

Record TickWorld := mkTickWorld {
  tw_executions : list DecisionExecution;
  tw_orders : list TradingOrder;
  tw_runs : DB -> DB
}.

(** The routes of all roles that are active, by role. *)
Definition active_route (user_id : string) (route : LlmRoleRoute) : bool :=
  String.eqb (lr_owner_id route) user_id && bool_decide (lr_role route ∈ ROUTE_ROLES) &&
  String.eqb (lr_state route) "ACTIVE" && String.eqb (lr_execution_stage route) "SHADOW".

Definition _active_agent_routes (db : DB) (user_id : string) : option (list (string * string)) :=
  let route_ids := foldl (fun d route => dict_set (lr_role route) (lr_id route) d) []
                     (List.filter (active_route user_id) (rows (llm_routes db))) in
  if same_set (map fst route_ids) ROUTE_ROLES then Some route_ids else None.

Section Tick.
Context (sha256 : string -> string) (holidays : Z -> option (list Z)).
Context (created_at updated_at : Position -> Z) (settings : Settings) (slot : AnalysisSlot) (now : Z).

Definition held_position (symbol : string) (db : DB) : option Position :=
  find_row (fun p => String.eqb (p_account_alias p) ACCOUNT_ALIAS && String.eqb (p_symbol p) symbol &&
                     bool_decide (p_state p = POS_OPEN) && (0 <? p_quantity p)) (positions db).

(** The decision of a target: the entry policy, or the position policy for a
    held symbol. *)
Definition decide_target (user : User) (market symbol : string) (position : option Position) :
  prog (Decision * bool) :=
  match position with
  | None =>
      create_mock_trading_decision sha256 created_at updated_at user
        (evaluation_request_id sha256 (u_id user) market symbol (slot_key slot)) symbol market settings
        (Some now)
  | Some p =>
      create_mock_position_trading_decision sha256 created_at updated_at user p
        (position_evaluation_request_id sha256 (u_id user) market symbol (slot_key slot)) symbol market
        settings (Some now)
  end.

Definition start_agents (user : User) (market symbol : string) (position : option Position)
  (decision : Decision) (race : DB -> DB) : prog unit :=
  route_ids ← gets (fun db => _active_agent_routes db (u_id user));
  match route_ids, position with
  | None, _ => mret tt
  | Some ids, Some _ =>
      create_position_advisory_run sha256 created_at updated_at settings user decision ids (Some now) race ;;
      mret tt
  | Some ids, None =>
      create_diagnostic_run sha256 created_at updated_at settings user market symbol ids (Some now) race ;;
      mret tt
  end.

(** Whether a decision was created; [None] for a target that is skipped. *)
Definition analyse_target (world : TickWorld) (target : string * string * string) : prog (option bool) :=
  let '(user_id, market, symbol) := target in
  stream ← gets (fun db => streams db !! (market, symbol));
  if negb (bool_decide (is_Some (stream ≫= mss_current_snapshot_id))) then rollback ;; mret None
  else
    user ← gets (fun db => users db !! user_id);
    match user with
    | None => rollback ;; mret None
    | Some user =>
        if negb (String.eqb (u_status user) "ACTIVE") then rollback ;; mret None
        else
          position ← gets (held_position symbol);
          result ← decide_target user market symbol position;
          let '(decision, created) := (result : Decision * bool) in
          correlation_id ← uuid7;
          route_trading_decision sha256 holidays decision user correlation_id settings (Some now)
            (tw_executions world) (tw_orders world) ;;
          start_agents user market symbol position decision (tw_runs world) ;;
          mret (Some created)
    end.

Definition counted (r : TickResult) (decisions skipped failed : Z) : TickResult :=
  mkTickResult (processed_count r + 1) (decision_count r + decisions) (skipped_count r + skipped)
    (failed_count r + failed).

Definition tick_target (world : TickWorld) (target : string * string * string) (r : TickResult) :
  prog TickResult :=
  try_except
    (created ← analyse_target world target;
     mret (match created with
           | None => counted r 0 1 0
           | Some created => counted r (if created : bool then 1 else 0) 0 0
           end))
    (fun _ => Some (rollback ;; mret (counted r 0 0 1))).

Fixpoint tick_each (world : string * string * string -> TickWorld)
  (targets : list (string * string * string)) (r : TickResult) : prog TickResult :=
  match targets with
  | [] => mret r
  | target :: targets => r ← tick_target (world target) target r; tick_each world targets r
  end.

Definition run_analysis_tick (world : string * string * string -> TickWorld) : prog TickResult :=
  targets ← gets _analysis_targets;
  tick_each world targets (mkTickResult 0 0 0 0).
End Tick.

(** ** The process *)

(** One pass of the loop: when it looks at the clock, when a tick is done, and
    what other sessions commit before it and while its targets are analysed. *)
Record Poll := mkPoll {
  po_observed_at : Z;
  po_completed_at : Z;
  po_others : DB -> DB;
  po_world : string * string * string -> TickWorld
}.

Section Worker.
Context (sha256 : string -> string) (holidays : Z -> option (list Z)).
Context (created_at updated_at : Position -> Z) (settings : Settings) (lease_seconds : Z).

Definition idle_update (state : string) (next_due : Z) (error_code : option string) : SchedulerUpdate :=
  mkSchedulerUpdate state None (Some next_due) false 0 0 0 0 error_code.

Definition completed_update (slot : AnalysisSlot) (r : TickResult) : SchedulerUpdate :=
  mkSchedulerUpdate (if failed_count r =? 0 then "RUNNING" else "DEGRADED") (Some (slot_key slot))
    (Some (next_due_at slot)) true (processed_count r) (decision_count r) (skipped_count r)
    (failed_count r) (if failed_count r =? 0 then None else Some "ITEM_FAILURE").

Definition run_slot (identity : SchedulerIdentity) (poll : Poll) (slot : AnalysisSlot) : prog unit :=
  in_session (update_scheduler_state identity (idle_update "RUNNING" (next_due_at slot) None)
                (Some (po_observed_at poll))) ;;
  try_except
    (result ← in_session (run_analysis_tick sha256 holidays created_at updated_at settings slot
                            (po_observed_at poll) (po_world poll));
     in_session (update_scheduler_state identity (completed_update slot result)
                   (Some (po_completed_at poll))) ;;
     mret tt)
    (fun _ => Some
      (in_session (update_scheduler_state identity
         (idle_update "DEGRADED" (next_due_at slot) (Some "SCHEDULER_TICK_FAILED"))
         (Some (po_completed_at poll))) ;;
       mret tt)).

(** One pass; the exit code of a process that lost its lease. *)
Definition poll_once (identity : SchedulerIdentity) (poll : Poll) : prog (option Z) :=
  others_commit (po_others poll) ;;
  last ← in_session
    (renewed ← renew_scheduler_lease identity lease_seconds (Some (po_observed_at poll));
     if renewed : bool then
       state ← gets sched_row;
       mret (Some (state ≫= as_last_slot_key))
     else mret None);
  match last with
  | None => mret (Some 3)
  | Some last_slot_key =>
      let '(slot, next_due) := analysis_slot (po_observed_at poll) in
      match slot with
      | None =>
          in_session (update_scheduler_state identity (idle_update "IDLE" next_due None)
                        (Some (po_observed_at poll))) ;;
          mret None
      | Some slot =>
          (if bool_decide (last_slot_key = Some (slot_key slot)) then mret tt
           else run_slot identity poll slot) ;;
          mret None
      end
  end.

Fixpoint poll_each (identity : SchedulerIdentity) (polls : list Poll) : prog Z :=
  match polls with
  | [] => mret 0
  | poll :: polls =>
      code ← poll_once identity poll;
      match code with Some code => mret code | None => poll_each identity polls end
  end.

(** The process from the lease it acquired until it is stopped, after the last
    of [polls], or loses the lease. *)
Definition run_acquired (identity : SchedulerIdentity) (started_at released_at : Z) (polls : list Poll) :
  prog Z :=
  in_session (update_scheduler_state identity (mkSchedulerUpdate "STARTING" None None false 0 0 0 0 None)
                (Some started_at)) ;;
  finally (poll_each identity polls) (in_session (release_scheduler_lease identity (Some released_at))).

(** Attempts to acquire the lease, each at a time and against a concurrent
    first insertion; the process is stopped when they are used up. *)
Fixpoint acquire_each (owner_id : string) (attempts : list (Z * option BrokerLease)) :
  prog (option SchedulerIdentity) :=
  match attempts with
  | [] => mret None
  | (at_, race) :: attempts =>
      identity ← in_session (acquire_scheduler_lease owner_id lease_seconds (Some at_) race);
      match identity with
      | Some i => mret (Some i)
      | None => acquire_each owner_id attempts
      end
  end.

Definition run (owner_id : string) (attempts : list (Z * option BrokerLease)) (started_at released_at : Z)
  (polls : list Poll) : prog Z :=
  identity ← acquire_each owner_id attempts;
  match identity with
  | None => mret 0
  | Some i => run_acquired i started_at released_at polls
  end.
End Worker.

(** * What a tick does to the decisions

    Whatever fails on the way and whatever other sessions commit, a tick counts
    every target once, decides at most once per slot, target and policy, and
    loses no decision.  The process ticks only while it holds its lease and
    once per slot. *)

(** ** Growing tables of decisions *)

Definition requests_unique (m : gmap string Decision) : Prop :=
  forall k1 k2 d1 d2, m !! k1 = Some d1 -> m !! k2 = Some d2 ->
    d_evaluation_request_id d1 = d_evaluation_request_id d2 -> k1 = k2.

(** [m] has the decisions of [m0], and others only for the requests [ids]. *)
Record grown (ids : list string) (m0 m : gmap string Decision) : Prop := mkGrown {
  gr_kept : m0 ⊆ m;
  gr_unique : requests_unique m;
  gr_requested k d : m !! k = Some d -> m0 !! k = None -> d_evaluation_request_id d ∈ ids
}.

Lemma grown_refl ids m : requests_unique m -> grown ids m m.
Proof. intros H. split; [done..|]. intros k d Hk Hn. by rewrite Hk in Hn. Qed.

Lemma grown_decision ids m0 db d :
  grown ids m0 (decisions db) -> decision_by_request db (d_evaluation_request_id d) = None ->
  decisions db !! d_id d = None -> d_evaluation_request_id d ∈ ids ->
  grown ids m0 (<[d_id d := d]> (decisions db)).
Proof.
  intros [Hk Hu Hr] Hnew Hid Hin.
  assert (Hfresh : forall k d', decisions db !! k = Some d' ->
            d_evaluation_request_id d' <> d_evaluation_request_id d).
  { intros k d' Hd' E. pose proof (find_row_None _ _ _ _ Hnew Hd') as Hf. cbv beta in Hf.
    by rewrite E, String.eqb_refl in Hf. }
  split.
  - by apply insert_subseteq_r_inv || (etransitivity; [exact Hk|by apply insert_subseteq]).
  - intros k1 k2 d1 d2 H1 H2 E.
    apply lookup_insert_Some in H1 as [[<- <-]|[_ H1]], H2 as [[<- <-]|[_ H2]]; [done| | |by eapply Hu].
    + by destruct (Hfresh _ _ H2).
    + by destruct (Hfresh _ _ H1).
  - intros k d' H Hn. apply lookup_insert_Some in H as [[<- <-]|[_ H]]; [done|by eapply Hr].
Qed.

(** The tables a tick is followed in. *)
Definition desk (db : DB) := (decisions db, users db).

(** Users are stored under their keys. *)
Definition users_keyed (m : gmap string User) : Prop := forall k u, m !! k = Some u -> u_id u = k.

Definition desk_grown (ids : list string) (m0 : gmap string Decision)
  (t : gmap string Decision * gmap string User) : Prop :=
  grown ids m0 t.1 /\ users_keyed t.2.

Section Tick.
Context (sha256 : string -> string) (holidays : Z -> option (list Z)).
Context (created_at updated_at : Position -> Z) (settings : Settings) (slot : AnalysisSlot) (now : Z).
Context (ids : list string) (m0 : gmap string Decision).

Abbreviation kept := (both desk (desk_grown ids m0)).

(** The requests of a target in the slot. *)
Definition target_requests (target : string * string * string) : list string :=
  let '(user_id, market, symbol) := target in
  [evaluation_request_id sha256 user_id market symbol (slot_key slot);
   position_evaluation_request_id sha256 user_id market symbol (slot_key slot)].

Lemma creation_keeps user_id request symbol market kind position s :
  request ∈ ids -> kept s ->
  wp (create_mock_decision sha256 created_at updated_at user_id request symbol market settings "TRADING"
        kind position (Some now)) (fun s' _ => kept s') s.
Proof.
  intros Hin [[Hw Hu] Hd]. eapply wp_mono; [apply create_mock_decision_run|].
  intros s' r [Hdisk H]. split; [|by rewrite Hdisk]. destruct r as [[d []]|e].
  - destruct H as (Hnew & state & snapshot & pj & scout & core & input_id & inputs & _ & _ & _ & Hid & Hd' & ->).
    split; [|done]. cbn. apply grown_decision; [done| |done|]; by rewrite Hd'.
  - by destruct H as [-> _].
  - by destruct H as [inputs ->].
Qed.

Lemma keeps_runs r t race :
  leaves desk race -> keeps desk (_create_run sha256 created_at updated_at settings r (Some t) race).
Proof.
  intros Hr. assert (Ha : forall owner found, keeps desk (adopt_run owner found))
    by (intros; unfold adopt_run; keeps).
  assert (Hs : forall run bindings h t', keeps desk (for_each STAGES (_stage sha256 run bindings h t')))
    by (intros; unfold STAGES; cbn [for_each]; unfold _stage; keeps).
  unfold _create_run, insert_run. keeps; auto.
Qed.

Lemma keeps_routing d user corr xrace race :
  keeps desk (route_trading_decision sha256 holidays d user corr settings (Some now) xrace race).
Proof. apply (keeps_map agent_data (fun t => t.1.1.1)), keeps_route. Qed.

Context (world : string * string * string -> TickWorld).
Hypothesis runs_apart : forall target, leaves desk (tw_runs (world target)).

Lemma keeps_agents target user market symbol position d :
  keeps desk (start_agents sha256 created_at updated_at settings now user market symbol position d
                (tw_runs (world target))).
Proof.
  unfold start_agents, create_position_advisory_run, create_diagnostic_run.
  keeps; apply keeps_runs, runs_apart.
Qed.

Lemma analysis_keeps target s :
  (forall request, request ∈ target_requests target -> request ∈ ids) -> kept s ->
  wp (analyse_target sha256 holidays created_at updated_at settings slot now (world target) target)
    (fun s' _ => kept s') s.
Proof.
  intros Hin Hs. destruct target as [[user_id market] symbol]. unfold analyse_target.
  repeat (wp_step; cbv beta zeta); try (split; apply Hs).
  rename u into user. assert (Hid : u_id user = user_id) by (destruct Hs as [[_ Hu] _]; eapply Hu; eassumption).
  apply (wp_mono _ (fun s' _ => kept s')).
  { unfold decide_target, create_mock_trading_decision, create_mock_position_trading_decision.
    rewrite Hid. destruct (held_position symbol (work s)); (apply creation_keeps; [|done]); apply Hin;
      unfold target_requests; [apply list_elem_of_further|]; apply list_elem_of_here. }
  intros s1 [[d created]|e] H1; unfold after; [|done].
  repeat (wp_step; cbv beta zeta). eapply wp_mono; [by apply keeps_routing|].
  intros s2 [x|e] H2; unfold after; [|done]. repeat (wp_step; cbv beta zeta).
  eapply wp_mono;
    [exact (keeps_agents (user_id, market, symbol) user market symbol _ d (desk_grown ids m0) s2 H2)|].
  by intros s3 [u|e] H3; unfold after.
Qed.

(** The counts of a tick over some targets. *)
Definition counts (n : Z) (r r' : TickResult) : Prop :=
  processed_count r' = processed_count r + n /\
  decision_count r <= decision_count r' /\ skipped_count r <= skipped_count r' /\
  failed_count r <= failed_count r' /\
  (decision_count r' - decision_count r) + (skipped_count r' - skipped_count r) +
    (failed_count r' - failed_count r) <= n.

Lemma tick_target_keeps target r s :
  (forall request, request ∈ target_requests target -> request ∈ ids) -> kept s ->
  wp (tick_target sha256 holidays created_at updated_at settings slot now (world target) target r)
    (fun s' res => kept s' /\ exists r', res = inl r' /\ counts 1 r r') s.
Proof.
  intros Hin Hs. unfold tick_target. apply wp_try, wp_bind.
  eapply wp_mono; [by apply analysis_keeps|]. intros s1 [created|e] H1; unfold after.
  - wp_step. split; [done|]. eexists. split; [done|]. unfold counts, counted. cbn.
    destruct created as [[]|]; cbn; lia.
  - repeat wp_step. split; [split; apply H1|]. eexists. split; [done|]. unfold counts, counted. cbn. lia.
Qed.

Lemma tick_each_keeps targets r s :
  (forall target request, target ∈ targets -> request ∈ target_requests target -> request ∈ ids) -> kept s ->
  wp (tick_each sha256 holidays created_at updated_at settings slot now world targets r)
    (fun s' res => kept s' /\ exists r', res = inl r' /\ counts (Z.of_nat (length targets)) r r') s.
Proof.
  revert r s. induction targets as [|target targets IH]; intros r s Hin Hs.
  - apply wp_ret. split; [done|]. exists r. split; [done|]. unfold counts. cbn. lia.
  - cbn [tick_each]. apply wp_bind. eapply wp_mono.
    { apply tick_target_keeps; [|done]. intros request. apply Hin, list_elem_of_here. }
    intros s1 res (H1 & r1 & -> & Hc1). unfold after. eapply wp_mono.
    { apply IH; [|done]. intros t request Ht. by apply Hin, list_elem_of_further. }
    intros s2 res (H2 & r2 & -> & Hc2). split; [done|]. exists r2. split; [done|].
    unfold counts in *. cbn [length]. lia.
Qed.
End Tick.

(** C28: a tick never raises and counts each of its targets once; every decision
    that was stored stays, no request is decided twice, and a new decision
    answers the request of one of the targets in the slot. *)
Theorem tick_decides_once sha256 holidays created_at updated_at settings slot now world s :
  (forall target, leaves desk (tw_runs (world target))) ->
  users_keyed (users (work s)) -> requests_unique (decisions (work s)) -> desk (disk s) = desk (work s) ->
  let targets := _analysis_targets (work s) in
  wp (run_analysis_tick sha256 holidays created_at updated_at settings slot now world) (fun s' res =>
    exists r, res = inl r /\ processed_count r = Z.of_nat (length targets) /\
      0 <= decision_count r /\ 0 <= skipped_count r /\ 0 <= failed_count r /\
      decision_count r + skipped_count r + failed_count r <= processed_count r /\
      grown (concat (map (target_requests sha256 slot) targets)) (decisions (disk s)) (decisions (disk s'))) s.
Proof.
  intros Hrace Hkey Huniq Heq targets. unfold run_analysis_tick. apply wp_bind, wp_gets. unfold after.
  injection Heq as Hd Hu. fold targets. eapply wp_mono.
  - apply (tick_each_keeps _ _ _ _ _ _ _ (concat (map (target_requests sha256 slot) targets))
      (decisions (disk s))); [done| |].
    + intros target request Ht Hr. apply list_elem_of_In, in_concat. exists (target_requests sha256 slot target).
      split; [by apply in_map, list_elem_of_In|by apply list_elem_of_In].
    + split; (split; [|cbn; by rewrite ?Hu]); cbn; rewrite ?Hd; by apply grown_refl.
  - intros s' res ([_ [Hg _]] & r & -> & Hc). exists r. unfold counts in Hc. cbn in Hc.
    split_and!; [done|lia..|exact Hg].
Qed.

(** ** One tick per slot *)

Section Scheduler.
Context (sha256 : string -> string) (holidays : Z -> option (list Z)).
Context (created_at updated_at : Position -> Z) (settings : Settings) (lease_seconds : Z).

Lemma keeps_creation user_id request symbol market kind position now :
  keeps sched_tables (create_mock_decision sha256 created_at updated_at user_id request symbol market settings
    "TRADING" kind position (Some now)).
Proof.
  unfold create_mock_decision, current_quote, position_input, build_decision_input. keeps.
Qed.

Lemma keeps_run_creation r t race :
  leaves sched_tables race ->
  keeps sched_tables (_create_run sha256 created_at updated_at settings r (Some t) race).
Proof.
  intros Hr. assert (Ha : forall owner found, keeps sched_tables (adopt_run owner found))
    by (intros; unfold adopt_run; keeps).
  assert (Hs : forall run bindings h t', keeps sched_tables (for_each STAGES (_stage sha256 run bindings h t')))
    by (intros; unfold STAGES; cbn [for_each]; unfold _stage; keeps).
  unfold _create_run, insert_run. keeps; auto.
Qed.

Lemma keeps_tick slot now world :
  (forall target, leaves sched_tables (tw_runs (world target))) ->
  keeps sched_tables (run_analysis_tick sha256 holidays created_at updated_at settings slot now world).
Proof.
  intros Hw. unfold run_analysis_tick. apply frame_bind; [apply frame_gets|]. intros targets.
  generalize (mkTickResult 0 0 0 0).
  induction targets as [|[[user_id market] symbol] targets IH]; intros r; [apply frame_ret|].
  cbn [tick_each]. apply frame_bind; [|apply IH]. unfold tick_target.
  apply keeps_try; [|intros e m' [= <-]; keeps]. apply frame_bind; [|intros ?; apply frame_ret].
  unfold analyse_target, decide_target, create_mock_trading_decision, create_mock_position_trading_decision,
    start_agents, create_position_advisory_run, create_diagnostic_run.
  keeps; auto using keeps_creation, keeps_run_creation.
  all: apply (keeps_map agent_data (fun t => t.1.2.1)), keeps_route.
Qed.

(** The tables but those of the scheduler. *)
Definition at_rest (db : DB) : DB := set_scheduler_states (set_scheduler_leases db ∅) ∅.

Lemma tick_never_raises slot now world s :
  wp (run_analysis_tick sha256 holidays created_at updated_at settings slot now world)
    (fun _ res => exists r, res = inl r) s.
Proof.
  unfold run_analysis_tick. apply wp_bind, wp_gets. unfold after. generalize (mkTickResult 0 0 0 0).
  generalize (_analysis_targets (work s)). intros targets. revert s.
  induction targets as [|target targets IH]; intros s r.
  { apply wp_ret. by exists r. }
  cbn [tick_each]. apply wp_bind. apply (wp_mono _ (fun _ res => exists r, res = inl r)).
  - unfold tick_target. apply wp_try.
    lazymatch goal with |- wp ?m _ _ => destruct (m s) as [s1 [r1|e]] eqn:E; unfold wp at 1; rewrite E end;
      [by exists r1|]. repeat wp_step. by eexists.
  - intros s1 res [r1 ->]. apply IH.
Qed.

(** A state write of a session changes the scheduler's row only, and does so
    while the lease is held. *)
Lemma update_session identity u t s :
  wp (in_session (update_scheduler_state identity u (Some t))) (fun s' res =>
    exists b, res = inl b /\ work s' = disk s' /\ b = holds identity t (sched_lease (disk s)) /\
      sched_lease (disk s') = sched_lease (disk s) /\ at_rest (disk s') = at_rest (disk s) /\
      sched_row (disk s') = if b then Some (updated_sched identity u t (sched_row (disk s)))
                            else sched_row (disk s)) s.
Proof.
  apply wp_in_session. unfold update_scheduler_state. cbn [observed].
  repeat (wp_step; cbv beta zeta); cbn [work disk rolled_back committed with_work] in *.
  - exists true. split_and!; try done. apply lookup_insert_eq.
  - exists false. by split_and!.
Qed.

(** A renewal, and what it reads of the scheduler's row. *)
Lemma renewal_session identity t s :
  wp (in_session
        (renewed ← renew_scheduler_lease identity lease_seconds (Some t);
         if renewed : bool then state ← gets sched_row; mret (Some (state ≫= as_last_slot_key)) else mret None))
    (fun s' res => work s' = disk s' /\ at_rest (disk s') = at_rest (disk s) /\
       (sched_row (disk s') ≫= as_last_slot_key) = (sched_row (disk s) ≫= as_last_slot_key) /\
       if holds identity t (sched_lease (disk s))
       then res = inl (Some (sched_row (disk s) ≫= as_last_slot_key)) /\
            forall t', t' < t + seconds lease_seconds -> holds identity t' (sched_lease (disk s')) = true
       else res = inl None /\ disk s' = disk s) s.
Proof.
  assert (Hh : forall b t', holds identity t (Some b) = true -> t' < t + seconds lease_seconds ->
            holds identity t' (Some (with_expiry b (t + seconds lease_seconds) t)) = true).
  { intros b t' H Ht. apply andb_true_iff in H as [H _]. apply andb_true_iff.
    split; [exact H|by apply Z.ltb_lt]. }
  apply wp_in_session. unfold renew_scheduler_lease. cbn [observed].
  repeat (wp_step; cbv beta zeta); cbn [work disk rolled_back committed with_work] in *;
    rewrite ?E, ?E0; try (split_and!; done).
  - assert (Hr : sched_row (put_sched (beaten a (as_state a) t)
      (put_sched_lease (with_expiry b (t + seconds lease_seconds) t) (disk s))) =
      Some (beaten a (as_state a) t)) by apply lookup_insert_eq.
    change (sched_row (put_sched_lease _ _)) with (sched_row (disk s)) in E1.
    rewrite Hr, E1. split_and!; try done. intros t' Ht. change (sched_lease (put_sched ?x ?db)) with (sched_lease db).
    rewrite sched_lease_put. auto.
  - split_and!; try done. intros t' Ht. rewrite sched_lease_put. auto.
  - split_and!; try done. intros t' Ht. rewrite sched_lease_put. auto.
Qed.

(** A tick under a lease that outlasts it is recorded with its slot. *)
Lemma slot_recorded identity poll slot s :
  po_observed_at poll <= po_completed_at poll ->
  (forall t', t' < po_observed_at poll + seconds lease_seconds ->
     holds identity t' (sched_lease (disk s)) = true) ->
  po_completed_at poll < po_observed_at poll + seconds lease_seconds ->
  (forall target, leaves sched_tables (tw_runs (po_world poll target))) ->
  wp (run_slot sha256 holidays created_at updated_at settings identity poll slot) (fun s' res =>
    res = inl tt /\ (sched_row (disk s') ≫= as_last_slot_key) = Some (slot_key slot)) s.
Proof.
  intros Ho Hl Hc Hw. unfold run_slot. apply wp_bind. eapply wp_mono; [apply update_session|].
  intros s1 res1 (b1 & -> & _ & _ & Hl1 & _). unfold after. apply wp_try, wp_bind.
  eapply (wp_mono _ (fun s2 res => (exists r, res = inl r) /\
                       sched_lease (disk s2) = sched_lease (disk s1))).
  { apply wp_in_session. eapply wp_mono.
    - apply wp_and; [apply tick_never_raises|].
      apply (keeps_tick slot (po_observed_at poll) (po_world poll) Hw
        (fun t => t.1 !! SCHEDULER_NAME = sched_lease (disk s1))). by split.
    - intros s2 res [Hr [_ Hd]]. split; [done|exact Hd]. }
  intros s2 res2 [[r ->] Hl2]. unfold after. apply wp_bind. eapply wp_mono; [apply update_session|].
  intros s3 res3 (b3 & -> & _ & Hb & _ & _ & Hrow). unfold after. apply wp_ret. split; [done|].
  rewrite Hl2, Hl1, Hl in Hb by done. subst b3. by rewrite Hrow.
Qed.

(** C29: a slot is analysed once.  After a pass of a scheduler that holds its
    lease, a later pass in the same slot touches no table but the scheduler's
    own, whether the slot was analysed by this pass or before; a scheduler
    that lost its lease ends with code 3 and writes nothing. *)
Theorem slot_ticks_once identity poll poll' s slot next next' :
  analysis_slot (po_observed_at poll) = (Some slot, next) ->
  analysis_slot (po_observed_at poll') = (Some slot, next') ->
  holds identity (po_observed_at poll) (sched_lease (po_others poll (disk s))) = true ->
  po_observed_at poll <= po_completed_at poll < po_observed_at poll + seconds lease_seconds ->
  (forall target, leaves sched_tables (tw_runs (po_world poll target))) ->
  leaves scheduler_states (po_others poll') ->
  let pass := poll_once sha256 holidays created_at updated_at settings lease_seconds identity in
  wp (pass poll) (fun s1 res1 => res1 = inl None /\
    wp (pass poll') (fun s2 res2 =>
      let db := po_others poll' (disk s1) in
      at_rest (disk s2) = at_rest db /\
      (holds identity (po_observed_at poll') (sched_lease db) = false ->
       res2 = inl (Some 3) /\ disk s2 = db)) s1) s.
Proof.
  intros Hs1 Hs2 Hh [Ho Hc] Hw Hoth pass. unfold pass at 1, poll_once. apply wp_bind, wp_others_commit.
  unfold after. apply wp_bind. eapply wp_mono; [apply renewal_session|].
  intros s1 res1 (_ & _ & Hlast & H1). cbn [disk interleave] in *. rewrite Hh in H1.
  destruct H1 as [-> Hlease]. unfold after at 1. rewrite Hs1. apply wp_bind.
  apply (wp_mono _ (fun s2 res2 => res2 = inl tt /\
           (sched_row (disk s2) ≫= as_last_slot_key) = Some (slot_key slot))).
  { case_bool_decide as Hk; [apply wp_ret; by rewrite Hlast|]. by apply slot_recorded. }
  intros s2 res2 [-> Hrec]. unfold after. apply wp_ret. split; [done|].
  unfold pass, poll_once. apply wp_bind, wp_others_commit. unfold after at 1. apply wp_bind.
  eapply wp_mono; [apply renewal_session|]. intros s3 res3 (_ & Hrest & _ & H3).
  cbn [disk interleave] in *. unfold after at 1.
  destruct (holds identity (po_observed_at poll') (sched_lease (po_others poll' (disk s2)))).
  - destruct H3 as [-> _]. rewrite Hs2.
    assert (Hk : (sched_row (po_others poll' (disk s2)) ≫= as_last_slot_key) = Some (slot_key slot)).
    { unfold sched_row. by rewrite Hoth. }
    rewrite bool_decide_eq_true_2 by done. repeat wp_step. by split.
  - destruct H3 as [-> H3]. apply wp_ret. by split.
Qed.
End Scheduler.

(** ** A concrete tick *)

Definition quiet_world : string * string * string -> TickWorld := fun _ => mkTickWorld [] [] (fun db => db).

(** The day with a scheduler that holds its lease. *)
Definition scheduled_db : DB :=
  put_sched_lease (mkBrokerLease SCHEDULER_NAME "a" 1 (day_now + seconds 30) 1 day_now) routed_db.

Definition scheduled_session : Sess := open_session scheduled_db day_now numbered.

Definition day_slot : AnalysisSlot :=
  mkAnalysisSlot "20260304T1000+0900" day_now (day_now + 5 * minute).

Abbreviation tick_demo s :=
  (run_analysis_tick run_hash no_holidays (fun _ => day_now - hour) (fun _ => day_now - minute)
     (day_settings STAGE_SHADOW) day_slot day_now quiet_world s).

(** The position of the day is decided, routed and handed to the agents; a
    second tick in the slot decides nothing. *)
Example tick_twice :
  let '(s1, r1) := tick_demo scheduled_session in
  let '(s2, r2) := tick_demo s1 in
  (r1, r2, length (rows (decisions (disk s2))), length (rows (executions (disk s2))),
   length (rows (agent_runs (disk s2))))
  = (inl (mkTickResult 1 1 0 0), inl (mkTickResult 1 0 0 0), 1%nat, 1%nat, 1%nat).
Proof. vm_compute. reflexivity. Qed.

Lemma tick_decides_once_witness :
  exists s' r, tick_demo scheduled_session = (s', inl r) /\ processed_count r = 1 /\
    grown (target_requests run_hash day_slot ("user-1", "KRX", "005930")) ∅ (decisions (disk s')).
Proof.
  pose proof (tick_decides_once run_hash no_holidays (fun _ => day_now - hour) (fun _ => day_now - minute)
    (day_settings STAGE_SHADOW) day_slot day_now quiet_world scheduled_session) as H.
  unfold wp in H. destruct (tick_demo scheduled_session) as [s' res].
  assert (Ht : _analysis_targets (work scheduled_session) = [("user-1", "KRX", "005930")])
    by (vm_compute; reflexivity).
  rewrite Ht in H. destruct H as (r & -> & Hp & _ & _ & _ & _ & Hg).
  - intros target db. reflexivity.
  - intros k u Hk. change (users _) with ({[ "user-1" := demo_user ]} : gmap string User) in Hk.
    apply lookup_singleton_Some in Hk as [<- <-]. reflexivity.
  - intros k1 k2 d1 d2 H1. destruct (lookup_empty_Some _ _ H1).
  - reflexivity.
  - exists s', r. split; [reflexivity|]. split; [exact Hp|exact Hg].
Defined.

Definition poll_at (t : Z) : Poll := mkPoll t (t + second) (fun db => db) quiet_world.

Lemma slot_ticks_once_witness :
  let pass := poll_once run_hash no_holidays (fun _ => day_now - hour) (fun _ => day_now - minute)
                (day_settings STAGE_SHADOW) 30 (mkIdentity "a" 1) in
  wp (pass (poll_at day_now)) (fun s1 res1 => res1 = inl None /\
    wp (pass (poll_at (day_now + minute))) (fun s2 res2 =>
      at_rest (disk s2) = at_rest (disk s1) /\
      (holds (mkIdentity "a" 1) (day_now + minute) (sched_lease (disk s1)) = false ->
       res2 = inl (Some 3) /\ disk s2 = disk s1)) s1) scheduled_session.
Proof.
  eapply (slot_ticks_once _ _ _ _ _ 30 (mkIdentity "a" 1) (poll_at day_now) (poll_at (day_now + minute))
            scheduled_session day_slot).
  - vm_compute. reflexivity.
  - vm_compute. reflexivity.
  - vm_compute. reflexivity.
  - cbn. unfold seconds, second. lia.
  - intros target db. reflexivity.
  - intros db. reflexivity.
Defined.
