(* ===== verification/AssignmentRuns.v ===== *)
(** * Active routes and the runs of the agents

    The administration of models ([llm/profiles.py]) and the runs
    ([agents/runtime.py], [agents/scheduler.py]) meet in the table of routes:
    what an activation leaves active is what the scheduler finds and a run
    accepts. *)

Set Warnings "-register-all".

From Stdlib Require Import ZArith Lia Ascii String.
From stdpp Require Import base numbers strings list gmap pretty.
From S2P Require Import Prelude Decimal Json DecimalText Models Session Policies PyText.
From S2P Require Import LlmCatalog LlmTables LlmPrompts LlmProfiles LlmRoutes ProfileProps ProfileAdmin.
From S2P Require Import AgentContracts AgentQueue AgentRuntime AgentRuns AnalysisTick.

Open Scope Z_scope.

(** What the administration leaves open: the schema the output is declared to
    have.  The requests never name an empty prompt. *)
Definition route_supported (r : LlmRoleRoute) : Prop :=
  lr_output_schema_version r ∈ SCHEMA_VERSIONS (lr_role r) /\ lr_prompt_profile_id r <> Some EmptyString.

Lemma nonempty_opt_text s : nonempty_text s = true -> is_Some (opt_text s).
Proof. destruct s as [[|c s]|]; intros H; try done; cbn; eauto. Qed.

Lemma adapter_resolves_allowed p : adapter_resolves p = true -> adapter_allowed p = true.
Proof.
  unfold adapter_resolves, adapter_allowed, is_mock, resolve. rewrite !bool_decide_eq_true.
  destruct (String.eqb (lp_adapter_type p) "MOCK"); [done|]. destruct (bool_decide _); [|done].
  destruct (lp_endpoint p) as [e|]; [|done]. destruct (String.eqb e EmptyString); cbn; eauto.
Qed.

Section Ready.
Context (db : DB) (owner : string) (Hok : profiles_ok db).

(** A model whose provider is validated is ready, credential included. *)
Lemma dependency_ready id :
  dependency_available owner db id = true ->
  exists m p, ready_model db owner (Some id) = Some (m, p) /\ llm_models db !! id = Some m /\
    llm_providers db !! lm_provider_profile_id m = Some p.
Proof.
  intros H. destruct (dependency_available_live _ _ _ H) as (m & p & Hm & Hv & Hp & Hd & Ho & Hs).
  exists m, p. split_and!; [|done..]. unfold ready_model. cbn. rewrite Hm. cbn. rewrite Hp. cbn.
  pose proof (po_credential _ Hok _ _ Hp Hs Hd) as Hc. unfold provider_unready. rewrite Hv, Ho, Hs, Hd. cbn.
  rewrite String.eqb_refl. cbn. unfold lacks_credential, is_mock in Hc.
  destruct (String.eqb (lp_adapter_type p) "MOCK"); [done|]. cbn in *. apply negb_false_iff in Hc.
  by rewrite bool_decide_eq_true_2 by by apply nonempty_opt_text.
Qed.

Lemma prompt_fits_ready r :
  prompt_fits owner r db = inr tt -> lr_prompt_profile_id r <> Some EmptyString ->
  prompt_ready db owner (lr_role r) r = true.
Proof.
  unfold prompt_fits, prompt_ready, get_prompt. destruct (lr_prompt_profile_id r) as [[|c id]|]; try done.
  intros H _. cbn. destruct (llm_prompts db !! String c id) as [q|]; [|done].
  destruct (String.eqb (lq_owner_id q) owner); [|done]. cbn in *. apply reject_if_inr in H. bool_to_prop.
  by rewrite H, H0.
Qed.

Lemma all_texts_items items ids : all_texts items = Some ids -> items = map JStr ids.
Proof.
  revert ids. induction items as [|x items IH]; intros ids H; cbn in H; [by injection H as <-|].
  destruct x; try done. apply bind_Some in H as (rest & Hr & [= <-]). cbn. by rewrite (IH _ Hr).
Qed.

(** A sound route of the owner whose models are available is loaded. *)
Lemma load_route_ready k r :
  llm_routes db !! k = Some r -> lr_owner_id r = owner -> lr_state r ∈ ["VALIDATED"; "ACTIVE"] ->
  (forall id, id ∈ route_model_ids r -> dependency_available owner db id = true) -> route_supported r ->
  exists b, load_route db owner (lr_role r) k = inr b /\ rb_route b = r.
Proof.
  intros Hr Ho Hs Hd [Hschema Hprompt]. pose proof (po_sound _ Hok _ _ Hr Hs) as [Hst Hat (ids & Hids & Hshape) Hpf Hm].
  assert (Hres : forall id m p, id ∈ route_model_ids r -> llm_models db !! id = Some m ->
            llm_providers db !! lm_provider_profile_id m = Some p -> adapter_allowed p = true).
  { intros id m p Hid Hm' Hp'. destruct (Hm id Hid) as (m2 & p2 & ? & ? & _ & Ha). simplify_eq.
    by apply adapter_resolves_allowed. }
  rewrite (route_model_ids_eq _ _ Hids) in *. rewrite Ho in Hpf.
  pose proof Hids as Hids'. unfold _fallback_model_ids in Hids'.
  destruct (lr_fallback_model_profile_ids r) as [| | | | |items|] eqn:Ei; try done.
  destruct (all_texts items) as [ids'|] eqn:Et; [|done]. injection Hids' as ->. apply all_texts_items in Et as ->.
  unfold load_route. rewrite Hr, Ei.
  assert (Hun : route_unready owner (lr_role r) r (map JStr ids) = false).
  { unfold route_unready. rewrite Ho, Hst, Hat, !String.eqb_refl, (bool_decide_eq_true_2 _ Hs), (bool_decide_eq_true_2 _ Hschema).
    destruct Hshape as [[-> ->]|[-> Hl]]; [done|]. destruct ids as [|x [|y ids]]; [done| |done]. done. }
  rewrite Hun. destruct (dependency_ready _ (Hd _ ltac:(by left))) as (m & p & -> & Hm1 & Hp1).
  rewrite prompt_fits_ready by done.
  destruct ids as [|x ids]; cbn [map].
  - cbn. rewrite (Hres _ _ _ ltac:(by left) Hm1 Hp1). cbn. eauto.
  - cbn [json_id]. destruct (dependency_ready x (Hd _ ltac:(by right; left))) as (m2 & p2 & -> & Hm2 & Hp2).
    cbn. rewrite (Hres _ _ _ ltac:(by left) Hm1 Hp1), (Hres _ _ _ ltac:(by right; left) Hm2 Hp2). cbn.
    eauto.
Qed.

(** A route that is loaded is supported. *)
Lemma load_route_supported role k b :
  load_route db owner role k = inr b -> exists r, llm_routes db !! k = Some r /\ route_supported r.
Proof.
  unfold load_route. destruct (llm_routes db !! k) as [r|]; [|done].
  destruct (lr_fallback_model_profile_ids r) as [| | | | |ids|]; try done.
  destruct (route_unready owner role r ids) eqn:Hun; [done|].
  destruct (ready_model _ _ _) as [[m p]|]; [|done].
  destruct (negb (prompt_ready db owner role r)) eqn:Hp; [by rewrite orb_true_r|]. intros _. exists r. split; [done|].
  apply negb_false_iff in Hp. unfold route_unready in Hun. repeat (apply orb_false_iff in Hun as [Hun ?]).
  bool_to_prop. repeat match goal with Heq : String.eqb _ _ = true |- _ => apply String.eqb_eq in Heq end.
  split; [congruence|]. intros E. unfold prompt_ready in Hp. by rewrite E in Hp.
Qed.

(** The routes of [roles], each loaded. *)
Definition loaded (route_ids : list (string * string)) (roles : list string)
    (bindings : list (string * RouteBinding)) : Prop :=
  Forall2 (fun role b => b.1 = role /\ lr_id (rb_route b.2) = default EmptyString (dict_get role route_ids))
    roles bindings.

Lemma load_each_ready route_ids roles :
  (forall role, role ∈ roles -> exists b, load_route db owner role (default EmptyString (dict_get role route_ids)) = inr b /\
     lr_id (rb_route b) = default EmptyString (dict_get role route_ids)) ->
  exists bs, load_each db owner route_ids roles = inr bs /\ loaded route_ids roles bs.
Proof.
  induction roles as [|role roles IH]; intros H; [by exists []; split; [|constructor]|]. cbn [load_each].
  destruct (H role ltac:(by left)) as (b & Hb & Hid). unfold dict_get in Hb. rewrite Hb.
  destruct IH as (bs & -> & Hl); [intros r Hr; apply H; by right|].
  exists ((role, b) :: bs). split; [done|]. by constructor.
Qed.

Lemma load_each_each route_ids roles bs role :
  load_each db owner route_ids roles = inr bs -> role ∈ roles ->
  exists b, load_route db owner role (default EmptyString (dict_get role route_ids)) = inr b.
Proof.
  revert bs. induction roles as [|x roles IH]; intros bs H Hin; [by apply elem_of_nil in Hin|]. cbn [load_each] in H.
  apply result_bind_inr in H as (b & Hb & H). apply result_bind_inr in H as (rest & Hrest & _).
  apply elem_of_cons in Hin as [->|Hin]; [by exists b|by eapply IH].
Qed.

(** ** The routes the scheduler finds *)

Definition by_role (d : list (string * string)) (l : list LlmRoleRoute) : list (string * string) :=
  foldl (fun d route => dict_set (lr_role route) (lr_id route) d) d l.

Lemma by_role_get d l role :
  (exists r, r ∈ l /\ lr_role r = role /\ dict_get role (by_role d l) = Some (lr_id r)) \/
  (role ∉ map lr_role l) /\ dict_get role (by_role d l) = dict_get role d.
Proof.
  revert d. induction l as [|r l IH]; intros d.
  - right. split; [apply not_elem_of_nil|done].
  - destruct (IH (dict_set (lr_role r) (lr_id r) d)) as [(r' & Hr' & Hrole & Hg)|[Hn Hg]].
    + left. exists r'. split; [by right|done].
    + change (by_role d (r :: l)) with (by_role (dict_set (lr_role r) (lr_id r) d) l). rewrite Hg, dict_get_set.
      destruct (String.eqb_spec role (lr_role r)) as [->|Hne]; [left|right].
      * exists r. split_and!; [by left|done..].
      * split; [|done]. cbn. by intros [?|?]%elem_of_cons.
Qed.

Lemma active_elem r :
  r ∈ List.filter (active_route owner) (rows (llm_routes db)) <->
  active_route owner r = true /\ llm_routes db !! lr_id r = Some r.
Proof.
  rewrite list_elem_of_In, filter_In, <- list_elem_of_In, elem_of_rows. split.
  - intros [[k Hk] Ha]. split; [done|]. by rewrite (po_routes _ Hok _ _ Hk).
  - intros [Ha Hk]. eauto.
Qed.

(** A route of every role is active, and can be asked. *)
Definition role_served (role k : string) : Prop :=
  exists r, llm_routes db !! k = Some r /\ lr_state r = "ACTIVE" /\ lr_owner_id r = owner /\ lr_role r = role /\
    forall id, id ∈ route_model_ids r -> dependency_available owner db id = true.

Context (route_of : string -> string).
Hypothesis all_served : forall role, role ∈ ASSIGNMENT_ROLES -> role_served role (route_of role).

Lemma served_routes_found :
  exists ids, _active_agent_routes db owner = Some ids /\ same_set (map fst ids) ROUTE_ROLES = true /\
    forall role, role ∈ ASSIGNMENT_ROLES -> dict_get role ids = Some (route_of role).
Proof.
  set (l := List.filter (active_route owner) (rows (llm_routes db))).
  assert (Hget : forall role, role ∈ ASSIGNMENT_ROLES -> dict_get role (by_role [] l) = Some (route_of role)).
  { intros role Hrole. destruct (all_served role Hrole) as (r & Hr & Hs & Ho & Hro & _).
    assert (Hin : r ∈ l).
    { apply active_elem. rewrite (po_routes _ Hok _ _ Hr). split; [|done]. unfold active_route.
      rewrite Ho, Hs, Hro, String.eqb_refl, (rs_stage _ _ (po_sound _ Hok _ _ Hr ltac:(rewrite Hs; apply active_in))).
      by rewrite (bool_decide_eq_true_2 (role ∈ ROUTE_ROLES)). }
    destruct (by_role_get [] l role) as [(r' & Hr' & Hro' & ->)|[Hn _]].
    - f_equal. apply active_elem in Hr' as [Ha' Hk']. unfold active_route in Ha'. bool_to_prop.
      repeat match goal with Heq : String.eqb _ _ = true |- _ => apply String.eqb_eq in Heq end.
      apply (po_single _ Hok _ _ r' r); congruence.
    - destruct Hn. rewrite <- Hro. by apply list_elem_of_fmap_2. }
  assert (Hsame : same_set (map fst (by_role [] l)) ROUTE_ROLES = true).
  { unfold same_set. apply andb_true_iff. rewrite !forallb_forall. split; intros role Hin; apply bool_decide_eq_true_2.
    - apply list_elem_of_In in Hin. destruct (by_role_get [] l role) as [(r & Hr & <- & _)|[_ Hg]].
      + apply active_elem in Hr as [Ha _]. unfold active_route in Ha. by bool_to_prop.
      + apply dict_get_None in Hg. done.
    - destruct (decide (role ∈ (by_role [] l).*1)) as [|Hn]; [done|]. apply dict_get_None in Hn.
      rewrite Hget in Hn; [done|]. by apply list_elem_of_In. }
  exists (by_role [] l). split_and!; [|done..]. unfold _active_agent_routes. fold l. fold (by_role [] l). by rewrite Hsame.
Qed.

(** They load exactly if all of them are supported. *)
Lemma served_routes_load ids :
  same_set (map fst ids) ROUTE_ROLES = true ->
  (forall role, role ∈ ASSIGNMENT_ROLES -> dict_get role ids = Some (route_of role)) ->
  (forall role r, role ∈ ASSIGNMENT_ROLES -> llm_routes db !! route_of role = Some r -> route_supported r) <->
  exists bindings, _load_routes db owner ids = inr bindings /\ loaded ids ROUTE_ROLES bindings.
Proof.
  intros Hsame Hids. unfold _load_routes. rewrite Hsame. cbn [negb]. split.
  - intros Hsup. apply load_each_ready. intros role Hrole. rewrite (Hids role Hrole). cbn.
    destruct (all_served role Hrole) as (r & Hr & Hs & Ho & Hro & Hd). pose proof (Hsup role r Hrole Hr) as Hrs.
    destruct (load_route_ready _ r Hr Ho) as (b & Hb & E); [rewrite Hs; apply active_in|done|done|].
    exists b. rewrite <- Hro at 1. split; [done|]. by rewrite E, (po_routes _ Hok _ _ Hr).
  - intros (bs & Hbs & _) role r Hrole Hr. destruct (load_each_each _ _ _ role Hbs Hrole) as (b & Hb).
    rewrite (Hids role Hrole) in Hb. apply load_route_supported in Hb as (r' & Hr' & Hs). cbn in Hr'. by simplify_eq.
Qed.
End Ready.

(** ** An activation starts the runs *)

Lemma dependency_available_same db db' owner id :
  same_profiles db db' -> dependency_available owner db' id = dependency_available owner db id.
Proof. intros (Hp & Hm & _ & _). unfold dependency_available. by rewrite Hm, Hp. Qed.

(** The routes a request names, all of which it activated. *)
Lemma switched_served owner route_ids db db' selected now :
  profiles_ok db -> _assignment_routes owner route_ids db = inr selected ->
  same_profiles (switched_routes now owner (map lr_id selected) db) db' ->
  forall role, role ∈ ASSIGNMENT_ROLES -> role_served db' owner role (default EmptyString (dict_get role route_ids)).
Proof.
  intros Hok Hsel Hsame role [i Hi]%list_elem_of_lookup.
  pose proof (assignment_routes_inr _ _ _ _ Hsel) as Hall.
  destruct (Forall2_lookup_l _ _ _ _ _ Hall Hi) as (r & Hr & Ha).
  pose proof Ha as (Hk & Ho & Hrole & Hs & Hd)%assigned_route_inr.
  destruct (switched_fixed now owner (map lr_id selected) r) as (_ & Eo & Er & Em & _).
  exists (switched now owner (map lr_id selected) r).
  assert (Hin : lr_id r ∈ map lr_id selected) by (apply list_elem_of_fmap_2; by eapply list_elem_of_lookup_2).
  split_and!; try congruence.
  - destruct Hsame as (_ & _ & _ & ->). unfold switched_routes. cbn. by rewrite lookup_fmap, Hk.
  - unfold switched, inactive. rewrite bool_decide_eq_true_2 by done.
    by destruct (String.eqb_spec (lr_state r) "ACTIVE").
  - rewrite Em. intros id Hid. rewrite (dependency_available_same _ _ _ _ Hsame). by apply Hd.
Qed.

(** The switch leaves what a run asks for as it was. *)
Lemma switched_supported now owner ids r : route_supported (switched now owner ids r) <-> route_supported r.
Proof. unfold switched. by repeat case_match. Qed.

Lemma switched_lookup_supported now owner ids db db' k :
  same_profiles (switched_routes now owner ids db) db' ->
  (forall r, llm_routes db !! k = Some r -> route_supported r) <->
  (forall r, llm_routes db' !! k = Some r -> route_supported r).
Proof.
  intros (_ & _ & _ & ->). unfold switched_routes. cbn. rewrite lookup_fmap.
  destruct (llm_routes db !! k) as [r|]; cbn; [|done]. split; intros H r' [= <-];
    by apply (switched_supported now owner ids r), H.
Qed.

(** A model that can be asked on behalf of its owner, a route of a role whose
    models can, and an assignment of such routes to the five roles. *)
Definition model_usable (db : DB) (owner id : string) : Prop :=
  exists m p, llm_models db !! id = Some m /\ lm_state m = "VALIDATED" /\
    llm_providers db !! lm_provider_profile_id m = Some p /\ lp_deleted_at p = None /\
    lp_owner_id p = owner /\ lp_state p = "VALIDATED".

Definition route_usable (db : DB) (owner role k : string) : Prop :=
  exists r, llm_routes db !! k = Some r /\ lr_owner_id r = owner /\ lr_role r = role /\
    (lr_state r = "VALIDATED" \/ lr_state r = "ACTIVE") /\
    forall id, id ∈ route_model_ids r -> model_usable db owner id.

Definition assignable (db : DB) (owner : string) (route_ids : list (string * string)) : Prop :=
  (forall role, role ∈ route_ids.*1 <-> role ∈ ASSIGNMENT_ROLES) /\
  forall role k, dict_get role route_ids = Some k -> route_usable db owner role k.

Lemma dependency_usable db owner id : dependency_available owner db id = true <-> model_usable db owner id.
Proof.
  split; [apply dependency_available_live|]. intros (m & p & Hm & Hv & Hp & Hd & Ho & Hs).
  unfold dependency_available, live_provider. rewrite Hm, Hv, Hp, Hd, Ho, Hs. cbn. by rewrite String.eqb_refl.
Qed.

Lemma assigned_usable db owner route_ids role k :
  profiles_ok db -> dict_get role route_ids = Some k ->
  (exists r, assigned_route owner route_ids db role = inr r) <-> route_usable db owner role k.
Proof.
  intros Hok Hk. split.
  - intros (r & (Hr & Ho & Hrole & Hs & Hd)%assigned_route_inr). rewrite Hk in Hr. exists r. split_and!; try done.
    + rewrite elem_of_cons, list_elem_of_singleton in Hs. tauto.
    + intros id Hid. by apply dependency_usable, Hd.
  - intros (r & Hr & Ho & Hrole & Hs & Hd).
    assert (Hst : lr_state r ∈ ["VALIDATED"; "ACTIVE"]) by (rewrite elem_of_cons, list_elem_of_singleton; tauto).
    pose proof (po_sound _ Hok _ _ Hr Hst) as [Hstage _ (ids & Hids & _) _ _].
    rewrite (route_model_ids_eq _ _ Hids) in Hd. exists r. unfold assigned_route. rewrite Hk. cbn. rewrite Hr.
    unfold route_assignable. rewrite Ho, Hrole, Hstage, !String.eqb_refl, bool_decide_eq_true_2 by done. cbn.
    destruct (Hd (lr_primary_model_profile_id r) ltac:(by left)) as (m & p & Hm & Hv & Hp & Hdel & Hown & Hps).
    unfold get_model, get_provider, live_provider. rewrite Hm, Hp, Hown, Hdel, String.eqb_refl. cbn.
    rewrite (po_providers _ Hok _ _ Hp), String.eqb_refl. cbn. rewrite Hv. cbn.
    assert (Hav : route_dependencies_available owner r db = true); [|by rewrite Hav].
    unfold route_dependencies_available. rewrite Hids. apply forallb_forall. intros id Hid.
    by apply dependency_usable, Hd, list_elem_of_In.
Qed.

Lemma each_result_all {A B} (f : A -> exn + B) l :
  (exists ys, each_result f l = inr ys) <-> forall x, x ∈ l -> exists y, f x = inr y.
Proof.
  induction l as [|x l IH]; cbn.
  - split; [intros _ x Hx; by apply elem_of_nil in Hx|by eexists].
  - split.
    + intros (ys & H). apply result_bind_inr in H as (y & Hy & H). apply result_bind_inr in H as (zs & Hz & _).
      intros x' [->|Hx']%elem_of_cons; [by exists y|]. apply IH; [by exists zs|done].
    + intros H. destruct (H x ltac:(by left)) as (y & ->). destruct (proj2 IH) as (ys & ->); [|by eexists].
      intros x' Hx'. apply H. by right.
Qed.

Lemma same_roles_spec route_ids :
  same_roles route_ids = true <-> forall role, role ∈ route_ids.*1 <-> role ∈ ASSIGNMENT_ROLES.
Proof.
  unfold same_roles. rewrite andb_true_iff, !forallb_forall. split.
  - intros [H1 H2] role. split; intros H%list_elem_of_In; [apply H1 in H|apply H2 in H]; by bool_to_prop.
  - intros H. split; intros role Hin%list_elem_of_In; by apply bool_decide_eq_true_2, H.
Qed.

Lemma assignment_assignable db owner route_ids :
  profiles_ok db ->
  (exists l, _assignment_routes owner route_ids db = inr l) <-> assignable db owner route_ids.
Proof.
  intros Hok. unfold assignable. rewrite <- same_roles_spec.
  assert (E : _assignment_routes owner route_ids db = if same_roles route_ids
            then each_result (assigned_route owner route_ids db) ASSIGNMENT_ROLES
            else inl (profile_error "ROLE_ASSIGNMENT_SET_INCOMPLETE")).
  { unfold _assignment_routes. by destruct (same_roles route_ids). }
  rewrite E. destruct (same_roles route_ids) eqn:Hsame.
  2: { split; [intros [l H]; discriminate H|intros [H _]; discriminate H]. }
  rewrite each_result_all. pose proof (proj1 (same_roles_spec route_ids) Hsame) as Hroles. split.
  - intros H. split; [done|]. intros role k Hk. apply (assigned_usable _ _ route_ids); [done..|].
    apply H, Hroles. destruct (decide (role ∈ route_ids.*1)) as [|Hn]; [done|]. apply dict_get_None in Hn. congruence.
  - intros [_ H] role Hrole. destruct (dict_get role route_ids) as [k|] eqn:Hk.
    + by apply (assigned_usable _ _ _ _ k), H.
    + apply dict_get_None in Hk. by apply Hroles in Hrole.
Qed.

Lemma loaded_same ids ids' roles bs :
  (forall role, role ∈ roles -> dict_get role ids = dict_get role ids') -> loaded ids roles bs -> loaded ids' roles bs.
Proof.
  intros H Hl. induction Hl as [|role b roles bs [H1 H2] _ IH]; constructor.
  - rewrite <- H by by left. done.
  - apply IH. intros r Hr. apply H. by right.
Qed.

(** What a run finds and loads after the switch. *)
Lemma load_found db db' owner route_ids :
  profiles_ok db' -> (forall role, role ∈ route_ids.*1 <-> role ∈ ASSIGNMENT_ROLES) ->
  (forall role, role ∈ ASSIGNMENT_ROLES -> role_served db' owner role (default EmptyString (dict_get role route_ids))) ->
  (forall k, (forall r, llm_routes db !! k = Some r -> route_supported r) <->
             (forall r, llm_routes db' !! k = Some r -> route_supported r)) ->
  exists ids, _active_agent_routes db' owner = Some ids /\
    (forall role, role ∈ ASSIGNMENT_ROLES -> dict_get role ids = dict_get role route_ids) /\
    ((forall role k r, dict_get role route_ids = Some k -> llm_routes db !! k = Some r -> route_supported r) <->
     exists bindings, _load_routes db' owner ids = inr bindings /\ loaded route_ids ROUTE_ROLES bindings).
Proof.
  intros Hok Hroles Hserved Hsup.
  assert (Hkey : forall role, role ∈ ASSIGNMENT_ROLES ->
            dict_get role route_ids = Some (default EmptyString (dict_get role route_ids))).
  { intros role Hin%Hroles. destruct (dict_get role route_ids) eqn:E; [done|]. by apply dict_get_None in E. }
  destruct (served_routes_found db' owner Hok _ Hserved) as (ids & Hids & Hsame & Hget).
  exists ids. split; [done|]. split; [intros role Hrole; by rewrite Hget, <- Hkey|].
  assert (Hl : forall bs, loaded ids ROUTE_ROLES bs <-> loaded route_ids ROUTE_ROLES bs).
  { intros bs. split; apply loaded_same; intros role Hrole; by rewrite Hget, <- Hkey. }
  assert (Hb : (exists bs, _load_routes db' owner ids = inr bs /\ loaded route_ids ROUTE_ROLES bs) <->
            forall role r, role ∈ ASSIGNMENT_ROLES ->
              llm_routes db' !! default EmptyString (dict_get role route_ids) = Some r -> route_supported r).
  { rewrite (served_routes_load db' owner Hok _ Hserved ids Hsame Hget).
    split; intros (bs & H1 & H2); exists bs; (split; [done|by apply Hl]). }
  rewrite Hb. split.
  - intros H role r Hrole. apply (proj1 (Hsup _)). intros r' Hr'. by eapply H; [apply Hkey|].
  - intros H role k r Hk. revert r. apply (proj2 (Hsup k)). intros r Hr. apply (H role); [|by rewrite Hk].
    apply Hroles. destruct (decide (role ∈ route_ids.*1)) as [|Hn]; [done|]. apply dict_get_None in Hn. congruence.
Qed.

(** C38: An activation of routes on sound tables succeeds exactly when each of
    the five roles, and nothing else, is given a route of the user for this role
    that is validated or active and whose models and providers are validated;
    otherwise nothing is written.  After a success the scheduler finds for each
    role the route that was named, and a run with these routes loads all of
    them, with their models, providers and prompts, exactly when each declares
    an output schema that runs know (and no empty prompt id), which an
    activation does not ask for ([unknown_schema_is_activated]). *)
Theorem activation_starts_runs sha256 user route_ids cid s :
  opened s -> profiles_ok (disk s) ->
  let '(s', reply) := activate_assignments sha256 user route_ids cid id s in
  ((exists l, reply = inl l) <-> assignable (disk s) (u_id user) route_ids) /\
  match reply with
  | inl _ => exists ids, _active_agent_routes (disk s') (u_id user) = Some ids /\
      (forall role, role ∈ ASSIGNMENT_ROLES -> dict_get role ids = dict_get role route_ids) /\
      ((forall role k r, dict_get role route_ids = Some k -> llm_routes (disk s) !! k = Some r -> route_supported r) <->
       exists bindings, _load_routes (disk s') (u_id user) ids = inr bindings /\ loaded route_ids ROUTE_ROLES bindings)
  | inr _ => disk s' = disk s
  end.
Proof.
  intros Hw Hok. pose proof (assignment_assignable (disk s) (u_id user) route_ids Hok) as Ha.
  destruct (_assignment_routes (u_id user) route_ids (disk s)) as [e|selected] eqn:E.
  - pose proof (activation_refused sha256 user route_ids cid s e Hw E) as H. unfold wp in H.
    destruct (activate_assignments _ _ _ _ _ _) as [s' reply], H as [-> ->]. split; [|done].
    rewrite <- Ha. split; intros [l H]; discriminate H.
  - pose proof (wp_activation sha256 user route_ids cid s selected Hw Hok E) as H. unfold wp in H.
    destruct (activate_assignments _ _ _ _ _ _) as [s' reply]. destruct H as ([l ->] & _ & Hsame).
    assert (Hl : assignable (disk s) (u_id user) route_ids) by (apply Ha; by eexists).
    split; [split; [done|by eexists]|].
    assert (Hok' : profiles_ok (disk s')) by (eapply profiles_ok_same; [exact Hsame|by eapply switched_ok]).
    pose proof (switched_served _ _ _ _ _ _ Hok E Hsame) as Hserved.
    apply load_found; [done|apply Hl|done|].
    intros k. by eapply switched_lookup_supported.
Qed.

#[export] Instance route_supported_dec r : base.Decision (route_supported r).
Proof. unfold route_supported. apply _. Defined.

Definition demo_activate (s : Sess) : Sess * (list LlmRoleRoute + exn) :=
  activate_assignments demo_hash demo_user demo_assignment "c" id s.

Definition accepted {A B} (r : A + B) : bool := match r with inl _ => true | inr _ => false end.

Definition runs_load (s : Sess) : bool :=
  match _active_agent_routes (disk s) "user-1" with
  | Some ids => match _load_routes (disk s) "user-1" ids with inr _ => true | inl _ => false end
  | None => false
  end.

Lemma activation_starts_runs_witness :
  opened demo_assigned /\ profiles_ok (disk demo_assigned) /\ runs_load demo_assigned = false /\
  runs_load (demo_activate demo_assigned).1 = true.
Proof.
  assert (Hw : opened demo_assigned) by (vm_compute; reflexivity).
  assert (Hok : profiles_ok (disk demo_assigned)) by (apply administer_ok; by apply no_profiles_ok).
  split; [exact Hw|]. split; [exact Hok|]. split; [vm_compute; reflexivity|].
  assert (Hsup : map_Forall (fun _ r => route_supported r) (llm_routes (disk demo_assigned))).
  { apply (bool_decide_unpack _). vm_compute. exact I. }
  pose proof (activation_starts_runs demo_hash demo_user demo_assignment "c" demo_assigned Hw Hok) as H.
  assert (Hr : accepted (demo_activate demo_assigned).2 = true) by (vm_compute; reflexivity).
  unfold demo_activate, runs_load in *. destruct (activate_assignments _ _ _ _ _ _) as [s' [l|e]]; [|discriminate Hr].
  destruct H as (_ & ids & Hids & _ & Hl). cbn. change (u_id demo_user) with "user-1" in *. rewrite Hids.
  apply proj1 in Hl. destruct Hl as (bindings & Hb & _); [intros role k r _; apply Hsup|]. by rewrite Hb.
Defined.

(** A route whose output is declared in a schema no run knows is validated and
    activated all the same; the scheduler finds it, and every run is refused. *)
Example unknown_schema_is_activated :
  let s := (demo_activate (demo_administer (demo_assigning (fun _ => "1.0"))).1).1 in
  map lr_state (rows (llm_routes (disk s))) = replicate 5 "ACTIVE" /\
  is_Some (_active_agent_routes (disk s) "user-1") /\ runs_load s = false.
Proof. split_and!; [vm_compute; reflexivity|eexists; vm_compute; reflexivity|vm_compute; reflexivity]. Qed.
