(* ===== verification/AgentProps.v ===== *)
(** * What the queue of agent stages promises

    Every stage moves along the automaton [stage_step], whatever the workers
    do; along it a stage is run at most as often as it may be and never again
    once a model was called for it, and a terminal stage is final. *)

From Stdlib Require Import ZArith Lia.
From stdpp Require Import base numbers strings list gmap relations.
From S2P Require Import Prelude Decimal Json PyTime Models Session Frames Fusion AgentQueue.

Open Scope Z_scope.

(** ** The automaton of one stage *)

Inductive stage_step : AgentStageRun -> AgentStageRun -> Prop :=
| step_claim st worker_id lease_seconds timeout_seconds now :
    ag_state st = SG_PENDING ->
    stage_step st (claimed_stage worker_id lease_seconds timeout_seconds now st)
| step_close st state code now :
    ag_state st = SG_PENDING -> state ∈ FAILURES -> stage_step st (ended state code now st)
| step_recover st now : stage_expired now st = true -> stage_step st (recovered now st)
| step_finish st st' now :
    ag_state st = SG_RUNNING -> body_wrote st st' -> body_result st' (inl tt) ->
    stage_step st (released st' (Some now))
| step_fail st st' state code now :
    ag_state st = SG_RUNNING -> body_wrote st st' -> state ∈ FAILURES ->
    stage_step st (released (ended state code now st') (Some now)).

(** The invariant of a stage. *)
Definition stage_ok (st : AgentStageRun) : Prop :=
  0 <= ag_attempt_count st <= ag_max_attempts st /\
  ag_fencing_token st = ag_attempt_count st /\
  match ag_state st with
  | SG_PENDING => ag_invocation_id st = None /\ ag_attempt_count st < ag_max_attempts st
  | SG_RUNNING => 1 <= ag_attempt_count st /\ is_Some (ag_lease_owner_id st) /\
                  is_Some (ag_lease_expires_at st)
  | state => is_Some (ag_completed_at st) /\ (state ∈ DEPENDENCY_OK -> is_Some (ag_output st))
  end.

Lemma in_failures state : state ∈ FAILURES ->
  state = SG_FAILED \/ state = SG_TIMED_OUT \/ state = SG_INVALID_OUTPUT.
Proof. unfold FAILURES. rewrite !elem_of_cons, elem_of_nil. tauto. Qed.

Lemma failure_not_ok state : state ∈ FAILURES -> state ∉ DEPENDENCY_OK.
Proof.
  intros [-> | [-> | ->]]%in_failures; apply (bool_decide_eq_false_1 _); reflexivity.
Qed.

Lemma in_dependency_ok state : state ∈ DEPENDENCY_OK ->
  state = SG_SUCCEEDED \/ state = SG_NOT_APPLICABLE \/ state = SG_INSUFFICIENT_DATA \/
  state = SG_CONFLICTED.
Proof. unfold DEPENDENCY_OK. rewrite !elem_of_cons, elem_of_nil. tauto. Qed.

(** A stage that ended without a result. *)
Lemma ended_ok st : 0 <= ag_attempt_count st <= ag_max_attempts st ->
  ag_fencing_token st = ag_attempt_count st -> ag_state st ∈ FAILURES ->
  is_Some (ag_completed_at st) -> stage_ok st.
Proof.
  intros Hn Ht Hf Hc. split; [done|]. split; [done|]. apply failure_not_ok in Hf as Hd.
  apply in_failures in Hf as [E | [E | E]]; rewrite E in *; done.
Qed.

(** What a later row of a stage owes to an earlier one. *)
Record stage_later (st st' : AgentStageRun) : Prop := mkStageLater {
  sl_identity : ag_id st' = ag_id st /\ ag_run_id st' = ag_run_id st /\ ag_role st' = ag_role st /\
    ag_max_attempts st' = ag_max_attempts st;
  sl_token : ag_fencing_token st <= ag_fencing_token st';
  sl_invocation : ag_invocation_id st <> None ->
    ag_invocation_id st' = ag_invocation_id st /\ ag_attempt_count st' = ag_attempt_count st;
  sl_terminal : ag_state st ∈ TERMINAL -> st' = st
}.

Lemma stage_later_refl st : stage_later st st.
Proof. constructor; try done; lia. Qed.

Lemma stage_later_trans st st1 st2 : stage_later st st1 -> stage_later st1 st2 -> stage_later st st2.
Proof.
  intros [(?&?&?&?) ? I1 T1] [(?&?&?&?) ? I2 T2]. constructor.
  - split_and!; congruence.
  - lia.
  - intros Hi. destruct (I1 Hi) as [E1 E2]. rewrite <- E1 in Hi. destruct (I2 Hi). split; congruence.
  - intros Ht. specialize (T1 Ht). subst st1. by apply T2.
Qed.

Lemma not_terminal state : state = SG_PENDING \/ state = SG_RUNNING -> state ∉ TERMINAL.
Proof. intros [-> | ->]; apply (bool_decide_eq_false_1 _); reflexivity. Qed.

Lemma may_retry_spec st : may_retry st = true ->
  ag_invocation_id st = None /\ ag_attempt_count st < ag_max_attempts st.
Proof. unfold may_retry. intros H. bool_to_prop. done. Qed.

Lemma stage_expired_running now st : stage_expired now st = true -> ag_state st = SG_RUNNING.
Proof. unfold stage_expired. intros H. by bool_to_prop. Qed.

Lemma body_wrote_keeps st st' : body_wrote st st' ->
  ag_id st' = ag_id st /\ ag_run_id st' = ag_run_id st /\ ag_role st' = ag_role st /\
  ag_max_attempts st' = ag_max_attempts st /\ ag_fencing_token st' = ag_fencing_token st /\
  ag_attempt_count st' = ag_attempt_count st.
Proof. intros [E _]. rewrite E. destruct st; done. Qed.

Lemma stage_step_ok st st' : stage_step st st' -> stage_ok st -> stage_ok st'.
Proof.
  intros Hstep (Hn & Ht & Hst). destruct Hstep as
    [ st worker lease secs now Hs | st state code now Hs Hf | st now He | st st' now Hs Hb Hr
    | st st' state code now Hs Hb Hf ].
  - rewrite Hs in Hst. destruct Hst as [_ Hlt]. destruct st; unfold stage_ok; simpl in *.
    split_and!; try done; lia.
  - rewrite Hs in Hst. apply ended_ok; destruct st; done.
  - unfold recovered. destruct (may_retry st) eqn:Er.
    + apply may_retry_spec in Er as [? ?]. by destruct st.
    + apply ended_ok; try (destruct st; done). by apply list_elem_of_further, list_elem_of_here.
  - apply body_wrote_keeps in Hb as (_ & _ & _ & Em & Et & Ea).
    destruct Hr as (Hd & Ho & Hc). unfold stage_ok.
    apply in_dependency_ok in Hd as [E | [E | [E | E]]]; destruct st'; simpl in *; subst; done.
  - apply body_wrote_keeps in Hb as (_ & _ & _ & Em & Et & Ea).
    apply ended_ok; destruct st'; simpl in *; subst; done.
Qed.

Lemma no_terminal {A} st state : ag_state st = state -> state ∉ TERMINAL -> ag_state st ∈ TERMINAL -> A.
Proof. intros -> H1 H2. by destruct H1. Qed.

Lemma pending_open : SG_PENDING ∉ TERMINAL.
Proof. apply not_terminal. by left. Qed.

Lemma running_open : SG_RUNNING ∉ TERMINAL.
Proof. apply not_terminal. by right. Qed.

Lemma stage_step_later st st' : stage_ok st -> stage_step st st' -> stage_later st st'.
Proof.
  intros (Hn & Ht & Hst) Hstep. destruct Hstep as
    [ st worker lease secs now Hs | st state code now Hs Hf | st now He | st st' now Hs Hb Hr
    | st st' state code now Hs Hb Hf ].
  1,2: rewrite Hs in Hst; destruct Hst as [Hi _]; constructor;
       [by destruct st|destruct st; simpl; lia|done|by apply (no_terminal _ SG_PENDING), pending_open].
  - pose proof (stage_expired_running _ _ He) as Hs.
    constructor; [..|by apply (no_terminal _ SG_RUNNING), running_open];
      unfold recovered; destruct (may_retry st), st; simpl; (done || lia).
  - destruct (body_wrote_keeps _ _ Hb) as (? & ? & ? & ? & ? & ?).
    constructor; [by destruct st'|destruct st'; simpl in *; lia
      |intros Hi; rewrite <- (bw_invocation _ _ Hb Hi); by destruct st'
      |by apply (no_terminal _ SG_RUNNING), running_open].
  - destruct (body_wrote_keeps _ _ Hb) as (? & ? & ? & ? & ? & ?).
    constructor; [by destruct st'|destruct st'; simpl in *; lia
      |intros Hi; rewrite <- (bw_invocation _ _ Hb Hi); by destruct st'
      |by apply (no_terminal _ SG_RUNNING), running_open].
Qed.

Lemma stage_path_later st st' : rtc stage_step st st' -> stage_ok st -> stage_ok st' /\ stage_later st st'.
Proof.
  induction 1 as [st|st st1 st2 Hstep _ IH]; intros Hok; [split; [done|apply stage_later_refl]|].
  destruct (IH (stage_step_ok _ _ Hstep Hok)) as [Hok2 Hl]. split; [done|].
  eapply stage_later_trans; [by apply stage_step_later|done].
Qed.

(** ** The table of stages *)

Abbreviation stage_table := (gmap string AgentStageRun).

Definition well_keyed (m : stage_table) : Prop := forall k st, m !! k = Some st -> ag_id st = k.

(** Every stage of [m] comes from the one of [m0] along the automaton. *)
Definition reaches (m0 m : stage_table) : Prop :=
  forall k, option_Forall2 (rtc stage_step) (m0 !! k) (m !! k).

Lemma reaches_refl m : reaches m m.
Proof. intros k. destruct (m !! k); constructor. apply rtc_refl. Qed.

Lemma stage_step_keys st st' : stage_step st st' -> ag_id st' = ag_id st /\ ag_run_id st' = ag_run_id st.
Proof.
  destruct 1 as [? ? ? ? ? ?|? ? ? ? ? ?|? ? ?|? ? ? ? Hb ?|? ? ? ? ? ? Hb ?]; try (by destruct st).
  - unfold recovered. by destruct (may_retry st), st.
  - apply body_wrote_keeps in Hb as (E1 & E2 & _). by destruct st'.
  - apply body_wrote_keeps in Hb as (E1 & E2 & _). by destruct st'.
Qed.

Lemma stage_step_id st st' : stage_step st st' -> ag_id st' = ag_id st.
Proof. apply stage_step_keys. Qed.

Lemma reaches_step m0 m st st' : reaches m0 m -> m !! ag_id st = Some st -> stage_step st st' ->
  reaches m0 (<[ag_id st' := st']> m).
Proof.
  intros Hr Hst Hstep. rewrite (stage_step_id _ _ Hstep). intros k. specialize (Hr k).
  destruct (decide (ag_id st = k)) as [<-|Hne]; [|by rewrite lookup_insert_ne].
  rewrite lookup_insert_eq. rewrite Hst in Hr. inversion Hr as [st0 ? Hp E|]. subst.
  constructor. by eapply rtc_r.
Qed.

(** ** The frame of the fusion *)

Lemma keeps_agent_tables {A} (m : prog A) : keeps agent_data m -> keeps agent_tables m.
Proof. apply (keeps_map agent_data snd). Qed.

Lemma keeps_agent_stages {A} (m : prog A) : keeps agent_tables m -> keeps agent_stages m.
Proof. apply (keeps_map agent_tables (fun t => t.1.1.1)). Qed.

Lemma keeps_finish run state code : keeps agent_tables (_finish run state code).
Proof. unfold _finish. keeps. Qed.

#[export] Hint Resolve keeps_finish : frames.

Section Queue.
Context (sha256 : string -> string) (holidays : Z -> option (list Z)).
Context (parse_core : json -> option AgentCoreOutputV2) (exc_text : exn -> string).
Context (settings : Settings) (xrace : list DecisionExecution) (orace : list TradingOrder).

Abbreviation finalize_run := (_finalize_run sha256 holidays parse_core settings xrace orace).
Abbreviation finalize_of := (finalize_run_of sha256 holidays parse_core settings xrace orace).

Lemma keeps_fusion run now :
  keeps agent_tables
    (finalize_position_advisory sha256 holidays parse_core run settings now xrace orace).
Proof.
  unfold finalize_position_advisory, escalate, route_fused. keeps; by apply keeps_agent_tables, keeps_route.
Qed.

Lemma keeps_finalize loaded run now : keeps agent_tables (finalize_run loaded run now).
Proof.
  unfold _finalize_run, fusion_failed. keeps; try apply keeps_fusion;
    try (by simplify_eq/=; keeps).
Qed.

Lemma keeps_finalize_of loaded st now : keeps agent_tables (finalize_of loaded st now).
Proof. unfold finalize_run_of. keeps. apply keeps_finalize. Qed.

Lemma finalize_of_reaches m0 loaded st now s : both agent_stages (reaches m0) s ->
  wp (finalize_of loaded st now) (fun s' _ => both agent_stages (reaches m0) s') s.
Proof. intros H. by apply (keeps_agent_stages _ (keeps_finalize_of loaded st now)). Qed.

(** *** Recovery *)

Lemma column_same read new {A} `{EqDecision A} (f : AgentStageRun -> A) : column read new read f = f new.
Proof. unfold column. by destruct (decide _). Qed.

(** Without an intervening commit the UPDATE writes the object. *)
Lemma update_same now st : update_columns st (recovered now st) st = recovered now st.
Proof.
  unfold update_columns. rewrite !column_same. unfold recovered.
  destruct (may_retry st), st; vm_compute; reflexivity.
Qed.

Lemma write_recovered now st db : agent_stages db !! ag_id st = Some st ->
  agent_stages (write_stage st (recovered now st) db) =
    <[ag_id (recovered now st) := recovered now st]> (agent_stages db).
Proof. intros H. unfold write_stage. by rewrite H, update_same. Qed.

(** The rows still to be recovered are as they were read. *)
Definition awaiting (m0 : stage_table) (l : list AgentStageRun) (m : stage_table) : Prop :=
  reaches m0 m /\ Forall (fun st => m !! ag_id st = Some st) l.

Lemma awaiting_write m0 st l m now : NoDup (ag_id <$> st :: l) -> stage_expired now st = true ->
  awaiting m0 (st :: l) m ->
  awaiting m0 l (<[ag_id (recovered now st) := recovered now st]> m).
Proof.
  intros [Hn _]%NoDup_cons He [Hr [Hst Hl]%Forall_cons]. split.
  - apply (reaches_step m0 m st); [done..|by constructor].
  - rewrite (stage_step_id st) by by constructor.
    apply Forall_forall. intros x Hx. rewrite Forall_forall in Hl.
    rewrite lookup_insert_ne; [by apply Hl|]. intros Heq. apply Hn.
    rewrite Heq. by apply list_elem_of_fmap_2.
Qed.

Lemma awaiting_tail m0 st l m : awaiting m0 (st :: l) m -> awaiting m0 l m.
Proof. intros [Hr [_ Hl]%Forall_cons]. done. Qed.

Lemma recover_one_keeps loaded st now :
  keeps agent_stages (x ← (if negb (may_retry st) && bool_decide (is_Some (ag_invocation_id st))
     then modify (mark_ambiguous (ag_id st) invocation_running now) else mret tt);
   finalize_of (<[ag_id st := recovered now st]> loaded) (recovered now st) now ;;
   mret (<[ag_id st := recovered now st]> loaded)).
Proof.
  keeps_step; [by keeps|]. keeps_step; [|keeps]. apply keeps_agent_stages, keeps_finalize_of.
Qed.

Lemma wp_recover_each m0 now l loaded s :
  NoDup (ag_id <$> l) -> Forall (fun st => stage_expired now st = true) l ->
  both agent_stages (awaiting m0 l) s ->
  wp (recover_each sha256 holidays parse_core settings xrace orace loaded l now)
     (fun s' _ => both agent_stages (reaches m0) s') s.
Proof.
  revert loaded s. induction l as [|st l IH]; intros loaded s Hn He [[Hw Hlw] [Hd Hld]]; [done|].
  cbn [recover_each]. wp_step. unfold recover_one. wp_step. wp_step. unfold after at 1.
  apply Forall_cons in He as [He Hel]. 
  eapply wp_mono.
  - apply (recover_one_keeps loaded st now (fun m => awaiting m0 l m)). split.
    + cbn [work with_work]. rewrite write_recovered by by inversion Hlw.
      by apply awaiting_write.
    + by apply (awaiting_tail m0 st).
  - intros s' [loaded'|e] [Hw' Hd']; unfold after; [|split; [apply Hw'|apply Hd']].
    apply IH; [by inversion Hn|done|done].
Qed.

Lemma rows_ids_nodup (f : AgentStageRun -> bool) (m : stage_table) : well_keyed m ->
  NoDup (ag_id <$> List.filter f (rows m)).
Proof.
  intros Hk. assert (H : NoDup (ag_id <$> rows m)).
  { unfold rows. rewrite <- list_fmap_compose.
    rewrite (list_fmap_ext _ fst); [apply NoDup_fst_map_to_list|].
    intros i [k st] Hi. apply Hk. by apply list_elem_of_lookup_2, elem_of_map_to_list in Hi. }
  revert H. generalize (rows m) as l. induction l as [|x l IH]; intros H; [done|].
  apply NoDup_cons in H as [Hn H]. simpl. destruct (f x); [|by apply IH].
  apply NoDup_cons. split; [|by apply IH]. intros Hin. apply Hn.
  apply list_elem_of_fmap in Hin as (y & E & Hy). apply list_elem_of_fmap. exists y. split; [done|].
  by apply list_elem_of_In, List.filter_In, proj1, list_elem_of_In in Hy.
Qed.

Lemma filter_rows_lookup (f : AgentStageRun -> bool) (m : stage_table) : well_keyed m ->
  Forall (fun st => m !! ag_id st = Some st) (List.filter f (rows m)) /\
  Forall (fun st => f st = true) (List.filter f (rows m)).
Proof.
  intros Hk. split; apply Forall_forall; intros st [Hin Hf]%list_elem_of_In%List.filter_In; [|done].
  apply list_elem_of_In, elem_of_rows in Hin as [k Hm]. by rewrite (Hk _ _ Hm).
Qed.

(** What other workers commit while this one recovers: any steps of stages, but
    none of a stage whose lease has expired, which a recovery does not lock
    before it reads it. *)
Definition others_work (now : Z) (race : DB -> DB) (m : stage_table) : Prop :=
  forall db, agent_stages db = m -> reaches m (agent_stages (race db)) /\
    forall k st, m !! k = Some st -> stage_expired now st = true ->
      agent_stages (race db) !! k = Some st.

Lemma leaves_others_work now race m : leaves agent_stages race -> others_work now race m.
Proof. intros H db E. split; rewrite (H db), E; [apply reaches_refl|]. intros k st Hk _. exact Hk. Qed.

Lemma wp_recover m now race s : well_keyed m ->
  agent_stages (work s) = m -> agent_stages (disk s) = m -> others_work now race m ->
  wp (recover_expired_stages sha256 holidays parse_core settings xrace orace now race)
     (fun s' _ => both agent_stages (reaches m) s') s.
Proof.
  intros Hk Hw Hd Hr. unfold recover_expired_stages. wp_step. wp_step. unfold after at 1. rewrite Hw.
  wp_step. apply wp_others_commit. unfold after at 1. wp_step.
  destruct (filter_rows_lookup (stage_expired now) m Hk) as [Hl He].
  eapply wp_mono; [apply (wp_recover_each m)|].
  - by apply rows_ids_nodup.
  - done.
  - destruct (Hr _ Hw) as [Rw Ew], (Hr _ Hd) as [Rd Ed].
    assert (Hk' : Forall (fun st => m !! ag_id st = Some st /\ stage_expired now st = true)
              (List.filter (stage_expired now) (rows m))) by (by apply Forall_and).
    split; cbn [work disk interleave]; (split; [done|]); (eapply Forall_impl; [exact Hk'|]);
      intros st [H1 H2]; auto.
  - intros s' [u|e] [Hw' Hd']; unfold after; [|done].
    destruct (0 <? _); repeat wp_step; by split.
Qed.

(** *** Claims *)

Definition offered_rows (m : stage_table) (l : list AgentStageRun) : Prop :=
  Forall (fun st => m !! ag_id st = Some st /\ ag_state st = SG_PENDING) l.

Lemma claimable_offered locked now db : well_keyed (agent_stages db) ->
  offered_rows (agent_stages db) (claimable locked now db).
Proof.
  intros Hk. apply Forall_forall. intros st Hst. unfold claimable in Hst.
  apply sort_by_elem, list_elem_of_In, List.filter_In in Hst as [Hin Hf].
  apply list_elem_of_In, elem_of_rows in Hin as [k Hm]. bool_to_prop.
  by rewrite (Hk _ _ Hm).
Qed.

Lemma claim_action_close now run st db state code :
  claim_action_of now run st db = Close state code -> state ∈ FAILURES.
Proof.
  assert (HT : SG_TIMED_OUT ∈ FAILURES) by apply list_elem_of_further, list_elem_of_here.
  assert (HF : SG_FAILED ∈ FAILURES) by apply list_elem_of_here.
  unfold claim_action_of. repeat case_match; intros [= <- _]; done.
Qed.

Lemma wp_claim_first m0 worker_id lease_seconds now offered s :
  both agent_stages (reaches m0) s -> offered_rows (agent_stages (work s)) offered ->
  wp (claim_first sha256 holidays parse_core settings xrace orace worker_id lease_seconds now offered)
     (fun s' _ => both agent_stages (reaches m0) s') s.
Proof.
  intros [Hw Hd]. induction offered as [|st offered IH]; intros Ho; cbn [claim_first].
  { repeat wp_step. by split. }
  apply Forall_cons in Ho as [[Hst Hp] Ho]. wp_step. wp_step. unfold after at 1.
  destruct (agent_runs (work s) !! ag_run_id st) as [run|]; [|by apply IH].
  destruct (run_closed run); [by apply IH|]. wp_step. wp_step. unfold after at 1.
  destruct (claim_action_of now run st (work s)) as [|state code|secs] eqn:E; [by apply IH| |].
  - apply claim_action_close in E.
    assert (H : both agent_stages (reaches m0) (with_work (put_stage (ended state code now st)) s)).
    { split; [|done]. by apply (reaches_step m0 _ st); [..|apply step_close]. }
    wp_step. wp_step. unfold after at 1. wp_step.
    eapply wp_mono; [by apply (keeps_agent_stages _ (keeps_finalize ∅ run now))|].
    intros s' [u|e] [Hw' Hd']; unfold after at 1; [|done]. repeat wp_step. by split.
  - repeat wp_step. assert (H : reaches m0 (agent_stages (put_stage
      (claimed_stage worker_id lease_seconds secs now st) (work s)))).
    { by apply (reaches_step m0 _ st); [..|apply step_claim]. }
    by split.
Qed.

Lemma reaches_keyed m0 m : well_keyed m0 -> reaches m0 m -> well_keyed m.
Proof.
  intros Hk Hr k st' Hm. specialize (Hr k). rewrite Hm in Hr.
  inversion Hr as [st0 ? Hp E|]. subst. rewrite <- (Hk k st0) by done.
  clear -Hp. induction Hp as [|x y z Hs _ IH]; [done|]. by rewrite IH, (stage_step_id _ _ Hs).
Qed.

Lemma wp_claim_next m worker_id lease_seconds now race locked s : well_keyed m ->
  agent_stages (work s) = m -> agent_stages (disk s) = m -> others_work now race m ->
  wp (claim_next_stage sha256 holidays parse_core settings xrace orace worker_id lease_seconds now race
        locked)
     (fun s' _ => both agent_stages (reaches m) s') s.
Proof.
  intros Hk Hw Hd Hr. unfold claim_next_stage. wp_step.
  eapply wp_mono; [by apply (wp_recover m)|]. intros s' [u|e] H; unfold after at 1; [|done].
  wp_step. wp_step. unfold after at 1. apply wp_claim_first; [done|].
  apply claimable_offered. by apply (reaches_keyed m); [|apply H].
Qed.

(** *** Execution *)

Lemma body_wrote_refl st : body_wrote st st.
Proof. split; [by destruct st|done]. Qed.

(** The row of [id] is [st], everything else is as in [s0]. *)
Definition wrote_row (s0 : Sess) (st : AgentStageRun) (s : Sess) : Prop :=
  agent_stages (work s) = <[ag_id st := st]> (agent_stages (work s0)) /\
  agent_stages (disk s) = agent_stages (disk s0) /\ agent_runs (work s) = agent_runs (work s0).

Lemma wp_update_stage s0 st f s : ag_id (f st) = ag_id st -> wrote_row s0 st s ->
  wp (update_stage (ag_id st) f) (fun s' r => r = inl (f st) /\ wrote_row s0 (f st) s') s.
Proof.
  intros Hid (Hw & Hd & Hr). unfold update_stage. wp_step. wp_step. unfold after at 1.
  rewrite Hw, lookup_insert_eq. wp_step. wp_step; unfold after at 1; [|done].
  simplify_eq. repeat wp_step. split; [done|]. split; [|done]. cbn. by rewrite Hid, Hw, insert_insert_eq.
Qed.

Lemma failure_state_in e : failure_state e ∈ FAILURES.
Proof.
  assert (HF : SG_FAILED ∈ FAILURES) by apply list_elem_of_here.
  destruct e; try exact HF. apply list_elem_of_further, list_elem_of_here.
Qed.

(** The handler ends the stage, or gives the session up. *)
Lemma wp_stage_failed s0 st now e s : wrote_row s0 st s ->
  wp (stage_failed exc_text (ag_id st) now e)
     (fun s' r => match r with
      | inl _ => wrote_row s0 (ended (failure_state e) (failure_code exc_text e) now st) s'
      | inr _ => work s' = disk s' /\ agent_stages (disk s') = agent_stages (disk s0)
      end) s.
Proof.
  intros (Hw & Hd & Hr). unfold stage_failed. wp_step; [repeat wp_step; by split|].
  wp_step. wp_step. unfold after at 1. rewrite Hw, lookup_insert_eq.
  wp_step. apply wp_or_raise; [intros ? [= <-]|done]. unfold after at 1. wp_step.
  assert (Hrest : forall s1, wrote_row s0 st s1 -> wp (update_stage (ag_id st)
    (ended (failure_state e) (failure_code exc_text e) now) ;; mret tt) (fun s' r => match r with
      | inl _ => wrote_row s0 (ended (failure_state e) (failure_code exc_text e) now st) s'
      | inr _ => work s' = disk s' /\ agent_stages (disk s') = agent_stages (disk s0)
      end) s1).
  { intros s1 H1. wp_step. eapply wp_mono; [by apply (wp_update_stage s0)|].
    intros s' r [-> H]. unfold after at 1. by wp_step. }
  destruct (_ && _); wp_step; unfold after at 1; by apply Hrest.
Qed.

Context {Body : StageBody}.

(** The body and its handler, under the timeout check. *)
Definition guarded_body (st : AgentStageRun) (run : AgentRun) (now : Z) : prog unit :=
  try_except
    (guard_or (negb (stage_timed_out now st)) (TimeoutError "AGENT_STAGE_TIMEOUT") ;;
     execute_stage st run now)
    (fun e => Some (stage_failed exc_text (ag_id st) now e)).

Lemma wp_guarded_body st run now s :
  agent_stages (work s) !! ag_id st = Some st -> ag_state st = SG_RUNNING ->
  wp (guarded_body st run now) (fun s' r => match r with
    | inl _ => exists st', wrote_row s st' s' /\ stage_step st (released st' (Some now)) /\
        ag_state st' ∈ TERMINAL /\ ag_id st' = ag_id st
    | inr _ => work s' = disk s' /\ agent_stages (disk s') = agent_stages (disk s)
    end) s.
Proof.
  intros Hst Hs. unfold guarded_body. wp_step.
  assert (Hfail : forall st1 e s1, wrote_row s st1 s1 -> body_wrote st st1 ->
    wp (stage_failed exc_text (ag_id st) now e) (fun s' r => match r with
      | inl _ => exists st', wrote_row s st' s' /\ stage_step st (released st' (Some now)) /\
          ag_state st' ∈ TERMINAL /\ ag_id st' = ag_id st
      | inr _ => work s' = disk s' /\ agent_stages (disk s') = agent_stages (disk s)
      end) s1).
  { intros st1 e s1 H1 Hb. pose proof (failure_state_in e) as Hf.
    destruct (body_wrote_keeps _ _ Hb) as [Hid _]. rewrite <- Hid.
    eapply wp_mono; [by apply (wp_stage_failed s)|]. intros s' [u|e'] H; [|done].
    eexists. split; [exact H|]. split; [by apply step_fail|]. split; [|done].
    apply elem_of_app. by right. }
  assert (H0 : wrote_row s st s) by (by split; [rewrite insert_id|]).
  wp_step. wp_step; unfold after at 1; [|by apply (Hfail st); [|apply body_wrote_refl]].
  eapply wp_mono; [by apply execute_stage_frame|].
  intros s1 r (Hd & Hruns & st1 & Hw & Hb & Hr).
  destruct (body_wrote_keeps _ _ Hb) as [Hid _].
  assert (H1 : wrote_row s st1 s1) by (split; [by rewrite Hid|done]).
  destruct r as [u|e]; [|by apply (Hfail st1)].
  exists st1. split; [done|]. split; [by apply step_finish|]. split; [|done].
  apply elem_of_app. left. apply Hr.
Qed.

Lemma wp_execute m0 claim worker_id now s : well_keyed m0 -> both agent_stages (reaches m0) s ->
  wp (execute_claimed_stage sha256 holidays parse_core exc_text settings xrace orace claim worker_id now)
     (fun s' _ => both agent_stages (reaches m0) s') s.
Proof.
  intros Hk [Hw Hd]. unfold execute_claimed_stage. wp_step. wp_step. unfold after at 1.
  destruct (agent_stages (work s) !! sc_stage_id claim) as [st|] eqn:Hst; [|repeat wp_step; by split].
  pose proof (reaches_keyed _ _ Hk Hw _ _ Hst) as Hid. rewrite <- Hid in Hst.
  destruct (claim_holds claim worker_id st) eqn:Hc; cbn [negb]; [|repeat wp_step; by split].
  unfold claim_holds in Hc. bool_to_prop. wp_step. wp_step. unfold after at 1.
  destruct (agent_runs (work s) !! ag_run_id st) as [run|]; [|repeat wp_step; by split].
  wp_step. fold (guarded_body st run now). eapply wp_mono; [by apply wp_guarded_body|].
  intros s1 [u|e] Hbody; unfold after at 1.
  2: { destruct Hbody as [E1 Hd1]. split; by rewrite ?E1, Hd1. }
  destruct Hbody as (st' & Hrow & Hstep & _ & Hid'). wp_step. rewrite <- Hid'.
  eapply wp_mono; [by apply (wp_update_stage s)|].
  intros s2 r [-> (Hw2 & Hd2 & _)]. unfold after at 1. wp_step.
  assert (H2 : both agent_stages (reaches m0) s2).
  { split; [|by rewrite Hd2]. rewrite Hw2. by apply (reaches_step m0 _ st). }
  eapply wp_mono; [by apply finalize_of_reaches|].
  intros s3 [u'|e] [Hw3 Hd3]; unfold after at 1; [|done]. repeat wp_step. by split.
Qed.
End Queue.

(** ** The queue as a system *)

Section System.
Context (sha256 : string -> string) (holidays : Z -> option (list Z)).
Context (parse_core : json -> option AgentCoreOutputV2) (exc_text : exn -> string).
Context (settings : Settings) {Body : StageBody}.

(** One transaction of a worker on the database [db], with what other workers
    commit while it recovers expired stages, or anything another part of the
    program commits: it may add stages, and changes none. *)
Inductive queue_step (db : DB) : DB -> Prop :=
| queue_claim worker_id lease_seconds now race locked xrace orace t ids s r :
    others_work now race (agent_stages db) ->
    claim_next_stage sha256 holidays parse_core settings xrace orace worker_id lease_seconds now race
      locked (open_session db t ids) = (s, r) ->
    queue_step db (disk s)
| queue_execute claim worker_id now xrace orace t ids s r :
    execute_claimed_stage sha256 holidays parse_core exc_text settings xrace orace claim worker_id now
      (open_session db t ids) = (s, r) ->
    queue_step db (disk s)
| queue_other db' :
    (forall k st, agent_stages db !! k = Some st -> agent_stages db' !! k = Some st) ->
    (forall k st, agent_stages db' !! k = Some st -> agent_stages db !! k = None ->
                  ag_id st = k /\ stage_ok st) ->
    queue_step db db'.

Definition stages_fine (db : DB) : Prop :=
  well_keyed (agent_stages db) /\ forall k st, agent_stages db !! k = Some st -> stage_ok st.

Lemma reaches_fine db db' : stages_fine db -> reaches (agent_stages db) (agent_stages db') ->
  stages_fine db' /\ forall k st, agent_stages db !! k = Some st ->
    exists st', agent_stages db' !! k = Some st' /\ stage_later st st'.
Proof.
  intros [Hk Hok] Hr. split; [split|].
  - by apply (reaches_keyed (agent_stages db)).
  - intros k st' Hst. specialize (Hr k). rewrite Hst in Hr.
    inversion Hr as [st0 ? Hp E|]. subst. by eapply stage_path_later, Hok.
  - intros k st Hst. specialize (Hr k). rewrite Hst in Hr.
    inversion Hr as [st0 st' Hp E0 E|]. subst. exists st'. split; [done|].
    by eapply stage_path_later, Hok.
Qed.

Lemma queue_step_fine db db' : queue_step db db' -> stages_fine db ->
  stages_fine db' /\ forall k st, agent_stages db !! k = Some st ->
    exists st', agent_stages db' !! k = Some st' /\ stage_later st st'.
Proof.
  intros Hstep Hf. pose proof Hf as [Hk Hok].
  destruct Hstep as [worker lease now race locked xrace orace t ids s r Hr E
    |claim worker now xrace orace t ids s r E|db' Hold Hnew].
  - apply reaches_fine; [done|].
    refine (proj2 (wp_elim _ (fun s' _ => both agent_stages (reaches (agent_stages db)) s') _ _ _ _ E)).
    by apply wp_claim_next.
  - apply reaches_fine; [done|].
    refine (proj2 (wp_elim _ (fun s' _ => both agent_stages (reaches (agent_stages db)) s') _ _ _ _ E)).
    apply wp_execute; [done|]. split; apply reaches_refl.
  - split; [split|].
    + intros k st Hst. destruct (agent_stages db !! k) as [st0|] eqn:E; [|by apply (Hnew k st)].
      rewrite (Hold _ _ E) in Hst. simplify_eq. by apply Hk.
    + intros k st Hst. destruct (agent_stages db !! k) as [st0|] eqn:E; [|by apply (Hnew k st)].
      rewrite (Hold _ _ E) in Hst. simplify_eq. by apply (Hok k).
    + intros k st Hst. exists st. split; [by apply Hold|apply stage_later_refl].
Qed.

(** C23: Whatever any number of workers do, in any order, with crashes between
    their transactions and with claims of one during those of another, every
    stage stays well formed and keeps its history: it is claimed at most
    [max_attempts] times and its fencing token counts the claims, once an
    invocation of a model is recorded for it it is never claimed again, and a
    terminal stage never changes.  The one overlap left out is that of a recovery
    with a change another worker commits to the very stage whose expired lease it
    has read ([others_work]): it overwrites that change, which
    [late_recovery_discards_result] shows. *)
Theorem stages_keep_history db db' : stages_fine db -> rtc queue_step db db' ->
  stages_fine db' /\ forall k st, agent_stages db !! k = Some st ->
    exists st', agent_stages db' !! k = Some st' /\ stage_later st st' /\
      ag_fencing_token st' <= ag_max_attempts st.
Proof.
  intros Hf Hrun. assert (H : stages_fine db' /\ forall k st, agent_stages db !! k = Some st ->
    exists st', agent_stages db' !! k = Some st' /\ stage_later st st').
  { induction Hrun as [db|db db1 db2 Hs _ IH].
    - split; [done|]. intros k st Hst. exists st. split; [done|apply stage_later_refl].
    - destruct (queue_step_fine _ _ Hs Hf) as [Hf1 H1]. destruct (IH Hf1) as [Hf2 H2].
      split; [done|]. intros k st Hst. destruct (H1 _ _ Hst) as (st1 & Hst1 & L1).
      destruct (H2 _ _ Hst1) as (st2 & Hst2 & L2). exists st2. split; [done|].
      by eapply stage_later_trans. }
  destruct H as [Hf' H]. split; [done|]. intros k st Hst. destruct (H _ _ Hst) as (st' & Hst' & L).
  exists st'. split; [done|]. split; [done|]. destruct L as [(_ & _ & _ & Hm) _ _ _].
  destruct Hf' as [_ Hok]. destruct (Hok _ _ Hst') as (? & Ht & _). lia.
Qed.
End System.

(** ** What one operation achieves *)

(** A stage a worker may start: pending and due, its run open and still valid,
    and its dependencies done; the auditor and the core of the newer graphs
    also start on dependencies that failed. *)
Record stage_ready (db : DB) (now : Z) (run : AgentRun) (st : AgentStageRun) : Prop := mkStageReady {
  rd_row : agent_stages db !! ag_id st = Some st;
  rd_pending : ag_state st = SG_PENDING /\ ag_available_at st <= now;
  rd_run : agent_runs db !! ag_run_id st = Some run;
  rd_open : ar_state run ∈ [RUN_CREATED; RUN_RUNNING] /\ now < ar_valid_until run;
  rd_dependencies d : d ∈ rows (agent_stages db) -> ag_run_id d = ag_run_id st ->
    ag_role d ∈ ag_dependency_roles st ->
    ag_state d ∈ DEPENDENCY_OK \/
    (ag_state d ∈ TERMINAL /\ uses_v2_contract (ar_dag_version run) = true /\
     ag_role st ∈ ["EVIDENCE_CANDIDATE_AUDITOR"; "CORE"])
}.

Lemma run_closed_open run : run_closed run = false -> ar_state run ∈ [RUN_CREATED; RUN_RUNNING].
Proof.
  unfold run_closed. destruct (ar_state run); intros H; try (vm_compute in H; discriminate H).
  - apply list_elem_of_here.
  - apply list_elem_of_further, list_elem_of_here.
Qed.

Lemma dependency_listed st d db : d ∈ rows (agent_stages db) -> ag_run_id d = ag_run_id st ->
  ag_role d ∈ ag_dependency_roles st -> d ∈ _dependencies st db.
Proof.
  intros Hd Hr Hrole. unfold _dependencies. destruct (ag_dependency_roles st) as [|r l] eqn:E.
  { by apply elem_of_nil in Hrole. }
  apply list_elem_of_In, List.filter_In. split; [by apply list_elem_of_In|].
  rewrite Hr, String.eqb_refl. by apply bool_decide_eq_true.
Qed.

Lemma existsb_all {A} (f : A -> bool) l x : existsb f l = false -> x ∈ l -> f x = false.
Proof.
  intros H Hx. destruct (f x) eqn:E; [|done]. rewrite <- H. symmetry.
  apply existsb_exists. exists x. split; [by apply list_elem_of_In|done].
Qed.

Lemma claim_action_take now run st db secs : claim_action_of now run st db = Take secs ->
  now < ar_valid_until run /\ secs = stage_timeout_seconds st db /\
  forall d, d ∈ _dependencies st db -> ag_state d ∈ DEPENDENCY_OK \/
    (ag_state d ∈ TERMINAL /\ may_reduce_result run st = true).
Proof.
  unfold claim_action_of. destruct (existsb (state_in FAILURES) _) eqn:Ef.
  - destruct (may_reduce_result run st) eqn:Em; cbn [negb]; [|done].
    destruct (existsb (fun d => negb (state_in TERMINAL d)) _) eqn:Et; [done|].
    destruct (Z.leb_spec (ar_valid_until run) now); [done|]. intros [= <-].
    split_and!; [lia|done|]. intros d Hd. right. split; [|done].
    apply (existsb_all _ _ _ Et), negb_false_iff, bool_decide_eq_true in Hd. done.
  - destruct (existsb (fun d => negb (state_in DEPENDENCY_OK d)) _) eqn:Et; [done|].
    destruct (Z.leb_spec (ar_valid_until run) now); [done|]. intros [= <-].
    split_and!; [lia|done|]. intros d Hd. left.
    apply (existsb_all _ _ _ Et), negb_false_iff, bool_decide_eq_true in Hd. done.
Qed.

(** The database after a worker took [st] of [run]. *)
Definition taken (db : DB) (worker_id : string) (lease_seconds now : Z) (run : AgentRun)
  (st : AgentStageRun) : DB :=
  put_run (started_run run now)
    (put_stage (claimed_stage worker_id lease_seconds (stage_timeout_seconds st db) now st) db).

Definition took (db : DB) (worker_id : string) (lease_seconds now : Z) (s' : Sess)
  (claim : StageClaim) : Prop :=
  exists run st, stage_ready db now run st /\
    disk s' = taken db worker_id lease_seconds now run st /\
    claim = mkStageClaim (ag_id st) (ag_fencing_token st + 1).

Section Operations.
Context (sha256 : string -> string) (holidays : Z -> option (list Z)).
Context (parse_core : json -> option AgentCoreOutputV2) (exc_text : exn -> string).
Context (settings : Settings) (xrace : list DecisionExecution) (orace : list TradingOrder).

Lemma claim_first_takes worker_id lease_seconds now offered s :
  Forall (fun st => agent_stages (work s) !! ag_id st = Some st /\ ag_state st = SG_PENDING /\
                    ag_available_at st <= now) offered ->
  wp (claim_first sha256 holidays parse_core settings xrace orace worker_id lease_seconds now offered)
     (fun s' r => match r with
      | inl (Some claim) => took (work s) worker_id lease_seconds now s' claim
      | _ => True end) s.
Proof.
  induction offered as [|st offered IH]; intros Ho; cbn [claim_first]; [by repeat wp_step|].
  apply Forall_cons in Ho as [(Hst & Hp & Ha) Ho]. wp_step. wp_step. unfold after at 1.
  destruct (agent_runs (work s) !! ag_run_id st) as [run|] eqn:Hrun; [|by apply IH].
  destruct (run_closed run) eqn:Hc; [by apply IH|]. wp_step. wp_step. unfold after at 1.
  destruct (claim_action_of now run st (work s)) as [|state code|secs] eqn:E; [by apply IH| |].
  - wp_step. wp_step. unfold after at 1. wp_step. apply wp_any.
    intros s' [u|e]; unfold after at 1; [|done]. by repeat wp_step.
  - repeat wp_step. apply claim_action_take in E as (Hv & -> & Hd). exists run, st.
    split; [|done]. constructor; try done.
    + split; [by apply run_closed_open|done].
    + intros d Hin Hr Hrole. destruct (Hd d) as [|[Ht Hm]]; [by apply dependency_listed|by left|].
      right. unfold may_reduce_result in Hm. bool_to_prop. done.
Qed.

(** A worker only starts a stage that is ready: pending and due, its run
    open and valid, its dependencies done.  Starting it writes that row and
    nothing else of the queue: the stage runs under the worker's lease and the
    next fencing token, which the claim names, within the timeout of its
    route. *)
Theorem claim_is_ready worker_id lease_seconds now race locked db t ids s' claim :
  well_keyed (agent_stages db) -> others_work now race (agent_stages db) ->
  claim_next_stage sha256 holidays parse_core settings xrace orace worker_id lease_seconds now race
    locked (open_session db t ids) = (s', inl (Some claim)) ->
  exists db1, reaches (agent_stages db) (agent_stages db1) /\
    took db1 worker_id lease_seconds now s' claim.
Proof.
  intros Hk Hr E. assert (H : wp (claim_next_stage sha256 holidays parse_core settings xrace orace
    worker_id lease_seconds now race locked) (fun s' r => match r with
      | inl (Some claim) => exists db1, reaches (agent_stages db) (agent_stages db1) /\
          took db1 worker_id lease_seconds now s' claim
      | _ => True end) (open_session db t ids)).
  { unfold claim_next_stage. wp_step. eapply wp_mono; [by apply (wp_recover _ _ _ _ _ _ (agent_stages db))|].
    intros s1 [n|e] [Hw _]; unfold after at 1; [|done]. wp_step. wp_step. unfold after at 1.
    eapply wp_mono; [apply claim_first_takes|intros s2 [[c|]|e] H; [by exists (work s1)|done|done]].
    pose proof (claimable_offered locked now (work s1) (reaches_keyed _ _ Hk Hw)) as Ho.
    apply Forall_forall. intros st Hst. unfold offered_rows in Ho. rewrite Forall_forall in Ho.
    destruct (Ho st Hst). split_and!; [done..|]. unfold claimable in Hst.
    apply sort_by_elem, list_elem_of_In, List.filter_In in Hst as [_ Hf]. by bool_to_prop. }
  exact (wp_elim _ _ _ _ _ H E).
Qed.
End Operations.
