(* ===== verification/AgentSettle.v ===== *)
(** * How a run of the agents settles

    The outcome of an executed stage and of its run, what a superseded claim can
    do, and what a late recovery does to a stage that finished meanwhile. *)

From Stdlib Require Import ZArith Lia.
From stdpp Require Import base numbers strings list gmap relations.
From S2P Require Import Prelude Decimal Json PyTime Models Session Frames Fixtures Fusion AgentQueue.
From S2P Require Import AgentProps.

Open Scope Z_scope.

(** The state a run ends in, by its stages and its evidence. *)
Definition run_ends (stages : list AgentStageRun) (bundle : option EvidenceBundle) (state : RunState) :
  Prop :=
  let core_succeeded := exists core, stage_of "CORE" stages = Some core /\ ag_state core = SG_SUCCEEDED in
  let failing := exists st, st ∈ stages /\ ag_state st ∈ FAILURES in
  let complete := forall st, st ∈ stages -> ag_state st ∈ [SG_SUCCEEDED; SG_NOT_APPLICABLE] in
  match state with
  | RUN_FAILED => ~ core_succeeded \/ failing
  | RUN_SUCCEEDED => core_succeeded /\ complete /\ exists b, bundle = Some b /\ eb_state b = "VERIFIED"
  | RUN_PARTIAL => core_succeeded /\ ~ failing /\
      (~ complete \/ ~ exists b, bundle = Some b /\ eb_state b = "VERIFIED")
  | _ => False
  end.

Lemma existsb_state_in l stages :
  existsb (state_in l) stages = true <-> exists st, st ∈ stages /\ ag_state st ∈ l.
Proof.
  rewrite existsb_exists. split; intros (st & H1 & H2); exists st;
    [apply bool_decide_eq_true in H2|rewrite <- (bool_decide_eq_true (_ ∈ l)) in H2];
    by rewrite ?list_elem_of_In in *.
Qed.

Lemma existsb_not_state_in l stages :
  existsb (fun st => negb (state_in l st)) stages = false <-> forall st, st ∈ stages -> ag_state st ∈ l.
Proof.
  split.
  - intros H st Hst. by apply (existsb_all _ _ _ H), negb_false_iff, bool_decide_eq_true in Hst.
  - intros H. apply not_true_iff_false. intros (st & H1 & H2)%existsb_exists.
    apply negb_true_iff, bool_decide_eq_false in H2. apply H2, H. by apply list_elem_of_In.
Qed.

Lemma bundle_verified_spec bundle :
  bundle_verified bundle = true <-> exists b, bundle = Some b /\ eb_state b = "VERIFIED".
Proof.
  destruct bundle as [b|]; simpl.
  - rewrite String.eqb_eq. split; [intros H; by exists b|by intros (? & [= ->] & H)].
  - split; [done|by intros (? & ? & _)].
Qed.

Lemma run_outcome_ends stages core bundle : stage_of "CORE" stages = Some core ->
  run_ends stages bundle (run_outcome stages core bundle).
Proof.
  intros Hc. unfold run_outcome.
  assert (Hcore : (exists c, stage_of "CORE" stages = Some c /\ ag_state c = SG_SUCCEEDED) <->
                  ag_state core = SG_SUCCEEDED).
  { rewrite Hc. split; [by intros (? & [= ->] & H)|intros H; by exists core]. }
  destruct (existsb (state_in FAILURES) stages) eqn:Ef.
  { rewrite orb_true_r. right. by apply existsb_state_in. }
  rewrite orb_false_r. destruct (decide (ag_state core = SG_SUCCEEDED)) as [Hs|Hs].
  2: { rewrite bool_decide_false by done. left. by rewrite Hcore. }
  rewrite bool_decide_true by done. cbn [negb].
  assert (Hnf : ~ exists st, st ∈ stages /\ ag_state st ∈ FAILURES).
  { rewrite <- existsb_state_in, Ef. done. }
  destruct (existsb (fun st => negb (state_in [SG_SUCCEEDED; SG_NOT_APPLICABLE] st)) stages) eqn:Ec;
    cbn [orb].
  { split; [by apply Hcore|]. split; [done|]. left. rewrite <- existsb_not_state_in, Ec. done. }
  destruct (bundle_verified bundle) eqn:Eb; cbn [negb].
  - split; [by apply Hcore|]. split; [by apply existsb_not_state_in|by apply bundle_verified_spec].
  - split; [by apply Hcore|]. split; [done|]. right. rewrite <- bundle_verified_spec, Eb. done.
Qed.

Lemma existsb_exists_of_forallb l stages : forallb (state_in l) stages = false ->
  exists st, st ∈ stages /\ ag_state st ∉ l.
Proof.
  intros H. destruct (existsb (fun st => negb (state_in l st)) stages) eqn:E.
  - apply existsb_exists in E as (st & H1 & H2). exists st.
    apply negb_true_iff, bool_decide_eq_false in H2. by rewrite list_elem_of_In.
  - rewrite <- not_true_iff_false in H. destruct H. apply forallb_forall. intros st Hst.
    apply bool_decide_eq_true. by apply (existsb_not_state_in l stages), list_elem_of_In.
Qed.

(** The stages of a run in a database, in sequence. *)
Definition ordered_stages (run : AgentRun) (db : DB) : list AgentStageRun :=
  sort_by (fun a b => ag_sequence a <=? ag_sequence b) (stages_of run db).

Lemma session_stages_empty run db : session_stages ∅ run db = ordered_stages run db.
Proof.
  unfold session_stages, ordered_stages. f_equal. rewrite <- (map_id (stages_of run db)) at 2.
  apply map_ext. intros st. by rewrite lookup_empty.
Qed.

Section Settle.
Context (sha256 : string -> string) (holidays : Z -> option (list Z)).
Context (parse_core : json -> option AgentCoreOutputV2) (exc_text : exn -> string).
Context (settings : Settings) (xrace : list DecisionExecution) (orace : list TradingOrder).

(** What settling a run that is no advisory does to the runs. *)
Definition settles (db : DB) (run : AgentRun) (now : Z) (runs : gmap string AgentRun) : Prop :=
  let stages := ordered_stages run db in
  (stages = [] \/ (exists st, st ∈ stages /\ ag_state st ∉ TERMINAL)) /\ runs = agent_runs db \/
  (forall st, st ∈ stages -> ag_state st ∈ TERMINAL) /\ exists run',
    runs = <[ar_id run := run']> (agent_runs db) /\ run_ends stages (bundle_of run db) (ar_state run') /\
    ar_completed_at run' = Some now /\
    ar_core_action run' ∈ [Some "WAIT"; None].

Lemma settled_run_columns run stages core bundle now :
  let run' := settled_run run stages core bundle now in
  ar_id run' = ar_id run /\ ar_purpose run' = ar_purpose run /\
  ar_state run' = run_outcome stages core bundle /\ ar_completed_at run' = Some now /\
  ar_core_action run' ∈ [Some "WAIT"; None].
Proof.
  unfold settled_run. cbv zeta. rewrite !elem_of_cons.
  destruct (bool_decide (ag_state core = SG_SUCCEEDED)), (ag_output core),
    (bool_decide (run_outcome stages core bundle = RUN_FAILED)); split_and!; try reflexivity; simpl; auto.
Qed.

Lemma wp_finalize run now s : ar_purpose run <> "TRADING_ADVISORY" ->
  wp (_finalize_run sha256 holidays parse_core settings xrace orace ∅ run now)
     (fun s' r => disk s' = disk s /\ agent_stages (work s') = agent_stages (work s) /\
        evidence_bundles (work s') = evidence_bundles (work s) /\
        (r = inl tt -> settles (work s) run now (agent_runs (work s')))) s.
Proof.
  intros Hp. unfold _finalize_run, settles. wp_step. wp_step. unfold after at 1.
  rewrite session_stages_empty. set (stages := ordered_stages run (work s)). clearbody stages.
  destruct (bool_decide (stages = []) || negb (forallb (state_in TERMINAL) stages)) eqn:Eg.
  - wp_step. split_and!; [done..|]. intros _. left. split; [|done].
    apply orb_true_iff in Eg as [E|E]; [left; by apply bool_decide_eq_true in E|right].
    apply negb_true_iff in E. apply existsb_exists_of_forallb in E. done.
  - apply orb_false_iff in Eg as [_ E]. apply negb_false_iff in E. rewrite forallb_forall in E.
    wp_step. wp_step; unfold after at 1; [|done]. rename a into core.
    wp_step. wp_step. unfold after at 1. wp_step. wp_step. unfold after at 1.
    pose proof (settled_run_columns run stages core (bundle_of run (work s)) now)
      as (Hid & Hpu & Hst & Hc & Ha).
    rewrite Hpu, (proj2 (String.eqb_neq _ _)) by done. wp_step. split_and!; [done..|]. intros _. right.
    split. { intros st Hin. apply list_elem_of_In, E, bool_decide_eq_true in Hin. done. }
    eexists. split; [rewrite <- Hid; reflexivity|]. rewrite Hst. split; [by apply run_outcome_ends|done].
Qed.

Context {Body : StageBody}.

(** What an executed claim leaves: the stage ended and released, its run settled
    when that was the last stage. *)
Definition executed (db : DB) (run : AgentRun) (st : AgentStageRun) (now : Z) (s' : Sess) : Prop :=
  disk s' = work s' /\ exists st' db1,
    agent_stages (disk s') = <[ag_id st := st']> (agent_stages db) /\
    ag_state st' ∈ TERMINAL /\ ag_lease_owner_id st' = None /\ ag_lease_expires_at st' = None /\
    agent_stages db1 = agent_stages (disk s') /\ agent_runs db1 = agent_runs db /\
    settles db1 run now (agent_runs (disk s')).

(** The stage ended and released, or as it was. *)
Definition ended_or_kept (m0 : stage_table) (st : AgentStageRun) (m : stage_table) : Prop :=
  m = m0 \/ exists st', m = <[ag_id st := st']> m0 /\ stage_step st st' /\ ag_state st' ∈ TERMINAL /\
    ag_lease_owner_id st' = None /\ ag_lease_expires_at st' = None.

(** Where an execution can end: a raising one leaves the stage as it was, a
    returning one ends it; the run of an advisory may be rolled back with the
    routing of its decision. *)
Definition claim_outcome (db : DB) (run : AgentRun) (st : AgentStageRun) (now : Z) (s' : Sess)
    (r : bool + exn) : Prop :=
  ended_or_kept (agent_stages db) st (agent_stages (disk s')) /\
  (forall done, r = inl done -> done = true) /\
  (ar_purpose run <> "TRADING_ADVISORY" ->
     match r with
     | inl _ => executed db run st now s'
     | inr _ => agent_stages (disk s') = agent_stages db
     end).

Lemma wp_claimed claim worker_id now s st run :
  well_keyed (agent_stages (work s)) -> agent_stages (disk s) = agent_stages (work s) ->
  agent_stages (work s) !! sc_stage_id claim = Some st ->
  agent_runs (work s) !! ag_run_id st = Some run ->
  claim_holds claim worker_id st = true ->
  wp (execute_claimed_stage sha256 holidays parse_core exc_text settings xrace orace claim worker_id now)
     (claim_outcome (work s) run st now) s.
Proof.
  intros Hk Hdw Hst Hrun Hc. pose proof (Hk _ _ Hst) as Hid.
  unfold execute_claimed_stage. wp_step. wp_step. unfold after at 1. rewrite Hst, Hc. cbn [negb].
  unfold claim_holds in Hc. bool_to_prop. wp_step. wp_step. unfold after at 1. rewrite Hrun.
  wp_step. fold (guarded_body exc_text st run now). rewrite <- Hid in Hst.
  eapply wp_mono; [by apply wp_guarded_body|]. intros s1 [u|e] Hb; unfold after at 1.
  2: { destruct Hb as [_ Hb]. split; [left; congruence|]. split; [done|]. intros _. congruence. }
  destruct Hb as (st1 & Hrow & Hstep & Hterm & Hid1). wp_step. rewrite <- Hid1.
  eapply wp_mono; [by apply (wp_update_stage s)|].
  intros s2 r [-> (Hw2 & Hd2 & Hr2)]. unfold after at 1. wp_step.
  assert (Hm2 : agent_stages (work s2) = <[ag_id st := released st1 (Some now)]> (agent_stages (work s)))
    by (rewrite Hw2, <- Hid1; by destruct st1).
  assert (Hend : ended_or_kept (agent_stages (work s)) st (agent_stages (work s2))).
  { right. eexists. split; [exact Hm2|]. split; [done|]. by destruct st1. }
  destruct (decide (ar_purpose run = "TRADING_ADVISORY")) as [Hp|Hp].
  { eapply wp_mono.
    - apply (keeps_agent_stages _ (keeps_finalize_of sha256 holidays parse_core settings xrace orace ∅ _ now)
        (ended_or_kept (agent_stages (work s)) st)). split; [exact Hend|left; congruence].
    - intros s3 [u'|e] [Hw3 Hd3]; unfold after at 1; repeat wp_step; (split; [done|]); (split; [|done]);
        congruence || done. }
  unfold finalize_run_of. wp_step. wp_step. unfold after at 1.
  pose proof (stage_step_keys _ _ Hstep) as [_ Hrid]. rewrite Hr2, Hrid, Hrun.
  eapply wp_mono; [by apply wp_finalize|].
  intros s3 [u'|e] (Hd3 & Hs3 & Hb3 & Hset); unfold after at 1.
  2: { split; [left; congruence|]. split; [done|]. intros _. congruence. }
  repeat wp_step. split; [cbn [disk committed]; by rewrite Hs3|]. split; [congruence|]. intros _.
  split; [done|]. exists (released st1 (Some now)), (work s2).
  cbn [disk work committed]. rewrite Hs3. split; [done|]. split; [by destruct st1|].
  split; [by destruct st1|]. split; [by destruct st1|].
  split; [done|]. split; [done|]. by destruct u'; apply Hset.
Qed.

(** C24: Executing a claim.  A claim that is no longer the row's, because its
    lease was taken over or the stage was settled, does nothing at all.  The
    execution of a claim that holds either ends the stage by one of its steps and
    gives its lease up, or leaves the row as it was for a recovery.  If the run
    is no advisory, a returning execution always ends the stage, with the result
    of its body or with a failure, and settles the run exactly when it was the
    last stage: FAILED when the core did not succeed or a stage failed, SUCCEEDED
    when all succeeded on verified evidence, PARTIAL otherwise, and whatever the
    outcome the action of the run is WAIT or none; and an execution that raises
    leaves every stage as it was.  (The fusion of an advisory may roll the
    session back after its stage ended.) *)
Theorem execution_settles claim worker_id now db t ids s' r st run :
  well_keyed (agent_stages db) ->
  agent_stages db !! sc_stage_id claim = Some st ->
  agent_runs db !! ag_run_id st = Some run ->
  execute_claimed_stage sha256 holidays parse_core exc_text settings xrace orace claim worker_id now
    (open_session db t ids) = (s', r) ->
  if claim_holds claim worker_id st then claim_outcome db run st now s' r
  else r = inl false /\ s' = open_session db t ids.
Proof.
  intros Hk Hst Hrun E. destruct (claim_holds claim worker_id st) eqn:Hc.
  - pose proof (wp_claimed claim worker_id now (open_session db t ids) st run Hk eq_refl Hst Hrun Hc) as H.
    by apply (wp_elim _ _ _ _ _ H E).
  - unfold execute_claimed_stage, gets, mbind, prog_bind in E. cbn [work open_session] in E.
    rewrite Hst, Hc in E. cbn in E. injection E as <- <-. split; reflexivity.
Qed.
End Settle.

(** ** A concrete queue *)

(** A body that succeeds at once. *)
Definition demo_execute (st : AgentStageRun) (run : AgentRun) (now : Z) : prog unit :=
  modify (put_stage (_complete_stage day_hash SG_SUCCEEDED (JObj []) now st)).

#[local] Instance demo_body : StageBody.
Proof.
  refine (Build_StageBody demo_execute _). intros st run now s Hst Hs. unfold demo_execute. wp_step.
  split; [done|]. split; [done|]. exists (_complete_stage day_hash SG_SUCCEEDED (JObj []) now st).
  split; [by destruct st|]. split; [split; by destruct st|].
  split; [apply list_elem_of_here|]. by split.
Defined.

Definition queue_run : AgentRun :=
  mkAgentRun "run" "user-1" "DIAGNOSTIC" "KRX" "005930" "snap" "h" "agent-dag-v6" (JObj []) "k"
    RUN_CREATED None (Some "ENTRY") None None None None None None None None None None None None
    (day_now + 5 * minute) None None day_now.

Definition queue_stage (id role : string) (sequence : Z) (dependencies : list string) : AgentStageRun :=
  mkAgentStageRun id "run" role sequence dependencies None None SG_PENDING "h" None None None None None
    0 0 1 day_now None None None None day_now.

Definition queue_db : DB :=
  set_agent_stages (set_agent_runs (day_db MODE_AUTOMATIC ∅) {[ "run" := queue_run ]})
    {[ "s1" := queue_stage "s1" "INTEL_COLLECTOR" 10 [];
       "s2" := queue_stage "s2" "CORE" 70 ["INTEL_COLLECTOR"] ]}.

Definition no_core (v : json) : option AgentCoreOutputV2 := None.
Definition no_text (e : exn) : string := EmptyString.

(** The database after a worker claimed the first stage for 30 seconds. *)
Definition claim_demo : Sess * (option StageClaim + exn) :=
  claim_next_stage day_hash no_holidays no_core (day_settings STAGE_SHADOW) [] [] "w1" 30 day_now
    (fun db => db) (fun _ => false) (open_session queue_db day_now day_ids).

Definition claimed_db : DB := disk claim_demo.1.
Definition demo_claim : StageClaim := mkStageClaim "s1" 1.

Definition execute_demo (now : Z) : Sess * (bool + exn) :=
  execute_claimed_stage day_hash no_holidays no_core no_text (day_settings STAGE_SHADOW) [] []
    demo_claim "w1" now (open_session claimed_db now day_ids).

Lemma queue_db_keyed : well_keyed (agent_stages queue_db).
Proof.
  intros k st H. unfold queue_db in H. cbn in H.
  apply lookup_insert_Some in H as [[<- <-]|[_ H]]; [done|].
  by apply lookup_singleton_Some in H as [<- <-].
Qed.

Lemma claimed_db_keyed : well_keyed (agent_stages claimed_db).
Proof.
  apply (reaches_keyed (agent_stages queue_db)); [exact queue_db_keyed|].
  exact (proj2 (wp_claim_next day_hash no_holidays no_core (day_settings STAGE_SHADOW) [] []
    (agent_stages queue_db) "w1" 30 day_now (fun db => db) (fun _ => false)
    (open_session queue_db day_now day_ids) queue_db_keyed eq_refl eq_refl
    (leaves_others_work _ _ _ (fun _ => eq_refl)))).
Qed.

Lemma queue_db_fine : stages_fine queue_db.
Proof.
  split; [exact queue_db_keyed|]. intros k st H. unfold queue_db in H. cbn in H.
  apply lookup_insert_Some in H as [[_ <-]|[_ H]]; [|apply lookup_singleton_Some in H as [_ <-]];
    vm_compute; split_and!; congruence.
Qed.

Lemma stages_keep_history_witness : stages_fine claimed_db.
Proof.
  apply (stages_keep_history day_hash no_holidays no_core no_text (day_settings STAGE_SHADOW)
    queue_db claimed_db queue_db_fine).
  apply rtc_once. apply (queue_claim _ _ _ _ _ _ "w1" 30 day_now (fun db => db) (fun _ => false) [] []
    day_now day_ids claim_demo.1 claim_demo.2); [by apply leaves_others_work|]. apply surjective_pairing.
Defined.

Lemma claim_is_ready_witness : exists db1, reaches (agent_stages queue_db) (agent_stages db1) /\
  took db1 "w1" 30 day_now claim_demo.1 demo_claim.
Proof.
  apply (claim_is_ready day_hash no_holidays no_core (day_settings STAGE_SHADOW) [] [] "w1" 30 day_now
    (fun db => db) (fun _ => false) queue_db day_now day_ids).
  - exact queue_db_keyed.
  - by apply leaves_others_work.
  - assert (H : claim_demo.2 = inl (Some demo_claim)) by (vm_compute; reflexivity).
    rewrite <- H. apply surjective_pairing.
Defined.

Lemma execution_settles_witness : exists st,
  executed claimed_db (started_run queue_run day_now) st (day_now + second)
    (execute_demo (day_now + second)).1.
Proof.
  destruct (agent_stages claimed_db !! "s1") as [st|] eqn:Hst; [|vm_compute in Hst; discriminate Hst].
  exists st.
  assert (Hc : bool_decide (claim_holds demo_claim "w1" <$> agent_stages claimed_db !! "s1" = Some true) = true)
    by (vm_compute; reflexivity).
  rewrite Hst in Hc. apply bool_decide_eq_true in Hc. injection Hc as Hc.
  pose proof (execution_settles day_hash no_holidays no_core no_text (day_settings STAGE_SHADOW) [] []
    demo_claim "w1" (day_now + second) claimed_db (day_now + second) day_ids
    (execute_demo (day_now + second)).1 (inl true) st (started_run queue_run day_now)) as H.
  rewrite Hc in H. refine (proj2 (proj2 (H _ _ _ _)) _).
  - exact claimed_db_keyed.
  - exact Hst.
  - replace (ag_run_id st) with "run"; [vm_compute; reflexivity|].
    assert (Hr : (ag_run_id <$> agent_stages claimed_db !! "s1") = Some "run") by (vm_compute; reflexivity).
    rewrite Hst in Hr. by injection Hr.
  - assert (Hd : (execute_demo (day_now + second)).2 = inl true) by (vm_compute; reflexivity).
    rewrite <- Hd. apply surjective_pairing.
  - discriminate.
Defined.

(** ** A recovery that comes late *)

(** The result the first worker commits 31 seconds after its claim, when its
    lease of 30 seconds is over but the timeout of the stage was not when it
    began. *)
Definition finished_db : DB := disk (execute_demo (day_now + second)).1.

(** Another worker reads the stage as expired, waits for the row lock, and
    writes what it decided on. *)
Definition recovered_db : DB :=
  disk (recover_expired_stages day_hash no_holidays no_core (day_settings STAGE_SHADOW) [] []
          (day_now + seconds 31) (fun _ => finished_db)
          (open_session claimed_db (day_now + seconds 31) day_ids)).1.

Definition stage_fields (db : DB) : option (StageState * bool * option string) :=
  (fun st => (ag_state st, bool_decide (is_Some (ag_output st)), ag_error_code st)) <$>
  agent_stages db !! "s1".

(** A lease is not renewed while its stage runs, and a recovery does not
    look at the row again: a stage that succeeded after its lease had expired,
    under the fencing token of its claim, ends as TIMED_OUT, its output still
    in the row. *)
Theorem late_recovery_discards_result :
  stage_fields finished_db = Some (SG_SUCCEEDED, true, None) /\
  stage_fields recovered_db = Some (SG_TIMED_OUT, true, Some "AGENT_STAGE_ATTEMPTS_EXHAUSTED") /\
  (ag_fencing_token <$> agent_stages finished_db !! "s1") =
  (ag_fencing_token <$> agent_stages recovered_db !! "s1").
Proof. split_and!; vm_compute; reflexivity. Qed.
