(* ===== verification/RoutingProps.v ===== *)
(** * Properties of the routing of decisions

    What [DecisionExecution] guarantees: an order or an approval appears only
    when the stage, the mode and the guard allow it, and a decision routed
    twice under the same policies is one execution. *)

From Stdlib Require Import ZArith Lia.
From stdpp Require Import base numbers strings list gmap.
From S2P Require Import Prelude Decimal Json DecimalText PyTime Models Session PaperBroker.
From S2P Require Import RiskCalc RiskEvents Policies OrderCreation MarketCalendar Venue.
From S2P Require Import Guards Approvals Fixtures ApprovalProps DecisionExecution.

Open Scope Z_scope.

(** ** The tables routing writes beside the orders *)

(** [db] with other execution and guard rows. *)
Definition marked (db : DB) (v : gmap string DecisionExecution) (g : gmap string GuardEvaluation) :
  DB := set_guards (set_executions db v) g.

Lemma concurrent_executions_marked race db : exists v,
  add_concurrent_executions race db = marked db v (guards db).
Proof.
  unfold add_concurrent_executions. induction race as [|e race (v & IH)]; cbn [foldr].
  { exists (executions db). by destruct db. }
  rewrite IH. destruct (execution_clash e _); [by exists v|].
  by exists (<[ex_id e := e]> v).
Qed.

(** The guards do not read the execution rows. *)
Lemma route_rules_marked holidays db v g decision user settings policy now :
  route_rules holidays (marked db v g) decision user settings policy now =
  route_rules holidays db decision user settings policy now.
Proof. reflexivity. Qed.

Lemma approval_terms_marked db v g decision policy snapshot :
  approval_terms (marked db v g) decision policy snapshot = approval_terms db decision policy snapshot.
Proof. reflexivity. Qed.

Lemma change_marked db v g id f e : v !! id = Some e ->
  change_execution id f (marked db v g) = marked db (<[ex_id (f e) := f e]> v) g.
Proof. intros H. unfold change_execution. cbn [executions marked set_guards set_executions]. by rewrite H. Qed.

Lemma wp_assign f e Q s :
  Q (with_work (change_execution (ex_id (f e)) (fun _ => f e)) s) (inl (f e)) ->
  wp (assign f e) Q s.
Proof. intros H. unfold assign. repeat wp_step. exact H. Qed.

Section RoutingProps.
Context (sha256 : string -> string) (holidays : Z -> option (list Z)).
Context (decision : Decision) (user : User) (corr : string) (settings : Settings) (now : option Z).
Context (xrace : list DecisionExecution) (race : list TradingOrder) (db : DB) (t : Z).
Context (ids : nat -> string).

Abbreviation current := (default t now).
Abbreviation snapshot := (snapshots db !! d_input_snapshot_id decision).
Abbreviation risk_config := (active_risk_policy db (u_id user)).
Abbreviation config := (active_policy db (u_id user)).

(** The key under which the decision is routed. *)
Definition routing_key : string :=
  _key sha256 decision (normalized_action (d_action decision)) (cv_id <$> config)
    (cv_id <$> risk_config).

(** The executions as the other sessions left them. *)
Definition raced_executions : gmap string DecisionExecution :=
  executions (add_concurrent_executions xrace db).

(** The guard of the action holds on the decision's own snapshot. *)
Definition route_permitted (policy : RiskPolicyPayload) (quantity : Z) : Prop :=
  risk_policy_payload risk_config = inr policy /\
  match d_action decision with
  | ACT_BUY => buy_permitted db decision user settings policy current snapshot
  | ACT_PARTIAL_SELL | ACT_FULL_SELL =>
      sell_permitted holidays db decision settings policy current snapshot None None quantity
  | _ => False
  end.

(** The mode the active execution policy sets for the action. *)
Definition configured_mode (mode : ExecMode) : Prop :=
  exists policy, policy_payload config = inr policy /\
    match d_action decision with
    | ACT_BUY => mode = xp_buy policy
    | ACT_PARTIAL_SELL => mode = xp_partial_sell policy
    | ACT_FULL_SELL => mode = xp_full_sell policy
    | _ => mode = MODE_DISABLED
    end.

(** The order an automatic decision asks for. *)
Definition automatic_request (request : OrderRequest) : Prop :=
  exists policy price quantity, route_permitted policy quantity /\ 0 < quantity /\
    match d_action decision with
    | ACT_BUY =>
        _marketable_buy_price snapshot = Some price /\
        _buy_quantity (entry_order_amount policy) (Some price) = inr quantity /\
        request = buy_request decision price quantity corr
    | _ =>
        exists plan position, _sell_plan db decision snapshot = inr plan /\
          sp_position plan = Some position /\ sp_price plan = Some price /\
          sp_quantity plan = quantity /\
          request = sell_request decision position price quantity corr
    end.

(** The approval a manual decision waits for. *)
Definition manual_approval (e : DecisionExecution) (a : Approval) : Prop :=
  exists policy price quantity position_id position_version,
    route_permitted policy quantity /\ 0 < quantity /\
    approval_terms db decision policy snapshot = inr (price, quantity, position_id, position_version) /\
    ap_state a = AP_PENDING /\ ap_execution_id a = ex_id e /\ ap_decision_id a = d_id decision /\
    ap_user_id a = u_id user /\ ap_expires_at a = d_valid_until decision /\
    ap_scope_snapshot a = _scope_snapshot decision price quantity current position_id
                            position_version.

(** What a routed execution did beside its own row. *)
Definition route_effect (e : DecisionExecution) (db' : DB) : Prop :=
  match ex_state e with
  | EX_ORDER_CREATED =>
      ex_mode e = MODE_AUTOMATIC /\ ORDER_ENABLED_STAGES (execution_stage settings) = true /\
      approvals db' = approvals db /\
      exists request o, automatic_request request /\
        answers sha256 (oc_idempotency_key request) (Some current) race db t request o db'
  | EX_APPROVAL_PENDING =>
      ex_mode e = MODE_MANUAL_APPROVAL /\ ORDER_ENABLED_STAGES (execution_stage settings) = true /\
      orders db' = orders db /\
      exists a, manual_approval e a /\ approvals db' = <[ap_id a := a]> (approvals db)
  | EX_NO_ACTION | EX_DISABLED | EX_GUARD_BLOCKED | EX_SHADOW_RECORDED | EX_FAILED_SAFE =>
      no_new_order race db db' /\ approvals db' = approvals db
  | _ => False
  end.

(** The decision is for trading and the active policies can be read. *)
Definition routable : Prop :=
  d_purpose decision = "TRADING" /\ (exists p, policy_payload config = inr p) /\
  exists p, risk_policy_payload risk_config = inr p.

(** The ways a routing ends. *)
Inductive routed : DB -> option DecisionExecution + exn -> Prop :=
| NotTrading : d_purpose decision <> "TRADING" -> routed db (inl None)
| Known e : routable -> execution_by_key routing_key db = Some e -> routed db (inl (Some e))
| Failed db' e :
    no_new_order race db db' -> approvals db' = approvals db -> routed db' (inr e)
| Routed e db' :
    routable -> execution_by_key routing_key db = None ->
    ex_execution_key e = routing_key -> ex_decision_id e = d_id decision ->
    configured_mode (ex_mode e) ->
    (forall k x, raced_executions !! k = Some x -> ex_execution_key x <> routing_key) ->
    executions db' = <[ex_id e := e]> raced_executions ->
    configurations db' = configurations db ->
    route_effect e db' -> routed db' (inl (Some e)).

(** ** Symbolic execution *)

(** The object's own columns, which no branch changes. *)
Definition same_object (e e' : DecisionExecution) : Prop :=
  ex_id e' = ex_id e /\ ex_execution_key e' = ex_execution_key e /\
  ex_decision_id e' = ex_decision_id e /\ ex_mode e' = ex_mode e.

(** The session holds the object: flushed, with nothing but guards beside it. *)
Definition held (e : DecisionExecution) (s : Sess) : Prop :=
  exists g, disk s = add_concurrent_executions xrace db /\ clock s = t /\
    work s = marked db (<[ex_id e := e]> raced_executions) g /\
    raced_executions !! ex_id e = None.

(** The object reached the end of its branch: its row is in the session's
    database, or a rollback took it away. *)
Definition finished (e0 : DecisionExecution) (s : Sess) (r : DecisionExecution + exn) : Prop :=
  match r with
  | inl e => same_object e0 e /\ raced_executions !! ex_id e = None /\
      configurations (work s) = configurations db /\
      (executions (work s) = <[ex_id e := e]> raced_executions /\ route_effect e (work s) \/
       executions (work s) = raced_executions /\ no_new_order race db (work s) /\
       approvals (work s) = approvals db)
  | inr _ => no_new_order race db (disk s) /\ approvals (disk s) = approvals db
  end.

Lemma raced_db : exists v, add_concurrent_executions xrace db = marked db v (guards db) /\
  v = raced_executions.
Proof.
  unfold raced_executions. destruct (concurrent_executions_marked xrace db) as [v E].
  exists v. by rewrite E.
Qed.

Lemma held_disk e s : held e s -> orders (disk s) = orders db /\ approvals (disk s) = approvals db /\
  executions (disk s) = raced_executions /\ configurations (disk s) = configurations db.
Proof.
  intros (g & Hd & _). rewrite Hd. destruct raced_db as (v & E & Ev). rewrite E. by subst v.
Qed.

Lemma assign_held f e Q s : held e s -> same_object e (f e) ->
  (forall s', held (f e) s' -> Q s' (inl (f e))) -> wp (assign f e) Q s.
Proof.
  intros (g & Hd & Ht & Hw & Hn) (Hid & _) HQ. apply wp_assign, HQ.
  exists g. split; [exact Hd|]. split; [exact Ht|]. cbn [work with_work]. rewrite Hw, Hid.
  split; [|exact Hn]. erewrite change_marked by apply lookup_insert_eq.
  by rewrite Hid, insert_insert_eq.
Qed.

(** A branch that ends with the object in a state without an order or approval. *)
Lemma assign_quiet f e0 e s : held e s -> same_object e0 e -> same_object e (f e) ->
  In (ex_state (f e)) [EX_NO_ACTION; EX_DISABLED; EX_GUARD_BLOCKED; EX_SHADOW_RECORDED; EX_FAILED_SAFE] ->
  wp (assign f e) (finished e0) s.
Proof.
  intros Hh (H1 & H2 & H3 & H4) Hs Hst. apply assign_held; [done|done|].
  intros s' (g & Hd & Ht & Hw & Hn). destruct Hs as (S1 & S2 & S3 & S4).
  split; [repeat split; congruence|]. split; [done|]. rewrite Hw. split; [done|]. left.
  split; [done|]. unfold route_effect.
  cbn in Hst. by destruct Hst as [E|[E|[E|[E|[E|[]]]]]]; rewrite <- E; (split; [left|]).
Qed.
(** The end of a branch from a session that still has the object's row. *)
Lemma assign_executions f e s1 : same_object e (f e) ->
  executions (work s1) = <[ex_id e := e]> raced_executions ->
  let s' := with_work (change_execution (ex_id (f e)) (fun _ => f e)) s1 in
  executions (work s') = <[ex_id (f e) := f e]> raced_executions /\
  orders (work s') = orders (work s1) /\ approvals (work s') = approvals (work s1) /\
  configurations (work s') = configurations (work s1).
Proof.
  intros (Hid & _) E. cbn [work with_work]. unfold change_execution. rewrite E, Hid.
  rewrite lookup_insert_eq. cbn. by rewrite E, Hid, insert_insert_eq.
Qed.

(** The same when a rollback removed it. *)
Lemma assign_dropped f e s1 : same_object e (f e) ->
  executions (work s1) = raced_executions -> raced_executions !! ex_id e = None ->
  with_work (change_execution (ex_id (f e)) (fun _ => f e)) s1 = with_work id s1.
Proof.
  intros (Hid & _) E N. unfold with_work, change_execution. by rewrite E, Hid, N.
Qed.

(** The rows besides the orders after [create_order], from a held object. *)
Lemma outcome_rows request e s s1 r : held e s ->
  outcome sha256 request (Some current) race s s1 r ->
  configurations (work s1) = configurations db /\
  (executions (work s1) = <[ex_id e := e]> raced_executions \/
   executions (work s1) = raced_executions /\
     match r with inl _ => no_new_order race db (work s1) | inr _ => True end).
Proof.
  intros Hh H. destruct (held_disk e s Hh) as (Hdo & _ & Hde & Hdc).
  destruct Hh as (g & _ & _ & Hw & _).
  pose proof (concurrent_orders_only race (disk s)) as (_ & _ & _ & Rx & _ & _ & Rc & _).
  fold (raced_rows race s) in Rx, Rc.
  assert (Ro : orders (raced_rows race s) = orders (add_concurrent_orders race db))
    by (unfold raced_rows; by apply concurrent_orders_orders).
  destruct r as [o|x].
  - destruct H as [o _ _ ->|side ty oid i g0 at_ _ _ _ _ o0 _ _ _ Hk _|o _ _ _ Hw1 _].
    + rewrite Hw. auto.
    + destruct Hk as (_ & _ & _ & Hx & _ & _ & Hc & _). rewrite Hx, Hc, Hw. auto.
    + rewrite Hw1, Rx, Rc. split; [done|]. right. split; [done|by right].
  - destruct H as [_ [-> | [Hw1 _]]]; [rewrite Hw; auto|].
    rewrite Hw1, Rx, Rc. auto.
Qed.

Lemma place_run request audit e0 e s :
  held e s -> same_object e0 e -> ex_mode e = MODE_AUTOMATIC ->
  ORDER_ENABLED_STAGES (execution_stage settings) = true -> automatic_request request ->
  wp (place sha256 user request audit current race e) (finished e0) s.
Proof.
  intros Hh Hs Hm Hst Hreq. unfold place. wp_step. wp_step. wp_step.
  destruct (held_disk e s Hh) as (Hdo & Hda & Hde & Hdc). pose proof Hh as (g & _ & Ht & Hw & Hn).
  assert (Hwo : orders (work s) = orders db) by (by rewrite Hw).
  assert (Hwa : approvals (work s) = approvals db) by (by rewrite Hw).
  eapply wp_mono; [apply create_order_run|]. intros s1 r H.
  destruct (outcome_orders sha256 (Some current) race db t request s s1 r Hdo Hwo Hda Hwa H)
    as (A1 & _ & A2).
  destruct (outcome_rows request e s s1 r Hh H) as [A3 A4].
  destruct r as [o|x].
  - assert (A5 : answers sha256 (oc_idempotency_key request) (Some current) race db t request o (work s1))
      by (by apply (created_answers sha256 _ (Some current) race db t request s)).
    repeat wp_step. set (f := fun e : DecisionExecution => _).
    apply wp_assign. assert (S : same_object e (f e)) by done.
    assert (S' : same_object e0 (f e)) by (destruct Hs as (?&?&?&?), S as (?&?&?&?); repeat split; congruence).
    destruct A4 as [A4|[A4 A6]].
    + destruct (assign_executions f e s1 S A4) as (B1 & B2 & B3 & B4).
      split; [done|]. split; [done|]. rewrite B4. split; [done|]. left. split; [done|].
      unfold route_effect. change (ex_state (f e)) with EX_ORDER_CREATED. cbn iota.
      change (ex_mode (f e)) with (ex_mode e). rewrite B3. repeat (split; [done|]).
      exists request, o. split; [done|]. unfold answers, no_new_order in *. by rewrite B2.
    + rewrite (assign_dropped f e s1 S A4 Hn). split; [done|]. split; [done|].
      split; [done|]. right. done.
  - destruct H as [(code & status & ->) H]. repeat wp_step.
    set (f := close_execution _ _). apply wp_assign. assert (S : same_object e (f e)) by done.
    assert (S' : same_object e0 (f e)) by (destruct Hs as (?&?&?&?), S as (?&?&?&?); repeat split; congruence).
    destruct A4 as [A4|[A4 _]].
    + destruct (assign_executions f e s1 S A4) as (B1 & B2 & B3 & B4).
      split; [done|]. split; [done|]. rewrite B4. split; [done|]. left. split; [done|].
      unfold route_effect. change (ex_state (f e)) with EX_FAILED_SAFE. cbn iota.
      unfold no_new_order. by rewrite B2, B3.
    + rewrite (assign_dropped f e s1 S A4 Hn). split; [done|]. split; [done|].
      split; [done|]. right. done.
Qed.
Ltac object_facts := repeat match goal with
  | H : same_object _ _ |- _ => destruct H as (? & ? & ? & ?) end; repeat split; congruence.

Lemma failed_here e0 e s x : held e s -> finished e0 s (inr x).
Proof.
  intros Hh. destruct (held_disk e s Hh) as (Ho & Ha & _). split; [by left|exact Ha].
Qed.

Lemma create_buy_run policy e0 e s :
  held e s -> same_object e0 e -> ex_mode e = MODE_AUTOMATIC ->
  ORDER_ENABLED_STAGES (execution_stage settings) = true -> d_action decision = ACT_BUY ->
  (forall q, route_permitted policy q) ->
  wp (_create_buy_order sha256 e decision user policy corr current race) (finished e0) s.
Proof.
  intros Hh Hs Hm Hst Hact Hperm. unfold _create_buy_order. wp_step. wp_step. wp_step.
  assert (Hsnap : snapshots (work s) !! d_input_snapshot_id decision = snapshot)
    by (by destruct Hh as (g & _ & _ & -> & _)).
  rewrite Hsnap. wp_step. apply wp_of_result; [intros q Hq|intros x _; by eapply failed_here].
  wp_step. destruct (_marketable_buy_price snapshot) as [price|] eqn:Hp.
  - destruct (Z.leb_spec q 0) as [L|L].
    + eapply assign_quiet; [done|done|done|cbn; auto].
    + apply (place_run (buy_request decision price q corr)); [done..|].
      exists policy, price, q. split; [done|]. split; [done|]. by rewrite Hact.
  - eapply assign_quiet; [done|done|done|cbn; auto].
Qed.

Lemma create_sell_run policy plan e0 e s :
  held e s -> same_object e0 e -> ex_mode e = MODE_AUTOMATIC ->
  ORDER_ENABLED_STAGES (execution_stage settings) = true -> d_action decision <> ACT_BUY ->
  _sell_plan db decision snapshot = inr plan -> route_permitted policy (sp_quantity plan) ->
  wp (_create_sell_order sha256 e decision user plan corr current race) (finished e0) s.
Proof.
  intros Hh Hs Hm Hst Hact Hplan Hperm. unfold _create_sell_order.
  destruct (sp_position plan) as [position|] eqn:Hpos; [|by apply assign_quiet; auto; cbn; auto].
  destruct (sp_price plan) as [price|] eqn:Hp; [|by apply assign_quiet; auto; cbn; auto].
  destruct (Z.leb_spec (sp_quantity plan) 0) as [L|L]; [by apply assign_quiet; auto; cbn; auto|].
  apply (place_run (sell_request decision position price (sp_quantity plan) corr)); [done..|].
  exists policy, price, (sp_quantity plan). split; [done|]. split; [done|].
  destruct (d_action decision); try done; by exists plan, position.
Qed.
Lemma create_approval_run policy e0 e s :
  held e s -> same_object e0 e -> ex_mode e = MODE_MANUAL_APPROVAL ->
  ORDER_ENABLED_STAGES (execution_stage settings) = true ->
  risk_policy_payload risk_config = inr policy ->
  (forall q p pi pv, approval_terms db decision policy snapshot = inr (p, q, pi, pv) -> 0 < q ->
     route_permitted policy q) ->
  wp (approval ← create_approval e decision user (Some current);
      assign (fun e => set_ex_approval_id (set_ex_state e EX_APPROVAL_PENDING)
                         (Some (ap_id approval))) e) (finished e0) s.
Proof.
  intros Hh Hs Hm Hst Hpol Hperm. unfold create_approval, now_or.
  pose proof Hh as (g & Hd & Ht & Hw & Hn).
  destruct (held_disk e s Hh) as (Hdo & Hda & _).
  do 9 wp_step. rewrite Hw.
  change (active_risk_policy (marked db _ g) (u_id user)) with risk_config.
  wp_step. wp_step. rewrite Hpol. cbn [of_result]. wp_step. wp_step. wp_step. wp_step.
  rewrite Hw, approval_terms_marked.
  change (snapshots (marked db _ g) !! d_input_snapshot_id decision) with snapshot.
  wp_step. wp_step. apply wp_of_result; [intros [[[p q] pi] pv] Hterms|intros x _; by apply (failed_here e0 e s)].
  wp_step. wp_step. wp_step; wp_step; [|by apply (failed_here e0 e s)].
  wp_step. wp_step. wp_step. wp_step. wp_step. wp_step. wp_step.
  match goal with H : negb _ = true |- _ => apply negb_true_iff, Z.leb_gt in H; rename H into Hq end.
  apply wp_flush_checked; intros Hc; [exact (failed_here e0 e s IntegrityError Hh)|].
  repeat wp_step. set (f := fun e : DecisionExecution => _). apply wp_assign.
  assert (S : same_object e (f e)) by done.
  split; [object_facts|]. split; [exact Hn|].
  cbn [work with_work committed interleave next_uuid]. rewrite Hw. unfold change_execution. cbn. rewrite lookup_insert_eq. cbn.
  rewrite lookup_insert_eq. cbn. split; [done|]. left.
  rewrite !insert_insert_eq. split; [done|]. split; [done|]. split; [done|]. split; [done|].
  exists (mkApproval (uuids s (uuid_ix s)) (ex_id e) (d_id decision) (u_id user) AP_PENDING
    (_scope_snapshot decision p q current pi pv) (d_valid_until decision) None None None 1 (clock s)).
  split; [|reflexivity]. exists policy, p, q, pi, pv. split; [by eapply Hperm|]. by repeat split.
Qed.
(** What the rule list of the action returned. *)
Lemma route_rules_inv policy rules plan :
  risk_policy_payload risk_config = inr policy ->
  route_rules holidays db decision user settings policy current = inr (rules, plan) ->
  blocked_rules rules = [] ->
  SUPPORTED_ACTIONS (d_action decision) = true /\
  match d_action decision with
  | ACT_BUY => forall q, route_permitted policy q
  | _ => exists p, plan = Some p /\ _sell_plan db decision snapshot = inr p /\
           route_permitted policy (sp_quantity p)
  end.
Proof.
  intros Hp Hr Hb. unfold route_permitted, route_rules in *.
  destruct (d_action decision); cbn [mbind result_bind] in Hr;
    try (injection Hr as <- <-; discriminate Hb).
  2,3: destruct (_sell_plan _ _ _) as [e|p] eqn:Ep; [discriminate|]; injection Hr as <- <-;
    split; [done|]; exists p; repeat (split; [done|]);
    by apply (sell_guard_passed _ _ _ _ _ _ _ p None None None).
  destruct (_buy_guard_rules _ _ _ _ _ _ _) as [e|rs] eqn:Er; [discriminate|].
  injection Hr as <- <-. split; [done|]. intros _. split; [done|].
  by apply (buy_guard_passed _ _ _ _ _ _ _ rs).
Qed.

(** The quantity of an approval is the one the guard saw. *)
Lemma terms_permitted policy plan q p pi pv :
  match d_action decision with
  | ACT_BUY => forall q, route_permitted policy q
  | _ => exists p, plan = Some p /\ _sell_plan db decision snapshot = inr p /\
           route_permitted policy (sp_quantity p)
  end ->
  approval_terms db decision policy snapshot = inr (p, q, pi, pv) -> route_permitted policy q.
Proof.
  unfold approval_terms. destruct (d_action decision); try discriminate; [auto|..];
    intros (pl & -> & Hpl & Hperm); rewrite Hpl; cbn [mbind result_bind];
    by intros [= _ <- _ _].
Qed.

Lemma route_passed_run policy plan e0 e s :
  held e s -> same_object e0 e -> risk_policy_payload risk_config = inr policy ->
  SUPPORTED_ACTIONS (d_action decision) = true ->
  match d_action decision with
  | ACT_BUY => forall q, route_permitted policy q
  | _ => exists p, plan = Some p /\ _sell_plan db decision snapshot = inr p /\
           route_permitted policy (sp_quantity p)
  end ->
  wp (route_passed sha256 e decision user settings policy plan corr current race) (finished e0) s.
Proof.
  intros Hh Hs Hpol Hsup Hperm. unfold route_passed. rewrite Hsup.
  destruct (ORDER_ENABLED_STAGES (execution_stage settings)) eqn:Hst; cbn [andb].
  2: { apply assign_quiet; auto; cbn; auto. by repeat split. }
  destruct (ex_mode e) eqn:Hm.
  - destruct (d_action decision) eqn:Ha; try discriminate Hsup.
    + by eapply create_buy_run.
    + destruct Hperm as (p & -> & Hpl & Hq). eapply create_sell_run; try done. by rewrite Ha.
    + destruct Hperm as (p & -> & Hpl & Hq). eapply create_sell_run; try done. by rewrite Ha.
  - eapply (create_approval_run policy); try done. intros q p pi pv Ht _.
    by eapply (terms_permitted policy plan).
  - destruct (d_action decision); try discriminate Hsup;
      by (apply assign_quiet; [done|done|by repeat split|cbn; auto]).
Qed.

Lemma route_guarded_run policy e s :
  held e s -> risk_policy_payload risk_config = inr policy ->
  wp (route_guarded sha256 holidays e decision user settings policy corr current race) (finished e) s.
Proof.
  intros Hh Hpol. unfold route_guarded. wp_step. wp_step. wp_step.
  pose proof Hh as (g & Hd & Ht & Hw & Hn). rewrite Hw, route_rules_marked.
  wp_step. apply wp_of_result; [intros [rules plan] Hr|intros x _; by apply (failed_here e e s)].
  wp_step. wp_step. unfold persist_guard_evaluation. repeat wp_step.
  set (row := mkGuardEvaluation _ _ _ _ _ _ _ _ _ _ _ _ _ _).
  assert (Hh1 : held e (with_work (put_guard row) (next_uuid s))).
  { exists (<[ge_id row := row]> g). repeat (split; [done|]). cbn [work with_work next_uuid].
    by rewrite Hw. }
  apply (assign_held _ e _ _ Hh1); [done|]. intros s2 Hh2. wp_step.
  set (e1 := set_ex_guard_evaluation_id e _) in *.
  assert (Hs1 : same_object e e1) by done.
  destruct (blocked_rules rules) as [|r rs] eqn:Hb.
  - destruct (route_rules_inv policy rules plan Hpol Hr Hb) as [Hsup Hperm].
    by apply route_passed_run.
  - by apply assign_quiet; auto; cbn; auto.
Qed.
Lemma route_execution_run policy e s :
  held e s -> risk_policy_payload risk_config = inr policy ->
  wp (route_execution sha256 holidays e decision user settings policy corr current race)
    (finished e) s.
Proof.
  intros Hh Hpol. unfold route_execution.
  destruct (NO_ACTIONS _); [by apply assign_quiet; auto; cbn; auto|].
  case_bool_decide; [by apply assign_quiet; auto; cbn; auto|]. by apply route_guarded_run.
Qed.

(** A new execution's key and identifier are new when its row is flushed. *)
Lemma no_clash e db1 : execution_clash e db1 = false ->
  executions db1 !! ex_id e = None /\ execution_by_key (ex_execution_key e) db1 = None.
Proof.
  intros H. apply orb_false_iff in H as [H1 H2].
  by apply bool_decide_eq_false, eq_None_not_Some in H1, H2.
Qed.

Lemma by_key_none key db1 k x :
  execution_by_key key db1 = None -> executions db1 !! k = Some x -> ex_execution_key x <> key.
Proof.
  intros H Hk E. pose proof (find_row_None _ _ _ _ H Hk) as F. cbn in F. by apply String.eqb_neq in F.
Qed.

Lemma concurrent_executions_rest :
  orders (add_concurrent_executions xrace db) = orders db /\
  approvals (add_concurrent_executions xrace db) = approvals db /\
  configurations (add_concurrent_executions xrace db) = configurations db.
Proof. destruct raced_db as (v & -> & _). done. Qed.

(** The state right after the new row was flushed. *)
Lemma flushed_held e s : disk s = db -> work s = db -> clock s = t ->
  execution_clash e (add_concurrent_executions xrace db) = false ->
  held e (with_work (put_execution e) (interleave (add_concurrent_executions xrace) s)).
Proof.
  intros Hd Hw Ht Hc. destruct raced_db as (v & E & Ev). exists (guards db).
  cbn [disk work clock with_work interleave]. rewrite Hd, Hw. split; [done|]. split; [done|].
  split; [rewrite E; by subst v|]. by apply no_clash.
Qed.

(** The end of routing, from the object's branch. *)
Lemma finish_run e0 e s :
  routable -> execution_by_key routing_key db = None ->
  ex_execution_key e0 = routing_key -> ex_decision_id e0 = d_id decision ->
  configured_mode (ex_mode e0) ->
  (forall k x, raced_executions !! k = Some x -> ex_execution_key x <> routing_key) ->
  finished e0 s (inl e) ->
  wp (finish_routing e decision user settings corr) (fun s r => routed (disk s) r) s.
Proof.
  intros Hable Hnew Hkey Hdec Hmode Hr (Hs & Hn & Hc & H). unfold finish_routing.
  wp_step. wp_step. wp_step. wp_step. wp_step. wp_step. wp_step. wp_step. wp_step. wp_step.
  cbn [work committed with_work executions add_audit set_audit_logs].
  destruct H as [(He & Heff)|(He & Hno & Hap)]; rewrite He.
  - rewrite lookup_insert_eq. cbn [or_raise]. repeat wp_step. destruct Hs as (S1 & S2 & S3 & S4).
    apply Routed; (done || congruence || by rewrite S4).
  - rewrite Hn. cbn [or_raise]. repeat wp_step. by apply Failed.
Qed.

Lemma route_run :
  wp (route_trading_decision sha256 holidays decision user corr settings now xrace race)
    (fun s r => routed (disk s) r) (open_session db t ids).
Proof.
  unfold route_trading_decision, now_or.
  destruct (String.eqb_spec (d_purpose decision) "TRADING") as [Htr|Htr]; cbn [negb].
  2: { wp_step. by apply NotTrading. }
  wp_step.
  assert (Hnow : forall Q, Q (open_session db t ids) (inl current) ->
    wp (match now with Some u => mret u | None => utcnow end) Q (open_session db t ids))
    by (intros Q HQ; by destruct now).
  apply Hnow. wp_step. wp_step. wp_step. wp_step. wp_step. cbn [work open_session].
  assert (Hfail : forall e, routed (disk (open_session db t ids)) (inr e))
    by (intros e; apply Failed; [by left|done]).
  apply wp_of_result; [intros policy Hpol|intros e _; apply Hfail].
  wp_step. wp_step. wp_step. wp_step. wp_step. cbn [work open_session].
  apply wp_of_result; [intros rpolicy Hrpol|intros e _; apply Hfail].
  assert (Hable : routable) by (split; [done|split; eauto]).
  wp_step. wp_step. wp_step. wp_step. cbn [work open_session].
  change (_key sha256 decision _ _ _) with routing_key.
  destruct (execution_by_key routing_key db) as [x|] eqn:Hknown.
  { wp_step. by apply Known. }
  wp_step. wp_step. wp_step. set (e := mkDecisionExecution _ _ _ _ _ _ _ _ _ _ _ _ _ _ _ _ _ _).
  wp_step. apply wp_flush_checked; intros Hc; cbn [work interleave next_uuid open_session] in Hc.
  { destruct concurrent_executions_rest as (H1 & H2 & _). apply Failed; [by left|done]. }
  wp_step. wp_step. destruct (no_clash _ _ Hc) as [Hn Hk].
  eapply wp_mono; [apply (route_execution_run rpolicy e)|].
  - by apply (flushed_held e (next_uuid (open_session db t ids))).
  - done.
  - intros s' [e'|x] H; wp_step.
    + apply (finish_run e); try done.
      { exists policy. split; [done|]. cbn. by destruct (d_action decision). }
      intros k x Hx. by apply (by_key_none _ _ k x Hk).
    + destruct H. by apply Failed.
Qed.
End RoutingProps.

(** ** Theorems *)

(** C14: routing creates an order only when the active execution policy sets
    the automatic mode for the action, and an approval only when it sets the
    manual one, in a stage that enables orders, and only when the
    guard of the action held on the decision's snapshot; the order is the LIMIT
    order of the guarded quantity at the marketable price under the decision's
    own key, the approval is bound to those terms.  In the SHADOW stage, and on
    every other branch and error, neither appears. *)
Theorem routing_is_guarded sha256 holidays decision user corr settings now xrace race db t ids :
  wp (route_trading_decision sha256 holidays decision user corr settings now xrace race)
    (fun s r =>
      (no_new_order race db (disk s) \/
       exists request o, ORDER_ENABLED_STAGES (execution_stage settings) = true /\
         configured_mode decision user db MODE_AUTOMATIC /\
         automatic_request holidays decision user corr settings now db t request /\
         answers sha256 (oc_idempotency_key request) (Some (default t now)) race db t request o
           (disk s)) /\
      (approvals (disk s) = approvals db \/
       exists e a, r = inl (Some e) /\ ORDER_ENABLED_STAGES (execution_stage settings) = true /\
         ex_mode e = MODE_MANUAL_APPROVAL /\ configured_mode decision user db MODE_MANUAL_APPROVAL /\
         manual_approval holidays decision user settings now db t e a /\
         approvals (disk s) = <[ap_id a := a]> (approvals db)) /\
      (execution_stage settings = STAGE_SHADOW ->
         no_new_order race db (disk s) /\ approvals (disk s) = approvals db))
    (open_session db t ids).
Proof.
  eapply wp_mono; [apply route_run|]. intros s r H.
  assert (Hsame : forall db', db' = db -> no_new_order race db db' /\ approvals db' = approvals db)
    by (intros db' ->; split; [by left|done]).
  destruct H as [_|e _ _|db' e H1 H2|e db' _ _ _ _ Hmode _ _ _ He].
  1,2: destruct (Hsame db eq_refl); auto.
  { auto. }
  unfold route_effect in He. destruct (ex_state e) eqn:Est; try done.
  all: try (destruct He; by auto).
  - destruct He as (Hm & Hst & Ho & a & Ha & E). split; [left; by left|].
    split; [right; exists e, a; by rewrite <- Hm|]. intros S. by rewrite S in Hst.
  - destruct He as (Hm & Hst & Ha & rq & o & Hrq & Ho). split; [right; exists rq, o; by rewrite <- Hm|].
    split; [by left|]. intros S. by rewrite S in Hst.
Qed.

(** The row of the key, once inserted beside rows of other keys, is found. *)
Lemma by_key_inserted key e (m : gmap string DecisionExecution) db :
  executions db = <[ex_id e := e]> m -> ex_execution_key e = key ->
  (forall k x, m !! k = Some x -> ex_execution_key x <> key) ->
  execution_by_key key db = Some e.
Proof.
  intros E Hk Hm. unfold execution_by_key. rewrite E.
  destruct (find_row _ _) as [x|] eqn:F.
  - apply find_row_Some in F as [Hx [k Hkx]]. apply String.eqb_eq in Hx. f_equal.
    destruct (decide (k = ex_id e)) as [->|N].
    + rewrite lookup_insert_eq in Hkx. congruence.
    + rewrite lookup_insert_ne in Hkx by done. by destruct (Hm k x Hkx).
  - exfalso. apply (find_row_None _ _ (ex_id e) e) in F; [|apply lookup_insert_eq].
    by apply String.eqb_neq in F.
Qed.

(** Routing a decision whose key is known answers with the stored execution. *)
Lemma route_known sha256 holidays decision user corr settings now xrace race db t ids e :
  routable decision user db ->
  execution_by_key (routing_key sha256 decision user db) db = Some e ->
  wp (route_trading_decision sha256 holidays decision user corr settings now xrace race)
    (fun s r => r = inl (Some e) /\ disk s = db) (open_session db t ids).
Proof.
  intros (Htr & (p & Hp) & (rp & Hrp)) He. unfold route_trading_decision, now_or. rewrite Htr.
  rewrite String.eqb_refl. cbn [negb]. wp_step.
  assert (Hnow : forall Q, Q (open_session db t ids) (inl (default t now)) ->
    wp (match now with Some u => mret u | None => utcnow end) Q (open_session db t ids))
    by (intros Q HQ; by destruct now).
  apply Hnow. do 5 wp_step. cbn [work open_session]. rewrite Hp. cbn [of_result].
  do 6 wp_step. cbn [work open_session]. rewrite Hrp. cbn [of_result].
  do 5 wp_step. cbn [work open_session]. unfold routing_key in He. rewrite He. by wp_step.
Qed.

Lemma active_version_ext db db' u c : configurations db' = configurations db ->
  active_version db' u c = active_version db u c.
Proof. unfold active_version. by intros ->. Qed.

(** Routing is idempotent.  Once a decision has an execution, routing it
    again under the same active policies returns that execution and changes
    nothing, whatever the settings, the clock and the other sessions. *)
Theorem routing_is_idempotent sha256 holidays decision user corr settings now xrace race db t ids :
  wp (route_trading_decision sha256 holidays decision user corr settings now xrace race)
    (fun s r => match r with
     | inl (Some e) => forall corr' settings' now' xrace' race' t' ids',
         wp (route_trading_decision sha256 holidays decision user corr' settings' now' xrace' race')
           (fun s' r' => r' = inl (Some e) /\ disk s' = disk s) (open_session (disk s) t' ids')
     | _ => True
     end) (open_session db t ids).
Proof.
  eapply wp_mono; [apply route_run|]. intros s r H.
  destruct H as [_|e Hable He|db' e _ _|e db' Hable Hnew Hkey _ _ Hr Hx Hc _]; try done.
  - intros *. by apply route_known.
  - intros *.
    assert (E : forall c, active_version db' (u_id user) c = active_version db (u_id user) c)
      by (intros c; by apply active_version_ext).
    apply route_known.
    + unfold routable, active_policy, active_risk_policy. by rewrite !E.
    + unfold routing_key, active_policy, active_risk_policy. rewrite !E.
      by eapply by_key_inserted.
Qed.

(** Routing a BUY on the concrete day, in each mode and stage. *)
Definition day_route (mode : ExecMode) (stage : ExecStage) : Sess * (option DecisionExecution + exn) :=
  route_trading_decision day_hash no_holidays (day_decision ACT_BUY) demo_user "c"
    (day_settings stage) (Some day_now) [] [] (open_session (day_db mode ∅) day_now day_ids).

Definition day_routed (mode : ExecMode) (stage : ExecStage) : option ExecState * nat * nat :=
  let '(s, r) := day_route mode stage in
  (match r with inl (Some e) => Some (ex_state e) | _ => None end, size (orders (disk s)),
   size (approvals (disk s))).

Example day_routing :
  day_routed MODE_AUTOMATIC STAGE_MOCK_AUTOMATIC = (Some EX_ORDER_CREATED, 1%nat, 0%nat) /\
  day_routed MODE_MANUAL_APPROVAL STAGE_APPROVAL_ONLY = (Some EX_APPROVAL_PENDING, 0%nat, 1%nat) /\
  day_routed MODE_AUTOMATIC STAGE_SHADOW = (Some EX_SHADOW_RECORDED, 0%nat, 0%nat) /\
  day_routed MODE_DISABLED STAGE_MOCK_AUTOMATIC = (Some EX_DISABLED, 0%nat, 0%nat).
Proof. vm_compute. repeat split. Qed.
