(* ===== verification/StopTrigger.v ===== *)
(** * Fixed stop-loss triggers

    [stop_trigger.py]: on every tick of the broker worker each open position is
    compared with its stop price; a crossed stop becomes a trigger row, and,
    when the sell guard passes, a SELL order of the managed quantity. *)

From Stdlib Require Import ZArith Lia.
From stdpp Require Import base numbers strings list gmap.
From S2P Require Import Prelude Decimal Json PyTime Models Session PaperBroker.
From S2P Require Import RiskEvents Policies OrderCreation MarketCalendar Venue.

Open Scope Z_scope.

(** ** Constants *)

Definition STOP_ACTIVE_SELL_STATES : list OrderStatus :=
  [CREATED; VALIDATING; SUBMITTING; ACKNOWLEDGED; OPEN; PARTIALLY_FILLED; CANCEL_PENDING;
   REPLACE_PENDING; UNKNOWN; RECONCILING].

Definition BLOCKING_ORDER_STATES : list OrderStatus :=
  [CREATED; VALIDATING; SUBMITTING; ACKNOWLEDGED; OPEN; PARTIALLY_FILLED; CANCEL_PENDING;
   REPLACE_PENDING; UNKNOWN; RECONCILING].

Definition STOP_POLICY_VERSION : string := "fixed-stop-v1".

Definition TRADABLE_SESSIONS : list TradingSession := [KRX_ONLY; DUAL_CONTINUOUS].

Definition FIXED_STOP_AUTO_SELL_STAGES (st : ExecStage) : bool :=
  match st with STAGE_APPROVAL_ONLY | STAGE_MOCK_AUTOMATIC => true | STAGE_SHADOW => false end.

(** ** Prices and quantities *)

(** The divisor is 100; only [quantize] can raise. *)
Definition compute_stop_price (average_price stop_loss_pct : decimal) : exn + decimal :=
  match ddiv stop_loss_pct (of_int 100) with
  | None => inl ZeroDivision
  | Some ratio =>
      match quantize ROUND_HALF_UP (-4) (dmul average_price (dadd (of_int 1) ratio)) with
      | None => inl InvalidOperation
      | Some price => inr price
      end
  end.

Definition should_trigger (bid_price : option decimal) (stop_price : decimal) : bool :=
  match bid_price with
  | None => false
  | Some bid => if dleb bid dzero then false else dleb bid stop_price
  end.

Definition _latest_krx_snapshot (db : DB) (symbol : string) : option MarketSnapshot :=
  stream ← streams db !! ("KRX", symbol);
  snapshot_id ← mss_current_snapshot_id stream;
  snapshots db !! snapshot_id.

Definition _sell_quantity_available (db : DB) (account_alias symbol : string)
  (managed_quantity broker_available_quantity : Z) : Z :=
  let reserved := reserved_sell_quantity STOP_ACTIVE_SELL_STATES account_alias symbol db in
  Z.max 0 (Z.min managed_quantity broker_available_quantity - reserved).

Definition _managed_quantity (position : Position) : Z := Z.max 0 (p_managed_quantity position).

Definition _managed_average_price (position : Position) : decimal :=
  if 0 <? _managed_quantity position then p_managed_average_price position
  else p_average_price position.

Definition _has_blocking_order (db : DB) (account_alias symbol : string) : bool :=
  symbol_order_in BLOCKING_ORDER_STATES account_alias symbol db.

(** [_SystemAuditActor] *)
Definition system_actor : User := mkUser "SYSTEM_FIXED_STOP_TRIGGER" "SYSTEM_FIXED_STOP_TRIGGER" EmptyString EmptyString.

(** ** Trigger rows *)

Definition put_trigger (t : StopTrigger) (db : DB) : DB :=
  set_stop_triggers db (<[st_id t := t]> (stop_triggers db)).

Definition change_trigger (id : string) (f : StopTrigger -> StopTrigger) (db : DB) : DB :=
  match stop_triggers db !! id with Some t => put_trigger (f t) db | None => db end.

Definition set_outcome (state : TriggerState) (code : option string) (t : StopTrigger) :
  StopTrigger := set_st_result_code (set_st_state t state) code.

Definition is_active_trigger (t : StopTrigger) : bool :=
  bool_decide (st_state t ∈ [PENDING; SHADOW_RECORDED; EXIT_PENDING]).

(** [uq_stop_triggers_position_version_policy], where a NULL policy equals
    nothing, and the primary key. *)
Definition trigger_clash (t : StopTrigger) (db : DB) : bool :=
  bool_decide (is_Some (stop_triggers db !! st_id t)) ||
  existsb (fun x => String.eqb (st_position_id x) (st_position_id t) &&
                    (st_position_version x =? st_position_version t) &&
                    bool_decide (is_Some (st_risk_policy_version_id t)) &&
                    bool_decide (st_risk_policy_version_id x = st_risk_policy_version_id t))
    (rows (stop_triggers db)).

Definition _existing_active_trigger (db : DB) (position_id : string) (position_version : Z)
  (risk_policy_version_id : option string) : option StopTrigger :=
  find_row (fun t => String.eqb (st_position_id t) position_id &&
                     (st_position_version t =? position_version) &&
                     bool_decide (st_risk_policy_version_id t = risk_policy_version_id) &&
                     is_active_trigger t) (stop_triggers db).

Definition _supersede (t : StopTrigger) : StopTrigger := set_st_state t SUPERSEDED.

(** [if trigger.risk_event_id: resolve_risk_event(...)] *)
Definition resolve_event_of (t : StopTrigger) (resolution : string) (now : option Z) : prog unit :=
  match st_risk_event_id t with
  | Some id => if String.eqb id EmptyString then mret tt
               else resolve_risk_event id resolution now ;; mret tt
  | None => mret tt
  end.

Definition _supersede_stale_triggers (position_id : string)
  (risk_policy_version_id : option string) (now : option Z) : prog unit :=
  stale ← gets (fun db => List.filter (fun t =>
    String.eqb (st_position_id t) position_id &&
    bool_decide (st_risk_policy_version_id t = risk_policy_version_id) &&
    is_active_trigger t) (rows (stop_triggers db)));
  resolved_at ← now_or now;
  for_each stale (fun t =>
    modify (change_trigger (st_id t) _supersede) ;;
    resolve_event_of t "SUPERSEDED" (Some resolved_at)).

(** ** The sell guard of a trigger *)

Section StopTriggers.
Context (sha256 : string -> string) (holidays : Z -> option (list Z)).

Definition _sell_guard_rules (db : DB) (position : Position) (trigger : StopTrigger)
  (snapshot : option MarketSnapshot) (settings : Settings) (risk_policy : RiskPolicyPayload)
  (now : Z) : list Rule :=
  let gate := gates db !! st_account_alias trigger in
  let managed_quantity := _managed_quantity position in
  let sellable := _sell_quantity_available db (st_account_alias trigger) (st_symbol trigger)
                    managed_quantity (p_available_quantity position) in
  let blocking_order := _has_blocking_order db (st_account_alias trigger) (st_symbol trigger) in
  let fresh := match snapshot with
    | Some s => bool_decide (ms_quality s = Q_NORMAL) &&
                String.eqb (ms_trading_status s) "TRADING" && (ms_received_at s - now <=? 0) &&
                (now - ms_received_at s <=? seconds (quote_stale_seconds risk_policy))
    | None => false
    end in
  let session := classify_session holidays now None in
  [rule "POSITION_FOUND" (bool_decide (p_state position = POS_OPEN) && (0 <? p_quantity position));
   rule "POSITION_VERSION_MATCH" (p_version position =? st_position_version trigger);
   rule "POSITION_MANAGED_QUANTITY_POSITIVE" (0 <? managed_quantity);
   rule "SELL_QUANTITY_AVAILABLE" (managed_quantity <=? sellable);
   rule "BROKER_READY" (match gate with
                        | Some g => bool_decide (g_status g = GATE_READY) | None => false end);
   rule "NOT_RECONCILING" (match gate with
                           | Some g => bool_decide (g_status g <> GATE_RECONCILING)
                           | None => false end);
   rule "NO_ACTIVE_OR_UNKNOWN_ORDER" (negb blocking_order);
   rule "MARKET_DATA_FRESH" fresh;
   rule "INSTRUMENT_TRADABLE" (match snapshot with
                               | Some s => String.eqb (ms_trading_status s) "TRADING" &&
                                           bool_decide (ms_quality s = Q_NORMAL)
                               | None => false end);
   rule "MARKET_SESSION_TRADABLE" (bool_decide (session ∈ TRADABLE_SESSIONS));
   rule "ENVIRONMENT_NOT_MOCK" (String.eqb (upper (environment settings)) "MOCK")].

Definition _trigger_input_record (position : Position) (risk_policy_version_id : option string)
  (risk_policy : RiskPolicyPayload) (stop_price : decimal) (quote : option MarketSnapshot)
  (now : Z) : json :=
  JObj [("schema_version", JStr "fixed-stop-input-v2"); ("policy_version", JStr STOP_POLICY_VERSION);
        ("account_alias", JStr ACCOUNT_ALIAS); ("position_id", JStr (p_id position));
        ("position_version", JInt (p_version position)); ("symbol", JStr (p_symbol position));
        ("broker_average_price", jopt_dec (Some (p_average_price position)));
        ("managed_average_price", jopt_dec (Some (p_managed_average_price position)));
        ("total_quantity", JInt (p_quantity position));
        ("available_quantity", JInt (p_available_quantity position));
        ("managed_quantity", JInt (p_managed_quantity position));
        ("external_quantity", JInt (p_quantity position - p_managed_quantity position));
        ("stop_loss_pct", jopt_dec (Some (fixed_stop_loss_pct risk_policy)));
        ("risk_policy_version_id", jopt_str risk_policy_version_id);
        ("stop_price", jopt_dec (Some stop_price)); ("evaluated_at", JStr (iso_datetime now));
        ("snapshot_id", jopt_str (ms_id <$> quote));
        ("bid_price", jopt_dec (q ← quote; ms_best_bid_price q))].

Definition _persist_guard_evaluation (trigger : StopTrigger) (rules : list Rule)
  (snapshot : option MarketSnapshot) (risk_policy_version_id : option string) (now : Z) :
  prog GuardEvaluation :=
  persist_guard_evaluation (st_id trigger) "STOP_TRIGGER" (st_id trigger) rules (ms_id <$> snapshot)
    (Some (st_position_version trigger)) None risk_policy_version_id (Some "ENTRY_HALT") None now
    "PRE_ORDER".

(** ** The order of a trigger *)

Definition _should_auto_sell (settings : Settings) (snapshot : option MarketSnapshot) : bool :=
  FIXED_STOP_AUTO_SELL_STAGES (execution_stage settings) && bool_decide (is_Some snapshot).

Definition stop_request (trigger : StopTrigger) (position : Position) (price stop_price : decimal)
  (correlation_id : string) : OrderRequest :=
  let quantity := _managed_quantity position in
  let key := "fixed-stop:" +:+ st_id trigger in
  mkOrderRequest (p_symbol position) "KRX" "SELL" "FIXED_STOP" "LIMIT" (Some price) quantity key
    (JObj [("environment", JStr "MOCK"); ("symbol", JStr (p_symbol position));
           ("market", JStr "KRX"); ("side", JStr "SELL"); ("action", JStr "FIXED_STOP");
           ("order_type", JStr "LIMIT"); ("limit_price", jopt_dec (Some price));
           ("quantity", JInt quantity); ("trigger_id", JStr (st_id trigger));
           ("position_id", JStr (p_id position)); ("position_version", JInt (p_version position));
           ("stop_price", jopt_dec (Some stop_price)); ("idempotency_key", JStr key)])
    correlation_id.

(** The trigger's columns as the session has them after [create_order], which
    may have rolled back; an object without a row keeps its own. *)
Definition reloaded (trigger : StopTrigger) : prog StopTrigger :=
  gets (fun db => default trigger (stop_triggers db !! st_id trigger)).

(** [race]: the orders other sessions commit while the order is created. *)
Definition _emit_fixed_stop_order (trigger : StopTrigger) (position : Position)
  (snapshot : option MarketSnapshot) (stop_price : decimal) (correlation_id : string) (now : Z)
  (race : list TradingOrder) : prog unit :=
  let touch f := modify (change_trigger (st_id trigger) f) in
  match s ← snapshot; ms_best_bid_price s with
  | None => touch (set_outcome EXIT_PENDING (Some "NO_FRESH_EXECUTABLE_KRX_QUOTE"))
  | Some price =>
      if dleb price dzero
      then touch (set_outcome EXIT_PENDING (Some "NO_FRESH_EXECUTABLE_KRX_QUOTE"))
      else
        placed ← try_except
          (create_order sha256 system_actor
             (stop_request trigger position price stop_price correlation_id)
             "FIXED_STOP_SELL_ORDER_CREATED" (Some now) race ;; mret None)
          (fun e => match e with
                    | OrderCreationError code _ => Some (mret (Some code))
                    | _ => None
                    end);
        match (placed : option string) with
        | Some code => touch (set_outcome EXIT_PENDING (Some code))
        | None =>
            touch (set_outcome FULFILLED (Some "ORDER_CREATED")) ;;
            trigger ← reloaded trigger;
            resolve_event_of trigger "ORDER_CREATED" (Some now)
        end
  end.

(** The guard passed: sell, or record the shadow outcome. *)
Definition stop_passed (trigger : StopTrigger) (position : Position)
  (snapshot : option MarketSnapshot) (settings : Settings) (stop_price : decimal)
  (correlation_id : string) (now : Z) (race : list TradingOrder) : prog unit :=
  if _should_auto_sell settings snapshot
  then _emit_fixed_stop_order trigger position snapshot stop_price correlation_id now race
  else modify (change_trigger (st_id trigger) (set_outcome SHADOW_RECORDED None)).

(** ** Evaluation *)

Definition reevaluation_record (position : Position) (stop_price : decimal) (now : Z)
  (rule_code : string) : json :=
  JObj [("position_id", JStr (p_id position)); ("position_version", JInt (p_version position));
        ("stop_price", jopt_dec (Some stop_price)); ("re_evaluated_at", JStr (iso_datetime now));
        ("rule_code", JStr rule_code)].

Definition _re_evaluate_trigger (trigger : StopTrigger) (position : Position)
  (snapshot : option MarketSnapshot) (settings : Settings) (risk_policy : RiskPolicyPayload)
  (risk_policy_version_id : option string) (stop_price : decimal) (now : Z)
  (race : list TradingOrder) : prog unit :=
  let touch f := modify (change_trigger (st_id trigger) f) in
  if negb (bool_decide (p_state position = POS_OPEN)) || (p_quantity position <=? 0) then
    touch _supersede ;;
    resolve_event_of trigger "POSITION_CLOSED" (Some now)
  else
    rules ← gets (fun db => _sell_guard_rules db position trigger snapshot settings risk_policy now);
    guard ← _persist_guard_evaluation trigger rules snapshot risk_policy_version_id now;
    touch (fun t => set_st_guard_evaluation_id t (Some (ge_id guard))) ;;
    match blocked_rules rules with
    | r :: _ =>
        (match st_risk_event_id trigger with
         | None =>
             event ← create_risk_event RISK_EVENT_SCOPE_FIXED_STOP (rule_code r) "HIGH"
               (st_account_alias trigger) (reevaluation_record position stop_price now (rule_code r))
               (st_correlation_id trigger) (Some (st_symbol trigger)) (ms_id <$> snapshot) (Some now);
             touch (fun t => set_st_risk_event_id t (Some (re_id event)))
         | Some _ => mret tt
         end) ;;
        touch (set_outcome EXIT_PENDING (Some (rule_code r)))
    | [] =>
        resolve_event_of trigger "BROKER_RECOVERED" (Some now) ;;
        stop_passed trigger position snapshot settings stop_price (st_correlation_id trigger) now race
    end.

(** A crossed stop: the new trigger row and its first evaluation. *)
Definition fire_trigger (position : Position) (snapshot : option MarketSnapshot)
  (settings : Settings) (risk_policy : RiskPolicyPayload) (risk_policy_version_id : option string)
  (stop_price : decimal) (now : Z) (correlation_id : string) (race : list TradingOrder) :
  prog unit :=
  id ← uuid7;
  let trigger := mkStopTrigger id ACCOUNT_ALIAS (p_id position) (p_version position)
    (p_symbol position) "KRX" risk_policy_version_id stop_price (s ← snapshot; ms_best_bid_price s)
    (ms_id <$> snapshot) PENDING None None None correlation_id in
  let touch f := modify (change_trigger (st_id trigger) f) in
  flush_checked (fun db => db) (trigger_clash trigger) (put_trigger trigger) ;;
  rules ← gets (fun db => _sell_guard_rules db position trigger snapshot settings risk_policy now);
  guard ← _persist_guard_evaluation trigger rules snapshot risk_policy_version_id now;
  touch (fun t => set_st_guard_evaluation_id t (Some (ge_id guard))) ;;
  match blocked_rules rules with
  | r :: _ =>
      event ← create_risk_event RISK_EVENT_SCOPE_FIXED_STOP (rule_code r) "HIGH" ACCOUNT_ALIAS
        (_trigger_input_record position risk_policy_version_id risk_policy stop_price snapshot now)
        correlation_id (Some (p_symbol position)) (ms_id <$> snapshot) (Some now);
      touch (fun t => set_outcome EXIT_PENDING (Some (rule_code r))
                        (set_st_risk_event_id t (Some (re_id event))))
  | [] => stop_passed trigger position snapshot settings stop_price correlation_id now race
  end.

Definition _evaluate_position (position : Position) (settings : Settings) (now : Z)
  (correlation_id : string) (race : list TradingOrder) : prog unit :=
  risk_config ← gets (fun db => active_risk_policy db ACCOUNT_ALIAS);
  risk_policy ← of_result (risk_policy_payload risk_config);
  let version_id := cv_id <$> risk_config in
  snapshot ← gets (fun db => _latest_krx_snapshot db (p_symbol position));
  stop_price ← of_result (compute_stop_price (_managed_average_price position)
                            (fixed_stop_loss_pct risk_policy));
  existing ← gets (fun db => _existing_active_trigger db (p_id position) (p_version position)
                               version_id);
  match existing with
  | Some trigger =>
      _re_evaluate_trigger trigger position snapshot settings risk_policy version_id stop_price now
        race
  | None =>
      _supersede_stale_triggers (p_id position) version_id None ;;
      if should_trigger (s ← snapshot; ms_best_bid_price s) stop_price
      then fire_trigger position snapshot settings risk_policy version_id stop_price now
             correlation_id race
      else mret tt
  end.

(** [race] gives, for each position, the orders other sessions commit while its
    order is created. *)
Definition run_fixed_stop_triggers (settings : Settings) (now : option Z)
  (correlation_id : option string) (account_alias : string) (race : string -> list TradingOrder) :
  prog Z :=
  positions ← gets (fun db => List.filter (fun p =>
    String.eqb (p_account_alias p) account_alias && bool_decide (p_state p = POS_OPEN) &&
    (0 <? p_quantity p)) (rows (positions db)));
  if bool_decide (positions = []) then mret 0
  else
    evaluated_at ← now_or now;
    let correlation_id := match correlation_id with
      | Some c => if String.eqb c EmptyString then "stop-" +:+ iso_datetime evaluated_at else c
      | None => "stop-" +:+ iso_datetime evaluated_at
      end in
    for_each positions (fun p =>
      _evaluate_position p settings evaluated_at correlation_id (race (p_id p))) ;;
    commit ;;
    mret (Z.of_nat (length positions)).

Definition recover_one (trigger : StopTrigger) (settings : Settings)
  (risk_policy : RiskPolicyPayload) (version_id : option string) (now : Z)
  (race : list TradingOrder) : prog unit :=
  position ← gets (fun db => positions db !! st_position_id trigger);
  let closed := modify (change_trigger (st_id trigger) _supersede) ;;
                resolve_event_of trigger "POSITION_CLOSED" (Some now) in
  match position with
  | None => closed
  | Some p =>
      if negb (bool_decide (p_state p = POS_OPEN)) || (p_quantity p <=? 0) then closed
      else
        snapshot ← gets (fun db => _latest_krx_snapshot db (st_symbol trigger));
        stop_price ← of_result (compute_stop_price (_managed_average_price p)
                                  (fixed_stop_loss_pct risk_policy));
        _re_evaluate_trigger trigger p snapshot settings risk_policy version_id stop_price now race
  end.

Definition recover_exit_pending (settings : Settings) (now : option Z) (account_alias : string)
  (race : string -> list TradingOrder) : prog Z :=
  gate ← gets (fun db => gates db !! account_alias);
  if negb (match gate with Some g => bool_decide (g_status g = GATE_READY) | None => false end)
  then mret 0
  else
    triggers ← gets (fun db => List.filter (fun t =>
      String.eqb (st_account_alias t) account_alias && bool_decide (st_state t = EXIT_PENDING))
      (rows (stop_triggers db)));
    if bool_decide (triggers = []) then mret 0
    else
      evaluated_at ← now_or now;
      risk_config ← gets (fun db => active_risk_policy db account_alias);
      risk_policy ← of_result (risk_policy_payload risk_config);
      for_each triggers (fun t =>
        recover_one t settings risk_policy (cv_id <$> risk_config) evaluated_at
          (race (st_position_id t))) ;;
      commit ;;
      mret (Z.of_nat (length triggers)).
End StopTriggers.
