(* ===== verification/StopProps.v ===== *)
(** * Properties of the fixed stop-loss

    What [StopTrigger] guarantees: a stop order sells exactly the managed shares
    of one open position, once, for a trigger whose stop was crossed, and only
    while the sell guard holds. *)

From Stdlib Require Import ZArith Lia.
From stdpp Require Import base numbers strings list gmap.
From S2P Require Import Prelude Decimal Json PyTime Models Session PaperBroker.
From S2P Require Import RiskEvents Policies OrderCreation MarketCalendar Venue Guards Fixtures StopTrigger.

Open Scope Z_scope.

Section StopProps.
Context (sha256 : string -> string) (holidays : Z -> option (list Z)).
Context (settings : Settings) (now : Z) (race : string -> list TradingOrder) (db : DB).

(** ** What a stop order is *)

(** A row another session commits while the triggers run. *)
Definition raced (o : TradingOrder) : Prop := exists x, o ∈ race x.

(** An order row of [D] that this run added. *)
Definition emitted (D : DB) (k : string) (o : TradingOrder) : Prop :=
  orders D !! k = Some o /\ orders db !! k = None /\ ~ raced o.

(** The trigger of an order: older than the run, or fired by a crossed stop. *)
Definition crossed (D : DB) (id : string) : Prop :=
  exists t, stop_triggers D !! id = Some t /\
    (is_Some (stop_triggers db !! id) \/ should_trigger (st_trigger_price t) (st_stop_price t) = true).

(** The order sells the managed shares of an open position at the current bid,
    with every condition of the guard true. *)
Definition stop_sale (D : DB) (o : TradingOrder) : Prop :=
  exists p snapshot price policy trigger_id,
    positions db !! p_id p = Some p /\ p_state p = POS_OPEN /\
    0 < p_managed_quantity p <= p_available_quantity p /\
    FIXED_STOP_AUTO_SELL_STAGES (execution_stage settings) = true /\
    upper (environment settings) = "MOCK" /\
    risk_policy_payload (active_risk_policy db ACCOUNT_ALIAS) = inr policy /\
    (exists g, gates db !! ACCOUNT_ALIAS = Some g /\ g_status g = GATE_READY) /\
    _latest_krx_snapshot db (p_symbol p) = Some snapshot /\
    ms_best_bid_price snapshot = Some price /\ dleb price dzero = false /\
    ms_quality snapshot = Q_NORMAL /\ ms_trading_status snapshot = "TRADING" /\
    ms_received_at snapshot <= now <= ms_received_at snapshot + seconds (quote_stale_seconds policy) /\
    In (classify_session holidays now None) TRADABLE_SESSIONS /\
    o_account_alias o = ACCOUNT_ALIAS /\ o_symbol o = p_symbol p /\ o_market o = "KRX" /\
    o_side o = SELL /\ o_order_type o = LIMIT /\ o_limit_price o = Some price /\
    o_requested_quantity o = p_managed_quantity p /\ o_status o = CREATED /\
    o_idempotency_key o = "fixed-stop:" +:+ trigger_id /\ crossed D trigger_id.

(** ** The invariant of a run *)

Definition keyed_orders (D : DB) : Prop := forall k o, orders D !! k = Some o -> o_id o = k.

Definition triggers_ok (D : DB) : Prop :=
  forall k t, stop_triggers D !! k = Some t -> st_id t = k /\ st_account_alias t = ACCOUNT_ALIAS /\
    forall p, positions db !! st_position_id t = Some p -> st_symbol t = p_symbol p.

(** No order of the symbol was active before the run. *)
Definition free_symbol (symbol : string) : Prop :=
  forall k x, orders db !! k = Some x -> o_account_alias x = ACCOUNT_ALIAS -> o_symbol x = symbol ->
    status_in BLOCKING_ORDER_STATES (o_status x) = false.

(** The orders of [D]: the ones of [db], untouched, rows of other sessions, and
    at most one stop order for each symbol, which had no active order. *)
Record sound (D : DB) : Prop := {
  so_keyed : keyed_orders D;
  so_kept : forall k o, orders db !! k = Some o -> orders D !! k = Some o;
  so_sale : forall k o, emitted D k o -> stop_sale D o;
  so_free : forall k o, emitted D k o -> free_symbol (o_symbol o);
  so_single : forall k1 k2 o1 o2, emitted D k1 o1 -> emitted D k2 o2 -> o_symbol o1 = o_symbol o2 -> k1 = k2
}.

(** A stop signal of a position that is still open, unchanged, and under the
    same policy. *)
Definition standing (k : string) (t : StopTrigger) : Prop :=
  stop_triggers db !! k = Some t /\ is_active_trigger t = true /\
  st_risk_policy_version_id t = cv_id <$> active_risk_policy db ACCOUNT_ALIAS /\
  exists p, positions db !! st_position_id t = Some p /\ p_state p = POS_OPEN /\
    0 < p_quantity p /\ p_version p = st_position_version t.

(** The row still carries the signal, or its order was created. *)
Definition carries (t t' : StopTrigger) : Prop :=
  st_state t' <> SUPERSEDED /\ st_position_id t' = st_position_id t /\
  st_position_version t' = st_position_version t /\
  st_risk_policy_version_id t' = st_risk_policy_version_id t.

Record good (D : DB) : Prop := {
  gd_positions : positions D = positions db;
  gd_gates : gates D = gates db;
  gd_snapshots : snapshots D = snapshots db;
  gd_streams : streams D = streams db;
  gd_configurations : configurations D = configurations db;
  gd_triggers : triggers_ok D;
  gd_old : forall k, is_Some (stop_triggers db !! k) -> is_Some (stop_triggers D !! k);
  gd_fired : forall k, is_Some (stop_triggers D !! k) -> crossed D k;
  gd_live : forall k t, standing k t -> exists t', stop_triggers D !! k = Some t' /\ carries t t';
  gd_sound : sound D
}.

Definition inv (s : Sess) : Prop := good (work s) /\ good (disk s).
(** ** Preservation *)

(** The tables a run reads and writes. *)
Definition same_tables (D D' : DB) : Prop :=
  positions D' = positions D /\ gates D' = gates D /\ snapshots D' = snapshots D /\
  streams D' = streams D /\ configurations D' = configurations D.

Lemma good_tables D D' : good D -> same_tables D D' ->
  triggers_ok D' -> (forall k, is_Some (stop_triggers D !! k) -> is_Some (stop_triggers D' !! k)) ->
  (forall k, is_Some (stop_triggers D' !! k) -> crossed D' k) ->
  (forall k t, standing k t -> exists t', stop_triggers D' !! k = Some t' /\ carries t t') ->
  sound D' -> good D'.
Proof.
  intros [G1 G2 G3 G4 G5 G6 G7 G8 G9 G10] (? & ? & ? & ? & ?) ? Hold ? ? ?.
  constructor; congruence || eauto.
Qed.

Lemma crossed_ext D D' id : stop_triggers D' = stop_triggers D -> crossed D id -> crossed D' id.
Proof. unfold crossed. by intros ->. Qed.

Lemma stop_sale_mono D D' o : (forall id, crossed D id -> crossed D' id) -> stop_sale D o ->
  stop_sale D' o.
Proof.
  intros H (p & sn & price & policy & tid & Hs). exists p, sn, price, policy, tid.
  repeat (destruct Hs as [? Hs]; split; [assumption|]). auto.
Qed.

Lemma sound_mono D D' : orders D' = orders D -> (forall id, crossed D id -> crossed D' id) ->
  sound D -> sound D'.
Proof.
  intros E Hc [H1 H2 H3 H5 H4].
  assert (He : forall k o, emitted D' k o -> emitted D k o) by (unfold emitted; by rewrite E).
  constructor.
  - unfold keyed_orders. by rewrite E.
  - by rewrite E.
  - intros k o Ho. eapply stop_sale_mono; [exact Hc|]. by apply (H3 k), He.
  - intros k o Ho. by apply (H5 k o), He.
  - intros k1 k2 o1 o2 E1 E2. apply (H4 k1 k2 o1 o2); by apply He.
Qed.

(** A change of other tables only. *)
Lemma good_ext D D' : same_tables D D' -> orders D' = orders D ->
  stop_triggers D' = stop_triggers D -> good D -> good D'.
Proof.
  intros Hs Ho Ht Hg. apply (good_tables D); try done.
  - unfold triggers_ok. rewrite Ht. apply Hg.
  - by rewrite Ht.
  - rewrite Ht. intros k Hk. eapply crossed_ext; [done|]. by apply Hg.
  - rewrite Ht. apply Hg.
  - eapply sound_mono; [exact Ho| |apply Hg]. intros id. by apply crossed_ext.
Qed.

Lemma concurrent_same_tables r D : same_tables D (add_concurrent_orders r D) /\
  stop_triggers (add_concurrent_orders r D) = stop_triggers D.
Proof. unfold same_tables. destruct (concurrent_orders_only r D) as (?&?&?&?&?&?&?&?&?&?). done. Qed.

(** A row that does not clash takes no other row's place. *)
Lemma put_kept D o : keyed_orders D -> clashes o D = false -> orders D !! o_id o = None.
Proof.
  intros Hk Hc. destruct (orders D !! o_id o) as [x|] eqn:E; [|done]. exfalso.
  unfold clashes in Hc. rewrite existsb_false_Forall, Forall_forall in Hc.
  specialize (Hc x ltac:(apply elem_of_rows; eauto)). unfold orders_clash in Hc.
  by rewrite (Hk _ _ E), String.eqb_refl in Hc.
Qed.

Lemma put_keyed D o : keyed_orders D -> keyed_orders (put_order_row o D).
Proof.
  intros Hk k x. rewrite orders_put. destruct (decide (k = o_id o)) as [->|N].
  - rewrite lookup_insert_eq. by intros [= <-].
  - rewrite lookup_insert_ne by done. apply Hk.
Qed.

Lemma emitted_put D o k x : clashes o D = false -> emitted (put_order_row o D) k x ->
  (k = o_id o /\ x = o /\ ~ raced o) \/ emitted D k x.
Proof.
  intros Hc (H1 & H2 & H3). rewrite orders_put in H1. destruct (decide (k = o_id o)) as [->|N].
  - rewrite lookup_insert_eq in H1. injection H1 as <-. by left.
  - rewrite lookup_insert_ne in H1 by done. by right.
Qed.

Lemma put_sound D o : sound D -> clashes o D = false ->
  (raced o \/ stop_sale D o /\ free_symbol (o_symbol o) /\
     forall k x, emitted D k x -> o_symbol x <> o_symbol o) ->
  sound (put_order_row o D).
Proof.
  intros [H1 H2 H3 H5 H4] Hc Ho. pose proof (put_kept D o H1 Hc) as Hn.
  assert (Hmono : forall x, stop_sale D x -> stop_sale (put_order_row o D) x)
    by (intros x; by apply stop_sale_mono).
  constructor.
  - by apply put_keyed.
  - intros k x Hk. rewrite orders_put, lookup_insert_ne; [by apply H2|].
    intros <-. specialize (H2 _ _ Hk). congruence.
  - intros k x Hx. apply emitted_put in Hx as [(-> & -> & Hr)|Hx]; [|by apply Hmono, (H3 k)|done].
    destruct Ho as [Ho|[Ho _]]; [done|]. by apply Hmono.
  - intros k x Hx. apply emitted_put in Hx as [(-> & -> & Hr)|Hx]; [|by apply (H5 k)|done].
    by destruct Ho as [Ho|(_ & Ho & _)].
  - intros k1 k2 x1 x2 E1 E2 Hs.
    apply emitted_put in E1 as [(-> & -> & R1)|E1], E2 as [(-> & -> & R2)|E2]; try done.
    + destruct Ho as [Ho|(_ & _ & Ho)]; [done|]. by destruct (Ho _ _ E2).
    + destruct Ho as [Ho|(_ & _ & Ho)]; [done|]. by destruct (Ho _ _ E1).
    + by eapply H4.
Qed.

Lemma concurrent_sound r D : sound D -> (forall o, o ∈ r -> raced o) ->
  sound (add_concurrent_orders r D).
Proof.
  intros Hs. unfold add_concurrent_orders. induction r as [|o r IH]; [done|]. intros Hr. cbn [foldr].
  assert (IH' := IH (fun x Hx => Hr x (list_elem_of_further _ _ _ Hx))).
  destruct (clashes o _) eqn:Hc; [exact IH'|]. apply put_sound; [exact IH'|exact Hc|].
  left. apply Hr, list_elem_of_here.
Qed.

Lemma concurrent_good x D : good D -> good (add_concurrent_orders (race x) D).
Proof.
  intros Hg. destruct (concurrent_same_tables (race x) D) as [Hs Ht].
  apply (good_tables D); try done.
  - unfold triggers_ok. rewrite Ht. apply Hg.
  - by rewrite Ht.
  - rewrite Ht. intros k Hk. eapply crossed_ext; [done|]. by apply Hg.
  - rewrite Ht. apply Hg.
  - apply concurrent_sound; [apply Hg|]. intros o Ho. by exists x.
Qed.

(** The other sessions' rows bring no stop order of ours. *)
Lemma concurrent_emitted x D k o : emitted (add_concurrent_orders (race x) D) k o -> emitted D k o.
Proof.
  assert (H : forall r, (forall y, y ∈ r -> raced y) -> emitted (add_concurrent_orders r D) k o -> emitted D k o).
  { unfold add_concurrent_orders. induction r as [|y r IH]; [done|]. intros Hr. cbn [foldr].
    assert (IH' := IH (fun z Hz => Hr z (list_elem_of_further _ _ _ Hz))).
    destruct (clashes y _) eqn:Hc; [exact IH'|]. intros He.
    apply emitted_put in He as [(_ & -> & Hn)|He]; [|by apply IH'|done].
    destruct Hn. apply Hr, list_elem_of_here. }
  apply H. intros y Hy. by exists x.
Qed.
(** ** Trigger rows *)

(** An update leaves the columns that say what the trigger watches. *)
Definition keeps_trigger (f : StopTrigger -> StopTrigger) : Prop :=
  forall t, st_id (f t) = st_id t /\ st_account_alias (f t) = st_account_alias t /\
    st_position_id (f t) = st_position_id t /\ st_symbol (f t) = st_symbol t /\
    st_position_version (f t) = st_position_version t /\
    st_risk_policy_version_id (f t) = st_risk_policy_version_id t /\
    st_trigger_price (f t) = st_trigger_price t /\ st_stop_price (f t) = st_stop_price t.

Lemma put_trigger_good D t : good D ->
  st_account_alias t = ACCOUNT_ALIAS ->
  (forall p, positions db !! st_position_id t = Some p -> st_symbol t = p_symbol p) ->
  (is_Some (stop_triggers db !! st_id t) \/
   should_trigger (st_trigger_price t) (st_stop_price t) = true) ->
  (forall x, stop_triggers D !! st_id t = Some x ->
     st_trigger_price t = st_trigger_price x /\ st_stop_price t = st_stop_price x) ->
  (forall t0, standing (st_id t) t0 -> carries t0 t) ->
  good (put_trigger t D).
Proof.
  intros Hg Ha Hs Hf Hold Hlive.
  assert (Hc : forall id, crossed D id -> crossed (put_trigger t D) id).
  { intros id (x & Hx & Hfx). unfold crossed. cbn. destruct (decide (id = st_id t)) as [->|N].
    - rewrite lookup_insert_eq. exists t. split; [done|]. exact Hf.
    - rewrite lookup_insert_ne by done. eauto. }
  apply (good_tables D); try done.
  - intros k x. cbn. destruct (decide (k = st_id t)) as [->|N].
    + rewrite lookup_insert_eq. by intros [= <-].
    + rewrite lookup_insert_ne by done. apply Hg.
  - intros k Hk. cbn. destruct (decide (k = st_id t)) as [->|N];
      [rewrite lookup_insert_eq; eauto|by rewrite lookup_insert_ne].
  - intros k [x Hx]. cbn in Hx. destruct (decide (k = st_id t)) as [->|N].
    + exists t. cbn. rewrite lookup_insert_eq. done.
    + rewrite lookup_insert_ne in Hx by done. apply Hc, Hg. eauto.
  - intros k t0 H0. cbn. destruct (decide (k = st_id t)) as [->|N].
    + rewrite lookup_insert_eq. eauto.
    + rewrite lookup_insert_ne by done. by apply Hg.
  - eapply (sound_mono D); [done|exact Hc|apply Hg].
Qed.

(** The update of the row does not end a standing signal. *)
Definition spares (id : string) (f : StopTrigger -> StopTrigger) : Prop :=
  forall t0 t, standing id t0 -> st_state t <> SUPERSEDED -> st_state (f t) <> SUPERSEDED.

Lemma touch_good D id f : keeps_trigger f -> spares id f -> good D -> good (change_trigger id f D).
Proof.
  intros Hf Hsp Hg. unfold change_trigger. destruct (stop_triggers D !! id) as [t|] eqn:E; [|done].
  destruct (Hf t) as (F1 & F2 & F3 & F4 & F7 & F8 & F5 & F6). destruct (gd_triggers D Hg id t E) as (T1 & T2 & T3).
  destruct (gd_fired D Hg id) as (x & Hx & Hcx); [by eexists|].
  rewrite E in Hx. injection Hx as <-.
  apply put_trigger_good; rewrite ?F1, ?F2, ?F3, ?F4, ?F5, ?F6, ?T1; try done.
  - intros y Hy. rewrite E in Hy. by injection Hy as <-.
  - intros t0 H0. destruct (gd_live D Hg id t0 H0) as (t' & Ht' & L1 & L2 & L3 & L4).
    rewrite E in Ht'. injection Ht' as <-. unfold carries. rewrite F3, F7, F8.
    split; [by eapply Hsp|done].
Qed.

Lemma change_trigger_orders id f D : orders (change_trigger id f D) = orders D.
Proof. unfold change_trigger. by destruct (stop_triggers D !! id). Qed.

(** The invariant, with the order rows of the session's database unchanged. *)
Definition still (s s' : Sess) : Prop := inv s' /\ orders (work s') = orders (work s).

Lemma wp_touch id f s Q : keeps_trigger f -> spares id f -> inv s ->
  (forall s', still s s' -> Q s' (inl tt)) -> wp (modify (change_trigger id f)) Q s.
Proof.
  intros Hf Hsp [H1 H2] HQ. apply wp_modify, HQ. split; [|apply change_trigger_orders].
  split; [by apply touch_good|exact H2].
Qed.

(** A step on the tables the invariant does not mention. *)
Lemma inv_modify f s : (forall D, good D -> good (f D)) -> inv s -> inv (with_work f s).
Proof. intros Hf [H1 H2]. split; [by apply Hf|exact H2]. Qed.

Lemma good_risk_event e D : good D -> good (put_risk_event e D).
Proof. by apply good_ext. Qed.
Lemma good_guard g D : good D -> good (put_guard g D).
Proof. by apply good_ext. Qed.

Lemma wp_resolve id resolution at_ s Q : inv s -> (forall s' r, still s s' -> Q s' (inl r)) ->
  wp (resolve_risk_event id resolution at_) Q s.
Proof.
  intros Hi HQ. unfold resolve_risk_event, now_or.
  repeat wp_step; apply HQ; (split; [|done]); try done; apply inv_modify; try done;
    intros D; apply good_risk_event.
Qed.

Lemma wp_resolve_of t resolution at_ s Q : inv s -> (forall s', still s s' -> Q s' (inl tt)) ->
  wp (resolve_event_of t resolution at_) Q s.
Proof.
  intros Hi HQ. unfold resolve_event_of. repeat wp_step; try by apply HQ.
  apply wp_resolve; [done|]. intros s' r Hs'. repeat wp_step. by apply HQ.
Qed.

Lemma wp_guard_row t rules snapshot version at_ s Q : inv s ->
  (forall s' g, still s s' -> Q s' (inl g)) ->
  wp (_persist_guard_evaluation t rules snapshot version at_) Q s.
Proof.
  intros Hi HQ. unfold _persist_guard_evaluation, persist_guard_evaluation. repeat wp_step.
  apply HQ. split; [|done]. apply inv_modify; [intros D; apply good_guard|]. by destruct Hi.
Qed.

Lemma wp_risk_event_row scope code severity account record corr symbol snapshot at_ s Q : inv s ->
  (forall s' e, inv s' -> Q s' (inl e)) ->
  wp (create_risk_event scope code severity account record corr symbol snapshot at_) Q s.
Proof.
  intros Hi HQ. unfold create_risk_event, now_or. destruct at_ as [t0|]; repeat wp_step;
    (apply HQ, inv_modify; [intros D; apply good_risk_event|by destruct Hi]).
Qed.

Lemma wp_supersede_stale position_id version at_ s Q : inv s ->
  (forall k t, stop_triggers (work s) !! k = Some t -> st_position_id t = position_id ->
     st_risk_policy_version_id t = version -> is_active_trigger t = true ->
     forall t0, ~ standing (st_id t) t0) ->
  (forall s' r, inv s' -> Q s' r) -> wp (_supersede_stale_triggers position_id version at_) Q s.
Proof.
  intros Hi Hstale HQ. unfold _supersede_stale_triggers, now_or.
  assert (Hrest : forall l at' s', inv s' -> (forall t t0, t ∈ l -> ~ standing (st_id t) t0) ->
    wp (for_each l (fun t => modify (change_trigger (st_id t) _supersede) ;;
                resolve_event_of t "SUPERSEDED" (Some at'))) Q s').
  { intros l at' s' Hs' Hl. eapply wp_mono; [apply (wp_for_each inv)|]; [|done|exact HQ].
    intros t s1 Hin Hs1. wp_step. apply wp_touch; [by repeat split| |done|].
    { intros t0 x H0. by destruct (Hl t t0 Hin). }
    intros s2 [Hs2 _].
    wp_step. apply wp_resolve_of; [done|]. by intros s3 [? _]. }
  destruct at_ as [t0|]; repeat (lazymatch goal with
    | |- wp (for_each _ _) _ _ => fail | _ => wp_step end); (apply Hrest; [done|]);
    intros tr u0 Hin; apply list_elem_of_In, List.filter_In in Hin as [Hin Hf];
    apply list_elem_of_In, elem_of_rows in Hin as [k Hk];
    apply andb_true_iff in Hf as [Hf Hact]; apply andb_true_iff in Hf as [Hpos Hver];
    apply String.eqb_eq in Hpos; apply bool_decide_eq_true in Hver; by eapply Hstale.
Qed.
(** ** The order of a trigger *)

Context (policy : RiskPolicyPayload).
Context (Hpolicy : risk_policy_payload (active_risk_policy db ACCOUNT_ALIAS) = inr policy).

(** What the passed guard says about the position and the market. *)
Definition guard_facts (p : Position) (snapshot : option MarketSnapshot) : Prop :=
  p_state p = POS_OPEN /\ 0 < p_managed_quantity p <= p_available_quantity p /\
  (exists g, gates db !! ACCOUNT_ALIAS = Some g /\ g_status g = GATE_READY) /\
  upper (environment settings) = "MOCK" /\
  In (classify_session holidays now None) TRADABLE_SESSIONS /\
  exists s, snapshot = Some s /\ ms_quality s = Q_NORMAL /\ ms_trading_status s = "TRADING" /\
    ms_received_at s <= now <= ms_received_at s + seconds (quote_stale_seconds policy).

Lemma stop_guard_passed D p t snapshot :
  good D -> st_account_alias t = ACCOUNT_ALIAS ->
  blocked_rules (_sell_guard_rules holidays D p t snapshot settings policy now) = [] ->
  guard_facts p snapshot /\ symbol_order_in BLOCKING_ORDER_STATES ACCOUNT_ALIAS (st_symbol t) D = false.
Proof.
  intros Hg Ha. unfold _sell_guard_rules. rewrite blocked_rules_nil. rewrite Ha, (gd_gates D Hg).
  rewrite !Forall_cons. cbn [rule rule_passed].
  intros (H1 & _ & H3 & H4 & H5 & _ & H7 & H8 & _ & H10 & H11 & _).
  apply andb_true_iff in H1 as [H1 _]. apply bool_decide_eq_true in H1, H10.
  apply Z.ltb_lt in H3. apply Z.leb_le in H4. apply negb_true_iff in H7. apply String.eqb_eq in H11.
  unfold _managed_quantity, _sell_quantity_available in *.
  unfold STOP_ACTIVE_SELL_STATES in H4. rewrite (nothing_reserved BLOCKING_ORDER_STATES) in H4 by exact H7.
  split; [|exact H7]. split; [done|]. split; [lia|].
  split; [destruct (gates db !! ACCOUNT_ALIAS) as [g|]; [apply bool_decide_eq_true in H5; eauto|done]|].
  split; [done|]. split; [by apply list_elem_of_In|].
  destruct snapshot as [sn|]; [|done].
  apply andb_true_iff in H8 as [H8 S4]. apply andb_true_iff in H8 as [H8 S3].
  apply andb_true_iff in H8 as [S1 S2]. apply bool_decide_eq_true in S1. apply String.eqb_eq in S2.
  apply Z.leb_le in S3, S4. exists sn. repeat (split; [done|]). lia.
Qed.
Lemma created_stop_order trigger p price stop_price corr id i g d at_ :
  let o := created_order sha256 (stop_request trigger p price stop_price corr) SELL LIMIT id i g d at_ in
  o_id o = id /\ o_account_alias o = ACCOUNT_ALIAS /\ o_symbol o = p_symbol p /\ o_market o = "KRX" /\
  o_side o = SELL /\ o_order_type o = LIMIT /\ o_limit_price o = Some price /\
  o_requested_quantity o = _managed_quantity p /\ o_status o = CREATED /\
  o_idempotency_key o = "fixed-stop:" +:+ st_id trigger.
Proof. done. Qed.

(** A symbol without active orders has no stop order of this run. *)
Lemma not_blocked_emitted D symbol : good D ->
  symbol_order_in BLOCKING_ORDER_STATES ACCOUNT_ALIAS symbol D = false ->
  forall k x, emitted D k x -> o_symbol x <> symbol.
Proof.
  intros Hg Hb k x Hx <-. destruct (so_sale D (gd_sound D Hg) k x Hx)
    as (p & sn & price & pol & tid & Hs).
  destruct Hs as (_&_&_&_&_&_&_&_&_&_&_&_&_&_& Ha &_&_&_&_&_&_& Hst &_).
  unfold symbol_order_in in Hb. rewrite existsb_false_Forall, Forall_forall in Hb.
  destruct Hx as [Hx _]. specialize (Hb x ltac:(apply elem_of_rows; eauto)).
  rewrite Ha, Hst, !String.eqb_refl in Hb. done.
Qed.

Lemma not_blocked_free D symbol : good D ->
  symbol_order_in BLOCKING_ORDER_STATES ACCOUNT_ALIAS symbol D = false -> free_symbol symbol.
Proof.
  intros Hg Hb k x Hx Ha <-. unfold symbol_order_in in Hb.
  rewrite existsb_false_Forall, Forall_forall in Hb. apply (so_kept D (gd_sound D Hg)) in Hx.
  specialize (Hb x ltac:(apply elem_of_rows; eauto)). by rewrite Ha, !String.eqb_refl in Hb.
Qed.

Lemma emit_run trigger p snapshot stop_price corr x s :
  inv s -> positions db !! p_id p = Some p -> is_Some (stop_triggers (work s) !! st_id trigger) ->
  snapshot = _latest_krx_snapshot db (p_symbol p) ->
  _should_auto_sell settings snapshot = true -> guard_facts p snapshot ->
  symbol_order_in BLOCKING_ORDER_STATES ACCOUNT_ALIAS (p_symbol p) (work s) = false ->
  wp (_emit_fixed_stop_order sha256 trigger p snapshot stop_price corr now (race x))
    (fun s' _ => inv s') s.
Proof.
  intros Hi Hp Ht Hsnap Hauto Hfacts Hblock. unfold _emit_fixed_stop_order.
  pose proof (proj1 (andb_prop _ _ Hauto)) as Hstage.
  assert (Htouch : forall code s1, inv s1 ->
    wp (modify (change_trigger (st_id trigger) (set_outcome EXIT_PENDING code))) (fun s' _ => inv s') s1).
  { intros code s1 H1. apply wp_touch; [by repeat split|by intros ? ?|done|]. by intros s2 [? _]. }
  destruct (s0 ← snapshot; ms_best_bid_price s0) as [price|] eqn:Hprice; [|by apply Htouch].
  destruct (dleb price dzero) eqn:Hpos; [by apply Htouch|].
  wp_step. wp_step. wp_step. destruct Hi as [Hw Hd].
  assert (Hr : good (raced_rows (race x) s)) by (by apply concurrent_good).
  eapply wp_mono; [apply create_order_run|]. intros s1 r H.
  assert (H1 : inv s1 /\ match r with inl _ => True | inr e => exists c st, e = OrderCreationError c st end).
  { destruct r as [o|e].
    - split; [|done].
      destruct H as [o _ _ ->|side ty oid i g at_ _ _ Hside Hty o0 _ Hcl Hor Hk Hdk|o _ _ _ Hw1 Hd1].
      + by split.
      + injection Hside as <-. injection Hty as <-. unfold o0 in *. clear o0.
        set (o := created_order _ _ _ _ _ _ _ _ _) in *.
        destruct (created_stop_order trigger p price stop_price corr oid i g (kst_date at_) (clock s))
          as (O1 & O2 & O3 & O4 & O5 & O6 & O7 & O8 & O9 & O10). fold o in O1, O2, O3, O4, O5, O6, O7, O8, O9, O10.
        destruct (concurrent_same_tables (race x) (work s)) as [Cs Ct].
        assert (Hg1 : good (put_order_row o (add_concurrent_orders (race x) (work s)))).
        { assert (Hc : good (add_concurrent_orders (race x) (work s))) by (by apply concurrent_good).
          apply (good_tables (add_concurrent_orders (race x) (work s))); try done; try apply Hc.
          apply put_sound; [apply Hc|exact Hcl|]. right. split.
          - destruct snapshot as [sn|]; [|done]. cbn in Hprice.
            destruct Hfacts as (F1 & F2 & F3 & F4 & F5 & sn' & [= <-] & F6 & F7 & F8).
            exists p, sn, price, policy, (st_id trigger). repeat (split; [done|]).
            split; [unfold _managed_quantity in O8; rewrite O8; lia|]. repeat (split; [done|]).
            destruct (gd_fired (work s) Hw (st_id trigger) Ht) as (t & T1 & T2). exists t.
            split; [|exact T2]. cbn. by rewrite Ct.
          - split; [rewrite O3; by apply (not_blocked_free (work s))|].
            intros k y Hy. rewrite O3. eapply not_blocked_emitted; [exact Hw|exact Hblock|].
            by eapply concurrent_emitted. }
        split; [|rewrite Hdk; exact Hr].
        destruct Hk as (K1 & K2 & K3 & _ & _ & _ & K7 & K8 & K9 & K10).
        apply (good_ext (put_order_row o (add_concurrent_orders (race x) (work s)))); [| | |exact Hg1].
        * destruct Cs as (C1 & C2 & C3 & C4 & C5). unfold same_tables. cbn. by rewrite C1, C2, C3, C4, C5.
        * rewrite orders_put, O1. exact Hor.
        * cbn. by rewrite Ct.
      + split; [rewrite Hw1|rewrite Hd1]; exact Hr.
    - destruct H as [He [->|[Hw1 Hd1]]]; (split; [|exact He]); [by split|].
      split; [rewrite Hw1|rewrite Hd1]; exact Hr. }
  clear H. destruct H1 as [H1 He]. destruct r as [o|e].
  - repeat wp_step. unfold reloaded. repeat wp_step.
    apply wp_resolve_of; [|by intros s3 [? _]].
    apply inv_modify; [|done]. intros D. by apply touch_good.
  - destruct He as (c & st & ->). repeat wp_step. by apply Htouch.
Qed.
Lemma stop_passed_run trigger p snapshot stop_price corr x s :
  inv s -> positions db !! p_id p = Some p -> is_Some (stop_triggers (work s) !! st_id trigger) ->
  snapshot = _latest_krx_snapshot db (p_symbol p) -> guard_facts p snapshot ->
  symbol_order_in BLOCKING_ORDER_STATES ACCOUNT_ALIAS (p_symbol p) (work s) = false ->
  wp (stop_passed sha256 trigger p snapshot settings stop_price corr now (race x))
    (fun s' _ => inv s') s.
Proof.
  intros Hi Hp Ht Hsnap Hf Hb. unfold stop_passed.
  destruct (_should_auto_sell settings snapshot) eqn:Ha; [by apply emit_run|].
  apply wp_touch; [by repeat split|by intros ? ?|done|]. by intros s1 [? _].
Qed.

Lemma still_blocking s s' symbol : still s s' ->
  symbol_order_in BLOCKING_ORDER_STATES ACCOUNT_ALIAS symbol (work s') =
  symbol_order_in BLOCKING_ORDER_STATES ACCOUNT_ALIAS symbol (work s).
Proof. intros [_ E]. unfold symbol_order_in. by rewrite E. Qed.

Lemma still_trans s1 s2 s3 : still s1 s2 -> still s2 s3 -> still s1 s3.
Proof. intros [_ E1] [H E2]. split; [done|congruence]. Qed.

Lemma change_trigger_has id f D k : (forall t, st_id (f t) = st_id t) -> triggers_ok D ->
  is_Some (stop_triggers D !! k) -> is_Some (stop_triggers (change_trigger id f D) !! k).
Proof.
  intros Hf Hok H. unfold change_trigger. destruct (stop_triggers D !! id) as [t|] eqn:E; [|done].
  cbn. rewrite Hf. destruct (Hok _ _ E) as [<- _].
  destruct (decide (k = st_id t)) as [->|N]; [rewrite lookup_insert_eq; eauto|].
  by rewrite lookup_insert_ne.
Qed.

Lemma re_evaluate_run trigger p snapshot version stop_price x s :
  inv s -> positions db !! p_id p = Some p -> st_account_alias trigger = ACCOUNT_ALIAS ->
  st_symbol trigger = p_symbol p -> is_Some (stop_triggers (work s) !! st_id trigger) ->
  snapshot = _latest_krx_snapshot db (p_symbol p) ->
  (forall t0, standing (st_id trigger) t0 -> p_state p = POS_OPEN /\ 0 < p_quantity p) ->
  wp (_re_evaluate_trigger sha256 holidays trigger p snapshot settings policy version stop_price now
        (race x)) (fun s' _ => inv s') s.
Proof.
  intros Hi Hp Ha Hsym Ht Hsnap Hopen. unfold _re_evaluate_trigger.
  destruct (negb _ || _) eqn:Hclosed.
  { wp_step. apply wp_touch; [by repeat split| |done|].
    { intros t0 y H0. destruct (Hopen t0 H0) as [O1 O2]. rewrite bool_decide_eq_true_2 in Hclosed by done.
      apply Z.leb_le in Hclosed. lia. }
    intros s1 [H1 _]. wp_step.
    apply wp_resolve_of; [done|]. by intros s2 [? _]. }
  wp_step. wp_step. wp_step. wp_step.
  set (rules := _sell_guard_rules _ _ _ _ _ _ _ _).
  assert (Hpass : blocked_rules rules = [] -> guard_facts p snapshot /\
    symbol_order_in BLOCKING_ORDER_STATES ACCOUNT_ALIAS (p_symbol p) (work s) = false).
  { intros Hb. rewrite <- Hsym. destruct Hi as [Hw _]. by eapply stop_guard_passed. }
  unfold _persist_guard_evaluation, persist_guard_evaluation. wp_step. wp_step. wp_step. wp_step.
  set (row := mkGuardEvaluation _ _ _ _ _ _ _ _ _ _ _ _ _ _).
  apply wp_modify. wp_step. wp_step. wp_step. wp_step.
  set (s1 := with_work (put_guard row) (next_uuid s)).
  assert (H1 : still s s1).
  { split; [|done]. apply (inv_modify (put_guard row) (next_uuid s)); [intros D; apply good_guard|].
    by destruct Hi. }
  set (f := fun t : StopTrigger => set_st_guard_evaluation_id t _).
  apply wp_modify. wp_step. set (s2 := with_work _ s1).
  assert (H2 : still s s2).
  { eapply still_trans; [exact H1|]. split; [|apply change_trigger_orders].
    apply inv_modify; [|apply H1]. intros D HD. apply touch_good; [by repeat split|by intros ? ?|done]. }
  assert (Ht2 : is_Some (stop_triggers (work s2) !! st_id trigger)).
  { apply change_trigger_has; [done| |exact Ht]. apply gd_triggers, H1. }
  destruct (blocked_rules rules) as [|r rs] eqn:Hb.
  - destruct (Hpass eq_refl) as [Hf Hblk]. wp_step.
    assert (Hrest : forall s3, still s2 s3 -> stop_triggers (work s3) = stop_triggers (work s2) ->
      wp (stop_passed sha256 trigger p snapshot settings stop_price (st_correlation_id trigger) now
            (race x)) (fun s' _ => inv s') s3).
    { intros s3 H3 E3. apply stop_passed_run; try done; [apply H3|by rewrite E3|].
      rewrite (still_blocking s s3); [done|]. by eapply still_trans. }
    assert (H22 : still s2 s2) by (split; [apply H2|done]).
    unfold resolve_event_of, resolve_risk_event, now_or.
    repeat (lazymatch goal with |- wp (stop_passed _ _ _ _ _ _ _ _ _) _ _ => fail | _ => wp_step end);
      apply Hrest; try done; (split; [|done]);
      apply inv_modify; [intros D; apply good_risk_event|apply H2].
  - wp_step.
    assert (Hend : forall s3, inv s3 -> wp (modify (change_trigger (st_id trigger)
      (set_outcome EXIT_PENDING (Some (rule_code r))))) (fun s' _ => inv s') s3).
    { intros s3 H3. apply wp_touch; [by repeat split|by intros ? ?|done|]. by intros s4 [? _]. }
    destruct (st_risk_event_id trigger); repeat wp_step; [by apply Hend, H2|].
    apply wp_risk_event_row; [apply H2|]. intros s3 e H3. wp_step.
    apply wp_touch; [by repeat split|by intros ? ?|done|]. intros s4 [H4 _]. wp_step. by apply Hend.
Qed.
Lemma fire_run p snapshot version stop_price corr x s :
  inv s -> positions db !! p_id p = Some p -> snapshot = _latest_krx_snapshot db (p_symbol p) ->
  should_trigger (s0 ← snapshot; ms_best_bid_price s0) stop_price = true ->
  wp (fire_trigger sha256 holidays p snapshot settings policy version stop_price now corr (race x))
    (fun s' _ => inv s') s.
Proof.
  intros Hi Hp Hsnap Hfire. unfold fire_trigger. wp_step. wp_step. wp_step.
  set (t := mkStopTrigger _ _ _ _ _ _ _ _ _ _ _ _ _ _ _). wp_step.
  assert (Hn : inv (next_uuid s)) by (by destruct Hi).
  apply wp_flush_checked; intros Hc; [exact Hn|]. wp_step.
  set (s0 := with_work _ _).
  assert (Hfresh : stop_triggers (work s) !! st_id t = None).
  { apply orb_false_iff in Hc as [Hc _]. by apply bool_decide_eq_false, eq_None_not_Some in Hc. }
  assert (H0 : inv s0).
  { split; [|apply Hi]. apply put_trigger_good; try done; [apply Hi| |by right| |].
    - intros p' Hp'. cbn in Hp'. rewrite Hp in Hp'. by injection Hp' as <-.
    - intros y Hy. change (stop_triggers (work s) !! st_id t = Some y) in Hy. by rewrite Hfresh in Hy.
    - intros t0 H0. destruct (gd_live _ (proj1 Hi) _ _ H0) as (t' & Ht' & _). congruence. }
  assert (Ht0 : is_Some (stop_triggers (work s0) !! st_id t)).
  { eexists. cbn. apply lookup_insert_eq. }
  wp_step. wp_step. wp_step.
  set (rules := _sell_guard_rules _ _ _ _ _ _ _ _).
  assert (Hpass : blocked_rules rules = [] -> guard_facts p snapshot /\
    symbol_order_in BLOCKING_ORDER_STATES ACCOUNT_ALIAS (p_symbol p) (work s0) = false).
  { intros Hb. change (p_symbol p) with (st_symbol t) at 1. destruct H0 as [Hw _].
    by eapply stop_guard_passed. }
  wp_step. unfold _persist_guard_evaluation, persist_guard_evaluation. wp_step. wp_step. wp_step. wp_step.
  set (row := mkGuardEvaluation _ _ _ _ _ _ _ _ _ _ _ _ _ _).
  apply wp_modify. wp_step. wp_step. wp_step. wp_step.
  set (s1 := with_work (put_guard row) (next_uuid s0)).
  assert (H1 : still s0 s1).
  { split; [|done]. apply (inv_modify (put_guard row) (next_uuid s0)); [intros D; apply good_guard|].
    by destruct H0. }
  set (f := fun t : StopTrigger => set_st_guard_evaluation_id t _).
  apply wp_modify. wp_step. set (s2 := with_work _ s1).
  assert (H2 : still s0 s2).
  { eapply still_trans; [exact H1|]. split; [|apply change_trigger_orders].
    apply inv_modify; [|apply H1]. intros D HD. apply touch_good; [by repeat split|by intros ? ?|done]. }
  assert (Ht2 : is_Some (stop_triggers (work s2) !! st_id t)).
  { apply change_trigger_has; [done| |exact Ht0]. apply gd_triggers, H1. }
  destruct (blocked_rules rules) as [|r rs] eqn:Hb.
  - destruct (Hpass eq_refl) as [Hf Hblk]. apply stop_passed_run; try done; [apply H2|].
    by rewrite (still_blocking s0 s2).
  - wp_step. apply wp_risk_event_row; [apply H2|]. intros s3 e H3. wp_step.
    apply wp_touch; [by repeat split|by intros ? ?|done|]. by intros s4 [H4 _].
Qed.

Lemma latest_good D symbol : good D -> _latest_krx_snapshot D symbol = _latest_krx_snapshot db symbol.
Proof. intros H. unfold _latest_krx_snapshot. by rewrite (gd_streams D H), (gd_snapshots D H). Qed.

Lemma policy_good D : good D -> active_risk_policy D ACCOUNT_ALIAS = active_risk_policy db ACCOUNT_ALIAS.
Proof. intros H. unfold active_risk_policy, active_version. by rewrite (gd_configurations D H). Qed.

Lemma evaluate_run p corr x s :
  inv s -> positions db !! p_id p = Some p ->
  wp (_evaluate_position sha256 holidays p settings now corr (race x)) (fun s' _ => inv s') s.
Proof.
  intros Hi Hp. unfold _evaluate_position. wp_step. wp_step. wp_step. wp_step.
  rewrite policy_good by apply Hi. rewrite Hpolicy. cbn [of_result]. wp_step. wp_step. wp_step. wp_step.
  wp_step. rewrite latest_good by apply Hi. wp_step.
  apply wp_of_result; [intros price Hprice|by intros e _].
  wp_step. wp_step. wp_step. wp_step.
  destruct (_existing_active_trigger _ _ _ _) as [t|] eqn:Et.
  - unfold _existing_active_trigger in Et. apply find_row_Some in Et as [Et [k Hk]].
    repeat (apply andb_true_iff in Et as [Et ?]). apply String.eqb_eq in Et.
    destruct (gd_triggers _ (proj1 Hi) _ _ Hk) as (T1 & T2 & T3).
    apply re_evaluate_run; try done; [|rewrite T1; eauto|].
    + apply T3. by rewrite Et.
    + intros t0 S0. rewrite T1 in S0. destruct (gd_live _ (proj1 Hi) _ _ S0) as (t' & Ht' & _ & L2 & _).
      destruct S0 as (_ & _ & _ & p0 & P1 & P2 & P3 & _).
      assert (t' = t) as -> by congruence. rewrite <- L2, Et, Hp in P1. by injection P1 as <-.
  - wp_step. apply wp_supersede_stale; [done|..].
    { intros k t Hk Hpos Hver Hact t0 H0.
      destruct (gd_triggers _ (proj1 Hi) _ _ Hk) as (T1 & _). rewrite T1 in H0.
      destruct (gd_live _ (proj1 Hi) _ _ H0) as (t' & Ht' & _ & L2 & L3 & _).
      destruct H0 as (_ & _ & _ & p0 & P1 & _ & _ & P4).
      assert (t' = t) as -> by congruence. rewrite <- L2, Hpos, Hp in P1. injection P1 as <-.
      pose proof (find_row_None _ _ _ _ Et Hk) as F. cbn beta in F.
      rewrite Hpos, L3, <- P4, String.eqb_refl, Z.eqb_refl, Hact, bool_decide_eq_true_2 in F by done.
      discriminate F. }
    intros s1 [u|e] H1; wp_step; [|done].
    destruct (should_trigger _ _) eqn:Hs; [|by wp_step]. by apply fire_run.
Qed.

Lemma recover_run t version x s :
  inv s -> st_account_alias t = ACCOUNT_ALIAS ->
  is_Some (stop_triggers (work s) !! st_id t) ->
  (forall k p, positions db !! k = Some p -> p_id p = k) ->
  (forall p, positions db !! st_position_id t = Some p -> st_symbol t = p_symbol p) ->
  (forall t0, standing (st_id t) t0 -> t0 = t) ->
  wp (recover_one sha256 holidays t settings policy version now (race x)) (fun s' _ => inv s') s.
Proof.
  intros Hi Ha Ht Hkeys Hsym Hst. unfold recover_one. wp_step. wp_step. wp_step.
  assert (Hclosed : (forall t0, ~ standing (st_id t) t0) -> wp (modify (change_trigger (st_id t) _supersede) ;;
    resolve_event_of t "POSITION_CLOSED" (Some now)) (fun s' _ => inv s') s).
  { intros Hns. wp_step. apply wp_touch; [by repeat split| |done|].
    { intros t0 y H0. by destruct (Hns t0). }
    intros s1 [H1 _]. wp_step. apply wp_resolve_of; [done|]. by intros s2 [? _]. }
  rewrite (gd_positions _ (proj1 Hi)).
  destruct (positions db !! st_position_id t) as [p|] eqn:Hp.
  2: { apply Hclosed. intros t0 H0. rewrite (Hst _ H0) in H0.
       destruct H0 as (_ & _ & _ & p0 & P1 & _). congruence. }
  assert (Hopen : forall t0, standing (st_id t) t0 -> p_state p = POS_OPEN /\ 0 < p_quantity p).
  { intros t0 H0. rewrite (Hst _ H0) in H0. destruct H0 as (_ & _ & _ & p0 & P1 & P2 & P3 & _).
    rewrite Hp in P1. by injection P1 as <-. }
  destruct (negb _ || _) eqn:E.
  { apply Hclosed. intros t0 H0. destruct (Hopen t0 H0) as [O1 O2].
    rewrite bool_decide_eq_true_2 in E by done. apply Z.leb_le in E. lia. }
  wp_step. wp_step. wp_step. wp_step. rewrite latest_good by apply Hi.
  apply wp_of_result; [intros price Hprice|by intros e _]. wp_step.
  pose proof (Hsym p eq_refl) as Es.
  apply re_evaluate_run; try done.
  - rewrite (Hkeys _ _ Hp). exact Hp.
  - by rewrite Es.
Qed.
End StopProps.

Section Runs.
Context (sha256 : string -> string) (holidays : Z -> option (list Z)).
Context (settings : Settings) (race : string -> list TradingOrder) (db : DB).

(** Rows carry their keys, and a trigger the symbol of its position. *)
Record stop_tables_ok : Prop := {
  st_orders_keyed : keyed_orders db;
  st_positions_keyed : forall k p, positions db !! k = Some p -> p_id p = k;
  st_triggers_ok : triggers_ok db db
}.

Context (Hok : stop_tables_ok).

Lemma start_good now : good holidays settings now race db db.
Proof.
  constructor; try done; [apply Hok|..].
  - intros k [t Ht]. exists t. eauto.
  - intros k t H. pose proof H as (H1 & H2 & _). exists t. split; [done|]. split; [|done].
    unfold is_active_trigger in H2. intros E. rewrite E in H2. discriminate H2.
  - constructor; [apply Hok|done|..].
    + intros k o (H1 & H2 & _). congruence.
    + intros k o (H1 & H2 & _). congruence.
    + intros k1 k2 o1 o2 (H1 & H2 & _). congruence.
Qed.

Lemma start_inv now t ids : inv holidays settings now race db (open_session db t ids).
Proof. split; apply start_good. Qed.

(** Without a readable policy the evaluation raises at once. *)
Lemma evaluate_any now p corr x s :
  inv holidays settings now race db s -> positions db !! p_id p = Some p ->
  wp (_evaluate_position sha256 holidays p settings now corr (race x))
    (fun s' _ => inv holidays settings now race db s') s.
Proof.
  intros Hi Hp. destruct (risk_policy_payload (active_risk_policy db ACCOUNT_ALIAS)) as [e|policy] eqn:E.
  - unfold _evaluate_position. wp_step. wp_step. wp_step. wp_step.
    erewrite policy_good by apply Hi. rewrite E. by cbn.
  - by eapply evaluate_run.
Qed.

Lemma committed_good now s : inv holidays settings now race db s ->
  good holidays settings now race db (disk (committed s)).
Proof. by intros [H _]. Qed.

Lemma run_good now corr t ids :
  wp (run_fixed_stop_triggers sha256 holidays settings now corr ACCOUNT_ALIAS race)
    (fun s _ => good holidays settings (default t now) race db (disk s)) (open_session db t ids).
Proof.
  pose proof (start_inv (default t now) t ids) as Hs. pose proof (start_good (default t now)) as Hg.
  unfold run_fixed_stop_triggers. wp_step. wp_step. wp_step. cbn [work open_session].
  set (l := List.filter _ _). destruct (bool_decide (l = [])); [by wp_step|].
  assert (Hnow : forall Q, Q (open_session db t ids) (inl (default t now)) ->
    wp (now_or now) Q (open_session db t ids)) by (intros Q HQ; by destruct now).
  wp_step. apply Hnow. wp_step. wp_step.
  eapply wp_mono; [apply (wp_for_each (inv holidays settings (default t now) race db)); [|exact Hs]|].
  - intros p s Hin H. apply list_elem_of_In, List.filter_In in Hin as [Hin _].
    apply list_elem_of_In, elem_of_rows in Hin as [k Hk]. apply evaluate_any; [done|].
    by rewrite (st_positions_keyed Hok _ _ Hk).
  - intros s [u|e] H; wp_step; [|by destruct H]. repeat wp_step. apply (committed_good _ _ H).
Qed.

Lemma recover_good now t ids :
  wp (recover_exit_pending sha256 holidays settings now ACCOUNT_ALIAS race)
    (fun s _ => good holidays settings (default t now) race db (disk s)) (open_session db t ids).
Proof.
  pose proof (start_inv (default t now) t ids) as Hs. pose proof (start_good (default t now)) as Hg.
  unfold recover_exit_pending. wp_step. wp_step. wp_step. cbn [work open_session].
  destruct (negb _); [by wp_step|]. wp_step. wp_step. wp_step. cbn [work open_session].
  set (l := List.filter _ _). destruct (bool_decide (l = [])); [by wp_step|].
  assert (Hnow : forall Q, Q (open_session db t ids) (inl (default t now)) ->
    wp (now_or now) Q (open_session db t ids)) by (intros Q HQ; by destruct now).
  wp_step. apply Hnow. wp_step. wp_step. wp_step. wp_step. wp_step. cbn [work open_session].
  apply wp_of_result; [intros policy Hp|intros e _; exact Hg]. wp_step. wp_step.
  eapply wp_mono; [apply (wp_for_each (inv holidays settings (default t now) race db)); [|exact Hs]|].
  - intros tr s Hin H. apply list_elem_of_In, List.filter_In in Hin as [Hin _].
    apply list_elem_of_In, elem_of_rows in Hin as [k Hk].
    destruct (st_triggers_ok Hok _ _ Hk) as (T1 & T2 & T3).
    eapply recover_run; try done; [|apply Hok|].
    + rewrite T1. destruct H as [H _]. eapply gd_old; [exact H|]. by eexists.
    + rewrite T1. intros t0 (H0 & _). congruence.
  - intros s [u|e] H; wp_step; [|by destruct H]. repeat wp_step. apply (committed_good _ _ H).
Qed.

(** C15: a stop order is a guarded sale.  Whatever the other sessions do
    meanwhile, a run of the triggers or of their recovery leaves every order as
    it was and adds at most one order for a symbol: a LIMIT sale, at the current
    bid, of exactly the managed shares of one open position whose stop was
    crossed, with the broker ready, the quote fresh, the session tradable, no
    other active order of the symbol, and a stage that enables orders.  In the
    SHADOW stage no order is added. *)
Theorem stop_orders_are_guarded now corr t ids :
  wp (run_fixed_stop_triggers sha256 holidays settings now corr ACCOUNT_ALIAS race)
    (fun s _ => sound holidays settings (default t now) race db (disk s)) (open_session db t ids) /\
  wp (recover_exit_pending sha256 holidays settings now ACCOUNT_ALIAS race)
    (fun s _ => sound holidays settings (default t now) race db (disk s)) (open_session db t ids).
Proof.
  split; (eapply wp_mono; [apply run_good || apply recover_good|]); intros s r H; apply H.
Qed.

(** A stop signal is not erased.  While its position is open at the same
    version and the policy is the same, an active trigger survives every run and
    recovery, through missing quotes, an unready broker and failed orders: its
    row stays, and is never superseded. *)
Theorem stop_signal_persists now corr t ids k trigger :
  standing db k trigger ->
  wp (run_fixed_stop_triggers sha256 holidays settings now corr ACCOUNT_ALIAS race)
    (fun s _ => exists t', stop_triggers (disk s) !! k = Some t' /\ carries trigger t')
    (open_session db t ids) /\
  wp (recover_exit_pending sha256 holidays settings now ACCOUNT_ALIAS race)
    (fun s _ => exists t', stop_triggers (disk s) !! k = Some t' /\ carries trigger t')
    (open_session db t ids).
Proof.
  intros Hst.
  split; (eapply wp_mono; [apply run_good || apply recover_good|]); intros s r H; by apply (gd_live _ _ _ _ _ _ H).
Qed.
End Runs.

(** ** What the triggers do not see *)

(** The triggers ask for the policy of a user whose identifier is the account's
    alias.  Versions belong to users, so the safe default always applies. *)
Lemma users_stop_policy_ignored db :
  (forall k v, configurations db !! k = Some v -> cv_target_id v <> ACCOUNT_ALIAS) ->
  active_risk_policy db ACCOUNT_ALIAS = None /\
  risk_policy_payload (active_risk_policy db ACCOUNT_ALIAS) = inr SAFE_DEFAULT_RISK.
Proof.
  intros H. destruct (active_risk_policy db ACCOUNT_ALIAS) as [v|] eqn:E; [|done].
  apply active_version_Some in E as (_ & Ht & k & Hk). apply andb_true_iff in Ht as [Ht _].
  apply andb_true_iff in Ht as [_ Ht]. apply String.eqb_eq in Ht. by destruct (H k v Hk).
Qed.

Lemma change_trigger_risk_events id f db :
  risk_events (change_trigger id f db) = risk_events db.
Proof. unfold change_trigger. by destruct (stop_triggers db !! id). Qed.

(** A trigger blocked again after its risk event was resolved stays without any
    new risk event. *)
Lemma resolved_event_not_renewed sha256 holidays t p snapshot settings policy version price now race s id r rs :
  p_state p = POS_OPEN -> 0 < p_quantity p -> st_risk_event_id t = Some id ->
  blocked_rules (_sell_guard_rules holidays (work s) p t snapshot settings policy now) = r :: rs ->
  wp (_re_evaluate_trigger sha256 holidays t p snapshot settings policy version price now race)
    (fun s' _ => risk_events (work s') = risk_events (work s)) s.
Proof.
  intros Ho Hq He Hb. unfold _re_evaluate_trigger. rewrite bool_decide_eq_true_2 by done.
  destruct (Z.leb_spec (p_quantity p) 0); [lia|]. cbn [negb orb]. wp_step. wp_step.
  unfold _persist_guard_evaluation, persist_guard_evaluation. rewrite He. repeat wp_step.
  all: try discriminate.
  all: cbn [work with_work]; by rewrite !change_trigger_risk_events.
Qed.

(** ** Witnesses *)

(** Ten managed shares bought at 74,000: the stop of 2% is at 72,520, and the
    bid is 71,100. *)
Definition losing_position : Position :=
  mkPosition "pos" ACCOUNT_ALIAS "005930" 12 12 10 (Dec 730000000 (-4)) (Dec 740000000 (-4))
    POS_OPEN MIXED 3.

Definition stop_db : DB := day_db MODE_AUTOMATIC {[ "pos" := losing_position ]}.

Definition pending_trigger : StopTrigger :=
  mkStopTrigger "tr" ACCOUNT_ALIAS "pos" 3 "005930" "KRX" None (Dec 725200000 (-4))
    (Some (Dec 711000000 (-4))) (Some "snap") EXIT_PENDING (Some "BROKER_READY") None None "corr".

(** The same with a broker that is not ready and a trigger that waits for it. *)
Definition waiting_db : DB :=
  set_gates (put_trigger pending_trigger stop_db)
    {[ ACCOUNT_ALIAS := mkTradingGate ACCOUNT_ALIAS "MOCK" GATE_DEGRADED None 1 ]}.

Lemma stop_tables db : orders db = ∅ -> positions db = {[ "pos" := losing_position ]} ->
  (stop_triggers db = ∅ \/ stop_triggers db = {[ "tr" := pending_trigger ]}) -> stop_tables_ok db.
Proof.
  intros Ho Hp Ht. split.
  - intros k o. by rewrite Ho.
  - intros k p. rewrite Hp. by intros [<- <-]%lookup_singleton_Some.
  - intros k t H. destruct Ht as [E|E]; rewrite E in H; [by rewrite lookup_empty in H|].
    apply lookup_singleton_Some in H as [<- <-]. split; [done|]. split; [done|].
    intros p. rewrite Hp. cbn. by intros [= <-].
Qed.

Lemma stop_orders_are_guarded_witness :
  let s := (run_fixed_stop_triggers day_hash no_holidays (day_settings STAGE_MOCK_AUTOMATIC)
    (Some day_now) None ACCOUNT_ALIAS (fun _ => []) (open_session stop_db day_now day_ids)).1 in
  exists k o, orders (disk s) !! k = Some o /\ o_requested_quantity o = 10 /\
    stop_sale no_holidays (day_settings STAGE_MOCK_AUTOMATIC) day_now stop_db (disk s) o.
Proof.
  cbn zeta.
  destruct (stop_orders_are_guarded day_hash no_holidays (day_settings STAGE_MOCK_AUTOMATIC)
    (fun _ => []) stop_db (stop_tables stop_db eq_refl eq_refl (or_introl eq_refl))
    (Some day_now) None day_now day_ids) as [H _].
  unfold wp in H.
  assert (E : match orders (disk (run_fixed_stop_triggers day_hash no_holidays
    (day_settings STAGE_MOCK_AUTOMATIC) (Some day_now) None ACCOUNT_ALIAS (fun _ => [])
    (open_session stop_db day_now day_ids)).1) !! "id4" with
    | Some o => o_requested_quantity o = 10 | None => False end) by (vm_compute; reflexivity).
  destruct (run_fixed_stop_triggers _ _ _ _ _ _ _ _) as [s r]. cbn [fst] in *.
  destruct (orders (disk s) !! "id4") as [o|] eqn:Eo; [|destruct E].
  exists "id4", o. split; [exact Eo|]. split; [exact E|]. apply (so_sale _ _ _ _ _ _ H "id4").
  split; [exact Eo|]. split; [apply lookup_empty|].
  intros [x Hx]. by apply elem_of_nil in Hx.
Defined.

Lemma stop_signal_persists_witness :
  let s := (run_fixed_stop_triggers day_hash no_holidays (day_settings STAGE_MOCK_AUTOMATIC)
    (Some day_now) None ACCOUNT_ALIAS (fun _ => []) (open_session waiting_db day_now day_ids)).1 in
  exists t, stop_triggers (disk s) !! "tr" = Some t /\ st_state t <> SUPERSEDED.
Proof.
  cbn zeta.
  destruct (stop_signal_persists day_hash no_holidays (day_settings STAGE_MOCK_AUTOMATIC)
    (fun _ => []) waiting_db (stop_tables waiting_db eq_refl eq_refl (or_intror eq_refl))
    (Some day_now) None day_now day_ids "tr" pending_trigger) as [H _].
  - split; [reflexivity|]. split; [reflexivity|]. split; [vm_compute; reflexivity|].
    exists losing_position. repeat split.
  - unfold wp in H. destruct (run_fixed_stop_triggers _ _ _ _ _ _ _ _) as [s r]. cbn [fst].
    destruct H as (t & Ht & Hc & _). exists t. split; [exact Ht|exact Hc].
Defined.
