(* ===== verification/AccountProjection.v ===== *)
(** * Projection of the broker's account

    [account_projection.py]: the orders, fills and positions of a broker
    snapshot are written over the local ledger.  The production session does
    not flush before a query ([autoflush=False]), so the rows the projection
    changed or added stay in the session, invisible to its own queries, until
    a flush writes them; [Unit] is that unit of work. *)

From Stdlib Require Import ZArith Lia.
From stdpp Require Import base numbers strings list gmap.
From S2P Require Import Prelude Decimal Json PyTime Models Session PaperBroker DecimalText PyText.
From S2P Require Import Kiwoom.

Open Scope Z_scope.

Definition ENVIRONMENT : string := "MOCK".
Definition EVENT_SOURCE : string := "KIWOOM_RECONCILE".

(** ** Counts *)

Record ProjectionResult := mkProjectionResult {
  imported_orders : Z;
  updated_orders : Z;
  imported_fills : Z;
  imported_positions : Z;
  updated_positions : Z;
  closed_positions : Z
}.

Definition no_counts : ProjectionResult := mkProjectionResult 0 0 0 0 0 0.

(** [counts[field] += 1] *)
Inductive Counted := C_IMPORTED_ORDERS | C_UPDATED_ORDERS | C_IMPORTED_FILLS
| C_IMPORTED_POSITIONS | C_UPDATED_POSITIONS | C_CLOSED_POSITIONS.

Definition count (c : Counted) (r : ProjectionResult) : ProjectionResult :=
  let '(mkProjectionResult a b d e f g) := r in
  match c with
  | C_IMPORTED_ORDERS => mkProjectionResult (a + 1) b d e f g
  | C_UPDATED_ORDERS => mkProjectionResult a (b + 1) d e f g
  | C_IMPORTED_FILLS => mkProjectionResult a b (d + 1) e f g
  | C_IMPORTED_POSITIONS => mkProjectionResult a b d (e + 1) f g
  | C_UPDATED_POSITIONS => mkProjectionResult a b d e (f + 1) g
  | C_CLOSED_POSITIONS => mkProjectionResult a b d e f (g + 1)
  end.

(** ** The unit of work

    The order objects by broker number, the position objects by symbol, and the
    rows added since the last flush. *)
Record Unit := mkUnit {
  un_orders : list (string * TradingOrder);
  un_positions : list (string * Position);
  un_fills : list Fill;
  un_events : list OrderEvent;
  un_position_events : list PositionEvent;
  un_counts : ProjectionResult
}.

Definition with_order (id : string) (o : TradingOrder) (u : Unit) : Unit :=
  mkUnit (dict_set id o (un_orders u)) (un_positions u) (un_fills u) (un_events u)
    (un_position_events u) (un_counts u).
Definition with_position (symbol : string) (p : Position) (u : Unit) : Unit :=
  mkUnit (un_orders u) (dict_set symbol p (un_positions u)) (un_fills u) (un_events u)
    (un_position_events u) (un_counts u).
Definition with_fill (f : Fill) (u : Unit) : Unit :=
  mkUnit (un_orders u) (un_positions u) (un_fills u ++ [f]) (un_events u)
    (un_position_events u) (un_counts u).
Definition with_event (e : OrderEvent) (u : Unit) : Unit :=
  mkUnit (un_orders u) (un_positions u) (un_fills u) (un_events u ++ [e])
    (un_position_events u) (un_counts u).
Definition with_position_event (e : PositionEvent) (u : Unit) : Unit :=
  mkUnit (un_orders u) (un_positions u) (un_fills u) (un_events u)
    (un_position_events u ++ [e]) (un_counts u).
Definition counting (c : Counted) (u : Unit) : Unit :=
  mkUnit (un_orders u) (un_positions u) (un_fills u) (un_events u)
    (un_position_events u) (count c (un_counts u)).

Definition put_fill_row (f : Fill) (db : DB) : DB := set_fills db (<[f_id f := f]> (fills db)).

(** The rows a flush writes. *)
Definition flush_rows (u : Unit) (db : DB) : DB :=
  let db := foldl (fun db o => put_order_row o.2 db) db (un_orders u) in
  let db := foldl (fun db p => put_position_row p.2 db) db (un_positions u) in
  let db := foldl (fun db f => put_fill_row f db) db (un_fills u) in
  let db := set_order_events db (order_events db ++ un_events u) in
  set_position_events db (position_events db ++ un_position_events u).

Definition event_key (e : OrderEvent) : string * string := (oe_source e, oe_source_key e).

(** The constraints the written rows must satisfy: [ck_orders_*],
    [ck_positions_*], [ck_fills_*] and the unique keys of fills and events. *)
Definition check_order (o : TradingOrder) : bool :=
  (0 <? o_requested_quantity o) && (0 <=? o_filled_quantity o) && (0 <=? o_cancelled_quantity o) &&
  (0 <=? o_remaining_quantity o) &&
  (o_requested_quantity o =?
     o_filled_quantity o + o_cancelled_quantity o + o_remaining_quantity o).

Definition check_position (p : Position) : bool :=
  (0 <=? p_quantity p) && between 0 (p_quantity p) (p_available_quantity p) &&
  between 0 (p_quantity p) (p_managed_quantity p) && (0 <=? coef (p_managed_average_price p)) &&
  (bool_decide (p_state p <> POS_OPEN) ||
   match p_origin p with
   | EXTERNAL => p_managed_quantity p =? 0
   | CRESTA_MANAGED => (p_managed_quantity p =? p_quantity p) && (0 <? p_quantity p)
   | MIXED => (0 <? p_managed_quantity p) && (p_managed_quantity p <? p_quantity p)
   end).

Definition check_fill (f : Fill) : bool :=
  (0 <? f_quantity f) && (0 <? coef (f_price f)) && (0 <=? coef (f_fee f)) && (0 <=? coef (f_tax f)).

Definition fill_known (db : DB) (key : string) : bool :=
  existsb (fun f => String.eqb (f_broker_fill_key f) key) (rows (fills db)).
Definition event_known (db : DB) (key : string) : bool :=
  existsb (fun e => String.eqb (oe_source e) EVENT_SOURCE && String.eqb (oe_source_key e) key)
    (order_events db).

Definition flush_ok (u : Unit) (db : DB) : bool :=
  forallb (fun o => check_order o.2) (un_orders u) &&
  forallb (fun p => check_position p.2) (un_positions u) &&
  forallb check_fill (un_fills u) &&
  forallb (fun f => negb (fill_known db (f_broker_fill_key f))) (un_fills u) &&
  bool_decide (NoDup (map f_broker_fill_key (un_fills u))) &&
  forallb (fun e => negb (event_known db (oe_source_key e))) (un_events u) &&
  bool_decide (NoDup (map oe_source_key (un_events u))).

(** [db.flush()], with the rows it inserts besides those of the unit. *)
Definition flush_unit (u : Unit) : prog Unit :=
  ok ← gets (flush_ok u);
  guard_or ok IntegrityError ;;
  modify (flush_rows u) ;;
  mret (mkUnit (un_orders u) (un_positions u) [] [] [] (un_counts u)).

(** ** Pure parts *)

Definition _broker_order_payload (order : BrokerOpenOrder) : json :=
  JObj [("broker_order_id", JStr (bo_broker_order_id order)); ("symbol", JStr (bo_symbol order));
        ("market", JStr (bo_market order)); ("side", JStr (side_text (bo_side order)));
        ("requested_quantity", JInt (bo_requested_quantity order));
        ("filled_quantity", JInt (bo_filled_quantity order));
        ("remaining_quantity", JInt (bo_remaining_quantity order));
        ("limit_price", match bo_limit_price order with
                        | Some p => JStr (plain_text p) | None => JNull end);
        ("order_time", JStr (bo_order_time order))].

Definition same_price (a b : option decimal) : bool :=
  match a, b with
  | Some a, Some b => deqb a b
  | None, None => true
  | _, _ => false
  end.

(** [_order_state(a) == _order_state(b)]: prices compare as numbers. *)
Definition same_order_state (a b : TradingOrder) : bool :=
  String.eqb (o_symbol a) (o_symbol b) && String.eqb (o_market a) (o_market b) &&
  bool_decide (o_side a = o_side b) && bool_decide (o_order_type a = o_order_type b) &&
  same_price (o_limit_price a) (o_limit_price b) &&
  (o_requested_quantity a =? o_requested_quantity b) &&
  (o_filled_quantity a =? o_filled_quantity b) &&
  (o_cancelled_quantity a =? o_cancelled_quantity b) &&
  (o_remaining_quantity a =? o_remaining_quantity b) && bool_decide (o_status a = o_status b).

(** [_position_comparison_state(a) == _position_comparison_state(b)] *)
Definition same_position_state (a b : Position) : bool :=
  String.eqb (p_symbol a) (p_symbol b) && (p_quantity a =? p_quantity b) &&
  (p_available_quantity a =? p_available_quantity b) && deqb (p_average_price a) (p_average_price b) &&
  (p_managed_quantity a =? p_managed_quantity b) &&
  deqb (p_managed_average_price a) (p_managed_average_price b) &&
  bool_decide (p_state a = p_state b) && bool_decide (p_origin a = p_origin b).

Definition _position_state (p : Position) : json :=
  JObj [("symbol", JStr (p_symbol p)); ("quantity", JInt (p_quantity p));
        ("available_quantity", JInt (p_available_quantity p));
        ("average_price", JStr (plain_text (p_average_price p)));
        ("managed_quantity", JInt (p_managed_quantity p));
        ("managed_average_price", JStr (plain_text (p_managed_average_price p)));
        ("external_quantity", JInt (p_quantity p - p_managed_quantity p));
        ("state", JStr (position_state_text (p_state p))); ("origin", JStr (origin_text (p_origin p)))].

Definition _fill_identity (f : BrokerFillSummary) : string :=
  dumps (JObj [("broker_order_id", JStr (bf_broker_order_id f)); ("symbol", JStr (bf_symbol f));
               ("side", JStr (side_text (bf_side f))); ("quantity", JInt (bf_quantity f));
               ("price", JStr (plain_text (bf_price f))); ("fee", JStr (plain_text (bf_fee f)));
               ("tax", JStr (plain_text (bf_tax f))); ("order_time", JStr (bf_order_time f));
               ("market", JStr (bf_market f))]).

Definition _broker_time (observed_at : Z) (raw : string) : exn + Z :=
  match clock_fields (last_chars 6 (zfill 6 (strip raw))) with
  | None => inl AccountProjectionError
  | Some (h, m, s) => inr (kst_combine (kst_date observed_at) (time_of h m s))
  end.

Definition _position_origin (quantity managed_quantity : Z) : Origin :=
  if managed_quantity <=? 0 then EXTERNAL
  else if quantity <=? managed_quantity then CRESTA_MANAGED
  else MIXED.

Definition _managed_projection (position : option Position) (broker_quantity : Z)
  (replayed : option (Z * decimal)) : Z * decimal :=
  if broker_quantity <=? 0 then (0, dzero)
  else
    let '(quantity, average) := match replayed with
      | None => (match position with Some p => p_managed_quantity p | None => 0 end,
                 match position with Some p => p_managed_average_price p | None => dzero end)
      | Some r => r
      end in
    let managed_quantity := Z.min (Z.max 0 quantity) broker_quantity in
    (managed_quantity, if 0 <? managed_quantity then average else dzero).

(** ** The managed fills *)

Definition earlier_fill (a b : Fill * Side) : bool :=
  (f_filled_at a.1 <? f_filled_at b.1) ||
  ((f_filled_at a.1 =? f_filled_at b.1) && String.leb (f_id a.1) (f_id b.1)).

(** The rows of [_replay_managed_position]: the flushed fills of the symbol's
    orders that Cresta created. *)
Definition managed_fills (db : DB) (symbol : string) : list (Fill * Side) :=
  sort_by earlier_fill (omap (fun f =>
    order ← orders db !! f_order_id f;
    intent ← intents db !! o_intent_id order;
    if String.eqb (o_account_alias order) ACCOUNT_ALIAS &&
       String.eqb (o_environment order) ENVIRONMENT && String.eqb (o_symbol order) symbol &&
       negb (String.eqb (oi_action intent) "BROKER_IMPORTED")
    then Some (f, o_side order) else None) (rows (fills db))).

Definition replay_fill (r : Z * decimal) (row : Fill * Side) : exn + (Z * decimal) :=
  let '(quantity, average) := r in
  let '(fill, side) := row in
  match side with
  | BUY =>
      let new_quantity := quantity + f_quantity fill in
      let total_cost := dadd (dmul average (of_int quantity))
                             (dmul (f_price fill) (of_int (f_quantity fill))) in
      match ddiv total_cost (of_int new_quantity) with
      | None => inl ZeroDivision
      | Some average => inr (new_quantity, average)
      end
  | SELL =>
      let quantity := Z.max 0 (quantity - f_quantity fill) in
      inr (quantity, if quantity =? 0 then dzero else average)
  end.

Fixpoint replay_fills (r : Z * decimal) (l : list (Fill * Side)) : exn + (Z * decimal) :=
  match l with
  | [] => inr r
  | row :: l => r ← replay_fill r row; replay_fills r l
  end.

Definition _replay_managed_position (db : DB) (symbol : string) : exn + option (Z * decimal) :=
  match managed_fills db symbol with
  | [] => inr None
  | l => r ← replay_fills (0, dzero) l; mret (Some r)
  end.

(** ** Orders *)

Definition nonempty (s : option string) : option string :=
  match s with Some s => if String.eqb s EmptyString then None else Some s | None => None end.

Definition broker_number_of (o : TradingOrder) : string := default EmptyString (o_broker_order_id o).

Definition _orders_by_broker_id (db : DB) : list (string * TradingOrder) :=
  dict_of broker_number_of (List.filter (fun o =>
    String.eqb (o_account_alias o) ACCOUNT_ALIAS && String.eqb (o_environment o) ENVIRONMENT &&
    bool_decide (is_Some (nonempty (o_broker_order_id o)))) (rows (orders db))).

Definition open_order_cancelled (broker : BrokerOpenOrder) : Z :=
  bo_requested_quantity broker - bo_filled_quantity broker - bo_remaining_quantity broker.

Definition open_order_valid (broker : BrokerOpenOrder) : bool :=
  (0 <? bo_requested_quantity broker) &&
  (0 <=? Z.min (Z.min (bo_filled_quantity broker) (bo_remaining_quantity broker))
           (open_order_cancelled broker)).

Definition open_order_type (broker : BrokerOpenOrder) : OrderType :=
  match bo_limit_price broker with Some _ => LIMIT | None => MARKET end.

Definition open_order_status (broker : BrokerOpenOrder) : OrderStatus :=
  if bo_filled_quantity broker =? 0 then OPEN else PARTIALLY_FILLED.

(** The order object with the broker's facts, its version bumped on a change. *)
Definition projected_order (order : TradingOrder) (broker : BrokerOpenOrder) : TradingOrder :=
  mkTradingOrder (o_id order) (o_intent_id order) (o_order_group_id order) (o_parent_order_id order)
    (o_account_alias order) (o_environment order) (bo_symbol broker) (bo_market broker)
    (bo_side broker) (open_order_type broker) (bo_limit_price broker)
    (bo_requested_quantity broker) (bo_filled_quantity broker) (open_order_cancelled broker)
    (bo_remaining_quantity broker) (open_order_status broker) (o_idempotency_key order)
    (o_request_hash order) (o_broker_order_id order) (o_replacement_sequence order)
    (o_unfilled_policy order) (o_fill_timeout_seconds order) (o_max_reprice_attempts order)
    (o_reprice_attempts order) (o_next_action_at order) (o_trading_date order)
    (o_correlation_id order) (o_version order) (o_created_at order).

Definition bumped (before after : TradingOrder) : TradingOrder :=
  if same_order_state after before then after else set_o_version after (o_version after + 1).

(** [_apply_open_order]: the object and whether it changed. *)
Definition _apply_open_order (order : TradingOrder) (broker : BrokerOpenOrder) :
  exn + (TradingOrder * bool) :=
  reject_if (negb (open_order_valid broker)) AccountProjectionError ;;
  let after := projected_order order broker in
  mret (bumped order after, negb (same_order_state after order)).

Section Projection.
Context (sha256 : string -> string).

Definition _hash (value : json) : string := sha256 (dumps value).

Definition _add_order_event (order : TradingOrder) (event_type : string) (payload : json)
  (occurred_at : Z) (correlation_id : string) (u : Unit) : prog Unit :=
  let payload_hash := _hash payload in
  let source_key := broker_number_of order +:+ ":" +:+ event_type +:+ ":" +:+
                    slice 0 32 payload_hash in
  known ← gets (fun db => event_known db source_key);
  if (known : bool) then mret u
  else mret (with_event (mkOrderEvent (o_id order) event_type EVENT_SOURCE source_key payload_hash
               payload correlation_id occurred_at) u).

(** The row of an imported order, with the defaults of its columns. *)
Definition imported_order (broker : BrokerOpenOrder) (id intent_id group_id correlation_id : string)
  (observed_at created_at : Z) : TradingOrder :=
  mkTradingOrder id intent_id group_id None ACCOUNT_ALIAS ENVIRONMENT (bo_symbol broker)
    (bo_market broker) (bo_side broker) (open_order_type broker) (bo_limit_price broker)
    (bo_requested_quantity broker) (bo_filled_quantity broker) (open_order_cancelled broker)
    (bo_remaining_quantity broker) (open_order_status broker)
    ("broker-import:" +:+ ENVIRONMENT +:+ ":" +:+ ACCOUNT_ALIAS +:+ ":" +:+ bo_broker_order_id broker)
    (_hash (_broker_order_payload broker)) (Some (bo_broker_order_id broker)) 0 POLICY_NONE 0 0 0
    None (kst_date observed_at) correlation_id 1 created_at.

Definition imported_intent (broker : BrokerOpenOrder) (id group_id correlation_id : string) :
  OrderIntent :=
  mkOrderIntent id group_id ACCOUNT_ALIAS ENVIRONMENT (bo_symbol broker) (bo_market broker)
    (bo_side broker) "BROKER_IMPORTED" (bo_requested_quantity broker) correlation_id.

Definition put_intent (i : OrderIntent) (db : DB) : DB :=
  set_intents db (<[oi_id i := i]> (intents db)).

Definition _import_open_order (broker : BrokerOpenOrder) (observed_at : Z) (correlation_id : string)
  (u : Unit) : prog (TradingOrder * Unit) :=
  guard_or (open_order_valid broker) AccountProjectionError ;;
  intent_id ← uuid7;
  group_id ← uuid7;
  u ← flush_unit u;
  modify (put_intent (imported_intent broker intent_id group_id correlation_id)) ;;
  id ← uuid7;
  created_at ← utcnow;
  let order := imported_order broker id intent_id group_id correlation_id observed_at created_at in
  clash ← gets (clashes order);
  guard_or (negb clash && check_order order) IntegrityError ;;
  modify (put_order_row order) ;;
  u ← _add_order_event order "BROKER_ORDER_IMPORTED" (_broker_order_payload broker) observed_at
        correlation_id u;
  mret (order, u).

(** One round of the loop over the open orders. *)
Definition project_open_order (observed_at : Z) (correlation_id : string) (broker : BrokerOpenOrder)
  (u : Unit) : prog Unit :=
  let number := bo_broker_order_id broker in
  match dict_get number (un_orders u) with
  | None =>
      imported ← _import_open_order broker observed_at correlation_id u;
      let '(order, u) := (imported : TradingOrder * Unit) in
      mret (counting C_IMPORTED_ORDERS (with_order number order u))
  | Some order =>
      applied ← of_result (_apply_open_order order broker);
      let '(order, changed) := (applied : TradingOrder * bool) in
      let u := with_order number order u in
      if (changed : bool) then
        u ← _add_order_event order "BROKER_ORDER_PROJECTED" (_broker_order_payload broker)
              observed_at correlation_id u;
        mret (counting C_UPDATED_ORDERS u)
      else mret u
  end.

(** ** Fills *)

Definition fill_totals (fills : list BrokerFillSummary) : list (string * Z) :=
  foldl (fun d f => dict_add (bf_broker_order_id f) (bf_quantity f) d) [] fills.

Definition overfilled (u : Unit) (totals : list (string * Z)) (number : string) : bool :=
  match dict_get number totals, dict_get number (un_orders u) with
  | Some total, Some order => o_requested_quantity order <? total
  | _, _ => false
  end.

Definition broker_fill_key (f : BrokerFillSummary) (occurrence : Z) : string :=
  "kiwoom:" +:+ _hash (JObj [("identity", JStr (_fill_identity f)); ("occurrence", JInt occurrence)]).

(** One round of the loop over the fills; [over] is the set of the orders that
    were filled beyond their quantity, computed before the loop. *)
Definition project_fill (observed_at : Z) (over : string -> bool) (f : BrokerFillSummary)
  (state : list (string * Z) * Unit) : prog (list (string * Z) * Unit) :=
  let '(occurrences, u) := state in
  match dict_get (bf_broker_order_id f) (un_orders u) with
  | None => mret (occurrences, u)
  | Some order =>
      if over (bf_broker_order_id f) then mret (occurrences, u)
      else
        let base_key := _fill_identity f in
        let occurrence := default 0 (dict_get base_key occurrences) in
        let occurrences := dict_add base_key 1 occurrences in
        let key := broker_fill_key f occurrence in
        known ← gets (fun db => fill_known db key);
        if (known : bool) then mret (occurrences, u)
        else
          filled_at ← of_result (_broker_time observed_at (bf_order_time f));
          id ← uuid7;
          mret (occurrences,
                counting C_IMPORTED_FILLS
                  (with_fill (mkFill id (o_id order) key (bf_quantity f) (bf_price f) (bf_fee f)
                                (bf_tax f) filled_at) u))
  end.

Definition set_quantities (o : TradingOrder) (filled cancelled remaining : Z) : TradingOrder :=
  set_o_remaining_quantity (set_o_cancelled_quantity (set_o_filled_quantity o filled) cancelled)
    remaining.

(** An order the broker no longer lists as open, from the total of its fills. *)
Definition order_after_total (order : TradingOrder) (total : Z) : TradingOrder :=
  if total =? o_requested_quantity order then
    set_o_next_action_at (set_o_status (set_quantities order total 0 0) FILLED) None
  else if 0 <? total then
    set_o_status (set_quantities order total 0 (o_requested_quantity order - total)) RECONCILING
  else order.

Definition project_total (observed_at : Z) (correlation_id : string) (open : string -> bool)
  (number_total : string * Z) (u : Unit) : prog Unit :=
  let '(number, total) := number_total in
  match dict_get number (un_orders u) with
  | None => mret u
  | Some order =>
      if open number || (o_requested_quantity order <? total) ||
         bool_decide (o_status order = CANCEL_PENDING)
      then mret u
      else
        let after := order_after_total order total in
        if same_order_state after order then mret (with_order number after u)
        else
          let after := bumped order after in
          u ← _add_order_event after "BROKER_FILL_PROJECTED"
                (JObj [("broker_order_id", JStr number); ("filled_quantity", JInt total)])
                observed_at correlation_id (with_order number after u);
          mret (counting C_UPDATED_ORDERS u)
  end.

(** ** Confirmed cancellations *)

Definition order_after_cancel (order : TradingOrder) (total : Z) : TradingOrder :=
  set_o_next_action_at
    (set_o_status (set_quantities order total (o_requested_quantity order - total) 0)
       (if total =? o_requested_quantity order then FILLED else CANCELLED)) None.

Definition project_cancel (observed_at : Z) (correlation_id : string) (open : string -> bool)
  (totals : list (string * Z)) (number : string) (u : Unit) : prog Unit :=
  match dict_get number (un_orders u) with
  | None => mret u
  | Some order =>
      if bool_decide (o_status order <> CANCEL_PENDING) || open number then mret u
      else
        let total := default (o_filled_quantity order) (dict_get number totals) in
        if (total <? 0) || (o_requested_quantity order <? total) then mret u
        else
          let after := order_after_cancel order total in
          if same_order_state after order then mret (with_order number after u)
          else
            let after := bumped order after in
            u ← _add_order_event after "BROKER_CANCEL_PROJECTED"
                  (JObj [("broker_order_id", JStr number); ("filled_quantity", JInt total);
                         ("cancelled_quantity", JInt (o_cancelled_quantity after))])
                  observed_at correlation_id (with_order number after u);
            mret (counting C_UPDATED_ORDERS u)
  end.

(** ** Positions *)

Definition position_event (p : Position) (run_id : string) (before : json) (correlation_id : string) :
  PositionEvent :=
  mkPositionEvent (p_id p) "RECONCILIATION" run_id before (_position_state p) correlation_id.

Definition state_of_quantity (quantity : Z) : PositionState :=
  if quantity =? 0 then POS_CLOSED else POS_OPEN.

Definition imported_position (broker : BrokerPosition) (id : string) (managed : Z * decimal) :
  Position :=
  mkPosition id ACCOUNT_ALIAS (bp_symbol broker) (bp_quantity broker) (bp_available_quantity broker)
    managed.1 (bp_average_price broker) managed.2 (state_of_quantity (bp_quantity broker))
    (_position_origin (bp_quantity broker) managed.1) 1.

Definition projected_position (p : Position) (broker : BrokerPosition) (managed : Z * decimal) :
  Position :=
  mkPosition (p_id p) (p_account_alias p) (p_symbol p) (bp_quantity broker)
    (bp_available_quantity broker) managed.1 (bp_average_price broker) managed.2
    (state_of_quantity (bp_quantity broker))
    (if bp_quantity broker =? 0 then p_origin p
     else _position_origin (bp_quantity broker) managed.1) (p_version p).

(** [internal] holds the positions loaded before the loop; an imported one is
    not added to it, and its import flushes the unit. *)
Definition project_position (run_id correlation_id : string) (broker : BrokerPosition) (u : Unit) :
  prog Unit :=
  let position := dict_get (bp_symbol broker) (un_positions u) in
  replayed ← gets (fun db => _replay_managed_position db (bp_symbol broker));
  replayed ← of_result replayed;
  let managed := _managed_projection position (bp_quantity broker) replayed in
  match position with
  | None =>
      id ← uuid7;
      u ← flush_unit u;
      let p := imported_position broker id managed in
      clash ← gets (fun db => existsb (fun q => String.eqb (p_account_alias q) ACCOUNT_ALIAS &&
                                                String.eqb (p_symbol q) (p_symbol p) ||
                                                String.eqb (p_id q) (p_id p)) (rows (positions db)));
      guard_or (negb clash && check_position p) IntegrityError ;;
      modify (put_position_row p) ;;
      mret (counting C_IMPORTED_POSITIONS
              (with_position_event (position_event p run_id (JObj []) correlation_id) u))
  | Some before =>
      let after := projected_position before broker managed in
      if same_position_state after before then mret (with_position (p_symbol before) after u)
      else
        let after := set_p_version after (p_version after + 1) in
        mret (counting C_UPDATED_POSITIONS
                (with_position_event (position_event after run_id (_position_state before)
                                        correlation_id)
                   (with_position (p_symbol before) after u)))
  end.

Definition closed_position (p : Position) : Position :=
  mkPosition (p_id p) (p_account_alias p) (p_symbol p) 0 0 0 dzero dzero POS_CLOSED (p_origin p)
    (p_version p + 1).

Definition close_position (run_id correlation_id : string) (broker_symbols : list string)
  (symbol : string) (u : Unit) : prog Unit :=
  match dict_get symbol (un_positions u) with
  | None => mret u
  | Some p =>
      if bool_decide (p_state p <> POS_OPEN) || bool_decide (symbol ∈ broker_symbols) then mret u
      else
        let after := closed_position p in
        mret (counting C_CLOSED_POSITIONS
                (with_position_event (position_event after run_id (_position_state p) correlation_id)
                   (with_position symbol after u)))
  end.

(** ** The projection *)

Fixpoint fold_prog {A S} (f : A -> S -> prog S) (l : list A) (s : S) : prog S :=
  match l with
  | [] => mret s
  | x :: l => s ← f x s; fold_prog f l s
  end.

Definition account_positions (db : DB) : list (string * Position) :=
  dict_of p_symbol (List.filter (fun p => String.eqb (p_account_alias p) ACCOUNT_ALIAS)
                      (rows (positions db))).

Definition load_positions (db : DB) (u : Unit) : Unit :=
  mkUnit (un_orders u) (account_positions db) (un_fills u) (un_events u) (un_position_events u)
    (un_counts u).

Definition _project_positions (snapshot : BrokerAccountSnapshot) (run_id correlation_id : string)
  (u : Unit) : prog Unit :=
  u ← gets (fun db => load_positions db u);
  u ← fold_prog (project_position run_id correlation_id) (sn_positions snapshot) u;
  fold_prog (close_position run_id correlation_id (map bp_symbol (sn_positions snapshot)))
    (un_positions u).*1 u.

Definition apply_broker_account_projection (snapshot : BrokerAccountSnapshot)
  (run_id correlation_id : string) : prog ProjectionResult :=
  let observed_at := sn_observed_at snapshot in
  u ← gets (fun db => mkUnit (_orders_by_broker_id db) [] [] [] [] no_counts);
  u ← fold_prog (project_open_order observed_at correlation_id) (sn_open_orders snapshot) u;
  let totals := fill_totals (sn_fills snapshot) in
  filled ← fold_prog (project_fill observed_at (overfilled u totals)) (sn_fills snapshot) ([], u);
  let u := (filled : list (string * Z) * Unit).2 in
  let open number := bool_decide (number ∈ map bo_broker_order_id (sn_open_orders snapshot)) in
  u ← fold_prog (project_total observed_at correlation_id open) totals u;
  u ← fold_prog (project_cancel observed_at correlation_id open totals) (un_orders u).*1 u;
  u ← _project_positions snapshot run_id correlation_id u;
  u ← flush_unit u;
  mret (un_counts u).
End Projection.
