(* ===== verification/ProjectionProps.v ===== *)
(** * What a projection leaves in the ledger

    The invariants of the unit of work, and the account as the broker sees it
    after a projection that did not raise. *)

From Stdlib Require Import ZArith Lia Ascii String.
From stdpp Require Import base numbers strings list gmap.
From S2P Require Import Prelude Decimal Json PyTime Models Session PaperBroker DecimalText PyText.
From S2P Require Import Kiwoom KiwoomClient AccountProjection.

Open Scope Z_scope.

(** ** Loops *)

Section Loops.
Context {A S : Type}.

(** A loop keeps an invariant of the rounds done; a round that raises ends it. *)
Lemma wp_fold_prog (I : list A -> S -> Sess -> Prop) (E : Sess -> exn -> Prop)
  (f : A -> S -> prog S) l u s :
  (forall before x after u s, l = before ++ x :: after -> I before u s ->
     wp (f x u) (fun s' r => match r with inl u' => I (before ++ [x]) u' s' | inr e => E s' e end) s) ->
  I [] u s ->
  wp (fold_prog f l u) (fun s' r => match r with inl u' => I l u' s' | inr e => E s' e end) s.
Proof.
  intros Hf. cut (forall after before u s, l = before ++ after -> I before u s ->
    wp (fold_prog f after u) (fun s' r => match r with inl u' => I l u' s' | inr e => E s' e end) s).
  { intros H Hs. by apply (H l [] u s). }
  induction after as [|x after IH]; intros before u' s' El Hs; cbn [fold_prog].
  - apply wp_ret. by rewrite El, app_nil_r.
  - apply wp_bind. eapply wp_mono; [by eapply Hf|].
    intros s1 [u1|e] H1; [|done]. eapply IH; [|done]. by rewrite <- app_assoc.
Qed.
End Loops.

(** ** Rows written by a fold of inserts *)

Section Inserts.
Context {V : Type} (key : V -> string).

Lemma foldl_insert_other (l : list V) (m : gmap string V) k :
  k ∉ map key l -> foldl (fun m x => <[key x := x]> m) m l !! k = m !! k.
Proof.
  revert m. induction l as [|x l IH]; intros m H; [done|]. cbn [foldl].
  cbn [map] in H. apply not_elem_of_cons in H as [H1 H2].
  rewrite IH by done. by rewrite lookup_insert_ne.
Qed.

Lemma foldl_insert_elem (l : list V) (m : gmap string V) x :
  x ∈ l -> (forall y, y ∈ l -> key y = key x -> y = x) ->
  foldl (fun m x => <[key x := x]> m) m l !! key x = Some x.
Proof.
  revert m. induction l as [|y l IH]; intros m Hx Hu; [by apply elem_of_nil in Hx|]. cbn [foldl].
  destruct (decide (key x ∈ map key l)) as [Hl|Hl].
  - apply list_elem_of_fmap in Hl as (z & Hz & Hin).
    assert (z = x) as -> by (apply Hu; [by apply list_elem_of_further|done]).
    apply IH; [done|]. intros w Hw. apply Hu. by apply list_elem_of_further.
  - rewrite foldl_insert_other by done. apply elem_of_cons in Hx as [->|Hx].
    + by rewrite lookup_insert_eq.
    + destruct Hl. apply list_elem_of_fmap. by exists x.
Qed.
End Inserts.

Lemma orders_foldl (l : list (string * TradingOrder)) db :
  orders (foldl (fun db o => put_order_row o.2 db) db l) =
  foldl (fun m o => <[o_id o := o]> m) (orders db) l.*2.
Proof. revert db. induction l as [|[n o] l IH]; intros db; [done|]. cbn [foldl]. by rewrite IH. Qed.

Lemma positions_foldl (l : list (string * Position)) db :
  positions (foldl (fun db o => put_position_row o.2 db) db l) =
  foldl (fun m o => <[p_id o := o]> m) (positions db) l.*2.
Proof. revert db. induction l as [|[n o] l IH]; intros db; [done|]. cbn [foldl]. by rewrite IH. Qed.

Lemma foldl_positions_orders (l : list (string * Position)) db :
  orders (foldl (fun db o => put_position_row o.2 db) db l) = orders db.
Proof. revert db. induction l as [|[n o] l IH]; intros db; [done|]. cbn [foldl]. by rewrite IH. Qed.

Lemma foldl_orders_positions (l : list (string * TradingOrder)) db :
  positions (foldl (fun db o => put_order_row o.2 db) db l) = positions db.
Proof. revert db. induction l as [|[n o] l IH]; intros db; [done|]. cbn [foldl]. by rewrite IH. Qed.

Lemma foldl_fills_tables l db :
  orders (foldl (fun db f => put_fill_row f db) db l) = orders db /\
  positions (foldl (fun db f => put_fill_row f db) db l) = positions db.
Proof. revert db. induction l as [|f l IH]; intros db; [done|]. cbn [foldl]. by rewrite !(proj1 (IH _)), !(proj2 (IH _)). Qed.

Lemma flush_rows_orders u db :
  orders (flush_rows u db) = foldl (fun m o => <[o_id o := o]> m) (orders db) (un_orders u).*2.
Proof.
  unfold flush_rows. cbn.
  by rewrite (proj1 (foldl_fills_tables _ _)), foldl_positions_orders, orders_foldl.
Qed.

Lemma flush_rows_positions u db :
  positions (flush_rows u db) = foldl (fun m p => <[p_id p := p]> m) (positions db) (un_positions u).*2.
Proof.
  unfold flush_rows. cbn.
  by rewrite (proj2 (foldl_fills_tables _ _)), positions_foldl, foldl_orders_positions.
Qed.

(** ** The ledger of the account *)

Definition ours (o : TradingOrder) : Prop := o_account_alias o = ACCOUNT_ALIAS.
Definition held_here (p : Position) : Prop := p_account_alias p = ACCOUNT_ALIAS.

(** The tables as the constraints of the schema keep them, for an account used
    in one environment. *)
Record ledger (db : DB) : Prop := {
  lg_order_id : forall k o, orders db !! k = Some o -> o_id o = k;
  lg_environment : forall k o, orders db !! k = Some o -> ours o -> o_environment o = ENVIRONMENT;
  lg_number : forall k1 k2 o1 o2 n, orders db !! k1 = Some o1 -> orders db !! k2 = Some o2 ->
    ours o1 -> ours o2 -> nonempty (o_broker_order_id o1) = Some n ->
    nonempty (o_broker_order_id o2) = Some n -> k1 = k2;
  lg_order : forall k o, orders db !! k = Some o -> ours o -> check_order o = true;
  lg_fill : forall k f, fills db !! k = Some f -> check_fill f = true;
  lg_position_id : forall k p, positions db !! k = Some p -> p_id p = k;
  lg_symbol : forall k1 k2 p1 p2, positions db !! k1 = Some p1 -> positions db !! k2 = Some p2 ->
    held_here p1 -> held_here p2 -> p_symbol p1 = p_symbol p2 -> k1 = k2;
  lg_position : forall k p, positions db !! k = Some p -> held_here p -> check_position p = true
}.

(** The order objects of the unit: the rows of the account that have a broker
    number, by that number. *)
Definition same_identity (a b : TradingOrder) : Prop :=
  o_id a = o_id b /\ o_account_alias a = o_account_alias b /\ o_environment a = o_environment b /\
  o_broker_order_id a = o_broker_order_id b /\ o_idempotency_key a = o_idempotency_key b.

Definition numbered (n : string) (o : TradingOrder) : Prop :=
  ours o /\ o_environment o = ENVIRONMENT /\ o_broker_order_id o = Some n /\ n <> EmptyString.

Record tracks_orders (db : DB) (d : list (string * TradingOrder)) : Prop := {
  to_nodup : NoDup d.*1;
  to_row : forall n o, dict_get n d = Some o ->
    numbered n o /\ check_order o = true /\
    exists o0, orders db !! o_id o = Some o0 /\ same_identity o0 o;
  to_all : forall k o0 n, orders db !! k = Some o0 -> ours o0 ->
    nonempty (o_broker_order_id o0) = Some n -> exists o, dict_get n d = Some o /\ o_id o = k
}.

Definition same_owner (a b : Position) : Prop :=
  p_id a = p_id b /\ p_account_alias a = p_account_alias b /\ p_symbol a = p_symbol b.

Record tracks_positions (db : DB) (d : list (string * Position)) : Prop := {
  tp_nodup : NoDup d.*1;
  tp_row : forall x p, dict_get x d = Some p ->
    held_here p /\ p_symbol p = x /\ check_position p = true /\
    exists p0, positions db !! p_id p = Some p0 /\ same_owner p0 p
}.

Lemma nonempty_Some s n : nonempty s = Some n <-> s = Some n /\ n <> EmptyString.
Proof.
  unfold nonempty. destruct s as [s|]; [|by split; [|intros [? _]]].
  destruct (String.eqb_spec s EmptyString) as [->|Hne]; split; [done| | |].
  - intros [[= <-] H]. done.
  - intros [= <-]. done.
  - intros [[= <-] _]. done.
Qed.

Lemma dict_of_elem {A} (key : A -> string) l k x :
  dict_get k (dict_of key l) = Some x -> x ∈ l /\ key x = k.
Proof.
  rewrite dict_of_get. intros H%last_Some_elem_of. apply list_elem_of_In, List.filter_In in H as [H1 H2].
  split; [by apply list_elem_of_In|]. by apply String.eqb_eq.
Qed.

Lemma dict_of_unique {A} (key : A -> string) l x :
  x ∈ l -> (forall y, y ∈ l -> key y = key x -> y = x) -> dict_get (key x) (dict_of key l) = Some x.
Proof.
  intros Hx Hu. destruct (dict_get (key x) (dict_of key l)) as [y|] eqn:E.
  - apply dict_of_elem in E as [Hy Hk]. by rewrite (Hu y Hy Hk).
  - rewrite dict_of_get in E. apply last_None in E.
    assert (H : x ∈ List.filter (fun y => String.eqb (key y) (key x)) l).
    { apply list_elem_of_In, List.filter_In. split; [by apply list_elem_of_In|]. apply String.eqb_refl. }
    rewrite E in H. by apply elem_of_nil in H.
Qed.

Lemma load_orders db : ledger db -> tracks_orders db (_orders_by_broker_id db).
Proof.
  intros L. unfold _orders_by_broker_id.
  assert (Hl : forall o, o ∈ List.filter (fun o => String.eqb (o_account_alias o) ACCOUNT_ALIAS &&
      String.eqb (o_environment o) ENVIRONMENT && bool_decide (is_Some (nonempty (o_broker_order_id o))))
      (rows (orders db)) <-> orders db !! o_id o = Some o /\ ours o /\ o_environment o = ENVIRONMENT /\
      exists n, nonempty (o_broker_order_id o) = Some n).
  { intros o. rewrite list_elem_of_In, List.filter_In, <- list_elem_of_In, elem_of_rows.
    rewrite !andb_true_iff, !String.eqb_eq, bool_decide_eq_true. split.
    - intros ([k Hk] & (H1 & H2) & n & Hn). rewrite (lg_order_id _ L _ _ Hk). by eauto 6.
    - intros (H1 & H2 & H3 & n & Hn). by repeat split; eauto. }
  set (l := List.filter _ _) in *.
  assert (Hn : forall o n, nonempty (o_broker_order_id o) = Some n -> broker_number_of o = n).
  { intros o n [H _]%nonempty_Some. unfold broker_number_of. by rewrite H. }
  split; [apply dict_of_nodup| |].
  - intros n o H. apply dict_of_elem in H as [Ho Hk]. apply Hl in Ho as (H1 & H2 & H3 & m & Hm).
    assert (m = n) as -> by (rewrite <- (Hn _ _ Hm); done).
    split; [|split; [by eapply lg_order|]].
    + apply nonempty_Some in Hm as [Hm1 Hm2]. done.
    + exists o. done.
  - intros k o0 n H1 H2 H3. exists o0. split; [|by eapply lg_order_id].
    rewrite <- (Hn _ _ H3). apply dict_of_unique.
    + apply Hl. rewrite (lg_order_id _ L _ _ H1). split; [done|]. split; [done|].
      split; [by eapply lg_environment|]. by exists n.
    + intros y Hy Hk. apply Hl in Hy as (Y1 & Y2 & Y3 & m & Y4).
      assert (m = n) as -> by (rewrite <- (Hn _ _ Y4), <- (Hn _ _ H3); done).
      assert (o_id y = k) as E by (eapply (lg_number _ L); eauto). rewrite E in Y1. congruence.
Qed.

Lemma dict_values {A} (d : list (string * A)) x :
  NoDup d.*1 -> x ∈ d.*2 <-> exists k, dict_get k d = Some x.
Proof.
  intros Hd. rewrite list_elem_of_fmap. split.
  - intros ([k y] & -> & H). exists k. by apply dict_elem_get.
  - intros [k H%dict_get_Some_elem]. by exists (k, x).
Qed.

Lemma load_positions_spec db : ledger db -> tracks_positions db (account_positions db).
Proof.
  intros L. split; [apply dict_of_nodup|]. intros x p H.
  apply dict_of_elem in H as [H <-]. apply list_elem_of_In, List.filter_In in H as [H1 H2].
  apply list_elem_of_In, elem_of_rows in H1 as [k Hk]. apply String.eqb_eq in H2.
  split; [done|]. split; [done|]. split; [by eapply lg_position|].
  exists p. by rewrite (lg_position_id _ L _ _ Hk).
Qed.

(** Two objects of one row are one object. *)
Lemma tracks_unique db d n1 n2 o1 o2 :
  tracks_orders db d -> dict_get n1 d = Some o1 -> dict_get n2 d = Some o2 -> o_id o1 = o_id o2 ->
  n1 = n2 /\ o1 = o2.
Proof.
  intros T H1 H2 E. destruct (to_row _ _ T _ _ H1) as ((_ & _ & N1 & _) & _ & r1 & R1 & I1).
  destruct (to_row _ _ T _ _ H2) as ((_ & _ & N2 & _) & _ & r2 & R2 & I2).
  rewrite E in R1. assert (r1 = r2) as -> by congruence.
  destruct I1 as (_ & _ & _ & I1 & _). destruct I2 as (_ & _ & _ & I2 & _).
  assert (n1 = n2) as -> by congruence. split; [done|]. congruence.
Qed.

Lemma tracks_positions_unique db d x1 x2 p1 p2 :
  tracks_positions db d -> dict_get x1 d = Some p1 -> dict_get x2 d = Some p2 -> p_id p1 = p_id p2 ->
  x1 = x2 /\ p1 = p2.
Proof.
  intros T H1 H2 E. destruct (tp_row _ _ T _ _ H1) as (_ & N1 & _ & r1 & R1 & _ & _ & I1).
  destruct (tp_row _ _ T _ _ H2) as (_ & N2 & _ & r2 & R2 & _ & _ & I2).
  rewrite E in R1. assert (r1 = r2) as -> by congruence.
  assert (x1 = x2) as -> by congruence. split; [done|]. congruence.
Qed.

(** The rows after a flush: the objects of the unit, the other rows as they were. *)
Lemma flushed_order u db n o :
  tracks_orders db (un_orders u) -> dict_get n (un_orders u) = Some o ->
  orders (flush_rows u db) !! o_id o = Some o.
Proof.
  intros T H. rewrite flush_rows_orders. apply (foldl_insert_elem o_id).
  - apply dict_values; [apply T|]. by exists n.
  - intros y [m Hm]%dict_values E; [|apply T]. by destruct (tracks_unique _ _ _ _ _ _ T Hm H E).
Qed.

Lemma flushed_other_order u db k :
  tracks_orders db (un_orders u) -> (forall n o, dict_get n (un_orders u) = Some o -> o_id o <> k) ->
  orders (flush_rows u db) !! k = orders db !! k.
Proof.
  intros T H. rewrite flush_rows_orders. apply (foldl_insert_other o_id).
  intros (o & -> & Ho)%list_elem_of_fmap. apply dict_values in Ho as [n Hn]; [|apply T].
  by apply (H _ _ Hn).
Qed.

Lemma flushed_position u db x p :
  tracks_positions db (un_positions u) -> dict_get x (un_positions u) = Some p ->
  positions (flush_rows u db) !! p_id p = Some p.
Proof.
  intros T H. rewrite flush_rows_positions. apply (foldl_insert_elem p_id).
  - apply dict_values; [apply T|]. by exists x.
  - intros y [m Hm]%dict_values E; [|apply T].
    by destruct (tracks_positions_unique _ _ _ _ _ _ T Hm H E).
Qed.

Lemma flushed_other_position u db k :
  tracks_positions db (un_positions u) ->
  (forall x p, dict_get x (un_positions u) = Some p -> p_id p <> k) ->
  positions (flush_rows u db) !! k = positions db !! k.
Proof.
  intros T H. rewrite flush_rows_positions. apply (foldl_insert_other p_id).
  intros (o & -> & Ho)%list_elem_of_fmap. apply dict_values in Ho as [n Hn]; [|apply T].
  by apply (H _ _ Hn).
Qed.

(** Every row after a flush is an object of the unit or an untouched row. *)
Lemma flushed_order_cases u db k o :
  tracks_orders db (un_orders u) -> orders (flush_rows u db) !! k = Some o ->
  (exists n, dict_get n (un_orders u) = Some o /\ o_id o = k) \/
  (orders db !! k = Some o /\ forall n o', dict_get n (un_orders u) = Some o' -> o_id o' <> k).
Proof.
  intros T H. destruct (decide (k ∈ map o_id (un_orders u).*2)) as [Hk|Hk].
  - apply list_elem_of_fmap in Hk as (o' & -> & Ho). apply dict_values in Ho as [n Hn]; [|apply T].
    rewrite (flushed_order _ _ _ _ T Hn) in H. injection H as <-. left. by exists n.
  - right. assert (Hne : forall n o', dict_get n (un_orders u) = Some o' -> o_id o' <> k).
    { intros n o' Hn E. apply Hk. apply list_elem_of_fmap. exists o'. split; [done|].
      apply dict_values; [apply T|]. by exists n. }
    split; [|done]. by rewrite flushed_other_order in H.
Qed.

Lemma flushed_position_cases u db k p :
  tracks_positions db (un_positions u) -> positions (flush_rows u db) !! k = Some p ->
  (exists x, dict_get x (un_positions u) = Some p /\ p_id p = k) \/
  (positions db !! k = Some p /\ forall x p', dict_get x (un_positions u) = Some p' -> p_id p' <> k).
Proof.
  intros T H. destruct (decide (k ∈ map p_id (un_positions u).*2)) as [Hk|Hk].
  - apply list_elem_of_fmap in Hk as (o' & -> & Ho). apply dict_values in Ho as [n Hn]; [|apply T].
    rewrite (flushed_position _ _ _ _ T Hn) in H. injection H as <-. left. by exists n.
  - right. assert (Hne : forall x p', dict_get x (un_positions u) = Some p' -> p_id p' <> k).
    { intros n o' Hn E. apply Hk. apply list_elem_of_fmap. exists o'. split; [done|].
      apply dict_values; [apply T|]. by exists n. }
    split; [|done]. by rewrite flushed_other_position in H.
Qed.

Lemma flushed_fill_cases u db k f :
  fills (flush_rows u db) !! k = Some f -> f ∈ un_fills u \/ fills db !! k = Some f.
Proof.
  assert (H : forall l db, fills (foldl (fun db f => put_fill_row f db) db l) !! k = Some f ->
              f ∈ l \/ fills db !! k = Some f).
  { clear. induction l as [|g l IH]; intros db H; [by right|]. cbn [foldl] in H.
    apply IH in H as [H|H]; [left; by apply list_elem_of_further|].
    cbn in H. destruct (decide (k = f_id g)) as [->|Hne].
    - rewrite lookup_insert_eq in H. injection H as <-. left. apply list_elem_of_here.
    - rewrite lookup_insert_ne in H by done. by right. }
  unfold flush_rows. cbn. intros Hf. apply H in Hf as [Hf|Hf]; [by left|]. right.
  assert (E1 : forall (l : list (string * Position)) db,
    fills (foldl (fun db o => put_position_row o.2 db) db l) = fills db).
  { clear. induction l as [|x l IH]; intros db; [done|]. cbn [foldl]. by rewrite IH. }
  assert (E2 : forall (l : list (string * TradingOrder)) db,
    fills (foldl (fun db o => put_order_row o.2 db) db l) = fills db).
  { clear. induction l as [|x l IH]; intros db; [done|]. cbn [foldl]. by rewrite IH. }
  by rewrite E1, E2 in Hf.
Qed.

(** The order objects are those of the row they will be written to. *)
Lemma tracked_row db d n o : tracks_orders db d -> dict_get n d = Some o ->
  exists o0, orders db !! o_id o = Some o0 /\ ours o0 /\ nonempty (o_broker_order_id o0) = Some n.
Proof.
  intros T H. destruct (to_row _ _ T _ _ H) as ((N1 & N2 & N3 & N4) & _ & o0 & R & I1 & I2 & I3 & I4 & I5).
  exists o0. split; [done|]. split; [unfold ours in *; congruence|].
  apply nonempty_Some. split; [congruence|done].
Qed.

Record unit_ok (db : DB) (u : Unit) : Prop := {
  uo_orders : tracks_orders db (un_orders u);
  uo_positions : tracks_positions db (un_positions u);
  uo_fills : Forall (fun f => check_fill f = true) (un_fills u)
}.

Lemma flush_ledger db u : ledger db -> unit_ok db u -> ledger (flush_rows u db).
Proof.
  intros L [T P F]. split.
  - intros k o H. apply (flushed_order_cases _ _ _ _ T) in H as [(n & _ & H)|[H _]]; [done|].
    by eapply lg_order_id.
  - intros k o H Ho. apply (flushed_order_cases _ _ _ _ T) in H as [(n & Hn & _)|[H _]].
    + by destruct (to_row _ _ T _ _ Hn) as ((_ & ? & _) & _).
    + by eapply lg_environment.
  - assert (R : forall k o n, orders (flush_rows u db) !! k = Some o -> ours o ->
      nonempty (o_broker_order_id o) = Some n ->
      exists o0, orders db !! k = Some o0 /\ ours o0 /\ nonempty (o_broker_order_id o0) = Some n).
    { intros k o n H Ho Hn. apply (flushed_order_cases _ _ _ _ T) in H as [(m & Hm & <-)|[H _]]; [|by exists o].
      destruct (tracked_row _ _ _ _ T Hm) as (o0 & R1 & R2 & R3). exists o0. split; [done|]. split; [done|].
      destruct (to_row _ _ T _ _ Hm) as ((_ & _ & Hb & Hne) & _).
      assert (n = m) as ->; [|done]. apply nonempty_Some in Hn as [Hn _]. congruence. }
    intros k1 k2 o1 o2 n H1 H2 S1 S2 N1 N2.
    destruct (R _ _ _ H1 S1 N1) as (a & A1 & A2 & A3). destruct (R _ _ _ H2 S2 N2) as (b & B1 & B2 & B3).
    by eapply (lg_number _ L).
  - intros k o H Ho. apply (flushed_order_cases _ _ _ _ T) in H as [(n & Hn & _)|[H _]].
    + by destruct (to_row _ _ T _ _ Hn) as (_ & ? & _).
    + by eapply lg_order.
  - intros k f H. apply flushed_fill_cases in H as [H|H]; [|by eapply lg_fill].
    rewrite Forall_forall in F. by apply F.
  - intros k p H. apply (flushed_position_cases _ _ _ _ P) in H as [(x & _ & H)|[H _]]; [done|].
    by eapply lg_position_id.
  - assert (R : forall k p, positions (flush_rows u db) !! k = Some p -> held_here p ->
      exists p0, positions db !! k = Some p0 /\ held_here p0 /\ p_symbol p0 = p_symbol p).
    { intros k p H Hp. apply (flushed_position_cases _ _ _ _ P) in H as [(m & Hm & <-)|[H _]]; [|by exists p].
      destruct (tp_row _ _ P _ _ Hm) as (_ & _ & _ & p0 & R1 & _ & R2 & R3). exists p0.
      split; [done|]. split; [unfold held_here in *; congruence|done]. }
    intros k1 k2 p1 p2 H1 H2 S1 S2 E.
    destruct (R _ _ H1 S1) as (a & A1 & A2 & A3). destruct (R _ _ H2 S2) as (b & B1 & B2 & B3).
    eapply (lg_symbol _ L); eauto. congruence.
  - intros k p H Hp. apply (flushed_position_cases _ _ _ _ P) in H as [(x & Hx & _)|[H _]].
    + by destruct (tp_row _ _ P _ _ Hx) as (_ & _ & ? & _).
    + by eapply lg_position.
Qed.

Lemma flush_tracks_orders db u : unit_ok db u -> tracks_orders (flush_rows u db) (un_orders u).
Proof.
  intros [T P F]. split; [apply T| |].
  - intros n o H. destruct (to_row _ _ T _ _ H) as (H1 & H2 & _). split; [done|]. split; [done|].
    exists o. split; [by eapply flushed_order|done].
  - intros k o0 n H Ho Hn. apply (flushed_order_cases _ _ _ _ T) in H as [(m & Hm & <-)|[H Hne]].
    + destruct (to_row _ _ T _ _ Hm) as ((_ & _ & Hb & _) & _).
      apply nonempty_Some in Hn as [Hn _]. assert (m = n) as -> by congruence. by exists o0.
    + by eapply to_all.
Qed.

Lemma flush_tracks_positions db u : unit_ok db u -> tracks_positions (flush_rows u db) (un_positions u).
Proof.
  intros [T P F]. split; [apply P|].
  intros x p H. destruct (tp_row _ _ P _ _ H) as (H1 & H2 & H3 & _).
  split; [done|]. split; [done|]. split; [done|]. exists p. split; [by eapply flushed_position|done].
Qed.

(** The unit's programs leave the durable copy alone, and raise nothing but a
    violated constraint. *)
Definition unit_inv (D : DB) (u : Unit) (s : Sess) : Prop :=
  disk s = D /\ ledger (work s) /\ unit_ok (work s) u.

Definition violated (D : DB) (s : Sess) (e : exn) : Prop := e = IntegrityError /\ disk s = D.

Lemma flush_run D u s :
  unit_inv D u s ->
  wp (flush_unit u) (fun s' r => match r with
    | inl u' => unit_inv D u' s' /\ work s' = flush_rows u (work s) /\
                un_orders u' = un_orders u /\ un_positions u' = un_positions u /\ un_fills u' = []
    | inr e => violated D s' e end) s.
Proof.
  intros (Hd & L & U). unfold flush_unit. wp_step. wp_step. apply wp_bind, wp_guard_or; intros _; [|done].
  wp_step. wp_step. wp_step. split; [|done]. split; [done|]. split; [by apply flush_ledger|].
  split; [exact (flush_tracks_orders _ _ U)|exact (flush_tracks_positions _ _ U)|constructor].
Qed.

(** ** Open orders *)

(** The facts of an open order, as the order object has them. *)
Definition shows (b : BrokerOpenOrder) (o : TradingOrder) : Prop :=
  o_symbol o = bo_symbol b /\ o_market o = bo_market b /\ o_side o = bo_side b /\
  o_limit_price o = bo_limit_price b /\ o_requested_quantity o = bo_requested_quantity b /\
  o_filled_quantity o = bo_filled_quantity b /\ o_remaining_quantity o = bo_remaining_quantity b /\
  o_status o = open_order_status b.

Definition shown (d : list (string * TradingOrder)) (b : BrokerOpenOrder) : Prop :=
  exists o, dict_get (bo_broker_order_id b) d = Some o /\ shows b o.

Lemma tracks_set db d n o o' :
  tracks_orders db d -> dict_get n d = Some o -> same_identity o o' -> check_order o' = true ->
  tracks_orders db (dict_set n o' d).
Proof.
  intros T Ho Hi Hc. pose proof Hi as (I1 & I2 & I3 & I4 & I5). split; [by apply dict_set_nodup, T| |].
  - intros m q. rewrite dict_get_set. destruct (String.eqb_spec m n) as [->|_]; [|apply T].
    intros [= <-]. destruct (to_row _ _ T _ _ Ho) as ((N1 & N2 & N3 & N4) & _ & o0 & R & J1 & J2 & J3 & J4 & J5).
    split; [split; [unfold ours in *; congruence|split; [congruence|split; [congruence|done]]]|].
    split; [done|]. exists o0. split; [by rewrite <- I1|]. by repeat split; congruence.
  - intros k o0 m H S N. destruct (to_all _ _ T _ _ _ H S N) as (q & Q1 & Q2).
    rewrite dict_get_set. destruct (String.eqb_spec m n) as [->|_]; [|by exists q].
    exists o'. split; [done|]. congruence.
Qed.

Lemma account_put_order db o :
  ledger db -> orders db !! o_id o = None -> ours o -> o_environment o = ENVIRONMENT ->
  check_order o = true ->
  (forall k q n, orders db !! k = Some q -> ours q -> nonempty (o_broker_order_id q) = Some n ->
     nonempty (o_broker_order_id o) <> Some n) ->
  ledger (put_order_row o db).
Proof.
  intros L Hid Ho He Hc Hn.
  assert (C : forall k q, orders (put_order_row o db) !! k = Some q ->
                (k = o_id o /\ q = o) \/ (k <> o_id o /\ orders db !! k = Some q)).
  { intros k q H. cbn in H. destruct (decide (k = o_id o)) as [->|Hk].
    - rewrite lookup_insert_eq in H. left. by injection H as ->.
    - rewrite lookup_insert_ne in H by done. by right. }
  split; try (intros k q H; apply C in H as [[-> ->]|[_ H]]; try done; by eapply L).
  - intros k1 k2 o1 o2 n H1 H2 S1 S2 N1 N2.
    apply C in H1 as [[-> ->]|[K1 H1]]; apply C in H2 as [[-> ->]|[K2 H2]]; [done| | |].
    + by destruct (Hn _ _ _ H2 S2 N2).
    + by destruct (Hn _ _ _ H1 S1 N1).
    + by eapply (lg_number _ L).
  - apply (lg_fill _ L).
  - apply (lg_position_id _ L).
  - apply (lg_symbol _ L).
  - apply (lg_position _ L).
Qed.

Lemma ledger_put_intent db i : ledger db -> ledger (put_intent i db).
Proof. intros [? ? ? ? ? ? ? ?]. by split. Qed.

(** A new row enters the unit under its number. *)
Lemma tracks_new db d n o :
  tracks_orders db d -> dict_get n d = None -> orders db !! o_id o = None -> numbered n o ->
  check_order o = true -> tracks_orders (put_order_row o db) (dict_set n o d).
Proof.
  intros T Hno Hid Hnum Hc. split; [by apply dict_set_nodup, T| |].
  - intros m q. rewrite dict_get_set. destruct (String.eqb_spec m n) as [->|_].
    + intros [= <-]. split; [done|]. split; [done|]. exists o. split; [apply lookup_insert_eq|done].
    + intros H. destruct (to_row _ _ T _ _ H) as (H1 & H2 & o0 & H3 & H4).
      split; [done|]. split; [done|]. exists o0. split; [|done]. cbn. rewrite lookup_insert_ne; [done|].
      congruence.
  - intros k o0 m H S N. cbn in H. rewrite dict_get_set. destruct (decide (k = o_id o)) as [->|Hk].
    + rewrite lookup_insert_eq in H. injection H as <-. destruct Hnum as (_ & _ & Hb & _).
      apply nonempty_Some in N as [N _]. assert (m = n) as -> by congruence.
      rewrite String.eqb_refl. by exists o.
    + rewrite lookup_insert_ne in H by done.
      destruct (to_all _ _ T _ _ _ H S N) as (q & Q1 & Q2).
      destruct (String.eqb_spec m n) as [->|_]; [congruence|by exists q].
Qed.

Lemma add_event_run sha256 order event_type payload at_ corr u s :
  wp (_add_order_event sha256 order event_type payload at_ corr u) (fun s' r =>
    s' = s /\ exists u', r = inl u' /\ un_orders u' = un_orders u /\
      un_positions u' = un_positions u /\ un_fills u' = un_fills u) s.
Proof.
  unfold _add_order_event. wp_step. wp_step. unfold after.
  destruct (event_known _ _); wp_step; (split; [done|]); by eexists.
Qed.

(** Rounds that change neither the working copy nor anything but the objects
    and the events keep the invariant. *)
Lemma unit_inv_orders D u u' s :
  unit_inv D u s -> tracks_orders (work s) (un_orders u') -> un_positions u' = un_positions u ->
  un_fills u' = un_fills u -> unit_inv D u' s.
Proof.
  intros (H1 & H2 & [T P F]) T' EP EF. split; [done|]. split; [done|].
  split; [done|by rewrite EP|by rewrite EF].
Qed.

Lemma check_order_true o : check_order o = true <-> order_ok o.
Proof.
  unfold check_order, order_ok.
  rewrite !andb_true_iff, !Z.leb_le, Z.ltb_lt, Z.eqb_eq. tauto.
Qed.

Lemma open_order_valid_ok b : open_order_ok b -> open_order_valid b = true /\
  open_order_cancelled b = 0.
Proof.
  intros []. unfold open_order_valid, open_order_cancelled.
  rewrite andb_true_iff, Z.ltb_lt, Z.leb_le. lia.
Qed.

Lemma projected_order_ok order b : open_order_ok b ->
  check_order (projected_order order b) = true /\ same_identity order (projected_order order b) /\
  shows b (projected_order order b).
Proof.
  intros H. destruct (open_order_valid_ok _ H) as [_ Hc]. destruct H.
  split; [|by repeat split]. apply check_order_true. unfold order_ok. cbn. rewrite Hc. lia.
Qed.

Lemma bumped_same a b : check_order b = true -> same_identity a b ->
  check_order (bumped a b) = true /\ same_identity a (bumped a b).
Proof. intros Hc Hi. unfold bumped. by destruct (same_order_state b a). Qed.

Lemma bumped_shows a b x : shows x b -> shows x (bumped a b).
Proof. unfold bumped. by destruct (same_order_state b a). Qed.

Lemma isdigit_nonempty s : isdigit s = true -> s <> EmptyString.
Proof. by intros H ->. Qed.

Lemma shown_set d n o b :
  shown d b -> (bo_broker_order_id b = n -> shows b o) -> shown (dict_set n o d) b.
Proof.
  intros (q & Hq & Hs) Ho. unfold shown. rewrite dict_get_set.
  destruct (String.eqb_spec (bo_broker_order_id b) n) as [E|]; [|by exists q].
  exists o. split; [done|]. by apply Ho.
Qed.

Definition opened (D : DB) (d0 : list (string * TradingOrder)) (before : list BrokerOpenOrder)
  (u : Unit) (s : Sess) : Prop :=
  unit_inv D u s /\ un_fills u = [] /\ Forall (shown (un_orders u)) before /\
  forall n, n ∉ map bo_broker_order_id before -> dict_get n (un_orders u) = dict_get n d0.

Lemma clash_fresh db o : ledger db -> clashes o db = false ->
  orders db !! o_id o = None /\
  forall k q n, orders db !! k = Some q -> ours q -> ours o -> o_environment o = ENVIRONMENT ->
    nonempty (o_broker_order_id q) = Some n -> o_broker_order_id o <> Some n.
Proof.
  intros L Hc. unfold clashes in Hc. apply existsb_false_Forall in Hc. rewrite Forall_forall in Hc.
  assert (H : forall k q, orders db !! k = Some q -> orders_clash o q = false).
  { intros k q Hq. apply Hc, elem_of_rows. by exists k. }
  split.
  - destruct (orders db !! o_id o) as [q|] eqn:E; [|done]. apply H in E as Hq.
    unfold orders_clash in Hq. by rewrite (lg_order_id _ L _ _ E), String.eqb_refl in Hq.
  - intros k q n Hq Sq So Eo [Hn _]%nonempty_Some Hb. pose proof (H _ _ Hq) as Hf.
    unfold orders_clash in Hf. rewrite Hb, Hn, Eo, (lg_environment _ L _ _ Hq Sq) in Hf.
    unfold ours in *. rewrite So, Sq, !String.eqb_refl, !orb_false_iff in Hf. destruct Hf as [_ Hf].
    rewrite !bool_decide_eq_true_2 in Hf by eauto. discriminate Hf.
Qed.

Section Projecting.
Context (sha256 : string -> string) (observed_at : Z) (correlation_id : string) (D : DB).

Lemma import_run b u s :
  open_order_ok b -> unit_inv D u s -> un_fills u = [] ->
  dict_get (bo_broker_order_id b) (un_orders u) = None ->
  wp (_import_open_order sha256 b observed_at correlation_id u) (fun s' r => match r with
    | inl (o, u') => shows b o /\ un_orders u' = un_orders u /\ un_positions u' = un_positions u /\
        un_fills u' = [] /\ disk s' = D /\ ledger (work s') /\
        tracks_orders (work s') (dict_set (bo_broker_order_id b) o (un_orders u)) /\
        tracks_positions (work s') (un_positions u)
    | inr e => violated D s' e end) s.
Proof.
  intros Hb HI HF Hnone. destruct (open_order_valid_ok _ Hb) as [Hv Hc].
  unfold _import_open_order. rewrite Hv. wp_step. apply wp_guard_or; intros Hg; [|done].
  repeat wp_step. eapply wp_mono; [apply (flush_run D u); exact HI|].
  intros s1 [u1|e] H1; [|done]. destruct H1 as ((Hd & L & U) & _ & EO & EP & EF).
  unfold after at 1. do 10 wp_step. apply wp_bind, wp_guard_or; clear Hg; intros Hg; [|done].
  apply andb_true_iff in Hg as [Hg1 Hg2]. apply negb_true_iff in Hg1. cbn [work with_work next_uuid] in Hg1.
  set (o := imported_order _ _ _ _ _ _ _ _) in *. repeat wp_step.
  eapply wp_mono; [apply add_event_run|]. intros s2 r (-> & u2 & -> & EO2 & EP2 & EF2). repeat wp_step.
  cbn [work with_work next_uuid disk].
  set (db := put_intent _ (work s1)) in *.
  assert (L1 : ledger db) by by apply ledger_put_intent.
  destruct (clash_fresh _ _ L1 Hg1) as [Hid Hnum].
  assert (Hnn : numbered (bo_broker_order_id b) o).
  { split; [done|]. split; [done|]. split; [done|]. destruct Hb as [[Hd1 _] _ _ _ _ _ _].
    by apply isdigit_nonempty. }
  assert (T1 : tracks_orders db (un_orders u)).
  { rewrite <- EO. destruct U as [[T1 T2 T3] _ _]. by split. }
  split; [by repeat split|]. split; [congruence|]. split; [congruence|]. split; [congruence|].
  split; [done|]. split; [|split].
  - apply account_put_order; try done. intros k q n Hq Sq Hn [Hn' _]%nonempty_Some. by eapply Hnum.
  - by apply tracks_new.
  - rewrite <- EP. destruct U as [_ [P1 P2] _]. by split.
Qed.
Lemma open_order_run d0 b before u s :
  open_order_ok b -> bo_broker_order_id b ∉ map bo_broker_order_id before -> opened D d0 before u s ->
  wp (project_open_order sha256 observed_at correlation_id b u) (fun s' r => match r with
    | inl u' => opened D d0 (before ++ [b]) u' s' | inr e => violated D s' e end) s.
Proof.
  intros Hb Hnew (HI & HF & HS & HO). unfold project_open_order.
  assert (Hother : forall o d, un_orders u = d -> forall n, n ∉ map bo_broker_order_id (before ++ [b]) ->
    dict_get n (dict_set (bo_broker_order_id b) o d) = dict_get n d0).
  { intros o d <- n Hn. rewrite map_app in Hn. apply not_elem_of_app in Hn as [Hn Hn'].
    rewrite dict_get_set. destruct (String.eqb_spec n (bo_broker_order_id b)) as [->|_]; [|by apply HO].
    destruct Hn'. apply list_elem_of_here. }
  assert (Hkeep : forall n o, bo_broker_order_id b = n -> shows b o ->
    forall d, un_orders u = d -> Forall (shown (dict_set n o d)) (before ++ [b])).
  { intros n o <- Ho d <-. apply Forall_app. split.
    - rewrite Forall_forall in *. intros x Hx. apply shown_set; [by apply HS|].
      intros E. destruct Hnew. rewrite <- E. by apply list_elem_of_fmap_2.
    - constructor; [|constructor]. exists o. by rewrite dict_get_set, String.eqb_refl. }
  destruct (dict_get (bo_broker_order_id b) (un_orders u)) as [o|] eqn:Ho.
  - unfold _apply_open_order. rewrite (proj1 (open_order_valid_ok _ Hb)). cbn [negb reject_if].
    destruct (projected_order_ok o b Hb) as (P1 & P2 & P3). destruct (bumped_same _ _ P1 P2) as [B1 B2].
    apply (bumped_shows o) in P3. set (o' := bumped o (projected_order o b)) in *.
    wp_step. apply wp_of_result; [intros [o1 ch] [= <- <-]|done]. unfold after.
    assert (HI' : forall u', un_orders u' = dict_set (bo_broker_order_id b) o' (un_orders u) ->
      un_positions u' = un_positions u -> un_fills u' = un_fills u -> opened D d0 (before ++ [b]) u' s).
    { intros u' E1 E2 E3. split; [|split; [congruence|rewrite E1; split; [by eapply Hkeep|by apply Hother]]].
      eapply unit_inv_orders; [done| |done|done]. rewrite E1.
      destruct HI as (_ & _ & [T _ _]). by eapply tracks_set. }
    destruct (negb _); [|wp_step; by apply HI'].
    wp_step. eapply wp_mono; [apply add_event_run|]. intros s2 r (-> & u2 & -> & E1 & E2 & E3).
    repeat wp_step. by apply HI'.
  - wp_step. eapply wp_mono; [by apply import_run|].
    intros s1 [[o u1]|e] H; [|done]. destruct H as (Hs & EO & EP & EF & Hd & L & T & P).
    repeat wp_step. split; [|split; [|split]].
    + split; [done|]. split; [done|]. split; cbn; [by rewrite EO|by rewrite EP|by rewrite EF].
    + cbn. by rewrite EF.
    + cbn. by eapply Hkeep.
    + cbn. by apply Hother.
Qed.

Lemma open_orders_run d0 l u s :
  Forall open_order_ok l -> NoDup (map bo_broker_order_id l) -> opened D d0 [] u s ->
  wp (fold_prog (project_open_order sha256 observed_at correlation_id) l u) (fun s' r => match r with
    | inl u' => opened D d0 l u' s' | inr e => violated D s' e end) s.
Proof.
  intros HF HN. apply (wp_fold_prog (opened D d0) (violated D)).
  intros before x after u' s' -> HI. apply open_order_run; [| |done].
  - rewrite Forall_forall in HF. apply HF. apply elem_of_app. right. apply list_elem_of_here.
  - rewrite map_app in HN. apply NoDup_app in HN as (_ & H & _). intros Hx. apply (H _ Hx).
    apply list_elem_of_here.
Qed.

(** *** Fills *)

Lemma substring_whole s : substring 0 (String.length s) s = s.
Proof. induction s as [|c s IH]; [done|]. cbn. by rewrite IH. Qed.

Lemma broker_time_ok at_ raw : clock_text raw -> exists t, _broker_time at_ raw = inr t.
Proof.
  intros [Hd [[[h m] sec] Hc]]. unfold six_digits, digits_of_length, isdigit in Hd.
  apply andb_true_iff in Hd as [Hd Hl]. apply andb_true_iff in Hd as [_ Hd]. apply Nat.eqb_eq in Hl.
  assert (Hz : last_chars 6 (zfill 6 (strip raw)) = raw).
  { rewrite strip_id by by apply digits_num. unfold zfill, last_chars. rewrite Hl. cbn [Nat.sub zeros].
    destruct raw as [|c r]; [done|]. cbn [all_chars] in Hd. apply andb_true_iff in Hd as [Hc' _].
    assert (Ascii.eqb c "+" || Ascii.eqb c "-" = false) as ->.
    { apply orb_false_iff. split; by destruct (Ascii.eqb_spec c "+"), (Ascii.eqb_spec c "-"); subst. }
    change (EmptyString +:+ String c r) with (String c r). rewrite Hl. cbn [Nat.sub]. rewrite <- Hl.
    apply substring_whole. }
  unfold _broker_time. rewrite Hz, Hc. by eexists.
Qed.

Lemma fill_run d f over occ u s :
  fill_summary_ok f -> unit_inv D u s -> un_orders u = d ->
  wp (project_fill sha256 observed_at over f (occ, u)) (fun s' r => match r with
    | inl (occ', u') => unit_inv D u' s' /\ un_orders u' = d
    | inr e => violated D s' e end) s.
Proof.
  intros Hf HI <-. unfold project_fill.
  destruct (dict_get _ (un_orders u)) as [o|]; [|by wp_step].
  destruct (over _); [by wp_step|]. wp_step. wp_step. unfold after.
  destruct (fill_known _ _); [by wp_step|].
  destruct (broker_time_ok observed_at _ (fs_time _ Hf)) as [t Ht].
  wp_step. apply wp_of_result; [intros t' _|rewrite Ht; done].
  repeat wp_step. split; [|done]. destruct HI as (Hd & L & [T P F]).
  split; [done|]. split; [done|]. split; [done|done|]. cbn. apply Forall_app. split; [done|].
  constructor; [|constructor]. destruct Hf. unfold check_fill. cbn in *.
  rewrite !andb_true_iff, !Z.ltb_lt, !Z.leb_le. lia.
Qed.

Lemma fills_run d l over u s :
  Forall fill_summary_ok l -> unit_inv D u s -> un_orders u = d ->
  wp (fold_prog (project_fill sha256 observed_at over) l ([], u)) (fun s' r => match r with
    | inl (occ', u') => unit_inv D u' s' /\ un_orders u' = d
    | inr e => violated D s' e end) s.
Proof.
  intros HF HI Hd. eapply wp_mono.
  - apply (wp_fold_prog (fun _ (st : list (string * Z) * Unit) s => unit_inv D st.2 s /\ un_orders st.2 = d)
      (violated D)); [|done].
    intros before x after [occ u'] s' -> [H1 H2]. rewrite Forall_forall in HF.
    eapply wp_mono; [eapply fill_run; [|done|done]|].
    + apply HF, elem_of_app. right. apply list_elem_of_here.
    + by intros s2 [[occ2 u2]|e].
  - by intros s2 [[occ2 u2]|e].
Qed.

(** *** Orders the broker no longer lists *)

(** The rounds after the open orders keep the objects the snapshot lists. *)
Definition settled_orders (opens : list BrokerOpenOrder) (u : Unit) (s : Sess) : Prop :=
  unit_inv D u s /\ Forall (shown (un_orders u)) opens.

Lemma check_set_quantities o f c st :
  check_order o = true -> 0 <= f -> 0 <= c -> f + c <= o_requested_quantity o ->
  check_order (set_o_status (set_quantities o f c (o_requested_quantity o - f - c)) st) = true.
Proof.
  intros H%check_order_true. intros. apply check_order_true. unfold order_ok in *. cbn. lia.
Qed.

Lemma after_total_ok o total : check_order o = true -> total <= o_requested_quantity o ->
  check_order (order_after_total o total) = true /\ same_identity o (order_after_total o total).
Proof.
  intros Hc Hle. pose proof Hc as Hq%check_order_true. unfold order_after_total, order_ok in *.
  destruct (Z.eqb_spec total (o_requested_quantity o)) as [->|].
  - split; [|by repeat split]. apply check_order_true. unfold order_ok. cbn. lia.
  - destruct (Z.ltb_spec 0 total); [|done].
    split; [|by repeat split]. apply check_order_true. unfold order_ok. cbn. lia.
Qed.

Lemma after_cancel_ok o total : check_order o = true -> 0 <= total <= o_requested_quantity o ->
  check_order (order_after_cancel o total) = true /\ same_identity o (order_after_cancel o total).
Proof.
  intros Hc Hle. pose proof Hc as Hq%check_order_true. split; [|by repeat split].
  apply check_order_true. unfold order_ok, order_after_cancel in *.
  destruct (total =? _); cbn; lia.
Qed.

(** The object of number [n] after the round of its total, and after the round
    of confirmed cancellations. *)
Definition total_round (open : string -> bool) (n : string) (total : Z) (o : TradingOrder) :
  TradingOrder :=
  if open n || (o_requested_quantity o <? total) || bool_decide (o_status o = CANCEL_PENDING) then o
  else bumped o (order_after_total o total).

Definition cancel_round (open : string -> bool) (totals : list (string * Z)) (n : string)
  (o : TradingOrder) : TradingOrder :=
  let total := default (o_filled_quantity o) (dict_get n totals) in
  if bool_decide (o_status o <> CANCEL_PENDING) || open n || (total <? 0) ||
     (o_requested_quantity o <? total) then o
  else bumped o (order_after_cancel o total).

Lemma bumped_refl o o' : same_order_state o' o = true -> bumped o o' = o'.
Proof. unfold bumped. by intros ->. Qed.

(** A round replaces one object, and may add an event and a count. *)
Definition replaced (n : string) (o' : TradingOrder) (u u' : Unit) : Prop :=
  un_orders u' = dict_set n o' (un_orders u) /\ un_positions u' = un_positions u /\
  un_fills u' = un_fills u.

Lemma replace_run n o o' u s event_type payload :
  wp (if same_order_state o' o then mret (with_order n o' u)
      else u ← _add_order_event sha256 (bumped o o') event_type payload observed_at correlation_id
                 (with_order n (bumped o o') u);
           mret (counting C_UPDATED_ORDERS u))
    (fun s' r => s' = s /\ exists u', r = inl u' /\ replaced n (bumped o o') u u') s.
Proof.
  destruct (same_order_state o' o) eqn:E.
  - wp_step. split; [done|]. eexists. split; [done|]. by rewrite bumped_refl.
  - wp_step. eapply wp_mono; [apply add_event_run|]. intros s2 r (-> & u2 & -> & E1 & E2 & E3).
    repeat wp_step. split; [done|]. eexists. by split.
Qed.

Lemma project_total_run open n t u s :
  wp (project_total sha256 observed_at correlation_id open (n, t) u) (fun s' r =>
    s' = s /\ exists u', r = inl u' /\
      ((u' = u /\ forall o, dict_get n (un_orders u) = Some o -> total_round open n t o = o) \/
       exists o, dict_get n (un_orders u) = Some o /\ replaced n (total_round open n t o) u u')) s.
Proof.
  unfold project_total, total_round. destruct (dict_get n (un_orders u)) as [o|] eqn:Ho.
  2: { wp_step. split; [done|]. eexists. split; [done|]. by left. }
  destruct (open n || _ || _) eqn:E.
  - wp_step. split; [done|]. eexists. split; [done|]. left. split; [done|]. intros o' [= <-].
    by rewrite E.
  - eapply wp_mono; [apply replace_run|]. intros s' r (-> & u' & -> & H). split; [done|].
    eexists. split; [done|]. right. exists o. by rewrite E.
Qed.

Lemma project_cancel_run open totals n u s :
  wp (project_cancel sha256 observed_at correlation_id open totals n u) (fun s' r =>
    s' = s /\ exists u', r = inl u' /\
      ((u' = u /\ forall o, dict_get n (un_orders u) = Some o -> cancel_round open totals n o = o) \/
       exists o, dict_get n (un_orders u) = Some o /\ replaced n (cancel_round open totals n o) u u')) s.
Proof.
  unfold project_cancel, cancel_round. destruct (dict_get n (un_orders u)) as [o|] eqn:Ho.
  2: { wp_step. split; [done|]. eexists. split; [done|]. by left. }
  destruct (bool_decide _ || open n) eqn:E1; cbn [orb].
  { wp_step. split; [done|]. eexists. split; [done|]. left. split; [done|]. intros o' [= <-].
    by rewrite E1. }
  destruct ((_ <? 0) || _) eqn:E2.
  { wp_step. split; [done|]. eexists. split; [done|]. left. split; [done|]. intros o' [= <-].
    by rewrite E1, <- orb_assoc, E2, orb_true_r. }
  eapply wp_mono; [apply replace_run|]. intros s' r (-> & u' & -> & H). split; [done|].
  eexists. split; [done|]. right. exists o. by rewrite E1, <- orb_assoc, E2.
Qed.

Lemma total_round_ok open n t o : check_order o = true ->
  check_order (total_round open n t o) = true /\ same_identity o (total_round open n t o).
Proof.
  intros Hc. unfold total_round. destruct (open n || _ || _) eqn:E; [done|].
  rewrite !orb_false_iff, Z.ltb_ge in E. destruct E as [[_ E] _].
  destruct (after_total_ok o t Hc E) as [H1 H2]. by apply bumped_same.
Qed.

Lemma cancel_round_ok open totals n o : check_order o = true ->
  check_order (cancel_round open totals n o) = true /\ same_identity o (cancel_round open totals n o).
Proof.
  intros Hc. unfold cancel_round. destruct (bool_decide _ || _ || _ || _) eqn:E; [done|].
  rewrite !orb_false_iff, !Z.ltb_ge in E. destruct E as [[_ E1] E2].
  destruct (after_cancel_ok o (default (o_filled_quantity o) (dict_get n totals)) Hc) as [H1 H2]; [lia|].
  by apply bumped_same.
Qed.

(** A loop of such rounds maps each object by its round. *)
Definition mapped {X} (key : X -> string) (g : X -> TradingOrder -> TradingOrder) (l : list X)
  (d d' : list (string * TradingOrder)) : Prop :=
  forall n, dict_get n d' =
    match List.find (fun x => String.eqb (key x) n) l with
    | Some x => g x <$> dict_get n d
    | None => dict_get n d
    end.

Lemma find_app_not {X} (P : X -> bool) l x : List.find P (l ++ [x]) =
  match List.find P l with Some y => Some y | None => if P x then Some x else None end.
Proof. induction l as [|y l IH]; cbn; [done|]. by destruct (P y). Qed.

Lemma stage_run {X} (key : X -> string) g (f : X -> Unit -> prog Unit) l u s :
  (forall x u s, wp (f x u) (fun s' r => s' = s /\ exists u', r = inl u' /\
      ((u' = u /\ forall o, dict_get (key x) (un_orders u) = Some o -> g x o = o) \/
       exists o, dict_get (key x) (un_orders u) = Some o /\ replaced (key x) (g x o) u u')) s) ->
  (forall x o, check_order o = true -> check_order (g x o) = true /\ same_identity o (g x o)) ->
  NoDup (map key l) -> unit_inv D u s ->
  wp (fold_prog f l u) (fun s' r => s' = s /\ exists u', r = inl u' /\ unit_inv D u' s /\
    mapped key g l (un_orders u) (un_orders u')) s.
Proof.
  intros Hf Hg HN HI.
  eapply wp_mono; [apply (wp_fold_prog (fun before u' s' => s' = s /\ unit_inv D u' s /\
    mapped key g before (un_orders u) (un_orders u')) (fun _ _ => False))|].
  - intros before x after u1 s1 -> (-> & HI1 & HM).
    eapply wp_mono; [apply Hf|]. intros s2 r (-> & u2 & -> & H).
    assert (Hx : dict_get (key x) (un_orders u1) = dict_get (key x) (un_orders u)).
    { rewrite HM. destruct (List.find _ before) as [y|] eqn:E; [|done].
      apply List.find_some in E as [Hy E]. apply String.eqb_eq in E.
      rewrite map_app in HN. apply NoDup_app in HN as (_ & HN & _). destruct (HN (key x)).
      - rewrite <- E. apply list_elem_of_In. by apply List.in_map.
      - apply list_elem_of_here. }
    assert (Hnone : List.find (fun y => String.eqb (key y) (key x)) before = None).
    { destruct (List.find _ before) as [y|] eqn:E; [|done].
      apply List.find_some in E as [Hy E]. apply String.eqb_eq in E.
      rewrite map_app in HN. apply NoDup_app in HN as (_ & HN & _). destruct (HN (key x)).
      - rewrite <- E. apply list_elem_of_In. by apply List.in_map.
      - apply list_elem_of_here. }
    split; [done|]. destruct H as [[-> Hid]|(o & Ho & E1 & E2 & E3)].
    + split; [done|]. intros n. rewrite HM, find_app_not. cbn beta.
      destruct (List.find (fun x => String.eqb (key x) n) before) eqn:E; [done|].
      destruct (String.eqb_spec (key x) n) as [<-|].
      2: done.
      rewrite <- Hx. destruct (dict_get (key x) (un_orders u1)) as [o|] eqn:Ho; [|done]. cbn.
      by rewrite (Hid o).
    + destruct HI1 as (Hd & L & [T P F]). split.
      * destruct (to_row _ _ T _ _ Ho) as (_ & Hc & _). destruct (Hg x o Hc) as [G1 G2].
        split; [done|]. split; [done|]. split; [rewrite E1|by rewrite E2|by rewrite E3].
        by eapply tracks_set.
      * intros n. rewrite E1, dict_get_set, find_app_not. cbn beta. destruct (String.eqb_spec n (key x)) as [->|Hne].
        -- rewrite Hnone, String.eqb_refl, <- Hx, Ho. done.
        -- rewrite HM. destruct (List.find (fun x => String.eqb (key x) n) before); [done|].
           rewrite (proj2 (String.eqb_neq (key x) n)); [done|congruence].
  - split; [done|]. split; [done|]. by intros n.
  - intros s1 [u1|e] H; [|done]. destruct H as (-> & H1 & H2). split; [done|]. by exists u1.
Qed.

Lemma fill_totals_nodup l : NoDup (fill_totals l).*1.
Proof.
  unfold fill_totals. assert (H : NoDup (@nil (string * Z)).*1) by apply NoDup_nil_2.
  revert H. generalize (@nil (string * Z)). induction l as [|f l IH]; intros d H; [done|].
  apply IH. by apply dict_set_nodup.
Qed.

Lemma find_total (l : list (string * Z)) n :
  List.find (fun x => String.eqb x.1 n) l = (fun t => (n, t)) <$> dict_get n l.
Proof.
  unfold dict_get. induction l as [|[k t] l IH]; cbn; [done|].
  rewrite (String.eqb_sym n k). destruct (String.eqb_spec k n) as [->|]; [done|]. apply IH.
Qed.

Lemma find_key (l : list string) n :
  List.find (fun x => String.eqb x n) l = if bool_decide (n ∈ l) then Some n else None.
Proof.
  induction l as [|k l IH]; cbn; [done|]. destruct (String.eqb_spec k n) as [->|Hne].
  - rewrite bool_decide_eq_true_2; [done|]. apply list_elem_of_here.
  - rewrite IH. destruct (decide (n ∈ l)) as [H|H].
    + rewrite !bool_decide_eq_true_2; [done| |done]. by apply list_elem_of_further.
    + rewrite !bool_decide_eq_false_2; [done| |done]. by intros [|]%elem_of_cons.
Qed.

(** The object of an order the snapshot does not list as open, after the whole
    projection, from the totals of its fills. *)
Definition closing (open : string -> bool) (totals : list (string * Z)) (n : string)
  (o : TradingOrder) : TradingOrder :=
  cancel_round open totals n
    (match dict_get n totals with Some t => total_round open n t o | None => o end).

(** The dictionary of the orders after the projection. *)
Definition projected_dict (snapshot : BrokerAccountSnapshot) (d0 d : list (string * TradingOrder)) : Prop :=
  Forall (shown d) (sn_open_orders snapshot) /\
  forall n, n ∉ map bo_broker_order_id (sn_open_orders snapshot) ->
    dict_get n d = closing (fun n => bool_decide (n ∈ map bo_broker_order_id (sn_open_orders snapshot)))
                     (fill_totals (sn_fills snapshot)) n <$> dict_get n d0.

Lemma order_rounds snapshot d0 u s :
  let open n := bool_decide (n ∈ map bo_broker_order_id (sn_open_orders snapshot)) in
  let totals := fill_totals (sn_fills snapshot) in
  unit_inv D u s -> Forall (shown (un_orders u)) (sn_open_orders snapshot) ->
  (forall n, n ∉ map bo_broker_order_id (sn_open_orders snapshot) ->
     dict_get n (un_orders u) = dict_get n d0) ->
  wp (u ← fold_prog (project_total sha256 observed_at correlation_id open) totals u;
      fold_prog (project_cancel sha256 observed_at correlation_id open totals) (un_orders u).*1 u)
    (fun s' r => s' = s /\ exists u', r = inl u' /\ unit_inv D u' s /\
       projected_dict snapshot d0 (un_orders u')) s.
Proof.
  intros open totals HI HS HO. apply wp_bind.
  eapply wp_mono.
  { apply (stage_run fst (fun x => total_round open x.1 x.2)); [| |apply fill_totals_nodup|exact HI].
    - intros [n t] u1 s1. apply project_total_run.
    - intros [n t] o Hc. by apply total_round_ok. }
  intros s1 r (-> & u1 & -> & HI1 & HM1). unfold after.
  eapply wp_mono.
  { apply (stage_run id (cancel_round open totals)); [| | |exact HI1].
    - intros n u2 s2. apply project_cancel_run.
    - intros n o Hc. by apply cancel_round_ok.
    - rewrite map_id. destruct HI1 as (_ & _ & [T _ _]). apply T. }
  intros s2 r (-> & u2 & -> & HI2 & HM2). split; [done|]. exists u2. split; [done|]. split; [done|].
  assert (H1 : forall n, dict_get n (un_orders u1) =
    (match dict_get n totals with Some t => total_round open n t | None => id end) <$> dict_get n (un_orders u)).
  { intros n. rewrite HM1, (find_total totals n). destruct (dict_get n totals); cbn; [done|].
    by destruct (dict_get n (un_orders u)). }
  assert (H2 : forall n, dict_get n (un_orders u2) = cancel_round open totals n <$> dict_get n (un_orders u1)).
  { intros n. rewrite HM2. unfold id. rewrite find_key. case_bool_decide as Hn; [done|].
    apply dict_get_None in Hn. by rewrite Hn. }
  split.
  - rewrite Forall_forall in *. intros b Hb. destruct (HS _ Hb) as (o & Ho & Hs).
    exists o. split; [|done]. rewrite H2, H1, Ho. cbn.
    assert (Hopen : open (bo_broker_order_id b) = true).
    { apply bool_decide_eq_true. by apply list_elem_of_fmap_2. }
    assert ((match dict_get (bo_broker_order_id b) totals with
             | Some t => total_round open (bo_broker_order_id b) t | None => id end) o = o) as ->.
    { destruct (dict_get _ totals); [|done]. unfold total_round. by rewrite Hopen. }
    unfold cancel_round. by rewrite Hopen, orb_true_r.
  - intros n Hn. rewrite H2, H1, HO by done. unfold closing.
    fold open totals. by destruct (dict_get n d0), (dict_get n totals).
Qed.

(** *** Positions *)

(** A replay of checked fills computes a non-negative quantity and average. *)
Definition replay_ok (r : Z * decimal) : Prop := 0 <= r.1 /\ nonneg r.2.

Lemma replay_fill_ok r f side :
  replay_ok r -> check_fill f = true -> exists r', replay_fill r (f, side) = inr r' /\ replay_ok r'.
Proof.
  destruct r as [q a]. intros [Hq Ha] Hf. unfold check_fill in Hf.
  rewrite !andb_true_iff, !Z.ltb_lt, !Z.leb_le in Hf. destruct Hf as [[[Hf1 Hf2] _] _]. cbn in *.
  destruct side.
  - destruct (ddiv _ _) as [d|] eqn:E.
    + eexists. split; [done|]. split; cbn; [lia|]. eapply ddiv_nonneg; [| |exact E].
      * apply dadd_nonneg; apply dmul_nonneg; unfold nonneg in *; cbn; lia.
      * apply of_int_nonneg. lia.
    + apply ddiv_None in E. cbn in E. lia.
  - eexists. split; [done|]. split; cbn; [lia|]. destruct (_ =? 0); [unfold nonneg; cbn; lia|done].
Qed.

Lemma replay_fills_ok l r :
  replay_ok r -> Forall (fun x => check_fill x.1 = true) l ->
  exists r', replay_fills r l = inr r' /\ replay_ok r'.
Proof.
  revert r. induction l as [|[f side] l IH]; intros r Hr Hl; [by exists r|].
  apply Forall_cons in Hl as [Hf Hl]. destruct (replay_fill_ok r f side Hr Hf) as (r1 & E & Hr1).
  destruct (IH r1 Hr1 Hl) as (r2 & E2 & Hr2). exists r2. split; [|done]. cbn [replay_fills].
  by rewrite E.
Qed.

Lemma replay_managed_ok db symbol : ledger db ->
  exists r, _replay_managed_position db symbol = inr r /\ (forall x, r = Some x -> replay_ok x).
Proof.
  intros L. unfold _replay_managed_position. destruct (managed_fills db symbol) as [|x l] eqn:E.
  { by exists None. }
  destruct (replay_fills_ok (x :: l) (0, dzero)) as (r & Er & Hr).
  - split; cbn; [lia|unfold nonneg; cbn; lia].
  - rewrite <- E. apply Forall_forall. intros [f side] Hf. unfold managed_fills in Hf.
    apply sort_by_elem, list_elem_of_omap in Hf as (g & Hg & Eg). apply elem_of_rows in Hg as [k Hk].
    destruct (orders db !! f_order_id g) as [o|]; [|discriminate Eg]. cbn in Eg.
    destruct (intents db !! o_intent_id o); [|discriminate Eg]. cbn in Eg.
    destruct (_ && _); [|discriminate Eg]. injection Eg as <- <-. by eapply lg_fill.
  - exists (Some r). rewrite Er. split; [done|]. by intros y [= <-].
Qed.

Definition managed_ok (quantity : Z) (m : Z * decimal) : Prop := 0 <= m.1 <= quantity /\ nonneg m.2.

Lemma managed_projection_ok position quantity replayed :
  0 < quantity -> (forall x, replayed = Some x -> replay_ok x) ->
  (forall p, position = Some p -> check_position p = true) ->
  managed_ok quantity (_managed_projection position quantity replayed).
Proof.
  intros Hq Hr Hp. unfold _managed_projection. destruct (Z.leb_spec quantity 0); [lia|].
  set (start := match replayed with Some r => r | None => _ end).
  assert (Hs : nonneg start.2).
  { unfold start. destruct replayed as [r|]; [by apply Hr|]. cbn. destruct position as [p|]; [|unfold nonneg; cbn; lia].
    specialize (Hp p eq_refl). unfold check_position in Hp. rewrite !andb_true_iff, !Z.leb_le in Hp.
    unfold nonneg. tauto. }
  destruct start as [q a]. split; cbn; [lia|].
  destruct (0 <? _); [done|unfold nonneg; cbn; lia].
Qed.

Lemma origin_ok quantity m : 0 < quantity -> 0 <= m <= quantity ->
  match _position_origin quantity m with
  | EXTERNAL => m =? 0
  | CRESTA_MANAGED => (m =? quantity) && (0 <? quantity)
  | MIXED => (0 <? m) && (m <? quantity)
  end = true.
Proof.
  intros. unfold _position_origin. destruct (Z.leb_spec m 0); [lia|].
  destruct (Z.leb_spec quantity m); lia.
Qed.

(** The facts of a held position. *)
Definition holds_position (b : BrokerPosition) (p : Position) : Prop :=
  held_here p /\ p_symbol p = bp_symbol b /\ p_quantity p = bp_quantity b /\
  p_available_quantity p = bp_available_quantity b /\ p_average_price p = bp_average_price b /\
  p_state p = POS_OPEN.

Lemma written_position_ok id version origin b m (p : Position) :
  broker_position_ok b -> managed_ok (bp_quantity b) m ->
  p = mkPosition id ACCOUNT_ALIAS (bp_symbol b) (bp_quantity b) (bp_available_quantity b) m.1
        (bp_average_price b) m.2 (state_of_quantity (bp_quantity b))
        (if bp_quantity b =? 0 then origin else _position_origin (bp_quantity b) m.1) version ->
  check_position p = true /\ holds_position b p.
Proof.
  intros Hb [Hm1 Hm2] ->. destruct Hb as [_ Hq Ha _]. unfold state_of_quantity.
  destruct (Z.eqb_spec (bp_quantity b) 0); [lia|]. split; [|done].
  unfold check_position, between. cbn. rewrite origin_ok by lia. rewrite orb_true_r, andb_true_r.
  rewrite !andb_true_iff, !Z.leb_le. unfold nonneg in Hm2. lia.
Qed.

Lemma tracks_positions_set db d x p p' :
  tracks_positions db d -> dict_get x d = Some p -> same_owner p p' -> check_position p' = true ->
  tracks_positions db (dict_set x p' d).
Proof.
  intros P Hp (I1 & I2 & I3) Hc. split; [by apply dict_set_nodup, P|].
  intros y q. rewrite dict_get_set. destruct (String.eqb_spec y x) as [->|_]; [|apply P].
  intros [= <-]. destruct (tp_row _ _ P _ _ Hp) as (H1 & H2 & H3 & p0 & R & J1 & J2 & J3).
  split; [unfold held_here in *; congruence|]. split; [congruence|]. split; [done|].
  exists p0. split; [by rewrite <- I1|]. by repeat split; congruence.
Qed.

Lemma ledger_put_position db p :
  ledger db -> positions db !! p_id p = None -> check_position p = true ->
  (forall k q, positions db !! k = Some q -> held_here q -> p_symbol q <> p_symbol p) ->
  ledger (put_position_row p db).
Proof.
  intros L Hid Hc Hn.
  assert (C : forall k q, positions (put_position_row p db) !! k = Some q ->
                (k = p_id p /\ q = p) \/ (k <> p_id p /\ positions db !! k = Some q)).
  { intros k q H. cbn in H. destruct (decide (k = p_id p)) as [->|Hk].
    - rewrite lookup_insert_eq in H. left. by injection H as ->.
    - rewrite lookup_insert_ne in H by done. by right. }
  split.
  - apply (lg_order_id _ L).
  - apply (lg_environment _ L).
  - apply (lg_number _ L).
  - apply (lg_order _ L).
  - apply (lg_fill _ L).
  - intros k q H. apply C in H as [[-> ->]|[_ H]]; [done|]. by apply (lg_position_id _ L).
  - intros k1 k2 p1 p2 H1 H2 S1 S2 E.
    apply C in H1 as [[-> ->]|[K1 H1]]; apply C in H2 as [[-> ->]|[K2 H2]]; [done| | |].
    + by destruct (Hn _ _ H2 S2).
    + by destruct (Hn _ _ H1 S1).
    + by eapply (lg_symbol _ L).
  - intros k q H Hq. apply C in H as [[-> ->]|[_ H]]; [done|]. by eapply (lg_position _ L).
Qed.

Definition holding (dO : list (string * TradingOrder)) (before : list BrokerPosition) (u : Unit)
  (s : Sess) : Prop :=
  unit_inv D u s /\ un_orders u = dO /\
  (forall k p0, positions (work s) !! k = Some p0 -> held_here p0 ->
     (exists p, dict_get (p_symbol p0) (un_positions u) = Some p /\ p_id p = k) \/
     (dict_get (p_symbol p0) (un_positions u) = None /\ exists b, b ∈ before /\ holds_position b p0)) /\
  (forall b, b ∈ before ->
     (exists p, dict_get (bp_symbol b) (un_positions u) = Some p /\ holds_position b p) \/
     (dict_get (bp_symbol b) (un_positions u) = None /\
      exists k p, positions (work s) !! k = Some p /\ holds_position b p)).

(** A flush keeps what the loop knows. *)
Lemma holding_flush dO before u s u' s' :
  holding dO before u s -> unit_inv D u' s' -> work s' = flush_rows u (work s) ->
  un_orders u' = un_orders u -> un_positions u' = un_positions u -> holding dO before u' s'.
Proof.
  intros (HI & HO & HA & HB) HI' EW EO EP. destruct HI as (_ & L & [T P F]).
  split; [done|]. split; [congruence|]. rewrite EW, EP. split.
  - intros k p0 H Hp. apply (flushed_position_cases _ _ _ _ P) in H as [(x & Hx & Hk)|[H _]].
    + left. exists p0. destruct (tp_row _ _ P _ _ Hx) as (_ & E & _). by rewrite E.
    + by apply HA.
  - intros b Hb. destruct (HB b Hb) as [H|(H1 & k & p & Hk & Hh)]; [by left|]. right. split; [done|].
    exists k, p. split; [|done]. rewrite flushed_other_position; [done|done|].
    intros x q Hq E. destruct (tp_row _ _ P _ _ Hq) as (_ & Ex & _ & q0 & R & _ & _ & Es).
    rewrite E, Hk in R. injection R as <-. destruct Hh as (_ & Hs & _).
    rewrite <- Hs, Es, Ex, Hq in H1. done.
Qed.

Lemma position_clash_fresh db p : ledger db ->
  existsb (fun q => String.eqb (p_account_alias q) ACCOUNT_ALIAS && String.eqb (p_symbol q) (p_symbol p) ||
                    String.eqb (p_id q) (p_id p)) (rows (positions db)) = false ->
  positions db !! p_id p = None /\
  forall k q, positions db !! k = Some q -> held_here q -> p_symbol q <> p_symbol p.
Proof.
  intros L Hc. apply existsb_false_Forall in Hc. rewrite Forall_forall in Hc.
  assert (H : forall k q, positions db !! k = Some q ->
    String.eqb (p_account_alias q) ACCOUNT_ALIAS && String.eqb (p_symbol q) (p_symbol p) = false /\
    p_id q <> p_id p).
  { intros k q Hq. specialize (Hc q (proj2 (elem_of_rows _ _) (ex_intro _ k Hq))).
    apply orb_false_iff in Hc as [H1 H2]. split; [done|]. by apply String.eqb_neq. }
  split.
  - destruct (positions db !! p_id p) as [q|] eqn:E; [|done]. destruct (H _ _ E) as [_ []].
    by eapply lg_position_id.
  - intros k q Hq Sq E. destruct (H _ _ Hq) as [H1 _]. by rewrite Sq, E, !String.eqb_refl in H1.
Qed.

Lemma positions_loaded db u :
  ledger db -> un_positions u = account_positions db ->
  forall k p0, positions db !! k = Some p0 -> held_here p0 ->
  exists p, dict_get (p_symbol p0) (un_positions u) = Some p /\ p_id p = k.
Proof.
  intros L -> k p0 Hk Hp. exists p0. split; [|by eapply lg_position_id].
  unfold account_positions. apply dict_of_unique.
  - apply list_elem_of_In, List.filter_In. split; [|by apply String.eqb_eq].
    apply list_elem_of_In, elem_of_rows. by exists k.
  - intros q Hq E. apply list_elem_of_In, List.filter_In in Hq as [Hq Sq].
    apply list_elem_of_In, elem_of_rows in Hq as [j Hj]. apply String.eqb_eq in Sq.
    assert (j = k) as -> by (eapply (lg_symbol _ L); eauto). congruence.
Qed.

Variable run_id : string.

Lemma position_run dO before b u s :
  broker_position_ok b -> bp_symbol b ∉ map bp_symbol before -> holding dO before u s ->
  wp (project_position run_id correlation_id b u) (fun s' r => match r with
    | inl u' => holding dO (before ++ [b]) u' s' | inr e => violated D s' e end) s.
Proof.
  intros Hb Hnew HH. pose proof HH as (HI & HO & HA & HB). pose proof HI as (Hd & L & [T P F]).
  unfold project_position. do 2 wp_step. unfold after.
  destruct (replay_managed_ok _ (bp_symbol b) L) as (r & -> & Hr). wp_step.
  apply wp_of_result; [intros r' [= <-]|done]. unfold after.
  pose proof (bk_quantity _ Hb) as Hq.
  assert (Hm : managed_ok (bp_quantity b)
    (_managed_projection (dict_get (bp_symbol b) (un_positions u)) (bp_quantity b) r)).
  { apply managed_projection_ok; [done|done|]. intros p Hp. by destruct (tp_row _ _ P _ _ Hp) as (_ & _ & ? & _). }
  set (m := _managed_projection _ _ r) in *. clearbody m.
  destruct (dict_get (bp_symbol b) (un_positions u)) as [p|] eqn:Hp.
  - destruct (tp_row _ _ P _ _ Hp) as (Sp & Ep & Cp & p0 & Rp & Ip).
    assert (Hdone : forall v u', un_orders u' = dO ->
      un_positions u' = dict_set (p_symbol p) (set_p_version (projected_position p b m) v) (un_positions u) ->
      un_fills u' = un_fills u -> holding dO (before ++ [b]) u' s).
    { intros v u' E1 E2 E3. set (p' := set_p_version _ v) in *.
      assert (Hp' : check_position p' = true /\ holds_position b p').
      { apply (written_position_ok (p_id p) v (p_origin p) b m); [done|done|].
        unfold p', projected_position. cbn. unfold held_here in Sp. by rewrite Sp, Ep. }
      destruct Hp' as [Cp' Hh']. rewrite Ep in E2.
      split; [split; [done|split; [done|split; [by rewrite E1, <- HO| |by rewrite E3]]]|].
      { rewrite E2. eapply tracks_positions_set; [done|done| |done]. by repeat split. }
      split; [done|]. rewrite E2. split.
      + intros k q Hk Sq. rewrite dict_get_set. destruct (String.eqb_spec (p_symbol q) (bp_symbol b)) as [E|Hne].
        * left. exists p'. split; [done|]. destruct (HA _ _ Hk Sq) as [(x & Hx & Hxk)|[Hx _]]; [|by rewrite E, Hp in Hx].
          rewrite E, Hp in Hx. by injection Hx as <-.
        * destruct (HA _ _ Hk Sq) as [Hx|[Hx (b' & Hb' & Hq')]]; [by left|right]. split; [done|].
          exists b'. split; [|done]. apply elem_of_app. by left.
      + intros b' Hb'. rewrite dict_get_set. apply elem_of_app in Hb' as [Hb'|Hb'].
        * destruct (String.eqb_spec (bp_symbol b') (bp_symbol b)) as [E|_]; [|by apply HB].
          destruct Hnew. rewrite <- E. by apply list_elem_of_fmap_2.
        * apply list_elem_of_singleton in Hb' as ->. rewrite String.eqb_refl. left. by exists p'. }
    destruct (same_position_state _ p).
    + wp_step. apply (Hdone (p_version p)); [done| |done]. cbn. by destruct p.
    + wp_step. by apply (Hdone (p_version (projected_position p b m) + 1)).
  - repeat wp_step. eapply wp_mono; [apply (flush_run D u); exact HI|].
    intros s1 [u1|e] H1; [|done]. destruct H1 as (HI1 & EW & EO & EP & EF). unfold after at 1.
    assert (HH1 : holding dO before u1 s1) by (by eapply holding_flush).
    clear HH HI HA HB Hd L T P F. destruct HH1 as (_ & HO1 & HA & HB). destruct HI1 as (Hd & L & [T P F]).
    set (p := imported_position b _ m) in *. do 2 wp_step. unfold after. apply wp_bind, wp_guard_or; intros Hg; [|done].
    apply andb_true_iff in Hg as [Hg1 Hg2]. apply negb_true_iff in Hg1. cbn [work next_uuid] in Hg1.
    destruct (position_clash_fresh _ _ L Hg1) as [Hid Hsym].
    assert (Hh : holds_position b p).
    { eapply (written_position_ok (p_id p) 1 EXTERNAL b m p); [done|done|]. unfold p, imported_position. cbn.
      destruct (Z.eqb_spec (bp_quantity b) 0); [lia|done]. }
    repeat wp_step. cbn [work with_work]. split; [split; [done|split]|split].
    + by apply ledger_put_position.
    + split; [destruct T as [T1 T2 T3]; by split| |done].
      split; [apply P|]. intros x q Hq'. destruct (tp_row _ _ P _ _ Hq') as (H1 & H2 & H3 & q0 & R & I).
      split; [done|]. split; [done|]. split; [done|]. exists q0. split; [|done]. assert (Hne : p_id p <> p_id q) by (intros E; rewrite E in Hid; congruence).
      by rewrite <- R; apply lookup_insert_ne.
    + done.
    + cbn [un_positions counting with_position_event]. rewrite EP in *. split.
      * intros k q Hk Sq. cbn in Hk. destruct (decide (k = p_id p)) as [->|Hne].
        -- rewrite lookup_insert_eq in Hk. injection Hk as <-. right. split; [done|]. exists b.
           split; [|done]. apply elem_of_app. right. apply list_elem_of_here.
        -- rewrite lookup_insert_ne in Hk by done. destruct (HA _ _ Hk Sq) as [Hx|[Hx (b' & Hb' & Hq')]]; [by left|].
           right. split; [done|]. exists b'. split; [|done]. apply elem_of_app. by left.
      * intros b' Hb'. apply elem_of_app in Hb' as [Hb'|Hb'].
        -- destruct (HB _ Hb') as [Hx|[Hx (k & q & Hk & Hq')]]; [by left|]. right. split; [done|].
           exists k, q. split; [|done]. assert (Hne : p_id p <> k) by (intros E; rewrite E in Hid; congruence).
           by rewrite <- Hk; apply lookup_insert_ne.
        -- apply list_elem_of_singleton in Hb' as ->. right. split; [done|]. exists (p_id p), p.
           split; [apply lookup_insert_eq|done].
Qed.

Lemma positions_run dO l u s :
  Forall broker_position_ok l -> NoDup (map bp_symbol l) -> holding dO [] u s ->
  wp (fold_prog (project_position run_id correlation_id) l u) (fun s' r => match r with
    | inl u' => holding dO l u' s' | inr e => violated D s' e end) s.
Proof.
  intros HF HN. apply (wp_fold_prog (holding dO) (violated D)).
  intros before x after u' s' -> HI. apply position_run; [| |done].
  - rewrite Forall_forall in HF. apply HF. apply elem_of_app. right. apply list_elem_of_here.
  - rewrite map_app in HN. apply NoDup_app in HN as (_ & H & _). intros Hx. apply (H _ Hx).
    apply list_elem_of_here.
Qed.

Lemma closed_position_ok p : held_here p ->
  check_position (closed_position p) = true /\ same_owner p (closed_position p).
Proof. intros Hp. split; [|by repeat split]. done. Qed.

(** The positions the snapshot lacks are closed. *)
Definition closing_rest (dO : list (string * TradingOrder)) (l : list BrokerPosition)
  (keys before : list string) (u : Unit) (s : Sess) : Prop :=
  holding dO l u s /\ (un_positions u).*1 = keys /\ forall x p, x ∈ before -> x ∉ map bp_symbol l ->
    dict_get x (un_positions u) = Some p -> p_state p = POS_CLOSED.

Lemma close_run dO l keys before x u s :
  closing_rest dO l keys before u s ->
  wp (close_position run_id correlation_id (map bp_symbol l) x u) (fun s' r => match r with
    | inl u' => closing_rest dO l keys (before ++ [x]) u' s' | inr e => violated D s' e end) s.
Proof.
  intros (HH & HK & HC). unfold close_position.
  assert (Hkeep : (forall p, dict_get x (un_positions u) = Some p -> x ∉ map bp_symbol l ->
                     p_state p = POS_CLOSED) -> closing_rest dO l keys (before ++ [x]) u s).
  { intros Hx. split; [done|]. split; [done|]. intros y p Hy. apply elem_of_app in Hy as [Hy|Hy]; [by apply HC|].
    apply list_elem_of_singleton in Hy as ->. intros Hn Hp. by apply Hx. }
  destruct (dict_get x (un_positions u)) as [p|] eqn:Hp; [|wp_step; by apply Hkeep].
  case_bool_decide as Hs; cbn [orb].
  { wp_step. apply Hkeep. intros q [= <-] _. by destruct (p_state p). }
  case_bool_decide as Hx; wp_step; [by apply Hkeep|].
  destruct HH as (HI & HO & HA & HB). pose proof HI as (Hd & L & [T P F]).
  destruct (tp_row _ _ P _ _ Hp) as (Sp & Ep & Cp & _). destruct (closed_position_ok p Sp) as [C1 C2].
  split; [split; [split; [done|split; [done|split; [done| |done]]]|split; [done|split]]|split];
    cbn [un_positions counting with_position_event with_position].
  - by eapply tracks_positions_set.
  - intros k q Hk Sq. rewrite dict_get_set. destruct (String.eqb_spec (p_symbol q) x) as [E|Hne]; [|by apply HA].
    left. eexists. split; [done|]. destruct (HA _ _ Hk Sq) as [(y & Hy & Hyk)|[Hy _]]; rewrite E, Hp in Hy; [|done].
    by injection Hy as <-.
  - intros b Hb. rewrite dict_get_set. destruct (String.eqb_spec (bp_symbol b) x) as [E|_]; [|by apply HB].
    destruct Hx. rewrite <- E. by apply list_elem_of_fmap_2.
  - rewrite dict_keys_set, bool_decide_eq_true_2; [done|]. apply dict_get_Some_elem in Hp.
    apply list_elem_of_fmap. by exists (x, p).
  - intros y q Hy Hn. rewrite dict_get_set. destruct (String.eqb_spec y x) as [->|Hne]; [by intros [= <-]|].
    apply elem_of_app in Hy as [Hy|Hy]; [by apply HC|]. by apply list_elem_of_singleton in Hy.
Qed.

(** ** The whole projection *)

(** The account after the projection of a snapshot over the ledger [db0]. *)
Record settled (snapshot : BrokerAccountSnapshot) (db0 db : DB) : Prop := {
  se_ledger : ledger db;
  se_open : forall b, b ∈ sn_open_orders snapshot -> exists o, orders db !! o_id o = Some o /\
    numbered (bo_broker_order_id b) o /\ shows b o;
  se_other : forall k o n, orders db0 !! k = Some o -> ours o ->
    nonempty (o_broker_order_id o) = Some n -> n ∉ map bo_broker_order_id (sn_open_orders snapshot) ->
    orders db !! k = Some (closing
      (fun n => bool_decide (n ∈ map bo_broker_order_id (sn_open_orders snapshot)))
      (fill_totals (sn_fills snapshot)) n o);
  se_numbers : forall k o n, orders db !! k = Some o -> ours o ->
    nonempty (o_broker_order_id o) = Some n -> n ∉ map bo_broker_order_id (sn_open_orders snapshot) ->
    exists o0, orders db0 !! k = Some o0 /\ ours o0 /\ nonempty (o_broker_order_id o0) = Some n;
  se_held : forall b, b ∈ sn_positions snapshot -> exists k p, positions db !! k = Some p /\
    holds_position b p;
  se_known : forall k p, positions db !! k = Some p -> held_here p -> p_state p = POS_OPEN ->
    exists b, b ∈ sn_positions snapshot /\ holds_position b p
}.

Lemma wp_assoc {A B C} (m : prog A) (k : A -> prog B) (h : B -> prog C) Q s :
  wp (x ← m; k x) (after h Q) s -> wp (x ← m; y ← k x; h y) Q s.
Proof.
  unfold wp, after, mbind, prog_bind, wp. destruct (m s) as [s1 [a|e]]; [|done].
  destruct (k a s1) as [s2 [b|e]]; done.
Qed.

Lemma settled_flush snapshot db0 u s u' s' :
  holding (un_orders u) (sn_positions snapshot) u s ->
  (forall x p, x ∈ (un_positions u).*1 -> x ∉ map bp_symbol (sn_positions snapshot) ->
     dict_get x (un_positions u) = Some p -> p_state p = POS_CLOSED) ->
  ledger db0 -> projected_dict snapshot (_orders_by_broker_id db0) (un_orders u) ->
  unit_inv D u' s' -> work s' = flush_rows u (work s) -> settled snapshot db0 (work s').
Proof.
  intros HH HC L0 [HS HO] HI' EW. pose proof HH as (HI & _ & HA & HB). destruct HI as (_ & L & [T P F]).
  destruct HI' as (_ & L' & _). rewrite EW in *. split; [done| | | | |].
  - intros b Hb. rewrite Forall_forall in HS. destruct (HS b Hb) as (o & Ho & Hs). exists o.
    split; [by eapply flushed_order|]. split; [|done]. by destruct (to_row _ _ T _ _ Ho).
  - intros k o n Hk So Hn Hc. destruct (to_all _ _ (load_orders _ L0) _ _ _ Hk So Hn) as (q & Q1 & Q2).
    destruct (to_row _ _ (load_orders _ L0) _ _ Q1) as (_ & _ & q0 & R & _).
    assert (q = o) as ->.
    { apply dict_of_elem in Q1 as [Hq _]. apply list_elem_of_In, List.filter_In in Hq as [Hq _].
      apply list_elem_of_In, elem_of_rows in Hq as [j Hj].
      rewrite <- (lg_order_id _ L0 _ _ Hj), Q2, Hk in Hj. by injection Hj. }
    pose proof (HO n Hc) as Hd. rewrite Q1 in Hd. cbn in Hd.
    assert (Hid : o_id (closing (fun n => bool_decide (n ∈ map bo_broker_order_id (sn_open_orders snapshot)))
      (fill_totals (sn_fills snapshot)) n o) = k).
    { rewrite <- Q2. unfold closing, cancel_round, total_round, bumped, order_after_cancel, order_after_total.
      by repeat (match goal with |- context [match ?x with _ => _ end] => destruct x end; cbn). }
    pose proof (flushed_order _ _ _ _ T Hd) as Hf. by rewrite Hid in Hf.
  - intros k o n Hk So Hn Hc. apply (flushed_order_cases _ _ _ _ T) in Hk as [(m & Hm & Hk)|[Hk Hne]].
    + destruct (to_row _ _ T _ _ Hm) as ((_ & _ & Hb & _) & _).
      assert (m = n) as -> by (apply nonempty_Some in Hn as [Hn _]; congruence).
      rewrite (HO n Hc) in Hm. destruct (dict_get n (_orders_by_broker_id db0)) as [q|] eqn:Q1; [|done].
      destruct (tracked_row _ _ _ _ (load_orders _ L0) Q1) as (q0 & R1 & R2 & R3).
      injection Hm as Hm. exists q0. split; [|done]. rewrite <- R1. f_equal. rewrite <- Hk, <- Hm.
      unfold closing, cancel_round, total_round, bumped, order_after_cancel, order_after_total.
      by repeat (match goal with |- context [match ?x with _ => _ end] => destruct x end; cbn).
    + destruct (to_all _ _ T _ _ _ Hk So Hn) as (q & Q1 & Q2). by destruct (Hne _ _ Q1).
  - intros b Hb. destruct (HB b Hb) as [(p & Hp & Hh)|(H1 & k & p & Hk & Hh)].
    + exists (p_id p), p. split; [by eapply flushed_position|done].
    + exists k, p. split; [|done]. rewrite flushed_other_position; [done|done|].
      intros x q Hq E. destruct (tp_row _ _ P _ _ Hq) as (_ & Ex & _ & q0 & R & _ & _ & Es).
      rewrite E, Hk in R. injection R as <-. destruct Hh as (_ & Hsym & _).
      rewrite <- Hsym, Es, Ex, Hq in H1. done.
  - intros k p Hk Sp Ho. apply (flushed_position_cases _ _ _ _ P) in Hk as [(x & Hx & Hk)|[Hk Hne]].
    + destruct (decide (x ∈ map bp_symbol (sn_positions snapshot))) as [Hin|Hin].
      * apply list_elem_of_fmap in Hin as (b & -> & Hb). exists b. split; [done|].
        destruct (HB b Hb) as [(q & Hq & Hh)|[H1 _]]; congruence.
      * assert (p_state p = POS_CLOSED); [|congruence]. apply (HC x p); [|done|done].
        apply dict_get_Some_elem in Hx. apply list_elem_of_fmap. by exists (x, p).
    + destruct (HA _ _ Hk Sp) as [(q & Hq & Hqk)|[_ (b & Hb & Hh)]]; [by destruct (Hne _ _ Hq)|].
      by exists b.
Qed.

Lemma projection_run snapshot db0 s :
  snapshot_ok snapshot -> work s = db0 -> disk s = D -> ledger db0 ->
  observed_at = sn_observed_at snapshot ->
  wp (apply_broker_account_projection sha256 snapshot run_id correlation_id) (fun s' r => match r with
    | inl _ => disk s' = D /\ settled snapshot db0 (work s')
    | inr e => violated D s' e end) s.
Proof.
  intros [K1 K2 K3 K4 K5] <- Hd L Hat. unfold apply_broker_account_projection. rewrite <- Hat.
  do 2 wp_step. unfold after. set (u0 := mkUnit _ _ _ _ _ _).
  assert (H0 : opened D (_orders_by_broker_id (work s)) [] u0 s).
  { split; [|done]. split; [done|]. split; [done|]. split; [by apply load_orders| |constructor].
    split; [apply NoDup_nil_2|done]. }
  wp_step. eapply wp_mono; [apply (open_orders_run _ _ _ _ K1 K4 H0)|].
  intros s1 [u1|e] H1; [|done]. destruct H1 as (HI1 & _ & HS1 & HO1). unfold after at 1. wp_step.
  eapply wp_mono; [apply (fills_run (un_orders u1) _ _ _ _ K2 HI1 eq_refl)|].
  intros s2 [[occ u2]|e] H2; [|done]. destruct H2 as (HI2 & HO2). unfold after at 1. cbn [snd].
  apply wp_assoc. eapply wp_mono.
  { apply (order_rounds snapshot (_orders_by_broker_id (work s)) u2 s2 HI2); [by rewrite HO2|].
    intros n Hn. rewrite HO2. by apply HO1. }
  intros s3 r (-> & u3 & -> & HI3 & HP). unfold after at 1. wp_step. unfold _project_positions.
  do 2 wp_step. unfold after at 1. set (u4 := load_positions _ u3).
  assert (H4 : holding (un_orders u3) [] u4 s2).
  { destruct HI3 as (Hd3 & L3 & [T3 P3 F3]).
    split; [split; [done|split; [done|split; [done|by apply load_positions_spec|done]]]|].
    split; [done|]. split; [|by intros b Hb%elem_of_nil].
    intros k p0 Hk Hp. left. by eapply (positions_loaded (work s2) u4). }
  wp_step. eapply wp_mono; [apply (positions_run _ _ _ _ K3 K5 H4)|].
  intros s5 [u5|e] H5; [|done]. unfold after at 1.
  eapply wp_mono.
  { apply (wp_fold_prog (closing_rest (un_orders u3) (sn_positions snapshot) (un_positions u5).*1) (violated D)).
    - intros before x after u s' _. apply close_run.
    - split; [done|]. split; [done|]. by intros x p Hx%elem_of_nil. }
  intros s6 [u6|e] H6; [|done]. destruct H6 as (HH6 & HK6 & HC6).
  unfold after at 1. wp_step. pose proof HH6 as (HI6 & HO6 & _).
  eapply wp_mono; [apply (flush_run D u6 s6 HI6)|]. intros s7 [u7|e] H7; [|done].
  destruct H7 as (HI7 & EW & _). repeat wp_step. split; [by destruct HI7|].
  eapply settled_flush; [by rewrite HO6| |done|by rewrite HO6|done|done].
  intros x p Hx Hn Hp. apply (HC6 x p); [|done|done]. by rewrite <- HK6.
Qed.
End Projecting.
