(* ===== verification/Reconciliation.v ===== *)
(** * Reconciliation of the account

    [reconciliation.py]: a run closes the gate, reads the account, projects it
    and compares the result with the same snapshot.  Its outcome decides the
    gate: [HALTED] on a critical mismatch, [RECONCILING] when clean,
    [DEGRADED] on a failure; a run never opens the gate. *)

From Stdlib Require Import ZArith Lia.
From stdpp Require Import base numbers strings list gmap.
From S2P Require Import Prelude Decimal Json PyTime Models Session OrderSender DecimalText PyText.
From S2P Require Import Kiwoom KiwoomClient AccountProjection.

Open Scope Z_scope.

Definition BROKER_VISIBLE_ORDER_STATES : list OrderStatus :=
  [SUBMITTING; ACKNOWLEDGED; OPEN; PARTIALLY_FILLED; CANCEL_PENDING; REPLACE_PENDING; UNKNOWN;
   RECONCILING].

Definition RECONCILIATION_TRIGGERS : list string :=
  ["MANUAL_BOOTSTRAP"; "WORKER_STARTUP"; "WEBSOCKET_RECONNECTED"; "BROKER_EVENT"; "PERIODIC";
   "ORDER_OUTCOME_UNKNOWN"; "UNFILLED_ORDER_CANCEL_UNCERTAIN"].

Record Mismatch := mkMismatch {
  mm_code : string;
  mm_symbol : option string;
  mm_broker_value : json;
  mm_internal_value : json;
  mm_severity : string
}.

Definition mismatch (code : string) (symbol : string) (broker internal : json) : Mismatch :=
  mkMismatch code (Some symbol) broker internal "CRITICAL".

Record ReconciliationResult := mkReconciliationResult {
  rs_run_id : string;
  rs_state : string;
  rs_gate_status : GateStatus;
  rs_gate_reason : string;
  rs_open_order_count : Z;
  rs_fill_count : Z;
  rs_position_count : Z;
  rs_mismatch_count : Z;
  rs_critical_mismatch_count : Z
}.

(** ** Comparison *)

Definition order_value (number : option string) (symbol : string) (side : Side)
  (requested filled remaining : Z) : json :=
  JObj [("broker_order_id", jopt_str number); ("symbol", JStr symbol);
        ("side", JStr (side_text side)); ("requested_quantity", JInt requested);
        ("filled_quantity", JInt filled); ("remaining_quantity", JInt remaining)].

Definition _broker_order_value (o : BrokerOpenOrder) : json :=
  order_value (Some (bo_broker_order_id o)) (bo_symbol o) (bo_side o) (bo_requested_quantity o)
    (bo_filled_quantity o) (bo_remaining_quantity o).

Definition _internal_order_value (o : TradingOrder) : json :=
  order_value (o_broker_order_id o) (o_symbol o) (o_side o) (o_requested_quantity o)
    (o_filled_quantity o) (o_remaining_quantity o).

(** [_broker_order_value(broker) == _internal_order_value(internal)] *)
Definition same_order_value (b : BrokerOpenOrder) (o : TradingOrder) : bool :=
  bool_decide (Some (bo_broker_order_id b) = o_broker_order_id o) &&
  String.eqb (bo_symbol b) (o_symbol o) && bool_decide (bo_side b = o_side o) &&
  (bo_requested_quantity b =? o_requested_quantity o) &&
  (bo_filled_quantity b =? o_filled_quantity o) &&
  (bo_remaining_quantity b =? o_remaining_quantity o).

Definition _broker_position_value (p : BrokerPosition) : json :=
  JObj [("symbol", JStr (bp_symbol p)); ("quantity", JInt (bp_quantity p));
        ("available_quantity", JInt (bp_available_quantity p));
        ("average_price", JStr (plain_text (bp_average_price p)))].

Definition _internal_position_value (p : Position) : json :=
  JObj [("symbol", JStr (p_symbol p)); ("quantity", JInt (p_quantity p));
        ("average_price", JStr (plain_text (p_average_price p)))].

(** The internal orders the broker should list, and the rows by its numbers. *)
Definition internal_orders (db : DB) : list TradingOrder :=
  List.filter (fun o => String.eqb (o_account_alias o) ACCOUNT_ALIAS &&
                        status_in BROKER_VISIBLE_ORDER_STATES (o_status o)) (rows (orders db)).

Definition by_broker (l : list TradingOrder) : list (string * TradingOrder) :=
  dict_of broker_number_of
    (List.filter (fun o => bool_decide (is_Some (nonempty (o_broker_order_id o)))) l).

Definition all_orders (db : DB) : list TradingOrder :=
  List.filter (fun o => String.eqb (o_account_alias o) ACCOUNT_ALIAS &&
                        bool_decide (is_Some (o_broker_order_id o))) (rows (orders db)).

Definition compare_open (visible : list (string * TradingOrder)) (b : BrokerOpenOrder) :
  list Mismatch :=
  match dict_get (bo_broker_order_id b) visible with
  | None => [mismatch "BROKER_ORDER_MISSING_INTERNAL" (bo_symbol b) (_broker_order_value b) (JObj [])]
  | Some o =>
      if same_order_value b o then []
      else [mismatch "ORDER_STATE_MISMATCH" (bo_symbol b) (_broker_order_value b)
              (_internal_order_value o)]
  end.

Definition compare_internal (numbers : list string) (o : TradingOrder) : list Mismatch :=
  match nonempty (o_broker_order_id o) with
  | Some n => if bool_decide (n ∈ numbers) then []
              else [mismatch "INTERNAL_ORDER_MISSING_BROKER" (o_symbol o) (JObj [])
                      (_internal_order_value o)]
  | None => [mismatch "INTERNAL_ORDER_MISSING_BROKER" (o_symbol o) (JObj []) (_internal_order_value o)]
  end.

Definition fill_value (number : string) (quantity : Z) : json :=
  JObj [("broker_order_id", JStr number); ("filled_quantity", JInt quantity)].

Definition compare_fills (known : list (string * TradingOrder)) (number_total : string * Z) :
  list Mismatch :=
  let '(number, quantity) := number_total in
  match dict_get number known with
  | Some o => if quantity =? o_filled_quantity o then []
              else [mismatch "FILL_QUANTITY_MISMATCH" (o_symbol o) (fill_value number quantity)
                      (fill_value number (o_filled_quantity o))]
  | None => []
  end.

Definition open_positions_by_symbol (db : DB) : list (string * Position) :=
  dict_of p_symbol (List.filter (fun p => String.eqb (p_account_alias p) ACCOUNT_ALIAS &&
                                          bool_decide (p_state p = POS_OPEN)) (rows (positions db))).

Definition compare_position (internal : list (string * Position)) (b : BrokerPosition) :
  list Mismatch :=
  match dict_get (bp_symbol b) internal with
  | None => [mismatch "UNKNOWN_EXTERNAL_POSITION" (bp_symbol b) (_broker_position_value b) (JObj [])]
  | Some p =>
      if negb (bp_quantity b =? p_quantity p)
      then [mismatch "POSITION_QUANTITY_MISMATCH" (bp_symbol b) (_broker_position_value b)
              (_internal_position_value p)]
      else if negb (deqb (bp_average_price b) (p_average_price p))
      then [mismatch "AVERAGE_PRICE_MISMATCH" (bp_symbol b) (_broker_position_value b)
              (_internal_position_value p)]
      else []
  end.

Definition compare_absent (symbols : list string) (symbol_position : string * Position) :
  list Mismatch :=
  let '(symbol, p) := symbol_position in
  if bool_decide (symbol ∈ symbols) then []
  else [mismatch "POSITION_QUANTITY_MISMATCH" symbol (JObj []) (_internal_position_value p)].

Definition compare_snapshot (db : DB) (snapshot : BrokerAccountSnapshot) : list Mismatch :=
  let internal := internal_orders db in
  let broker_by_id := dict_of bo_broker_order_id (sn_open_orders snapshot) in
  let held := open_positions_by_symbol db in
  let broker_positions := dict_of bp_symbol (sn_positions snapshot) in
  concat (map (fun b => compare_open (by_broker internal) b.2) broker_by_id) ++
  concat (map (compare_internal broker_by_id.*1) internal) ++
  concat (map (compare_fills (by_broker (all_orders db))) (fill_totals (sn_fills snapshot))) ++
  concat (map (fun b => compare_position held b.2) broker_positions) ++
  concat (map (compare_absent broker_positions.*1) held).

(** ** Runs *)

Definition put_run (r : ReconciliationRun) (db : DB) : DB :=
  set_reconciliation_runs db (<[rr_id r := r]> (reconciliation_runs db)).

Definition _set_gate (status : GateStatus) (reason : string) : prog unit :=
  gate ← gets (fun db => gates db !! ACCOUNT_ALIAS);
  modify (fun db => set_gates db (<[ACCOUNT_ALIAS := match gate with
    | None => mkTradingGate ACCOUNT_ALIAS "MOCK" status (Some reason) 1
    | Some g => set_g_version (set_g_reason (set_g_status g status) (Some reason)) (g_version g + 1)
    end]> (gates db))).

Definition _mark_failed (run_id : string) : prog unit :=
  run ← gets (fun db => reconciliation_runs db !! run_id);
  now ← utcnow;
  (match run with
   | Some r => modify (put_run (set_rr_result_summary (set_rr_completed_at (set_rr_state r "FAILED")
                                  (Some now)) (JObj [("result", JStr "FAILED")])))
   | None => mret tt
   end) ;;
  _set_gate GATE_DEGRADED "RECONCILIATION_FAILED" ;;
  commit.

Definition _resolve_previous_mismatches (run : ReconciliationRun) (current : list Mismatch)
  (now : Z) (db : DB) : DB :=
  let keys := map (fun m => (mm_code m, mm_symbol m)) current in
  set_mismatches db (map (fun m =>
    match reconciliation_runs db !! rm_run_id m with
    | Some r =>
        if String.eqb (rr_account_alias r) (rr_account_alias run) &&
           negb (String.eqb (rr_id r) (rr_id run)) && String.eqb (rm_state m) "OPEN" &&
           negb (bool_decide ((rm_code m, rm_symbol m) ∈ keys))
        then set_rm_resolved_at (set_rm_state m "RESOLVED") (Some now) else m
    | None => m
    end) (mismatches db)).

Definition mismatch_row (run_id : string) (m : Mismatch) : ReconciliationMismatch :=
  mkReconciliationMismatch run_id (mm_code m) (mm_symbol m) (mm_severity m) "OPEN"
    (mm_broker_value m) (mm_internal_value m) None.

Definition critical (m : Mismatch) : bool := String.eqb (mm_severity m) "CRITICAL".

Definition len {A} (l : list A) : Z := Z.of_nat (length l).

Definition projection_json (p : ProjectionResult) : json :=
  JObj [("imported_orders", JInt (imported_orders p)); ("updated_orders", JInt (updated_orders p));
        ("imported_fills", JInt (imported_fills p)); ("imported_positions", JInt (imported_positions p));
        ("updated_positions", JInt (updated_positions p));
        ("closed_positions", JInt (closed_positions p))].

(** A call of the broker client, while other sessions may commit. *)
Definition ask {A} (p : Pending A) : prog A := fun s =>
  (mkSess (meanwhile p (disk s)) (meanwhile p (disk s)) (clock s + elapsed p) (uuids s) (uuid_ix s)
     (wire s) (secret_files s), reply p).

(** What a later session reads of the prices written now: [column] is the
    rounding of a [Numeric(18, 4)] column. *)
Definition stored_prices (column : decimal -> decimal) (db : DB) : DB :=
  let db := set_positions db ((fun p => set_p_managed_average_price
    (set_p_average_price p (column (p_average_price p)))
    (column (p_managed_average_price p))) <$> positions db) in
  let db := set_orders db ((fun o => set_o_limit_price o (column <$> o_limit_price o)) <$> orders db) in
  set_fills db ((fun f => mkFill (f_id f) (f_order_id f) (f_broker_fill_key f) (f_quantity f)
    (column (f_price f)) (column (f_fee f)) (column (f_tax f)) (f_filled_at f)) <$> fills db).

Section Run.
Context (sha256 : string -> string) (column : decimal -> decimal).

(** The body of the [try], from the snapshot on, up to its commit. *)
Definition reconcile_snapshot (run : ReconciliationRun) (snapshot : BrokerAccountSnapshot)
  (clean_gate_reason : string) : prog ReconciliationResult :=
  projection ← apply_broker_account_projection sha256 snapshot (rr_id run) (rr_correlation_id run);
  found ← gets (fun db => compare_snapshot db snapshot);
  now ← utcnow;
  modify (_resolve_previous_mismatches run found now) ;;
  modify (fun db => set_mismatches db (mismatches db ++ map (mismatch_row (rr_id run)) found)) ;;
  let critical_count := len (List.filter critical found) in
  let state := if bool_decide (found = []) then "SUCCEEDED" else "MISMATCH" in
  completed ← utcnow;
  modify (put_run (mkReconciliationRun (rr_id run) (rr_account_alias run) (rr_trigger run) state
    (rr_started_at run) (Some completed) (Some (sn_observed_at snapshot)) (len found) critical_count
    (rr_correlation_id run)
    (JObj [("open_order_count", JInt (len (sn_open_orders snapshot)));
           ("fill_count", JInt (len (sn_fills snapshot)));
           ("position_count", JInt (len (sn_positions snapshot)));
           ("projection", projection_json projection)]))) ;;
  let '(status, reason) := (if critical_count =? 0 then (GATE_RECONCILING, clean_gate_reason)
                            else (GATE_HALTED, "RECONCILIATION_MISMATCH")) in
  _set_gate status reason ;;
  modify (stored_prices column) ;;
  commit ;;
  mret (mkReconciliationResult (rr_id run) state status reason (len (sn_open_orders snapshot))
          (len (sn_fills snapshot)) (len (sn_positions snapshot)) (len found) critical_count).

(** [except Exception]: the run fails, and only the classes of the broker
    client keep their own exception. *)
Definition reported (e : exn) : exn :=
  if is_adapter_error e then e else ReconciliationProjectionError.

Definition on_failure (run_id : string) (e : exn) : option (prog ReconciliationResult) :=
  match e with
  | OtherError => None
  | _ => Some (rollback ;; _mark_failed run_id ;; raise (reported e))
  end.

(** [client]: what [verify_account] and [get_account_snapshot] answer.  An
    exception of the process, which no handler names, leaves the run as it is. *)
Definition run_kiwoom_reconciliation (verified : Pending unit)
  (client : Pending BrokerAccountSnapshot) (correlation_id : option string)
  (trigger clean_gate_reason : string) : prog ReconciliationResult :=
  guard_or (bool_decide (trigger ∈ RECONCILIATION_TRIGGERS)) ValueError ;;
  now ← utcnow;
  correlation_id ← (match nonempty correlation_id with Some c => mret c | None => uuid7 end);
  id ← uuid7;
  let run := mkReconciliationRun id ACCOUNT_ALIAS trigger "RUNNING" now None None 0 0 correlation_id
               (JObj []) in
  modify (put_run run) ;;
  _set_gate GATE_RECONCILING "BOOTSTRAP_RECONCILIATION_RUNNING" ;;
  commit ;;
  try_except
    (ask verified ;;
     snapshot ← ask client;
     reconcile_snapshot run snapshot clean_gate_reason)
    (on_failure id).
End Run.
