(* ===== verification/ReconProps.v ===== *)
(** * Properties of projection and reconciliation

    The outcomes of a reconciliation run, what a completed run settles between
    the books and the broker's snapshot, and the cases it gets wrong. *)

From Stdlib Require Import ZArith Lia Ascii String.
From stdpp Require Import base numbers strings list gmap pretty.
From S2P Require Import Prelude Decimal Json PyTime Models Session PaperBroker OrderSender DecimalText.
From S2P Require Import PyText Kiwoom KiwoomClient AccountProjection ProjectionProps Reconciliation Fixtures.

Open Scope Z_scope.

(** ** What a comparison can still report after a projection *)

Definition REMAINING_CODES : list string := ["INTERNAL_ORDER_MISSING_BROKER"; "FILL_QUANTITY_MISMATCH"].

Lemma dict_of_key {A} (key : A -> string) l x : x ∈ l -> key x ∈ (dict_of key l).*1.
Proof.
  intros Hx. destruct (decide (key x ∈ (dict_of key l).*1)) as [H|H]; [done|].
  apply dict_get_None in H. rewrite dict_of_get in H. apply last_None in H.
  assert (Hf : x ∈ List.filter (fun y => String.eqb (key y) (key x)) l).
  { apply list_elem_of_In, List.filter_In. split; [by apply list_elem_of_In|apply String.eqb_refl]. }
  rewrite H in Hf. by apply elem_of_nil in Hf.
Qed.

Lemma dict_of_in {A} (key : A -> string) l k x : (k, x) ∈ dict_of key l -> x ∈ l /\ key x = k.
Proof. intros H. apply dict_of_elem. apply dict_elem_get; [apply dict_of_nodup|done]. Qed.

Lemma concat_map_elem {A B} (f : A -> list B) l y :
  y ∈ concat (map f l) -> exists x, x ∈ l /\ y ∈ f x.
Proof.
  intros H. apply list_elem_of_In in H. apply in_concat in H as (s & Hs & Hy).
  apply in_map_iff in Hs as (x & <- & Hx). exists x. by rewrite !list_elem_of_In.
Qed.

Section Compare.
Context (snapshot : BrokerAccountSnapshot) (db0 db : DB).
Hypothesis Hok : snapshot_ok snapshot.
Hypothesis Hs : settled snapshot db0 db.

Lemma broker_number_of_Some o n : nonempty (o_broker_order_id o) = Some n -> broker_number_of o = n.
Proof. intros [H _]%nonempty_Some. unfold broker_number_of. by rewrite H. Qed.

(** The internal order of a broker number. *)
Lemma by_broker_get l o n :
  (forall q, q ∈ l -> orders db !! o_id q = Some q /\ ours q) -> o ∈ l ->
  nonempty (o_broker_order_id o) = Some n -> dict_get n (by_broker l) = Some o.
Proof using Hs.
  intros Hl Ho Hn. unfold by_broker. rewrite <- (broker_number_of_Some _ _ Hn). apply dict_of_unique.
  - apply list_elem_of_In, List.filter_In. split; [by apply list_elem_of_In|].
    apply bool_decide_eq_true. by rewrite Hn.
  - intros q Hq E. apply list_elem_of_In, List.filter_In in Hq as [Hq Hm].
    apply bool_decide_eq_true in Hm as [m Hm]. apply list_elem_of_In in Hq.
    rewrite (broker_number_of_Some _ _ Hn), (broker_number_of_Some _ _ Hm) in E. subst m.
    destruct (Hl _ Hq) as [Q1 Q2], (Hl _ Ho) as [O1 O2].
    assert (o_id q = o_id o) as Ei by (eapply (lg_number _ (se_ledger _ _ _ Hs)); eauto).
    rewrite Ei in Q1. congruence.
Qed.

Lemma internal_orders_spec q : q ∈ internal_orders db <->
  orders db !! o_id q = Some q /\ ours q /\ status_in BROKER_VISIBLE_ORDER_STATES (o_status q) = true.
Proof using Hs.
  unfold internal_orders. rewrite list_elem_of_In, List.filter_In, <- list_elem_of_In, elem_of_rows.
  rewrite andb_true_iff, String.eqb_eq. split.
  - intros ([k Hk] & H1 & H2). by rewrite (lg_order_id _ (se_ledger _ _ _ Hs) _ _ Hk).
  - intros (H1 & H2 & H3). split; [|done]. by exists (o_id q).
Qed.

Lemma compare_open_clean b : b ∈ sn_open_orders snapshot ->
  compare_open (by_broker (internal_orders db)) b = [].
Proof using Hs.
  intros Hb. destruct (se_open _ _ _ Hs b Hb) as (o & Ho & (N1 & N2 & N3 & N4) & S).
  unfold compare_open. rewrite (by_broker_get _ o).
  - destruct S as (S1 & S2 & S3 & S4 & S5 & S6 & S7 & S8). unfold same_order_value.
    rewrite N3, S1, S3, S5, S6, S7, !bool_decide_eq_true_2, String.eqb_refl, !Z.eqb_refl by done. done.
  - intros q Hq. by apply internal_orders_spec in Hq as (? & ? & _).
  - apply internal_orders_spec. split; [done|]. split; [done|]. destruct S as (_ & _ & _ & _ & _ & _ & _ & ->).
    unfold open_order_status. by destruct (_ =? 0).
  - by apply nonempty_Some.
Qed.

Lemma held_open_spec p : p ∈ List.filter (fun p => String.eqb (p_account_alias p) ACCOUNT_ALIAS &&
    bool_decide (p_state p = POS_OPEN)) (rows (positions db)) <->
  positions db !! p_id p = Some p /\ held_here p /\ p_state p = POS_OPEN.
Proof using Hs.
  rewrite list_elem_of_In, List.filter_In, <- list_elem_of_In, elem_of_rows.
  rewrite andb_true_iff, String.eqb_eq, bool_decide_eq_true. split.
  - intros ([k Hk] & H1 & H2). by rewrite (lg_position_id _ (se_ledger _ _ _ Hs) _ _ Hk).
  - intros (H1 & H2 & H3). split; [|done]. by exists (p_id p).
Qed.

Lemma compare_position_clean b : b ∈ sn_positions snapshot ->
  compare_position (open_positions_by_symbol db) b = [].
Proof using Hs.
  intros Hb. destruct (se_held _ _ _ Hs b Hb) as (k & p & Hk & H1 & H2 & H3 & H4 & H5 & H6).
  assert (Hp : positions db !! p_id p = Some p) by (by rewrite (lg_position_id _ (se_ledger _ _ _ Hs) _ _ Hk)).
  unfold compare_position, open_positions_by_symbol. rewrite <- H2, dict_of_unique with (x := p).
  - rewrite H3, H5, Z.eqb_refl. cbn [negb]. by rewrite (deqb_scaled (expo (bp_average_price b))), Z.eqb_refl by lia.
  - by apply held_open_spec.
  - intros q Hq E. apply held_open_spec in Hq as (Q1 & Q2 & _).
    assert (p_id q = p_id p) as Ei by (eapply (lg_symbol _ (se_ledger _ _ _ Hs)); eauto).
    rewrite Ei in Q1. congruence.
Qed.

Lemma compare_absent_clean x p : (x, p) ∈ open_positions_by_symbol db ->
  compare_absent (dict_of bp_symbol (sn_positions snapshot)).*1 (x, p) = [].
Proof using Hs.
  intros H. apply dict_of_in in H as [Hp <-]. apply held_open_spec in Hp as (P1 & P2 & P3).
  destruct (se_known _ _ _ Hs _ _ P1 P2 P3) as (b & Hb & _ & Hsym & _).
  unfold compare_absent. rewrite bool_decide_eq_true_2; [done|]. rewrite Hsym. by apply dict_of_key.
Qed.

(** Only two kinds of difference survive a projection. *)
Lemma compare_settled m : m ∈ compare_snapshot db snapshot ->
  mm_code m ∈ REMAINING_CODES /\ mm_severity m = "CRITICAL".
Proof using Hs.
  unfold compare_snapshot. rewrite !elem_of_app.
  intros [H|[H|[H|[H|H]]]]; apply concat_map_elem in H as (x & Hx & Hm).
  - destruct x as [k b]. apply dict_of_in in Hx as [Hb _]. rewrite compare_open_clean in Hm by done.
    by apply elem_of_nil in Hm.
  - unfold compare_internal in Hm. destruct (nonempty _) as [n|]; [destruct (bool_decide _)|].
    + by apply elem_of_nil in Hm.
    + apply list_elem_of_singleton in Hm as ->. split; [apply list_elem_of_here|done].
    + apply list_elem_of_singleton in Hm as ->. split; [apply list_elem_of_here|done].
  - destruct x as [n t]. unfold compare_fills in Hm. destruct (dict_get n _); [|by apply elem_of_nil in Hm].
    destruct (t =? _); [by apply elem_of_nil in Hm|]. apply list_elem_of_singleton in Hm as ->.
    split; [apply list_elem_of_further, list_elem_of_here|done].
  - destruct x as [k b]. apply dict_of_in in Hx as [Hb _]. rewrite compare_position_clean in Hm by done.
    by apply elem_of_nil in Hm.
  - destruct x as [k p]. rewrite compare_absent_clean in Hm by done. by apply elem_of_nil in Hm.
Qed.
End Compare.

(** ** The durable copy during a projection *)

(** A program that does not commit leaves the durable copy alone. *)
Definition keeps_disk {A} (m : prog A) : Prop := forall s, wp m (fun s' _ => disk s' = disk s) s.

Lemma keeps_bind {A B} (m : prog A) (k : A -> prog B) :
  keeps_disk m -> (forall a, keeps_disk (k a)) -> keeps_disk (x ← m; k x).
Proof.
  intros Hm Hk s. apply wp_bind. eapply wp_mono; [apply Hm|]. intros s1 [a|e] H; [|done].
  unfold after. eapply wp_mono; [apply Hk|]. cbn. congruence.
Qed.

Lemma keeps_fold {A S} (f : A -> S -> prog S) l u :
  (forall x u, keeps_disk (f x u)) -> keeps_disk (fold_prog f l u).
Proof.
  intros Hf. revert u. induction l as [|x l IH]; intros u; cbn [fold_prog]; [done|].
  by apply keeps_bind.
Qed.

Lemma keeps_gets {A} (f : DB -> A) : keeps_disk (gets f). Proof. done. Qed.
Lemma keeps_ret {A} (a : A) : keeps_disk (mret a). Proof. done. Qed.
Lemma keeps_raise {A} e : keeps_disk (@raise A e). Proof. done. Qed.
Lemma keeps_uuid : keeps_disk uuid7. Proof. done. Qed.
Lemma keeps_clock : keeps_disk utcnow. Proof. done. Qed.
Lemma keeps_modify f : keeps_disk (modify f). Proof. done. Qed.
Lemma keeps_guard c e : keeps_disk (guard_or c e). Proof. by destruct c. Qed.
Lemma keeps_result {A} (r : exn + A) : keeps_disk (of_result r). Proof. by destruct r. Qed.
Lemma keeps_gate status reason : keeps_disk (_set_gate status reason). Proof. done. Qed.

Create HintDb keeps.
#[local] Hint Resolve keeps_gets keeps_ret keeps_raise keeps_uuid keeps_clock keeps_modify keeps_guard
  keeps_result keeps_gate : keeps.

Ltac keeps :=
  repeat first
    [ progress auto with keeps
    | apply keeps_bind; [|intros]
    | apply keeps_fold; intros
    | lazymatch goal with |- keeps_disk (match ?x with _ => _ end) => destruct x end
    | progress cbv beta zeta ].

Section Keeps.
Context (sha256 : string -> string).

Lemma keeps_flush u : keeps_disk (flush_unit u).
Proof. unfold flush_unit. keeps. Qed.

Lemma keeps_event o t p a c u : keeps_disk (_add_order_event sha256 o t p a c u).
Proof. unfold _add_order_event. keeps. Qed.

#[local] Hint Resolve keeps_flush keeps_event : keeps.

Lemma keeps_projection snapshot run_id corr :
  keeps_disk (apply_broker_account_projection sha256 snapshot run_id corr).
Proof.
  unfold apply_broker_account_projection, _project_positions, project_open_order, _import_open_order,
    project_fill, project_total, project_cancel, project_position, close_position. keeps.
Qed.
End Keeps.

(** ** The outcomes of a run *)

Definition gate_is (db : DB) (status : GateStatus) (reason : string) : Prop :=
  exists g, gates db !! ACCOUNT_ALIAS = Some g /\ g_status g = status /\ g_reason g = Some reason.

(** The tables a projection writes. *)
Definition books (db : DB) :=
  (intents db, orders db, order_events db, fills db, positions db, position_events db).

Definition failure (e : exn) : Prop :=
  is_adapter_error e = true \/ e = ReconciliationProjectionError.

Lemma set_gate_run status reason s :
  wp (_set_gate status reason) (fun s' r => r = inl tt /\ disk s' = disk s /\
    gate_is (work s') status reason /\ books (work s') = books (work s) /\
    reconciliation_runs (work s') = reconciliation_runs (work s) /\
    mismatches (work s') = mismatches (work s)) s.
Proof.
  unfold _set_gate. repeat wp_step. split; [done|]. split; [done|]. split; [|done].
  eexists. split; [apply lookup_insert_eq|]. by destruct (gates (work s) !! ACCOUNT_ALIAS).
Qed.

Lemma mark_failed_run id s :
  wp (_mark_failed id) (fun s' r => r = inl tt /\ gate_is (disk s') GATE_DEGRADED "RECONCILIATION_FAILED" /\
    books (disk s') = books (work s) /\
    forall run, reconciliation_runs (work s) !! id = Some run -> rr_id run = id ->
      exists run', reconciliation_runs (disk s') !! id = Some run' /\ rr_state run' = "FAILED") s.
Proof.
  assert (HG : forall g, gate_is (set_gates (work s) (<[ACCOUNT_ALIAS := match g with
    | None => mkTradingGate ACCOUNT_ALIAS "MOCK" GATE_DEGRADED (Some "RECONCILIATION_FAILED") 1
    | Some g => set_g_version (set_g_reason (set_g_status g GATE_DEGRADED)
                  (Some "RECONCILIATION_FAILED")) (g_version g + 1) end]> (gates (work s))))
    GATE_DEGRADED "RECONCILIATION_FAILED").
  { intros g. eexists. split; [apply lookup_insert_eq|]. by destruct g. }
  unfold _mark_failed, _set_gate. repeat wp_step; (split; [done|]; split; [apply HG|]; split; [done|]).
  - intros run' [= <-] Hid. eexists. cbn. rewrite Hid.
    split; [apply lookup_insert_eq|done].
  - done.
Qed.

(** What a completed run leaves. *)
Record reconciled (id clean : string) (res : ReconciliationResult) (db : DB) : Prop := {
  rd_gate : gate_is db (rs_gate_status res) (rs_gate_reason res);
  rd_decision : (rs_gate_status res, rs_gate_reason res) =
    if rs_critical_mismatch_count res =? 0 then (GATE_RECONCILING, clean)
    else (GATE_HALTED, "RECONCILIATION_MISMATCH");
  rd_state : rs_state res = if rs_mismatch_count res =? 0 then "SUCCEEDED" else "MISMATCH";
  rd_run : exists run, reconciliation_runs db !! id = Some run /\ rr_state run = rs_state res /\
    rr_mismatch_count run = rs_mismatch_count res /\
    rr_critical_mismatch_count run = rs_critical_mismatch_count res
}.

(** The differences a run records are those of the projected books, which it
    stores with the precision of their columns. *)
Definition recorded (column : decimal -> decimal) (id : string) (snapshot : BrokerAccountSnapshot)
  (P : DB -> Prop) (res : ReconciliationResult) (db : DB) : Prop :=
  exists db1 old, let found := compare_snapshot db1 snapshot in
    P db1 /\ books db = books (stored_prices column db1) /\
    mismatches db = old ++ map (mismatch_row id) found /\ rs_mismatch_count res = len found /\
    rs_critical_mismatch_count res = len (List.filter critical found).

Lemma stored_books column a b : books a = books b ->
  books (stored_prices column a) = books (stored_prices column b).
Proof. unfold books. cbn. intros [= -> -> -> -> -> ->]. done. Qed.

Lemma len_zero {A} (l : list A) : (len l =? 0) = bool_decide (l = []) :> bool.
Proof. by destruct l. Qed.

Lemma reconcile_run sha256 column run snapshot clean (P : DB -> Prop) (E : exn -> Prop) s :
  wp (apply_broker_account_projection sha256 snapshot (rr_id run) (rr_correlation_id run))
    (fun s1 r => match r with inl _ => P (work s1) | inr e => E e end) s ->
  wp (reconcile_snapshot sha256 column run snapshot clean) (fun s' r => match r with
    | inl res => reconciled (rr_id run) clean res (disk s') /\
        recorded column (rr_id run) snapshot P res (disk s')
    | inr e => E e /\ disk s' = disk s end) s.
Proof.
  intros HP. unfold reconcile_snapshot. wp_step.
  eapply wp_mono; [apply (wp_and _ _ _ _ HP (keeps_projection _ _ _ _ s))|].
  intros s1 [pr|e] [H1 H2]; [|done]. unfold after at 1. repeat wp_step.
  eapply wp_mono; [apply set_gate_run|]. intros s2 r (-> & _ & HG & HB & HR & HM).
  unfold after at 1. repeat wp_step. set (found := compare_snapshot (work s1) snapshot) in *.
  split; [split|].
  - done.
  - cbn [rs_gate_status rs_gate_reason rs_critical_mismatch_count]. congruence.
  - cbn [rs_state rs_mismatch_count]. by rewrite len_zero.
  - change (reconciliation_runs (disk _)) with (reconciliation_runs (work s2)). rewrite HR.
    eexists. split; [apply lookup_insert_eq|done].
  - eexists (work s1), _. split; [done|]. split; [by apply stored_books|]. split; [|done].
    change (mismatches (disk _)) with (mismatches (work s2)). by rewrite HM.
Qed.

(** ** A whole run *)

Section Outcome.
Context (sha256 : string -> string) (column : decimal -> decimal).
Context (verified : Pending unit) (client : Pending BrokerAccountSnapshot).
Context (correlation_id : option string) (trigger clean : string).
Context (db : DB) (now : Z) (ids : nat -> string).

(** The database after the first commit of the run [id]. *)
Definition started (id : string) (D : DB) : Prop :=
  books D = books db /\ gate_is D GATE_RECONCILING "BOOTSTRAP_RECONCILIATION_RUNNING" /\
  exists run, reconciliation_runs D !! id = Some run /\ rr_id run = id /\ rr_state run = "RUNNING".

(** Why the run fails, and the durable database at that moment; [E] holds of
    the errors of the projection. *)
Inductive cause (E : exn -> Prop) (D : DB) : exn -> DB -> Prop :=
| not_verified e : reply verified = inr e -> cause E D e (meanwhile verified D)
| not_read e : reply verified = inl tt -> reply client = inr e ->
    cause E D e (meanwhile client (meanwhile verified D))
| not_projected e snapshot : reply verified = inl tt -> reply client = inl snapshot -> E e ->
    cause E D e (meanwhile client (meanwhile verified D)).

Definition failed (id : string) (D db' : DB) : Prop :=
  gate_is db' GATE_DEGRADED "RECONCILIATION_FAILED" /\ books db' = books D /\
  forall run, reconciliation_runs D !! id = Some run -> rr_id run = id ->
    exists run', reconciliation_runs db' !! id = Some run' /\ rr_state run' = "FAILED".

Definition outcome (E : exn -> Prop) (e : exn) (db' : DB) : Prop :=
  (e = ValueError /\ (trigger ∉ RECONCILIATION_TRIGGERS) /\ db' = db) \/
  (exists id D e0 D', started id D /\ cause E D e0 D' /\
    ((e0 = OtherError /\ e = OtherError /\ db' = D') \/ (e = reported e0 /\ failed id D' db'))).

Definition on_snapshot (E : exn -> Prop) (P : BrokerAccountSnapshot -> DB -> Prop) : Prop :=
  forall D snapshot id corr s, books D = books db -> reply client = inl snapshot ->
    work s = meanwhile client (meanwhile verified D) -> disk s = work s ->
    wp (apply_broker_account_projection sha256 snapshot id corr)
      (fun s1 r => match r with inl _ => P snapshot (work s1) | inr e => E e end) s.

Lemma failing_run E id D e0 D' s Q :
  started id D -> cause E D e0 D' -> disk s = D' ->
  (forall s' e, outcome E e (disk s') -> Q s' (inr e)) ->
  match on_failure id e0 with Some m => wp m Q s | None => Q s (inr e0) end.
Proof.
  intros HD Hc Hs HQ.
  assert (HF : wp (rollback ;; _mark_failed id ;; raise (reported e0)) Q s).
  { do 2 wp_step. unfold after. wp_step. eapply wp_mono; [apply mark_failed_run|].
    intros s1 r (-> & H1 & H2 & H3). unfold after. wp_step. apply HQ. right.
    exists id, D, e0, D'. split; [done|]. split; [done|]. right. split; [done|].
    cbn [work rolled_back] in *. rewrite Hs in *. done. }
  destruct e0; try exact HF. apply HQ. right. exists id, D, OtherError, D'. rewrite Hs.
  split; [done|]. split; [done|]. by left.
Qed.

Definition finished (E : exn -> Prop) (P : BrokerAccountSnapshot -> DB -> Prop) (s' : Sess)
  (r : ReconciliationResult + exn) : Prop :=
  match r with
  | inl res => reply verified = inl tt /\ exists id snapshot, reply client = inl snapshot /\
      reconciled id clean res (disk s') /\
      recorded column id snapshot (P snapshot) res (disk s')
  | inr e => outcome E e (disk s')
  end.

Lemma attempt_run E P run s : on_snapshot E P -> started (rr_id run) (disk s) ->
  wp (try_except
       (ask verified ;; snapshot ← ask client; reconcile_snapshot sha256 column run snapshot clean)
       (on_failure (rr_id run))) (finished E P) s.
Proof.
  intros HP HD. set (D := disk s). wp_step. wp_step.
  unfold ask at 1. unfold wp at 1. destruct (reply verified) as [[]|e] eqn:Hv; unfold after at 1.
  2: { apply (failing_run E _ D e (meanwhile verified D)); [done|by constructor|done|done]. }
  wp_step. unfold ask. unfold wp at 1. destruct (reply client) as [snapshot|e] eqn:Hc; unfold after at 1.
  2: { apply (failing_run E _ D e (meanwhile client (meanwhile verified D))); [done|by constructor|done|done]. }
  set (s2 := mkSess _ _ _ _ _ _ _).
  eapply wp_mono; [apply (reconcile_run _ _ _ snapshot _ (P snapshot) E)|].
  - by apply (HP D); [apply HD| | |].
  - intros s' [res|e] [H1 H2].
    + split; [done|]. by exists (rr_id run), snapshot.
    + apply (failing_run E _ D e (disk s2)); [done|by econstructor|done|done].
Qed.

Lemma run_outcome E P : on_snapshot E P ->
  wp (run_kiwoom_reconciliation sha256 column verified client correlation_id trigger clean)
    (finished E P) (open_session db now ids).
Proof.
  intros HP. unfold run_kiwoom_reconciliation. wp_step. apply wp_guard_or; intros Ht; unfold after at 1.
  2: { left. by apply bool_decide_eq_false in Ht. }
  do 2 wp_step. unfold after at 1. wp_step.
  assert (H : forall corr s0, work s0 = db -> wp (A := ReconciliationResult) (
    id ← uuid7;
    let run := mkReconciliationRun id ACCOUNT_ALIAS trigger "RUNNING" now None None 0 0 corr (JObj []) in
    modify (put_run run) ;;
    _set_gate GATE_RECONCILING "BOOTSTRAP_RECONCILIATION_RUNNING" ;;
    commit ;;
    try_except
      (ask verified ;; snapshot ← ask client; reconcile_snapshot sha256 column run snapshot clean)
      (on_failure id)) (finished E P) s0).
  { intros corr s0 Hs. do 2 wp_step. unfold after at 1. do 2 wp_step. unfold after at 1. wp_step.
    eapply wp_mono; [apply set_gate_run|]. intros s1 r (-> & _ & HG & HB & HR & _). unfold after at 1.
    do 2 wp_step. unfold after at 1. apply (attempt_run E P (mkReconciliationRun _ _ _ _ _ _ _ _ _ _ _)); [done|].
    split; [|split; [done|]]; cbn [disk committed].
    - rewrite HB. cbn. by rewrite Hs.
    - rewrite HR. eexists. split; [apply lookup_insert_eq|done]. }
  destruct (nonempty correlation_id); wp_step; unfold after at 1; by apply H.
Qed.
End Outcome.

(** ** Settlement *)

Lemma ledger_of_books a b : books a = books b -> ledger b -> ledger a.
Proof.
  unfold books. intros [= _ Ho _ Hf Hp _] [L1 L2 L3 L4 L5 L6 L7 L8].
  rewrite <- Ho in *. rewrite <- Hf in *. rewrite <- Hp in *. by split.
Qed.

Lemma settled_of_orders snapshot a b db : orders a = orders b -> settled snapshot a db ->
  settled snapshot b db.
Proof. intros E [S1 S2 S3 S4 S5 S6]. rewrite E in *. by split. Qed.

Section Settling.
Context (sha256 : string -> string) (column : decimal -> decimal).
Context (verified : Pending unit) (client : Pending BrokerAccountSnapshot).
Context (correlation_id : option string) (trigger clean : string).
Context (db : DB) (now : Z) (ids : nat -> string) (snapshot : BrokerAccountSnapshot).

(** The broker answers with [snapshot], and other sessions leave the books. *)
Definition answered : Prop :=
  trigger ∈ RECONCILIATION_TRIGGERS /\ reply verified = inl tt /\ reply client = inl snapshot /\
  forall D, books D = books db -> books (meanwhile client (meanwhile verified D)) = books db.

Definition undone (s' : Sess) (e : exn) : Prop :=
  e = ReconciliationProjectionError /\ books (disk s') = books db /\
  gate_is (disk s') GATE_DEGRADED "RECONCILIATION_FAILED".

Lemma settled_run : snapshot_ok snapshot -> ledger db -> answered ->
  wp (run_kiwoom_reconciliation sha256 column verified client correlation_id trigger clean)
    (fun s' r => match r with
      | inl res => exists id, reconciled id clean res (disk s') /\
          recorded column id snapshot (settled snapshot db) res (disk s')
      | inr e => undone s' e end) (open_session db now ids).
Proof.
  intros Hok HL (Ht & Hv & Hc & Hm).
  eapply wp_mono; [apply (run_outcome _ _ _ _ _ _ _ _ _ _ (eq IntegrityError)
                            (fun sn db1 => sn = snapshot -> settled snapshot db db1))|].
  - intros D sn id corr s HB Hsn Hw Hd.
    assert (sn = snapshot) as -> by congruence.
    assert (Hb : books (work s) = books db) by (rewrite Hw; by apply Hm).
    eapply wp_mono; [apply (projection_run sha256 (sn_observed_at snapshot) corr (disk s) id snapshot (work s) s Hok); try done|].
    + by eapply ledger_of_books.
    + intros s1 [r|e] H; [|by destruct H]. intros _. destruct H as [_ H].
      eapply settled_of_orders; [|exact H]. unfold books in Hb. congruence.
  - intros s' [res|e] H.
    + destruct H as (_ & id & sn & Hsn & H1 & db1 & old & H2 & H3 & H4).
      assert (sn = snapshot) as -> by congruence.
      exists id. split; [done|]. exists db1, old. split; [by apply H2|done].
    + destruct H as [(_ & H & _)|(id & D & e0 & D' & (HB & _) & Hcause & H)]; [done|].
      destruct Hcause as [e0 H0|e0 _ H0|e0 sn _ _ <-]; [congruence..|].
      destruct H as [(H & _)|(-> & HG & HD & _)]; [done|].
      split; [done|]. split; [|done]. rewrite HD. by apply Hm.
Qed.

(** Every difference that is left is critical, so the gate tells whether there
    is one. *)
Lemma settled_gate res db1 :
  settled snapshot db db1 ->
  (rs_gate_status res, rs_gate_reason res) = (if rs_critical_mismatch_count res =? 0
     then (GATE_RECONCILING, clean) else (GATE_HALTED, "RECONCILIATION_MISMATCH")) ->
  rs_critical_mismatch_count res = len (List.filter critical (compare_snapshot db1 snapshot)) ->
  rs_mismatch_count res = len (compare_snapshot db1 snapshot) ->
  rs_critical_mismatch_count res = rs_mismatch_count res /\
  rs_gate_status res = (if bool_decide (compare_snapshot db1 snapshot = []) then GATE_RECONCILING
                        else GATE_HALTED) /\
  Forall (fun m => mm_code m ∈ REMAINING_CODES)
    (compare_snapshot db1 snapshot).
Proof.
  intros HS HG HC HM.
  assert (HF : forall l, (forall m, m ∈ l -> mm_severity m = "CRITICAL") -> List.filter critical l = l).
  { induction l as [|m l IH]; intros H; [done|]. cbn. unfold critical at 1.
    rewrite (H m), IH by (intros; first [apply list_elem_of_here | apply H; by apply list_elem_of_further]).
    done. }
  rewrite HF in HC by (intros m Hm; by eapply compare_settled). split; [congruence|]. split.
  - rewrite HC, len_zero in HG. destruct (bool_decide _); congruence.
  - apply Forall_forall. intros m Hm. by eapply compare_settled.
Qed.
End Settling.

(** An order whose fills make up only a part is put back. *)
Lemma closing_reopens open totals n o total :
  open n = false -> o_status o = CANCELLED -> dict_get n totals = Some total ->
  0 < total < o_requested_quantity o ->
  closing open totals n o =
    bumped o (set_o_status (set_quantities o total 0 (o_requested_quantity o - total)) RECONCILING).
Proof.
  intros Hn Hs Ht [H1 H2]. unfold closing. rewrite Ht. unfold total_round. rewrite Hn, Hs.
  destruct (Z.ltb_spec (o_requested_quantity o) total); [lia|]. cbn [orb].
  rewrite bool_decide_eq_false_2 by done. unfold order_after_total.
  destruct (Z.eqb_spec total (o_requested_quantity o)); [lia|].
  destruct (Z.ltb_spec 0 total); [|lia]. unfold cancel_round.
  rewrite bool_decide_eq_true_2; [done|]. unfold bumped. by destruct (same_order_state _ _).
Qed.

Lemma settled_reopened snapshot db db1 k o n total :
  settled snapshot db db1 -> orders db !! k = Some o -> ours o -> o_status o = CANCELLED ->
  nonempty (o_broker_order_id o) = Some n -> n ∉ map bo_broker_order_id (sn_open_orders snapshot) ->
  dict_get n (fill_totals (sn_fills snapshot)) = Some total -> 0 < total < o_requested_quantity o ->
  exists o', orders db1 !! k = Some o' /\ o_status o' = RECONCILING /\ o_filled_quantity o' = total /\
    o_cancelled_quantity o' = 0 /\ o_remaining_quantity o' = o_requested_quantity o - total /\
    compare_snapshot db1 snapshot <> [].
Proof.
  intros HS Hk Ho Hst Hn Hopen Ht Hb. pose proof (se_other _ _ _ HS k o n Hk Ho Hn Hopen) as H1.
  erewrite closing_reopens in H1 by (done || by apply bool_decide_eq_false).
  set (o' := bumped o _) in H1. exists o'.
  assert (HF : o_status o' = RECONCILING /\ o_filled_quantity o' = total /\ o_cancelled_quantity o' = 0 /\
    o_remaining_quantity o' = o_requested_quantity o - total /\ o_broker_order_id o' = o_broker_order_id o /\
    o_account_alias o' = o_account_alias o).
  { unfold o', bumped. by destruct (same_order_state _ _). }
  destruct HF as (F1 & F2 & F3 & F4 & F5 & F6). do 5 (split; [done|]).
  assert (Hi : o' ∈ internal_orders db1).
  { apply (internal_orders_spec snapshot db); [done|].
    rewrite (lg_order_id _ (se_ledger _ _ _ HS) _ _ H1), F1. unfold ours. by rewrite F6. }
  intros Hnil. unfold compare_snapshot in Hnil.
  apply app_eq_nil in Hnil as [_ Hnil]. apply app_eq_nil in Hnil as [Hnil _].
  apply concat_nil_Forall in Hnil. rewrite Forall_fmap, Forall_forall in Hnil.
  specialize (Hnil o' Hi). unfold compose, compare_internal in Hnil. rewrite F5, Hn in Hnil.
  rewrite bool_decide_eq_false_2 in Hnil; [done|]. intros ([m b] & -> & Hb')%list_elem_of_fmap.
  apply Hopen. apply dict_of_in in Hb' as [Hin <-]. cbn.
  by apply (list_elem_of_fmap_2 bo_broker_order_id).
Qed.

Lemma stored_order column db k o : orders db !! k = Some o ->
  orders (stored_prices column db) !! k = Some (set_o_limit_price o (column <$> o_limit_price o)).
Proof. intros H. cbn. by rewrite lookup_fmap, H. Qed.

(** C18: a reconciliation run ends in one of these ways.  An unknown trigger is
    refused with nothing written.  Otherwise the gate is first closed
    ([RECONCILING]) in a commit of its own.  A run that completes records one
    row per difference, counts them, and leaves the gate [HALTED] when a
    critical one is left and [RECONCILING] when none is; a failure (of the
    broker or of the projection) leaves the books as they were committed, the
    run [FAILED] and the gate [DEGRADED], and only the broker client's own
    exceptions are passed on.  No outcome leaves the gate open. *)
Theorem reconciliation_outcomes sha256 column verified client correlation_id trigger clean db now ids :
  wp (run_kiwoom_reconciliation sha256 column verified client correlation_id trigger clean)
    (finished column verified client trigger clean db (fun _ => True) (fun _ _ => True))
    (open_session db now ids).
Proof.
  apply run_outcome. intros D snapshot id corr s _ _ _ _.
  unfold wp. by destruct (apply_broker_account_projection _ _ _ _ _) as [s' [a|e]].
Qed.

(** C19: reconciliation settles the account.  On a snapshot the broker client
    accepted, with books that satisfy the schema's constraints and no other
    session writing them, a run either completes or undoes everything.  When it
    completes, the stored books are the snapshot: every open order and every
    position of the broker is there with the broker's numbers, every other
    open position is closed, and orders the broker no longer lists are closed
    from their fills.  The comparison that follows can then find only orders
    missing at the broker and orders whose fills do not add up; every one is
    critical, so the gate is [RECONCILING] exactly when nothing is left. *)
Theorem reconciliation_settles sha256 column verified client correlation_id trigger clean db now ids
    snapshot :
  snapshot_ok snapshot -> ledger db -> answered verified client trigger db snapshot ->
  wp (run_kiwoom_reconciliation sha256 column verified client correlation_id trigger clean)
    (fun s' r => match r with
      | inl res => exists db1, settled snapshot db db1 /\
          books (disk s') = books (stored_prices column db1) /\
          rs_critical_mismatch_count res = rs_mismatch_count res /\
          rs_gate_status res = (if bool_decide (compare_snapshot db1 snapshot = [])
                                then GATE_RECONCILING else GATE_HALTED) /\
          Forall (fun m => mm_code m ∈ REMAINING_CODES) (compare_snapshot db1 snapshot)
      | inr e => undone db s' e end) (open_session db now ids).
Proof.
  intros Hok HL HA. eapply wp_mono; [by apply settled_run|].
  intros s' [res|e] H; [|done]. destruct H as (id & HR & db1 & old & HS & HB & _ & HM & HC).
  exists db1. split; [done|]. split; [done|]. by eapply settled_gate; [|apply (rd_decision _ _ _ _ HR)|..].
Qed.

(** An order that was cancelled after a partial fill does not stay
    cancelled.  When the broker no longer lists it and its fills of the day
    make up part of the requested quantity, a completed run puts the order back
    to [RECONCILING], its cancelled quantity back into the remaining one,
    reports it as missing at the broker and halts the gate. *)
Theorem cancelled_order_reopened sha256 column verified client correlation_id trigger clean db now ids
    snapshot k o n total :
  snapshot_ok snapshot -> ledger db -> answered verified client trigger db snapshot ->
  orders db !! k = Some o -> ours o -> o_status o = CANCELLED -> nonempty (o_broker_order_id o) = Some n ->
  n ∉ map bo_broker_order_id (sn_open_orders snapshot) ->
  dict_get n (fill_totals (sn_fills snapshot)) = Some total -> 0 < total < o_requested_quantity o ->
  wp (run_kiwoom_reconciliation sha256 column verified client correlation_id trigger clean)
    (fun s' r => match r with
      | inl res => rs_gate_status res = GATE_HALTED /\
          gate_is (disk s') GATE_HALTED "RECONCILIATION_MISMATCH" /\
          exists o', orders (disk s') !! k = Some o' /\ o_status o' = RECONCILING /\
            o_filled_quantity o' = total /\ o_cancelled_quantity o' = 0 /\
            o_remaining_quantity o' = o_requested_quantity o - total
      | inr e => undone db s' e end) (open_session db now ids).
Proof.
  intros Hok HL HA Hk Ho Hst Hn Hopen Ht Hb. eapply wp_mono; [by apply settled_run|].
  intros s' [res|e] H; [|done]. destruct H as (id & HR & db1 & old & HS & HB & _ & HM & HC).
  destruct (settled_reopened _ _ _ _ _ _ _ HS Hk Ho Hst Hn Hopen Ht Hb) as (o' & H1 & H2 & H3 & H4 & H5 & H6).
  destruct (settled_gate _ _ _ _ _ HS (rd_decision _ _ _ _ HR) HC HM) as (_ & HG & _).
  rewrite bool_decide_eq_false_2 in HG by done.
  pose proof (rd_gate _ _ _ _ HR) as Hgate. pose proof (rd_decision _ _ _ _ HR) as Hdec.
  rewrite HG in Hgate, Hdec. split; [done|]. split.
  - destruct (_ =? 0); simplify_eq. by rewrite Hdec in Hgate.
  - apply (stored_order column) in H1. unfold books in HB.
    assert (orders (disk s') = orders (stored_prices column db1)) as -> by congruence.
    eexists. by split; [exact H1|].
Qed.

(** ** A concrete account

    One order cancelled after 4 of 10 shares, one order the ledger does not
    know, one position. *)

Definition to_column (d : decimal) : decimal := default d (quantize ROUND_HALF_EVEN (-4) d).

Definition day_cancelled : TradingOrder :=
  mkTradingOrder "o1" "i1" "g1" None ACCOUNT_ALIAS ENVIRONMENT "005930" "KRX" BUY LIMIT
    (Some (Dec 711000000 (-4))) 10 4 6 0 CANCELLED "key-1" "hash-1" (Some "0000101") 0 POLICY_NONE
    0 0 0 None (kst_date day_now) "corr-1" 3 (day_now - seconds 1800).

Definition recon_db : DB :=
  set_orders (day_db MODE_DISABLED ∅) {[ "o1" := day_cancelled ]}.

Definition recon_snapshot : BrokerAccountSnapshot :=
  mkBrokerAccountSnapshot
    [mkBrokerOpenOrder "0000102" "000660" SELL 5 2 3 (Some (Dec 200000 0)) "095000" "KRX"]
    [mkBrokerFillSummary "0000101" "005930" BUY 4 (Dec 71100 0) (Dec 10 0) (Dec 0 0) "093000" "KRX"]
    [mkBrokerPosition "005930" 4 4 (Dec 71100 0) "KRX"] day_now.

Definition recon_answer {A} (a : A) : Pending A := mkPending (inl a) id second.

Definition recon_run :=
  run_kiwoom_reconciliation day_hash to_column (recon_answer tt) (recon_answer recon_snapshot) None
    "PERIODIC" "CLEAN" (open_session recon_db day_now (fun i => pretty (N.of_nat i))).

Example recon_run_halts : match recon_run with
  | (s', inl res) => rs_gate_status res = GATE_HALTED /\ rs_mismatch_count res = 1
  | _ => False end.
Proof. vm_compute. done. Qed.

Lemma recon_ledger : ledger recon_db.
Proof.
  split; cbn [recon_db orders fills positions set_orders day_db].
  - by intros k o [<- <-]%lookup_singleton_Some.
  - by intros k o [<- <-]%lookup_singleton_Some.
  - by intros k1 k2 o1 o2 n [<- <-]%lookup_singleton_Some [<- <-]%lookup_singleton_Some.
  - by intros k o [<- <-]%lookup_singleton_Some.
  - by intros k f H%lookup_empty_Some.
  - by intros k p H%lookup_empty_Some.
  - by intros k1 k2 p1 p2 H%lookup_empty_Some.
  - by intros k p H%lookup_empty_Some.
Qed.

Lemma recon_snapshot_ok : snapshot_ok recon_snapshot.
Proof.
  assert (HT : forall s h m c, clock_fields s = Some (h, m, c) -> digits_of_length 6 s = true -> clock_text s)
    by (intros s h m c H; split; [done|rewrite H; by eexists]).
  split; repeat constructor; cbn; try lia; try done; try set_solver.
  all: first [by eapply HT | by intros d [= <-] | idtac].
Qed.

Lemma recon_answered :
  answered (recon_answer tt) (recon_answer recon_snapshot) "PERIODIC" recon_db recon_snapshot.
Proof. split; [|done]. repeat (apply list_elem_of_here || apply list_elem_of_further). Qed.

Lemma reconciliation_settles_witness : exists s' res db1, recon_run = (s', inl res) /\
  settled recon_snapshot recon_db db1 /\ rs_gate_status res = GATE_HALTED.
Proof.
  pose proof (reconciliation_settles day_hash to_column (recon_answer tt) (recon_answer recon_snapshot)
    None "PERIODIC" "CLEAN" recon_db day_now (fun i => pretty (N.of_nat i)) recon_snapshot
    recon_snapshot_ok recon_ledger recon_answered) as H.
  pose proof recon_run_halts as HH. unfold wp in H. fold recon_run in H.
  destruct recon_run as [s' [res|e]]; [|destruct HH]. destruct H as (db1 & H & _), HH as [HH _].
  by exists s', res, db1.
Defined.

Lemma cancelled_order_reopened_witness : exists s' res o', recon_run = (s', inl res) /\
  o_status day_cancelled = CANCELLED /\ orders (disk s') !! "o1" = Some o' /\ o_status o' = RECONCILING.
Proof.
  pose proof (cancelled_order_reopened day_hash to_column (recon_answer tt) (recon_answer recon_snapshot)
    None "PERIODIC" "CLEAN" recon_db day_now (fun i => pretty (N.of_nat i)) recon_snapshot "o1"
    day_cancelled "0000101" 4 recon_snapshot_ok recon_ledger recon_answered eq_refl eq_refl eq_refl
    eq_refl ltac:(apply (bool_decide_unpack _); vm_compute; exact I) eq_refl ltac:(cbn; lia)) as H.
  pose proof recon_run_halts as HH. unfold wp in H. fold recon_run in H.
  destruct recon_run as [s' [res|e]]; [|destruct HH]. destruct H as (_ & _ & o' & H1 & H2 & _).
  by exists s', res, o'.
Defined.

(** ** Managed quantities over several runs

    An account with one acknowledged BUY order of Cresta's own, which the broker
    reports as filled in two parts of different prices. *)

Definition managed_order : TradingOrder :=
  mkTradingOrder "o2" "i2" "g2" None ACCOUNT_ALIAS ENVIRONMENT "005930" "KRX" BUY LIMIT
    (Some (Dec 101 0)) 3 0 0 3 ACKNOWLEDGED "key-2" "hash-2" (Some "0000201") 0 POLICY_NONE
    0 0 0 None (kst_date day_now) "corr-2" 2 (day_now - seconds 1800).

Definition managed_db : DB :=
  set_intents (set_orders (day_db MODE_DISABLED ∅) {[ "o2" := managed_order ]})
    {[ "i2" := mkOrderIntent "i2" "g2" ACCOUNT_ALIAS ENVIRONMENT "005930" "KRX" BUY "ENTRY" 3 "corr-2" ]}.

Definition managed_snapshot : BrokerAccountSnapshot :=
  mkBrokerAccountSnapshot []
    [mkBrokerFillSummary "0000201" "005930" BUY 1 (Dec 100 0) (Dec 0 0) (Dec 0 0) "093000" "KRX";
     mkBrokerFillSummary "0000201" "005930" BUY 2 (Dec 101 0) (Dec 0 0) (Dec 0 0) "093001" "KRX"]
    [mkBrokerPosition "005930" 3 3 (Dec 1006667 (-4)) "KRX"] day_now.

(** The database after [n] runs on the same snapshot. *)
Fixpoint managed_runs (n : nat) : DB :=
  match n with
  | O => managed_db
  | S m => disk (run_kiwoom_reconciliation day_hash to_column (recon_answer tt)
             (recon_answer managed_snapshot) None "PERIODIC" "CLEAN"
             (open_session (managed_runs m) day_now
                (fun i => pretty (N.of_nat (100 * n + i))))).1
  end.

Definition managed_state (db : DB) : list (Z * Z * Origin * Z) :=
  map (fun p => (p_quantity p, p_managed_quantity p, p_origin p, p_version p)) (rows (positions db)).

(** The fills a run imports are not yet flushed when it replays them: Cresta's
    own shares stay external until the next run. *)
Example imported_fills_lag :
  managed_state (managed_runs 1) = [(3, 0, EXTERNAL, 1)] /\
  managed_state (managed_runs 2) = [(3, 3, CRESTA_MANAGED, 2)].
Proof. vm_compute. done. Qed.

(** The replayed average has 28 digits, its column four decimals: every further
    run on the same snapshot is a change of the position. *)
Example unchanged_position_bumped :
  map (fun n => p_version <$> rows (positions (managed_runs n))) [2; 3; 4]%nat = [[2]; [3]; [4]] /\
  map (fun n => length (position_events (managed_runs n))) [2; 3; 4]%nat = [2; 3; 4]%nat.
Proof. vm_compute. done. Qed.
