(* ===== verification/BrokerWorker.v ===== *)
(** * The broker worker

    [worker.py]: the process that holds the broker lease, keeps the feed
    connected, reconciles the account, sends the created orders and stores the
    quotes.

    The broker client is the interface of [OrderSender] and [Reconciliation].  A
    [Gap] is the time that passes at a point of the code with what the other
    sessions commit meanwhile, earlier rounds of the heartbeat among them; the
    last round in a gap is explicit.  A process is stopped when its inputs are used up.  [identity] is
    set before the loops start, so their tests for [None] are left out. *)

Set Warnings "-register-all".

From Stdlib Require Import ZArith Lia Ascii String.
From stdpp Require Import base numbers strings list gmap.
From S2P Require Import Prelude Decimal DecimalText Json PyTime Models Kiwoom KiwoomClient.
From S2P Require Import Session Fence WorkerState OrderSender MarketWatch KiwoomWs Watchlist StopTrigger.
From S2P Require Import AccountProjection Reconciliation.

Open Scope Z_scope.

Definition RECONNECT_BACKOFF : list Z := [1; 2; 5; 10; 30].
Definition STOP_TRIGGER_INTERVAL_SECONDS : Z := 10.

Record WorkerSettings := mkWorkerSettings {
  kiwoom_worker_lease_seconds : Z;
  kiwoom_worker_heartbeat_seconds : Z;
  kiwoom_event_debounce_seconds : Z;
  kiwoom_watchlist_sync_seconds : Z
}.

(** ** The process *)

(** The database as its sessions see it, its feed, [lease_lost], and the locals of
    [_connection_loop] that outlive an exception. *)
Record Worker := mkWorker {
  wk_sess : Sess;
  wk_feed : Feed;
  wk_lease_lost : bool;
  wk_failures : nat;
  wk_connected_once : bool
}.

Definition wk (A : Type) : Type := Worker -> Worker * (A + exn).

#[export] Instance wk_ret : MRet wk := fun A a w => (w, inl a).
#[export] Instance wk_bind : MBind wk := fun A B k m w =>
  match m w with
  | (w', inl a) => k a w'
  | (w', inr e) => (w', inr e)
  end.

Definition wk_raise {A} (e : exn) : wk A := fun w => (w, inr e).
Definition wk_get {A} (f : Worker -> A) : wk A := fun w => (w, inl (f w)).

Definition on_db {A} (m : prog A) : wk A := fun w =>
  let '(s, r) := m (wk_sess w) in
  (mkWorker s (wk_feed w) (wk_lease_lost w) (wk_failures w) (wk_connected_once w), r).
Definition on_feed {A} (m : ws A) : wk A := fun w =>
  let '(f, r) := m (wk_feed w) in
  (mkWorker (wk_sess w) f (wk_lease_lost w) (wk_failures w) (wk_connected_once w), r).
Definition set_lease_lost : wk unit := fun w =>
  (mkWorker (wk_sess w) (wk_feed w) true (wk_failures w) (wk_connected_once w), inl tt).
Definition set_failures (n : nat) : wk unit := fun w =>
  (mkWorker (wk_sess w) (wk_feed w) (wk_lease_lost w) n (wk_connected_once w), inl tt).
Definition set_connected_once : wk unit := fun w =>
  (mkWorker (wk_sess w) (wk_feed w) (wk_lease_lost w) (wk_failures w) true, inl tt).

Definition wk_try {A} (m : wk A) (h : exn -> option (wk A)) : wk A := fun w =>
  match m w with
  | (w', inr e) => match h e with Some m' => m' w' | None => (w', inr e) end
  | r => r
  end.

Definition wk_finally {A B} (m : wk A) (cleanup : wk B) : wk A := fun w =>
  let '(w1, r) := m w in
  let '(w2, r2) := cleanup w1 in
  (w2, match r2 with inl _ => r | inr e => inr e end).

Definition now_ : wk Z := on_db utcnow.
Definition timedelta (n : Z) : Z := PyTime.seconds n.

(** ** Its inputs *)

Record Gap := mkGap {
  gp_elapsed : Z;
  gp_commits : DB -> DB;
  gp_heartbeat : bool
}.

(** Where time passes. *)
Inductive Point :=
| AT_START | AT_TURN | AT_STOPS | AT_STOPS_DONE | AT_SYNC | AT_CANCEL | AT_SEND | AT_TOKEN | AT_SWITCH
| AT_RECONCILE | AT_APPLY | AT_DONE | AT_RECEIVE | AT_EVENT | AT_DUE | AT_FAILURE | AT_WAIT.

(** What the environment does during a turn of the receive loop, or while a
    connection is made. *)
Record World := mkWorld {
  wd_gap : Point -> Gap;
  wd_client : OrderClient;
  wd_locked_cancel : string -> bool;
  wd_locked_send : string -> bool;
  wd_access_token : Pending string;
  wd_verified : Pending unit;
  wd_account : Pending BrokerAccountSnapshot;
  wd_stop_race : string -> list TradingOrder;
  wd_recover_race : string -> list TradingOrder
}.

(** A connection: what its socket will give, or no socket, and its turns. *)
Record Connection := mkConnection {
  cn_world : World;
  cn_socket : option (list Incoming);
  cn_turns : list World
}.

Definition elapse (g : Gap) : prog unit := fun s =>
  (mkSess (gp_commits g (disk s)) (gp_commits g (work s)) (clock s + gp_elapsed g) (uuids s) (uuid_ix s)
     (wire s) (secret_files s), inl tt).

(** ** Exceptions *)

(** The classes [_connection_loop] handles. *)
Definition is_handled (e : exn) : bool :=
  is_adapter_error e ||
  match e with
  | ReconciliationProjectionError | AccountProjectionError | KiwoomWebSocketError _
  | WorkerReconciliationError _ | KiwoomOrderSenderError _ | DartCollectionError _ | KrxCollectionError _
  | NaverNewsCollectionError _ | ConnectionFailed | TimeoutError _ | RuntimeError _ => true
  | _ => false
  end.

Definition is_reconciliation_error (e : exn) : bool :=
  match e with WorkerReconciliationError _ => true | _ => false end.

(** [str(exc) == "WORKER_LEASE_LOST"] *)
Definition says_lease_lost (e : exn) : bool :=
  match e with RuntimeError message => String.eqb message "WORKER_LEASE_LOST" | _ => false end.

(** [exc.code] of a client's error. *)
Definition adapter_code (e : exn) : option string :=
  match e with
  | KiwoomAdapterError code => Some code
  | KiwoomOrderRejectedError _ _ => Some "KIWOOM_ORDER_REJECTED"
  | KiwoomOrderOutcomeUnknownError => Some "KIWOOM_ORDER_OUTCOME_UNKNOWN"
  | ReconciliationProjectionError => Some "RECONCILIATION_PROJECTION_FAILED"
  | _ => None
  end.

Definition _safe_error_code (e : exn) : string :=
  match adapter_code e, e with
  | Some code, _ => code
  | None, KiwoomWebSocketError code => code
  | None, WorkerReconciliationError _ => "WORKER_RECONCILIATION_FAILED"
  | None, _ => if says_lease_lost e then "WORKER_LEASE_LOST" else "KIWOOM_WORKER_ERROR"
  end.

Section Worker.
Context (sha256 : string -> string) (holidays : Z -> option (list Z)) (column : decimal -> decimal).
Context (settings : Settings) (config : WorkerSettings).

Section Process.
Context (identity : LeaseIdentity).

(** ** State and heartbeat *)

Definition _update_state (u : WorkerUpdate) : wk bool :=
  on_db (in_session (update_worker_state identity u None)).

Definition _require_state (u : WorkerUpdate) : wk unit :=
  updated ← _update_state u;
  if updated : bool then mret tt
  else set_lease_lost ;; wk_raise (RuntimeError "WORKER_LEASE_LOST").

(** The arguments of most updates. *)
Definition state_update (state : WorkerName) (connected : bool) (gate : GateStatus) (reason : string) :
  WorkerUpdate :=
  mkWorkerUpdate state connected connected (Some gate) (Some reason) None None.

(** One round of [_heartbeat_loop]; the task ends when the lease is lost. *)
Definition heartbeat : wk unit :=
  lost ← wk_get wk_lease_lost;
  if (lost : bool) then mret tt
  else
    renewed ← on_db (in_session (renew_lease identity (kiwoom_worker_lease_seconds config) None));
    if renewed : bool then mret tt else set_lease_lost.

Definition pass (world : World) (p : Point) : wk unit :=
  on_db (elapse (wd_gap world p)) ;;
  if gp_heartbeat (wd_gap world p) then heartbeat else mret tt.

(** ** The parts of a turn *)

Definition _sync_watchlist : wk unit :=
  symbols ← on_db (in_session (gets active_kiwoom_symbols));
  on_feed (sync_quotes symbols).

Definition _cancel_expired_buy (world : World) : wk (option KiwoomCancelResult) :=
  pass world AT_CANCEL ;;
  now ← now_;
  on_db (in_session (cancel_next_expired_buy_once sha256 (wd_client world) identity
                       (wd_locked_cancel world) (Some now))).

Definition _dispatch_next_order (world : World) : wk (option KiwoomSendResult) :=
  pass world AT_SEND ;;
  on_db (in_session (send_next_created_order sha256 (wd_client world) identity
                       (wd_locked_send world) None)).

(** [except Exception]: a failure is only logged. *)
Definition _run_stop_triggers (world : World) (now : Z) : wk unit :=
  pass world AT_STOPS ;;
  wk_try
    (on_db (in_session
       (run_fixed_stop_triggers sha256 holidays settings (Some now) (Some ("stop-" +:+ iso_datetime now))
          ACCOUNT_ALIAS (wd_stop_race world) ;;
        recover_exit_pending sha256 holidays settings (Some now) ACCOUNT_ALIAS (wd_recover_race world) ;;
        mret tt)))
    (fun e => match e with OtherError => None | _ => Some (mret tt) end).

Definition _persist_quote (event : quote_event_of amount) : wk unit :=
  wk_try
    (on_db (in_session (ingest_event sha256 event)))
    (fun e => match e with WatchError _ => Some (mret tt) | _ => None end).

Definition _reconcile (world : World) (trigger : string) : wk ReconciliationResult :=
  _require_state (state_update W_RECONCILING true GATE_RECONCILING "ACCOUNT_RECONCILING") ;;
  pass world AT_RECONCILE ;;
  wk_try
    (on_db (in_session (run_kiwoom_reconciliation sha256 column (wd_verified world) (wd_account world) None
                          trigger "WORKER_VALIDATION_PENDING")))
    (fun e => match adapter_code e with
              | Some code => Some (wk_raise (WorkerReconciliationError code))
              | None => None
              end).

Definition _apply_reconciliation_result (result : ReconciliationResult) : wk unit :=
  if negb (rs_critical_mismatch_count result =? 0)
  then _require_state (mkWorkerUpdate W_DEGRADED true true None None None (Some (rs_run_id result)))
  else _require_state (mkWorkerUpdate W_READY true true (Some GATE_READY) (Some "WORKER_HEALTHY") None
                         (Some (rs_run_id result))).

(** A reconciliation and when the next is due; whether orders may be sent. *)
Definition reconcile_now (world : World) (trigger : string) : wk (bool * Z) :=
  result ← _reconcile world trigger;
  pass world AT_APPLY ;;
  _apply_reconciliation_result result ;;
  pass world AT_DONE ;;
  now ← now_;
  mret (rs_critical_mismatch_count result =? 0, now + timedelta (kiwoom_reconcile_interval_seconds settings)).

(** ** The receive loop *)

Record Locals := mkLocals {
  next_periodic : Z;
  next_token_check : Z;
  next_stop_trigger : Z;
  event_due : option Z;
  next_watchlist_sync : Z;
  order_dispatch_enabled : bool
}.

Definition initial_locals (now : Z) : Locals :=
  mkLocals (now + timedelta (kiwoom_reconcile_interval_seconds settings))
    (now + timedelta (kiwoom_worker_heartbeat_seconds config))
    (now + timedelta STOP_TRIGGER_INTERVAL_SECONDS) None
    (now + timedelta (kiwoom_watchlist_sync_seconds config)) true.

Definition cancel_uncertain (r : option KiwoomCancelResult) : bool :=
  match r with Some r => bool_decide (cr_status r ∈ [UNKNOWN; RECONCILING]) | None => false end.
Definition send_uncertain (r : option KiwoomSendResult) : bool :=
  match r with Some r => bool_decide (sr_status r = UNKNOWN) | None => false end.

(** At most one cancellation and one order; the trigger of the reconciliation
    that an uncertain outcome asks for. *)
Definition dispatch_orders (world : World) : wk (option string) :=
  cancel_result ← _cancel_expired_buy world;
  if cancel_uncertain cancel_result then mret (Some "UNFILLED_ORDER_CANCEL_UNCERTAIN")
  else
    dispatch_result ← _dispatch_next_order world;
    mret (if send_uncertain dispatch_result then Some "ORDER_OUTCOME_UNKNOWN" else None).

(** The next check of the token; [None] if the token was rotated. *)
Definition check_token (world : World) (token_used : string) (observed_at : Z) (l : Locals) : wk (option Z) :=
  if next_token_check l <=? observed_at then
    pass world AT_TOKEN ;;
    current_token ← on_db (in_session (ask (wd_access_token world)));
    if negb (String.eqb current_token token_used) then
      pass world AT_SWITCH ;;
      _update_state (state_update W_RECONCILING true GATE_RECONCILING "TOKEN_ROTATION_RECONNECT") ;;
      on_feed close ;;
      mret None
    else mret (Some (observed_at + timedelta (kiwoom_worker_heartbeat_seconds config)))
  else mret (Some (next_token_check l)).

(** [asyncio.wait_for(receive(), timeout=1.0)]: [None] if nothing comes in time,
    which is before the feed's own timeout. *)
Definition nothing_comes (f : Feed) : bool :=
  fd_connected f &&
  match fd_pending_events f, fd_incoming f with
  | [], [] | [], Silence :: _ => true
  | _, _ => false
  end.

Definition receive_in_time : wk (option Received) :=
  silent ← wk_get (fun w => nothing_comes (wk_feed w));
  if silent : bool
  then on_feed (ws_set (fun f => set_wire (drop 1 (fd_incoming f)) (fd_sent f) f)) ;; mret None
  else
    now ← now_;
    received ← on_feed (receive sha256 now);
    mret (Some received).

(** What was received: the account is reconciled a little later, a quote is
    stored. *)
Definition take_event (world : World) (received : option Received) (l : Locals) : wk Locals :=
  match received, event_due l with
  | Some (Event ACCOUNT_EVENT), None =>
      pass world AT_EVENT ;;
      _require_state (state_update W_RECONCILING true GATE_RECONCILING "BROKER_EVENT_PENDING") ;;
      pass world AT_DUE ;;
      now ← now_;
      mret (mkLocals (next_periodic l) (next_token_check l) (next_stop_trigger l)
              (Some (now + timedelta (kiwoom_event_debounce_seconds config))) (next_watchlist_sync l) false)
  | Some (Event (Quote event)), _ => pass world AT_EVENT ;; _persist_quote event ;; mret l
  | _, _ => mret l
  end.

(** The stop triggers and the watchlist, when they are due. *)
Definition run_due (world : World) (observed_at : Z) (l : Locals) : wk Locals :=
  next_stop ← (if next_stop_trigger l <=? observed_at then
                 _run_stop_triggers world observed_at ;;
                 pass world AT_STOPS_DONE ;;
                 now ← now_;
                 mret (now + timedelta STOP_TRIGGER_INTERVAL_SECONDS)
               else mret (next_stop_trigger l));
  next_sync ← (if next_watchlist_sync l <=? observed_at then
                 pass world AT_SYNC ;;
                 _sync_watchlist ;;
                 mret (observed_at + timedelta (kiwoom_watchlist_sync_seconds config))
               else mret (next_watchlist_sync l));
  mret (mkLocals (next_periodic l) (next_token_check l) next_stop (event_due l) next_sync
          (order_dispatch_enabled l)).

Definition with_reconciled (l : Locals) (event_due : option Z) (reconciled : bool * Z) : Locals :=
  mkLocals reconciled.2 (next_token_check l) (next_stop_trigger l) event_due (next_watchlist_sync l)
    reconciled.1.

(** The reconciliation that is due, for an event or by its period. *)
Definition reconcile_due (world : World) (observed_at : Z) (l : Locals) : wk Locals :=
  let event := match event_due l with Some due => due <=? observed_at | None => false end in
  if event then
    r ← reconcile_now world "BROKER_EVENT"; mret (with_reconciled l None r)
  else if next_periodic l <=? observed_at then
    r ← reconcile_now world "PERIODIC"; mret (with_reconciled l (event_due l) r)
  else mret l.

(** One turn; [None] after a rotation of the token. *)
Definition receive_turn (token_used : string) (world : World) (l : Locals) : wk (option Locals) :=
  pass world AT_TURN ;;
  observed_at ← now_;
  l ← run_due world observed_at l;
  uncertain ← (if order_dispatch_enabled l then dispatch_orders world else mret None);
  match uncertain with
  | Some trigger =>
      r ← reconcile_now world trigger;
      mret (Some (with_reconciled l (event_due l) r))
  | None =>
      next_check ← check_token world token_used observed_at l;
      match next_check with
      | None => mret None
      | Some next_check =>
          let l := mkLocals (next_periodic l) next_check (next_stop_trigger l) (event_due l)
                     (next_watchlist_sync l) (order_dispatch_enabled l) in
          l ← reconcile_due world observed_at l;
          pass world AT_RECEIVE ;;
          received ← receive_in_time;
          l ← take_event world received l;
          mret (Some l)
      end
  end.

Inductive Ended := STOPPED | ROTATED.

Fixpoint receive_turns (token_used : string) (turns : list World) (l : Locals) : wk Ended :=
  lost ← wk_get wk_lease_lost;
  match turns with
  | world :: turns =>
      if (lost : bool) then wk_raise (RuntimeError "WORKER_LEASE_LOST")
      else
        next ← receive_turn token_used world l;
        match next with
        | Some l => receive_turns token_used turns l
        | None => mret ROTATED
        end
  | [] => if (lost : bool) then wk_raise (RuntimeError "WORKER_LEASE_LOST") else mret STOPPED
  end.

Definition _receive_loop (token_used : string) (turns : list World) : wk Ended :=
  now ← now_;
  receive_turns token_used turns (initial_locals now).

(** ** The connection loop *)

(** The body of the [try]. *)
Definition connect_and_receive (c : Connection) : wk Ended :=
  let world := cn_world c in
  _require_state (state_update W_AUTHENTICATING false GATE_RECONCILING "WORKER_AUTHENTICATING") ;;
  access_token ← on_db (in_session (ask (wd_access_token world)));
  on_db (in_session (ask (wd_verified world))) ;;
  pass world AT_TOKEN ;;
  _require_state (state_update W_CONNECTING false GATE_RECONCILING "WEBSOCKET_CONNECTING") ;;
  on_feed (open_ access_token (cn_socket c)) ;;
  pass world AT_SYNC ;;
  _sync_watchlist ;;
  pass world AT_SWITCH ;;
  _require_state (state_update W_SUBSCRIBING true GATE_RECONCILING "WORKER_RECONCILING") ;;
  connected_once ← wk_get wk_connected_once;
  set_connected_once ;;
  result ← _reconcile world (if connected_once : bool then "WEBSOCKET_RECONNECTED" else "WORKER_STARTUP");
  pass world AT_APPLY ;;
  _apply_reconciliation_result result ;;
  set_failures 0 ;;
  _receive_loop access_token (cn_turns c).

(** The state after a failure: DEGRADED if the account could not be reconciled
    or the attempts reached the end of the backoff. *)
Definition failure_update (failures : nat) (e : exn) : WorkerUpdate :=
  let degraded := is_reconciliation_error e || Nat.leb (length RECONNECT_BACKOFF) failures in
  mkWorkerUpdate (if degraded then W_DEGRADED else W_RECONCILING) false false
    (Some (if degraded then GATE_DEGRADED else GATE_RECONCILING))
    (Some (if is_reconciliation_error e then "RECONCILIATION_FAILED"
           else if degraded then "WEBSOCKET_UNAVAILABLE" else "WEBSOCKET_RECONNECTING"))
    (Some (_safe_error_code e)) None.

Definition backoff (failures : nat) : Z :=
  timedelta (nth (Nat.min (failures - 1) (length RECONNECT_BACKOFF - 1)) RECONNECT_BACKOFF 0).

Definition after_failure (world : World) (e : exn) : wk (option Z) :=
  pass world AT_FAILURE ;;
  on_feed close ;;
  lost ← wk_get wk_lease_lost;
  if (lost : bool) || says_lease_lost e then mret (Some 3)
  else
    failures ← wk_get (fun w => S (wk_failures w));
    set_failures failures ;;
    _update_state (failure_update failures e) ;;
    on_db (elapse (mkGap (backoff failures) (fun db => db) false)) ;;
    pass world AT_WAIT ;;
    mret None.

(** One pass: the exit code of a process that ends. *)
Definition connection_pass (c : Connection) : wk (option Z) :=
  lost ← wk_get wk_lease_lost;
  if (lost : bool) then on_feed close ;; mret (Some 3)
  else
    pass (cn_world c) AT_START ;;
    wk_try
      (ended ← connect_and_receive c;
       mret (match ended with STOPPED => Some 0 | ROTATED => None end))
      (fun e => if is_handled e then Some (after_failure (cn_world c) e) else None).

Fixpoint _connection_loop (connections : list Connection) : wk Z :=
  match connections with
  | [] => mret 0
  | c :: connections =>
      code ← connection_pass c;
      match code with Some code => mret code | None => _connection_loop connections end
  end.


(** ** The process *)

(** [finally]: the feed is closed, the state is STOPPED, the gate DEGRADED and
    the lease released. *)
Definition shut_down (gap : Gap) : wk unit :=
  on_db (elapse gap) ;;
  on_feed close ;;
  _update_state (state_update W_STOPPED false GATE_DEGRADED "WORKER_STOPPED") ;;
  on_db (in_session (release_lease identity None)) ;;
  mret tt.

Definition run_acquired (connections : list Connection) (last : Gap) : wk Z :=
  _update_state (state_update W_STARTING false GATE_RECONCILING "WORKER_STARTING") ;;
  wk_finally (_connection_loop connections) (shut_down last).
End Process.

(** Attempts to acquire the lease, after the time each waits and against the
    first insertion of another worker. *)
Fixpoint acquire_each (owner_id : string) (attempts : list (Gap * option BrokerLease)) :
  wk (option LeaseIdentity) :=
  match attempts with
  | [] => mret None
  | (gap, race) :: attempts =>
      on_db (elapse gap) ;;
      identity ← on_db (in_session (acquire_lease owner_id (kiwoom_worker_lease_seconds config) None race));
      match identity with
      | Some i => mret (Some i)
      | None => acquire_each owner_id attempts
      end
  end.

Definition run (configuration_status owner_id : string) (attempts : list (Gap * option BrokerLease))
  (connections : list Connection) (last : Gap) : wk Z :=
  if negb (String.eqb configuration_status "CONFIGURED") then mret 2
  else
    identity ← acquire_each owner_id attempts;
    match identity with
    | None => mret 0
    | Some identity => run_acquired identity connections last
    end.
End Worker.
