(* ===== verification/WorkerFrames.v ===== *)
(** * Frames of the broker worker

    What the programs the worker runs leave alone, what a reconciliation
    records, and the rules for programs of the worker. *)

Set Warnings "-register-all".

From Stdlib Require Import ZArith Lia Ascii String.
From stdpp Require Import base numbers strings list gmap.
From S2P Require Import Prelude Decimal Json PyTime Models Session Fence WorkerState OrderSender RiskEvents.
From S2P Require Import OrderCreation MarketWatch KiwoomWs Watchlist Frames StopTrigger AccountProjection.
From S2P Require Import Reconciliation BrokerWorker.

Open Scope Z_scope.

(** ** Frames of the programs the worker runs *)

(** The stop triggers and the quotes touch none of the worker's tables and call
    no broker. *)
Lemma leaves_change_trigger id f : leaves agent_data (change_trigger id f).
Proof. intros db. unfold change_trigger. by destruct (stop_triggers db !! id). Qed.

#[export] Hint Resolve leaves_change_trigger : frames.

Definition apart {T} (tab : DB -> T) {A} (m : prog A) : Prop := keeps tab m /\ silent m.

Create HintDb apart.

Section Apart.
Context {T : Type} (tab : DB -> T).

Lemma apart_bind {A B} (m : prog A) (k : A -> prog B) : apart tab m -> (forall a, apart tab (k a)) -> apart tab (mbind k m).
Proof. intros [H1 H2] Hk. split; [apply frame_bind|apply silent_bind]; try done; intros a; apply Hk. Qed.

Lemma apart_try {A} (m : prog A) h :
  apart tab m -> (forall e m', h e = Some m' -> apart tab m') -> apart tab (try_except m h).
Proof. intros [H1 H2] Hk. split; [apply keeps_try|apply silent_try]; try done; intros e m' E; by apply (Hk e m'). Qed.

Lemma apart_for_each {A} (f : A -> prog unit) l : (forall x, apart tab (f x)) -> apart tab (for_each l f).
Proof. intros Hf. split; [apply keeps_for_each|apply silent_for_each]; intros x; apply Hf. Qed.
End Apart.

Lemma apart_flush_order race o : apart agent_data (flush_order race o).
Proof. split; [apply keeps_flush_order|apply silent_flush_order]. Qed.

Ltac apart :=
  repeat lazymatch goal with
  | |- apart _ (mbind _ _) => apply apart_bind; [|intros ?]
  | |- apart _ (for_each _ _) => apply apart_for_each; intros ?
  | |- apart _ (try_except _ _) => apply apart_try; [|intros [] ? ?; simplify_eq/=]
  | |- apart _ (flush_order _ _) => apply apart_flush_order
  | |- apart _ (match ?x with _ => _ end) => destruct x
  | |- apart _ (let _ := _ in _) => cbv zeta
  | |- apart _ (modify _) => split; [apply frame_modify; auto with frames|by intros ?]
  | |- apart _ (now_or ?now) => destruct now; split; [apply frame_ret|by intros ?|apply keeps_utcnow|by intros ?]
  | |- apart _ _ => solve [auto with apart | split; [keeps|silent]]
  end; try solve [intros ?; reflexivity].

Lemma apart_create_order sha256 user request audit now race :
  apart agent_data (create_order sha256 user request audit now race).
Proof.
  split; [apply keeps_create_order|].
  unfold create_order, flush_created, flush_request, raced_order, _order_event, OrderCreation._validate.
  silent. all: destruct now; by intros ?.
Qed.

Lemma apart_resolve_event t resolution now : apart agent_data (resolve_event_of t resolution now).
Proof. unfold resolve_event_of, resolve_risk_event. apart. Qed.

#[export] Hint Resolve apart_create_order apart_resolve_event : apart.

Lemma apart_guard_row trigger rules snapshot version now :
  apart agent_data (StopTrigger._persist_guard_evaluation trigger rules snapshot version now).
Proof. unfold StopTrigger._persist_guard_evaluation, persist_guard_evaluation. apart. Qed.

Lemma apart_risk_event scope code severity account record corr symbol snapshot now :
  apart agent_data (create_risk_event scope code severity account record corr symbol snapshot now).
Proof. unfold create_risk_event. apart. Qed.

#[export] Hint Resolve apart_guard_row apart_risk_event : apart.

Section Stops.
Context (sha256 : string -> string) (holidays : Z -> option (list Z)).

Lemma apart_stop_passed trigger p snapshot settings price corr now race :
  apart agent_data (stop_passed sha256 trigger p snapshot settings price corr now race).
Proof. unfold stop_passed, _emit_fixed_stop_order, reloaded. apart. Qed.

#[local] Hint Resolve apart_stop_passed : apart.

Lemma apart_re_evaluate trigger p snapshot settings policy version price now race :
  apart agent_data (_re_evaluate_trigger sha256 holidays trigger p snapshot settings policy version price now race).
Proof. unfold _re_evaluate_trigger. apart. Qed.

Lemma apart_supersede position_id version now : apart agent_data (_supersede_stale_triggers position_id version now).
Proof. unfold _supersede_stale_triggers. apart. Qed.

#[local] Hint Resolve apart_re_evaluate apart_supersede : apart.

Lemma apart_run_stops settings now corr account race :
  apart agent_data (run_fixed_stop_triggers sha256 holidays settings now corr account race).
Proof. unfold run_fixed_stop_triggers, _evaluate_position, fire_trigger. apart. Qed.

Lemma apart_recover settings now account race :
  apart agent_data (recover_exit_pending sha256 holidays settings now account race).
Proof. unfold recover_exit_pending, recover_one. apart. Qed.

Lemma apart_ingest event : apart agent_data (ingest_quote sha256 event).
Proof.
  unfold ingest_quote, store_quote, update_market_analysis, record_trade. apart.
Qed.
End Stops.

(** ** Reconciliation *)

Section Account.
Context (sha256 : string -> string) (column : decimal -> decimal).

Lemma silent_fold {A S} (f : A -> S -> prog S) l u : (forall x u, silent (f x u)) -> silent (fold_prog f l u).
Proof.
  intros Hf. revert u. induction l as [|x l IH]; intros u; cbn [fold_prog]; [done|]. by apply silent_bind.
Qed.

Lemma silent_flush u : silent (flush_unit u).
Proof. unfold flush_unit. silent. Qed.
Lemma silent_order_event o t p a c u : silent (_add_order_event sha256 o t p a c u).
Proof. unfold _add_order_event. silent. Qed.

#[local] Hint Resolve silent_flush silent_order_event : silent.

Lemma silent_projection snapshot run_id corr :
  silent (apply_broker_account_projection sha256 snapshot run_id corr).
Proof.
  unfold apply_broker_account_projection, _project_positions, project_open_order, _import_open_order,
    project_fill, project_total, project_cancel, project_position, close_position.
  repeat first [solve [eauto with silent] | apply silent_fold; intros ? ? | silent_step].
Qed.

Lemma silent_set_gate status reason : silent (_set_gate status reason).
Proof. unfold _set_gate. silent. Qed.

(** A run that compared a snapshot with the books, started at [since] or later
    and found [n] differences; all of them are critical. *)
Record run_completed (since n : Z) (run : ReconciliationRun) : Prop := mkRunCompleted {
  rc_state : rr_state run = if n =? 0 then "SUCCEEDED" else "MISMATCH";
  rc_started : since <= rr_started_at run;
  rc_completed : is_Some (rr_completed_at run) /\ is_Some (rr_snapshot_at run);
  rc_counts : rr_mismatch_count run = n /\ rr_critical_mismatch_count run = n
}.

(** What a run that completes leaves: its row, with what it counted. *)
Definition run_recorded (since : Z) (res : ReconciliationResult) (db : DB) : Prop :=
  exists run, reconciliation_runs db !! rs_run_id res = Some run /\
    run_completed since (rs_critical_mismatch_count res) run.

Lemma differences_critical db snapshot :
  List.filter critical (compare_snapshot db snapshot) = compare_snapshot db snapshot.
Proof.
  assert (Hc : forall {A} (f : A -> list Mismatch) l, (forall a, List.filter critical (f a) = f a) ->
            List.filter critical (concat (map f l)) = concat (map f l)).
  { intros A f l Hf. induction l as [|a l IH]; [done|]. cbn [map concat]. by rewrite List.filter_app, Hf, IH. }
  unfold compare_snapshot. cbv zeta. rewrite !List.filter_app.
  repeat f_equal; apply Hc; intros a; unfold compare_open, compare_internal, compare_fills, compare_position,
    compare_absent; repeat case_match; reflexivity.
Qed.

Lemma completed_not_running since n run : run_completed since n run -> rr_state run <> "RUNNING".
Proof. intros [-> _ _ _]. by destruct (n =? 0). Qed.

(** No broker was called for an order, and the clock did not turn back. *)
Definition run_result (w0 : list wire_call) (since : Z) (s : Sess) (r : ReconciliationResult + exn) : Prop :=
  wire s = w0 /\ since <= clock s /\ match r with inl res => run_recorded since res (disk s) | inr _ => True end.

Lemma snapshot_recorded run snapshot clean s since : since <= rr_started_at run -> since <= clock s ->
  wp (reconcile_snapshot sha256 column run snapshot clean) (run_result (wire s) since) s.
Proof.
  intros Hs Hc. unfold reconcile_snapshot. wp_step. eapply wp_mono; [apply silent_projection|].
  intros s1 [pr|e] [H1 H2]; unfold after at 1; [|by repeat split; [|rewrite H2]].
  unfold _set_gate. repeat (wp_step; cbv beta zeta iota).
  all: (split; [exact H1|]); (split; [cbn; by rewrite H2|]); eexists; (split; [apply lookup_insert_eq|]);
    cbn [rs_critical_mismatch_count]; rewrite !differences_critical; split; cbn; try done; by destruct (compare_snapshot _ snapshot).
Qed.

Lemma failure_silent id e s w0 since : wire s = w0 -> since <= clock s ->
  match on_failure id e with Some m => wp m (run_result w0 since) s | None => run_result w0 since s (inr e) end.
Proof.
  intros Hw Hc. destruct (on_failure id e) as [m|] eqn:E; [|done].
  assert (Hm : m = (rollback ;; _mark_failed id ;; raise (reported e)))
    by (destruct e; (discriminate E || (symmetry; exact (f_equal (default m) E)))).
  subst m. assert (H : silent (_mark_failed id)) by (unfold _mark_failed, _set_gate; silent).
  do 3 wp_step. wp_step. eapply wp_mono; [apply H|]. intros s1 [u|e1] [H1 H2]; unfold after; [wp_step|];
    (split; [by rewrite H1|]); (split; [by rewrite H2|done]).
Qed.

Lemma run_records verified client corr trigger clean s : 0 <= elapsed verified -> 0 <= elapsed client ->
  wp (run_kiwoom_reconciliation sha256 column verified client corr trigger clean)
    (run_result (wire s) (clock s)) s.
Proof.
  intros Hv Hcl.
  assert (H : forall run s1, wire s1 = wire s -> clock s1 = clock s -> clock s <= rr_started_at run ->
    wp (try_except
      (ask verified ;; snapshot ← ask client; reconcile_snapshot sha256 column run snapshot clean)
      (on_failure (rr_id run))) (run_result (wire s) (clock s)) s1).
  { intros run s1 H1 H2 H3. wp_step. wp_step. unfold ask at 1, wp at 1.
    destruct (reply verified) as [u|e]; unfold after at 1; [|apply failure_silent; [done|cbn; lia]].
    wp_step. unfold ask, wp at 1.
    destruct (reply client) as [snapshot|e]; unfold after at 1; [|apply failure_silent; [done|cbn; lia]].
    eapply wp_mono; [apply (snapshot_recorded run snapshot clean _ (clock s)); [done|cbn; lia]|].
    intros s2 [res|e] (H4 & H5 & H6); [|apply failure_silent; [by rewrite H4|done]].
    split; [by rewrite H4|done]. }
  unfold run_kiwoom_reconciliation, _set_gate.
  repeat lazymatch goal with
    | |- wp (try_except _ _) _ _ => apply (H (mkReconciliationRun _ _ _ _ _ _ _ _ _ _ _)); cbn; done
    | _ => wp_step; cbv beta zeta
    end; (split; [done|]); cbn; done.
Qed.
End Account.

(** ** The sender *)

(** What others commit while a call is pending. *)
Definition safe {T} (tab : DB -> T) (Q : T -> Prop) (f : DB -> DB) : Prop :=
  forall db, Q (tab db) -> Q (tab (f db)).

Record safe_client {T} (tab : DB -> T) (Q : T -> Prop) (client : OrderClient) : Prop := mkSafeClient {
  sf_place request : safe tab Q (meanwhile (place_order client request));
  sf_cancel request : safe tab Q (meanwhile (cancel_order client request));
  sf_place_time request : 0 <= elapsed (place_order client request);
  sf_cancel_time request : 0 <= elapsed (cancel_order client request)
}.

Section Stays.
Context {T : Type} (tab : DB -> T) (Q : T -> Prop) (since : Z).

(** The property [Q] of the tables outlives the program, and the clock does not
    turn back. *)
Definition held (s : Sess) : Prop := both tab Q s /\ since <= clock s.
Definition stays {A} (m : prog A) : Prop := forall s, held s -> wp m (fun s' _ => held s') s.

Lemma stays_apart {A} (m : prog A) : apart tab m -> stays m.
Proof.
  intros [H1 H2] s [Hs Hc]. eapply wp_mono; [apply (wp_and _ _ _ _ (H1 Q s Hs) (H2 s))|].
  intros s' r [H3 [_ H4]]. split; [done|by rewrite H4].
Qed.

Lemma stays_bind {A B} (m : prog A) (k : A -> prog B) : stays m -> (forall a, stays (k a)) -> stays (mbind k m).
Proof.
  intros Hm Hk s Hs. apply wp_bind. eapply wp_mono; [by apply Hm|].
  intros s' [a|e] H; unfold after; [by apply Hk|done].
Qed.

Lemma stays_try {A} (m : prog A) h :
  stays m -> (forall e m', h e = Some m' -> stays m') -> stays (try_except m h).
Proof.
  intros Hm Hh s Hs. apply wp_try. eapply wp_mono; [by apply Hm|].
  intros s' [a|e] H; [done|]. destruct (h e) as [m'|] eqn:E; [|done]. by eapply Hh.
Qed.

Lemma stays_call {A} c (p : Pending A) : safe tab Q (meanwhile p) -> 0 <= elapsed p -> stays (call c p).
Proof. intros H Hp s [[_ Hd] Hc]. split; [by split; apply H|cbn; lia]. Qed.

Lemma stays_in_session {A} (m : prog A) s :
  stays m -> Q (tab (disk s)) -> since <= clock s ->
  wp (in_session m) (fun s' _ => Q (tab (disk s')) /\ since <= clock s') s.
Proof.
  intros Hm Hs Hc. apply wp_in_session. eapply wp_mono; [by apply Hm|].
  intros s' r [[_ H] H']. exact (conj H H').
Qed.
End Stays.

(** The last reconciliation the worker recorded succeeded: it started at [since]
    or later and compared a snapshot in which it found no difference. *)
Definition last_run_tables (db : DB) := (worker_states db, reconciliation_runs db).

Definition clean_tables (since : Z) (t : gmap string BrokerWorkerState * gmap string ReconciliationRun) : Prop :=
  exists id run, (t.1 !! ACCOUNT_ALIAS ≫= bw_last_reconciliation_run_id) = Some id /\
    t.2 !! id = Some run /\ run_completed since 0 run.

Section Sender.
Context (sha256 : string -> string) (Q : gmap string BrokerWorkerState * gmap string ReconciliationRun -> Prop).
Context (since : Z) (client : OrderClient) (identity : LeaseIdentity) (locked : string -> bool).
Hypothesis client_safe : safe_client last_run_tables Q client.

Abbreviation framed := (apart last_run_tables).

Lemma event_frame o ty payload t : framed (OrderSender._event sha256 o ty payload t).
Proof. unfold OrderSender._event. apart. Qed.
#[local] Hint Resolve event_frame : apart.

Lemma transition_frame o st t : framed (OrderSender._transition sha256 o st t).
Proof. unfold OrderSender._transition. apart. Qed.
Lemma mark_gate_frame reason : framed (_mark_gate_reconciling reason).
Proof. unfold _mark_gate_reconciling. apart. Qed.
Lemma observed_frame now : framed (observed now).
Proof. unfold observed. apart. Qed.
Lemma current_frame now : framed (lease_is_current identity now).
Proof. unfold lease_is_current. apart. apply observed_frame. Qed.

#[local] Hint Resolve transition_frame mark_gate_frame observed_frame current_frame : apart.

Lemma claim_frame o t : framed (claim_order sha256 identity o t).
Proof. unfold claim_order, _require_worker_ready, _order_request. apart. Qed.
Lemma claim_cancel_frame o t : framed (claim_cancel sha256 identity o t).
Proof. unfold claim_cancel, _require_worker_ready. apart. Qed.
Lemma finish_send_frame id out t : framed (_finish_send sha256 identity id out t).
Proof. unfold _finish_send. apart. Qed.
Lemma finish_cancel_frame id n out t : framed (_finish_cancel sha256 identity id n out t).
Proof. unfold _finish_cancel. apart. Qed.

#[local] Hint Resolve claim_frame claim_cancel_frame finish_send_frame finish_cancel_frame : apart.

Ltac stays :=
  repeat first
    [ apply stays_call; apply client_safe
    | apply stays_apart; solve [apart]
    | apply stays_bind; [|intros ?]
    | apply stays_try; [|intros [] ? ?; simplify_eq/=]
    | lazymatch goal with |- stays _ _ _ (match ?x with _ => _ end) => destruct x end ].

Lemma send_stays now :
  stays last_run_tables Q since (send_next_created_order sha256 client identity locked now).
Proof. unfold send_next_created_order, _send_locked_order. stays. Qed.

Lemma cancel_stays now :
  stays last_run_tables Q since (cancel_next_expired_buy_once sha256 client identity locked now).
Proof. unfold cancel_next_expired_buy_once. stays. Qed.
End Sender.

(** ** Programs of the worker *)

Definition wkp {A} (m : wk A) (Q : Worker -> A + exn -> Prop) (w : Worker) : Prop :=
  let '(w', r) := m w in Q w' r.

Lemma wkp_bind {A B} (m : wk A) (k : A -> wk B) Q w :
  wkp m (fun w' r => match r with inl a => wkp (k a) Q w' | inr e => Q w' (inr e) end) w ->
  wkp (mbind k m) Q w.
Proof. unfold wkp, mbind, wk_bind. by destruct (m w) as [w' [a|e]]. Qed.

Lemma wkp_ret {A} (a : A) (Q : Worker -> A + exn -> Prop) w : Q w (inl a) -> wkp (mret a) Q w.
Proof. done. Qed.

Lemma wkp_mono {A} (m : wk A) (Q Q' : Worker -> A + exn -> Prop) w :
  wkp m Q w -> (forall w' r, Q w' r -> Q' w' r) -> wkp m Q' w.
Proof. unfold wkp. destruct (m w). auto. Qed.

Lemma wkp_and {A} (m : wk A) (Q Q' : Worker -> A + exn -> Prop) w :
  wkp m Q w -> wkp m Q' w -> wkp m (fun w' r => Q w' r /\ Q' w' r) w.
Proof. unfold wkp. by destruct (m w). Qed.

Lemma wkp_db {A} (m : prog A) Q w :
  wp m (fun s r => Q (mkWorker s (wk_feed w) (wk_lease_lost w) (wk_failures w) (wk_connected_once w)) r)
    (wk_sess w) -> wkp (on_db m) Q w.
Proof. unfold wkp, on_db, wp. by destruct (m (wk_sess w)). Qed.

Lemma wkp_try {A} (m : wk A) h Q w :
  wkp m (fun w' r => match r with
                     | inl a => Q w' (inl a)
                     | inr e => match h e with Some m' => wkp m' Q w' | None => Q w' (inr e) end
                     end) w ->
  wkp (wk_try m h) Q w.
Proof. unfold wkp, wk_try. destruct (m w) as [w' [a|e]]; [done|]. by destruct (h e). Qed.

Lemma wkp_elim {A} (m : wk A) Q w w' r : wkp m Q w -> m w = (w', r) -> Q w' r.
Proof. unfold wkp. intros H E. by rewrite E in H. Qed.

Section Invariants.
Context (I : Worker -> Prop).

Definition invariant {A} (m : wk A) : Prop := forall w, I w -> wkp m (fun w' _ => I w') w.

Lemma inv_bind {A B} (m : wk A) (k : A -> wk B) : invariant m -> (forall a, invariant (k a)) -> invariant (mbind k m).
Proof.
  intros Hm Hk w Hw. apply wkp_bind. eapply wkp_mono; [by apply Hm|]. intros w' [a|e] H; [by apply Hk|done].
Qed.

Lemma inv_try {A} (m : wk A) h :
  invariant m -> (forall e m', h e = Some m' -> invariant m') -> invariant (wk_try m h).
Proof.
  intros Hm Hh w Hw. apply wkp_try. eapply wkp_mono; [by apply Hm|]. intros w' [a|e] H; [done|].
  destruct (h e) as [m'|] eqn:E; [by apply (Hh _ _ E)|done].
Qed.

Lemma inv_ret {A} (a : A) : invariant (mret a).
Proof. by intros w. Qed.
Lemma inv_raise {A} e : invariant (wk_raise e : wk A).
Proof. by intros w. Qed.
Lemma inv_get {A} (f : Worker -> A) : invariant (wk_get f).
Proof. by intros w. Qed.
End Invariants.

(** What a program returns satisfies [P]. *)
Definition returns {A} (P : A -> Prop) (m : wk A) : Prop :=
  forall w, wkp m (fun _ r => match r with inl a => P a | inr _ => True end) w.

Lemma returns_bind {A B} (P : B -> Prop) (m : wk A) (k : A -> wk B) :
  (forall a, returns P (k a)) -> returns P (mbind k m).
Proof. intros Hk w. apply wkp_bind. unfold wkp at 1. destruct (m w) as [w' [a|e]]; [apply Hk|done]. Qed.

Lemma returns_ret {A} (P : A -> Prop) a : P a -> returns P (mret a).
Proof. by intros H w. Qed.

Lemma returns_raise {A} (P : A -> Prop) e : returns P (wk_raise e).
Proof. by intros w. Qed.

Lemma inv_returns {A} I (P : A -> Prop) (m : wk A) w : invariant I m -> returns P m -> I w ->
  wkp m (fun w' r => I w' /\ match r with inl a => P a | inr _ => True end) w.
Proof. intros Hm HP Hw. specialize (Hm w Hw). specialize (HP w). unfold wkp in *. by destruct (m w). Qed.

Ltac returns :=
  repeat lazymatch goal with
  | |- returns _ (mbind _ _) => apply returns_bind; intros ?
  | |- returns _ (mret _) => apply returns_ret
  | |- returns _ (wk_raise _) => apply returns_raise
  | |- returns _ (match ?x with _ => _ end) => destruct x
  | |- returns _ (let _ := _ in _) => cbv zeta
  end.

Create HintDb worker.
#[export] Hint Resolve inv_ret inv_raise inv_get : worker.

(** Split a program of the worker along its binds, choices and handlers. *)
Ltac worker_step :=
  lazymatch goal with
  | |- invariant _ (mbind _ _) => apply inv_bind; [|intros ?]
  | |- invariant _ (wk_try _ _) => apply inv_try; [|intros [] ? ?; simplify_eq/=]
  | |- invariant _ (match ?x with _ => _ end) => destruct x
  | |- invariant _ (let _ := _ in _) => cbv zeta
  end.
Ltac worker := repeat first [solve [eauto with worker] | worker_step].
