(* ===== verification/WorkerProps.v ===== *)
(** * What the broker worker guarantees *)

Set Warnings "-register-all".

From Stdlib Require Import ZArith Lia Ascii String.
From stdpp Require Import base numbers strings list gmap.
From S2P Require Import Prelude Decimal Json PyTime Models Session Fence WorkerState OrderSender.
From S2P Require Import MarketWatch KiwoomWs Watchlist Fixtures Frames SenderProps StopTrigger Reconciliation.
From S2P Require Import BrokerWorker WorkerFrames.

Open Scope Z_scope.

Abbreviation run_tables := (gmap string BrokerWorkerState * gmap string ReconciliationRun)%type.

(** ** Invariants of a turn *)

Section Turn.
Context (sha256 : string -> string) (holidays : Z -> option (list Z)) (column : decimal -> decimal).
Context (settings : Settings) (config : WorkerSettings) (identity : LeaseIdentity).

(** A property of the recorded runs, of the calls to the broker and of the
    clock, which the others and the updates of the worker's row keep. *)
Context (J : run_tables -> list wire_call -> Z -> Prop).

Definition kept_by (f : DB -> DB) (d : Z) : Prop := forall db calls t,
  J (last_run_tables db) calls t -> J (last_run_tables (f db)) calls (t + d).

Definition row_kept : Prop := forall ws runs calls t row,
  J (ws, runs) calls t -> bw_last_reconciliation_run_id row = (ws !! ACCOUNT_ALIAS ≫= bw_last_reconciliation_run_id) ->
  J (<[ACCOUNT_ALIAS := row]> ws, runs) calls t.

Record world_kept (world : World) : Prop := mkWorldKept {
  wo_gap p : kept_by (gp_commits (wd_gap world p)) (gp_elapsed (wd_gap world p));
  wo_token : kept_by (meanwhile (wd_access_token world)) (elapsed (wd_access_token world))
}.

Hypothesis rows_kept : row_kept.

Definition kept (w : Worker) : Prop :=
  J (last_run_tables (disk (wk_sess w))) (wire (wk_sess w)) (clock (wk_sess w)).

Lemma inv_feed {A} (m : ws A) : invariant kept (on_feed m).
Proof. intros w Hw. unfold wkp, on_feed. by destruct (m (wk_feed w)). Qed.

Lemma inv_flags : invariant kept set_lease_lost.
Proof. by intros w. Qed.

Lemma inv_now : invariant kept now_.
Proof. by intros w. Qed.

Lemma inv_apart {A} (m : prog A) : apart agent_data m -> invariant kept (on_db (in_session m)).
Proof.
  intros [H1 H2] w Hw. apply wkp_db, wp_in_session.
  pose proof (keeps_map agent_data (fun t => (t.1.2.2.1.1.2, t.1.2.2.2)) m H1) as H3.
  eapply wp_mono; [apply (wp_and _ _ _ _
    (H3 (fun t => J t (wire (wk_sess w)) (clock (wk_sess w))) (rolled_back (wk_sess w)) (conj Hw Hw)) (H2 _))|].
  intros s r [[_ Hd] [Hwire Hclock]]. unfold kept. cbn [wk_sess disk wire clock rolled_back] in *.
  by rewrite Hwire, Hclock.
Qed.

#[local] Hint Resolve inv_feed inv_flags inv_now : worker.

Lemma inv_elapse g : kept_by (gp_commits g) (gp_elapsed g) -> invariant kept (on_db (elapse g)).
Proof. intros Hg w Hw. by apply Hg. Qed.

Lemma inv_ask {A} (p : Pending A) : kept_by (meanwhile p) (elapsed p) ->
  invariant kept (on_db (in_session (ask p))).
Proof. intros Hp w Hw. by apply Hp. Qed.

Lemma inv_update u : wu_reconciliation_run_id u = None -> invariant kept (_update_state identity u).
Proof.
  intros Hu w Hw. apply wkp_db, wp_in_session. unfold update_worker_state. cbn [observed].
  repeat wp_step; try exact Hw.
  all: unfold kept; cbn [wk_sess disk wire clock rolled_back committed with_work last_run_tables];
    apply rows_kept; [exact Hw|]; cbn; by rewrite Hu.
Qed.

Lemma inv_require u : wu_reconciliation_run_id u = None -> invariant kept (_require_state identity u).
Proof. intros Hu. unfold _require_state. pose proof (inv_update u Hu). worker. Qed.

Lemma inv_heartbeat : invariant kept (heartbeat config identity).
Proof.
  assert (H : invariant kept (on_db (in_session
            (renew_lease identity (kiwoom_worker_lease_seconds config) None)))).
  { intros w Hw. apply wkp_db, wp_in_session. unfold renew_lease. cbn [observed].
    repeat wp_step; try exact Hw.
    unfold kept. cbn [wk_sess disk wire clock rolled_back committed with_work last_run_tables].
    apply rows_kept; [exact Hw|]. exact (eq_sym (f_equal (fun row => row ≫= bw_last_reconciliation_run_id) E1)). }
  unfold heartbeat. worker.
Qed.

#[local] Hint Resolve inv_heartbeat : worker.

Section World.
Context (world : World).
Hypothesis world_ok : world_kept world.

Lemma inv_pass p : invariant kept (pass config identity world p).
Proof. pose proof (inv_elapse _ (wo_gap world world_ok p)). unfold pass. worker. Qed.

#[local] Hint Resolve inv_pass : worker.

Lemma inv_sync : invariant kept _sync_watchlist.
Proof. unfold _sync_watchlist. apply inv_bind; [|auto with worker]. apply inv_apart.
  split; [apply frame_gets|by intros ?].
Qed.

Lemma apart_stops now :
  apart agent_data (run_fixed_stop_triggers sha256 holidays settings (Some now) (Some ("stop-" +:+ iso_datetime now))
      ACCOUNT_ALIAS (wd_stop_race world) ;;
    recover_exit_pending sha256 holidays settings (Some now) ACCOUNT_ALIAS (wd_recover_race world) ;;
    mret tt).
Proof.
  apply apart_bind; [apply apart_run_stops|intros _]. apply apart_bind; [apply apart_recover|intros _].
  split; [apply frame_ret|by intros ?].
Qed.

Lemma apart_quote event : apart agent_data (ingest_event sha256 event).
Proof.
  unfold ingest_event. destruct (exact_quote event).
  - apply apart_bind; [apply apart_ingest|intros _]. apart.
  - apart.
Qed.

Lemma inv_stops now : invariant kept (_run_stop_triggers sha256 holidays settings config identity world now).
Proof.
  unfold _run_stop_triggers. apply inv_bind; [auto with worker|intros _].
  apply inv_try; [apply inv_apart, apart_stops|intros [] ? ?; simplify_eq/=; auto with worker].
Qed.

Lemma inv_quote event : invariant kept (_persist_quote sha256 event).
Proof.
  unfold _persist_quote.
  apply inv_try; [apply inv_apart, apart_quote|intros [] ? ?; simplify_eq/=; auto with worker].
Qed.

#[local] Hint Resolve inv_sync inv_stops inv_quote : worker.

Lemma inv_token token at_ l : invariant kept (check_token config identity world token at_ l).
Proof.
  pose proof (inv_ask _ (wo_token world world_ok)).
  pose proof (inv_update (state_update W_RECONCILING true GATE_RECONCILING "TOKEN_ROTATION_RECONNECT") eq_refl).
  unfold check_token. worker.
Qed.

Lemma inv_receive : invariant kept (receive_in_time sha256).
Proof. unfold receive_in_time. worker. Qed.

(** The parts of a turn but for the orders and the reconciliations. *)
Lemma due_kept at_ l w : kept w ->
  wkp (run_due sha256 holidays settings config identity world at_ l) (fun w' r => kept w' /\
    match r with inl l' => order_dispatch_enabled l' = order_dispatch_enabled l | inr _ => True end) w.
Proof. apply inv_returns; unfold run_due; [worker|by returns]. Qed.

Lemma event_kept received l w : kept w ->
  wkp (take_event sha256 config identity world received l) (fun w' r => kept w' /\
    match r with
    | inl l' => order_dispatch_enabled l' = true -> order_dispatch_enabled l = true
    | inr _ => True
    end) w.
Proof.
  pose proof (inv_require (state_update W_RECONCILING true GATE_RECONCILING "BROKER_EVENT_PENDING") eq_refl).
  apply inv_returns; unfold take_event; [worker|by returns].
Qed.

Lemma tail_kept l w : kept w ->
  wkp (pass config identity world AT_RECEIVE ;;
       received ← receive_in_time sha256;
       l ← take_event sha256 config identity world received l;
       mret (Some l)) (fun w' r => kept w' /\
    match r with
    | inl (Some l') => order_dispatch_enabled l' = true -> order_dispatch_enabled l = true
    | _ => True
    end) w.
Proof.
  intros Hw. apply wkp_bind. eapply wkp_mono; [by apply inv_pass|]. intros w1 [[]|e] H1; [|done].
  apply wkp_bind. eapply wkp_mono; [by apply inv_receive|]. intros w2 [r|e] H2; [|done].
  apply wkp_bind. eapply wkp_mono; [by apply event_kept|]. by intros w3 [l'|e] H3.
Qed.
End World.
End Turn.

(** ** Orders follow clean reconciliations *)

(** Commits that leave finished runs and the worker's last run alone, while
    time passes. *)
Record polite (f : DB -> DB) (d : Z) : Prop := mkPolite {
  po_runs db id run : reconciliation_runs db !! id = Some run -> rr_state run <> "RUNNING" ->
    reconciliation_runs (f db) !! id = Some run;
  po_row db : (worker_row (f db) ≫= bw_last_reconciliation_run_id) =
    (worker_row db ≫= bw_last_reconciliation_run_id);
  po_time : 0 <= d
}.

Abbreviation polite_call p := (polite (meanwhile p) (elapsed p)).

Record polite_world (world : World) : Prop := mkPoliteWorld {
  pw_gap p : polite (gp_commits (wd_gap world p)) (gp_elapsed (wd_gap world p));
  pw_token : polite_call (wd_access_token world);
  pw_place request : polite_call (place_order (wd_client world) request);
  pw_cancel request : polite_call (cancel_order (wd_client world) request);
  pw_verified : 0 <= elapsed (wd_verified world);
  pw_account : 0 <= elapsed (wd_account world)
}.

(** The worker's last reconciliation, started at [since] or later, is clean. *)
Definition clean (since : Z) (w : Worker) : Prop := clean_tables since (last_run_tables (disk (wk_sess w))).

(** What holds along a turn: the clock did not turn back, the flag of the loop
    promises a clean reconciliation, and without it nothing was sent ([before]
    is the flag at the start of the turn). *)
Definition J_flag (since : Z) (flag before : bool) (calls0 : list wire_call) (tables : run_tables)
  (calls : list wire_call) (t : Z) : Prop :=
  since <= t /\ (flag = true -> clean_tables since tables) /\ (before = false -> calls = calls0).

(** And during a reconciliation, once its run is recorded. *)
Definition J_run (since : Z) (res : ReconciliationResult) (before : bool) (calls0 : list wire_call)
  (tables : run_tables) (calls : list wire_call) (t : Z) : Prop :=
  since <= t /\ (before = false -> calls = calls0) /\
  exists run, tables.2 !! rs_run_id res = Some run /\
    run_completed since (rs_critical_mismatch_count res) run.

Lemma clean_row since ws runs row : clean_tables since (ws, runs) ->
  bw_last_reconciliation_run_id row = (ws !! ACCOUNT_ALIAS ≫= bw_last_reconciliation_run_id) ->
  clean_tables since (<[ACCOUNT_ALIAS := row]> ws, runs).
Proof.
  intros (id & run & H1 & H2) Hr. exists id, run. split; [|done]. cbn [fst] in *.
  rewrite lookup_insert_eq. cbn. by rewrite Hr.
Qed.

Lemma clean_kept since f d db : polite f d ->
  clean_tables since (last_run_tables db) -> clean_tables since (last_run_tables (f db)).
Proof.
  intros [Hr Hw _] (id & run & H1 & H2 & H3). exists id, run.
  split; [exact (eq_trans (Hw db) H1)|]. split; [|done]. by eapply Hr, completed_not_running.
Qed.

Lemma flag_row since flag before calls0 : row_kept (J_flag since flag before calls0).
Proof. intros ws runs calls t row (H1 & H2 & H3) Hr. split; [done|]. split; [|done]. intros E. by apply clean_row, Hr; apply H2. Qed.

Lemma flag_polite since flag before calls0 f d : polite f d -> kept_by (J_flag since flag before calls0) f d.
Proof.
  intros Hf db calls t (H1 & H2 & H3). split; [pose proof (po_time _ _ Hf); lia|]. split; [|done].
  intros E. by apply (clean_kept since f d), H2.
Qed.

Lemma run_row since res before calls0 : row_kept (J_run since res before calls0).
Proof. by intros ws runs calls t row H _. Qed.

Lemma run_polite since res before calls0 f d : polite f d -> kept_by (J_run since res before calls0) f d.
Proof.
  intros Hf db calls t (H1 & H2 & run & H3 & H4). split; [pose proof (po_time _ _ Hf); lia|]. split; [done|].
  exists run. split; [|done]. by eapply (po_runs _ _ Hf), completed_not_running.
Qed.

Lemma world_polite_kept J world : (forall f d, polite f d -> kept_by J f d) -> polite_world world -> world_kept J world.
Proof. intros HJ [H1 H2 _ _ _ _]. split; [intros p|]; by apply HJ. Qed.

Section Dispatch.
Context (sha256 : string -> string) (holidays : Z -> option (list Z)) (column : decimal -> decimal).
Context (settings : Settings) (config : WorkerSettings) (identity : LeaseIdentity).

Abbreviation pass := (pass config identity).
Abbreviation receive_turn := (receive_turn sha256 holidays column settings config identity).

Section World.
Context (world : World) (since : Z).
Hypothesis world_polite : polite_world world.

Abbreviation kept_flag flag before calls0 := (kept (J_flag since flag before calls0)).

Lemma flag_world flag before calls0 : world_kept (J_flag since flag before calls0) world.
Proof. apply world_polite_kept; [|done]. intros f d. apply flag_polite. Qed.

(** A reconciliation: its run is recorded. *)
Lemma reconcile_recorded trigger before calls0 w : kept_flag false before calls0 w ->
  wkp (_reconcile sha256 column config identity world trigger) (fun w' r => match r with
    | inl res => kept (J_run since res before calls0) w'
    | inr _ => kept_flag false before calls0 w'
    end) w.
Proof.
  intros Hw. unfold _reconcile. apply wkp_bind.
  eapply wkp_mono; [by apply (inv_require identity _ (flag_row since false before calls0) (state_update _ _ _ _))|].
  intros w1 [[]|e] H1; [|done]. apply wkp_bind.
  eapply wkp_mono; [by apply (inv_pass config identity _ (flag_row since false before calls0) world (flag_world _ _ _))|].
  intros w2 [[]|e] H2; [|done]. destruct H2 as (H2 & _ & H3). apply wkp_try, wkp_db, wp_in_session.
  eapply wp_mono; [apply run_records; by destruct world_polite|].
  intros s r (H4 & H5 & H6). cbn [clock wire rolled_back] in H4, H5.
  assert (Hc : before = false -> wire s = calls0) by (intros E; rewrite H4; by apply H3).
  destruct r as [res|e].
  - destruct H6 as (run & H6 & H7). split; [cbn; lia|]. split; [exact Hc|].
    exists run. split; [exact H6|]. destruct H7. split; [done|cbn in *; lia|done..].
  - assert (He : kept_flag false before calls0 (mkWorker (rolled_back s) (wk_feed w2) (wk_lease_lost w2)
      (wk_failures w2) (wk_connected_once w2))) by (split; [cbn; lia|by split]).
    by destruct (adapter_code e).
Qed.

(** Applying it: a clean run becomes the worker's last one. *)
Lemma require_quiet u before calls0 w : kept_flag false before calls0 w ->
  wkp (_require_state identity u) (fun w' _ => kept_flag false before calls0 w') w.
Proof.
  assert (H : silent (in_session (update_worker_state identity u None))).
  { apply silent_in_session. unfold update_worker_state. cbn [observed]. silent. }
  intros (H1 & _ & H2). unfold _require_state. apply wkp_bind, wkp_db. eapply wp_mono; [apply H|].
  intros s r [Hw Hc]. assert (He : kept_flag false before calls0 (mkWorker s (wk_feed w) (wk_lease_lost w)
    (wk_failures w) (wk_connected_once w))).
  { split; [cbn; lia|]. split; [done|]. intros E. cbn. rewrite Hw. by apply H2. }
  by destruct r as [[]|e].
Qed.

Lemma applied_clean res w : run_recorded since res (disk (wk_sess w)) -> rs_critical_mismatch_count res = 0 ->
  wkp (_require_state identity (mkWorkerUpdate W_READY true true (Some GATE_READY) (Some "WORKER_HEALTHY") None
         (Some (rs_run_id res)))) (fun w' r => match r with inl _ => clean since w' | inr _ => True end) w.
Proof.
  intros (run & H1 & H2) H0. rewrite H0 in H2. unfold _require_state.
  apply wkp_bind, wkp_db, wp_in_session. unfold update_worker_state. cbn [observed]. repeat wp_step; try done.
  all: apply (wkp_ret tt); exists (rs_run_id res), run; (split; [cbn; by rewrite lookup_insert_eq|]);
    exact (conj H1 H2).
Qed.

Lemma applied res before calls0 w : kept (J_run since res before calls0) w ->
  wkp (_apply_reconciliation_result identity res) (fun w' r => match r with
    | inl _ => kept_flag (rs_critical_mismatch_count res =? 0) before calls0 w'
    | inr _ => kept_flag false before calls0 w'
    end) w.
Proof.
  intros (H1 & H2 & H3). assert (Hk : kept_flag false before calls0 w) by by split_and!.
  unfold _apply_reconciliation_result.
  destruct (Z.eqb_spec (rs_critical_mismatch_count res) 0) as [E|E]; cbn [negb].
  - eapply wkp_mono; [apply (wkp_and _ _ _ _ (require_quiet _ _ _ _ Hk) (applied_clean res w H3 E))|].
    intros w' [[]|e] [H4 H5]; [|done]. destruct H4 as (H4 & _ & H6). by split_and!.
  - eapply wkp_mono; [by apply (require_quiet _ before calls0)|]. by intros w' [[]|e] H4.
Qed.

Lemma reconciled_flag trigger before calls0 w : kept_flag false before calls0 w ->
  wkp (reconcile_now sha256 column settings config identity world trigger) (fun w' r => match r with
    | inl (enabled, _) => kept_flag enabled before calls0 w'
    | inr _ => kept_flag false before calls0 w'
    end) w.
Proof.
  intros Hw. unfold reconcile_now. apply wkp_bind. eapply wkp_mono; [by apply reconcile_recorded|].
  intros w1 [res|e] H1; [|done].
  assert (Hr : world_kept (J_run since res before calls0) world)
    by (apply world_polite_kept; [intros f d; apply run_polite|done]).
  apply wkp_bind. eapply wkp_mono; [by apply (inv_pass config identity _ (run_row since res before calls0) world Hr)|].
  intros w2 [[]|e] H2; [|destruct H2 as (H2 & H3 & _); by split_and!].
  apply wkp_bind. eapply wkp_mono; [by apply applied|]. intros w3 [[]|e] H3; [|done].
  apply wkp_bind. eapply wkp_mono; [by apply (inv_pass config identity _ (flag_row since (rs_critical_mismatch_count res =? 0) before calls0) world (flag_world _ _ _))|].
  intros w4 [[]|e] H4; [|destruct H4 as (H4 & _ & H5); by split_and!].
  unfold now_. by apply wkp_bind, wkp_db, wp_utcnow.
Qed.

(** Between the orders and the reconciliation that is due. *)
Lemma sent_clean calls0 w : kept_flag true true calls0 w ->
  wkp (dispatch_orders sha256 config identity world) (fun w' _ => kept_flag true true calls0 w') w.
Proof.
  intros Hw. pose proof (inv_pass config identity _ (flag_row since true true calls0) world (flag_world _ _ _)) as Hp.
  assert (Hsafe : safe_client last_run_tables (clean_tables since) (wd_client world)).
  { destruct world_polite as [_ _ Hpl Hca _ _]. split; intros request; try apply (po_time _ _ (Hpl request));
      try apply (po_time _ _ (Hca request)); intros db H; [by apply (clean_kept _ _ _ db (Hpl request))|
      by apply (clean_kept _ _ _ db (Hca request))]. }
  assert (Hs : forall A (m : prog A), stays last_run_tables (clean_tables since) since m ->
            invariant (kept_flag true true calls0) (on_db (in_session m))).
  { intros A m Hm x (H1 & H2 & _). apply wkp_db. eapply wp_mono; [apply (stays_in_session _ _ _ _ _ Hm); auto|].
    intros s r [H3 H4]. by split_and!. }
  assert (H1 : invariant (kept_flag true true calls0) (_cancel_expired_buy sha256 config identity world)).
  { unfold _cancel_expired_buy. apply inv_bind; [apply Hp|intros _]. apply inv_bind; [by intros x|intros now].
    apply Hs. by apply cancel_stays. }
  assert (H2 : invariant (kept_flag true true calls0) (_dispatch_next_order sha256 config identity world)).
  { unfold _dispatch_next_order. apply inv_bind; [apply Hp|intros _]. apply Hs. by apply send_stays. }
  assert (H : invariant (kept_flag true true calls0) (dispatch_orders sha256 config identity world))
    by (unfold dispatch_orders; worker).
  by apply H.
Qed.

Lemma turn_flag token l w calls0 : kept_flag (order_dispatch_enabled l) (order_dispatch_enabled l) calls0 w ->
  wkp (receive_turn token world l) (fun w' r =>
    (order_dispatch_enabled l = false -> wire (wk_sess w') = calls0) /\
    match r with
    | inl (Some l') => kept_flag (order_dispatch_enabled l') (order_dispatch_enabled l) calls0 w'
    | _ => True
    end) w.
Proof.
  intros Hw. set (before := order_dispatch_enabled l) in *. unfold BrokerWorker.receive_turn.
  assert (Hj : forall flag, world_kept (J_flag since flag before calls0) world) by (intros; apply flag_world).
  assert (Hrow : forall flag, row_kept (J_flag since flag before calls0)) by (intros; apply flag_row).
  assert (Hno : forall flag w', kept_flag flag before calls0 w' -> kept_flag false before calls0 w')
    by (intros flag w' (Ha & _ & Hb); by split_and!).
  apply wkp_bind. eapply wkp_mono; [by apply (inv_pass config identity _ (Hrow before) world (Hj before))|].
  intros w1 [[]|e] H1; [|by split; [apply H1|]].
  unfold now_. apply wkp_bind, wkp_db, wp_utcnow. set (at_ := clock (wk_sess w1)).
  apply wkp_bind.
  eapply wkp_mono; [by apply (due_kept sha256 holidays settings config identity _ (Hrow before) world (Hj before))|].
  intros w2 [l2|e] [H2 Hl2]; [|by split; [apply H2|]]. rewrite Hl2. fold before.
  apply wkp_bind. apply (wkp_mono _ (fun w' r => kept_flag before before calls0 w' /\
    match r with inl (Some _) => before = true | _ => True end)).
  { destruct before eqn:E; [|by apply wkp_ret]. eapply wkp_mono; [by apply sent_clean, H2|].
    intros w' [[x|]|e] Hc; done. }
  intros w3 [[trigger|]|e] [H3 Hd]; [| |by split; [apply H3|]].
  { apply wkp_bind. eapply wkp_mono; [apply (reconciled_flag trigger before calls0 w3), (Hno _ _ H3)|].
    intros w4 [[enabled t]|e] H4; [|by split; [apply H4|]]. split; [apply H4|exact H4]. }
  apply wkp_bind. eapply wkp_mono; [by apply (inv_token config identity _ (Hrow before) world (Hj before))|].
  intros w4 [[next_check|]|e] H4; [|by split; [apply H4|]..].
  apply wkp_bind. apply (wkp_mono _ (fun w' r => match r with
    | inl l' => kept_flag (order_dispatch_enabled l') before calls0 w'
    | inr _ => kept_flag false before calls0 w' end)).
  { unfold reconcile_due. cbn [event_due next_periodic].
    destruct (match event_due l2 with Some due => due <=? at_ | None => false end); [|destruct (_ <=? at_)].
    3: { apply wkp_ret. exact H4. }
    all: apply wkp_bind; (eapply wkp_mono; [apply (reconciled_flag _ before calls0 w4), (Hno _ _ H4)|]);
      by intros w5 [[enabled t]|e] H5. }
  intros w5 [l5|e] H5; [|by split; [apply H5|]].
  eapply wkp_mono;
    [by apply (tail_kept sha256 config identity _ (Hrow (order_dispatch_enabled l5)) world (Hj _))|].
  intros w6 [[l6|]|e] [(H6 & H7 & H8) Hf]; (split; [done|]); [|done..].
  split_and!; [done| |done]. intros E. by apply H7, Hf.
Qed.
End World.
End Dispatch.

(** The turns of a receive loop, with others that leave the worker's rows
    alone. *)
Section Turns.
Context (sha256 : string -> string) (holidays : Z -> option (list Z)) (column : decimal -> decimal).
Context (settings : Settings) (config : WorkerSettings) (identity : LeaseIdentity) (token : string).

Abbreviation receive_turn := (receive_turn sha256 holidays column settings config identity token).

Inductive turns (l0 : Locals) (w0 : Worker) : Locals -> Worker -> Prop :=
| no_turn : turns l0 w0 l0 w0
| next_turn l w world l' w' :
    turns l0 w0 l w -> polite_world world -> receive_turn world l w = (w', inl (Some l')) ->
    turns l0 w0 l' w'.

Lemma turns_flag since l0 w0 l w : since <= clock (wk_sess w0) ->
  (order_dispatch_enabled l0 = true -> clean since w0) -> turns l0 w0 l w ->
  since <= clock (wk_sess w) /\ (order_dispatch_enabled l = true -> clean since w).
Proof.
  intros Ht Hc. induction 1 as [|l w world l' w' _ [IH1 IH2] Hp Hrun]; [done|].
  pose proof (wkp_elim _ _ _ _ _ (turn_flag sha256 holidays column settings config identity world since Hp token l w
    (wire (wk_sess w)) ltac:(by split_and!)) Hrun) as [_ H]. split; apply H.
Qed.
End Turns.

(** An account event suspends the orders. *)
Lemma account_event_suspends sha256 config identity world l : event_due l = None ->
  returns (fun l' => order_dispatch_enabled l' = false)
    (take_event sha256 config identity world (Some (Event ACCOUNT_EVENT)) l).
Proof. intros H. unfold take_event. rewrite H. by returns. Qed.

(** C31: orders follow clean reconciliations.  Take any moment of a receive loop
    at which its orders are suspended, as they are after an account event, or
    at which the last reconciliation, started at [since] or later, was clean.
    In every turn from there on, whatever the broker answers and the others
    commit, an order or a cancellation goes out only if the flag of the loop is
    set and the last reconciliation that the worker recorded succeeded: it
    started at [since] or later, it compared a snapshot with the books, and it
    found no difference, critical or other. *)
Theorem orders_follow_reconciliation sha256 holidays column settings config identity token since l0 w0 l w
    world w' r :
  since <= clock (wk_sess w0) -> (order_dispatch_enabled l0 = true -> clean since w0) ->
  turns sha256 holidays column settings config identity token l0 w0 l w -> polite_world world ->
  receive_turn sha256 holidays column settings config identity token world l w = (w', r) ->
  wire (wk_sess w') = wire (wk_sess w) \/ (order_dispatch_enabled l = true /\ clean since w).
Proof.
  intros Ht Hc Hturns Hp Hrun. destruct (turns_flag _ _ _ _ _ _ _ since l0 w0 l w Ht Hc Hturns) as [H1 H2].
  destruct (order_dispatch_enabled l) eqn:E; [right; split; [done|by apply H2]|left].
  pose proof (wkp_elim _ _ _ _ _ (turn_flag sha256 holidays column settings config identity world since Hp token l w
    (wire (wk_sess w)) ltac:(rewrite E; by split_and!)) Hrun) as [H _]. by apply H.
Qed.

(** ** A superseded worker *)

Section Superseded.
Context (sha256 : string -> string) (holidays : Z -> option (list Z)) (column : decimal -> decimal).
Context (settings : Settings) (config : WorkerSettings) (identity : LeaseIdentity).

Abbreviation rows := (gmap string TradingGate * gmap string BrokerWorkerState * gmap string BrokerLease *
  gmap string ReconciliationRun)%type.

(** A property of the worker's tables that the others keep; while it holds, the
    lease has another token, or there is none. *)
Context (P : rows -> Prop).
Hypothesis superseded : forall db l, P (worker_tables db) -> lease_row db = Some l ->
  bl_fencing_token l <> fencing_token identity.

Definition others_keep (f : DB -> DB) : Prop := forall db, P (worker_tables db) -> P (worker_tables (f db)).

Record others_world (world : World) : Prop := mkOthersWorld {
  ow_gap p : others_keep (gp_commits (wd_gap world p));
  ow_token : others_keep (meanwhile (wd_access_token world))
}.

Context (calls : list wire_call).

Definition quiet (w : Worker) : Prop := P (worker_tables (disk (wk_sess w))) /\ wire (wk_sess w) = calls.

Lemma not_held t db : P (worker_tables db) -> holds identity t (lease_row db) = false.
Proof.
  intros HP. unfold holds, owned_by. destruct (lease_row db) as [l|] eqn:E; [|done].
  destruct (Z.eqb_spec (bl_fencing_token l) (fencing_token identity)) as [Ht|]; [by destruct (superseded db l HP E)|].
  by rewrite andb_false_r.
Qed.

(** A program that changes nothing durable and calls no broker. *)
Definition refused {A} (m : prog A) (Q : A + exn -> Prop) : Prop := forall s,
  P (worker_tables (work s)) -> wp m (fun s' r => disk s' = disk s /\ wire s' = wire s /\ Q r) s.

Lemma refused_session {A} (m : prog A) Q : refused m Q -> forall w, quiet w ->
  wkp (on_db (in_session m)) (fun w' r => quiet w' /\ wk_lease_lost w' = wk_lease_lost w /\ Q r) w.
Proof.
  intros Hm w [H1 H2]. apply wkp_db, wp_in_session. eapply wp_mono; [by apply Hm|].
  intros s r (H3 & H4 & H5). cbn [wk_sess disk wire rolled_back] in *. split; [|done].
  split; cbn [wk_sess disk wire rolled_back]; [by rewrite H3|by rewrite H4].
Qed.

(** In the branches that need the lease. *)
Ltac refuse HP :=
  repeat wp_step; try done;
  lazymatch goal with
  | H : holds _ ?t _ = true |- _ => exfalso; pose proof (not_held t _ HP); congruence
  | _ => idtac
  end.

Lemma update_refused u : refused (update_worker_state identity u None) (fun r => r = inl false).
Proof. intros s HP. unfold update_worker_state. cbn [observed]. refuse HP. Qed.

Lemma renew_refused n : refused (renew_lease identity n None) (fun r => r = inl false).
Proof. intros s HP. unfold renew_lease. cbn [observed]. refuse HP. Qed.

Lemma release_refused : refused (release_lease identity None) (fun r => r = inl false).
Proof.
  assert (Ho : forall db l, P (worker_tables db) -> lease_row db = Some l -> owned_by identity l = false).
  { intros db l HP El. unfold owned_by.
    destruct (Z.eqb_spec (bl_fencing_token l) (fencing_token identity)) as [Ht|]; [by destruct (superseded db l HP El)|].
    by rewrite andb_false_r. }
  intros s HP. unfold release_lease. cbn [observed]. repeat wp_step; try done.
  all: lazymatch goal with E : lease_row _ = Some ?l |- _ => pose proof (Ho _ l HP E); congruence end.
Qed.

Lemma ready_refused t : refused (_require_worker_ready identity t) (fun r => exists e, r = inr e).
Proof.
  intros s HP. unfold _require_worker_ready, lease_is_current. cbn [observed]. refuse HP; eauto.
Qed.

Lemma refused_bind {A B} (m : prog A) (k : A -> prog B) :
  refused m (fun r => exists e, r = inr e) -> refused (mbind k m) (fun r => exists e, r = inr e).
Proof.
  intros Hm s HP. apply wp_bind. eapply wp_mono; [by apply Hm|]. intros s' r (H1 & H2 & e & ->). unfold after. eauto.
Qed.

Lemma send_refused client locked : refused (send_next_created_order sha256 client identity locked None) (fun _ => True).
Proof.
  intros s HP. unfold send_next_created_order. cbn [observed]. do 6 wp_step.
  destruct (_next_created_order_statement locked (work s)) as [o|]; [|by repeat wp_step].
  assert (H : refused (_send_locked_order sha256 client identity o (clock s)) (fun r => exists e, r = inr e)).
  { unfold _send_locked_order, claim_order. apply refused_bind, refused_bind, ready_refused. }
  wp_step. eapply wp_mono; [by apply H|]. intros s' r (H1 & H2 & e & ->). by unfold after.
Qed.

Lemma cancel_refused client locked t :
  refused (cancel_next_expired_buy_once sha256 client identity locked (Some t)) (fun _ => True).
Proof.
  intros s HP. unfold cancel_next_expired_buy_once. cbn [observed]. do 6 wp_step.
  destruct (next_expired_buy locked t (work s)) as [o|]; [|by repeat wp_step].
  wp_step. eapply wp_mono; [apply (refused_bind _ _ (ready_refused t)); exact HP|].
  intros s' r (H1 & H2 & e & ->). by unfold after.
Qed.

(** ** What a superseded worker still runs *)

Lemma quiet_refused {A} (m : prog A) Q : refused m Q -> invariant quiet (on_db (in_session m)).
Proof. intros Hm w Hw. eapply wkp_mono; [by apply (refused_session m Q)|]. by intros w' r (H & _). Qed.

Lemma quiet_apart {A} (m : prog A) : apart agent_data m -> invariant quiet (on_db (in_session m)).
Proof.
  intros [H1 H2] w [Hw Hc]. apply wkp_db, wp_in_session.
  pose proof (keeps_map agent_data (fun t => t.1.2.2) m H1) as H3.
  eapply wp_mono; [apply (wp_and _ _ _ _ (H3 P (rolled_back (wk_sess w)) (conj Hw Hw)) (H2 _))|].
  intros s r [[_ Hd] [Hwire _]]. split; [exact Hd|]. cbn [wk_sess wire rolled_back] in *. by rewrite Hwire.
Qed.

Lemma quiet_feed {A} (m : ws A) : invariant quiet (on_feed m).
Proof. intros w Hw. unfold wkp, on_feed. by destruct (m (wk_feed w)). Qed.

Lemma quiet_elapse g : others_keep (gp_commits g) -> invariant quiet (on_db (elapse g)).
Proof. intros Hg w [Hw Hc]. split; [by apply Hg|done]. Qed.

Lemma quiet_ask {A} (p : Pending A) : others_keep (meanwhile p) -> invariant quiet (on_db (in_session (ask p))).
Proof. intros Hp w [Hw Hc]. split; [by apply Hp|done]. Qed.

Lemma quiet_set : invariant quiet set_lease_lost.
Proof. by intros w. Qed.

Lemma quiet_update u : invariant quiet (_update_state identity u).
Proof. exact (quiet_refused _ _ (update_refused u)). Qed.

#[local] Hint Resolve quiet_feed quiet_set quiet_update : worker.

Lemma quiet_heartbeat : invariant quiet (heartbeat config identity).
Proof. pose proof (quiet_refused _ _ (renew_refused (kiwoom_worker_lease_seconds config))). unfold heartbeat. worker. Qed.

#[local] Hint Resolve quiet_heartbeat : worker.

(** Every fenced write ends the connection. *)
Lemma require_lost u w : quiet w ->
  wkp (_require_state identity u) (fun w' r => quiet w' /\ wk_lease_lost w' = true /\
    r = inr (RuntimeError "WORKER_LEASE_LOST")) w.
Proof.
  intros Hw. unfold _require_state. apply wkp_bind.
  eapply wkp_mono; [by apply (refused_session _ _ (update_refused u))|]. intros w' r (H1 & _ & ->). by split.
Qed.

Lemma quiet_require u : invariant quiet (_require_state identity u).
Proof. intros w Hw. eapply wkp_mono; [by apply require_lost|]. by intros w' r [H _]. Qed.

Section World.
Context (world : World).
Hypothesis world_ok : others_world world.

Lemma quiet_pass p : invariant quiet (pass config identity world p).
Proof. pose proof (quiet_elapse _ (ow_gap world world_ok p)). unfold pass. worker. Qed.

#[local] Hint Resolve quiet_pass quiet_require : worker.

Lemma quiet_reconcile trigger : invariant quiet (reconcile_now sha256 column settings config identity world trigger).
Proof.
  intros w Hw. unfold reconcile_now, _reconcile. apply wkp_bind, wkp_bind.
  eapply wkp_mono; [by apply require_lost|]. by intros w' r (H & _ & ->).
Qed.

Lemma quiet_sync : invariant quiet _sync_watchlist.
Proof.
  unfold _sync_watchlist. apply inv_bind; [|auto with worker]. apply quiet_apart.
  split; [apply frame_gets|by intros ?].
Qed.

Lemma quiet_stops now : invariant quiet (_run_stop_triggers sha256 holidays settings config identity world now).
Proof.
  unfold _run_stop_triggers. apply inv_bind; [auto with worker|intros _].
  apply inv_try; [apply quiet_apart, apart_stops|intros [] ? ?; simplify_eq/=; auto with worker].
Qed.

Lemma quiet_quote event : invariant quiet (_persist_quote sha256 event).
Proof.
  unfold _persist_quote.
  apply inv_try; [apply quiet_apart, apart_quote|intros [] ? ?; simplify_eq/=; auto with worker].
Qed.

Lemma quiet_orders : invariant quiet (dispatch_orders sha256 config identity world).
Proof.
  assert (H1 : invariant quiet (_cancel_expired_buy sha256 config identity world)).
  { unfold _cancel_expired_buy. apply inv_bind; [auto with worker|intros _]. apply inv_bind; [by intros w|intros now].
    exact (quiet_refused _ _ (cancel_refused _ _ now)). }
  assert (H2 : invariant quiet (_dispatch_next_order sha256 config identity world)).
  { unfold _dispatch_next_order. apply inv_bind; [auto with worker|intros _]. exact (quiet_refused _ _ (send_refused _ _)). }
  unfold dispatch_orders. worker.
Qed.

#[local] Hint Resolve quiet_reconcile quiet_sync quiet_stops quiet_quote quiet_orders : worker.

Lemma quiet_turn token l : invariant quiet (receive_turn sha256 holidays column settings config identity token world l).
Proof.
  pose proof (quiet_ask _ (ow_token world world_ok)).
  assert (Hn : invariant quiet now_) by by intros w.
  unfold receive_turn, run_due, check_token, reconcile_due, receive_in_time, take_event. worker.
Qed.
End World.

Lemma quiet_turns token turns l : Forall others_world turns ->
  invariant quiet (receive_turns sha256 holidays column settings config identity token turns l).
Proof.
  intros Ht. revert l. induction Ht as [|world turns Hw _ IH]; intros l; cbn [receive_turns]; [worker|].
  apply inv_bind; [auto with worker|intros lost]. destruct lost; [auto with worker|].
  apply inv_bind; [by apply quiet_turn|]. intros [l'|]; [apply IH|auto with worker].
Qed.

Lemma pass_runs world p w : others_world world -> quiet w ->
  wkp (pass config identity world p) (fun w' r => quiet w' /\ r = inl tt) w.
Proof.
  intros Hworld Hw. unfold pass. apply wkp_bind.
  apply (wkp_mono _ (fun w' r => quiet w' /\ r = inl tt)); [|intros w1 r [H1 ->]].
  { apply (wkp_and _ (fun w' _ => quiet w') (fun _ r => r = inl tt)); [|done].
    by apply quiet_elapse; [apply (ow_gap world Hworld)|]. }
  destruct (gp_heartbeat (wd_gap world p)); [|done]. unfold heartbeat. apply wkp_bind. unfold wkp at 1, wk_get.
  destruct (wk_lease_lost w1); [done|]. apply wkp_bind.
  eapply wkp_mono; [apply (refused_session _ _ (renew_refused _)), H1|]. by intros w2 r (H2 & _ & ->).
Qed.

Lemma connection_ends c w : others_world (cn_world c) -> quiet w ->
  wkp (connection_pass sha256 holidays column settings config identity c)
    (fun w' r => quiet w' /\ r = inl (Some 3)) w.
Proof.
  intros Hc Hw. unfold connection_pass. apply wkp_bind. unfold wkp at 1, wk_get.
  destruct (wk_lease_lost w); [done|].
  apply wkp_bind. eapply wkp_mono; [by apply pass_runs|]. intros w1 r [H1 ->].
  apply wkp_try, wkp_bind. unfold connect_and_receive. apply wkp_bind.
  eapply wkp_mono; [by apply require_lost|]. intros w2 r (H2 & _ & ->). cbv beta iota.
  change (is_handled (RuntimeError "WORKER_LEASE_LOST")) with true. cbv iota.
  unfold after_failure. apply wkp_bind. eapply wkp_mono; [by apply pass_runs|]. intros w3 r [H3 ->].
  apply wkp_bind. unfold wkp at 1, on_feed. cbn [close ws_set].
  apply wkp_bind. unfold wkp at 1, wk_get.
  change (says_lease_lost (RuntimeError "WORKER_LEASE_LOST")) with true. by rewrite orb_true_r.
Qed.

Lemma shut_down_quiet last w : others_keep (gp_commits last) -> quiet w ->
  wkp (shut_down identity last) (fun w' r => quiet w' /\ r = inl tt) w.
Proof.
  intros Hl Hw. unfold shut_down. apply wkp_bind.
  apply (wkp_mono _ (fun w' r => quiet w' /\ r = inl tt)); [|intros w1 r [H1 ->]].
  { apply (wkp_and _ (fun w' _ => quiet w') (fun _ r => r = inl tt)); [by apply quiet_elapse|done]. }
  apply wkp_bind. unfold wkp at 1, on_feed. cbn [close ws_set]. apply wkp_bind.
  eapply wkp_mono; [apply (refused_session _ _ (update_refused _)); exact H1|]. intros w2 r (H2 & _ & ->).
  apply wkp_bind. eapply wkp_mono; [apply (refused_session _ _ release_refused); exact H2|].
  by intros w3 r (H3 & _ & ->).
Qed.
End Superseded.

(** C32: a superseded worker is silent.  While another worker holds the lease (or
    there is none), and whatever the broker sends and the others do, a worker
    that lost it hands nothing to the broker and writes neither the trading
    gate, the workers' state, the lease nor a reconciliation run: these tables
    keep every property that the others keep.  When it connects again, it ends
    at once with code 3, and its clean-up writes nothing either. *)
Theorem superseded_worker_is_silent sha256 holidays column settings config identity P w :
  (forall db l, P (worker_tables db) -> lease_row db = Some l -> bl_fencing_token l <> fencing_token identity) ->
  P (worker_tables (disk (wk_sess w))) ->
  (forall token turns l, Forall (others_world P) turns ->
    wkp (receive_turns sha256 holidays column settings config identity token turns l)
      (fun w' _ => P (worker_tables (disk (wk_sess w'))) /\ wire (wk_sess w') = wire (wk_sess w)) w) /\
  (forall c connections last, others_world P (cn_world c) -> others_keep P (gp_commits last) ->
    wkp (wk_finally (_connection_loop sha256 holidays column settings config identity (c :: connections))
           (shut_down identity last))
      (fun w' r => P (worker_tables (disk (wk_sess w'))) /\ wire (wk_sess w') = wire (wk_sess w) /\ r = inl 3) w).
Proof.
  intros Hs HP. assert (Hq : quiet P (wire (wk_sess w)) w) by done. split.
  - intros token turns l Ht.
    exact (quiet_turns sha256 holidays column settings config identity P Hs _ token turns l Ht w Hq).
  - intros c connections last Hc Hl. unfold wk_finally.
    pose proof (connection_ends sha256 holidays column settings config identity P Hs _ c w Hc Hq) as H1.
    cbn [_connection_loop]. unfold wkp, mbind, wk_bind in *.
    destruct (connection_pass _ _ _ _ _ _ _ w) as [w1 r1]. destruct H1 as [H1 ->]. cbn.
    pose proof (shut_down_quiet identity P Hs _ last w1 Hl H1) as H2. unfold wkp in H2.
    destruct (shut_down identity last w1) as [w2 r]. destruct H2 as [[H2 H3] ->]. by split_and!.
Qed.

(** ** A concrete worker *)

Definition idle_gap : Gap := mkGap 0 (fun db => db) false.
Definition calm_world : World :=
  mkWorld (fun _ => idle_gap) (demo_client (inl "B1")) (fun _ => false) (fun _ => false)
    (mkPending (inl "token") (fun db => db) 0) (mkPending (inl tt) (fun db => db) 0)
    (mkPending (inr (KiwoomAdapterError "KIWOOM_TIMEOUT")) (fun db => db) 0) (fun _ => []) (fun _ => []).

Definition worker_config : WorkerSettings := mkWorkerSettings 60 10 1 5.
Definition silent_feed : Feed := mkFeed true [] [] [] [] [] [] [].

Definition clean_run : ReconciliationRun :=
  mkReconciliationRun "run" ACCOUNT_ALIAS "PERIODIC" "SUCCEEDED" (seconds 99) (Some (seconds 99)) (Some (seconds 99)) 0 0
    "corr" (JObj []).

(** An order waits, the worker is in [state] and the gate in [gate]. *)
Definition worker_db (state : WorkerName) (gate : GateStatus) : DB :=
  put_run clean_run
    (put_gate (mkTradingGate ACCOUNT_ALIAS "MOCK" gate None 1)
      (put_worker (mkBrokerWorkerState ACCOUNT_ALIAS "MOCK" state 1 true true (seconds 100)
                     (Some (seconds 99)) (Some "run") None (seconds 0) (seconds 100)) demo_db)).

Definition worker_on (db : DB) : Worker :=
  mkWorker (open_session db (seconds 101) demo_uuids) silent_feed false 0 true.

Abbreviation demo_settings := (day_settings STAGE_SHADOW).

Definition start_locals : Locals := initial_locals demo_settings worker_config (seconds 101).

Definition demo_turn (db : DB) : Worker * (option Locals + exn) :=
  receive_turn demo_hash no_holidays (fun d => d) demo_settings worker_config demo_worker "token" calm_world
    start_locals (worker_on db).

(** The waiting order is sent. *)
Example demo_turn_sends :
  wire (wk_sess (demo_turn (worker_db W_READY GATE_READY)).1) =
    [WPlace "o1" (mkKiwoomOrderRequest "005930" BUY 10 LIMIT (Some (Dec 700000000 (-4))) "KRX")].
Proof. vm_compute. reflexivity. Qed.

(** After a start-up reconciliation with critical mismatches the loop starts
    with its orders enabled: a waiting order then raises, and the connection is
    given up. *)
Example startup_mismatch_reconnects :
  (demo_turn (worker_db W_DEGRADED GATE_HALTED)).2 = inr (KiwoomOrderSenderError "BROKER_NOT_READY") /\
  is_handled (KiwoomOrderSenderError "BROKER_NOT_READY") = true.
Proof. vm_compute. done. Qed.

Lemma calm_polite : polite_world calm_world.
Proof. split; first [cbn; lia | split; (done || (cbn; lia)) | intros ?; split; (done || (cbn; lia))]. Qed.

Lemma orders_follow_reconciliation_witness : exists w' r,
  demo_turn (worker_db W_READY GATE_READY) = (w', r) /\
  (wire (wk_sess w') = [] \/ (order_dispatch_enabled start_locals = true /\
     clean (seconds 99) (worker_on (worker_db W_READY GATE_READY)))).
Proof.
  exists (demo_turn (worker_db W_READY GATE_READY)).1, (demo_turn (worker_db W_READY GATE_READY)).2.
  split; [apply surjective_pairing|].
  apply (orders_follow_reconciliation demo_hash no_holidays (fun d => d) demo_settings worker_config demo_worker
    "token" (seconds 99) start_locals (worker_on (worker_db W_READY GATE_READY)) start_locals
    (worker_on (worker_db W_READY GATE_READY)) calm_world _ (demo_turn (worker_db W_READY GATE_READY)).2).
  - vm_compute. discriminate.
  - intros _. exists "run", clean_run.
    split; [vm_compute; reflexivity|]. split; [vm_compute; reflexivity|].
    split; [reflexivity|vm_compute; discriminate|by split; eexists|done].
  - apply no_turn.
  - exact calm_polite.
  - apply surjective_pairing.
Defined.

(** The lease was taken over by another worker. *)
Definition other_lease : BrokerLease := mkBrokerLease ACCOUNT_ALIAS "other" 2 (seconds 160) 1 (seconds 100).
Definition taken_over : Worker := worker_on (put_lease other_lease (worker_db W_READY GATE_READY)).

Definition still_taken (t : gmap string TradingGate * gmap string BrokerWorkerState * gmap string BrokerLease *
  gmap string ReconciliationRun) : Prop := t.1.2 !! ACCOUNT_ALIAS = Some other_lease.

Lemma superseded_worker_is_silent_witness :
  wkp (receive_turns demo_hash no_holidays (fun d => d) demo_settings worker_config demo_worker "token" [calm_world]
         start_locals)
    (fun w' _ => still_taken (worker_tables (disk (wk_sess w'))) /\ wire (wk_sess w') = []) taken_over /\
  wkp (wk_finally (_connection_loop demo_hash no_holidays (fun d => d) demo_settings worker_config demo_worker
                     [mkConnection calm_world None []]) (shut_down demo_worker idle_gap))
    (fun w' r => still_taken (worker_tables (disk (wk_sess w'))) /\ wire (wk_sess w') = [] /\ r = inl 3) taken_over.
Proof.
  assert (Hs : forall db l, still_taken (worker_tables db) -> lease_row db = Some l ->
            bl_fencing_token l <> fencing_token demo_worker).
  { intros db l H1 H2. assert (E : Some l = Some other_lease) by exact (eq_trans (eq_sym H2) H1).
    injection E as ->. discriminate. }
  assert (Ht : still_taken (worker_tables (disk (wk_sess taken_over)))) by (vm_compute; reflexivity).
  assert (Hw : others_world still_taken calm_world) by (split; [intros p|]; by intros db H).
  destruct (superseded_worker_is_silent demo_hash no_holidays (fun d => d) demo_settings worker_config demo_worker
    still_taken taken_over Hs Ht) as [H1 H2].
  split.
  - apply H1. by constructor.
  - apply H2; [exact Hw|by intros db H].
Defined.
