(* ===== verification/AuthCrypto.v ===== *)
(** * Encodings, passwords, tokens and one-time codes

    Base64 and its round trip, then [auth/crypto.py]. *)

Set Warnings "-register-all".

From Stdlib Require Import ZArith Lia Ascii String.
From stdpp Require Import base numbers strings list.
From S2P Require Import Prelude Json PyTime Models Session DecimalText PyText LlmCatalog.

Open Scope Z_scope.

(** * Base64

    [base64.urlsafe_b64encode] and [base64.urlsafe_b64decode] of the standard
    library, on byte strings.  The decoder is the lenient one: characters
    outside the alphabet are skipped, and the input ends at its padding. *)

Definition alphabet : string := "ABCDEFGHIJKLMNOPQRSTUVWXYZabcdefghijklmnopqrstuvwxyz0123456789-_".

Definition byte_of (c : ascii) : Z := Z.of_nat (nat_of_ascii c).
Definition of_byte (n : Z) : ascii := ascii_of_nat (Z.to_nat n).

Definition digit64 (n : Z) : ascii := default "A"%char (String.get (Z.to_nat n) alphabet).

Definition between_chars (low high c : ascii) : bool :=
  (byte_of low <=? byte_of c) && (byte_of c <=? byte_of high).

(** The alphabet of the decoder also has ["+"] and ["/"]. *)
Definition value64 (c : ascii) : option Z :=
  if between_chars "A" "Z" c then Some (byte_of c - 65)
  else if between_chars "a" "z" c then Some (byte_of c - 71)
  else if between_chars "0" "9" c then Some (byte_of c + 4)
  else if Ascii.eqb c "+" || Ascii.eqb c "-" then Some 62
  else if Ascii.eqb c "/" || Ascii.eqb c "_" then Some 63
  else None.

Fixpoint urlsafe_b64encode (s : string) : string :=
  match s with
  | EmptyString => EmptyString
  | String a EmptyString =>
      let x := byte_of a in
      String (digit64 (x / 4)) (String (digit64 (x mod 4 * 16)) "==")
  | String a (String b EmptyString) =>
      let x := byte_of a in let y := byte_of b in
      String (digit64 (x / 4)) (String (digit64 (x mod 4 * 16 + y / 16))
        (String (digit64 (y mod 16 * 4)) "="))
  | String a (String b (String c r)) =>
      let x := byte_of a in let y := byte_of b in let z := byte_of c in
      String (digit64 (x / 4)) (String (digit64 (x mod 4 * 16 + y / 16))
        (String (digit64 (y mod 16 * 4 + z / 64)) (String (digit64 (z mod 64))
          (urlsafe_b64encode r))))
  end.

(** [position]: digits of the current group of four; [left]: bits carried from
    the last digit; [pads]: padding seen since. *)
Fixpoint b64_loop (position : nat) (left : Z) (pads : nat) (s : string) : option string :=
  match s with
  | EmptyString => if Nat.eqb position 0 then Some EmptyString else None
  | String c r =>
      if Ascii.eqb c "=" then
        if Nat.leb 2 position then
          if Nat.leb 4 (position + S pads) then Some EmptyString
          else b64_loop position left (S pads) r
        else b64_loop position left pads r
      else
        match value64 c with
        | None => b64_loop position left pads r
        | Some v =>
            match position with
            | O => b64_loop 1 v 0 r
            | S O => String (of_byte (left * 4 + v / 16)) <$> b64_loop 2 (v mod 16) 0 r
            | S (S O) => String (of_byte (left * 16 + v / 4)) <$> b64_loop 3 (v mod 4) 0 r
            | _ => String (of_byte (left * 64 + v)) <$> b64_loop 0 0 0 r
            end
        end
  end.

Definition urlsafe_b64decode (s : string) : option string := b64_loop 0 0 0 s.

Example b64_texts :
  (urlsafe_b64encode "Man", urlsafe_b64encode "Ma", urlsafe_b64encode "M",
   urlsafe_b64decode "TWFu", urlsafe_b64decode "TW E=", urlsafe_b64decode "TWF",
   urlsafe_b64decode "T-_/")
  = ("TWFu", "TWE=", "TQ==", Some "Man", Some "Ma", None,
     Some (String (of_byte 79) (String (of_byte 239) (String (of_byte 255) EmptyString)))).
Proof. vm_compute. reflexivity. Qed.

(** ** Round trip *)

Lemma byte_of_range c : 0 <= byte_of c < 256.
Proof. unfold byte_of. pose proof (nat_ascii_bounded c). lia. Qed.

Lemma of_byte_of c n : n = byte_of c -> of_byte n = c.
Proof. intros ->. unfold of_byte, byte_of. rewrite Nat2Z.id. apply ascii_nat_embedding. Qed.

Definition digit64_ok (n : Z) : bool :=
  match value64 (digit64 n) with
  | Some v => (v =? n) && negb (Ascii.eqb (digit64 n) "=")
  | None => false
  end.

Lemma digits64_ok : forallb digit64_ok (seqZ 0 64) = true.
Proof. vm_compute. reflexivity. Qed.

Lemma digit64_value n :
  0 <= n < 64 -> value64 (digit64 n) = Some n /\ Ascii.eqb (digit64 n) "=" = false.
Proof.
  intros H. pose proof (proj1 (forallb_forall _ _) digits64_ok n) as Hn.
  assert (Hin : In n (seqZ 0 64)) by (apply list_elem_of_In, elem_of_seqZ; lia).
  specialize (Hn Hin). unfold digit64_ok in Hn. destruct (value64 (digit64 n)) as [v|]; [|done].
  apply andb_true_iff in Hn as [Hv Hc]. apply Z.eqb_eq in Hv. subst. by apply negb_true_iff in Hc.
Qed.

Lemma b64_digit position left pads n r :
  0 <= n < 64 ->
  b64_loop position left pads (String (digit64 n) r) =
  match position with
  | O => b64_loop 1 n 0 r
  | S O => String (of_byte (left * 4 + n / 16)) <$> b64_loop 2 (n mod 16) 0 r
  | S (S O) => String (of_byte (left * 16 + n / 4)) <$> b64_loop 3 (n mod 4) 0 r
  | _ => String (of_byte (left * 64 + n)) <$> b64_loop 0 0 0 r
  end.
Proof.
  intros H. destruct (digit64_value n H) as [Hv Hc]. cbn [b64_loop]. by rewrite Hc, Hv.
Qed.

Ltac b64_digits :=
  repeat (rewrite b64_digit by (Z.div_mod_to_equations; lia); cbn [fmap option_fmap option_map]).

(** Induction on the groups of three bytes. *)
Lemma triples_ind (P : string -> Prop) :
  P EmptyString -> (forall a, P (String a EmptyString)) ->
  (forall a b, P (String a (String b EmptyString))) ->
  (forall a b c r, P r -> P (String a (String b (String c r)))) -> forall s, P s.
Proof.
  intros H0 H1 H2 H3 s.
  enough (H : P s /\ (forall a, P (String a s)) /\ (forall a b, P (String a (String b s)))) by apply H.
  induction s as [|c s (I0 & I1 & I2)]; split_and!; auto.
Qed.

Theorem b64_roundtrip s : urlsafe_b64decode (urlsafe_b64encode s) = Some s.
Proof.
  unfold urlsafe_b64decode. induction s as [|a|a b|a b c r IH] using triples_ind; [done|..];
    pose proof (byte_of_range a); cbn [urlsafe_b64encode].
  - b64_digits. cbn. repeat f_equal. apply of_byte_of. Z.div_mod_to_equations; lia.
  - pose proof (byte_of_range b). b64_digits. cbn.
    repeat f_equal; apply of_byte_of; Z.div_mod_to_equations; lia.
  - pose proof (byte_of_range b). pose proof (byte_of_range c). b64_digits. rewrite IH. cbn.
    repeat f_equal; apply of_byte_of; Z.div_mod_to_equations; lia.
Qed.

(** * Passwords, tokens and one-time codes

    [auth/crypto.py].  Argon2, SHA-256, AES-GCM and the code generator of
    [pyotp] are parameters; the encodings, the checks of a new password and the
    verification of a code are defined here.  Text is ASCII, so [casefold] is
    [lower]. *)

(** What [PasswordHasher.verify] does: it returns [True] or raises. *)
Inductive Argon2Answer :=
| Argon2Verified
| VerifyMismatchError
| InvalidHashError
| Argon2OtherError.

(** The third-party code the module calls. *)
Record CryptoLibrary := mkCryptoLibrary {
  argon2_hash : string -> string -> string;          (** salt, password *)
  argon2_verify : string -> string -> Argon2Answer;  (** hash, password *)
  aes_encrypt : string -> string -> string -> string -> string;          (** key, nonce, data, aad *)
  aes_decrypt : string -> string -> string -> string -> option string;
  totp_at : string -> Z -> option string;            (** secret, Unix seconds; bad base32 raises *)
  provisioning_uri : string -> string -> string -> string
}.

(** [len(code) == 6 and code.isdigit()] *)
Definition is_code (code : string) : bool := digits_of_length 6 code.

Definition is_ascii (s : string) : bool := forallb (fun c => byte_of c <? 128) (list_ascii_of_string s).

Definition starts_at (n : nat) (s : string) : string := substring n (String.length s) s.

Record TotpMatch := mkTotpMatch { tm_valid : bool; tm_step : option Z }.

(** [validate_password]: the message of the [ValueError], if any. *)
Definition common_passwords : list string := ["password"; "qwerty"; "123456"; "letmein"; "admin"].

Definition validate_password (login_id password : string) : string + unit :=
  if Nat.ltb (String.length password) 14 then inl "Password must contain at least 14 characters"
  else if contains (lower login_id) (lower password) then inl "Password must not contain the login ID"
  else if existsb (fun item => contains item (lower password)) common_passwords
       then inl "Password is too common"
       else inr tt.

(** [secrets.token_urlsafe(32)]: tokens come from the session's supply of
    random texts, as identifiers do. *)
Definition new_token : prog string := uuid7.

(** [f"{token_hex(4)}-{token_hex(4)}"] *)
Definition new_recovery_code : prog string :=
  a ← uuid7; b ← uuid7; mret (a +:+ "-" +:+ b).

(** [int(current.timestamp()) // 30] *)
Definition base_step (now : Z) : Z := Z.quot now second / 30.

Section Crypto.
Context (lib : CryptoLibrary) (sha256 : string -> string).

Definition hash_password (password : string) : prog string :=
  salt ← uuid7; mret (argon2_hash lib salt password).

Definition verify_password (password_hash password : string) : exn + bool :=
  match argon2_verify lib password_hash password with
  | Argon2Verified => inr true
  | VerifyMismatchError | InvalidHashError => inr false
  | Argon2OtherError => inl OtherError
  end.

Definition token_hash (value : string) : string := sha256 value.

Definition totp_uri (secret login_id : string) : string := provisioning_uri lib secret login_id "Cresta".

Definition _decode_key (encoded_key : string) : exn + string :=
  match urlsafe_b64decode encoded_key with
  | Some key => if Nat.eqb (String.length key) 32 then inr key else inl ValueError
  | None => inl ValueError
  end.

Definition TOTP_AAD : string := "cresta-totp-v1".

(** [nonce]: the twelve random bytes. *)
Definition encrypt_totp_secret (nonce secret encoded_key : string) : exn + string :=
  key ← _decode_key encoded_key;
  inr (urlsafe_b64encode (nonce +:+ aes_encrypt lib key nonce secret TOTP_AAD)).

(** [InvalidTag] of a failed decryption is caught nowhere. *)
Definition decrypt_totp_secret (payload encoded_key : string) : exn + string :=
  match urlsafe_b64decode payload with
  | None => inl ValueError
  | Some raw =>
      if Nat.ltb (String.length raw) 29 then inl ValueError
      else
        key ← _decode_key encoded_key;
        match aes_decrypt lib key (substring 0 12 raw) (starts_at 12 raw) TOTP_AAD with
        | Some value => if is_ascii value then inr value else inl ValueError
        | None => inl OtherError
        end
  end.

(** The steps tried in turn; the first one whose code matches decides. *)
Fixpoint match_step (secret code : string) (last_used_step : option Z) (steps : list Z) :
  exn + TotpMatch :=
  match steps with
  | [] => inr (mkTotpMatch false None)
  | step :: steps =>
      match totp_at lib secret (step * 30) with
      | None => inl ValueError
      | Some expected =>
          if String.eqb expected code then
            if match last_used_step with Some used => step <=? used | None => false end
            then inr (mkTotpMatch false None)
            else inr (mkTotpMatch true (Some step))
          else match_step secret code last_used_step steps
      end
  end.

Definition verify_totp (secret code : string) (last_used_step : option Z) (now : Z) : exn + TotpMatch :=
  if negb (is_code code) then inr (mkTotpMatch false None)
  else
    let base := base_step now in
    match_step secret code last_used_step [base - 1; base; base + 1].

(** ** What a verified code is *)

(** [step] is a fresh step of the window around [now] whose code is [code]. *)
Record code_fits (secret code : string) (last_used_step : option Z) (now step : Z) : Prop := mkCodeFits {
  cf_digits : is_code code = true;
  cf_window : base_step now - 1 <= step <= base_step now + 1;
  cf_code : totp_at lib secret (step * 30) = Some code;
  cf_fresh : forall used, last_used_step = Some used -> used < step
}.

Lemma match_step_fits secret code last steps m :
  match_step secret code last steps = inr m -> tm_valid m = true ->
  exists step, tm_step m = Some step /\ step ∈ steps /\ totp_at lib secret (step * 30) = Some code /\
    (forall used, last = Some used -> used < step).
Proof.
  revert m. induction steps as [|step steps IH]; cbn [match_step]; intros m H Hv; [by simplify_eq|].
  destruct (totp_at lib secret (step * 30)) as [expected|] eqn:E; [|done].
  destruct (String.eqb_spec expected code) as [->|_].
  - destruct last as [used|]; [destruct (step <=? used) eqn:Hs|]; simplify_eq; cbn in Hv; try done.
    + exists step. split_and!; [done|apply list_elem_of_here|done|intros ? [= <-]; lia].
    + exists step. split_and!; [done|apply list_elem_of_here|done|done].
  - destruct (IH m H Hv) as (s & H1 & H2 & H3 & H4). exists s. split_and!; try done.
    by apply list_elem_of_further.
Qed.

Lemma verify_totp_fits secret code last now m :
  verify_totp secret code last now = inr m -> tm_valid m = true ->
  exists step, tm_step m = Some step /\ code_fits secret code last now step.
Proof.
  unfold verify_totp. destruct (is_code code) eqn:Hc; cbn [negb]; [|by intros [= <-]].
  intros H Hv. destruct (match_step_fits _ _ _ _ _ H Hv) as (step & H1 & H2 & H3 & H4).
  exists step. split; [done|]. split; try done.
  rewrite !elem_of_cons in H2. destruct H2 as [->|[->|[->|H2]]]; [lia..|by apply not_elem_of_nil in H2].
Qed.

(** ** The stored secret is read back *)

(** The laws of AES-GCM the code relies on: a decryption undoes the encryption
    under the same key, nonce and associated data, and the tag has 16 bytes. *)
Record aes_laws : Prop := mkAesLaws {
  aes_roundtrip : forall key nonce data aad,
    aes_decrypt lib key nonce (aes_encrypt lib key nonce data aad) aad = Some data;
  aes_length : forall key nonce data aad,
    String.length (aes_encrypt lib key nonce data aad) = (String.length data + 16)%nat
}.

Lemma substring_app_l s t : substring 0 (String.length s) (s +:+ t) = s.
Proof. induction s as [|c s IH]; [by destruct t|]. exact (f_equal (String c) IH). Qed.

Lemma substring_app_r s t n :
  (String.length t <= n)%nat -> substring (String.length s) n (s +:+ t) = t.
Proof. intros H. induction s as [|c s IH]; [by apply substring_all|exact IH]. Qed.

Lemma length_app_text s t : String.length (s +:+ t) = (String.length s + String.length t)%nat.
Proof. induction s as [|c s IH]; [done|]. exact (f_equal S IH). Qed.

(** What was stored by [encrypt_totp_secret] is decrypted to the same secret. *)
Theorem totp_secret_roundtrip nonce secret encoded_key payload :
  aes_laws -> String.length nonce = 12%nat -> (1 <= String.length secret)%nat ->
  is_ascii secret = true ->
  encrypt_totp_secret nonce secret encoded_key = inr payload ->
  decrypt_totp_secret payload encoded_key = inr secret.
Proof.
  intros [Hr Hl] Hn Hs Ha H. unfold encrypt_totp_secret in H. apply result_bind_inr in H as (key & Hk & [= <-]).
  unfold decrypt_totp_secret. rewrite b64_roundtrip, length_app_text, Hl, Hn.
  destruct (Nat.ltb_spec (12 + (String.length secret + 16)) 29); [lia|].
  rewrite Hk. cbn [mbind result_bind]. unfold starts_at. rewrite length_app_text, <- Hn.
  rewrite substring_app_l, substring_app_r, Hr, Ha by lia. done.
Qed.
End Crypto.
