(* ===== verification/Auth.v ===== *)
(** * Logins, sessions and the requests of the browser

    [auth/service.py], then the routes of [api/auth.py] with the gates of
    [api/dependencies.py]. *)

Set Warnings "-register-all".

From Stdlib Require Import ZArith Lia Ascii String.
From stdpp Require Import base numbers strings list gmap.
From S2P Require Import Prelude Json PyTime Models Session PyText LlmCatalog Collectors AuthCrypto.

Open Scope Z_scope.

(** * Logins, sessions and re-authentication

    [auth/service.py] and the settings it reads ([config.py]).  An operation
    first reads, then others may commit ([race]), then its changes are written
    and committed: the session of the code does not flush before it commits.  An
    update writes the columns that changed.  The requests of the browser follow. *)

Record AuthSettings := mkAuthSettings {
  session_idle_minutes : Z;
  session_absolute_hours : Z;
  challenge_minutes : Z;
  reauth_minutes : Z;
  auth_max_failures : Z;
  auth_lock_minutes : Z;
  session_cookie_name : string;
  cookie_secure : bool;
  allowed_origins : string;
  totp_encryption_key : option string;
  totp_encryption_key_file : option string
}.

(** What every request hands on for the audit. *)
Record RequestMeta := mkRequestMeta {
  request_ip : string;
  user_agent : string;
  correlation_id : string
}.

Record SessionTokens := mkSessionTokens {
  session_token : string;
  csrf_token : string;
  tokens_expire_at : Z
}.

(** [timedelta(minutes=n)], [timedelta(hours=n)] *)
Definition minutes (n : Z) : Z := n * minute.
Definition hours (n : Z) : Z := n * hour.

(** ** The tables *)

Definition upd_auth (f : AuthTables -> AuthTables) (db : DB) : DB := set_auth_tables db (f (auth_tables db)).

Definition user_of_login (login_id : string) (db : DB) : option User :=
  find_row (fun u => String.eqb (u_login_id u) login_id) (users db).
Definition totp_of (user : User) (db : DB) : option TotpCredential :=
  totp_credentials (auth_tables db) !! u_id user.
Definition challenge_at (hash : string) (db : DB) : option AuthChallenge :=
  auth_challenges (auth_tables db) !! hash.
Definition session_at (hash : string) (db : DB) : option UserSession := sessions (auth_tables db) !! hash.
Definition proof_at (hash : string) (db : DB) : option ReauthProof := reauth_proofs (auth_tables db) !! hash.
Definition rate_at (subject : string) (db : DB) : option AuthRateLimit :=
  auth_rate_limits (auth_tables db) !! subject.

Definition put_challenge (c : AuthChallenge) : DB -> DB :=
  upd_auth (fun a => set_auth_challenges a (<[ch_token_hash c := c]> (auth_challenges a))).
Definition put_session (x : UserSession) : DB -> DB :=
  upd_auth (fun a => set_sessions a (<[us_token_hash x := x]> (sessions a))).
Definition put_proof (p : ReauthProof) : DB -> DB :=
  upd_auth (fun a => set_reauth_proofs a (<[rp_proof_hash p := p]> (reauth_proofs a))).
Definition put_rate (subject : string) (r : AuthRateLimit) : DB -> DB :=
  upd_auth (fun a => set_auth_rate_limits a (<[subject := r]> (auth_rate_limits a))).

(** [UPDATE]: the row of the key, if it is still there. *)
Definition alter_challenge (f : AuthChallenge -> AuthChallenge) (hash : string) : DB -> DB :=
  upd_auth (fun a => set_auth_challenges a (alter f hash (auth_challenges a))).
Definition alter_session (f : UserSession -> UserSession) (hash : string) : DB -> DB :=
  upd_auth (fun a => set_sessions a (alter f hash (sessions a))).
Definition alter_proof (f : ReauthProof -> ReauthProof) (hash : string) : DB -> DB :=
  upd_auth (fun a => set_reauth_proofs a (alter f hash (reauth_proofs a))).
Definition alter_totp (f : TotpCredential -> TotpCredential) (user_id : string) : DB -> DB :=
  upd_auth (fun a => set_totp_credentials a (alter f user_id (totp_credentials a))).
Definition alter_rate (f : AuthRateLimit -> AuthRateLimit) (subject : string) : DB -> DB :=
  upd_auth (fun a => set_auth_rate_limits a (alter f subject (auth_rate_limits a))).

(** [INSERT] of a row whose key is unique. *)
Definition insert_unique {A} (at_key : DB -> option A) (put : DB -> DB) : prog unit :=
  flush_checked id (fun db => bool_decide (is_Some (at_key db))) put.

(** ** Rate limits *)

Definition normalize_login_id (value : string) : string := lower (strip value).

Definition _is_locked (row : AuthRateLimit) (now : Z) : bool :=
  match rl_locked_until row with Some until => now <? until | None => false end.

(** One more failure: every [auth_max_failures]-th one locks the subject, each
    time for twice as long, up to sixteen times. *)
Definition counted (settings : AuthSettings) (now : Z) (row : AuthRateLimit) : AuthRateLimit :=
  let row := set_rl_failure_count row (rl_failure_count row + 1) in
  if auth_max_failures settings <=? rl_failure_count row then
    let row := set_rl_lockout_level row (rl_lockout_level row + 1) in
    let multiplier := Z.min (2 ^ (rl_lockout_level row - 1)) 16 in
    let row := set_rl_locked_until row (Some (now + minutes (auth_lock_minutes settings * multiplier))) in
    set_rl_failure_count row 0
  else row.

Definition cleared (row : AuthRateLimit) : AuthRateLimit :=
  set_rl_locked_until (set_rl_failure_count row 0) None.

(** The subject, its row as it was read, if it was there, and as the operation
    left it. *)
Definition rate_change : Type := string * option AuthRateLimit * AuthRateLimit.

(** The columns that changed. *)
Definition write_changes (old new row : AuthRateLimit) : AuthRateLimit :=
  mkAuthRateLimit (rl_subject_hash row)
    (if rl_failure_count old =? rl_failure_count new then rl_failure_count row else rl_failure_count new)
    (if rl_lockout_level old =? rl_lockout_level new then rl_lockout_level row else rl_lockout_level new)
    (if bool_decide (rl_locked_until old = rl_locked_until new) then rl_locked_until row
     else rl_locked_until new).

Definition flush_rate (c : rate_change) : prog unit :=
  match c with
  | (subject, None, new) => insert_unique (rate_at subject) (put_rate subject new)
  | (subject, Some old, new) => modify (alter_rate (write_changes old new) subject)
  end.

(** ** The operations *)

Section Service.
Context (lib : CryptoLibrary) (sha256 : string -> string).
Context (read_text : string -> option string).       (** [Path(path).read_text()] *)
Context (DUMMY_PASSWORD_HASH : string).              (** made when the module is loaded *)
Context (settings : AuthSettings).

(** [settings.load_totp_encryption_key()] *)
Definition load_totp_encryption_key : exn + string :=
  match totp_encryption_key settings with
  | Some (String _ _ as key) => inr (strip key)
  | _ =>
      match totp_encryption_key_file settings with
      | Some (String _ _ as path) =>
          match read_text path with Some text => inr (strip text) | None => inl OtherError end
      | _ => inl (RuntimeError "TOTP encryption key is not configured")
      end
  end.

Definition _subject_hash (kind value : string) : string := token_hash sha256 (kind +:+ ":" +:+ lower value).

Definition _rate_subjects (login_id request_ip : string) : list string :=
  [_subject_hash "login" login_id; _subject_hash "ip" request_ip].

Definition locked_subjects (login_id request_ip : string) (now : Z) (db : DB) : bool :=
  existsb (fun subject => match rate_at subject db with Some row => _is_locked row now | None => false end)
    (_rate_subjects login_id request_ip).

Definition _check_rate_limits (login_id request_ip : string) (now : Z) : prog unit :=
  locked ← gets (locked_subjects login_id request_ip now);
  guard_or (negb locked) AuthenticationError.

(** The rows of the subjects after a failure, in memory. *)
Definition _record_failure (login_id request_ip : string) (now : Z) : prog (list rate_change) :=
  gets (fun db => map (fun subject =>
    let row := rate_at subject db in
    (subject, row, counted settings now (default (mkAuthRateLimit subject 0 0 None) row)))
    (_rate_subjects login_id request_ip)).

Definition _clear_failures (login_id request_ip : string) : prog (list rate_change) :=
  gets (fun db => omap (fun subject => (fun row => (subject, Some row, cleared row)) <$> rate_at subject db)
    (_rate_subjects login_id request_ip)).

Definition _audit (action result : string) (meta : RequestMeta) (user_id : option string)
  (metadata : list (string * json)) : DB -> DB :=
  add_audit (mkAuditLog (match user_id with Some (String _ _) => "USER" | _ => "ANONYMOUS" end) user_id
    action (Some "AUTH") result (Some (request_ip meta)) (Some (substring 0 256 (user_agent meta)))
    (correlation_id meta) (JObj metadata)).

(** [now or utcnow()] *)
Definition current_time (now : option Z) : prog Z :=
  match now with Some t => mret t | None => utcnow end.

(** The failure is counted, with the other changes of the refusal. *)
Definition count_failure (login_id request_ip : string) (now : Z) (race changes : DB -> DB) : prog unit :=
  rates ← _record_failure login_id request_ip now;
  others_commit race ;;
  modify changes ;;
  for_each rates flush_rate.

(** A refusal that is counted and audited. *)
Definition refuse {A} (action login_id : string) (meta : RequestMeta) (user_id : option string)
  (metadata : list (string * json)) (now : Z) (race changes : DB -> DB) : prog A :=
  count_failure login_id (request_ip meta) now race changes ;;
  modify (_audit action "FAILED" meta user_id metadata) ;;
  commit ;;
  raise AuthenticationError.

Definition begin_password_login (login_id password : string) (meta : RequestMeta) (now : option Z)
  (race : DB -> DB) : prog (string * Z) :=
  current ← current_time now;
  let normalized := normalize_login_id login_id in
  _check_rate_limits normalized (request_ip meta) current ;;
  user ← gets (user_of_login normalized);
  let candidate_hash := match user with Some u => u_password_hash u | None => DUMMY_PASSWORD_HASH end in
  password_valid ← of_result (verify_password lib candidate_hash password);
  totp ← gets (fun db => user ≫= fun u => totp_of u db);
  match user, totp with
  | Some u, Some t =>
      if String.eqb (u_status u) "ACTIVE" && tc_verified t && password_valid then
        challenge_token ← new_token;
        let expires_at := current + minutes (challenge_minutes settings) in
        let hash := token_hash sha256 challenge_token in
        others_commit race ;;
        insert_unique (challenge_at hash)
          (put_challenge (mkAuthChallenge hash (u_id u) "LOGIN_TOTP" 0 expires_at None)) ;;
        modify (_audit "LOGIN_PASSWORD" "PASSED" meta (Some (u_id u)) []) ;;
        commit ;;
        mret (challenge_token, expires_at)
      else refuse "LOGIN_PASSWORD" normalized meta (Some (u_id u)) [] current race id
  | _, _ => refuse "LOGIN_PASSWORD" normalized meta (u_id <$> user) [] current race id
  end.

(** The challenge after one more wrong code. *)
Definition failed_attempt (current : Z) (c : AuthChallenge) : AuthChallenge -> AuthChallenge := fun row =>
  let attempts := ch_attempts c + 1 in
  let row := set_ch_attempts row attempts in
  if auth_max_failures settings <=? attempts then set_ch_consumed_at row (Some current) else row.

Definition complete_totp_login (challenge_token code : string) (meta : RequestMeta) (now : option Z)
  (race : DB -> DB) : prog SessionTokens :=
  current ← current_time now;
  let challenge_hash := token_hash sha256 challenge_token in
  challenge ← gets (challenge_at challenge_hash);
  match challenge with
  | None => raise AuthenticationError
  | Some c =>
      guard_or (bool_decide (ch_consumed_at c = None) && (current <? ch_expires_at c)) AuthenticationError ;;
      user ← gets (fun db => users db !! ch_user_id c);
      totp ← gets (fun db => user ≫= fun u => totp_of u db);
      match user, totp with
      | Some u, Some t =>
          guard_or (tc_verified t) AuthenticationError ;;
          _check_rate_limits (u_login_id u) (request_ip meta) current ;;
          key ← of_result load_totp_encryption_key;
          secret ← of_result (decrypt_totp_secret lib (tc_encrypted_secret t) key);
          found ← of_result (verify_totp lib secret code (tc_last_used_step t) current);
          if negb (tm_valid found) then
            refuse "LOGIN_TOTP" (u_login_id u) meta (Some (u_id u)) [] current race
              (alter_challenge (failed_attempt current c) challenge_hash)
          else
            rates ← _clear_failures (u_login_id u) (request_ip meta);
            new_session ← new_token;
            new_csrf ← new_token;
            let expires_at := current + hours (session_absolute_hours settings) in
            let hash := token_hash sha256 new_session in
            others_commit race ;;
            modify (alter_totp (fun row => set_tc_last_used_step row (tm_step found)) (u_id u)) ;;
            modify (alter_challenge (fun row => set_ch_consumed_at row (Some current)) challenge_hash) ;;
            for_each rates flush_rate ;;
            created_at ← utcnow;
            insert_unique (session_at hash)
              (put_session (mkUserSession hash (token_hash sha256 new_csrf) (u_id u) created_at created_at expires_at
                 None (Some (request_ip meta)) (Some (substring 0 256 (user_agent meta))))) ;;
            modify (_audit "LOGIN_TOTP" "PASSED" meta (Some (u_id u)) []) ;;
            commit ;;
            mret (mkSessionTokens new_session new_csrf expires_at)
      | _, _ => raise AuthenticationError
      end
  end.

(** The checks of [resolve_session] on the row of the token. *)
Definition session_live (current : Z) (x : UserSession) : bool :=
  bool_decide (us_revoked_at x = None) && (current <? us_expires_at x) &&
  (current - minutes (session_idle_minutes settings) <=? us_last_seen_at x).

Definition resolve_session (token : option string) (now : option Z) (race : DB -> DB) :
  prog (UserSession * User) :=
  match token with
  | Some (String _ _ as token) =>
      current ← current_time now;
      let hash := token_hash sha256 token in
      user_session ← gets (session_at hash);
      match user_session with
      | None => raise AuthenticationError
      | Some x =>
          guard_or (session_live current x) AuthenticationError ;;
          user ← gets (fun db => users db !! us_user_id x);
          match user with
          | Some u =>
              guard_or (String.eqb (u_status u) "ACTIVE") AuthenticationError ;;
              others_commit race ;;
              modify (alter_session (fun row => set_us_last_seen_at row current) hash) ;;
              commit ;;
              mret (set_us_last_seen_at x current, u)
          | None => raise AuthenticationError
          end
      end
  | _ => raise AuthenticationError
  end.

Definition rotate_csrf (user_session : UserSession) : prog string :=
  new_csrf ← new_token;
  modify (alter_session (fun row => set_us_csrf_hash row (token_hash sha256 new_csrf)) (us_token_hash user_session)) ;;
  commit ;;
  mret new_csrf.

Definition verify_csrf (user_session : UserSession) (csrf : option string) : exn + unit :=
  match csrf with
  | Some (String _ _ as token) =>
      if String.eqb (us_csrf_hash user_session) (token_hash sha256 token) then inr tt
      else inl (CsrfError "CSRF validation failed")
  | _ => inl (CsrfError "CSRF validation failed")
  end.

Definition revoke_session (user_session : UserSession) (user : User) (meta : RequestMeta) : prog unit :=
  current ← utcnow;
  modify (alter_session (fun row => set_us_revoked_at row (Some current)) (us_token_hash user_session)) ;;
  modify (_audit "LOGOUT" "PASSED" meta (Some (u_id user)) []) ;;
  commit.

Definition create_reauth_proof (user : User) (code target_action target_id : string) (meta : RequestMeta)
  (now : option Z) (race : DB -> DB) : prog (string * Z) :=
  current ← current_time now;
  _check_rate_limits (u_login_id user) (request_ip meta) current ;;
  let metadata := [("target_action", JStr target_action); ("target_id", JStr target_id)] in
  totp ← gets (totp_of user);
  match totp with
  | None => raise AuthenticationError
  | Some t =>
      guard_or (tc_verified t) AuthenticationError ;;
      key ← of_result load_totp_encryption_key;
      secret ← of_result (decrypt_totp_secret lib (tc_encrypted_secret t) key);
      found ← of_result (verify_totp lib secret code (tc_last_used_step t) current);
      if negb (tm_valid found) then
        refuse "REAUTH_TOTP" (u_login_id user) meta (Some (u_id user)) metadata current race id
      else
        raw_proof ← new_token;
        let expires_at := current + minutes (reauth_minutes settings) in
        let hash := token_hash sha256 raw_proof in
        others_commit race ;;
        modify (alter_totp (fun row => set_tc_last_used_step row (tm_step found)) (u_id user)) ;;
        insert_unique (proof_at hash)
          (put_proof (mkReauthProof hash (u_id user) target_action target_id expires_at None)) ;;
        modify (_audit "REAUTH_TOTP" "PASSED" meta (Some (u_id user)) metadata) ;;
        commit ;;
        mret (raw_proof, expires_at)
  end.

(** The caller commits.  [waiting]: what the others commit while the row is
    locked by them. *)
Definition consume_reauth_proof (user : User) (raw_proof target_action target_id : string)
  (now : option Z) (waiting : DB -> DB) : prog ReauthProof :=
  current ← current_time now;
  others_commit waiting ;;
  let hash := token_hash sha256 raw_proof in
  found ← gets (proof_at hash);
  match found with
  | Some p =>
      guard_or (String.eqb (rp_user_id p) (u_id user) && String.eqb (rp_target_action p) target_action &&
                String.eqb (rp_target_id p) target_id && bool_decide (rp_consumed_at p = None) &&
                (current <? rp_expires_at p)) ReauthProofError ;;
      modify (alter_proof (fun row => set_rp_consumed_at row (Some current)) hash) ;;
      mret (set_rp_consumed_at p (Some current))
  | None => raise ReauthProofError
  end.
End Service.

(** * The requests of the browser

    [api/dependencies.py] and [api/auth.py]: who a request comes from, the two
    gates every other route stands behind, and the routes of the login.  A
    request runs in a session of its own. *)

(** What the routes read of a request. *)
Record AuthRequest := mkAuthRequest {
  rq_request_id : string;
  rq_client : option string;
  rq_user_agent : option string;
  rq_origin : option string;
  rq_csrf_token : option string;
  rq_cookies : list (string * string)
}.

Record AuthContext := mkAuthContext { context_session : UserSession; context_user : User }.

(** [response.set_cookie] and [response.delete_cookie]; the session cookie is
    [httponly], [samesite=strict] and for the whole site. *)
Inductive CookieChange :=
| SetCookie (key value : string) (secure : bool) (max_age : Z)
| DeleteCookie (key : string).

Record PasswordLoginResponse := mkPasswordLoginResponse {
  pl_request_id : string;
  pl_challenge_id : string;
  pl_expires_at : Z
}.

Record SessionResponse := mkSessionResponse {
  sr_request_id : string;
  sr_login_id : string;
  sr_expires_at : Z;
  sr_csrf_token : string
}.

Record ReauthResponse := mkReauthResponse {
  rx_request_id : string;
  rx_reauth_proof : string;
  rx_target_action : string;
  rx_target_id : string;
  rx_expires_at : Z
}.

Record MessageResponse := mkMessageResponse { mr_request_id : string; mr_status : string }.

Definition _request_metadata (request : AuthRequest) : RequestMeta :=
  mkRequestMeta (default "unknown" (rq_client request)) (default "unknown" (rq_user_agent request))
    (rq_request_id request).

Definition slash : list ascii := ["/"%char].

(** [settings.origin_allowlist] *)
Definition origin_allowlist (settings : AuthSettings) : list string :=
  map (fun item => rstrip_chars slash (strip item))
    (List.filter (fun item => negb (String.eqb (strip item) EmptyString))
       (split_on "," (allowed_origins settings))).

Section Api.
Context (lib : CryptoLibrary) (sha256 : string -> string).
Context (read_text : string -> option string) (DUMMY_PASSWORD_HASH : string).
Context (settings : AuthSettings).

(** ** The gates *)

Definition get_auth_context (request : AuthRequest) (race : DB -> DB) : prog AuthContext :=
  found ← resolve_session sha256 settings (dict_get (session_cookie_name settings) (rq_cookies request))
    None race;
  mret (mkAuthContext found.1 found.2).

Definition origin_allowed (request : AuthRequest) : bool :=
  bool_decide (rstrip_chars slash (default EmptyString (rq_origin request)) ∈ origin_allowlist settings).

Definition require_csrf (request : AuthRequest) (race : DB -> DB) : prog AuthContext :=
  context ← get_auth_context request race;
  guard_or (origin_allowed request) (CsrfError "Origin validation failed") ;;
  of_result (verify_csrf sha256 (context_session context) (rq_csrf_token request)) ;;
  mret context.

(** ** The routes *)

Definition password_login (request : AuthRequest) (login_id password : string) (race : DB -> DB) :
  prog PasswordLoginResponse :=
  challenge ← begin_password_login lib sha256 DUMMY_PASSWORD_HASH settings login_id password
    (_request_metadata request) None race;
  mret (mkPasswordLoginResponse (rq_request_id request) challenge.1 challenge.2).

Definition totp_login (request : AuthRequest) (challenge_id totp_code : string) (race : DB -> DB) :
  prog (SessionResponse * CookieChange) :=
  tokens ← complete_totp_login lib sha256 read_text settings challenge_id totp_code
    (_request_metadata request) None race;
  let cookie := SetCookie (session_cookie_name settings) (session_token tokens) (cookie_secure settings)
                  (session_absolute_hours settings * 3600) in
  found ← gets (session_at (token_hash sha256 (session_token tokens)));
  match found with
  | None => raise (RuntimeError "Created session was not persisted")
  | Some x =>
      user ← gets (fun db => users db !! us_user_id x);
      match user with
      | None => raise (RuntimeError "Session user was not persisted")
      | Some u =>
          mret (mkSessionResponse (rq_request_id request) (u_login_id u) (tokens_expire_at tokens)
                  (csrf_token tokens), cookie)
      end
  end.

Definition current_session (request : AuthRequest) (race : DB -> DB) : prog SessionResponse :=
  context ← get_auth_context request race;
  csrf ← rotate_csrf sha256 (context_session context);
  mret (mkSessionResponse (rq_request_id request) (u_login_id (context_user context))
          (us_expires_at (context_session context)) csrf).

Definition reauthenticate (request : AuthRequest) (totp_code target_action target_id : string)
  (gate_race race : DB -> DB) : prog ReauthResponse :=
  context ← require_csrf request gate_race;
  proof ← create_reauth_proof lib sha256 read_text settings (context_user context) totp_code target_action
    target_id (_request_metadata request) None race;
  mret (mkReauthResponse (rq_request_id request) proof.1 target_action target_id proof.2).

Definition logout (request : AuthRequest) (race : DB -> DB) : prog (MessageResponse * CookieChange) :=
  context ← require_csrf request race;
  revoke_session (context_session context) (context_user context) (_request_metadata request) ;;
  mret (mkMessageResponse (rq_request_id request) "LOGGED_OUT",
        DeleteCookie (session_cookie_name settings)).

(** ** Requests one after the other *)

Inductive auth_call :=
| PasswordLogin (request : AuthRequest) (login_id password : string)
| TotpLogin (request : AuthRequest) (challenge_id totp_code : string)
| CurrentSession (request : AuthRequest)
| Reauthenticate (request : AuthRequest) (totp_code target_action target_id : string)
| Logout (request : AuthRequest).

Inductive auth_reply :=
| RChallenge (response : PasswordLoginResponse)
| RLoggedIn (response : SessionResponse) (cookie : CookieChange)
| RSession (response : SessionResponse)
| RProof (response : ReauthResponse)
| RLoggedOut (response : MessageResponse) (cookie : CookieChange).

(** No one else commits during the request. *)
Definition alone : DB -> DB := id.

Definition answer (call : auth_call) : prog auth_reply :=
  in_session (match call with
  | PasswordLogin q login_id password => r ← password_login q login_id password alone; mret (RChallenge r)
  | TotpLogin q challenge code => r ← totp_login q challenge code alone; mret (RLoggedIn r.1 r.2)
  | CurrentSession q => r ← current_session q alone; mret (RSession r)
  | Reauthenticate q code action target => r ← reauthenticate q code action target alone alone; mret (RProof r)
  | Logout q => r ← logout q alone; mret (RLoggedOut r.1 r.2)
  end).

Definition arrival : Type := Z * auth_call.

Definition serve_one (a : arrival) (s : Sess) : Sess * (auth_reply + exn) := answer a.2 (at_time a.1 s).

Fixpoint serve (arrivals : list arrival) (s : Sess) : Sess * list (auth_reply + exn) :=
  match arrivals with
  | [] => (s, [])
  | a :: arrivals =>
      let '(s1, r) := serve_one a s in
      let '(s2, rs) := serve arrivals s1 in
      (s2, r :: rs)
  end.
End Api.
