(* ===== verification/AuthProps.v ===== *)
(** * The requests refine the login protocol

    The login protocol as a step system of guarded events, and the theorem that
    the requests are its runs. *)

Set Warnings "-register-all".

From Stdlib Require Import ZArith Lia Ascii String Sorted.
From stdpp Require Import base numbers strings list gmap.
From S2P Require Import Prelude Json PyTime Models Session PyText LlmCatalog AuthCrypto Auth.

Open Scope Z_scope.

(** * The login protocol as a step system

    The abstract specification of the authentication: one event per committed
    change of its tables, with the guard under which it may happen.  AuthProps
    shows that the requests refine it; what holds of every run of requests is
    proved here, by induction on the runs of the step system. *)

Inductive auth_event :=
| EvFailed (login_id ip : string)
| EvChallenged (user_id challenge : string)
| EvLoggedIn (user_id login_id ip code : string) (step : Z) (challenge session : string)
| EvSeen (session : string)
| EvRotated (session : string)
| EvLoggedOut (session : string)
| EvProved (user_id code : string) (step : Z) (proof : string).

Definition with_rates (m : gmap string AuthRateLimit) : DB -> DB := upd_auth (fun a => set_auth_rate_limits a m).

Section Steps.
Context (lib : CryptoLibrary) (sha256 : string -> string) (read_text : string -> option string).
Context (settings : AuthSettings).

(** The rates after a counted failure and after a completed login. *)
Definition failed_rate (now : Z) (m : gmap string AuthRateLimit) (subject : string) : AuthRateLimit :=
  counted settings now (default (mkAuthRateLimit subject 0 0 None) (m !! subject)).

Definition failed_rates (login_id ip : string) (now : Z) (m : gmap string AuthRateLimit) :
  gmap string AuthRateLimit :=
  foldl (fun acc subject => <[subject := failed_rate now m subject]> acc) m (_rate_subjects sha256 login_id ip).

Definition cleared_rates (login_id ip : string) (m : gmap string AuthRateLimit) : gmap string AuthRateLimit :=
  foldl (fun acc subject => alter cleared subject acc) m (_rate_subjects sha256 login_id ip).

Definition rates (d : DB) : gmap string AuthRateLimit := auth_rate_limits (auth_tables d).

(** The stored secret of a credential. *)
Definition secret_of (t : TotpCredential) : exn + string :=
  key ← load_totp_encryption_key read_text settings;
  decrypt_totp_secret lib (tc_encrypted_secret t) key.

(** A user with a verified credential whose code [code] is fresh at [step]. *)
Record code_accepted (now : Z) (d : DB) (u : User) (ip code : string) (step : Z) : Prop := mkCodeAccepted {
  ca_unlocked : locked_subjects sha256 (u_login_id u) ip now d = false;
  ca_credential : exists t secret, totp_of u d = Some t /\ tc_verified t = true /\
    secret_of t = inr secret /\ code_fits lib secret code (tc_last_used_step t) now step
}.

(** Every change also adds its row to the audit log. *)
Inductive auth_step (now : Z) : DB -> auth_event -> DB -> Prop :=
| step_failed d login_id ip touch log :
    locked_subjects sha256 login_id ip now d = false ->
    touch = id \/ (exists h c, challenge_at h d = Some c /\
                     touch = alter_challenge (failed_attempt settings now c) h) ->
    auth_step now d (EvFailed login_id ip)
      (add_audit log (with_rates (failed_rates login_id ip now (rates d)) (touch d)))
| step_challenged d u ip c log :
    locked_subjects sha256 (u_login_id u) ip now d = false ->
    u_status u = "ACTIVE" -> ch_user_id c = u_id u -> ch_consumed_at c = None ->
    challenge_at (ch_token_hash c) d = None ->
    auth_step now d (EvChallenged (u_id u) (ch_token_hash c)) (add_audit log (put_challenge c d))
| step_logged_in d u ip code step h c x log :
    users d !! ch_user_id c = Some u ->
    code_accepted now d u ip code step ->
    challenge_at h d = Some c -> ch_consumed_at c = None -> now < ch_expires_at c ->
    session_at (us_token_hash x) d = None -> us_user_id x = u_id u -> us_revoked_at x = None ->
    auth_step now d (EvLoggedIn (u_id u) (u_login_id u) ip code step h (us_token_hash x))
      (add_audit log (put_session x (with_rates (cleared_rates (u_login_id u) ip (rates d))
        (alter_challenge (fun row => set_ch_consumed_at row (Some now)) h
          (alter_totp (fun row => set_tc_last_used_step row (Some step)) (u_id u) d)))))
| step_seen d h x u :
    session_at h d = Some x -> session_live settings now x = true ->
    users d !! us_user_id x = Some u -> u_status u = "ACTIVE" ->
    auth_step now d (EvSeen h) (alter_session (fun row => set_us_last_seen_at row now) h d)
| step_rotated d h csrf :
    auth_step now d (EvRotated h) (alter_session (fun row => set_us_csrf_hash row csrf) h d)
| step_logged_out d h log :
    auth_step now d (EvLoggedOut h)
      (add_audit log (alter_session (fun row => set_us_revoked_at row (Some now)) h d))
| step_proved d u ip code step p log :
    code_accepted now d u ip code step ->
    proof_at (rp_proof_hash p) d = None -> rp_user_id p = u_id u ->
    auth_step now d (EvProved (u_id u) code step (rp_proof_hash p))
      (add_audit log (put_proof p
        (alter_totp (fun row => set_tc_last_used_step row (Some step)) (u_id u) d))).

(** Runs: events with their times. *)
Inductive auth_run : DB -> list (Z * auth_event) -> DB -> Prop :=
| run_done d : auth_run d [] d
| run_step now d e d1 es d2 :
    auth_step now d e d1 -> auth_run d1 es d2 -> auth_run d ((now, e) :: es) d2.

Lemma auth_run_app d1 es d2 es' d3 :
  auth_run d1 es d2 -> auth_run d2 es' d3 -> auth_run d1 (es ++ es') d3.
Proof. induction 1; [done|]. intros. eapply run_step; eauto. Qed.

Lemma auth_run_split es es' d d' :
  auth_run d (es ++ es') d' -> exists d1, auth_run d es d1 /\ auth_run d1 es' d'.
Proof.
  revert d. induction es as [|[now e] es IH]; intros d H; [eauto using auth_run|].
  inversion_clear H as [|? ? ? d1 ? ? Hs Hr]. destruct (IH _ Hr) as (d2 & H1 & H2).
  exists d2. split; [by eapply run_step|done].
Qed.

(** Induction on runs of a relation between the first and the last state. *)
Lemma auth_run_preorder (R : DB -> DB -> Prop) :
  (forall d, R d d) -> (forall d1 d2 d3, R d1 d2 -> R d2 d3 -> R d1 d3) ->
  (forall now d e d', auth_step now d e d' -> R d d') ->
  forall d es d', auth_run d es d' -> R d d'.
Proof. intros Hr Ht Hs d es d'. induction 1; eauto. Qed.

(** ** What every run keeps *)

Definition kept {A B} (owner : A -> string) (f : A -> option B) (old new : option A) : Prop :=
  forall a, old = Some a -> exists a', new = Some a' /\ owner a' = owner a /\ (f a <> None -> f a' <> None).

Lemma kept_refl {A B} (owner : A -> string) (f : A -> option B) o : kept owner f o o.
Proof. intros a ->. eauto. Qed.

Lemma kept_trans {A B} (owner : A -> string) (f : A -> option B) o1 o2 o3 :
  kept owner f o1 o2 -> kept owner f o2 o3 -> kept owner f o1 o3.
Proof.
  intros H1 H2 a Ha. destruct (H1 a Ha) as (b & Hb & ? & ?). destruct (H2 b Hb) as (c & ? & ? & ?).
  exists c. split_and!; [done|congruence|auto].
Qed.

Lemma kept_alter {A B} (owner : A -> string) (f : A -> option B) (g : A -> A) (m : gmap string A) k k' :
  (forall a, owner (g a) = owner a) -> (forall a, f a <> None -> f (g a) <> None) ->
  kept owner f (m !! k) (alter g k' m !! k).
Proof.
  intros Ho H a Ha. destruct (decide (k' = k)) as [->|Hk].
  - rewrite lookup_alter_eq, Ha. cbn. eauto.
  - rewrite lookup_alter_ne by done. eauto.
Qed.

Lemma kept_insert {A B} (owner : A -> string) (f : A -> option B) (m : gmap string A) k k' a :
  m !! k' = None -> kept owner f (m !! k) (<[k' := a]> m !! k).
Proof. intros H b Hb. rewrite lookup_insert_ne by congruence. eauto. Qed.

(** Rows stay with their users, consumed challenges and revoked sessions stay
    so, and the secrets stay. *)
Record evolves (d d' : DB) : Prop := mkEvolves {
  ev_challenge : forall h, kept ch_user_id ch_consumed_at (challenge_at h d) (challenge_at h d');
  ev_session : forall h, kept us_user_id us_revoked_at (session_at h d) (session_at h d');
  ev_secret : forall k, secret_of <$> totp_credentials (auth_tables d') !! k =
                        secret_of <$> totp_credentials (auth_tables d) !! k;
  ev_users : users d' = users d
}.

Lemma auth_evolves_refl d : evolves d d.
Proof. split; intros; [apply kept_refl|apply kept_refl|done|done]. Qed.

Lemma evolves_trans d1 d2 d3 : evolves d1 d2 -> evolves d2 d3 -> evolves d1 d3.
Proof. intros [A1 B1 C1 D1] [A2 B2 C2 D2]. split; intros; [by eapply kept_trans|by eapply kept_trans|by rewrite C2|congruence]. Qed.

Ltac auth_tables :=
  cbn [challenge_at session_at proof_at rate_at totp_of rates add_audit set_audit_logs with_rates upd_auth
       alter_challenge alter_session alter_totp put_challenge put_session put_proof set_auth_tables
       auth_tables users set_auth_rate_limits set_auth_challenges set_sessions set_totp_credentials
       set_reauth_proofs auth_challenges sessions totp_credentials auth_rate_limits reauth_proofs] in *.

Lemma secret_alter (m : gmap string TotpCredential) step u k :
  secret_of <$> alter (fun row => set_tc_last_used_step row step) u m !! k = secret_of <$> m !! k.
Proof.
  destruct (decide (u = k)) as [->|Hk]; [|by rewrite lookup_alter_ne].
  rewrite lookup_alter_eq. by destruct (m !! k).
Qed.

Lemma step_evolves now d e d' : auth_step now d e d' -> evolves d d'.
Proof.
  destruct 1 as [d l ip touch log _ Ht| | | | | |]; [destruct Ht as [->|(h & c & Hc & ->)]|..]; split; intros;
    unfold challenge_at, session_at in *; auth_tables;
    try done; try apply kept_refl; try apply secret_alter; try (by apply kept_insert); apply kept_alter; intros; try done;
    unfold failed_attempt; by destruct (_ <=? _).
Qed.

Lemma run_evolves d es d' : auth_run d es d' -> evolves d d'.
Proof.
  apply auth_run_preorder; [exact auth_evolves_refl|exact evolves_trans|intros ? ? ? ?; apply step_evolves].
Qed.

(** Only the tables of the authentication and the audit log change. *)
Definition auth_only (d d' : DB) : Prop :=
  exists tables logs, d' = set_audit_logs (set_auth_tables d tables) logs.

Lemma step_auth_only now d e d' : auth_step now d e d' -> auth_only d d'.
Proof.
  destruct 1 as [? ? ? ? ? ? [->|(? & ? & _ & ->)]| |? ? ? ? ? ? ? ? ? ? _ _ _ _ _ _ _|d|d| |]; eexists _, _; try reflexivity;
    instantiate (1 := audit_logs d); by destruct d.
Qed.

Lemma run_auth_only d es d' : auth_run d es d' -> auth_only d d'.
Proof.
  apply auth_run_preorder; [| |intros ? ? ? ?; apply step_auth_only].
  - intros []. by eexists _, _.
  - intros d1 d2 d3 (t1 & l1 & ->) (t2 & l2 & ->). by exists t2, l2.
Qed.

(** ** Codes are used once *)

(** The step a user's code was accepted at. *)
Definition accepted_by (uid : string) (e : auth_event) : option Z :=
  match e with
  | EvLoggedIn u _ _ _ step _ _ | EvProved u _ step _ => if String.eqb u uid then Some step else None
  | _ => None
  end.

Definition accepted_steps (uid : string) (es : list (Z * auth_event)) : list Z :=
  omap (fun e => accepted_by uid e.2) es.

Definition last_step (uid : string) (d : DB) : option (option Z) :=
  tc_last_used_step <$> totp_credentials (auth_tables d) !! uid.

Lemma last_step_alter uid step u (m : gmap string TotpCredential) t :
  m !! u = Some t ->
  tc_last_used_step <$> (alter (fun row => set_tc_last_used_step row (Some step)) u m !! uid) =
  if String.eqb u uid then Some (Some step) else tc_last_used_step <$> m !! uid.
Proof.
  intros Ht. destruct (String.eqb_spec u uid) as [->|H].
  - by rewrite lookup_alter_eq, Ht.
  - by rewrite lookup_alter_ne.
Qed.

Lemma step_last now d e d' uid :
  auth_step now d e d' ->
  match accepted_by uid e with
  | Some step => last_step uid d' = Some (Some step) /\
      forall used, last_step uid d = Some (Some used) -> used < step
  | None => last_step uid d' = last_step uid d
  end.
Proof.
  destruct 1 as [d l ip touch log _ Ht| |d u ip code step h c x log Hu Hc| | | |d u ip code step p log Hc];
    [destruct Ht as [->|(h & c & _ & ->)]|..]; try done; cbn [accepted_by];
    destruct Hc as [_ (t & secret & Ht & _ & _ & Hf)]; unfold totp_of in Ht;
    unfold last_step; auth_tables; rewrite (last_step_alter uid step _ _ _ Ht);
    (destruct (String.eqb_spec (u_id u) uid) as [<-|]; [|done]);
    (split; [done|]); rewrite Ht; cbn; intros used [= Hl]; by apply (cf_fresh _ _ _ _ _ _ Hf).
Qed.

Lemma run_last d es d' uid used :
  auth_run d es d' -> last_step uid d = Some (Some used) -> Forall (Z.lt used) (accepted_steps uid es).
Proof.
  intros H. revert used. induction H as [|now d e d1 es d2 Hs _ IH]; intros used Hu; cbn; [constructor|].
  pose proof (step_last _ _ _ _ uid Hs) as Hl. destruct (accepted_by uid e) as [step|].
  - destruct Hl as [Hl Hf]. specialize (Hf _ Hu). constructor; [done|].
    apply (Forall_impl (Z.lt step)); [by apply IH|]. intros. lia.
  - apply IH. by rewrite Hl.
Qed.

Lemma run_steps_sorted d es d' uid : auth_run d es d' -> StronglySorted Z.lt (accepted_steps uid es).
Proof.
  induction 1 as [|now d e d1 es d2 Hs Hr IH]; cbn; [constructor|].
  pose proof (step_last _ _ _ _ uid Hs) as Hl. destruct (accepted_by uid e) as [step|]; [|exact IH].
  destruct Hl as [Hl _]. constructor; [exact IH|]. by apply (run_last d1 es d2).
Qed.

(** ** Spent tokens *)

(** The events that need the session, or the challenge, of a hash. *)
Definition uses_session (h : string) (e : auth_event) : bool :=
  match e with EvSeen h' => String.eqb h' h | _ => false end.
Definition uses_challenge (h : string) (e : auth_event) : bool :=
  match e with EvLoggedIn _ _ _ _ _ h' _ => String.eqb h' h | _ => false end.

Definition revoked (h : string) (d : DB) : Prop :=
  exists x, session_at h d = Some x /\ us_revoked_at x <> None.
Definition consumed (h : string) (d : DB) : Prop :=
  exists c, challenge_at h d = Some c /\ ch_consumed_at c <> None.

Lemma run_revoked d es d' h :
  auth_run d es d' -> revoked h d ->
  revoked h d' /\ Forall (fun e => uses_session h e.2 = false) es.
Proof.
  induction 1 as [|now d e d1 es d2 Hs _ IH]; intros Hh; [done|].
  assert (Hf : uses_session h e = false).
  { destruct Hh as (x & Hx & Hn).
    destruct Hs as [| | |d h' x' u Hx' Hl _ _| | |]; try done. cbn [uses_session].
    destruct (String.eqb_spec h' h) as [->|]; [|done]. exfalso. simplify_eq.
    unfold session_live in Hl. rewrite !andb_true_iff in Hl. destruct Hl as [[Hl _] _].
    by apply bool_decide_eq_true in Hl. }
  destruct Hh as (x & Hx & Hn). destruct (ev_session _ _ (step_evolves _ _ _ _ Hs) h x Hx) as (x' & Hx' & _ & Hn').
  destruct IH as [H1 H2]; [by exists x'; auto|]. split; [done|]. by constructor.
Qed.

Lemma run_consumed d es d' h :
  auth_run d es d' -> consumed h d ->
  consumed h d' /\ Forall (fun e => uses_challenge h e.2 = false) es.
Proof.
  induction 1 as [|now d e d1 es d2 Hs _ IH]; intros Hh; [done|].
  assert (Hf : uses_challenge h e = false).
  { destruct Hh as (x & Hx & Hn).
    destruct Hs as [| |d u ip code step h' c x' log _ _ Hc Hnone| | | |]; try done. cbn [uses_challenge].
    destruct (String.eqb_spec h' h) as [->|]; [|done]. exfalso. simplify_eq. }
  destruct Hh as (x & Hx & Hn). destruct (ev_challenge _ _ (step_evolves _ _ _ _ Hs) h x Hx) as (x' & Hx' & _ & Hn').
  destruct IH as [H1 H2]; [by exists x'; auto|]. split; [done|]. by constructor.
Qed.

Lemma step_logs_out now d h d' x :
  auth_step now d (EvLoggedOut h) d' -> session_at h d = Some x -> revoked h d'.
Proof.
  inversion_clear 1. intros Hx. exists (set_us_revoked_at x (Some now)).
  unfold session_at in *. auth_tables. by rewrite lookup_alter_eq, Hx.
Qed.

Lemma step_consumes now d u l ip code step h x d' :
  auth_step now d (EvLoggedIn u l ip code step h x) d' -> consumed h d'.
Proof.
  inversion_clear 1. exists (set_ch_consumed_at c (Some now)).
  unfold challenge_at in *. auth_tables. by rewrite lookup_alter_eq, H2.
Qed.

(** ** Guesses are bounded *)

Definition fails (h : string) (e : auth_event) : bool :=
  match e with EvFailed l ip => bool_decide (h ∈ _rate_subjects sha256 l ip) | _ => false end.
Definition clears (h : string) (e : auth_event) : bool :=
  match e with EvLoggedIn _ l ip _ _ _ _ => bool_decide (h ∈ _rate_subjects sha256 l ip) | _ => false end.

(** The counted failures of a subject. *)
Definition failures (h : string) (es : list (Z * auth_event)) : Z :=
  zsum (fun e => if fails h e.2 then 1 else 0) es.

Definition row_at (h : string) (d : DB) : AuthRateLimit :=
  default (mkAuthRateLimit h 0 0 None) (rates d !! h).

Record rate_ok (row : AuthRateLimit) : Prop := mkRateOk {
  ro_count : 0 <= rl_failure_count row < auth_max_failures settings;
  ro_level : 0 <= rl_lockout_level row
}.

(** What is left of the failures of a subject before [t1]. *)
Definition budget (t1 : Z) (row : AuthRateLimit) : Z :=
  if match rl_locked_until row with Some u => t1 <=? u | None => false end then 0
  else auth_max_failures settings - rl_failure_count row.

Lemma step_row now d e d' h :
  auth_step now d e d' ->
  (fails h e = true -> rates d' !! h = Some (failed_rate now (rates d) h) /\
                       (forall row, rates d !! h = Some row -> _is_locked row now = false)) /\
  (fails h e = false -> clears h e = false -> rates d' !! h = rates d !! h).
Proof.
  destruct 1 as [d l ip touch log Hl Ht| | |d h' x u _ _ _ _|d h' csrf|d h' log|]; cbn [fails clears];
    try (split; [done|by intros _ _]).
  - assert (Hr : rates (touch d) = rates d) by (destruct Ht as [->|(? & ? & _ & ->)]; done).
    unfold failed_rates, rates, _rate_subjects in *. auth_tables. cbn [foldl]. split.
    + rewrite bool_decide_eq_true, elem_of_cons, list_elem_of_singleton. intros Hin. split.
      * rewrite lookup_insert. case_decide; [by subst|]. rewrite lookup_insert. case_decide; [by subst|].
        destruct Hin; congruence.
      * intros row Hrow. unfold locked_subjects, _rate_subjects in Hl. cbn [existsb] in Hl.
        rewrite !orb_false_iff in Hl. destruct Hl as (H1 & H2 & _). unfold rate_at in *.
        destruct Hin as [->| ->]; by rewrite Hrow in *.
    + rewrite bool_decide_eq_false, elem_of_cons, list_elem_of_singleton. intros Hn _.
      rewrite !lookup_insert_ne by (intros ?; apply Hn; auto). done.
  - split; [done|]. intros _. rewrite bool_decide_eq_false. unfold cleared_rates, rates, _rate_subjects. auth_tables.
    cbn [foldl]. rewrite elem_of_cons, list_elem_of_singleton. intros Hn.
    rewrite !lookup_alter_ne by (intros ?; apply Hn; auto). done.
Qed.

Lemma counted_budget now t0 row :
  0 <= auth_lock_minutes settings -> t0 <= now ->
  rate_ok row -> (forall u, rl_locked_until row = Some u -> u <= now) ->
  now < t0 + minutes (auth_lock_minutes settings) ->
  rate_ok (counted settings now row) /\
  budget (t0 + minutes (auth_lock_minutes settings)) (counted settings now row) + 1 <=
  budget (t0 + minutes (auth_lock_minutes settings)) row.
Proof.
  intros Hm Ht [Hc Hv] Hu Hn. unfold counted, budget. cbn [rl_failure_count set_rl_failure_count].
  set (t1 := t0 + _) in *.
  assert (Ho : match rl_locked_until row with Some u => t1 <=? u | None => false end = false).
  { destruct (rl_locked_until row) as [u|]; [|done]. specialize (Hu u eq_refl). lia. }
  rewrite Ho. destruct (Z.leb_spec (auth_max_failures settings) (rl_failure_count row + 1)) as [Hx|Hx]; cbn.
  - assert (H1 : 1 <= 2 ^ (rl_lockout_level row + 1 - 1)) by (pose proof (Z.pow_pos_nonneg 2 (rl_lockout_level row + 1 - 1)); lia).
    assert (Hl : auth_lock_minutes settings <=
      auth_lock_minutes settings * Z.min (2 ^ (rl_lockout_level row + 1 - 1)) 16) by nia.
    split; [split; cbn; lia|]. destruct (Z.leb_spec t1 (now + minutes (auth_lock_minutes settings *
      Z.min (2 ^ (rl_lockout_level row + 1 - 1)) 16))) as [_|Hf]; [lia|]. exfalso.
    unfold t1, minutes, minute, second in *. lia.
  - split; [split; cbn; lia|]. cbn. rewrite Ho. lia.
Qed.

Lemma fails_not_clears h e : fails h e = true -> clears h e = false.
Proof. by destruct e. Qed.

Lemma step_budget now d e d' h t0 :
  1 <= auth_max_failures settings -> 0 <= auth_lock_minutes settings ->
  t0 <= now < t0 + minutes (auth_lock_minutes settings) ->
  auth_step now d e d' -> clears h e = false -> rate_ok (row_at h d) ->
  rate_ok (row_at h d') /\
  budget (t0 + minutes (auth_lock_minutes settings)) (row_at h d') + (if fails h e then 1 else 0) <=
  budget (t0 + minutes (auth_lock_minutes settings)) (row_at h d).
Proof.
  intros Hx Hm Ht Hs Hc Hr. destruct (step_row _ _ _ _ h Hs) as [Hf Hk].
  destruct (fails h e).
  - destruct (Hf eq_refl) as [Hrow Hl]. unfold row_at in *. rewrite Hrow. cbn [default].
    apply counted_budget; [done|lia|done| |lia].
    intros u. destruct (rates d !! h) as [row|]; cbn; [|done]. specialize (Hl row eq_refl).
    unfold _is_locked in Hl. intros E. rewrite E in Hl. lia.
  - unfold row_at in *. rewrite (Hk eq_refl Hc). split; [done|lia].
Qed.

Lemma budget_range t1 row : rate_ok row -> 0 <= budget t1 row <= auth_max_failures settings.
Proof. intros [Hc _]. unfold budget.
  destruct (rl_locked_until row) as [u|]; [destruct (t1 <=? u)|]; lia. Qed.

(** Within the time of one lock, a subject has no more failures than lock it. *)
Lemma run_failures d es d' h t0 :
  1 <= auth_max_failures settings -> 0 <= auth_lock_minutes settings ->
  auth_run d es d' -> rate_ok (row_at h d) ->
  Forall (fun e => t0 <= e.1 < t0 + minutes (auth_lock_minutes settings) /\ clears h e.2 = false) es ->
  failures h es <= budget (t0 + minutes (auth_lock_minutes settings)) (row_at h d).
Proof.
  intros Hx Hm. induction 1 as [|now d e d1 es d2 Hs _ IH]; intros Hr He.
  - apply (budget_range (t0 + minutes (auth_lock_minutes settings))) in Hr. cbn. lia.
  - inversion_clear He as [|? ? [Ht Hc] He'].
    destruct (step_budget _ _ _ _ h t0 Hx Hm Ht Hs Hc Hr) as [Hr1 Hb]. specialize (IH Hr1 He').
    change (failures h ((now, e) :: es)) with ((if fails h e then 1 else 0) + failures h es). lia.
Qed.
End Steps.

(** * The requests refine the login protocol

    Every operation of Auth, with no one else committing, is a short run of the
    step system above; so is every run of requests.  The properties of
    the login follow from those of the runs. *)

(** ** No one else *)

Lemma wp_alone Q s : Q s (inl tt) -> wp (others_commit alone) Q s.
Proof. intros H. unfold wp, others_commit, interleave, alone, id. by destruct s. Qed.

Lemma wp_insert_unique {A} (at_key : DB -> option A) put Q s :
  Q s (inr IntegrityError) -> (at_key (work s) = None -> Q (with_work put s) (inl tt)) ->
  wp (insert_unique at_key put) Q s.
Proof.
  intros H1 H2. apply wp_flush_checked; unfold interleave, id; cbn [work].
  - intros _. by destruct s.
  - rewrite bool_decide_eq_false, <- eq_None_not_Some. intros H. specialize (H2 H). by destruct s.
Qed.

(** Symbolic execution, with no one else. *)
Ltac auth_steps :=
  repeat lazymatch goal with
  | |- wp (others_commit alone) _ _ => apply wp_alone
  | |- _ => wp_step
  end.

(** ** Writing the rates *)

Lemma write_changes_self old new :
  rl_subject_hash new = rl_subject_hash old -> write_changes old new old = new.
Proof.
  destruct old as [a b c d], new as [a' b' c' d']. cbn. intros ->. unfold write_changes. cbn.
  f_equal; [destruct (Z.eqb_spec b b'); congruence|destruct (Z.eqb_spec c c'); congruence|].
  by case_bool_decide.
Qed.

Lemma write_changes_again old new : write_changes old new new = new.
Proof.
  destruct new as [a b c d]. unfold write_changes. cbn.
  f_equal; [by destruct (_ =? _)..|by case_bool_decide].
Qed.

Lemma alter_as_insert {A} (f : A -> A) (m : gmap string A) k a :
  m !! k = Some a -> alter f k m = <[k := f a]> m.
Proof.
  intros H. apply map_eq. intros i. destruct (decide (k = i)) as [->|Hi].
  - by rewrite lookup_alter_eq, lookup_insert_eq, H.
  - by rewrite lookup_alter_ne, lookup_insert_ne.
Qed.

Lemma counted_subject settings now row : rl_subject_hash (counted settings now row) = rl_subject_hash row.
Proof. unfold counted. by destruct (_ <=? _). Qed.

Lemma wp_flush_rate k old new Q s :
  (rates (work s) !! k = old \/ rates (work s) !! k = Some new) ->
  (forall o, old = Some o -> rl_subject_hash new = rl_subject_hash o) ->
  Q s (inr IntegrityError) -> Q (with_work (with_rates (<[k := new]> (rates (work s)))) s) (inl tt) ->
  wp (flush_rate (k, old, new)) Q s.
Proof.
  intros Hk Hn H1 H2. destruct old as [o|]; cbn [flush_rate].
  - apply wp_modify. specialize (Hn o eq_refl).
    replace (with_work (alter_rate (write_changes o new) k) s)
      with (with_work (with_rates (<[k := new]> (rates (work s)))) s); [done|].
    unfold with_work, with_rates, alter_rate, upd_auth, rates in *. repeat f_equal.
    destruct Hk as [Hk|Hk]; rewrite (alter_as_insert _ _ _ _ Hk);
      [by rewrite (write_changes_self o new Hn)|by rewrite write_changes_again].
  - by apply wp_insert_unique.
Qed.

Lemma alter_absent {A} (f : A -> A) (m : gmap string A) k : m !! k = None -> alter f k m = m.
Proof.
  intros H. apply map_eq. intros i. destruct (decide (k = i)) as [->|Hi].
  - by rewrite lookup_alter_eq, H.
  - by rewrite lookup_alter_ne.
Qed.

Lemma rates_with m d : rates (with_rates m d) = m.
Proof. done. Qed.

Lemma with_rates_self s : with_work (with_rates (rates (work s))) s = s.
Proof. destruct s as [d [] ? ? ? ?]. cbn. unfold with_work, with_rates, upd_auth, rates. cbn. by destruct auth_tables. Qed.

(** The rows of a completed login, as they were read in [m]. *)
Lemma wp_flush_cleared subjects (m : gmap string AuthRateLimit) Q s :
  (forall k, rates (work s) !! k = m !! k \/ rates (work s) !! k = cleared <$> m !! k) ->
  Q (with_work (with_rates (foldl (fun acc k => alter cleared k acc) (rates (work s)) subjects)) s) (inl tt) ->
  wp (for_each (omap (fun k => (fun row => (k, Some row, cleared row)) <$> m !! k) subjects) flush_rate) Q s.
Proof.
  revert s. induction subjects as [|k subjects IH]; intros s Hm HQ; cbn in *.
  { rewrite with_rates_self in HQ. by apply wp_ret. }
  assert (Hc : forall i, alter cleared k (rates (work s)) !! i = m !! i \/
                         alter cleared k (rates (work s)) !! i = cleared <$> m !! i).
  { intros i. destruct (decide (k = i)) as [->|Hi]; [|by rewrite lookup_alter_ne].
    rewrite lookup_alter_eq. destruct (Hm i) as [->| ->]; [by right|]. right. by destruct (m !! i). }
  destruct (m !! k) as [row|] eqn:Hk; cbn [fmap option_fmap option_map].
  - cbn [for_each flush_rate]. apply wp_bind, wp_modify. cbn [after].
    assert (E : alter cleared k (rates (work s)) = alter (write_changes row (cleared row)) k (rates (work s))).
    { specialize (Hm k). rewrite Hk in Hm. destruct Hm as [Hr|Hr]; rewrite !(alter_as_insert _ _ _ _ Hr);
        [by rewrite write_changes_self|by rewrite write_changes_again]. }
    replace (with_work (alter_rate (write_changes row (cleared row)) k) s)
      with (with_work (with_rates (alter cleared k (rates (work s)))) s); [by apply IH|].
    rewrite E. done.
  - rewrite (alter_absent _ _ k) in HQ, Hc by (destruct (Hm k) as [->| ->]; by rewrite Hk).
    by apply IH.
Qed.

Section Refinement.
Context (lib : CryptoLibrary) (sha256 : string -> string).
Context (read_text : string -> option string) (DUMMY_PASSWORD_HASH : string).
Context (settings : AuthSettings).

Lemma wp_count_failure login_id ip now touch Q s :
  rates (touch (work s)) = rates (work s) ->
  Q (with_work (fun d => with_rates (failed_rates sha256 settings login_id ip now (rates d)) (touch d)) s) (inl tt) ->
  (forall s', disk s' = disk s -> clock s' = clock s -> Q s' (inr IntegrityError)) ->
  wp (count_failure sha256 settings login_id ip now alone touch) Q s.
Proof.
  intros Ht HQ Hf. apply wp_bind, wp_gets. cbn. apply wp_bind, wp_alone. cbn. apply wp_bind, wp_modify. cbn.
  change (for_each _ _) with (for_each
    (map (fun k => (k, rates (work s) !! k, failed_rate settings now (rates (work s)) k))
       (_rate_subjects sha256 login_id ip)) flush_rate).
  unfold _rate_subjects in *. cbn [map for_each].
  set (k1 := _subject_hash sha256 "login" login_id). set (k2 := _subject_hash sha256 "ip" ip).
  assert (Hs : forall k o, rates (work s) !! k = Some o ->
    rl_subject_hash (failed_rate settings now (rates (work s)) k) = rl_subject_hash o).
  { intros k o Ho. unfold failed_rate. by rewrite counted_subject, Ho. }
  apply wp_bind, wp_flush_rate; [left; cbn; by rewrite Ht|intros o; apply Hs|by apply Hf|].
  cbn [after]. apply wp_bind, wp_flush_rate; [ |intros o; apply Hs|by apply Hf|].
  - cbn [with_work work]. rewrite rates_with, Ht. destruct (decide (k1 = k2)) as [->|Hk].
    + right. by rewrite lookup_insert_eq.
    + left. by rewrite lookup_insert_ne.
  - cbn. apply wp_ret. revert HQ. unfold with_work, failed_rates, _rate_subjects. cbn. by rewrite Ht.
Qed.

(** What a program did to the durable tables, at the time of the request. *)
Definition reaches {A} (d : DB) (now : Z) (R : list auth_event -> A + exn -> Prop) (s' : Sess) (r : A + exn) :
  Prop :=
  exists evs, auth_run lib sha256 read_text settings d (map (pair now) evs) (disk s') /\ R evs r /\
    clock s' = now /\ match r with inl _ => work s' = disk s' | inr _ => True end.

Lemma reaches_none {A} s (R : list auth_event -> A + exn -> Prop) s' r :
  disk s' = disk s -> clock s' = clock s -> R [] r -> match r with inl _ => work s' = disk s' | inr _ => True end ->
  reaches (disk s) (clock s) R s' r.
Proof. intros H1 H2 H3 H4. exists []. split_and!; [rewrite H1; constructor|done..]. Qed.

Lemma reaches_one {A} s e (R : list auth_event -> A + exn -> Prop) s' r :
  auth_step lib sha256 read_text settings (clock s) (disk s) e (disk s') -> clock s' = clock s -> R [e] r ->
  match r with inl _ => work s' = disk s' | inr _ => True end ->
  reaches (disk s) (clock s) R s' r.
Proof. intros H1 H2 H3 H4. exists [e]. split_and!; try done. eapply run_step; [done|constructor]. Qed.

Lemma wp_then {A B} (m : prog A) (k : A -> prog B) d now R1 R s :
  wp m (reaches d now R1) s ->
  (forall e evs, R1 evs (inr e) -> R evs (inr e)) ->
  (forall a evs s', R1 evs (inl a) -> auth_run lib sha256 read_text settings d (map (pair now) evs) (disk s') ->
     work s' = disk s' -> clock s' = now ->
     wp (k a) (reaches (disk s') (clock s') (fun evs' r => R (evs ++ evs') r)) s') ->
  wp (mbind k m) (reaches d now R) s.
Proof.
  intros Hm He Hk. apply wp_bind. eapply wp_mono; [exact Hm|].
  intros s' [a|e] (evs & H1 & H2 & H3 & H4); cbn [after].
  - eapply wp_mono; [by apply (Hk a evs s')|]. intros s2 r (evs' & G1 & G2 & G3 & G4).
    exists (evs ++ evs'). rewrite map_app. split_and!; [|done|congruence|done].
    subst now. by eapply auth_run_app.
  - exists evs. auto.
Qed.

(** A refusal is one counted failure. *)
Lemma wp_refuse {A} action login_id meta uid metadata touch (R : list auth_event -> A + exn -> Prop) s :
  work s = disk s ->
  touch = id \/ (exists h c, challenge_at h (disk s) = Some c /\
                   touch = alter_challenge (failed_attempt settings (clock s) c) h) ->
  locked_subjects sha256 login_id (request_ip meta) (clock s) (disk s) = false ->
  R [EvFailed login_id (request_ip meta)] (inr AuthenticationError) -> R [] (inr IntegrityError) ->
  wp (refuse sha256 settings action login_id meta uid metadata (clock s) alone touch)
    (reaches (disk s) (clock s) R) s.
Proof.
  intros Hw Ht Hl HR HI.
  assert (Hr : rates (touch (work s)) = rates (work s)) by (destruct Ht as [->|(? & ? & _ & ->)]; done).
  unfold refuse. apply wp_bind, wp_count_failure; [done| |].
  - cbn [after]. repeat wp_step.
    apply (reaches_one s (EvFailed login_id (request_ip meta))); [|done..]. cbn. rewrite Hw. by constructor.
  - intros s' Hd Hc. by apply reaches_none.
Qed.

(** ** The operations *)

Lemma user_of_login_name login_id d u : user_of_login login_id d = Some u -> u_login_id u = login_id.
Proof. intros H. apply find_row_Some in H as [H _]. by apply String.eqb_eq. Qed.

(** What a login by password did. *)
Definition password_outcome (login_id password ip : string) (now : Z) (d : DB)
  (evs : list auth_event) (r : string * Z + exn) : Prop :=
  let name := normalize_login_id login_id in
  match r with
  | inl (token, _) => exists u, user_of_login name d = Some u /\ u_status u = "ACTIVE" /\
      argon2_verify lib (u_password_hash u) password = Argon2Verified /\
      evs = [EvChallenged (u_id u) (token_hash sha256 token)]
  | inr AuthenticationError =>
      if locked_subjects sha256 name ip now d then evs = [] else evs = [EvFailed name ip]
  | inr _ => evs = []
  end.

Lemma wp_rate_check login_id ip Q s :
  work s = disk s ->
  (locked_subjects sha256 login_id ip (clock s) (disk s) = true -> Q s (inr AuthenticationError)) ->
  (locked_subjects sha256 login_id ip (clock s) (disk s) = false -> Q s (inl tt)) ->
  wp (_check_rate_limits sha256 login_id ip (clock s)) Q s.
Proof.
  intros Hw H1 H2. apply wp_bind, wp_gets. cbn [after]. rewrite Hw.
  apply wp_guard_or; [rewrite negb_true_iff|rewrite negb_false_iff]; auto.
Qed.

Lemma begin_reaches login_id password meta s :
  work s = disk s ->
  wp (begin_password_login lib sha256 DUMMY_PASSWORD_HASH settings login_id password meta None alone)
    (reaches (disk s) (clock s) (password_outcome login_id password (request_ip meta) (clock s) (disk s))) s.
Proof.
  intros Hw. unfold begin_password_login. apply wp_bind, wp_utcnow. cbn [after].
  apply wp_bind, wp_rate_check; [done| |]; intros Hl.
  { apply reaches_none; [done|done| |done]. unfold password_outcome. by rewrite Hl. }
  cbn [after]. apply wp_bind, wp_gets. cbn [after]. rewrite Hw.
  assert (HR : forall uid, wp (refuse sha256 settings "LOGIN_PASSWORD" (normalize_login_id login_id) meta uid []
    (clock s) alone id) (reaches (disk s) (clock s)
      (password_outcome login_id password (request_ip meta) (clock s) (disk s))) s).
  { intros uid. apply wp_refuse; [done|by left|done| |done]. unfold password_outcome. by rewrite Hl. }
  destruct (user_of_login _ _) as [u|] eqn:Hu; cbn [from_option mbind option_bind];
    apply wp_bind; unfold verify_password; destruct (argon2_verify _ _ _) eqn:Ev; cbn [of_result];
    try (by apply reaches_none); apply wp_ret; cbn [after]; apply wp_bind, wp_gets; cbn [after]; rewrite ?Hw;
    try apply HR; destruct (totp_of u (disk s)) as [t|]; rewrite ?andb_false_r; try apply HR.
  destruct (_ && _ && _) eqn:Ec; [|apply HR].
  rewrite !andb_true_iff, String.eqb_eq in Ec. destruct Ec as [[Ha _] _].
  unfold new_token. auth_steps. apply wp_insert_unique; [by apply reaches_none|].
  intros Hn. auth_steps. cbn in Hn. rewrite Hw in Hn.
  eapply (reaches_one s (EvChallenged (u_id u) _)); [|done| |done].
  - cbn [disk committed with_work work next_uuid]. rewrite Hw.
    apply (step_challenged lib sha256 read_text settings _ _ u (request_ip meta)
      (mkAuthChallenge (token_hash sha256 (uuids s (uuid_ix s))) (u_id u) _ _ _ None)); rewrite ?(user_of_login_name _ _ _ Hu); done.
  - by exists u.
Qed.

(** The user whose code a login waits for: the challenge is open, the user has
    a verified credential and is not locked. *)
Definition code_asked (token ip : string) (now : Z) (d : DB) : option User :=
  c ← challenge_at (token_hash sha256 token) d;
  if bool_decide (ch_consumed_at c = None) && (now <? ch_expires_at c) then
    u ← users d !! ch_user_id c;
    t ← totp_of u d;
    if tc_verified t && negb (locked_subjects sha256 (u_login_id u) ip now d) then Some u else None
  else None.

(** What a login by code did. *)
Definition totp_outcome (token code ip : string) (now : Z) (d : DB) (evs : list auth_event)
  (r : SessionTokens + exn) : Prop :=
  match r with
  | inl tokens => exists u step, code_asked token ip now d = Some u /\
      evs = [EvLoggedIn (u_id u) (u_login_id u) ip code step (token_hash sha256 token)
               (token_hash sha256 (session_token tokens))]
  | inr AuthenticationError =>
      match code_asked token ip now d with Some u => evs = [EvFailed (u_login_id u) ip] | None => evs = [] end
  | inr _ => evs = [] /\ code_asked token ip now d <> None
  end.

(** The errors other than a refusal: nothing happened. *)
Lemma wp_secret {A} t (k : string -> prog A) d now R s :
  (forall e s', e <> AuthenticationError -> disk s' = disk s -> clock s' = clock s -> reaches d now R s' (inr e)) ->
  (forall secret, secret_of lib read_text settings t = inr secret -> wp (k secret) (reaches d now R) s) ->
  wp (key ← of_result (load_totp_encryption_key read_text settings);
      secret ← of_result (decrypt_totp_secret lib (tc_encrypted_secret t) key); k secret) (reaches d now R) s.
Proof.
  intros HN Hk. unfold secret_of in Hk.
  assert (Hl : forall e, load_totp_encryption_key read_text settings = inl e -> e <> AuthenticationError).
  { unfold load_totp_encryption_key. intros e. repeat case_match; congruence. }
  assert (Hd : forall key e, decrypt_totp_secret lib (tc_encrypted_secret t) key = inl e -> e <> AuthenticationError).
  { unfold decrypt_totp_secret, _decode_key. intros key e.
    destruct (urlsafe_b64decode (tc_encrypted_secret t)) as [raw|]; [|congruence].
    destruct (Nat.ltb _ _); [congruence|]. destruct (urlsafe_b64decode key) as [k0|]; cbn; [|congruence].
    destruct (Nat.eqb _ _); cbn; [|congruence]. repeat case_match; congruence. }
  apply wp_bind, wp_of_result; [intros key Hkey|intros e He; apply HN; eauto]. cbn [after].
  apply wp_bind, wp_of_result; [intros secret Hs|intros e He; apply HN; eauto]. cbn [after].
  apply Hk. by rewrite Hkey.
Qed.

Lemma verify_error secret code last now e :
  verify_totp lib secret code last now = inl e -> e = ValueError.
Proof.
  unfold verify_totp. destruct (negb _); [done|]. generalize [base_step now - 1; base_step now; base_step now + 1].
  intros steps. induction steps as [|step steps IH]; cbn; [done|]. repeat case_match; try congruence; auto.
Qed.

Lemma complete_reaches token code meta s :
  work s = disk s ->
  wp (complete_totp_login lib sha256 read_text settings token code meta None alone)
    (reaches (disk s) (clock s) (totp_outcome token code (request_ip meta) (clock s) (disk s))) s.
Proof.
  intros Hw. unfold complete_totp_login. apply wp_bind, wp_utcnow. cbn [after].
  apply wp_bind, wp_gets. cbn [after]. rewrite Hw.
  assert (HA : code_asked token (request_ip meta) (clock s) (disk s) = None ->
    reaches (disk s) (clock s) (totp_outcome token code (request_ip meta) (clock s) (disk s)) s
      (inr AuthenticationError)).
  { intros Ha. apply reaches_none; try done. cbn. by rewrite Ha. }
  unfold code_asked in HA.
  destruct (challenge_at _ _) as [c|] eqn:Hch; [|by apply HA]. cbn [mbind option_bind] in HA.
  apply wp_bind, wp_guard_or; intros Hg; rewrite Hg in HA; [|by apply HA]. cbn [after].
  apply wp_bind, wp_gets. cbn [after]. rewrite Hw.
  destruct (users (disk s) !! ch_user_id c) as [u|] eqn:Hu; apply wp_bind, wp_gets; cbn [mbind option_bind] in HA |- *; cbn [after];
    [rewrite Hw|by apply HA].
  destruct (totp_of u (disk s)) as [t|] eqn:Ht; [|by apply HA]. cbn [mbind option_bind] in HA.
  apply wp_bind, wp_guard_or; intros Hv; rewrite Hv in HA; [|by apply HA]. cbn [after]. cbn [andb] in HA.
  apply wp_bind, wp_rate_check; [done|intros Hl; rewrite Hl in HA; by apply HA|intros Hl]. cbn [after].
  clear HA. assert (Ha : code_asked token (request_ip meta) (clock s) (disk s) = Some u).
  { unfold code_asked. rewrite Hch. cbn [mbind option_bind]. rewrite Hg, Hu. cbn [mbind option_bind]. rewrite Ht.
    cbn [mbind option_bind]. by rewrite Hv, Hl. }
  assert (HN : forall e s', e <> AuthenticationError -> disk s' = disk s -> clock s' = clock s ->
    reaches (disk s) (clock s) (totp_outcome token code (request_ip meta) (clock s) (disk s)) s' (inr e)).
  { intros e s' He Hd Hc. apply reaches_none; try done. cbn. rewrite Ha. by destruct e. }
  apply wp_secret; [done|]. intros secret Hsecret.
  apply wp_bind, wp_of_result; [intros found Hfound|intros e He; apply verify_error in He as ->; by apply HN].
  cbn [after]. destruct (negb (tm_valid found)) eqn:Hvalid.
  { apply wp_refuse; [done|right; eauto|done|cbn; by rewrite Ha|cbn; by rewrite Ha]. }
  apply negb_false_iff in Hvalid. rewrite andb_true_iff, bool_decide_eq_true in Hg. destruct Hg as [Hg1 Hg2].
  destruct (verify_totp_fits _ _ _ _ _ _ Hfound Hvalid) as (step & Hstep & Hfits).
  apply wp_bind. unfold _clear_failures. apply wp_gets. cbn [after]. unfold new_token. auth_steps.
  apply (wp_flush_cleared _ (rates (work s))); [by left|]. cbn [after]. auth_steps.
  apply wp_insert_unique; [by apply HN|]. intros Hn. auth_steps. cbn in Hn. rewrite Hw in Hn.
  eapply (reaches_one s (EvLoggedIn _ _ _ _ _ _ _)); [|done| |done].
  - cbn [disk committed with_work work next_uuid]. rewrite Hw, Hstep.
    eapply (step_logged_in lib sha256 read_text settings (clock s) (disk s) u (request_ip meta) code step (token_hash sha256 token) c
      (mkUserSession (token_hash sha256 (uuids s (uuid_ix s))) _ _ _ _ _ None _ _)); try done; [|lia].
    split; [done|]. by exists t, secret.
  - cbn. eauto.
Qed.

(** ** The gates *)

(** The live session of a cookie, with its hash and its active user. *)
Definition live_context (token : option string) (now : Z) (d : DB) : option (string * UserSession * User) :=
  match token with
  | Some (String _ _ as token) =>
      let h := token_hash sha256 token in
      x ← session_at h d;
      if session_live settings now x then
        u ← users d !! us_user_id x;
        if String.eqb (u_status u) "ACTIVE" then Some (h, x, u) else None
      else None
  | _ => None
  end.

(** The session was seen. *)
Definition seen (h : string) (s : Sess) : Sess :=
  committed (with_work (alter_session (fun row => set_us_last_seen_at row (clock s)) h) s).

Lemma resolve_exact token s :
  work s = disk s ->
  resolve_session sha256 settings token None alone s =
  match live_context token (clock s) (disk s) with
  | Some (h, x, u) => (seen h s, inl (set_us_last_seen_at x (clock s), u))
  | None => (s, inr AuthenticationError)
  end.
Proof.
  intros Hw. destruct token as [[|c r]|]; [done| |done]. cbn [live_context].
  unfold resolve_session, mbind, prog_bind, current_time, utcnow, gets. cbn. rewrite Hw.
  destruct (session_at _ _) as [x|]; [|done]. cbn. destruct (session_live _ _ _); [|done]. cbn. rewrite Hw.
  destruct (users _ !! _) as [u|]; [|done]. cbn. destruct (String.eqb _ _); [|done].
  by destruct s.
Qed.

Definition cookie_of (q : AuthRequest) : option string :=
  dict_get (session_cookie_name settings) (rq_cookies q).

Lemma context_exact q s :
  work s = disk s ->
  get_auth_context sha256 settings q alone s =
  match live_context (cookie_of q) (clock s) (disk s) with
  | Some (h, x, u) => (seen h s, inl (mkAuthContext (set_us_last_seen_at x (clock s)) u))
  | None => (s, inr AuthenticationError)
  end.
Proof.
  intros Hw. unfold get_auth_context, mbind, prog_bind. rewrite resolve_exact by done.
  by destruct (live_context _ _ _) as [[[h x] u]|].
Qed.

Lemma csrf_exact q s :
  work s = disk s ->
  require_csrf sha256 settings q alone s =
  match live_context (cookie_of q) (clock s) (disk s) with
  | Some (h, x, u) =>
      (seen h s,
       if origin_allowed settings q then
         match verify_csrf sha256 x (rq_csrf_token q) with
         | inr _ => inl (mkAuthContext (set_us_last_seen_at x (clock s)) u)
         | inl e => inr e
         end
       else inr (CsrfError "Origin validation failed"))
  | None => (s, inr AuthenticationError)
  end.
Proof.
  intros Hw. unfold require_csrf, mbind, prog_bind. rewrite context_exact by done.
  destruct (live_context _ _ _) as [[[h x] u]|]; [|done]. unfold guard_or.
  destruct (origin_allowed _ _); [|done]. cbn. unfold verify_csrf.
  destruct (rq_csrf_token q) as [[|c r]|]; [done| |done]. cbn. by destruct (String.eqb _ _).
Qed.

Lemma live_context_Some token now d h x u :
  live_context token now d = Some (h, x, u) <->
  exists text, token = Some text /\ text <> EmptyString /\ h = token_hash sha256 text /\
    session_at h d = Some x /\ session_live settings now x = true /\
    users d !! us_user_id x = Some u /\ u_status u = "ACTIVE".
Proof.
  split.
  - destruct token as [[|c r]|]; cbn; [done| |done]. destruct (session_at _ d) as [y|] eqn:Hy; cbn; [|done].
    destruct (session_live _ _ _) eqn:Hl; [|done]. destruct (users d !! _) as [v|] eqn:Hv; cbn; [|done].
    destruct (String.eqb_spec (u_status v) "ACTIVE") as [Ha|]; [|done]. intros [= <- <- <-]. by exists (String c r).
  - intros (text & -> & Hn & -> & Hx & Hl & Hu & Ha). destruct text as [|c r]; [done|]. cbn.
    rewrite Hx. cbn. rewrite Hl, Hu. cbn. by rewrite Ha.
Qed.

(** A re-authentication whose code is checked: the user has a verified
    credential and is not locked. *)
Definition proof_asked (u : User) (ip : string) (now : Z) (d : DB) : bool :=
  match totp_of u d with
  | Some t => tc_verified t && negb (locked_subjects sha256 (u_login_id u) ip now d)
  | None => false
  end.

(** What a re-authentication did. *)
Definition proof_outcome (u : User) (code ip : string) (now : Z) (d : DB) (evs : list auth_event)
    (r : string * Z + exn) : Prop :=
  match r with
  | inl (proof, _) => exists step, evs = [EvProved (u_id u) code step (token_hash sha256 proof)]
  | inr AuthenticationError => evs = if proof_asked u ip now d then [EvFailed (u_login_id u) ip] else []
  | inr _ => evs = []
  end.

Lemma create_proof_reaches u code action target meta s :
  work s = disk s ->
  wp (create_reauth_proof lib sha256 read_text settings u code action target meta None alone)
    (reaches (disk s) (clock s) (proof_outcome u code (request_ip meta) (clock s) (disk s))) s.
Proof.
  intros Hw. unfold create_reauth_proof. apply wp_bind, wp_utcnow. cbn [after].
  set (R := proof_outcome u code (request_ip meta) (clock s) (disk s)).
  assert (HA : proof_asked u (request_ip meta) (clock s) (disk s) = false ->
    reaches (disk s) (clock s) R s (inr AuthenticationError)).
  { intros Ha. apply reaches_none; try done. unfold R, proof_outcome. by rewrite Ha. }
  assert (HN : forall e s', e <> AuthenticationError -> disk s' = disk s -> clock s' = clock s ->
    reaches (disk s) (clock s) R s' (inr e)).
  { intros e s' He Hd Hc. apply reaches_none; try done. by destruct e. }
  unfold proof_asked in HA.
  apply wp_bind, wp_rate_check; [done|intros Hl|intros Hl]; rewrite Hl in HA.
  { apply HA. destruct (totp_of u (disk s)); [by rewrite andb_false_r|done]. }
  cbn [after]. apply wp_bind, wp_gets. cbn [after]. rewrite Hw.
  destruct (totp_of u (disk s)) as [t|] eqn:Ht; [|by apply HA].
  apply wp_bind, wp_guard_or; intros Hv; rewrite Hv in HA; [|by apply HA]. cbn [after]. clear HA.
  assert (Ha : proof_asked u (request_ip meta) (clock s) (disk s) = true)
    by (unfold proof_asked; by rewrite Ht, Hv, Hl).
  apply wp_secret; [done|]. intros secret Hsecret.
  apply wp_bind, wp_of_result; [intros found Hfound|intros e He; apply verify_error in He as ->; by apply HN].
  cbn [after]. destruct (negb (tm_valid found)) eqn:Hvalid.
  { apply wp_refuse; [done|by left|done|unfold R, proof_outcome; by rewrite Ha|done]. }
  apply negb_false_iff in Hvalid.
  destruct (verify_totp_fits _ _ _ _ _ _ Hfound Hvalid) as (step & Hstep & Hfits).
  unfold new_token. auth_steps. apply wp_insert_unique; [by apply HN|]. intros Hn. auth_steps.
  cbn in Hn. rewrite Hw in Hn.
  eapply (reaches_one s (EvProved _ _ _ _)); [|done| |done].
  - cbn [disk committed with_work work next_uuid]. rewrite Hw, Hstep.
    eapply (step_proved lib sha256 read_text settings (clock s) (disk s) u (request_ip meta) code step
      (mkReauthProof (token_hash sha256 (uuids s (uuid_ix s))) (u_id u) action target _ None)); try done.
    split; [done|]. by exists t, secret.
  - by exists step.
Qed.

(** ** Requests *)

(** Rows are found under their own keys. *)
Record auth_keyed (d : DB) : Prop := mkAuthKeyed {
  ak_sessions : forall h x, session_at h d = Some x -> us_token_hash x = h;
  ak_users : forall k u, users d !! k = Some u -> u_id u = k
}.

Definition client_of (q : AuthRequest) : string := request_ip (_request_metadata q).

(** What a request did, by its reply. *)
Definition request_outcome (call : auth_call) (now : Z) (d : DB) (evs : list auth_event)
  (r : auth_reply + exn) : Prop :=
  match call with
  | PasswordLogin q login_id password =>
      match r with
      | inl (RChallenge x) =>
          password_outcome login_id password (client_of q) now d evs (inl (pl_challenge_id x, pl_expires_at x))
      | inr e => password_outcome login_id password (client_of q) now d evs (inr e)
      | _ => False
      end
  | TotpLogin q challenge code =>
      match r with
      | inl (RLoggedIn x (SetCookie key token _ _)) => key = session_cookie_name settings /\
          exists u step, code_asked challenge (client_of q) now d = Some u /\ sr_login_id x = u_login_id u /\
            evs = [EvLoggedIn (u_id u) (u_login_id u) (client_of q) code step
                     (token_hash sha256 challenge) (token_hash sha256 token)]
      | inr AuthenticationError =>
          match code_asked challenge (client_of q) now d with
          | Some u => evs = [EvFailed (u_login_id u) (client_of q)]
          | None => evs = []
          end
      | inr _ => evs = [] /\ code_asked challenge (client_of q) now d <> None
      | _ => False
      end
  | CurrentSession q =>
      match live_context (cookie_of q) now d, r with
      | Some (h, _, _), inl (RSession _) => evs = [EvSeen h; EvRotated h]
      | None, inr AuthenticationError => evs = []
      | _, _ => False
      end
  | Reauthenticate q code _ _ =>
      match live_context (cookie_of q) now d, r with
      | Some (h, _, u), inl (RProof x) => exists step,
          evs = [EvSeen h; EvProved (u_id u) code step (token_hash sha256 (rx_reauth_proof x))]
      | Some (h, _, u), inr AuthenticationError =>
          evs = EvSeen h :: if proof_asked u (client_of q) now d then [EvFailed (u_login_id u) (client_of q)] else []
      | Some (h, _, _), inr _ => evs = [EvSeen h]
      | None, inr AuthenticationError => evs = []
      | _, _ => False
      end
  | Logout q =>
      match live_context (cookie_of q) now d, r with
      | Some (h, _, _), inl (RLoggedOut _ _) => evs = [EvSeen h; EvLoggedOut h]
      | Some (h, _, _), inr (CsrfError _) => evs = [EvSeen h]
      | None, inr AuthenticationError => evs = []
      | _, _ => False
      end
  end.

Lemma step_login_facts now d uid name ip code step h sh d' :
  auth_step lib sha256 read_text settings now d (EvLoggedIn uid name ip code step h sh) d' -> auth_keyed d ->
  exists x u, session_at sh d' = Some x /\ us_user_id x = uid /\ users d' !! uid = Some u /\ u_login_id u = name.
Proof.
  inversion_clear 1 as [| |? u ? ? ? ? c x log Hu Hc Hch Hno Hexp Hx Hxu Hrev| | | |]. intros [_ Hk].
  exists x, u. split_and!; [|done| |done].
  - unfold session_at. cbn. by rewrite lookup_insert_eq.
  - cbn. by rewrite (Hk _ _ Hu).
Qed.

Lemma totp_login_reaches q challenge code s :
  work s = disk s -> auth_keyed (disk s) ->
  wp (r ← totp_login lib sha256 read_text settings q challenge code alone; mret (RLoggedIn r.1 r.2))
    (reaches (disk s) (clock s) (request_outcome (TotpLogin q challenge code) (clock s) (disk s))) s.
Proof.
  intros Hw Hk. eapply (wp_then _ _ (disk s) (clock s) (fun evs r => match r with
    | inl (x, c) => request_outcome (TotpLogin q challenge code) (clock s) (disk s) evs (inl (RLoggedIn x c))
    | inr e => request_outcome (TotpLogin q challenge code) (clock s) (disk s) evs (inr e)
    end)); [|done|].
  - unfold totp_login. eapply wp_then; [by apply complete_reaches|done|].
    intros tokens evs s1 (v & step & Ha & ->) Hr Hw1 Hc. cbn in Hr.
    inversion_clear Hr as [|? ? ? d1 ? ? Hs Hd]. inversion Hd; subst; clear Hd.
    destruct (step_login_facts _ _ _ _ _ _ _ _ _ _ Hs Hk) as (x & u & Hx & Hxu & Hu & Hn). rewrite <- Hxu in Hu.
    apply wp_bind, wp_gets. cbn [after]. rewrite Hw1, Hx. apply wp_bind, wp_gets. cbn [after].
    rewrite Hw1, Hu. apply wp_ret, reaches_none; try done. cbn. split; [done|]. by exists v, step.
  - intros [x c] evs s1 Ho _ Hw1 _. apply wp_ret, reaches_none; try done. by rewrite app_nil_r.
Qed.

Lemma password_login_reaches q login_id password s :
  work s = disk s ->
  wp (r ← password_login lib sha256 DUMMY_PASSWORD_HASH settings q login_id password alone; mret (RChallenge r))
    (reaches (disk s) (clock s) (request_outcome (PasswordLogin q login_id password) (clock s) (disk s))) s.
Proof.
  intros Hw. eapply (wp_then _ _ (disk s) (clock s) (fun evs r => match r with
    | inl x => request_outcome (PasswordLogin q login_id password) (clock s) (disk s) evs (inl (RChallenge x))
    | inr e => request_outcome (PasswordLogin q login_id password) (clock s) (disk s) evs (inr e)
    end)); [|done|].
  - unfold password_login. eapply wp_then; [by apply begin_reaches|done|].
    intros [token at_] evs s1 Ho _ Hw1 _. apply wp_ret, reaches_none; try done. by rewrite app_nil_r.
  - intros x evs s1 Ho _ Hw1 _. apply wp_ret, reaches_none; try done. by rewrite app_nil_r.
Qed.

(** A live session is seen. *)
Lemma seen_step token s h x u :
  work s = disk s -> live_context token (clock s) (disk s) = Some (h, x, u) ->
  auth_step lib sha256 read_text settings (clock s) (disk s) (EvSeen h) (disk (seen h s)).
Proof.
  intros Hw Hl. apply live_context_Some in Hl as (text & -> & _ & -> & Hx & Hl & Hu & Ha).
  cbn. rewrite Hw. by eapply step_seen.
Qed.

(** Events after the session was seen. *)
Lemma reaches_seen {A} token s h x u (R : list auth_event -> A + exn -> Prop) s' r :
  work s = disk s -> live_context token (clock s) (disk s) = Some (h, x, u) ->
  reaches (disk (seen h s)) (clock s) (fun evs => R (EvSeen h :: evs)) s' r -> reaches (disk s) (clock s) R s' r.
Proof.
  intros Hw Hl (evs & H1 & H2 & H3 & H4). exists (EvSeen h :: evs). split_and!; try done.
  eapply run_step; [by eapply seen_step|done].
Qed.

Lemma wp_gate {A B} (gate : prog A) (k : A -> prog B) s s' r Q :
  gate s = (s', r) -> after k Q s' r -> wp (mbind k gate) Q s.
Proof. intros E H. apply wp_bind. unfold wp. by rewrite E. Qed.

Lemma wp_route {A B} (m : prog A) (f : A -> B) d now (R : list auth_event -> B + exn -> Prop) s :
  wp m (reaches d now (fun evs r => R evs (match r with inl a => inl (f a) | inr e => inr e end))) s ->
  wp (a ← m; mret (f a)) (reaches d now R) s.
Proof.
  intros H. apply wp_bind. eapply wp_mono; [exact H|]. by intros s' [a|e].
Qed.

Lemma current_session_reaches q s :
  work s = disk s -> auth_keyed (disk s) ->
  wp (r ← current_session sha256 settings q alone; mret (RSession r))
    (reaches (disk s) (clock s) (request_outcome (CurrentSession q) (clock s) (disk s))) s.
Proof.
  intros Hw Hk. apply wp_route. unfold current_session.
  pose proof (context_exact q s Hw) as E. cbn [request_outcome].
  destruct (live_context _ _ _) as [[[h x] u]|] eqn:Hl; eapply wp_gate; try exact E; cbn [after];
    [|by apply reaches_none].
  eapply wp_mono; [|intros s' r; by apply (reaches_seen _ _ _ _ _ _ _ _ Hw Hl)].
  unfold rotate_csrf, new_token. auth_steps. apply (reaches_one (seen h s) (EvRotated h)); [|done..].
  apply live_context_Some in Hl as (text & _ & _ & -> & Hx & _). cbn.
  rewrite (ak_sessions _ Hk _ _ Hx). apply step_rotated.
Qed.

Lemma verify_csrf_error x csrf e :
  verify_csrf sha256 x csrf = inl e -> e = CsrfError "CSRF validation failed".
Proof. destruct csrf as [[|c r]|]; cbn; [congruence| |congruence]. destruct (String.eqb _ _); congruence. Qed.

Lemma logout_reaches q s :
  work s = disk s -> auth_keyed (disk s) ->
  wp (r ← logout sha256 settings q alone; mret (RLoggedOut r.1 r.2))
    (reaches (disk s) (clock s) (request_outcome (Logout q) (clock s) (disk s))) s.
Proof.
  intros Hw Hk. apply wp_route. unfold logout.
  pose proof (csrf_exact q s Hw) as E. cbn [request_outcome].
  destruct (live_context _ _ _) as [[[h x] u]|] eqn:Hl; eapply wp_gate; try exact E; [|by apply reaches_none].
  assert (HF : forall m, reaches (disk s) (clock s) (fun evs r => evs = [EvSeen h])
    (seen h s) (inr (A := MessageResponse * CookieChange) (CsrfError m))).
  { intros m. eapply reaches_seen; [done|exact Hl|]. by apply (reaches_none (seen h s)). }
  destruct (origin_allowed settings q); [|apply HF].
  destruct (verify_csrf sha256 x (rq_csrf_token q)) as [e|] eqn:Hv; cbn [after].
  { apply verify_csrf_error in Hv as ->. apply HF. }
  eapply wp_mono; [|intros s' r; by apply (reaches_seen _ _ _ _ _ _ _ _ Hw Hl)].
  unfold revoke_session. auth_steps. apply (reaches_one (seen h s) (EvLoggedOut h)); [|done..].
  apply live_context_Some in Hl as (text & _ & _ & -> & Hx & _). cbn.
  rewrite (ak_sessions _ Hk _ _ Hx). apply step_logged_out.
Qed.

Lemma reauthenticate_reaches q code action target s :
  work s = disk s ->
  wp (r ← reauthenticate lib sha256 read_text settings q code action target alone alone; mret (RProof r))
    (reaches (disk s) (clock s) (request_outcome (Reauthenticate q code action target) (clock s) (disk s))) s.
Proof.
  intros Hw. apply wp_route. unfold reauthenticate.
  pose proof (csrf_exact q s Hw) as E. cbn [request_outcome].
  destruct (live_context _ _ _) as [[[h x] u]|] eqn:Hl; eapply wp_gate; try exact E; [|by apply reaches_none].
  match goal with |- after _ (reaches _ _ ?R0) _ _ => set (R := R0) end.
  assert (HF : forall m, reaches (disk s) (clock s) R (seen h s) (inr (CsrfError m))).
  { intros m. eapply reaches_seen; [done|exact Hl|]. by apply (reaches_none (seen h s)). }
  destruct (origin_allowed settings q); [|apply HF].
  destruct (verify_csrf sha256 x (rq_csrf_token q)) as [e|] eqn:Hv; cbn [after].
  { apply verify_csrf_error in Hv as ->. apply HF. }
  eapply wp_mono; [|intros s' r; by apply (reaches_seen _ _ _ _ _ _ _ _ Hw Hl)].
  apply wp_route with (f := fun proof => mkReauthResponse (rq_request_id q) proof.1 action target proof.2).
  eapply wp_mono; [by apply (create_proof_reaches u code action target (_request_metadata q) (seen h s))|].
  intros s' r (evs & H1 & H2 & H3). exists evs. split; [done|]. split; [|done]. clear H1 H3.
  assert (Ha : forall ip, proof_asked u ip (clock s) (disk (seen h s)) = proof_asked u ip (clock s) (disk s))
    by (intros ip; cbn [seen disk committed with_work work]; by rewrite Hw).
  destruct r as [[proof at_]|e]; cbn -[seen proof_asked] in *.
  - destruct H2 as [step ->]. by exists step.
  - rewrite Ha in H2. by destruct e; rewrite H2.
Qed.

Lemma alter_keyed {A} (key : A -> string) (f : A -> A) (m : gmap string A) k :
  (forall a, key (f a) = key a) -> (forall h x, m !! h = Some x -> key x = h) ->
  forall h x, alter f k m !! h = Some x -> key x = h.
Proof.
  intros Hf Hm h x. rewrite lookup_alter_Some. intros [(-> & y & Hy & ->)|[_ Hx]]; [|by apply Hm].
  rewrite Hf. by apply Hm.
Qed.

Lemma step_keyed now d e d' : auth_step lib sha256 read_text settings now d e d' -> auth_keyed d -> auth_keyed d'.
Proof.
  intros Hs [H1 H2]. split; [|rewrite (ev_users _ _ _ _ _ (step_evolves _ _ _ _ _ _ _ _ Hs)); exact H2].
  destruct Hs as [? ? ? ? ? ? [->|(? & ? & _ & ->)]| |d u ip code step h c x log _ _ _ _ _ Hx| | | |];
    unfold session_at in *; cbn; try exact H1; try (by apply (alter_keyed us_token_hash)).
  intros k y. rewrite lookup_insert_Some. intros [[<- <-]|[_ Hy]]; [done|by apply H1].
Qed.

Lemma run_keyed d es d' : auth_run lib sha256 read_text settings d es d' -> auth_keyed d -> auth_keyed d'.
Proof. induction 1; eauto using step_keyed. Qed.

Lemma answer_outcome call s :
  auth_keyed (disk s) ->
  wp (answer lib sha256 read_text DUMMY_PASSWORD_HASH settings call)
    (fun s' r => exists evs, auth_run lib sha256 read_text settings (disk s) (map (pair (clock s)) evs) (disk s') /\
       request_outcome call (clock s) (disk s) evs r) s.
Proof.
  intros Hk. apply wp_in_session.
  apply wp_mono with (Q := reaches (disk s) (clock s) (request_outcome call (clock s) (disk s)));
    [|intros s' r (evs & H1 & H2 & _); by exists evs].
  destruct call;
    [apply (password_login_reaches _ _ _ (rolled_back s))|apply (totp_login_reaches _ _ _ (rolled_back s))
    |apply (current_session_reaches _ (rolled_back s))|apply (reauthenticate_reaches _ _ _ _ (rolled_back s))
    |apply (logout_reaches _ (rolled_back s))]; done.
Qed.

(** The requests with their replies, as a run of the protocol. *)
Inductive protocol : DB -> list arrival -> list (auth_reply + exn) -> list (Z * auth_event) -> DB -> Prop :=
| protocol_nil d : protocol d [] [] [] d
| protocol_cons d now call arrivals r replies evs es d1 d2 :
    auth_run lib sha256 read_text settings d (map (pair now) evs) d1 -> request_outcome call now d evs r ->
    protocol d1 arrivals replies es d2 ->
    protocol d ((now, call) :: arrivals) (r :: replies) (map (pair now) evs ++ es) d2.

Lemma protocol_run d arrivals replies es d' :
  protocol d arrivals replies es d' -> auth_run lib sha256 read_text settings d es d'.
Proof. induction 1; [constructor|by eapply auth_run_app]. Qed.

Lemma protocol_length d arrivals replies es d' :
  protocol d arrivals replies es d' -> length replies = length arrivals.
Proof. induction 1 as [|? ? ? ? ? ? ? ? ? ? _ _ _ IH]; cbn; [done|by rewrite IH]. Qed.

Lemma serve_protocol arrivals s :
  auth_keyed (disk s) ->
  exists es, protocol (disk s) arrivals (serve lib sha256 read_text DUMMY_PASSWORD_HASH settings arrivals s).2 es
               (disk (serve lib sha256 read_text DUMMY_PASSWORD_HASH settings arrivals s).1).
Proof.
  revert s. induction arrivals as [|[now call] arrivals IH]; intros s Hk; [eexists; constructor|].
  cbn [serve]. unfold serve_one. pose proof (answer_outcome call (at_time now s) Hk) as H.
  cbn [fst snd] in *. unfold wp in H. destruct (answer _ _ _ _ _ _ _) as [s1 r].
  destruct H as (evs & Hr & Ho). cbn [disk clock at_time] in *.
  destruct (IH s1 (run_keyed _ _ _ Hr Hk)) as [es Hp].
  destruct (serve _ _ _ _ _ arrivals s1) as [s2 rs]. exists (map (pair now) evs ++ es). by econstructor.
Qed.

(** C33: Every run of login requests, each in a session of its own, is a run of
    the login protocol: the reply of each request and the changes it committed
    are those of its guarded events, and a refused request leaves no other
    change than a counted failure or the time its session was seen.  Only the
    tables of the authentication and the audit log change. *)
Theorem requests_refine_protocol arrivals s :
  auth_keyed (disk s) ->
  let '(s', replies) := serve lib sha256 read_text DUMMY_PASSWORD_HASH settings arrivals s in
  (exists es, protocol (disk s) arrivals replies es (disk s')) /\ auth_only (disk s) (disk s') /\
  length replies = length arrivals.
Proof.
  intros Hk. destruct (serve_protocol arrivals s Hk) as [es Hp].
  destruct (serve _ _ _ _ _ arrivals s) as [s' replies]. split_and!; [by exists es| |].
  - by eapply run_auth_only, protocol_run.
  - exact (protocol_length _ _ _ _ _ Hp).
Qed.
End Refinement.
