(* ===== verification/LoginProps.v ===== *)
(** * What a login promises

    Theorems about every sequence of login requests served one after the other,
    from the refinement of the login protocol (AuthProps): a login takes both
    factors, a code and a challenge serve once, a logout is final, and guesses
    are bounded.  The examples at the end show what requests served at the same
    time may do. *)

Set Warnings "-register-all".

From Stdlib Require Import ZArith Lia Ascii String Sorted.
From stdpp Require Import base numbers strings list pretty gmap.
From S2P Require Import Prelude Json PyTime Models Session PyText.
From S2P Require Import PyText LlmCatalog AuthCrypto Auth AuthProps.

Open Scope Z_scope.

(** ** A guess *)

(** A wrong password, or a wrong code of a login or a re-authentication, for the
    user [name]: the request was refused although the user was not locked. *)
Definition guess (sha256 : string -> string) (settings : AuthSettings) (name : string) (a : arrival) (d : DB)
  (r : auth_reply + exn) : bool :=
  match a, r with
  | (now, PasswordLogin q login_id _), inr AuthenticationError =>
      String.eqb (normalize_login_id login_id) name && negb (locked_subjects sha256 name (client_of q) now d)
  | (now, TotpLogin q challenge _), inr AuthenticationError =>
      match code_asked sha256 challenge (client_of q) now d with
      | Some u => String.eqb (u_login_id u) name
      | None => false
      end
  | (now, Reauthenticate q _ _ _), inr AuthenticationError =>
      match live_context sha256 settings (cookie_of settings q) now d with
      | Some (_, _, u) => String.eqb (u_login_id u) name && proof_asked sha256 u (client_of q) now d
      | None => false
      end
  | _, _ => false
  end.

(** A completed login that clears the failures of a subject. *)
Definition resets (sha256 : string -> string) (h : string) (call : auth_call) (r : auth_reply + exn) : bool :=
  match call, r with
  | TotpLogin q _ _, inl (RLoggedIn x _) =>
      bool_decide (h ∈ _rate_subjects sha256 (sr_login_id x) (client_of q))
  | _, _ => false
  end.

Section Logins.
Context (lib : CryptoLibrary) (sha256 : string -> string).
Context (read_text : string -> option string) (DUMMY_PASSWORD_HASH : string).
Context (settings : AuthSettings).

(** The guesses at a user among the requests. *)
Fixpoint guesses (name : string) (arrivals : list arrival) (s : Sess) : Z :=
  match arrivals with
  | [] => 0
  | a :: arrivals =>
      let '(s1, r) := serve_one lib sha256 read_text DUMMY_PASSWORD_HASH settings a s in
      (if guess sha256 settings name a (disk s) r then 1 else 0) + guesses name arrivals s1
  end.

(** ** The events of one request *)

(** The shapes of the events of a request. *)
Ltac outcome H :=
  repeat match type of H with
  | _ /\ _ => destruct H as [? H]
  | _ \/ _ => destruct H as [H|H]
  | exists _, _ => destruct H as [? H]
  | context [match ?x with _ => _ end] => destruct x eqn:?; try done
  end; subst.

Lemma clears_outcome call now d evs r h :
  request_outcome lib sha256 settings call now d evs r -> resets sha256 h call r = false ->
  Forall (fun e => clears sha256 h e = false) evs.
Proof.
  destruct call; cbn [request_outcome resets]; intros H Hr; unfold password_outcome in H; outcome H;
    try done; repeat constructor; try done.
  match goal with E : sr_login_id _ = _ |- _ => by rewrite E in Hr end.
Qed.

Lemma guess_outcome name call now d evs r :
  request_outcome lib sha256 settings call now d evs r -> guess sha256 settings name (now, call) d r = true ->
  exists before ip, evs = before ++ [EvFailed name ip].
Proof.
  destruct call; cbn [request_outcome guess]; intros H Hg; unfold password_outcome in H; outcome H; try done.
  - apply andb_true_iff in Hg as [Hg Hn]. apply String.eqb_eq in Hg as <-. by rewrite Heqb in Hn.
  - apply andb_true_iff in Hg as [Hg _]. apply String.eqb_eq in Hg as <-. by exists [], (client_of request).
  - apply String.eqb_eq in Hg as <-. by exists [], (client_of request).
  - apply andb_true_iff in Hg as [Hg Ha]. apply String.eqb_eq in Hg as <-.
    by eexists [_], (client_of request).
  - apply andb_true_iff in Hg as [_ Ha]. congruence.
Qed.

(** ** Guesses *)

Lemma failures_app h es es' : failures sha256 h (es ++ es') = failures sha256 h es + failures sha256 h es'.
Proof. apply zsum_app. Qed.

Lemma failures_nonneg h es : 0 <= failures sha256 h es.
Proof. apply zsum_nonneg, Forall_forall. intros x _. by destruct (fails _ _ _). Qed.

(** One request of a run. *)
Lemma serve_one_outcome now call s s1 r :
  auth_keyed (disk s) ->
  serve_one lib sha256 read_text DUMMY_PASSWORD_HASH settings (now, call) s = (s1, r) ->
  exists evs, auth_run lib sha256 read_text settings (disk s) (map (pair now) evs) (disk s1) /\
    request_outcome lib sha256 settings call now (disk s) evs r /\ auth_keyed (disk s1).
Proof.
  intros Hk E. pose proof (answer_outcome lib sha256 read_text DUMMY_PASSWORD_HASH settings call (at_time now s) Hk) as H.
  unfold serve_one in E. cbn [fst snd] in E. apply (wp_elim _ _ _ _ _ H) in E as (evs & Hr & Ho).
  exists evs. split_and!; [done|done|]. by eapply run_keyed.
Qed.

Lemma guesses_failures name t0 t1 arrivals s :
  let h := _subject_hash sha256 "login" name in
  auth_keyed (disk s) ->
  Forall (fun a => t0 <= a.1 < t1) arrivals ->
  Forall (fun ar => resets sha256 h ar.1.2 ar.2 = false)
    (zip arrivals (serve lib sha256 read_text DUMMY_PASSWORD_HASH settings arrivals s).2) ->
  exists es d', auth_run lib sha256 read_text settings (disk s) es d' /\
    guesses name arrivals s <= failures sha256 h es /\
    Forall (fun e => t0 <= e.1 < t1 /\ clears sha256 h e.2 = false) es.
Proof.
  intros h. revert s. induction arrivals as [|[now call] arrivals IH]; intros s Hk Ht Hn.
  { exists [], (disk s). split_and!; [constructor|done|constructor]. }
  cbn [serve guesses] in *. destruct (serve_one _ _ _ _ _ (now, call) s) as [s1 r] eqn:E.
  destruct (serve _ _ _ _ _ arrivals s1) as [s2 rs] eqn:E2. cbn [snd zip_with] in Hn.
  inversion_clear Ht as [|? ? Hnow Ht']. inversion_clear Hn as [|? ? Hr Hn'].
  destruct (serve_one_outcome _ _ _ _ _ Hk E) as (evs & H1 & H2 & H3).
  destruct (IH s1 H3 Ht') as (es & d' & H4 & H5 & H6); [by rewrite E2|].
  exists (map (pair now) evs ++ es), d'. split_and!; [by eapply auth_run_app| |].
  - rewrite failures_app. assert (0 <= failures sha256 h (map (pair now) evs)) by apply failures_nonneg.
    destruct (guess _ _ _ _ _ _) eqn:Hg; [|lia].
    destruct (guess_outcome _ _ _ _ _ _ H2 Hg) as (before & ip & ->).
    rewrite map_app, failures_app. pose proof (failures_nonneg h (map (pair now) before)).
    unfold failures at 2. cbn. rewrite bool_decide_eq_true_2 by (apply list_elem_of_here). lia.
  - apply Forall_app. split; [|done]. pose proof (clears_outcome _ _ _ _ _ _ H2 Hr) as Hc.
    apply Forall_forall. intros e [ev [-> Hev]]%list_elem_of_fmap. rewrite Forall_forall in Hc. cbn. auto.
Qed.

(** C36: When requests are served one after the other, at most
    [auth_max_failures] wrong passwords, wrong codes of logins and wrong codes of
    re-authentications are looked at for a user during the time of one lock, from
    any clients, among any other requests, unless a login of that user completes;
    the other guesses are refused without a check.  (Requests served at the same
    time may share a count, as [parallel_failures_count_once] shows.) *)
Theorem guesses_are_bounded name t0 arrivals s :
  let h := _subject_hash sha256 "login" name in
  1 <= auth_max_failures settings -> 0 <= auth_lock_minutes settings ->
  auth_keyed (disk s) -> rate_ok settings (row_at h (disk s)) ->
  Forall (fun a => t0 <= a.1 < t0 + minutes (auth_lock_minutes settings)) arrivals ->
  Forall (fun ar => resets sha256 h ar.1.2 ar.2 = false)
    (zip arrivals (serve lib sha256 read_text DUMMY_PASSWORD_HASH settings arrivals s).2) ->
  guesses name arrivals s <= auth_max_failures settings.
Proof.
  intros h Hx Hm Hk Hr Ht Hn.
  destruct (guesses_failures name _ _ arrivals s Hk Ht Hn) as (es & d' & H1 & H2 & H3).
  pose proof (run_failures _ _ _ _ _ _ _ _ _ Hx Hm H1 Hr H3).
  pose proof (budget_range settings (t0 + minutes (auth_lock_minutes settings)) _ Hr). fold h in H2. lia.
Qed.

(** ** Codes *)

Definition user_secret (uid : string) (d : DB) : option (exn + string) :=
  secret_of lib read_text settings <$> totp_credentials (auth_tables d) !! uid.

(** [code] is the code of the user's secret for [step], a step around [now]. *)
Definition code_of_user (d : DB) (uid code : string) (now step : Z) : Prop :=
  exists secret, user_secret uid d = Some (inr secret) /\ totp_at lib secret (step * 30) = Some code /\
    base_step now - 1 <= step <= base_step now + 1.

(** An accepted code was the user's. *)
Definition genuine (d : DB) (e : Z * auth_event) : Prop :=
  match e.2 with
  | EvLoggedIn uid _ _ code step _ _ | EvProved uid code step _ => code_of_user d uid code e.1 step
  | _ => True
  end.

Lemma genuine_evolves d d' e : evolves lib read_text settings d d' -> genuine d' e -> genuine d e.
Proof.
  intros He. unfold genuine, code_of_user, user_secret. destruct e as [now []]; cbn; try done;
    by rewrite (ev_secret _ _ _ _ _ He).
Qed.

Lemma accepted_genuine now d u ip code step :
  code_accepted lib sha256 read_text settings now d u ip code step -> code_of_user d (u_id u) code now step.
Proof.
  intros [_ (t & secret & Ht & _ & Hs & Hf)]. exists secret. split_and!; try apply Hf.
  unfold user_secret. unfold totp_of in Ht. rewrite Ht. cbn. by rewrite Hs.
Qed.

Lemma run_genuine d es d' : auth_run lib sha256 read_text settings d es d' -> Forall (genuine d) es.
Proof.
  induction 1 as [|now d e d1 es d2 Hs _ IH]; constructor.
  - destruct Hs; cbn; try done; by eapply accepted_genuine.
  - eapply Forall_impl; [exact IH|]. intros x. apply genuine_evolves. by eapply step_evolves.
Qed.

(** C35: When requests are served one after the other, the codes accepted from a
    user, by logins and re-authentications in any order, belong to strictly
    increasing steps of the clock, each after every step used before and within
    one step of the time of the request, and each is the code of the user's
    stored secret; so no code is accepted twice.  (Two logins served at the same
    time may both accept one, as [parallel_logins_share_a_code] shows.) *)
Theorem codes_are_used_once arrivals s uid :
  auth_keyed (disk s) ->
  exists es,
    protocol lib sha256 read_text settings (disk s) arrivals
      (serve lib sha256 read_text DUMMY_PASSWORD_HASH settings arrivals s).2 es
      (disk (serve lib sha256 read_text DUMMY_PASSWORD_HASH settings arrivals s).1) /\
    StronglySorted Z.lt (accepted_steps uid es) /\
    (forall used, last_step uid (disk s) = Some (Some used) -> Forall (Z.lt used) (accepted_steps uid es)) /\
    Forall (genuine (disk s)) es.
Proof.
  intros Hk. destruct (serve_protocol lib sha256 read_text DUMMY_PASSWORD_HASH settings arrivals s Hk) as [es Hp].
  exists es. pose proof (protocol_run _ _ _ _ _ _ _ _ _ Hp) as Hr.
  split_and!; [done|by eapply run_steps_sorted|intros used; by eapply run_last|by eapply run_genuine].
Qed.

(** ** Both factors *)

Lemma login_event now d q ch code evs d1 x c :
  auth_run lib sha256 read_text settings d (map (pair now) evs) d1 ->
  request_outcome lib sha256 settings (TotpLogin q ch code) now d evs (inl (RLoggedIn x c)) ->
  exists c0 u step, challenge_at (token_hash sha256 ch) d = Some c0 /\ users d !! ch_user_id c0 = Some u /\
    sr_login_id x = u_login_id u /\ code_of_user d (u_id u) code now step.
Proof.
  intros Hr H. cbn in H. destruct c as [key token secure age|key]; [|done].
  destruct H as (_ & v & step & _ & Hn & ->). inversion_clear Hr as [|? ? ? ? ? ? Hs _].
  inversion Hs as [| |? u ? ? ? ? c0 y log Hu Hc Hch| | | |]; subst.
  exists c0, u, step. split_and!; [done|done|congruence|by eapply accepted_genuine].
Qed.

Lemma login_of_challenge d arrivals replies es d' i q ch code now x c c0 :
  protocol lib sha256 read_text settings d arrivals replies es d' ->
  challenge_at (token_hash sha256 ch) d = Some c0 ->
  arrivals !! i = Some (now, TotpLogin q ch code) -> replies !! i = Some (inl (RLoggedIn x c)) ->
  exists u step, users d !! ch_user_id c0 = Some u /\ sr_login_id x = u_login_id u /\
    code_of_user d (u_id u) code now step.
Proof.
  intros Hp. revert i c0. induction Hp as [|d t call arrivals r replies evs es d1 d2 Hr Ho _ IH];
    intros i c0 Hc Ha Hb; [done|]. destruct i as [|i]; cbn in Ha, Hb.
  - simplify_eq. destruct (login_event _ _ _ _ _ _ _ _ _ Hr Ho) as (c1 & u & step & Hc1 & Hu & Hn & Hg).
    simplify_eq. by exists u, step.
  - apply run_evolves in Hr. destruct (ev_challenge _ _ _ _ _ Hr _ _ Hc) as (c1 & Hc1 & Hown & _).
    destruct (IH i c1 Hc1 Ha Hb) as (u & step & Hu & Hn & Hg). exists u, step.
    rewrite <- Hown, <- (ev_users _ _ _ _ _ Hr). split_and!; [done|done|].
    unfold code_of_user, user_secret in *. by rewrite <- (ev_secret _ _ _ _ _ Hr).
Qed.

Lemma step_challenge now d e d' h c :
  auth_step lib sha256 read_text settings now d e d' -> challenge_at h d = None -> challenge_at h d' = Some c ->
  e = EvChallenged (ch_user_id c) h.
Proof.
  unfold challenge_at.
  destruct 1 as [? ? ? ? ? _ [->|(? & ? & _ & ->)]|d u ip c0 log _ _ Hu _ _| | | | |]; cbn; intros Hn Hc; try congruence.
  - rewrite lookup_alter_Some in Hc. destruct Hc as [(_ & y & Hy & _)|[_ Hy]]; congruence.
  - rewrite lookup_insert_Some in Hc. destruct Hc as [[<- <-]|[_ Hy]]; congruence.
  - rewrite lookup_alter_Some in Hc. destruct Hc as [(_ & y & Hy & _)|[_ Hy]]; congruence.
Qed.

Lemma run_challenge d es d' h c :
  auth_run lib sha256 read_text settings d es d' -> challenge_at h d = None -> challenge_at h d' = Some c ->
  Exists (fun e => e.2 = EvChallenged (ch_user_id c) h) es.
Proof.
  induction 1 as [|now d e d1 es d2 Hs Hr IH]; intros Hn Hc; [congruence|].
  destruct (challenge_at h d1) as [c1|] eqn:H1; [|by right; apply IH]. left.
  destruct (ev_challenge _ _ _ _ _ (run_evolves _ _ _ _ _ _ _ Hr) _ _ H1) as (c2 & Hc2 & Ho & _).
  rewrite (step_challenge _ _ _ _ _ _ Hs Hn H1). cbn. rewrite Hc2 in Hc. injection Hc as <-. by rewrite Ho.
Qed.

(** A challenge is the answer to a right password. *)
Lemma challenge_outcome call now d evs r uid h :
  request_outcome lib sha256 settings call now d evs r -> Exists (fun e => e = EvChallenged uid h) evs ->
  exists q name password y u, call = PasswordLogin q name password /\ r = inl (RChallenge y) /\
    token_hash sha256 (pl_challenge_id y) = h /\ user_of_login (normalize_login_id name) d = Some u /\
    u_status u = "ACTIVE" /\ argon2_verify lib (u_password_hash u) password = Argon2Verified /\ u_id u = uid.
Proof.
  destruct call; cbn [request_outcome]; intros H He; unfold password_outcome in H; outcome H;
    repeat (apply Exists_cons in He as [He|He]; [try done|]); try (by apply Exists_nil in He).
  simplify_eq. by eexists _, _, _, _, _.
Qed.

(** The request [i] that started a login with a right password. *)
Definition password_request (d : DB) (arrivals : list arrival) (replies : list (auth_reply + exn))
  (ch : string) (u : User) (i : nat) : Prop :=
  exists now q name password y,
    arrivals !! i = Some (now, PasswordLogin q name password) /\ replies !! i = Some (inl (RChallenge y)) /\
    token_hash sha256 (pl_challenge_id y) = token_hash sha256 ch /\
    u_login_id u = normalize_login_id name /\ u_status u = "ACTIVE" /\
    argon2_verify lib (u_password_hash u) password = Argon2Verified.

Lemma protocol_both_factors d arrivals replies es d' i q ch code now x c :
  protocol lib sha256 read_text settings d arrivals replies es d' -> auth_keyed d ->
  challenge_at (token_hash sha256 ch) d = None ->
  arrivals !! i = Some (now, TotpLogin q ch code) -> replies !! i = Some (inl (RLoggedIn x c)) ->
  exists j u step, (j < i)%nat /\ users d !! u_id u = Some u /\ sr_login_id x = u_login_id u /\
    password_request d arrivals replies ch u j /\ code_of_user d (u_id u) code now step.
Proof.
  intros Hp. revert i. induction Hp as [|d t call arrivals r replies evs es d1 d2 Hr Ho Hp IH];
    intros i Hk Hn Ha Hb; [done|]. destruct i as [|i]; cbn in Ha, Hb.
  { simplify_eq. destruct (login_event _ _ _ _ _ _ _ _ _ Hr Ho) as (c1 & _ & _ & Hc1 & _). congruence. }
  pose proof (run_evolves _ _ _ _ _ _ _ Hr) as He. pose proof (ev_users _ _ _ _ _ He) as Hu.
  assert (Hs : forall uid, user_secret uid d1 = user_secret uid d) by (intros; apply (ev_secret _ _ _ _ _ He)).
  destruct (challenge_at (token_hash sha256 ch) d1) as [c1|] eqn:Hc1.
  - destruct (login_of_challenge _ _ _ _ _ _ _ _ _ _ _ _ _ Hp Hc1 Ha Hb) as (u & step & Hu1 & Hx & Hg).
    pose proof (run_challenge _ _ _ _ _ Hr Hn Hc1) as Hex. apply Exists_fmap in Hex.
    destruct (challenge_outcome _ _ _ _ _ _ _ Ho Hex)
      as (q0 & name & password & y & v & -> & -> & Hh & Hv & Hact & Hpw & Hid).
    pose proof (user_of_login_name _ _ _ Hv) as Hname.
    apply find_row_Some in Hv as [_ [k Hk']]. pose proof (ak_users _ Hk _ _ Hk') as <-.
    rewrite Hu, <- Hid, Hk' in Hu1. injection Hu1 as <-.
    exists 0%nat, v, step. split_and!; [lia|done|done| |].
    + by exists t, q0, name, password, y.
    + unfold code_of_user in *. by rewrite <- Hs.
  - destruct (IH i (run_keyed _ _ _ _ _ _ _ Hr Hk) eq_refl Ha Hb) as (j & u & step & Hj & Hu1 & Hx & Hpw & Hg).
    exists (S j), u, step. rewrite Hu in Hu1. split_and!; [lia|done|done|done|].
    unfold code_of_user in *. by rewrite <- Hs.
Qed.

(** C34: A login takes both factors: when a login by code succeeds, an earlier
    request of the run gave the right password of the same active user and got
    the challenge that the login answers, and the code is that of the user's
    stored secret at the time. *)
Theorem login_needs_both_factors arrivals s i q ch code now x c :
  let replies := (serve lib sha256 read_text DUMMY_PASSWORD_HASH settings arrivals s).2 in
  auth_keyed (disk s) -> challenge_at (token_hash sha256 ch) (disk s) = None ->
  arrivals !! i = Some (now, TotpLogin q ch code) -> replies !! i = Some (inl (RLoggedIn x c)) ->
  exists j u step, (j < i)%nat /\ users (disk s) !! u_id u = Some u /\ sr_login_id x = u_login_id u /\
    password_request (disk s) arrivals replies ch u j /\ code_of_user (disk s) (u_id u) code now step.
Proof.
  intros replies Hk. destruct (serve_protocol lib sha256 read_text DUMMY_PASSWORD_HASH settings arrivals s Hk) as [es Hp].
  by apply (protocol_both_factors _ _ _ _ _ _ _ _ _ _ _ _ Hp).
Qed.

(** ** Finished sessions and challenges *)

Lemma revoked_no_context h d token now :
  revoked h d -> (forall text, token = Some text -> token_hash sha256 text = h) ->
  live_context sha256 settings token now d = None.
Proof.
  intros (x & Hx & Hn) Ht. destruct (live_context _ _ _ _ _) as [[[h' y] u]|] eqn:E; [|done].
  apply live_context_Some in E as (text & He & _ & -> & Hy & Hl & _). exfalso.
  rewrite (Ht text He) in Hy. simplify_eq. unfold session_live in Hl. rewrite !andb_true_iff in Hl.
  destruct Hl as [[Hl _] _]. by apply bool_decide_eq_true in Hl.
Qed.

Lemma consumed_not_asked ch ip now d :
  consumed (token_hash sha256 ch) d -> code_asked sha256 ch ip now d = None.
Proof.
  intros (c & Hc & Hn). unfold code_asked. rewrite Hc. cbn [mbind option_bind].
  destruct (bool_decide _ && _) eqn:E; [|done]. apply andb_true_iff in E as [E _]. by apply bool_decide_eq_true in E.
Qed.

Lemma served_run arrivals s :
  auth_keyed (disk s) ->
  let s' := (serve lib sha256 read_text DUMMY_PASSWORD_HASH settings arrivals s).1 in
  (exists es, auth_run lib sha256 read_text settings (disk s) es (disk s')) /\ auth_keyed (disk s').
Proof.
  intros Hk s'. destruct (serve_protocol lib sha256 read_text DUMMY_PASSWORD_HASH settings arrivals s Hk) as [es Hp].
  apply protocol_run in Hp. split; [by exists es|by eapply run_keyed].
Qed.

(** The cookie of a request behind a gate, and the challenge of a login. *)
Definition cookie_used (call : auth_call) : option (option string) :=
  match call with
  | CurrentSession q | Reauthenticate q _ _ _ | Logout q => Some (cookie_of settings q)
  | _ => None
  end.

Definition challenge_used (call : auth_call) : option string :=
  match call with TotpLogin _ ch _ => Some (token_hash sha256 ch) | _ => None end.

(** [later] needs what [call] has used up. *)
Definition needs_finished (call later : auth_call) : Prop :=
  match call with
  | Logout q => cookie_used later = Some (cookie_of settings q)
  | TotpLogin _ ch _ => challenge_used later = Some (token_hash sha256 ch)
  | _ => False
  end.

Lemma finished_refuses call later now d r evs evs' d1 d2 es now' r' :
  auth_run lib sha256 read_text settings d (map (pair now) evs) d1 ->
  request_outcome lib sha256 settings call now d evs (inl r) -> needs_finished call later ->
  auth_run lib sha256 read_text settings d1 es d2 ->
  request_outcome lib sha256 settings later now' d2 evs' r' -> r' = inr AuthenticationError /\ evs' = [].
Proof.
  intros Hr Ho Hn He Ho'. destruct call as [|q ch code| | |q]; cbn [needs_finished] in Hn; try done.
  - destruct later as [|q' ch' code'| | |]; try done. injection Hn as Hn.
    destruct r as [|x c| | |]; cbn in Ho; try done. destruct c as [key token secure age|]; [|done].
    destruct Ho as (_ & u & step & _ & _ & ->). inversion_clear Hr as [|? ? ? ? ? ? Hs Hd].
    inversion Hd; subst; clear Hd. apply step_consumes in Hs.
    apply (run_consumed _ _ _ _ _ _ _ _ He) in Hs as [Hs _]. rewrite <- Hn in Hs.
    apply (consumed_not_asked ch' (client_of q') now') in Hs. cbn [request_outcome] in Ho'.
    rewrite ?Hs in Ho'. outcome Ho'; try done; congruence.
  - cbn in Ho. destruct (live_context _ _ _ _ _) as [[[h x] u]|] eqn:Hl; [|done].
    destruct r; try done. subst evs. inversion_clear Hr as [|? ? ? d0 ? ? Hs1 Hr1].
    inversion_clear Hr1 as [|? ? ? d0' ? ? Hs2 Hd]. inversion Hd; subst; clear Hd.
    apply live_context_Some in Hl as (text & Hc & _ & -> & Hx & _).
    destruct (ev_session _ _ _ _ _ (step_evolves _ _ _ _ _ _ _ _ Hs1) _ _ Hx) as (x' & Hx' & _).
    pose proof (step_logs_out _ _ _ _ _ _ _ _ _ Hs2 Hx') as Hrev.
    apply (run_revoked _ _ _ _ _ _ _ _ He) in Hrev as [Hrev _].
    assert (HN : forall q', cookie_of settings q' = cookie_of settings q ->
              live_context sha256 settings (cookie_of settings q') now' d2 = None).
    { intros q' Hq. rewrite Hq. apply (revoked_no_context _ _ _ _ Hrev). rewrite Hc. by intros ? [= ->]. }
    destruct later; cbn in Hn; try done; injection Hn as Hn; cbn in Ho'; rewrite (HN _ Hn) in Ho'; by outcome Ho'.
Qed.

(** A logout is final and a challenge answers once: after a successful
    logout every later request with its cookie, and after a successful login
    every later login with its challenge, is refused and changes nothing,
    whatever requests came between. *)
Theorem finished_tokens_are_refused now call s s1 r arrivals now' later :
  auth_keyed (disk s) ->
  serve_one lib sha256 read_text DUMMY_PASSWORD_HASH settings (now, call) s = (s1, inl r) ->
  needs_finished call later ->
  let s2 := (serve lib sha256 read_text DUMMY_PASSWORD_HASH settings arrivals s1).1 in
  let '(s3, reply) := serve_one lib sha256 read_text DUMMY_PASSWORD_HASH settings (now', later) s2 in
  reply = inr AuthenticationError /\ disk s3 = disk s2.
Proof.
  intros Hk E Hn s2. destruct (serve_one_outcome _ _ _ _ _ Hk E) as (evs & Hr & Ho & Hk1).
  destruct (served_run arrivals s1 Hk1) as [[es He] Hk2]. fold s2 in He, Hk2.
  destruct (serve_one _ _ _ _ _ (now', later) s2) as [s3 reply] eqn:E3.
  destruct (serve_one_outcome _ _ _ _ _ Hk2 E3) as (evs' & Hr' & Ho' & _).
  destruct (finished_refuses _ _ _ _ _ _ _ _ _ _ _ _ Hr Ho Hn He Ho') as [-> ->].
  split; [done|]. by inversion Hr'.
Qed.
End Logins.

(** ** The gate of every other route *)

(** A request passes exactly with the cookie of a live session of an active
    user, from an allowed origin and with the session's token in its header;
    either way no row changes but the time the session was seen. *)
Theorem gate_admits sha256 settings q s :
  work s = disk s ->
  let '(s', r) := require_csrf sha256 settings q alone s in
  ((exists context, r = inl context) <->
   exists token csrf x u, cookie_of settings q = Some token /\ token <> EmptyString /\
     session_at (token_hash sha256 token) (disk s) = Some x /\ session_live settings (clock s) x = true /\
     users (disk s) !! us_user_id x = Some u /\ u_status u = "ACTIVE" /\
     origin_allowed settings q = true /\ rq_csrf_token q = Some csrf /\ csrf <> EmptyString /\
     us_csrf_hash x = token_hash sha256 csrf) /\
  (disk s' = disk s \/ exists h, disk s' = alter_session (fun row => set_us_last_seen_at row (clock s)) h (disk s)).
Proof.
  intros Hw. rewrite csrf_exact by done.
  destruct (live_context _ _ _ _ _) as [[[h x] u]|] eqn:Hl.
  - split; [|right; exists h; cbn; by rewrite Hw].
    apply live_context_Some in Hl as (token & Hc & Ht & -> & Hx & Hlive & Hu & Ha).
    split.
    + intros [context H]. destruct (origin_allowed _ _); [|done]. unfold verify_csrf in H.
      destruct (rq_csrf_token q) as [[|c r]|] eqn:Hq; [done| |done].
      destruct (String.eqb_spec (us_csrf_hash x) (token_hash sha256 (String c r))); [|done].
      exists token, (String c r), x, u. by split_and!.
    + intros (token' & csrf & x' & u' & Hc' & _ & Hx' & _ & _ & _ & -> & -> & Hn & He). simplify_eq.
      unfold verify_csrf. destruct csrf; [done|]. rewrite He, String.eqb_refl. eauto.
  - split; [|by left]. split; [by intros [? ?]|].
    intros (token & csrf & x & u & Hc & Ht & Hx & Hlive & Hu & Ha & _). exfalso.
    assert (live_context sha256 settings (cookie_of settings q) (clock s) (disk s) = Some (token_hash sha256 token, x, u)); [|congruence].
    apply live_context_Some. exists token. by split_and!.
Qed.

(** A proof of re-authentication is consumed once, and by its user for its
    action and target. *)
Theorem proof_is_consumed_once sha256 user raw action target now s s1 p :
  consume_reauth_proof sha256 user raw action target now alone s = (s1, inl p) ->
  rp_user_id p = u_id user /\ rp_target_action p = action /\ rp_target_id p = target /\
  forall user' action' target' now',
    (consume_reauth_proof sha256 user' raw action' target' now' alone (committed s1)).2 = inr ReauthProofError.
Proof.
  intros E.
  assert (H : wp (consume_reauth_proof sha256 user raw action target now alone) (fun s' r =>
    match r with
    | inl p => rp_user_id p = u_id user /\ rp_target_action p = action /\ rp_target_id p = target /\
        exists row, proof_at (token_hash sha256 raw) (work s') = Some row /\ rp_consumed_at row <> None
    | inr _ => True
    end) s).
  { unfold consume_reauth_proof. apply wp_bind. destruct now; cbn [current_time]; auth_steps; try done.
    all: rewrite !andb_true_iff, !String.eqb_eq in *; destruct_and!; split_and!; try done;
      eexists; unfold proof_at in *; cbn; rewrite lookup_alter_eq; cbn in *;
      match goal with H : reauth_proofs _ !! _ = _ |- _ => rewrite H end; by cbn. }
  apply (wp_elim _ _ _ _ _ H) in E as (H1 & H2 & H3 & row & Hrow & Hc). split_and!; try done.
  intros user' action' target' now'. unfold consume_reauth_proof, mbind, prog_bind.
  destruct now'; cbn; unfold others_commit, interleave, alone, id; cbn; rewrite Hrow; cbn;
    rewrite bool_decide_eq_false_2 by done; rewrite !andb_false_r; done.
Qed.

(** ** A concrete login *)

(** Stand-ins for the cryptography: a hash is the password behind a mark, a
    cipher appends its tag, a code is the number of its step. *)
Definition demo_lib : CryptoLibrary := mkCryptoLibrary
  (fun _ password => "argon2:" +:+ password)
  (fun hash password => if String.eqb hash ("argon2:" +:+ password) then Argon2Verified else VerifyMismatchError)
  (fun _ _ data _ => data +:+ "0123456789abcdef")
  (fun _ _ data _ => Some (substring 0 (String.length data - 16) data))
  (fun _ seconds => Some (zfill 6 (pretty (seconds / 30 mod 1000000))))
  (fun _ login_id issuer => issuer +:+ ":" +:+ login_id).

Definition demo_sha (text : string) : string := "#" +:+ text.
Definition demo_file (_ : string) : option string := None.
Definition demo_key : string := urlsafe_b64encode "0123456789abcdef0123456789abcdef".

Definition demo_auth_settings : AuthSettings :=
  mkAuthSettings 30 8 5 5 3 15 "cresta_session" true "https://localhost/, https://cresta" (Some demo_key) None.

Definition demo_payload : string :=
  match encrypt_totp_secret demo_lib "abcdefghijkl" "JBSWY3DPEHPK3PXP" demo_key with
  | inr payload => payload
  | inl _ => EmptyString
  end.

Definition demo_desk : User := mkUser "user-1" "desk" "argon2:correct horse battery" "ACTIVE".

Definition demo_auth_db : DB :=
  set_auth_tables
    (set_users empty_db {[ "user-1" := demo_desk ]})
    (set_totp_credentials empty_auth {[ "user-1" := mkTotpCredential "user-1" demo_payload 1 None true ]}).

Definition demo_tokens (n : nat) : string := "token-" +:+ pretty (Z.of_nat n).
Definition demo_sess : Sess := open_session demo_auth_db 0 demo_tokens.

Definition demo_client (cookies : list (string * string)) (csrf : option string) : AuthRequest :=
  mkAuthRequest "request" (Some "10.0.0.1") (Some "browser") (Some "https://localhost") csrf cookies.

Definition t_login : Z := 3000 * second.
Definition demo_code (t : Z) : string := zfill 6 (pretty (base_step t mod 1000000)).

Definition password_try (password : string) : auth_call := PasswordLogin (demo_client [] None) " Desk " password.
Definition code_try (challenge : string) : auth_call := TotpLogin (demo_client [] None) challenge (demo_code t_login).
Definition logged_in : AuthRequest := demo_client [("cresta_session", "token-1")] (Some "token-2").

Definition demo_serve := serve demo_lib demo_sha demo_file "argon2:dummy" demo_auth_settings.
Definition demo_one := serve_one demo_lib demo_sha demo_file "argon2:dummy" demo_auth_settings.

(** A login, a replay of its code, and a logout with its replay. *)
Definition demo_day : list arrival :=
  [(t_login, password_try "correct horse battery"); (t_login, code_try "token-0");
   (t_login, code_try "token-0"); (t_login + 1, password_try "correct horse battery");
   (t_login + 2, code_try "token-3"); (t_login + 3, CurrentSession logged_in);
   (t_login + 4, Logout logged_in);
   (t_login + 5, Logout (demo_client [("cresta_session", "token-1")] (Some "token-4")));
   (t_login + 6, CurrentSession logged_in)].

Definition kind_of (r : auth_reply + exn) : string :=
  match r with
  | inl (RChallenge _) => "challenge"
  | inl (RLoggedIn _ _) => "logged in"
  | inl (RSession _) => "session"
  | inl (RProof _) => "proof"
  | inl (RLoggedOut _ _) => "logged out"
  | inr AuthenticationError => "refused"
  | inr (CsrfError _) => "csrf"
  | inr _ => "error"
  end.

Example demo_day_replies :
  map kind_of (demo_serve demo_day demo_sess).2
  = ["challenge"; "logged in"; "refused"; "challenge"; "refused"; "session"; "csrf"; "logged out"; "refused"].
Proof. vm_compute. reflexivity. Qed.

Lemma demo_auth_keyed : auth_keyed demo_auth_db.
Proof.
  split.
  - intros h x H. unfold session_at, demo_auth_db in H. cbn in H. by apply lookup_empty_Some in H.
  - intros k u H. unfold demo_auth_db in H. cbn in H. apply lookup_singleton_Some in H as [<- <-]. done.
Qed.

Lemma requests_refine_protocol_witness :
  let '(s', replies) := demo_serve demo_day demo_sess in
  (exists es, protocol demo_lib demo_sha demo_file demo_auth_settings (disk demo_sess) demo_day replies es (disk s')) /\
  auth_only (disk demo_sess) (disk s') /\ length replies = length demo_day.
Proof.
  apply (requests_refine_protocol demo_lib demo_sha demo_file "argon2:dummy" demo_auth_settings demo_day demo_sess).
  exact demo_auth_keyed.
Defined.

Lemma codes_are_used_once_witness :
  exists es,
    protocol demo_lib demo_sha demo_file demo_auth_settings (disk demo_sess) demo_day
      (demo_serve demo_day demo_sess).2 es (disk (demo_serve demo_day demo_sess).1) /\
    StronglySorted Z.lt (accepted_steps "user-1" es) /\
    (forall used, last_step "user-1" (disk demo_sess) = Some (Some used) ->
       Forall (Z.lt used) (accepted_steps "user-1" es)) /\
    Forall (genuine demo_lib demo_file demo_auth_settings (disk demo_sess)) es.
Proof.
  apply (codes_are_used_once demo_lib demo_sha demo_file "argon2:dummy" demo_auth_settings demo_day demo_sess "user-1").
  exact demo_auth_keyed.
Defined.

(** Five guesses within a minute: the last two are refused unchecked. *)
Definition demo_guesses : list arrival :=
  map (fun n => (t_login + seconds n, password_try "password1234567")) [0; 1; 2; 3; 4].

Lemma guesses_are_bounded_witness :
  guesses demo_lib demo_sha demo_file "argon2:dummy" demo_auth_settings "desk" demo_guesses demo_sess = 3 /\
  guesses demo_lib demo_sha demo_file "argon2:dummy" demo_auth_settings "desk" demo_guesses demo_sess
    <= auth_max_failures demo_auth_settings.
Proof.
  split; [vm_compute; reflexivity|].
  apply (guesses_are_bounded demo_lib demo_sha demo_file "argon2:dummy" demo_auth_settings "desk" t_login).
  - vm_compute. discriminate.
  - vm_compute. discriminate.
  - exact demo_auth_keyed.
  - split; vm_compute; [split; [discriminate|reflexivity]|discriminate].
  - repeat constructor; vm_compute; congruence.
  - repeat constructor.
Defined.

Lemma login_needs_both_factors_witness :
  exists j u step, (j < 1)%nat /\ users (disk demo_sess) !! u_id u = Some u /\ "desk" = u_login_id u /\
    password_request demo_lib demo_sha (disk demo_sess) demo_day (demo_serve demo_day demo_sess).2 "token-0" u j /\
    code_of_user demo_lib demo_file demo_auth_settings (disk demo_sess) (u_id u) (demo_code t_login) t_login step.
Proof.
  apply (login_needs_both_factors demo_lib demo_sha demo_file "argon2:dummy" demo_auth_settings demo_day demo_sess 1
    (demo_client [] None) "token-0" (demo_code t_login) t_login
    (mkSessionResponse "request" "desk" (t_login + hours 8) "token-2")
    (SetCookie "cresta_session" "token-1" true 28800)).
  - exact demo_auth_keyed.
  - vm_compute. reflexivity.
  - vm_compute. reflexivity.
  - vm_compute. reflexivity.
Defined.

Definition demo_served : Sess := (demo_serve (firstn 7 demo_day) demo_sess).1.
Definition demo_logout : arrival :=
  (t_login + 5, Logout (demo_client [("cresta_session", "token-1")] (Some "token-4"))).

Lemma finished_tokens_are_refused_witness :
  let s1 := (demo_one demo_logout demo_served).1 in
  let s2 := (demo_serve demo_day s1).1 in
  let '(s3, reply) := demo_one (t_login + 60 * second, CurrentSession logged_in) s2 in
  reply = inr AuthenticationError /\ disk s3 = disk s2.
Proof.
  apply (finished_tokens_are_refused demo_lib demo_sha demo_file "argon2:dummy" demo_auth_settings
    (t_login + 5) (Logout (demo_client [("cresta_session", "token-1")] (Some "token-4"))) demo_served
    (demo_one demo_logout demo_served).1
    (RLoggedOut (mkMessageResponse "request" "LOGGED_OUT") (DeleteCookie "cresta_session"))).
  - apply served_run. exact demo_auth_keyed.
  - vm_compute. reflexivity.
  - vm_compute. reflexivity.
Defined.

(** Two logins at the same time: each reads the credential before the other
    commits, and both accept the same code, as there is no lock on its row. *)
Definition both_started : DB :=
  disk (demo_serve [(t_login, password_try "correct horse battery"); (t_login, password_try "correct horse battery")]
    demo_sess).1.

Definition code_login (challenge : string) (race : DB -> DB) (ids : nat -> string) (db : DB) : Sess * (SessionTokens + exn) :=
  complete_totp_login demo_lib demo_sha demo_file demo_auth_settings challenge (demo_code t_login)
    (mkRequestMeta "10.0.0.1" "browser" "request") None race (open_session db t_login ids).

Definition other_login (db : DB) : DB :=
  disk (code_login "token-1" alone (fun n => "other-" +:+ pretty (Z.of_nat n)) db).1.

Example parallel_logins_share_a_code :
  let '(s, r) := code_login "token-0" other_login (fun n => "this-" +:+ pretty (Z.of_nat n)) both_started in
  (match r with inl tokens => session_token tokens | inr _ => EmptyString end,
   size (sessions (auth_tables (disk s))), last_step "user-1" (disk s))
  = ("this-0", 2%nat, Some (Some (base_step t_login))).
Proof. vm_compute. reflexivity. Qed.

(** Two wrong passwords at the same time count once. *)
Definition wrong_password (race : DB -> DB) (db : DB) : Sess * (string * Z + exn) :=
  begin_password_login demo_lib demo_sha "argon2:dummy" demo_auth_settings "desk" "password1234567"
    (mkRequestMeta "10.0.0.1" "browser" "request") None race (open_session db t_login demo_tokens).

Example parallel_failures_count_once :
  let once := disk (wrong_password alone demo_auth_db).1 in
  let both := disk (wrong_password (fun db => disk (wrong_password alone db).1) once).1 in
  (rl_failure_count <$> rate_at (_subject_hash demo_sha "login" "desk") once,
   rl_failure_count <$> rate_at (_subject_hash demo_sha "login" "desk") both, length (audit_logs both))
  = (Some 1, Some 2, 3%nat).
Proof. vm_compute. reflexivity. Qed.
