(* ===== verification/AdminCommands.v ===== *)
(** * The administrator's commands

    [cli.py]: the creation of the account, the two checks of the broker and the
    status of its worker.  What the administrator types and when, and what the
    broker answers, are inputs; what is printed is part of the result. *)

Set Warnings "-register-all".

From Stdlib Require Import ZArith Lia Ascii String.
From stdpp Require Import base numbers strings list gmap.
From S2P Require Import Prelude Decimal Json PyTime Models Session PyText WorkerState.
From S2P Require Import PyText LlmCatalog Reconciliation KiwoomClient BrokerWorker AuthCrypto Auth AuthProps.

Open Scope Z_scope.

Inductive printed :=
| Out (line : string)
| OutJson (value : json)
| Err (line : string).

(** The exit code and the lines. *)
Definition command_result : Type := Z * list printed.

(** What [getpass] and the clock give [create_admin]. *)
Record AdminPrompts := mkAdminPrompts {
  ap_password : string;
  ap_confirmation : string;
  ap_first_code : string;
  ap_first_at : Z;
  ap_second_code : string;
  ap_second_at : Z
}.

Definition option_text (o : option string) : json := match o with Some s => JStr s | None => JNull end.
Definition option_int (o : option Z) : json := match o with Some n => JInt n | None => JNull end.

(** [_iso] *)
Definition _iso (value : option Z) : json := option_text (iso_datetime <$> value).

Definition gate_name (g : GateStatus) : string :=
  match g with
  | GATE_STARTING => "STARTING" | GATE_RECONCILING => "RECONCILING" | GATE_READY => "READY"
  | GATE_DEGRADED => "DEGRADED" | GATE_HALTED => "HALTED"
  end.

Definition configuration_errors : list string :=
  ["KIWOOM_NOT_CONFIGURED"; "KIWOOM_ACCOUNT_ID_INVALID"; "KIWOOM_ACCOUNT_MISMATCH"].

Definition put_user (u : User) (db : DB) : DB := set_users db (<[u_id u := u]> (users db)).
Definition put_totp (t : TotpCredential) : DB -> DB :=
  upd_auth (fun a => set_totp_credentials a (<[tc_user_id t := t]> (totp_credentials a))).
Definition put_recovery_code (r : RecoveryCode) : DB -> DB :=
  upd_auth (fun a => set_recovery_codes a (<[rc_code_hash r := r]> (recovery_codes a))).
Definition recovery_at (hash : string) (db : DB) : option RecoveryCode := recovery_codes (auth_tables db) !! hash.

Section Commands.
Context (lib : CryptoLibrary) (sha256 : string -> string) (read_text : string -> option string).
Context (settings : AuthSettings).
Context (retryable : exn -> bool).    (** the attribute of an adapter error *)

(** [n] values, one after the other. *)
Fixpoint draws {A} (n : nat) (m : prog A) : prog (list A) :=
  match n with
  | O => mret []
  | S n => x ← m; l ← draws n m; mret (x :: l)
  end.

(** The rows of the new account; [nonce]: twelve random bytes. *)
Definition insert_account (normalized password secret nonce : string) (step : option Z)
  (codes : list string) : prog unit :=
  password_hash ← hash_password lib password;
  id ← uuid7;
  insert_unique (fun db => match user_of_login normalized db with Some u => Some u | None => users db !! id end)
    (put_user (mkUser id normalized password_hash "ACTIVE")) ;;
  key ← of_result (load_totp_encryption_key read_text settings);
  payload ← of_result (encrypt_totp_secret lib nonce secret key);
  modify (put_totp (mkTotpCredential id payload 1 step true)) ;;
  for_each codes (fun code : string =>
    let hash := token_hash sha256 code in
    insert_unique (recovery_at hash) (put_recovery_code (mkRecoveryCode id hash None))) ;;
  commit.

(** Whether the account is new. *)
Definition store_account (normalized password secret nonce : string) (step : option Z) (codes : list string) :
  prog bool :=
  existing ← gets (user_of_login normalized);
  match existing with
  | Some _ => mret false
  | None => insert_account normalized password secret nonce step codes ;; mret true
  end.

(** [secret]: what [pyotp.random_base32] gives. *)
Definition create_admin (login_id secret nonce : string) (typed : AdminPrompts) : prog command_result :=
  let normalized := normalize_login_id login_id in
  let password := ap_password typed in
  if negb (String.eqb password (ap_confirmation typed)) then mret (2, [Err "Passwords do not match"])
  else
    match validate_password normalized password with
    | inl message => mret (2, [Err message])
    | inr _ =>
        let shown : list printed := [Out "Register this one-time TOTP URI in an RFC 6238-compatible authenticator:";
                      Out (totp_uri lib secret normalized)] in
        first_match ← of_result (verify_totp lib secret (ap_first_code typed) None (ap_first_at typed));
        if negb (tm_valid first_match) then mret (2, shown ++ [Err "TOTP verification failed"])
        else
          let shown : list printed := shown ++ [Out "Wait for the next 30-second code before continuing."] in
          second_match ← of_result (verify_totp lib secret (ap_second_code typed) (tm_step first_match)
                                      (ap_second_at typed));
          if negb (tm_valid second_match) then mret (2, shown ++ [Err "Second TOTP verification failed"])
          else
            codes ← draws 10 new_recovery_code;
            created ← in_session (store_account normalized password secret nonce (tm_step second_match) codes);
            if (created : bool) then
              mret (0, shown ++
                [Out "Store these one-time recovery codes offline. They will not be shown again:"] ++ map Out codes)
            else mret (2, shown ++ [Err "Account already exists"])
    end.

(** The object a check prints. *)
Definition report (fields : list (string * json)) : printed :=
  OutJson (JObj ([("schema_version", JStr "1.0"); ("environment", JStr "MOCK")] ++ fields)).

(** [check_kiwoom] *)
Definition check_kiwoom (verified : exn + string) : exn + command_result :=
  match verified with
  | inl e =>
      match adapter_code e with
      | Some code =>
          inr (if bool_decide (code ∈ configuration_errors) then 2 else 3,
               [report [("status", JStr "FAILED"); ("error_code", JStr code); ("retryable", JBool (retryable e))]])
      | None => inl e
      end
  | inr masked_account => inr (0, [report [("status", JStr "ACCOUNT_VERIFIED"); ("account", JStr masked_account)]])
  end.

(** [reconcile_kiwoom], around the run of the reconciliation. *)
Definition reconcile_kiwoom (run : prog ReconciliationResult) : prog command_result :=
  try_except
    (result ← in_session run;
     mret (if rs_critical_mismatch_count result =? 0 then 0 else 4,
       [report [("status", JStr (gate_name (rs_gate_status result))); ("reason", JStr (rs_gate_reason result));
                ("run_id", JStr (rs_run_id result));
                ("snapshot", JObj [("open_orders", JInt (rs_open_order_count result));
                                   ("fills", JInt (rs_fill_count result));
                                   ("positions", JInt (rs_position_count result))]);
                ("mismatch_count", JInt (rs_mismatch_count result));
                ("critical_mismatch_count", JInt (rs_critical_mismatch_count result))]]))
    (fun e => match adapter_code e with
              | Some code => Some (mret (3, [report [("status", JStr "DEGRADED"); ("error_code", JStr code);
                                                     ("retryable", JBool (retryable e))]]))
              | None => None
              end).

Definition kiwoom_worker_status : prog command_result :=
  status ← in_session (get_broker_status None);
  mret (if String.eqb (bs_state status) "READY" && bs_lease_valid status then 0 else 5,
    [OutJson (JObj [
      ("schema_version", JStr "1.0"); ("environment", JStr "MOCK"); ("account_alias", JStr ACCOUNT_ALIAS);
      ("state", JStr (bs_state status)); ("gate_status", option_text (gate_name <$> bs_gate_status status));
      ("gate_reason", option_text (bs_gate_reason status));
      ("fencing_token", option_int (bs_fencing_token status)); ("lease_valid", JBool (bs_lease_valid status));
      ("websocket_connected", JBool (bs_websocket_connected status));
      ("subscriptions_ready", JBool (bs_subscriptions_ready status));
      ("last_heartbeat_at", _iso (bs_last_heartbeat_at status));
      ("last_reconciliation_at", _iso (bs_last_reconciliation_at status));
      ("last_reconciliation_run_id", option_text (bs_last_reconciliation_run_id status));
      ("last_error_code", option_text (bs_last_error_code status))])]).

(** ** The new account *)

Lemma wp_draws {A} n (m : prog A) s :
  (forall s, wp m (fun s' r => disk s' = disk s /\ exists x, r = inl x) s) ->
  wp (draws n m) (fun s' r => disk s' = disk s /\ exists l, r = inl l) s.
Proof.
  intros Hm. revert s. induction n as [|n IH]; intros s; cbn [draws]; [apply wp_ret; eauto|].
  apply wp_bind. eapply wp_mono; [apply Hm|]. intros s1 r (H1 & x & ->). cbn [after].
  apply wp_bind. eapply wp_mono; [apply IH|]. intros s2 r (H2 & l & ->). cbn [after].
  apply wp_ret. split; [congruence|eauto].
Qed.

(** The rows of an account in [d'], made from [d]. *)
Record account_made (name password secret : string) (step : Z) (d d' : DB) : Prop := mkAccountMade {
  am_new : user_of_login name d = None;
  am_rows : exists u t salt,
    users d !! u_id u = None /\ users d' = <[u_id u := u]> (users d) /\
    u_login_id u = name /\ u_status u = "ACTIVE" /\ u_password_hash u = argon2_hash lib salt password /\
    totp_of u d' = Some t /\ tc_verified t = true /\ tc_last_used_step t = Some step /\
    secret_of lib read_text settings t = inr secret
}.

Lemma wp_recovery_codes id codes (P : DB -> Prop) s :
  (forall r d, P d -> P (put_recovery_code r d)) -> P (work s) ->
  wp (for_each codes (fun code : string =>
        let hash := token_hash sha256 code in
        insert_unique (recovery_at hash) (put_recovery_code (mkRecoveryCode id hash None))))
    (fun s' _ => disk s' = disk s /\ P (work s')) s.
Proof.
  intros HP Hs. apply (wp_for_each (fun s' => disk s' = disk s /\ P (work s'))); [|done].
  intros code s1 _ [H1 H2]. apply wp_insert_unique; [done|]. intros _. split; [done|]. by apply HP.
Qed.

Lemma insert_account_made name password secret nonce step codes s :
  aes_laws lib -> String.length nonce = 12%nat -> (1 <= String.length secret)%nat -> is_ascii secret = true ->
  work s = disk s -> user_of_login name (disk s) = None ->
  wp (insert_account name password secret nonce (Some step) codes)
    (fun s' r => match r with
                 | inl _ => account_made name password secret step (disk s) (disk s')
                 | inr _ => disk s' = disk s
                 end) s.
Proof.
  intros Hl Hn Hs Ha Hw Hu. unfold insert_account, hash_password. repeat wp_step.
  set (salt := uuids s (uuid_ix s)). apply wp_insert_unique; [done|]. cbn [work next_uuid]. rewrite Hw, Hu.
  intros Hid. cbn [after].
  apply wp_bind, wp_of_result; [intros key Hkey|done]. cbn [after].
  apply wp_bind, wp_of_result; [intros payload Hp|done]. cbn [after]. repeat wp_step.
  pose proof (totp_secret_roundtrip lib nonce secret key payload Hl Hn Hs Ha Hp) as Hdec.
  set (u := mkUser _ _ _ _) in *. set (t := mkTotpCredential _ _ _ _ _).
  eapply wp_mono; [apply (wp_recovery_codes _ _ (fun d => users d = <[u_id u := u]> (users (disk s)) /\
    totp_of u d = Some t))|].
  - by intros r d [H1 H2].
  - cbn. rewrite Hw. split; [done|]. unfold totp_of. cbn. by rewrite lookup_insert_eq.
  - intros s' [[]|e] (H1 & H2 & H3); cbn [after]; [|done]. repeat wp_step.
    split; [done|]. exists u, t, salt. split_and!; try done. unfold secret_of. by rewrite Hkey.
Qed.

(** The command makes an account only for an acceptable password and two fresh
    codes of the new secret, one after the other; the account can then be logged
    into with that password and the next code.  Otherwise nothing is stored. *)
Theorem create_admin_makes_account login_id secret nonce typed s :
  aes_laws lib -> String.length nonce = 12%nat -> (1 <= String.length secret)%nat -> is_ascii secret = true ->
  let name := normalize_login_id login_id in
  wp (create_admin login_id secret nonce typed)
    (fun s' r => match r with
     | inl (Z0, _) => validate_password name (ap_password typed) = inr tt /\ exists first second,
         code_fits lib secret (ap_first_code typed) None (ap_first_at typed) first /\
         code_fits lib secret (ap_second_code typed) (Some first) (ap_second_at typed) second /\
         account_made name (ap_password typed) secret second (disk s) (disk s')
     | inl (code, _) => code = 2 /\ disk s' = disk s
     | inr _ => disk s' = disk s
     end) s.
Proof.
  intros Hl Hn Hs Ha name. unfold create_admin. fold name.
  destruct (negb _); [by apply wp_ret|]. destruct (validate_password _ _) as [message|[]]; [by apply wp_ret|].
  apply wp_bind, wp_of_result; [intros m1 H1|done]. cbn [after].
  destruct (negb (tm_valid m1)) eqn:V1; [by apply wp_ret|]. apply negb_false_iff in V1.
  destruct (verify_totp_fits _ _ _ _ _ _ H1 V1) as (first & E1 & F1). rewrite E1.
  apply wp_bind, wp_of_result; [intros m2 H2|done]. cbn [after].
  destruct (negb (tm_valid m2)) eqn:V2; [by apply wp_ret|]. apply negb_false_iff in V2.
  destruct (verify_totp_fits _ _ _ _ _ _ H2 V2) as (second & E2 & F2). rewrite E2.
  apply wp_bind. eapply wp_mono.
  { apply wp_draws. intros s1. unfold new_recovery_code. repeat wp_step. split; [done|eauto]. }
  intros s1 r (Hd & codes & ->). cbn [after]. apply wp_bind, wp_in_session.
  unfold store_account. apply wp_bind, wp_gets. cbn [after work rolled_back].
  destruct (user_of_login _ (disk s1)) as [u|] eqn:Hu; [repeat wp_step; (split; [done|exact Hd])|].
  apply wp_bind. eapply wp_mono; [by apply (insert_account_made name (ap_password typed) secret nonce second codes)|].
  intros s2 [[]|e] H; cbn [after]; repeat wp_step; [|cbn in *; congruence].
  split; [done|]. exists first, second. split_and!; [done|done|]. cbn [disk rolled_back] in H |- *. by rewrite Hd in H.
Qed.
End Commands.
